(* ===== verification/_CoqProject ===== *)
-Q . S2P
Prelude.v
Effects.v
Std.v
Externs.v
States.v
Errors.v
JobSpec.v
Kubernetes.v
ProviderApi.v
Job.v
Worker.v
Events.v
Repositories.v
Services.v
CircuitBreaker.v
Retry.v
Commands.v
CommandBus.v
JobCommands.v
ExecutionCommands.v
CancellationCommands.v
ProvisioningCommands.v
CommandOutbox.v
SagaTypes.v
RateLimiter.v
Orchestrator.v
Steps.v
StepProperties.v
SagaBus.v
CommandProperties.v
ExecutionSaga.v
CancellationSaga.v
TimeoutSaga.v
ProvisioningSaga.v
RecoverySaga.v
CleanupSaga.v
SagaDispatch.v
SagaProperties.v
OrchestratorProperties.v
Scoring.v
Scheduler.v
Caches.v
Templates.v
Sql.v
Outbox.v
OutboxTable.v
Tasks.v
Nats.v
NatsRelay.v
RelayProperties.v
SagaEvents.v
SagaStores.v
SagaErrors.v
ProviderConfigs.v
AppServices.v
ProviderRegistry.v
SagaWorlds.v
SagaCoordinators.v
JobStore.v
Dispatcher.v
JobUseCases.v
FailureHandlers.v
WorkerStore.v
WorkerUpkeep.v
WorkerActor.v
Provisioning.v
Wire.v
LogStream.v
WorkerGateway.v
