(* ===== verification/Prelude.v ===== *)
(** * Hodei Jobs: a verification library for the control plane

    Hodei Jobs is a job scheduler: a server accepts jobs, finds or provisions a
    worker for each on one of several providers (Docker, Kubernetes,
    Firecracker), and drives the long operations between the two, such as
    provisioning a worker or executing a job, as sagas, that is sequences of
    steps with compensations.  Its logic is in the crates [shared] and
    [server/domain], which this library models, and in the use cases of
    [server/application] and the repositories and relays of
    [server/infrastructure], of which it models those that decide what becomes of
    a job or a worker; [server/interface] connects that logic to gRPC, and of it
    the gateway of the workers and the logs are modelled.  All paths below are
    under [crates/] (but for the generated messages of [Wire], under [proto/]);
    every definition that models code is preceded by a comment
    [src: file first-last symbol] with the lines it translates.

    ** The files, and the code they model

    - [Prelude]: results, methods on mutable records (a method returns the state
      it leaves also when it fails, as a method on [&mut self] does), record
      update, machine integers with their wrap-around, hints and tactics.
    - [Effects]: early exits of asynchronous code ([exn]: an error, a panic, or
      the end of the fuel), [finally] for values dropped at the end of a scope,
      loops ([flow]), and a weakest-precondition calculus with an invariant
      combinator for code written in them.
    - [Std]: what the sources use of Rust's standard library (strings, binary64
      numbers, durations, stable sorting).  [Externs]: what comes from other
      crates (uuid, chrono, serde_json, the Unicode tables, the iteration order
      of a [HashMap]) as classes, their documented laws, and a concrete instance
      that shows the laws can hold.
    - [States] ([shared/src/states.rs]): the four state machines, their textual
      and numeric encodings, results and failure reasons.
    - [Errors] ([domain/src/shared_kernel.rs], [shared_kernel/error_values], the
      errors of [saga/types.rs] and [saga/orchestrator.rs]).
    - [JobSpec] ([domain/src/jobs/aggregate.rs], first half): specifications,
      validation, substitution of parameters, priority scores.
    - [Kubernetes], [ProviderApi] ([domain/src/workers/aggregate.rs] and
      [provider_api.rs]): the provider configurations and state mappers.
    - [Job] (same file as [JobSpec], second half): the [Job] aggregate and the
      [JobStatusTracker]; [Worker] ([workers/aggregate.rs], [health.rs],
      [registry.rs]): the [Worker] aggregate, its limits and its health.
    - [Events] ([domain/src/events.rs]): the domain events and their accessors.
    - [Repositories] ([infrastructure/src/persistence/postgres/in_memory.rs]):
      the in-memory job repository, job queue and worker registry.  [Services]
      ([workers/registry.rs], [workers/provisioning.rs]): the traits the commands
      and the sagas call, and a memory that implements two of them.
    - [CircuitBreaker], [Retry] ([saga/circuit_breaker.rs],
      [saga/retry_policy.rs]).
    - [Commands], [CommandBus] ([command/mod.rs], [error.rs], [bus.rs],
      [erased.rs], [registry.rs], [handler.rs], [idempotency.rs],
      [middleware/mod.rs]): commands as a universe of types ([CommandTypes]), the
      two buses and the layers around them.  [CommandOutbox]
      ([command/outbox.rs]): the bus that writes to an outbox, and its relay.
    - [JobCommands] ([command/jobs.rs]), [ExecutionCommands],
      [CancellationCommands], [ProvisioningCommands] ([saga/commands]): the
      commands with their handlers.  [SagaBus]: these commands as an instance of
      the universe, their handlers on the bus, and the registrations of
      [application/src/command].  [CommandProperties]: what the handlers do to
      jobs and workers, as a step relation.
    - [SagaTypes] ([saga/types.rs], [repository.rs], [timeout_config.rs],
      [audit_trail.rs]); [RateLimiter] and [Orchestrator]
      ([saga/orchestrator.rs]); [OrchestratorProperties] holds the theorems
      about the orchestrator, with the vocabulary they are stated in.
    - [Steps] ([saga/types.rs], [event_bus.rs]): the services in a saga's context
      and the code of a step; [StepProperties]: the rules to reason about it.
      [ExecutionSaga], [CancellationSaga], [TimeoutSaga], [ProvisioningSaga],
      [RecoverySaga], [CleanupSaga] ([saga/*.rs] of the same names): every step
      of every saga.  [SagaDispatch]: [execute] of [saga/orchestrator.rs], which
      builds a saga from its context.  [SagaProperties]: the sagas as a whole.
    - [Templates] ([jobs/templates.rs]): templates and their runs, executions,
      scheduled jobs, and the validation of parameters.
    - [Scoring], [Scheduler], [Caches] ([scheduling/scoring.rs],
      [strategies.rs], [value_objects.rs], [mod.rs], [ttl_cache.rs]).

    - [SagaEvents] ([saga/event_sourcing.rs]), [SagaStores]
      ([saga/cached_repository.rs], [stuck_detector.rs], the engine's
      configuration), [SagaErrors] ([saga/errors.rs] and the errors of the
      services): the event log of a saga, the cache in front of its repository,
      the detector of stuck sagas.
    - [Sql]: tables, statements and transactions, with the ways they fail.
      [JobStore] ([infrastructure/src/persistence/postgres/job_repository.rs],
      [job_repository_tx.rs], [job_queue.rs]): jobs and their queue in
      PostgreSQL.  [ProviderConfigs] ([domain/src/providers/config.rs],
      [postgres/provider_config_repository.rs], [in_memory.rs]): the
      configurations of providers and their repositories.
    - [AppServices] ([application/src/workers/provisioning.rs] and the traits of
      the domain the application calls): the interfaces of the application
      layer.  [ProviderRegistry] ([application/src/providers/],
      [jobs/resource_allocator.rs]): selection of providers and their metrics.
      [SagaCoordinators] ([application/src/saga/dispatcher_saga.rs],
      [provisioning_saga.rs], [recovery_saga.rs]): who runs a saga and reads its
      result; [SagaWorlds] holds what a run of a saga keeps true of its world.
      [Dispatcher] ([application/src/jobs/dispatcher.rs]): the dispatcher of jobs.
    - [JobUseCases] ([application/src/jobs/create.rs], [cancel.rs],
      [complete_job.rs], [fail_job.rs], [queries.rs], [queue_job_tx.rs]): what a
      request on a job does.  [FailureHandlers] ([jobs/event_subscriber.rs],
      [dispatch_failure_handler.rs], [job_completion_handler.rs],
      [scheduling/failure_handler.rs], [workers/provisioning_failure_handler.rs]):
      the reactions to events.
    - [WorkerStore] ([postgres/worker_registry.rs], [worker_registry_tx.rs]):
      workers in PostgreSQL.  [WorkerUpkeep] ([application/src/workers/reconciler.rs],
      [garbage_collector.rs], [lifecycle.rs]): who looks after them.
      [WorkerActor] ([workers/actor.rs]): the supervisor of the connected workers,
      its inbox and its channels as a transition system.  [Provisioning]
      ([workers/provisioning_impl.rs], [pulse.rs], [termination.rs],
      [lifecycle_facade.rs], [reconciliation.rs], [auto_scaling.rs],
      [domain/src/iam/tokens.rs], [workers/auto_scaling.rs],
      [postgres/worker_bootstrap_token_store.rs]): tokens, the creation of
      workers and how many there are to be.
    - [Wire] ([proto/src/generated/hodei.rs]): the messages of the gateway.
      [LogStream] ([interface/src/grpc/log_stream.rs], [log_ingestor.rs],
      [interface/src/log_persistence.rs]): the logs of the jobs and their
      followers, as tasks that wait for channels and for the shards of the maps.  [WorkerGateway] ([grpc/worker.rs], [heartbeat_processor.rs],
      [worker_command_sender.rs], [application/src/command/execution/job_executor.rs],
      [workers/commands.rs]): registration and streams of the workers, and the
      messages to them.
    - [Outbox] ([domain/src/outbox/]): the events of the outbox and their dead
      letters, the writer and the poller over the repositories as interfaces.
      [OutboxTable] ([infrastructure/src/persistence/outbox/]): the repository in
      PostgreSQL, as functions on the rows of its table.
    - [Tasks]: asynchronous code whose steps interleave, pools of tasks, and
      rules to reason about them.  [Nats] ([shared/src/event_topics.rs],
      [infrastructure/src/messaging/nats.rs]): the event bus.  [NatsRelay]
      ([messaging/nats_outbox_relay.rs]): the relay from the outbox to the bus;
      [RelayProperties] holds its theorems.

    A Rust type is a [Module] with its record or inductive type [t] and one
    definition per function.  A [HashMap] is a [gmap], with its iteration order
    from [MapOrder]; a reading of a clock, a fresh identifier and a random
    number are arguments, or calls of [SagaRuntime] in the orchestrator and of
    [Ambient] in the application; an
    atomic is a field, sequentially consistent as the code asks; a method under
    a lock is one step.  The release profile does not check overflow, so
    arithmetic wraps; a panic is a value ([None], [Panicked]).

    ** How the parts interact

    The orchestrator is proved against interfaces: [SagaRuntime] (repository,
    transactions, clocks) and the record [SagaStep.t] of a step's operations.
    It uses the rate limiter, the retry policy for compensations, the timeouts,
    the saga's context and the audit trail of the other files.  The concrete
    sagas are lists of such steps; a step reaches the world through the services
    of its context ([Services.t], over [StepWorld]) and mostly sends a command
    to the bus.  The bus is generic in the commands and finds a handler by the
    type of the command; the handlers of the sagas' commands call a repository
    of jobs, a registry of workers and a provisioning service, the classes
    [JobRepository], [WorkerRegistry] and [WorkerProvisioning], which the memory
    of [Services] implements with [Repositories], and the first of them
    [JobStore] on tables.  The dispatcher takes jobs from the interface
    [JobQueue], asks the scheduler with what the provider registry offers, and
    runs sagas through functions of the type of the coordinators' methods, which
    run the orchestrator.  The
    gateway of the workers uses the registry, the jobs, the tokens, the supervisor
    and the logs, each behind its interface; its events reach the dispatcher and
    the handlers of failures over the bus.  The supervisor owns no database.  The
    use cases and the handlers of failures work on the interfaces of jobs, workers
    and outbox, and are put on the tables where a theorem is about these.  The relay
    of the outbox is generic in the repository ([OutboxRepository]) and in the
    message broker ([JetStream]); its theorems are about the PostgreSQL table
    and any broker with [JetStreamLaws].  The scheduler
    uses jobs, workers, scores and preferences; the repositories store jobs and
    workers and use the workers' own methods; the job tracker is proved against
    the interface [JobRepository].

    ** What the theorems show

    - The orchestrator: a failed saga whose compensations complete restores the
      application state, for steps that keep their contract; every run ends, and its audit
      trail tells exactly what ran and what was compensated, in which order;
      nothing is held after a run, whatever its end; a saga in a working
      environment completes.
    - The sagas: a step that has finished does nothing when it is executed again on
      the context it left; a timeout succeeds whatever
      its commands are answered, a cancellation cannot without a handler that
      start-up does not register; which saga a context stands for.
    - The commands: whatever commands are sent, through whatever handlers, each job
      and each worker of the repositories in memory follows its state machine and a
      finished job stays as it is; the table of jobs in PostgreSQL asks no state
      machine; the bus is type safe;
      commands that ask for what the state machines forbid; a job that was
      executed leaves its worker busy; the outbox never replays a command; the
      retry layer ends.
    - Jobs and workers: every method is a step of the lifecycle or changes
      nothing; the records stay consistent; attempts are counted; a worker runs
      at most one job and changes state at most three times; a job succeeds only
      through [Running]; expiry, health and limits are the comparisons they
      should be.
    - The circuit breaker refines an abstract breaker over the history of its
      calls, and opens, fails fast and probes as it should; the retry loop ends
      and counts; the rate limiter's bounds, and how it stops limiting.
    - The scheduler decides soundly and completely, selectors pick the best
      score, caches serve what was written.
    - The outbox: its table keeps its constraints, insertion is idempotent by
      key, events come oldest first and get one attempt of the poller; the relay
      marks only what the broker acknowledged, its batches end in every
      interleaving, and events it cannot decode stop it for good; which
      subscriptions of the bus are refused.
    - The queue in memory is first in, first out; the registry offers free
      workers only.  The queue in PostgreSQL holds every pending job, but a job
      that is dequeued from it is not assigned to any worker; a saved job is
      found but for its template.
    - The dispatcher: a cycle that ends well dispatched its job or put it back;
      its cooldown, and when that is dropped; a worker that is ready is refused
      its job; a provisioning is answered with an error also when the worker
      was created.
    - Providers: the best one is chosen; what the table keeps of a configuration
      and what it loses, and so which jobs never find a provider.
    - The use cases: to queue a job is to write the job and its event or
      nothing; a job executed at once is saved as failed; what becomes of the
      events the handlers of failures write.
    - Workers: the rows of the registry stay readable, and what a saved worker is
      read as; what the garbage collector and the reconciler miss or take too
      much; the supervisor keeps its promises, and how one full channel stops it;
      a token lets its worker in, once; the compensation of a creation leaves the
      container; scaling stays within its limits.
    - The gateway: the jobs of the sagas never reach a worker; a worker that
      reconnects is lost; a success of a job that is not running is refused;
      waiting for a worker ends.  The logs: what is read is the end of what was
      written as long as only lines wait; a long log cannot be followed, and nobody
      can write to it once somebody tries.
    - The event log of a saga refuses the end of every step it has the start of,
      its replay is incremental; the cache in front of the saga repository is
      transparent to callers that take turns; stuck sagas are reported.
    - Specifications: validation accepts exactly the valid ones, substitution
      renders templates, parameters are applied where they should be.  A run of
      a template names the version, and so the specification, it was made with;
      a parameter's validation accepts exactly what fits its type.
    - Encodings: the state enums' texts and numbers round trip; where a round
      trip loses something (provider types, state mappers) the theorem says what.
    - Several theorems state where the code surprises: presets that panic, a
      jitter beyond the maximum, preferences without effect, a tracker that
      bypasses the state machine, a schedule that is never paused, a cache
      without a bound.

    ** Bounds and fuel

    Fuel is used by six loops and always proved enough: the retry loop
    ([Retry]), the retry layer of the bus ([CommandBus]) and the loop over the
    attempts of a compensation ([Orchestrator]) get one round per attempt and one
    more; the retries of the relay ([NatsRelay]) one per allowed retry; the wait for a
    worker ([WorkerGateway]) one per pause that fits into its five seconds; the text
    passes of [JobSpec] get the length of the text.  All other
    recursion is structural.  Hypotheses bound counters by their width where a
    claim would otherwise fail by wrapping.

    ** Not modelled

    Left aside for now: the monitor of job timeouts and the two coordinators of
    jobs ([application/src/jobs/timeout_monitor.rs], [orchestrator.rs],
    [coordinator.rs]), the second circuit breaker, the repository of sagas in
    PostgreSQL, the deduplication of events, the service of job executions in
    [interface/src/grpc/job_execution.rs], the logging buffers, credentials.
    These are further users of the parts that are modelled.  The relay of
    [messaging/outbox_relay], the listeners of PostgreSQL notifications and the
    consumers of NATS are other ways to run relays and sagas that are modelled.
    The migrations of the database, generated clients and servers, the clients of
    the providers, the worker agent's processes, metrics and log lines are input
    and output without logic of their own. *)

From stdpp Require Export base tactics option list numbers gmap strings pretty.
From Stdlib Require Export Ascii ZArith Lia.

#[export] Set Default Goal Selector "!".
Open Scope Z_scope.

(** ** Notation scope, hint databases *)

Declare Scope rust_scope.
Delimit Scope rust_scope with rust.
Open Scope rust_scope.

Create HintDb rust discriminated.
Create Rewrite HintDb rust_simpl.

(** ** [Result<T, E>]

    The error type comes first, so that [result E] is the monad of fallible
    code; [x ← e; k] (stdpp's notation) is then Rust's [let x = e?; k]. *)

Inductive result (E T : Type) : Type :=
  | Ok (v : T)
  | Err (e : E).
Arguments Ok {E T} v.
Arguments Err {E T} e.

#[global] Instance result_ret {E} : MRet (result E) := fun _ v => Ok v.
#[global] Instance result_bind {E} : MBind (result E) :=
  fun _ _ k r => match r with Ok v => k v | Err e => Err e end.
#[global] Instance result_fmap {E} : FMap (result E) :=
  fun _ _ f r => match r with Ok v => Ok (f v) | Err e => Err e end.
#[global] Instance result_eq_dec {E T} `{EqDecision E, EqDecision T} :
  EqDecision (result E T).
Proof. solve_decision. Defined.

(** [Result::map_err]. *)
Definition map_err {E F T} (f : E -> F) (r : result E T) : result F T :=
  match r with Ok v => Ok v | Err e => Err (f e) end.

(** [Option::ok_or_else]. *)
Definition ok_or {E T} (o : option T) (e : E) : result E T :=
  match o with Some v => Ok v | None => Err e end.

Definition is_ok {E T} (r : result E T) : bool :=
  match r with Ok _ => true | Err _ => false end.

Definition is_err {E T} (r : result E T) : bool := negb (is_ok r).

(** ** Methods that take [&mut self]

    [method S E A] is a method on a value of type [S] that may return early
    with an error.  The state is returned in both cases: what a method wrote
    before an early return stays written, as in Rust. *)

Definition method (S E A : Type) : Type := S -> S * result E A.

#[global] Instance method_ret {S E} : MRet (method S E) :=
  fun _ a s => (s, Ok a).
#[global] Instance method_bind {S E} : MBind (method S E) :=
  fun _ _ k m s =>
    match m s with
    | (s', Ok a) => k a s'
    | (s', Err e) => (s', Err e)
    end.

Definition self {S E} : method S E S := fun s => (s, Ok s).
Definition modify {S E} (f : S -> S) : method S E unit := fun s => (f s, Ok tt).
Definition throw {S E A} (e : E) : method S E A := fun s => (s, Err e).
Definition lift {S E A} (r : result E A) : method S E A := fun s => (s, r).

(** [if !guard { return Err(e) }]. *)
Definition ensure {S E} (guard : bool) (e : E) : method S E unit :=
  if guard then mret tt else throw e.

(** ** Record update

    [r <| f := v |>] is [r] with the field [f] replaced, Rust's [r.f = v].
    A record type declares how it is rebuilt from its fields ([Rebuild]); the
    setter of a field is then found by instance search. *)

Class Rebuild (R : Type) := rebuild : R -> R.
Class Setter {R T : Type} (proj : R -> T) := { set : (T -> T) -> R -> R }.
Arguments set {R T} proj {_} _ _.

Ltac derive_setter :=
  match goal with
  | |- @Setter ?R ?T ?proj =>
      let inst := constr:(_ : Rebuild R) in
      let f := fresh in let r := fresh in constructor; intros f r;
      let b := eval hnf in (@rebuild R inst r) in
      let b := eval pattern (proj r) in b in
      match b with ?g _ => exact (g (f (proj r))) end
  end.

#[export] Hint Extern 0 (Setter _) => derive_setter : typeclass_instances.

#[warnings="-postfix-notation-not-level-1"]
Notation "r <| f := v |>" := (set f (fun _ => v) r)
  (at level 12, left associativity, f at next level) : rust_scope.

(** The statement [self.f = v]. *)
Definition assign {S T E} (proj : S -> T) `{!Setter proj} (v : T) : method S E unit :=
  modify (set proj (fun _ => v)).

(** The state a method leaves and what it returns. *)
Definition after {S E A} (m : method S E A) (s : S) : S := fst (m s).
Definition returns {S E A} (m : method S E A) (s : S) : result E A := snd (m s).

(** A method is fail-safe when an error leaves the value as it was. *)
Definition failsafe {S E A} (m : method S E A) : Prop :=
  forall s s' e, m s = (s', Err e) -> s' = s.

(** ** Machine integers

    Values are [Z]; an operation that Rust lets wrap (the release profile of
    the workspace does not enable overflow checks) reduces modulo [2 ^ w]. *)

Definition wrap (w z : Z) : Z := z mod 2 ^ w.
Definition u32 (z : Z) : Prop := 0 <= z < 2 ^ 32.
Definition u64 (z : Z) : Prop := 0 <= z < 2 ^ 64.
Definition u32_max : Z := 2 ^ 32 - 1.
Definition u64_max : Z := 2 ^ 64 - 1.
Definition i32_min : Z := - 2 ^ 31.
Definition i32_max : Z := 2 ^ 31 - 1.
Definition i64_max : Z := 2 ^ 63 - 1.
Definition i64_min : Z := - 2 ^ 63.

Definition u32_add (a b : Z) : Z := wrap 32 (a + b).
Definition u64_add (a b : Z) : Z := wrap 64 (a + b).
Definition u64_sub (a b : Z) : Z := wrap 64 (a - b).
(** [x as u64] for a signed [x]. *)
Definition as_u64 (z : Z) : Z := wrap 64 z.
Definition as_u32 (z : Z) : Z := wrap 32 z.
(** [x as i64] (two's complement). *)
Definition as_i64 (z : Z) : Z := (z + 2 ^ 63) mod 2 ^ 64 - 2 ^ 63.
(** [x as i32]. *)
Definition as_i32 (z : Z) : Z := (z + 2 ^ 31) mod 2 ^ 32 - 2 ^ 31.
Definition u32_saturating_add (a b : Z) : Z := Z.min u32_max (a + b).
Definition saturating_sub (a b : Z) : Z := Z.max 0 (a - b).

(** Decimal printing of an integer, as [format!("{}", n)]. *)
Definition show_Z (n : Z) : string := pretty n.

(** ** Generic lemmas *)

Lemma wrap_small w z : 0 <= z < 2 ^ w -> wrap w z = z.
Proof. apply Z.mod_small. Qed.

Lemma wrap_range w z : 0 <= w -> 0 <= wrap w z < 2 ^ w.
Proof. intros Hw. apply Z.mod_pos_bound. by apply Z.pow_pos_nonneg. Qed.

Lemma u32_add_small a b : u32 (a + b) -> u32_add a b = a + b.
Proof. apply wrap_small. Qed.

Lemma u32_add_range a b : u32 (u32_add a b).
Proof. by apply wrap_range. Qed.

Lemma u64_add_small a b : u64 (a + b) -> u64_add a b = a + b.
Proof. apply wrap_small. Qed.

Lemma u64_add_range a b : u64 (u64_add a b).
Proof. by apply wrap_range. Qed.

Lemma result_bind_ok {E A B} (k : A -> result E B) v : (x ← Ok v; k x) = k v.
Proof. reflexivity. Qed.

Lemma result_bind_err {E A B} (k : A -> result E B) e :
  (x ← Err e; k x) = Err e.
Proof. reflexivity. Qed.

Lemma result_bind_inv {E A B} (r : result E A) (k : A -> result E B) b :
  (x ← r; k x) = Ok b -> exists a, r = Ok a /\ k a = Ok b.
Proof. destruct r; [by eauto | discriminate]. Qed.

#[export] Hint Rewrite @result_bind_ok @result_bind_err : rust_simpl.
#[export] Hint Resolve wrap_range u32_add_range u64_add_range : rust.

(** Fail-safety is compositional when what precedes the failing part only
    reads; these are the shapes the aggregates use. *)
Lemma failsafe_throw {S E A} (e : E) : failsafe (throw e : method S E A).
Proof. by intros s s' e' [=]. Qed.

Lemma failsafe_ret {S E A} (a : A) : failsafe (mret a : method S E A).
Proof. by intros s s' e' [=]. Qed.

Lemma failsafe_modify {S E} (f : S -> S) : failsafe (modify f : method S E unit).
Proof. by intros s s' e' [=]. Qed.

Lemma failsafe_self_bind {S E A} (k : S -> method S E A) :
  (forall s, failsafe (k s)) -> failsafe (s ← self; k s).
Proof. intros Hk s s' e He. exact (Hk s s s' e He). Qed.

Lemma failsafe_ensure_bind {S E A} g (e : E) (k : unit -> method S E A) :
  failsafe (k tt) -> failsafe (u ← ensure g e; k u).
Proof.
  intros Hk s s' e' He. destruct g.
  - exact (Hk s s' e' He).
  - cbv in He. by inversion He.
Qed.

Lemma failsafe_modify_last {S E A} (f : S -> S) (a : A) :
  failsafe (_ ← modify f; mret a : method S E A).
Proof. by intros s s' e' [=]. Qed.

(** A method that never returns an error. *)
Definition infallible {S E A} (m : method S E A) : Prop :=
  forall s, exists a, returns m s = Ok a.

Lemma infallible_failsafe {S E A} (m : method S E A) : infallible m -> failsafe m.
Proof.
  intros Hm s s' e He. destruct (Hm s) as [a Ha].
  unfold returns in Ha. by rewrite He in Ha.
Qed.

Lemma infallible_ret {S E A} (a : A) : infallible (mret a : method S E A).
Proof. intros s. by exists a. Qed.

Lemma infallible_self {S E} : infallible (self : method S E S).
Proof. intros s. by exists s. Qed.

Lemma infallible_modify {S E} (f : S -> S) : infallible (modify f : method S E unit).
Proof. intros s. by exists tt. Qed.

Lemma infallible_assign {S T E} (proj : S -> T) `{!Setter proj} v :
  infallible (assign proj v : method S E unit).
Proof. apply infallible_modify. Qed.

Lemma infallible_bind {S E A B} (m : method S E A) (k : A -> method S E B) :
  infallible m -> (forall a, infallible (k a)) -> infallible (x ← m; k x).
Proof.
  intros Hm Hk s. destruct (Hm s) as [a Ha].
  unfold returns, mbind, method_bind in *.
  destruct (m s) as [s' r]; simpl in *; subst. apply Hk.
Qed.

#[export] Hint Resolve infallible_ret infallible_self infallible_modify
  infallible_assign infallible_bind : rust.
#[export] Hint Resolve infallible_failsafe | 2 : rust.
#[export] Hint Resolve failsafe_throw failsafe_ret failsafe_modify
  failsafe_self_bind failsafe_ensure_bind failsafe_modify_last : rust.

(** ** Automation *)

(** Case analysis on the scrutinee of every [match] and [if] in sight. *)
Ltac case_all :=
  repeat match goal with
    | |- context [match ?x with _ => _ end] => destruct x eqn:?
    | H : context [match ?x with _ => _ end] |- _ => destruct x eqn:?
    end.

(** Close a goal by computation after splitting all finite data. *)
Ltac by_cases :=
  intros; repeat match goal with
    | x : _ |- _ => destruct x; try done
    end.

(** Unfold the method combinators on a goal or hypothesis. *)
Ltac run_method :=
  unfold returns, after, mbind, method_bind, ensure, self, assign, modify, throw, lift,
    mret, method_ret in *; simpl in *.

(** Split an equation between a [result] and a constructor. *)
Ltac inv_result :=
  repeat match goal with
    | H : Ok _ = Ok _ |- _ => injection H as H
    | H : Err _ = Err _ |- _ => injection H as H
    | H : Ok _ = Err _ |- _ => discriminate H
    | H : Err _ = Ok _ |- _ => discriminate H
    | H : (_, _) = (_, _) |- _ => injection H as ? H
    end; subst.
