(* ===== verification/Effects.v ===== *)
(** * Effectful code: panics, scopes, weakest preconditions

    A method of [Prelude] whose error type is [exn E] may return the error [E]
    of the source, panic, or wait forever for a lock its own task holds.  [finally] is the end of the scope of a value with
    a [Drop] implementation, which is also reached by an early return and by a
    panic.  [wp m Q s] says that [Q] holds of the result and the final state of
    [m] run in [s]; its rules follow the combinators, and [wp_auto] applies
    them. *)

From S2P Require Import Prelude.

Inductive exn (E : Type) : Type :=
  | Error (e : E)
  | Panicked
  | Blocked
  | OutOfFuel.
Arguments Error {E} e.
Arguments Panicked {E}.
Arguments Blocked {E}.
Arguments OutOfFuel {E}.

(** How the body of a loop ends: on to the next round with [c], or out of the
    function with [r]. *)
Inductive flow (C R : Type) : Type :=
  | Continue (c : C)
  | Return (r : R).
Arguments Continue {C R} c.
Arguments Return {C R} r.

Section combinators.
Context {S : Type}.

(** The [Result] of a fallible call, as a value; a panic goes on. *)
Definition catch {E F A} (m : method S (exn E) A) : method S (exn F) (result E A) :=
  fun s =>
    match m s with
    | (s', Ok a) => (s', Ok (Ok a))
    | (s', Err (Error e)) => (s', Ok (Err e))
    | (s', Err Panicked) => (s', Err Panicked)
    | (s', Err Blocked) => (s', Err Blocked)
    | (s', Err OutOfFuel) => (s', Err OutOfFuel)
    end.

(** The scope of a value that [drop]s. *)
Definition finally {E A} (m : method S E A) (drop : S -> S) : method S E A :=
  fun s => let (s', r) := m s in (drop s', r).

(** A call whose error is replaced. *)
Definition mapping_error {E F A} (m : method S E A) (f : E -> F) : method S F A :=
  fun s => let (s', r) := m s in (s', map_err f r).

(** [r.map_err(f)?]. *)
Definition or_error {E F A} (f : E -> F) (r : result E A) : method S (exn F) A :=
  lift (map_err (fun e => Error (f e)) r).

(** ** Weakest preconditions *)

Definition wp {E A} (m : method S E A) (Q : result E A -> S -> Prop) (s : S) : Prop :=
  let (s', r) := m s in Q r s'.

Lemma wp_run {E A} (m : method S E A) Q s : wp m Q s <-> Q (returns m s) (after m s).
Proof. unfold wp, returns, after. by destruct (m s). Qed.

Lemma wp_ret {E A} (a : A) (Q : result E A -> S -> Prop) s : Q (Ok a) s -> wp (mret a) Q s.
Proof. done. Qed.

Lemma wp_throw {E A} (e : E) (Q : result E A -> S -> Prop) s : Q (Err e) s -> wp (throw e) Q s.
Proof. done. Qed.

Lemma wp_self {E} (Q : result E S -> S -> Prop) s : Q (Ok s) s -> wp self Q s.
Proof. done. Qed.

Lemma wp_modify {E} f (Q : result E unit -> S -> Prop) s : Q (Ok tt) (f s) -> wp (modify f) Q s.
Proof. done. Qed.

Lemma wp_lift {E A} (x : result E A) Q s : Q x s -> wp (lift x) Q s.
Proof. done. Qed.

Lemma wp_bind {E A B} (m : method S E A) (k : A -> method S E B) Q s :
  wp m (fun r s' => match r with Ok a => wp (k a) Q s' | Err e => Q (Err e) s' end) s ->
  wp (x ← m; k x) Q s.
Proof. unfold wp, mbind, method_bind. by destruct (m s) as [s' []]. Qed.

Lemma wp_mono {E A} (m : method S E A) (P Q : result E A -> S -> Prop) s :
  wp m P s -> (forall r s', P r s' -> Q r s') -> wp m Q s.
Proof. unfold wp. destruct (m s). auto. Qed.

Lemma wp_catch {E F A} (m : method S (exn E) A) (Q : result (exn F) (result E A) -> S -> Prop) s :
  wp m (fun r s' => Q match r with
                      | Ok a => Ok (Ok a)
                      | Err (Error e) => Ok (Err e)
                      | Err Panicked => Err Panicked
                      | Err Blocked => Err Blocked
                      | Err OutOfFuel => Err OutOfFuel
                      end s') s ->
  wp (catch m) Q s.
Proof. unfold wp, catch. by destruct (m s) as [s' [|[]]]. Qed.

Lemma wp_finally {E A} (m : method S E A) drop Q s :
  wp m (fun r s' => Q r (drop s')) s -> wp (finally m drop) Q s.
Proof. unfold wp, finally. by destruct (m s). Qed.

Lemma wp_or_error {E F A} (f : E -> F) (x : result E A) Q s :
  (forall a, x = Ok a -> Q (Ok a) s) -> (forall e, x = Err e -> Q (Err (Error (f e))) s) ->
  wp (or_error f x) Q s.
Proof. unfold wp, or_error, lift. destruct x; simpl; eauto. Qed.

Lemma wp_ensure {E} (g : bool) (e : E) Q s :
  (g = true -> Q (Ok tt) s) -> (g = false -> Q (Err e) s) -> wp (ensure g e) Q s.
Proof. unfold wp, ensure. destruct g; simpl; auto. Qed.

(** ** Preserved quantities

    [preserves I f m]: from a state where [I] holds, whatever [m] does and
    however it ends, [I] holds again and [f] of the state is what it was. *)

Definition preserves {X E A} (I : S -> Prop) (f : S -> X) (m : method S E A) : Prop :=
  forall s, I s -> I (after m s) /\ f (after m s) = f s.

Section preserves.
Context {X : Type} (I : S -> Prop) (f : S -> X).

Lemma preserves_pure {E A} (m : method S E A) : (forall s, after m s = s) -> preserves I f m.
Proof. intros Hm s Hs. by rewrite Hm. Qed.

Lemma preserves_ret {E A} (a : A) : preserves I f (mret a : method S E A).
Proof. by apply preserves_pure. Qed.

Lemma preserves_throw {E A} (e : E) : preserves I f (throw e : method S E A).
Proof. by apply preserves_pure. Qed.

Lemma preserves_self {E} : preserves I f (self : method S E S).
Proof. by apply preserves_pure. Qed.

Lemma preserves_or_error {E F A} (g : E -> F) (r : result E A) : preserves I f (or_error g r).
Proof. by apply preserves_pure. Qed.

Lemma preserves_modify {E} g :
  (forall s, I s -> I (g s) /\ f (g s) = f s) -> preserves I f (modify g : method S E unit).
Proof. intros Hg s. apply Hg. Qed.

Lemma preserves_bind {E A B} (m : method S E A) (k : A -> method S E B) :
  preserves I f m -> (forall a, preserves I f (k a)) -> preserves I f (x ← m; k x).
Proof.
  unfold preserves, after. intros Hm Hk s Hs. destruct (Hm s Hs) as [HI Hf].
  unfold mbind, method_bind. destruct (m s) as [s' [a|e]]; simpl in *; [|done].
  destruct (Hk a s' HI) as [HI' Hf']. split; [done|congruence].
Qed.

Lemma preserves_catch {E F A} (m : method S (exn E) A) :
  preserves I f m -> preserves I f (catch m : method S (exn F) (result E A)).
Proof.
  unfold preserves, after, catch. intros Hm s Hs. specialize (Hm s Hs).
  by destruct (m s) as [s' [a|[]]].
Qed.

(** A scope that is entered with [enter] and left with [drop]. *)
Lemma preserves_finally {E A} (m : method S E A) enter drop :
  preserves I f m ->
  (forall s, I s -> I (enter s)) -> (forall s, I s -> I (drop s)) ->
  (forall s s', I s -> f s' = f (enter s) -> f (drop s') = f s) ->
  preserves I f (_ ← modify enter; finally m drop).
Proof.
  unfold preserves, after, finally. intros Hm He Hd Hf s Hs.
  destruct (Hm (enter s) (He s Hs)) as [HI Hm']. unfold mbind, method_bind, modify.
  destruct (m (enter s)) as [s' r]. simpl in *. split; [by apply Hd|by apply Hf].
Qed.

End preserves.
End combinators.

(** Go through a method by the rules above, one combinator at a time; a method
    that is not a combinator is left to its own lemma. *)
Ltac wp_step :=
  match goal with
  | |- wp (mret _) _ _ => apply wp_ret
  | |- wp (throw _) _ _ => apply wp_throw
  | |- wp self _ _ => apply wp_self
  | |- wp (modify _) _ _ => apply wp_modify
  | |- wp (lift _) _ _ => apply wp_lift
  | |- wp (mbind _ _) _ _ => apply wp_bind
  | |- wp (catch _) _ _ => apply wp_catch
  | |- wp (finally _ _) _ _ => apply wp_finally
  | |- wp (or_error _ _) _ _ => apply wp_or_error; intros ? ?
  | |- wp (ensure _ _) _ _ => apply wp_ensure; intros ?
  end.

(** Proofs of [preserves] follow the combinators too; case distinctions are split. *)
Create HintDb preserves discriminated.
#[export] Hint Resolve preserves_ret preserves_throw preserves_self
  preserves_or_error preserves_bind preserves_catch : preserves.
#[export] Hint Extern 5 (preserves _ _ (match ?x with _ => _ end)) => destruct x : preserves.
