(* ===== verification/Std.v ===== *)
(** * The parts of Rust's standard library the sources use

    Durations, the string functions, and the IEEE formats [f32] and [f64] with
    the rounding of the standard library's [SpecFloat] (round to nearest, ties
    to even), so that every definition over them evaluates. *)

From S2P Require Import Prelude.
From Stdlib Require Import SpecFloat.

(** ** [std::time::Duration]

    A duration is its number of nanoseconds; [u64] seconds and [u32]
    nanoseconds below [10^9], hence the range [duration_ok]. *)

Definition Duration : Type := Z.
Definition duration_ok (d : Duration) : Prop := 0 <= d < 2 ^ 64 * 1000000000.

Definition Duration_ZERO : Duration := 0.
Definition from_secs (s : Z) : Duration := s * 1000000000.
Definition from_millis (ms : Z) : Duration := ms * 1000000.
Definition as_secs (d : Duration) : Z := d / 1000000000.
Definition as_millis (d : Duration) : Z := d / 1000000.
Definition subsec_nanos (d : Duration) : Z := d mod 1000000000.

(** [d + d'], which panics ([None]) beyond the range. *)
Definition duration_add (d d' : Duration) : option Duration :=
  if d + d' <? 2 ^ 64 * 1000000000 then Some (d + d') else None.

(** [chrono::Duration::from_std]: the largest is [i64::MAX] milliseconds. *)
Definition from_std (d : Duration) : option Duration :=
  if d <=? i64_max * 1000000 then Some d else None.

(** The fractional digits [Duration]'s [Debug] prints: the remainder against
    the divisor, most significant digit first, trailing zeros dropped. *)
Fixpoint fraction_digits (fuel : nat) (rest divisor : Z) : string :=
  match fuel with
  | O => ""
  | S fuel =>
      if rest =? 0 then ""
      else show_Z (rest / divisor) +:+ fraction_digits fuel (rest mod divisor) (divisor / 10)
  end.

Definition fmt_decimal (int rest divisor : Z) (suffix : string) : string :=
  let frac := fraction_digits 9 rest divisor in
  show_Z int +:+ (if String.eqb frac "" then "" else "." +:+ frac) +:+ suffix.

(** [format!("{:?}", duration)]. *)
Definition duration_debug (d : Duration) : string :=
  let nanos := subsec_nanos d in
  if 0 <? as_secs d then fmt_decimal (as_secs d) nanos 100000000 "s"
  else if 1000000 <=? nanos then
    fmt_decimal (nanos / 1000000) (nanos mod 1000000) 100000 "ms"
  else if 1000 <=? nanos then
    fmt_decimal (nanos / 1000) (nanos mod 1000) 100 "µs"
  else fmt_decimal nanos 0 1 "ns".

(** ** Strings

    A [String] is its UTF-8 bytes.  Every function below looks for ASCII bytes
    only, and no byte of a multi-byte character is ASCII, so working on bytes
    gives the result of working on characters. *)

Definition is_empty (s : string) : bool := String.eqb s "".

(** Removes [p] from the front of [s]. *)
Fixpoint strip_prefix (p s : string) : option string :=
  match p, s with
  | EmptyString, _ => Some s
  | String a p', String b s' => if Ascii.eqb a b then strip_prefix p' s' else None
  | String _ _, EmptyString => None
  end.

Definition starts_with (p s : string) : bool :=
  match strip_prefix p s with Some _ => true | None => false end.

(** [s.contains(c)] for an ASCII character. *)
Fixpoint contains_char (c : ascii) (s : string) : bool :=
  match s with
  | EmptyString => false
  | String a s' => Ascii.eqb a c || contains_char c s'
  end.

(** [s.replace(p, to)] for a non-empty pattern: the non-overlapping matches
    from left to right.  The fuel bounds the number of steps, one per byte. *)
Fixpoint replace_fuel (fuel : nat) (p to s : string) : string :=
  match fuel with
  | O => s
  | S fuel =>
      match s with
      | EmptyString => EmptyString
      | String c s' =>
          match strip_prefix p s with
          | Some rest => to +:+ replace_fuel fuel p to rest
          | None => String c (replace_fuel fuel p to s')
          end
      end
  end.

Definition str_replace (p to s : string) : string :=
  replace_fuel (String.length s) p to s.

(** [v.join(sep)]. *)
Fixpoint str_join (sep : string) (v : list string) : string :=
  match v with
  | [] => ""
  | [s] => s
  | s :: v' => s +:+ sep +:+ str_join sep v'
  end.

Definition is_ascii_alphabetic (c : ascii) : bool :=
  let n := N_of_ascii c in
  ((65 <=? n) && (n <=? 90) || (97 <=? n) && (n <=? 122))%N.
Definition is_ascii_digit (c : ascii) : bool :=
  let n := N_of_ascii c in ((48 <=? n) && (n <=? 57))%N.
Definition is_ascii_alphanumeric (c : ascii) : bool :=
  is_ascii_alphabetic c || is_ascii_digit c.

Definition is_ascii_uppercase (c : ascii) : bool :=
  let n := N_of_ascii c in ((65 <=? n) && (n <=? 90))%N.
Definition to_ascii_lowercase_char (c : ascii) : ascii :=
  if is_ascii_uppercase c then ascii_of_N (N_of_ascii c + 32) else c.

Definition is_ascii_lowercase (c : ascii) : bool :=
  ((97 <=? N_of_ascii c) && (N_of_ascii c <=? 122))%N.
Definition to_ascii_uppercase_char (c : ascii) : ascii :=
  if is_ascii_lowercase c then ascii_of_N (N_of_ascii c - 32) else c.

(** [s.to_ascii_uppercase()]. *)
Fixpoint to_ascii_uppercase (s : string) : string :=
  match s with
  | EmptyString => EmptyString
  | String c s' => String (to_ascii_uppercase_char c) (to_ascii_uppercase s')
  end.

(** [s.to_ascii_lowercase()]. *)
Fixpoint to_ascii_lowercase (s : string) : string :=
  match s with
  | EmptyString => EmptyString
  | String c s' => String (to_ascii_lowercase_char c) (to_ascii_lowercase s')
  end.

(** [s.eq_ignore_ascii_case(t)]. *)
Definition eq_ignore_ascii_case (s t : string) : bool :=
  String.eqb (to_ascii_lowercase s) (to_ascii_lowercase t).

(** Every byte is ASCII. *)
Fixpoint is_ascii (s : string) : bool :=
  match s with
  | EmptyString => true
  | String c s' => (N_of_ascii c <? 128)%N && is_ascii s'
  end.

(** [s.trim_start_matches(p)] for a non-empty pattern: every copy of [p] at the
    front is removed, at most one per byte of [s]. *)
Fixpoint trim_start_fuel (fuel : nat) (p s : string) : string :=
  match fuel with
  | O => s
  | S fuel =>
      match strip_prefix p s with
      | Some rest => trim_start_fuel fuel p rest
      | None => s
      end
  end.

Definition trim_start_matches (p s : string) : string :=
  trim_start_fuel (String.length s) p s.

(** [s.contains(p)] for a string pattern. *)
Fixpoint str_contains (p s : string) : bool :=
  starts_with p s || match s with EmptyString => false | String _ s' => str_contains p s' end.

(** [s.split(p)] for a non-empty pattern; every round consumes a byte of [s]. *)
Fixpoint split_fuel (fuel : nat) (p s current : string) : list string :=
  match fuel with
  | O => [current]
  | S fuel =>
      match strip_prefix p s, s with
      | Some rest, _ => current :: split_fuel fuel p rest ""
      | None, EmptyString => [current]
      | None, String c s' => split_fuel fuel p s' (current +:+ String c "")
      end
  end.

Definition str_split (p s : string) : list string :=
  split_fuel (S (String.length s)) p s "".

Definition is_ascii_hexdigit (c : ascii) : bool :=
  let n := N_of_ascii c in
  is_ascii_digit c || ((65 <=? n) && (n <=? 70) || (97 <=? n) && (n <=? 102))%N.

Definition is_ascii_whitespace_char (c : ascii) : bool :=
  let n := N_of_ascii c in ((9 <=? n) && (n <=? 13) || (n =? 32))%N.

(** [s.chars()]: a byte [10xxxxxx] continues the character before it. *)
Definition is_continuation (c : ascii) : bool :=
  let n := N_of_ascii c in ((128 <=? n) && (n <? 192))%N.

Fixpoint chars (s : string) : list string :=
  match s with
  | EmptyString => []
  | String c s' =>
      match s' with
      | String d _ =>
          if is_continuation d then
            match chars s' with
            | ch :: rest => String c ch :: rest
            | [] => [String c EmptyString]
            end
          else String c EmptyString :: chars s'
      | EmptyString => [String c EmptyString]
      end
  end.

(** [v.sort_by(cmp)]: the sort is stable, which leaves one result. *)
Fixpoint insert_sorted {A} (le : A -> A -> bool) (x : A) (l : list A) : list A :=
  match l with
  | [] => [x]
  | y :: l' => if le x y then x :: l else y :: insert_sorted le x l'
  end.

Definition sort_by {A} (le : A -> A -> bool) (l : list A) : list A :=
  foldr (insert_sorted le) [] l.

(** ** [f32] and [f64] *)

Definition f32 : Type := spec_float.
Definition f64 : Type := spec_float.

Module F32.
Definition prec : Z := 24.
Definition emax : Z := 128.
Definition add : f32 -> f32 -> f32 := SFadd prec emax.
Definition mul : f32 -> f32 -> f32 := SFmul prec emax.
Definition div : f32 -> f32 -> f32 := SFdiv prec emax.
Definition of_Z (z : Z) : f32 := binary_normalize prec emax z 0 false.
(** [x as f32] of an [f64]: the nearest value. *)
Definition of_f64 (x : f64) : f32 :=
  match x with
  | S754_finite neg m e =>
      binary_normalize prec emax (if neg then Z.neg m else Z.pos m) e neg
  | _ => x
  end.
Definition ltb : f32 -> f32 -> bool := SFltb.
Definition leb : f32 -> f32 -> bool := SFleb.
(** [f32::min]: a NaN operand loses. *)
Definition min (a b : f32) : f32 :=
  match a, b with
  | S754_nan, _ => b
  | _, S754_nan => a
  | _, _ => if SFltb b a then b else a
  end.
End F32.

Module F64.
Definition prec : Z := 53.
Definition emax : Z := 1024.
Definition add : f64 -> f64 -> f64 := SFadd prec emax.
Definition sub : f64 -> f64 -> f64 := SFsub prec emax.
Definition mul : f64 -> f64 -> f64 := SFmul prec emax.
Definition div : f64 -> f64 -> f64 := SFdiv prec emax.
Definition of_Z (z : Z) : f64 := binary_normalize prec emax z 0 false.
(** The nearest [f64] to [m / 10^k], the value of a decimal literal. *)
Definition lit (m : Z) (k : Z) : f64 := div (of_Z m) (of_Z (10 ^ k)).
Definition ltb : f64 -> f64 -> bool := SFltb.
Definition leb : f64 -> f64 -> bool := SFleb.
Definition min (a b : f64) : f64 :=
  match a, b with
  | S754_nan, _ => b
  | _, S754_nan => a
  | _, _ => if SFltb b a then b else a
  end.
Definition max (a b : f64) : f64 :=
  match a, b with
  | S754_nan, _ => b
  | _, S754_nan => a
  | _, _ => if SFltb a b then b else a
  end.
(** [x.clamp(lo, hi)]. *)
Definition clamp (lo hi x : f64) : f64 :=
  if ltb x lo then lo else if ltb hi x then hi else x.

(** [x as u64]/[x as usize]: truncation, saturating at the bounds, NaN to 0. *)
Definition to_u64 (x : f64) : Z :=
  match x with
  | S754_zero _ | S754_nan => 0
  | S754_infinity neg => if neg then 0 else u64_max
  | S754_finite true _ _ => 0
  | S754_finite false m e => Z.min u64_max (Z.shiftl (Z.pos m) e)
  end.

(** [x as i64]. *)
Definition to_i64 (x : f64) : Z :=
  match x with
  | S754_zero _ | S754_nan => 0
  | S754_infinity neg => if neg then i64_min else i64_max
  | S754_finite neg m e =>
      let t := Z.shiftl (Z.pos m) e in
      if neg then Z.max i64_min (- t) else Z.min i64_max t
  end.

(** The [f64] nearest to [m * 10^e], ties to even, negated when [neg]. *)
Definition of_decimal (neg : bool) (m e : Z) : f64 :=
  match m with
  | Z.pos p =>
      if 0 <=? e then
        binary_normalize prec emax (if neg then - (m * 10 ^ e) else m * 10 ^ e) 0 neg
      else
        let '(q, ex, loc) := SFdiv_core_binary prec emax m 0 (10 ^ (- e)) 0 in
        binary_round_aux prec emax neg q ex loc
  | _ => S754_zero neg
  end.

(** The digits at the front: the number [acc] continued by them, how many there
    are, and the rest. *)
Fixpoint span_digits (acc count : Z) (s : string) : Z * Z * string :=
  match s with
  | String c s' =>
      if is_ascii_digit c
      then span_digits (10 * acc + (Z.of_nat (nat_of_ascii c) - 48)) (count + 1) s'
      else (acc, count, s)
  | EmptyString => (acc, count, s)
  end.

Definition strip_sign (s : string) : bool * string :=
  match s with
  | String c s' =>
      if Ascii.eqb c "-" then (true, s') else if Ascii.eqb c "+" then (false, s') else (false, s)
  | EmptyString => (false, s)
  end.

(** An unsigned decimal number, as its mantissa and its exponent of ten. *)
Definition parse_decimal (s : string) : option (Z * Z) :=
  let '(i, n, rest) := span_digits 0 0 s in
  let '(m, fraction, rest) :=
    match rest with
    | String c rest' => if Ascii.eqb c "." then span_digits i 0 rest' else (i, 0, rest)
    | EmptyString => (i, 0, rest)
    end in
  if n + fraction =? 0 then None
  else
    match rest with
    | EmptyString => Some (m, - fraction)
    | String c rest' =>
        if Ascii.eqb c "e" || Ascii.eqb c "E" then
          let (neg, digits) := strip_sign rest' in
          let '(e, count, rest'') := span_digits 0 0 digits in
          if (count =? 0) || negb (is_empty rest'') then None
          else Some (m, (if neg then - e else e) - fraction)
        else None
    end.

(** [s.parse::<f64>().ok()]. *)
Definition parse (s : string) : option f64 :=
  let (neg, body) := strip_sign s in
  if eq_ignore_ascii_case body "inf" || eq_ignore_ascii_case body "infinity" then
    Some (S754_infinity neg)
  else if eq_ignore_ascii_case body "nan" then Some S754_nan
  else (fun '(m, e) => of_decimal neg m e) <$> parse_decimal body.
End F64.

(** [Duration::as_secs_f64]. *)
Definition as_secs_f64 (d : Duration) : f64 :=
  F64.add (F64.of_Z (as_secs d)) (F64.div (F64.of_Z (subsec_nanos d)) (F64.of_Z 1000000000)).

(** The integer nearest to [n / d], ties to even, for [0 <= n] and [0 < d]. *)
Definition div_nearest_even (n d : Z) : Z :=
  let q := n / d in
  let r := n mod d in
  if (2 * r <? d) || ((2 * r =? d) && Z.even q) then q else q + 1.

(** [Duration::from_secs_f64]: [None] is the panic on a negative, infinite, NaN
    or too large number of seconds. *)
Definition from_secs_f64 (x : f64) : option Duration :=
  match x with
  | S754_zero _ => Some 0
  | S754_infinity _ | S754_nan | S754_finite true _ _ => None
  | S754_finite false m e =>
      let nanos :=
        if 0 <=? e then Z.pos m * 2 ^ e * 1000000000
        else div_nearest_even (Z.pos m * 1000000000) (2 ^ (- e)) in
      if nanos <? 2 ^ 64 * 1000000000 then Some nanos else None
  end.

(** [Duration::mul_f64], which panics as [from_secs_f64] does. *)
Definition mul_f64 (d : Duration) (x : f64) : option Duration :=
  from_secs_f64 (F64.mul x (as_secs_f64 d)).

(** ** Lemmas *)

Lemma append_cons c s t : String c s +:+ t = String c (s +:+ t).
Proof. reflexivity. Qed.

Lemma append_nil_l t : "" +:+ t = t.
Proof. reflexivity. Qed.

Lemma append_nil_r s : s +:+ "" = s.
Proof. induction s as [|c s IH]; [done|]. by rewrite append_cons, IH. Qed.

Lemma append_assoc s t u : (s +:+ t) +:+ u = s +:+ (t +:+ u).
Proof. induction s as [|c s IH]; [done|]. by rewrite !append_cons, IH. Qed.

Lemma length_append s t : String.length (s +:+ t) = (String.length s + String.length t)%nat.
Proof. induction s as [|c s IH]; [done|]. rewrite append_cons. simpl. by rewrite IH. Qed.

#[export] Hint Rewrite append_cons append_nil_l append_nil_r append_assoc
  length_append : rust_simpl.

Lemma strip_prefix_app p s : strip_prefix p (p +:+ s) = Some s.
Proof.
  induction p as [|a p IH]; [done|]. rewrite append_cons. simpl.
  by rewrite Ascii.eqb_refl.
Qed.

Lemma strip_prefix_inv p s r : strip_prefix p s = Some r -> s = p +:+ r.
Proof.
  revert s. induction p as [|a p IH]; intros s H; simpl in H; [by simplify_eq|].
  destruct s as [|b s]; [done|]. destruct (Ascii.eqb_spec a b) as [->|]; [|done].
  by rewrite append_cons, (IH s).
Qed.

(** Comparison is antisymmetric and total away from NaN. *)
Lemma SFcompare_antisym a b : SFcompare b a = option_map CompOpp (SFcompare a b).
Proof.
  assert (forall m m' : positive,
    Pos.compare_cont Eq m m' = CompOpp (Pos.compare_cont Eq m' m)) as Hp.
  { intros m m'. by rewrite Pos.compare_cont_antisym. }
  destruct a as [[]|[]| |[] m e], b as [[]|[]| |[] m' e']; try done; simpl.
  - rewrite (Z.compare_antisym e e'). destruct (e ?= e')%Z; simpl; try done.
    by rewrite (Hp m' m).
  - rewrite (Z.compare_antisym e e'). destruct (e ?= e')%Z; simpl; try done.
    by rewrite (Hp m' m).
Qed.

#[global] Instance spec_float_eq_dec : EqDecision spec_float.
Proof. solve_decision. Defined.

Lemma SFcompare_some a b :
  a <> S754_nan -> b <> S754_nan -> is_Some (SFcompare a b).
Proof. by destruct a, b; eauto. Qed.

Lemma SFleb_refl_nonnan x : x <> S754_nan -> SFleb x x = true.
Proof.
  intros Hx. pose proof (SFcompare_antisym x x) as H.
  destruct (SFcompare_some x x Hx Hx) as [c Hc].
  unfold SFleb. rewrite Hc in *. by destruct c.
Qed.

Lemma SFltb_false_leb a b :
  a <> S754_nan -> b <> S754_nan -> SFltb b a = false -> SFleb a b = true.
Proof.
  intros Ha Hb. unfold SFltb, SFleb. rewrite (SFcompare_antisym a b).
  destruct (SFcompare_some a b Ha Hb) as [c ->]. by destruct c.
Qed.

Lemma SFleb_finite s m e s' m' e' :
  SFleb (S754_finite s m e) (S754_finite s' m' e') = true <->
  match s, s' with
  | true, false => True
  | false, true => False
  | false, false => e < e' \/ (e = e' /\ (m <= m')%positive)
  | true, true => e' < e \/ (e = e' /\ (m' <= m)%positive)
  end.
Proof.
  unfold SFleb. destruct s, s'; simpl; try done;
    change (Pos.compare_cont Eq m m') with (m ?= m')%positive;
    (destruct (Z.compare_spec e e');
     [destruct (Pos.compare_spec m m')| |]); simpl; split; intros; try done; lia.
Qed.

Lemma SFleb_trans a b c : SFleb a b = true -> SFleb b c = true -> SFleb a c = true.
Proof.
  destruct a as [[]|[]| |s m e], b as [[]|[]| |s' m' e'], c as [[]|[]| |s'' m'' e''];
    rewrite ?SFleb_finite; try done; repeat match goal with b : bool |- _ => destruct b end;
    lia || done.
Qed.

(** The minimum of two numbers is at most the second one. *)
Lemma f32_min_le a b : b <> S754_nan -> F32.leb (F32.min a b) b = true.
Proof.
  intros Hb. destruct (decide (a = S754_nan)) as [->|Ha].
  { by apply SFleb_refl_nonnan. }
  assert (F32.min a b = if SFltb b a then b else a) as -> by (by destruct a, b).
  destruct (SFltb b a) eqn:E; [by apply SFleb_refl_nonnan|].
  by apply SFltb_false_leb.
Qed.

Lemma to_ascii_lowercase_app s t :
  to_ascii_lowercase (s +:+ t) = to_ascii_lowercase s +:+ to_ascii_lowercase t.
Proof. induction s as [|c s IH]; [done|]. rewrite !append_cons. simpl. by rewrite IH. Qed.

Lemma is_ascii_app s t : is_ascii (s +:+ t) = is_ascii s && is_ascii t.
Proof.
  induction s as [|c s IH]; [done|]. rewrite !append_cons. simpl.
  by rewrite IH, andb_assoc.
Qed.

Lemma as_u32_as_i32 z : u32 z -> as_u32 (as_i32 z) = z.
Proof.
  unfold u32, as_u32, as_i32, wrap. intros Hz.
  rewrite Zminus_mod_idemp_l. replace (z + 2 ^ 31 - 2 ^ 31) with z by lia. by apply Z.mod_small.
Qed.
