(* ===== verification/Externs.v ===== *)
(** * The third-party code the sources call

    The control plane uses [uuid], [chrono] and [serde_json]; their code is not
    part of the repository.  [Externs] collects the functions the sources call
    as parameters of the model, [ExternsLaws] what the sources rely on of
    them: the documented meaning of a difference of timestamps and the round
    trip of identifiers.  [concrete] is one implementation, for evaluation. *)

From S2P Require Import Prelude Std.

Class Externs := {
  (* uuid *)
  Uuid : Type;
  Uuid_eq_dec :: EqDecision Uuid;
  Uuid_countable :: Countable Uuid;
  uuid_to_string : Uuid -> string;
  uuid_parse_str : string -> option Uuid;
  uuid_parse_error : string -> string;
  uuid_nil : Uuid;
  NAMESPACE_OID : Uuid;
  NAMESPACE_DNS : Uuid;
  new_v5 : Uuid -> string -> Uuid;
  (* the Unicode tables of the standard library *)
  to_lowercase : string -> string;
  unicode_whitespace : string -> bool;
  unicode_alphanumeric : string -> bool;
  (* chrono *)
  DateTime : Type;
  DateTime_eq_dec :: EqDecision DateTime;
  TimeDelta : Type;
  datetime_leb : DateTime -> DateTime -> bool;
  signed_duration_since : DateTime -> DateTime -> TimeDelta;
  num_milliseconds : TimeDelta -> Z;
  num_seconds : TimeDelta -> Z;
  to_std : TimeDelta -> option Duration;
  to_rfc3339 : DateTime -> string;
  datetime_timestamp : DateTime -> Z;
  (* serde_json *)
  Json : Type;
  Json_eq_dec :: EqDecision Json;
  as_str : Json -> option string;
  as_i64 : Json -> option Z;
  as_bool : Json -> option bool;
  as_array : Json -> option (list Json);
  (* the message for a value that is not of the expected type *)
  invalid_type : string -> Json -> string;
  json_of_Z : Z -> Json;
  json_of_string : string -> Json;
  json_of_bool : bool -> Json;
  json_of_list : list Json -> Json;
  json_empty_object : Json;
  json_set : Json -> string -> Json -> Json;
  (* the runtime services a saga context carries: trait objects, which the
     orchestrator passes to the steps and never looks into *)
  SagaServices : Type;
}.

(** [c.is_whitespace()] and [c.is_alphanumeric()] of a character: ASCII is
    decided here, the rest by the Unicode tables. *)
Definition is_whitespace `{Externs} (c : string) : bool :=
  match c with
  | String a EmptyString => is_ascii_whitespace_char a
  | _ => unicode_whitespace c
  end.
Definition is_alphanumeric `{Externs} (c : string) : bool :=
  match c with
  | String a EmptyString => is_ascii_alphanumeric a
  | _ => unicode_alphanumeric c
  end.

Fixpoint drop_while {A} (f : A -> bool) (l : list A) : list A :=
  match l with
  | [] => []
  | x :: l' => if f x then drop_while f l' else l
  end.

(** [s.trim()]. *)
Definition trim `{Externs} (s : string) : string :=
  str_join "" (reverse (drop_while is_whitespace (reverse (drop_while is_whitespace (chars s))))).

(** The newtypes over [Uuid] of [crates/shared/src/ids.rs]. *)
Abbreviation JobId := Uuid (only parsing).
Abbreviation ProviderId := Uuid (only parsing).
Abbreviation WorkerId := Uuid (only parsing).
Abbreviation SagaId := Uuid (only parsing).

(** [timestamp d] is the number of nanoseconds since the epoch. *)
Class ExternsLaws (E : Externs) := {
  timestamp : DateTime -> Z;
  datetime_leb_timestamp : forall a b, datetime_leb a b = (timestamp a <=? timestamp b);
  to_std_since : forall a b,
    to_std (signed_duration_since a b) =
      if timestamp a <? timestamp b then None else Some (timestamp a - timestamp b);
  num_milliseconds_since : forall a b,
    num_milliseconds (signed_duration_since a b) =
      (timestamp a - timestamp b) ÷ 1000000;
  num_seconds_since : forall a b,
    num_seconds (signed_duration_since a b) =
      (timestamp a - timestamp b) ÷ 1000000000;
  to_lowercase_ascii : forall s, is_ascii s = true -> to_lowercase s = to_ascii_lowercase s;
  as_str_of_string : forall s, as_str (json_of_string s) = Some s;
  as_bool_of_bool : forall b, as_bool (json_of_bool b) = Some b;
  as_array_of_list : forall l, as_array (json_of_list l) = Some l;
  parse_uuid : forall u, uuid_parse_str (uuid_to_string u) = Some u;
}.

(** [a.signed_duration_since(b).to_std().unwrap_or(Duration::ZERO)]: the time
    from [b] to [a], zero when [b] is later. *)
Definition elapsed_or_zero `{Externs} (a b : DateTime) : Duration :=
  match to_std (signed_duration_since a b) with
  | Some d => d
  | None => Duration_ZERO
  end.

Lemma elapsed_or_zero_max `{EL : ExternsLaws} a b :
  elapsed_or_zero a b = Z.max 0 (timestamp a - timestamp b).
Proof.
  unfold elapsed_or_zero, Duration_ZERO. rewrite to_std_since.
  destruct (Z.ltb_spec (timestamp a) (timestamp b)); simpl; lia.
Qed.

(** [json!({ k: v, ... })]. *)
Definition json_object `{E : Externs} (fields : list (string * Json)) : Json :=
  fold_left (fun o '(k, v) => json_set o k v) fields json_empty_object.

(** ** A concrete instance

    Identifiers and timestamps are numbers; JSON values are the ones the
    sources build. *)

Inductive json :=
  | JNum (z : Z)
  | JStr (s : string)
  | JBool (b : bool)
  | JNil
  | JCons (item rest : json)
  | JObj
  | JField (object : json) (key : string) (value : json).

#[global] Instance json_eq_dec : EqDecision json.
Proof. solve_decision. Defined.

Fixpoint json_items (j : json) : option (list json) :=
  match j with
  | JNil => Some []
  | JCons x j => cons x <$> json_items j
  | _ => None
  end.

(** The identifier [n] prints as [n] copies of a letter, which is enough to be
    injective and parseable. *)
Fixpoint unary (n : nat) : string :=
  match n with O => "" | S n => String "u"%char (unary n) end.

Definition concrete : Externs := {|
  Uuid := nat;
  uuid_to_string := unary;
  uuid_parse_str := fun s => Some (String.length s);
  uuid_parse_error := fun _ => "invalid UUID";
  uuid_nil := 0%nat;
  NAMESPACE_OID := 0%nat;
  NAMESPACE_DNS := 1%nat;
  new_v5 := fun ns s => (ns + String.length s)%nat;
  to_lowercase := to_ascii_lowercase;
  unicode_whitespace := fun _ => false;
  unicode_alphanumeric := fun _ => true;
  DateTime := Z;
  TimeDelta := Z;
  datetime_leb := Z.leb;
  signed_duration_since := fun a b => a - b;
  num_milliseconds := fun d => d ÷ 1000000;
  num_seconds := fun d => d ÷ 1000000000;
  to_std := fun d => if d <? 0 then None else Some d;
  to_rfc3339 := show_Z;
  datetime_timestamp := fun d => d ÷ 1000000000;
  Json := json;
  as_str := fun j => match j with JStr s => Some s | _ => None end;
  as_i64 := fun j => match j with JNum z => Some z | _ => None end;
  as_bool := fun j => match j with JBool b => Some b | _ => None end;
  as_array := json_items;
  invalid_type := fun expected _ => "invalid type, expected " +:+ expected;
  json_of_Z := JNum;
  json_of_string := JStr;
  json_of_bool := JBool;
  json_of_list := foldr JCons JNil;
  json_empty_object := JObj;
  json_set := JField;
  SagaServices := unit;
|}.

(** ** Iteration over a [HashMap]

    The standard library leaves the order unspecified: it is a function of the
    map that lists every entry once. *)

Class MapOrder := {
  map_entries : forall {K} `{Countable K} {V}, gmap K V -> list (K * V);
  map_entries_perm : forall {K} `{Countable K} {V} (m : gmap K V),
    map_entries m ≡ₚ map_to_list m;
}.

Definition map_values `{MapOrder} {K} `{Countable K} {V} (m : gmap K V) : list V :=
  (map_entries m).*2.
Definition map_keys `{MapOrder} {K} `{Countable K} {V} (m : gmap K V) : list K :=
  (map_entries m).*1.

Lemma map_values_perm `{MapOrder} {K} `{Countable K} {V} (m : gmap K V) :
  map_values m ≡ₚ (map_to_list m).*2.
Proof. unfold map_values. by rewrite map_entries_perm. Qed.

Lemma elem_of_map_values `{MapOrder} {K} `{Countable K} {V} (m : gmap K V) v :
  v ∈ map_values m <-> exists k, m !! k = Some v.
Proof.
  rewrite map_values_perm, list_elem_of_fmap. split.
  - intros ([k v'] & -> & Hk). exists k. by apply elem_of_map_to_list.
  - intros [k Hk]. exists (k, v). by rewrite elem_of_map_to_list.
Qed.

Definition concrete_order : MapOrder := {|
  map_entries := fun _ _ _ _ m => map_to_list m;
  map_entries_perm := fun _ _ _ _ _ => reflexivity _;
|}.

#[global] Program Instance concrete_laws : ExternsLaws concrete :=
  {| timestamp := fun d : Z => d |}.
Next Obligation. done. Qed.
Next Obligation.
  simpl. intros a b. destruct (Z.ltb_spec (a - b) 0), (Z.ltb_spec a b); try lia; done.
Qed.
Next Obligation. done. Qed.
Next Obligation. done. Qed.
Next Obligation. done. Qed.
Next Obligation. done. Qed.
Next Obligation. done. Qed.
Next Obligation. simpl. intros l. induction l as [|x l IH]; simpl; [done|by rewrite IH]. Qed.
Next Obligation.
  simpl. intros u. f_equal. by induction u as [|u IH]; simpl; [|rewrite IH].
Qed.
