(* ===== verification/States.v ===== *)
(** * Shared states and failure reasons ([crates/shared/src/states.rs])

    The enums every crate of the platform exchanges, one Module each, with
    their [Display], [FromStr] and [i32] codecs, the state machines of jobs and
    workers, and the failure taxonomies.  A comment [src: file lines symbol]
    before a definition names the code it translates. *)

From S2P Require Import Prelude.

(** An enum with a textual and a numeric wire format. *)
Class WireEnum (A : Type) := {
  display : A -> string;
  from_str : string -> result string A;
  to_i32 : A -> Z;
  try_from_i32 : Z -> result string A;
}.

(** What a wire format promises its users: both codecs are lossless, accept
    nothing but what they print, and say what they refused. *)
Class WireLaws (A : Type) `{WireEnum A} := {
  from_str_display : forall a : A, from_str (display a) = Ok a;
  from_str_inv : forall s (a : A), from_str s = Ok a -> display a = s;
  try_from_to_i32 : forall a : A, try_from_i32 (to_i32 a) = Ok a;
  try_from_inv : forall z (a : A), try_from_i32 z = Ok a -> to_i32 a = z;
}.

(** The string of a refused parse, [format!("Invalid {}: {}", name, s)]. *)
Definition invalid (name s : string) : string :=
  "Invalid " +:+ name +:+ ": " +:+ s.
Definition invalid_value (name : string) (z : Z) : string :=
  "Invalid " +:+ name +:+ " value: " +:+ show_Z z.

Module JobState.

(** src: crates/shared/src/states.rs 16-28 JobState *)
Inductive t :=
  | Pending
  | Assigned
  | Scheduled
  | Running
  | Succeeded
  | Failed
  | Cancelled
  | Timeout
  | ManualInterventionRequired.

#[global] Instance t_eq_dec : EqDecision t.
Proof. solve_decision. Defined.

(** The derived [Debug] prints the name of the variant. *)
(** src: crates/shared/src/states.rs 15-28 Debug for JobState *)
Definition debug (s : t) : string :=
  match s with
  | Pending => "Pending"
  | Assigned => "Assigned"
  | Scheduled => "Scheduled"
  | Running => "Running"
  | Succeeded => "Succeeded"
  | Failed => "Failed"
  | Cancelled => "Cancelled"
  | Timeout => "Timeout"
  | ManualInterventionRequired => "ManualInterventionRequired"
  end.

(** src: crates/shared/src/states.rs 47-89 JobState::can_transition_to *)
Definition can_transition_to (s n : t) : bool :=
  if bool_decide (s = n) then false else
  match s, n with
  | Pending, Assigned => true
  | Pending, Scheduled => true
  | Pending, Failed => true
  | Pending, Cancelled => true
  | Pending, Timeout => true
  | Pending, ManualInterventionRequired => true
  | Assigned, Running => true
  | Assigned, Failed => true
  | Assigned, Timeout => true
  | Assigned, Cancelled => true
  | Assigned, ManualInterventionRequired => true
  | Scheduled, Running => true
  | Scheduled, Failed => true
  | Scheduled, Timeout => true
  | Scheduled, Cancelled => true
  | Scheduled, ManualInterventionRequired => true
  | Running, Succeeded => true
  | Running, Failed => true
  | Running, Cancelled => true
  | Running, Timeout => true
  | Running, ManualInterventionRequired => true
  | ManualInterventionRequired, Pending => true
  | ManualInterventionRequired, Failed => true
  | ManualInterventionRequired, Cancelled => true
  | _, _ => false
  end.

(** src: crates/shared/src/states.rs 92-98 JobState::is_terminal *)
Definition is_terminal (s : t) : bool :=
  match s with
  | Succeeded | Failed | Cancelled | Timeout => true
  | _ => false
  end.

(** src: crates/shared/src/states.rs 101-110 JobState::is_in_progress *)
Definition is_in_progress (s : t) : bool :=
  match s with
  | Pending | Assigned | Scheduled | Running | ManualInterventionRequired => true
  | _ => false
  end.

(** src: crates/shared/src/states.rs 113-115 JobState::requires_manual_intervention *)
Definition requires_manual_intervention (s : t) : bool :=
  match s with ManualInterventionRequired => true | _ => false end.

(** src: crates/shared/src/states.rs 119-121 JobState::is_scheduled *)
Definition is_scheduled (s : t) : bool :=
  match s with Assigned | Scheduled => true | _ => false end.

(** src: crates/shared/src/states.rs 124-136 JobState::category *)
Definition category (s : t) : string :=
  match s with
  | Pending => "pending"
  | Assigned => "assigned"
  | Scheduled => "scheduled"
  | Running => "running"
  | Succeeded => "completed"
  | Failed => "failed"
  | Cancelled => "cancelled"
  | Timeout => "timeout"
  | ManualInterventionRequired => "manual_intervention"
  end.

(** src: crates/shared/src/states.rs 139-153 impl Display for JobState *)
Definition fmt (s : t) : string :=
  match s with
  | Pending => "PENDING"
  | Assigned => "ASSIGNED"
  | Scheduled => "SCHEDULED"
  | Running => "RUNNING"
  | Succeeded => "SUCCEEDED"
  | Failed => "FAILED"
  | Cancelled => "CANCELLED"
  | Timeout => "TIMEOUT"
  | ManualInterventionRequired => "MANUAL_INTERVENTION_REQUIRED"
  end.

(** src: crates/shared/src/states.rs 155-172 impl FromStr for JobState *)
Definition parse (s : string) : result string t :=
  if String.eqb s "PENDING" then Ok Pending
  else if String.eqb s "ASSIGNED" then Ok Assigned
  else if String.eqb s "SCHEDULED" then Ok Scheduled
  else if String.eqb s "RUNNING" then Ok Running
  else if String.eqb s "SUCCEEDED" then Ok Succeeded
  else if String.eqb s "FAILED" then Ok Failed
  else if String.eqb s "CANCELLED" then Ok Cancelled
  else if String.eqb s "TIMEOUT" then Ok Timeout
  else if String.eqb s "MANUAL_INTERVENTION_REQUIRED"
       then Ok ManualInterventionRequired
  else Err (invalid "JobState" s).

(** src: crates/shared/src/states.rs 174-191 impl TryFrom<i32> for JobState *)
Definition try_from (value : Z) : result string t :=
  if value =? 0 then Ok Pending
  else if value =? 1 then Ok Assigned
  else if value =? 2 then Ok Scheduled
  else if value =? 3 then Ok Running
  else if value =? 4 then Ok Succeeded
  else if value =? 5 then Ok Failed
  else if value =? 6 then Ok Cancelled
  else if value =? 7 then Ok Timeout
  else if value =? 8 then Ok ManualInterventionRequired
  else Err (invalid_value "JobState" value).

(** src: crates/shared/src/states.rs 193-207 impl From<&JobState> for i32 *)
Definition into_i32 (s : t) : Z :=
  match s with
  | Pending => 0
  | Assigned => 1
  | Scheduled => 2
  | Running => 3
  | Succeeded => 4
  | Failed => 5
  | Cancelled => 6
  | Timeout => 7
  | ManualInterventionRequired => 8
  end.

#[global] Instance wire : WireEnum t :=
  {| display := fmt; from_str := parse; to_i32 := into_i32; try_from_i32 := try_from |}.

End JobState.

Module WorkerState.

(** src: crates/shared/src/states.rs 221-226 WorkerState *)
Inductive t := Creating | Ready | Busy | Terminated.

#[global] Instance t_eq_dec : EqDecision t.
Proof. solve_decision. Defined.

(** src: crates/shared/src/states.rs 220-226 Debug for WorkerState *)
Definition debug (s : t) : string :=
  match s with
  | Creating => "Creating"
  | Ready => "Ready"
  | Busy => "Busy"
  | Terminated => "Terminated"
  end.

(** src: crates/shared/src/states.rs 228-237 impl Display for WorkerState *)
Definition fmt (s : t) : string :=
  match s with
  | Creating => "CREATING"
  | Ready => "READY"
  | Busy => "BUSY"
  | Terminated => "TERMINATED"
  end.

(** src: crates/shared/src/states.rs 239-251 impl FromStr for WorkerState *)
Definition parse (s : string) : result string t :=
  if String.eqb s "CREATING" then Ok Creating
  else if String.eqb s "READY" then Ok Ready
  else if String.eqb s "BUSY" then Ok Busy
  else if String.eqb s "TERMINATED" then Ok Terminated
  else Err (invalid "WorkerState" s).

(** src: crates/shared/src/states.rs 253-265 impl TryFrom<i32> for WorkerState *)
Definition try_from (value : Z) : result string t :=
  if value =? 0 then Ok Creating
  else if value =? 1 then Ok Ready
  else if value =? 2 then Ok Busy
  else if value =? 3 then Ok Terminated
  else Err (invalid_value "WorkerState" value).

(** src: crates/shared/src/states.rs 267-276 impl From<&WorkerState> for i32 *)
Definition into_i32 (s : t) : Z :=
  match s with Creating => 0 | Ready => 1 | Busy => 2 | Terminated => 3 end.

(** src: crates/shared/src/states.rs 299-318 WorkerState::can_transition_to *)
Definition can_transition_to (s n : t) : bool :=
  if bool_decide (s = n) then false else
  match s, n with
  | Creating, Ready => true
  | Creating, Terminated => true
  | Ready, Busy => true
  | Ready, Terminated => true
  | Busy, Terminated => true
  | _, _ => false
  end.

(** src: crates/shared/src/states.rs 321-323 WorkerState::is_terminal *)
Definition is_terminal (s : t) : bool :=
  match s with Terminated => true | _ => false end.

(** src: crates/shared/src/states.rs 326-331 WorkerState::is_in_progress *)
Definition is_in_progress (s : t) : bool :=
  match s with Creating | Ready | Busy => true | _ => false end.

(** src: crates/shared/src/states.rs 334-336 WorkerState::is_terminating *)
Definition is_terminating (s : t) : bool :=
  match s with Terminated => true | _ => false end.

(** src: crates/shared/src/states.rs 339-341 WorkerState::can_accept_jobs *)
Definition can_accept_jobs (s : t) : bool :=
  match s with Ready => true | _ => false end.

(** src: crates/shared/src/states.rs 344-349 WorkerState::is_active *)
Definition is_active (s : t) : bool :=
  match s with Creating | Ready | Busy => true | _ => false end.

(** src: crates/shared/src/states.rs 352-354 WorkerState::is_terminated *)
Definition is_terminated (s : t) : bool :=
  match s with Terminated => true | _ => false end.

(** src: crates/shared/src/states.rs 357-359 WorkerState::is_ready *)
Definition is_ready (s : t) : bool :=
  match s with Ready => true | _ => false end.

#[global] Instance wire : WireEnum t :=
  {| display := fmt; from_str := parse; to_i32 := into_i32; try_from_i32 := try_from |}.

End WorkerState.

Module ProviderStatus.

(** src: crates/shared/src/states.rs 364-371 ProviderStatus *)
Inductive t :=
  | Active
  | Maintenance
  | Disabled
  | Overloaded
  | Unhealthy
  | Degraded.

#[global] Instance t_eq_dec : EqDecision t.
Proof. solve_decision. Defined.

(** src: crates/shared/src/states.rs 373-384 impl Display for ProviderStatus *)
Definition fmt (s : t) : string :=
  match s with
  | Active => "ACTIVE"
  | Maintenance => "MAINTENANCE"
  | Disabled => "DISABLED"
  | Overloaded => "OVERLOADED"
  | Unhealthy => "UNHEALTHY"
  | Degraded => "DEGRADED"
  end.

(** src: crates/shared/src/states.rs 386-400 impl FromStr for ProviderStatus *)
Definition parse (s : string) : result string t :=
  if String.eqb s "ACTIVE" then Ok Active
  else if String.eqb s "MAINTENANCE" then Ok Maintenance
  else if String.eqb s "DISABLED" then Ok Disabled
  else if String.eqb s "OVERLOADED" then Ok Overloaded
  else if String.eqb s "UNHEALTHY" then Ok Unhealthy
  else if String.eqb s "DEGRADED" then Ok Degraded
  else Err (invalid "ProviderStatus" s).

(** src: crates/shared/src/states.rs 402-416 impl TryFrom<i32> for ProviderStatus *)
Definition try_from (value : Z) : result string t :=
  if value =? 0 then Ok Active
  else if value =? 1 then Ok Maintenance
  else if value =? 2 then Ok Disabled
  else if value =? 3 then Ok Overloaded
  else if value =? 4 then Ok Unhealthy
  else if value =? 5 then Ok Degraded
  else Err (invalid_value "ProviderStatus" value).

(** src: crates/shared/src/states.rs 418-429 impl From<&ProviderStatus> for i32 *)
Definition into_i32 (s : t) : Z :=
  match s with
  | Active => 0
  | Maintenance => 1
  | Disabled => 2
  | Overloaded => 3
  | Unhealthy => 4
  | Degraded => 5
  end.

#[global] Instance wire : WireEnum t :=
  {| display := fmt; from_str := parse; to_i32 := into_i32; try_from_i32 := try_from |}.

End ProviderStatus.

Module ExecutionStatus.

(** src: crates/shared/src/states.rs 433-441 ExecutionStatus *)
Inductive t :=
  | Submitted
  | Queued
  | Running
  | Succeeded
  | Failed
  | Cancelled
  | TimedOut.

#[global] Instance t_eq_dec : EqDecision t.
Proof. solve_decision. Defined.

(** src: crates/shared/src/states.rs 443-455 impl Display for ExecutionStatus *)
Definition fmt (s : t) : string :=
  match s with
  | Submitted => "SUBMITTED"
  | Queued => "QUEUED"
  | Running => "RUNNING"
  | Succeeded => "SUCCEEDED"
  | Failed => "FAILED"
  | Cancelled => "CANCELLED"
  | TimedOut => "TIMED_OUT"
  end.

(** src: crates/shared/src/states.rs 457-472 impl FromStr for ExecutionStatus *)
Definition parse (s : string) : result string t :=
  if String.eqb s "SUBMITTED" then Ok Submitted
  else if String.eqb s "QUEUED" then Ok Queued
  else if String.eqb s "RUNNING" then Ok Running
  else if String.eqb s "SUCCEEDED" then Ok Succeeded
  else if String.eqb s "FAILED" then Ok Failed
  else if String.eqb s "CANCELLED" then Ok Cancelled
  else if String.eqb s "TIMED_OUT" then Ok TimedOut
  else Err (invalid "ExecutionStatus" s).

(** src: crates/shared/src/states.rs 474-489 impl TryFrom<i32> for ExecutionStatus *)
Definition try_from (value : Z) : result string t :=
  if value =? 0 then Ok Submitted
  else if value =? 1 then Ok Queued
  else if value =? 2 then Ok Running
  else if value =? 3 then Ok Succeeded
  else if value =? 4 then Ok Failed
  else if value =? 5 then Ok Cancelled
  else if value =? 6 then Ok TimedOut
  else Err (invalid_value "ExecutionStatus" value).

(** src: crates/shared/src/states.rs 491-503 impl From<&ExecutionStatus> for i32 *)
Definition into_i32 (s : t) : Z :=
  match s with
  | Submitted => 0
  | Queued => 1
  | Running => 2
  | Succeeded => 3
  | Failed => 4
  | Cancelled => 5
  | TimedOut => 6
  end.

#[global] Instance wire : WireEnum t :=
  {| display := fmt; from_str := parse; to_i32 := into_i32; try_from_i32 := try_from |}.

End ExecutionStatus.

Module JobResult.

(** src: crates/shared/src/states.rs 507-520 JobResult *)
Inductive t :=
  | Success (exit_code : Z) (output error_output : string)
  | Failed (exit_code : Z) (error_message error_output : string)
  | Cancelled
  | Timeout.

#[global] Instance t_eq_dec : EqDecision t.
Proof. solve_decision. Defined.

(** src: crates/shared/src/states.rs 522-539 impl Display for JobResult *)
Definition fmt (r : t) : string :=
  match r with
  | Success exit_code _ _ => "SUCCESS (exit_code: " +:+ show_Z exit_code +:+ ")"
  | Failed exit_code error_message _ =>
      "FAILED (exit_code: " +:+ show_Z exit_code +:+ "): " +:+ error_message
  | Cancelled => "CANCELLED"
  | Timeout => "TIMEOUT"
  end.

End JobResult.

Module JobFailureReason.

(** src: crates/shared/src/states.rs 559-637 JobFailureReason *)
Inductive t :=
  | CommandNotFound (command : string)
  | PermissionDenied (path operation : string)
  | FileNotFound (path : string)
  | ProcessSpawnFailed (message : string)
  | ExecutionTimeout (limit_secs : Z)
  | SignalReceived (signal : Z)
  | NonZeroExitCode (exit_code : Z)
  | InfrastructureError (message : string)
  | ValidationError (field reason : string)
  | ConfigurationError (key message : string)
  | SecretInjectionError (secret_name message : string)
  | IoError (operation : string) (path : option string) (message : string)
  | Unknown (message : string).

#[global] Instance t_eq_dec : EqDecision t.
Proof. solve_decision. Defined.

(** src: crates/shared/src/states.rs 639-694 impl Display for JobFailureReason *)
Definition fmt (r : t) : string :=
  match r with
  | CommandNotFound command => "COMMAND_NOT_FOUND: " +:+ command
  | PermissionDenied path operation =>
      "PERMISSION_DENIED: " +:+ operation +:+ " on " +:+ path
  | FileNotFound path => "FILE_NOT_FOUND: " +:+ path
  | ProcessSpawnFailed message => "PROCESS_SPAWN_FAILED: " +:+ message
  | ExecutionTimeout limit_secs =>
      "EXECUTION_TIMEOUT: exceeded " +:+ show_Z limit_secs +:+ " seconds"
  | SignalReceived signal => "SIGNAL_RECEIVED: signal " +:+ show_Z signal
  | NonZeroExitCode exit_code =>
      "NON_ZERO_EXIT_CODE: exit code " +:+ show_Z exit_code
  | InfrastructureError message => "INFRASTRUCTURE_ERROR: " +:+ message
  | ValidationError field reason =>
      "VALIDATION_ERROR: " +:+ field +:+ " - " +:+ reason
  | ConfigurationError key message =>
      "CONFIGURATION_ERROR: " +:+ key +:+ " - " +:+ message
  | SecretInjectionError secret_name message =>
      "SECRET_INJECTION_ERROR: " +:+ secret_name +:+ " - " +:+ message
  | IoError operation path message =>
      match path with
      | Some p => "IO_ERROR: " +:+ operation +:+ " on " +:+ p +:+ " - " +:+ message
      | None => "IO_ERROR: " +:+ operation +:+ " - " +:+ message
      end
  | Unknown message => "UNKNOWN_ERROR: " +:+ message
  end.

(** The mode letter the advice on a denied permission suggests: the first
    character of the operation decides, everything unknown asks for [x]. *)
(** src: crates/shared/src/states.rs 710-720 JobFailureReason::suggested_actions (chmod letter) *)
Definition chmod_letter (operation : string) : string :=
  match operation with
  | String c _ =>
      if Ascii.eqb c "e"%char then "x"
      else if Ascii.eqb c "r"%char then "r"
      else if Ascii.eqb c "w"%char then "w"
      else "x"
  | EmptyString => "x"
  end.

(** src: crates/shared/src/states.rs 701-801 JobFailureReason::suggested_actions *)
Definition suggested_actions (r : t) : list string :=
  match r with
  | CommandNotFound command =>
      [ "Verify that '" +:+ command +:+ "' is installed and in PATH";
        "Install the required package or dependency";
        "Use the full path to the command instead" ]
  | PermissionDenied path operation =>
      [ "Check permissions for: " +:+ path;
        "Run: chmod +" +:+ chmod_letter operation +:+ " " +:+ path;
        "Verify the user running the job has appropriate permissions" ]
  | FileNotFound path =>
      [ "Verify the file exists: " +:+ path;
        "Check the working directory configuration";
        "Create the missing file or fix the path" ]
  | ProcessSpawnFailed _ =>
      [ "Check system resources (memory, file descriptors)";
        "Review the command syntax and arguments";
        "Check for conflicting processes" ]
  | ExecutionTimeout limit_secs =>
      [ "Increase timeout limit (current: " +:+ show_Z limit_secs +:+ "s)";
        "Optimize the job script to run faster";
        "Break the job into smaller chunks" ]
  | SignalReceived signal =>
      if (signal =? 9) || (signal =? 15) then
        [ "The process was terminated (SIGTERM/SIGKILL)";
          "Check if there's a timeout or resource limit configured";
          "Review external systems that might be killing the process" ]
      else if signal =? 11 then
        [ "Segmentation fault - the program crashed";
          "Check for memory issues in the application";
          "Verify the application is compatible with the environment" ]
      else
        [ "Process received signal: " +:+ show_Z signal;
          "Check system logs for more details";
          "Review the application for potential crashes" ]
  | NonZeroExitCode _ =>
      [ "Check the application logs for specific error messages";
        "Verify all required inputs and configurations are correct";
        "Review the application documentation for exit code meanings" ]
  | InfrastructureError _ =>
      [ "Check the provider status and connectivity";
        "Verify resource availability (CPU, memory, disk)";
        "Contact support if the issue persists" ]
  | ValidationError field reason =>
      [ "Fix the '" +:+ field +:+ "' field: " +:+ reason;
        "Review the job specification for required fields";
        "Update the configuration with valid values" ]
  | ConfigurationError key message =>
      [ "Fix configuration key '" +:+ key +:+ "': " +:+ message;
        "Check environment variables and configuration files";
        "Verify all required secrets and keys are set" ]
  | SecretInjectionError secret_name message =>
      [ "Verify secret '" +:+ secret_name +:+ "' exists and is accessible";
        "Secret injection error: " +:+ message;
        "Check IAM/permissions for secret access" ]
  | IoError operation _ _ =>
      [ "Retry the '" +:+ operation +:+ "' operation";
        "Check disk space and file system health";
        "Verify the path is accessible and not corrupted" ]
  | Unknown _ =>
      [ "Review the full error message and logs";
        "Try running the job with more verbose logging";
        "Contact support with the error details" ]
  end.

(** src: crates/shared/src/states.rs 804-811 JobFailureReason::is_infrastructure_error *)
Definition is_infrastructure_error (r : t) : bool :=
  match r with
  | InfrastructureError _ | ProcessSpawnFailed _ | IoError _ _ _ => true
  | _ => false
  end.

(** src: crates/shared/src/states.rs 814-825 JobFailureReason::is_user_error *)
Definition is_user_error (r : t) : bool :=
  match r with
  | CommandNotFound _ | PermissionDenied _ _ | FileNotFound _
  | ValidationError _ _ | ConfigurationError _ _ | SecretInjectionError _ _
  | ExecutionTimeout _ => true
  | _ => false
  end.

End JobFailureReason.

Module DispatchFailureReason.

(** src: crates/shared/src/states.rs 830-855 DispatchFailureReason *)
Inductive t :=
  | WorkerNotReady (current_state : string)
  | CommunicationTimeout (timeout_ms : Z)
  | WorkerCrashed
  | ChannelClosed
  | ProtocolError (message : string)
  | NetworkError (message : string).

(** src: crates/shared/src/states.rs 857-880 impl Display for DispatchFailureReason *)
Definition fmt (r : t) : string :=
  match r with
  | WorkerNotReady current_state =>
      "WORKER_NOT_READY: worker in state " +:+ current_state
  | CommunicationTimeout timeout_ms =>
      "COMMUNICATION_TIMEOUT: exceeded " +:+ show_Z timeout_ms +:+ "ms"
  | WorkerCrashed => "WORKER_CRASHED"
  | ChannelClosed => "CHANNEL_CLOSED"
  | ProtocolError message => "PROTOCOL_ERROR: " +:+ message
  | NetworkError message => "NETWORK_ERROR: " +:+ message
  end.

End DispatchFailureReason.

Module ProvisioningFailureReason.

(** src: crates/shared/src/states.rs 884-925 ProvisioningFailureReason *)
Inductive t :=
  | ImagePullFailed (image message : string)
  | ResourceAllocationFailed (resource message : string)
  | NetworkSetupFailed (message : string)
  | AuthenticationFailed (message : string)
  | Timeout
  | ProviderUnavailable
  | InternalError (message : string)
  | InvalidConfiguration (field reason : string).

(** src: crates/shared/src/states.rs 927-956 impl Display for ProvisioningFailureReason *)
Definition fmt (r : t) : string :=
  match r with
  | ImagePullFailed image message =>
      "IMAGE_PULL_FAILED: " +:+ image +:+ " - " +:+ message
  | ResourceAllocationFailed resource message =>
      "RESOURCE_ALLOCATION_FAILED: " +:+ resource +:+ " - " +:+ message
  | NetworkSetupFailed message => "NETWORK_SETUP_FAILED: " +:+ message
  | AuthenticationFailed message => "AUTHENTICATION_FAILED: " +:+ message
  | Timeout => "PROVISIONING_TIMEOUT"
  | ProviderUnavailable => "PROVIDER_UNAVAILABLE"
  | InternalError message => "INTERNAL_ERROR: " +:+ message
  | InvalidConfiguration field reason =>
      "INVALID_CONFIGURATION: " +:+ field +:+ " - " +:+ reason
  end.

End ProvisioningFailureReason.

Module SchedulingFailureReason.

(** src: crates/shared/src/states.rs 960-993 SchedulingFailureReason *)
Inductive t :=
  | NoProvidersAvailable
  | NoMatchingProviders (requirement : string)
  | ProviderOverloaded
  | ProviderUnhealthy (provider_id : string)
  | ResourceConstraintsNotMet (resource required available : string)
  | InternalError (message : string)
  | JobCancelled
  | JobExpired.

(** src: crates/shared/src/states.rs 995-1032 impl Display for SchedulingFailureReason *)
Definition fmt (r : t) : string :=
  match r with
  | NoProvidersAvailable => "NO_PROVIDERS_AVAILABLE"
  | NoMatchingProviders requirement => "NO_MATCHING_PROVIDERS: " +:+ requirement
  | ProviderOverloaded => "PROVIDER_OVERLOADED"
  | ProviderUnhealthy provider_id => "PROVIDER_UNHEALTHY: " +:+ provider_id
  | ResourceConstraintsNotMet resource required available =>
      "RESOURCE_CONSTRAINTS_NOT_MET: " +:+ resource +:+ " required=" +:+ required
      +:+ ", available=" +:+ available
  | InternalError message => "INTERNAL_ERROR: " +:+ message
  | JobCancelled => "JOB_CANCELLED"
  | JobExpired => "JOB_EXPIRED"
  end.

End SchedulingFailureReason.

Module ProviderErrorType.

(** src: crates/shared/src/states.rs 1036-1045 ProviderErrorType *)
Inductive t :=
  | ConnectionLost
  | AuthenticationFailed
  | ResourceLimitExceeded
  | WorkerNotFound
  | ProvisioningFailed
  | Timeout
  | ConfigurationError
  | Internal.

(** src: crates/shared/src/states.rs 1047-1060 impl Display for ProviderErrorType *)
Definition fmt (e : t) : string :=
  match e with
  | ConnectionLost => "CONNECTION_LOST"
  | AuthenticationFailed => "AUTHENTICATION_FAILED"
  | ResourceLimitExceeded => "RESOURCE_LIMIT_EXCEEDED"
  | WorkerNotFound => "WORKER_NOT_FOUND"
  | ProvisioningFailed => "PROVISIONING_FAILED"
  | Timeout => "TIMEOUT"
  | ConfigurationError => "CONFIGURATION_ERROR"
  | Internal => "INTERNAL_ERROR"
  end.

End ProviderErrorType.

(** ** Histories

    A history of a state machine is the list of states it went through, the
    oldest first; each consecutive pair is a transition the code allows. *)

Definition allowed {A} (can : A -> A -> bool) (s n : A) : Prop := can s n = true.

Inductive history {A} (can : A -> A -> bool) (s0 : A) : list A -> Prop :=
  | history_start : history can s0 [s0]
  | history_step h s n :
      history can s0 (h ++ [s]) -> allowed can s n ->
      history can s0 (h ++ [s; n]).

Definition job_history := history JobState.can_transition_to JobState.Pending.
Definition worker_history := history WorkerState.can_transition_to WorkerState.Creating.

(** The order in which a worker's states can be visited. *)
Definition worker_rank (s : WorkerState.t) : nat :=
  match s with
  | WorkerState.Creating => 0
  | WorkerState.Ready => 1
  | WorkerState.Busy => 2
  | WorkerState.Terminated => 3
  end.

(** ** Wire formats *)

Section wire_laws.
Context {A : Type} `{!WireEnum A} `{!WireLaws A}.

Lemma from_str_iff s (a : A) : from_str s = Ok a <-> s = display a.
Proof.
  split; [by intros ->%from_str_inv | intros ->; apply from_str_display].
Qed.

Lemma try_from_iff z (a : A) : try_from_i32 z = Ok a <-> z = to_i32 a.
Proof.
  split; [by intros <-%try_from_inv | intros ->; apply try_from_to_i32].
Qed.

Lemma display_inj (a b : A) : display a = display b -> a = b.
Proof.
  intros H. apply (f_equal from_str) in H. rewrite !from_str_display in H.
  by injection H.
Qed.

Lemma to_i32_inj (a b : A) : to_i32 a = to_i32 b -> a = b.
Proof.
  intros H. apply (f_equal try_from_i32) in H. rewrite !try_from_to_i32 in H.
  by injection H.
Qed.
End wire_laws.

(** The laws of a concrete codec: compute forwards, split the tests of the
    parser backwards. *)
Ltac refuse_tests eqb spec :=
  repeat (match goal with
    |- context [eqb ?x ?y] => destruct (spec x y)
  end; [intros; inv_result; done |]); by intros.

Ltac wire_tac parse try_from :=
  split;
  [ by intros []
  | intros s a; change (from_str s) with (parse s); unfold parse;
    refuse_tests String.eqb String.eqb_spec
  | by intros []
  | intros z a; change (try_from_i32 z) with (try_from z); unfold try_from;
    refuse_tests Z.eqb Z.eqb_spec ].

#[export] Instance job_state_wire_laws : WireLaws JobState.t.
Proof. wire_tac JobState.parse JobState.try_from. Qed.
#[export] Instance worker_state_wire_laws : WireLaws WorkerState.t.
Proof. wire_tac WorkerState.parse WorkerState.try_from. Qed.
#[export] Instance provider_status_wire_laws : WireLaws ProviderStatus.t.
Proof. wire_tac ProviderStatus.parse ProviderStatus.try_from. Qed.
#[export] Instance execution_status_wire_laws : WireLaws ExecutionStatus.t.
Proof. wire_tac ExecutionStatus.parse ExecutionStatus.try_from. Qed.

(** ** Lemmas on histories *)

Section histories.
Context {A : Type} (can : A -> A -> bool) (s0 : A).

Lemma history_nonempty h : history can s0 h -> h <> [].
Proof. intros [|h' s n]; [done | by destruct h']. Qed.

Lemma history_snoc h s n :
  history can s0 (h ++ [s; n]) -> history can s0 (h ++ [s]) /\ allowed can s n.
Proof.
  intros H. inversion H as [E | h' s' n' H' Hstep E].
  - by destruct h as [|? []].
  - replace (h' ++ [s'; n']) with ((h' ++ [s']) ++ [n']) in E by (by rewrite <- app_assoc).
    replace (h ++ [s; n]) with ((h ++ [s]) ++ [n]) in E by (by rewrite <- app_assoc).
    apply app_inj_tail in E as [E ->]. apply app_inj_tail in E as [-> ->].
    by split.
Qed.

(** A state that is not the start was entered from somewhere. *)
Lemma history_last_cases h n :
  history can s0 (h ++ [n]) ->
  (h = [] /\ n = s0) \/
  exists h' s, h = h' ++ [s] /\ history can s0 (h' ++ [s]) /\ allowed can s n.
Proof.
  intros H. destruct h as [|s h' _] using rev_ind.
  - left. split; [done|]. inversion H as [E | h' s' n' ? ? E]; [congruence|].
    by destruct h' as [|? []].
  - right. exists h', s. rewrite <- app_assoc in H.
    by destruct (history_snoc _ _ _ H).
Qed.

Lemma history_ind_last (P : A -> Prop) :
  P s0 -> (forall s n, P s -> allowed can s n -> P n) ->
  forall h n, history can s0 (h ++ [n]) -> P n.
Proof.
  intros H0 Hs h. induction h as [|x h IH] using rev_ind; intros n H.
  - destruct (history_last_cases _ _ H) as [[_ ->] | (h' & s & E & _)]; [done|].
    by destruct h'.
  - destruct (history_last_cases _ _ H) as [[E _] | (h' & s & E & Hh & Hn)].
    + by destruct h.
    + apply app_inj_tail in E as [-> ->]. eauto.
Qed.
End histories.

Lemma worker_rank_increases s n :
  allowed WorkerState.can_transition_to s n -> (worker_rank s < worker_rank n)%nat.
Proof. destruct s, n; cbv; intros; try lia; discriminate. Qed.

Lemma worker_history_rank h n :
  worker_history (h ++ [n]) -> (length h <= worker_rank n)%nat.
Proof.
  revert n. induction h as [|s h IH] using rev_ind; intros n H; [simpl; lia|].
  destruct (history_last_cases _ _ _ _ H) as [[E _] | (h' & s' & E & Hh & Hn)].
  - by destruct h.
  - apply app_inj_tail in E as [-> ->].
    apply worker_rank_increases in Hn. apply IH in Hh.
    rewrite length_app. simpl. lia.
Qed.

(** ** Properties *)

(** The textual and the [i32] wire formats of the four shared state
    enums are lossless and strict: a string or number parses to a state
    exactly when it is what that state prints. *)
Theorem state_wire_formats_exact :
  (forall s a, JobState.parse s = Ok a <-> s = JobState.fmt a) /\
  (forall z a, JobState.try_from z = Ok a <-> z = JobState.into_i32 a) /\
  (forall s a, WorkerState.parse s = Ok a <-> s = WorkerState.fmt a) /\
  (forall z a, WorkerState.try_from z = Ok a <-> z = WorkerState.into_i32 a) /\
  (forall s a, ProviderStatus.parse s = Ok a <-> s = ProviderStatus.fmt a) /\
  (forall z a, ProviderStatus.try_from z = Ok a <-> z = ProviderStatus.into_i32 a) /\
  (forall s a, ExecutionStatus.parse s = Ok a <-> s = ExecutionStatus.fmt a) /\
  (forall z a, ExecutionStatus.try_from z = Ok a <-> z = ExecutionStatus.into_i32 a).
Proof.
  split_and!; intros; first [exact (from_str_iff s a) | exact (try_from_iff z a)].
Qed.

(** A job's history that ends in [Succeeded] went through a
    scheduling decision and then [Running] right before: no job succeeds
    without having been assigned or scheduled and started. *)
Theorem job_succeeds_only_through_running h :
  job_history (h ++ [JobState.Succeeded]) ->
  exists h' s, JobState.is_scheduled s = true /\
    h = h' ++ [s; JobState.Running].
Proof.
  intros H.
  destruct (history_last_cases _ _ _ _ H) as [[_ E] | (h1 & r & -> & Hr & Hn)];
    [done|].
  assert (r = JobState.Running) as -> by by destruct r.
  destruct (history_last_cases _ _ _ _ Hr) as [[_ E] | (h2 & s & -> & _ & Hs)];
    [done|].
  exists h2, s. rewrite <- app_assoc. split; [by destruct s | done].
Qed.

Example job_succeeds_only_through_running_witness :
  exists h' s, JobState.is_scheduled s = true /\
    [JobState.Pending; JobState.Assigned; JobState.Running] = h' ++ [s; JobState.Running].
Proof.
  apply job_succeeds_only_through_running.
  apply (history_step _ _ [JobState.Pending; JobState.Assigned]); [|reflexivity].
  apply (history_step _ _ [JobState.Pending]); [|reflexivity].
  apply (history_step _ _ []); [|reflexivity].
  apply history_start.
Defined.

(** For jobs and workers the terminal predicate is exactly the
    absence of outgoing transitions, it is the complement of the in-progress
    predicate, and every job that is not terminal can still be failed and, the
    failed state apart, cancelled. *)
Theorem terminal_states_are_the_sinks :
  (forall s, JobState.is_terminal s = true <->
     forall n, JobState.can_transition_to s n = false) /\
  (forall s, JobState.is_in_progress s = negb (JobState.is_terminal s)) /\
  (forall s, JobState.is_terminal s = false <->
     JobState.can_transition_to s JobState.Failed = true /\
     JobState.can_transition_to s JobState.Cancelled = true) /\
  (forall s, WorkerState.is_terminal s = true <->
     forall n, WorkerState.can_transition_to s n = false) /\
  (forall s, WorkerState.is_active s = negb (WorkerState.is_terminated s)).
Proof.
  split; [|split; [by intros []|split; [|split; [|by intros []]]]].
  - intros s; split; [by intros Hs []; destruct s|].
    intros H. specialize (H JobState.Failed). by destruct s.
  - by intros []; split; try done; intros [].
  - intros s; split; [by intros Hs []; destruct s|].
    intros H. specialize (H WorkerState.Terminated). by destruct s.
Qed.

(** A worker changes state at most three times: whatever
    its history, it has at most four states, no state occurs twice, and a
    worker that was busy never becomes ready again. *)
Theorem worker_lifetime_is_bounded h n :
  worker_history (h ++ [n]) ->
  (length (h ++ [n]) <= 4)%nat /\ (n ∉ h) /\
  ((WorkerState.Busy ∈ h) -> n = WorkerState.Terminated).
Proof.
  intros H.
  assert (forall s, s ∈ h -> (worker_rank s < worker_rank n)%nat) as Hlt.
  { revert n H. induction h as [|s h IH] using rev_ind; intros n H x Hx.
    - by apply elem_of_nil in Hx.
    - destruct (history_last_cases _ _ _ _ H) as [[E _] | (h' & s' & E & Hh & Hn)].
      + by destruct h.
      + apply app_inj_tail in E as [-> ->]. apply worker_rank_increases in Hn.
        apply elem_of_app in Hx as [Hx | ->%list_elem_of_singleton]; [|done].
        specialize (IH _ Hh _ Hx). lia. }
  split; [|split].
  - apply worker_history_rank in H. rewrite length_app. destruct n; simpl in *; lia.
  - intros Hn. apply Hlt in Hn. lia.
  - intros Hb. apply Hlt in Hb. destruct n; simpl in Hb; try lia. done.
Qed.

Example worker_lifetime_is_bounded_witness :
  (length ([WorkerState.Creating; WorkerState.Ready] ++ [WorkerState.Busy]) <= 4)%nat /\
  (WorkerState.Busy ∉ [WorkerState.Creating; WorkerState.Ready]) /\
  ((WorkerState.Busy ∈ [WorkerState.Creating; WorkerState.Ready]) ->
   WorkerState.Busy = WorkerState.Terminated).
Proof.
  apply (worker_lifetime_is_bounded [WorkerState.Creating; WorkerState.Ready]).
  apply (history_step _ _ [WorkerState.Creating]); [|reflexivity].
  apply (history_step _ _ []); [|reflexivity].
  apply history_start.
Defined.
