(* ===== verification/Errors.v ===== *)
(** * Error types

    [SagaError] ([domain/src/saga/types.rs]), [OrchestratorError]
    ([domain/src/saga/orchestrator.rs]), [DomainError]
    ([domain/src/shared_kernel.rs]) with the messages their [Display] prints,
    and the validated value objects of [domain/src/shared_kernel/error_values]. *)

From S2P Require Import Prelude Std Externs States.

Module SagaError.

(** src: crates/server/domain/src/saga/types.rs 321-361 SagaError *)
Inductive t :=
  | SerializationError (msg : string)
  | DeserializationError (msg : string)
  | StepFailed (step message : string) (will_compensate : bool)
  | CompensationFailed (step message : string)
  | Timeout (duration : Duration)
  | Cancelled
  | ProviderCapacityExceeded (provider_id : string)
  | InfrastructureCreationFailed (message : string)
  | PersistenceError (message : string).

(** The messages of the [#[error]] attributes. *)
(** src: crates/server/domain/src/saga/types.rs 319-361 Display for SagaError *)
Definition fmt (e : t) : string :=
  match e with
  | SerializationError msg => "Serialization error: " +:+ msg
  | DeserializationError msg => "Deserialization error: " +:+ msg
  | StepFailed step message _ => "Step '" +:+ step +:+ "' failed: " +:+ message
  | CompensationFailed step message =>
      "Compensation for step '" +:+ step +:+ "' failed: " +:+ message
  | Timeout duration => "Saga timed out after " +:+ duration_debug duration
  | Cancelled => "Saga was cancelled"
  | ProviderCapacityExceeded provider_id =>
      "Provider capacity exceeded: " +:+ provider_id
  | InfrastructureCreationFailed message =>
      "Infrastructure creation failed: " +:+ message
  | PersistenceError message => "Persistence error: " +:+ message
  end.

End SagaError.

Module OrchestratorError.
Section orchestrator_error.
Context `{E : Externs}.

(** src: crates/server/domain/src/saga/orchestrator.rs 187-211 OrchestratorError *)
Inductive t :=
  | Timeout (duration : Duration)
  | Cancelled
  | StepFailed (step error : string)
  | CompensationFailed (step error : string)
  | ConcurrencyLimitExceeded (current max : Z)
  | RateLimitExceeded (remaining : Z)
  | SagaNotFound (saga_id : SagaId)
  | PersistenceError (message : string).

(** src: crates/server/domain/src/saga/orchestrator.rs 186-211 Display for OrchestratorError *)
Definition fmt (e : t) : string :=
  match e with
  | Timeout duration => "Saga execution timeout after " +:+ duration_debug duration
  | Cancelled => "Saga was cancelled"
  | StepFailed step error => "Saga step '" +:+ step +:+ "' failed: " +:+ error
  | CompensationFailed step error =>
      "Compensation failed for step '" +:+ step +:+ "': " +:+ error
  | ConcurrencyLimitExceeded current max =>
      "Concurrency limit exceeded: " +:+ show_Z current +:+ "/" +:+ show_Z max
  | RateLimitExceeded remaining =>
      "Rate limit exceeded: " +:+ show_Z remaining +:+ " permits remaining, try again later"
  | SagaNotFound saga_id => "Saga not found: " +:+ uuid_to_string saga_id
  | PersistenceError message => "Persistence error: " +:+ message
  end.

(** src: crates/server/domain/src/saga/orchestrator.rs 213-236 impl From<SagaError> for OrchestratorError *)
Definition from_saga_error (err : SagaError.t) : t :=
  match err with
  | SagaError.Timeout duration => Timeout duration
  | SagaError.Cancelled => Cancelled
  | SagaError.StepFailed step message _ => StepFailed step message
  | SagaError.CompensationFailed step message => CompensationFailed step message
  | SagaError.SerializationError msg | SagaError.DeserializationError msg =>
      PersistenceError msg
  | _ => PersistenceError (SagaError.fmt err)
  end.

End orchestrator_error.
End OrchestratorError.

Module DomainError.
Section domain_error.
Context `{E : Externs}.

(** src: crates/server/domain/src/shared_kernel.rs 7-105 DomainError *)
Inductive t :=
  | JobNotFound (job_id : JobId)
  | ProviderNotFound (provider_id : ProviderId)
  | InvalidStateTransition (job_id : JobId) (from_state to_state : JobState.t)
  | InvalidJobSpec (field reason : string)
  | InvalidWorkerSpec (field reason : string)
  | InvalidMaxAttempts (value : Z) (reason : string)
  | ProviderUnhealthy (provider_id : ProviderId)
  | ProviderCannotExecuteJob (provider_id : ProviderId) (reason : string)
  | JobAlreadyExecuted (job_id : JobId)
  | MaxAttemptsExceeded (job_id : JobId) (max_attempts : Z)
  | ProviderOverloaded (provider_id : ProviderId)
  | InvalidProviderConfig (message : string)
  | JobExecutionTimeout (job_id : JobId)
  | ExternalServiceError (service message : string)
  | InfrastructureError (message : string)
  | WorkerNotFound (worker_id : WorkerId)
  | WorkerNotAvailable (worker_id : WorkerId)
  | WorkerProvisioningFailed (message : string)
  | WorkerProvisioningTimeout
  | WorkerRecoveryFailed (message : string)
  | NoProviderAvailable
  | WorkerAlreadyExists (worker_id : WorkerId)
  | InvalidWorkerStateTransition (current requested : string)
  | InvalidOtpToken (message : string)
  | SagaTimeout (duration : Duration)
  | SagaStepFailed (step error : string)
  | SagaCompensated (saga_id : string)
  | SagaError (message : string)
  | TemplateParameterValidationError (message : string)
  | OrchestratorError (error : OrchestratorError.t).

(** src: crates/server/domain/src/shared_kernel.rs 6-105 Display for DomainError *)
Definition fmt (e : t) : string :=
  match e with
  | JobNotFound job_id => "Job not found: " +:+ uuid_to_string job_id
  | ProviderNotFound provider_id => "Provider not found: " +:+ uuid_to_string provider_id
  | InvalidStateTransition job_id from_state to_state =>
      "Invalid job state transition from " +:+ JobState.fmt from_state +:+ " to "
      +:+ JobState.fmt to_state +:+ " for job " +:+ uuid_to_string job_id
  | InvalidJobSpec field reason => "Invalid job spec field " +:+ field +:+ ": " +:+ reason
  | InvalidWorkerSpec field reason =>
      "Invalid worker spec field " +:+ field +:+ ": " +:+ reason
  | InvalidMaxAttempts value reason =>
      "Invalid max attempts value: " +:+ show_Z value +:+ " - " +:+ reason
  | ProviderUnhealthy provider_id =>
      "Provider " +:+ uuid_to_string provider_id +:+ " is not healthy"
  | ProviderCannotExecuteJob provider_id reason =>
      "Provider " +:+ uuid_to_string provider_id +:+ " cannot execute job: " +:+ reason
  | JobAlreadyExecuted job_id =>
      "Job " +:+ uuid_to_string job_id +:+ " has already been executed"
  | MaxAttemptsExceeded job_id max_attempts =>
      "Job " +:+ uuid_to_string job_id +:+ " has exceeded max attempts ("
      +:+ show_Z max_attempts +:+ ")"
  | ProviderOverloaded provider_id =>
      "Provider " +:+ uuid_to_string provider_id +:+ " is overloaded"
  | InvalidProviderConfig message => "Invalid provider configuration: " +:+ message
  | JobExecutionTimeout job_id => "Job execution timeout: " +:+ uuid_to_string job_id
  | ExternalServiceError service message =>
      "External service error: " +:+ service +:+ ": " +:+ message
  | InfrastructureError message => "Infrastructure error: " +:+ message
  | WorkerNotFound worker_id => "Worker not found: " +:+ uuid_to_string worker_id
  | WorkerNotAvailable worker_id =>
      "Worker " +:+ uuid_to_string worker_id +:+ " is not available"
  | WorkerProvisioningFailed message => "Worker provisioning failed: " +:+ message
  | WorkerProvisioningTimeout => "Worker provisioning timeout"
  | WorkerRecoveryFailed message => "Worker recovery failed: " +:+ message
  | NoProviderAvailable => "No provider available for job requirements"
  | WorkerAlreadyExists worker_id =>
      "Worker " +:+ uuid_to_string worker_id +:+ " already exists"
  | InvalidWorkerStateTransition current requested =>
      "Invalid worker state transition from " +:+ current +:+ " to " +:+ requested
  | InvalidOtpToken message => "Invalid OTP token: " +:+ message
  | SagaTimeout duration => "Saga execution timeout after " +:+ duration_debug duration
  | SagaStepFailed step error => "Saga step '" +:+ step +:+ "' failed: " +:+ error
  | SagaCompensated saga_id => "Saga was compensated: " +:+ saga_id
  | SagaError message => "Saga error: " +:+ message
  | TemplateParameterValidationError message =>
      "Template parameter validation error: " +:+ message
  | OrchestratorError error => "Saga orchestrator error: " +:+ OrchestratorError.fmt error
  end.

End domain_error.
End DomainError.

(** ** Validated value objects *)

Module MaxAttempts.
Section max_attempts.
Context `{E : Externs}.

Definition MIN : Z := 1.
Definition MAX : Z := 100.
Definition DEFAULT : Z := 3.

(** src: crates/server/domain/src/shared_kernel/error_values/mod.rs 15-15 MaxAttempts *)
Record t := mk { value : Z }.

(** src: crates/server/domain/src/shared_kernel/error_values/mod.rs 26-40 MaxAttempts::new *)
Definition new (v : Z) : result DomainError.t t :=
  if v <? MIN then
    Err (DomainError.InvalidMaxAttempts v
           ("max_attempts must be at least " +:+ show_Z MIN))
  else if MAX <? v then
    Err (DomainError.InvalidMaxAttempts v
           ("max_attempts cannot exceed " +:+ show_Z MAX))
  else Ok (mk v).

(** src: crates/server/domain/src/shared_kernel/error_values/mod.rs 43-45 MaxAttempts::default *)
Definition default : t := mk DEFAULT.

(** src: crates/server/domain/src/shared_kernel/error_values/mod.rs 53-55 MaxAttempts::is_unlimited *)
Definition is_unlimited (m : t) : bool := value m =? MAX.

(** src: crates/server/domain/src/shared_kernel/error_values/mod.rs 58-60 MaxAttempts::increment *)
Definition increment (m : t) : t := mk (Z.min (u32_saturating_add (value m) 1) MAX).

(** src: crates/server/domain/src/shared_kernel/error_values/mod.rs 63-65 MaxAttempts::has_exceeded *)
Definition has_exceeded (m : t) (current : Z) : bool := value m <=? current.

End max_attempts.
End MaxAttempts.

Module JobTimeout.
Section job_timeout.
Context `{E : Externs}.

Definition MIN_SECS : Z := 1.
Definition MAX_SECS : Z := 86400.
Definition DEFAULT_SECS : Z := 300.

(** src: crates/server/domain/src/shared_kernel/error_values/mod.rs 90-90 JobTimeout *)
Record t := mk { duration : Duration }.

(** src: crates/server/domain/src/shared_kernel/error_values/mod.rs 101-118 JobTimeout::from_secs *)
Definition of_secs (seconds : Z) : result DomainError.t t :=
  if seconds <? MIN_SECS then
    Err (DomainError.InvalidJobSpec "timeout"
           ("timeout must be at least " +:+ show_Z MIN_SECS +:+ " second(s)"))
  else if MAX_SECS <? seconds then
    Err (DomainError.InvalidJobSpec "timeout"
           ("timeout cannot exceed " +:+ show_Z MAX_SECS +:+ " seconds (24 hours)"))
  else Ok (mk (from_secs seconds)).

(** src: crates/server/domain/src/shared_kernel/error_values/mod.rs 121-123 JobTimeout::default *)
Definition default : t := mk (from_secs DEFAULT_SECS).

(** src: crates/server/domain/src/shared_kernel/error_values/mod.rs 126-128 JobTimeout::as_secs *)
Definition secs (t : t) : Z := as_secs (duration t).

(** src: crates/server/domain/src/shared_kernel/error_values/mod.rs 131-133 JobTimeout::as_minutes *)
Definition as_minutes (t : t) : Z := as_secs (duration t) / 60.

(** src: crates/server/domain/src/shared_kernel/error_values/mod.rs 136-138 JobTimeout::as_hours *)
Definition as_hours (t : t) : Z := as_secs (duration t) / 3600.

(** src: crates/server/domain/src/shared_kernel/error_values/mod.rs 141-143 JobTimeout::is_short *)
Definition is_short (t : t) : bool := duration t <? from_secs 60.

(** src: crates/server/domain/src/shared_kernel/error_values/mod.rs 146-148 JobTimeout::is_long *)
Definition is_long (t : t) : bool := from_secs 3600 <? duration t.

(** src: crates/server/domain/src/shared_kernel/error_values/mod.rs 151-162 Display for JobTimeout *)
Definition fmt (t : t) : string :=
  let secs := as_secs (duration t) in
  if 3600 <=? secs then show_Z (secs / 3600) +:+ "h"
  else if 60 <=? secs then show_Z (secs / 60) +:+ "m"
  else show_Z secs +:+ "s".

End job_timeout.
End JobTimeout.

Module ValidationError.
Section validation_error.
Context `{E : Externs}.

(** src: crates/server/domain/src/shared_kernel/error_values/mod.rs 186-190 ValidationError *)
Record t := mk { field : string; reason : string; value : option string }.

(** src: crates/server/domain/src/shared_kernel/error_values/mod.rs 193-199 ValidationError::new *)
Definition new (field reason : string) : t := mk field reason None.

(** src: crates/server/domain/src/shared_kernel/error_values/mod.rs 201-211 ValidationError::with_value *)
Definition with_value (field reason value : string) : t := mk field reason (Some value).

(** src: crates/server/domain/src/shared_kernel/error_values/mod.rs 214-222 Display for ValidationError *)
Definition fmt (e : t) : string :=
  match value e with
  | Some v => field e +:+ ": " +:+ reason e +:+ " (got: " +:+ v +:+ ")"
  | None => field e +:+ ": " +:+ reason e
  end.

(** src: crates/server/domain/src/shared_kernel/error_values/mod.rs 226-233 impl From<ValidationError> for DomainError *)
Definition into_domain (e : t) : DomainError.t :=
  DomainError.InvalidJobSpec (field e) (reason e).

End validation_error.
End ValidationError.

(** ** Properties *)

Section value_objects.
Context `{E : Externs}.

Lemma as_secs_from_secs s : as_secs (from_secs s) = s.
Proof. unfold as_secs, from_secs. by apply Z.div_mul. Qed.

Lemma as_millis_from_millis s : as_millis (from_millis s) = s.
Proof. unfold as_millis, from_millis. by apply Z.div_mul. Qed.

(** The constructors of the two validated value objects accept exactly
    the documented ranges (1 to 100 attempts, 1 second to 24 hours), keep the
    number they were given, and no later operation leaves the range:
    incrementing an attempt count saturates at 100. *)
Theorem value_objects_stay_in_range :
  (forall v m, MaxAttempts.new v = Ok m <->
     1 <= v <= 100 /\ m = MaxAttempts.mk v) /\
  (forall v m, MaxAttempts.new v = Ok m ->
     MaxAttempts.new (MaxAttempts.value (MaxAttempts.increment m)) =
       Ok (MaxAttempts.mk (Z.min (v + 1) 100))) /\
  (forall s t, JobTimeout.of_secs s = Ok t ->
     1 <= s <= 86400 /\ JobTimeout.secs t = s /\
     (JobTimeout.is_short t = true <-> s < 60) /\
     (JobTimeout.is_long t = true <-> 3600 < s)) /\
  (forall s, 1 <= s <= 86400 -> is_ok (JobTimeout.of_secs s) = true).
Proof.
  assert (forall v m, MaxAttempts.new v = Ok m <->
     1 <= v <= 100 /\ m = MaxAttempts.mk v) as Hnew.
  { intros v m. unfold MaxAttempts.new, MaxAttempts.MIN, MaxAttempts.MAX.
    destruct (Z.ltb_spec v 1), (Z.ltb_spec 100 v);
      (split; [intros; inv_result; (split; [lia|done])|]);
      intros [? ->]; try lia; done. }
  split; [done|]. split; [|split].
  - intros v m Hm. apply Hnew in Hm as [Hv ->]. simpl.
    apply Hnew. unfold u32_saturating_add, u32_max, MaxAttempts.MAX.
    change (2 ^ 32) with 4294967296. split; [lia|]. f_equal. lia.
  - intros s t. unfold JobTimeout.of_secs, JobTimeout.MIN_SECS, JobTimeout.MAX_SECS.
    destruct (Z.ltb_spec s 1), (Z.ltb_spec 86400 s); intros; inv_result.
    unfold JobTimeout.secs, JobTimeout.is_short, JobTimeout.is_long. simpl.
    rewrite as_secs_from_secs, !Z.ltb_lt. unfold from_secs. lia.
  - intros s Hs. unfold JobTimeout.of_secs, JobTimeout.MIN_SECS, JobTimeout.MAX_SECS.
    by destruct (Z.ltb_spec s 1), (Z.ltb_spec 86400 s); try lia.
Qed.

End value_objects.
