(* ===== verification/JobSpec.v ===== *)
(** * Job specifications ([domain/src/jobs/aggregate.rs], first half)

    Commands, constraints, artifacts, resources and preferences of a job, the
    builder methods, validation, parameter substitution and the priority
    scores.  The scores are [f32] computations, with binary32 rounding. *)

From S2P Require Import Prelude Std Externs States Errors.

(** ** Data *)

Module CommandType.

(** src: crates/server/domain/src/jobs/aggregate.rs 14-22 CommandType *)
Inductive t :=
  | Shell (cmd : string) (args : list string)
  | Script (interpreter content : string).

#[global] Instance t_eq_dec : EqDecision t.
Proof. solve_decision. Defined.

(** src: crates/server/domain/src/jobs/aggregate.rs 26-31 CommandType::shell *)
Definition shell (cmd : string) : t := Shell cmd [].

(** src: crates/server/domain/src/jobs/aggregate.rs 34-39 CommandType::shell_with_args *)
Definition shell_with_args (cmd : string) (args : list string) : t := Shell cmd args.

(** src: crates/server/domain/src/jobs/aggregate.rs 42-47 CommandType::script *)
Definition script (interpreter content : string) : t := Script interpreter content.

(** src: crates/server/domain/src/jobs/aggregate.rs 50-64 CommandType::to_command_vec *)
Definition to_command_vec (c : t) : list string :=
  match c with
  | Shell cmd args => cmd :: args
  | Script interpreter content => [interpreter; "-c"; content]
  end.

End CommandType.

Module ConstraintOperator.
(** src: crates/server/domain/src/jobs/aggregate.rs 69-82 ConstraintOperator *)
Inductive t := Eq | Ne | Gt | Lt | In | NotIn.

#[global] Instance t_eq_dec : EqDecision t.
Proof. solve_decision. Defined.
End ConstraintOperator.

Module Constraint.
(** src: crates/server/domain/src/jobs/aggregate.rs 86-93 Constraint *)
Record t := new {
  key : string;
  operator : ConstraintOperator.t;
  value : string;
}.

#[global] Instance t_eq_dec : EqDecision t.
Proof. solve_decision. Defined.

(** src: crates/server/domain/src/jobs/aggregate.rs 109-111 Constraint::eq *)
Definition eq (key value : string) : t := new key ConstraintOperator.Eq value.

(** src: crates/server/domain/src/jobs/aggregate.rs 114-116 Constraint::provider *)
Definition provider (provider_name : string) : t := eq "provider" provider_name.
End Constraint.

(** src: crates/server/domain/src/jobs/aggregate.rs 121-126 ArtifactSource *)
Record ArtifactSource := { source_url : string; dest_path : string }.

(** src: crates/server/domain/src/jobs/aggregate.rs 130-135 ArtifactDest *)
Record ArtifactDest := { src_path : string; dest_url : string }.

#[global] Instance ArtifactSource_eq_dec : EqDecision ArtifactSource.
Proof. solve_decision. Defined.
#[global] Instance ArtifactDest_eq_dec : EqDecision ArtifactDest.
Proof. solve_decision. Defined.

Module JobResources.
(** src: crates/server/domain/src/jobs/aggregate.rs 603-614 JobResources *)
Record t := {
  cpu_cores : f32;
  memory_mb : Z;
  storage_mb : Z;
  gpu_required : bool;
  architecture : string;
}.

#[global] Instance t_eq_dec : EqDecision t.
Proof. solve_decision. Defined.

(** src: crates/server/domain/src/jobs/aggregate.rs 616-626 impl Default for JobResources *)
Definition default : t := {|
  cpu_cores := F32.of_Z 1;
  memory_mb := 512;
  storage_mb := 1024;
  gpu_required := false;
  architecture := "x86_64";
|}.
End JobResources.

Module JobPriority.
(** src: crates/server/domain/src/jobs/aggregate.rs 675-680 JobPriority *)
Inductive t := Low | Normal | High | Critical.

#[global] Instance t_eq_dec : EqDecision t.
Proof. solve_decision. Defined.

(** src: crates/server/domain/src/jobs/aggregate.rs 682-691 impl Display for JobPriority *)
Definition fmt (p : t) : string :=
  match p with
  | Low => "LOW"
  | Normal => "NORMAL"
  | High => "HIGH"
  | Critical => "CRITICAL"
  end.
End JobPriority.

Module JobPreferences.
(** src: crates/server/domain/src/jobs/aggregate.rs 642-657 JobPreferences *)
Record t := {
  preferred_provider : option string;
  preferred_region : option string;
  max_budget : option f64;
  priority : JobPriority.t;
  allow_retry : bool;
  required_labels : gmap string string;
  required_annotations : gmap string string;
}.

#[global] Instance t_rebuild : Rebuild t := fun p => {|
  preferred_provider := preferred_provider p; preferred_region := preferred_region p;
  max_budget := max_budget p; priority := priority p; allow_retry := allow_retry p;
  required_labels := required_labels p; required_annotations := required_annotations p |}.

#[global] Instance t_eq_dec : EqDecision t.
Proof. solve_decision. Defined.

(** src: crates/server/domain/src/jobs/aggregate.rs 659-671 impl Default for JobPreferences *)
Definition default : t := {|
  preferred_provider := None;
  preferred_region := None;
  max_budget := None;
  priority := JobPriority.Normal;
  allow_retry := true;
  required_labels := ∅;
  required_annotations := ∅;
|}.
End JobPreferences.

(** ** Parameter substitution

    A [HashMap] of parameters is iterated in an order the standard library
    leaves unspecified; it is given to the functions below as the list of its
    entries in the order of that iteration, and looked up through
    [list_to_map]. *)

Definition parameters : Type := list (string * string).
Definition get_param (ps : parameters) (k : string) : option string :=
  (list_to_map ps : gmap string string) !! k.

(** [format!("${{{}}}", name)]. *)
Definition placeholder (name : string) : string := "${" +:+ name +:+ "}".

(** src: crates/server/domain/src/jobs/aggregate.rs 186-190 substitute_parameters (bracket format) *)
Definition bracket_pass (ps : parameters) (input : string) : string :=
  fold_left (fun r '(name, value) => str_replace (placeholder name) value r) ps input.

Definition ident_start (c : ascii) : bool :=
  is_ascii_alphabetic c || Ascii.eqb c "_"%char.
Definition ident_char (c : ascii) : bool :=
  is_ascii_alphanumeric c || Ascii.eqb c "_"%char.

(** The inner [while]: the longest prefix of identifier characters, and what
    follows it. *)
(** src: crates/server/domain/src/jobs/aggregate.rs 203-206 substitute_parameters (inner loop) *)
Fixpoint span_ident (s : string) : string * string :=
  match s with
  | EmptyString => (EmptyString, EmptyString)
  | String c s' =>
      if ident_char c then
        let (w, rest) := span_ident s' in (String c w, rest)
      else (EmptyString, s)
  end.

(** The [while i < chars.len()] loop; [s] is what is left from index [i].  A
    step consumes at least one character, so [String.length s] is enough
    fuel ([simple_pass_unfold]). *)
(** src: crates/server/domain/src/jobs/aggregate.rs 194-218 substitute_parameters (simple format) *)
Fixpoint simple_pass_fuel (fuel : nat) (ps : parameters) (s : string) : string :=
  match fuel with
  | O => s
  | S fuel =>
      match s with
      | EmptyString => EmptyString
      | String c rest =>
          let push := String c (simple_pass_fuel fuel ps rest) in
          if Ascii.eqb c "$"%char then
            match rest with
            | String c1 rest1 =>
                if ident_start c1 then
                  let (w, after) := span_ident rest1 in
                  match get_param ps (String c1 w) with
                  | Some value => value +:+ simple_pass_fuel fuel ps after
                  | None => push
                  end
                else push
            | EmptyString => push
            end
          else push
      end
  end.

Definition simple_pass (ps : parameters) (s : string) : string :=
  simple_pass_fuel (String.length s) ps s.

(** src: crates/server/domain/src/jobs/aggregate.rs 183-219 substitute_parameters *)
Definition substitute_parameters (input : string) (ps : parameters) : string :=
  simple_pass ps (bracket_pass ps input).

(** src: crates/server/domain/src/jobs/aggregate.rs 222-250 substitute_in_command *)
Definition substitute_in_command (command : CommandType.t) (ps : parameters) : CommandType.t :=
  match command with
  | CommandType.Shell cmd args =>
      CommandType.Shell (substitute_parameters cmd ps)
        ((fun arg => substitute_parameters arg ps) <$> args)
  | CommandType.Script interpreter content =>
      CommandType.Script (substitute_parameters interpreter ps)
        (substitute_parameters content ps)
  end.

(** ** The specification *)

Module JobSpec.
Section job_spec.
Context `{E : Externs}.

(** src: crates/server/domain/src/jobs/aggregate.rs 139-162 JobSpec *)
Record t := mk {
  command : CommandType.t;
  env : gmap string string;
  inputs : list ArtifactSource;
  outputs : list ArtifactDest;
  constraints : list Constraint.t;
  resources : JobResources.t;
  timeout_ms : Z;
  image : option string;
  working_dir : option string;
  stdin : option string;
  preferences : JobPreferences.t;
}.

#[global] Instance t_rebuild : Rebuild t := fun s =>
  mk (command s) (env s) (inputs s) (outputs s) (constraints s) (resources s) (timeout_ms s)
    (image s) (working_dir s) (stdin s) (preferences s).

#[global] Instance t_eq_dec : EqDecision t.
Proof. solve_decision. Defined.

(** src: crates/server/domain/src/jobs/aggregate.rs 254-259 JobSpec::looks_like_script *)
Definition looks_like_script (content : string) : bool :=
  contains_char "010"%char content || starts_with "#!" content.

(** src: crates/server/domain/src/jobs/aggregate.rs 309-323 JobSpec::with_command *)
Definition with_command (command : CommandType.t) : t := {|
  command := command;
  env := ∅;
  inputs := [];
  outputs := [];
  constraints := [];
  resources := JobResources.default;
  timeout_ms := 300000;
  image := None;
  working_dir := None;
  stdin := None;
  preferences := JobPreferences.default;
|}.

(** The command a vector of words becomes. *)
(** src: crates/server/domain/src/jobs/aggregate.rs 267-292 JobSpec::new (command) *)
Definition new_command (command : list string) : CommandType.t :=
  let n := length command in
  if bool_decide (command = []) then
    CommandType.shell_with_args "bash" ["-c"; "echo"]
  else if bool_decide (2 <= n)%nat &&
          bool_decide (command !! (n - 2)%nat = Some "-c") then
    CommandType.shell_with_args (default "" (command !! 0%nat)) (drop 1 command)
  else if bool_decide (n = 1)%nat && looks_like_script (default "" (command !! 0%nat)) then
    CommandType.script "bash" (default "" (command !! 0%nat))
  else if bool_decide (n = 1)%nat then
    CommandType.shell_with_args "bash" ["-c"; default "" (command !! 0%nat)]
  else
    CommandType.shell_with_args "bash" ["-c"; str_join " " command].

(** src: crates/server/domain/src/jobs/aggregate.rs 264-306 JobSpec::new *)
Definition new (command : list string) : t := {|
  command := new_command command;
  env := ∅;
  inputs := [];
  outputs := [];
  constraints := [];
  resources := JobResources.default;
  timeout_ms := 300000;
  image := None;
  working_dir := None;
  stdin := None;
  preferences := JobPreferences.default;
|}.

(** src: crates/server/domain/src/jobs/aggregate.rs 326-329 JobSpec::with_env *)
Definition with_env (key value : string) (s : t) : t := {|
    command := command s; env := <[key := value]> (env s); inputs := inputs s;
    outputs := outputs s; constraints := constraints s; resources := resources s;
    timeout_ms := timeout_ms s; image := image s; working_dir := working_dir s;
    stdin := stdin s; preferences := preferences s;
|}.

(** src: crates/server/domain/src/jobs/aggregate.rs 332-338 JobSpec::with_input *)
Definition with_input (url dest : string) (s : t) : t := {|
    command := command s; env := env s;
    inputs := inputs s ++ [ {| source_url := url; dest_path := dest |} ];
    outputs := outputs s; constraints := constraints s; resources := resources s;
    timeout_ms := timeout_ms s; image := image s; working_dir := working_dir s;
    stdin := stdin s; preferences := preferences s;
|}.

(** src: crates/server/domain/src/jobs/aggregate.rs 341-347 JobSpec::with_output *)
Definition with_output (src url : string) (s : t) : t := {|
    command := command s; env := env s; inputs := inputs s;
    outputs := outputs s ++ [ {| src_path := src; dest_url := url |} ];
    constraints := constraints s; resources := resources s;
    timeout_ms := timeout_ms s; image := image s; working_dir := working_dir s;
    stdin := stdin s; preferences := preferences s;
|}.

(** src: crates/server/domain/src/jobs/aggregate.rs 350-353 JobSpec::with_constraint *)
Definition with_constraint (c : Constraint.t) (s : t) : t := {|
    command := command s; env := env s; inputs := inputs s; outputs := outputs s;
    constraints := constraints s ++ [c]; resources := resources s;
    timeout_ms := timeout_ms s; image := image s; working_dir := working_dir s;
    stdin := stdin s; preferences := preferences s;
|}.

(** src: crates/server/domain/src/jobs/aggregate.rs 356-359 JobSpec::with_stdin *)
Definition with_stdin (input : string) (s : t) : t := {|
    command := command s; env := env s; inputs := inputs s; outputs := outputs s;
    constraints := constraints s; resources := resources s;
    timeout_ms := timeout_ms s; image := image s; working_dir := working_dir s;
    stdin := Some input; preferences := preferences s;
|}.

(** src: crates/server/domain/src/jobs/aggregate.rs 362-367 JobSpec::with_resources *)
Definition with_resources (cpu_cores : f32) (memory_mb storage_mb : Z) (s : t) : t := {|
    command := command s; env := env s; inputs := inputs s; outputs := outputs s;
    constraints := constraints s;
    resources := {| JobResources.cpu_cores := cpu_cores; JobResources.memory_mb := memory_mb;
      JobResources.storage_mb := storage_mb;
      JobResources.gpu_required := JobResources.gpu_required (resources s);
      JobResources.architecture := JobResources.architecture (resources s) |};
    timeout_ms := timeout_ms s; image := image s; working_dir := working_dir s;
    stdin := stdin s; preferences := preferences s;
|}.

(** src: crates/server/domain/src/jobs/aggregate.rs 370-373 JobSpec::with_image *)
Definition with_image (img : string) (s : t) : t := {|
    command := command s; env := env s; inputs := inputs s; outputs := outputs s;
    constraints := constraints s; resources := resources s;
    timeout_ms := timeout_ms s; image := Some img; working_dir := working_dir s;
    stdin := stdin s; preferences := preferences s;
|}.

(** src: crates/server/domain/src/jobs/aggregate.rs 376-379 JobSpec::with_working_dir *)
Definition with_working_dir (dir : string) (s : t) : t := {|
    command := command s; env := env s; inputs := inputs s; outputs := outputs s;
    constraints := constraints s; resources := resources s;
    timeout_ms := timeout_ms s; image := image s; working_dir := Some dir;
    stdin := stdin s; preferences := preferences s;
|}.

(** src: crates/server/domain/src/jobs/aggregate.rs 382-385 JobSpec::with_timeout *)
Definition with_timeout (ms : Z) (s : t) : t := {|
    command := command s; env := env s; inputs := inputs s; outputs := outputs s;
    constraints := constraints s; resources := resources s; timeout_ms := ms;
    image := image s; working_dir := working_dir s; stdin := stdin s;
    preferences := preferences s;
|}.

(** src: crates/server/domain/src/jobs/aggregate.rs 388-391 JobSpec::with_preferences *)
Definition with_preferences (prefs : JobPreferences.t) (s : t) : t := {|
    command := command s; env := env s; inputs := inputs s; outputs := outputs s;
    constraints := constraints s; resources := resources s;
    timeout_ms := timeout_ms s; image := image s; working_dir := working_dir s;
    stdin := stdin s; preferences := prefs;
|}.

(** src: crates/server/domain/src/jobs/aggregate.rs 514-516 JobSpec::command_vec *)
Definition command_vec (s : t) : list string := CommandType.to_command_vec (command s).

(** src: crates/server/domain/src/jobs/aggregate.rs 394-447 JobSpec::validate *)
Definition validate (s : t) : result DomainError.t unit :=
  let invalid field reason := Err (DomainError.InvalidJobSpec field reason) in
  let cmd_vec := command_vec s in
  if bool_decide (cmd_vec = []) || forallb is_empty cmd_vec then
    invalid "command" "Job command cannot be empty"
  else if timeout_ms s =? 0 then
    invalid "timeout_ms" "Job timeout must be greater than 0"
  else if F32.leb (JobResources.cpu_cores (resources s)) (F32.of_Z 0) then
    invalid "cpu_cores" "CPU cores must be greater than 0"
  else if JobResources.memory_mb (resources s) =? 0 then
    invalid "memory_mb" "Memory must be greater than 0"
  else if existsb (fun i => is_empty (dest_path i)) (inputs s) then
    invalid "inputs.dest_path" "Destination path cannot be empty"
  else if existsb (fun o => is_empty (src_path o)) (outputs s) then
    invalid "outputs.src_path" "Source path cannot be empty"
  else Ok tt.

(** The check of the required parameters: the first one that is missing. *)
(** src: crates/server/domain/src/jobs/aggregate.rs 472-481 JobSpec::apply_parameters (required) *)
Fixpoint check_required (ps : parameters) (required : list string) : result DomainError.t unit :=
  match required with
  | [] => Ok tt
  | param :: required' =>
      match get_param ps param with
      | Some _ => check_required ps required'
      | None =>
          Err (DomainError.InvalidJobSpec "parameters"
                 ("Missing required parameter: " +:+ param))
      end
  end.

(** src: crates/server/domain/src/jobs/aggregate.rs 466-511 JobSpec::apply_parameters *)
Definition apply_parameters (s : t) (ps : parameters) (required_params : option (list string))
    : result DomainError.t t :=
  _ ← check_required ps (default [] required_params);
  Ok {|
    command := substitute_in_command (command s) ps;
    env := (fun value => substitute_parameters value ps) <$> env s;
    inputs := inputs s; outputs := outputs s; constraints := constraints s;
    resources := resources s; timeout_ms := timeout_ms s; image := image s;
    working_dir := working_dir s;
    stdin := (fun input => substitute_parameters input ps) <$> stdin s;
    preferences := preferences s;
|}.

(** src: crates/server/domain/src/jobs/aggregate.rs 565-579 JobSpec::calculate_resource_score *)
Definition calculate_resource_score (s : t) : f32 :=
  let r := resources s in
  let cap x := F32.min x (F32.of_Z 1) in
  let cpu_score :=
    F32.mul (cap (F32.div (JobResources.cpu_cores r) (F32.of_Z 4))) (F32.of_Z 40) in
  let memory_score :=
    F32.mul (cap (F32.div (F32.of_Z (JobResources.memory_mb r)) (F32.of_Z 8192)))
      (F32.of_Z 40) in
  let storage_score :=
    F32.mul (cap (F32.div (F32.of_Z (JobResources.storage_mb r)) (F32.of_Z 10240)))
      (F32.of_Z 20) in
  let total := F32.add (F32.add cpu_score memory_score) storage_score in
  let total := if JobResources.gpu_required r then F32.add total (F32.of_Z 20) else total in
  F32.min total (F32.of_Z 100).

(** src: crates/server/domain/src/jobs/aggregate.rs 582-598 JobSpec::calculate_workload_score *)
Definition calculate_workload_score (s : t) : f32 :=
  let cap x := F32.min x (F32.of_Z 1) in
  let score := F32.of_Z 0 in
  let score :=
    match command s with
    | CommandType.Script _ _ => F32.add score (F32.of_Z 10)
    | CommandType.Shell _ _ => score
    end in
  let io_complexity := Z.of_nat (length (inputs s) + length (outputs s)) in
  let score :=
    F32.add score
      (F32.mul (cap (F32.div (F32.of_Z io_complexity) (F32.of_Z 10))) (F32.of_Z 20)) in
  let score :=
    F32.add score
      (F32.mul (cap (F32.div (F32.of_Z (Z.of_nat (length (constraints s)))) (F32.of_Z 5)))
         (F32.of_Z 10)) in
  F32.min score (F32.of_Z 30).

(** src: crates/server/domain/src/jobs/aggregate.rs 519-540 JobSpec::calculate_priority *)
Definition calculate_priority (s : t) : JobPriority.t :=
  if bool_decide (JobPreferences.priority (preferences s) = JobPriority.Critical) then
    JobPriority.Critical
  else
    let total := F32.add (calculate_resource_score s) (calculate_workload_score s) in
    if F32.leb (F32.of_Z 80) total then JobPriority.High
    else if F32.leb (F32.of_Z 40) total then JobPriority.Normal
    else JobPriority.Low.

(** src: crates/server/domain/src/jobs/aggregate.rs 543-562 JobSpec::should_escalate *)
Definition should_escalate (s : t) (current_queue_depth threshold : Z) : bool :=
  if threshold <=? current_queue_depth then true
  else if bool_decide (JobPreferences.priority (preferences s) = JobPriority.Critical) then true
  else
    let resource_score := calculate_resource_score s in
    if F32.leb (F32.of_Z 80) resource_score && (threshold / 2 <=? current_queue_depth)
    then true
    else false.

End job_spec.
End JobSpec.

(** ** Templates

    What a template author writes: literal text and [${NAME}] placeholders. *)

Inductive piece := Lit (s : string) | Var (name : string).

Definition print_piece (p : piece) : string :=
  match p with Lit s => s | Var n => placeholder n end.
Definition print_template (t : list piece) : string :=
  foldr (fun p s => print_piece p +:+ s) "" t.

(** The text the author means: every placeholder replaced by its value. *)
Definition render_piece (ps : parameters) (p : piece) : string :=
  match p with Lit s => s | Var n => default "" (get_param ps n) end.
Definition render (ps : parameters) (t : list piece) : string :=
  foldr (fun p s => render_piece ps p +:+ s) "" t.

Definition plain (s : string) : Prop := contains_char "$" s = false.
Definition plain_name (s : string) : Prop := plain s /\ contains_char "}" s = false.
Definition piece_ok (ps : parameters) (p : piece) : Prop :=
  match p with Lit s => plain s | Var n => plain_name n /\ is_Some (get_param ps n) end.

(** ** Lemmas on the two passes *)

Lemma strip_prefix_length p s r :
  strip_prefix p s = Some r -> (String.length r + String.length p = String.length s)%nat.
Proof. intros ->%strip_prefix_inv. rewrite length_append. lia. Qed.

Lemma span_ident_length s w r :
  span_ident s = (w, r) -> (String.length r <= String.length s)%nat.
Proof.
  revert w r. induction s as [|c s IH]; intros w r H; simpl in H; [by simplify_eq|].
  destruct (ident_char c); [|by simplify_eq].
  destruct (span_ident s) as [w' r'] eqn:E. simplify_eq. simpl.
  specialize (IH _ _ eq_refl). lia.
Qed.

Lemma simple_pass_fuel_enough ps n m s :
  (String.length s <= n)%nat -> (String.length s <= m)%nat ->
  simple_pass_fuel n ps s = simple_pass_fuel m ps s.
Proof.
  revert m s. induction n as [|n IH]; intros m s Hn Hm.
  { destruct s; simpl in Hn; [by destruct m | lia]. }
  destruct m as [|m]; [destruct s; simpl in Hm; [done | lia]|].
  destruct s as [|c rest]; [done|]. simpl in Hn, Hm. simpl.
  rewrite (IH m rest) by lia.
  destruct (Ascii.eqb c "$"); [|done]. destruct rest as [|c1 rest1]; [done|].
  destruct (ident_start c1); [|done].
  destruct (span_ident rest1) as [w after] eqn:Es.
  apply span_ident_length in Es. simpl in Hn, Hm.
  destruct (get_param ps _); [|done]. f_equal. apply IH; lia.
Qed.

Lemma simple_pass_cons ps c s :
  c <> "$"%char -> simple_pass ps (String c s) = String c (simple_pass ps s).
Proof.
  intros Hc. unfold simple_pass. simpl.
  by destruct (Ascii.eqb_spec c "$").
Qed.

Lemma plain_cons c s : plain (String c s) <-> c <> "$"%char /\ plain s.
Proof.
  unfold plain. simpl. rewrite orb_false_iff.
  destruct (Ascii.eqb_spec c "$"); intuition congruence.
Qed.

Lemma contains_char_app c s s' :
  contains_char c (s +:+ s') = contains_char c s || contains_char c s'.
Proof.
  induction s as [|a s IH]; [done|]. rewrite append_cons. simpl. by rewrite IH, orb_assoc.
Qed.

Lemma plain_app s s' : plain (s +:+ s') <-> plain s /\ plain s'.
Proof. unfold plain. rewrite contains_char_app. apply orb_false_iff. Qed.

Lemma simple_pass_plain ps s : plain s -> simple_pass ps s = s.
Proof.
  induction s as [|c s IH]; [done|]. intros [Hc Hs]%plain_cons.
  by rewrite simple_pass_cons, IH.
Qed.

(** Replacement of a placeholder: fuel, text without a dollar, and a
    placeholder of the same or of another name. *)

Lemma replace_fuel_enough p to n m s :
  (String.length s <= n)%nat -> (String.length s <= m)%nat -> p <> "" ->
  replace_fuel n p to s = replace_fuel m p to s.
Proof.
  intros Hn Hm Hp. revert m s Hn Hm. induction n as [|n IH]; intros m s Hn Hm.
  { destruct s; simpl in Hn; [by destruct m | lia]. }
  destruct m as [|m]; [destruct s; simpl in Hm; [done | lia]|].
  destruct s as [|c s]; [done|]. cbn [replace_fuel].
  destruct (strip_prefix p (String c s)) as [r|] eqn:Er.
  - apply strip_prefix_length in Er.
    assert (0 < String.length p)%nat by (destruct p; [done | simpl; lia]).
    simpl in *. f_equal. apply IH; lia.
  - simpl in *. f_equal. apply IH; lia.
Qed.

Lemma str_replace_skip p to c s :
  p <> "" -> strip_prefix p (String c s) = None ->
  str_replace p to (String c s) = String c (str_replace p to s).
Proof. intros Hp Hn. unfold str_replace. cbn [String.length replace_fuel]. by rewrite Hn. Qed.

Lemma str_replace_hit p to s : p <> "" -> str_replace p to (p +:+ s) = to +:+ str_replace p to s.
Proof.
  intros Hp. unfold str_replace. rewrite length_append.
  destruct p as [|a p]; [done|]. cbn [String.length Nat.add].
  rewrite append_cons. cbn [replace_fuel].
  rewrite <- append_cons, strip_prefix_app. f_equal.
  apply replace_fuel_enough; [lia | done | done].
Qed.

Lemma placeholder_nonempty n : placeholder n <> "".
Proof. done. Qed.

Lemma strip_placeholder_not_dollar n c s :
  c <> "$"%char -> strip_prefix (placeholder n) (String c s) = None.
Proof.
  intros Hc. unfold placeholder. rewrite !append_cons. cbn [strip_prefix].
  by destruct (Ascii.eqb_spec "$" c) as [<-|].
Qed.

Lemma str_replace_plain n v s rest :
  plain s -> str_replace (placeholder n) v (s +:+ rest) = s +:+ str_replace (placeholder n) v rest.
Proof.
  induction s as [|c s IH]; [done|]. intros [Hc Hs]%plain_cons.
  rewrite !append_cons, str_replace_skip, IH; try done.
  by apply strip_placeholder_not_dollar.
Qed.

Lemma strip_name_ne n m rest :
  n <> m -> contains_char "}" n = false -> contains_char "}" m = false ->
  strip_prefix (n +:+ "}") (m +:+ "}" +:+ rest) = None.
Proof.
  revert m. induction n as [|a n IH]; intros [|b m] Hne Hn Hm; try done.
  - rewrite append_nil_l, append_cons. cbn [strip_prefix].
    simpl in Hm. apply orb_false_iff in Hm as [Hb _].
    destruct (Ascii.eqb_spec "}" b) as [<-|]; [by rewrite Ascii.eqb_refl in Hb | done].
  - rewrite append_cons, append_nil_l, append_cons. cbn [strip_prefix].
    simpl in Hn. apply orb_false_iff in Hn as [-> _]. done.
  - rewrite !append_cons. cbn [strip_prefix]. simpl in Hn, Hm.
    apply orb_false_iff in Hn as [_ Hn], Hm as [_ Hm].
    destruct (Ascii.eqb_spec a b) as [<-|]; [|done]. apply IH; congruence.
Qed.

Lemma str_replace_other n v m rest :
  n <> m -> plain_name n -> plain_name m ->
  str_replace (placeholder n) v (placeholder m +:+ rest) =
    placeholder m +:+ str_replace (placeholder n) v rest.
Proof.
  intros Hne [_ Hn] [Hm Hm'].
  assert (forall r, placeholder m +:+ r = String "$" (String "{" (m +:+ "}") +:+ r)) as Hp.
  { intros r. unfold placeholder. by rewrite !append_cons, append_assoc. }
  rewrite !Hp, str_replace_skip, str_replace_plain; [done| |done|].
  - apply plain_cons. split; [done|]. by apply plain_app.
  - unfold placeholder. rewrite !append_cons, append_assoc. cbn [strip_prefix].
    by apply strip_name_ne.
Qed.

(** One iteration of the bracket pass on a template fills one name in. *)
Definition fill_piece (n v : string) (p : piece) : piece :=
  match p with
  | Lit s => Lit s
  | Var m => if bool_decide (m = n) then Lit v else Var m
  end.

Lemma print_template_cons p t : print_template (p :: t) = print_piece p +:+ print_template t.
Proof. reflexivity. Qed.

Lemma render_cons ps p t : render ps (p :: t) = render_piece ps p +:+ render ps t.
Proof. reflexivity. Qed.

Lemma str_replace_template n v t :
  plain_name n ->
  Forall (fun p => match p with Lit s => plain s | Var m => plain_name m end) t ->
  str_replace (placeholder n) v (print_template t) = print_template (fill_piece n v <$> t).
Proof.
  intros Hn. induction 1 as [|p t Hp Ht IH]; [done|].
  rewrite fmap_cons, !print_template_cons, <- IH.
  destruct p as [s|m]; simpl; [by apply str_replace_plain|].
  case_bool_decide as Hm; simpl.
  - subst. by apply str_replace_hit.
  - by apply str_replace_other.
Qed.

Lemma get_param_cons k v ps n :
  get_param ((k, v) :: ps) n = if bool_decide (n = k) then Some v else get_param ps n.
Proof.
  unfold get_param. simpl. case_bool_decide as H; [subst; apply lookup_insert_eq|].
  by apply lookup_insert_ne.
Qed.

(** The state of a template after the entries [done] have been processed. *)
Definition fill (done : parameters) (p : piece) : piece :=
  match p with
  | Lit s => Lit s
  | Var m => match get_param done m with Some v => Lit v | None => Var m end
  end.

Lemma fill_one k v ps (t : list piece) :
  Forall (fun '(k', _) => k' <> k) ps -> 
  fill ps <$> (fill_piece k v <$> t) = fill ((k, v) :: ps) <$> t.
Proof.
  intros Hk. rewrite <- list_fmap_compose. apply list_fmap_ext. intros _ [s|m] _; [done|].
  simpl. rewrite get_param_cons. by case_bool_decide.
Qed.

Lemma bracket_pass_template ps (t : list piece) :
  NoDup ps.*1 -> Forall (fun '(k, v) => plain_name k /\ plain v) ps ->
  Forall (fun p => match p with Lit s => plain s | Var m => plain_name m end) t ->
  bracket_pass ps (print_template t) = print_template (fill ps <$> t).
Proof.
  revert t. induction ps as [|[k v] ps IH]; intros t Hnd Hps Ht.
  { simpl. f_equal. symmetry. rewrite <- (list_fmap_id t) at 2.
    apply list_fmap_ext. by intros _ [] _. }
  apply NoDup_cons in Hnd as [Hk Hnd]. apply Forall_cons in Hps as [[Hpk Hpv] Hps].
  unfold bracket_pass. cbn [fold_left]. fold (bracket_pass ps).
  rewrite str_replace_template by done.
  transitivity (bracket_pass ps (print_template (fill_piece k v <$> t))); [done|].
  rewrite IH; [| done | done |].
  - f_equal. apply fill_one. apply Forall_forall. intros [k' v'] Hin <-.
    apply Hk. apply list_elem_of_fmap. by exists (k', v').
  - apply Forall_fmap. eapply Forall_impl; [exact Ht|].
    intros [s|m]; simpl; [done|]. by case_bool_decide.
Qed.

Lemma get_param_plain ps n v :
  Forall (fun '(k, v) => plain_name k /\ plain v) ps -> get_param ps n = Some v -> plain v.
Proof.
  induction 1 as [|[k w] ps [_ Hw] _ IH]; [done|]. rewrite get_param_cons.
  case_bool_decide; [by intros [= <-] | done].
Qed.

Lemma fill_complete ps (t : list piece) :
  Forall (fun '(k, v) => plain_name k /\ plain v) ps -> Forall (piece_ok ps) t ->
  print_template (fill ps <$> t) = render ps t /\ plain (render ps t).
Proof.
  intros Hps. induction 1 as [|p t Hp _ [IH1 IH2]]; [done|].
  rewrite fmap_cons, print_template_cons, render_cons, IH1, plain_app.
  destruct p as [s|m]; simpl in *; [done|].
  destruct Hp as [_ [v Hv]]. rewrite Hv. simpl.
  split; [done|]. split; [by eapply get_param_plain | done].
Qed.

(** ** Lemmas on validation and the scores *)

Section spec_lemmas.
Context `{E : Externs}.

Lemma existsb_false_Forall {A} (f : A -> bool) l :
  existsb f l = false <-> Forall (fun x => f x = false) l.
Proof.
  induction l as [|x l IH]; simpl.
  - split; [by constructor | done].
  - by rewrite orb_false_iff, Forall_cons, IH.
Qed.

Lemma forallb_empty_false v :
  forallb is_empty v = false <-> Exists (fun s => s <> "") v.
Proof.
  induction v as [|s v IH]; simpl; [by rewrite Exists_nil|].
  rewrite andb_false_iff, Exists_cons, IH. unfold is_empty.
  by rewrite String.eqb_neq.
Qed.

Lemma check_required_ok ps required :
  JobSpec.check_required ps required = Ok tt <->
  Forall (fun k => is_Some (get_param ps k)) required.
Proof.
  induction required as [|k required IH]; simpl; [by split; [constructor|]|].
  rewrite Forall_cons. destruct (get_param ps k) as [v|] eqn:Hk.
  - rewrite IH. split; [intros H; by split; eauto | by intros [_ H]].
  - split; [done|]. by intros [[? ?] _].
Qed.
End spec_lemmas.

(** ** Properties *)

(** C40: parameter substitution does what a template author
    means: on literal text without dollars and [${NAME}] placeholders of known
    parameters, with dollar-free values, the result is the text with every
    placeholder replaced by its value, whatever order the parameter map is
    iterated in. *)
Theorem substitution_renders_templates ps ps' (t : list piece)
    (Hperm : ps' ≡ₚ ps) (Hnd : NoDup ps.*1)
    (Hps : Forall (fun '(k, v) => plain_name k /\ plain v) ps)
    (Ht : Forall (piece_ok ps) t) :
  substitute_parameters (print_template t) ps' = render ps t.
Proof.
  assert (forall n, get_param ps' n = get_param ps n) as Hget.
  { intros n. unfold get_param. f_equal. symmetry. by apply list_to_map_proper. }
  assert (Forall (fun '(k, v) => plain_name k /\ plain v) ps') as Hps'
    by by rewrite Hperm.
  assert (Forall (piece_ok ps') t) as Ht'.
  { eapply Forall_impl; [exact Ht|]. intros []; simpl; [done | by rewrite Hget]. }
  unfold substitute_parameters. rewrite bracket_pass_template; [| |done|].
  - destruct (fill_complete ps' t Hps' Ht') as [-> Hplain].
    rewrite simple_pass_plain by done.
    clear -Hget. induction t as [|[s|n] t IH]; [done| |];
      rewrite !render_cons, IH; simpl; [done | by rewrite Hget].
  - by rewrite Hperm.
  - eapply Forall_impl; [exact Ht|]. intros [s|n] Hn; simpl in *; [done|]. by destruct Hn as (? & ? & ?).
Qed.

Example substitution_renders_templates_witness :
  substitute_parameters "cp a.txt b" [("DST", "b"); ("SRC", "a.txt")] = "cp a.txt b" /\
  substitute_parameters (print_template [Lit "cp "; Var "SRC"; Lit " "; Var "DST"])
    [("DST", "b"); ("SRC", "a.txt")] = "cp a.txt b".
Proof.
  split; [reflexivity|].
  apply (substitution_renders_templates [("SRC", "a.txt"); ("DST", "b")]
    [("DST", "b"); ("SRC", "a.txt")] [Lit "cp "; Var "SRC"; Lit " "; Var "DST"]).
  - apply Permutation_swap.
  - apply (bool_decide_unpack _). vm_compute. exact I.
  - repeat constructor.
  - repeat constructor; simpl; eauto.
Defined.

(** When a value itself holds a placeholder the result
    depends on the iteration order of the map: the same parameters and the
    same input give two different strings. *)
Theorem substitution_depends_on_iteration_order :
  let ps := [("A", "${B}"); ("B", "x")] in
  (list_to_map (rev ps) : gmap string string) = list_to_map ps /\
  substitute_parameters "${A}" ps = "x" /\
  substitute_parameters "${A}" (rev ps) = "${B}".
Proof. split; [|split]; by vm_compute. Qed.

(** A specification is valid exactly when some word of its command is
    not empty, its timeout and memory are not zero, its CPU count is not at
    most zero, and no artifact has an empty path; and the constructor only
    builds specifications that are valid, whatever words it is given. *)
Theorem validate_accepts_exactly `{E : Externs} :
  (forall s, JobSpec.validate s = Ok tt <->
     Exists (fun w => w <> "") (JobSpec.command_vec s) /\
     JobSpec.timeout_ms s <> 0 /\
     F32.leb (JobResources.cpu_cores (JobSpec.resources s)) (F32.of_Z 0) = false /\
     JobResources.memory_mb (JobSpec.resources s) <> 0 /\
     Forall (fun i => dest_path i <> "") (JobSpec.inputs s) /\
     Forall (fun o => src_path o <> "") (JobSpec.outputs s)) /\
  (forall words, JobSpec.validate (JobSpec.new words) = Ok tt).
Proof.
  assert (forall s, JobSpec.validate s = Ok tt <->
     Exists (fun w => w <> "") (JobSpec.command_vec s) /\
     JobSpec.timeout_ms s <> 0 /\
     F32.leb (JobResources.cpu_cores (JobSpec.resources s)) (F32.of_Z 0) = false /\
     JobResources.memory_mb (JobSpec.resources s) <> 0 /\
     Forall (fun i => dest_path i <> "") (JobSpec.inputs s) /\
     Forall (fun o => src_path o <> "") (JobSpec.outputs s)) as Hiff.
  { intros s. unfold JobSpec.validate.
    assert (bool_decide (JobSpec.command_vec s = []) = false) as ->
      by (apply bool_decide_eq_false; by destruct s as [[]]).
    simpl. rewrite <- forallb_empty_false.
    assert (forall {A} (p : A -> string) l,
      Forall (fun x => p x <> "") l <-> existsb (fun x => is_empty (p x)) l = false) as Hf.
    { intros A p l. rewrite existsb_false_Forall. apply Forall_iff. intros x.
      unfold is_empty. by rewrite String.eqb_neq. }
    rewrite !Hf, <- !Z.eqb_neq. case_all; intuition congruence. }
  split; [done|]. intros words. apply Hiff.
  split; [|by repeat constructor].
  unfold JobSpec.command_vec; cbn [JobSpec.command JobSpec.new].
  unfold JobSpec.new_command.
  case_match eqn:H0; [by constructor|].
  case_match eqn:H1.
  - apply andb_true_iff in H1 as [Hn Hc].
    apply bool_decide_eq_true in Hn, Hc.
    destruct words as [|w [|w' words]]; [done|cbn in Hn; lia|].
    apply Exists_exists. exists "-c". split; [|done].
    apply list_elem_of_lookup. exists (length words).
    cbn in Hc |- *. by rewrite Nat.sub_0_r in Hc.
  - case_match; [by constructor|]. case_match; by constructor.
Qed.

(** Applying parameters fails exactly when a required
    name is missing, and then it names a missing one; otherwise only the
    command, the environment values and the standard input are rewritten. *)
Theorem apply_parameters_spec `{E : Externs} s ps required :
  (is_err (JobSpec.apply_parameters s ps (Some required)) = true <->
     Exists (fun k => get_param ps k = None) required) /\
  match JobSpec.apply_parameters s ps (Some required) with
  | Ok s' =>
      JobSpec.command s' = substitute_in_command (JobSpec.command s) ps /\
      dom (JobSpec.env s') = dom (JobSpec.env s) /\
      (forall k v, JobSpec.env s !! k = Some v ->
         JobSpec.env s' !! k = Some (substitute_parameters v ps)) /\
      JobSpec.inputs s' = JobSpec.inputs s /\ JobSpec.outputs s' = JobSpec.outputs s /\
      JobSpec.constraints s' = JobSpec.constraints s /\
      JobSpec.resources s' = JobSpec.resources s /\
      JobSpec.timeout_ms s' = JobSpec.timeout_ms s /\
      JobSpec.preferences s' = JobSpec.preferences s
  | Err e => exists k, k ∈ required /\ get_param ps k = None /\
      e = DomainError.InvalidJobSpec "parameters" ("Missing required parameter: " +:+ k)
  end.
Proof.
  unfold JobSpec.apply_parameters. simpl.
  destruct (JobSpec.check_required ps required) as [[]|e] eqn:Hc; simpl.
  - split.
    + split; [done|]. intros [k [Hk Hn]]%Exists_exists.
      apply check_required_ok in Hc. rewrite Forall_forall in Hc.
      specialize (Hc k Hk). rewrite Hn in Hc. by apply is_Some_None in Hc.
    + split_and!; try done; [by rewrite dom_fmap_L|].
      intros k v Hv. by rewrite lookup_fmap, Hv.
  - assert (exists k, k ∈ required /\ get_param ps k = None /\
      e = DomainError.InvalidJobSpec "parameters" ("Missing required parameter: " +:+ k))
      as (k & Hk & Hn & He).
    { induction required as [|k required IH]; simpl in Hc; [done|].
      destruct (get_param ps k) eqn:Hk.
      - destruct (IH Hc) as (k' & ? & ? & ?). exists k'. split_and!; try done.
        by apply elem_of_cons; right.
      - inv_result. exists k. split_and!; try done. apply elem_of_cons. by left. }
    split; [|by eauto]. split; [|done]. intros _. apply Exists_exists. eauto.
Qed.

(** For every specification, whatever its floating point fields hold, the
    resource score is at most 100 and the workload score at most 30; the
    priority is critical exactly when the user asked for it, and no other
    preference has any influence on it. *)
Theorem priority_scores_bounded `{E : Externs} s :
  F32.leb (JobSpec.calculate_resource_score s) (F32.of_Z 100) = true /\
  F32.leb (JobSpec.calculate_workload_score s) (F32.of_Z 30) = true /\
  (JobSpec.calculate_priority s = JobPriority.Critical <->
     JobPreferences.priority (JobSpec.preferences s) = JobPriority.Critical) /\
  (forall prefs, JobPreferences.priority prefs <> JobPriority.Critical ->
     JobPreferences.priority (JobSpec.preferences s) <> JobPriority.Critical ->
     JobSpec.calculate_priority (JobSpec.with_preferences prefs s) =
       JobSpec.calculate_priority s).
Proof.
  split_and!.
  - by apply f32_min_le.
  - by apply f32_min_le.
  - unfold JobSpec.calculate_priority. case_bool_decide; [done|].
    repeat case_match; done.
  - intros prefs Hp Hs. unfold JobSpec.calculate_priority. simpl.
    by rewrite !bool_decide_eq_false_2.
Qed.
