(* ===== verification/Kubernetes.v ===== *)
(** * Kubernetes data of a worker ([crates/server/domain/src/workers/aggregate.rs])

    The records a Kubernetes worker specification is made of, field by field,
    and the resource requirements they share with every provider. *)

From S2P Require Import Prelude Std.

Module ResourceRequirements.

(** src: crates/server/domain/src/workers/aggregate.rs 208-219 ResourceRequirements *)
Record t := mk {
  cpu_cores : f64;
  memory_bytes : Z;
  disk_bytes : Z;
  gpu_count : Z;
  gpu_type : option string;
}.

#[global] Instance t_rebuild : Rebuild t := fun c =>
  mk (cpu_cores c) (memory_bytes c) (disk_bytes c) (gpu_count c) (gpu_type c).

(** src: crates/server/domain/src/workers/aggregate.rs 222-230 ResourceRequirements::default *)
Definition default : t := {|
  cpu_cores := F64.of_Z 1;
  memory_bytes := 512 * 1024 * 1024;
  disk_bytes := 1024 * 1024 * 1024;
  gpu_count := 0;
  gpu_type := None;
|}.

End ResourceRequirements.

Module KubernetesConfigMapRef.

(** src: crates/server/domain/src/workers/aggregate.rs 382-385 KubernetesConfigMapRef *)
Record t := mk {
  name : string;
  optional : option bool;
}.

End KubernetesConfigMapRef.

Module KubernetesSecretRef.

(** src: crates/server/domain/src/workers/aggregate.rs 389-392 KubernetesSecretRef *)
Record t := mk {
  name : string;
  optional : option bool;
}.

End KubernetesSecretRef.

Module KubernetesEnvFrom.

(** src: crates/server/domain/src/workers/aggregate.rs 374-378 KubernetesEnvFrom *)
Record t := mk {
  config_map_ref : option KubernetesConfigMapRef.t;
  secret_ref : option KubernetesSecretRef.t;
  prefix : option string;
}.

End KubernetesEnvFrom.

Module KubernetesContainerPort.

(** src: crates/server/domain/src/workers/aggregate.rs 396-402 KubernetesContainerPort *)
Record t := mk {
  name : option string;
  container_port : Z;
  protocol : option string;
  host_ip : option string;
  host_port : option Z;
}.

End KubernetesContainerPort.

Module KubernetesVolumeMount.

(** src: crates/server/domain/src/workers/aggregate.rs 406-411 KubernetesVolumeMount *)
Record t := mk {
  name : string;
  mount_path : string;
  sub_path : option string;
  read_only : option bool;
}.

End KubernetesVolumeMount.

Module KubernetesCapabilities.

(** src: crates/server/domain/src/workers/aggregate.rs 555-558 KubernetesCapabilities *)
Record t := mk {
  add : list string;
  drop : list string;
}.

End KubernetesCapabilities.

Module KubernetesSeccompProfile.

(** src: crates/server/domain/src/workers/aggregate.rs 548-551 KubernetesSeccompProfile *)
Record t := mk {
  type_ : string;
  localhost_profile : option string;
}.

End KubernetesSeccompProfile.

Module KubernetesContainerSecurityContext.

(** src: crates/server/domain/src/workers/aggregate.rs 536-544 KubernetesContainerSecurityContext *)
Record t := mk {
  run_as_non_root : option bool;
  run_as_user : option Z;
  run_as_group : option Z;
  allow_privilege_escalation : option bool;
  capabilities : option KubernetesCapabilities.t;
  read_only_root_filesystem : option bool;
  seccomp_profile : option KubernetesSeccompProfile.t;
}.

End KubernetesContainerSecurityContext.

Module KubernetesContainer.

(** src: crates/server/domain/src/workers/aggregate.rs 347-370 KubernetesContainer *)
Record t := mk {
  name : string;
  image : string;
  image_pull_policy : option string;
  command : list string;
  args : list string;
  env : gmap string string;
  env_from : list KubernetesEnvFrom.t;
  ports : list KubernetesContainerPort.t;
  volume_mounts : list KubernetesVolumeMount.t;
  resources : option ResourceRequirements.t;
  security_context : option KubernetesContainerSecurityContext.t;
}.

End KubernetesContainer.

Module KubernetesNodeSelectorRequirement.

(** src: crates/server/domain/src/workers/aggregate.rs 444-448 KubernetesNodeSelectorRequirement *)
Record t := mk {
  key : string;
  operator : string;
  values : list string;
}.

End KubernetesNodeSelectorRequirement.

Module KubernetesNodeSelectorTerm.

(** src: crates/server/domain/src/workers/aggregate.rs 438-440 KubernetesNodeSelectorTerm *)
Record t := mk {
  match_expressions : list KubernetesNodeSelectorRequirement.t;
}.

End KubernetesNodeSelectorTerm.

Module KubernetesPreferredSchedulingTerm.

(** src: crates/server/domain/src/workers/aggregate.rs 431-434 KubernetesPreferredSchedulingTerm *)
Record t := mk {
  weight : Z;
  preference : KubernetesNodeSelectorTerm.t;
}.

End KubernetesPreferredSchedulingTerm.

Module KubernetesNodeSelector.

(** src: crates/server/domain/src/workers/aggregate.rs 452-454 KubernetesNodeSelector *)
Record t := mk {
  node_selector_terms : list KubernetesNodeSelectorTerm.t;
}.

End KubernetesNodeSelector.

Module KubernetesNodeAffinity.

(** src: crates/server/domain/src/workers/aggregate.rs 423-427 KubernetesNodeAffinity *)
Record t := mk {
  preferred_during_scheduling_ignored_during_execution : list KubernetesPreferredSchedulingTerm.t;
  required_during_scheduling_ignored_during_execution : option KubernetesNodeSelector.t;
}.

End KubernetesNodeAffinity.

Module KubernetesLabelSelectorRequirement.

(** src: crates/server/domain/src/workers/aggregate.rs 486-490 KubernetesLabelSelectorRequirement *)
Record t := mk {
  key : string;
  operator : string;
  values : list string;
}.

End KubernetesLabelSelectorRequirement.

Module KubernetesLabelSelector.

(** src: crates/server/domain/src/workers/aggregate.rs 479-482 KubernetesLabelSelector *)
Record t := mk {
  match_labels : option (gmap string string);
  match_expressions : list KubernetesLabelSelectorRequirement.t;
}.

End KubernetesLabelSelector.

Module KubernetesPodAffinityTerm.

(** src: crates/server/domain/src/workers/aggregate.rs 470-475 KubernetesPodAffinityTerm *)
Record t := mk {
  label_selector : option KubernetesLabelSelector.t;
  namespace_selector : option KubernetesLabelSelector.t;
  namespaces : list string;
  topology_key : string;
}.

End KubernetesPodAffinityTerm.

Module KubernetesPodAffinity.

(** src: crates/server/domain/src/workers/aggregate.rs 458-460 KubernetesPodAffinity *)
Record t := mk {
  required_during_scheduling_ignored_during_execution : list KubernetesPodAffinityTerm.t;
}.

End KubernetesPodAffinity.

Module KubernetesPodAntiAffinity.

(** src: crates/server/domain/src/workers/aggregate.rs 464-466 KubernetesPodAntiAffinity *)
Record t := mk {
  required_during_scheduling_ignored_during_execution : list KubernetesPodAffinityTerm.t;
}.

End KubernetesPodAntiAffinity.

Module KubernetesAffinity.

(** src: crates/server/domain/src/workers/aggregate.rs 415-419 KubernetesAffinity *)
Record t := mk {
  node_affinity : option KubernetesNodeAffinity.t;
  pod_affinity : option KubernetesPodAffinity.t;
  pod_anti_affinity : option KubernetesPodAntiAffinity.t;
}.

End KubernetesAffinity.

Module KubernetesToleration.

(** src: crates/server/domain/src/workers/aggregate.rs 494-500 KubernetesToleration *)
Record t := mk {
  key : option string;
  operator : option string;
  value : option string;
  effect : option string;
  toleration_seconds : option Z;
}.

End KubernetesToleration.

Module KubernetesDNSConfigOption.

(** src: crates/server/domain/src/workers/aggregate.rs 512-515 KubernetesDNSConfigOption *)
Record t := mk {
  name : string;
  value : option string;
}.

End KubernetesDNSConfigOption.

Module KubernetesDNSConfig.

(** src: crates/server/domain/src/workers/aggregate.rs 504-508 KubernetesDNSConfig *)
Record t := mk {
  nameservers : list string;
  searches : list string;
  options : list KubernetesDNSConfigOption.t;
}.

End KubernetesDNSConfig.

Module KubernetesHostAlias.

(** src: crates/server/domain/src/workers/aggregate.rs 519-522 KubernetesHostAlias *)
Record t := mk {
  ip : string;
  hostnames : list string;
}.

End KubernetesHostAlias.

Module KubernetesSecurityContext.

(** src: crates/server/domain/src/workers/aggregate.rs 526-532 KubernetesSecurityContext *)
Record t := mk {
  run_as_non_root : option bool;
  run_as_user : option Z;
  run_as_group : option Z;
  fs_group : option Z;
  seccomp_profile : option KubernetesSeccompProfile.t;
}.

End KubernetesSecurityContext.

Module KubernetesWorkerConfig.

(** src: crates/server/domain/src/workers/aggregate.rs 318-343 KubernetesWorkerConfig *)
Record t := mk {
  annotations : gmap string string;
  custom_labels : gmap string string;
  node_selector : gmap string string;
  service_account : option string;
  init_containers : list KubernetesContainer.t;
  sidecar_containers : list KubernetesContainer.t;
  affinity : option KubernetesAffinity.t;
  tolerations : list KubernetesToleration.t;
  dns_policy : option string;
  dns_config : option KubernetesDNSConfig.t;
  host_aliases : list KubernetesHostAlias.t;
  security_context : option KubernetesSecurityContext.t;
}.

#[global] Instance t_rebuild : Rebuild t := fun c =>
  mk (annotations c) (custom_labels c) (node_selector c) (service_account c)
    (init_containers c) (sidecar_containers c) (affinity c) (tolerations c)
    (dns_policy c) (dns_config c) (host_aliases c) (security_context c).

(** [#[derive(Default)]]. *)
(** src: crates/server/domain/src/workers/aggregate.rs 317-318 KubernetesWorkerConfig::default *)
Definition default : t := {|
  annotations := ∅;
  custom_labels := ∅;
  node_selector := ∅;
  service_account := None;
  init_containers := [];
  sidecar_containers := [];
  affinity := None;
  tolerations := [];
  dns_policy := None;
  dns_config := None;
  host_aliases := [];
  security_context := None;
|}.

End KubernetesWorkerConfig.
