(* ===== verification/ProviderApi.v ===== *)
(** * Providers ([crates/server/domain/src/workers/{aggregate,provider_api}.rs])

    Provider types and their textual form, the provider-specific extension
    objects, capabilities, the mapping of provider states to worker states and
    the errors of providers. *)

From S2P Require Import Prelude Std Externs States Errors Kubernetes.

Module ProviderCategory.

(** src: crates/server/domain/src/workers/aggregate.rs 190-195 ProviderCategory *)
Inductive t := Container | Serverless | VirtualMachine | BareMetal.

#[global] Instance t_eq_dec : EqDecision t.
Proof. solve_decision. Defined.

End ProviderCategory.

Module Architecture.

(** src: crates/server/domain/src/workers/aggregate.rs 199-204 Architecture *)
Inductive t := Amd64 | Arm64 | Arm.

#[global] Instance t_eq_dec : EqDecision t.
Proof. solve_decision. Defined.

Definition default : t := Amd64.

End Architecture.

Module ProviderType.

(** src: crates/server/domain/src/workers/aggregate.rs 16-36 ProviderType *)
Inductive t :=
  | Docker
  | Kubernetes
  | Fargate
  | CloudRun
  | ContainerApps
  | Lambda
  | CloudFunctions
  | AzureFunctions
  | EC2
  | ComputeEngine
  | AzureVMs
  | Test
  | BareMetal
  | Custom (name : string).

#[global] Instance t_eq_dec : EqDecision t.
Proof. solve_decision. Defined.

(** src: crates/server/domain/src/workers/aggregate.rs 39-55 ProviderType::category *)
Definition category (p : t) : ProviderCategory.t :=
  match p with
  | Docker | Kubernetes | Fargate | CloudRun | ContainerApps => ProviderCategory.Container
  | Lambda | CloudFunctions | AzureFunctions => ProviderCategory.Serverless
  | EC2 | ComputeEngine | AzureVMs => ProviderCategory.VirtualMachine
  | Test | BareMetal | Custom _ => ProviderCategory.BareMetal
  end.

(** src: crates/server/domain/src/workers/aggregate.rs 61-78 ProviderType::name *)
Definition name (p : t) : string :=
  match p with
  | Docker => "docker"
  | Kubernetes => "kubernetes"
  | Fargate => "fargate"
  | CloudRun => "cloudrun"
  | ContainerApps => "containerapps"
  | Lambda => "lambda"
  | CloudFunctions => "cloudfunctions"
  | AzureFunctions => "azurefunctions"
  | EC2 => "ec2"
  | ComputeEngine => "computeengine"
  | AzureVMs => "azurevms"
  | Test => "test"
  | BareMetal => "baremetal"
  | Custom _ => "custom"
  end.

(** src: crates/server/domain/src/workers/aggregate.rs 81-100 impl Display for ProviderType *)
Definition fmt (p : t) : string :=
  match p with
  | Custom name => "custom:" +:+ name
  | _ => name p
  end.

(** The comparison of the lower-cased text, [match s.to_lowercase().as_str()]. *)
(** src: crates/server/domain/src/workers/aggregate.rs 105-124 ProviderType::from_str (match) *)
Definition parse_lower (s : string) : option t :=
  if String.eqb s "docker" then Some Docker
  else if String.eqb s "kubernetes" || String.eqb s "k8s" then Some Kubernetes
  else if String.eqb s "fargate" then Some Fargate
  else if String.eqb s "cloudrun" then Some CloudRun
  else if String.eqb s "containerapps" then Some ContainerApps
  else if String.eqb s "lambda" then Some Lambda
  else if String.eqb s "cloudfunctions" then Some CloudFunctions
  else if String.eqb s "azurefunctions" then Some AzureFunctions
  else if String.eqb s "ec2" then Some EC2
  else if String.eqb s "computeengine" then Some ComputeEngine
  else if String.eqb s "azurevms" then Some AzureVMs
  else if String.eqb s "test" then Some Test
  else if String.eqb s "baremetal" || String.eqb s "bare_metal" then Some BareMetal
  else if starts_with "custom:" s then Some (Custom (trim_start_matches "custom:" s))
  else if String.eqb s "custom" then Some (Custom "unknown")
  else None.

(** src: crates/server/domain/src/workers/aggregate.rs 102-127 impl FromStr for ProviderType *)
Definition parse `{E : Externs} (s : string) : option t := parse_lower (to_lowercase s).

End ProviderType.

(** ** Extension objects *)

Module KubernetesConfigExt.

(** src: crates/server/domain/src/workers/provider_api.rs 69-92 KubernetesConfigExt *)
Record t := mk {
  annotations : gmap string string;
  custom_labels : gmap string string;
  node_selector : gmap string string;
  service_account : option string;
  init_container_images : gmap string string;
  sidecar_container_images : gmap string string;
  tolerations : list KubernetesToleration.t;
  dns_policy : option string;
}.

(** src: crates/server/domain/src/workers/provider_api.rs 95-97 KubernetesConfigExt::provider_type *)
Definition provider_type (c : t) : ProviderType.t := ProviderType.Kubernetes.

End KubernetesConfigExt.

Module DockerConfigExt.

(** src: crates/server/domain/src/workers/provider_api.rs 106-127 DockerConfigExt *)
Record t := mk {
  network_mode : option string;
  extra_hosts : list string;
  restart_policy : option string;
  privileged : bool;
  runtime : option string;
  devices : list string;
  ulimits : list string;
  sysctls : gmap string string;
}.

(** src: crates/server/domain/src/workers/provider_api.rs 130-132 DockerConfigExt::provider_type *)
Definition provider_type (c : t) : ProviderType.t := ProviderType.Docker.

End DockerConfigExt.

Module FirecrackerNetworkConfig.

(** src: crates/server/domain/src/workers/provider_api.rs 261-270 FirecrackerNetworkConfig *)
Record t := mk {
  tap_name : option string;
  ip_address : option string;
  gateway : option string;
  mtu : option Z;
}.

End FirecrackerNetworkConfig.

Module FirecrackerConfigExt.

(** src: crates/server/domain/src/workers/provider_api.rs 141-159 FirecrackerConfigExt *)
Record t := mk {
  kernel_path : string;
  rootfs_path : string;
  kernel_args : list string;
  network : option FirecrackerNetworkConfig.t;
  vsock : bool;
  cpu_template : option string;
  snapshot_path : option string;
}.

(** src: crates/server/domain/src/workers/provider_api.rs 162-164 FirecrackerConfigExt::provider_type *)
Definition provider_type (c : t) : ProviderType.t := ProviderType.Custom "firecracker".

End FirecrackerConfigExt.

Module ProviderConfig.

(** src: crates/server/domain/src/workers/provider_api.rs 187-197 ProviderConfig *)
Inductive t :=
  | Kubernetes (config : KubernetesConfigExt.t)
  | Docker (config : DockerConfigExt.t)
  | Firecracker (config : FirecrackerConfigExt.t).

(** src: crates/server/domain/src/workers/provider_api.rs 200-206 ProviderConfig::provider_type *)
Definition provider_type (c : t) : ProviderType.t :=
  match c with
  | Kubernetes config => KubernetesConfigExt.provider_type config
  | Docker config => DockerConfigExt.provider_type config
  | Firecracker config => FirecrackerConfigExt.provider_type config
  end.

(** src: crates/server/domain/src/workers/provider_api.rs 220-225 ProviderConfig::as_kubernetes *)
Definition as_kubernetes (c : t) : option KubernetesConfigExt.t :=
  match c with Kubernetes config => Some config | _ => None end.

(** src: crates/server/domain/src/workers/provider_api.rs 228-233 ProviderConfig::as_docker *)
Definition as_docker (c : t) : option DockerConfigExt.t :=
  match c with Docker config => Some config | _ => None end.

(** src: crates/server/domain/src/workers/provider_api.rs 236-241 ProviderConfig::as_firecracker *)
Definition as_firecracker (c : t) : option FirecrackerConfigExt.t :=
  match c with Firecracker config => Some config | _ => None end.

End ProviderConfig.

(** ** Capabilities *)

Module HealthStatus.

(** src: crates/server/domain/src/workers/provider_api.rs 801-811 HealthStatus *)
Inductive t :=
  | Healthy
  | Degraded (reason : string)
  | Unhealthy (reason : string)
  | Unknown.

#[global] Instance t_eq_dec : EqDecision t.
Proof. solve_decision. Defined.

Definition default : t := Unknown.

End HealthStatus.

Module GpuVendor.

(** src: crates/server/domain/src/workers/provider_api.rs 815-820 GpuVendor *)
Inductive t := Nvidia | Amd | Intel | Custom (name : string).

(** src: crates/server/domain/src/workers/provider_api.rs 822-831 impl Display for GpuVendor *)
Definition fmt (v : t) : string :=
  match v with
  | Nvidia => "Nvidia"
  | Amd => "Amd"
  | Intel => "Intel"
  | Custom name => name
  end.

End GpuVendor.

Module GpuModel.

(** src: crates/server/domain/src/workers/provider_api.rs 835-844 GpuModel *)
Inductive t :=
  | TeslaV100
  | TeslaA100
  | TeslaT4
  | RTX3090
  | RTX4090
  | MI100
  | MI200
  | Custom (name : string) (vram_gb : Z).

(** src: crates/server/domain/src/workers/provider_api.rs 846-859 impl Display for GpuModel *)
Definition fmt (m : t) : string :=
  match m with
  | TeslaV100 => "Tesla V100"
  | TeslaA100 => "Tesla A100"
  | TeslaT4 => "Tesla T4"
  | RTX3090 => "RTX 3090"
  | RTX4090 => "RTX 4090"
  | MI100 => "MI100"
  | MI200 => "MI200"
  | Custom name _ => name
  end.

End GpuModel.

Module DiskType.

(** src: crates/server/domain/src/workers/provider_api.rs 936-943 DiskType *)
Inductive t := Hdd | Ssd | Nvme | Ephemeral | NetworkHdd | NetworkSsd.

(** src: crates/server/domain/src/workers/provider_api.rs 945-956 impl Display for DiskType *)
Definition fmt (d : t) : string :=
  match d with
  | Hdd => "HDD"
  | Ssd => "SSD"
  | Nvme => "NVMe"
  | Ephemeral => "Ephemeral"
  | NetworkHdd => "Network HDD"
  | NetworkSsd => "Network SSD"
  end.

End DiskType.

Module ProviderFeature.

(** src: crates/server/domain/src/workers/provider_api.rs 866-933 ProviderFeature *)
Inductive t :=
  | Gpu (vendor : GpuVendor.t) (models : list GpuModel.t) (max_count : Z)
      (cuda_support rocm_support : bool)
  | Cpu (min_cores max_cores : Z) (architectures : list Architecture.t)
      (min_frequency_mhz max_frequency_mhz : option Z)
  | Memory (min_bytes max_bytes : Z) (ecc_support hbm_support : bool)
  | Storage (persistent : bool) (max_bytes : Z) (disk_types : list DiskType.t)
      (raid_support : bool)
  | Network (custom_networking : bool) (max_bandwidth_mbps max_connections : Z)
      (firewall_support vpc_support : bool)
  | Runtime (name : string) (versions container_runtimes : list string)
  | Security (encryption_at_rest encryption_in_transit secure_boot tpm_support
      isolated_tenant : bool)
  | Specialized (supports_mpi supports_gpu_direct supports_rdma supports_fpga
      supports_sgx : bool)
  | OsSupport (linux_distros windows_versions : list string)
      (minimal_kernel_version : option string).

End ProviderFeature.

Module ResourceLimits.

(** src: crates/server/domain/src/workers/provider_api.rs 992-997 ResourceLimits *)
Record t := mk {
  max_cpu_cores : f64;
  max_memory_bytes : Z;
  max_disk_bytes : Z;
  max_gpu_count : Z;
}.

(** src: crates/server/domain/src/workers/provider_api.rs 1000-1007 ResourceLimits::default *)
Definition default : t := {|
  max_cpu_cores := F64.of_Z 4;
  max_memory_bytes := 8 * 1024 * 1024 * 1024;
  max_disk_bytes := 100 * 1024 * 1024 * 1024;
  max_gpu_count := 0;
|}.

End ResourceLimits.

Module ProviderCapabilities.

(** src: crates/server/domain/src/workers/provider_api.rs 959-972 ProviderCapabilities *)
Record t := mk {
  max_resources : ResourceLimits.t;
  gpu_support : bool;
  gpu_types : list string;
  architectures : list Architecture.t;
  runtimes : list string;
  regions : list string;
  max_execution_time : option Duration;
  persistent_storage : bool;
  custom_networking : bool;
  features : list ProviderFeature.t;
}.

(** src: crates/server/domain/src/workers/provider_api.rs 975-988 ProviderCapabilities::default *)
Definition default : t := {|
  max_resources := ResourceLimits.default;
  gpu_support := false;
  gpu_types := [];
  architectures := [Architecture.Amd64];
  runtimes := ["shell"];
  regions := ["local"];
  max_execution_time := Some (from_secs 3600);
  persistent_storage := false;
  custom_networking := false;
  features := [];
|}.

End ProviderCapabilities.

Module JobRequirements.

(** src: crates/server/domain/src/workers/provider_api.rs 1011-1023 JobRequirements *)
Record t := mk {
  resources : ResourceRequirements.t;
  architecture : option Architecture.t;
  required_capabilities : list string;
  required_labels : gmap string string;
  allowed_regions : list string;
  timeout : option Duration;
  preferred_category : option ProviderCategory.t;
  preferred_region : option string;
  required_annotations : gmap string string;
}.

End JobRequirements.

Module CostEstimate.

(** src: crates/server/domain/src/workers/provider_api.rs 1045-1051 CostUnit *)
Inductive CostUnit := PerSecond | PerMinute | PerHour | PerInvocation | PerGBSecond.

(** src: crates/server/domain/src/workers/provider_api.rs 1026-1031 CostEstimate *)
Record t := mk {
  currency : string;
  amount : f64;
  unit : CostUnit;
  breakdown : gmap string f64;
}.

(** src: crates/server/domain/src/workers/provider_api.rs 1034-1041 CostEstimate::zero *)
Definition zero : t := {|
  currency := "USD";
  amount := F64.of_Z 0;
  unit := PerHour;
  breakdown := ∅;
|}.

End CostEstimate.

(** ** State mappers *)

Module DockerStateMapper.

(** src: crates/server/domain/src/workers/provider_api.rs 476-485 DockerStateMapper::map_container_status *)
Definition map_container_status (status : option string) : WorkerState.t :=
  match status with
  | Some s =>
      if String.eqb s "created" then WorkerState.Creating
      else if String.eqb s "running" then WorkerState.Ready
      else if String.eqb s "paused" || String.eqb s "restarting" || String.eqb s "removing"
      then WorkerState.Creating
      else if String.eqb s "exited" || String.eqb s "dead" then WorkerState.Terminated
      else WorkerState.Creating
  | None => WorkerState.Creating
  end.

(** src: crates/server/domain/src/workers/provider_api.rs 489-491 DockerStateMapper::to_worker_state *)
Definition to_worker_state (s : string) : WorkerState.t := map_container_status (Some s).

(** [None] is the panic of [unimplemented!]. *)
(** src: crates/server/domain/src/workers/provider_api.rs 493-500 DockerStateMapper::from_worker_state *)
Definition from_worker_state (s : WorkerState.t) : option string := None.

End DockerStateMapper.

Module KubernetesStateMapper.

(** src: crates/server/domain/src/workers/provider_api.rs 517-531 KubernetesStateMapper::map_pod_phase *)
Definition map_pod_phase (phase : option string) (container_ready : bool) : WorkerState.t :=
  match phase with
  | Some p =>
      if String.eqb p "Pending" then WorkerState.Creating
      else if String.eqb p "Running" then
        if container_ready then WorkerState.Ready else WorkerState.Creating
      else if String.eqb p "Succeeded" || String.eqb p "Failed" then WorkerState.Terminated
      else WorkerState.Creating
  | None => WorkerState.Creating
  end.

(** src: crates/server/domain/src/workers/provider_api.rs 534-540 KubernetesStateMapper::is_container_ready *)
Definition is_container_ready (status : option string) (ready_condition : option bool) : bool :=
  match status, ready_condition with
  | _, Some true => true
  | Some s, None => String.eqb s "Running"
  | _, _ => false
  end.

(** src: crates/server/domain/src/workers/provider_api.rs 544-546 KubernetesStateMapper::to_worker_state *)
Definition to_worker_state (s : string) : WorkerState.t := map_pod_phase (Some s) false.

(** src: crates/server/domain/src/workers/provider_api.rs 548-554 KubernetesStateMapper::from_worker_state *)
Definition from_worker_state (s : WorkerState.t) : string :=
  match s with
  | WorkerState.Creating | WorkerState.Busy => "Pending"
  | WorkerState.Ready => "Running"
  | WorkerState.Terminated => "Succeeded"
  end.

End KubernetesStateMapper.

Module FirecrackerStateMapper.

(** src: crates/server/domain/src/workers/provider_api.rs 571-580 FirecrackerStateMapper::map_vm_state *)
Definition map_vm_state (s : string) : WorkerState.t :=
  if eq_ignore_ascii_case s "Creating" then WorkerState.Creating
  else if eq_ignore_ascii_case s "Running" then WorkerState.Ready
  else if eq_ignore_ascii_case s "Stopping" then WorkerState.Creating
  else if eq_ignore_ascii_case s "Stopped" then WorkerState.Terminated
  else if eq_ignore_ascii_case s "Failed" then WorkerState.Terminated
  else WorkerState.Creating.

(** src: crates/server/domain/src/workers/provider_api.rs 584-586 FirecrackerStateMapper::to_worker_state *)
Definition to_worker_state (s : string) : WorkerState.t := map_vm_state s.

(** src: crates/server/domain/src/workers/provider_api.rs 588-594 FirecrackerStateMapper::from_worker_state *)
Definition from_worker_state (s : WorkerState.t) : string :=
  match s with
  | WorkerState.Creating | WorkerState.Busy => "Creating"
  | WorkerState.Ready => "Running"
  | WorkerState.Terminated => "Stopped"
  end.

End FirecrackerStateMapper.

(** ** Errors of providers *)

Module ProviderError.

(** src: crates/server/domain/src/workers/provider_api.rs 1070-1109 ProviderError *)
Inductive t :=
  | ConnectionFailed (message : string)
  | AuthenticationFailed (message : string)
  | ResourceLimitExceeded (message : string)
  | WorkerNotFound (message : string)
  | ProvisioningFailed (message : string)
  | ProvisioningTimeout
  | Timeout (message : string)
  | NotReady (message : string)
  | UnsupportedOperation (message : string)
  | OperationNotSupported (operation reason : string)
  | ConfigurationError (message : string)
  | ProviderSpecific (message : string)
  | Internal (message : string).

(** src: crates/server/domain/src/workers/provider_api.rs 1069-1109 Display for ProviderError *)
Definition fmt (e : t) : string :=
  match e with
  | ConnectionFailed m => "Connection failed: " +:+ m
  | AuthenticationFailed m => "Authentication failed: " +:+ m
  | ResourceLimitExceeded m => "Resource limit exceeded: " +:+ m
  | WorkerNotFound m => "Worker not found: " +:+ m
  | ProvisioningFailed m => "Provisioning failed: " +:+ m
  | ProvisioningTimeout => "Provisioning timeout"
  | Timeout m => "Operation timeout: " +:+ m
  | NotReady m => "Provider not ready: " +:+ m
  | UnsupportedOperation m => "Unsupported operation: " +:+ m
  | OperationNotSupported operation reason =>
      "Operation not supported: " +:+ operation +:+ ", reason: " +:+ reason
  | ConfigurationError m => "Configuration error: " +:+ m
  | ProviderSpecific m => "Provider specific error: " +:+ m
  | Internal m => "Internal error: " +:+ m
  end.

(** src: crates/server/domain/src/workers/provider_api.rs 1111-1126 impl From<ProviderError> for DomainError *)
Definition into_domain `{E : Externs} (err : t) : DomainError.t :=
  match err with
  | WorkerNotFound id =>
      DomainError.WorkerProvisioningFailed ("Worker not found: " +:+ id)
  | ProvisioningFailed msg => DomainError.WorkerProvisioningFailed msg
  | ProvisioningTimeout => DomainError.WorkerProvisioningTimeout
  | _ => DomainError.InfrastructureError (fmt err)
  end.

End ProviderError.

(** ** Properties *)

Section provider_types.
Context `{EL : ExternsLaws}.

(** Repeated prefixes: what [trim_start_matches] leaves does not start with
    the pattern. *)
Lemma trim_start_fuel_done fuel p s :
  (String.length s <= fuel)%nat -> p <> "" ->
  strip_prefix p (trim_start_fuel fuel p s) = None.
Proof.
  intros Hlen Hp. revert s Hlen. induction fuel as [|fuel IH]; intros s Hlen; simpl.
  - destruct s, p; simpl in *; try done. lia.
  - destruct (strip_prefix p s) as [rest|] eqn:Hs; [|done].
    apply IH. apply strip_prefix_inv in Hs as ->. rewrite length_append in Hlen.
    destruct p; simpl in *; [done|lia].
Qed.

Lemma trim_start_fuel_length fuel p s :
  (String.length (trim_start_fuel fuel p s) <= String.length s)%nat.
Proof.
  revert s. induction fuel as [|fuel IH]; intros s; simpl; [done|].
  destruct (strip_prefix p s) as [r|] eqn:Hr; [|done].
  apply strip_prefix_inv in Hr as ->. rewrite length_append. specialize (IH r). lia.
Qed.

Lemma trim_start_length p s :
  p <> "" -> String.length (trim_start_matches p s) = String.length s ->
  trim_start_matches p s = s.
Proof.
  unfold trim_start_matches. intros Hp. destruct (String.length s) eqn:Hs; simpl; [done|].
  destruct (strip_prefix p s) as [r|] eqn:Hr; [|done].
  apply strip_prefix_inv in Hr as ->. rewrite length_append in Hs.
  pose proof (trim_start_fuel_length n p r). destruct p; simpl in *; [done|lia].
Qed.

Lemma to_ascii_lowercase_length s : String.length (to_ascii_lowercase s) = String.length s.
Proof. induction s as [|c s IH]; simpl; congruence. Qed.

Lemma trim_start_matches_none p s : strip_prefix p s = None -> trim_start_matches p s = s.
Proof. unfold trim_start_matches. destruct s; simpl; [done|]. by intros ->. Qed.

Lemma trim_start_matches_app p s :
  p <> "" -> trim_start_matches p (p +:+ s) = trim_start_matches p s.
Proof.
  intros Hp. unfold trim_start_matches. rewrite length_append.
  assert (forall n m t, (String.length t <= n)%nat -> (String.length t <= m)%nat ->
    trim_start_fuel n p t = trim_start_fuel m p t) as Hfuel.
  { induction n as [|n IH]; intros m t Hn Hm.
    - destruct t, p, m; simpl in *; try done; lia.
    - destruct m as [|m].
      + destruct t, p; simpl in *; try done; lia.
      + simpl. destruct (strip_prefix p t) as [r|] eqn:Hr; [|done].
        apply strip_prefix_inv in Hr as ->. rewrite length_append in Hn, Hm.
        apply IH; destruct p; simpl in *; try done; lia. }
  destruct (String.length p) as [|n] eqn:Hlen; [by destruct p|].
  simpl. rewrite strip_prefix_app. apply Hfuel; lia.
Qed.

(** Printing and parsing a provider type loses nothing for the
    built-in types, and for a custom type whose ASCII name is in lower case
    and does not itself start with the prefix; every other custom name comes
    back changed, in lower case and stripped of the repeated prefix. *)
Theorem provider_type_text_round_trip :
  (forall p, (forall n, p <> ProviderType.Custom n) ->
     ProviderType.parse (ProviderType.fmt p) = Some p) /\
  (forall n, is_ascii n = true ->
     ProviderType.parse (ProviderType.fmt (ProviderType.Custom n)) =
       Some (ProviderType.Custom (trim_start_matches "custom:" (to_ascii_lowercase n))) /\
     (ProviderType.parse (ProviderType.fmt (ProviderType.Custom n)) =
        Some (ProviderType.Custom n) <->
      to_ascii_lowercase n = n /\ starts_with "custom:" n = false)).
Proof.
  split.
  - intros p Hp. unfold ProviderType.parse.
    rewrite to_lowercase_ascii by (destruct p; try done; by destruct (Hp name)).
    destruct p; try done. by destruct (Hp name).
  - intros n Hn. set (m := to_ascii_lowercase n).
    assert (ProviderType.parse (ProviderType.fmt (ProviderType.Custom n)) =
      Some (ProviderType.Custom (trim_start_matches "custom:" m))) as ->.
    { unfold ProviderType.parse, ProviderType.fmt.
      rewrite to_lowercase_ascii by (by rewrite is_ascii_app, Hn).
      rewrite to_ascii_lowercase_app. change (to_ascii_lowercase "custom:") with "custom:".
      fold m. unfold ProviderType.parse_lower.
      rewrite trim_start_matches_app by done. unfold starts_with.
      by rewrite strip_prefix_app. }
    split; [done|]. unfold starts_with. split.
    + intros [= Heq]. assert (m = n) as Hmn.
      { rewrite <- Heq. symmetry. apply trim_start_length; [done|].
        rewrite Heq. unfold m. by rewrite to_ascii_lowercase_length. }
      split; [done|]. rewrite Hmn in Heq.
      assert (strip_prefix "custom:" n = None) as ->; [|done].
      rewrite <- Heq. by apply trim_start_fuel_done.
    + intros [Hl Hp]. fold m in Hl. rewrite Hl, trim_start_matches_none; [done|].
      by destruct (strip_prefix "custom:" n).
Qed.

End provider_types.

(** A worker state survives the trip through a provider's
    vocabulary exactly where a provider can tell it: Firecracker keeps all but
    [BUSY], Kubernetes also loses [READY] because the mapper asks for a phase
    with the readiness of the container unknown, and the Docker mapper has no
    inverse; every text a mapper does not know means [CREATING], and none maps
    to [BUSY]. *)
Theorem state_mappers_lose_busy :
  (forall s, FirecrackerStateMapper.to_worker_state
       (FirecrackerStateMapper.from_worker_state s) = s <-> s <> WorkerState.Busy) /\
  (forall s, KubernetesStateMapper.to_worker_state
       (KubernetesStateMapper.from_worker_state s) = s <->
     s = WorkerState.Creating \/ s = WorkerState.Terminated) /\
  (forall s, KubernetesStateMapper.map_pod_phase
       (Some (KubernetesStateMapper.from_worker_state s))
       (KubernetesStateMapper.is_container_ready
          (Some (KubernetesStateMapper.from_worker_state s)) None) = s <->
     s <> WorkerState.Busy) /\
  (forall s, DockerStateMapper.from_worker_state s = None) /\
  (forall t r, DockerStateMapper.to_worker_state t <> WorkerState.Busy /\
     KubernetesStateMapper.map_pod_phase (Some t) r <> WorkerState.Busy /\
     FirecrackerStateMapper.to_worker_state t <> WorkerState.Busy).
Proof.
  split_and!.
  - intros []; vm_compute; intuition congruence.
  - intros []; vm_compute; intuition congruence.
  - intros []; vm_compute; intuition congruence.
  - done.
  - intros t r. unfold DockerStateMapper.to_worker_state, DockerStateMapper.map_container_status,
      KubernetesStateMapper.map_pod_phase, FirecrackerStateMapper.to_worker_state,
      FirecrackerStateMapper.map_vm_state.
    split_and!; repeat case_match; done.
Qed.

Example provider_type_text_round_trip_witness :
  ProviderType.parse (E := concrete) (ProviderType.fmt (ProviderType.Custom "nomad")) =
    Some (ProviderType.Custom "nomad") /\
  ProviderType.parse (E := concrete) (ProviderType.fmt ProviderType.EC2) =
    Some ProviderType.EC2.
Proof.
  split.
  - by apply (proj2 (provider_type_text_round_trip (E := concrete)) "nomad").
  - by apply (proj1 (provider_type_text_round_trip (E := concrete)) ProviderType.EC2).
Defined.
