(* ===== verification/Job.v ===== *)
(** * The Job aggregate ([crates/server/domain/src/jobs/aggregate.rs])

    [Module ExecutionContext]: what a provider reports of a running job;
    [Module Job]: the aggregate, its lifecycle methods and its queries;
    [Module JobRepository]: the repository trait as a typeclass, with the laws
    its clients use; [Module JobStatusTracker]: the service that writes the
    status a provider reports into a repository.

    A method that calls [Utc::now()] takes the reading as its argument [now]. *)

From S2P Require Import Prelude Std Externs States Errors JobSpec.

Module ExecutionContext.
Section execution_context.
Context `{E : Externs}.

(** src: crates/server/domain/src/jobs/aggregate.rs 1174-1193 ExecutionContext *)
Record t := mk {
  job_id : JobId;
  provider_id : ProviderId;
  provider_execution_id : string;
  submitted_at : DateTime;
  started_at : option DateTime;
  completed_at : option DateTime;
  status : ExecutionStatus.t;
  result : option JobResult.t;
  metadata : gmap string string;
}.

#[global] Instance t_rebuild : Rebuild t := fun c =>
  mk (job_id c) (provider_id c) (provider_execution_id c) (submitted_at c)
    (started_at c) (completed_at c) (status c) (result c) (metadata c).

(** src: crates/server/domain/src/jobs/aggregate.rs 1196-1208 ExecutionContext::new *)
Definition new (job : JobId) (provider : ProviderId) (execution : string)
    (now : DateTime) : t := {|
  job_id := job;
  provider_id := provider;
  provider_execution_id := execution;
  submitted_at := now;
  started_at := None;
  completed_at := None;
  status := ExecutionStatus.Submitted;
  result := None;
  metadata := ∅;
|}.

(** src: crates/server/domain/src/jobs/aggregate.rs 1211-1225 ExecutionContext::update_status *)
Definition update_status (s : ExecutionStatus.t) (now : DateTime) (c : t) : t :=
  let c := c <| status := s |> in
  match s with
  | ExecutionStatus.Running =>
      match started_at c with
      | None => c <| started_at := Some now |>
      | Some _ => c
      end
  | ExecutionStatus.Succeeded | ExecutionStatus.Failed | ExecutionStatus.Cancelled =>
      match completed_at c with
      | None => c <| completed_at := Some now |>
      | Some _ => c
      end
  | _ => c
  end.

End execution_context.
End ExecutionContext.

Module TriggerType.

(** src: crates/server/domain/src/jobs/templates.rs 258-269 TriggerType *)
Inductive t := Manual | Scheduled | Api | Webhook | Retry.

#[global] Instance t_eq_dec : EqDecision t.
Proof. solve_decision. Defined.

End TriggerType.

Module Job.
Section job.
Context `{E : Externs}.

(** src: crates/server/domain/src/jobs/aggregate.rs 695-732 Job *)
Record t := mk {
  id : JobId;
  name : string;
  spec : JobSpec.t;
  state : JobState.t;
  selected_provider : option ProviderId;
  execution_context : option ExecutionContext.t;
  attempts : Z;
  max_attempts : Z;
  created_at : DateTime;
  started_at : option DateTime;
  completed_at : option DateTime;
  result : option JobResult.t;
  error_message : option string;
  metadata : gmap string string;
  template_id : option Uuid;
  template_version : option Z;
  execution_number : option Z;
  triggered_by : option TriggerType.t;
}.

#[global] Instance t_rebuild : Rebuild t := fun j =>
  mk (id j) (name j) (spec j) (state j) (selected_provider j) (execution_context j)
    (attempts j) (max_attempts j) (created_at j) (started_at j) (completed_at j)
    (result j) (error_message j) (metadata j) (template_id j) (template_version j)
    (execution_number j) (triggered_by j).

(** src: crates/server/domain/src/jobs/aggregate.rs 736-757 Job::new *)
Definition new (i : JobId) (n : string) (s : JobSpec.t) (now : DateTime) : t := {|
  id := i;
  name := n;
  spec := s;
  state := JobState.Pending;
  selected_provider := None;
  execution_context := None;
  attempts := 0;
  max_attempts := 3;
  created_at := now;
  started_at := None;
  completed_at := None;
  result := None;
  error_message := None;
  metadata := ∅;
  template_id := None;
  template_version := None;
  execution_number := None;
  triggered_by := None;
|}.

(** src: crates/server/domain/src/jobs/aggregate.rs 760-800 Job::hydrate *)
Definition hydrate := mk.

(** src: crates/server/domain/src/jobs/aggregate.rs 803-818 Job::from_template *)
Definition from_template (i : JobId) (n : string) (s : JobSpec.t) (template : Uuid)
    (version execution : Z) (trigger : TriggerType.t) (now : DateTime) : t :=
  new i n s now <| template_id := Some template |>
    <| template_version := Some version |>
    <| execution_number := Some execution |>
    <| triggered_by := Some trigger |>.

(** src: crates/server/domain/src/jobs/aggregate.rs 877-879 Job::is_from_template *)
Definition is_from_template (j : t) : bool := bool_decide (is_Some (template_id j)).

(** The error every lifecycle method returns for a move to [n] it refuses. *)
Definition refused (j : t) (n : JobState.t) : DomainError.t :=
  DomainError.InvalidStateTransition (id j) (state j) n.

(** src: crates/server/domain/src/jobs/aggregate.rs 882-891 Job::queue *)
Definition queue : method t DomainError.t unit :=
  j ← self;
  match state j with
  | JobState.Pending => mret tt
  | _ => throw (refused j JobState.Pending)
  end.

(** src: crates/server/domain/src/jobs/aggregate.rs 894-915 Job::submit_to_provider *)
Definition submit_to_provider (provider : ProviderId) (context : ExecutionContext.t)
    (now : DateTime) : method t DomainError.t unit :=
  let new_state := JobState.Scheduled in
  j ← self;
  _ ← ensure (JobState.can_transition_to (state j) new_state) (refused j new_state);
  _ ← assign state new_state;
  _ ← assign selected_provider (Some provider);
  _ ← assign execution_context (Some context);
  assign started_at (Some now).

(** src: crates/server/domain/src/jobs/aggregate.rs 919-950 Job::assign_to_provider *)
Definition assign_to_provider (provider : ProviderId) (context : ExecutionContext.t) :
    method t DomainError.t unit :=
  j ← self;
  match state j with
  | JobState.Pending =>
      _ ← assign state JobState.Assigned;
      _ ← assign selected_provider (Some provider);
      assign execution_context (Some context)
  | JobState.Assigned =>
      _ ← assign selected_provider (Some provider);
      assign execution_context (Some context)
  | _ => throw (refused j JobState.Assigned)
  end.

(** src: crates/server/domain/src/jobs/aggregate.rs 953-970 Job::mark_running *)
Definition mark_running (now : DateTime) : method t DomainError.t unit :=
  let new_state := JobState.Running in
  j ← self;
  _ ← ensure (JobState.can_transition_to (state j) new_state) (refused j new_state);
  _ ← assign state new_state;
  assign started_at (Some now).

(** src: crates/server/domain/src/jobs/aggregate.rs 973-998 Job::complete *)
Definition complete (r : JobResult.t) (now : DateTime) : method t DomainError.t unit :=
  let new_state :=
    match r with
    | JobResult.Success _ _ _ => JobState.Succeeded
    | JobResult.Failed _ _ _ => JobState.Failed
    | JobResult.Cancelled => JobState.Cancelled
    | JobResult.Timeout => JobState.Timeout
    end in
  j ← self;
  _ ← ensure (JobState.can_transition_to (state j) new_state) (refused j new_state);
  _ ← assign state new_state;
  _ ← assign completed_at (Some now);
  assign result (Some r).

(** src: crates/server/domain/src/jobs/aggregate.rs 1001-1021 Job::fail *)
Definition fail (message : string) (now : DateTime) : method t DomainError.t unit :=
  let new_state := JobState.Failed in
  j ← self;
  _ ← ensure (JobState.can_transition_to (state j) new_state) (refused j new_state);
  _ ← assign state new_state;
  _ ← assign completed_at (Some now);
  _ ← assign error_message (Some message);
  assign attempts (u32_add (attempts j) 1).

(** src: crates/server/domain/src/jobs/aggregate.rs 1024-1042 Job::cancel *)
Definition cancel (now : DateTime) : method t DomainError.t unit :=
  let new_state := JobState.Cancelled in
  j ← self;
  _ ← ensure (JobState.can_transition_to (state j) new_state) (refused j new_state);
  _ ← assign state new_state;
  assign completed_at (Some now).

(** src: crates/server/domain/src/jobs/aggregate.rs 1045-1065 Job::timeout *)
Definition timeout (now : DateTime) : method t DomainError.t unit :=
  let new_state := JobState.Timeout in
  j ← self;
  _ ← ensure (JobState.can_transition_to (state j) new_state) (refused j new_state);
  _ ← assign state new_state;
  _ ← assign completed_at (Some now);
  _ ← assign result (Some JobResult.Timeout);
  assign attempts (u32_add (attempts j) 1).

(** src: crates/server/domain/src/jobs/aggregate.rs 1068-1072 Job::can_retry *)
Definition can_retry (j : t) : bool :=
  (attempts j <? max_attempts j) &&
  match state j with JobState.Failed | JobState.Timeout => true | _ => false end &&
  JobPreferences.allow_retry (JobSpec.preferences (spec j)).

(** src: crates/server/domain/src/jobs/aggregate.rs 1075-1093 Job::prepare_retry *)
Definition prepare_retry : method t DomainError.t unit :=
  j ← self;
  _ ← ensure (can_retry j) (DomainError.MaxAttemptsExceeded (id j) (max_attempts j));
  _ ← assign state JobState.Pending;
  _ ← assign selected_provider None;
  _ ← assign execution_context None;
  _ ← assign started_at None;
  _ ← assign completed_at None;
  _ ← assign result None;
  _ ← assign error_message None;
  assign attempts (u32_add (attempts j) 1).

(** src: crates/server/domain/src/jobs/aggregate.rs 1096-1103 Job::has_expired *)
Definition has_expired (now : DateTime) (j : t) : bool :=
  match started_at j with
  | Some started =>
      let elapsed := signed_duration_since now started in
      JobSpec.timeout_ms (spec j) <? as_u64 (num_milliseconds elapsed)
  | None => false
  end.

(** src: crates/server/domain/src/jobs/aggregate.rs 1106-1117 Job::execution_duration *)
Definition execution_duration (j : t) : option Duration :=
  match started_at j, completed_at j with
  | Some started, Some completed => Some (elapsed_or_zero completed started)
  | _, _ => None
  end.

(** src: crates/server/domain/src/jobs/aggregate.rs 1119-1121 Job::set_attempts *)
Definition set_attempts (n : Z) : method t DomainError.t unit := assign attempts n.

(** src: crates/server/domain/src/jobs/aggregate.rs 1123-1135 Job::set_state *)
Definition set_state (n : JobState.t) : method t DomainError.t unit :=
  j ← self;
  _ ← ensure (JobState.can_transition_to (state j) n) (refused j n);
  assign state n.

(** src: crates/server/domain/src/jobs/aggregate.rs 1138-1140 Job::requires_scaling *)
Definition requires_scaling (queue_depth threshold : Z) (j : t) : bool :=
  JobSpec.should_escalate (spec j) queue_depth threshold.

(** src: crates/server/domain/src/jobs/aggregate.rs 1143-1145 Job::calculated_priority *)
Definition calculated_priority (j : t) : JobPriority.t :=
  JobSpec.calculate_priority (spec j).

(** src: crates/server/domain/src/jobs/aggregate.rs 1148-1153 Job::is_terminal_state *)
Definition is_terminal_state (j : t) : bool :=
  match state j with
  | JobState.Succeeded | JobState.Failed | JobState.Cancelled | JobState.Timeout => true
  | _ => false
  end.

(** src: crates/server/domain/src/jobs/aggregate.rs 1156-1161 Job::can_be_cancelled *)
Definition can_be_cancelled (j : t) : bool :=
  match state j with
  | JobState.Pending | JobState.Scheduled | JobState.Running => true
  | _ => false
  end.

End job.
End Job.

(** ** The repository trait and the status tracker *)

Module JobsFilter.
Section jobs_filter.
Context `{E : Externs}.

(** src: crates/server/domain/src/jobs/aggregate.rs 1246-1251 JobsFilter *)
Record t := mk {
  state : option JobState.t;
  provider_id : option ProviderId;
  limit : option nat;
  offset : option nat;
}.

#[global] Instance t_rebuild : Rebuild t := fun f =>
  mk (state f) (provider_id f) (limit f) (offset f).

(** src: crates/server/domain/src/jobs/aggregate.rs 1254-1256 JobsFilter::new *)
Definition new : t := mk None None None None.

(** src: crates/server/domain/src/jobs/aggregate.rs 1258-1261 JobsFilter::with_state *)
Definition with_state (s : JobState.t) (f : t) : t := f <| state := Some s |>.

(** src: crates/server/domain/src/jobs/aggregate.rs 1263-1266 JobsFilter::with_provider_id *)
Definition with_provider_id (p : ProviderId) (f : t) : t := f <| provider_id := Some p |>.

End jobs_filter.
End JobsFilter.

Module JobRepository.
Section job_repository.
Context `{E : Externs}.

(** src: crates/server/domain/src/jobs/aggregate.rs 1230-1242 JobRepository *)
Class t (R : Type) := {
  save : Job.t -> method R DomainError.t unit;
  find_by_id : JobId -> method R DomainError.t (option Job.t);
  find : JobsFilter.t -> method R DomainError.t (list Job.t);
  find_by_state : JobState.t -> method R DomainError.t (list Job.t);
  find_pending : method R DomainError.t (list Job.t);
  find_all : nat -> nat -> method R DomainError.t (list Job.t * nat);
  find_by_execution_id : string -> method R DomainError.t (option Job.t);
  count_by_state : JobState.t -> method R DomainError.t Z;
  delete : JobId -> method R DomainError.t unit;
  update : Job.t -> method R DomainError.t unit;
  update_state : JobId -> JobState.t -> method R DomainError.t unit;
}.

(** What the clients of a repository rely on.  Any operation may fail (the
    store may be a database); a failed operation changes nothing, and one that
    returns reads or writes the map from identifiers to jobs. *)
Class Laws (R : Type) `{!t R} := {
  contents : R -> gmap JobId Job.t;
  find_by_id_ok : forall i r r' o,
    find_by_id i r = (r', Ok o) -> r' = r /\ o = contents r !! i;
  find_by_id_err : forall i r r' e, find_by_id i r = (r', Err e) -> r' = r;
  find_by_state_ok : forall s r r' l,
    find_by_state s r = (r', Ok l) ->
    r' = r /\ forall j, j ∈ l <-> exists i, contents r !! i = Some j /\ Job.state j = s;
  update_ok : forall j r r',
    update j r = (r', Ok tt) -> contents r' = <[Job.id j := j]> (contents r);
  update_err : forall j r r' e, update j r = (r', Err e) -> r' = r;
}.

End job_repository.
End JobRepository.

Module JobStatusTracker.
Section tracker.
Context `{E : Externs}.
Context {R : Type} `{!JobRepository.t R}.

(** The job state an execution status is mapped to. *)
(** src: crates/server/domain/src/jobs/aggregate.rs 1358-1365 JobStatusTracker::update_job_status (mapping) *)
Definition job_state_of (s : ExecutionStatus.t) : JobState.t :=
  match s with
  | ExecutionStatus.Running => JobState.Running
  | ExecutionStatus.Succeeded => JobState.Succeeded
  | ExecutionStatus.Failed => JobState.Failed
  | ExecutionStatus.Cancelled => JobState.Cancelled
  | ExecutionStatus.TimedOut => JobState.Timeout
  | ExecutionStatus.Submitted | ExecutionStatus.Queued => JobState.Scheduled
  end.

(** The job that [update_job_status] stores; [now_status] and [now_result] are
    the two readings of the clock. *)
(** src: crates/server/domain/src/jobs/aggregate.rs 1349-1374 JobStatusTracker::update_job_status (body) *)
Definition apply_status (new_status : ExecutionStatus.t) (res : option JobResult.t)
    (now_status now_result : DateTime) (j : Job.t) : Job.t :=
  let j :=
    match Job.execution_context j with
    | Some c =>
        let c := ExecutionContext.update_status new_status now_status c in
        let c :=
          match res with
          | Some r => c <| ExecutionContext.result := Some r |>
          | None => c
          end in
        j <| Job.execution_context := Some c |>
    | None => j
    end in
  let new_job_state := job_state_of new_status in
  let j :=
    if bool_decide (Job.state j <> new_job_state)
    then j <| Job.state := new_job_state |> else j in
  match res with
  | Some r => j <| Job.result := Some r |> <| Job.completed_at := Some now_result |>
  | None => j
  end.

(** src: crates/server/domain/src/jobs/aggregate.rs 1335-1378 JobStatusTracker::update_job_status *)
Definition update_job_status (i : JobId) (new_status : ExecutionStatus.t)
    (res : option JobResult.t) (now_status now_result : DateTime) :
    method R DomainError.t unit :=
  found ← JobRepository.find_by_id i;
  j ← lift (ok_or found (DomainError.JobNotFound i));
  JobRepository.update (apply_status new_status res now_status now_result j).

(** src: crates/server/domain/src/jobs/aggregate.rs 1381-1388 JobStatusTracker::get_job_status *)
Definition get_job_status (i : JobId) :
    method R DomainError.t (option (JobState.t * option JobResult.t)) :=
  found ← JobRepository.find_by_id i;
  mret ((fun j => (Job.state j, Job.result j)) <$> found).

(** [now i] is the reading of the clock for the job [i] of the loop. *)
(** src: crates/server/domain/src/jobs/aggregate.rs 1391-1407 JobStatusTracker::cleanup_expired_jobs *)
Definition cleanup_expired_jobs (now : JobId -> DateTime) :
    method R DomainError.t (list JobId) :=
  pending ← JobRepository.find_by_state JobState.Pending;
  mret (Job.id <$> filter (fun j => Job.has_expired (now (Job.id j)) j = true) pending).

End tracker.
End JobStatusTracker.

(** ** Histories of a job *)

Module JobLifecycle.
Section lifecycle.
Context `{E : Externs}.

(** A call of one of the methods that change a job. *)
Inductive op :=
  | Queue
  | Submit (p : ProviderId) (c : ExecutionContext.t) (now : DateTime)
  | Assign (p : ProviderId) (c : ExecutionContext.t)
  | MarkRunning (now : DateTime)
  | Complete (r : JobResult.t) (now : DateTime)
  | Fail (message : string) (now : DateTime)
  | Cancel (now : DateTime)
  | Timeout (now : DateTime)
  | PrepareRetry
  | SetState (n : JobState.t).

Definition run (o : op) : method Job.t DomainError.t unit :=
  match o with
  | Queue => Job.queue
  | Submit p c now => Job.submit_to_provider p c now
  | Assign p c => Job.assign_to_provider p c
  | MarkRunning now => Job.mark_running now
  | Complete r now => Job.complete r now
  | Fail m now => Job.fail m now
  | Cancel now => Job.cancel now
  | Timeout now => Job.timeout now
  | PrepareRetry => Job.prepare_retry
  | SetState n => Job.set_state n
  end.

(** A caller that ignores errors: the state after a sequence of calls. *)
Definition run_all (ops : list op) (j : Job.t) : Job.t :=
  fold_left (fun j o => after (run o) j) ops j.

(** Did the call return [Ok]? *)
Definition succeeds (o : op) (j : Job.t) : bool := is_ok (returns (run o) j).

(** The number of calls selected by [f] that succeed along a sequence. *)
Fixpoint count (f : op -> bool) (ops : list op) (j : Job.t) : Z :=
  match ops with
  | [] => 0
  | o :: ops =>
      (if f o && succeeds o j then 1 else 0) + count f ops (after (run o) j)
  end.

Definition is_fault (o : op) : bool :=
  match o with Fail _ _ | Timeout _ => true | _ => false end.
Definition is_retry (o : op) : bool :=
  match o with PrepareRetry => true | _ => false end.
Definition is_set_state (o : op) : bool :=
  match o with SetState _ => true | _ => false end.

(** The abstract lifecycle: what a method may do to the state and the attempt
    counter.  A retry is the only way out of a final state. *)
Inductive lifecycle (o : op) (max : Z) : JobState.t * Z -> JobState.t * Z -> Prop :=
  | lc_stay s a : is_fault o = false -> is_retry o = false ->
      s = JobState.Pending \/ s = JobState.Assigned ->
      lifecycle o max (s, a) (s, a)
  | lc_move s n a : is_fault o = false -> is_retry o = false ->
      JobState.can_transition_to s n = true ->
      lifecycle o max (s, a) (n, a)
  | lc_fault s n a : is_fault o = true -> JobState.can_transition_to s n = true ->
      n = JobState.Failed \/ n = JobState.Timeout ->
      lifecycle o max (s, a) (n, u32_add a 1)
  | lc_retry s a : is_retry o = true -> s = JobState.Failed \/ s = JobState.Timeout ->
      a < max -> lifecycle o max (s, a) (JobState.Pending, u32_add a 1).

(** What identifies a job and no method may change. *)
Definition identity (j : Job.t) :=
  (Job.id j, Job.name j, Job.spec j, Job.max_attempts j, Job.created_at j,
   Job.metadata j, (Job.template_id j, Job.template_version j,
   Job.execution_number j, Job.triggered_by j)).

(** A history in which the only way into [FAILED] or [TIMEOUT] is [fail] or
    [timeout]. *)
Definition by_fault (o : op) : bool :=
  match o with
  | Complete (JobResult.Failed _ _ _) _ | Complete JobResult.Timeout _ | SetState _ => false
  | _ => true
  end.

Definition retryable (s : JobState.t) : bool :=
  match s with JobState.Failed | JobState.Timeout => true | _ => false end.

(** The attempt counter is within its limit, one more once the job has failed. *)
Definition counted (j : Job.t) : Prop :=
  0 <= Job.attempts j /\ 0 <= Job.max_attempts j < u32_max /\
  Job.attempts j <= Job.max_attempts j + (if retryable (Job.state j) then 1 else 0).

(** The fields that go with each state when [set_state] is not used. *)
Definition consistent (j : Job.t) : Prop :=
  let assigned := is_Some (Job.selected_provider j) /\ is_Some (Job.execution_context j) in
  match Job.state j with
  | JobState.Pending =>
      Job.selected_provider j = None /\ Job.execution_context j = None /\
      Job.started_at j = None /\ Job.completed_at j = None /\
      Job.result j = None /\ Job.error_message j = None
  | JobState.Assigned =>
      assigned /\ Job.started_at j = None /\ Job.completed_at j = None /\
      Job.result j = None /\ Job.error_message j = None
  | JobState.Scheduled | JobState.Running =>
      assigned /\ is_Some (Job.started_at j) /\ Job.completed_at j = None /\
      Job.result j = None /\ Job.error_message j = None
  | JobState.Succeeded =>
      assigned /\ is_Some (Job.started_at j) /\ is_Some (Job.completed_at j) /\
      exists c o e, Job.result j = Some (JobResult.Success c o e)
  | JobState.Failed =>
      is_Some (Job.completed_at j) /\
      match Job.result j with
      | None => is_Some (Job.error_message j)
      | Some (JobResult.Failed _ _ _) => True
      | Some _ => False
      end
  | JobState.Cancelled =>
      is_Some (Job.completed_at j) /\
      (Job.result j = None \/ Job.result j = Some JobResult.Cancelled)
  | JobState.Timeout =>
      is_Some (Job.completed_at j) /\ Job.result j = Some JobResult.Timeout
  | JobState.ManualInterventionRequired => False
  end.

(** What holds even when [set_state] is used. *)
Definition coherent (j : Job.t) : Prop :=
  (is_Some (Job.completed_at j) -> Job.is_terminal_state j = true) /\
  (is_Some (Job.result j) -> is_Some (Job.completed_at j)) /\
  (is_Some (Job.error_message j) -> Job.state j = JobState.Failed).

End lifecycle.
End JobLifecycle.

(** ** Properties *)

Section lifecycle_properties.
Context `{E : Externs}.
Import JobLifecycle.

(** Runs one call on a job whose state is known. *)
Ltac run_op :=
  cbv [run Job.queue Job.submit_to_provider Job.assign_to_provider Job.mark_running
    Job.complete Job.fail Job.cancel Job.timeout Job.prepare_retry Job.set_state
    Job.refused self assign modify throw lift ensure mbind method_bind
    mret method_ret] in *; simpl in *.

Lemma run_failsafe o : failsafe (run o).
Proof.
  destruct o; simpl; unfold Job.queue, Job.submit_to_provider, Job.assign_to_provider,
    Job.mark_running, Job.complete, Job.fail, Job.cancel, Job.timeout,
    Job.prepare_retry, Job.set_state;
    apply failsafe_self_bind; intros j;
    try apply failsafe_ensure_bind; try case_match; auto 12 with rust.
Qed.

Lemma after_failed o j : succeeds o j = false -> after (run o) j = j.
Proof.
  unfold succeeds, returns, after. destruct (run o j) as [j' [[]|e]] eqn:Hr; [done|].
  intros _. by apply run_failsafe in Hr.
Qed.

Lemma run_lifecycle o j j' :
  run o j = (j', Ok tt) ->
  lifecycle o (Job.max_attempts j) (Job.state j, Job.attempts j)
    (Job.state j', Job.attempts j') /\ identity j' = identity j.
Proof.
  destruct j as [i n sp st pr ctx att mx cr stt comp res err md ti tv en tb].
  destruct o as [|p c now|p c|now|r now|m now|now|now| |s]; run_op;
    try (destruct (JobState.can_transition_to _ _) eqn:Ht; intros [= <-];
         split; [|done]; (by apply lc_move) || (by apply lc_fault; auto)).
  - destruct st; intros [= <-]; (split; [by apply lc_stay; auto|done]).
  - destruct st; intros [= <-]; (split; [|done]);
      [by apply lc_move | by apply lc_stay; auto].
  - destruct (Job.can_retry _) eqn:Ht; intros [= <-].
    unfold Job.can_retry in Ht; simpl in Ht.
    apply andb_true_iff in Ht as [[Ha Hs]%andb_true_iff _].
    split; [apply lc_retry; [done|by destruct st; auto|lia] | done].
Qed.

Lemma run_coherent o j : coherent j -> coherent (after (run o) j).
Proof.
  destruct (succeeds o j) eqn:Hs; [|by rewrite after_failed].
  unfold succeeds, returns, after in *. destruct (run o j) as [j' [[]|]] eqn:Hr; [|done].
  simpl. clear Hs. revert Hr.
  destruct j as [i n sp st pr ctx att mx cr stt comp res err md ti tv en tb].
  unfold coherent, Job.is_terminal_state.
  destruct o as [|p c now|p c|now|r now|m now|now|now| |s]; run_op;
    [..|destruct s]; destruct st; simpl; try destruct r;
    try (destruct (Job.can_retry _)); intros [= <-]; simpl;
    intros (Hc & Hr & He); split_and!; intros Hx; try done;
    try (by destruct Hx as [? [=]]); try discriminate (He Hx);
    try (by specialize (Hc (Hr Hx))); try (by specialize (Hc Hx)); eauto.
Qed.

Lemma run_consistent o j :
  is_set_state o = false -> consistent j -> consistent (after (run o) j).
Proof.
  intros Ho. destruct (succeeds o j) eqn:Hs; [|by rewrite after_failed].
  unfold succeeds, returns, after in *. destruct (run o j) as [j' [[]|]] eqn:Hr; [|done].
  simpl. clear Hs. revert Hr.
  destruct j as [i n sp st pr ctx att mx cr stt comp res err md ti tv en tb].
  unfold consistent.
  destruct o as [|p c now|p c|now|r now|m now|now|now| |s]; try done; run_op;
    destruct st; simpl; try destruct r; try (destruct (Job.can_retry _));
    intros [= <-]; simpl; intuition (subst; eauto).
Qed.

Lemma run_all_cons o ops j : run_all (o :: ops) j = run_all ops (after (run o) j).
Proof. done. Qed.

Lemma run_all_ind (P : Job.t -> Prop) (f : op -> bool) ops j :
  (forall o j, f o = true -> P j -> P (after (run o) j)) ->
  forallb f ops = true -> P j -> P (run_all ops j).
Proof.
  intros Hstep. revert j. induction ops as [|o ops IH]; intros j; [done|].
  simpl. intros [Ho Hops]%andb_true_iff Hj. apply IH; [done|]. by apply Hstep.
Qed.

Lemma lifecycle_counter o max s a n b :
  lifecycle o max (s, a) (n, b) ->
  0 <= a -> 0 <= max < u32_max -> a <= max + (if retryable s then 1 else 0) ->
  b = a + (if is_fault o then 1 else 0) + (if is_retry o then 1 else 0) /\
  b <= max + (if retryable n then 1 else 0) /\
  (is_retry o = true -> retryable s = true /\ retryable n = false /\ a < max).
Proof.
  unfold u32_max. assert (2 ^ 32 = 4294967296) as Hp by done.
  assert (forall s n, JobState.can_transition_to s n = true -> retryable s = false)
    as Hsrc by (intros [] []; done).
  assert (forall x, 0 <= x < 2 ^ 32 - 1 -> u32_add x 1 = x + 1) as Hadd
    by (intros; apply u32_add_small; unfold u32; lia).
  inversion 1 as [? ? Hf Hr Hst | ? ? ? Hf Hr Ht | ? ? ? Hf Ht Hn | ? ? Hr Hst Hm]; subst;
    intros Ha Hmax Hle; try (pose proof (Hsrc _ _ Ht) as Hs; rewrite Hs in Hle).
  - rewrite Hf, Hr. split_and!; [lia|lia|done].
  - rewrite Hf, Hr. split_and!; [lia|case_match; lia|done].
  - assert (is_retry o = false) as -> by (by destruct o).
    assert (retryable n = true) as -> by (by destruct Hn; subst).
    rewrite Hf, Hadd by lia. split_and!; [lia|lia|done].
  - assert (is_fault o = false) as -> by (by destruct o).
    assert (retryable s = true) as -> by (by destruct Hst; subst).
    rewrite Hr, Hadd by lia. simpl. split_and!; [lia|lia|auto].
Qed.

Lemma run_by_fault o j j' :
  by_fault o = true -> is_fault o = false -> is_retry o = false ->
  run o j = (j', Ok tt) -> retryable (Job.state j') = true ->
  retryable (Job.state j) = true.
Proof.
  destruct j as [i n sp st pr ctx att mx cr stt comp res err md ti tv en tb].
  destruct o as [|p c now|p c|now|r now|m now|now|now| |s]; run_op; try done;
    destruct st; try destruct r; by intros ??? [= <-].
Qed.

(** One call and the counter: what it adds, and when. *)
Lemma run_counted o j :
  counted j ->
  let j' := after (run o) j in
  let faulted := is_fault o && succeeds o j in
  let retried := is_retry o && succeeds o j in
  counted j' /\ Job.max_attempts j' = Job.max_attempts j /\
  Job.attempts j' = Job.attempts j + (if faulted then 1 else 0) + (if retried then 1 else 0) /\
  (retried = true -> retryable (Job.state j) = true /\
     retryable (Job.state j') = false /\ Job.attempts j < Job.max_attempts j) /\
  (by_fault o = true -> faulted = false -> retried = false ->
     retryable (Job.state j') = true -> retryable (Job.state j) = true).
Proof.
  intros Hj. destruct (succeeds o j) eqn:Hs.
  2:{ rewrite after_failed by done. rewrite !andb_false_r.
      split_and!; solve [lia | done | auto]. }
  unfold succeeds, returns, after in *. destruct (run o j) as [j' [[]|]] eqn:Hr; [|done].
  cbn [fst]. rewrite !andb_true_r.
  pose proof (run_lifecycle _ _ _ Hr) as [Hl Hid].
  assert (Job.max_attempts j' = Job.max_attempts j) as Hm by (by injection Hid).
  destruct Hj as (Ha & Hmax & Hle).
  destruct (lifecycle_counter _ _ _ _ _ _ Hl Ha Hmax Hle) as (Hb & Hle' & Hret).
  unfold counted. rewrite Hm. split_and!; try done; try lia.
  - repeat case_match; lia.
  - intros. by eapply run_by_fault.
Qed.

Lemma count_nonneg f ops j : 0 <= count f ops j.
Proof.
  revert j. induction ops as [|o ops IH]; intros j; simpl; [lia|].
  specialize (IH (after (run o) j)). case_match; lia.
Qed.

Lemma history_counted ops j :
  counted j ->
  counted (run_all ops j) /\
  Job.attempts (run_all ops j) =
    Job.attempts j + count is_fault ops j + count is_retry ops j /\
  count is_retry ops j <= Z.max 0 (Job.max_attempts j - Job.attempts j).
Proof.
  revert j. induction ops as [|o ops IH]; intros j Hj.
  { split_and!; solve [done | simpl; lia]. }
  rewrite run_all_cons. cbn [count]. destruct (run_counted o j Hj) as (Hj' & Hm & Ha & Hr & _).
  destruct (IH _ Hj') as (Hc & Hat & Hle). rewrite Hat, Ha. split_and!; [done|lia|].
  rewrite Hm, Ha in Hle.
  repeat case_match; lia.
Qed.

(** A failure that is reported by [fail] costs two of the attempts. *)
Lemma retries_halved ops j :
  counted j -> forallb by_fault ops = true ->
  2 * count is_retry ops j <=
    Z.max 0 (Job.max_attempts j - Job.attempts j
             + (if retryable (Job.state j) then 1 else 0)).
Proof.
  revert j. induction ops as [|o ops IH]; intros j Hj; simpl; [lia|].
  intros [Ho Hops]%andb_true_iff.
  destruct (run_counted o j Hj) as (Hj' & Hm & Ha & Hr & Hby).
  specialize (IH _ Hj' Hops). rewrite Hm, Ha in IH.
  destruct (is_retry o && succeeds o j).
  - destruct (Hr eq_refl) as (Hs & Hs' & ?). rewrite Hs. rewrite Hs' in IH.
    case_match; lia.
  - destruct (is_fault o && succeeds o j).
    + repeat case_match; lia.
    + specialize (Hby Ho eq_refl eq_refl).
      destruct (retryable (Job.state (after (run o) j))); [rewrite Hby by done; lia|].
      case_match; lia.
Qed.

(** C32: every method of a job either returns an error and leaves
    the job exactly as it was, or makes one step of the abstract lifecycle: it
    keeps the state, takes a transition of the state machine (counting an
    attempt exactly when the method is [fail] or [timeout]), or is a retry that
    takes a failed or timed out job with attempts left back to pending.  No
    method changes what identifies the job, its specification or its limit. *)
Theorem job_methods_refine_the_lifecycle o j :
  match run o j with
  | (j', Err _) => j' = j
  | (j', Ok _) =>
      lifecycle o (Job.max_attempts j) (Job.state j, Job.attempts j)
        (Job.state j', Job.attempts j') /\ identity j' = identity j
  end.
Proof.
  destruct (run o j) as [j' [[]|e]] eqn:Hr; [by apply run_lifecycle|].
  by eapply run_failsafe.
Qed.

(** Along every sequence of calls on a new job, errors
    included, the recorded fields agree with the state: a completion time only
    with a final state, a result only with a completion time, an error message
    only on a failed job.  When [set_state] is not called, the fields are
    exactly those of the state: a running job has a provider, a context, a
    start and no result, a succeeded job has a successful result, a timed out
    job the result [TIMEOUT], and manual intervention is never reached. *)
Theorem job_records_stay_consistent i n sp now ops :
  coherent (run_all ops (Job.new i n sp now)) /\
  (forallb (fun o => negb (is_set_state o)) ops = true ->
   consistent (run_all ops (Job.new i n sp now))).
Proof.
  split.
  - apply (run_all_ind _ (fun _ => true)); [by auto using run_coherent| |].
    + by induction ops.
    + split_and!; by intros [? [=]].
  - intros Hops. apply (run_all_ind _ _ _ _ ) with (2 := Hops); [|by split_and!].
    intros o j Ho. apply run_consistent. by apply negb_true_iff in Ho.
Qed.

(** Along every sequence of calls the attempt counter is the
    number of faults reported by [fail] and [timeout] plus the number of
    retries, never exceeds the limit by more than one and never wraps, and the
    number of retries is at most the limit.  When every failure is reported by
    [fail] or [timeout], each costs two attempts, the fault and the retry, so
    the retries are at most half of the limit: one for the default of three. *)
Theorem attempts_count_faults_and_retries i n sp now ops :
  let j0 := Job.new i n sp now in
  let j := run_all ops j0 in
  Job.attempts j = count is_fault ops j0 + count is_retry ops j0 /\
  Job.attempts j <= Job.max_attempts j + 1 /\
  count is_retry ops j0 <= Job.max_attempts j0 /\
  (forallb by_fault ops = true -> count is_retry ops j0 <= Job.max_attempts j0 / 2).
Proof.
  intros j0 j. assert (counted j0) as Hj0 by (repeat split; simpl; lia).
  destruct (history_counted ops j0 Hj0) as ((Ha & Hm & Hle) & Hat & Hret).
  subst j0 j. simpl in *. split_and!; [lia| |lia|].
  - case_match; lia.
  - intros Hby. pose proof (retries_halved ops (Job.new i n sp now) Hj0 Hby) as H2.
    simpl in H2. change (3 / 2) with 1. lia.
Qed.

(** A job expires, for a clock that has not gone back since its
    start, exactly when more whole milliseconds than its timeout have passed;
    when the start lies a millisecond or more in the future the difference
    wraps around and the job counts as expired.  Cancelling succeeds on every
    job that [can_be_cancelled] accepts, and on two states it refuses. *)
Theorem expiry_and_cancellation_queries `{EL : !ExternsLaws E} j now start :
  Job.started_at j = Some start ->
  0 <= JobSpec.timeout_ms (Job.spec j) < 2 ^ 63 ->
  (timestamp start <= timestamp now < timestamp start + 2 ^ 63 ->
     Job.has_expired now j = true <->
     JobSpec.timeout_ms (Job.spec j) < (timestamp now - timestamp start) / 1000000) /\
  (timestamp now + 1000000 <= timestamp start < timestamp now + 2 ^ 63 ->
     Job.has_expired now j = true) /\
  (forall t, is_ok (returns (Job.cancel t) j) = true <->
     Job.can_be_cancelled j = true \/ Job.state j = JobState.Assigned \/
     Job.state j = JobState.ManualInterventionRequired).
Proof.
  intros Hs Ht. unfold Job.has_expired. rewrite Hs, num_milliseconds_since.
  assert (2 ^ 63 = 9223372036854775808 /\ 2 ^ 64 = 18446744073709551616)
    as [H63 H64] by done.
  split_and!.
  - intros Hle. rewrite Z.quot_div_nonneg by lia.
    unfold as_u64. rewrite wrap_small, Z.ltb_lt; [done|].
    split; [apply Z.div_pos; lia|].
    apply Z.div_lt_upper_bound; lia.
  - intros Hle. unfold as_u64, wrap. apply Z.ltb_lt.
    replace (timestamp now - timestamp start) with (- (timestamp start - timestamp now)) by lia.
    rewrite Z.quot_opp_l, Z.quot_div_nonneg by lia.
    pose proof (Z.div_le_lower_bound (timestamp start - timestamp now) 1000000 1).
    assert ((timestamp start - timestamp now) / 1000000 <= 2 ^ 63 / 1000000)
      by (apply Z.div_le_mono; lia).
    change (2 ^ 63 / 1000000) with 9223372036854 in *.
    rewrite <- (Z.mod_add _ 1), Z.mod_small by lia. lia.
  - intros t. unfold Job.can_be_cancelled. destruct j; simpl.
    cbv [Job.cancel Job.state]. clear. run_method. destruct state; intuition discriminate.
Qed.

End lifecycle_properties.

Example expiry_and_cancellation_queries_witness :
  let j := Job.new (E := concrete) 1%nat "build" (JobSpec.new ["make"]) 0
             <| Job.started_at := Some (5000000 : @DateTime concrete) |> in
  Job.has_expired (E := concrete) 0 j = true /\
  Job.has_expired (E := concrete) 5000000 j = false.
Proof.
  intros j. split.
  - apply (expiry_and_cancellation_queries (E := concrete) j 0 5000000 eq_refl);
      by vm_compute.
  - apply not_true_iff_false. intros Hx.
    apply (expiry_and_cancellation_queries (E := concrete) j 5000000 5000000 eq_refl) in Hx;
      by vm_compute in *.
Defined.
