(* ===== verification/Worker.v ===== *)
(** * The Worker aggregate ([crates/server/domain/src/workers/aggregate.rs])

    [WorkerSpec] and its builders, [WorkerHandle], the ephemeral [Worker] with
    its lifecycle methods and timeouts, the filters of the worker registry
    ([registry.rs]) and the health service ([health.rs]).

    A method that calls [Utc::now()] takes the reading as its argument [now]
    (two arguments where it reads the clock twice). *)

From S2P Require Import Prelude Std Externs States Errors Kubernetes ProviderApi.

Module VolumeSpec.

(** src: crates/server/domain/src/workers/aggregate.rs 235-253 VolumeSpec *)
Inductive t :=
  | Persistent (name claim_name : string) (read_only : bool)
  | Ephemeral (name : string) (size_limit : option Z)
  | HostPath (name path : string) (read_only : bool).

End VolumeSpec.

Module WorkerSpec.
Section worker_spec.
Context `{E : Externs}.

(** src: crates/server/domain/src/workers/aggregate.rs 273-314 WorkerSpec *)
Record t := mk {
  worker_id : WorkerId;
  image : string;
  resources : ResourceRequirements.t;
  labels : gmap string string;
  annotations : gmap string string;
  environment : gmap string string;
  volumes : list VolumeSpec.t;
  server_address : string;
  max_lifetime : Duration;
  idle_timeout : Duration;
  ttl_after_completion : option Duration;
  architecture : Architecture.t;
  required_capabilities : list string;
  provider_config : option ProviderConfig.t;
  kubernetes : KubernetesWorkerConfig.t;
}.

#[global] Instance t_rebuild : Rebuild t := fun s =>
  mk (worker_id s) (image s) (resources s) (labels s) (annotations s) (environment s)
    (volumes s) (server_address s) (max_lifetime s) (idle_timeout s)
    (ttl_after_completion s) (architecture s) (required_capabilities s)
    (provider_config s) (kubernetes s).

(** [fresh] is the random identifier of [WorkerId::new()]. *)
(** src: crates/server/domain/src/workers/aggregate.rs 561-579 WorkerSpec::new *)
Definition new (img address : string) (fresh : WorkerId) : t := {|
  worker_id := fresh;
  image := img;
  resources := ResourceRequirements.default;
  labels := ∅;
  annotations := ∅;
  environment := ∅;
  volumes := [];
  server_address := address;
  max_lifetime := from_secs 3600;
  idle_timeout := from_secs 300;
  ttl_after_completion := None;
  architecture := Architecture.default;
  required_capabilities := [];
  provider_config := None;
  kubernetes := KubernetesWorkerConfig.default;
|}.

(** src: crates/server/domain/src/workers/aggregate.rs 585-588 WorkerSpec::with_ttl_after_completion *)
Definition with_ttl_after_completion (ttl : Duration) (s : t) : t :=
  s <| ttl_after_completion := Some ttl |>.

(** src: crates/server/domain/src/workers/aggregate.rs 606-609 WorkerSpec::with_provider_config *)
Definition with_provider_config (config : ProviderConfig.t) (s : t) : t :=
  s <| provider_config := Some config |>.

(** src: crates/server/domain/src/workers/aggregate.rs 611-614 WorkerSpec::with_resources *)
Definition with_resources (r : ResourceRequirements.t) (s : t) : t :=
  s <| resources := r |>.

(** src: crates/server/domain/src/workers/aggregate.rs 616-619 WorkerSpec::with_label *)
Definition with_label (key value : string) (s : t) : t :=
  s <| labels := <[key := value]> (labels s) |>.

(** src: crates/server/domain/src/workers/aggregate.rs 621-624 WorkerSpec::with_env *)
Definition with_env (key value : string) (s : t) : t :=
  s <| environment := <[key := value]> (environment s) |>.

(** src: crates/server/domain/src/workers/aggregate.rs 626-629 WorkerSpec::with_volume *)
Definition with_volume (v : VolumeSpec.t) (s : t) : t :=
  s <| volumes := volumes s ++ [v] |>.

(** src: crates/server/domain/src/workers/aggregate.rs 631-634 WorkerSpec::with_capability *)
Definition with_capability (c : string) (s : t) : t :=
  s <| required_capabilities := required_capabilities s ++ [c] |>.

(** src: crates/server/domain/src/workers/aggregate.rs 637-644 WorkerSpec::with_kubernetes_annotation *)
Definition with_kubernetes_annotation (key value : string) (s : t) : t :=
  s <| kubernetes := kubernetes s <| KubernetesWorkerConfig.annotations :=
         <[key := value]> (KubernetesWorkerConfig.annotations (kubernetes s)) |> |>.

(** src: crates/server/domain/src/workers/aggregate.rs 647-656 WorkerSpec::with_kubernetes_label *)
Definition with_kubernetes_label (key value : string) (s : t) : t :=
  s <| kubernetes := kubernetes s <| KubernetesWorkerConfig.custom_labels :=
         <[key := value]> (KubernetesWorkerConfig.custom_labels (kubernetes s)) |> |>.

(** src: crates/server/domain/src/workers/aggregate.rs 659-668 WorkerSpec::with_kubernetes_node_selector *)
Definition with_kubernetes_node_selector (key value : string) (s : t) : t :=
  s <| kubernetes := kubernetes s <| KubernetesWorkerConfig.node_selector :=
         <[key := value]> (KubernetesWorkerConfig.node_selector (kubernetes s)) |> |>.

(** src: crates/server/domain/src/workers/aggregate.rs 671-674 WorkerSpec::with_kubernetes_service_account *)
Definition with_kubernetes_service_account (account : string) (s : t) : t :=
  s <| kubernetes := kubernetes s
         <| KubernetesWorkerConfig.service_account := Some account |> |>.

(** src: crates/server/domain/src/workers/aggregate.rs 677-680 WorkerSpec::with_kubernetes_init_container *)
Definition with_kubernetes_init_container (c : KubernetesContainer.t) (s : t) : t :=
  s <| kubernetes := kubernetes s <| KubernetesWorkerConfig.init_containers :=
         KubernetesWorkerConfig.init_containers (kubernetes s) ++ [c] |> |>.

(** src: crates/server/domain/src/workers/aggregate.rs 683-686 WorkerSpec::with_kubernetes_sidecar_container *)
Definition with_kubernetes_sidecar_container (c : KubernetesContainer.t) (s : t) : t :=
  s <| kubernetes := kubernetes s <| KubernetesWorkerConfig.sidecar_containers :=
         KubernetesWorkerConfig.sidecar_containers (kubernetes s) ++ [c] |> |>.

End worker_spec.
End WorkerSpec.

Module WorkerHandle.
Section worker_handle.
Context `{E : Externs}.

(** src: crates/server/domain/src/workers/aggregate.rs 691-704 WorkerHandle *)
Record t := mk {
  worker_id : WorkerId;
  provider_resource_id : string;
  provider_type : ProviderType.t;
  provider_id : ProviderId;
  created_at : DateTime;
  metadata : gmap string Json;
}.

#[global] Instance t_rebuild : Rebuild t := fun h =>
  mk (worker_id h) (provider_resource_id h) (provider_type h) (provider_id h)
    (created_at h) (metadata h).

(** src: crates/server/domain/src/workers/aggregate.rs 707-721 WorkerHandle::new *)
Definition new (worker : WorkerId) (resource : string) (type : ProviderType.t)
    (provider : ProviderId) (now : DateTime) : t := {|
  worker_id := worker;
  provider_resource_id := resource;
  provider_type := type;
  provider_id := provider;
  created_at := now;
  metadata := ∅;
|}.

(** src: crates/server/domain/src/workers/aggregate.rs 723-726 WorkerHandle::with_metadata *)
Definition with_metadata (key : string) (value : Json) (h : t) : t :=
  h <| metadata := <[key := value]> (metadata h) |>.

End worker_handle.
End WorkerHandle.

Module TerminationReason.
Section termination_reason.
Context `{E : Externs}.

(** src: crates/server/domain/src/events.rs 707-731 TerminationReason *)
Inductive t :=
  | Unregistered
  | IdleTimeout
  | LifetimeExceeded
  | HealthCheckFailed
  | ManualTermination
  | ProviderError (message : string)
  | JobCompleted
  | SelfInitiated (last_job_id : option JobId) (expected_cleanup_ms actual_wait_ms : Z).

(** src: crates/server/domain/src/events.rs 733-758 impl Display for TerminationReason *)
Definition fmt (r : t) : string :=
  match r with
  | Unregistered => "UNREGISTERED"
  | IdleTimeout => "IDLE_TIMEOUT"
  | LifetimeExceeded => "LIFETIME_EXCEEDED"
  | HealthCheckFailed => "HEALTH_CHECK_FAILED"
  | ManualTermination => "MANUAL_TERMINATION"
  | ProviderError message => "PROVIDER_ERROR: " +:+ message
  | JobCompleted => "JOB_COMPLETED"
  | SelfInitiated last_job_id expected_cleanup_ms actual_wait_ms =>
      let job :=
        match last_job_id with
        | Some i => "Some(JobId(" +:+ uuid_to_string i +:+ "))"
        | None => "None"
        end in
      "SELF_INITIATED (job=" +:+ job +:+ ", expected=" +:+ show_Z expected_cleanup_ms
      +:+ "ms, waited=" +:+ show_Z actual_wait_ms +:+ "ms)"
  end.

End termination_reason.
End TerminationReason.

Module Worker.
Section worker.
Context `{E : Externs}.

(** src: crates/server/domain/src/workers/aggregate.rs 731-752 Worker *)
Record t := mk {
  id : WorkerId;
  handle : WorkerHandle.t;
  state : WorkerState.t;
  spec : WorkerSpec.t;
  current_job_id : option JobId;
  jobs_executed : Z;
  job_completed_at : option DateTime;
  last_heartbeat : DateTime;
  created_at : DateTime;
  updated_at : DateTime;
}.

#[global] Instance t_rebuild : Rebuild t := fun w =>
  mk (id w) (handle w) (state w) (spec w) (current_job_id w) (jobs_executed w)
    (job_completed_at w) (last_heartbeat w) (created_at w) (updated_at w).

(** src: crates/server/domain/src/workers/aggregate.rs 756-770 Worker::new *)
Definition new (h : WorkerHandle.t) (s : WorkerSpec.t) (now : DateTime) : t := {|
  id := WorkerHandle.worker_id h;
  handle := h;
  state := WorkerState.Creating;
  spec := s;
  current_job_id := None;
  jobs_executed := 0;
  job_completed_at := None;
  last_heartbeat := now;
  created_at := now;
  updated_at := now;
|}.

(** src: crates/server/domain/src/workers/aggregate.rs 773-797 Worker::from_database *)
Definition from_database (h : WorkerHandle.t) (s : WorkerSpec.t) (st : WorkerState.t)
    (job : option JobId) (heartbeat : option DateTime) (created updated now : DateTime) :
    t := {|
  id := WorkerHandle.worker_id h;
  handle := h;
  state := st;
  spec := s;
  current_job_id := job;
  jobs_executed := 0;
  job_completed_at := None;
  last_heartbeat := default now heartbeat;
  created_at := created;
  updated_at := updated;
|}.

(** src: crates/server/domain/src/workers/aggregate.rs 837-839 Worker::provider_type *)
Definition provider_type (w : t) : ProviderType.t := WorkerHandle.provider_type (handle w).

(** src: crates/server/domain/src/workers/aggregate.rs 841-843 Worker::provider_id *)
Definition provider_id (w : t) : ProviderId := WorkerHandle.provider_id (handle w).

(** src: crates/server/domain/src/workers/aggregate.rs 867-883 Worker::transition_to *)
Definition transition_to (new_state : WorkerState.t) (now : DateTime) :
    method t DomainError.t unit :=
  w ← self;
  _ ← ensure (WorkerState.can_transition_to (state w) new_state)
        (DomainError.InvalidWorkerStateTransition
           (WorkerState.fmt (state w)) (WorkerState.fmt new_state));
  _ ← assign state new_state;
  assign updated_at now.

(** src: crates/server/domain/src/workers/aggregate.rs 888-896 Worker::mark_ready *)
Definition mark_ready (now : DateTime) : method t DomainError.t unit :=
  w ← self;
  if WorkerState.is_ready (state w) then mret tt
  else
    _ ← transition_to WorkerState.Ready now;
    w ← self;
    assign last_heartbeat (updated_at w).

(** src: crates/server/domain/src/workers/aggregate.rs 899-907 Worker::assign_job *)
Definition assign_job (job : JobId) (now : DateTime) : method t DomainError.t unit :=
  _ ← transition_to WorkerState.Busy now;
  assign current_job_id (Some job).

(** src: crates/server/domain/src/workers/aggregate.rs 910-932 Worker::complete_job *)
Definition complete_job (now : DateTime) : method t DomainError.t unit :=
  w ← self;
  _ ← lift (ok_or (current_job_id w)
        (DomainError.InvalidWorkerStateTransition
           (WorkerState.fmt (state w)) (WorkerState.fmt WorkerState.Terminated)));
  _ ← transition_to WorkerState.Terminated now;
  _ ← assign current_job_id None;
  _ ← assign jobs_executed (u32_add (jobs_executed w) 1);
  w ← self;
  assign job_completed_at (Some (updated_at w)).

(** src: crates/server/domain/src/workers/aggregate.rs 936-943 Worker::mark_terminating *)
Definition mark_terminating (now : DateTime) : method t DomainError.t unit :=
  w ← self;
  if WorkerState.is_terminated (state w) then mret tt
  else transition_to WorkerState.Terminated now.

(** src: crates/server/domain/src/workers/aggregate.rs 946-948 Worker::mark_failed *)
Definition mark_failed (reason : string) (now : DateTime) : method t DomainError.t unit :=
  transition_to WorkerState.Terminated now.

(** src: crates/server/domain/src/workers/aggregate.rs 951-954 Worker::update_heartbeat *)
Definition update_heartbeat (now1 now2 : DateTime) : method t DomainError.t unit :=
  _ ← assign last_heartbeat now1;
  assign updated_at now2.

(** src: crates/server/domain/src/workers/aggregate.rs 957-968 Worker::is_idle_timeout *)
Definition is_idle_timeout (now : DateTime) (w : t) : bool :=
  match state w with
  | WorkerState.Ready =>
      WorkerSpec.idle_timeout (spec w) <? elapsed_or_zero now (last_heartbeat w)
  | _ => false
  end.

(** src: crates/server/domain/src/workers/aggregate.rs 971-978 Worker::is_lifetime_exceeded *)
Definition is_lifetime_exceeded (now : DateTime) (w : t) : bool :=
  WorkerSpec.max_lifetime (spec w) <? elapsed_or_zero now (created_at w).

(** src: crates/server/domain/src/workers/aggregate.rs 985-1000 Worker::is_ttl_after_completion_exceeded *)
Definition is_ttl_after_completion_exceeded (now : DateTime) (w : t) : bool :=
  match job_completed_at w with
  | None => false
  | Some completed_at =>
      match WorkerSpec.ttl_after_completion (spec w) with
      | None => true
      | Some ttl => ttl <? elapsed_or_zero now completed_at
      end
  end.

(** The three readings of the clock are [now1], [now2] and [now3]. *)
(** src: crates/server/domain/src/workers/aggregate.rs 1003-1013 Worker::termination_reason *)
Definition termination_reason (now1 now2 now3 : DateTime) (w : t) : TerminationReason.t :=
  if is_lifetime_exceeded now1 w then TerminationReason.LifetimeExceeded
  else if is_idle_timeout now2 w then TerminationReason.IdleTimeout
  else if is_ttl_after_completion_exceeded now3 w then TerminationReason.JobCompleted
  else TerminationReason.Unregistered.

(** src: crates/server/domain/src/workers/aggregate.rs 1021-1023 Worker::idle_timeout_secs *)
Definition idle_timeout_secs (w : t) : Z := as_secs (WorkerSpec.idle_timeout (spec w)).

(** src: crates/server/domain/src/workers/aggregate.rs 1026-1037 Worker::is_healthy *)
Definition is_healthy (heartbeat_timeout : Duration) (now : DateTime) (w : t) : bool :=
  if WorkerState.is_terminated (state w) then false
  else elapsed_or_zero now (last_heartbeat w) <=? heartbeat_timeout.

End worker.
End Worker.

(** ** Health service *)

Module WorkerHealthStatus.

(** src: crates/server/domain/src/workers/health.rs 23-29 WorkerHealthStatus *)
Inductive t :=
  | Healthy
  | Degraded (age : Duration)
  | Dead (age : Duration).

(** src: crates/server/domain/src/workers/health.rs 32-34 WorkerHealthStatus::is_healthy *)
Definition is_healthy (s : t) : bool :=
  match s with Healthy => true | _ => false end.

End WorkerHealthStatus.

Module WorkerHealthService.
Section health.
Context `{E : Externs}.

(** src: crates/server/domain/src/workers/health.rs 39-41 WorkerHealthService *)
Record t := mk { heartbeat_timeout : Duration }.

(** src: crates/server/domain/src/workers/health.rs 100-104 WorkerHealthServiceBuilder::build *)
Definition build (heartbeat_timeout : option Duration) : t :=
  mk (default (from_secs 30) heartbeat_timeout).

(** src: crates/server/domain/src/workers/health.rs 50-57 WorkerHealthService::calculate_heartbeat_age *)
Definition calculate_heartbeat_age (now : DateTime) (w : Worker.t) : Duration :=
  elapsed_or_zero now (Worker.last_heartbeat w).

(** [Duration::saturating_mul(2)]. *)
Definition saturating_double (d : Duration) : Duration :=
  Z.min (2 * d) (2 ^ 64 * 1000000000 - 1).

(** src: crates/server/domain/src/workers/health.rs 60-71 WorkerHealthService::assess_worker_health *)
Definition assess_worker_health (s : t) (now : DateTime) (w : Worker.t) :
    WorkerHealthStatus.t :=
  let age := calculate_heartbeat_age now w in
  if age <? heartbeat_timeout s then WorkerHealthStatus.Healthy
  else if age <? saturating_double (heartbeat_timeout s) then WorkerHealthStatus.Degraded age
  else WorkerHealthStatus.Dead age.

(** src: crates/server/domain/src/workers/health.rs 74-76 WorkerHealthService::is_healthy *)
Definition is_healthy (s : t) (now : DateTime) (w : Worker.t) : bool :=
  WorkerHealthStatus.is_healthy (assess_worker_health s now w).

End health.
End WorkerHealthService.

(** ** Registry filters *)

Module WorkerFilter.
Section worker_filter.
Context `{E : Externs}.

(** src: crates/server/domain/src/workers/registry.rs 33-46 WorkerFilter *)
Record t := mk {
  states : option (list WorkerState.t);
  provider_id : option ProviderId;
  provider_type : option ProviderType.t;
  can_accept_jobs : option bool;
  idle_for : option Duration;
  unhealthy_timeout : option Duration;
}.

#[global] Instance t_rebuild : Rebuild t := fun f =>
  mk (states f) (provider_id f) (provider_type f) (can_accept_jobs f) (idle_for f)
    (unhealthy_timeout f).

(** src: crates/server/domain/src/workers/registry.rs 49-51 WorkerFilter::new *)
Definition new : t := mk None None None None None None.

(** src: crates/server/domain/src/workers/registry.rs 53-56 WorkerFilter::with_state *)
Definition with_state (s : WorkerState.t) (f : t) : t := f <| states := Some [s] |>.

(** src: crates/server/domain/src/workers/registry.rs 58-61 WorkerFilter::with_states *)
Definition with_states (s : list WorkerState.t) (f : t) : t := f <| states := Some s |>.

(** src: crates/server/domain/src/workers/registry.rs 63-66 WorkerFilter::with_provider_id *)
Definition with_provider_id (p : ProviderId) (f : t) : t := f <| provider_id := Some p |>.

(** src: crates/server/domain/src/workers/registry.rs 68-71 WorkerFilter::with_provider_type *)
Definition with_provider_type (p : ProviderType.t) (f : t) : t :=
  f <| provider_type := Some p |>.

(** src: crates/server/domain/src/workers/registry.rs 73-76 WorkerFilter::accepting_jobs *)
Definition accepting_jobs (f : t) : t := f <| can_accept_jobs := Some true |>.

(** src: crates/server/domain/src/workers/registry.rs 78-81 WorkerFilter::idle_longer_than *)
Definition idle_longer_than (d : Duration) (f : t) : t := f <| idle_for := Some d |>.

(** src: crates/server/domain/src/workers/registry.rs 83-86 WorkerFilter::unhealthy_for *)
Definition unhealthy_for (d : Duration) (f : t) : t := f <| unhealthy_timeout := Some d |>.

End worker_filter.
End WorkerFilter.

(** ** Histories of a worker *)

Module WorkerLifecycle.
Section lifecycle.
Context `{E : Externs}.

(** A call of one of the methods that change a worker. *)
Inductive op :=
  | MarkReady (now : DateTime)
  | AssignJob (job : JobId) (now : DateTime)
  | CompleteJob (now : DateTime)
  | MarkTerminating (now : DateTime)
  | MarkFailed (reason : string) (now : DateTime)
  | UpdateHeartbeat (now1 now2 : DateTime).

Definition run (o : op) : method Worker.t DomainError.t unit :=
  match o with
  | MarkReady now => Worker.mark_ready now
  | AssignJob job now => Worker.assign_job job now
  | CompleteJob now => Worker.complete_job now
  | MarkTerminating now => Worker.mark_terminating now
  | MarkFailed reason now => Worker.mark_failed reason now
  | UpdateHeartbeat now1 now2 => Worker.update_heartbeat now1 now2
  end.

(** A caller that ignores errors: the state after a sequence of calls. *)
Definition run_all (ops : list op) (w : Worker.t) : Worker.t :=
  fold_left (fun w o => after (run o) w) ops w.

(** The number of jobs assigned along a sequence. *)
Fixpoint assigned (ops : list op) (w : Worker.t) : Z :=
  match ops with
  | [] => 0
  | o :: ops =>
      (match o with
       | AssignJob _ _ => if is_ok (returns (run o) w) then 1 else 0
       | _ => 0
       end) + assigned ops (after (run o) w)
  end.

(** What no method may change. *)
Definition identity (w : Worker.t) :=
  (Worker.id w, Worker.handle w, Worker.spec w, Worker.created_at w).

(** An ephemeral worker runs at most one job. *)
Definition ephemeral (w : Worker.t) : Prop :=
  match Worker.state w with
  | WorkerState.Creating | WorkerState.Ready =>
      Worker.current_job_id w = None /\ Worker.jobs_executed w = 0 /\
      Worker.job_completed_at w = None
  | WorkerState.Busy =>
      is_Some (Worker.current_job_id w) /\ Worker.jobs_executed w = 0 /\
      Worker.job_completed_at w = None
  | WorkerState.Terminated =>
      (Worker.jobs_executed w = 0 /\ Worker.job_completed_at w = None) \/
      (Worker.jobs_executed w = 1 /\ is_Some (Worker.job_completed_at w) /\
       Worker.current_job_id w = None)
  end.

(** How many jobs a worker in a given state may still take. *)
Definition capacity (s : WorkerState.t) : Z :=
  match s with WorkerState.Creating | WorkerState.Ready => 1 | _ => 0 end.

End lifecycle.
End WorkerLifecycle.

(** ** Properties *)

Section worker_properties.
Context `{E : Externs}.
Import WorkerLifecycle.

Ltac run_op :=
  cbv [run Worker.transition_to Worker.mark_ready Worker.assign_job Worker.complete_job
    Worker.mark_terminating Worker.mark_failed Worker.update_heartbeat after returns
    self assign modify throw lift ensure mbind method_bind mret method_ret] in *; simpl in *.

Ltac all_runs o w :=
  destruct w as [i h st sp job n comp hb cr up];
  destruct o as [now|j now|now|now|why now|t1 t2]; run_op; destruct st; simpl;
  try destruct job as [jid|]; simpl.

(** C38: every method of a worker either returns an error and leaves
    the worker exactly as it was, or keeps its state or takes one transition of
    the state machine; the identity, the specification and the handle never
    change.  The only calls that succeed without a transition are a heartbeat,
    a repeated [mark_ready] and a repeated [mark_terminating]. *)
Theorem worker_methods_refine_the_state_machine o w :
  match run o w with
  | (w', Err _) => w' = w
  | (w', Ok _) =>
      identity w' = identity w /\
      (WorkerState.can_transition_to (Worker.state w) (Worker.state w') = true \/
       Worker.state w' = Worker.state w /\
       match o with
       | UpdateHeartbeat _ _ => True
       | MarkReady _ => w' = w /\ Worker.state w = WorkerState.Ready
       | MarkTerminating _ => w' = w /\ Worker.state w = WorkerState.Terminated
       | _ => False
       end)
  end.
Proof. all_runs o w; auto 6. Qed.

Lemma run_ephemeral o w : ephemeral w -> ephemeral (after (run o) w).
Proof.
  unfold ephemeral. all_runs o w; try done; intros; destruct_and?; subst; eauto;
    right; by eauto.
Qed.

Lemma run_capacity o w :
  (match o with AssignJob _ _ => if is_ok (returns (run o) w) then 1 else 0 | _ => 0 end)
    + capacity (Worker.state (after (run o) w)) <= capacity (Worker.state w).
Proof. all_runs o w; lia. Qed.

Lemma assigned_capacity ops w : assigned ops w <= capacity (Worker.state w).
Proof.
  revert w. induction ops as [|o ops IH]; intros w; simpl.
  - destruct (Worker.state w); simpl; lia.
  - pose proof (run_capacity o w). specialize (IH (after (run o) w)). lia.
Qed.

(** Along every sequence of calls on a new worker, errors included, a
    worker is assigned at most one job in its life and completes at most one; a
    busy worker has a job, an idle one has none, and a completion time is
    recorded exactly when a job was completed. *)
Theorem workers_are_ephemeral h sp now ops :
  let w := run_all ops (Worker.new h sp now) in
  assigned ops (Worker.new h sp now) <= 1 /\ ephemeral w /\
  0 <= Worker.jobs_executed w <= 1 /\
  (is_Some (Worker.job_completed_at w) <-> Worker.jobs_executed w = 1) /\
  (Worker.state w = WorkerState.Busy -> is_Some (Worker.current_job_id w)).
Proof.
  intros w. assert (ephemeral w) as Hw.
  { subst w. assert (ephemeral (Worker.new h sp now)) as H0 by done.
    revert H0. generalize (Worker.new h sp now). unfold run_all.
    induction ops as [|o ops IH]; intros w Hw; [done|]. by apply IH, run_ephemeral. }
  split; [by apply assigned_capacity|]. split; [done|].
  assert ((Worker.jobs_executed w = 0 /\ Worker.job_completed_at w = None) \/
          (Worker.jobs_executed w = 1 /\ is_Some (Worker.job_completed_at w))) as Hcount.
  { unfold ephemeral in Hw. destruct (Worker.state w); intuition. }
  split_and!.
  - destruct Hcount as [[-> _]|[-> _]]; lia.
  - destruct Hcount as [[-> _]|[-> _]]; lia.
  - destruct Hcount as [[-> ->]|[-> ?]]; split; try done; by intros [? [=]].
  - unfold ephemeral in Hw. intros Hs. rewrite Hs in Hw. tauto.
Qed.

(** Under a clock, a worker is idle for too long exactly when
    it is ready and its last heartbeat is older than its limit, so a busy or
    terminated worker never is; the reason of a termination names the first
    limit exceeded, lifetime before idleness before the time to live; and the
    health service calls a worker healthy, degraded or dead according to the
    age of its heartbeat, where healthy implies the worker's own check unless it
    is terminated, which the service does not look at. *)
Theorem worker_timeouts_and_health `{EL : !ExternsLaws E} w now :
  let age := Z.max 0 (timestamp now - timestamp (Worker.last_heartbeat w)) in
  let life := Z.max 0 (timestamp now - timestamp (Worker.created_at w)) in
  (Worker.is_idle_timeout now w = true <->
     Worker.state w = WorkerState.Ready /\ WorkerSpec.idle_timeout (Worker.spec w) < age) /\
  (Worker.termination_reason now now now w = TerminationReason.LifetimeExceeded <->
     WorkerSpec.max_lifetime (Worker.spec w) < life) /\
  (Worker.termination_reason now now now w = TerminationReason.IdleTimeout <->
     life <= WorkerSpec.max_lifetime (Worker.spec w) /\
     Worker.state w = WorkerState.Ready /\ WorkerSpec.idle_timeout (Worker.spec w) < age) /\
  (forall s, 0 <= WorkerHealthService.heartbeat_timeout s ->
     match WorkerHealthService.assess_worker_health s now w with
     | WorkerHealthStatus.Healthy => age < WorkerHealthService.heartbeat_timeout s
     | WorkerHealthStatus.Degraded a =>
         a = age /\ WorkerHealthService.heartbeat_timeout s <= age <
                    2 * WorkerHealthService.heartbeat_timeout s
     | WorkerHealthStatus.Dead a =>
         a = age /\ (2 * WorkerHealthService.heartbeat_timeout s <= age \/
                     2 ^ 64 * 1000000000 - 1 <= age)
     end /\
     (WorkerHealthService.is_healthy s now w = true ->
        Worker.is_healthy (WorkerHealthService.heartbeat_timeout s) now w =
        negb (WorkerState.is_terminated (Worker.state w)))).
Proof.
  intros age life.
  assert (Worker.is_idle_timeout now w = true <->
     Worker.state w = WorkerState.Ready /\ WorkerSpec.idle_timeout (Worker.spec w) < age)
    as Hidle.
  { unfold Worker.is_idle_timeout. rewrite elapsed_or_zero_max.
    destruct (Worker.state w); rewrite ?Z.ltb_lt; intuition discriminate. }
  assert (Worker.is_lifetime_exceeded now w = true <->
    WorkerSpec.max_lifetime (Worker.spec w) < life) as Hlife.
  { unfold Worker.is_lifetime_exceeded. by rewrite elapsed_or_zero_max, Z.ltb_lt. }
  split; [done|]. unfold Worker.termination_reason. split_and!.
  - rewrite <- Hlife. by repeat case_match.
  - rewrite <- Z.nlt_ge, <- Hlife, <- Hidle. repeat case_match; intuition congruence.
  - intros s Hs. unfold WorkerHealthService.is_healthy,
      WorkerHealthService.assess_worker_health, WorkerHealthService.calculate_heartbeat_age,
      WorkerHealthService.saturating_double, Worker.is_healthy.
    rewrite elapsed_or_zero_max. fold age.
    destruct (Z.ltb_spec age (WorkerHealthService.heartbeat_timeout s)) as [Hlt|Hge]; simpl.
    + split; [done|]. intros _. case_match; simpl; [done|]. apply Z.leb_le. lia.
    + destruct (Z.ltb_spec age (Z.min (2 * WorkerHealthService.heartbeat_timeout s)
        (2 ^ 64 * 1000000000 - 1))); simpl; (split; [|done]); split; [done| |done|]; lia.
Qed.

End worker_properties.

Example worker_timeouts_and_health_witness :
  let spec := WorkerSpec.new (E := concrete) "img" "srv" 1%nat in
  let h := WorkerHandle.new (E := concrete) 1%nat "c1" ProviderType.Docker 2%nat 0 in
  let w := Worker.new (E := concrete) h spec 0 in
  Worker.termination_reason (E := concrete) (from_secs 3601) (from_secs 3601) (from_secs 3601) w
    = TerminationReason.LifetimeExceeded.
Proof.
  intros spec h w.
  apply (worker_timeouts_and_health (E := concrete) w (from_secs 3601)). by vm_compute.
Defined.
