(* ===== verification/Events.v ===== *)
(** * Domain events ([crates/server/domain/src/events.rs])

    The events a service publishes, with what every event carries: its
    correlation, its actor, its time, its name and the aggregate it is about;
    the metadata of an event and the builders.  Identifiers print as uuids; the
    reading of a clock is an argument. *)

From S2P Require Import Prelude Std Externs States Errors JobSpec ProviderApi Worker.

Module JobCreated.
Section job_created.
Context `{E : Externs}.

(** src: crates/server/domain/src/events.rs 16-22 JobCreated *)
Record t := mk {
  job_id : JobId;
  spec : JobSpec.t;
  occurred_at : DateTime;
  correlation_id : option string;
  actor : option string;
}.

End job_created.
End JobCreated.

Module CleanupReason.

(** src: crates/server/domain/src/events.rs 677-690 CleanupReason *)
Inductive t :=
  | NormalTermination
  | TtlExpired
  | OrphanDetected
  | ForceCleanup
  | ProviderShutdown
  | WorkerError.

(** src: crates/server/domain/src/events.rs 692-703 impl Display for CleanupReason *)
Definition fmt (r : t) : string :=
  match r with
  | NormalTermination => "NORMAL_TERMINATION"
  | TtlExpired => "TTL_EXPIRED"
  | OrphanDetected => "ORPHAN_DETECTED"
  | ForceCleanup => "FORCE_CLEANUP"
  | ProviderShutdown => "PROVIDER_SHUTDOWN"
  | WorkerError => "WORKER_ERROR"
  end.

End CleanupReason.

Module DomainEvent.
Section domain_event.
Context `{E : Externs}.

(** src: crates/server/domain/src/events.rs 27-673 DomainEvent *)
Inductive t :=
  | JobCreated (event : JobCreated.t)
  | JobStatusChanged (job_id : JobId) (old_state new_state : JobState.t)
      (occurred_at : DateTime) (correlation_id actor : option string)
  | WorkerRegistered (worker_id : WorkerId) (provider_id : ProviderId) (occurred_at : DateTime)
      (correlation_id actor : option string)
  | WorkerStatusChanged (worker_id : WorkerId) (old_status new_status : WorkerState.t)
      (occurred_at : DateTime) (correlation_id actor : option string)
  | ProviderRegistered (provider_id : ProviderId) (provider_type config_summary : string)
      (occurred_at : DateTime) (correlation_id actor : option string)
  | ProviderUpdated (provider_id : ProviderId) (changes : option string)
      (occurred_at : DateTime) (correlation_id actor : option string)
  | JobQueueDepthChanged (queue_depth threshold : Z) (occurred_at : DateTime)
      (correlation_id actor : option string)
  | AutoScalingTriggered (provider_id : ProviderId) (reason : string) (occurred_at : DateTime)
      (correlation_id actor : option string)
  | JobCancelled (job_id : JobId) (reason : option string) (occurred_at : DateTime)
      (correlation_id actor : option string)
  | WorkerTerminated (worker_id : WorkerId) (provider_id : ProviderId)
      (reason : TerminationReason.t) (occurred_at : DateTime)
      (correlation_id actor : option string)
  | WorkerDisconnected (worker_id : WorkerId) (last_heartbeat : option DateTime)
      (occurred_at : DateTime) (correlation_id actor : option string)
  | WorkerProvisioned (worker_id : WorkerId) (provider_id : ProviderId) (spec_summary : string)
      (occurred_at : DateTime) (correlation_id actor : option string)
  | JobRetried (job_id : JobId) (attempt max_attempts : Z) (occurred_at : DateTime)
      (correlation_id actor : option string)
  | JobAssigned (job_id : JobId) (worker_id : WorkerId) (occurred_at : DateTime)
      (correlation_id actor : option string)
  | JobAccepted (job_id : JobId) (worker_id : WorkerId) (occurred_at : DateTime)
      (correlation_id actor : option string)
  | JobDispatchAcknowledged (job_id : JobId) (worker_id : WorkerId) (acknowledged_at : DateTime)
      (correlation_id actor : option string)
  | RunJobReceived (job_id : JobId) (worker_id : WorkerId) (received_at : DateTime)
      (correlation_id actor : option string)
  | ProviderHealthChanged (provider_id : ProviderId) (old_status new_status : ProviderStatus.t)
      (occurred_at : DateTime) (correlation_id actor : option string)
  | WorkerReconnected (worker_id : WorkerId) (session_id : string) (occurred_at : DateTime)
      (correlation_id actor : option string)
  | WorkerRecoveryFailed (worker_id : WorkerId) (invalid_session_id : string)
      (occurred_at : DateTime) (correlation_id actor : option string)
  | ProviderRecovered (provider_id : ProviderId) (previous_status : ProviderStatus.t)
      (occurred_at : DateTime) (correlation_id actor : option string)
  | WorkerEphemeralCreated (worker_id : WorkerId) (provider_id : ProviderId)
      (max_lifetime_secs : Z) (ttl_after_completion_secs : option Z) (occurred_at : DateTime)
      (correlation_id actor : option string)
  | WorkerEphemeralReady (worker_id : WorkerId) (provider_id : ProviderId)
      (occurred_at : DateTime) (correlation_id actor : option string)
  | WorkerReady (worker_id : WorkerId) (provider_id : ProviderId) (ready_at : DateTime)
      (correlation_id actor : option string)
  | WorkerStateUpdated (worker_id : WorkerId) (provider_id : ProviderId)
      (old_state new_state : WorkerState.t) (current_job_id : option JobId)
      (last_heartbeat : option DateTime) (capabilities : list string)
      (metadata : gmap string string) (transition_reason : string) (occurred_at : DateTime)
      (correlation_id actor : option string)
  | WorkerEphemeralTerminating (worker_id : WorkerId) (provider_id : ProviderId)
      (reason : TerminationReason.t) (occurred_at : DateTime)
      (correlation_id actor : option string)
  | WorkerEphemeralTerminated (worker_id : WorkerId) (provider_id : ProviderId)
      (cleanup_scheduled : bool) (ttl_expires_at : option DateTime) (occurred_at : DateTime)
      (correlation_id actor : option string)
  | WorkerEphemeralCleanedUp (worker_id : WorkerId) (provider_id : ProviderId)
      (cleanup_reason : CleanupReason.t) (cleanup_duration_ms : Z) (occurred_at : DateTime)
      (correlation_id actor : option string)
  | OrphanWorkerDetected (worker_id : WorkerId) (provider_id : ProviderId)
      (last_seen : DateTime) (orphaned_duration_secs : Z) (occurred_at : DateTime)
      (correlation_id actor : option string)
  | GarbageCollectionCompleted (provider_id : ProviderId)
      (workers_cleaned orphans_detected errors duration_ms : Z) (occurred_at : DateTime)
      (correlation_id actor : option string)
  | WorkerEphemeralIdle (worker_id : WorkerId) (provider_id : ProviderId)
      (idle_since occurred_at : DateTime) (correlation_id actor : option string)
  | JobExecutionError (job_id : JobId) (worker_id : WorkerId)
      (failure_reason : JobFailureReason.t) (exit_code : Z) (command : string)
      (arguments : list string) (working_dir : option string) (execution_time_ms : Z)
      (suggested_actions : list string) (occurred_at : DateTime)
      (correlation_id actor : option string)
  | JobDispatchFailed (job_id : JobId) (worker_id : WorkerId)
      (failure_reason : DispatchFailureReason.t) (retry_count : Z) (occurred_at : DateTime)
      (correlation_id actor : option string)
  | WorkerProvisioningError (worker_id : WorkerId) (provider_id : ProviderId)
      (failure_reason : ProvisioningFailureReason.t) (occurred_at : DateTime)
      (correlation_id actor : option string)
  | SchedulingDecisionFailed (job_id : JobId) (failure_reason : SchedulingFailureReason.t)
      (attempted_providers : list ProviderId) (occurred_at : DateTime)
      (correlation_id actor : option string)
  | ProviderExecutionError (provider_id : ProviderId) (worker_id : WorkerId)
      (error_type : ProviderErrorType.t) (message : string) (occurred_at : DateTime)
      (correlation_id actor : option string)
  | JobQueued (job_id : JobId) (preferred_provider : option ProviderId)
      (job_requirements : JobSpec.t) (queued_at : DateTime)
      (correlation_id actor : option string)
  | WorkerReadyForJob (worker_id : WorkerId) (provider_id : ProviderId)
      (capabilities : list string) (tags : gmap string string) (ready_at : DateTime)
      (correlation_id actor : option string)
  | WorkerProvisioningRequested (job_id : JobId) (provider_id : ProviderId)
      (job_requirements : JobSpec.t) (requested_at : DateTime)
      (correlation_id actor : option string)
  | ProviderSelected (job_id : JobId) (provider_id : ProviderId)
      (provider_type : ProviderType.t) (selection_strategy : string) (effective_cost : f64)
      (effective_startup_ms elapsed_ms : Z) (occurred_at : DateTime)
      (correlation_id actor : option string)
  | WorkerHeartbeat (worker_id : WorkerId) (state : WorkerState.t) (load_average : option f64)
      (memory_usage_mb : option Z) (current_job_id : option JobId) (occurred_at : DateTime)
      (correlation_id actor : option string)
  | WorkerSelfTerminated (worker_id : WorkerId) (provider_id : ProviderId)
      (last_job_id : option JobId) (expected_cleanup_ms actual_wait_ms : Z)
      (worker_state : WorkerState.t) (occurred_at : DateTime)
      (correlation_id actor : option string)
  | TemplateCreated (template_id template_name : string) (version : Z)
      (created_by : option string) (spec_summary : string) (occurred_at : DateTime)
      (correlation_id actor : option string)
  | TemplateUpdated (template_id template_name : string) (old_version new_version : Z)
      (changes : option string) (occurred_at : DateTime) (correlation_id actor : option string)
  | TemplateDisabled (template_id template_name : string) (version : Z) (occurred_at : DateTime)
      (correlation_id actor : option string)
  | TemplateRunCreated (template_id template_name execution_id : string) (job_id : option JobId)
      (job_name : string) (template_version execution_number : Z) (triggered_by : string)
      (triggered_by_user : option string) (occurred_at : DateTime)
      (correlation_id actor : option string)
  | ExecutionRecorded (execution_id template_id : string) (job_id : option JobId)
      (status : string) (exit_code duration_ms : option Z) (occurred_at : DateTime)
      (correlation_id actor : option string)
  | ScheduledJobCreated (scheduled_job_id name template_id cron_expression timezone : string)
      (created_by : option string) (occurred_at : DateTime)
      (correlation_id actor : option string)
  | ScheduledJobTriggered (scheduled_job_id name template_id execution_id : string)
      (job_id : option JobId) (scheduled_for triggered_at : DateTime)
      (parameters : gmap string string) (occurred_at : DateTime)
      (correlation_id actor : option string)
  | ScheduledJobMissed (scheduled_job_id name : string) (scheduled_for detected_at : DateTime)
      (reason : string) (occurred_at : DateTime) (correlation_id actor : option string)
  | ScheduledJobError (scheduled_job_id name error_message : string)
      (execution_id : option string) (occurred_at : DateTime)
      (correlation_id actor : option string)
  | SagaCompleted (saga_id : Uuid) (saga_type : string) (duration_ms steps_executed : Z)
      (correlation_id : option string) (occurred_at : DateTime)
  | SagaFailed (saga_id : Uuid) (saga_type error_message : string) (failed_at_step : Z)
      (compensation_triggered : bool) (correlation_id : option string) (occurred_at : DateTime)
  | SagaTimedOut (saga_id : Uuid) (saga_type : string)
      (timeout_duration_ms elapsed_ms steps_completed : Z) (correlation_id : option string)
      (occurred_at : DateTime).

(** src: crates/server/domain/src/events.rs 1051-1108 DomainEvent::correlation_id *)
Definition correlation_id (e : t) : option string :=
  match e with
  | JobCreated event => JobCreated.correlation_id event
  | JobStatusChanged _ _ _ _ correlation_id _ => correlation_id
  | WorkerRegistered _ _ _ correlation_id _ => correlation_id
  | WorkerStatusChanged _ _ _ _ correlation_id _ => correlation_id
  | ProviderRegistered _ _ _ _ correlation_id _ => correlation_id
  | ProviderUpdated _ _ _ correlation_id _ => correlation_id
  | JobQueueDepthChanged _ _ _ correlation_id _ => correlation_id
  | AutoScalingTriggered _ _ _ correlation_id _ => correlation_id
  | JobCancelled _ _ _ correlation_id _ => correlation_id
  | WorkerTerminated _ _ _ _ correlation_id _ => correlation_id
  | WorkerDisconnected _ _ _ correlation_id _ => correlation_id
  | WorkerProvisioned _ _ _ _ correlation_id _ => correlation_id
  | JobRetried _ _ _ _ correlation_id _ => correlation_id
  | JobAssigned _ _ _ correlation_id _ => correlation_id
  | JobAccepted _ _ _ correlation_id _ => correlation_id
  | JobDispatchAcknowledged _ _ _ correlation_id _ => correlation_id
  | RunJobReceived _ _ _ correlation_id _ => correlation_id
  | ProviderHealthChanged _ _ _ _ correlation_id _ => correlation_id
  | WorkerReconnected _ _ _ correlation_id _ => correlation_id
  | WorkerRecoveryFailed _ _ _ correlation_id _ => correlation_id
  | ProviderRecovered _ _ _ correlation_id _ => correlation_id
  | WorkerEphemeralCreated _ _ _ _ _ correlation_id _ => correlation_id
  | WorkerEphemeralReady _ _ _ correlation_id _ => correlation_id
  | WorkerReady _ _ _ correlation_id _ => correlation_id
  | WorkerStateUpdated _ _ _ _ _ _ _ _ _ _ correlation_id _ => correlation_id
  | WorkerEphemeralTerminating _ _ _ _ correlation_id _ => correlation_id
  | WorkerEphemeralTerminated _ _ _ _ _ correlation_id _ => correlation_id
  | WorkerEphemeralCleanedUp _ _ _ _ _ correlation_id _ => correlation_id
  | OrphanWorkerDetected _ _ _ _ _ correlation_id _ => correlation_id
  | GarbageCollectionCompleted _ _ _ _ _ _ correlation_id _ => correlation_id
  | WorkerEphemeralIdle _ _ _ _ correlation_id _ => correlation_id
  | JobExecutionError _ _ _ _ _ _ _ _ _ _ correlation_id _ => correlation_id
  | JobDispatchFailed _ _ _ _ _ correlation_id _ => correlation_id
  | WorkerProvisioningError _ _ _ _ correlation_id _ => correlation_id
  | SchedulingDecisionFailed _ _ _ _ correlation_id _ => correlation_id
  | ProviderExecutionError _ _ _ _ _ correlation_id _ => correlation_id
  | JobQueued _ _ _ _ correlation_id _ => correlation_id
  | WorkerReadyForJob _ _ _ _ _ correlation_id _ => correlation_id
  | WorkerProvisioningRequested _ _ _ _ correlation_id _ => correlation_id
  | ProviderSelected _ _ _ _ _ _ _ _ correlation_id _ => correlation_id
  | WorkerHeartbeat _ _ _ _ _ _ correlation_id _ => correlation_id
  | WorkerSelfTerminated _ _ _ _ _ _ _ correlation_id _ => correlation_id
  | TemplateCreated _ _ _ _ _ _ correlation_id _ => correlation_id
  | TemplateUpdated _ _ _ _ _ _ correlation_id _ => correlation_id
  | TemplateDisabled _ _ _ _ correlation_id _ => correlation_id
  | TemplateRunCreated _ _ _ _ _ _ _ _ _ _ correlation_id _ => correlation_id
  | ExecutionRecorded _ _ _ _ _ _ _ correlation_id _ => correlation_id
  | ScheduledJobCreated _ _ _ _ _ _ _ correlation_id _ => correlation_id
  | ScheduledJobTriggered _ _ _ _ _ _ _ _ _ correlation_id _ => correlation_id
  | ScheduledJobMissed _ _ _ _ _ _ correlation_id _ => correlation_id
  | ScheduledJobError _ _ _ _ _ correlation_id _ => correlation_id
  | SagaCompleted _ _ _ _ correlation_id _ => correlation_id
  | SagaFailed _ _ _ _ _ correlation_id _ => correlation_id
  | SagaTimedOut _ _ _ _ _ correlation_id _ => correlation_id
  end.

(** src: crates/server/domain/src/events.rs 1111-1169 DomainEvent::actor *)
Definition actor (e : t) : option string :=
  match e with
  | JobCreated event => JobCreated.actor event
  | JobStatusChanged _ _ _ _ _ actor => actor
  | WorkerRegistered _ _ _ _ actor => actor
  | WorkerStatusChanged _ _ _ _ _ actor => actor
  | ProviderRegistered _ _ _ _ _ actor => actor
  | ProviderUpdated _ _ _ _ actor => actor
  | JobQueueDepthChanged _ _ _ _ actor => actor
  | AutoScalingTriggered _ _ _ _ actor => actor
  | JobCancelled _ _ _ _ actor => actor
  | WorkerTerminated _ _ _ _ _ actor => actor
  | WorkerDisconnected _ _ _ _ actor => actor
  | WorkerProvisioned _ _ _ _ _ actor => actor
  | JobRetried _ _ _ _ _ actor => actor
  | JobAssigned _ _ _ _ actor => actor
  | JobAccepted _ _ _ _ actor => actor
  | JobDispatchAcknowledged _ _ _ _ actor => actor
  | RunJobReceived _ _ _ _ actor => actor
  | ProviderHealthChanged _ _ _ _ _ actor => actor
  | WorkerReconnected _ _ _ _ actor => actor
  | WorkerRecoveryFailed _ _ _ _ actor => actor
  | ProviderRecovered _ _ _ _ actor => actor
  | WorkerEphemeralCreated _ _ _ _ _ _ actor => actor
  | WorkerEphemeralReady _ _ _ _ actor => actor
  | WorkerReady _ _ _ _ actor => actor
  | WorkerStateUpdated _ _ _ _ _ _ _ _ _ _ _ actor => actor
  | WorkerEphemeralTerminating _ _ _ _ _ actor => actor
  | WorkerEphemeralTerminated _ _ _ _ _ _ actor => actor
  | WorkerEphemeralCleanedUp _ _ _ _ _ _ actor => actor
  | OrphanWorkerDetected _ _ _ _ _ _ actor => actor
  | GarbageCollectionCompleted _ _ _ _ _ _ _ actor => actor
  | WorkerEphemeralIdle _ _ _ _ _ actor => actor
  | JobExecutionError _ _ _ _ _ _ _ _ _ _ _ actor => actor
  | JobDispatchFailed _ _ _ _ _ _ actor => actor
  | WorkerProvisioningError _ _ _ _ _ actor => actor
  | SchedulingDecisionFailed _ _ _ _ _ actor => actor
  | ProviderExecutionError _ _ _ _ _ _ actor => actor
  | JobQueued _ _ _ _ _ actor => actor
  | WorkerReadyForJob _ _ _ _ _ _ actor => actor
  | WorkerProvisioningRequested _ _ _ _ _ actor => actor
  | ProviderSelected _ _ _ _ _ _ _ _ _ actor => actor
  | WorkerHeartbeat _ _ _ _ _ _ _ actor => actor
  | WorkerSelfTerminated _ _ _ _ _ _ _ _ actor => actor
  | TemplateCreated _ _ _ _ _ _ _ actor => actor
  | TemplateUpdated _ _ _ _ _ _ _ actor => actor
  | TemplateDisabled _ _ _ _ _ actor => actor
  | TemplateRunCreated _ _ _ _ _ _ _ _ _ _ _ actor => actor
  | ExecutionRecorded _ _ _ _ _ _ _ _ actor => actor
  | ScheduledJobCreated _ _ _ _ _ _ _ _ actor => actor
  | ScheduledJobTriggered _ _ _ _ _ _ _ _ _ _ actor => actor
  | ScheduledJobMissed _ _ _ _ _ _ _ actor => actor
  | ScheduledJobError _ _ _ _ _ _ actor => actor
  | SagaCompleted _ _ _ _ _ _ => None
  | SagaFailed _ _ _ _ _ _ _ => None
  | SagaTimedOut _ _ _ _ _ _ _ => None
  end.

(** src: crates/server/domain/src/events.rs 1172-1236 DomainEvent::occurred_at *)
Definition occurred_at (e : t) : DateTime :=
  match e with
  | JobCreated event => JobCreated.occurred_at event
  | JobStatusChanged _ _ _ occurred_at _ _ => occurred_at
  | WorkerRegistered _ _ occurred_at _ _ => occurred_at
  | WorkerStatusChanged _ _ _ occurred_at _ _ => occurred_at
  | ProviderRegistered _ _ _ occurred_at _ _ => occurred_at
  | ProviderUpdated _ _ occurred_at _ _ => occurred_at
  | JobQueueDepthChanged _ _ occurred_at _ _ => occurred_at
  | AutoScalingTriggered _ _ occurred_at _ _ => occurred_at
  | JobCancelled _ _ occurred_at _ _ => occurred_at
  | WorkerTerminated _ _ _ occurred_at _ _ => occurred_at
  | WorkerDisconnected _ _ occurred_at _ _ => occurred_at
  | WorkerProvisioned _ _ _ occurred_at _ _ => occurred_at
  | JobRetried _ _ _ occurred_at _ _ => occurred_at
  | JobAssigned _ _ occurred_at _ _ => occurred_at
  | JobAccepted _ _ occurred_at _ _ => occurred_at
  | JobDispatchAcknowledged _ _ acknowledged_at _ _ => acknowledged_at
  | RunJobReceived _ _ received_at _ _ => received_at
  | ProviderHealthChanged _ _ _ occurred_at _ _ => occurred_at
  | WorkerReconnected _ _ occurred_at _ _ => occurred_at
  | WorkerRecoveryFailed _ _ occurred_at _ _ => occurred_at
  | ProviderRecovered _ _ occurred_at _ _ => occurred_at
  | WorkerEphemeralCreated _ _ _ _ occurred_at _ _ => occurred_at
  | WorkerEphemeralReady _ _ occurred_at _ _ => occurred_at
  | WorkerReady _ _ ready_at _ _ => ready_at
  | WorkerStateUpdated _ _ _ _ _ _ _ _ _ occurred_at _ _ => occurred_at
  | WorkerEphemeralTerminating _ _ _ occurred_at _ _ => occurred_at
  | WorkerEphemeralTerminated _ _ _ _ occurred_at _ _ => occurred_at
  | WorkerEphemeralCleanedUp _ _ _ _ occurred_at _ _ => occurred_at
  | OrphanWorkerDetected _ _ _ _ occurred_at _ _ => occurred_at
  | GarbageCollectionCompleted _ _ _ _ _ occurred_at _ _ => occurred_at
  | WorkerEphemeralIdle _ _ _ occurred_at _ _ => occurred_at
  | JobExecutionError _ _ _ _ _ _ _ _ _ occurred_at _ _ => occurred_at
  | JobDispatchFailed _ _ _ _ occurred_at _ _ => occurred_at
  | WorkerProvisioningError _ _ _ occurred_at _ _ => occurred_at
  | SchedulingDecisionFailed _ _ _ occurred_at _ _ => occurred_at
  | ProviderExecutionError _ _ _ _ occurred_at _ _ => occurred_at
  | JobQueued _ _ _ queued_at _ _ => queued_at
  | WorkerReadyForJob _ _ _ _ ready_at _ _ => ready_at
  | WorkerProvisioningRequested _ _ _ requested_at _ _ => requested_at
  | ProviderSelected _ _ _ _ _ _ _ occurred_at _ _ => occurred_at
  | WorkerHeartbeat _ _ _ _ _ occurred_at _ _ => occurred_at
  | WorkerSelfTerminated _ _ _ _ _ _ occurred_at _ _ => occurred_at
  | TemplateCreated _ _ _ _ _ occurred_at _ _ => occurred_at
  | TemplateUpdated _ _ _ _ _ occurred_at _ _ => occurred_at
  | TemplateDisabled _ _ _ occurred_at _ _ => occurred_at
  | TemplateRunCreated _ _ _ _ _ _ _ _ _ occurred_at _ _ => occurred_at
  | ExecutionRecorded _ _ _ _ _ _ occurred_at _ _ => occurred_at
  | ScheduledJobCreated _ _ _ _ _ _ occurred_at _ _ => occurred_at
  | ScheduledJobTriggered _ _ _ _ _ _ _ _ occurred_at _ _ => occurred_at
  | ScheduledJobMissed _ _ _ _ _ occurred_at _ _ => occurred_at
  | ScheduledJobError _ _ _ _ occurred_at _ _ => occurred_at
  | SagaCompleted _ _ _ _ _ occurred_at => occurred_at
  | SagaFailed _ _ _ _ _ _ occurred_at => occurred_at
  | SagaTimedOut _ _ _ _ _ _ occurred_at => occurred_at
  end.

(** src: crates/server/domain/src/events.rs 1239-1302 DomainEvent::event_type *)
Definition event_type (e : t) : string :=
  match e with
  | JobCreated event => "JobCreated"
  | JobStatusChanged _ _ _ _ _ _ => "JobStatusChanged"
  | WorkerRegistered _ _ _ _ _ => "WorkerRegistered"
  | WorkerStatusChanged _ _ _ _ _ _ => "WorkerStatusChanged"
  | ProviderRegistered _ _ _ _ _ _ => "ProviderRegistered"
  | ProviderUpdated _ _ _ _ _ => "ProviderUpdated"
  | JobQueueDepthChanged _ _ _ _ _ => "JobQueueDepthChanged"
  | AutoScalingTriggered _ _ _ _ _ => "AutoScalingTriggered"
  | JobCancelled _ _ _ _ _ => "JobCancelled"
  | WorkerTerminated _ _ _ _ _ _ => "WorkerTerminated"
  | WorkerDisconnected _ _ _ _ _ => "WorkerDisconnected"
  | WorkerProvisioned _ _ _ _ _ _ => "WorkerProvisioned"
  | JobRetried _ _ _ _ _ _ => "JobRetried"
  | JobAssigned _ _ _ _ _ => "JobAssigned"
  | JobAccepted _ _ _ _ _ => "JobAccepted"
  | JobDispatchAcknowledged _ _ _ _ _ => "JobDispatchAcknowledged"
  | RunJobReceived _ _ _ _ _ => "RunJobReceived"
  | ProviderHealthChanged _ _ _ _ _ _ => "ProviderHealthChanged"
  | WorkerReconnected _ _ _ _ _ => "WorkerReconnected"
  | WorkerRecoveryFailed _ _ _ _ _ => "WorkerRecoveryFailed"
  | ProviderRecovered _ _ _ _ _ => "ProviderRecovered"
  | WorkerEphemeralCreated _ _ _ _ _ _ _ => "WorkerEphemeralCreated"
  | WorkerEphemeralReady _ _ _ _ _ => "WorkerEphemeralReady"
  | WorkerReady _ _ _ _ _ => "WorkerReady"
  | WorkerStateUpdated _ _ _ _ _ _ _ _ _ _ _ _ => "WorkerStateUpdated"
  | WorkerEphemeralTerminating _ _ _ _ _ _ => "WorkerEphemeralTerminating"
  | WorkerEphemeralTerminated _ _ _ _ _ _ _ => "WorkerEphemeralTerminated"
  | WorkerEphemeralCleanedUp _ _ _ _ _ _ _ => "WorkerEphemeralCleanedUp"
  | OrphanWorkerDetected _ _ _ _ _ _ _ => "OrphanWorkerDetected"
  | GarbageCollectionCompleted _ _ _ _ _ _ _ _ => "GarbageCollectionCompleted"
  | WorkerEphemeralIdle _ _ _ _ _ _ => "WorkerEphemeralIdle"
  | JobExecutionError _ _ _ _ _ _ _ _ _ _ _ _ => "JobExecutionError"
  | JobDispatchFailed _ _ _ _ _ _ _ => "JobDispatchFailed"
  | WorkerProvisioningError _ _ _ _ _ _ => "WorkerProvisioningError"
  | SchedulingDecisionFailed _ _ _ _ _ _ => "SchedulingDecisionFailed"
  | ProviderExecutionError _ _ _ _ _ _ _ => "ProviderExecutionError"
  | JobQueued _ _ _ _ _ _ => "JobQueued"
  | WorkerReadyForJob _ _ _ _ _ _ _ => "WorkerReadyForJob"
  | WorkerProvisioningRequested _ _ _ _ _ _ => "WorkerProvisioningRequested"
  | ProviderSelected _ _ _ _ _ _ _ _ _ _ => "ProviderSelected"
  | WorkerHeartbeat _ _ _ _ _ _ _ _ => "WorkerHeartbeat"
  | WorkerSelfTerminated _ _ _ _ _ _ _ _ _ => "WorkerSelfTerminated"
  | TemplateCreated _ _ _ _ _ _ _ _ => "TemplateCreated"
  | TemplateUpdated _ _ _ _ _ _ _ _ => "TemplateUpdated"
  | TemplateDisabled _ _ _ _ _ _ => "TemplateDisabled"
  | TemplateRunCreated _ _ _ _ _ _ _ _ _ _ _ _ => "TemplateRunCreated"
  | ExecutionRecorded _ _ _ _ _ _ _ _ _ => "ExecutionRecorded"
  | ScheduledJobCreated _ _ _ _ _ _ _ _ _ => "ScheduledJobCreated"
  | ScheduledJobTriggered _ _ _ _ _ _ _ _ _ _ _ => "ScheduledJobTriggered"
  | ScheduledJobMissed _ _ _ _ _ _ _ _ => "ScheduledJobMissed"
  | ScheduledJobError _ _ _ _ _ _ _ => "ScheduledJobError"
  | SagaCompleted _ _ _ _ _ _ => "SagaCompleted"
  | SagaFailed _ _ _ _ _ _ _ => "SagaFailed"
  | SagaTimedOut _ _ _ _ _ _ _ => "SagaTimedOut"
  end.

(** src: crates/server/domain/src/events.rs 1305-1383 DomainEvent::aggregate_id *)
Definition aggregate_id (e : t) : string :=
  match e with
  | JobCreated event => uuid_to_string (JobCreated.job_id event)
  | JobStatusChanged job_id _ _ _ _ _ => uuid_to_string job_id
  | WorkerRegistered worker_id _ _ _ _ => uuid_to_string worker_id
  | WorkerStatusChanged worker_id _ _ _ _ _ => uuid_to_string worker_id
  | ProviderRegistered provider_id _ _ _ _ _ => uuid_to_string provider_id
  | ProviderUpdated provider_id _ _ _ _ => uuid_to_string provider_id
  | JobQueueDepthChanged _ _ _ _ _ => "SYSTEM_QUEUE"
  | AutoScalingTriggered provider_id _ _ _ _ => uuid_to_string provider_id
  | JobCancelled job_id _ _ _ _ => uuid_to_string job_id
  | WorkerTerminated worker_id _ _ _ _ _ => uuid_to_string worker_id
  | WorkerDisconnected worker_id _ _ _ _ => uuid_to_string worker_id
  | WorkerProvisioned worker_id _ _ _ _ _ => uuid_to_string worker_id
  | JobRetried job_id _ _ _ _ _ => uuid_to_string job_id
  | JobAssigned job_id _ _ _ _ => uuid_to_string job_id
  | JobAccepted job_id _ _ _ _ => uuid_to_string job_id
  | JobDispatchAcknowledged job_id _ _ _ _ => uuid_to_string job_id
  | RunJobReceived job_id _ _ _ _ => uuid_to_string job_id
  | ProviderHealthChanged provider_id _ _ _ _ _ => uuid_to_string provider_id
  | WorkerReconnected worker_id _ _ _ _ => uuid_to_string worker_id
  | WorkerRecoveryFailed worker_id _ _ _ _ => uuid_to_string worker_id
  | ProviderRecovered provider_id _ _ _ _ => uuid_to_string provider_id
  | WorkerEphemeralCreated worker_id _ _ _ _ _ _ => uuid_to_string worker_id
  | WorkerEphemeralReady worker_id _ _ _ _ => uuid_to_string worker_id
  | WorkerReady worker_id _ _ _ _ => uuid_to_string worker_id
  | WorkerStateUpdated worker_id _ _ _ _ _ _ _ _ _ _ _ => uuid_to_string worker_id
  | WorkerEphemeralTerminating worker_id _ _ _ _ _ => uuid_to_string worker_id
  | WorkerEphemeralTerminated worker_id _ _ _ _ _ _ => uuid_to_string worker_id
  | WorkerEphemeralCleanedUp worker_id _ _ _ _ _ _ => uuid_to_string worker_id
  | OrphanWorkerDetected worker_id _ _ _ _ _ _ => uuid_to_string worker_id
  | GarbageCollectionCompleted provider_id _ _ _ _ _ _ _ => uuid_to_string provider_id
  | WorkerEphemeralIdle worker_id _ _ _ _ _ => uuid_to_string worker_id
  | JobExecutionError job_id _ _ _ _ _ _ _ _ _ _ _ => uuid_to_string job_id
  | JobDispatchFailed job_id _ _ _ _ _ _ => uuid_to_string job_id
  | WorkerProvisioningError worker_id _ _ _ _ _ => uuid_to_string worker_id
  | SchedulingDecisionFailed job_id _ _ _ _ _ => uuid_to_string job_id
  | ProviderExecutionError provider_id _ _ _ _ _ _ => uuid_to_string provider_id
  | JobQueued job_id _ _ _ _ _ => uuid_to_string job_id
  | WorkerReadyForJob worker_id _ _ _ _ _ _ => uuid_to_string worker_id
  | WorkerProvisioningRequested job_id _ _ _ _ _ => uuid_to_string job_id
  | ProviderSelected job_id _ _ _ _ _ _ _ _ _ => uuid_to_string job_id
  | WorkerHeartbeat worker_id _ _ _ _ _ _ _ => uuid_to_string worker_id
  | WorkerSelfTerminated worker_id _ _ _ _ _ _ _ _ => uuid_to_string worker_id
  | TemplateCreated template_id _ _ _ _ _ _ _ => template_id
  | TemplateUpdated template_id _ _ _ _ _ _ _ => template_id
  | TemplateDisabled template_id _ _ _ _ _ => template_id
  | TemplateRunCreated template_id _ _ _ _ _ _ _ _ _ _ _ => template_id
  | ExecutionRecorded _ template_id _ _ _ _ _ _ _ => template_id
  | ScheduledJobCreated scheduled_job_id _ _ _ _ _ _ _ _ => scheduled_job_id
  | ScheduledJobTriggered scheduled_job_id _ _ _ _ _ _ _ _ _ _ => scheduled_job_id
  | ScheduledJobMissed scheduled_job_id _ _ _ _ _ _ _ => scheduled_job_id
  | ScheduledJobError scheduled_job_id _ _ _ _ _ _ => scheduled_job_id
  | SagaCompleted saga_id _ _ _ _ _ => uuid_to_string saga_id
  | SagaFailed saga_id _ _ _ _ _ _ => uuid_to_string saga_id
  | SagaTimedOut saga_id _ _ _ _ _ _ => uuid_to_string saga_id
  end.

End domain_event.
End DomainEvent.

(** ** Metadata of an event *)

Module TraceContext.
Section trace_context.
Context `{E : Externs}.

(** src: crates/server/domain/src/events.rs 845-848 TraceContext *)
Record t := mk {
  trace_id : string;
  span_id : string;
}.

(** src: crates/server/domain/src/events.rs 852-854 TraceContext::new *)
Definition new := mk.

(** src: crates/server/domain/src/events.rs 858-862 TraceContext::from_correlation_id *)
Definition from_correlation_id (correlation : string) : t :=
  mk correlation ("span-" +:+ correlation).

(** src: crates/server/domain/src/events.rs 865-867 TraceContext::trace_id_as_uuid *)
Definition trace_id_as_uuid (c : t) : option Uuid := uuid_parse_str (trace_id c).

(** [fresh1] and [fresh2] are the two calls of [Uuid::new_v4()]. *)
(** src: crates/server/domain/src/events.rs 870-874 TraceContext::random *)
Definition random (fresh1 fresh2 : Uuid) : t :=
  mk (uuid_to_string fresh1) (uuid_to_string fresh2).

(** [Option::or_else]. *)
Definition or_else {A} (o o' : option A) : option A :=
  match o with Some _ => o | None => o' end.

(** [get_header] is the headers' [HeaderExtraction]. *)
(** src: crates/server/domain/src/events.rs 877-889 TraceContext::from_headers *)
Definition from_headers (get_header : string -> option string) : option t :=
  let trace := or_else (get_header "x-trace-id") (get_header "traceparent") in
  let span := or_else (get_header "x-span-id") (get_header "grpc-trace-bin") in
  match trace, span with
  | Some trace, Some span => Some (new trace span)
  | _, _ => None
  end.

(** src: crates/server/domain/src/events.rs 892-896 TraceContext::from_grpc_metadata *)
Definition from_grpc_metadata {M} (_ : M) : option t := None.

(** src: crates/server/domain/src/events.rs 906-910 impl HeaderExtraction for HashMap *)
Definition get_header (headers : gmap string string) (name : string) : option string :=
  headers !! name.

End trace_context.
End TraceContext.

Module EventMetadata.
Section event_metadata.
Context `{E : Externs}.

(** src: crates/server/domain/src/events.rs 765-769 EventMetadata *)
Record t := mk {
  correlation_id : option string;
  actor : option string;
  trace_context : option TraceContext.t;
}.

#[global] Instance t_rebuild : Rebuild t := fun m =>
  mk (correlation_id m) (actor m) (trace_context m).

(** src: crates/server/domain/src/events.rs 773-779 EventMetadata::new *)
Definition new (correlation who : option string) : t := mk correlation who None.

(** src: crates/server/domain/src/events.rs 782-788 EventMetadata::for_system_event *)
Definition for_system_event (correlation : option string) (system_actor : string) : t :=
  mk correlation (Some system_actor) None.

(** src: crates/server/domain/src/events.rs 796-805 EventMetadata::from_job_metadata *)
Definition from_job_metadata (metadata : gmap string string) (job : JobId) : t :=
  mk (TraceContext.or_else (metadata !! "correlation_id") (Some (uuid_to_string job)))
    (metadata !! "actor") None.

(** src: crates/server/domain/src/events.rs 808-814 EventMetadata::empty *)
Definition empty : t := mk None None None.

(** src: crates/server/domain/src/events.rs 817-819 EventMetadata::has_audit_info *)
Definition has_audit_info (m : t) : bool :=
  bool_decide (is_Some (correlation_id m)) || bool_decide (is_Some (actor m)).

(** src: crates/server/domain/src/events.rs 822-825 EventMetadata::with_trace_context *)
Definition with_trace_context (c : TraceContext.t) (m : t) : t := m <| trace_context := Some c |>.

(** src: crates/server/domain/src/events.rs 828-837 EventMetadata::with_trace_ids *)
Definition with_trace_ids (trace span : option string) (m : t) : t :=
  m <| trace_context :=
    match trace, span with
    | Some trace, Some span => Some (TraceContext.mk trace span)
    | _, _ => None
    end |>.

End event_metadata.
End EventMetadata.

(** ** Builders *)

Module JobCreatedBuilder.
Section builder.
Context `{E : Externs}.

(** src: crates/server/domain/src/events.rs 958-965 JobCreatedBuilder *)
Record t := mk {
  job_id : JobId;
  spec : JobSpec.t;
  occurred_at : DateTime;
  correlation_id : option string;
  actor : option string;
  trace_context : option TraceContext.t;
}.

#[global] Instance t_rebuild : Rebuild t := fun b =>
  mk (job_id b) (spec b) (occurred_at b) (correlation_id b) (actor b) (trace_context b).

(** src: crates/server/domain/src/events.rs 968-977 JobCreatedBuilder::new *)
Definition new (job : JobId) (sp : JobSpec.t) (now : DateTime) : t := mk job sp now None None None.

(** src: crates/server/domain/src/events.rs 979-982 JobCreatedBuilder::with_correlation_id *)
Definition with_correlation_id (c : string) (b : t) : t := b <| correlation_id := Some c |>.

(** src: crates/server/domain/src/events.rs 984-987 JobCreatedBuilder::with_actor *)
Definition with_actor (a : string) (b : t) : t := b <| actor := Some a |>.

(** src: crates/server/domain/src/events.rs 989-992 JobCreatedBuilder::with_trace_context *)
Definition with_trace_context (c : TraceContext.t) (b : t) : t := b <| trace_context := Some c |>.

(** src: crates/server/domain/src/events.rs 994-1002 JobCreatedBuilder::build *)
Definition build (b : t) : DomainEvent.t :=
  DomainEvent.JobCreated
    (JobCreated.mk (job_id b) (spec b) (occurred_at b) (correlation_id b) (actor b)).

End builder.
End JobCreatedBuilder.

Module JobStatusChangedBuilder.
Section builder.
Context `{E : Externs}.

(** src: crates/server/domain/src/events.rs 1006-1013 JobStatusChangedBuilder *)
Record t := mk {
  job_id : JobId;
  old_state : JobState.t;
  new_state : JobState.t;
  occurred_at : DateTime;
  correlation_id : option string;
  actor : option string;
}.

#[global] Instance t_rebuild : Rebuild t := fun b =>
  mk (job_id b) (old_state b) (new_state b) (occurred_at b) (correlation_id b) (actor b).

(** src: crates/server/domain/src/events.rs 1016-1025 JobStatusChangedBuilder::new *)
Definition new (job : JobId) (from to : JobState.t) (now : DateTime) : t :=
  mk job from to now None None.

(** src: crates/server/domain/src/events.rs 1027-1030 JobStatusChangedBuilder::with_correlation_id *)
Definition with_correlation_id (c : string) (b : t) : t := b <| correlation_id := Some c |>.

(** src: crates/server/domain/src/events.rs 1032-1035 JobStatusChangedBuilder::with_actor *)
Definition with_actor (a : string) (b : t) : t := b <| actor := Some a |>.

(** src: crates/server/domain/src/events.rs 1037-1046 JobStatusChangedBuilder::build *)
Definition build (b : t) : DomainEvent.t :=
  DomainEvent.JobStatusChanged (job_id b) (old_state b) (new_state b) (occurred_at b)
    (correlation_id b) (actor b).

End builder.
End JobStatusChangedBuilder.

(** ** Properties *)

Section events.
Context `{E : Externs}.

(** An event reports what its builder was given. *)
Lemma built_events_carry_their_metadata job sp from to now c a :
  let created := JobCreatedBuilder.build
    (JobCreatedBuilder.with_actor a (JobCreatedBuilder.with_correlation_id c
      (JobCreatedBuilder.new job sp now))) in
  let changed := JobStatusChangedBuilder.build
    (JobStatusChangedBuilder.with_actor a (JobStatusChangedBuilder.with_correlation_id c
      (JobStatusChangedBuilder.new job from to now))) in
  Forall (fun e => DomainEvent.correlation_id e = Some c /\ DomainEvent.actor e = Some a /\
    DomainEvent.occurred_at e = now /\ DomainEvent.aggregate_id e = uuid_to_string job)
    [created; changed].
Proof. by repeat constructor. Qed.

(** The context given to the builder does not reach the event. *)
Lemma built_events_drop_the_trace b c :
  JobCreatedBuilder.build (JobCreatedBuilder.with_trace_context c b) = JobCreatedBuilder.build b.
Proof. done. Qed.

End events.
