(* ===== verification/Repositories.v ===== *)
(** * In-memory repositories
    ([crates/server/infrastructure/src/persistence/postgres/in_memory.rs])

    The repository of jobs, as an implementation of the interface
    [JobRepository] of [Job.v], the FIFO queue of jobs and the registry of
    workers.  The locks of the source are taken once per operation, so that
    each operation is one atomic step on the protected map.  The properties of
    the status tracker are proved against the interface and hold of every
    repository that keeps its laws. *)

From S2P Require Import Prelude Std Externs States Errors JobSpec Job ProviderApi Worker.

Module InMemoryJobRepository.
Section job_repository.
Context `{E : Externs} `{!MapOrder}.

(** src: crates/server/infrastructure/src/persistence/postgres/in_memory.rs 18-20 InMemoryJobRepository *)
Definition t : Type := gmap JobId Job.t.

(** src: crates/server/infrastructure/src/persistence/postgres/in_memory.rs 23-27 InMemoryJobRepository::new *)
Definition new : t := ∅.

(** src: crates/server/infrastructure/src/persistence/postgres/in_memory.rs 38-42 InMemoryJobRepository::save *)
Definition save (j : Job.t) : method t DomainError.t unit :=
  modify (fun jobs => <[Job.id j := j]> jobs).

(** src: crates/server/infrastructure/src/persistence/postgres/in_memory.rs 44-47 InMemoryJobRepository::find_by_id *)
Definition find_by_id (i : JobId) : method t DomainError.t (option Job.t) :=
  jobs ← self; mret (jobs !! i).

Definition runs_on (p : ProviderId) (j : Job.t) : bool :=
  match Job.execution_context j with
  | Some c => bool_decide (ExecutionContext.provider_id c = p)
  | None => false
  end.

(** src: crates/server/infrastructure/src/persistence/postgres/in_memory.rs 49-71 InMemoryJobRepository::find *)
Definition find (f : JobsFilter.t) : method t DomainError.t (list Job.t) :=
  jobs ← self;
  let found := map_values jobs in
  let found :=
    match JobsFilter.state f with
    | Some s => filter (fun j => Job.state j = s) found
    | None => found
    end in
  let found :=
    match JobsFilter.provider_id f with
    | Some p => filter (fun j => runs_on p j = true) found
    | None => found
    end in
  mret
    match JobsFilter.limit f with
    | Some limit => take limit (drop (default 0%nat (JobsFilter.offset f)) found)
    | None => found
    end.

(** src: crates/server/infrastructure/src/persistence/postgres/in_memory.rs 73-83 InMemoryJobRepository::find_by_state *)
Definition find_by_state (s : JobState.t) : method t DomainError.t (list Job.t) :=
  jobs ← self; mret (filter (fun j => Job.state j = s) (map_values jobs)).

(** src: crates/server/infrastructure/src/persistence/postgres/in_memory.rs 85-97 InMemoryJobRepository::find_pending *)
Definition find_pending : method t DomainError.t (list Job.t) :=
  find_by_state JobState.Pending.

(** [sort_by(|a, b| b.created_at().cmp(a.created_at()))]: stable, newest first. *)
Fixpoint insert_newest_first (j : Job.t) (l : list Job.t) : list Job.t :=
  match l with
  | [] => [j]
  | k :: l' =>
      if datetime_leb (Job.created_at k) (Job.created_at j) then j :: l
      else k :: insert_newest_first j l'
  end.

Definition newest_first (l : list Job.t) : list Job.t := foldr insert_newest_first [] l.

(** src: crates/server/infrastructure/src/persistence/postgres/in_memory.rs 99-107 InMemoryJobRepository::find_all *)
Definition find_all (limit offset : nat) : method t DomainError.t (list Job.t * nat) :=
  jobs ← self;
  mret (take limit (drop offset (newest_first (map_values jobs))), size jobs).

Definition executes (execution : string) (j : Job.t) : bool :=
  match Job.execution_context j with
  | Some c => String.eqb (ExecutionContext.provider_execution_id c) execution
  | None => false
  end.

(** src: crates/server/infrastructure/src/persistence/postgres/in_memory.rs 109-119 InMemoryJobRepository::find_by_execution_id *)
Definition find_by_execution_id (execution : string) : method t DomainError.t (option Job.t) :=
  jobs ← self;
  mret (head (filter (fun j => executes execution j = true) (map_values jobs))).

(** src: crates/server/infrastructure/src/persistence/postgres/in_memory.rs 121-127 InMemoryJobRepository::count_by_state *)
Definition count_by_state (s : JobState.t) : method t DomainError.t Z :=
  jobs ← self;
  mret (Z.of_nat (length (filter (fun j => Job.state j = s) (map_values jobs)))).

(** src: crates/server/infrastructure/src/persistence/postgres/in_memory.rs 129-133 InMemoryJobRepository::delete *)
Definition delete (i : JobId) : method t DomainError.t unit :=
  modify (fun jobs => base.delete i jobs).

(** src: crates/server/infrastructure/src/persistence/postgres/in_memory.rs 135-139 InMemoryJobRepository::update *)
Definition update (j : Job.t) : method t DomainError.t unit :=
  modify (fun jobs => <[Job.id j := j]> jobs).

(** src: crates/server/infrastructure/src/persistence/postgres/in_memory.rs 141-151 InMemoryJobRepository::update_state *)
Definition update_state (i : JobId) (s : JobState.t) : method t DomainError.t unit :=
  jobs ← self;
  match jobs !! i with
  | Some j =>
      let (j', r) := Job.set_state s j in
      _ ← modify (fun jobs => <[i := j']> jobs);
      lift r
  | None => mret tt
  end.

#[global] Instance repository : JobRepository.t t := {|
  JobRepository.save := save;
  JobRepository.find_by_id := find_by_id;
  JobRepository.find := find;
  JobRepository.find_by_state := find_by_state;
  JobRepository.find_pending := find_pending;
  JobRepository.find_all := find_all;
  JobRepository.find_by_execution_id := find_by_execution_id;
  JobRepository.count_by_state := count_by_state;
  JobRepository.delete := delete;
  JobRepository.update := update;
  JobRepository.update_state := update_state;
|}.

#[global] Program Instance repository_laws : JobRepository.Laws t :=
  {| JobRepository.contents := fun r => r |}.
Next Obligation. by intros i r r' o [= <- <-]. Qed.
Next Obligation. done. Qed.
Next Obligation.
  intros s r r' l [= <- <-]. split; [done|]. intros j.
  rewrite list_elem_of_filter, elem_of_map_values. split.
  - intros [? [i ?]]. by exists i.
  - intros (i & ? & ?). eauto.
Qed.
Next Obligation. by intros j r r' [= <-]. Qed.
Next Obligation. done. Qed.

End job_repository.
End InMemoryJobRepository.

Module InMemoryJobQueue.
Section job_queue.
Context `{E : Externs}.

(** src: crates/server/infrastructure/src/persistence/postgres/in_memory.rs 156-158 InMemoryJobQueue *)
Definition t : Type := list Job.t.

(** src: crates/server/infrastructure/src/persistence/postgres/in_memory.rs 161-165 InMemoryJobQueue::new *)
Definition new : t := [].

(** src: crates/server/infrastructure/src/persistence/postgres/in_memory.rs 176-180 InMemoryJobQueue::enqueue *)
Definition enqueue (j : Job.t) : method t DomainError.t unit := modify (fun q => q ++ [j]).

(** src: crates/server/infrastructure/src/persistence/postgres/in_memory.rs 182-185 InMemoryJobQueue::dequeue *)
Definition dequeue : method t DomainError.t (option Job.t) :=
  q ← self; _ ← modify tail; mret (head q).

(** src: crates/server/infrastructure/src/persistence/postgres/in_memory.rs 187-190 InMemoryJobQueue::peek *)
Definition peek : method t DomainError.t (option Job.t) := q ← self; mret (head q).

(** src: crates/server/infrastructure/src/persistence/postgres/in_memory.rs 192-195 InMemoryJobQueue::len *)
Definition len : method t DomainError.t nat := q ← self; mret (length q).

(** src: crates/server/infrastructure/src/persistence/postgres/in_memory.rs 197-200 InMemoryJobQueue::is_empty *)
Definition is_empty : method t DomainError.t bool := q ← self; mret (bool_decide (q = [])).

(** src: crates/server/infrastructure/src/persistence/postgres/in_memory.rs 202-206 InMemoryJobQueue::clear *)
Definition clear : method t DomainError.t unit := modify (fun _ => []).

End job_queue.
End InMemoryJobQueue.

Module InMemoryWorkerRegistry.
Section worker_registry.
Context `{E : Externs} `{!MapOrder}.

(** src: crates/server/infrastructure/src/persistence/postgres/in_memory.rs 211-220 InMemoryWorkerRegistry *)
Definition t : Type := gmap WorkerId Worker.t.

(** src: crates/server/infrastructure/src/persistence/postgres/in_memory.rs 223-227 InMemoryWorkerRegistry::new *)
Definition new : t := ∅.

(** src: crates/server/infrastructure/src/persistence/postgres/in_memory.rs 237-241 InMemoryWorkerRegistry::save *)
Definition save (w : Worker.t) : method t DomainError.t unit :=
  modify (fun ws => <[WorkerHandle.worker_id (Worker.handle w) := w]> ws).

(** src: crates/server/infrastructure/src/persistence/postgres/in_memory.rs 243-249 InMemoryWorkerRegistry::find_by_id *)
Definition find_by_id (i : WorkerId) : method t DomainError.t (option Worker.t) :=
  ws ← self; mret (ws !! i).

(** The tests of a filter on the state, the provider and its type. *)
(** src: crates/server/infrastructure/src/persistence/postgres/in_memory.rs 324-341 InMemoryWorkerRegistry::find (predicate) *)
Definition matches (f : WorkerFilter.t) (w : Worker.t) : bool :=
  match WorkerFilter.states f with
  | Some states => bool_decide (Worker.state w ∈ states)
  | None => true
  end &&
  match WorkerFilter.provider_id f with
  | Some p => bool_decide (Worker.provider_id w = p)
  | None => true
  end &&
  match WorkerFilter.provider_type f with
  | Some p => bool_decide (Worker.provider_type w = p)
  | None => true
  end.

Definition is_free (w : Worker.t) : bool := bool_decide (Worker.current_job_id w = None).

Definition is_available (w : Worker.t) : bool :=
  bool_decide (Worker.state w = WorkerState.Ready) && is_free w.

(** The available workers that pass the filter. *)
(** src: crates/server/infrastructure/src/persistence/postgres/in_memory.rs 256-277 InMemoryWorkerRegistry::find_ready_worker (candidates) *)
Definition candidates (f : option WorkerFilter.t) (ws : t) : list Worker.t :=
  let available := filter (fun w => is_available w = true) (map_values ws) in
  match f with
  | Some f =>
      let kept := filter (fun w => matches f w = true) available in
      if bool_decide (WorkerFilter.can_accept_jobs f = Some true)
      then filter (fun w => is_free w = true) kept else kept
  | None => available
  end.

(** src: crates/server/infrastructure/src/persistence/postgres/in_memory.rs 251-281 InMemoryWorkerRegistry::find_ready_worker *)
Definition find_ready_worker (f : option WorkerFilter.t) :
    method t DomainError.t (option Worker.t) :=
  ws ← self; mret (head (candidates f ws)).

(** src: crates/server/infrastructure/src/persistence/postgres/in_memory.rs 283-298 InMemoryWorkerRegistry::register *)
Definition register (h : WorkerHandle.t) (sp : WorkerSpec.t) (job : JobId) (now : DateTime) :
    method t DomainError.t Worker.t :=
  ws ← self;
  match ws !! WorkerHandle.worker_id h with
  | Some _ =>
      throw (DomainError.InfrastructureError
        ("Worker already registered: " +:+ uuid_to_string (WorkerHandle.worker_id h)))
  | None =>
      let w := Worker.new h sp now in
      _ ← modify (fun ws => <[WorkerHandle.worker_id h := w]> ws);
      mret w
  end.

(** src: crates/server/infrastructure/src/persistence/postgres/in_memory.rs 300-307 InMemoryWorkerRegistry::unregister *)
Definition unregister (i : WorkerId) : method t DomainError.t unit :=
  modify (fun ws => base.delete i ws).

(** src: crates/server/infrastructure/src/persistence/postgres/in_memory.rs 317-344 InMemoryWorkerRegistry::find *)
Definition find (f : WorkerFilter.t) : method t DomainError.t (list Worker.t) :=
  ws ← self; mret (filter (fun w => matches f w = true) (map_values ws)).

(** src: crates/server/infrastructure/src/persistence/postgres/in_memory.rs 346-354 InMemoryWorkerRegistry::find_available *)
Definition find_available : method t DomainError.t (list Worker.t) :=
  ws ← self; mret (filter (fun w => is_available w = true) (map_values ws)).

(** src: crates/server/infrastructure/src/persistence/postgres/in_memory.rs 356-366 InMemoryWorkerRegistry::find_by_provider *)
Definition find_by_provider (p : ProviderId) : method t DomainError.t (list Worker.t) :=
  ws ← self; mret (filter (fun w => Worker.provider_id w = p) (map_values ws)).

(** src: crates/server/infrastructure/src/persistence/postgres/in_memory.rs 368-377 InMemoryWorkerRegistry::get_by_job_id *)
Definition get_by_job_id (job : JobId) : method t DomainError.t (option Worker.t) :=
  ws ← self;
  mret (head (filter (fun w => Worker.current_job_id w = Some job) (map_values ws))).

(** [if let Some(worker) = workers.get_mut(id) { let _ = m(worker); }]: the
    result of the method is dropped and an unknown worker is no error. *)
Definition on_worker {A} (i : WorkerId) (m : method Worker.t DomainError.t A) :
    method t DomainError.t unit :=
  modify (fun ws =>
    match ws !! i with
    | Some w => <[i := after m w]> ws
    | None => ws
    end).

(** [fresh] is the identifier of [JobId::new()]. *)
(** src: crates/server/infrastructure/src/persistence/postgres/in_memory.rs 379-404 InMemoryWorkerRegistry::update_state *)
Definition update_state (i : WorkerId) (s : WorkerState.t) (fresh : JobId) (now : DateTime) :
    method t DomainError.t unit :=
  on_worker i
    match s with
    | WorkerState.Creating => mret tt
    | WorkerState.Ready => Worker.mark_ready now
    | WorkerState.Busy => Worker.assign_job fresh now
    | WorkerState.Terminated => Worker.mark_terminating now
    end.

(** src: crates/server/infrastructure/src/persistence/postgres/in_memory.rs 406-415 InMemoryWorkerRegistry::update_heartbeat *)
Definition update_heartbeat (i : WorkerId) (now1 now2 : DateTime) :
    method t DomainError.t unit :=
  on_worker i (Worker.update_heartbeat now1 now2).

(** src: crates/server/infrastructure/src/persistence/postgres/in_memory.rs 417-429 InMemoryWorkerRegistry::mark_busy *)
Definition mark_busy (i : WorkerId) (job : option JobId) (now : DateTime) :
    method t DomainError.t unit :=
  match job with
  | Some job => on_worker i (Worker.assign_job job now)
  | None => mret tt
  end.

(** src: crates/server/infrastructure/src/persistence/postgres/in_memory.rs 442-452 InMemoryWorkerRegistry::assign_to_job *)
Definition assign_to_job (i : WorkerId) (job : JobId) (now : DateTime) :
    method t DomainError.t unit :=
  on_worker i (Worker.assign_job job now).

(** src: crates/server/infrastructure/src/persistence/postgres/in_memory.rs 454-463 InMemoryWorkerRegistry::release_from_job *)
Definition release_from_job (i : WorkerId) (now : DateTime) : method t DomainError.t unit :=
  on_worker i (Worker.complete_job now).

(** src: crates/server/infrastructure/src/persistence/postgres/in_memory.rs 505-508 InMemoryWorkerRegistry::count *)
Definition count : method t DomainError.t nat := ws ← self; mret (size ws).

End worker_registry.
End InMemoryWorkerRegistry.

(** ** Properties of the status tracker, against the interface *)

Section tracker.
Context `{E : Externs} {R : Type} `{!JobRepository.t R, !JobRepository.Laws R}.

Lemma apply_status_fields st res t1 t2 j :
  let j' := JobStatusTracker.apply_status st res t1 t2 j in
  Job.state j' = JobStatusTracker.job_state_of st /\
  Job.result j' = (if res is Some _ then res else Job.result j) /\
  Job.completed_at j' = (if res is Some _ then Some t2 else Job.completed_at j) /\
  JobLifecycle.identity j' = JobLifecycle.identity j /\
  Job.attempts j' = Job.attempts j /\
  (is_Some (Job.execution_context j') <-> is_Some (Job.execution_context j)).
Proof.
  destruct j as [i n sp s pr ctx att mx cr stt comp re err md ti tv en tb].
  unfold JobStatusTracker.apply_status. destruct ctx as [c|]; simpl;
    case_bool_decide as Hs; destruct res; simpl; split_and!; try done;
    try (by apply dec_stable in Hs).
Qed.

(** Reporting a status for a job that is stored writes that job back
    with the state the status stands for, whatever state it was in; the result
    and the completion time are written only when a result is given, and the
    identity and the attempt counter stay.  For an unknown job the error says
    so; an error never changes the repository.  In particular a finished job is
    taken back to running, which the state machine of jobs forbids. *)
Theorem tracker_overwrites_the_state i st res t1 t2 r :
  match JobStatusTracker.update_job_status i st res t1 t2 r with
  | (r', Ok _) =>
      exists j, JobRepository.contents r !! i = Some j /\
        let j' := JobStatusTracker.apply_status st res t1 t2 j in
        JobRepository.contents r' = <[Job.id j := j']> (JobRepository.contents r) /\
        Job.state j' = JobStatusTracker.job_state_of st /\
        Job.result j' = (if res is Some _ then res else Job.result j) /\
        Job.completed_at j' = (if res is Some _ then Some t2 else Job.completed_at j) /\
        JobLifecycle.identity j' = JobLifecycle.identity j /\
        Job.attempts j' = Job.attempts j
  | (r', Err e) =>
      r' = r /\
      (is_ok (snd (JobRepository.find_by_id i r)) = true ->
       JobRepository.contents r !! i = None -> e = DomainError.JobNotFound i)
  end /\
  JobState.can_transition_to JobState.Succeeded
    (JobStatusTracker.job_state_of ExecutionStatus.Running) = false.
Proof.
  split; [|done]. unfold JobStatusTracker.update_job_status, mbind, method_bind, lift.
  destruct (JobRepository.find_by_id i r) as [r1 [o|e]] eqn:Hf.
  2:{ apply JobRepository.find_by_id_err in Hf as ->. by split. }
  apply JobRepository.find_by_id_ok in Hf as [-> ->].
  destruct (JobRepository.contents r !! i) as [j|] eqn:Hj; [|by split]. cbn [ok_or].
  destruct (JobRepository.update _ r) as [r' [[]|e]] eqn:Hu.
  - apply JobRepository.update_ok in Hu. exists j. split; [done|].
    destruct (apply_status_fields st res t1 t2 j) as (Hs & Hr & Hc & Hi & Ha & _).
    unfold JobLifecycle.identity in Hi. injection Hi as Hid Hrest.
    split_and!; try done; [|unfold JobLifecycle.identity; congruence].
    by rewrite Hu, Hid.
  - apply JobRepository.update_err in Hu as ->. by split.
Qed.

(** Every stored job was only changed by its lifecycle methods, so that its
    record is consistent. *)
Definition holds_consistent_jobs (r : R) : Prop :=
  forall i j, JobRepository.contents r !! i = Some j -> JobLifecycle.consistent j.

(** The clean-up of expired jobs looks at pending jobs only, and a
    pending job has not started: over a repository whose jobs were only changed
    by their lifecycle methods it reports no job, whatever the clock says. *)
Theorem cleanup_reports_nothing now r r' l :
  holds_consistent_jobs r ->
  JobStatusTracker.cleanup_expired_jobs now r = (r', Ok l) ->
  l = [] /\ r' = r.
Proof.
  intros Hcons. unfold JobStatusTracker.cleanup_expired_jobs, mbind, method_bind.
  destruct (JobRepository.find_by_state JobState.Pending r) as [r1 [ps|e]] eqn:Hf; [|done].
  apply JobRepository.find_by_state_ok in Hf as [-> Hps]. intros [= <- <-].
  split; [|done].
  destruct (filter _ ps) as [|j l'] eqn:Hl; [done|]. exfalso.
  assert (j ∈ j :: l') as Hj by (apply elem_of_cons; by left).
  rewrite <- Hl in Hj. apply list_elem_of_filter in Hj as [Hx (i & Hi & Hs)%Hps].
  specialize (Hcons _ _ Hi). unfold JobLifecycle.consistent in Hcons.
  rewrite Hs in Hcons. destruct Hcons as (_ & _ & Hst & _).
  unfold Job.has_expired in Hx. by rewrite Hst in Hx.
Qed.
End tracker.

#[local] Existing Instance concrete_order.

(** A repository with one pending job, for the witnesses. *)
Definition example_job : @Job.t concrete :=
  Job.new (E := concrete) 7%nat "build" (JobSpec.new ["make"]) 0.
Definition example_jobs : @InMemoryJobRepository.t concrete :=
  <[7%nat := example_job]> InMemoryJobRepository.new.

Example cleanup_reports_nothing_witness :
  exists l r', JobStatusTracker.cleanup_expired_jobs (E := concrete)
    (fun _ => from_secs 100000) example_jobs = (r', Ok l) /\ l = [] /\ r' = example_jobs.
Proof.
  exists [], example_jobs. split; [reflexivity|].
  apply (cleanup_reports_nothing (E := concrete) (fun _ => from_secs 100000)).
  - intros i j. change (JobRepository.contents example_jobs) with
      ({[7%nat := example_job]} : gmap nat (@Job.t concrete)).
    intros [_ <-]%lookup_singleton_Some. by repeat split.
  - reflexivity.
Defined.

(** ** Properties of the queue *)

Section queue.
Context `{E : Externs}.
Import InMemoryJobQueue.

Inductive queue_op := Enqueue (j : Job.t) | Dequeue | Peek | Clear.

(** The jobs a sequence of operations enqueued since the last [clear], those it
    dequeued since then, and the queue it leaves. *)
Fixpoint queue_run (ops : list queue_op) (q : InMemoryJobQueue.t)
    (enqueued dequeued : list Job.t) : InMemoryJobQueue.t * list Job.t * list Job.t :=
  match ops with
  | [] => (q, enqueued, dequeued)
  | Enqueue j :: ops => queue_run ops (after (enqueue j) q) (enqueued ++ [j]) dequeued
  | Dequeue :: ops =>
      queue_run ops (after dequeue q) enqueued
        match returns dequeue q with Ok (Some j) => dequeued ++ [j] | _ => dequeued end
  | Peek :: ops => queue_run ops (after peek q) enqueued dequeued
  | Clear :: ops => queue_run ops (after clear q) [] []
  end.

Lemma queue_run_fifo ops q enqueued dequeued :
  dequeued ++ q = enqueued ->
  let '(q', enqueued', dequeued') := queue_run ops q enqueued dequeued in
  dequeued' ++ q' = enqueued'.
Proof.
  revert q enqueued dequeued. induction ops as [|[j| | |] ops IH]; intros q en de Hq; simpl.
  - done.
  - apply IH. unfold after, enqueue, modify. simpl. by rewrite app_assoc, Hq.
  - apply IH. destruct q as [|j q]; simpl; [done|]. by rewrite <- app_assoc.
  - by apply IH.
  - by apply IH.
Qed.

(** The queue is first in, first out: whatever the operations and their
    order, the jobs dequeued so far followed by the jobs still waiting are the
    jobs enqueued, in the order they were enqueued; [peek] and [dequeue] return
    the oldest of them, and nothing exactly when the queue is empty. *)
Theorem queue_is_fifo ops :
  let '(q, enqueued, dequeued) := queue_run ops new [] [] in
  dequeued ++ q = enqueued /\
  returns len q = Ok (length enqueued - length dequeued)%nat /\
  returns peek q = returns dequeue q /\
  (forall j, returns dequeue q = Ok (Some j) -> enqueued !! length dequeued = Some j) /\
  (returns dequeue q = Ok None <-> enqueued = dequeued).
Proof.
  pose proof (queue_run_fifo ops new [] [] eq_refl) as Hf.
  destruct (queue_run ops new [] []) as [[q en] de]. subst en.
  unfold returns, len, peek, dequeue; simpl. split_and!; [done| |done| |].
  - rewrite length_app. do 2 f_equal. lia.
  - intros j [= Hj]. destruct q as [|k q]; [done|]. injection Hj as ->.
    by rewrite list_lookup_middle.
  - destruct q as [|k q]; simpl; [by rewrite app_nil_r|]. split; [done|].
    intros Heq%(f_equal length). rewrite length_app in Heq. simpl in Heq. lia.
Qed.
End queue.

(** ** Properties of the registry of workers *)

Section registry.
Context `{E : Externs} `{!MapOrder}.
Import InMemoryWorkerRegistry.

(** The filter's own test, the one [find_ready_worker] applies. *)
Definition ready_for (f : option WorkerFilter.t) (w : Worker.t) : Prop :=
  Worker.state w = WorkerState.Ready /\ Worker.current_job_id w = None /\
  match f with Some f => matches f w = true | None => True end.

Lemma is_available_true w :
  is_available w = true <->
  Worker.state w = WorkerState.Ready /\ Worker.current_job_id w = None.
Proof.
  unfold is_available, is_free. by rewrite andb_true_iff, !bool_decide_eq_true.
Qed.

Lemma ready_candidates f (ws : InMemoryWorkerRegistry.t) w :
  w ∈ candidates f ws <->
  (exists i, ws !! i = Some w) /\ ready_for f w.
Proof.
  unfold ready_for, candidates. destruct f as [f|].
  - case_bool_decide; rewrite !list_elem_of_filter, is_available_true, elem_of_map_values;
      unfold is_free; rewrite ?bool_decide_eq_true; tauto.
  - rewrite list_elem_of_filter, is_available_true, elem_of_map_values. tauto.
Qed.

Lemma head_none {A} (l : list A) : head l = None <-> forall x, ~ x ∈ l.
Proof.
  destruct l as [|y l]; simpl; split; try done.
  - intros _ x. by apply not_elem_of_nil.
  - intros Hx. exfalso. apply (Hx y). apply elem_of_cons. by left.
Qed.

(** Looking for a ready worker returns a stored worker that is
    ready, free and passes the filter, and nothing exactly when there is none;
    registering refuses an identifier that is taken and changes nothing then;
    a worker that was assigned a job, or released from one, is not offered
    again. *)
Theorem registry_offers_free_workers f (ws : InMemoryWorkerRegistry.t) :
  (forall w, returns (find_ready_worker f) ws = Ok (Some w) ->
     (exists i, ws !! i = Some w) /\ ready_for f w) /\
  (returns (find_ready_worker f) ws = Ok None <->
     forall i w, ws !! i = Some w -> ~ ready_for f w) /\
  (forall h sp job now,
     match register h sp job now ws with
     | (ws', Err _) => ws' = ws /\ is_Some (ws !! WorkerHandle.worker_id h)
     | (ws', Ok w) => ws !! WorkerHandle.worker_id h = None /\
         ws' = <[WorkerHandle.worker_id h := w]> ws /\ Worker.state w = WorkerState.Creating
     end) /\
  (forall i w job now, ws !! i = Some w -> Worker.state w = WorkerState.Ready ->
     exists w', after (assign_to_job i job now) ws = <[i := w']> ws /\
       Worker.state w' = WorkerState.Busy /\ Worker.current_job_id w' = Some job /\
       ~ ready_for f w' /\
       exists w'', after (release_from_job i now) (<[i := w']> ws) = <[i := w'']> ws /\
         Worker.state w'' = WorkerState.Terminated /\ Worker.current_job_id w'' = None /\
         ~ ready_for f w'').
Proof.
  split_and!.
  - intros w [= Hw]. apply ready_candidates. by apply head_Some_elem_of.
  - change (Ok (E := DomainError.t) (head (candidates f ws)) = Ok None <->
      forall i w, ws !! i = Some w -> ~ ready_for f w). split.
    + intros [= Hn] i w Hi Hr. rewrite head_none in Hn. apply (Hn w).
      apply ready_candidates. eauto.
    + intros Hn. do 2 f_equal. apply head_none. intros w [[i Hi] Hr]%ready_candidates.
      by apply (Hn i w).
  - intros h sp job now. unfold register, mbind, method_bind, self.
    destruct (ws !! WorkerHandle.worker_id h) eqn:Hh; simpl; [by eauto|done].
  - intros i w job now Hw Hs. destruct w as [wi wh st wsp wj n comp hb cr up].
    simpl in Hs; subst st. eexists. split.
    { unfold after, assign_to_job, on_worker, modify. cbn [fst]. by rewrite Hw. }
    cbn. split_and!; try done; [by intros [? _]|].
    eexists. split.
    { unfold after, release_from_job, on_worker, modify. cbn [fst].
      unfold InMemoryWorkerRegistry.t. rewrite lookup_insert_eq, insert_insert_eq. reflexivity. }
    cbn. split_and!; try done. by intros [? _].
Qed.
End registry.
