(* ===== verification/Services.v ===== *)
(** * The services sagas and command handlers call
    ([crates/server/domain/src/workers/registry.rs], [workers/provisioning.rs])

    The registry of workers and the provisioning of workers as type classes over
    the state they act on, like [JobRepository] in [Job.v]; and a world that
    holds the two in-memory repositories of [Repositories.v], the random
    identifiers and the clock, as one implementation of both repositories. *)

From S2P Require Import Prelude Effects Std Externs States Errors JobSpec Job ProviderApi Worker Repositories.

Module WorkerRegistry.
Section worker_registry.
Context `{E : Externs}.

(** The operations that the commands and the steps call. *)
(** src: crates/server/domain/src/workers/registry.rs 97-162 WorkerRegistry *)
Class t (S : Type) := {
  register : WorkerHandle.t -> WorkerSpec.t -> JobId -> method S DomainError.t Worker.t;
  save : Worker.t -> method S DomainError.t unit;
  unregister : WorkerId -> method S DomainError.t unit;
  find_by_id : WorkerId -> method S DomainError.t (option Worker.t);
  get_by_job_id : JobId -> method S DomainError.t (option Worker.t);
  find : WorkerFilter.t -> method S DomainError.t (list Worker.t);
  find_ready_worker : option WorkerFilter.t -> method S DomainError.t (option Worker.t);
  find_available : method S DomainError.t (list Worker.t);
  find_by_provider : ProviderId -> method S DomainError.t (list Worker.t);
  update_state : WorkerId -> WorkerState.t -> method S DomainError.t unit;
  update_heartbeat : WorkerId -> method S DomainError.t unit;
  mark_busy : WorkerId -> option JobId -> method S DomainError.t unit;
  release_from_job : WorkerId -> method S DomainError.t unit;
}.

(** The aliases the trait defines. *)
(** src: crates/server/domain/src/workers/registry.rs 114-116 WorkerRegistry::delete *)
Definition delete {S} `{!t S} (i : WorkerId) : method S DomainError.t unit := unregister i.
(** src: crates/server/domain/src/workers/registry.rs 122-124 WorkerRegistry::get *)
Definition get {S} `{!t S} (i : WorkerId) : method S DomainError.t (option Worker.t) :=
  find_by_id i.
(** src: crates/server/domain/src/workers/registry.rs 148-150 WorkerRegistry::heartbeat *)
Definition heartbeat {S} `{!t S} (i : WorkerId) : method S DomainError.t unit :=
  update_heartbeat i.
(** src: crates/server/domain/src/workers/registry.rs 156-158 WorkerRegistry::assign_to_job *)
Definition assign_to_job {S} `{!t S} (i : WorkerId) (job : JobId) : method S DomainError.t unit :=
  mark_busy i (Some job).

End worker_registry.
End WorkerRegistry.

Module WorkerProvisioningResult.
Section result.
Context `{E : Externs}.

(** src: crates/server/domain/src/workers/provisioning.rs 25-32 WorkerProvisioningResult *)
Record t := mk {
  worker_id : WorkerId;
  provider_id : ProviderId;
  job_id : JobId;
}.

(** src: crates/server/domain/src/workers/provisioning.rs 37-43 WorkerProvisioningResult::new *)
Definition new (w : WorkerId) (p : ProviderId) (j : JobId) : t := mk w p j.

(** src: crates/server/domain/src/workers/provisioning.rs 47-49 WorkerProvisioningResult::worker_id_str *)
Definition worker_id_str (r : t) : string := uuid_to_string (worker_id r).

End result.
End WorkerProvisioningResult.

Module WorkerProvisioning.
Section provisioning.
Context `{E : Externs}.

(** src: crates/server/domain/src/workers/provisioning.rs 70-119 WorkerProvisioning *)
Class t (S : Type) := {
  provision_worker : ProviderId -> WorkerSpec.t -> JobId ->
    method S DomainError.t WorkerProvisioningResult.t;
  destroy_worker : WorkerId -> method S DomainError.t unit;
  is_provider_available : ProviderId -> method S DomainError.t bool;
}.

End provisioning.
End WorkerProvisioning.

(** ** A world with the in-memory repositories

    [tick] counts the readings of the clock and the random identifiers drawn so
    far; [random_id] and [time_at] are what they return. *)

Module Memory.
Section memory.
Context `{E : Externs}.

Record t := mk {
  jobs : InMemoryJobRepository.t;
  workers : InMemoryWorkerRegistry.t;
  tick : nat;
}.

#[global] Instance t_rebuild : Rebuild t := fun m => mk (jobs m) (workers m) (tick m).

Definition on_jobs {F X} (m : method InMemoryJobRepository.t F X) : method t F X :=
  fun s => let (js, r) := m (jobs s) in (s <| jobs := js |>, r).

Definition on_workers {F X} (m : method InMemoryWorkerRegistry.t F X) : method t F X :=
  fun s => let (ws, r) := m (workers s) in (s <| workers := ws |>, r).

Context `{!MapOrder} (random_id : nat -> Uuid) (time_at : nat -> DateTime).

Definition new_v4 {F} : method t F Uuid :=
  fun s => (s <| tick := S (tick s) |>, Ok (random_id (tick s))).
Definition now {F} : method t F DateTime :=
  fun s => (s <| tick := S (tick s) |>, Ok (time_at (tick s))).

Definition job_repository : JobRepository.t t := {|
  JobRepository.save := fun j => on_jobs (JobRepository.save j);
  JobRepository.find_by_id := fun i => on_jobs (JobRepository.find_by_id i);
  JobRepository.find := fun f => on_jobs (JobRepository.find f);
  JobRepository.find_by_state := fun s => on_jobs (JobRepository.find_by_state s);
  JobRepository.find_pending := on_jobs JobRepository.find_pending;
  JobRepository.find_all := fun l o => on_jobs (JobRepository.find_all l o);
  JobRepository.find_by_execution_id := fun e => on_jobs (JobRepository.find_by_execution_id e);
  JobRepository.count_by_state := fun s => on_jobs (JobRepository.count_by_state s);
  JobRepository.delete := fun i => on_jobs (JobRepository.delete i);
  JobRepository.update := fun j => on_jobs (JobRepository.update j);
  JobRepository.update_state := fun i s => on_jobs (JobRepository.update_state i s);
|}.

Definition worker_registry : WorkerRegistry.t t := {|
  WorkerRegistry.register := fun h sp j =>
    time ← now; on_workers (InMemoryWorkerRegistry.register h sp j time);
  WorkerRegistry.save := fun w => on_workers (InMemoryWorkerRegistry.save w);
  WorkerRegistry.unregister := fun i => on_workers (InMemoryWorkerRegistry.unregister i);
  WorkerRegistry.find_by_id := fun i => on_workers (InMemoryWorkerRegistry.find_by_id i);
  WorkerRegistry.get_by_job_id := fun j => on_workers (InMemoryWorkerRegistry.get_by_job_id j);
  WorkerRegistry.find := fun f => on_workers (InMemoryWorkerRegistry.find f);
  WorkerRegistry.find_ready_worker := fun f =>
    on_workers (InMemoryWorkerRegistry.find_ready_worker f);
  WorkerRegistry.find_available := on_workers InMemoryWorkerRegistry.find_available;
  WorkerRegistry.find_by_provider := fun p =>
    on_workers (InMemoryWorkerRegistry.find_by_provider p);
  WorkerRegistry.update_state := fun i s =>
    fresh ← new_v4; time ← now;
    on_workers (InMemoryWorkerRegistry.update_state i s fresh time);
  WorkerRegistry.update_heartbeat := fun i =>
    time1 ← now; time2 ← now;
    on_workers (InMemoryWorkerRegistry.update_heartbeat i time1 time2);
  WorkerRegistry.mark_busy := fun i j =>
    time ← now; on_workers (InMemoryWorkerRegistry.mark_busy i j time);
  WorkerRegistry.release_from_job := fun i =>
    time ← now; on_workers (InMemoryWorkerRegistry.release_from_job i time);
|}.

End memory.
End Memory.
