(* ===== verification/CircuitBreaker.v ===== *)
(** * The circuit breaker of saga consumers
    ([crates/server/domain/src/saga/circuit_breaker.rs])

    The breaker's atomics are a record of machine words; every method of the
    source performs its loads and stores one after the other, and the model is
    that sequence for one caller.  [SystemTime] is its distance from the epoch
    in nanoseconds; each call of [SystemTime::now()] is an argument.  A method
    panics when it indexes the window out of bounds or divides by a window of
    zero. *)

From S2P Require Import Prelude Std.

Module CircuitState.

(** src: crates/server/domain/src/saga/circuit_breaker.rs 20-27 CircuitState *)
Inductive t := Closed | Open | HalfOpen.

#[global] Instance t_eq_dec : EqDecision t.
Proof. solve_decision. Defined.

(** src: crates/server/domain/src/saga/circuit_breaker.rs 29-38 impl From<u8> for CircuitState *)
Definition of_u8 (val : Z) : t :=
  if val =? 0 then Closed
  else if val =? 1 then Open
  else if val =? 2 then HalfOpen
  else Closed.

(** src: crates/server/domain/src/saga/circuit_breaker.rs 40-48 impl From<CircuitState> for u8 *)
Definition into_u8 (s : t) : Z :=
  match s with Closed => 0 | Open => 1 | HalfOpen => 2 end.

End CircuitState.

Module CircuitBreakerConfig.

(** src: crates/server/domain/src/saga/circuit_breaker.rs 52-65 CircuitBreakerConfig *)
Record t := mk {
  failure_threshold : Z;
  open_duration : Duration;
  success_threshold : Z;
  call_timeout : Duration;
  failure_rate_threshold : Z;
  failure_rate_window : nat;
}.

(** src: crates/server/domain/src/saga/circuit_breaker.rs 68-77 CircuitBreakerConfig::default *)
Definition default : t := {|
  failure_threshold := 5;
  open_duration := from_secs 60;
  success_threshold := 3;
  call_timeout := from_secs 30;
  failure_rate_threshold := 50;
  failure_rate_window := 100;
|}.

(** src: crates/server/domain/src/saga/circuit_breaker.rs 86-95 CircuitBreakerConfig::for_saga_consumer *)
Definition for_saga_consumer : t := {|
  failure_threshold := 5;
  open_duration := from_secs 30;
  success_threshold := 2;
  call_timeout := from_secs 60;
  failure_rate_threshold := 50;
  failure_rate_window := 50;
|}.

(** src: crates/server/domain/src/saga/circuit_breaker.rs 99-108 CircuitBreakerConfig::high_throughput *)
Definition high_throughput : t := {|
  failure_threshold := 10;
  open_duration := from_secs 10;
  success_threshold := 5;
  call_timeout := from_secs 10;
  failure_rate_threshold := 30;
  failure_rate_window := 200;
|}.

End CircuitBreakerConfig.

Module CircuitBreaker.

Import CircuitBreakerConfig.

Inductive panic := IndexOutOfBounds | RemainderByZero.

(** src: crates/server/domain/src/saga/circuit_breaker.rs 113-130 CircuitBreakerState *)
Record state_t := mk_state {
  state : Z;
  consecutive_failures : Z;
  consecutive_successes : Z;
  opened_at : Z;
  total_calls : Z;
  total_failures : Z;
  recent_calls : list Z;
  call_index : Z;
}.

#[global] Instance state_rebuild : Rebuild state_t := fun s =>
  mk_state (state s) (consecutive_failures s) (consecutive_successes s) (opened_at s)
    (total_calls s) (total_failures s) (recent_calls s) (call_index s).

(** src: crates/server/domain/src/saga/circuit_breaker.rs 133-145 CircuitBreakerState::default *)
Definition default_state : state_t := {|
  state := CircuitState.into_u8 CircuitState.Closed;
  consecutive_failures := 0;
  consecutive_successes := 0;
  opened_at := 0;
  total_calls := 0;
  total_failures := 0;
  recent_calls := repeat 1 100;
  call_index := 0;
|}.

(** The state stored in the atomic, [CircuitState::from(load as u8)]. *)
Definition stored (s : state_t) : CircuitState.t := CircuitState.of_u8 (wrap 8 (state s)).

Section breaker.
(** The name and the configuration of a breaker are shared and constant. *)
Context (name : string) (config : CircuitBreakerConfig.t).

(** src: crates/server/domain/src/saga/circuit_breaker.rs 181-208 CircuitBreaker::state *)
Definition get_state (now : Z) : method state_t panic CircuitState.t :=
  s ← self;
  match stored s with
  | CircuitState.Open =>
      if 0 <? opened_at s then
        let open_time := from_millis (opened_at s) in
        let since := if now <? open_time then Duration_ZERO else now - open_time in
        if open_duration config <=? since then
          _ ← assign state (CircuitState.into_u8 CircuitState.HalfOpen);
          _ ← assign consecutive_successes 0;
          mret CircuitState.HalfOpen
        else mret CircuitState.Open
      else mret CircuitState.Open
  | st => mret st
  end.

(** src: crates/server/domain/src/saga/circuit_breaker.rs 212-217 CircuitBreaker::allow_request *)
Definition allow_request (now : Z) : method state_t panic bool :=
  st ← get_state now;
  mret match st with
       | CircuitState.Closed | CircuitState.HalfOpen => true
       | CircuitState.Open => false
       end.

(** [let idx = call_index.fetch_add(1) % window; recent_calls[idx].store(v)]. *)
(** src: crates/server/domain/src/saga/circuit_breaker.rs 224-227 CircuitBreaker::record_success (circular buffer) *)
Definition record_call (v : Z) : method state_t panic unit :=
  s ← self;
  let window := Z.of_nat (failure_rate_window config) in
  _ ← assign call_index (u64_add (call_index s) 1);
  _ ← ensure (negb (window =? 0)) RemainderByZero;
  let idx := Z.to_nat (call_index s mod window) in
  _ ← ensure (bool_decide (idx < length (recent_calls s))%nat) IndexOutOfBounds;
  assign recent_calls (<[idx := v]> (recent_calls s)).

(** src: crates/server/domain/src/saga/circuit_breaker.rs 221-255 CircuitBreaker::record_success *)
Definition record_success : method state_t panic unit :=
  s ← self;
  _ ← assign total_calls (u64_add (total_calls s) 1);
  _ ← record_call 1;
  s ← self;
  match stored s with
  | CircuitState.HalfOpen =>
      let successes := u64_add (consecutive_successes s) 1 in
      _ ← assign consecutive_successes successes;
      if success_threshold config <=? successes then
        _ ← assign state (CircuitState.into_u8 CircuitState.Closed);
        assign consecutive_failures 0
      else mret tt
  | CircuitState.Closed => assign consecutive_failures 0
  | CircuitState.Open => mret tt
  end.

(** src: crates/server/domain/src/saga/circuit_breaker.rs 300-317 CircuitBreaker::open_circuit *)
Definition open_circuit (now : Z) : method state_t panic unit :=
  _ ← assign state (CircuitState.into_u8 CircuitState.Open);
  assign opened_at (as_u64 (as_millis (if now <? 0 then Duration_ZERO else now))).

(** The loop over the window: the failures among the entries read. *)
(** src: crates/server/domain/src/saga/circuit_breaker.rs 326-332 CircuitBreaker::failure_rate (loop) *)
Fixpoint count_failures (indices : list nat) (recent : list Z) : result panic Z :=
  match indices with
  | [] => Ok 0
  | i :: indices =>
      v ← ok_or (recent !! i) IndexOutOfBounds;
      n ← count_failures indices recent;
      Ok ((if v =? 0 then 1 else 0) + n)
  end.

(** src: crates/server/domain/src/saga/circuit_breaker.rs 321-338 CircuitBreaker::failure_rate *)
Definition failure_rate : method state_t panic f64 :=
  s ← self;
  failures ← lift (count_failures (seq 0 (failure_rate_window config)) (recent_calls s));
  let total := Z.of_nat (failure_rate_window config) in
  mret (if total =? 0 then F64.of_Z 0
        else F64.mul (F64.div (F64.of_Z failures) (F64.of_Z total)) (F64.of_Z 100)).

(** [now1] and [now2] are the clock readings of the two places that may open
    the circuit. *)
(** src: crates/server/domain/src/saga/circuit_breaker.rs 259-296 CircuitBreaker::record_failure *)
Definition record_failure (now1 now2 : Z) : method state_t panic unit :=
  s ← self;
  _ ← assign total_calls (u64_add (total_calls s) 1);
  _ ← assign total_failures (u64_add (total_failures s) 1);
  _ ← record_call 0;
  s ← self;
  let failures := u64_add (consecutive_failures s) 1 in
  _ ← assign consecutive_failures failures;
  match stored s with
  | CircuitState.Closed =>
      _ ← (if failure_threshold config <=? failures then open_circuit now1 else mret tt);
      rate ← failure_rate;
      if F64.leb (F64.of_Z (failure_rate_threshold config)) rate then open_circuit now2
      else mret tt
  | CircuitState.HalfOpen => open_circuit now1
  | CircuitState.Open => mret tt
  end.

(** src: crates/server/domain/src/saga/circuit_breaker.rs 413-425 CircuitBreakerError *)
Inductive error (E : Type) : Type :=
  | ErrOpen
  | ErrTimeout
  | ErrFailed (e : E).

(** src: crates/server/domain/src/saga/circuit_breaker.rs 396-409 CircuitBreakerStats *)
Record stats_t := mk_stats {
  stats_name : string;
  stats_state : CircuitState.t;
  stats_total_calls : Z;
  stats_total_failures : Z;
  stats_failure_rate : f64;
  stats_consecutive_failures : Z;
}.

(** src: crates/server/domain/src/saga/circuit_breaker.rs 342-351 CircuitBreaker::stats *)
Definition stats (now : Z) : method state_t panic stats_t :=
  st ← get_state now;
  s ← self;
  rate ← failure_rate;
  mret (mk_stats name st (total_calls s) (total_failures s) rate (consecutive_failures s)).

(** [operation] is what the operation does under the call timeout: [None] when
    the timeout elapses first, otherwise its result.  It is a function so that
    a rejected request does not run it. *)
(** src: crates/server/domain/src/saga/circuit_breaker.rs 365-391 CircuitBreaker::execute *)
Definition execute {T E : Type} (operation : unit -> option (result E T))
    (now now1 now2 : Z) : method state_t panic (result (error E) T) :=
  allowed ← allow_request now;
  if negb allowed then mret (Err (ErrOpen E))
  else
    match operation tt with
    | Some (Ok value) => _ ← record_success; mret (Ok value)
    | Some (Err e) => _ ← record_failure now1 now2; mret (Err (ErrFailed E e))
    | None => _ ← record_failure now1 now2; mret (Err (ErrTimeout E))
    end.

End breaker.

Arguments ErrOpen {E}.
Arguments ErrTimeout {E}.
Arguments ErrFailed {E} e.

(** A new breaker's state. *)
(** src: crates/server/domain/src/saga/circuit_breaker.rs 165-171 CircuitBreaker::new *)
Definition new : state_t := default_state.

End CircuitBreaker.

(** ** Histories of a breaker *)

Module BreakerHistory.
Import CircuitBreakerConfig CircuitBreaker.

(** A look at the state (as every request does), a recorded success or a
    recorded failure. *)
Inductive event :=
  | Look (now : Z)
  | Success
  | Failure (now1 now2 : Z).

Definition step (config : CircuitBreakerConfig.t) (e : event) : method state_t panic unit :=
  match e with
  | Look now => _ ← get_state config now; mret tt
  | Success => record_success config
  | Failure now1 now2 => record_failure config now1 now2
  end.

Fixpoint run (config : CircuitBreakerConfig.t) (es : list event) : method state_t panic unit :=
  match es with
  | [] => mret tt
  | e :: es => _ ← step config e; run config es
  end.

(** The outcomes recorded along a history: 1 for a success, 0 for a failure. *)
Definition outcome (e : event) : option Z :=
  match e with Look _ => None | Success => Some 1 | Failure _ _ => Some 0 end.
Definition outcomes (es : list event) : list Z := omap outcome es.

(** The last [w] outcomes, the calls before the first one counting as
    successes. *)
Definition last_calls (w : nat) (outs : list Z) : list Z :=
  drop (length outs) (repeat 1 w ++ outs).

Definition failures_in (l : list Z) : Z :=
  Z.of_nat (length (filter (fun v => v = 0) l)).

(** The percentage the code computes from a number of failures. *)
Definition rate_of (w : nat) (failures : Z) : f64 :=
  F64.mul (F64.div (F64.of_Z failures) (F64.of_Z (Z.of_nat w))) (F64.of_Z 100).

(** The window of the configuration fits the buffer, whose size is fixed. *)
Definition window_fits (config : CircuitBreakerConfig.t) : Prop :=
  (1 <= failure_rate_window config <= 100)%nat.

(** The circular buffer holds the last calls, rotated by the write index. *)
Definition ring (w : nat) (outs : list Z) (s : state_t) : Prop :=
  let r := (length outs mod w)%nat in
  let l := last_calls w outs in
  length (recent_calls s) = 100%nat /\
  call_index s = Z.of_nat (length outs) /\
  take w (recent_calls s) = drop (w - r) l ++ take (w - r) l /\
  0 <= state s <= 2.

(** ** The abstract breaker

    What the breaker promises, without atomics, indices or a buffer: a state,
    two runs, the time of the last opening in milliseconds and the list of the
    outcomes so far. *)

Record spec := mk_spec {
  sp_state : CircuitState.t;
  sp_failures : Z;
  sp_successes : Z;
  sp_opened : Z;
  sp_calls : list Z;
}.

Definition spec_new : spec := mk_spec CircuitState.Closed 0 0 0 [].

Definition millis (now : Z) : Z := as_u64 (as_millis (Z.max 0 now)).

(** Has the open circuit waited for its duration? *)
Definition cooled (config : CircuitBreakerConfig.t) (opened now : Z) : bool :=
  (0 <? opened) && (open_duration config <=? Z.max 0 (now - from_millis opened)).

Definition rate_trips (config : CircuitBreakerConfig.t) (outs : list Z) : bool :=
  let w := failure_rate_window config in
  F64.leb (F64.of_Z (failure_rate_threshold config))
    (rate_of w (failures_in (last_calls w outs))).

Definition spec_step (config : CircuitBreakerConfig.t) (e : event) (a : spec) : spec :=
  let '(mk_spec st f g o outs) := a in
  match e, st with
  | Look now, CircuitState.Open =>
      if cooled config o now then mk_spec CircuitState.HalfOpen f 0 o outs else a
  | Look _, _ => a
  | Success, CircuitState.Closed => mk_spec CircuitState.Closed 0 g o (outs ++ [1])
  | Success, CircuitState.HalfOpen =>
      if success_threshold config <=? g + 1
      then mk_spec CircuitState.Closed 0 (g + 1) o (outs ++ [1])
      else mk_spec CircuitState.HalfOpen f (g + 1) o (outs ++ [1])
  | Success, CircuitState.Open => mk_spec CircuitState.Open f g o (outs ++ [1])
  | Failure now1 now2, CircuitState.Closed =>
      if rate_trips config (outs ++ [0])
      then mk_spec CircuitState.Open (f + 1) g (millis now2) (outs ++ [0])
      else if failure_threshold config <=? f + 1
      then mk_spec CircuitState.Open (f + 1) g (millis now1) (outs ++ [0])
      else mk_spec CircuitState.Closed (f + 1) g o (outs ++ [0])
  | Failure now1 _, CircuitState.HalfOpen =>
      mk_spec CircuitState.Open (f + 1) g (millis now1) (outs ++ [0])
  | Failure _ _, CircuitState.Open => mk_spec CircuitState.Open (f + 1) g o (outs ++ [0])
  end.

Definition spec_run (config : CircuitBreakerConfig.t) (es : list event) (a : spec) : spec :=
  fold_left (fun a e => spec_step config e a) es a.

(** The concrete state [s] implements the abstract state [a]. *)
Definition implements (config : CircuitBreakerConfig.t) (s : state_t) (a : spec) : Prop :=
  ring (failure_rate_window config) (sp_calls a) s /\
  state s = CircuitState.into_u8 (sp_state a) /\
  consecutive_failures s = sp_failures a /\
  consecutive_successes s = sp_successes a /\
  opened_at s = sp_opened a /\
  0 <= sp_failures a <= Z.of_nat (length (sp_calls a)) /\
  0 <= sp_successes a <= Z.of_nat (length (sp_calls a)).

End BreakerHistory.

Section breaker_properties.
Import CircuitBreakerConfig CircuitBreaker BreakerHistory.
Context (config : CircuitBreakerConfig.t).

Lemma last_calls_length w outs : length (last_calls w outs) = w.
Proof. unfold last_calls. rewrite length_drop, length_app, repeat_length. lia. Qed.

Lemma last_calls_snoc w outs v :
  (1 <= w)%nat -> last_calls w (outs ++ [v]) = drop 1 (last_calls w outs) ++ [v].
Proof.
  intros Hw. unfold last_calls. rewrite length_app, drop_drop, app_assoc.
  rewrite (drop_app_le (repeat 1 w ++ outs)).
  - done.
  - rewrite length_app, repeat_length. simpl. lia.
Qed.

(** One write of the circular buffer. *)
Lemma rotate_write {A} w r (l recent : list A) v :
  (r < w)%nat -> length l = w -> take w recent = drop (w - r) l ++ take (w - r) l ->
  (w <= length recent)%nat ->
  let l' := drop 1 l ++ [v] in
  let r' := (if decide (S r = w) then 0 else S r)%nat in
  take w (<[r := v]> recent) = drop (w - r') l' ++ take (w - r') l'.
Proof.
  intros Hr Hl Htake Hlen l' r'.
  assert (take w (<[r:=v]> recent) = <[r:=v]> (take w recent)) as ->.
  { rewrite <- (take_drop w recent) at 1.
    rewrite insert_app_l by (rewrite length_take; lia).
    rewrite take_app_length'; [done|]. rewrite length_insert, length_take. lia. }
  rewrite Htake, insert_app_r_alt by (rewrite length_drop; lia).
  rewrite length_drop, Hl. replace (r - (w - (w - r)))%nat with 0%nat by lia.
  destruct l as [|x l]; [simpl in Hl; lia|]. simpl in Hl.
  replace (w - r)%nat with (S (w - S r)) by lia. cbn [take drop insert list_insert].
  subst l'. cbn [drop]. rewrite (drop_0 l). subst r'. case_decide as Hd.
  - replace (w - S r)%nat with 0%nat by lia. rewrite Nat.sub_0_r. simpl.
    rewrite drop_0, (drop_ge (l ++ [v])), (take_ge (l ++ [v]))
      by (rewrite length_app; simpl; lia). done.
  - rewrite drop_app_le, take_app_le by lia. by rewrite <- app_assoc.
Qed.

Lemma ring_new w : (w <= 100)%nat -> ring w [] new.
Proof.
  intros Hw. unfold ring.
  assert (last_calls w [] = repeat 1 w) as -> by (unfold last_calls; by rewrite app_nil_r, drop_0).
  cbn [length]. rewrite Nat.Div0.mod_0_l, Nat.sub_0_r.
  rewrite (drop_ge (repeat 1 w)), (take_ge (repeat 1 w)) by (rewrite repeat_length; lia).
  split_and!; try done; try (cbn; lia).
  change (recent_calls new) with (repeat 1 100).
  replace 100%nat with (w + (100 - w))%nat by lia.
  rewrite repeat_app, take_app_length'; [done|]. by rewrite repeat_length.
Qed.

(** Recording a call keeps the buffer in step with the outcomes. *)
Lemma record_call_ring outs s v :
  window_fits config -> Z.of_nat (length outs) + 1 < 2 ^ 64 ->
  ring (failure_rate_window config) outs s ->
  exists s', record_call config v s = (s', Ok tt) /\
    ring (failure_rate_window config) (outs ++ [v]) s' /\
    s' = s <| call_index := call_index s' |> <| recent_calls := recent_calls s' |>.
Proof.
  unfold window_fits. intros Hw Hn (Hlen & Hidx & Htake & Hst).
  set (w := failure_rate_window config) in *.
  unfold record_call, self, assign, modify, ensure, mbind, method_bind. fold w.
  destruct (Z.eqb_spec (Z.of_nat w) 0) as [Hz|_]; [lia|]. cbn [negb].
  cbn [set call_index recent_calls].
  assert (Z.to_nat (call_index s mod Z.of_nat w) = (length outs mod w)%nat) as Hr.
  { rewrite Hidx, <- Nat2Z.inj_mod. apply Nat2Z.id. }
  pose proof (Nat.mod_upper_bound (length outs) w ltac:(lia)) as Hlt.
  unfold mret, method_ret, throw.
  rewrite Hr, bool_decide_eq_true_2 by (rewrite Hlen; lia). cbn.
  eexists. split; [reflexivity|]. split; [|by destruct s].
  unfold ring. cbn. split_and!; try lia.
  - by rewrite length_insert.
  - rewrite length_app, Hidx. cbn. rewrite u64_add_small by (unfold u64; lia). lia.
  - rewrite last_calls_snoc, length_app by lia. cbn [length].
    pose proof (rotate_write w _ (last_calls w outs) (recent_calls s) v Hlt
      (last_calls_length _ _) Htake ltac:(lia)) as Hrot. cbn in Hrot.
    rewrite Hrot. clear -Hlt Hw. rewrite Nat.add_1_r.
    case_decide as Hd.
    + replace (S (length outs) mod w)%nat with 0%nat; [done|].
      rewrite (Nat.div_mod_eq (length outs) w).
      replace (S (w * (length outs / w) + length outs mod w))%nat
        with (0 + (length outs / w + 1) * w)%nat by lia.
      rewrite Nat.Div0.mod_add. symmetry. apply Nat.Div0.mod_0_l.
    + replace (S (length outs) mod w)%nat with (S (length outs mod w)); [done|].
      rewrite (Nat.div_mod_eq (length outs) w) at 2.
      replace (S (w * (length outs / w) + length outs mod w))%nat
        with (S (length outs mod w) + (length outs / w) * w)%nat by lia.
      rewrite Nat.Div0.mod_add. symmetry. apply Nat.mod_small. lia.
Qed.

Lemma failures_in_app l1 l2 : failures_in (l1 ++ l2) = failures_in l1 + failures_in l2.
Proof. unfold failures_in. rewrite filter_app, length_app. lia. Qed.

Lemma failures_in_cons v l : failures_in (v :: l) = (if v =? 0 then 1 else 0) + failures_in l.
Proof.
  unfold failures_in. rewrite filter_cons.
  destruct (Z.eqb_spec v 0); case_decide; try done. simpl. lia.
Qed.

Lemma count_failures_seq recent k n :
  (k + n <= length recent)%nat ->
  count_failures (seq k n) recent = Ok (failures_in (take n (drop k recent))).
Proof.
  revert k. induction n as [|n IH]; intros k Hk; [done|].
  destruct (lookup_lt_is_Some_2 recent k) as [v Hv]; [lia|].
  rewrite (drop_S _ _ _ Hv). cbn [take seq count_failures].
  rewrite Hv. cbn. rewrite IH by lia. cbn. by rewrite failures_in_cons.
Qed.

Lemma failure_rate_ring outs s :
  window_fits config -> ring (failure_rate_window config) outs s ->
  failure_rate config s =
    (s, Ok (rate_of (failure_rate_window config)
              (failures_in (last_calls (failure_rate_window config) outs)))).
Proof.
  unfold window_fits. intros Hw (Hlen & _ & Htake & _).
  set (w := failure_rate_window config) in *.
  unfold failure_rate, self, lift, mbind, method_bind, mret, method_ret. fold w.
  assert (failures_in (take w (recent_calls s)) = failures_in (last_calls w outs)) as Hsame.
  { rewrite Htake, failures_in_app, Z.add_comm, <- failures_in_app. by rewrite take_drop. }
  rewrite count_failures_seq, drop_0, Hsame by lia.
  destruct (Z.eqb_spec (Z.of_nat w) 0); [lia|]. done.
Qed.

Lemma stored_implements s a : implements config s a -> stored s = sp_state a.
Proof. intros (_ & Hs & _). unfold stored. rewrite Hs. by destruct (sp_state a). Qed.

Lemma look_refines s a now :
  implements config s a ->
  exists s', step config (Look now) s = (s', Ok tt) /\
    implements config s' (spec_step config (Look now) a) /\
    returns (get_state config now) s = Ok (sp_state (spec_step config (Look now) a)).
Proof.
  intros Hi. pose proof (stored_implements _ _ Hi) as Hst.
  destruct a as [st f g o outs]; simpl in Hst.
  unfold step, returns, get_state, self, assign, modify, mbind, method_bind, mret, method_ret.
  rewrite Hst. destruct st; simpl; [by eauto| |by eauto]. pose proof Hi as Hsame.
  destruct Hi as (Hr & Hs & Hf & Hg & Ho & Hbf & Hbg). simpl in *. subst o.
  unfold cooled. destruct (Z.ltb_spec 0 (opened_at s)); simpl; [|by eexists; split; [reflexivity|]].
  replace (if now <? from_millis (opened_at s) then Duration_ZERO
    else now - from_millis (opened_at s)) with (Z.max 0 (now - from_millis (opened_at s)))
    by (unfold Duration_ZERO; destruct (Z.ltb_spec now (from_millis (opened_at s))); lia).
  destruct (open_duration config <=? _); simpl; [|by eexists; split; [reflexivity|]].
  eexists. split; [reflexivity|]. split; [|done].
  destruct Hr as (? & ? & ? & ?). unfold implements, ring; simpl.
  repeat (split; [done || lia|]). lia.
Qed.

Lemma implements_intro outs s1 s' st f g o :
  ring (failure_rate_window config) outs s1 ->
  recent_calls s' = recent_calls s1 -> call_index s' = call_index s1 ->
  state s' = CircuitState.into_u8 st -> consecutive_failures s' = f ->
  consecutive_successes s' = g -> opened_at s' = o ->
  0 <= f <= Z.of_nat (length outs) -> 0 <= g <= Z.of_nat (length outs) ->
  implements config s' (mk_spec st f g o outs).
Proof.
  unfold implements, ring. simpl. intros (Hl & Hi & Ht & _) -> -> Hs -> -> -> Hf Hg.
  split_and!; try done; try lia; rewrite Hs; by destruct st.
Qed.

Lemma success_refines s a :
  window_fits config -> Z.of_nat (length (sp_calls a)) + 1 < 2 ^ 64 ->
  implements config s a ->
  exists s', step config Success s = (s', Ok tt) /\
    implements config s' (spec_step config Success a).
Proof.
  intros Hw Hn Hi. pose proof (stored_implements _ _ Hi) as Hst.
  destruct a as [st f g o outs]; simpl in Hst, Hn.
  destruct Hi as (Hr & Hs & Hf & Hg & Ho & Hbf & Hbg). simpl in *.
  unfold step, record_success, self, assign, modify, mbind, method_bind.
  destruct (record_call_ring outs (s <| total_calls := u64_add (total_calls s) 1 |>) 1 Hw Hn)
    as (s1 & Hrec & Hring & Hs1); [done|].
  cbn [set] in *. rewrite Hrec.
  assert (stored s1 = st) as -> by (rewrite Hs1; exact Hst).
  assert (consecutive_successes s1 = g) as Hg1 by (rewrite Hs1; exact Hg).
  assert (consecutive_failures s1 = f) as Hf1 by (rewrite Hs1; exact Hf).
  assert (opened_at s1 = o) as Ho1 by (rewrite Hs1; exact Ho).
  assert (state s1 = CircuitState.into_u8 st) as Hst1 by (rewrite Hs1; exact Hs).
  assert (length (outs ++ [1]) = S (length outs)) as Hl
    by (rewrite length_app; simpl; lia).
  rewrite Hg1, u64_add_small by (unfold u64; lia). clear Hrec Hs1.
  destruct st; simpl; [| |destruct (success_threshold config <=? g + 1)];
    eexists; (split; [reflexivity|]); apply (implements_intro _ s1); simpl; try done; lia.
Qed.

Lemma failure_refines s a now1 now2 :
  window_fits config -> Z.of_nat (length (sp_calls a)) + 1 < 2 ^ 64 ->
  implements config s a ->
  exists s', step config (Failure now1 now2) s = (s', Ok tt) /\
    implements config s' (spec_step config (Failure now1 now2) a).
Proof.
  intros Hw Hn Hi. pose proof (stored_implements _ _ Hi) as Hst.
  destruct a as [st f g o outs]; simpl in Hst, Hn.
  destruct Hi as (Hr & Hs & Hf & Hg & Ho & Hbf & Hbg). simpl in *.
  unfold step, record_failure, self, assign, modify, mbind, method_bind.
  destruct (record_call_ring outs
    (s <| total_calls := u64_add (total_calls s) 1 |>
       <| total_failures := u64_add (total_failures s) 1 |>) 0 Hw Hn)
    as (s1 & Hrec & Hring & Hs1); [done|].
  cbn [set] in *. rewrite Hrec.
  assert (stored s1 = st) as -> by (rewrite Hs1; exact Hst).
  assert (consecutive_successes s1 = g) as Hg1 by (rewrite Hs1; exact Hg).
  assert (consecutive_failures s1 = f) as Hf1 by (rewrite Hs1; exact Hf).
  assert (opened_at s1 = o) as Ho1 by (rewrite Hs1; exact Ho).
  assert (state s1 = CircuitState.into_u8 st) as Hst1 by (rewrite Hs1; exact Hs).
  assert (length (outs ++ [0]) = S (length outs)) as Hl
    by (rewrite length_app; simpl; lia).
  rewrite Hf1, u64_add_small by (unfold u64; lia).
  assert (forall now, as_u64 (as_millis (if now <? 0 then Duration_ZERO else now)) = millis now)
    as Hms by (intros now; unfold millis, Duration_ZERO; do 2 f_equal;
               destruct (Z.ltb_spec now 0); lia).
  clear Hrec Hs1. unfold open_circuit, rate_trips.
  unfold assign, modify, mbind, method_bind, mret, method_ret.
  destruct st; simpl.
  - destruct (failure_threshold config <=? f + 1); simpl.
    all: rewrite (failure_rate_ring (outs ++ [0]))
      by (done || (destruct Hring as (? & ? & ? & ?); unfold ring; simpl; split_and!;
                   done || lia)).
    all: destruct (F64.leb _ _); simpl.
    all: eexists; (split; [reflexivity|]); apply (implements_intro _ s1); simpl; try done; lia.
  - eexists; (split; [reflexivity|]); apply (implements_intro _ s1); simpl; try done; lia.
  - eexists; (split; [reflexivity|]); apply (implements_intro _ s1); simpl; try done; lia.
Qed.

Lemma step_refines s a e :
  window_fits config -> Z.of_nat (length (sp_calls a)) + 1 < 2 ^ 64 ->
  implements config s a ->
  exists s', step config e s = (s', Ok tt) /\ implements config s' (spec_step config e a).
Proof.
  intros Hw Hn Hi. destruct e as [now| |now1 now2].
  - destruct (look_refines s a now Hi) as (s' & ? & ? & _). by exists s'.
  - by apply success_refines.
  - by apply failure_refines.
Qed.

Lemma spec_step_calls e a :
  (length (sp_calls (spec_step config e a)) <= S (length (sp_calls a)))%nat.
Proof.
  destruct a as [st f g o outs], e, st; simpl; repeat case_match; simpl;
    rewrite ?length_app; simpl; lia.
Qed.

Lemma run_refines es s a :
  window_fits config -> Z.of_nat (length (sp_calls a)) + Z.of_nat (length es) < 2 ^ 64 ->
  implements config s a ->
  exists s', run config es s = (s', Ok tt) /\ implements config s' (spec_run config es a).
Proof.
  intros Hw. revert s a. induction es as [|e es IH]; intros s a Hn Hi; [by exists s|].
  cbn [length] in Hn. rewrite Nat2Z.inj_succ in Hn.
  destruct (step_refines s a e Hw) as (s1 & He & Hi1); [lia|done|].
  pose proof (spec_step_calls e a) as Hcalls.
  destruct (IH s1 (spec_step config e a) ltac:(lia) Hi1) as (s' & Hr & Hi').
  exists s'. simpl. unfold mbind, method_bind. by rewrite He.
Qed.

Lemma new_implements : window_fits config -> implements config new spec_new.
Proof.
  unfold window_fits. intros Hw. split; [apply ring_new; lia|]. by repeat split.
Qed.

Definition is_failure (e : event) : bool :=
  match e with Failure _ _ => true | _ => false end.

Lemma spec_failures fs a :
  forallb is_failure fs = true -> sp_state a = CircuitState.Closed \/ sp_state a = CircuitState.Open ->
  let a' := spec_run config fs a in
  sp_state a' = CircuitState.Open \/
  (sp_state a' = CircuitState.Closed /\
   (fs = [] \/ sp_failures a + Z.of_nat (length fs) < failure_threshold config)).
Proof.
  revert a. induction fs as [|e fs IH]; intros a Hf Ha; cbn [spec_run fold_left length].
  { destruct Ha as [-> | ->]; auto. }
  simpl in Hf. apply andb_true_iff in Hf as [He Hf].
  destruct e as [now| |now1 now2]; try done. destruct a as [st f g o outs].
  assert (sp_state (spec_step config (Failure now1 now2) (mk_spec st f g o outs)) = CircuitState.Open \/
    (sp_state (spec_step config (Failure now1 now2) (mk_spec st f g o outs)) = CircuitState.Closed /\
     f + 1 < failure_threshold config /\
     sp_failures (spec_step config (Failure now1 now2) (mk_spec st f g o outs)) = f + 1))
    as Hstep.
  { destruct Ha as [Hst|Hst]; simpl in Hst; subst st; simpl; [|by left].
    destruct (rate_trips config (outs ++ [0])); [by left|].
    destruct (Z.leb_spec (failure_threshold config) (f + 1)); [by left|right]. by simpl. }
  destruct Hstep as [Ho|(Hc & Hlt & Hf1)].
  - destruct (IH _ Hf (or_intror Ho)) as [?|(Hcl & Hr)]; [by left|]. exfalso.
    clear -Ho Hcl Hf.
    assert (forall fs b, forallb is_failure fs = true -> sp_state b = CircuitState.Open ->
      sp_state (spec_run config fs b) = CircuitState.Open) as Hopen.
    { clear. induction fs as [|[] fs IH]; intros [] Hf Hb; simpl in *; try done. subst.
      by apply IH. }
    unfold spec_run in *. rewrite (Hopen fs) in Hcl; done.
  - destruct (IH _ Hf (or_introl Hc)) as [?|(Hcl & Hr)]; [by left|right].
    split; [done|right]. cbn [sp_failures]. rewrite Hf1 in Hr.
    destruct Hr as [->|Hr]; simpl in *; lia.
Qed.

(** C37: when the window fits its buffer, the breaker never
    panics, and every history of looks, successes and failures leaves it in the
    state of the abstract breaker, whose failure rate is computed from the last
    calls in the order they were made: the circular buffer, the atomics and
    the lazy transition on a look implement it. *)
Theorem breaker_refines_the_abstract_breaker es now :
  window_fits config -> Z.of_nat (length es) < 2 ^ 64 ->
  exists s, run config es new = (s, Ok tt) /\
    let a := spec_run config es spec_new in
    implements config s a /\ stored s = sp_state a /\
    returns (allow_request config now) s =
      Ok (negb (bool_decide (sp_state (spec_step config (Look now) a) = CircuitState.Open))) /\
    returns (failure_rate config) s =
      Ok (rate_of (failure_rate_window config)
            (failures_in (last_calls (failure_rate_window config) (sp_calls a)))).
Proof.
  intros Hw Hn. destruct (run_refines es new spec_new Hw Hn (new_implements Hw)) as (s & Hr & Hi).
  exists s. split; [done|]. split; [done|]. split; [by apply stored_implements|]. split.
  - destruct (look_refines s _ now Hi) as (_ & _ & _ & Hget).
    unfold returns, allow_request, mbind, method_bind in *.
    destruct (get_state config now s) as [s1 r1]. simpl in Hget. subst r1.
    cbn [snd]. unfold mret, method_ret. simpl.
    by destruct (sp_state (spec_step config (Look now) (spec_run config es spec_new))).
  - unfold returns. erewrite failure_rate_ring; [done|done|]. apply Hi.
Qed.

(** A closed circuit opens after as many consecutive failures
    as its threshold, whatever happened before, and one success in between
    starts the count again. *)
Theorem circuit_opens_after_repeated_failures es fs :
  window_fits config -> Z.of_nat (length (es ++ fs)) < 2 ^ 64 ->
  sp_state (spec_run config es spec_new) = CircuitState.Closed ->
  forallb is_failure fs = true -> fs <> [] ->
  failure_threshold config <= Z.of_nat (length fs) ->
  exists s, run config (es ++ fs) new = (s, Ok tt) /\ stored s = CircuitState.Open.
Proof.
  intros Hw Hn Hc Hf Hne Ht.
  destruct (run_refines (es ++ fs) new spec_new Hw Hn (new_implements Hw)) as (s & Hr & Hi).
  exists s. split; [done|]. rewrite (stored_implements _ _ Hi).
  unfold spec_run in *. rewrite fold_left_app.
  destruct (spec_failures fs (fold_left (fun a e => spec_step config e a) es spec_new) Hf)
    as [?|(_ & [?|Hlt])]; [by left|done|done|].
  destruct (run_refines es new spec_new Hw) as (s1 & _ & Hi1);
    [rewrite length_app in Hn; simpl; lia|by apply new_implements|].
  destruct Hi1 as (_ & _ & _ & _ & _ & Hbf & _). unfold spec_run in Hbf. lia.
Qed.

(** While an open circuit cools down, a request is refused at
    once: the operation is not run, nothing is counted and nothing changes.
    Once the duration has passed the circuit lets the request through, half
    open, with its run of successes back at zero. *)
Theorem open_circuit_fails_fast {T E} s a (operation : unit -> option (result E T))
    now now1 now2 :
  implements config s a -> sp_state a = CircuitState.Open ->
  if cooled config (sp_opened a) now
  then allow_request config now s =
         (s <| state := 2 |> <| consecutive_successes := 0 |>, Ok true)
  else execute config operation now now1 now2 s = (s, Ok (Err ErrOpen)).
Proof.
  intros Hi Ha. pose proof (stored_implements _ _ Hi) as Hst. rewrite Ha in Hst.
  destruct Hi as (_ & _ & _ & _ & Ho & _). rewrite <- Ho. unfold cooled.
  unfold execute, allow_request, get_state, self, assign, modify, mbind, method_bind,
    mret, method_ret. rewrite Hst.
  assert ((if now <? from_millis (opened_at s) then Duration_ZERO
    else now - from_millis (opened_at s)) = Z.max 0 (now - from_millis (opened_at s))) as ->
    by (unfold Duration_ZERO; destruct (Z.ltb_spec now (from_millis (opened_at s))); lia).
  destruct (0 <? opened_at s); simpl; [|done].
  destruct (open_duration config <=? _); done.
Qed.

(** In a half-open circuit one failure opens the circuit
    again, with the time of the failure; and a run of successes closes it
    exactly when it is as long as the success threshold. *)
Theorem half_open_circuit_probes s a n now1 now2 :
  window_fits config -> Z.of_nat (length (sp_calls a)) + Z.of_nat n + 1 < 2 ^ 64 ->
  implements config s a -> sp_state a = CircuitState.HalfOpen -> sp_successes a = 0 ->
  1 <= success_threshold config ->
  (exists s', record_failure config now1 now2 s = (s', Ok tt) /\
     stored s' = CircuitState.Open /\ opened_at s' = millis now1) /\
  (exists s', run config (repeat Success n) s = (s', Ok tt) /\
     stored s' = if success_threshold config <=? Z.of_nat n
                 then CircuitState.Closed else CircuitState.HalfOpen).
Proof.
  intros Hw Hn Hi Ha Hg Ht. split.
  - destruct (failure_refines s a now1 now2 Hw ltac:(lia) Hi) as (s' & Hr & Hi').
    exists s'. split; [done|]. rewrite (stored_implements _ _ Hi').
    destruct Hi' as (_ & _ & _ & _ & Ho & _). rewrite Ho.
    destruct a as [st f g o outs]. simpl in *. by subst.
  - destruct (run_refines (repeat Success n) s a Hw) as (s' & Hr & Hi');
      [rewrite repeat_length; lia|done|].
    exists s'. split; [done|]. rewrite (stored_implements _ _ Hi'). clear -Ha Hg Ht.
    destruct a as [st f g o outs]. simpl in Ha, Hg. subst st g.
    assert (forall k f g outs, 0 <= g ->
      sp_state (spec_run config (repeat Success k) (mk_spec CircuitState.Closed f g o outs))
        = CircuitState.Closed) as Hclosed.
    { induction k as [|k IH]; intros f' g outs' Hg; [done|]. simpl. by apply IH. }
    assert (forall k f g outs, 0 <= g < success_threshold config ->
      sp_state (spec_run config (repeat Success k) (mk_spec CircuitState.HalfOpen f g o outs))
        = if success_threshold config <=? g + Z.of_nat k
          then CircuitState.Closed else CircuitState.HalfOpen) as Hhalf.
    { induction k as [|k IH]; intros f' g outs' Hg.
      - replace (g + Z.of_nat 0) with g by lia.
        destruct (Z.leb_spec (success_threshold config) g); [lia|done].
      - cbn [repeat spec_run fold_left spec_step].
        destruct (Z.leb_spec (success_threshold config) (g + 1)).
        + unfold spec_run in Hclosed. rewrite Hclosed by lia.
          destruct (Z.leb_spec (success_threshold config) (g + Z.of_nat (S k))); [done|lia].
        + unfold spec_run in IH. rewrite IH by lia.
          by replace (g + 1 + Z.of_nat k) with (g + Z.of_nat (S k)) by lia. }
    rewrite Hhalf by lia. by rewrite Z.add_0_l.
Qed.
End breaker_properties.

Import CircuitBreakerConfig CircuitBreaker BreakerHistory.

Example breaker_refines_the_abstract_breaker_witness :
  exists s, run for_saga_consumer [Success; Failure 7 8] new = (s, Ok tt) /\
    returns (failure_rate for_saga_consumer) s = Ok (rate_of 50 1).
Proof.
  destruct (breaker_refines_the_abstract_breaker for_saga_consumer [Success; Failure 7 8] 9)
    as (s & Hr & _ & _ & _ & Hf); [unfold window_fits; simpl; lia|simpl; lia|].
  exists s. split; [exact Hr|]. rewrite Hf. reflexivity.
Defined.

Example circuit_opens_after_repeated_failures_witness :
  exists s, run for_saga_consumer ([Success] ++ repeat (Failure 1000000 1000000) 5) new
    = (s, Ok tt) /\ stored s = CircuitState.Open.
Proof.
  apply (circuit_opens_after_repeated_failures for_saga_consumer [Success]
    (repeat (Failure 1000000 1000000) 5)).
  - unfold window_fits; simpl; lia.
  - simpl; lia.
  - reflexivity.
  - reflexivity.
  - discriminate.
  - simpl; lia.
Defined.

(** A breaker whose circuit opened one millisecond after the epoch, and the
    abstract state it implements. *)
Definition example_open : state_t :=
  after (run for_saga_consumer (repeat (Failure 1000000 1000000) 5)) new.
Definition example_open_spec : spec :=
  spec_run for_saga_consumer (repeat (Failure 1000000 1000000) 5) spec_new.

Example open_circuit_fails_fast_witness :
  execute for_saga_consumer (fun _ => Some (Ok 1 : result Z Z)) 2000000 0 0 example_open
    = (example_open, Ok (Err ErrOpen)) /\
  allow_request for_saga_consumer (from_secs 31) example_open =
    (example_open <| state := 2 |> <| consecutive_successes := 0 |>, Ok true).
Proof.
  assert (implements for_saga_consumer example_open example_open_spec) as Hi.
  { vm_compute. intuition discriminate. }
  split.
  - exact (open_circuit_fails_fast for_saga_consumer example_open example_open_spec
      (fun _ => Some (Ok 1 : result Z Z)) 2000000 0 0 Hi eq_refl).
  - exact (open_circuit_fails_fast for_saga_consumer example_open example_open_spec
      (fun _ => Some (Ok 1 : result Z Z)) (from_secs 31) 0 0 Hi eq_refl).
Defined.

Example half_open_circuit_probes_witness :
  exists s', run for_saga_consumer (repeat Success 2)
      (after (step for_saga_consumer (Look (from_secs 31))) example_open) = (s', Ok tt) /\
    stored s' = CircuitState.Closed.
Proof.
  apply (half_open_circuit_probes for_saga_consumer
    (after (step for_saga_consumer (Look (from_secs 31))) example_open)
    (spec_step for_saga_consumer (Look (from_secs 31)) example_open_spec) 2 0 0).
  - unfold window_fits; simpl; lia.
  - vm_compute. reflexivity.
  - vm_compute. intuition discriminate.
  - reflexivity.
  - reflexivity.
  - simpl; lia.
Defined.

(** The configuration for high throughput asks for a window of
    200 calls but the buffer has 100 cells: the first failure of a closed
    circuit reads past the buffer and panics, before the failure could open the
    circuit, and so does the 101st recorded success. *)
Theorem high_throughput_breaker_panics now1 now2 :
  ~ window_fits high_throughput /\
  returns (record_failure high_throughput now1 now2) new = Err IndexOutOfBounds /\
  returns (run high_throughput (repeat Success 100)) new = Ok tt /\
  returns (run high_throughput (repeat Success 101)) new = Err IndexOutOfBounds.
Proof.
  split; [unfold window_fits; simpl; lia|]. split; [reflexivity|].
  split; vm_compute; reflexivity.
Qed.
