(* ===== verification/Retry.v ===== *)
(** * Retry with exponential backoff ([crates/server/domain/src/saga/retry_policy.rs])

    The policy, its builder, the delay before an attempt and the loop that runs
    an operation until it succeeds, the attempts are used up or the overall
    timeout is reached.  [powf] is the platform's power function, whose
    precision the standard library leaves open; it is a parameter.  The world
    an operation and a sleep act on is a parameter too. *)

From S2P Require Import Prelude Std.
From Stdlib Require Import SpecFloat.

Module RetryPolicy.

(** src: crates/server/domain/src/saga/retry_policy.rs 10-21 RetryPolicy *)
Record t := mk {
  max_attempts : Z;
  initial_delay : Duration;
  max_delay : Duration;
  multiplier : f64;
  jitter_factor : f64;
}.

#[global] Instance t_rebuild : Rebuild t := fun p =>
  mk (max_attempts p) (initial_delay p) (max_delay p) (multiplier p) (jitter_factor p).

(** src: crates/server/domain/src/saga/retry_policy.rs 24-32 RetryPolicy::default *)
Definition default : t := {|
  max_attempts := 3;
  initial_delay := from_millis 100;
  max_delay := from_secs 30;
  multiplier := F64.of_Z 2;
  jitter_factor := F64.lit 1 1;
|}.

(** src: crates/server/domain/src/saga/retry_policy.rs 44-57 RetryPolicy::new *)
Definition new (attempts : Z) (initial max : Duration) (mult : f64) : t := {|
  max_attempts := attempts;
  initial_delay := initial;
  max_delay := max;
  multiplier := mult;
  jitter_factor := F64.lit 1 1;
|}.

(** src: crates/server/domain/src/saga/retry_policy.rs 63-65 RetryPolicy::for_saga_step *)
Definition for_saga_step : t := default.

(** src: crates/server/domain/src/saga/retry_policy.rs 71-79 RetryPolicy::for_compensation *)
Definition for_compensation : t := {|
  max_attempts := 2;
  initial_delay := from_millis 500;
  max_delay := from_secs 60;
  multiplier := F64.of_Z 2;
  jitter_factor := F64.lit 2 1;
|}.

(** src: crates/server/domain/src/saga/retry_policy.rs 85-93 RetryPolicy::for_infrastructure *)
Definition for_infrastructure : t := {|
  max_attempts := 2;
  initial_delay := from_millis 500;
  max_delay := from_secs 60;
  multiplier := F64.of_Z 2;
  jitter_factor := F64.lit 15 2;
|}.

(** src: crates/server/domain/src/saga/retry_policy.rs 125-127 RetryPolicy::should_retry *)
Definition should_retry (p : t) (attempt : Z) : bool := attempt <? max_attempts p.

Section delays.
Context (powf : f64 -> f64 -> f64).

(** [1.0 + ((attempt % 10) as f64 / 10.0 - 0.5) * 2.0 * jitter_factor]. *)
(** src: crates/server/domain/src/saga/retry_policy.rs 114-114 RetryPolicy::delay_for_attempt (jitter) *)
Definition pseudo_jitter (p : t) (attempt : Z) : f64 :=
  F64.add (F64.of_Z 1)
    (F64.mul
       (F64.mul
          (F64.sub (F64.div (F64.of_Z (attempt mod 10)) (F64.of_Z 10)) (F64.lit 5 1))
          (F64.of_Z 2))
       (jitter_factor p)).

(** [None] is the panic of [Duration::from_secs_f64]. *)
(** src: crates/server/domain/src/saga/retry_policy.rs 102-118 RetryPolicy::delay_for_attempt *)
Definition delay_for_attempt (p : t) (attempt : Z) : option Duration :=
  if attempt <=? 1 then Some (initial_delay p)
  else
    let initial := as_secs_f64 (initial_delay p) in
    let delay :=
      F64.mul initial (powf (multiplier p) (F64.sub (F64.of_Z attempt) (F64.of_Z 1))) in
    let delay := F64.min delay (as_secs_f64 (max_delay p)) in
    let delay := F64.mul delay (pseudo_jitter p attempt) in
    from_secs_f64 (F64.max delay initial).

(** The sum over the attempts after the first; [None] is a panic, of a delay or
    of the overflow of the sum. *)
(** src: crates/server/domain/src/saga/retry_policy.rs 137-145 RetryPolicy::max_total_time *)
Definition max_total_time (p : t) : option Duration :=
  fold_left (fun total attempt =>
      total ← total;
      d ← delay_for_attempt p attempt;
      if total + d <? 2 ^ 64 * 1000000000 then Some (total + d) else None)
    (seqZ 2 (max_attempts p - 1)) (Some Duration_ZERO).

End delays.
End RetryPolicy.

Module RetryPolicyBuilder.

(** src: crates/server/domain/src/saga/retry_policy.rs 236-242 RetryPolicyBuilder *)
Record t := mk {
  max_attempts : Z;
  initial_delay : Duration;
  max_delay : Duration;
  multiplier : f64;
  jitter_factor : f64;
}.

#[global] Instance t_rebuild : Rebuild t := fun p =>
  mk (max_attempts p) (initial_delay p) (max_delay p) (multiplier p) (jitter_factor p).

(** src: crates/server/domain/src/saga/retry_policy.rs 245-253 RetryPolicyBuilder::default *)
Definition default : t := {|
  max_attempts := 3;
  initial_delay := from_millis 100;
  max_delay := from_secs 30;
  multiplier := F64.of_Z 2;
  jitter_factor := F64.lit 1 1;
|}.

(** src: crates/server/domain/src/saga/retry_policy.rs 259-261 RetryPolicyBuilder::new *)
Definition new : t := default.

(** src: crates/server/domain/src/saga/retry_policy.rs 265-268 RetryPolicyBuilder::with_max_attempts *)
Definition with_max_attempts (n : Z) (b : t) : t := b <| max_attempts := n |>.

(** src: crates/server/domain/src/saga/retry_policy.rs 272-275 RetryPolicyBuilder::with_initial_delay *)
Definition with_initial_delay (d : Duration) (b : t) : t := b <| initial_delay := d |>.

(** src: crates/server/domain/src/saga/retry_policy.rs 279-282 RetryPolicyBuilder::with_max_delay *)
Definition with_max_delay (d : Duration) (b : t) : t := b <| max_delay := d |>.

(** src: crates/server/domain/src/saga/retry_policy.rs 286-289 RetryPolicyBuilder::with_multiplier *)
Definition with_multiplier (m : f64) (b : t) : t := b <| multiplier := m |>.

(** src: crates/server/domain/src/saga/retry_policy.rs 293-296 RetryPolicyBuilder::with_jitter_factor *)
Definition with_jitter_factor (f : f64) (b : t) : t :=
  b <| jitter_factor := F64.clamp (F64.of_Z 0) (F64.of_Z 1) f |>.

(** src: crates/server/domain/src/saga/retry_policy.rs 300-308 RetryPolicyBuilder::build *)
Definition build (b : t) : RetryPolicy.t := {|
  RetryPolicy.max_attempts := max_attempts b;
  RetryPolicy.initial_delay := initial_delay b;
  RetryPolicy.max_delay := max_delay b;
  RetryPolicy.multiplier := multiplier b;
  RetryPolicy.jitter_factor := jitter_factor b;
|}.

End RetryPolicyBuilder.

(** ** The retry loop *)

Module Retry.

(** src: crates/server/domain/src/saga/retry_policy.rs 150-159 RetryOutcome *)
Inductive RetryOutcome :=
  | Success
  | SuccessAfterRetries (n : Z)
  | Failed
  | TimedOut.

(** How a run of the loop ends. *)
Inductive ending :=
  | Returned (r : result RetryOutcome RetryOutcome)
  | Panicked
  | OutOfFuel.

Section loop.
Context (powf : f64 -> f64 -> f64).
(** The world, its monotonic clock, a sleep and one run of the operation, of
    which the loop only sees whether it returned [Ok]. *)
Context {W : Type} (clock : W -> Duration) (sleep : Duration -> W -> W)
  (execute : W -> W * bool).

(** Whether there is time for the delay; [None] is the panic of [elapsed + delay]
    beyond the range of a duration. *)
(** src: crates/server/domain/src/saga/retry_policy.rs 218-224 execute_with_retry (time) *)
Definition in_time (timeout : option Duration) (elapsed delay : Duration) : option bool :=
  match timeout with
  | None => Some true
  | Some limit => sum ← duration_add elapsed delay; Some (negb (limit <=? sum))
  end.

(** src: crates/server/domain/src/saga/retry_policy.rs 194-231 execute_with_retry (loop) *)
Fixpoint retry_loop (fuel : nat) (policy : RetryPolicy.t) (timeout : option Duration)
    (start : Duration) (attempt : Z) (w : W) : W * ending :=
  match fuel with
  | O => (w, OutOfFuel)
  | S fuel =>
      if match timeout with Some limit => limit <=? clock w - start | None => false end
      then (w, Returned (Err TimedOut))
      else
        let (w, ok) := execute w in
        if ok then
          (w, Returned (Ok (if attempt =? 1 then Success
                            else SuccessAfterRetries (attempt - 1))))
        else if negb (RetryPolicy.should_retry policy attempt) then
          (w, Returned (Err Failed))
        else
          match RetryPolicy.delay_for_attempt powf policy (u32_add attempt 1) with
          | None => (w, Panicked)
          | Some delay =>
              match in_time timeout (clock w - start) delay with
              | None => (w, Panicked)
              | Some false => (w, Returned (Err TimedOut))
              | Some true => retry_loop fuel policy timeout start (u32_add attempt 1) (sleep delay w)
              end
          end
  end.

(** One round of fuel per attempt the policy allows, and one more. *)
(** src: crates/server/domain/src/saga/retry_policy.rs 186-232 execute_with_retry *)
Definition execute_with_retry (policy : RetryPolicy.t) (timeout : option Duration) (w : W) :
    W * ending :=
  retry_loop (S (Z.to_nat (RetryPolicy.max_attempts policy))) policy timeout (clock w) 1 w.

End loop.
End Retry.

(** ** Properties *)

Section retry_properties.
Import Retry.
Context (powf : f64 -> f64 -> f64).
Context {W : Type} (clock : W -> Duration) (sleep : Duration -> W -> W)
  (execute : W -> W * bool).

(** A counter of the executions in the world. *)
Context (executions : W -> Z).
Hypothesis execute_counts : forall w, executions (fst (execute w)) = executions w + 1.
Hypothesis sleep_counts : forall d w, executions (sleep d w) = executions w.

(** What an ending says of the number of executions [n], for a policy that
    allows [max] attempts. *)
Definition explains (max n : Z) (timed : bool) (e : ending) : Prop :=
  match e with
  | Returned (Ok Success) => n = 1
  | Returned (Ok (SuccessAfterRetries k)) => n = k + 1 /\ 1 <= k < max
  | Returned (Err Failed) => n = Z.max 1 max
  | Returned (Err TimedOut) => timed = true /\ 0 <= n <= Z.max 1 max
  | Returned _ => False
  | Panicked => 1 <= n < max
  | OutOfFuel => False
  end.

Lemma retry_loop_explains fuel policy timeout start attempt w :
  RetryPolicy.max_attempts policy < 2 ^ 32 ->
  1 <= attempt <= Z.max 1 (RetryPolicy.max_attempts policy) ->
  Z.max 1 (RetryPolicy.max_attempts policy) - attempt < Z.of_nat fuel ->
  let '(w', e) := retry_loop powf clock sleep execute fuel policy timeout start attempt w in
  explains (RetryPolicy.max_attempts policy) (executions w' - executions w + (attempt - 1))
    (bool_decide (is_Some timeout)) e.
Proof.
  intros Hmax. revert attempt w.
  induction fuel as [|fuel IH]; intros attempt w Ha Hfuel; [lia|]. cbn [retry_loop].
  destruct (match timeout with Some limit => limit <=? clock w - start | None => false end) eqn:Ht1.
  { destruct timeout; [|done]. simpl. lia. }
  pose proof (execute_counts w) as Hexec. destruct (execute w) as [w1 ok]. simpl in Hexec.
  destruct ok.
  { destruct (Z.eqb_spec attempt 1); simpl; lia. }
  unfold RetryPolicy.should_retry.
  destruct (Z.ltb_spec attempt (RetryPolicy.max_attempts policy)) as [Hlt|Hge]; simpl; [|lia].
  assert (u32_add attempt 1 = attempt + 1) as -> by
    (apply u32_add_small; unfold u32; change (2 ^ 32) with 4294967296 in *; lia).
  destruct (RetryPolicy.delay_for_attempt powf policy (attempt + 1)) as [delay|]; simpl; [|lia].
  destruct (in_time timeout (clock w1 - start) delay) as [[]|] eqn:Ht2; simpl; [|destruct timeout; [simpl; lia|done]|lia].
  specialize (IH (attempt + 1) (sleep delay w1) ltac:(lia) ltac:(lia)).
  destruct (retry_loop _ _ _ _ _ _ _ _ _ _) as [w2 e]. rewrite sleep_counts in IH.
  by replace (executions w2 - executions w + (attempt - 1)) with
    (executions w2 - executions w1 + (attempt + 1 - 1)) by lia.
Qed.

(** C39: the retry loop always ends within its fuel, and what it returns
    tells how often the operation ran: once for an immediate success, one more
    time than the retries it reports otherwise, exactly as often as the policy
    allows (at least once) when it gives up, and a timeout is only reported
    when there is one.  It never runs the operation more often than the policy
    allows. *)
Theorem retry_loop_ends_and_counts policy timeout w :
  RetryPolicy.max_attempts policy < 2 ^ 32 ->
  let '(w', e) := execute_with_retry powf clock sleep execute policy timeout w in
  let n := executions w' - executions w in
  e <> OutOfFuel /\
  explains (RetryPolicy.max_attempts policy) n (bool_decide (is_Some timeout)) e /\
  0 <= n <= Z.max 1 (RetryPolicy.max_attempts policy).
Proof.
  intros Hmax. unfold execute_with_retry.
  pose proof (retry_loop_explains (S (Z.to_nat (RetryPolicy.max_attempts policy))) policy
    timeout (clock w) 1 w Hmax ltac:(lia) ltac:(lia)) as He.
  destruct (retry_loop _ _ _ _ _ _ _ _ _ _) as [w' e].
  replace (executions w' - executions w + (1 - 1)) with (executions w' - executions w) in He by lia.
  split_and!; [by destruct e|done| |]; destruct e as [[[]|[]]| |]; simpl in He; try done; lia.
Qed.
End retry_properties.

(** A world that counts executions, keeps a clock, and succeeds at the third
    run; and a power function that is exact on small powers of two. *)
Definition example_world : Type := Z * Duration.
Definition example_execute (w : example_world) : example_world * bool :=
  ((fst w + 1, snd w + 5), fst w =? 2).
Definition example_sleep (d : Duration) (w : example_world) : example_world :=
  (fst w, snd w + d).
Definition example_powf (b e : f64) : f64 :=
  fold_left (fun acc _ => F64.mul acc b) (seqZ 0 (F64.to_i64 e)) (F64.of_Z 1).

Example retry_loop_ends_and_counts_witness :
  Retry.execute_with_retry example_powf snd example_sleep example_execute
    RetryPolicy.default None (0, 0) = ((3, 572000015), Retry.Returned (Ok (Retry.SuccessAfterRetries 2))) /\
  3 - 0 = 2 + 1.
Proof.
  assert (Retry.execute_with_retry example_powf snd example_sleep example_execute
    RetryPolicy.default None (0, 0) =
      ((3, 572000015), Retry.Returned (Ok (Retry.SuccessAfterRetries 2)))) as Hrun
    by (vm_compute; reflexivity).
  split; [exact Hrun|].
  pose proof (retry_loop_ends_and_counts example_powf snd example_sleep example_execute fst
    (fun w => eq_refl) (fun d w => eq_refl) RetryPolicy.default None (0, 0) eq_refl) as H.
  rewrite Hrun in H. exact (proj1 (proj1 (proj2 H))).
Defined.

(** The delay is the initial one for a first attempt, whatever the
    policy; the cap on the exponential delay is applied before the jitter, so
    the delay exceeds the maximum of the policy: with the default policy
    attempt 19 waits 32.4 seconds, although the maximum is 30. The factor of a
    built policy is between 0 and 1, unless it was not a number. *)
Theorem delay_may_exceed_the_maximum powf :
  powf (F64.of_Z 2) (F64.of_Z 18) = F64.of_Z 262144 ->
  (forall p attempt, attempt <= 1 ->
     RetryPolicy.delay_for_attempt powf p attempt = Some (RetryPolicy.initial_delay p)) /\
  RetryPolicy.delay_for_attempt powf RetryPolicy.default 19 = Some (from_millis 32400) /\
  RetryPolicy.max_delay RetryPolicy.default < from_millis 32400 /\
  (forall f b, f <> S754_nan ->
     let j := RetryPolicy.jitter_factor
       (RetryPolicyBuilder.build (RetryPolicyBuilder.with_jitter_factor f b)) in
     F64.leb (F64.of_Z 0) j = true /\ F64.leb j (F64.of_Z 1) = true).
Proof.
  intros Hpow. split_and!.
  - intros p attempt Ha. unfold RetryPolicy.delay_for_attempt.
    by destruct (Z.leb_spec attempt 1); [|lia].
  - unfold RetryPolicy.delay_for_attempt. cbn [Z.leb Z.compare Pos.compare Pos.compare_cont].
    change (F64.sub (F64.of_Z 19) (F64.of_Z 1)) with (F64.of_Z 18).
    change (RetryPolicy.multiplier RetryPolicy.default) with (F64.of_Z 2).
    rewrite Hpow. vm_compute. reflexivity.
  - done.
  - intros f b Hf j. change j with (F64.clamp (F64.of_Z 0) (F64.of_Z 1) f). clear j.
    unfold F64.clamp, F64.ltb, F64.leb.
    destruct (SFltb f (F64.of_Z 0)) eqn:H0; [split; reflexivity|].
    destruct (SFltb (F64.of_Z 1) f) eqn:H1; [split; reflexivity|].
    split; by apply SFltb_false_leb.
Qed.

Example delay_may_exceed_the_maximum_witness :
  example_powf (F64.of_Z 2) (F64.of_Z 18) = F64.of_Z 262144 /\
  RetryPolicy.delay_for_attempt example_powf RetryPolicy.default 19 = Some (from_millis 32400).
Proof.
  assert (example_powf (F64.of_Z 2) (F64.of_Z 18) = F64.of_Z 262144) as Hpow
    by (vm_compute; reflexivity).
  split; [exact Hpow|]. exact (proj1 (proj2 (delay_may_exceed_the_maximum example_powf Hpow))).
Defined.
