(* ===== verification/Commands.v ===== *)
(** * Commands ([crates/server/domain/src/command/mod.rs], [error.rs], and the
    retry configuration of [middleware/mod.rs])

    The values the command buses of [CommandBus.v] pass around: targets and
    metadata of a command, the errors of a dispatch with their classification,
    and the backoff between two tries. *)

From S2P Require Import Prelude Std Externs.
From Stdlib Require Import SpecFloat.

Module CommandTargetType.

(** src: crates/server/domain/src/command/mod.rs 14-19 CommandTargetType *)
Inductive t := Job | Worker | Provider | Saga.

#[global] Instance t_eq_dec : EqDecision t.
Proof. solve_decision. Defined.

(** src: crates/server/domain/src/command/mod.rs 21-30 impl Display for CommandTargetType *)
Definition fmt (c : t) : string :=
  match c with
  | Job => "JOB"
  | Worker => "WORKER"
  | Provider => "PROVIDER"
  | Saga => "SAGA"
  end.

(** src: crates/server/domain/src/command/mod.rs 32-44 impl FromStr for CommandTargetType *)
Definition from_str (s : string) : result unit t :=
  if String.eqb s "JOB" then Ok Job
  else if String.eqb s "WORKER" then Ok Worker
  else if String.eqb s "PROVIDER" then Ok Provider
  else if String.eqb s "SAGA" then Ok Saga
  else Err tt.

End CommandTargetType.

Module CommandMetadataDefault.
Section command_metadata.
Context `{E : Externs}.

(** src: crates/server/domain/src/command/mod.rs 57-62 CommandMetadataDefault *)
Record t := mk {
  trace_id : option string;
  saga_id : option string;
  created_at : option DateTime;
  issuer : option string;
}.

#[global] Instance t_rebuild : Rebuild t := fun m =>
  mk (trace_id m) (saga_id m) (created_at m) (issuer m).

#[global] Instance t_eq_dec : EqDecision t.
Proof. solve_decision. Defined.

(** [fresh] is the identifier of [Uuid::new_v4()]. *)
(** src: crates/server/domain/src/command/mod.rs 83-90 CommandMetadataDefault::new *)
Definition new (fresh : Uuid) (now : DateTime) : t :=
  mk (Some (uuid_to_string fresh)) None (Some now) None.

(** src: crates/server/domain/src/command/mod.rs 92-99 CommandMetadataDefault::with_trace_id *)
Definition with_trace_id (trace : string) (now : DateTime) : t :=
  mk (Some trace) None (Some now) None.

(** src: crates/server/domain/src/command/mod.rs 101-104 CommandMetadataDefault::with_saga_id *)
Definition with_saga_id (saga : string) (m : t) : t := m <| saga_id := Some saga |>.

(** src: crates/server/domain/src/command/mod.rs 106-109 CommandMetadataDefault::with_issuer *)
Definition with_issuer (who : string) (m : t) : t := m <| issuer := Some who |>.

End command_metadata.
End CommandMetadataDefault.

Module CommandError.
Section command_error.
Context `{E : Externs}.

(** src: crates/server/domain/src/command/error.rs 17-113 CommandError *)
Inductive t :=
  | HandlerNotFound (command_type : string)
  | HandlerError (command_type error : string)
  | ValidationFailed (message : string)
  | ExecutionFailed (message : string)
  | IdempotencyConflict (key : string)
  | HandlerPanicked (command_type : string)
  | ChannelClosed
  | Timeout (duration : Duration)
  | Transient (message : string)
  | NotFound (resource_type resource_id : string)
  | PermissionDenied (message : string)
  | TypeMismatch (expected actual : string)
  | OutboxError (command_type error : string).

(** The messages of the [#[error]] attributes. *)
(** src: crates/server/domain/src/command/error.rs 16-113 Display for CommandError *)
Definition fmt (e : t) : string :=
  match e with
  | HandlerNotFound ty => "Handler not found for command type: " +:+ ty
  | HandlerError ty error => "Handler error for " +:+ ty +:+ ": " +:+ error
  | ValidationFailed message => "Command validation failed: " +:+ message
  | ExecutionFailed message => "Command execution failed: " +:+ message
  | IdempotencyConflict key =>
      "Command already processed (idempotency conflict): " +:+ key
  | HandlerPanicked ty => "Handler panicked during command execution: " +:+ ty
  | ChannelClosed => "Command bus channel closed"
  | Timeout duration => "Command execution timed out after " +:+ duration_debug duration
  | Transient message => "Transient error: " +:+ message
  | NotFound ty i => "Resource not found: " +:+ ty +:+ "/" +:+ i
  | PermissionDenied message => "Permission denied: " +:+ message
  | TypeMismatch expected actual =>
      "Type mismatch: expected " +:+ expected +:+ ", got " +:+ actual
  | OutboxError ty error => "Outbox error for " +:+ ty +:+ ": " +:+ error
  end.

(** src: crates/server/domain/src/command/error.rs 117-123 CommandError::command_type *)
Definition command_type (e : t) : option string :=
  match e with
  | HandlerNotFound ty | HandlerPanicked ty => Some ty
  | _ => None
  end.

(** src: crates/server/domain/src/command/error.rs 139-144 CommandError::is_transient (message) *)
Definition mentions_transient_issue (message : string) : bool :=
  let lower := to_lowercase message in
  str_contains "timeout" lower || str_contains "connection" lower
  || str_contains "temporary" lower || str_contains "busy" lower
  || str_contains "unavailable" lower.

(** src: crates/server/domain/src/command/error.rs 132-157 CommandError::is_transient *)
Definition is_transient (e : t) : bool :=
  match e with
  | Timeout _ | ChannelClosed | Transient _ => true
  | HandlerError _ error => mentions_transient_issue error
  | ExecutionFailed message => mentions_transient_issue message
  | _ => false
  end.

(** src: crates/server/domain/src/command/error.rs 164-166 CommandError::is_validation *)
Definition is_validation (e : t) : bool :=
  match e with ValidationFailed _ => true | _ => false end.

(** src: crates/server/domain/src/command/error.rs 173-180 CommandError::is_permanent *)
Definition is_permanent (e : t) : bool :=
  match e with NotFound _ _ | PermissionDenied _ | IdempotencyConflict _ => true | _ => false end.

(** [source] is the message of the [anyhow::Error]. *)
(** src: crates/server/domain/src/command/error.rs 184-188 CommandError::from_anyhow *)
Definition from_anyhow (source : string) : t := ExecutionFailed source.

(** src: crates/server/domain/src/command/error.rs 194-202 CommandError::into_transient *)
Definition into_transient (e : t) : t :=
  if is_transient e then e
  else
    match e with
    | ExecutionFailed message => Transient message
    | _ => Transient (fmt e)
    end.

End command_error.
End CommandError.

(** ** Backoff *)

Module RetryConfig.
Section retry_config.
Context `{E : Externs}.

(** src: crates/server/domain/src/command/middleware/mod.rs 20-31 RetryConfig *)
Record t := mk {
  max_retries : Z;
  base_delay : Duration;
  max_delay : Duration;
  retry_transient_only : bool;
  jitter : f64;
}.

#[global] Instance t_rebuild : Rebuild t := fun c =>
  mk (max_retries c) (base_delay c) (max_delay c) (retry_transient_only c) (jitter c).

(** src: crates/server/domain/src/command/middleware/mod.rs 34-42 RetryConfig::default *)
Definition default : t := mk 3 (from_millis 100) (from_secs 10) true (F64.lit 1 1).

(** src: crates/server/domain/src/command/middleware/mod.rs 48-56 RetryConfig::new *)
Definition new (retries : Z) (base : Duration) : t :=
  mk retries base (from_secs 10) true (F64.lit 1 1).

(** src: crates/server/domain/src/command/middleware/mod.rs 60-62 RetryConfig::transient *)
Definition transient : t := default.

(** src: crates/server/domain/src/command/middleware/mod.rs 66-74 RetryConfig::all *)
Definition all : t := mk 3 (from_millis 100) (from_secs 10) false (F64.lit 1 1).

(** src: crates/server/domain/src/command/middleware/mod.rs 78-81 RetryConfig::with_max_delay *)
Definition with_max_delay (d : Duration) (c : t) : t := c <| max_delay := d |>.

(** src: crates/server/domain/src/command/middleware/mod.rs 85-88 RetryConfig::with_jitter *)
Definition with_jitter (j : f64) (c : t) : t :=
  c <| jitter := F64.clamp (F64.of_Z 0) (F64.of_Z 1) j |>.

(** src: crates/server/domain/src/command/middleware/mod.rs 92-98 RetryConfig::should_retry *)
Definition should_retry (c : t) (e : CommandError.t) : bool :=
  if retry_transient_only c then CommandError.is_transient e
  else negb (CommandError.is_validation e).

(** [powi] is the platform's integer power, whose precision the standard
    library leaves open.  [None] is a panic: of [mul_f64] on a product that is
    no duration, of the remainder by zero, or of the overflow of the sum. *)
(** src: crates/server/domain/src/command/middleware/mod.rs 102-117 RetryConfig::delay_for_attempt *)
Definition delay_for_attempt (powi : f64 -> Z -> f64) (c : t) (attempt : Z) :
    option Duration :=
  delay ← mul_f64 (base_delay c) (powi (F64.of_Z 2) (as_i32 attempt));
  let delay := Z.min delay (max_delay c) in
  if F64.ltb (F64.of_Z 0) (jitter c) then
    jitter_amount ← mul_f64 delay (jitter c);
    let seed := wrap 64 (attempt * 0x9e3779b97f4a7c15) in
    let modulus := as_u64 jitter_amount in
    if modulus =? 0 then None
    else
      let total := delay + seed mod modulus in
      if total <? 2 ^ 64 * 1000000000 then Some total else None
  else Some delay.

End retry_config.
End RetryConfig.

(** ** Properties *)

Section backoff.
Context `{E : Externs}.

Lemma delay_for_attempt_exact powi c a x :
  powi (F64.of_Z 2) (as_i32 a) = x ->
  RetryConfig.delay_for_attempt powi c a = RetryConfig.delay_for_attempt (fun _ _ => x) c a.
Proof. intros Hx. unfold RetryConfig.delay_for_attempt. by rewrite Hx. Qed.

(** The attempts [0 .. n - 1] of the default configuration, with exact powers. *)
Definition within_limits (n : Z) : bool :=
  forallb (fun a =>
    match RetryConfig.delay_for_attempt
            (fun _ _ => binary_normalize F64.prec F64.emax 1 a false) RetryConfig.default a with
    | Some d =>
        (Z.min (2 ^ a * 100000000) 10000000000 <=? d)
        && (d <? 11 * Z.min (2 ^ a * 10000000) 1000000000)
    | None => false
    end) (seqZ 0 n).

(** With the default configuration of the retry layer, and
    a platform whose powers of two are exact, the delay before each of the
    first 68 retries lies between the capped exponential delay and that delay
    and a tenth of it: the jitter is added after the cap, so the delay is never
    below the configured maximum once the maximum is reached.  A configuration
    that allows a 69th retry panics there: the exponential delay overflows
    before it is capped.  A base delay of zero panics at the first retry, in a
    remainder by zero. *)
Theorem command_backoff_bounds powi :
  (forall a, 0 <= a < 1024 ->
     powi (F64.of_Z 2) a = binary_normalize F64.prec F64.emax 1 a false) ->
  (forall a, 0 <= a < 68 -> exists d,
     RetryConfig.delay_for_attempt powi RetryConfig.default a = Some d /\
     Z.min (2 ^ a * from_millis 100) (from_secs 10) <= d /\
     10 * d < 11 * Z.min (2 ^ a * from_millis 100) (from_secs 10)) /\
  (forall n, RetryConfig.delay_for_attempt powi (RetryConfig.new n (from_millis 100)) 68 = None) /\
  (forall n, RetryConfig.delay_for_attempt powi (RetryConfig.new n Duration_ZERO) 0 = None).
Proof.
  intros Hpow. split_and!.
  - intros a Ha.
    assert (within_limits 68 = true) as Hall by (vm_compute; reflexivity).
    unfold within_limits in Hall. rewrite forallb_forall in Hall.
    specialize (Hall a ltac:(apply list_elem_of_In, elem_of_seqZ; lia)).
    rewrite (delay_for_attempt_exact powi _ a (binary_normalize F64.prec F64.emax 1 a false)).
    2:{ unfold as_i32. rewrite Z.mod_small by lia. rewrite Z.add_simpl_r. apply Hpow. lia. }
    destruct (RetryConfig.delay_for_attempt _ _ _) as [d|] eqn:Hd; [|discriminate].
    exists d. unfold from_millis, from_secs. split; [done|]. lia.
  - intros n. rewrite (delay_for_attempt_exact powi _ 68 _ (Hpow 68 ltac:(lia))).
    by vm_compute.
  - intros n. rewrite (delay_for_attempt_exact powi _ 0 _ (Hpow 0 ltac:(lia))).
    by vm_compute.
Qed.

End backoff.

(** A power function that is exact on powers of two. *)
Definition example_powi (base : f64) (e : Z) : f64 :=
  binary_normalize F64.prec F64.emax 1 e false.

Example command_backoff_bounds_witness :
  exists d, RetryConfig.delay_for_attempt example_powi RetryConfig.default 3 = Some d /\
    from_millis 800 <= d.
Proof.
  destruct (proj1 (command_backoff_bounds example_powi (fun a _ => eq_refl)) 3 ltac:(lia))
    as (d & Hd & Hlow & _).
  exists d. by split.
Defined.
