(* ===== verification/CommandBus.v ===== *)
(** * Command buses ([crates/server/domain/src/command]: [mod.rs], [registry.rs],
    [erased.rs], [bus.rs], [idempotency.rs] and [middleware/mod.rs])

    A bus finds the handler of a command by the type of the command.  The two
    buses erase that type: a handler is stored as [dyn Any] or [dyn AnyHandler]
    under a [TypeId], and commands and outputs travel as [Box<dyn Any>].  The
    types of the program are a universe of codes ([CommandTypes]): an [Any] is a
    code with a value of its denotation, a downcast compares codes.

    A handler is an object of the program that owns or uses the bus; it acts on
    the whole state, the bus included, so a handler that dispatches again is a
    possible one.  The model follows one task: a [Mutex] is a flag, and a task
    that locks what it holds is [Blocked]. *)

From S2P Require Import Prelude Effects Std Externs Commands.
From Stdlib Require Import Eqdep_dec.

(** The types of the program, as far as [std::any] sees them, and the trait
    [Command]: a type implements it at most once, so [Self] is injective. *)
(** src: crates/server/domain/src/command/mod.rs 115-137 Command *)
Class CommandTypes := {
  TypeId : Type;
  TypeId_eq_dec :: EqDecision TypeId;
  TypeId_countable :: Countable TypeId;
  denote : TypeId -> Type;
  type_name : TypeId -> string;
  type_id_debug : TypeId -> string;
  Cmd : Type;
  Cmd_eq_dec :: EqDecision Cmd;
  Self : Cmd -> TypeId;
  Self_inj :: Inj (=) (=) Self;
  Output : Cmd -> TypeId;
  idempotency_key : forall C, denote (Self C) -> string;
  target_type : forall C, denote (Self C) -> CommandTargetType.t;
  command_name : forall C, denote (Self C) -> string;
}.

(** The methods a command type need not implement. *)
(** src: crates/server/domain/src/command/mod.rs 125-127 Command::target_type *)
Definition default_target_type : CommandTargetType.t := CommandTargetType.Saga.
(** src: crates/server/domain/src/command/mod.rs 131-136 Command::command_name *)
Definition default_command_name (full_type_name : string) : string :=
  default full_type_name (last (str_split "::" full_type_name)).

Section command_bus.
Context `{E : Externs} `{T : CommandTypes}.

(** ** [Box<dyn Any>] *)

Definition Any : Type := { ty : TypeId & denote ty }.

Definition box {ty : TypeId} (v : denote ty) : Any := existT ty v.

(** [value.downcast::<ty>()] *)
Definition downcast (ty : TypeId) (v : Any) : option (denote ty) :=
  match decide (projT1 v = ty) with
  | left eq => Some (eq_rect _ denote (projT2 v) _ eq)
  | right _ => None
  end.

Lemma downcast_box ty (v : denote ty) : downcast ty (box v) = Some v.
Proof.
  unfold downcast, box. simpl. destruct (decide (ty = ty)) as [eq|]; [|done].
  by rewrite (UIP_dec (decide_rel (=)) eq eq_refl).
Qed.

(** ** Handlers

    The trait [CommandHandler<C>]: its objects, the type of their errors with
    its [Debug], and [handle], on the state [S]. *)
(** src: crates/server/domain/src/command/mod.rs 141-147 CommandHandler *)
Class CommandHandlers (Handler : Cmd -> Type) (S : Type) := {
  HandlerFailure : forall {C}, Handler C -> Type;
  failure_debug : forall {C} {h : Handler C}, HandlerFailure h -> string;
  handle : forall {C} (h : Handler C), denote (Self C) ->
    method S (exn (HandlerFailure h)) (denote (Output C));
}.

(** The trait [CommandBus], whose methods are generic in the command. *)
(** src: crates/server/domain/src/command/mod.rs 151-160 CommandBus *)
Record CommandBus (Handler : Cmd -> Type) (S : Type) := {
  dispatch : forall C, denote (Self C) -> method S (exn CommandError.t) (denote (Output C));
  register_handler : forall C, Handler C -> method S (exn CommandError.t) unit;
}.

(** The object-safe trait. *)
(** src: crates/server/domain/src/command/erased.rs 20-30 ErasedCommandBus *)
Class ErasedCommandBus (S : Type) := {
  dispatch_any : Any -> TypeId -> string -> CommandTargetType.t ->
    method S (exn CommandError.t) Any;
}.

(** src: crates/server/domain/src/command/erased.rs 220-238 dispatch_erased *)
Definition dispatch_erased {S} `{!ErasedCommandBus S} (C : Cmd) (command : denote (Self C)) :
    method S (exn CommandError.t) (denote (Output C)) :=
  answer ← dispatch_any (box command) (Self C) (command_name C command) (target_type C command);
  match downcast (Output C) answer with
  | Some v => mret v
  | None =>
      throw (Error (CommandError.TypeMismatch (type_name (Output C)) "downcast failed"))
  end.

End command_bus.
Arguments dispatch {T Handler S} _ C _.
Arguments register_handler {T Handler S} _ C _.

(** ** The erased bus ([erased.rs]) *)

Module InMemoryErasedCommandBus.
Section erased_bus.
Context `{T : CommandTypes} {Handler : Cmd -> Type} {W : Type}.

(** [HandlerWrapper<C, H>] as an [Arc<dyn AnyHandler>]. *)
(** src: crates/server/domain/src/command/erased.rs 44-47 HandlerWrapper *)
Record HandlerWrapper := Wrap { for_type : Cmd; handler : Handler for_type }.

(** The map, whether the mutex around it is held, and the rest of the world. *)
(** src: crates/server/domain/src/command/erased.rs 88-90 InMemoryErasedCommandBus *)
Record t := mk {
  dispatchers : gmap TypeId HandlerWrapper;
  locked : bool;
  world : W;
}.

#[global] Instance t_rebuild : Rebuild t := fun b => mk (dispatchers b) (locked b) (world b).

(** src: crates/server/domain/src/command/erased.rs 105-109 InMemoryErasedCommandBus::new *)
Definition new (w : W) : t := mk ∅ false w.

(** [self.dispatchers.lock().await], of which the guard lives to the end of the
    method. *)
Definition with_lock {F X} (body : method t (exn F) X) : method t (exn F) X :=
  b ← self;
  if locked b then throw Blocked
  else
    modify (fun b => b <| locked := true |>);;
    finally body (fun b => b <| locked := false |>).

(** src: crates/server/domain/src/command/erased.rs 112-129 InMemoryErasedCommandBus::register *)
Definition register {F} (C : Cmd) (h : Handler C) : method t (exn F) unit :=
  with_lock (modify (fun b => b <| dispatchers := <[Self C := Wrap C h]> (dispatchers b) |>)).

Context `{!CommandHandlers Handler t}.

(** src: crates/server/domain/src/command/erased.rs 60-83 HandlerWrapper::handle_any *)
Definition handle_any (w : HandlerWrapper) (command : Any) :
    method t (exn CommandError.t) Any :=
  let 'Wrap C h := w in
  command ← or_error id
    (ok_or (downcast (Self C) command)
       (CommandError.TypeMismatch (type_name (Self C)) "command type mismatch"));
  answer ← catch (handle h command);
  answer ← or_error (fun e => CommandError.HandlerError (type_name (Self C)) (failure_debug e))
    answer;
  mret (box answer).

(** src: crates/server/domain/src/command/erased.rs 158-198 InMemoryErasedCommandBus::dispatch_erased *)
Definition dispatch_erased (command : Any) (command_type_id : TypeId)
    (_command_name : string) (_target_type : CommandTargetType.t) :
    method t (exn CommandError.t) Any :=
  with_lock
    (b ← self;
     handler ← or_error id
       (ok_or (dispatchers b !! command_type_id)
          (CommandError.HandlerNotFound ("type_id=" +:+ type_id_debug command_type_id)));
     handle_any handler command).

#[global] Instance erased : ErasedCommandBus t := {| dispatch_any := dispatch_erased |}.

(** src: crates/server/domain/src/command/erased.rs 132-147 InMemoryErasedCommandBus::dispatch *)
Definition dispatch (C : Cmd) (command : denote (Self C)) :
    method t (exn CommandError.t) (denote (Output C)) :=
  let name := command_name C command in
  let target := target_type C command in
  answer ← dispatch_erased (box command) (Self C) name target;
  or_error id
    (ok_or (downcast (Output C) answer)
       (CommandError.TypeMismatch (type_name (Output C)) "downcast failed")).

End erased_bus.
End InMemoryErasedCommandBus.
Arguments InMemoryErasedCommandBus.t {T} Handler W.
Arguments InMemoryErasedCommandBus.HandlerWrapper {T} Handler.
Arguments InMemoryErasedCommandBus.Wrap {T Handler} for_type handler.

Section erased_bus_properties.
Context `{T : CommandTypes} {Handler : Cmd -> Type} {W : Type}.
Abbreviation bus := (InMemoryErasedCommandBus.t Handler W).
Context `{!CommandHandlers Handler bus}.
Import InMemoryErasedCommandBus.

(** What a stored handler is for commands of type [C]. *)
Definition as_handler (C : Cmd) (w : HandlerWrapper Handler) : option (Handler C) :=
  match decide (for_type w = C) with
  | left eq => Some (eq_rect _ Handler (handler w) _ eq)
  | right _ => None
  end.

Lemma as_handler_self C h : as_handler C (Wrap C h) = Some h.
Proof.
  unfold as_handler. simpl. destruct (decide (C = C)) as [eq|]; [|done].
  by rewrite (UIP_dec (decide_rel (=)) eq eq_refl).
Qed.

Lemma as_handler_Some C w h : as_handler C w = Some h -> w = Wrap C h.
Proof.
  unfold as_handler. destruct w as [C' h']. simpl. destruct (decide (C' = C)) as [->|]; [|done].
  by intros [= <-].
Qed.

Lemma as_handler_other C C' h : C <> C' -> as_handler C (Wrap C' h) = None.
Proof. unfold as_handler. simpl. intros ?. by destruct (decide (C' = C)) as [->|]. Qed.

(** The handlers registered in the order of [regs], and the one that counts for
    [C]: the last. *)
Fixpoint register_all (regs : list (HandlerWrapper Handler)) : method bus (exn unit) unit :=
  match regs with
  | [] => mret tt
  | Wrap C h :: regs => register (Handler := Handler) C h;; register_all regs
  end.

Definition last_registered (C : Cmd) (regs : list (HandlerWrapper Handler)) : option (Handler C) :=
  fold_left (fun found w => match as_handler C w with Some h => Some h | None => found end)
    regs None.

(** What the caller of [dispatch] sees of how the handler ended. *)
Definition outcome {C} {h : Handler C} (r : result (exn (HandlerFailure h)) (denote (Output C))) :
    result (exn CommandError.t) (denote (Output C)) :=
  match r with
  | Ok v => Ok v
  | Err (Error e) => Err (Error (CommandError.HandlerError (type_name (Self C)) (failure_debug e)))
  | Err Panicked => Err Panicked
  | Err Blocked => Err Blocked
  | Err OutOfFuel => Err OutOfFuel
  end.

(** Every handler is stored under the type of its commands. *)
Definition well_typed (b : bus) : Prop :=
  forall i w, dispatchers b !! i = Some w -> i = Self (for_type w).

Definition find_handler (C : Cmd) (b : bus) : option (Handler C) :=
  dispatchers b !! Self C ≫= as_handler C.

Lemma run_register {F} C h (b : bus) :
  locked b = false ->
  register (F := F) C h b =
    (b <| dispatchers := <[Self C := Wrap C h]> (dispatchers b) |> <| locked := false |>, Ok tt).
Proof. intros Hb. unfold register, with_lock. run_method. by rewrite Hb. Qed.

Lemma register_well_typed {F} C h (b : bus) :
  locked b = false -> well_typed b ->
  let b' := after (register (F := F) C h) b in
  locked b' = false /\ well_typed b' /\
  forall C', find_handler C' b' = match as_handler C' (Wrap C h) with
                                  | Some h' => Some h' | None => find_handler C' b end.
Proof.
  intros Hl Hb. unfold after. rewrite run_register by done. simpl. split; [done|]. split.
  - intros i w. simpl. rewrite lookup_insert_Some. intros [[<- <-]|[_ ?]]; [done|by apply Hb].
  - intros C'. unfold find_handler. simpl. destruct (decide (C' = C)) as [->|Hne].
    + by rewrite lookup_insert_eq, as_handler_self; simpl; rewrite as_handler_self.
    + rewrite lookup_insert_ne by (intros ?%Self_inj; congruence).
      by rewrite as_handler_other by done.
Qed.

Lemma register_all_well_typed regs (b : bus) :
  locked b = false -> well_typed b ->
  let b' := after (register_all regs) b in
  locked b' = false /\ well_typed b' /\
  forall C, find_handler C b' =
    fold_left (fun found w => match as_handler C w with Some h => Some h | None => found end)
      regs (find_handler C b).
Proof.
  revert b. induction regs as [|[C h] regs IH]; intros b Hl Hb; [done|].
  destruct (register_well_typed (F := unit) C h b Hl Hb) as (Hl' & Hb' & Hf).
  assert (after (register_all (Wrap C h :: regs)) b =
    after (register_all regs) (after (register (F := unit) C h) b)) as Heq.
  { unfold after. cbn [register_all]. unfold mbind, method_bind. by rewrite run_register. }
  cbv zeta. rewrite Heq. destruct (IH _ Hl' Hb') as (? & ? & Hfs). split; [done|]. split; [done|].
  intros C'. by rewrite Hfs, Hf.
Qed.

Lemma well_typed_new w : locked (new w : bus) = false /\ well_typed (new w).
Proof. split; [done|]. intros i w'. simpl. by rewrite lookup_empty. Qed.

Lemma run_handle_any C (h : Handler C) command (b : bus) :
  handle_any (Wrap C h) (box command) b =
    let (b', r) := handle h command b in (b', box <$> outcome r).
Proof.
  unfold handle_any. rewrite downcast_box. simpl.
  unfold catch, or_error, lift. run_method.
  by destruct (handle h command b) as [b' [v|[e| | |]]].
Qed.

(** The bus of a task that does not hold its lock runs the handler it finds,
    with the lock held. *)
Lemma run_dispatch C command (b : bus) :
  locked b = false -> well_typed b ->
  dispatch C command b =
    match find_handler C b with
    | None =>
        (b, Err (Error (CommandError.HandlerNotFound ("type_id=" +:+ type_id_debug (Self C)))))
    | Some h =>
        let (b', r) := handle h command (b <| locked := true |>) in
        (b' <| locked := false |>, outcome r)
    end.
Proof.
  intros Hl Hb. unfold dispatch, dispatch_erased, with_lock, find_handler.
  destruct b as [ds l w]. simpl in Hl. subst l. run_method. unfold finally, or_error, lift. simpl.
  destruct (ds !! Self C) as [[C' h]|] eqn:Hd; [|done].
  cbn [ok_or map_err].
  assert (C' = C) as -> by (symmetry; apply Self_inj, (Hb _ _ Hd)).
  cbn [mbind option_bind]. rewrite as_handler_self, run_handle_any. simpl.
  destruct (handle h command _) as [b' [v|[e| | |]]]; simpl; [|done..].
  by rewrite downcast_box.
Qed.

Lemma dispatch_erased_dispatch C command (b : bus) :
  CommandBus.dispatch_erased C command b = dispatch C command b.
Proof.
  unfold dispatch, CommandBus.dispatch_erased, dispatch_any, erased. unfold mbind, method_bind.
  destruct (dispatch_erased _ _ _ _ b) as [b' [answer|]]; [|done].
  unfold or_error, lift. by destruct (downcast _ answer).
Qed.

(** Dispatching through the erased bus is type safe.  Whatever
    handlers were registered, in whatever order, a command runs exactly the
    handler that was registered last for its type, on its own value, and the
    caller gets exactly the handler's output, at its type, or its error as a
    [HandlerError]; a command of a type nothing was registered for is answered
    with [HandlerNotFound].  No downcast ever fails, neither the handler's nor
    the caller's, so [TypeMismatch] is never returned; and [dispatch] and the
    free function [dispatch_erased] on the trait object agree. *)
Theorem erased_bus_is_type_safe w regs C command :
  let b := after (register_all regs) (new w) in
  dispatch C command b =
    match last_registered C regs with
    | None =>
        (b, Err (Error (CommandError.HandlerNotFound ("type_id=" +:+ type_id_debug (Self C)))))
    | Some h =>
        let (b', r) := handle h command (b <| locked := true |>) in
        (b' <| locked := false |>, outcome r)
    end /\
  CommandBus.dispatch_erased C command b = dispatch C command b /\
  forall expected actual,
    returns (dispatch C command) b <> Err (Error (CommandError.TypeMismatch expected actual)).
Proof.
  destruct (well_typed_new w) as [Hl0 Hb0].
  destruct (register_all_well_typed regs _ Hl0 Hb0) as (Hl & Hb & Hf).
  intros b. fold b in Hl, Hb, Hf. specialize (Hf C).
  pose proof (run_dispatch C command b Hl Hb) as Hrun. rewrite Hf in Hrun.
  split_and!; [done|apply dispatch_erased_dispatch|].
  intros x y. unfold returns. rewrite Hrun. case_match; [|done].
  by destruct (handle _ command _) as [b' [v|[e| | |]]].
Qed.

(** A handler that dispatches on the bus that runs it waits for the lock its
    own task holds. *)
Lemma locked_dispatch C command (b : bus) :
  locked b = true -> dispatch C command b = (b, Err Blocked).
Proof.
  intros Hl. unfold dispatch, dispatch_erased, with_lock. run_method. by rewrite Hl.
Qed.

Lemma nested_dispatch_blocks (b : bus) C (h : Handler C) command C' command' :
  locked b = false -> well_typed b -> find_handler C b = Some h ->
  (forall b, exists k, handle h command b = (r ← catch (dispatch C' command'); k r) b) ->
  returns (dispatch C command) b = Err Blocked.
Proof.
  intros Hl Hb Hf Hh. unfold returns. rewrite run_dispatch, Hf by done.
  destruct (Hh (b <| locked := true |>)) as [k ->].
  unfold mbind, method_bind, catch. by rewrite locked_dispatch.
Qed.

End erased_bus_properties.

(** ** The first bus ([registry.rs], [bus.rs])

    A handler is stored as the [Any] behind an [Arc] of its own type [H]; the
    dispatch asks for an [Arc] of the trait object [dyn CommandHandler<C>].  The
    two are different types, since [H] is [Sized]: an [Arc<H>] is [Concrete], and
    only a [Dynamic] would pass the downcast. *)

Module HandlerRegistry.
Section registry.
Context `{T : CommandTypes} {Handler : Cmd -> Type}.

Inductive stored :=
  | Concrete (C : Cmd) (h : Handler C)
  | Dynamic (C : Cmd) (h : Handler C).

(** [downcast_ref::<Arc<dyn CommandHandler<C, Error = anyhow::Error>>>()] *)
Definition downcast_dynamic (C : Cmd) (s : stored) : option (Handler C) :=
  match s with
  | Concrete _ _ => None
  | Dynamic C' h =>
      match decide (C' = C) with
      | left eq => Some (eq_rect _ Handler h _ eq)
      | right _ => None
      end
  end.

(** src: crates/server/domain/src/command/registry.rs 10-12 HandlerRegistry *)
Definition t : Type := gmap TypeId stored.

(** src: crates/server/domain/src/command/registry.rs 15-19 HandlerRegistry::new *)
Definition new : t := ∅.

(** src: crates/server/domain/src/command/registry.rs 29-36 HandlerRegistry::insert *)
Definition insert (C : Cmd) (h : Handler C) (r : t) : t := <[Self C := Concrete C h]> r.

(** src: crates/server/domain/src/command/registry.rs 21-26 HandlerRegistry::register *)
Definition register (C : Cmd) (h : Handler C) (r : t) : t := insert C h r.

(** src: crates/server/domain/src/command/registry.rs 39-42 HandlerRegistry::get_handler *)
Definition get_handler (C : Cmd) (r : t) : option stored := r !! Self C.

(** src: crates/server/domain/src/command/registry.rs 45-48 HandlerRegistry::has_handler *)
Definition has_handler (C : Cmd) (r : t) : bool := bool_decide (is_Some (r !! Self C)).

(** src: crates/server/domain/src/command/registry.rs 50-52 HandlerRegistry::len *)
Definition len (r : t) : nat := size r.

(** src: crates/server/domain/src/command/registry.rs 54-56 HandlerRegistry::is_empty *)
Definition is_empty (r : t) : bool := bool_decide (r = ∅ :> gmap TypeId stored).

End registry.
End HandlerRegistry.
Arguments HandlerRegistry.t {T} Handler.

(** The set of keys of [bus.rs]; [idempotency.rs] declares the same type again,
    as the instance of its trait. *)
Module InMemoryIdempotencyChecker.

(** src: crates/server/domain/src/command/bus.rs 157-159 InMemoryIdempotencyChecker *)
Definition t : Type := gset string.

(** src: crates/server/domain/src/command/bus.rs 162-166 InMemoryIdempotencyChecker::new *)
Definition new : t := ∅.

(** src: crates/server/domain/src/command/bus.rs 168-170 InMemoryIdempotencyChecker::is_duplicate *)
Definition is_duplicate (key : string) (c : t) : bool := bool_decide (key ∈ c).

(** src: crates/server/domain/src/command/bus.rs 172-174 InMemoryIdempotencyChecker::mark_processed *)
Definition mark_processed (key : string) (c : t) : t := {[ key ]} ∪ c.

(** src: crates/server/domain/src/command/bus.rs 176-178 InMemoryIdempotencyChecker::clear *)
Definition clear (c : t) : t := ∅.

End InMemoryIdempotencyChecker.

Module InMemoryCommandBus.
Section in_memory_bus.
Context `{T : CommandTypes} {Handler : Cmd -> Type} {W : Type}.

(** The lock of the key set is never held across another call; the lock of the
    registry is. *)
(** src: crates/server/domain/src/command/bus.rs 33-37 InMemoryCommandBus *)
Record t := mk {
  registry : HandlerRegistry.t Handler;
  registry_locked : bool;
  idempotency : InMemoryIdempotencyChecker.t;
  world : W;
}.

#[global] Instance t_rebuild : Rebuild t := fun b =>
  mk (registry b) (registry_locked b) (idempotency b) (world b).

(** The channel the constructor opens only ever carries the shutdown. *)
(** src: crates/server/domain/src/command/bus.rs 50-69 InMemoryCommandBus::with_config *)
Definition new (w : W) : t :=
  mk HandlerRegistry.new false InMemoryIdempotencyChecker.new w.

(** [self.registry.lock().await], of which the guard lives to the end. *)
Definition with_registry_lock {F X} (body : method t (exn F) X) : method t (exn F) X :=
  b ← self;
  if registry_locked b then throw Blocked
  else
    modify (fun b => b <| registry_locked := true |>);;
    finally body (fun b => b <| registry_locked := false |>).

(** src: crates/server/domain/src/command/bus.rs 145-152 InMemoryCommandBus::register_handler *)
Definition register_handler {F} (C : Cmd) (h : Handler C) : method t (exn F) unit :=
  with_registry_lock
    (modify (fun b => b <| registry := HandlerRegistry.insert C h (registry b) |>)).

Context `{!CommandHandlers Handler t}.

(** src: crates/server/domain/src/command/bus.rs 93-143 InMemoryCommandBus::dispatch *)
Definition dispatch (C : Cmd) (command : denote (Self C)) :
    method t (exn CommandError.t) (denote (Output C)) :=
  let key := idempotency_key C command in
  b ← self;
  ensure (is_empty key || negb (InMemoryIdempotencyChecker.is_duplicate key (idempotency b)))
    (Error (CommandError.IdempotencyConflict key));;
  with_registry_lock
    (b ← self;
     handler_box ← or_error id
       (ok_or (HandlerRegistry.get_handler C (registry b))
          (CommandError.HandlerNotFound (type_name (Self C))));
     handler ← or_error id
       (ok_or (HandlerRegistry.downcast_dynamic C handler_box)
          (CommandError.HandlerNotFound (type_name (Self C))));
     answer ← catch (handle handler command);
     (if is_empty key then mret tt
      else modify (fun b =>
        b <| idempotency := InMemoryIdempotencyChecker.mark_processed key (idempotency b) |>));;
     or_error (fun e => CommandError.HandlerError (type_name (Self C)) (failure_debug e)) answer).

(** src: crates/server/domain/src/command/bus.rs 92-153 impl CommandBus for InMemoryCommandBus *)
Definition command_bus : CommandBus Handler t :=
  {| CommandBus.dispatch := dispatch; CommandBus.register_handler := register_handler |}.

End in_memory_bus.
End InMemoryCommandBus.
Arguments InMemoryCommandBus.t {T} Handler W.

Section in_memory_bus_properties.
Context `{T : CommandTypes} {Handler : Cmd -> Type} {W : Type}.
Abbreviation memory_bus := (InMemoryCommandBus.t Handler W).
Context `{!CommandHandlers Handler memory_bus}.
Import InMemoryCommandBus.

Fixpoint register_handlers (regs : list (InMemoryErasedCommandBus.HandlerWrapper Handler)) :
    method memory_bus (exn unit) unit :=
  match regs with
  | [] => mret tt
  | InMemoryErasedCommandBus.Wrap C h :: regs => register_handler C h;; register_handlers regs
  end.

(** No registration stores what the dispatch asks for. *)
Definition concrete_only (b : memory_bus) : Prop :=
  registry_locked b = false /\
  forall i s, registry b !! i = Some s -> exists C h, s = HandlerRegistry.Concrete C h.

Lemma register_concrete C h : preserves concrete_only world (register_handler (F := unit) C h).
Proof.
  intros b [Hl Hb]. unfold after, register_handler, with_registry_lock. run_method. rewrite Hl.
  split; [split|]; [done| |done]. intros i s. simpl. unfold HandlerRegistry.insert.
  unfold HandlerRegistry.t. rewrite lookup_insert_Some. intros [[_ <-]|[_ Hs]]; [by eauto|by eapply Hb].
Qed.

Lemma register_handlers_concrete regs : preserves concrete_only world (register_handlers regs).
Proof.
  induction regs as [|[C h] regs IH]; [apply preserves_ret|].
  apply preserves_bind; [apply register_concrete|done].
Qed.

(** The first bus never runs a handler.  Whatever handlers
    were registered, and whatever keys were marked, dispatching a command leaves
    the bus and the world as they are: it is refused as a duplicate if its key
    is marked, and otherwise answered with [HandlerNotFound], although its
    handler is registered, because the stored handler is an [Arc<H>] and the
    dispatch asks for an [Arc<dyn CommandHandler>].  So no key is ever marked
    either. *)
Theorem in_memory_bus_never_dispatches w regs keys C command :
  let b := after (register_handlers regs) (new w) <| idempotency := keys |> in
  let key := idempotency_key C command in
  dispatch C command b =
    (b, Err (Error
      (if negb (is_empty key) && InMemoryIdempotencyChecker.is_duplicate key keys
       then CommandError.IdempotencyConflict key
       else CommandError.HandlerNotFound (type_name (Self C))))) /\
  world b = w.
Proof.
  assert (concrete_only (new w)) as Hnew.
  { split; [done|]. intros i s. simpl. unfold HandlerRegistry.new, HandlerRegistry.t. by rewrite lookup_empty. }
  destruct (register_handlers_concrete regs _ Hnew) as [[Hl Hb] Hw].
  intros b key. split; [|done]. unfold dispatch. fold key.
  destruct (after (register_handlers regs) (new w)) as [rs l ks w'] eqn:Ha. simpl in *. subst l.
  destruct (is_empty key) eqn:Hk, (InMemoryIdempotencyChecker.is_duplicate key keys) eqn:Hd;
    unfold dispatch, with_registry_lock; run_method; fold key;
    rewrite ?Hk, ?Hd; simpl; try done;
    unfold finally, or_error, lift, HandlerRegistry.get_handler; simpl;
    (destruct (rs !! Self C) as [s|] eqn:Hs; [|done]);
    by destruct (Hb _ _ Hs) as (C' & h & ->).
Qed.

End in_memory_bus_properties.

(** ** Middleware ([middleware/mod.rs])

    A layer wraps any bus.  What the logging and the telemetry layer add are log
    lines and the readings of a clock for them. *)

Module Middleware.
Section middleware.
Context `{E : Externs} `{T : CommandTypes} {Handler : Cmd -> Type} {S : Type}.

(** src: crates/server/domain/src/command/middleware/mod.rs 154-199 impl CommandBus for LoggingCommandBus *)
Definition logging (inner : CommandBus Handler S) : CommandBus Handler S := {|
  dispatch := fun C command => r ← catch (dispatch inner C command); or_error id r;
  register_handler := fun C h => register_handler inner C h;
|}.

(** src: crates/server/domain/src/command/middleware/mod.rs 347-390 impl CommandBus for TelemetryCommandBus *)
Definition telemetry (inner : CommandBus Handler S) : CommandBus Handler S := {|
  dispatch := fun C command => r ← catch (dispatch inner C command); or_error id r;
  register_handler := fun C h => register_handler inner C h;
|}.

(** A sleep, and the power function of the backoff. *)
Context (sleep : Duration -> S -> S) (powi : f64 -> Z -> f64).

(** src: crates/server/domain/src/command/middleware/mod.rs 259-303 RetryCommandBus::dispatch (loop) *)
Fixpoint retry_loop (fuel : nat) (inner : CommandBus Handler S) (config : RetryConfig.t)
    (C : Cmd) (command : denote (Self C)) (attempt : Z) :
    method S (exn CommandError.t) (denote (Output C)) :=
  match fuel with
  | O => throw OutOfFuel
  | Datatypes.S fuel =>
      r ← catch (dispatch inner C command);
      match r with
      | Ok output => mret output
      | Err e =>
          let is_transient := RetryConfig.should_retry config e in
          if (attempt <? RetryConfig.max_retries config) && is_transient then
            match RetryConfig.delay_for_attempt powi config attempt with
            | None => throw Panicked
            | Some delay =>
                modify (sleep delay);;
                retry_loop fuel inner config C command (u32_add attempt 1)
            end
          else throw (Error e)
      end
  end.

(** One round of fuel per retry the configuration allows, and one more. *)
(** src: crates/server/domain/src/command/middleware/mod.rs 252-312 impl CommandBus for RetryCommandBus *)
Definition retry (config : RetryConfig.t) (inner : CommandBus Handler S) :
    CommandBus Handler S := {|
  dispatch := fun C command =>
    retry_loop (Datatypes.S (Z.to_nat (RetryConfig.max_retries config))) inner config C command 0;
  register_handler := fun C h => register_handler inner C h;
|}.

(** src: crates/server/domain/src/command/middleware/mod.rs 418-429 CompositeLayer::layer_with_retry_config *)
Definition layer_with_retry_config (config : RetryConfig.t) (bus : CommandBus Handler S) :
    CommandBus Handler S :=
  let bus := logging bus in
  let bus := retry config bus in
  telemetry bus.

(** src: crates/server/domain/src/command/middleware/mod.rs 407-414 CompositeLayer::layer *)
Definition layer (bus : CommandBus Handler S) : CommandBus Handler S :=
  let bus := logging bus in
  let bus := retry RetryConfig.default bus in
  telemetry bus.

End middleware.
End Middleware.

Section middleware_properties.
Context `{E : Externs} `{T : CommandTypes} {Handler : Cmd -> Type} {S : Type}.
Context (sleep : Duration -> S -> S) (powi : f64 -> Z -> f64).
Context (inner : CommandBus Handler S) (C : Cmd) (command : denote (Self C)).
Import Middleware.

(** The inner dispatch of each try, from the state the earlier tries and sleeps
    leave; [None] once a delay cannot be computed. *)
Fixpoint nth_try (config : RetryConfig.t) (k : nat) (s : S) : option (S * result (exn CommandError.t) (denote (Output C))) :=
  match k with
  | O => Some (dispatch inner C command s)
  | Datatypes.S k =>
      try ← nth_try config k s;
      delay ← RetryConfig.delay_for_attempt powi config (Z.of_nat k);
      Some (dispatch inner C command (sleep delay try.1))
  end.

(** A try after which the layer tries again, if it may. *)
Definition retryable (config : RetryConfig.t)
    (r : result (exn CommandError.t) (denote (Output C))) : bool :=
  match r with Err (Error e) => RetryConfig.should_retry config e | _ => false end.

(** The layer returns after try number [n]: every earlier try was retryable, and
    this one is returned, or the delay after it panics. *)
Definition ends_after (config : RetryConfig.t) (n : nat) (s : S)
    (out : S * result (exn CommandError.t) (denote (Output C))) : Prop :=
  exists try, nth_try config n s = Some try /\
    (forall i earlier, (i < n)%nat -> nth_try config i s = Some earlier ->
       retryable config earlier.2 = true) /\
    if retryable config try.2 && (Z.of_nat n <? RetryConfig.max_retries config)
    then RetryConfig.delay_for_attempt powi config (Z.of_nat n) = None /\
         out = (try.1, Err Panicked)
    else out = try.

Lemma run_retry_loop config fuel k s0 s :
  RetryConfig.max_retries config < 2 ^ 32 ->
  Z.of_nat k <= Z.max 0 (RetryConfig.max_retries config) ->
  Z.max 0 (RetryConfig.max_retries config) - Z.of_nat k < Z.of_nat fuel ->
  nth_try config k s0 = Some (dispatch inner C command s) ->
  (forall i earlier, (i < k)%nat -> nth_try config i s0 = Some earlier ->
     retryable config earlier.2 = true) ->
  exists n, Z.of_nat n <= Z.max 0 (RetryConfig.max_retries config) /\
    ends_after config n s0 (retry_loop sleep powi fuel inner config C command (Z.of_nat k) s).
Proof.
  intros Hmax. revert k s.
  induction fuel as [|fuel IH]; intros k s Hk Hfuel Hnth Hearlier; [lia|].
  cbn [retry_loop]. unfold mbind at 1, method_bind at 1, catch at 1.
  destruct (dispatch inner C command s) as [s1 r] eqn:Hr.
  destruct (retryable config r && (Z.of_nat k <? RetryConfig.max_retries config)) eqn:Hagain.
  - destruct r as [|[e| | |]]; try done. simpl in Hagain. rewrite andb_comm, Hagain.
    apply andb_true_iff in Hagain as [He Hlt].
    destruct (RetryConfig.delay_for_attempt powi config (Z.of_nat k)) as [delay|] eqn:Hd.
    + assert (u32_add (Z.of_nat k) 1 = Z.of_nat (Datatypes.S k)) as Hadd.
      { rewrite u32_add_small; [lia|]. unfold u32. change (2 ^ 32) with 4294967296 in *. lia. }
      unfold mbind, method_bind, modify. rewrite Hadd. apply IH; [lia|lia| |].
      * cbn [nth_try]. rewrite Hnth. simpl. by rewrite Hd.
      * intros i earlier Hi Hearly. destruct (decide (i = k)) as [->|].
        { rewrite Hnth in Hearly. by injection Hearly as <-. }
        apply (Hearlier i); [lia|done].
    + exists k. split; [done|]. exists (s1, Err (Error e)). simpl.
      by rewrite He, Hlt.
  - exists k. split; [done|]. exists (s1, r). cbn [snd fst]. rewrite Hagain. split_and!; [done..|].
    destruct r as [|[e| | |]]; try done. simpl in Hagain. by rewrite andb_comm, Hagain.
Qed.

(** The retry layer dispatches the command again as long as the
    error may be retried, sleeping in between, and always ends: after try
    number [n], counted from zero, with [n] at most the configured number of
    retries.  It returns that try's state and answer, and every earlier try
    ended with a retryable error; if it stops at a retryable error although it
    had retries left, it panicked in the computation of the delay. *)
Theorem retry_layer_ends_and_counts config s :
  RetryConfig.max_retries config < 2 ^ 32 ->
  exists n, Z.of_nat n <= Z.max 0 (RetryConfig.max_retries config) /\
    ends_after config n s (dispatch (retry sleep powi config inner) C command s).
Proof.
  intros Hmax. apply (run_retry_loop config _ 0); [done|lia|lia|done|]. intros i earlier Hi. lia.
Qed.

(** The other layers return what the bus they wrap returns. *)
Lemma observing_layers_are_transparent s :
  dispatch (logging inner) C command s = dispatch inner C command s /\
  dispatch (telemetry inner) C command s = dispatch inner C command s.
Proof.
  simpl. unfold mbind, method_bind, catch, or_error, lift.
  by destruct (dispatch inner C command s) as [s' [|[]]].
Qed.

End middleware_properties.

(** ** A program with one command, a number whose output is a number *)

Definition example_types : CommandTypes := {|
  TypeId := bool;
  denote := fun _ => nat;
  type_name := fun b => if b then "Double" else "i32";
  type_id_debug := fun b => if b then "1" else "0";
  Cmd := unit;
  Self := fun _ => true;
  Self_inj := fun x y _ => match x, y with tt, tt => eq_refl end;
  Output := fun _ => false;
  idempotency_key := fun _ _ => "double";
  target_type := fun _ _ => default_target_type;
  command_name := fun _ _ => default_command_name "crate::commands::Double";
|}.

(** A bus that is busy for two dispatches; the state counts them. *)
Definition example_bus : CommandBus (T := example_types) (fun _ => unit) nat := {|
  dispatch := fun C n k =>
    (S k, if (k <? 2)%nat then Err (Error (CommandError.Transient "busy"))
          else Ok (2 * (n : nat) : @denote example_types (Output C))%nat);
  register_handler := fun _ _ => mret tt;
|}.

Example retry_layer_ends_and_counts_witness :
  dispatch (T := example_types)
    (Middleware.retry (E := concrete) (fun _ k => k) example_powi RetryConfig.default example_bus)
    tt 21%nat 0%nat = (3%nat, Ok 42%nat) /\
  exists n, Z.of_nat n <= 3 /\
    ends_after (E := concrete) (T := example_types) (fun _ k => k) example_powi example_bus tt 21%nat
      RetryConfig.default n 0%nat (3%nat, Ok 42%nat).
Proof.
  assert (dispatch (T := example_types)
    (Middleware.retry (E := concrete) (fun _ k => k) example_powi RetryConfig.default example_bus)
    tt 21%nat 0%nat = (3%nat, Ok 42%nat)) as Hrun by (vm_compute; reflexivity).
  split; [exact Hrun|].
  pose proof (retry_layer_ends_and_counts (E := concrete) (T := example_types) (fun _ k => k)
    example_powi example_bus tt 21%nat RetryConfig.default 0%nat eq_refl) as H.
  rewrite Hrun in H. exact H.
Defined.
