(* ===== verification/JobCommands.v ===== *)
(** * Commands on jobs ([crates/server/domain/src/command/jobs.rs])

    The two commands an administrator or the outbox relay sends for a job, with
    their handlers over any repository of jobs. *)

From S2P Require Import Prelude Effects Std Externs States Errors JobSpec Job ProviderApi Repositories Commands.

Module MarkJobFailedCommand.
Section command.
Context `{E : Externs}.

(** src: crates/server/domain/src/command/jobs.rs 18-26 MarkJobFailedCommand *)
Record t := mk {
  job_id : JobId;
  reason : string;
  metadata : CommandMetadataDefault.t;
}.

(** src: crates/server/domain/src/command/jobs.rs 31-38 MarkJobFailedCommand::new *)
Definition new (job : JobId) (why : string) (fresh : Uuid) (now : DateTime) : t :=
  mk job why (CommandMetadataDefault.new fresh now).

(** src: crates/server/domain/src/command/jobs.rs 45-47 MarkJobFailedCommand::idempotency_key *)
Definition idempotency_key (c : t) : string :=
  "mark-job-failed-" +:+ uuid_to_string (job_id c).

End command.
End MarkJobFailedCommand.

Module JobFailureResult.

(** src: crates/server/domain/src/command/jobs.rs 52-61 JobFailureResult *)
Record t := mk {
  success : bool;
  previous_state : JobState.t;
  new_state : JobState.t;
  error_message : option string;
}.

(** src: crates/server/domain/src/command/jobs.rs 66-73 JobFailureResult::success *)
Definition succeeded (previous : JobState.t) : t := mk true previous JobState.Failed None.

(** src: crates/server/domain/src/command/jobs.rs 77-84 JobFailureResult::failure *)
Definition failure (previous : JobState.t) (message : string) : t :=
  mk false previous previous (Some message).

End JobFailureResult.

Module MarkJobFailedError.
Section error.
Context `{E : Externs}.

(** src: crates/server/domain/src/command/jobs.rs 89-98 MarkJobFailedError *)
Inductive t :=
  | JobNotFound (job_id : JobId)
  | InvalidTransition (job_id : JobId) (current : JobState.t)
  | TerminalState (job_id : JobId) (state : JobState.t).

(** src: crates/server/domain/src/command/jobs.rs 88-99 Display for MarkJobFailedError *)
Definition fmt (e : t) : string :=
  match e with
  | JobNotFound i => "Job " +:+ uuid_to_string i +:+ " not found"
  | InvalidTransition i current =>
      "Cannot transition job " +:+ uuid_to_string i +:+ " from " +:+ JobState.fmt current
      +:+ " to Failed"
  | TerminalState i state =>
      "Job " +:+ uuid_to_string i +:+ " is already in terminal state: " +:+ JobState.fmt state
  end.

End error.
End MarkJobFailedError.

Module MarkJobFailedHandler.
Section handler.
Context `{E : Externs} {R : Type} `{!JobRepository.t R}.
Import MarkJobFailedError.

(** src: crates/server/domain/src/command/jobs.rs 127-171 MarkJobFailedHandler::handle *)
Definition handle (command : MarkJobFailedCommand.t) :
    method R MarkJobFailedError.t JobFailureResult.t :=
  let job_id := MarkJobFailedCommand.job_id command in
  found ← mapping_error (JobRepository.find_by_id job_id) (fun _ => JobNotFound job_id);
  job ← lift (ok_or found (JobNotFound job_id));
  let previous_state := Job.state job in
  ensure (negb (JobState.is_terminal previous_state)) (TerminalState job_id previous_state);;
  ensure (JobState.can_transition_to previous_state JobState.Failed)
    (InvalidTransition job_id previous_state);;
  mapping_error (JobRepository.update_state job_id JobState.Failed)
    (fun _ => InvalidTransition job_id previous_state);;
  mret (JobFailureResult.succeeded previous_state).

End handler.
End MarkJobFailedHandler.

Module ResumeFromManualInterventionCommand.
Section command.
Context `{E : Externs}.

(** src: crates/server/domain/src/command/jobs.rs 179-187 ResumeFromManualInterventionCommand *)
Record t := mk {
  job_id : JobId;
  resume_reason : option string;
  metadata : CommandMetadataDefault.t;
}.

(** src: crates/server/domain/src/command/jobs.rs 192-199 ResumeFromManualInterventionCommand::new *)
Definition new (job : JobId) (fresh : Uuid) (now : DateTime) : t :=
  mk job None (CommandMetadataDefault.new fresh now).

(** src: crates/server/domain/src/command/jobs.rs 203-210 ResumeFromManualInterventionCommand::with_reason *)
Definition with_reason (job : JobId) (why : string) (fresh : Uuid) (now : DateTime) : t :=
  mk job (Some why) (CommandMetadataDefault.new fresh now).

(** src: crates/server/domain/src/command/jobs.rs 217-219 ResumeFromManualInterventionCommand::idempotency_key *)
Definition idempotency_key (c : t) : string :=
  "resume-from-manual-intervention-" +:+ uuid_to_string (job_id c).

End command.
End ResumeFromManualInterventionCommand.

Module ResumeFromManualInterventionResult.

(** src: crates/server/domain/src/command/jobs.rs 224-233 ResumeFromManualInterventionResult *)
Record t := mk {
  success : bool;
  previous_state : JobState.t;
  new_state : JobState.t;
  error_message : option string;
}.

(** src: crates/server/domain/src/command/jobs.rs 238-245 ResumeFromManualInterventionResult::success *)
Definition succeeded (previous : JobState.t) : t := mk true previous JobState.Pending None.

(** src: crates/server/domain/src/command/jobs.rs 249-256 ResumeFromManualInterventionResult::failure *)
Definition failure (previous : JobState.t) (message : string) : t :=
  mk false previous previous (Some message).

End ResumeFromManualInterventionResult.

Module ResumeFromManualInterventionError.
Section error.
Context `{E : Externs}.

(** src: crates/server/domain/src/command/jobs.rs 261-267 ResumeFromManualInterventionError *)
Inductive t :=
  | JobNotFound (job_id : JobId)
  | NotInManualInterventionState (job_id : JobId) (current : JobState.t).

(** src: crates/server/domain/src/command/jobs.rs 260-267 Display for ResumeFromManualInterventionError *)
Definition fmt (e : t) : string :=
  match e with
  | JobNotFound i => "Job " +:+ uuid_to_string i +:+ " not found"
  | NotInManualInterventionState i current =>
      "Job " +:+ uuid_to_string i +:+ " is not in ManualInterventionRequired state (current: "
      +:+ JobState.fmt current +:+ ")"
  end.

End error.
End ResumeFromManualInterventionError.

Module ResumeFromManualInterventionHandler.
Section handler.
Context `{E : Externs} {R : Type} `{!JobRepository.t R}.
Import ResumeFromManualInterventionError.

(** src: crates/server/domain/src/command/jobs.rs 297-341 ResumeFromManualInterventionHandler::handle *)
Definition handle (command : ResumeFromManualInterventionCommand.t) :
    method R ResumeFromManualInterventionError.t ResumeFromManualInterventionResult.t :=
  let job_id := ResumeFromManualInterventionCommand.job_id command in
  found ← mapping_error (JobRepository.find_by_id job_id)
    (fun _ => ResumeFromManualInterventionError.JobNotFound job_id);
  job ← lift (ok_or found (ResumeFromManualInterventionError.JobNotFound job_id));
  let previous_state := Job.state job in
  ensure (JobState.requires_manual_intervention previous_state)
    (NotInManualInterventionState job_id previous_state);;
  mapping_error (JobRepository.update_state job_id JobState.Pending)
    (fun _ => NotInManualInterventionState job_id previous_state);;
  mret (ResumeFromManualInterventionResult.succeeded previous_state).

End handler.
End ResumeFromManualInterventionHandler.

(** ** Properties *)

Section job_command_properties.
Context `{E : Externs} `{!MapOrder}.
Import InMemoryJobRepository.

Lemma run_update_state i j s (jobs : InMemoryJobRepository.t) :
  jobs !! i = Some j -> JobState.can_transition_to (Job.state j) s = true ->
  update_state i s jobs = (<[i := j <| Job.state := s |>]> jobs, Ok tt).
Proof.
  intros Hj Hs. unfold update_state, Job.set_state. run_method. rewrite Hj. by rewrite Hs.
Qed.

(** On the in-memory repository, marking a job as failed
    answers exactly this.  An unknown job and a job in a final state are
    refused, and nothing changes; any other job can always be marked.  Then only
    the state of that job is written: the reason of the command is not
    recorded, no completion time is set and the attempt is not counted, unlike
    with the method [fail] of a job.  Resuming works exactly for a job that
    waits for manual intervention, and only puts it back to pending. *)
Theorem job_commands_change_the_state_only c d (jobs : InMemoryJobRepository.t) :
  let i := MarkJobFailedCommand.job_id c in
  let k := ResumeFromManualInterventionCommand.job_id d in
  MarkJobFailedHandler.handle c jobs =
    match jobs !! i with
    | None => (jobs, Err (MarkJobFailedError.JobNotFound i))
    | Some j =>
        if JobState.is_terminal (Job.state j)
        then (jobs, Err (MarkJobFailedError.TerminalState i (Job.state j)))
        else (<[i := j <| Job.state := JobState.Failed |>]> jobs,
              Ok (JobFailureResult.succeeded (Job.state j)))
    end /\
  ResumeFromManualInterventionHandler.handle d jobs =
    match jobs !! k with
    | None => (jobs, Err (ResumeFromManualInterventionError.JobNotFound k))
    | Some j =>
        if bool_decide (Job.state j = JobState.ManualInterventionRequired)
        then (<[k := j <| Job.state := JobState.Pending |>]> jobs,
              Ok (ResumeFromManualInterventionResult.succeeded (Job.state j)))
        else (jobs, Err (ResumeFromManualInterventionError.NotInManualInterventionState k (Job.state j)))
    end.
Proof.
  intros i k. unfold MarkJobFailedHandler.handle, ResumeFromManualInterventionHandler.handle.
  fold i k. unfold mapping_error, JobRepository.find_by_id, repository,
    find_by_id, lift. run_method. split.
  - destruct (jobs !! i) as [j|] eqn:Hj; simpl; [|done].
    destruct (Job.state j) eqn:Hs; simpl; try done;
      by rewrite (run_update_state i j) by (done || by rewrite Hs).
  - destruct (jobs !! k) as [j|] eqn:Hj; simpl; [|done].
    destruct (Job.state j) eqn:Hs; simpl; try done;
      by rewrite (run_update_state k j) by (done || by rewrite Hs).
Qed.

End job_command_properties.
