(* ===== verification/ExecutionCommands.v ===== *)
(** * The commands of the execution saga
    ([crates/server/domain/src/saga/commands/execution.rs])

    Validate a job, assign a worker, start the job and complete it: the
    commands, their results and errors, and their handlers over any repository
    of jobs and registry of workers. *)

From S2P Require Import Prelude Effects Std Externs States Errors JobSpec Job ProviderApi Worker Repositories Services Commands.

(** [CommandMetadataDefault::new().with_saga_id(&saga_id)]. *)
Definition saga_metadata `{E : Externs} (saga : string) (fresh : Uuid) (now : DateTime) :
    CommandMetadataDefault.t :=
  CommandMetadataDefault.with_saga_id saga (CommandMetadataDefault.new fresh now).

(** ** ValidateJob *)

Module ValidateJobCommand.
Section command.
Context `{E : Externs}.

(** src: crates/server/domain/src/saga/commands/execution.rs 21-29 ValidateJobCommand *)
Record t := mk {
  job_id : JobId;
  saga_id : string;
  metadata : CommandMetadataDefault.t;
}.

(** src: crates/server/domain/src/saga/commands/execution.rs 34-41 ValidateJobCommand::new *)
Definition new (job : JobId) (saga : string) (fresh : Uuid) (now : DateTime) : t :=
  mk job saga (saga_metadata saga fresh now).

(** src: crates/server/domain/src/saga/commands/execution.rs 48-50 ValidateJobCommand::idempotency_key *)
Definition idempotency_key (c : t) : string :=
  saga_id c +:+ "-validate-job-" +:+ uuid_to_string (job_id c).

(** src: crates/server/domain/src/saga/commands/execution.rs 52-54 ValidateJobCommand::target_type *)
Definition target_type (_ : t) : CommandTargetType.t := CommandTargetType.Job.
(** src: crates/server/domain/src/saga/commands/execution.rs 56-58 ValidateJobCommand::command_name *)
Definition command_name (_ : t) : string := "ValidateJob".

End command.
End ValidateJobCommand.

Module JobValidationResult.

(** src: crates/server/domain/src/saga/commands/execution.rs 63-70 JobValidationResult *)
Record t := mk {
  is_valid : bool;
  current_state : JobState.t;
  failure_reason : option string;
}.

(** src: crates/server/domain/src/saga/commands/execution.rs 75-81 JobValidationResult::valid *)
Definition valid (s : JobState.t) : t := mk true s None.
(** src: crates/server/domain/src/saga/commands/execution.rs 85-91 JobValidationResult::invalid *)
Definition invalid (s : JobState.t) (reason : string) : t := mk false s (Some reason).

End JobValidationResult.

Module ValidateJobError.
Section error.
Context `{E : Externs}.

(** src: crates/server/domain/src/saga/commands/execution.rs 96-105 ValidateJobError *)
Inductive t :=
  | JobNotFound (job_id : JobId)
  | InvalidState (job_id : JobId) (state : JobState.t)
  | JobCancelled (job_id : JobId).

(** src: crates/server/domain/src/saga/commands/execution.rs 95-105 Display for ValidateJobError *)
Definition fmt (e : t) : string :=
  match e with
  | JobNotFound i => "Job " +:+ uuid_to_string i +:+ " not found"
  | InvalidState i s =>
      "Job " +:+ uuid_to_string i +:+ " is in invalid state: " +:+ JobState.fmt s
  | JobCancelled i => "Job " +:+ uuid_to_string i +:+ " is cancelled"
  end.

End error.
End ValidateJobError.

Module ValidateJobHandler.
Section handler.
Context `{E : Externs} {S : Type} `{!JobRepository.t S}.
Import ValidateJobError.

(** src: crates/server/domain/src/saga/commands/execution.rs 124-157 ValidateJobHandler::handle *)
Definition handle (command : ValidateJobCommand.t) :
    method S ValidateJobError.t JobValidationResult.t :=
  let job_id := ValidateJobCommand.job_id command in
  found ← mapping_error (JobRepository.find_by_id job_id) (fun _ => JobNotFound job_id);
  job ← lift (ok_or found (JobNotFound job_id));
  ensure (negb (bool_decide (Job.state job = JobState.Cancelled))) (JobCancelled job_id);;
  ensure (JobState.is_scheduled (Job.state job) || bool_decide (Job.state job = JobState.Pending))
    (InvalidState job_id (Job.state job));;
  mret (JobValidationResult.valid (Job.state job)).

End handler.
End ValidateJobHandler.

(** ** AssignWorker *)

Module AssignWorkerCommand.
Section command.
Context `{E : Externs}.

(** src: crates/server/domain/src/saga/commands/execution.rs 165-175 AssignWorkerCommand *)
Record t := mk {
  job_id : JobId;
  worker_id : option WorkerId;
  saga_id : string;
  metadata : CommandMetadataDefault.t;
}.

(** src: crates/server/domain/src/saga/commands/execution.rs 180-188 AssignWorkerCommand::new *)
Definition new (job : JobId) (saga : string) (fresh : Uuid) (now : DateTime) : t :=
  mk job None saga (saga_metadata saga fresh now).

(** src: crates/server/domain/src/saga/commands/execution.rs 192-200 AssignWorkerCommand::with_worker *)
Definition with_worker (job : JobId) (worker : WorkerId) (saga : string) (fresh : Uuid)
    (now : DateTime) : t :=
  mk job (Some worker) saga (saga_metadata saga fresh now).

(** src: crates/server/domain/src/saga/commands/execution.rs 207-216 AssignWorkerCommand::idempotency_key *)
Definition idempotency_key (c : t) : string :=
  match worker_id c with
  | Some w =>
      saga_id c +:+ "-assign-worker-" +:+ uuid_to_string (job_id c) +:+ "-" +:+ uuid_to_string w
  | None => saga_id c +:+ "-assign-worker-" +:+ uuid_to_string (job_id c)
  end.

(** src: crates/server/domain/src/saga/commands/execution.rs 218-220 AssignWorkerCommand::target_type *)
Definition target_type (_ : t) : CommandTargetType.t := CommandTargetType.Worker.
(** src: crates/server/domain/src/saga/commands/execution.rs 222-224 AssignWorkerCommand::command_name *)
Definition command_name (_ : t) : string := "AssignWorker".

End command.
End AssignWorkerCommand.

Module WorkerAssignmentResult.
Section result.
Context `{E : Externs}.

(** src: crates/server/domain/src/saga/commands/execution.rs 229-238 WorkerAssignmentResult *)
Record t := mk {
  success : bool;
  worker_id : option WorkerId;
  worker_state : option WorkerState.t;
  failure_reason : option string;
}.

(** src: crates/server/domain/src/saga/commands/execution.rs 243-250 WorkerAssignmentResult::success *)
Definition succeeded (w : WorkerId) (s : WorkerState.t) : t := mk true (Some w) (Some s) None.
(** src: crates/server/domain/src/saga/commands/execution.rs 254-261 WorkerAssignmentResult::failure *)
Definition failure (reason : string) : t := mk false None None (Some reason).

End result.
End WorkerAssignmentResult.

Module AssignWorkerError.
Section error.
Context `{E : Externs}.

(** src: crates/server/domain/src/saga/commands/execution.rs 266-284 AssignWorkerError *)
Inductive t :=
  | NoAvailableWorkers (job_id : JobId)
  | AssignmentFailed (job_id : JobId) (source : DomainError.t)
  | WorkerNotFound (worker_id : WorkerId)
  | WorkerNotAvailable (worker_id : WorkerId) (state : WorkerState.t).

(** src: crates/server/domain/src/saga/commands/execution.rs 265-284 Display for AssignWorkerError *)
Definition fmt (e : t) : string :=
  match e with
  | NoAvailableWorkers i => "No available workers found for job " +:+ uuid_to_string i
  | AssignmentFailed i source =>
      "Failed to assign worker to job " +:+ uuid_to_string i +:+ ": " +:+ DomainError.fmt source
  | WorkerNotFound w => "Worker " +:+ uuid_to_string w +:+ " not found"
  | WorkerNotAvailable w s =>
      "Worker " +:+ uuid_to_string w +:+ " is not available (state: " +:+ WorkerState.debug s
      +:+ ")"
  end.

End error.
End AssignWorkerError.

Module AssignWorkerHandler.
Section handler.
Context `{E : Externs} {S : Type} `{!JobRepository.t S} `{!WorkerRegistry.t S}.
Import AssignWorkerError.

(** The call of a repository whose error fails the assignment. *)
Definition assigning {X} (job_id : JobId) (m : method S DomainError.t X) :
    method S AssignWorkerError.t X :=
  mapping_error m (AssignmentFailed job_id).

(** Find a worker or validate the given one; [None] when none is available. *)
(** src: crates/server/domain/src/saga/commands/execution.rs 318-358 AssignWorkerHandler::handle (find or validate worker) *)
Definition find_or_validate_worker (job_id : JobId) (worker_id : option WorkerId) :
    method S AssignWorkerError.t (option WorkerId) :=
  match worker_id with
  | Some pre_assigned_id =>
      found ← assigning job_id (WorkerRegistry.find_by_id pre_assigned_id);
      worker ← lift (ok_or found (WorkerNotFound pre_assigned_id));
      ensure (bool_decide (Worker.state worker = WorkerState.Ready)
              || bool_decide (Worker.state worker = WorkerState.Busy))
        (WorkerNotAvailable pre_assigned_id (Worker.state worker));;
      mret (Some pre_assigned_id)
  | None =>
      let filter :=
        WorkerFilter.accepting_jobs (WorkerFilter.with_state WorkerState.Ready WorkerFilter.new) in
      available_workers ← assigning job_id (WorkerRegistry.find filter);
      mret (Worker.id <$> head available_workers)
  end.

(** src: crates/server/domain/src/saga/commands/execution.rs 310-413 AssignWorkerHandler::handle *)
Definition handle (command : AssignWorkerCommand.t) :
    method S AssignWorkerError.t WorkerAssignmentResult.t :=
  let job_id := AssignWorkerCommand.job_id command in
  found ← find_or_validate_worker job_id (AssignWorkerCommand.worker_id command);
  match found with
  | None => mret (WorkerAssignmentResult.failure "No available workers")
  | Some worker_id =>
      found ← assigning job_id (JobRepository.find_by_id job_id);
      job ← lift (ok_or found (NoAvailableWorkers job_id));
      let (job, set) := Job.set_state JobState.Assigned job in
      lift (map_err (AssignmentFailed job_id) set);;
      assigning job_id (JobRepository.update job);;
      assigning job_id (WorkerRegistry.update_state worker_id WorkerState.Busy);;
      found ← assigning job_id (WorkerRegistry.find_by_id worker_id);
      final_worker ← lift (ok_or found (WorkerNotFound worker_id));
      mret (WorkerAssignmentResult.succeeded worker_id (Worker.state final_worker))
  end.

End handler.
End AssignWorkerHandler.

(** ** ExecuteJob *)

Module ExecuteJobCommand.
Section command.
Context `{E : Externs}.

(** src: crates/server/domain/src/saga/commands/execution.rs 420-430 ExecuteJobCommand *)
Record t := mk {
  job_id : JobId;
  worker_id : WorkerId;
  saga_id : string;
  metadata : CommandMetadataDefault.t;
}.

(** src: crates/server/domain/src/saga/commands/execution.rs 435-443 ExecuteJobCommand::new *)
Definition new (job : JobId) (worker : WorkerId) (saga : string) (fresh : Uuid)
    (now : DateTime) : t :=
  mk job worker saga (saga_metadata saga fresh now).

(** src: crates/server/domain/src/saga/commands/execution.rs 450-452 ExecuteJobCommand::idempotency_key *)
Definition idempotency_key (c : t) : string :=
  saga_id c +:+ "-execute-job-" +:+ uuid_to_string (job_id c).

(** src: crates/server/domain/src/saga/commands/execution.rs 454-456 ExecuteJobCommand::target_type *)
Definition target_type (_ : t) : CommandTargetType.t := CommandTargetType.Worker.
(** src: crates/server/domain/src/saga/commands/execution.rs 458-460 ExecuteJobCommand::command_name *)
Definition command_name (_ : t) : string := "ExecuteJob".

End command.
End ExecuteJobCommand.

Module JobExecutionResult.

(** src: crates/server/domain/src/saga/commands/execution.rs 465-472 JobExecutionResult *)
Record t := mk {
  was_initiated : bool;
  new_state : JobState.t;
  failure_reason : option string;
}.

(** src: crates/server/domain/src/saga/commands/execution.rs 477-483 JobExecutionResult::initiated *)
Definition initiated (s : JobState.t) : t := mk true s None.
(** src: crates/server/domain/src/saga/commands/execution.rs 487-493 JobExecutionResult::failed *)
Definition failed (s : JobState.t) (reason : string) : t := mk false s (Some reason).

End JobExecutionResult.

Module ExecuteJobError.
Section error.
Context `{E : Externs}.

(** src: crates/server/domain/src/saga/commands/execution.rs 498-510 ExecuteJobError *)
Inductive t :=
  | JobNotFound (job_id : JobId)
  | WorkerNotFound (worker_id : WorkerId)
  | ExecutionFailed (job_id : JobId) (source : DomainError.t).

(** src: crates/server/domain/src/saga/commands/execution.rs 497-510 Display for ExecuteJobError *)
Definition fmt (e : t) : string :=
  match e with
  | JobNotFound i => "Job " +:+ uuid_to_string i +:+ " not found"
  | WorkerNotFound w => "Worker " +:+ uuid_to_string w +:+ " not found"
  | ExecutionFailed _ source => "Failed to start job execution: " +:+ DomainError.fmt source
  end.

End error.
End ExecuteJobError.

Module ExecuteJobHandler.
Section handler.
Context `{E : Externs} {S : Type} `{!JobRepository.t S} `{!WorkerRegistry.t S}.
Import ExecuteJobError.

(** The service that sends a job to its worker. *)
(** src: crates/server/domain/src/saga/commands/execution.rs 528-535 JobExecutor *)
Definition JobExecutor : Type := JobId -> WorkerId -> method S ExecuteJobError.t unit.

Context (job_executor : option JobExecutor).

(** src: crates/server/domain/src/saga/commands/execution.rs 557-612 ExecuteJobHandler::handle *)
Definition handle (command : ExecuteJobCommand.t) :
    method S ExecuteJobError.t JobExecutionResult.t :=
  let job_id := ExecuteJobCommand.job_id command in
  let worker_id := ExecuteJobCommand.worker_id command in
  found ← mapping_error (JobRepository.find_by_id job_id) (fun _ => JobNotFound job_id);
  _ ← lift (ok_or found (JobNotFound job_id));
  found ← mapping_error (WorkerRegistry.find_by_id worker_id) (fun _ => WorkerNotFound worker_id);
  _ ← lift (ok_or found (WorkerNotFound worker_id));
  match job_executor with
  | Some execute_job => execute_job job_id worker_id
  | None =>
      mapping_error (JobRepository.update_state job_id JobState.Running) (ExecutionFailed job_id)
  end;;
  mret (JobExecutionResult.initiated JobState.Running).

End handler.
End ExecuteJobHandler.

(** ** CompleteJob *)

Module CompleteJobCommand.
Section command.
Context `{E : Externs}.

(** src: crates/server/domain/src/saga/commands/execution.rs 619-631 CompleteJobCommand *)
Record t := mk {
  job_id : JobId;
  final_state : JobState.t;
  result_message : option string;
  saga_id : string;
  metadata : CommandMetadataDefault.t;
}.

(** src: crates/server/domain/src/saga/commands/execution.rs 636-645 CompleteJobCommand::success *)
Definition success (job : JobId) (saga : string) (fresh : Uuid) (now : DateTime) : t :=
  mk job JobState.Succeeded None saga (saga_metadata saga fresh now).

(** src: crates/server/domain/src/saga/commands/execution.rs 649-658 CompleteJobCommand::failed *)
Definition failed (job : JobId) (message saga : string) (fresh : Uuid) (now : DateTime) : t :=
  mk job JobState.Failed (Some message) saga (saga_metadata saga fresh now).

(** src: crates/server/domain/src/saga/commands/execution.rs 662-676 CompleteJobCommand::with_state *)
Definition with_state (job : JobId) (s : JobState.t) (message : option string) (saga : string)
    (fresh : Uuid) (now : DateTime) : t :=
  mk job s message saga (saga_metadata saga fresh now).

(** src: crates/server/domain/src/saga/commands/execution.rs 683-685 CompleteJobCommand::idempotency_key *)
Definition idempotency_key (c : t) : string :=
  saga_id c +:+ "-complete-job-" +:+ uuid_to_string (job_id c).

(** src: crates/server/domain/src/saga/commands/execution.rs 687-689 CompleteJobCommand::target_type *)
Definition target_type (_ : t) : CommandTargetType.t := CommandTargetType.Job.
(** src: crates/server/domain/src/saga/commands/execution.rs 691-693 CompleteJobCommand::command_name *)
Definition command_name (_ : t) : string := "CompleteJob".

End command.
End CompleteJobCommand.

Module JobCompletionResult.

(** src: crates/server/domain/src/saga/commands/execution.rs 698-703 JobCompletionResult *)
Record t := mk {
  success : bool;
  final_state : JobState.t;
}.

(** src: crates/server/domain/src/saga/commands/execution.rs 708-713 JobCompletionResult::new *)
Definition new (s : JobState.t) : t := mk (JobState.is_terminal s) s.

End JobCompletionResult.

Module CompleteJobError.
Section error.
Context `{E : Externs}.

(** src: crates/server/domain/src/saga/commands/execution.rs 718-734 CompleteJobError *)
Inductive t :=
  | JobNotFound (job_id : JobId)
  | InvalidTransition (job_id : JobId) (current desired : JobState.t)
  | CompletionFailed (job_id : JobId) (source : DomainError.t).

(** src: crates/server/domain/src/saga/commands/execution.rs 717-734 Display for CompleteJobError *)
Definition fmt (e : t) : string :=
  match e with
  | JobNotFound i => "Job " +:+ uuid_to_string i +:+ " not found"
  | InvalidTransition i current desired =>
      "Cannot transition job " +:+ uuid_to_string i +:+ " from " +:+ JobState.fmt current
      +:+ " to " +:+ JobState.fmt desired
  | CompletionFailed _ source => "Failed to complete job: " +:+ DomainError.fmt source
  end.

End error.
End CompleteJobError.

Module CompleteJobHandler.
Section handler.
Context `{E : Externs} {S : Type} `{!JobRepository.t S} `{!WorkerRegistry.t S}.
Import CompleteJobError.

(** [if let Ok(Some(worker)) = ...]: a registry that fails counts as one
    without the worker. *)
Definition worker_of_job (job_id : JobId) : method S CompleteJobError.t (option Worker.t) :=
  fun s => let (s', r) := WorkerRegistry.get_by_job_id job_id s in
           (s', Ok (match r with Ok w => w | Err _ => None end)).

(** src: crates/server/domain/src/saga/commands/execution.rs 760-812 CompleteJobHandler::handle *)
Definition handle (command : CompleteJobCommand.t) :
    method S CompleteJobError.t JobCompletionResult.t :=
  let job_id := CompleteJobCommand.job_id command in
  let final_state := CompleteJobCommand.final_state command in
  found ← mapping_error (JobRepository.find_by_id job_id) (fun _ => JobNotFound job_id);
  job ← lift (ok_or found (JobNotFound job_id));
  ensure (JobState.can_transition_to (Job.state job) final_state)
    (InvalidTransition job_id (Job.state job) final_state);;
  mapping_error (JobRepository.update_state job_id final_state) (CompletionFailed job_id);;
  (if JobState.is_terminal final_state then
     found ← worker_of_job job_id;
     match found with
     | Some worker =>
         mapping_error (WorkerRegistry.update_state (Worker.id worker) WorkerState.Terminated)
           (CompletionFailed job_id)
     | None => mret tt
     end
   else mret tt);;
  mret (JobCompletionResult.new final_state).

End handler.
End CompleteJobHandler.
