(* ===== verification/CancellationCommands.v ===== *)
(** * The commands of the cancellation and timeout sagas
    ([crates/server/domain/src/saga/commands/cancellation.rs], [timeout.rs])

    Notify a worker, update the state of a job, release a worker; terminate a
    worker, mark a job as timed out.  Of two handlers with the same body, one
    generic in its registry and one over a trait object, the model is one
    definition. *)

From S2P Require Import Prelude Effects Std Externs States Errors JobSpec Job ProviderApi Worker Repositories Services Commands ExecutionCommands.

(** ** NotifyWorker *)

Module NotifyWorkerCommand.
Section command.
Context `{E : Externs}.

(** src: crates/server/domain/src/saga/commands/cancellation.rs 31-43 NotifyWorkerCommand *)
Record t := mk {
  job_id : JobId;
  worker_id : option WorkerId;
  reason : string;
  saga_id : string;
  metadata : CommandMetadataDefault.t;
}.

(** src: crates/server/domain/src/saga/commands/cancellation.rs 66-80 NotifyWorkerCommand::with_metadata *)
Definition with_metadata := mk.

(** src: crates/server/domain/src/saga/commands/cancellation.rs 48-62 NotifyWorkerCommand::new *)
Definition new (job : JobId) (worker : option WorkerId) (why saga : string) (fresh : Uuid)
    (now : DateTime) : t :=
  mk job worker why saga (saga_metadata saga fresh now).

(** src: crates/server/domain/src/saga/commands/cancellation.rs 87-95 NotifyWorkerCommand::idempotency_key *)
Definition idempotency_key (c : t) : string :=
  match worker_id c with
  | Some w =>
      saga_id c +:+ "-notify-worker-" +:+ uuid_to_string (job_id c) +:+ "-" +:+ uuid_to_string w
  | None => saga_id c +:+ "-notify-worker-" +:+ uuid_to_string (job_id c)
  end.

End command.
End NotifyWorkerCommand.

Module NotifyWorkerResult.
Section result.
Context `{E : Externs}.

(** src: crates/server/domain/src/saga/commands/cancellation.rs 100-109 NotifyWorkerResult *)
Record t := mk {
  success : bool;
  worker_id : option WorkerId;
  was_already_notified : bool;
  error_message : option string;
}.

(** src: crates/server/domain/src/saga/commands/cancellation.rs 114-121 NotifyWorkerResult::success *)
Definition succeeded (w : option WorkerId) : t := mk true w false None.
(** src: crates/server/domain/src/saga/commands/cancellation.rs 125-132 NotifyWorkerResult::already_notified *)
Definition already_notified (w : WorkerId) : t := mk true (Some w) true None.
(** src: crates/server/domain/src/saga/commands/cancellation.rs 136-143 NotifyWorkerResult::failure *)
Definition failure (error : string) : t := mk false None false (Some error).

End result.
End NotifyWorkerResult.

Module NotifyWorkerError.
Section error.
Context `{E : Externs}.

(** src: crates/server/domain/src/saga/commands/cancellation.rs 148-160 NotifyWorkerError *)
Inductive t :=
  | NoWorkerAssigned (job_id : JobId)
  | WorkerNotFound (worker_id : WorkerId)
  | NotificationFailed (worker_id : WorkerId) (source : DomainError.t).

(** src: crates/server/domain/src/saga/commands/cancellation.rs 147-160 Display for NotifyWorkerError *)
Definition fmt (e : t) : string :=
  match e with
  | NoWorkerAssigned i => "No worker assigned to job " +:+ uuid_to_string i
  | WorkerNotFound w => "Worker " +:+ uuid_to_string w +:+ " not found"
  | NotificationFailed w source =>
      "Failed to notify worker " +:+ uuid_to_string w +:+ ": " +:+ DomainError.fmt source
  end.

End error.
End NotifyWorkerError.

Module NotifyWorkerHandler.
Section handler.
Context `{E : Externs} {S : Type} `{!WorkerRegistry.t S}.
Import NotifyWorkerError.

(** Nothing is sent to the worker; [fresh] is the identifier of
    [WorkerId::new()] in the error. *)
(** src: crates/server/domain/src/saga/commands/cancellation.rs 255-288 GenericNotifyWorkerHandler::handle *)
Definition handle (command : NotifyWorkerCommand.t) (fresh : Uuid) :
    method S NotifyWorkerError.t NotifyWorkerResult.t :=
  let job_id := NotifyWorkerCommand.job_id command in
  worker_id ←
    match NotifyWorkerCommand.worker_id command with
    | Some i => mret i
    | None =>
        found ← mapping_error (WorkerRegistry.get_by_job_id job_id) (NotificationFailed fresh);
        worker ← lift (ok_or found (NoWorkerAssigned job_id));
        mret (Worker.id worker)
    end;
  mret (NotifyWorkerResult.succeeded (Some worker_id)).

End handler.
End NotifyWorkerHandler.

(** ** UpdateJobState *)

Module UpdateJobStateCommand.
Section command.
Context `{E : Externs}.

(** src: crates/server/domain/src/saga/commands/cancellation.rs 300-316 UpdateJobStateCommand *)
Record t := mk {
  job_id : JobId;
  target_state : JobState.t;
  original_state : option JobState.t;
  reason : option string;
  saga_id : string;
  publish_event : bool;
  metadata : CommandMetadataDefault.t;
}.

(** src: crates/server/domain/src/saga/commands/cancellation.rs 321-332 UpdateJobStateCommand::cancel *)
Definition cancel (job : JobId) (saga : string) (fresh : Uuid) (now : DateTime) : t :=
  mk job JobState.Cancelled None (Some "user_requested") saga true (saga_metadata saga fresh now).

(** src: crates/server/domain/src/saga/commands/cancellation.rs 336-347 UpdateJobStateCommand::new *)
Definition new (job : JobId) (target : JobState.t) (saga : string) (fresh : Uuid)
    (now : DateTime) : t :=
  mk job target None None saga false (saga_metadata saga fresh now).

(** src: crates/server/domain/src/saga/commands/cancellation.rs 351-367 UpdateJobStateCommand::with_original_state *)
Definition with_original_state (job : JobId) (target original : JobState.t) (saga : string)
    (fresh : Uuid) (now : DateTime) : t :=
  mk job target (Some original) None saga false (saga_metadata saga fresh now).

(** src: crates/server/domain/src/saga/commands/cancellation.rs 374-379 UpdateJobStateCommand::idempotency_key *)
Definition idempotency_key (c : t) : string :=
  saga_id c +:+ "-update-job-state-" +:+ uuid_to_string (job_id c) +:+ "-"
  +:+ JobState.debug (target_state c).

End command.
End UpdateJobStateCommand.

Module UpdateJobStateResult.

(** src: crates/server/domain/src/saga/commands/cancellation.rs 384-393 UpdateJobStateResult *)
Record t := mk {
  success : bool;
  new_state : JobState.t;
  was_already_in_state : bool;
  error_message : option string;
}.

(** src: crates/server/domain/src/saga/commands/cancellation.rs 398-405 UpdateJobStateResult::success *)
Definition succeeded (s : JobState.t) : t := mk true s false None.
(** src: crates/server/domain/src/saga/commands/cancellation.rs 409-416 UpdateJobStateResult::already_in_state *)
Definition already_in_state (s : JobState.t) : t := mk true s true None.
(** src: crates/server/domain/src/saga/commands/cancellation.rs 420-427 UpdateJobStateResult::failure *)
Definition failure (error : string) : t := mk false JobState.Pending false (Some error).

End UpdateJobStateResult.

Module UpdateJobStateError.
Section error.
Context `{E : Externs}.

(** src: crates/server/domain/src/saga/commands/cancellation.rs 432-441 UpdateJobStateError *)
Inductive t :=
  | JobNotFound (job_id : JobId)
  | UpdateFailed (job_id : JobId) (source : DomainError.t).

(** src: crates/server/domain/src/saga/commands/cancellation.rs 431-441 Display for UpdateJobStateError *)
Definition fmt (e : t) : string :=
  match e with
  | JobNotFound i => "Job " +:+ uuid_to_string i +:+ " not found"
  | UpdateFailed _ source => "Failed to update job state: " +:+ DomainError.fmt source
  end.

End error.
End UpdateJobStateError.

Module UpdateJobStateHandler.
Section handler.
Context `{E : Externs} {S : Type} `{!JobRepository.t S}.
Import UpdateJobStateError.

(** src: crates/server/domain/src/saga/commands/cancellation.rs 467-496 UpdateJobStateHandler::handle *)
Definition handle (command : UpdateJobStateCommand.t) :
    method S UpdateJobStateError.t UpdateJobStateResult.t :=
  let job_id := UpdateJobStateCommand.job_id command in
  let target_state := UpdateJobStateCommand.target_state command in
  found ← mapping_error (JobRepository.find_by_id job_id) (UpdateFailed job_id);
  if bool_decide (Job.state <$> found = Some target_state)
  then mret (UpdateJobStateResult.already_in_state target_state)
  else
    mapping_error (JobRepository.update_state job_id target_state) (UpdateFailed job_id);;
    mret (UpdateJobStateResult.succeeded target_state).

End handler.
End UpdateJobStateHandler.

(** ** ReleaseWorker *)

Module ReleaseWorkerCommand.
Section command.
Context `{E : Externs}.

(** src: crates/server/domain/src/saga/commands/cancellation.rs 509-519 ReleaseWorkerCommand *)
Record t := mk {
  worker_id : WorkerId;
  job_id : option JobId;
  saga_id : string;
  metadata : CommandMetadataDefault.t;
}.

(** src: crates/server/domain/src/saga/commands/cancellation.rs 524-532 ReleaseWorkerCommand::new *)
Definition new (worker : WorkerId) (saga : string) (fresh : Uuid) (now : DateTime) : t :=
  mk worker None saga (saga_metadata saga fresh now).

(** src: crates/server/domain/src/saga/commands/cancellation.rs 536-544 ReleaseWorkerCommand::with_job *)
Definition with_job (worker : WorkerId) (job : JobId) (saga : string) (fresh : Uuid)
    (now : DateTime) : t :=
  mk worker (Some job) saga (saga_metadata saga fresh now).

(** src: crates/server/domain/src/saga/commands/cancellation.rs 551-556 ReleaseWorkerCommand::idempotency_key *)
Definition idempotency_key (c : t) : string :=
  saga_id c +:+ "-release-worker-" +:+ uuid_to_string (worker_id c).

End command.
End ReleaseWorkerCommand.

Module ReleaseWorkerResult.

(** src: crates/server/domain/src/saga/commands/cancellation.rs 561-568 ReleaseWorkerResult *)
Record t := mk {
  success : bool;
  new_state : WorkerState.t;
  error_message : option string;
}.

(** src: crates/server/domain/src/saga/commands/cancellation.rs 573-579 ReleaseWorkerResult::success *)
Definition succeeded : t := mk true WorkerState.Ready None.
(** src: crates/server/domain/src/saga/commands/cancellation.rs 583-589 ReleaseWorkerResult::failure *)
Definition failure (error : string) : t := mk false WorkerState.Terminated (Some error).

End ReleaseWorkerResult.

Module ReleaseWorkerError.
Section error.
Context `{E : Externs}.

(** src: crates/server/domain/src/saga/commands/cancellation.rs 594-603 ReleaseWorkerError *)
Inductive t :=
  | WorkerNotFound (worker_id : WorkerId)
  | ReleaseFailed (worker_id : WorkerId) (source : DomainError.t).

(** src: crates/server/domain/src/saga/commands/cancellation.rs 593-603 Display for ReleaseWorkerError *)
Definition fmt (e : t) : string :=
  match e with
  | WorkerNotFound w => "Worker " +:+ uuid_to_string w +:+ " not found"
  | ReleaseFailed w source =>
      "Failed to release worker " +:+ uuid_to_string w +:+ ": " +:+ DomainError.fmt source
  end.

End error.
End ReleaseWorkerError.

Module ReleaseWorkerHandler.
Section handler.
Context `{E : Externs} {S : Type} `{!WorkerRegistry.t S}.
Import ReleaseWorkerError.

(** src: crates/server/domain/src/saga/commands/cancellation.rs 629-660 ReleaseWorkerHandler::handle *)
Definition handle (command : ReleaseWorkerCommand.t) :
    method S ReleaseWorkerError.t ReleaseWorkerResult.t :=
  let worker_id := ReleaseWorkerCommand.worker_id command in
  found ← mapping_error (WorkerRegistry.find_by_id worker_id) (ReleaseFailed worker_id);
  _ ← lift (ok_or found (WorkerNotFound worker_id));
  mapping_error (WorkerRegistry.update_state worker_id WorkerState.Ready)
    (ReleaseFailed worker_id);;
  mret ReleaseWorkerResult.succeeded.

End handler.
End ReleaseWorkerHandler.

(** ** TerminateWorker *)

Module TerminateWorkerCommand.
Section command.
Context `{E : Externs}.

(** src: crates/server/domain/src/saga/commands/timeout.rs 30-44 TerminateWorkerCommand *)
Record t := mk {
  worker_id : WorkerId;
  job_id : option JobId;
  reason : string;
  unregister : bool;
  saga_id : string;
  metadata : CommandMetadataDefault.t;
}.

(** src: crates/server/domain/src/saga/commands/timeout.rs 49-64 TerminateWorkerCommand::new *)
Definition new (worker : WorkerId) (job : option JobId) (why saga : string) (fresh : Uuid)
    (now : DateTime) : t :=
  mk worker job why false saga (saga_metadata saga fresh now).

(** src: crates/server/domain/src/saga/commands/timeout.rs 68-83 TerminateWorkerCommand::with_unregister *)
Definition with_unregister (worker : WorkerId) (job : option JobId) (why saga : string)
    (fresh : Uuid) (now : DateTime) : t :=
  mk worker job why true saga (saga_metadata saga fresh now).

(** src: crates/server/domain/src/saga/commands/timeout.rs 90-95 TerminateWorkerCommand::idempotency_key *)
Definition idempotency_key (c : t) : string :=
  saga_id c +:+ "-terminate-worker-" +:+ uuid_to_string (worker_id c).

End command.
End TerminateWorkerCommand.

Module TerminateWorkerResult.

(** src: crates/server/domain/src/saga/commands/timeout.rs 100-109 TerminateWorkerResult *)
Record t := mk {
  success : bool;
  final_state : WorkerState.t;
  was_already_terminated : bool;
  error_message : option string;
}.

(** src: crates/server/domain/src/saga/commands/timeout.rs 114-121 TerminateWorkerResult::success *)
Definition succeeded (s : WorkerState.t) : t := mk true s false None.
(** src: crates/server/domain/src/saga/commands/timeout.rs 125-132 TerminateWorkerResult::already_terminated *)
Definition already_terminated : t := mk true WorkerState.Terminated true None.
(** src: crates/server/domain/src/saga/commands/timeout.rs 136-143 TerminateWorkerResult::failure *)
Definition failure (error : string) : t := mk false WorkerState.Terminated false (Some error).

End TerminateWorkerResult.

Module TerminateWorkerError.
Section error.
Context `{E : Externs}.

(** src: crates/server/domain/src/saga/commands/timeout.rs 148-157 TerminateWorkerError *)
Inductive t :=
  | WorkerNotFound (worker_id : WorkerId)
  | TerminationFailed (worker_id : WorkerId) (source : DomainError.t).

(** src: crates/server/domain/src/saga/commands/timeout.rs 147-157 Display for TerminateWorkerError *)
Definition fmt (e : t) : string :=
  match e with
  | WorkerNotFound w => "Worker " +:+ uuid_to_string w +:+ " not found"
  | TerminationFailed w source =>
      "Failed to terminate worker " +:+ uuid_to_string w +:+ ": " +:+ DomainError.fmt source
  end.

End error.
End TerminateWorkerError.

Module TerminateWorkerHandler.
Section handler.
Context `{E : Externs} {S : Type} `{!WorkerRegistry.t S}.
Import TerminateWorkerError.

(** The flag [unregister] is only logged. *)
(** src: crates/server/domain/src/saga/commands/timeout.rs 270-317 GenericTerminateWorkerHandler::handle *)
Definition handle (command : TerminateWorkerCommand.t) :
    method S TerminateWorkerError.t TerminateWorkerResult.t :=
  let worker_id := TerminateWorkerCommand.worker_id command in
  found ← mapping_error (WorkerRegistry.find_by_id worker_id) (TerminationFailed worker_id);
  if bool_decide (Worker.state <$> found = Some WorkerState.Terminated)
  then mret TerminateWorkerResult.already_terminated
  else if bool_decide (found = None) then mret TerminateWorkerResult.already_terminated
  else
    mapping_error (WorkerRegistry.update_state worker_id WorkerState.Terminated)
      (TerminationFailed worker_id);;
    mret (TerminateWorkerResult.succeeded WorkerState.Terminated).

End handler.
End TerminateWorkerHandler.

(** ** MarkJobTimedOut *)

Module MarkJobTimedOutCommand.
Section command.
Context `{E : Externs}.

(** src: crates/server/domain/src/saga/commands/timeout.rs 329-343 MarkJobTimedOutCommand *)
Record t := mk {
  job_id : JobId;
  worker_id : option WorkerId;
  timeout_reason : string;
  error_details : option string;
  saga_id : string;
  metadata : CommandMetadataDefault.t;
}.

(** src: crates/server/domain/src/saga/commands/timeout.rs 348-358 MarkJobTimedOutCommand::new *)
Definition new (job : JobId) (why saga : string) (fresh : Uuid) (now : DateTime) : t :=
  mk job None why None saga (saga_metadata saga fresh now).

(** src: crates/server/domain/src/saga/commands/timeout.rs 362-377 MarkJobTimedOutCommand::with_worker *)
Definition with_worker (job : JobId) (worker : WorkerId) (why saga : string) (fresh : Uuid)
    (now : DateTime) : t :=
  mk job (Some worker) why None saga (saga_metadata saga fresh now).

(** src: crates/server/domain/src/saga/commands/timeout.rs 381-396 MarkJobTimedOutCommand::with_error_details *)
Definition with_error_details (job : JobId) (why details saga : string) (fresh : Uuid)
    (now : DateTime) : t :=
  mk job None why (Some details) saga (saga_metadata saga fresh now).

(** src: crates/server/domain/src/saga/commands/timeout.rs 403-408 MarkJobTimedOutCommand::idempotency_key *)
Definition idempotency_key (c : t) : string :=
  saga_id c +:+ "-mark-job-timed-out-" +:+ uuid_to_string (job_id c).

End command.
End MarkJobTimedOutCommand.

Module MarkJobTimedOutResult.

(** src: crates/server/domain/src/saga/commands/timeout.rs 413-422 MarkJobTimedOutResult *)
Record t := mk {
  success : bool;
  new_state : JobState.t;
  was_already_timed_out : bool;
  error_message : option string;
}.

(** src: crates/server/domain/src/saga/commands/timeout.rs 427-434 MarkJobTimedOutResult::success *)
Definition succeeded : t := mk true JobState.Failed false None.
(** src: crates/server/domain/src/saga/commands/timeout.rs 438-445 MarkJobTimedOutResult::already_timed_out *)
Definition already_timed_out : t := mk true JobState.Failed true None.
(** src: crates/server/domain/src/saga/commands/timeout.rs 449-456 MarkJobTimedOutResult::failure *)
Definition failure (error : string) : t := mk false JobState.Pending false (Some error).

End MarkJobTimedOutResult.

Module MarkJobTimedOutError.
Section error.
Context `{E : Externs}.

(** src: crates/server/domain/src/saga/commands/timeout.rs 461-470 MarkJobTimedOutError *)
Inductive t :=
  | JobNotFound (job_id : JobId)
  | MarkFailed (job_id : JobId) (source : DomainError.t).

(** src: crates/server/domain/src/saga/commands/timeout.rs 460-470 Display for MarkJobTimedOutError *)
Definition fmt (e : t) : string :=
  match e with
  | JobNotFound i => "Job " +:+ uuid_to_string i +:+ " not found"
  | MarkFailed _ source => "Failed to mark job as timed out: " +:+ DomainError.fmt source
  end.

End error.
End MarkJobTimedOutError.

Module MarkJobTimedOutHandler.
Section handler.
Context `{E : Externs} {S : Type} `{!JobRepository.t S}.
Import MarkJobTimedOutError.

(** src: crates/server/domain/src/saga/commands/timeout.rs 496-542 MarkJobTimedOutHandler::handle *)
Definition handle (command : MarkJobTimedOutCommand.t) :
    method S MarkJobTimedOutError.t MarkJobTimedOutResult.t :=
  let job_id := MarkJobTimedOutCommand.job_id command in
  found ← mapping_error (JobRepository.find_by_id job_id) (MarkFailed job_id);
  match found with
  | None => mret MarkJobTimedOutResult.already_timed_out
  | Some job =>
      if bool_decide (Job.state job = JobState.Failed)
      then mret MarkJobTimedOutResult.already_timed_out
      else
        mapping_error (JobRepository.update_state job_id JobState.Failed) (MarkFailed job_id);;
        mret MarkJobTimedOutResult.succeeded
  end.

End handler.
End MarkJobTimedOutHandler.
