(* ===== verification/ProvisioningCommands.v ===== *)
(** * The commands of the provisioning and recovery sagas
    ([crates/server/domain/src/saga/commands/provisioning.rs], [recovery.rs])

    Create, destroy and unregister a worker; check the connectivity of a worker,
    mark a job for recovery, provision a new worker, transfer a job, destroy the
    old worker.  Of two handlers with the same body, one generic in its
    dependencies and one over trait objects, the model is one definition. *)

From S2P Require Import Prelude Effects Std Externs States Errors JobSpec Job ProviderApi Worker Repositories Services Commands ExecutionCommands.

(** ** CreateWorker *)

Module CreateWorkerCommand.
Section command.
Context `{E : Externs}.

(** src: crates/server/domain/src/saga/commands/provisioning.rs 24-36 CreateWorkerCommand *)
Record t := mk {
  spec : WorkerSpec.t;
  provider_id : ProviderId;
  job_id : JobId;
  saga_id : string;
  metadata : CommandMetadataDefault.t;
}.

(** src: crates/server/domain/src/saga/commands/provisioning.rs 54-68 CreateWorkerCommand::with_metadata *)
Definition with_metadata := mk.

(** src: crates/server/domain/src/saga/commands/provisioning.rs 41-50 CreateWorkerCommand::new *)
Definition new (sp : WorkerSpec.t) (provider : ProviderId) (job : JobId) (saga : string)
    (fresh : Uuid) (now : DateTime) : t :=
  mk sp provider job saga (saga_metadata saga fresh now).

(** src: crates/server/domain/src/saga/commands/provisioning.rs 75-77 CreateWorkerCommand::idempotency_key *)
Definition idempotency_key (c : t) : string := saga_id c +:+ "-create-worker".

End command.
End CreateWorkerCommand.

Module CreateWorkerError.
Section error.
Context `{E : Externs}.

(** src: crates/server/domain/src/saga/commands/provisioning.rs 82-93 CreateWorkerError *)
Inductive t :=
  | ProviderNotAvailable (provider_id : ProviderId)
  | ProvisioningFailed (source : DomainError.t)
  | Cancelled.

(** src: crates/server/domain/src/saga/commands/provisioning.rs 81-93 Display for CreateWorkerError *)
Definition fmt (e : t) : string :=
  match e with
  | ProviderNotAvailable p => "Provider " +:+ uuid_to_string p +:+ " is not available"
  | ProvisioningFailed source => "Failed to provision worker: " +:+ DomainError.fmt source
  | Cancelled => "Worker provisioning was cancelled"
  end.

End error.
End CreateWorkerError.

Module CreateWorkerHandler.
Section handler.
Context `{E : Externs} {S : Type} `{!WorkerProvisioning.t S}.

(** src: crates/server/domain/src/saga/commands/provisioning.rs 115-123 CreateWorkerHandler::handle *)
Definition handle (command : CreateWorkerCommand.t) :
    method S CreateWorkerError.t WorkerProvisioningResult.t :=
  mapping_error
    (WorkerProvisioning.provision_worker (CreateWorkerCommand.provider_id command)
       (CreateWorkerCommand.spec command) (CreateWorkerCommand.job_id command))
    CreateWorkerError.ProvisioningFailed.

End handler.
End CreateWorkerHandler.

(** ** DestroyWorker *)

Module DestroyWorkerCommand.
Section command.
Context `{E : Externs}.

(** src: crates/server/domain/src/saga/commands/provisioning.rs 136-149 DestroyWorkerCommand *)
Record t := mk {
  worker_id : WorkerId;
  provider_id : ProviderId;
  saga_id : string;
  reason : option string;
  metadata : CommandMetadataDefault.t;
}.

(** src: crates/server/domain/src/saga/commands/provisioning.rs 154-163 DestroyWorkerCommand::new *)
Definition new (worker : WorkerId) (provider : ProviderId) (saga : string) (fresh : Uuid)
    (now : DateTime) : t :=
  mk worker provider saga None (saga_metadata saga fresh now).

(** src: crates/server/domain/src/saga/commands/provisioning.rs 167-181 DestroyWorkerCommand::with_reason *)
Definition with_reason (worker : WorkerId) (provider : ProviderId) (saga why : string)
    (fresh : Uuid) (now : DateTime) : t :=
  mk worker provider saga (Some why) (saga_metadata saga fresh now).

(** src: crates/server/domain/src/saga/commands/provisioning.rs 188-193 DestroyWorkerCommand::idempotency_key *)
Definition idempotency_key (c : t) : string :=
  saga_id c +:+ "-destroy-worker-" +:+ uuid_to_string (worker_id c).

End command.
End DestroyWorkerCommand.

Module DestroyWorkerError.
Section error.
Context `{E : Externs}.

(** src: crates/server/domain/src/saga/commands/provisioning.rs 198-210 DestroyWorkerError *)
Inductive t :=
  | WorkerNotFound (worker_id : WorkerId)
  | DestructionFailed (worker_id : WorkerId) (source : DomainError.t)
  | Cancelled.

(** src: crates/server/domain/src/saga/commands/provisioning.rs 197-210 Display for DestroyWorkerError *)
Definition fmt (e : t) : string :=
  match e with
  | WorkerNotFound w => "Worker " +:+ uuid_to_string w +:+ " not found"
  | DestructionFailed w source =>
      "Failed to destroy worker " +:+ uuid_to_string w +:+ ": " +:+ DomainError.fmt source
  | Cancelled => "Worker destruction was cancelled"
  end.

End error.
End DestroyWorkerError.

Module DestroyWorkerHandler.
Section handler.
Context `{E : Externs} {S : Type} `{!WorkerProvisioning.t S}.

(** src: crates/server/domain/src/saga/commands/provisioning.rs 229-237 DestroyWorkerHandler::handle *)
Definition handle (command : DestroyWorkerCommand.t) : method S DestroyWorkerError.t unit :=
  mapping_error (WorkerProvisioning.destroy_worker (DestroyWorkerCommand.worker_id command))
    (DestroyWorkerError.DestructionFailed (DestroyWorkerCommand.worker_id command)).

End handler.
End DestroyWorkerHandler.

(** ** UnregisterWorker *)

Module UnregisterWorkerCommand.
Section command.
Context `{E : Externs}.

(** src: crates/server/domain/src/saga/commands/provisioning.rs 245-256 UnregisterWorkerCommand *)
Record t := mk {
  worker_id : WorkerId;
  saga_id : string;
  reason : option string;
  metadata : CommandMetadataDefault.t;
}.

(** src: crates/server/domain/src/saga/commands/provisioning.rs 261-269 UnregisterWorkerCommand::new *)
Definition new (worker : WorkerId) (saga : string) (fresh : Uuid) (now : DateTime) : t :=
  mk worker saga None (saga_metadata saga fresh now).

(** src: crates/server/domain/src/saga/commands/provisioning.rs 273-281 UnregisterWorkerCommand::with_reason *)
Definition with_reason (worker : WorkerId) (saga why : string) (fresh : Uuid)
    (now : DateTime) : t :=
  mk worker saga (Some why) (saga_metadata saga fresh now).

(** src: crates/server/domain/src/saga/commands/provisioning.rs 288-293 UnregisterWorkerCommand::idempotency_key *)
Definition idempotency_key (c : t) : string :=
  saga_id c +:+ "-unregister-worker-" +:+ uuid_to_string (worker_id c).

End command.
End UnregisterWorkerCommand.

Module UnregisterWorkerError.
Section error.
Context `{E : Externs}.

(** src: crates/server/domain/src/saga/commands/provisioning.rs 298-304 UnregisterWorkerError *)
Inductive t :=
  | UnregistrationFailed (worker_id : WorkerId) (source : DomainError.t).

(** src: crates/server/domain/src/saga/commands/provisioning.rs 297-304 Display for UnregisterWorkerError *)
Definition fmt (e : t) : string :=
  let 'UnregistrationFailed w source := e in
  "Failed to unregister worker " +:+ uuid_to_string w +:+ ": " +:+ DomainError.fmt source.

End error.
End UnregisterWorkerError.

Module UnregisterWorkerHandler.
Section handler.
Context `{E : Externs} {S : Type} `{!WorkerRegistry.t S}.

(** src: crates/server/domain/src/saga/commands/provisioning.rs 323-331 UnregisterWorkerHandler::handle *)
Definition handle (command : UnregisterWorkerCommand.t) : method S UnregisterWorkerError.t unit :=
  mapping_error (WorkerRegistry.unregister (UnregisterWorkerCommand.worker_id command))
    (UnregisterWorkerError.UnregistrationFailed (UnregisterWorkerCommand.worker_id command)).

End handler.
End UnregisterWorkerHandler.

(** ** CheckConnectivity *)

Module CheckConnectivityCommand.
Section command.
Context `{E : Externs}.

(** src: crates/server/domain/src/saga/commands/recovery.rs 21-29 CheckConnectivityCommand *)
Record t := mk {
  worker_id : WorkerId;
  saga_id : string;
  metadata : CommandMetadataDefault.t;
}.

(** src: crates/server/domain/src/saga/commands/recovery.rs 34-41 CheckConnectivityCommand::new *)
Definition new (worker : WorkerId) (saga : string) (fresh : Uuid) (now : DateTime) : t :=
  mk worker saga (saga_metadata saga fresh now).

(** src: crates/server/domain/src/saga/commands/recovery.rs 48-53 CheckConnectivityCommand::idempotency_key *)
Definition idempotency_key (c : t) : string :=
  saga_id c +:+ "-check-connectivity-" +:+ uuid_to_string (worker_id c).

End command.
End CheckConnectivityCommand.

Module CheckConnectivityResult.

(** src: crates/server/domain/src/saga/commands/recovery.rs 58-67 CheckConnectivityResult *)
Record t := mk {
  is_reachable : bool;
  worker_state : option WorkerState.t;
  latency_ms : option Z;
  error_message : option string;
}.

(** src: crates/server/domain/src/saga/commands/recovery.rs 72-79 CheckConnectivityResult::reachable *)
Definition reachable (s : WorkerState.t) (latency : Z) : t := mk true (Some s) (Some latency) None.
(** src: crates/server/domain/src/saga/commands/recovery.rs 83-90 CheckConnectivityResult::unreachable *)
Definition unreachable (error : string) : t := mk false None None (Some error).

End CheckConnectivityResult.

Module CheckConnectivityError.
Section error.
Context `{E : Externs}.

(** src: crates/server/domain/src/saga/commands/recovery.rs 95-104 CheckConnectivityError *)
Inductive t :=
  | WorkerNotFound (worker_id : WorkerId)
  | CheckFailed (worker_id : WorkerId) (source : DomainError.t).

(** src: crates/server/domain/src/saga/commands/recovery.rs 94-104 Display for CheckConnectivityError *)
Definition fmt (e : t) : string :=
  match e with
  | WorkerNotFound w => "Worker " +:+ uuid_to_string w +:+ " not found"
  | CheckFailed _ source => "Failed to check connectivity: " +:+ DomainError.fmt source
  end.

End error.
End CheckConnectivityError.

Module CheckConnectivityHandler.
Section handler.
Context `{E : Externs} {S : Type} `{!WorkerRegistry.t S}.
Import CheckConnectivityError.

(** A worker is reachable when it is registered, whatever its state. *)
(** src: crates/server/domain/src/saga/commands/recovery.rs 130-152 CheckConnectivityHandler::handle *)
Definition handle (command : CheckConnectivityCommand.t) :
    method S CheckConnectivityError.t CheckConnectivityResult.t :=
  let worker_id := CheckConnectivityCommand.worker_id command in
  found ← mapping_error (WorkerRegistry.find_by_id worker_id) (CheckFailed worker_id);
  worker ← lift (ok_or found (WorkerNotFound worker_id));
  mret (CheckConnectivityResult.reachable (Worker.state worker) 0).

End handler.
End CheckConnectivityHandler.

(** ** MarkJobForRecovery *)

Module MarkJobForRecoveryCommand.
Section command.
Context `{E : Externs}.

(** src: crates/server/domain/src/saga/commands/recovery.rs 211-224 MarkJobForRecoveryCommand *)
Record t := mk {
  job_id : JobId;
  old_worker_id : WorkerId;
  saga_id : string;
  recovery_reason : option string;
  metadata : CommandMetadataDefault.t;
}.

(** src: crates/server/domain/src/saga/commands/recovery.rs 229-238 MarkJobForRecoveryCommand::new *)
Definition new (job : JobId) (old : WorkerId) (saga : string) (fresh : Uuid)
    (now : DateTime) : t :=
  mk job old saga None (saga_metadata saga fresh now).

(** src: crates/server/domain/src/saga/commands/recovery.rs 242-256 MarkJobForRecoveryCommand::with_reason *)
Definition with_reason (job : JobId) (old : WorkerId) (saga why : string) (fresh : Uuid)
    (now : DateTime) : t :=
  mk job old saga (Some why) (saga_metadata saga fresh now).

(** src: crates/server/domain/src/saga/commands/recovery.rs 263-268 MarkJobForRecoveryCommand::idempotency_key *)
Definition idempotency_key (c : t) : string :=
  saga_id c +:+ "-mark-recovery-" +:+ uuid_to_string (job_id c) +:+ "-"
  +:+ uuid_to_string (old_worker_id c).

End command.
End MarkJobForRecoveryCommand.

Module JobRecoveryMarkResult.

(** src: crates/server/domain/src/saga/commands/recovery.rs 273-280 JobRecoveryMarkResult *)
Record t := mk {
  success : bool;
  new_state : JobState.t;
  failure_reason : option string;
}.

(** src: crates/server/domain/src/saga/commands/recovery.rs 285-291 JobRecoveryMarkResult::success *)
Definition succeeded (s : JobState.t) : t := mk true s None.
(** src: crates/server/domain/src/saga/commands/recovery.rs 295-301 JobRecoveryMarkResult::failure *)
Definition failure (reason : string) : t := mk false JobState.Pending (Some reason).

End JobRecoveryMarkResult.

Module MarkJobForRecoveryError.
Section error.
Context `{E : Externs}.

(** src: crates/server/domain/src/saga/commands/recovery.rs 306-315 MarkJobForRecoveryError *)
Inductive t :=
  | JobNotFound (job_id : JobId)
  | MarkFailed (job_id : JobId) (source : DomainError.t).

(** src: crates/server/domain/src/saga/commands/recovery.rs 305-315 Display for MarkJobForRecoveryError *)
Definition fmt (e : t) : string :=
  match e with
  | JobNotFound i => "Job " +:+ uuid_to_string i +:+ " not found"
  | MarkFailed _ source => "Failed to mark job for recovery: " +:+ DomainError.fmt source
  end.

End error.
End MarkJobForRecoveryError.

Module MarkJobForRecoveryHandler.
Section handler.
Context `{E : Externs} {S : Type} `{!JobRepository.t S}.
Import MarkJobForRecoveryError.

(** src: crates/server/domain/src/saga/commands/recovery.rs 341-367 MarkJobForRecoveryHandler::handle *)
Definition handle (command : MarkJobForRecoveryCommand.t) :
    method S MarkJobForRecoveryError.t JobRecoveryMarkResult.t :=
  let job_id := MarkJobForRecoveryCommand.job_id command in
  found ← mapping_error (JobRepository.find_by_id job_id) (MarkFailed job_id);
  _ ← lift (ok_or found (JobNotFound job_id));
  mapping_error (JobRepository.update_state job_id JobState.Pending) (MarkFailed job_id);;
  mret (JobRecoveryMarkResult.succeeded JobState.Pending).

End handler.
End MarkJobForRecoveryHandler.

(** ** ProvisionNewWorker *)

Module ProvisionNewWorkerCommand.
Section command.
Context `{E : Externs}.

(** src: crates/server/domain/src/saga/commands/recovery.rs 430-442 ProvisionNewWorkerCommand *)
Record t := mk {
  job_id : JobId;
  provider_id : ProviderId;
  old_worker_id : WorkerId;
  saga_id : string;
  metadata : CommandMetadataDefault.t;
}.

(** src: crates/server/domain/src/saga/commands/recovery.rs 447-461 ProvisionNewWorkerCommand::new *)
Definition new (job : JobId) (provider : ProviderId) (old : WorkerId) (saga : string)
    (fresh : Uuid) (now : DateTime) : t :=
  mk job provider old saga (saga_metadata saga fresh now).

(** src: crates/server/domain/src/saga/commands/recovery.rs 468-473 ProvisionNewWorkerCommand::idempotency_key *)
Definition idempotency_key (c : t) : string :=
  saga_id c +:+ "-provision-new-worker-" +:+ uuid_to_string (job_id c) +:+ "-"
  +:+ uuid_to_string (old_worker_id c).

End command.
End ProvisionNewWorkerCommand.

(** The result of the command, of the same name as the one of the service. *)
Module RecoveryProvisioningResult.
Section result.
Context `{E : Externs}.

(** src: crates/server/domain/src/saga/commands/recovery.rs 478-487 WorkerProvisioningResult *)
Record t := mk {
  success : bool;
  new_worker_id : option WorkerId;
  provider_id : option ProviderId;
  error_message : option string;
}.

(** src: crates/server/domain/src/saga/commands/recovery.rs 492-499 WorkerProvisioningResult::success *)
Definition succeeded (w : WorkerId) (p : ProviderId) : t := mk true (Some w) (Some p) None.
(** src: crates/server/domain/src/saga/commands/recovery.rs 503-510 WorkerProvisioningResult::failure *)
Definition failure (error : string) : t := mk false None None (Some error).

End result.
End RecoveryProvisioningResult.

Module ProvisionNewWorkerError.
Section error.
Context `{E : Externs}.

(** src: crates/server/domain/src/saga/commands/recovery.rs 515-524 ProvisionNewWorkerError *)
Inductive t :=
  | ProviderNotAvailable (provider_id : ProviderId)
  | ProvisioningFailed (provider_id : ProviderId) (source : DomainError.t).

(** src: crates/server/domain/src/saga/commands/recovery.rs 514-524 Display for ProvisionNewWorkerError *)
Definition fmt (e : t) : string :=
  match e with
  | ProviderNotAvailable p => "Provider " +:+ uuid_to_string p +:+ " not available"
  | ProvisioningFailed _ source => "Failed to provision worker: " +:+ DomainError.fmt source
  end.

End error.
End ProvisionNewWorkerError.

Module ProvisionNewWorkerHandler.
Section handler.
Context `{E : Externs} {S : Type} `{!WorkerProvisioning.t S}.

(** [fresh] is the identifier of [WorkerId::new()] in the specification. *)
(** src: crates/server/domain/src/saga/commands/recovery.rs 607-631 GenericProvisionNewWorkerHandler::handle *)
Definition handle (command : ProvisionNewWorkerCommand.t) (fresh : Uuid) :
    method S ProvisionNewWorkerError.t RecoveryProvisioningResult.t :=
  let spec :=
    WorkerSpec.with_label "original_worker_id"
      (uuid_to_string (ProvisionNewWorkerCommand.old_worker_id command))
      (WorkerSpec.with_label "recovery" "true"
        (WorkerSpec.new "hodei-worker:latest" "localhost:50051" fresh)) in
  let provider_id := ProvisionNewWorkerCommand.provider_id command in
  r ← mapping_error
    (WorkerProvisioning.provision_worker provider_id spec
       (ProvisionNewWorkerCommand.job_id command))
    (ProvisionNewWorkerError.ProvisioningFailed provider_id);
  mret (RecoveryProvisioningResult.succeeded (WorkerProvisioningResult.worker_id r)
          (WorkerProvisioningResult.provider_id r)).

End handler.
End ProvisionNewWorkerHandler.

(** ** TransferJob *)

Module TransferJobCommand.
Section command.
Context `{E : Externs}.

(** src: crates/server/domain/src/saga/commands/recovery.rs 638-650 TransferJobCommand *)
Record t := mk {
  job_id : JobId;
  new_worker_id : WorkerId;
  old_worker_id : WorkerId;
  saga_id : string;
  metadata : CommandMetadataDefault.t;
}.

(** src: crates/server/domain/src/saga/commands/recovery.rs 655-669 TransferJobCommand::new *)
Definition new (job : JobId) (new_worker old : WorkerId) (saga : string) (fresh : Uuid)
    (now : DateTime) : t :=
  mk job new_worker old saga (saga_metadata saga fresh now).

(** src: crates/server/domain/src/saga/commands/recovery.rs 676-681 TransferJobCommand::idempotency_key *)
Definition idempotency_key (c : t) : string :=
  saga_id c +:+ "-transfer-job-" +:+ uuid_to_string (job_id c) +:+ "-"
  +:+ uuid_to_string (old_worker_id c) +:+ "-" +:+ uuid_to_string (new_worker_id c).

End command.
End TransferJobCommand.

Module JobTransferResult.

(** src: crates/server/domain/src/saga/commands/recovery.rs 686-693 JobTransferResult *)
Record t := mk {
  success : bool;
  new_state : JobState.t;
  error_message : option string;
}.

(** src: crates/server/domain/src/saga/commands/recovery.rs 698-704 JobTransferResult::success *)
Definition succeeded (s : JobState.t) : t := mk true s None.
(** src: crates/server/domain/src/saga/commands/recovery.rs 708-714 JobTransferResult::failure *)
Definition failure (error : string) : t := mk false JobState.Pending (Some error).

End JobTransferResult.

Module TransferJobError.
Section error.
Context `{E : Externs}.

(** src: crates/server/domain/src/saga/commands/recovery.rs 719-728 TransferJobError *)
Inductive t :=
  | JobNotFound (job_id : JobId)
  | TransferFailed (job_id : JobId) (source : DomainError.t).

(** src: crates/server/domain/src/saga/commands/recovery.rs 718-728 Display for TransferJobError *)
Definition fmt (e : t) : string :=
  match e with
  | JobNotFound i => "Job " +:+ uuid_to_string i +:+ " not found"
  | TransferFailed _ source => "Failed to transfer job: " +:+ DomainError.fmt source
  end.

End error.
End TransferJobError.

Module TransferJobHandler.
Section handler.
Context `{E : Externs} {S : Type} `{!JobRepository.t S} `{!WorkerRegistry.t S}.
Import TransferJobError.

(** src: crates/server/domain/src/saga/commands/recovery.rs 760-792 TransferJobHandler::handle *)
Definition handle (command : TransferJobCommand.t) :
    method S TransferJobError.t JobTransferResult.t :=
  let job_id := TransferJobCommand.job_id command in
  let new_worker_id := TransferJobCommand.new_worker_id command in
  found ← mapping_error (JobRepository.find_by_id job_id) (TransferFailed job_id);
  _ ← lift (ok_or found (JobNotFound job_id));
  mapping_error (WorkerRegistry.update_state new_worker_id WorkerState.Busy)
    (TransferFailed job_id);;
  mapping_error (JobRepository.update_state job_id JobState.Running) (TransferFailed job_id);;
  mret (JobTransferResult.succeeded JobState.Running).

End handler.
End TransferJobHandler.

(** ** DestroyOldWorker *)

Module DestroyOldWorkerCommand.
Section command.
Context `{E : Externs}.

(** src: crates/server/domain/src/saga/commands/recovery.rs 868-881 DestroyOldWorkerCommand *)
Record t := mk {
  worker_id : WorkerId;
  provider_id : ProviderId;
  saga_id : string;
  reason : option string;
  metadata : CommandMetadataDefault.t;
}.

(** src: crates/server/domain/src/saga/commands/recovery.rs 886-895 DestroyOldWorkerCommand::new *)
Definition new (worker : WorkerId) (provider : ProviderId) (saga : string) (fresh : Uuid)
    (now : DateTime) : t :=
  mk worker provider saga None (saga_metadata saga fresh now).

(** src: crates/server/domain/src/saga/commands/recovery.rs 899-913 DestroyOldWorkerCommand::with_reason *)
Definition with_reason (worker : WorkerId) (provider : ProviderId) (saga why : string)
    (fresh : Uuid) (now : DateTime) : t :=
  mk worker provider saga (Some why) (saga_metadata saga fresh now).

(** src: crates/server/domain/src/saga/commands/recovery.rs 920-925 DestroyOldWorkerCommand::idempotency_key *)
Definition idempotency_key (c : t) : string :=
  saga_id c +:+ "-destroy-old-worker-" +:+ uuid_to_string (worker_id c).

End command.
End DestroyOldWorkerCommand.

Module DestroyOldWorkerError.
Section error.
Context `{E : Externs}.

(** src: crates/server/domain/src/saga/commands/recovery.rs 930-939 DestroyOldWorkerError *)
Inductive t :=
  | WorkerNotFound (worker_id : WorkerId)
  | DestructionFailed (worker_id : WorkerId) (source : DomainError.t).

(** src: crates/server/domain/src/saga/commands/recovery.rs 929-939 Display for DestroyOldWorkerError *)
Definition fmt (e : t) : string :=
  match e with
  | WorkerNotFound w => "Worker " +:+ uuid_to_string w +:+ " not found"
  | DestructionFailed w source =>
      "Failed to destroy worker " +:+ uuid_to_string w +:+ ": " +:+ DomainError.fmt source
  end.

End error.
End DestroyOldWorkerError.

Module DestroyOldWorkerHandler.
Section handler.
Context `{E : Externs} {S : Type} `{!WorkerProvisioning.t S}.

(** src: crates/server/domain/src/saga/commands/recovery.rs 1007-1017 GenericDestroyOldWorkerHandler::handle *)
Definition handle (command : DestroyOldWorkerCommand.t) :
    method S DestroyOldWorkerError.t unit :=
  mapping_error (WorkerProvisioning.destroy_worker (DestroyOldWorkerCommand.worker_id command))
    (DestroyOldWorkerError.DestructionFailed (DestroyOldWorkerCommand.worker_id command)).

End handler.
End DestroyOldWorkerHandler.
