(* ===== verification/CommandOutbox.v ===== *)
(** * The command outbox ([crates/server/domain/src/command/outbox.rs])

    The records of the outbox, the bus that writes one before it dispatches, and
    the relay that works off the pending records.  The repository of the records
    is a database; it is a parameter, as are the deserializers that serde
    derives for the two payloads the relay knows. *)

From S2P Require Import Prelude Effects Std Externs States Commands CommandBus JobCommands.

Module CommandOutboxStatus.

(** src: crates/server/domain/src/command/outbox.rs 25-34 CommandOutboxStatus *)
Inductive t := Pending | Completed | Failed | Cancelled.

#[global] Instance t_eq_dec : EqDecision t.
Proof. solve_decision. Defined.

(** src: crates/server/domain/src/command/outbox.rs 36-45 impl Display for CommandOutboxStatus *)
Definition fmt (s : t) : string :=
  match s with
  | Pending => "PENDING"
  | Completed => "COMPLETED"
  | Failed => "FAILED"
  | Cancelled => "CANCELLED"
  end.

End CommandOutboxStatus.

Module CommandOutboxError.
Section error.
Context `{E : Externs}.

(** The errors of [sqlx] and [serde_json] are their messages. *)
(** src: crates/server/domain/src/command/outbox.rs 49-64 CommandOutboxError *)
Inductive t :=
  | Database (message : string)
  | Serialization (message : string)
  | DuplicateIdempotencyKey (key : string)
  | NotFound (id : Uuid)
  | HandlerError (message : string).

(** src: crates/server/domain/src/command/outbox.rs 48-64 Display for CommandOutboxError *)
Definition fmt (e : t) : string :=
  match e with
  | Database m => "Database error: " +:+ m
  | Serialization m => "Serialization error: " +:+ m
  | DuplicateIdempotencyKey key => "Duplicate idempotency key: " +:+ key
  | NotFound i => "Command not found: " +:+ uuid_to_string i
  | HandlerError m => "Command handler error: " +:+ m
  end.

End error.
End CommandOutboxError.

Module CommandOutboxInsert.
Section insert.
Context `{E : Externs}.

(** src: crates/server/domain/src/command/outbox.rs 68-81 CommandOutboxInsert *)
Record t := mk {
  target_id : Uuid;
  target_type : CommandTargetType.t;
  command_type : string;
  payload : Json;
  metadata : option Json;
  idempotency_key : option string;
}.

(** src: crates/server/domain/src/command/outbox.rs 85-101 CommandOutboxInsert::new *)
Definition new := mk.

(** src: crates/server/domain/src/command/outbox.rs 104-119 CommandOutboxInsert::for_job *)
Definition for_job (job : Uuid) (type : string) (body : Json) (meta : option Json)
    (key : option string) : t :=
  new job CommandTargetType.Job type body meta key.

(** src: crates/server/domain/src/command/outbox.rs 122-137 CommandOutboxInsert::for_worker *)
Definition for_worker (worker : Uuid) (type : string) (body : Json) (meta : option Json)
    (key : option string) : t :=
  new worker CommandTargetType.Worker type body meta key.

End insert.
End CommandOutboxInsert.

Module CommandOutboxRecord.
Section record.
Context `{E : Externs}.

(** src: crates/server/domain/src/command/outbox.rs 142-155 CommandOutboxRecord *)
Record t := mk {
  id : Uuid;
  target_id : Uuid;
  target_type : CommandTargetType.t;
  command_type : string;
  payload : Json;
  metadata : option Json;
  idempotency_key : option string;
  status : CommandOutboxStatus.t;
  created_at : DateTime;
  processed_at : option DateTime;
  retry_count : Z;
  last_error : option string;
}.

#[global] Instance t_rebuild : Rebuild t := fun r =>
  mk (id r) (target_id r) (target_type r) (command_type r) (payload r) (metadata r)
    (idempotency_key r) (status r) (created_at r) (processed_at r) (retry_count r)
    (last_error r).

(** src: crates/server/domain/src/command/outbox.rs 159-161 CommandOutboxRecord::is_pending *)
Definition is_pending (r : t) : bool := bool_decide (status r = CommandOutboxStatus.Pending).

(** src: crates/server/domain/src/command/outbox.rs 164-166 CommandOutboxRecord::is_completed *)
Definition is_completed (r : t) : bool := bool_decide (status r = CommandOutboxStatus.Completed).

(** src: crates/server/domain/src/command/outbox.rs 169-171 CommandOutboxRecord::has_failed *)
Definition has_failed (max_retries : Z) (r : t) : bool :=
  bool_decide (status r = CommandOutboxStatus.Failed) && (max_retries <=? retry_count r).

(** src: crates/server/domain/src/command/outbox.rs 174-176 CommandOutboxRecord::age *)
Definition age (now : DateTime) (r : t) : TimeDelta := signed_duration_since now (created_at r).

End record.
End CommandOutboxRecord.

Module CommandOutboxStats.

(** src: crates/server/domain/src/command/outbox.rs 217-222 CommandOutboxStats *)
Record t := mk {
  pending_count : Z;
  completed_count : Z;
  failed_count : Z;
  oldest_pending_age_seconds : option Z;
}.

(** src: crates/server/domain/src/command/outbox.rs 226-228 CommandOutboxStats::total *)
Definition total (s : t) : Z :=
  u64_add (u64_add (pending_count s) (completed_count s)) (failed_count s).

(** src: crates/server/domain/src/command/outbox.rs 231-233 CommandOutboxStats::has_pending *)
Definition has_pending (s : t) : bool := 0 <? pending_count s.

End CommandOutboxStats.

(** The operations of the repository the bus and the relay use, on the state [S]. *)
(** src: crates/server/domain/src/command/outbox.rs 181-213 CommandOutboxRepository *)
Class CommandOutboxRepository `{E : Externs} (S : Type) := {
  insert_command : CommandOutboxInsert.t -> method S CommandOutboxError.t Uuid;
  get_pending_commands : nat -> Z -> method S CommandOutboxError.t (list CommandOutboxRecord.t);
  mark_completed : Uuid -> method S CommandOutboxError.t unit;
  mark_failed : Uuid -> string -> method S CommandOutboxError.t unit;
  exists_by_idempotency_key : string -> method S CommandOutboxError.t bool;
  get_stats : method S CommandOutboxError.t CommandOutboxStats.t;
}.

(** A call of the repository in a method that may also panic. *)
Definition repository_call {S F G A} (m : method S F A) (f : F -> G) : method S (exn G) A :=
  fun s => let (s', r) := m s in (s', map_err (fun e => Error (f e)) r).

Module OutboxCommandBus.
Section bus.
Context `{E : Externs} `{T : CommandTypes} {S : Type}.
Context `{!CommandOutboxRepository S}.
(** The bus behind, and the fresh identifier of [Uuid::new_v4()]. *)
Context (inner : ErasedCommandBus S) (new_v4 : S -> S * Uuid).

(** [json!({"type_id": format!("{:?}", command_type_id)})] *)
Definition placeholder (command_type_id : TypeId) : Json :=
  json_set json_empty_object "type_id" (json_of_string (type_id_debug command_type_id)).

(** src: crates/server/domain/src/command/outbox.rs 276-312 OutboxCommandBus::dispatch_erased *)
Definition dispatch_erased (command : Any) (command_type_id : TypeId) (command_name : string)
    (target_type : CommandTargetType.t) : method S (exn CommandError.t) Any :=
  target_id ← (fun s => let (s', i) := new_v4 s in (s', Ok i));
  let insert :=
    CommandOutboxInsert.new target_id target_type command_name (placeholder command_type_id)
      None None in
  repository_call (insert_command insert)
    (fun e => CommandError.OutboxError command_name (CommandOutboxError.fmt e));;
  dispatch_any (ErasedCommandBus := inner) command command_type_id command_name target_type.

(** src: crates/server/domain/src/command/outbox.rs 271-313 impl ErasedCommandBus for OutboxCommandBus *)
Definition erased : ErasedCommandBus S := {| dispatch_any := dispatch_erased |}.

End bus.
End OutboxCommandBus.

(** ** The relay *)

(** The two payloads, and the deserializers serde derives for them. *)
Module MarkJobFailedPayload.
(** src: crates/server/domain/src/command/outbox.rs 498-501 MarkJobFailedPayload *)
Record t := mk { job_id : string; reason : string }.
End MarkJobFailedPayload.

Module ResumePayload.
(** src: crates/server/domain/src/command/outbox.rs 535-538 ResumePayload *)
Record t := mk { job_id : string; resume_reason : option string }.
End ResumePayload.

Class PayloadFormats `{E : Externs} := {
  mark_job_failed_from_value : Json -> result string MarkJobFailedPayload.t;
  resume_from_value : Json -> result string ResumePayload.t;
}.

(** serde's derived deserializers of structures report a missing field that has
    no default and is not an [Option]. *)
Class PayloadLaws `{E : Externs} (P : PayloadFormats) := {
  mark_needs_job_id : forall v,
    is_err (mark_job_failed_from_value (json_set json_empty_object "type_id" v)) = true;
  resume_needs_job_id : forall v,
    is_err (resume_from_value (json_set json_empty_object "type_id" v)) = true;
}.

(** The codes of the two command types, and their values. *)
Class JobCommandCodes `{E : Externs} `{T : CommandTypes} := {
  MarkJobFailed : Cmd;
  mark_job_failed : MarkJobFailedCommand.t -> denote (Self MarkJobFailed);
  ResumeFromManualIntervention : Cmd;
  resume_from_manual_intervention :
    ResumeFromManualInterventionCommand.t -> denote (Self ResumeFromManualIntervention);
}.

Module CommandOutboxRelay.
Section relay.
Context `{E : Externs} `{T : CommandTypes} {S : Type}.
Context `{!CommandOutboxRepository S} `{!ErasedCommandBus S}.
Context `{P : !PayloadFormats} `{!JobCommandCodes}.
(** A fresh identifier and the clock, for the metadata of a command. *)
Context (new_v4 : S -> S * Uuid) (now : S -> S * DateTime).

Definition metadata : method S (exn CommandOutboxError.t) (Uuid * DateTime) :=
  fun s => let (s, i) := new_v4 s in let (s, t) := now s in (s, Ok (i, t)).

(** [dispatch_erased(&self.command_bus, command).await], with its error. *)
Definition dispatch_command (C : Cmd) (command : denote (Self C)) :
    method S (exn CommandOutboxError.t) unit :=
  answer ← catch (dispatch_erased C command);
  _ ← or_error (fun e => CommandOutboxError.HandlerError (CommandError.fmt e)) answer;
  mret tt.

Definition parse_job_id (s : string) : method S (exn CommandOutboxError.t) JobId :=
  or_error id (ok_or (uuid_parse_str s) (CommandOutboxError.HandlerError "Invalid job_id format")).

(** src: crates/server/domain/src/command/outbox.rs 492-526 CommandOutboxRelay::dispatch_mark_job_failed *)
Definition dispatch_mark_job_failed (record : CommandOutboxRecord.t) :
    method S (exn CommandOutboxError.t) unit :=
  payload ← or_error CommandOutboxError.Serialization
    (mark_job_failed_from_value (CommandOutboxRecord.payload record));
  job_id ← parse_job_id (MarkJobFailedPayload.job_id payload);
  m ← metadata;
  let command :=
    MarkJobFailedCommand.new job_id (MarkJobFailedPayload.reason payload) m.1 m.2 in
  dispatch_command MarkJobFailed (mark_job_failed command).

(** src: crates/server/domain/src/command/outbox.rs 529-572 CommandOutboxRelay::dispatch_resume_from_manual_intervention *)
Definition dispatch_resume_from_manual_intervention (record : CommandOutboxRecord.t) :
    method S (exn CommandOutboxError.t) unit :=
  payload ← or_error CommandOutboxError.Serialization
    (resume_from_value (CommandOutboxRecord.payload record));
  job_id ← parse_job_id (ResumePayload.job_id payload);
  m ← metadata;
  let command :=
    match ResumePayload.resume_reason payload with
    | Some reason => ResumeFromManualInterventionCommand.with_reason job_id reason m.1 m.2
    | None => ResumeFromManualInterventionCommand.new job_id m.1 m.2
    end in
  dispatch_command ResumeFromManualIntervention (resume_from_manual_intervention command).

(** src: crates/server/domain/src/command/outbox.rs 449-489 CommandOutboxRelay::process_command *)
Definition process_command (record : CommandOutboxRecord.t) :
    method S (exn CommandOutboxError.t) unit :=
  let type := CommandOutboxRecord.command_type record in
  if String.eqb type "MarkJobFailed" then dispatch_mark_job_failed record
  else if String.eqb type "ResumeFromManualIntervention" then
    dispatch_resume_from_manual_intervention record
  else
    throw (Error (CommandOutboxError.HandlerError ("Unknown command type: " +:+ type))).

(** The loop over the batch: the identifiers of the completed records and those
    of the failed ones with their errors, in order. *)
(** src: crates/server/domain/src/command/outbox.rs 417-434 CommandOutboxRelay::process_pending_commands (loop) *)
Fixpoint process_all (records : list CommandOutboxRecord.t) (completed : list Uuid)
    (failed : list (Uuid * string)) :
    method S (exn CommandOutboxError.t) (list Uuid * list (Uuid * string)) :=
  match records with
  | [] => mret (completed, failed)
  | record :: records =>
      r ← catch (process_command record);
      match r with
      | Ok _ => process_all records (completed ++ [CommandOutboxRecord.id record]) failed
      | Err e =>
          process_all records completed
            (failed ++ [(CommandOutboxRecord.id record, CommandOutboxError.fmt e)])
      end
  end.

Fixpoint for_each {A} (f : A -> method S (exn CommandOutboxError.t) unit) (l : list A) :
    method S (exn CommandOutboxError.t) unit :=
  match l with [] => mret tt | x :: l => f x;; for_each f l end.

(** src: crates/server/domain/src/command/outbox.rs 401-446 CommandOutboxRelay::process_pending_commands *)
Definition process_pending_commands (batch_size : nat) (max_retries : Z) :
    method S (exn CommandOutboxError.t) unit :=
  pending_commands ← repository_call (get_pending_commands batch_size max_retries) id;
  match pending_commands with
  | [] => mret tt
  | _ =>
      done_ ← process_all pending_commands [] [];
      for_each (fun i => repository_call (mark_completed i) id) done_.1;;
      for_each (fun '(i, message) => repository_call (mark_failed i message) id) done_.2
  end.

End relay.
End CommandOutboxRelay.

(** ** Properties *)

Section outbox_properties.
Context `{E : Externs} `{T : CommandTypes} {S : Type}.
Context `{!CommandOutboxRepository S} `{B : !ErasedCommandBus S}.
Context `{P : !PayloadFormats} `{!PayloadLaws P} `{!JobCommandCodes}.
Context (new_v4 : S -> S * Uuid) (now : S -> S * DateTime).
Import CommandOutboxRelay.

(** A record that was written by the outbox bus. *)
Definition outboxed (r : CommandOutboxRecord.t) : Prop :=
  exists i, CommandOutboxRecord.payload r = OutboxCommandBus.placeholder i.

Lemma process_outboxed r s :
  outboxed r -> exists e, process_command new_v4 now r s = (s, Err (Error e)).
Proof.
  intros [i Hr]. unfold process_command, dispatch_mark_job_failed,
    dispatch_resume_from_manual_intervention. rewrite Hr. unfold OutboxCommandBus.placeholder.
  pose proof (mark_needs_job_id (json_of_string (type_id_debug i))) as Hm.
  pose proof (resume_needs_job_id (json_of_string (type_id_debug i))) as Hr'.
  destruct (String.eqb _ _); [|destruct (String.eqb _ _)].
  - destruct (mark_job_failed_from_value _); [discriminate|]. by eexists.
  - destruct (resume_from_value _); [discriminate|]. by eexists.
  - by eexists.
Qed.

Lemma process_all_outboxed rs completed failed s :
  Forall outboxed rs ->
  exists errors, length errors = length rs /\
    process_all new_v4 now rs completed failed s =
      (s, Ok (completed, failed ++ zip (CommandOutboxRecord.id <$> rs) errors)).
Proof.
  intros Hrs. revert failed. induction Hrs as [|r rs Hr Hrs IH]; intros failed.
  - exists []. split; [done|]. simpl. by rewrite app_nil_r.
  - destruct (process_outboxed r s Hr) as [e He].
    destruct (IH (failed ++ [(CommandOutboxRecord.id r, CommandOutboxError.fmt e)]))
      as (errors & Hlen & Hrun).
    exists (CommandOutboxError.fmt e :: errors). split; [simpl; by rewrite Hlen|].
    cbn [process_all]. unfold mbind, method_bind, catch. rewrite He. cbv beta iota.
    rewrite Hrun. by rewrite <- app_assoc.
Qed.

(** The outbox bus writes a record and then dispatches the
    command at once, whether or not anything commits in between; when the record
    cannot be written, nothing is dispatched.  The record names the type of the
    command only by an opaque number and has no idempotency key, so the relay
    can never replay it: whatever the command was, processing such a record
    fails without dispatching anything, and a batch of them is marked as failed,
    record by record, with the errors in the order of the batch. *)
Theorem outboxed_commands_are_never_replayed :
  (forall command i name target s,
     let (s1, fresh) := new_v4 s in
     let record := CommandOutboxInsert.new fresh target name (OutboxCommandBus.placeholder i)
                     None None in
     OutboxCommandBus.dispatch_erased B new_v4 command i name target s =
       match insert_command record s1 with
       | (s2, Ok _) => dispatch_any command i name target s2
       | (s2, Err e) =>
           (s2, Err (Error (CommandError.OutboxError name (CommandOutboxError.fmt e))))
       end) /\
  (forall r s, outboxed r -> exists e, process_command new_v4 now r s = (s, Err (Error e))) /\
  (forall size retries s s1 rs,
     get_pending_commands size retries s = (s1, Ok rs) -> Forall outboxed rs ->
     exists errors, length errors = length rs /\
       process_pending_commands new_v4 now size retries s =
         for_each (fun '(i, message) => repository_call (mark_failed i message) id)
           (zip (CommandOutboxRecord.id <$> rs) errors) s1).
Proof.
  split_and!.
  - intros command i name target s. unfold OutboxCommandBus.dispatch_erased, repository_call.
    unfold mbind, method_bind. destruct (new_v4 s) as [s1 fresh].
    by destruct (insert_command _ s1) as [s2 []].
  - apply process_outboxed.
  - intros size retries s s1 rs Hget Hrs.
    destruct (process_all_outboxed rs [] [] s1 Hrs) as (errors & Hlen & Hrun).
    exists errors. split; [done|]. unfold process_pending_commands, mbind, method_bind.
    unfold repository_call at 1. rewrite Hget. simpl.
    destruct rs as [|r rs]; [by destruct errors|]. rewrite Hrun. simpl.
    by destruct errors.
Qed.

End outbox_properties.

(** ** An outbox in memory, in front of a bus that echoes what it is sent *)

Module ExampleOutbox.

Record world := mk { records : list (CommandOutboxRecord.t (E := concrete)); dispatched : nat }.

Definition record_of (w : world) (c : CommandOutboxInsert.t (E := concrete)) :
    CommandOutboxRecord.t (E := concrete) :=
  CommandOutboxRecord.mk (E := concrete) (length (records w)) (CommandOutboxInsert.target_id c)
    (CommandOutboxInsert.target_type c) (CommandOutboxInsert.command_type c)
    (CommandOutboxInsert.payload c) None None CommandOutboxStatus.Pending 0 None 0 None.

Definition mark_record (status : CommandOutboxStatus.t) (error : option string)
    (r : CommandOutboxRecord.t (E := concrete)) :=
  CommandOutboxRecord.mk (E := concrete) (CommandOutboxRecord.id r) (CommandOutboxRecord.target_id r)
    (CommandOutboxRecord.target_type r) (CommandOutboxRecord.command_type r)
    (CommandOutboxRecord.payload r) None None status 0 None 0 error.

Definition mark_in (i : nat) (status : CommandOutboxStatus.t) (error : option string)
    (w : world) : world :=
  mk ((fun r => if (CommandOutboxRecord.id (E := concrete) r =? i)%nat
                then mark_record status error r else r) <$> records w) (dispatched w).

#[global] Instance repository : CommandOutboxRepository (E := concrete) world := {|
  insert_command := fun c w => (mk (records w ++ [record_of w c]) (dispatched w), Ok (length (records w)));
  get_pending_commands := fun size _ w =>
    (w, Ok (take size (filter (fun r => CommandOutboxRecord.is_pending r = true) (records w))));
  mark_completed := fun i w => (mark_in i CommandOutboxStatus.Completed None w, Ok tt);
  mark_failed := fun i m w => (mark_in i CommandOutboxStatus.Failed (Some m) w, Ok tt);
  exists_by_idempotency_key := fun _ w => (w, Ok false);
  get_stats := fun w => (w, Ok (CommandOutboxStats.mk 0 0 0 None));
|}.

#[global] Instance echo : ErasedCommandBus (T := example_types) world := {|
  dispatch_any := fun c _ _ _ w => (mk (records w) (S (dispatched w)), Ok c);
|}.

#[global] Instance payloads : PayloadFormats (E := concrete) := {|
  mark_job_failed_from_value := fun j => Err "missing field `job_id`";
  resume_from_value := fun j => Err "missing field `job_id`";
|}.

#[global] Instance payload_laws : PayloadLaws (E := concrete) payloads.
Proof. split; by intros. Qed.

#[global] Instance codes : JobCommandCodes (E := concrete) (T := example_types) :=
  @Build_JobCommandCodes concrete example_types tt (fun _ => 0%nat) tt (fun _ => 0%nat).

Definition fresh (w : world) : world * nat := (w, length (records w)).
Definition clock (w : world) : world * Z := (w, 0).

(** One command through the bus, then one round of the relay. *)
Definition after_dispatch : world :=
  fst (OutboxCommandBus.dispatch_erased (E := concrete) (T := example_types) echo fresh
         (box (T := example_types) (ty := true) 21%nat) true "MarkJobFailed"
         CommandTargetType.Job (mk [] 0)).

Definition round : world * result (exn (CommandOutboxError.t (E := concrete))) unit :=
  CommandOutboxRelay.process_pending_commands (E := concrete) (T := example_types) fresh clock
    10 3 after_dispatch.

End ExampleOutbox.

Example outboxed_commands_are_never_replayed_witness :
  ExampleOutbox.dispatched (fst ExampleOutbox.round) = 1%nat /\
  (CommandOutboxRecord.status <$> ExampleOutbox.records (fst ExampleOutbox.round))
    = [CommandOutboxStatus.Failed] /\
  exists errors, length errors = 1%nat /\
    ExampleOutbox.round =
      CommandOutboxRelay.for_each (E := concrete)
        (fun '(i, message) => repository_call (mark_failed (E := concrete) i message) id)
        (zip [0%nat] errors) ExampleOutbox.after_dispatch.
Proof.
  split; [by vm_compute|]. split; [by vm_compute|].
  destruct (outboxed_commands_are_never_replayed (E := concrete) (T := example_types)
    ExampleOutbox.fresh ExampleOutbox.clock) as (_ & _ & H).
  assert (get_pending_commands (E := concrete) 10 3 ExampleOutbox.after_dispatch =
    (ExampleOutbox.after_dispatch, Ok (ExampleOutbox.records ExampleOutbox.after_dispatch)))
    as Hget by (vm_compute; reflexivity).
  destruct (H _ _ _ _ _ Hget) as (errors & Hlen & Hrun); [|exists errors; split; [exact Hlen|exact Hrun]].
  repeat constructor. by exists true.
Defined.
