(* ===== verification/SagaTypes.v ===== *)
(** * The vocabulary of sagas ([crates/server/domain/src/saga])

    Saga types and states ([types.rs]), the execution context and the result of
    a saga ([types.rs]), the record of a step ([repository.rs]), the timeouts of
    each saga type ([timeout_config.rs]) and the audit trail
    ([audit_trail.rs]). *)

From S2P Require Import Prelude Std Externs States Errors.

Module SagaType.

(** src: crates/server/domain/src/saga/types.rs 158-171 SagaType *)
Inductive t := Provisioning | Execution | Recovery | Cancellation | Timeout | Cleanup.

#[global] Instance t_eq_dec : EqDecision t.
Proof. solve_decision. Defined.

(** src: crates/server/domain/src/saga/types.rs 176-185 SagaType::as_str *)
Definition as_str (s : t) : string :=
  match s with
  | Provisioning => "PROVISIONING"
  | Execution => "EXECUTION"
  | Recovery => "RECOVERY"
  | Cancellation => "CANCELLATION"
  | Timeout => "TIMEOUT"
  | Cleanup => "CLEANUP"
  end.

(** src: crates/server/domain/src/saga/types.rs 189-191 SagaType::is_provisioning *)
Definition is_provisioning (s : t) : bool := bool_decide (s = Provisioning).
(** src: crates/server/domain/src/saga/types.rs 195-197 SagaType::is_execution *)
Definition is_execution (s : t) : bool := bool_decide (s = Execution).
(** src: crates/server/domain/src/saga/types.rs 201-203 SagaType::is_recovery *)
Definition is_recovery (s : t) : bool := bool_decide (s = Recovery).
(** src: crates/server/domain/src/saga/types.rs 207-209 SagaType::is_cancellation *)
Definition is_cancellation (s : t) : bool := bool_decide (s = Cancellation).
(** src: crates/server/domain/src/saga/types.rs 213-215 SagaType::is_timeout *)
Definition is_timeout (s : t) : bool := bool_decide (s = Timeout).
(** src: crates/server/domain/src/saga/types.rs 219-221 SagaType::is_cleanup *)
Definition is_cleanup (s : t) : bool := bool_decide (s = Cleanup).

End SagaType.

Module SagaState.

(** src: crates/server/domain/src/saga/types.rs 239-252 SagaState *)
Inductive t := Pending | InProgress | Compensating | Completed | Failed | Cancelled.

#[global] Instance t_eq_dec : EqDecision t.
Proof. solve_decision. Defined.

(** src: crates/server/domain/src/saga/types.rs 265-275 SagaState::can_transition_to *)
Definition can_transition_to (s target : t) : bool :=
  match s, target with
  | Pending, InProgress => true
  | InProgress, (Completed | Compensating | Cancelled) => true
  | Compensating, (Completed | Failed) => true
  | _, _ => false
  end.

(** src: crates/server/domain/src/saga/types.rs 279-284 SagaState::is_terminal *)
Definition is_terminal (s : t) : bool :=
  match s with Completed | Failed | Cancelled => true | _ => false end.

(** src: crates/server/domain/src/saga/types.rs 288-293 SagaState::is_active *)
Definition is_active (s : t) : bool :=
  match s with Pending | InProgress | Compensating => true | _ => false end.

(** src: crates/server/domain/src/saga/types.rs 297-299 SagaState::is_compensating *)
Definition is_compensating (s : t) : bool :=
  match s with Compensating => true | _ => false end.

(** src: crates/server/domain/src/saga/types.rs 302-313 impl Display for SagaState *)
Definition fmt (s : t) : string :=
  match s with
  | Pending => "PENDING"
  | InProgress => "IN_PROGRESS"
  | Compensating => "COMPENSATING"
  | Completed => "COMPLETED"
  | Failed => "FAILED"
  | Cancelled => "CANCELLED"
  end.

End SagaState.

(** ** Identifiers *)

Section saga_ids.
Context `{E : Externs}.

(** src: crates/server/domain/src/saga/types.rs 42-46 saga_id_for_job *)
Definition saga_id_for_job (job_id : string) : Uuid :=
  new_v5 NAMESPACE_OID ("execution-saga-" +:+ job_id).

(** src: crates/server/domain/src/saga/types.rs 57-61 saga_id_for_provisioning *)
Definition saga_id_for_provisioning (provider_id job_id : string) : Uuid :=
  new_v5 NAMESPACE_OID ("provisioning-saga-" +:+ provider_id +:+ ":" +:+ job_id).

(** src: crates/server/domain/src/saga/types.rs 71-75 saga_id_for_recovery *)
Definition saga_id_for_recovery (job_id : string) : Uuid :=
  new_v5 NAMESPACE_OID ("recovery-saga-" +:+ job_id).

(** src: crates/server/domain/src/saga/types.rs 112-116 SagaId::from_string *)
Definition saga_id_from_string (s : string) : SagaId := new_v5 NAMESPACE_DNS s.

End saga_ids.

Module SagaContext.
Section saga_context.
Context `{E : Externs}.

(** src: crates/server/domain/src/saga/types.rs 432-462 SagaContext *)
Record t := mk {
  saga_id : SagaId;
  saga_type : SagaType.t;
  correlation_id : option string;
  actor : option string;
  started_at : DateTime;
  current_step : nat;
  is_compensating : bool;
  metadata : gmap string Json;
  step_outputs : gmap string Json;
  error_message : option string;
  services : option SagaServices;
  state : SagaState.t;
  version : Z;
  trace_parent : option string;
}.

#[global] Instance t_rebuild : Rebuild t := fun c =>
  mk (saga_id c) (saga_type c) (correlation_id c) (actor c) (started_at c)
    (current_step c) (is_compensating c) (metadata c) (step_outputs c)
    (error_message c) (services c) (state c) (version c) (trace_parent c).

(** src: crates/server/domain/src/saga/types.rs 467-489 SagaContext::new *)
Definition new (i : SagaId) (ty : SagaType.t) (correlation act : option string)
    (now : DateTime) : t := {|
  saga_id := i;
  saga_type := ty;
  correlation_id := correlation;
  actor := act;
  started_at := now;
  current_step := 0;
  is_compensating := false;
  metadata := ∅;
  step_outputs := ∅;
  error_message := None;
  services := None;
  state := SagaState.Pending;
  version := 0;
  trace_parent := None;
|}.

(** src: crates/server/domain/src/saga/types.rs 496-526 SagaContext::from_persistence *)
Definition from_persistence (i : SagaId) (ty : SagaType.t) (correlation act : option string)
    (started : DateTime) (step : nat) (compensating : bool) (meta : gmap string Json)
    (error : option string) (st : SagaState.t) (v : Z) (trace : option string) : t := {|
  saga_id := i;
  saga_type := ty;
  correlation_id := correlation;
  actor := act;
  started_at := started;
  current_step := step;
  is_compensating := compensating;
  metadata := meta;
  step_outputs := ∅;
  error_message := error;
  services := None;
  state := st;
  version := v;
  trace_parent := trace;
|}.

(** src: crates/server/domain/src/saga/types.rs 542-547 SagaContext::with_services *)
Definition with_services (s : SagaServices) (c : t) : t := c <| services := Some s |>.

(** [value] is the outcome of [serde_json::to_value]. *)
(** src: crates/server/domain/src/saga/types.rs 557-566 SagaContext::set_step_output *)
Definition set_step_output (step_name : string) (value : result string Json) :
    method t SagaError.t unit :=
  v ← lift (map_err SagaError.SerializationError value);
  modify (fun c => c <| step_outputs := <[step_name := v]> (step_outputs c) |>).

(** [from_value] is [serde_json::from_value]. *)
(** src: crates/server/domain/src/saga/types.rs 570-578 SagaContext::get_step_output *)
Definition get_step_output {V} (from_value : Json -> result string V) (step_name : string)
    (c : t) : option (result SagaError.t V) :=
  (fun v => map_err SagaError.DeserializationError (from_value v)) <$> (step_outputs c !! step_name).

(** src: crates/server/domain/src/saga/types.rs 582-584 SagaContext::set_error *)
Definition set_error (message : string) (c : t) : t := c <| error_message := Some message |>.

(** src: crates/server/domain/src/saga/types.rs 588-590 SagaContext::has_error *)
Definition has_error (c : t) : bool := bool_decide (is_Some (error_message c)).

(** src: crates/server/domain/src/saga/types.rs 594-603 SagaContext::set_metadata *)
Definition set_metadata (key : string) (value : result string Json) :
    method t SagaError.t unit :=
  v ← lift (map_err SagaError.SerializationError value);
  modify (fun c => c <| metadata := <[key := v]> (metadata c) |>).

(** src: crates/server/domain/src/saga/types.rs 607-612 SagaContext::get_metadata *)
Definition get_metadata {V} (from_value : Json -> result string V) (key : string) (c : t) :
    option (result SagaError.t V) :=
  (fun v => map_err SagaError.DeserializationError (from_value v)) <$> (metadata c !! key).

End saga_context.
End SagaContext.

Module SagaExecutionResult.
Section saga_execution_result.
Context `{E : Externs}.

(** src: crates/server/domain/src/saga/types.rs 828-843 SagaExecutionResult *)
Record t := mk {
  saga_id : SagaId;
  saga_type : SagaType.t;
  state : SagaState.t;
  steps_executed : Z;
  compensations_executed : Z;
  duration : Duration;
  error_message : option string;
}.

(** src: crates/server/domain/src/saga/types.rs 848-858 SagaExecutionResult::completed *)
Definition completed (i : SagaId) (ty : SagaType.t) (d : Duration) : t :=
  mk i ty SagaState.Completed 0 0 d None.

(** src: crates/server/domain/src/saga/types.rs 862-877 SagaExecutionResult::completed_with_steps *)
Definition completed_with_steps (i : SagaId) (ty : SagaType.t) (d : Duration) (steps : Z) : t :=
  mk i ty SagaState.Completed steps 0 d None.

(** src: crates/server/domain/src/saga/types.rs 881-897 SagaExecutionResult::compensated *)
Definition compensated (i : SagaId) (ty : SagaType.t) (d : Duration)
    (steps compensations : Z) : t :=
  mk i ty SagaState.Compensating steps compensations d None.

(** src: crates/server/domain/src/saga/types.rs 901-918 SagaExecutionResult::failed *)
Definition failed (i : SagaId) (ty : SagaType.t) (d : Duration) (steps compensations : Z)
    (error : string) : t :=
  mk i ty SagaState.Failed steps compensations d (Some error).

(** src: crates/server/domain/src/saga/types.rs 922-924 SagaExecutionResult::is_success *)
Definition is_success (r : t) : bool := bool_decide (state r = SagaState.Completed).

(** src: crates/server/domain/src/saga/types.rs 928-930 SagaExecutionResult::is_compensated *)
Definition is_compensated (r : t) : bool := bool_decide (state r = SagaState.Compensating).

(** src: crates/server/domain/src/saga/types.rs 934-936 SagaExecutionResult::is_failed *)
Definition is_failed (r : t) : bool := bool_decide (state r = SagaState.Failed).

End saga_execution_result.
End SagaExecutionResult.

(** ** Persisted steps *)

Module SagaStepState.

(** src: crates/server/domain/src/saga/repository.rs 219-232 SagaStepState *)
Inductive t := Pending | InProgress | Completed | Failed | Compensating | Compensated.

(** src: crates/server/domain/src/saga/repository.rs 234-245 impl Display for SagaStepState *)
Definition fmt (s : t) : string :=
  match s with
  | Pending => "PENDING"
  | InProgress => "IN_PROGRESS"
  | Completed => "COMPLETED"
  | Failed => "FAILED"
  | Compensating => "COMPENSATING"
  | Compensated => "COMPENSATED"
  end.

End SagaStepState.

Module SagaStepData.
Section saga_step_data.
Context `{E : Externs}.

(** src: crates/server/domain/src/saga/repository.rs 249-278 SagaStepData *)
Record t := mk {
  step_id : Uuid;
  saga_id : SagaId;
  step_name : string;
  step_order : Z;
  state : SagaStepState.t;
  input_data : option Json;
  output_data : option Json;
  compensation_data : option Json;
  started_at : option DateTime;
  completed_at : option DateTime;
  error_message : option string;
  retry_count : Z;
  created_at : DateTime;
  updated_at : DateTime;
}.

#[global] Instance t_rebuild : Rebuild t := fun d =>
  mk (step_id d) (saga_id d) (step_name d) (step_order d) (state d) (input_data d)
    (output_data d) (compensation_data d) (started_at d) (completed_at d)
    (error_message d) (retry_count d) (created_at d) (updated_at d).

(** src: crates/server/domain/src/saga/repository.rs 310-334 SagaStepData::new_with_order *)
Definition new_with_order (saga : SagaId) (name : string) (order : Z) (input : option Json)
    (step : Uuid) (now : DateTime) : t := {|
  step_id := step;
  saga_id := saga;
  step_name := name;
  step_order := order;
  state := SagaStepState.Pending;
  input_data := input;
  output_data := None;
  compensation_data := None;
  started_at := None;
  completed_at := None;
  error_message := None;
  retry_count := 0;
  created_at := now;
  updated_at := now;
|}.

(** [fresh] is the identifier of [SagaStepId::new()]. *)
(** src: crates/server/domain/src/saga/repository.rs 283-306 SagaStepData::new *)
Definition new (saga : SagaId) (name : string) (order : Z) (input : option Json)
    (fresh : Uuid) (now : DateTime) : t :=
  new_with_order saga name order input fresh now.

(** src: crates/server/domain/src/saga/repository.rs 338-342 SagaStepData::mark_in_progress *)
Definition mark_in_progress (now1 now2 : DateTime) (d : t) : t :=
  d <| state := SagaStepState.InProgress |> <| started_at := Some now1 |>
    <| updated_at := now2 |>.

(** src: crates/server/domain/src/saga/repository.rs 346-351 SagaStepData::mark_completed *)
Definition mark_completed (output : Json) (now1 now2 : DateTime) (d : t) : t :=
  d <| state := SagaStepState.Completed |> <| output_data := Some output |>
    <| completed_at := Some now1 |> <| updated_at := now2 |>.

(** src: crates/server/domain/src/saga/repository.rs 355-360 SagaStepData::mark_failed *)
Definition mark_failed (error : string) (now1 now2 : DateTime) (d : t) : t :=
  d <| state := SagaStepState.Failed |> <| error_message := Some error |>
    <| completed_at := Some now1 |> <| updated_at := now2 |>.

End saga_step_data.
End SagaStepData.

(** ** Timeouts *)

Module SagaTimeoutConfig.

(** src: crates/server/domain/src/saga/timeout_config.rs 28-43 SagaTimeoutConfig *)
Record t := mk {
  provisioning : Duration;
  execution : Duration;
  recovery : Duration;
  cancellation : Duration;
  timeout : Duration;
  cleanup : Duration;
  default_timeout : Duration;
}.

#[global] Instance t_rebuild : Rebuild t := fun c =>
  mk (provisioning c) (execution c) (recovery c) (cancellation c) (timeout c) (cleanup c)
    (default_timeout c).

(** src: crates/server/domain/src/saga/timeout_config.rs 46-56 SagaTimeoutConfig::default *)
Definition default : t :=
  mk (from_secs 300) (from_secs 7200) (from_secs 900) (from_secs 120) (from_secs 120)
    (from_secs 300) (from_secs 300).

(** src: crates/server/domain/src/saga/timeout_config.rs 65-75 SagaTimeoutConfig::kubernetes *)
Definition kubernetes : t :=
  mk (from_secs 600) (from_secs 7200) (from_secs 900) (from_secs 120) (from_secs 120)
    (from_secs 300) (from_secs 300).

(** src: crates/server/domain/src/saga/timeout_config.rs 82-92 SagaTimeoutConfig::docker_local *)
Definition docker_local : t :=
  mk (from_secs 60) (from_secs 3600) (from_secs 300) (from_secs 30) (from_secs 60)
    (from_secs 60) (from_secs 60).

(** src: crates/server/domain/src/saga/timeout_config.rs 98-108 SagaTimeoutConfig::firecracker *)
Definition firecracker : t :=
  mk (from_secs 120) (from_secs 7200) (from_secs 600) (from_secs 60) (from_secs 90)
    (from_secs 120) (from_secs 120).

(** src: crates/server/domain/src/saga/timeout_config.rs 121-130 SagaTimeoutConfig::get_timeout *)
Definition get_timeout (c : t) (s : SagaType.t) : Duration :=
  match s with
  | SagaType.Provisioning => provisioning c
  | SagaType.Execution => execution c
  | SagaType.Recovery => recovery c
  | SagaType.Cancellation => cancellation c
  | SagaType.Timeout => timeout c
  | SagaType.Cleanup => cleanup c
  end.

(** src: crates/server/domain/src/saga/timeout_config.rs 147-164 SagaTimeoutConfig::new *)
Definition new (p e r c t' cl : Duration) : t := mk p e r c t' cl p.

(** src: crates/server/domain/src/saga/timeout_config.rs 177-187 SagaTimeoutConfig::with_timeout *)
Definition with_timeout (s : SagaType.t) (d : Duration) (c : t) : t :=
  match s with
  | SagaType.Provisioning => c <| provisioning := d |>
  | SagaType.Execution => c <| execution := d |>
  | SagaType.Recovery => c <| recovery := d |>
  | SagaType.Cancellation => c <| cancellation := d |>
  | SagaType.Timeout => c <| timeout := d |>
  | SagaType.Cleanup => c <| cleanup := d |>
  end.

End SagaTimeoutConfig.

(** ** Audit trail *)

Module SagaAuditEventType.

(** src: crates/server/domain/src/saga/audit_trail.rs 16-29 SagaAuditEventType *)
Inductive t :=
  | Started
  | StepStarted
  | StepCompleted
  | StepFailed
  | CompensationStarted
  | CompensationCompleted
  | CompensationFailed
  | Completed
  | Failed
  | Cancelled
  | TimedOut
  | RateLimited.

#[global] Instance t_eq_dec : EqDecision t.
Proof. solve_decision. Defined.

End SagaAuditEventType.

Module SagaAuditEntry.
Section entry.
Context `{E : Externs}.

(** The system time is the time since the epoch. *)
(** src: crates/server/domain/src/saga/audit_trail.rs 33-46 SagaAuditEntry *)
Record t := mk {
  id : Uuid;
  timestamp : Duration;
  saga_id : SagaId;
  saga_type : SagaType.t;
  event_type : SagaAuditEventType.t;
  step_name : option string;
  step_index : option nat;
  attempt : option Z;
  will_compensate : bool;
  duration_ms : option Z;
  error_message : option string;
  metadata : Json;
}.

#[global] Instance t_rebuild : Rebuild t := fun e =>
  mk (id e) (timestamp e) (saga_id e) (saga_type e) (event_type e) (step_name e) (step_index e) (attempt e)
    (will_compensate e) (duration_ms e) (error_message e) (metadata e).

(** src: crates/server/domain/src/saga/audit_trail.rs 49-64 SagaAuditEntry::new *)
Definition new (fresh : Uuid) (now : Duration) (i : SagaId) (ty : SagaType.t)
    (ev : SagaAuditEventType.t) : t := {|
  id := fresh;
  timestamp := now;
  saga_id := i;
  saga_type := ty;
  event_type := ev;
  step_name := None;
  step_index := None;
  attempt := None;
  will_compensate := false;
  duration_ms := None;
  error_message := None;
  metadata := json_empty_object;
|}.

(** src: crates/server/domain/src/saga/audit_trail.rs 66-70 SagaAuditEntry::with_step *)
Definition with_step (name : string) (index : nat) (e : t) : t :=
  e <| step_name := Some name |> <| step_index := Some index |>.

(** src: crates/server/domain/src/saga/audit_trail.rs 72-75 SagaAuditEntry::with_attempt *)
Definition with_attempt (n : Z) (e : t) : t := e <| attempt := Some n |>.

(** src: crates/server/domain/src/saga/audit_trail.rs 77-80 SagaAuditEntry::with_compensation *)
Definition with_compensation (b : bool) (e : t) : t := e <| will_compensate := b |>.

(** src: crates/server/domain/src/saga/audit_trail.rs 82-85 SagaAuditEntry::with_duration *)
Definition with_duration (d : Duration) (e : t) : t :=
  e <| duration_ms := Some (as_u64 (as_millis d)) |>.

(** src: crates/server/domain/src/saga/audit_trail.rs 87-90 SagaAuditEntry::with_error *)
Definition with_error (m : string) (e : t) : t := e <| error_message := Some m |>.

(** src: crates/server/domain/src/saga/audit_trail.rs 92-95 SagaAuditEntry::with_metadata *)
Definition with_metadata (key : string) (value : Json) (e : t) : t :=
  e <| metadata := json_set (metadata e) key value |>.

End entry.
End SagaAuditEntry.

Module SagaAuditTrail.
Section trail.
Context `{E : Externs}.

(** src: crates/server/domain/src/saga/audit_trail.rs 100-102 SagaAuditTrail *)
Record t := mk { entries : list SagaAuditEntry.t }.

(** src: crates/server/domain/src/saga/audit_trail.rs 105-109 SagaAuditTrail::new *)
Definition new : t := mk [].

(** src: crates/server/domain/src/saga/audit_trail.rs 112-114 SagaAuditTrail::record *)
Definition record (entry : SagaAuditEntry.t) (trail : t) : t := mk (entries trail ++ [entry]).

(** src: crates/server/domain/src/saga/audit_trail.rs 117-119 SagaAuditTrail::get_all *)
Definition get_all (trail : t) : list SagaAuditEntry.t := entries trail.

End trail.
End SagaAuditTrail.
