(* ===== verification/RateLimiter.v ===== *)
(** * The rate limiter of the saga orchestrator
    ([crates/server/domain/src/saga/orchestrator.rs], [TokenBucketRateLimiter])

    [Instant]s are nanoseconds of the monotonic clock; every reading is an
    argument.  The permits are an atomic [usize] of 64 bits. *)

From S2P Require Import Prelude Std.

Module RateLimitConfig.

(** src: crates/server/domain/src/saga/orchestrator.rs 25-32 RateLimitConfig *)
Record t := mk { max_permits : Z; window : Duration; refill_rate : f64 }.

(** src: crates/server/domain/src/saga/orchestrator.rs 35-41 RateLimitConfig::default *)
Definition default : t := mk 100 (from_secs 1) (F64.of_Z 100).

End RateLimitConfig.

Module RateLimiter.

(** src: crates/server/domain/src/saga/orchestrator.rs 46-52 TokenBucketRateLimiter *)
Record t := mk {
  permits : Z;
  max_permits : Z;
  refill_rate : f64;
  last_refill : Duration;
  window : Duration;
}.

#[global] Instance t_rebuild : Rebuild t := fun l =>
  mk (permits l) (max_permits l) (refill_rate l) (last_refill l) (window l).

(** src: crates/server/domain/src/saga/orchestrator.rs 56-64 TokenBucketRateLimiter::new *)
Definition new (config : RateLimitConfig.t) (now : Duration) : t := {|
  permits := RateLimitConfig.max_permits config;
  max_permits := RateLimitConfig.max_permits config;
  refill_rate := RateLimitConfig.refill_rate config;
  last_refill := now;
  window := RateLimitConfig.window config;
|}.

(** The tokens of the elapsed time, [(intervals * refill_rate) as usize]. *)
(** src: crates/server/domain/src/saga/orchestrator.rs 80-82 TokenBucketRateLimiter::refill (amount) *)
Definition to_add (elapsed : Duration) (l : t) : Z :=
  let intervals := F64.div (as_secs_f64 elapsed) (as_secs_f64 (window l)) in
  F64.to_u64 (F64.mul intervals (refill_rate l)).

(** src: crates/server/domain/src/saga/orchestrator.rs 77-88 TokenBucketRateLimiter::refill *)
Definition refill (now : Duration) (l : t) : t :=
  let elapsed := Z.max 0 (now - last_refill l) in
  if window l <=? elapsed then
    let l := l <| permits := Z.min (permits l) (max_permits l) |> in
    l <| permits := u64_add (permits l) (Z.min (to_add elapsed l) (max_permits l)) |>
  else l.

(** src: crates/server/domain/src/saga/orchestrator.rs 67-74 TokenBucketRateLimiter::try_acquire *)
Definition try_acquire (now : Duration) (l : t) : t * bool :=
  let l := refill now l in
  if 0 <? permits l then (l <| permits := permits l - 1 |>, true) else (l, false).

(** src: crates/server/domain/src/saga/orchestrator.rs 91-94 TokenBucketRateLimiter::remaining *)
Definition remaining (now : Duration) (l : t) : t * Z :=
  let l := refill now l in
  (l, Z.min (permits l) (max_permits l)).

(** The answers to requests made at the given times, one after the other. *)
Fixpoint requests (times : list Duration) (l : t) : list bool * t :=
  match times with
  | [] => ([], l)
  | now :: times =>
      let (l, granted) := try_acquire now l in
      let (rest, l) := requests times l in
      (granted :: rest, l)
  end.

End RateLimiter.

Section rate_limiter_properties.
Import RateLimiter.

Definition limiter_ok (l : t) : Prop :=
  0 <= permits l <= 2 * max_permits l /\ 0 <= max_permits l /\ 2 * max_permits l < 2 ^ 64.

(** The shape of a refill: the constants stay, and the permits are the old ones,
    or the old ones cut to the maximum plus at most the maximum. *)
Lemma refill_spec now l :
  limiter_ok l ->
  0 <= to_add (Z.max 0 (now - last_refill l)) l ->
  limiter_ok (refill now l) /\ max_permits (refill now l) = max_permits l /\
  last_refill (refill now l) = last_refill l /\ window (refill now l) = window l /\
  permits (refill now l) =
    if window l <=? Z.max 0 (now - last_refill l)
    then Z.min (permits l) (max_permits l)
         + Z.min (to_add (Z.max 0 (now - last_refill l)) l) (max_permits l)
    else permits l.
Proof.
  intros (Hp & Hm & Hb) Ha. unfold refill, limiter_ok.
  destruct (window l <=? _); simpl; [|by split_and!; try lia].
  assert (to_add (Z.max 0 (now - last_refill l))
    (l <| permits := Z.min (permits l) (max_permits l) |>) =
    to_add (Z.max 0 (now - last_refill l)) l) as Hsame by done.
  simpl in Hsame. rewrite Hsame.
  rewrite u64_add_small by (unfold u64; lia). split_and!; try lia; done.
Qed.

Lemma to_u64_nonneg x : 0 <= F64.to_u64 x.
Proof.
  destruct x as [| [] | |[] m e]; simpl; try done.
  apply Z.min_glb; [done|]. by apply Z.shiftl_nonneg.
Qed.

Lemma try_acquire_ok now l :
  limiter_ok l ->
  limiter_ok (fst (try_acquire now l)) /\
  max_permits (fst (try_acquire now l)) = max_permits l /\
  last_refill (fst (try_acquire now l)) = last_refill l /\
  window (fst (try_acquire now l)) = window l.
Proof.
  intros Hl. destruct (refill_spec now l Hl (to_u64_nonneg _)) as (Hr & Hm & Ht & Hw & _).
  unfold try_acquire. destruct (Z.ltb_spec 0 (permits (refill now l))); simpl; [|done].
  split_and!; try done. unfold limiter_ok in *. simpl. lia.
Qed.

Lemma try_acquire_rate now l : refill_rate (fst (try_acquire now l)) = refill_rate l.
Proof. unfold try_acquire, refill. by repeat case_match. Qed.

Lemma requests_ok times l :
  limiter_ok l ->
  limiter_ok (snd (requests times l)) /\ max_permits (snd (requests times l)) = max_permits l.
Proof.
  revert l. induction times as [|now times IH]; intros l Hl; [done|]. cbn [requests].
  destruct (try_acquire_ok now l Hl) as (Hl1 & Hm1 & _).
  destruct (try_acquire now l) as [l1 g]. simpl in Hl1, Hm1.
  destruct (IH l1 Hl1) as [H1 H2]. destruct (requests times l1) as [rest l2].
  simpl in *. split; [done|congruence].
Qed.

Lemma requests_first_window times l :
  limiter_ok l -> Forall (fun now => last_refill l <= now < last_refill l + window l) times -> 0 <= window l ->
  Z.of_nat (length (filter (fun b => b = true) (fst (requests times l)))) <= permits l.
Proof.
  intros Hl Ht Hw. revert l Hl Ht Hw. induction times as [|now times IH]; intros l Hl Ht Hw.
  { destruct Hl. simpl. lia. }
  apply Forall_cons in Ht as [Hnow Ht].
  pose proof (try_acquire_ok now l Hl) as (Hl' & Hm' & Hr' & Hw').
  destruct (refill_spec now l Hl (to_u64_nonneg _)) as (_ & _ & _ & _ & Hp).
  cbn [requests]. destruct (try_acquire now l) as [l1 granted] eqn:Hacq. simpl in *.
  specialize (IH l1 Hl' ltac:(by rewrite Hr', Hw') ltac:(by rewrite Hw')).
  destruct (requests times l1) as [rest l2]. simpl in *.
  assert (permits (refill now l) = permits l) as Hsame.
  { rewrite Hp. destruct (Z.leb_spec (window l) (Z.max 0 (now - last_refill l))); [|done].
    destruct Hl as (Hl1 & Hl2 & Hl3). lia. }
  unfold try_acquire in Hacq. rewrite Hsame in Hacq.
  destruct (Z.ltb_spec 0 (permits l)); injection Hacq as <- <-; simpl in *.
  - cbn. lia.
  - rewrite filter_cons_False by done. lia.
Qed.

(** Once a window has passed since the limiter was made, a refill leaves a permit. *)
Lemma requests_later times l :
  limiter_ok l -> 1 <= max_permits l -> 0 <= window l ->
  Forall (fun now => last_refill l + window l <= now /\ 1 <= to_add (now - last_refill l) l) times ->
  Forall (fun granted => granted = true) (fst (requests times l)).
Proof.
  revert l. induction times as [|now times IH]; intros l Hl H1 Hw Ht; [constructor|].
  apply Forall_cons in Ht as [[Hnow Hadd] Ht]. cbn [requests].
  destruct (refill_spec now l Hl (to_u64_nonneg _)) as (_ & _ & _ & _ & Hp).
  pose proof (try_acquire_ok now l Hl) as (Hl' & Hm' & Hr' & Hw').
  pose proof (try_acquire_rate now l) as Hrate.
  assert (snd (try_acquire now l) = true) as Hgrant.
  { unfold try_acquire. replace (0 <? permits (refill now l)) with true; [done|].
    symmetry. apply Z.ltb_lt. rewrite Hp.
    replace (Z.max 0 (now - last_refill l)) with (now - last_refill l) by lia.
    destruct (Z.leb_spec (window l) (now - last_refill l)); [|lia].
    destruct Hl as (Hl1 & Hl2 & Hl3). lia. }
  destruct (try_acquire now l) as [l1 granted]. simpl in *. subst granted.
  specialize (IH l1 Hl'). unfold to_add in IH. rewrite Hm', Hr', Hw', Hrate in IH.
  specialize (IH H1 Hw Ht). destruct (requests times l1) as [rest l2]. by constructor.
Qed.

(** The number of permits never exceeds twice the maximum and
    never wraps; before the first window is over at most the maximum is granted;
    but the limiter never moves its refill time, so that once the first window
    is over every look refills it again, and as long as the elapsed time is
    worth a token every request is granted, however many there are. *)
Theorem limiter_stops_limiting_after_one_window config start times :
  0 <= RateLimitConfig.max_permits config -> 2 * RateLimitConfig.max_permits config < 2 ^ 64 ->
  0 <= RateLimitConfig.window config ->
  let l := new config start in
  let '(answers, l') := requests times l in
  0 <= permits l' <= 2 * RateLimitConfig.max_permits config /\
  (Forall (fun now => start <= now < start + window l) times ->
     Z.of_nat (length (filter (fun b => b = true) answers))
       <= RateLimitConfig.max_permits config) /\
  (Forall (fun now => start + window l <= now /\ 1 <= to_add (now - start) l) times ->
     1 <= RateLimitConfig.max_permits config ->
     Forall (fun granted => granted = true) answers).
Proof.
  intros Hm Hb Hw l. assert (limiter_ok l) as Hl by (unfold limiter_ok; simpl; lia).
  pose proof (requests_ok times l Hl) as [[Hp _] Hmax].
  pose proof (requests_first_window times l Hl) as Hfirst.
  pose proof (requests_later times l Hl) as Hlater.
  destruct (requests times l) as [answers l']. simpl in *. rewrite Hmax in Hp.
  split_and!; [apply Hp|apply Hp|auto|auto].
Qed.
End rate_limiter_properties.

(** One request per permit, and two more, all in the same instant, two seconds
    after the start. *)
Example limiter_stops_limiting_after_one_window_witness :
  let l := RateLimiter.new RateLimitConfig.default 0 in
  Forall (fun granted => granted = true) (fst (RateLimiter.requests (replicate 102 (from_secs 2)) l)).
Proof.
  intros l.
  pose proof (limiter_stops_limiting_after_one_window RateLimitConfig.default 0
    (replicate 102 (from_secs 2)) ltac:(done) ltac:(done) ltac:(done)) as H.
  cbv zeta in H. fold l in H.
  destruct (RateLimiter.requests (replicate 102 (from_secs 2)) l) as [answers l'].
  destruct H as (_ & _ & H). apply H; [|done].
  apply Forall_replicate. split; [vm_compute; discriminate|].
  apply Z.leb_le. vm_compute. reflexivity.
Defined.
