(* ===== verification/Orchestrator.v ===== *)
(** * The saga orchestrator ([crates/server/domain/src/saga/orchestrator.rs])

    [InMemorySagaOrchestrator] runs the steps of a saga one after the other and
    compensates the executed ones in reverse order when a step fails or times
    out.  The repository, the transactions, the clocks and the application the
    steps act on are a world [A] that the class [SagaRuntime] gives the
    operations of ([SagaRepository], [TransactionProvider], tokio and the
    standard library); a saga is its type and its steps, the trait objects
    [dyn Saga] and [dyn SagaStep].  A run is modelled without other sagas in
    between; what it does to the shared counters is part of its state. *)

From S2P Require Import Prelude Effects Std Externs States Errors RateLimiter Retry SagaTypes.

Module SagaOrchestratorConfig.

(** src: crates/server/domain/src/saga/orchestrator.rs 99-116 SagaOrchestratorConfig *)
Record t := mk {
  max_concurrent_sagas : Z;
  max_concurrent_steps : Z;
  step_timeout : Duration;
  saga_timeout : Duration;
  max_retries : Z;
  retry_backoff : Duration;
  compensation_retry_policy : RetryPolicy.t;
  rate_limit : option RateLimitConfig.t;
  max_sagas_per_minute : option Z;
  saga_timeouts : SagaTimeoutConfig.t;
}.

#[global] Instance t_rebuild : Rebuild t := fun c =>
  mk (max_concurrent_sagas c) (max_concurrent_steps c) (step_timeout c) (saga_timeout c)
    (max_retries c) (retry_backoff c) (compensation_retry_policy c) (rate_limit c)
    (max_sagas_per_minute c) (saga_timeouts c).

(** src: crates/server/domain/src/saga/orchestrator.rs 119-138 SagaOrchestratorConfig::default *)
Definition default : t := {|
  max_concurrent_sagas := 100;
  max_concurrent_steps := 10;
  step_timeout := from_secs 30;
  saga_timeout := from_secs 300;
  max_retries := 3;
  retry_backoff := from_secs 1;
  compensation_retry_policy := {|
    RetryPolicy.max_attempts := 3;
    RetryPolicy.initial_delay := from_millis 10;
    RetryPolicy.max_delay := from_secs 60;
    RetryPolicy.multiplier := F64.of_Z 2;
    RetryPolicy.jitter_factor := F64.lit 2 1;
  |};
  rate_limit := None;
  max_sagas_per_minute := Some 60;
  saga_timeouts := SagaTimeoutConfig.default;
|}.

(** src: crates/server/domain/src/saga/orchestrator.rs 144-149 SagaOrchestratorConfig::kubernetes *)
Definition kubernetes : t := default <| saga_timeouts := SagaTimeoutConfig.kubernetes |>.

(** src: crates/server/domain/src/saga/orchestrator.rs 153-158 SagaOrchestratorConfig::docker_local *)
Definition docker_local : t := default <| saga_timeouts := SagaTimeoutConfig.docker_local |>.

(** src: crates/server/domain/src/saga/orchestrator.rs 162-167 SagaOrchestratorConfig::firecracker *)
Definition firecracker : t := default <| saga_timeouts := SagaTimeoutConfig.firecracker |>.

(** src: crates/server/domain/src/saga/orchestrator.rs 171-173 SagaOrchestratorConfig::get_saga_timeout *)
Definition get_saga_timeout (c : t) (saga_type : SagaType.t) : Duration :=
  SagaTimeoutConfig.get_timeout (saga_timeouts c) saga_type.

(** src: crates/server/domain/src/saga/orchestrator.rs 178-182 SagaOrchestratorConfig::get_step_timeout *)
Definition get_step_timeout (c : t) (_ : SagaType.t) : Duration := step_timeout c.

End SagaOrchestratorConfig.

(** ** What the orchestrator runs in *)

Class SagaRuntime `{E : Externs} (A : Type) := {
  (* the standard library, uuid and tokio *)
  Instant_now : A -> A * Duration;
  SystemTime_now : A -> A * Duration;
  new_v4 : A -> A * Uuid;
  sleep : Duration -> A -> A;
  (* TransactionProvider; a transaction is rolled back when it is dropped *)
  PgTransaction : Type;
  begin_transaction : A -> A * result string PgTransaction;
  drop_transaction : PgTransaction -> A -> A;
  (* SagaRepository; errors are the strings they print *)
  save : SagaContext.t -> A -> A * result string unit;
  update_state : SagaId -> SagaState.t -> option string -> A -> A * result string unit;
  mark_compensating : SagaId -> A -> A * result string unit;
  find_by_id : SagaId -> A -> A * result string (option SagaContext.t);
}.

(** How a future under [tokio::time::timeout] ends: it is ready, the timeout
    drops it first, or it panics. *)
Inductive timed (X : Type) : Type :=
  | Ready (x : X)
  | Elapsed
  | Crashed.
Arguments Ready {X} x.
Arguments Elapsed {X}.
Arguments Crashed {X}.

Module SagaStep.
Section step.
Context `{E : Externs} {A : Type} `{!SagaRuntime A}.

(** [execute] gets the timeout that [tokio::time::timeout] puts on it;
    [compensate] has none, and [None] is its panic. *)
(** src: crates/server/domain/src/saga/types.rs 375-419 SagaStep *)
Record t := mk {
  name : string;
  is_idempotent : bool;
  has_compensation : bool;
  execute : Duration -> PgTransaction -> SagaContext.t -> A ->
    SagaContext.t * A * timed (result SagaError.t unit);
  compensate : PgTransaction -> SagaContext.t -> A ->
    SagaContext.t * A * option (result SagaError.t unit);
}.

End step.
End SagaStep.
Arguments SagaStep.t {E} A {_}.

Module Saga.
Section saga.
Context `{E : Externs} {A : Type} `{!SagaRuntime A}.

(** src: crates/server/domain/src/saga/types.rs 760-776 Saga *)
Record t := mk {
  saga_type : SagaType.t;
  steps : list (SagaStep.t A);
  timeout : option Duration;
  idempotency_key : option string;
}.

End saga.
End Saga.
Arguments Saga.t {E} A {_}.

Module InMemorySagaOrchestrator.
Section orchestrator.
Context `{E : Externs} {A : Type} `{!SagaRuntime A}.
Context (powf : f64 -> f64 -> f64).

Abbreviation entry := SagaAuditEntry.t.

(** The concurrency semaphore is its number of available permits, the
    repository the operations of the runtime on the world. *)
(** src: crates/server/domain/src/saga/orchestrator.rs 246-261 InMemorySagaOrchestrator *)
Record t := mk {
  world : A;
  config : SagaOrchestratorConfig.t;
  active_sagas : Z;
  rate_limiter : option RateLimiter.t;
  concurrency_semaphore : Z;
  audit_trail : SagaAuditTrail.t;
  audit_consumers : list (entry -> A -> A);
}.

#[global] Instance t_rebuild : Rebuild t := fun o =>
  mk (world o) (config o) (active_sagas o) (rate_limiter o) (concurrency_semaphore o)
    (audit_trail o) (audit_consumers o).

(** The most permits of a tokio semaphore; more panic. *)
Definition MAX_PERMITS : Z := u64_max / 8.

(** src: crates/server/domain/src/saga/orchestrator.rs 278-292 InMemorySagaOrchestrator::new *)
Definition new (w : A) (config : option SagaOrchestratorConfig.t) : option t :=
  let config := default SagaOrchestratorConfig.default config in
  let '(w, limiter) :=
    match SagaOrchestratorConfig.rate_limit config with
    | Some limit =>
        let (w, now) := Instant_now w in (w, Some (RateLimiter.new limit now))
    | None => (w, None)
    end in
  if MAX_PERMITS <? SagaOrchestratorConfig.max_concurrent_sagas config then None
  else Some {|
    world := w;
    config := config;
    active_sagas := 0;
    rate_limiter := limiter;
    concurrency_semaphore := SagaOrchestratorConfig.max_concurrent_sagas config;
    audit_trail := SagaAuditTrail.new;
    audit_consumers := [];
  |}.

(** src: crates/server/domain/src/saga/orchestrator.rs 295-303 InMemorySagaOrchestrator::with_audit_consumers *)
Definition with_audit_consumers (w : A) (config : option SagaOrchestratorConfig.t)
    (consumers : list (entry -> A -> A)) : option t :=
  (fun o => o <| audit_consumers := consumers |>) <$> new w config.

(** The state of a run: the orchestrator and the context of the saga at hand. *)
Record frame := mk_frame { orch : t; context : SagaContext.t }.

#[global] Instance frame_rebuild : Rebuild frame := fun f => mk_frame (orch f) (context f).

Definition on_world (f : A -> A) (s : frame) : frame :=
  s <| orch := (orch s) <| world := f (world (orch s)) |> |>.

(** A call that acts on the world, and one that only does. *)
Definition io {X F} (f : A -> A * X) : method frame F X :=
  fun s => let (w, x) := f (world (orch s)) in (on_world (fun _ => w) s, Ok x).
Definition act {F} (f : A -> A) : method frame F unit := modify (on_world f).

(** [start.elapsed()]; the difference of instants saturates at zero. *)
Definition elapsed {F} (start : Duration) : method frame F Duration :=
  now ← io Instant_now; mret (saturating_sub now start).

(** [SagaAuditEntry::new]: a fresh identifier and the time are taken. *)
Definition audit_entry {F} (id : SagaId) (ty : SagaType.t) (ev : SagaAuditEventType.t) :
    method frame F entry :=
  fresh ← io new_v4;
  now ← io SystemTime_now;
  mret (SagaAuditEntry.new fresh now id ty ev).

(** src: crates/server/domain/src/saga/orchestrator.rs 311-318 InMemorySagaOrchestrator::record_audit *)
Definition record_audit {F} (e : entry) : method frame F unit :=
  modify (fun s => s <| orch :=
    (orch s) <| audit_trail := SagaAuditTrail.record e (audit_trail (orch s)) |> |>);;
  s ← self;
  act (fun w => fold_left (fun w consume => consume e w) (audit_consumers (orch s)) w).

(** A future that borrows the context, awaited; [None] is its panic. *)
Definition await {F X} (f : SagaContext.t -> A -> SagaContext.t * A * option X) :
    method frame (exn F) X :=
  fun s =>
    let '(c, w, out) := f (context s) (world (orch s)) in
    ((on_world (fun _ => w) s) <| context := c |>,
     match out with Some x => Ok x | None => Err Panicked end).

(** [tokio::time::timeout(..).await]; [None] is the elapsed timeout. *)
Definition await_timeout {F X} (f : SagaContext.t -> A -> SagaContext.t * A * timed X) :
    method frame (exn F) (option X) :=
  await (fun c w =>
    let '(c, w, out) := f c w in
    (c, w, match out with
           | Ready x => Some (Some x)
           | Elapsed => Some None
           | Crashed => None
           end)).

(** [let mut tx = repository.begin_transaction().await.map_err(err)?]: [tx]
    lives to the end of the block [k] and is dropped there, on every path. *)
Definition with_transaction {F X} (err : string -> F)
    (k : PgTransaction -> method frame (exn F) X) : method frame (exn F) X :=
  begun ← io begin_transaction;
  tx ← or_error err begun;
  finally (k tx) (on_world (drop_transaction tx)).

(** [repository.update_state(..).await.ok()]. *)
Definition update_state_ok {F} (id : SagaId) (st : SagaState.t) (error : option string) :
    method frame F unit :=
  _ ← io (update_state id st error); mret tt.

(** ** Compensation *)

(** One round of the loop. *)
(** src: crates/server/domain/src/saga/orchestrator.rs 345-405 InMemorySagaOrchestrator::execute_compensation_with_retry (loop body) *)
Definition compensation_attempt (policy : RetryPolicy.t) (step : SagaStep.t A)
    (step_name : string) (step_idx : nat) (saga_type : SagaType.t) (saga_id : SagaId)
    (attempt : Z) : method frame (exn SagaError.t) (flow unit bool) :=
  comp_start ← io Instant_now;
  with_transaction SagaError.PersistenceError (fun tx =>
    compensated ← await (SagaStep.compensate step tx);
    match compensated with
    | Err e =>
        entry ← audit_entry saga_id saga_type SagaAuditEventType.CompensationFailed;
        record_audit (SagaAuditEntry.with_error (SagaError.fmt e)
          (SagaAuditEntry.with_attempt attempt
            (SagaAuditEntry.with_step step_name step_idx entry)));;
        if negb (RetryPolicy.should_retry policy attempt) then throw (Error e)
        else
          match RetryPolicy.delay_for_attempt powf policy attempt with
          | None => throw Panicked
          | Some delay => act (sleep delay);; mret (Continue tt)
          end
    | Ok _ =>
        comp_duration ← elapsed comp_start;
        entry ← audit_entry saga_id saga_type SagaAuditEventType.CompensationCompleted;
        record_audit (SagaAuditEntry.with_duration comp_duration
          (SagaAuditEntry.with_attempt attempt
            (SagaAuditEntry.with_step step_name step_idx entry)));;
        mret (Return true)
    end).

(** src: crates/server/domain/src/saga/orchestrator.rs 344-406 InMemorySagaOrchestrator::execute_compensation_with_retry (loop) *)
Fixpoint compensation_loop (fuel : nat) (policy : RetryPolicy.t) (step : SagaStep.t A)
    (step_name : string) (step_idx : nat) (saga_type : SagaType.t) (saga_id : SagaId)
    (attempt : Z) : method frame (exn SagaError.t) bool :=
  match fuel with
  | O => throw OutOfFuel
  | S fuel =>
      let attempt := u32_add attempt 1 in
      round ← compensation_attempt policy step step_name step_idx saga_type saga_id attempt;
      match round with
      | Return b => mret b
      | Continue _ =>
          compensation_loop fuel policy step step_name step_idx saga_type saga_id attempt
      end
  end.

(** One round of fuel per attempt of the policy, and one more. *)
(** src: crates/server/domain/src/saga/orchestrator.rs 321-407 InMemorySagaOrchestrator::execute_compensation_with_retry *)
Definition execute_compensation_with_retry (step : SagaStep.t A) (step_name : string)
    (step_idx : nat) (saga_type : SagaType.t) (saga_id : SagaId) :
    method frame (exn SagaError.t) bool :=
  s ← self;
  let policy := SagaOrchestratorConfig.compensation_retry_policy (config (orch s)) in
  entry ← audit_entry saga_id saga_type SagaAuditEventType.CompensationStarted;
  record_audit (SagaAuditEntry.with_attempt 0 (SagaAuditEntry.with_step step_name step_idx entry));;
  compensation_loop (S (Z.to_nat (RetryPolicy.max_attempts policy))) policy step step_name
    step_idx saga_type saga_id 0.

(** The loop over [(0..executed_steps_count).rev()]; [compensations] is the
    counter so far, and an index out of range panics. *)
(** src: crates/server/domain/src/saga/orchestrator.rs 418-453 InMemorySagaOrchestrator::execute_compensation (loop) *)
Fixpoint compensate_from (steps : list (SagaStep.t A)) (executed_steps_count : nat)
    (saga_type : SagaType.t) (saga_id : SagaId) (compensations : Z) :
    method frame (exn DomainError.t) Z :=
  match executed_steps_count with
  | O => mret compensations
  | S compensate_idx =>
      match steps !! compensate_idx with
      | None => throw Panicked
      | Some step =>
          if SagaStep.has_compensation step then
            outcome ← catch (execute_compensation_with_retry step (SagaStep.name step)
              compensate_idx saga_type saga_id);
            compensate_from steps compensate_idx saga_type saga_id
              (if is_ok outcome then u32_add compensations 1 else compensations)
          else compensate_from steps compensate_idx saga_type saga_id compensations
      end
  end.

(** src: crates/server/domain/src/saga/orchestrator.rs 410-454 InMemorySagaOrchestrator::execute_compensation *)
Definition execute_compensation (steps : list (SagaStep.t A)) (executed_steps_count : nat)
    (saga_type : SagaType.t) (saga_id : SagaId) : method frame (exn DomainError.t) Z :=
  compensate_from steps executed_steps_count saga_type saga_id 0.

(** ** Execution *)

(** src: crates/server/domain/src/saga/orchestrator.rs 481-489 InMemorySagaOrchestrator::execute_saga (rate limit) *)
Definition check_rate_limit : method frame (exn DomainError.t) unit :=
  s ← self;
  match rate_limiter (orch s) with
  | None => mret tt
  | Some limiter =>
      now ← io Instant_now;
      let (limiter, acquired) := RateLimiter.try_acquire now limiter in
      modify (fun s => s <| orch := (orch s) <| rate_limiter := Some limiter |> |>);;
      if acquired then mret tt
      else
        now ← io Instant_now;
        let (limiter, remaining) := RateLimiter.remaining now limiter in
        modify (fun s => s <| orch := (orch s) <| rate_limiter := Some limiter |> |>);;
        throw (Error (DomainError.OrchestratorError
          (OrchestratorError.RateLimitExceeded remaining)))
  end.

(** src: crates/server/domain/src/saga/orchestrator.rs 491-497 InMemorySagaOrchestrator::execute_saga (permit) *)
Definition acquire_permit : method frame (exn DomainError.t) unit :=
  s ← self;
  if 0 <? concurrency_semaphore (orch s) then
    modify (fun s => s <| orch :=
      (orch s) <| concurrency_semaphore := concurrency_semaphore (orch s) - 1 |> |>)
  else
    throw (Error (DomainError.OrchestratorError
      (OrchestratorError.ConcurrencyLimitExceeded (active_sagas (orch s))
        (SagaOrchestratorConfig.max_concurrent_sagas (config (orch s)))))).

(** [DropGuard], and the permit of the semaphore, at the end of the scope. *)
(** src: crates/server/domain/src/saga/orchestrator.rs 918-922 impl Drop for DropGuard *)
Definition drop_guards (s : frame) : frame :=
  s <| orch := (orch s) <| active_sagas := u64_sub (active_sagas (orch s)) 1 |>
         <| concurrency_semaphore := concurrency_semaphore (orch s) + 1 |> |>.

(** The arm of a step that returned an error. *)
(** src: crates/server/domain/src/saga/orchestrator.rs 596-657 InMemorySagaOrchestrator::execute_saga (step failed) *)
Definition step_failed (saga : Saga.t A) (saga_id : SagaId) (start_time : Duration)
    (step : SagaStep.t A) (step_idx executed_steps : nat) (e : SagaError.t) :
    method frame (exn DomainError.t) SagaExecutionResult.t :=
  let saga_type := Saga.saga_type saga in
  entry ← audit_entry saga_id saga_type SagaAuditEventType.StepFailed;
  record_audit (SagaAuditEntry.with_compensation true
    (SagaAuditEntry.with_error (SagaError.fmt e)
      (SagaAuditEntry.with_step (SagaStep.name step) step_idx entry)));;
  modify (fun s => s <| context := (SagaContext.set_error (SagaError.fmt e) (context s))
    <| SagaContext.is_compensating := true |> |>);;
  update_state_ok saga_id SagaState.Compensating (Some (SagaError.fmt e));;
  compensations ← execute_compensation (Saga.steps saga) step_idx saga_type saga_id;
  entry ← audit_entry saga_id saga_type SagaAuditEventType.Failed;
  record_audit
    (SagaAuditEntry.with_metadata "compensations_executed" (json_of_Z compensations)
      (SagaAuditEntry.with_metadata "steps_executed" (json_of_Z (Z.of_nat executed_steps))
        (SagaAuditEntry.with_error (SagaError.fmt e) entry)));;
  update_state_ok saga_id SagaState.Failed (Some (SagaError.fmt e));;
  duration ← elapsed start_time;
  mret (SagaExecutionResult.failed saga_id saga_type duration (as_u32 (Z.of_nat executed_steps))
    compensations (SagaError.fmt e)).

(** The arm of a step whose timeout elapsed. *)
(** src: crates/server/domain/src/saga/orchestrator.rs 658-708 InMemorySagaOrchestrator::execute_saga (step timed out) *)
Definition step_timed_out (saga : Saga.t A) (saga_id : SagaId) (executed_steps : nat) :
    method frame (exn DomainError.t) SagaExecutionResult.t :=
  let saga_type := Saga.saga_type saga in
  s ← self;
  let step_timeout := SagaOrchestratorConfig.step_timeout (config (orch s)) in
  let timeout_error := "Step timed out after " +:+ duration_debug step_timeout in
  modify (fun s => s <| context := (SagaContext.set_error timeout_error (context s))
    <| SagaContext.is_compensating := true |> |>);;
  update_state_ok saga_id SagaState.Compensating (Some timeout_error);;
  compensations ← execute_compensation (Saga.steps saga) executed_steps saga_type saga_id;
  entry ← audit_entry saga_id saga_type SagaAuditEventType.TimedOut;
  record_audit
    (SagaAuditEntry.with_metadata "compensations_executed" (json_of_Z compensations)
      (SagaAuditEntry.with_metadata "steps_executed" (json_of_Z (Z.of_nat executed_steps))
        (SagaAuditEntry.with_error timeout_error entry)));;
  update_state_ok saga_id SagaState.Failed (Some timeout_error);;
  throw (Error (DomainError.SagaTimeout step_timeout)).

(** The check of the saga's own timeout, before every step. *)
(** src: crates/server/domain/src/saga/orchestrator.rs 559-570 InMemorySagaOrchestrator::execute_saga (saga timeout) *)
Definition check_saga_timeout (saga_id : SagaId) (start_time saga_timeout : Duration) :
    method frame (exn DomainError.t) unit :=
  spent ← elapsed start_time;
  if saga_timeout <? spent then
    spent ← elapsed start_time;
    modify (fun s => s <| context :=
      SagaContext.set_error ("Saga timed out after " +:+ duration_debug spent) (context s) |>);;
    s ← self;
    update_state_ok saga_id SagaState.Failed (SagaContext.error_message (context s));;
    spent ← elapsed start_time;
    throw (Error (DomainError.SagaTimeout spent))
  else mret tt.

(** The body of the loop over the steps, once a step is not skipped. *)
(** src: crates/server/domain/src/saga/orchestrator.rs 548-709 InMemorySagaOrchestrator::execute_saga (loop body) *)
Definition run_step (saga : Saga.t A) (saga_id : SagaId)
    (start_time saga_timeout step_timeout : Duration) (step : SagaStep.t A)
    (step_idx executed_steps : nat) :
    method frame (exn DomainError.t) (flow nat SagaExecutionResult.t) :=
  let saga_type := Saga.saga_type saga in
  step_start ← io Instant_now;
  entry ← audit_entry saga_id saga_type SagaAuditEventType.StepStarted;
  record_audit (SagaAuditEntry.with_step (SagaStep.name step) step_idx entry);;
  check_saga_timeout saga_id start_time saga_timeout;;
  with_transaction DomainError.InfrastructureError (fun tx =>
    step_result ← await_timeout (SagaStep.execute step step_timeout tx);
    match step_result with
    | Some (Ok _) =>
        step_duration ← elapsed step_start;
        entry ← audit_entry saga_id saga_type SagaAuditEventType.StepCompleted;
        record_audit (SagaAuditEntry.with_duration step_duration
          (SagaAuditEntry.with_step (SagaStep.name step) step_idx entry));;
        mret (Continue (executed_steps + 1)%nat)
    | Some (Err e) =>
        r ← step_failed saga saga_id start_time step step_idx executed_steps e;
        mret (Return r)
    | None =>
        r ← step_timed_out saga saga_id executed_steps;
        mret (Return r)
    end).

(** [todo] are the steps from index [step_idx] on. *)
(** src: crates/server/domain/src/saga/orchestrator.rs 537-710 InMemorySagaOrchestrator::execute_saga (loop) *)
Fixpoint run_steps (saga : Saga.t A) (saga_id : SagaId)
    (start_time saga_timeout step_timeout : Duration) (todo : list (SagaStep.t A))
    (step_idx executed_steps : nat) :
    method frame (exn DomainError.t) (flow nat SagaExecutionResult.t) :=
  match todo with
  | [] => mret (Continue executed_steps)
  | step :: todo =>
      s ← self;
      if (step_idx <? SagaContext.current_step (context s))%nat then
        run_steps saga saga_id start_time saga_timeout step_timeout todo (S step_idx)
          executed_steps
      else
        out ← run_step saga saga_id start_time saga_timeout step_timeout step step_idx
          executed_steps;
        match out with
        | Return r => mret (Return r)
        | Continue executed_steps =>
            run_steps saga saga_id start_time saga_timeout step_timeout todo (S step_idx)
              executed_steps
        end
  end.

(** What the permit and the guard enclose. *)
(** src: crates/server/domain/src/saga/orchestrator.rs 503-734 InMemorySagaOrchestrator::execute_saga (guarded) *)
Definition guarded_run (saga : Saga.t A) (saga_id : SagaId) (start_time : Duration) :
    method frame (exn DomainError.t) SagaExecutionResult.t :=
  let saga_type := Saga.saga_type saga in
  s ← self;
  saved ← io (save (context s));
  or_error DomainError.InfrastructureError saved;;
  s ← self;
  let executed_steps := SagaContext.current_step (context s) in
  let saga_timeout := SagaOrchestratorConfig.get_saga_timeout (config (orch s)) saga_type in
  let step_timeout := SagaOrchestratorConfig.get_step_timeout (config (orch s)) saga_type in
  out ← run_steps saga saga_id start_time saga_timeout step_timeout (Saga.steps saga) 0
    executed_steps;
  match out with
  | Return r => mret r
  | Continue executed_steps =>
      total_duration ← elapsed start_time;
      entry ← audit_entry saga_id saga_type SagaAuditEventType.Completed;
      record_audit
        (SagaAuditEntry.with_metadata "steps_executed" (json_of_Z (Z.of_nat executed_steps))
          (SagaAuditEntry.with_duration total_duration entry));;
      update_state_ok saga_id SagaState.Completed None;;
      mret (SagaExecutionResult.completed_with_steps saga_id saga_type total_duration
        (as_u32 (Z.of_nat executed_steps)))
  end.

(** src: crates/server/domain/src/saga/orchestrator.rs 465-735 InMemorySagaOrchestrator::execute_saga *)
Definition run (saga : Saga.t A) : method frame (exn DomainError.t) SagaExecutionResult.t :=
  start_time ← io Instant_now;
  s ← self;
  let saga_id := SagaContext.saga_id (context s) in
  entry ← audit_entry saga_id (Saga.saga_type saga) SagaAuditEventType.Started;
  record_audit entry;;
  check_rate_limit;;
  acquire_permit;;
  modify (fun s => s <| orch :=
    (orch s) <| active_sagas := u64_add (active_sagas (orch s)) 1 |> |>);;
  finally (guarded_run saga saga_id start_time) drop_guards.

(** The context is the caller's no more: it is dropped at the end. *)
(** src: crates/server/domain/src/saga/orchestrator.rs 466-735 InMemorySagaOrchestrator::execute_saga *)
Definition execute_saga (saga : Saga.t A) (context : SagaContext.t) :
    method t (exn DomainError.t) SagaExecutionResult.t :=
  fun o => let (s, r) := run saga (mk_frame o context) in (orch s, r).

(** A call of the repository whose error is reported as an infrastructure error. *)
Definition repository_call {X} (f : A -> A * result string X) :
    method t (exn DomainError.t) X :=
  fun o =>
    let (w, r) := f (world o) in
    (o <| world := w |>, map_err (fun e => Error (DomainError.InfrastructureError e)) r).

(** src: crates/server/domain/src/saga/orchestrator.rs 883-890 InMemorySagaOrchestrator::get_saga *)
Definition get_saga (saga_id : SagaId) :
    method t (exn DomainError.t) (option SagaContext.t) :=
  repository_call (find_by_id saga_id).

(** src: crates/server/domain/src/saga/orchestrator.rs 892-912 InMemorySagaOrchestrator::cancel_saga *)
Definition cancel_saga (saga_id : SagaId) : method t (exn DomainError.t) unit :=
  repository_call (mark_compensating saga_id);;
  repository_call (update_state saga_id SagaState.Cancelled (Some "Cancelled by user")).

End orchestrator.
End InMemorySagaOrchestrator.
Arguments InMemorySagaOrchestrator.t {E} A.
Arguments InMemorySagaOrchestrator.frame {E} A.
