(* ===== verification/Steps.v ===== *)
(** * The services of a saga context, and the code of a step
    ([crates/server/domain/src/saga/types.rs], [event_bus.rs],
    [workers/registry.rs], [jobs/aggregate.rs])

    A saga context carries a handle to its services, trait objects: records of
    the calls a step awaits, over the world [A] of the orchestrator.  The body of
    a step acts on the context and the world under the timeout the orchestrator
    puts on it ([Step.frame]); [run_execute] and [run_compensate] make it the
    methods of a [SagaStep]. *)

From S2P Require Import Prelude Effects Std Externs States Errors JobSpec Job ProviderApi Worker Events Repositories Services Commands CommandBus SagaTypes Orchestrator.

Module EventBusError.

(** src: crates/server/domain/src/event_bus.rs 7-16 EventBusError *)
Inductive t :=
  | PublishError (message : string)
  | SubscribeError (message : string)
  | SerializationError (message : string)
  | ConnectionError (message : string).

(** src: crates/server/domain/src/event_bus.rs 6-16 Display for EventBusError *)
Definition fmt (e : t) : string :=
  match e with
  | PublishError m => "Failed to publish event: " +:+ m
  | SubscribeError m => "Failed to subscribe to channel: " +:+ m
  | SerializationError m => "Serialization error: " +:+ m
  | ConnectionError m => "Connection error: " +:+ m
  end.

(** src: crates/server/domain/src/event_bus.rs 31-37 impl From<EventBusError> for DomainError *)
Definition to_domain_error `{E : Externs} (e : t) : DomainError.t :=
  DomainError.InfrastructureError (fmt e).

End EventBusError.

(** ** Futures

    A call that is awaited: how long it may take before the timeout around the
    caller drops it ([None] for no timeout), and, when it is ready, how long it
    took. *)
Definition future (A X : Type) : Type := option Duration -> A -> A * timed (X * Duration).

(** A call that takes no time. *)
Definition ready {A X} (f : A -> A * X) : future A X :=
  fun _ w => let (w, x) := f w in (w, Ready (x, 0)).

(** ** Trait objects *)

Section services.
Context `{E : Externs} `{T : CommandTypes} {A : Type} `{!SagaRuntime A}.

(** [dyn WorkerRegistryTx] and its supertrait: what the steps call. *)
(** src: crates/server/domain/src/workers/registry.rs 187-231 WorkerRegistryTx *)
Record WorkerRegistryTx := {
  worker_get : WorkerId -> future A (result DomainError.t (option Worker.t));
  worker_get_by_job_id : JobId -> future A (result DomainError.t (option Worker.t));
  worker_save_with_tx : PgTransaction -> Worker.t -> future A (result DomainError.t unit);
  worker_update_state_with_tx : PgTransaction -> WorkerId -> WorkerState.t ->
    future A (result DomainError.t unit);
  worker_release_from_job_with_tx : PgTransaction -> WorkerId ->
    future A (result DomainError.t unit);
  worker_register_with_tx : PgTransaction -> WorkerHandle.t -> WorkerSpec.t -> JobId ->
    future A (result DomainError.t Worker.t);
  worker_unregister_with_tx : PgTransaction -> WorkerId -> future A (result DomainError.t unit);
  worker_find_available_with_tx : PgTransaction -> future A (result DomainError.t (list Worker.t));
}.

(** [dyn JobRepositoryTx]. *)
(** src: crates/server/domain/src/jobs/aggregate.rs 1273-1309 JobRepositoryTx *)
Record JobRepositoryTx := {
  job_save_with_tx : PgTransaction -> Job.t -> future A (result DomainError.t unit);
  job_find_by_id_with_tx : PgTransaction -> JobId ->
    future A (result DomainError.t (option Job.t));
  job_update_with_tx : PgTransaction -> Job.t -> future A (result DomainError.t unit);
  job_update_status_with_tx : PgTransaction -> JobId -> string ->
    future A (result DomainError.t unit);
  job_find_by_state_with_tx : PgTransaction -> JobState.t ->
    future A (result DomainError.t (list Job.t));
  job_update_state_with_tx : PgTransaction -> JobId -> JobState.t ->
    future A (result DomainError.t unit);
}.

(** [dyn EventBus], without the stream of a subscription. *)
(** src: crates/server/domain/src/event_bus.rs 22-22 EventBus::publish *)
Record EventBus := {
  publish : DomainEvent.t -> future A (result EventBusError.t unit);
}.

(** [DynCommandBus]. *)
(** src: crates/server/domain/src/command/erased.rs 202-202 DynCommandBus *)
Record DynCommandBus := {
  bus_dispatch : Any -> TypeId -> string -> CommandTargetType.t ->
    future A (result CommandError.t Any);
}.

(** [dyn WorkerProvisioning]. *)
Record DynWorkerProvisioning := {
  await_provision_worker : ProviderId -> WorkerSpec.t -> JobId ->
    future A (result DomainError.t WorkerProvisioningResult.t);
  await_destroy_worker : WorkerId -> future A (result DomainError.t unit);
  await_is_provider_available : ProviderId -> future A (result DomainError.t bool);
}.

(** [dyn SagaOrchestrator]. *)
(** src: crates/server/domain/src/saga/types.rs 786-820 SagaOrchestrator *)
Record DynSagaOrchestrator := {
  await_execute_saga : Saga.t A -> SagaContext.t ->
    future A (result OrchestratorError.t SagaExecutionResult.t);
  await_execute : SagaContext.t -> future A (result OrchestratorError.t SagaExecutionResult.t);
  await_get_saga : SagaId -> future A (result OrchestratorError.t (option SagaContext.t));
  await_cancel_saga : SagaId -> future A (result OrchestratorError.t unit);
}.

End services.
Arguments WorkerRegistryTx {E} A {_}.
Arguments JobRepositoryTx {E} A {_}.
Arguments EventBus {E} A.
Arguments DynCommandBus {T} A.
Arguments DynWorkerProvisioning {E} A.
Arguments DynSagaOrchestrator {E} A {_}.

Module Services.
Section services.
Context `{E : Externs} `{T : CommandTypes} {A : Type} `{!SagaRuntime A}.

(** src: crates/server/domain/src/saga/types.rs 623-646 SagaServices *)
Record t := mk {
  provider_registry : WorkerRegistryTx A;
  event_bus : EventBus A;
  job_repository : option (JobRepositoryTx A);
  provisioning_service : option (DynWorkerProvisioning A);
  orchestrator : option (DynSagaOrchestrator A);
  command_bus : option (DynCommandBus A);
}.

(** src: crates/server/domain/src/saga/types.rs 651-665 SagaServices::new *)
Definition new registry bus repository provisioning : t :=
  mk registry bus repository provisioning None None.

(** src: crates/server/domain/src/saga/types.rs 670-687 SagaServices::with_orchestrator *)
Definition with_orchestrator registry bus repository provisioning orch : t :=
  mk registry bus repository provisioning orch None.

(** src: crates/server/domain/src/saga/types.rs 694-712 SagaServices::with_command_bus *)
Definition with_command_bus registry bus repository provisioning orch commands : t :=
  mk registry bus repository provisioning orch (Some commands).

(** src: crates/server/domain/src/saga/types.rs 719-725 SagaServices::without_provisioning *)
Definition without_provisioning registry bus repository : t := new registry bus repository None.

(** src: crates/server/domain/src/saga/types.rs 729-731 SagaServices::has_provisioning_service *)
Definition has_provisioning_service (s : t) : bool := bool_decide (is_Some (provisioning_service s)).
(** src: crates/server/domain/src/saga/types.rs 735-737 SagaServices::has_orchestrator *)
Definition has_orchestrator (s : t) : bool := bool_decide (is_Some (orchestrator s)).
(** src: crates/server/domain/src/saga/types.rs 741-743 SagaServices::has_command_bus *)
Definition has_command_bus (s : t) : bool := bool_decide (is_Some (command_bus s)).

End services.
End Services.
Arguments Services.t {E T} A {_}.

(** What a handle to services in a context points to, and the wall clock. *)
Class StepWorld `{E : Externs} `{T : CommandTypes} (A : Type) `{!SagaRuntime A} := {
  services_at : SagaServices -> Services.t A;
  Utc_now : A -> A * DateTime;
}.

(** ** [serde_json::from_value] at the types the steps store *)

Section from_value.
Context `{E : Externs}.

Definition expecting {X} (expected : string) (as_x : Json -> option X) (v : Json) :
    result string X :=
  ok_or (as_x v) (invalid_type expected v).

Definition bool_from_value : Json -> result string bool := expecting "a boolean" as_bool.
Definition string_from_value : Json -> result string string := expecting "a string" as_str.
Definition i64_from_value : Json -> result string Z := expecting "i64" as_i64.

Fixpoint strings_from_values (vs : list Json) : result string (list string) :=
  match vs with
  | [] => Ok []
  | v :: vs =>
      match string_from_value v, strings_from_values vs with
      | Ok s, Ok ss => Ok (s :: ss)
      | Err e, _ | _, Err e => Err e
      end
  end.
Definition strings_from_value (v : Json) : result string (list string) :=
  match expecting "a sequence" as_array v with
  | Ok vs => strings_from_values vs
  | Err e => Err e
  end.

Definition json_of_strings (l : list string) : Json := json_of_list (map json_of_string l).

End from_value.

(** ** The body of a step *)

Module Step.
Section step.
Context `{E : Externs} `{T : CommandTypes} {A : Type} `{!SagaRuntime A} `{!StepWorld A}.

(** The context, the world, and what is left of the timeout. *)
Record frame := mk { context : SagaContext.t; world : A; left : option Duration }.

#[global] Instance frame_rebuild : Rebuild frame := fun s => mk (context s) (world s) (left s).

Abbreviation body := (method frame (exn SagaError.t)).

(** A future, awaited; one that the timeout drops is [Blocked]. *)
Definition await {F X} (f : future A X) : method frame (exn F) X :=
  fun s =>
    match f (left s) (world s) with
    | (w, Ready (x, spent)) =>
        (s <| world := w |> <| left := (fun d => saturating_sub d spent) <$> left s |>, Ok x)
    | (w, Elapsed) => (s <| world := w |>, Err Blocked)
    | (w, Crashed) => (s <| world := w |>, Err Panicked)
    end.

Definition io {F X} (f : A -> A * X) : method frame (exn F) X :=
  fun s => let (w, x) := f (world s) in (s <| world := w |>, Ok x).

(** [execute] under [tokio::time::timeout]. *)
Definition run_execute (m : PgTransaction -> body unit) (limit : Duration) (tx : PgTransaction)
    (c : SagaContext.t) (w : A) : SagaContext.t * A * timed (result SagaError.t unit) :=
  let (s, r) := m tx (mk c w (Some limit)) in
  (context s, world s,
   match r with
   | Ok _ => Ready (Ok tt)
   | Err (Error e) => Ready (Err e)
   | Err Panicked => Crashed
   | Err Blocked | Err OutOfFuel => Elapsed
   end).

(** [compensate], which has no timeout: it panics or hangs as [None]. *)
Definition run_compensate (m : PgTransaction -> body unit) (tx : PgTransaction)
    (c : SagaContext.t) (w : A) : SagaContext.t * A * option (result SagaError.t unit) :=
  let (s, r) := m tx (mk c w None) in
  (context s, world s,
   match r with
   | Ok _ => Some (Ok tt)
   | Err (Error e) => Some (Err e)
   | Err _ => None
   end).

Definition step (name : string) (idempotent compensable : bool)
    (execute compensate : PgTransaction -> body unit) : SagaStep.t A := {|
  SagaStep.name := name;
  SagaStep.is_idempotent := idempotent;
  SagaStep.has_compensation := compensable;
  SagaStep.execute := run_execute execute;
  SagaStep.compensate := run_compensate compensate;
|}.

(** *** Services *)

(** [context.services().ok_or_else(|| e)?] *)
Definition services_or (e : SagaError.t) : body (Services.t A) :=
  s ← self;
  handle ← or_error id (ok_or (SagaContext.services (context s)) e);
  mret (services_at handle).

Definition job_repository_or (e : SagaError.t) (s : Services.t A) : body (JobRepositoryTx A) :=
  or_error id (ok_or (Services.job_repository s) e).
Definition command_bus_or (e : SagaError.t) (s : Services.t A) : body (DynCommandBus A) :=
  or_error id (ok_or (Services.command_bus s) e).

(** A call awaited, and what its error becomes. *)
Definition call {X F} (f : future A (result F X)) (e : F -> SagaError.t) : body X :=
  r ← await f; or_error e r.

(** *** Metadata *)

Definition context_of {F} : method frame F SagaContext.t := s ← self; mret (context s).

(** [context.set_metadata(key, &value).map_err(e)?]; the values stored always
    serialize. *)
Definition set_metadata (key : string) (v : Json) (e : SagaError.t -> SagaError.t) : body unit :=
  fun s =>
    let (c, r) := SagaContext.set_metadata key (Ok v) (context s) in
    (s <| context := c |>, map_err (fun x => Error (e x)) r).

(** [if let Some(Ok(true)) = context.get_metadata::<bool>(key)] *)
Definition is_set (key : string) (c : SagaContext.t) : bool :=
  match SagaContext.get_metadata bool_from_value key c with
  | Some (Ok b) => b
  | _ => false
  end.

(** [context.get_metadata::<String>(key).and_then(|r| r.ok())] *)
Definition text_of (key : string) (c : SagaContext.t) : option string :=
  match SagaContext.get_metadata string_from_value key c with
  | Some (Ok s) => Some s
  | _ => None
  end.

(** *** Commands *)

(** [CommandMetadataDefault::new()] takes an identifier and the time. *)
Definition stamp {X F} (f : Uuid -> DateTime -> X) : method frame (exn F) X :=
  fresh ← io new_v4; now ← io Utc_now; mret (f fresh now).

(** The bus of the services as the trait object of a step. *)
Definition bus_in_step (b : DynCommandBus A) : ErasedCommandBus frame := {|
  dispatch_any := fun command i name target =>
    r ← await (bus_dispatch b command i name target); or_error id r;
|}.

(** [dispatch_erased(&command_bus, command).await]: the [Result]. *)
Definition dispatch {F} (b : DynCommandBus A) (C : Cmd) (command : denote (Self C)) :
    method frame (exn F) (result CommandError.t (denote (Output C))) :=
  catch (dispatch_erased (ErasedCommandBus0 := bus_in_step b) C command).

End step.
End Step.
Arguments Step.frame {E} A.
