(* ===== verification/StepProperties.v ===== *)
(** * Reasoning about the code of steps

    What the combinators of [Steps.v] do to the context of a saga, as rules for
    the weakest preconditions of [Effects.v], and the property the flags in the
    metadata are for: a step that has returned [Ok] does nothing when it is
    executed again. *)

From S2P Require Import Prelude Effects Std Externs States Errors JobSpec Job ProviderApi Worker Events Repositories Services Commands CommandBus SagaTypes Orchestrator Steps.

Section rules.
Context `{E : Externs} `{T : CommandTypes} {A : Type} `{!SagaRuntime A} `{!StepWorld A}.
Import Step.

(** A body that leaves the context alone. *)
Definition keeps_context {F X} (m : method (frame A) F X) : Prop :=
  forall s, context (after m s) = context s.

Lemma keeps_await {F X} (f : future A X) : keeps_context (await f : method _ (exn F) X).
Proof. intros s. unfold after, await. by destruct (f _ _) as [w [[x d]| |]]. Qed.

Lemma keeps_io {F X} (f : A -> A * X) : keeps_context (io f : method _ (exn F) X).
Proof. intros s. unfold after, io. by destruct (f _). Qed.

Lemma keeps_bind {F X Y} (m : method (frame A) F X) (k : X -> method (frame A) F Y) :
  keeps_context m -> (forall x, keeps_context (k x)) -> keeps_context (x ← m; k x).
Proof.
  unfold keeps_context, after, mbind, method_bind. intros Hm Hk s. specialize (Hm s).
  destruct (m s) as [s' [x|e]]; simpl in *; [by rewrite Hk|done].
Qed.

Lemma keeps_ret {F X} (x : X) : keeps_context (mret x : method (frame A) F X).
Proof. done. Qed.

Lemma keeps_context_of {F} : keeps_context (context_of : method _ F _).
Proof. done. Qed.

Lemma keeps_self {F} : keeps_context (self : method (frame A) F _).
Proof. done. Qed.

Lemma keeps_throw {F X} (e : F) : keeps_context (throw e : method (frame A) F X).
Proof. done. Qed.

Lemma keeps_ensure {F} g (e : F) : keeps_context (ensure g e : method (frame A) F unit).
Proof. intros s. by destruct g. Qed.

Lemma keeps_or_error {F G X} (f : F -> G) (r : result F X) :
  keeps_context (or_error f r : method (frame A) _ X).
Proof. done. Qed.

Lemma keeps_job_repository_or e (s : Services.t A) : keeps_context (job_repository_or e s).
Proof. done. Qed.

Lemma keeps_command_bus_or e (s : Services.t A) : keeps_context (command_bus_or e s).
Proof. done. Qed.

Lemma keeps_services_or e : keeps_context (services_or e).
Proof. apply keeps_bind; [done|intros s]. apply keeps_bind; done. Qed.

Lemma keeps_stamp {F X} (f : Uuid -> DateTime -> X) : keeps_context (stamp f : method _ (exn F) X).
Proof. apply keeps_bind; [apply keeps_io|intros i; apply keeps_bind; [apply keeps_io|done]]. Qed.

Lemma keeps_call {F X} (f : future A (result F X)) e : keeps_context (call f e).
Proof. apply keeps_bind; [apply keeps_await|done]. Qed.

Lemma keeps_catch {F G X} (m : method (frame A) (exn F) X) :
  keeps_context m -> keeps_context (catch m : method _ (exn G) _).
Proof.
  unfold keeps_context, after, catch. intros Hm s. specialize (Hm s).
  by destruct (m s) as [s' [x|[]]].
Qed.

Lemma keeps_dispatch {F} b C command :
  keeps_context (dispatch b C command : method (frame A) (exn F) _).
Proof.
  apply keeps_catch, keeps_bind; [apply keeps_bind; [apply keeps_await|done]|].
  intros answer. by destruct (downcast _ answer).
Qed.

Lemma wp_keeps {F X} (m : method (frame A) F X) Q s :
  keeps_context m -> (forall r s', context s' = context s -> Q r s') -> wp m Q s.
Proof. intros Hm HQ. apply wp_run, HQ, Hm. Qed.

Lemma wp_services_or e s (Q : result (exn SagaError.t) (Services.t A) -> frame A -> Prop) :
  (SagaContext.services (context s) = None -> Q (Err (Error e)) s) ->
  (forall h, SagaContext.services (context s) = Some h -> Q (Ok (services_at h)) s) ->
  wp (services_or e) Q s.
Proof.
  unfold wp, services_or, or_error. run_method.
  destruct (SagaContext.services (context s)); simpl; auto.
Qed.

Lemma wp_set_metadata key v e s (Q : result (exn SagaError.t) unit -> frame A -> Prop) :
  Q (Ok tt) (s <| context :=
    (context s) <| SagaContext.metadata := <[key := v]> (SagaContext.metadata (context s)) |> |>) ->
  wp (set_metadata key v e) Q s.
Proof. done. Qed.

Lemma wp_context_of {F} s (Q : result F SagaContext.t -> frame A -> Prop) :
  Q (Ok (context s)) s -> wp context_of Q s.
Proof. done. Qed.

(** *** Flags *)

Context {EL : ExternsLaws E}.

Lemma is_set_metadata key b m (c : SagaContext.t) :
  is_set key (c <| SagaContext.metadata := <[key := json_of_bool b]> m |>) = b.
Proof.
  unfold is_set, SagaContext.get_metadata. simpl. rewrite lookup_insert_eq. simpl.
  unfold bool_from_value, expecting. by rewrite as_bool_of_bool.
Qed.

(** A step that has succeeded does nothing when it is executed again on the
    context it has left, in whatever world and transaction. *)
Definition once (execute : PgTransaction -> method (frame A) (exn SagaError.t) unit) : Prop :=
  forall tx s, wp (execute tx) (fun r s' =>
    r = Ok tt -> forall tx' s'', context s'' = context s' -> execute tx' s'' = (s'', Ok tt)) s.

(** The same of a step of a saga, whatever the timeout. *)
Definition done_once (st : SagaStep.t A) : Prop :=
  forall limit tx c w c' w',
    SagaStep.execute st limit tx c w = (c', w', Ready (Ok tt)) ->
    forall limit' tx' w'', SagaStep.execute st limit' tx' c' w'' = (c', w'', Ready (Ok tt)).

Lemma once_step name idempotent compensable execute compensate :
  once execute -> done_once (step name idempotent compensable execute compensate).
Proof.
  intros Hm limit tx c w c' w'. simpl. unfold run_execute. specialize (Hm tx (mk c w (Some limit))).
  unfold wp in Hm. destruct (execute tx _) as [s' r]. intros [= <- <- Hr] limit' tx' w''.
  rewrite (Hm (ltac:(by destruct r as [[]|[]]))) by done. done.
Qed.

(** Bodies that leave a part of the context alone, and bodies that return [Ok]
    only with a flag set. *)
Definition keeps {V F X} (f : SagaContext.t -> V) (m : method (frame A) F X) : Prop :=
  forall s, f (context (after m s)) = f (context s).

Abbreviation keeps_services := (keeps SagaContext.services).
Abbreviation keeps_key key := (keeps (fun c => SagaContext.metadata c !! key)).

Definition sets_flag {F} (flag : string) (m : method (frame A) F unit) : Prop :=
  forall s, returns m s = Ok tt -> is_set flag (context (after m s)) = true.

Lemma keeps_of_context {V F X} (f : SagaContext.t -> V) (m : method (frame A) F X) :
  keeps_context m -> keeps f m.
Proof. intros Hm s. by rewrite Hm. Qed.

Lemma keeps_then {V F X Y} (f : SagaContext.t -> V) (m : method (frame A) F X)
    (k : X -> method (frame A) F Y) :
  keeps f m -> (forall x, keeps f (k x)) -> keeps f (x ← m; k x).
Proof.
  unfold keeps, after, mbind, method_bind. intros Hm Hk s. specialize (Hm s).
  destruct (m s) as [s' [x|e]]; simpl in *; [by rewrite Hk|done].
Qed.

Lemma keeps_services_metadata key v e : keeps_services (set_metadata key v e).
Proof. done. Qed.

Lemma keeps_key_metadata key key' v e : key <> key' -> keeps_key key (set_metadata key' v e).
Proof. intros Hne s. unfold after. simpl. by rewrite lookup_insert_ne. Qed.

Lemma step_keeps {V} (f : SagaContext.t -> V) name idempotent compensable execute compensate
    limit tx c w c' w' r :
  (forall tx, keeps f (execute tx)) ->
  SagaStep.execute (step name idempotent compensable execute compensate) limit tx c w = (c', w', r) ->
  f c' = f c.
Proof.
  intros Hm. simpl. unfold run_execute. specialize (Hm tx (mk c w (Some limit))).
  unfold after in Hm. destruct (execute tx _) as [s' r']. by intros [= <- _ _].
Qed.

Lemma sets_flag_bind {F X} flag (m : method (frame A) F X) k :
  (forall x, sets_flag flag (k x)) -> sets_flag flag (x ← m; k x).
Proof.
  unfold sets_flag, returns, after, mbind, method_bind. intros Hk s.
  destruct (m s) as [s' [x|e]]; [apply Hk|done].
Qed.

Lemma sets_flag_metadata flag e : sets_flag flag (set_metadata flag (json_of_bool true) e).
Proof. intros s _. apply is_set_metadata. Qed.

(** What may come before the test. *)
Definition looks_at_services {P} (prefix : method (frame A) (exn SagaError.t) P) : Prop :=
  forall s s' services, prefix s = (s', Ok services) ->
    s' = s /\ forall s'', SagaContext.services (context s'') = SagaContext.services (context s) ->
      prefix s'' = (s'', Ok services).

Lemma looks_services_or e : looks_at_services (services_or e).
Proof.
  intros s s' services. unfold services_or, or_error, lift. run_method.
  destruct (SagaContext.services (context s)) as [h|] eqn:Hs; simpl; [|done].
  intros [= <- <-]. split; [done|]. intros s'' Hs''. rewrite Hs''. done.
Qed.

Lemma looks_bind {P R} (m : method (frame A) (exn SagaError.t) P)
    (k : P -> method (frame A) (exn SagaError.t) R) :
  looks_at_services m -> (forall x, looks_at_services (k x)) -> looks_at_services (x ← m; k x).
Proof.
  intros Hm Hk s s' services. unfold mbind, method_bind.
  destruct (m s) as [s1 [x|e]] eqn:H1; [|done]. destruct (Hm _ _ _ H1) as [-> Hm'].
  intros H2. destruct (Hk x _ _ _ H2) as [-> Hk']. split; [done|]. intros s'' Hs.
  rewrite Hm' by done. by apply Hk'.
Qed.

Lemma looks_ret {P} (x : P) : looks_at_services (mret x).
Proof. intros s s' services [= <- <-]. done. Qed.

Lemma looks_or_error {F P} (f : F -> SagaError.t) (r : result F P) :
  looks_at_services (or_error f r).
Proof. intros s s' services. unfold or_error, lift. destruct r; simpl; [|done]. by intros [= <- <-]. Qed.

(** A step starts with what only looks at the services, *)
Lemma once_bind {P} (m : method (frame A) (exn SagaError.t) P)
    (k : P -> PgTransaction -> method (frame A) (exn SagaError.t) unit) :
  looks_at_services m -> (forall x, once (k x)) -> (forall x tx, keeps_services (k x tx)) ->
  once (fun tx => x ← m; k x tx).
Proof.
  intros Hm Hk Hs tx s. unfold wp, mbind, method_bind.
  destruct (m s) as [s1 [x|e]] eqn:H1; [|done]. destruct (Hm _ _ _ H1) as [-> Hm'].
  specialize (Hk x tx s). specialize (Hs x tx s). unfold wp, after in *.
  destruct (k x tx s) as [s' r]. simpl in *. intros Hr tx' s'' Hc.
  rewrite Hm' by (by rewrite Hc). by apply Hk.
Qed.

(** tests the context, and sees to it that the test holds when it has done its
    work. *)
Lemma once_test (test : SagaContext.t -> bool)
    (rest : PgTransaction -> SagaContext.t -> method (frame A) (exn SagaError.t) unit) :
  (forall tx s, returns (rest tx (context s)) s = Ok tt ->
    test (context (after (rest tx (context s)) s)) = true) ->
  once (fun tx => c ← context_of; if test c then mret tt else rest tx c).
Proof.
  intros Hr tx s. unfold wp, mbind, method_bind, context_of at 1. run_method.
  assert (forall s'', test (context s'') = true -> forall tx',
    (let (s', r) := context_of s'' in
     match r with
     | Ok c => (if test c then mret tt else rest tx' c) s'
     | Err e => (s', Err e)
     end) = (s'', Ok tt)) as Hskip.
  { intros s'' Hf tx'. unfold context_of. run_method. by rewrite Hf. }
  destruct (test (context s)) eqn:Hf.
  - intros _ tx' s'' Hc. apply Hskip. by rewrite Hc.
  - specialize (Hr tx s). unfold returns, after in *.
    destruct (rest tx (context s) s) as [s2 r]. intros -> tx' s'' Hc.
    apply Hskip. rewrite Hc. by apply Hr.
Qed.

Lemma once_flag flag (rest : PgTransaction -> SagaContext.t ->
    method (frame A) (exn SagaError.t) unit) :
  (forall tx c, sets_flag flag (rest tx c)) ->
  once (fun tx => c ← context_of; if is_set flag c then mret tt else rest tx c).
Proof. intros Hr. apply once_test. intros tx s. apply Hr. Qed.

Lemma once_ext (m m' : PgTransaction -> method (frame A) (exn SagaError.t) unit) :
  (forall tx s, m tx s = m' tx s) -> once m -> once m'.
Proof.
  intros Hm Hr tx s. specialize (Hr tx s). unfold wp in *. rewrite <- Hm.
  destruct (m tx s) as [s' r]. intros Heq tx' s'' Hc. rewrite <- Hm. by apply Hr.
Qed.

(** Two tests, one of them the flag that the work sets. *)
Lemma once_either test1 test2 flag (rest : PgTransaction -> SagaContext.t ->
    method (frame A) (exn SagaError.t) unit) :
  (forall c, is_set flag c = true -> test1 c || test2 c = true) ->
  (forall tx c, sets_flag flag (rest tx c)) ->
  once (fun tx => c ← context_of;
    if test1 c then mret tt else if test2 c then mret tt else rest tx c).
Proof.
  intros Ht Hr. eapply (once_ext (fun tx => c ← context_of;
    if test1 c || test2 c then mret tt else rest tx c)).
  - intros tx s. unfold mbind, method_bind, context_of. run_method. by destruct (test1 _).
  - apply once_test. intros tx s Hs. apply Ht. by apply Hr.
Qed.

End rules.

Create HintDb steps discriminated.
#[export] Hint Resolve keeps_await keeps_io keeps_context_of keeps_self keeps_services_or keeps_throw keeps_ensure
  keeps_job_repository_or keeps_command_bus_or keeps_bind keeps_ret keeps_or_error keeps_stamp
  keeps_call keeps_catch keeps_dispatch : steps.
#[export] Hint Resolve keeps_services_metadata keeps_then sets_flag_bind
  sets_flag_metadata looks_services_or looks_bind looks_ret looks_or_error : steps.
#[export] Hint Extern 3 (keeps (fun c => SagaContext.metadata c !! _) (Step.set_metadata _ _ _)) =>
  apply keeps_key_metadata; discriminate : steps.
#[export] Hint Extern 20 (keeps _ _) => apply keeps_of_context : steps.
(** The output of a command is known by its type, not by [denote]. *)
#[export] Hint Extern 2 (keeps ?f ?m) =>
  lazymatch m with Step.dispatch (T := ?T) ?b ?C ?command =>
    exact (keeps_of_context f _ (keeps_dispatch (T := T) b C command)) end : steps.
#[export] Hint Extern 2 (keeps_context ?m) =>
  lazymatch m with Step.dispatch (T := ?T) ?b ?C ?command =>
    exact (keeps_dispatch (T := T) b C command) end : steps.
#[export] Hint Extern 5 (keeps _ (match ?x with _ => _ end)) => destruct x : steps.
#[export] Hint Extern 2 (keeps _ (let _ := _ in _)) => cbv zeta : steps.
#[export] Hint Extern 5 (keeps_context (match ?x with _ => _ end)) => destruct x : steps.
#[export] Hint Extern 5 (looks_at_services (Step.job_repository_or _ _)) =>
  unfold Step.job_repository_or : steps.
#[export] Hint Extern 5 (looks_at_services (Step.command_bus_or _ _)) =>
  unfold Step.command_bus_or : steps.
