(* ===== verification/SagaBus.v ===== *)
(** * The commands of the sagas on the command bus
    ([crates/server/domain/src/saga/commands/mod.rs],
    [crates/server/application/src/command])

    The command types of [ExecutionCommands.v], [CancellationCommands.v],
    [ProvisioningCommands.v] and [JobCommands.v] as an instance of the universe
    of [CommandBus.v], their handlers over any world with a repository of jobs, a
    registry of workers and a provisioning service, and the two functions with
    which the application registers handlers at start-up. *)

From S2P Require Import Prelude Effects Std Externs States Errors JobSpec Job ProviderApi Worker Repositories Services Commands CommandBus JobCommands ExecutionCommands CancellationCommands ProvisioningCommands.
From stdpp Require Import finite.

Module SagaCommand.

(** The types that implement [Command]. *)
(** src: crates/server/domain/src/saga/commands/mod.rs 6-41 pub use *)
Inductive t :=
  | ValidateJob | AssignWorker | ExecuteJob | CompleteJob
  | NotifyWorker | UpdateJobState | ReleaseWorker
  | TerminateWorker | MarkJobTimedOut
  | CreateWorker | DestroyWorker | UnregisterWorker
  | CheckConnectivity | MarkJobForRecovery | ProvisionNewWorker | TransferJob | DestroyOldWorker
  | MarkJobFailed | ResumeFromManualIntervention.

#[global] Instance t_eq_dec : EqDecision t.
Proof. solve_decision. Defined.

#[global] Program Instance t_finite : Finite t := {| enum :=
  [ValidateJob; AssignWorker; ExecuteJob; CompleteJob; NotifyWorker; UpdateJobState;
   ReleaseWorker; TerminateWorker; MarkJobTimedOut; CreateWorker; DestroyWorker;
   UnregisterWorker; CheckConnectivity; MarkJobForRecovery; ProvisionNewWorker; TransferJob;
   DestroyOldWorker; MarkJobFailed; ResumeFromManualIntervention] |}.
Next Obligation. by apply (bool_decide_unpack _); vm_compute. Qed.
Next Obligation. by intros []; apply (bool_decide_unpack _); vm_compute. Qed.

End SagaCommand.

(** The types that travel as [Any]: a command, or the output of one. *)
Inductive program_type :=
  | CommandType (c : SagaCommand.t)
  | OutputType (c : SagaCommand.t)
  | UnitType.

#[global] Instance program_type_eq_dec : EqDecision program_type.
Proof. solve_decision. Defined.

#[global] Program Instance program_type_countable : Countable program_type :=
  inj_countable'
    (fun ty => match ty with
               | CommandType c => inl c
               | OutputType c => inr (Some c)
               | UnitType => inr None
               end)
    (fun x => match x with
              | inl c => CommandType c
              | inr (Some c) => OutputType c
              | inr None => UnitType
              end) _.
Next Obligation. by intros []. Qed.

(** The names [std::any] gives to types; it promises nothing about them. *)
Class TypeNames := {
  any_type_name : program_type -> string;
  any_type_id_debug : program_type -> string;
}.

Section universe.
Context `{E : Externs} `{!TypeNames}.
Import SagaCommand.

Definition command_value (c : SagaCommand.t) : Type :=
  match c with
  | ValidateJob => ValidateJobCommand.t
  | AssignWorker => AssignWorkerCommand.t
  | ExecuteJob => ExecuteJobCommand.t
  | CompleteJob => CompleteJobCommand.t
  | NotifyWorker => NotifyWorkerCommand.t
  | UpdateJobState => UpdateJobStateCommand.t
  | ReleaseWorker => ReleaseWorkerCommand.t
  | TerminateWorker => TerminateWorkerCommand.t
  | MarkJobTimedOut => MarkJobTimedOutCommand.t
  | CreateWorker => CreateWorkerCommand.t
  | DestroyWorker => DestroyWorkerCommand.t
  | UnregisterWorker => UnregisterWorkerCommand.t
  | CheckConnectivity => CheckConnectivityCommand.t
  | MarkJobForRecovery => MarkJobForRecoveryCommand.t
  | ProvisionNewWorker => ProvisionNewWorkerCommand.t
  | TransferJob => TransferJobCommand.t
  | DestroyOldWorker => DestroyOldWorkerCommand.t
  | MarkJobFailed => MarkJobFailedCommand.t
  | ResumeFromManualIntervention => ResumeFromManualInterventionCommand.t
  end.

(** The associated types [Output]; [unit] of three commands is one type. *)
Definition output_value (c : SagaCommand.t) : Type :=
  match c with
  | ValidateJob => JobValidationResult.t
  | AssignWorker => WorkerAssignmentResult.t
  | ExecuteJob => JobExecutionResult.t
  | CompleteJob => JobCompletionResult.t
  | NotifyWorker => NotifyWorkerResult.t
  | UpdateJobState => UpdateJobStateResult.t
  | ReleaseWorker => ReleaseWorkerResult.t
  | TerminateWorker => TerminateWorkerResult.t
  | MarkJobTimedOut => MarkJobTimedOutResult.t
  | CreateWorker => WorkerProvisioningResult.t
  | DestroyWorker | UnregisterWorker | DestroyOldWorker => unit
  | CheckConnectivity => CheckConnectivityResult.t
  | MarkJobForRecovery => JobRecoveryMarkResult.t
  | ProvisionNewWorker => RecoveryProvisioningResult.t
  | TransferJob => JobTransferResult.t
  | MarkJobFailed => JobFailureResult.t
  | ResumeFromManualIntervention => ResumeFromManualInterventionResult.t
  end.

Definition output_type (c : SagaCommand.t) : program_type :=
  match c with
  | DestroyWorker | UnregisterWorker | DestroyOldWorker => UnitType
  | _ => OutputType c
  end.

Definition program_value (ty : program_type) : Type :=
  match ty with
  | CommandType c => command_value c
  | OutputType c => output_value c
  | UnitType => unit
  end.

Definition key_of (c : SagaCommand.t) : command_value c -> string :=
  match c with
  | ValidateJob => ValidateJobCommand.idempotency_key
  | AssignWorker => AssignWorkerCommand.idempotency_key
  | ExecuteJob => ExecuteJobCommand.idempotency_key
  | CompleteJob => CompleteJobCommand.idempotency_key
  | NotifyWorker => NotifyWorkerCommand.idempotency_key
  | UpdateJobState => UpdateJobStateCommand.idempotency_key
  | ReleaseWorker => ReleaseWorkerCommand.idempotency_key
  | TerminateWorker => TerminateWorkerCommand.idempotency_key
  | MarkJobTimedOut => MarkJobTimedOutCommand.idempotency_key
  | CreateWorker => CreateWorkerCommand.idempotency_key
  | DestroyWorker => DestroyWorkerCommand.idempotency_key
  | UnregisterWorker => UnregisterWorkerCommand.idempotency_key
  | CheckConnectivity => CheckConnectivityCommand.idempotency_key
  | MarkJobForRecovery => MarkJobForRecoveryCommand.idempotency_key
  | ProvisionNewWorker => ProvisionNewWorkerCommand.idempotency_key
  | TransferJob => TransferJobCommand.idempotency_key
  | DestroyOldWorker => DestroyOldWorkerCommand.idempotency_key
  | MarkJobFailed => MarkJobFailedCommand.idempotency_key
  | ResumeFromManualIntervention => ResumeFromManualInterventionCommand.idempotency_key
  end.

(** Only the commands of the execution saga override these two. *)
Definition target_of (c : SagaCommand.t) : command_value c -> CommandTargetType.t :=
  match c with
  | ValidateJob => ValidateJobCommand.target_type
  | AssignWorker => AssignWorkerCommand.target_type
  | ExecuteJob => ExecuteJobCommand.target_type
  | CompleteJob => CompleteJobCommand.target_type
  | _ => fun _ => default_target_type
  end.
Definition name_of (c : SagaCommand.t) : command_value c -> string :=
  match c with
  | ValidateJob => ValidateJobCommand.command_name
  | AssignWorker => AssignWorkerCommand.command_name
  | ExecuteJob => ExecuteJobCommand.command_name
  | CompleteJob => CompleteJobCommand.command_name
  | _ => fun _ => default_command_name (any_type_name (CommandType c))
  end.

#[global] Program Instance saga_command_types : CommandTypes := {|
  TypeId := program_type;
  denote := program_value;
  type_name := any_type_name;
  type_id_debug := any_type_id_debug;
  Cmd := SagaCommand.t;
  Self := CommandType;
  Output := output_type;
  idempotency_key := key_of;
  target_type := target_of;
  command_name := name_of;
|}.
Next Obligation. by intros ?? [= ->]. Qed.

(** [Output c] as the type the command declares. *)
Definition output_of {c : SagaCommand.t} : denote (Output c) -> output_value c :=
  match c with
  | DestroyWorker | UnregisterWorker | DestroyOldWorker => fun v => v
  | _ => fun v => v
  end.
Definition to_output {c : SagaCommand.t} : output_value c -> denote (Output c) :=
  match c with
  | DestroyWorker | UnregisterWorker | DestroyOldWorker => fun v => v
  | _ => fun v => v
  end.

Lemma output_of_to_output c (v : output_value c) : output_of (to_output v) = v.
Proof. by destruct c. Qed.

End universe.

(** ** Handlers on a bus *)

Section handlers.
Context `{E : Externs} `{!TypeNames} {W : Type}.
Context `{!JobRepository.t W} `{!WorkerRegistry.t W} `{!WorkerProvisioning.t W}.
Context (new_v4 : W -> W * Uuid).
Import SagaCommand.

(** The handlers the code has; the one that starts a job carries the service
    that sends it to its worker. *)
Inductive saga_handler : SagaCommand.t -> Type :=
  | ValidateJobH : saga_handler ValidateJob
  | AssignWorkerH : saga_handler AssignWorker
  | ExecuteJobH : option (ExecuteJobHandler.JobExecutor (S := W)) -> saga_handler ExecuteJob
  | CompleteJobH : saga_handler CompleteJob
  | NotifyWorkerH : saga_handler NotifyWorker
  | UpdateJobStateH : saga_handler UpdateJobState
  | ReleaseWorkerH : saga_handler ReleaseWorker
  | TerminateWorkerH : saga_handler TerminateWorker
  | MarkJobTimedOutH : saga_handler MarkJobTimedOut
  | CreateWorkerH : saga_handler CreateWorker
  | DestroyWorkerH : saga_handler DestroyWorker
  | UnregisterWorkerH : saga_handler UnregisterWorker
  | CheckConnectivityH : saga_handler CheckConnectivity
  | MarkJobForRecoveryH : saga_handler MarkJobForRecovery
  | ProvisionNewWorkerH : saga_handler ProvisionNewWorker
  | TransferJobH : saga_handler TransferJob
  | DestroyOldWorkerH : saga_handler DestroyOldWorker
  | MarkJobFailedH : saga_handler MarkJobFailed
  | ResumeH : saga_handler ResumeFromManualIntervention.

Definition handler_failure (c : SagaCommand.t) : Type :=
  match c with
  | ValidateJob => ValidateJobError.t
  | AssignWorker => AssignWorkerError.t
  | ExecuteJob => ExecuteJobError.t
  | CompleteJob => CompleteJobError.t
  | NotifyWorker => NotifyWorkerError.t
  | UpdateJobState => UpdateJobStateError.t
  | ReleaseWorker => ReleaseWorkerError.t
  | TerminateWorker => TerminateWorkerError.t
  | MarkJobTimedOut => MarkJobTimedOutError.t
  | CreateWorker => CreateWorkerError.t
  | DestroyWorker => DestroyWorkerError.t
  | UnregisterWorker => UnregisterWorkerError.t
  | CheckConnectivity => CheckConnectivityError.t
  | MarkJobForRecovery => MarkJobForRecoveryError.t
  | ProvisionNewWorker => ProvisionNewWorkerError.t
  | TransferJob => TransferJobError.t
  | DestroyOldWorker => DestroyOldWorkerError.t
  | MarkJobFailed => MarkJobFailedError.t
  | ResumeFromManualIntervention => ResumeFromManualInterventionError.t
  end.

(** The text a derived [Debug] prints for an error; Rust does not fix it. *)
Context (error_debug : forall c, handler_failure c -> string).

(** The [handle] methods on the world of the repositories. *)
Definition run_handler {c} (h : saga_handler c) :
    command_value c -> method W (handler_failure c) (output_value c) :=
  match h in saga_handler c
    return command_value c -> method W (handler_failure c) (output_value c) with
  | ValidateJobH => ValidateJobHandler.handle
  | AssignWorkerH => AssignWorkerHandler.handle
  | ExecuteJobH executor => ExecuteJobHandler.handle executor
  | CompleteJobH => CompleteJobHandler.handle
  | NotifyWorkerH => fun command s =>
      let (s, fresh) := new_v4 s in NotifyWorkerHandler.handle command fresh s
  | UpdateJobStateH => UpdateJobStateHandler.handle
  | ReleaseWorkerH => ReleaseWorkerHandler.handle
  | TerminateWorkerH => TerminateWorkerHandler.handle
  | MarkJobTimedOutH => MarkJobTimedOutHandler.handle
  | CreateWorkerH => CreateWorkerHandler.handle
  | DestroyWorkerH => DestroyWorkerHandler.handle
  | UnregisterWorkerH => UnregisterWorkerHandler.handle
  | CheckConnectivityH => CheckConnectivityHandler.handle
  | MarkJobForRecoveryH => MarkJobForRecoveryHandler.handle
  | ProvisionNewWorkerH => fun command s =>
      let (s, fresh) := new_v4 s in ProvisionNewWorkerHandler.handle command fresh s
  | TransferJobH => TransferJobHandler.handle
  | DestroyOldWorkerH => DestroyOldWorkerHandler.handle
  | MarkJobFailedH => MarkJobFailedHandler.handle
  | ResumeH => ResumeFromManualInterventionHandler.handle
  end.

Abbreviation saga_bus := (InMemoryErasedCommandBus.t (T := saga_command_types) saga_handler W).

(** A method of the world, run by a handler of the bus. *)
Definition on_bus_world {F X} (m : method W F X) : method saga_bus (exn F) X :=
  fun b =>
    let (w, r) := m (InMemoryErasedCommandBus.world b) in
    (b <| InMemoryErasedCommandBus.world := w |>, map_err Error r).

#[global] Instance saga_handlers : CommandHandlers (T := saga_command_types) saga_handler saga_bus := {|
  HandlerFailure := fun c _ => handler_failure c;
  failure_debug := fun c _ e => error_debug c e;
  handle := fun c h command => on_bus_world (fun w =>
    let (w, r) := run_handler h command w in (w, to_output <$> r));
|}.

(** ** Start-up *)

Abbreviation register := (InMemoryErasedCommandBus.register (Handler := saga_handler) (F := unit)).

(** src: crates/server/application/src/command/execution/mod.rs 55-112 register_execution_command_handlers_with_executor *)
Definition register_execution_command_handlers_with_executor
    (job_executor : option (ExecuteJobHandler.JobExecutor (S := W))) :
    method saga_bus (exn unit) unit :=
  register ValidateJob ValidateJobH;;
  register AssignWorker AssignWorkerH;;
  register ExecuteJob (ExecuteJobH job_executor);;
  register CompleteJob CompleteJobH.

(** src: crates/server/application/src/command/execution/mod.rs 32-45 register_execution_command_handlers *)
Definition register_execution_command_handlers : method saga_bus (exn unit) unit :=
  register_execution_command_handlers_with_executor None.

(** src: crates/server/application/src/command/provisioning/mod.rs 25-52 register_provisioning_command_handlers *)
Definition register_provisioning_command_handlers : method saga_bus (exn unit) unit :=
  register CreateWorker CreateWorkerH;;
  register DestroyWorker DestroyWorkerH.

End handlers.

(** ** Properties *)

Section start_up.
Context `{E : Externs} `{!TypeNames} {W : Type}.
Context `{!JobRepository.t W} `{!WorkerRegistry.t W} `{!WorkerProvisioning.t W}.
Context (new_v4 : W -> W * Uuid) (error_debug : forall c, handler_failure c -> string).
Context (job_executor : option (ExecuteJobHandler.JobExecutor (S := W))).
Import SagaCommand InMemoryErasedCommandBus.

Abbreviation started_bus := (InMemoryErasedCommandBus.t (T := saga_command_types) (saga_handler (W := W)) W).
#[local] Instance handlers : CommandHandlers (T := saga_command_types) saga_handler started_bus :=
  saga_handlers new_v4 error_debug.

(** The bus after both registrations, on a world [w]. *)
Definition started (w : W) : started_bus :=
  after (register_execution_command_handlers_with_executor job_executor;;
         register_provisioning_command_handlers) (new w).

(** The handlers the application registers. *)
Definition registered_handler (c : SagaCommand.t) : option (saga_handler c) :=
  match c with
  | ValidateJob => Some ValidateJobH
  | AssignWorker => Some AssignWorkerH
  | ExecuteJob => Some (ExecuteJobH job_executor)
  | CompleteJob => Some CompleteJobH
  | CreateWorker => Some CreateWorkerH
  | DestroyWorker => Some DestroyWorkerH
  | _ => None
  end.

(** The registrations one after the other. *)
Definition registrations : list (HandlerWrapper (T := saga_command_types) (saga_handler (W := W))) :=
  [Wrap ValidateJob ValidateJobH; Wrap AssignWorker AssignWorkerH;
   Wrap ExecuteJob (ExecuteJobH job_executor); Wrap CompleteJob CompleteJobH;
   Wrap CreateWorker CreateWorkerH; Wrap DestroyWorker DestroyWorkerH].

Lemma started_register_all w : started w = after (register_all registrations) (new w).
Proof.
  unfold started, register_execution_command_handlers_with_executor,
    register_provisioning_command_handlers, registrations, register_all, after.
  unfold mbind, method_bind. by repeat (rewrite run_register by done; simpl).
Qed.

Lemma started_ready w :
  locked (started w) = false /\ well_typed (started w) /\ world (started w) = w /\
  forall c, find_handler c (started w) = registered_handler c.
Proof.
  destruct (well_typed_new (T := saga_command_types) (Handler := saga_handler (W := W)) w)
    as [Hl Hb].
  destruct (register_all_well_typed registrations (new w) Hl Hb) as (Hl' & Hb' & Hf).
  rewrite <- started_register_all in *. split_and!; [done..|].
  intros c. rewrite Hf. by destruct c.
Qed.

(** The world changes hands, the handlers stay. *)
Lemma dispatch_started c command w :
  dispatch c command (started w) =
    match registered_handler c with
    | Some h =>
        let (w', r) := run_handler new_v4 h command w in
        (started w',
         match r with
         | Ok v => Ok (to_output v)
         | Err e => Err (Error (CommandError.HandlerError (any_type_name (CommandType c))
                                  (error_debug c e)))
         end)
    | None =>
        (started w, Err (Error (CommandError.HandlerNotFound
          ("type_id=" +:+ any_type_id_debug (CommandType c)))))
    end.
Proof.
  destruct (started_ready w) as (Hl & Hb & Hw & Hf).
  rewrite run_dispatch, Hf by done. destruct (registered_handler c) as [h|]; [|done].
  unfold handle, handlers, saga_handlers, on_bus_world.
  change (world (started w <| locked := true |>)) with w.
  by destruct (run_handler new_v4 h command w) as [w' [v|e]].
Qed.

(** The two start-up functions of the application give handlers to six
    types of command: validate, assign, execute and complete a job, create and
    destroy a worker.  A command of these is answered by its handler, run on the
    repositories alone; a command of any other type, and the sagas send nine
    such types, is answered with [HandlerNotFound] and changes nothing. *)
Theorem start_up_registers_six_handlers c command w :
  let b := started w in
  CommandBus.dispatch_erased c command b =
    match registered_handler c with
    | Some h =>
        let (w', r) := run_handler new_v4 h command w in
        (started w',
         match r with
         | Ok v => Ok (to_output v)
         | Err e => Err (Error (CommandError.HandlerError (any_type_name (CommandType c))
                                  (error_debug c e)))
         end)
    | None =>
        (b, Err (Error (CommandError.HandlerNotFound
          ("type_id=" +:+ any_type_id_debug (CommandType c)))))
    end /\
  length (filter (fun c => is_Some (registered_handler c)) (enum SagaCommand.t)) = 6%nat.
Proof.
  cbv zeta. split; [|by vm_compute]. by rewrite dispatch_erased_dispatch, dispatch_started.
Qed.

End start_up.
