(* ===== verification/CommandProperties.v ===== *)
(** * What the commands of the sagas do to jobs and workers

    The handlers of [SagaBus.v] on the world of [Services.v] that holds the
    in-memory repositories.  [change] is the step relation of that world: a job
    or a worker takes one transition of its state machine, a worker is
    unregistered, or the provisioning service adds one.  Every handler is a
    sequence of such changes, and what holds along them holds of the bus. *)

From S2P Require Import Prelude Effects Std Externs States Errors JobSpec Job ProviderApi Worker Repositories Services Commands CommandBus JobCommands ExecutionCommands CancellationCommands ProvisioningCommands SagaBus.

Create HintDb commands discriminated.

Section changes.
Context `{E : Externs} `{!MapOrder} (random_id : nat -> Uuid) (time_at : nat -> DateTime).

Abbreviation memory := Memory.t.
Abbreviation job_map m := (Memory.jobs m : gmap JobId Job.t).
Abbreviation worker_map m := (Memory.workers m : gmap WorkerId Worker.t).

(** A worker moves along the state machine; what it is stays. *)
Definition worker_moves (w w' : Worker.t) : Prop :=
  Worker.id w' = Worker.id w /\ Worker.handle w' = Worker.handle w /\
  Worker.spec w' = Worker.spec w /\
  WorkerState.can_transition_to (Worker.state w) (Worker.state w') = true.

Inductive change : memory -> memory -> Prop :=
  | job_changes m i j s :
      job_map m !! i = Some j -> JobState.can_transition_to (Job.state j) s = true ->
      change m (m <| Memory.jobs := <[i := j <| Job.state := s |>]> (job_map m) |>)
  | worker_changes m i w w' :
      worker_map m !! i = Some w -> worker_moves w w' ->
      change m (m <| Memory.workers := <[i := w']> (worker_map m) |>)
  | worker_added m i w :
      worker_map m !! i = None -> Worker.state w = WorkerState.Creating ->
      change m (m <| Memory.workers := <[i := w]> (worker_map m) |>)
  | worker_removed m i :
      change m (m <| Memory.workers := base.delete i (worker_map m) |>)
  | time_passes m n : change m (m <| Memory.tick := n |>).

(** Jobs are stored under their identifiers. *)
Definition keyed (m : memory) : Prop := forall i j, job_map m !! i = Some j -> Job.id j = i.

(** A memory with one job and one worker. *)
Definition one_of_each (j : Job.t) (w : Worker.t) : memory := {|
  Memory.jobs := ({[Job.id j := j]} : gmap JobId Job.t);
  Memory.workers := ({[Worker.id w := w]} : gmap WorkerId Worker.t);
  Memory.tick := 0;
|}.

Lemma one_of_each_keyed j w : keyed (one_of_each j w).
Proof. intros i j'. unfold one_of_each. simpl. by intros [<- <-]%lookup_singleton_Some. Qed.

Lemma one_of_each_job j w : job_map (one_of_each j w) !! Job.id j = Some j.
Proof. apply lookup_singleton_eq. Qed.

Lemma one_of_each_worker j w : worker_map (one_of_each j w) !! Worker.id w = Some w.
Proof. apply lookup_singleton_eq. Qed.

Lemma one_of_each_only j w i w' :
  worker_map (one_of_each j w) !! i = Some w' -> i = Worker.id w /\ w' = w.
Proof. unfold one_of_each. simpl. by intros [<- <-]%lookup_singleton_Some. Qed.

(** A method that is a sequence of changes, however it ends. *)
Definition follows {F X} (m : method memory F X) : Prop :=
  forall s, keyed s -> rtc change s (after m s).

Lemma change_keyed m m' : change m m' -> keyed m -> keyed m'.
Proof.
  intros [m0 i j s Hj _|m0 i w w' _ _|m0 i w _ _|m0 i|m0 n] Hk; try exact Hk.
  unfold keyed. simpl. intros k j'. destruct (decide (k = i)) as [->|Hki].
  - rewrite lookup_insert_eq. intros [= <-]. simpl. by apply Hk.
  - rewrite lookup_insert_ne by done. apply Hk.
Qed.

Lemma changes_keyed m m' : rtc change m m' -> keyed m -> keyed m'.
Proof. induction 1; eauto using change_keyed. Qed.

Lemma follows_ret {F X} (x : X) : follows (mret x : method memory F X).
Proof. intros s _. apply rtc_refl. Qed.

Lemma follows_lift {F X} (r : result F X) : follows (lift r).
Proof. intros s _. apply rtc_refl. Qed.

Lemma follows_ensure {F} b (e : F) : follows (ensure b e).
Proof. intros s _. destruct b; apply rtc_refl. Qed.

Lemma follows_bind {F X Y} (m : method memory F X) (k : X -> method memory F Y) :
  follows m -> (forall x, follows (k x)) -> follows (x ← m; k x).
Proof.
  unfold follows, after, mbind, method_bind. intros Hm Hk s Hs. specialize (Hm s Hs).
  destruct (m s) as [s' [x|e]]; simpl in *; [|done].
  etrans; [exact Hm|]. apply Hk. by eapply changes_keyed.
Qed.

Lemma follows_mapping_error {F G X} (m : method memory F X) (f : F -> G) :
  follows m -> follows (mapping_error m f).
Proof.
  unfold follows, after, mapping_error. intros Hm s Hs. specialize (Hm s Hs). by destruct (m s).
Qed.

Lemma follows_new_v4 {F} : follows (Memory.new_v4 (F := F) random_id).
Proof. intros s _. apply rtc_once, time_passes. Qed.

Lemma follows_now {F} : follows (Memory.now (F := F) time_at).
Proof. intros s _. apply rtc_once, time_passes. Qed.

(** *** The repositories *)

#[local] Instance memory_jobs : JobRepository.t memory := Memory.job_repository.
#[local] Instance memory_registry : WorkerRegistry.t memory := Memory.worker_registry random_id time_at.

Lemma follows_find_job i : follows (JobRepository.find_by_id (R := memory) i).
Proof. intros s _. destruct s. apply rtc_refl. Qed.

Lemma run_update_job_state i st (js : gmap JobId Job.t) :
  InMemoryJobRepository.update_state i st js =
    match js !! i with
    | Some j =>
        if JobState.can_transition_to (Job.state j) st
        then (<[i := j <| Job.state := st |>]> js, Ok tt) else (js, Err (Job.refused j st))
    | None => (js, Ok tt)
    end.
Proof.
  unfold InMemoryJobRepository.update_state, InMemoryJobRepository.t, Job.set_state. run_method.
  destruct (js !! i) as [j|] eqn:Hj; [|done]. simpl.
  destruct (JobState.can_transition_to (Job.state j) st); simpl; [done|].
  by rewrite insert_id.
Qed.

Lemma follows_update_job_state i st : follows (JobRepository.update_state (R := memory) i st).
Proof.
  intros [js ws n] _. unfold after. simpl. unfold Memory.on_jobs. simpl.
  rewrite run_update_job_state. destruct ((js : gmap _ _) !! i) as [j|] eqn:Hj; [|apply rtc_refl].
  destruct (JobState.can_transition_to (Job.state j) st) eqn:Hst; [|apply rtc_refl].
  by apply rtc_once, (job_changes (Memory.mk js ws n) _ j).
Qed.

Lemma follows_find_worker i : follows (WorkerRegistry.find_by_id (S := memory) i).
Proof. intros s _. destruct s. apply rtc_refl. Qed.

Lemma follows_find_workers f : follows (WorkerRegistry.find (S := memory) f).
Proof. intros s _. destruct s. apply rtc_refl. Qed.

Lemma follows_get_by_job_id i : follows (WorkerRegistry.get_by_job_id (S := memory) i).
Proof. intros s _. destruct s. apply rtc_refl. Qed.

Lemma follows_unregister i : follows (WorkerRegistry.unregister (S := memory) i).
Proof. intros s _. apply rtc_once, worker_removed. Qed.

(** What the registry does for [update_state] to a worker it has. *)
Definition move_worker (s : WorkerState.t) (fresh : JobId) (now : DateTime) (w : Worker.t) : Worker.t :=
  if WorkerState.can_transition_to (Worker.state w) s then
    match s with
    | WorkerState.Creating => w
    | WorkerState.Ready =>
        w <| Worker.state := s |> <| Worker.updated_at := now |> <| Worker.last_heartbeat := now |>
    | WorkerState.Busy =>
        w <| Worker.state := s |> <| Worker.updated_at := now |>
          <| Worker.current_job_id := Some fresh |>
    | WorkerState.Terminated => w <| Worker.state := s |> <| Worker.updated_at := now |>
    end
  else w.

Lemma run_update_worker_state i s fresh now (ws : gmap WorkerId Worker.t) :
  InMemoryWorkerRegistry.update_state i s fresh now ws =
    (match ws !! i with Some w => <[i := move_worker s fresh now w]> ws | None => ws end, Ok tt).
Proof.
  unfold InMemoryWorkerRegistry.update_state, InMemoryWorkerRegistry.on_worker,
    InMemoryWorkerRegistry.t, modify.
  destruct (ws !! i) as [[wi h st sp job n comp hb cr up]|]; [|done]. f_equal. f_equal.
  unfold move_worker, after. by destruct s, st.
Qed.

Lemma follows_update_worker_state i st :
  follows (WorkerRegistry.update_state (S := memory) i st).
Proof.
  apply follows_bind; [apply follows_new_v4|intros fresh].
  apply follows_bind; [apply follows_now|intros now].
  intros [js ws n] _. unfold after, Memory.on_workers. cbn [Memory.workers].
  rewrite run_update_worker_state. simpl. destruct ((ws : gmap _ _) !! i) as [w|] eqn:Hw; [|apply rtc_refl].
  destruct (WorkerState.can_transition_to (Worker.state w) st) eqn:Hst.
  - apply rtc_once, (worker_changes (Memory.mk js ws n) _ w); [done|].
    unfold worker_moves, move_worker. rewrite Hst.
    destruct st; split_and!; try done. by destruct (Worker.state w).
  - unfold move_worker. rewrite Hst, insert_id by done. apply rtc_refl.
Qed.

(** A job that is read, moved and written back. *)
Lemma follows_move_job {F X} (f : DomainError.t -> F) (e : F) i st (k : method memory F X) :
  follows k ->
  follows (found ← mapping_error (JobRepository.find_by_id (R := memory) i) f;
           job ← lift (ok_or found e);
           let (job, set) := Job.set_state st job in
           lift (map_err f set);; mapping_error (JobRepository.update (R := memory) job) f;; k).
Proof.
  intros Hk [js ws n] Hs. unfold after, mapping_error, mbind, method_bind. simpl.
  unfold InMemoryJobRepository.t, Job.set_state. run_method.
  destruct ((js : gmap JobId Job.t) !! i) as [j|] eqn:Hj; simpl; [|apply rtc_refl].
  destruct (JobState.can_transition_to (Job.state j) st) eqn:Hst; simpl; [|apply rtc_refl].
  pose proof (Hs i j Hj : Job.id j = i) as <-.
  assert (change (Memory.mk js ws n)
    (Memory.mk (<[Job.id j := j <| Job.state := st |>]> (js : gmap JobId Job.t)) ws n)) as Hc
    by exact (job_changes (Memory.mk js ws n) _ j st Hj Hst).
  eapply rtc_l; [exact Hc|]. apply Hk. by eapply change_keyed.
Qed.

(** *** The handlers *)

(** The provisioning service changes the world like everything else: it may add
    workers that are being created, and move and remove workers. *)
Context `{!WorkerProvisioning.t memory}.
Context (provision_follows : forall p sp j,
  follows (WorkerProvisioning.provision_worker (S := memory) p sp j)).
Context (destroy_follows : forall w, follows (WorkerProvisioning.destroy_worker (S := memory) w)).

Definition draw (m : memory) : memory * Uuid :=
  (m <| Memory.tick := S (Memory.tick m) |>, random_id (Memory.tick m)).

Lemma follows_draw {F X} (k : Uuid -> method memory F X) :
  (forall fresh, follows (k fresh)) -> follows (fun s => let (s, fresh) := draw s in k fresh s).
Proof.
  intros Hk s Hs. eapply rtc_l; [apply time_passes|]. apply Hk. eapply change_keyed; [|exact Hs].
  apply time_passes.
Qed.

(** Whatever service sends a job to its worker changes the world that way too. *)
Definition lawful {c} (h : saga_handler (W := memory) c) : Prop :=
  match h with
  | ExecuteJobH (Some execute_job) => forall j w, follows (execute_job j w)
  | _ => True
  end.

#[local] Hint Resolve follows_ret follows_lift follows_ensure follows_bind
  follows_mapping_error follows_find_job follows_update_job_state follows_find_worker
  follows_find_workers follows_get_by_job_id follows_unregister follows_update_worker_state
  : commands.
#[local] Hint Extern 5 (follows (match ?x with _ => _ end)) => destruct x : commands.

Lemma follows_worker_of_job job : follows (CompleteJobHandler.worker_of_job (S := memory) job).
Proof.
  intros s Hs. pose proof (follows_get_by_job_id job s Hs) as Hf. unfold after in *.
  unfold CompleteJobHandler.worker_of_job. by destruct (WorkerRegistry.get_by_job_id job s).
Qed.

Lemma follows_find_or_validate job worker :
  follows (AssignWorkerHandler.find_or_validate_worker (S := memory) job worker).
Proof.
  unfold AssignWorkerHandler.find_or_validate_worker, AssignWorkerHandler.assigning.
  auto 20 with commands.
Qed.

#[local] Hint Resolve follows_worker_of_job follows_find_or_validate follows_move_job : commands.

Lemma assign_worker_follows command :
  follows (AssignWorkerHandler.handle (S := memory) command).
Proof.
  unfold AssignWorkerHandler.handle. apply follows_bind; [auto with commands|].
  intros [worker|]; [|auto with commands]. apply follows_move_job.
  unfold AssignWorkerHandler.assigning. auto 20 with commands.
Qed.

#[local] Hint Resolve assign_worker_follows provision_follows destroy_follows : commands.

Lemma handlers_follow c (h : saga_handler (W := memory) c) command :
  lawful h -> follows (run_handler draw h command).
Proof.
  destruct h as [| |[executor|]| | | | | | | | | | | | | | | |]; simpl; intros Hh;
    try (apply follows_draw; intros fresh).
  all: unfold ValidateJobHandler.handle, ExecuteJobHandler.handle, CompleteJobHandler.handle,
    NotifyWorkerHandler.handle, UpdateJobStateHandler.handle, ReleaseWorkerHandler.handle,
    TerminateWorkerHandler.handle, MarkJobTimedOutHandler.handle, CreateWorkerHandler.handle,
    DestroyWorkerHandler.handle, UnregisterWorkerHandler.handle, CheckConnectivityHandler.handle,
    MarkJobForRecoveryHandler.handle, ProvisionNewWorkerHandler.handle, TransferJobHandler.handle,
    DestroyOldWorkerHandler.handle, MarkJobFailedHandler.handle,
    ResumeFromManualInterventionHandler.handle; cbv zeta; auto 30 with commands.
Qed.

(** *** The bus *)

Context `{!TypeNames} (error_debug : forall c, handler_failure c -> string).
#[local] Instance memory_handlers :
    CommandHandlers (T := saga_command_types) (saga_handler (W := memory))
      (InMemoryErasedCommandBus.t (T := saga_command_types) (saga_handler (W := memory)) memory) :=
  saga_handlers draw error_debug.
Abbreviation saga_bus :=
  (InMemoryErasedCommandBus.t (T := saga_command_types) (saga_handler (W := memory)) memory).
Import InMemoryErasedCommandBus.

Definition lawful_wrapper (w : HandlerWrapper (T := saga_command_types) (saga_handler (W := memory))) :
    Prop := match w with Wrap c h => lawful h end.

Definition lawful_bus (b : saga_bus) : Prop :=
  locked b = false /\ well_typed b /\ keyed (world b) /\
  forall c h, find_handler c b = Some h -> lawful h.

Lemma as_handler_wrapper c w h :
  as_handler (T := saga_command_types) (Handler := saga_handler (W := memory)) c w = Some h ->
  w = Wrap c h.
Proof.
  destruct w as [c' h']. destruct (decide (c = c')) as [->|Hne].
  - rewrite as_handler_self. by intros [= ->].
  - by rewrite as_handler_other.
Qed.

Lemma register_all_world regs (b : saga_bus) :
  locked b = false -> world (after (register_all regs) b) = world b.
Proof.
  revert b. induction regs as [|[c h] regs IH]; intros b Hb; [done|]. unfold after in *.
  cbn [register_all]. unfold mbind, method_bind. rewrite run_register by done. by rewrite IH.
Qed.

Lemma register_all_lawful regs m :
  keyed m -> Forall lawful_wrapper regs -> lawful_bus (after (register_all regs) (new m)).
Proof.
  intros Hm Hregs. destruct (well_typed_new (T := saga_command_types)
    (Handler := saga_handler (W := memory)) m) as [Hl0 Hb0].
  destruct (register_all_well_typed regs (new m) Hl0 Hb0) as (Hl & Hb & Hf).
  split; [done|]. split; [done|]. split.
  - by rewrite register_all_world.
  - intros c h. rewrite Hf. clear - Hregs. unfold find_handler. simpl. rewrite lookup_empty. simpl.
    assert (forall found : option (saga_handler c), (forall h, found = Some h -> lawful h) ->
      forall h, fold_left (fun found w => match as_handler c w with Some h => Some h | None => found end)
        regs found = Some h -> lawful h) as Hall.
    { induction Hregs as [|w regs Hw _ IH]; intros found Hfound; simpl; [done|]. apply IH.
      intros h'. destruct (as_handler c w) as [h''|] eqn:Hc; [|apply Hfound].
      intros [= <-]. apply as_handler_wrapper in Hc as ->. done. }
    by apply Hall.
Qed.

Lemma dispatch_lawful c command (b : saga_bus) :
  lawful_bus b ->
  let b' := after (CommandBus.dispatch_erased c command) b in
  lawful_bus b' /\ rtc change (world b) (world b').
Proof.
  intros (Hl & Hb & Hk & Hh). unfold after. rewrite dispatch_erased_dispatch, run_dispatch by done.
  destruct (find_handler c b) as [h|] eqn:Hf; [|by repeat split].
  unfold handle, memory_handlers, saga_handlers, on_bus_world. change (world (b <| locked := true |>)) with (world b).
  pose proof (handlers_follow c h command (Hh c h Hf) (world b) Hk) as Hm. unfold after in Hm.
  destruct (run_handler draw h command (world b)) as [m' r]. simpl in *.
  split; [|done]. split; [done|]. split; [exact Hb|]. split; [by eapply changes_keyed|exact Hh].
Qed.

(** Any number of commands sent one after the other, whatever they answer. *)
Fixpoint send_all (commands : list {c & command_value c}) (b : saga_bus) : saga_bus :=
  match commands with
  | [] => b
  | existT c command :: commands =>
      send_all commands (after (CommandBus.dispatch_erased c command) b)
  end.

Lemma send_all_changes commands (b : saga_bus) :
  lawful_bus b -> rtc change (world b) (world (send_all commands b)).
Proof.
  revert b. induction commands as [|[c command] commands IH]; intros b Hb; [apply rtc_refl|].
  destruct (dispatch_lawful c command b Hb) as [Hb' Hc]. simpl. etrans; [exact Hc|by apply IH].
Qed.

(** A job along a sequence of changes. *)
Lemma changes_of_a_job m m' i j :
  rtc change m m' -> job_map m !! i = Some j ->
  exists s, job_map m' !! i = Some (j <| Job.state := s |>) /\
    rtc (fun s s' => JobState.can_transition_to s s' = true) (Job.state j) s.
Proof.
  intros Hm. revert j. induction Hm as [m|m1 m2 m3 Hm _ IH]; intros j Hj.
  - exists (Job.state j). rewrite Hj. split; [by destruct j|apply rtc_refl].
  - assert (job_map m2 !! i = Some j \/ exists s,
      JobState.can_transition_to (Job.state j) s = true /\
      job_map m2 !! i = Some (j <| Job.state := s |>)) as [Hj2|(s & Hs & Hj2)].
    { destruct Hm as [m k j0 s Hk Hs|m k w w' _ _|m k w _ _|m k|m n]; try by left.
      destruct (decide (k = i)) as [->|Hki].
      - right. exists s. rewrite Hk in Hj. injection Hj as ->. split; [done|]. simpl.
        by rewrite lookup_insert_eq.
      - left. simpl. by rewrite lookup_insert_ne. }
    + by apply IH.
    + destruct (IH _ Hj2) as (s' & Hj3 & Hs'). exists s'. split; [done|]. by eapply rtc_l.
Qed.

Lemma terminal_states_stay s s' :
  rtc (fun s s' => JobState.can_transition_to s s' = true) s s' -> JobState.is_terminal s = true ->
  s' = s.
Proof. intros Hs Ht. destruct Hs as [|s s1 s2 Hs1 _]; [done|]. by destruct s, s1. Qed.

(** A worker along a sequence of changes: no way leads back to [Ready]. *)
Definition past_ready (m : memory) (i : WorkerId) : Prop :=
  forall w, worker_map m !! i = Some w -> Worker.state w <> WorkerState.Creating /\
                                        Worker.state w <> WorkerState.Ready.

(** C34: no command of a saga breaks the life cycle of a job, in the repositories in
    memory, which ask the state machines: those of PostgreSQL, which the server runs
    on, write the state of a job as they are told, and are not meant here.  Take a bus with
    any of the handlers registered on it in any order, and send any commands
    through it; whether they succeed or fail, the memory behind it goes through a
    sequence of changes in which each job and each worker takes one transition of its
    state machine, workers are added as [Creating] or are removed.  So every
    job is still there and differs from what it was by its state alone, which has followed
    the life cycle, no completion time, error message or attempt is recorded; and a job
    that was finished is exactly what it was.  This holds for any service behind [ExecuteJob] and
    any provisioning service that respect the life cycles. *)
Theorem commands_follow_the_state_machines regs m commands :
  keyed m -> Forall lawful_wrapper regs ->
  let m' := world (send_all commands (after (register_all regs) (new m))) in
  rtc change m m' /\
  forall i j, job_map m !! i = Some j ->
    exists s, job_map m' !! i = Some (j <| Job.state := s |>) /\
      rtc (fun s s' => JobState.can_transition_to s s' = true) (Job.state j) s /\
      (JobState.is_terminal (Job.state j) = true -> s = Job.state j).
Proof.
  intros Hm Hregs m'. assert (rtc change m m') as Hc.
  { pose proof (send_all_changes commands _ (register_all_lawful regs m Hm Hregs)) as Hc.
    by rewrite register_all_world in Hc. }
  split; [done|]. intros i j Hj. destruct (changes_of_a_job m m' i j Hc Hj) as (s & Hs & Hp).
  exists s. split; [done|]. split; [done|]. by apply terminal_states_stay.
Qed.

(** *** Commands that ask for what the state machines forbid *)

Lemma run_memory_update_job i st m :
  JobRepository.update_state (R := memory) i st m =
    match job_map m !! i with
    | Some j =>
        if JobState.can_transition_to (Job.state j) st
        then (m <| Memory.jobs := <[i := j <| Job.state := st |>]> (job_map m) |>, Ok tt)
        else (m, Err (Job.refused j st))
    | None => (m, Ok tt)
    end.
Proof.
  destruct m as [js ws n]. simpl. unfold Memory.on_jobs. cbn [Memory.jobs].
  rewrite run_update_job_state. destruct ((js : gmap _ _) !! i) as [j|]; [|done].
  by destruct (JobState.can_transition_to _ _).
Qed.

Lemma run_memory_update_worker i st m :
  WorkerRegistry.update_state (S := memory) i st m =
    (match worker_map m !! i with
     | Some w => m <| Memory.workers :=
         <[i := move_worker st (random_id (Memory.tick m)) (time_at (S (Memory.tick m))) w]>
           (worker_map m) |>
     | None => m
     end <| Memory.tick := S (S (Memory.tick m)) |>, Ok tt).
Proof.
  destruct m as [js ws n]. simpl. unfold mbind, method_bind, Memory.new_v4, Memory.now,
    Memory.on_workers. cbn -[InMemoryWorkerRegistry.update_state]. rewrite run_update_worker_state.
  by destruct ((ws : gmap _ _) !! i).
Qed.

Lemma run_memory_find_job i m : JobRepository.find_by_id (R := memory) i m = (m, Ok (job_map m !! i)).
Proof. by destruct m. Qed.

Lemma run_memory_find_worker i m :
  WorkerRegistry.find_by_id (S := memory) i m = (m, Ok (worker_map m !! i)).
Proof. by destruct m. Qed.

Lemma run_memory_update j m :
  JobRepository.update (R := memory) j m =
    (m <| Memory.jobs := <[Job.id j := j]> (job_map m) |>, Ok tt).
Proof. by destruct m. Qed.

Lemma run_memory_no_worker i m :
  (forall k w, worker_map m !! k = Some w -> Worker.current_job_id w <> Some i) ->
  WorkerRegistry.get_by_job_id (S := memory) i m = (m, Ok None).
Proof.
  destruct m as [js ws n]. intros Hno. simpl. unfold Memory.on_workers,
    InMemoryWorkerRegistry.get_by_job_id. run_method.
  destruct (filter _ (map_values ws)) as [|w l] eqn:Hl; [done|exfalso].
  assert (w ∈ filter (fun w => Worker.current_job_id w = Some i) (map_values ws)) as Hw
    by (rewrite Hl; left).
  apply list_elem_of_filter in Hw as [Hw [k Hk]%elem_of_map_values]. by apply (Hno k w).
Qed.

#[local] Opaque memory_jobs memory_registry.

(** Four commands of the recovery, cancellation and timeout sagas ask for
    transitions that the state machines forbid.  A running job can be neither
    marked for recovery nor transferred: both commands always fail, and a
    transfer has by then made the new worker busy, with a random job identifier
    instead of the job's.  A cancelled job cannot be given its state back.
    Releasing a worker that is busy answers with success and leaves it busy. *)
Theorem forbidden_transitions_are_requested m i j :
  job_map m !! i = Some j ->
  (Job.state j = JobState.Running ->
   (forall c, MarkJobForRecoveryCommand.job_id c = i ->
      run_handler draw MarkJobForRecoveryH c m =
        (m, Err (MarkJobForRecoveryError.MarkFailed i (Job.refused j JobState.Pending)))) /\
   (forall c w, TransferJobCommand.job_id c = i ->
      worker_map m !! TransferJobCommand.new_worker_id c = Some w ->
      Worker.state w = WorkerState.Ready ->
      exists m' w',
        run_handler draw TransferJobH c m =
          (m', Err (TransferJobError.TransferFailed i (Job.refused j JobState.Running))) /\
        Memory.jobs m' = Memory.jobs m /\
        worker_map m' !! TransferJobCommand.new_worker_id c = Some w' /\
        Worker.state w' = WorkerState.Busy /\
        Worker.current_job_id w' = Some (random_id (Memory.tick m)))) /\
  (Job.state j = JobState.Cancelled ->
   forall c, UpdateJobStateCommand.job_id c = i ->
     UpdateJobStateCommand.target_state c <> JobState.Cancelled ->
     run_handler draw UpdateJobStateH c m =
       (m, Err (UpdateJobStateError.UpdateFailed i
                  (Job.refused j (UpdateJobStateCommand.target_state c))))) /\
  (forall c w, worker_map m !! ReleaseWorkerCommand.worker_id c = Some w ->
     Worker.state w = WorkerState.Busy ->
     run_handler draw ReleaseWorkerH c m =
       (m <| Memory.tick := S (S (Memory.tick m)) |>, Ok ReleaseWorkerResult.succeeded)).
Proof.
  intros Hj. split_and!.
  - intros Hst. split.
    + intros c <-. unfold run_handler, MarkJobForRecoveryHandler.handle, mapping_error, mbind, method_bind.
      rewrite run_memory_find_job. run_method. rewrite Hj. simpl.
      rewrite run_memory_update_job, Hj, Hst. done.
    + intros c w <- Hw Hws. unfold run_handler, TransferJobHandler.handle, mapping_error, mbind, method_bind.
      rewrite run_memory_find_job. run_method. rewrite Hj. simpl.
      rewrite run_memory_update_worker, Hw. simpl. rewrite run_memory_update_job. simpl.
      rewrite Hj, Hst. simpl. eexists _, _. split; [done|]. simpl. split; [done|].
      rewrite lookup_insert_eq. unfold move_worker. by rewrite Hws.
  - intros Hst c <- Hne. unfold run_handler, UpdateJobStateHandler.handle, mapping_error, mbind, method_bind.
    rewrite run_memory_find_job. run_method. rewrite Hj. simpl.
    rewrite bool_decide_eq_false_2 by (intros [= Heq]; congruence).
    rewrite run_memory_update_job, Hj, Hst. by destruct (UpdateJobStateCommand.target_state c).
  - intros c w Hw Hws. unfold run_handler, ReleaseWorkerHandler.handle, mapping_error, mbind, method_bind.
    rewrite run_memory_find_worker. run_method. rewrite Hw. simpl.
    rewrite run_memory_update_worker, Hw. unfold move_worker. rewrite Hws. simpl.
    rewrite insert_id by done. by destruct m.
Qed.

(** The three commands with which the execution saga runs a job do their work on
    the in-memory repositories, and leave the worker behind.  A pending job that
    is assigned to a ready worker, started and completed with success has
    succeeded, and all three commands answer so.  But assigning the worker has
    given it a random job identifier, so completing the job does not find it:
    it stays busy with a job that does not exist, and a busy worker can only be
    terminated. *)
Theorem executed_job_keeps_its_worker_busy m i k j w assign execute complete :
  keyed m -> job_map m !! i = Some j -> Job.state j = JobState.Pending ->
  worker_map m !! k = Some w -> Worker.state w = WorkerState.Ready ->
  (forall k' w', worker_map m !! k' = Some w' -> Worker.current_job_id w' <> Some i) ->
  random_id (Memory.tick m) <> i ->
  AssignWorkerCommand.job_id assign = i -> AssignWorkerCommand.worker_id assign = Some k ->
  ExecuteJobCommand.job_id execute = i -> ExecuteJobCommand.worker_id execute = k ->
  CompleteJobCommand.job_id complete = i ->
  CompleteJobCommand.final_state complete = JobState.Succeeded ->
  exists m1 m2 m3 w',
    AssignWorkerHandler.handle assign m =
      (m1, Ok (WorkerAssignmentResult.succeeded k WorkerState.Busy)) /\
    ExecuteJobHandler.handle None execute m1 =
      (m2, Ok (JobExecutionResult.initiated JobState.Running)) /\
    CompleteJobHandler.handle complete m2 =
      (m3, Ok (JobCompletionResult.new JobState.Succeeded)) /\
    job_map m3 = <[i := j <| Job.state := JobState.Succeeded |>]> (job_map m) /\
    worker_map m3 !! k = Some w' /\ Worker.state w' = WorkerState.Busy /\
    Worker.current_job_id w' = Some (random_id (Memory.tick m)).
Proof.
  intros Hm Hj Hjs Hw Hws Hno Hr Hai Ha Hxi Hxw Hci Hf. pose proof (Hm _ _ Hj) as Hid.
  set (w' := move_worker WorkerState.Busy (random_id (Memory.tick m)) (time_at (S (Memory.tick m))) w).
  set (after_state st := Memory.mk (<[i := j <| Job.state := st |>]> (job_map m))
    (<[k := w']> (worker_map m)) (S (S (Memory.tick m)))).
  assert (Worker.state w' = WorkerState.Busy /\
    Worker.current_job_id w' = Some (random_id (Memory.tick m))) as [Hb Hcur]
    by (unfold w', move_worker; by rewrite Hws).
  assert (forall st, job_map (after_state st) !! i = Some (j <| Job.state := st |>)) as Hjob
    by (intros; apply lookup_insert_eq).
  assert (forall st st', JobState.can_transition_to st st' = true ->
    JobRepository.update_state (R := memory) i st' (after_state st) = (after_state st', Ok tt)) as Hup.
  { intros st st' Hst. rewrite run_memory_update_job, Hjob. simpl. rewrite Hst.
    unfold after_state. simpl. by rewrite insert_insert_eq. }
  exists (after_state JobState.Assigned), (after_state JobState.Running),
    (after_state JobState.Succeeded), w'.
  split_and!; [| | |reflexivity|apply lookup_insert_eq|exact Hb|exact Hcur].
  - unfold AssignWorkerHandler.handle, AssignWorkerHandler.find_or_validate_worker,
      AssignWorkerHandler.assigning, mapping_error, mbind, method_bind.
    rewrite Ha, Hai, run_memory_find_worker. run_method. rewrite Hw. simpl. rewrite Hws. simpl.
    rewrite run_memory_find_job, Hj. simpl. unfold Job.set_state. run_method.
    rewrite Hjs. simpl. rewrite run_memory_update. simpl. rewrite run_memory_update_worker. simpl.
    rewrite Hw. simpl. rewrite run_memory_find_worker. simpl. fold w'.
    rewrite lookup_insert_eq. simpl. rewrite Hb. unfold after_state. by rewrite <- Hid.
  - unfold ExecuteJobHandler.handle, mapping_error, mbind, method_bind.
    rewrite Hxi, Hxw, run_memory_find_job. run_method. rewrite Hjob. simpl.
    rewrite run_memory_find_worker. unfold after_state at 1. simpl. rewrite lookup_insert_eq. simpl.
    by rewrite Hup.
  - unfold CompleteJobHandler.handle, CompleteJobHandler.worker_of_job, mapping_error, mbind,
      method_bind.
    rewrite Hci, Hf, run_memory_find_job. run_method. rewrite Hjob. simpl. rewrite Hup by done. simpl.
    rewrite run_memory_no_worker; [done|]. intros k' w0. unfold after_state. simpl.
    destruct (decide (k' = k)) as [->|Hk]; [rewrite lookup_insert_eq; intros [= <-]; congruence|].
    rewrite lookup_insert_ne by done. apply Hno.
Qed.

End changes.

(** ** An example: a pending or running job and a worker that is ready or busy *)

#[local] Existing Instance concrete_order.

Definition example_id (n : nat) : @Uuid concrete := (100 + n)%nat.
Definition example_time (n : nat) : @DateTime concrete := Z.of_nat n.
Definition example_worker (s : WorkerState.t) : @Worker.t concrete :=
  Worker.new (E := concrete) (WorkerHandle.new (E := concrete) 1%nat "c1" ProviderType.Docker 2%nat 0)
    (WorkerSpec.new (E := concrete) "img" "srv" 1%nat) 0 <| Worker.state := s |>.
Definition example_memory (js : JobState.t) (ws : WorkerState.t) : @Memory.t concrete :=
  one_of_each (example_job <| Job.state := js |>) (example_worker ws).

Lemma example_job_at js ws :
  (Memory.jobs (example_memory js ws) : gmap (@Uuid concrete) (@Job.t concrete)) !! (7%nat : @Uuid concrete)
    = Some (example_job <| Job.state := js |>).
Proof.
  change (7%nat : @Uuid concrete) with (Job.id (example_job <| Job.state := js |>)).
  apply (one_of_each_job (E := concrete)).
Qed.

Lemma example_worker_at js ws :
  (Memory.workers (example_memory js ws) : gmap (@Uuid concrete) (@Worker.t concrete))
    !! (1%nat : @Uuid concrete) = Some (example_worker ws).
Proof.
  change (1%nat : @Uuid concrete) with (Worker.id (example_worker ws)).
  apply (one_of_each_worker (E := concrete)).
Qed.

#[local] Existing Instance memory_jobs.
#[local] Instance example_registry : @WorkerRegistry.t concrete (@Memory.t concrete) :=
  memory_registry (E := concrete) example_id example_time.

(** A provisioning service that has no provider and can remove workers. *)
#[local] Instance example_provisioning : @WorkerProvisioning.t concrete (@Memory.t concrete) := {|
  WorkerProvisioning.provision_worker := fun p _ _ => throw (DomainError.ProviderNotFound p);
  WorkerProvisioning.destroy_worker := fun w =>
    WorkerRegistry.unregister (E := concrete) w;
  WorkerProvisioning.is_provider_available := fun _ => mret false;
|}.

#[local] Instance example_names : TypeNames :=
  {| any_type_name := fun _ => ""; any_type_id_debug := fun _ => "" |}.

Example forbidden_transitions_are_requested_witness :
  let m := example_memory JobState.Running WorkerState.Ready in
  let c := MarkJobForRecoveryCommand.new (E := concrete) 7%nat 1%nat "saga" 3%nat 0 in
  run_handler (E := concrete) (draw example_id) MarkJobForRecoveryH c m =
    (m, Err (MarkJobForRecoveryError.MarkFailed (E := concrete) 7%nat
               (Job.refused (example_job <| Job.state := JobState.Running |>) JobState.Pending))).
Proof.
  intros m c.
  apply (forbidden_transitions_are_requested (E := concrete) example_id example_time m 7%nat
    (example_job <| Job.state := JobState.Running |>)
    (example_job_at _ _)); reflexivity.
Defined.

Example executed_job_keeps_its_worker_busy_witness :
  let m := example_memory JobState.Pending WorkerState.Ready in
  let assign := AssignWorkerCommand.with_worker (E := concrete) 7%nat 1%nat "saga" 3%nat 0 in
  let execute := ExecuteJobCommand.new (E := concrete) 7%nat 1%nat "saga" 3%nat 0 in
  let complete := CompleteJobCommand.success (E := concrete) 7%nat "saga" 3%nat 0 in
  exists m1 m2 m3,
    AssignWorkerHandler.handle (E := concrete) assign m =
      (m1, Ok (WorkerAssignmentResult.succeeded (E := concrete) 1%nat WorkerState.Busy)) /\
    ExecuteJobHandler.handle (E := concrete) None execute m1 =
      (m2, Ok (JobExecutionResult.initiated JobState.Running)) /\
    CompleteJobHandler.handle (E := concrete) complete m2 =
      (m3, Ok (JobCompletionResult.new JobState.Succeeded)).
Proof.
  intros m assign execute complete.
  destruct (executed_job_keeps_its_worker_busy (E := concrete) example_id example_time m 7%nat 1%nat
    (example_job <| Job.state := JobState.Pending |>) (example_worker WorkerState.Ready)
    assign execute complete (one_of_each_keyed (E := concrete) _ _)
    (example_job_at _ _) eq_refl (example_worker_at _ _) eq_refl
    ltac:(by intros k' w' [-> ->]%(one_of_each_only (E := concrete))) ltac:(done)
    eq_refl eq_refl eq_refl eq_refl eq_refl eq_refl) as (m1 & m2 & m3 & w' & H1 & H2 & H3 & _).
  by exists m1, m2, m3.
Defined.

Example commands_follow_the_state_machines_witness :
  let m := example_memory JobState.Succeeded WorkerState.Busy in
  let commands : list {c & command_value (E := concrete) c} := [existT SagaCommand.MarkJobFailed
    (MarkJobFailedCommand.new (E := concrete) 7%nat "late" 3%nat 0)] in
  let regs : list (InMemoryErasedCommandBus.HandlerWrapper (T := saga_command_types)
      (saga_handler (E := concrete) (W := @Memory.t concrete))) :=
    [InMemoryErasedCommandBus.Wrap (T := saga_command_types) SagaCommand.MarkJobFailed MarkJobFailedH;
     InMemoryErasedCommandBus.Wrap (T := saga_command_types) SagaCommand.ExecuteJob (ExecuteJobH None)] in
  rtc (change (E := concrete)) m
    (InMemoryErasedCommandBus.world (send_all (E := concrete) example_id example_time
      (fun _ _ => "") commands
      (after (register_all regs) (InMemoryErasedCommandBus.new m)))).
Proof.
  intros m commands regs.
  refine (proj1 (commands_follow_the_state_machines (E := concrete) example_id example_time _ _
    (fun _ _ => "") regs m commands (one_of_each_keyed (E := concrete) _ _) _)).
  - intros p sp j s _. apply rtc_refl.
  - intros w. apply (follows_unregister (E := concrete)).
  - by repeat constructor.
Defined.
