(* ===== verification/ExecutionSaga.v ===== *)
(** * The execution saga ([crates/server/domain/src/saga/execution.rs])

    Run a job on a worker: validate the job, assign a worker to it, start it and
    complete it.  A module per step, with the bodies of [execute] and
    [compensate] and the step they make. *)

From S2P Require Import Prelude Effects Std Externs States Errors JobSpec Job ProviderApi Worker Events Repositories Services Commands CommandBus JobCommands ExecutionCommands CancellationCommands ProvisioningCommands SagaBus SagaTypes Orchestrator Steps.

Section common.
Context `{E : Externs} `{!TypeNames} {A : Type} `{!SagaRuntime A} `{!StepWorld (T := saga_command_types) A}.

(** The identifier of the saga, as the commands carry it. *)
Definition saga_id_text (c : SagaContext.t) : string := uuid_to_string (SagaContext.saga_id c).

(** [{ let services = context.services()...; services.command_bus... }]: a step
    that cannot get at the bus fails with [e]. *)
Definition bus_or (no_services no_bus : SagaError.t) :
    method (Step.frame A) (exn SagaError.t) (DynCommandBus (T := saga_command_types) A) :=
  services ← Step.services_or no_services;
  Step.command_bus_or no_bus services.

End common.

Module ValidateJobStep.
Section step.
Context `{E : Externs} `{!TypeNames} {A : Type} `{!SagaRuntime A} `{!StepWorld (T := saga_command_types) A}.
Import Step.

Definition failed (message : string) : SagaError.t :=
  SagaError.StepFailed "ValidateJob" message false.

Definition valid_states : list JobState.t :=
  [JobState.Pending; JobState.Running; JobState.Assigned; JobState.Scheduled].

(** src: crates/server/domain/src/saga/execution.rs 137-238 ValidateJobStep::execute *)
Definition execute (job_id : JobId) (tx : PgTransaction) : method (frame A) (exn SagaError.t) unit :=
  services ← services_or (failed "SagaServices not available in context");
  job_repository ← job_repository_or (failed "JobRepository service not available") services;
  c ← context_of;
  if is_set "job_validated" c then mret tt
  else
    job_opt ← call (job_find_by_id_with_tx job_repository tx job_id)
      (fun e => failed ("Failed to fetch job from repository: " +:+ DomainError.fmt e));
    job ← or_error id (ok_or job_opt
      (failed ("Job " +:+ uuid_to_string job_id +:+ " not found in repository")));
    let current_state := Job.state job in
    ensure (bool_decide (current_state ∈ valid_states))
      (Error (failed ("Job " +:+ uuid_to_string job_id +:+ " is in state "
        +:+ JobState.debug current_state
        +:+ ", expected PENDING, ASSIGNED, SCHEDULED or RUNNING")));;
    set_metadata "execution_original_state" (json_of_string (JobState.debug current_state))
      (fun e => failed ("Failed to store original state: " +:+ SagaError.fmt e));;
    set_metadata "execution_job_id" (json_of_string (uuid_to_string job_id))
      (fun e => failed ("Failed to store job_id: " +:+ SagaError.fmt e));;
    set_metadata "job_validated" (json_of_bool true)
      (fun e => failed ("Failed to mark job as validated: " +:+ SagaError.fmt e)).

(** src: crates/server/domain/src/saga/execution.rs 240-248 ValidateJobStep::compensate *)
Definition compensate (_ : PgTransaction) : method (frame A) (exn SagaError.t) unit := mret tt.

(** src: crates/server/domain/src/saga/execution.rs 129-257 impl SagaStep for ValidateJobStep *)
Definition new (job_id : JobId) : SagaStep.t A :=
  step "ValidateJob" true false (execute job_id) compensate.

End step.
End ValidateJobStep.

Module AssignWorkerStep.
Section step.
Context `{E : Externs} `{!TypeNames} {A : Type} `{!SagaRuntime A} `{!StepWorld (T := saga_command_types) A}.
Import Step.

Definition failed (message : string) : SagaError.t :=
  SagaError.StepFailed "AssignWorker" message true.
Definition compensation_failed (message : string) : SagaError.t :=
  SagaError.CompensationFailed "AssignWorker" message.

(** src: crates/server/domain/src/saga/execution.rs 303-406 AssignWorkerStep::execute *)
Definition execute (job_id : JobId) (worker_id : option WorkerId) (_ : PgTransaction) :
    method (frame A) (exn SagaError.t) unit :=
  command_bus ← bus_or (failed "SagaServices not available in context")
    (failed "CommandBus not available in SagaServices");
  c ← context_of;
  if is_set "worker_assignment_done" c then mret tt
  else
    command ← stamp
      match worker_id with
      | Some i => AssignWorkerCommand.with_worker job_id i (saga_id_text c)
      | None => AssignWorkerCommand.new job_id (saga_id_text c)
      end;
    answer ← dispatch command_bus SagaCommand.AssignWorker command;
    result ← or_error (fun e =>
      failed ("Failed to dispatch AssignWorkerCommand: " +:+ CommandError.fmt e)) answer;
    assigned_worker_id ← or_error id
      (ok_or (WorkerAssignmentResult.worker_id result) (failed "No worker assigned by command"));
    set_metadata "execution_worker_id" (json_of_string (uuid_to_string assigned_worker_id))
      (fun e => failed ("Failed to store worker_id: " +:+ SagaError.fmt e));;
    set_metadata "worker_assignment_done" (json_of_bool true)
      (fun e => failed ("Failed to mark worker assignment done: " +:+ SagaError.fmt e)).

(** A worker that is [Busy] is sent back to [Ready]; a registry that fails, or
    without the worker, is passed over. *)
Definition release_worker (worker_registry : WorkerRegistryTx A) (tx : PgTransaction)
    (worker_id : WorkerId) (worker_id_str : string) :
    method (frame A) (exn SagaError.t) unit :=
  found ← await (worker_get worker_registry worker_id);
  match found with
  | Ok (Some worker) =>
      if bool_decide (Worker.state worker = WorkerState.Busy) then
        call (worker_update_state_with_tx worker_registry tx worker_id WorkerState.Ready)
          (fun e => compensation_failed
            ("Failed to release worker " +:+ worker_id_str +:+ ": " +:+ DomainError.fmt e))
      else mret tt
  | _ => mret tt
  end.

(** The new state is set [.ok()] and the job saved [.ok()]: a transition that is
    refused leaves the job as it is, and it is saved all the same. *)
Definition revert_job (job_repo : JobRepositoryTx A) (tx : PgTransaction) (job_id : JobId)
    (from : list JobState.t) (target : JobState.t) : method (frame A) (exn SagaError.t) unit :=
  found ← await (job_find_by_id_with_tx job_repo tx job_id);
  match found with
  | Ok (Some job) =>
      if bool_decide (Job.state job ∈ from) then
        _ ← await (job_update_with_tx job_repo tx (after (Job.set_state target) job));
        mret tt
      else mret tt
  | _ => mret tt
  end.

(** src: crates/server/domain/src/saga/execution.rs 410-477 AssignWorkerStep::compensate *)
Definition compensate (job_id : JobId) (tx : PgTransaction) :
    method (frame A) (exn SagaError.t) unit :=
  c ← context_of;
  match text_of "execution_worker_id" c with
  | None => mret tt
  | Some worker_id_str =>
      services ← services_or (compensation_failed "SagaServices not available");
      worker_id ← or_error id (ok_or (uuid_parse_str worker_id_str)
        (compensation_failed ("Invalid worker_id in context: " +:+ worker_id_str)));
      release_worker (Services.provider_registry services) tx worker_id worker_id_str;;
      match Services.job_repository services with
      | Some job_repo =>
          revert_job job_repo tx job_id [JobState.Assigned; JobState.Running] JobState.Pending
      | None => mret tt
      end
  end.

(** src: crates/server/domain/src/saga/execution.rs 294-486 impl SagaStep for AssignWorkerStep *)
Definition new (job_id : JobId) (worker_id : option WorkerId) : SagaStep.t A :=
  step "AssignWorker" true true (execute job_id worker_id) (compensate job_id).

End step.
End AssignWorkerStep.

Module ExecuteJobStep.
Section step.
Context `{E : Externs} `{!TypeNames} {A : Type} `{!SagaRuntime A} `{!StepWorld (T := saga_command_types) A}.
Import Step.

Definition failed (message : string) : SagaError.t :=
  SagaError.StepFailed "ExecuteJob" message true.

(** [WorkerId::from_string(&text).unwrap_or_default()]: what does not parse
    becomes a fresh identifier. *)
Definition parse_or_default (text : string) : method (frame A) (exn SagaError.t) WorkerId :=
  match uuid_parse_str text with
  | Some i => mret i
  | None => io new_v4
  end.

(** src: crates/server/domain/src/saga/execution.rs 529-611 ExecuteJobStep::execute *)
Definition execute (job_id : JobId) (_ : PgTransaction) :
    method (frame A) (exn SagaError.t) unit :=
  command_bus ← bus_or (failed "SagaServices not available in context")
    (failed "CommandBus not available in SagaServices");
  c ← context_of;
  if is_set "job_execution_started" c then mret tt
  else
    worker_id ← parse_or_default (default "unknown" (text_of "execution_worker_id" c));
    command ← stamp (ExecuteJobCommand.new job_id worker_id (saga_id_text c));
    answer ← dispatch command_bus SagaCommand.ExecuteJob command;
    _ ← or_error (fun e =>
      failed ("Failed to dispatch ExecuteJobCommand: " +:+ CommandError.fmt e)) answer;
    started_at ← io Utc_now;
    set_metadata "job_started_at" (json_of_string (to_rfc3339 started_at))
      (fun e => failed ("Failed to store execution timestamp: " +:+ SagaError.fmt e));;
    set_metadata "job_execution_started" (json_of_bool true)
      (fun e => failed ("Failed to mark execution started: " +:+ SagaError.fmt e)).

(** src: crates/server/domain/src/saga/execution.rs 615-638 ExecuteJobStep::compensate *)
Definition compensate (job_id : JobId) (tx : PgTransaction) :
    method (frame A) (exn SagaError.t) unit :=
  services ← services_or
    (SagaError.CompensationFailed "ExecuteJob" "SagaServices not available");
  match Services.job_repository services with
  | Some job_repo =>
      AssignWorkerStep.revert_job job_repo tx job_id [JobState.Running] JobState.Assigned
  | None => mret tt
  end.

(** src: crates/server/domain/src/saga/execution.rs 521-647 impl SagaStep for ExecuteJobStep *)
Definition new (job_id : JobId) : SagaStep.t A :=
  step "ExecuteJob" true true (execute job_id) (compensate job_id).

End step.
End ExecuteJobStep.

Module CompleteJobStep.
Section step.
Context `{E : Externs} `{!TypeNames} {A : Type} `{!SagaRuntime A} `{!StepWorld (T := saga_command_types) A}.
Import Step.

Definition failed (message : string) : SagaError.t :=
  SagaError.StepFailed "CompleteJob" message false.

(** Nothing waits for the job to end: the final state is always [Succeeded]. *)
(** src: crates/server/domain/src/saga/execution.rs 688-782 CompleteJobStep::execute *)
Definition execute (job_id : JobId) (_ : PgTransaction) :
    method (frame A) (exn SagaError.t) unit :=
  command_bus ← bus_or (failed "SagaServices not available in context")
    (failed "CommandBus not available in SagaServices");
  c ← context_of;
  if is_set "job_execution_completed" c then mret tt
  else
    let completed_state := JobState.Succeeded in
    command ← stamp (CompleteJobCommand.success job_id (saga_id_text c));
    answer ← dispatch command_bus SagaCommand.CompleteJob command;
    _ ← or_error (fun e =>
      failed ("Failed to dispatch CompleteJobCommand: " +:+ CommandError.fmt e)) answer;
    completed_at ← io Utc_now;
    set_metadata "job_completed_at" (json_of_string (to_rfc3339 completed_at))
      (fun e => failed ("Failed to store completion timestamp: " +:+ SagaError.fmt e));;
    set_metadata "job_final_state" (json_of_string (JobState.debug completed_state))
      (fun e => failed ("Failed to store final state: " +:+ SagaError.fmt e));;
    set_metadata "job_execution_completed" (json_of_bool true)
      (fun e => failed ("Failed to mark execution completed: " +:+ SagaError.fmt e)).

(** src: crates/server/domain/src/saga/execution.rs 784-793 CompleteJobStep::compensate *)
Definition compensate (_ : PgTransaction) : method (frame A) (exn SagaError.t) unit := mret tt.

(** src: crates/server/domain/src/saga/execution.rs 679-802 impl SagaStep for CompleteJobStep *)
Definition new (job_id : JobId) : SagaStep.t A :=
  step "CompleteJob" true false (execute job_id) compensate.

End step.
End CompleteJobStep.

Module ExecutionSaga.
Section saga.
Context `{E : Externs}.

(** src: crates/server/domain/src/saga/execution.rs 38-45 ExecutionSaga *)
Record t := mk {
  job_id : JobId;
  worker_id : option WorkerId;
  idempotency_key : string;
}.

(** src: crates/server/domain/src/saga/execution.rs 50-56 ExecutionSaga::new *)
Definition new (job : JobId) : t := mk job None ("execution:" +:+ uuid_to_string job).

(** src: crates/server/domain/src/saga/execution.rs 60-66 ExecutionSaga::with_worker *)
Definition with_worker (job : JobId) (worker : WorkerId) : t :=
  mk job (Some worker) ("execution:" +:+ uuid_to_string job).

Context `{!TypeNames} {A : Type} `{!SagaRuntime A} `{!StepWorld (T := saga_command_types) A}.

(** src: crates/server/domain/src/saga/execution.rs 74-84 ExecutionSaga::steps *)
Definition steps (s : t) : list (SagaStep.t A) := [
  ValidateJobStep.new (job_id s);
  AssignWorkerStep.new (job_id s) (worker_id s);
  ExecuteJobStep.new (job_id s);
  CompleteJobStep.new (job_id s)
].

(** src: crates/server/domain/src/saga/execution.rs 69-93 impl Saga for ExecutionSaga *)
Definition saga (s : t) : Saga.t A := {|
  Saga.saga_type := SagaType.Execution;
  Saga.steps := steps s;
  Saga.timeout := Some (from_secs 300);
  Saga.idempotency_key := Some (idempotency_key s);
|}.

End saga.
End ExecutionSaga.
