(* ===== verification/CancellationSaga.v ===== *)
(** * The cancellation saga ([crates/server/domain/src/saga/cancellation.rs])

    Validate that the job can be cancelled, notify its worker, move the job to
    [Cancelled] and release the worker. *)

From S2P Require Import Prelude Effects Std Externs States Errors JobSpec Job ProviderApi Worker Events Repositories Services Commands CommandBus JobCommands ExecutionCommands CancellationCommands ProvisioningCommands SagaTypes Orchestrator Steps SagaBus ExecutionSaga.

Module ValidateCancellationStep.
Section step.
Context `{E : Externs} `{!TypeNames} {A : Type} `{!SagaRuntime A} `{!StepWorld (T := saga_command_types) A}.
Import Step.

Definition failed (message : string) : SagaError.t :=
  SagaError.StepFailed "ValidateCancellation" message false.

Definition cancellable_states : list JobState.t :=
  [JobState.Pending; JobState.Assigned; JobState.Running; JobState.Scheduled].

(** src: crates/server/domain/src/saga/cancellation.rs 115-201 ValidateCancellationStep::execute *)
Definition execute (job_id : JobId) (tx : PgTransaction) : method (frame A) (exn SagaError.t) unit :=
  services ← services_or (failed "SagaServices not available");
  job_repository ← job_repository_or (failed "JobRepository not available") services;
  c ← context_of;
  if is_set "cancellation_validated" c then mret tt
  else
    job_opt ← call (job_find_by_id_with_tx job_repository tx job_id)
      (fun e => failed ("Failed to fetch job: " +:+ DomainError.fmt e));
    job ← or_error id (ok_or job_opt
      (failed ("Job " +:+ uuid_to_string job_id +:+ " not found")));
    ensure (bool_decide (Job.state job ∈ cancellable_states))
      (Error (failed ("Job " +:+ uuid_to_string job_id +:+ " is in state "
        +:+ JobState.debug (Job.state job) +:+ ", cannot cancel")));;
    set_metadata "cancellation_original_state"
      (json_of_string (JobState.debug (Job.state job))) (fun e => failed (SagaError.fmt e));;
    set_metadata "cancellation_validated" (json_of_bool true)
      (fun e => failed (SagaError.fmt e)).

(** src: crates/server/domain/src/saga/cancellation.rs 203-209 ValidateCancellationStep::compensate *)
Definition compensate (_ : PgTransaction) : method (frame A) (exn SagaError.t) unit := mret tt.

(** src: crates/server/domain/src/saga/cancellation.rs 107-218 impl SagaStep for ValidateCancellationStep *)
Definition new (job_id : JobId) : SagaStep.t A :=
  step "ValidateCancellation" true false (execute job_id) compensate.

End step.
End ValidateCancellationStep.

Module NotifyWorkerStep.
Section step.
Context `{E : Externs} `{!TypeNames} {A : Type} `{!SagaRuntime A} `{!StepWorld (T := saga_command_types) A}.
Import Step.

Definition failed (message : string) : SagaError.t :=
  SagaError.StepFailed "NotifyWorker" message true.

(** src: crates/server/domain/src/saga/cancellation.rs 245-334 NotifyWorkerStep::execute *)
Definition execute (job_id : JobId) (reason : string) (_ : PgTransaction) :
    method (frame A) (exn SagaError.t) unit :=
  services ← services_or (failed "SagaServices not available");
  command_bus ← command_bus_or (failed "CommandBus not available in SagaServices") services;
  c ← context_of;
  if is_set "worker_notified" c then mret tt
  else
    worker_opt ← call (worker_get_by_job_id (Services.provider_registry services) job_id)
      (fun e => failed ("Failed to find worker for job: " +:+ DomainError.fmt e));
    match Worker.id <$> worker_opt with
    | Some worker_id =>
        set_metadata "cancelled_worker_id" (json_of_string (uuid_to_string worker_id))
          (fun e => failed (SagaError.fmt e));;
        command ← stamp
          (NotifyWorkerCommand.new job_id (Some worker_id) reason (saga_id_text c));
        answer ← dispatch command_bus SagaCommand.NotifyWorker command;
        _ ← or_error (fun e => failed ("Failed to notify worker: " +:+ CommandError.fmt e)) answer;
        mret tt
    | None => mret tt
    end;;
    set_metadata "worker_notified" (json_of_bool true) (fun e => failed (SagaError.fmt e)).

(** src: crates/server/domain/src/saga/cancellation.rs 336-343 NotifyWorkerStep::compensate *)
Definition compensate (_ : PgTransaction) : method (frame A) (exn SagaError.t) unit := mret tt.

(** src: crates/server/domain/src/saga/cancellation.rs 237-352 impl SagaStep for NotifyWorkerStep *)
Definition new (job_id : JobId) (reason : string) : SagaStep.t A :=
  step "NotifyWorker" true false (execute job_id reason) compensate.

End step.
End NotifyWorkerStep.

Module UpdateJobStateStep.
Section step.
Context `{E : Externs}.

(** src: crates/server/domain/src/saga/cancellation.rs 359-363 UpdateJobStateStep *)
Record t := mk {
  job_id : JobId;
  target_state : JobState.t;
  reason : string;
}.

(** src: crates/server/domain/src/saga/cancellation.rs 367-373 UpdateJobStateStep::cancel *)
Definition cancel (job : JobId) (why : string) : t := mk job JobState.Cancelled why.

(** src: crates/server/domain/src/saga/cancellation.rs 376-382 UpdateJobStateStep::with_state *)
Definition with_state (job : JobId) (target : JobState.t) (_saga_id : string) : t :=
  mk job target "".

Context `{!TypeNames} {A : Type} `{!SagaRuntime A} `{!StepWorld (T := saga_command_types) A}.
Import Step.

Definition failed (message : string) (will_compensate : bool) : SagaError.t :=
  SagaError.StepFailed "UpdateJobState" message will_compensate.
Definition compensation_failed (message : string) : SagaError.t :=
  SagaError.CompensationFailed "UpdateJobState" message.

(** The target state is only logged: the command is always the cancellation. *)
(** src: crates/server/domain/src/saga/cancellation.rs 394-482 UpdateJobStateStep::execute *)
Definition execute (st : t) (_ : PgTransaction) : method (frame A) (exn SagaError.t) unit :=
  services ← services_or (failed "SagaServices not available" true);
  command_bus ← command_bus_or (failed "CommandBus not available in SagaServices" true) services;
  c ← context_of;
  if is_set "job_state_updated" c then mret tt
  else
    command ← stamp (UpdateJobStateCommand.cancel (job_id st) (saga_id_text c));
    answer ← dispatch command_bus SagaCommand.UpdateJobState command;
    result ← or_error (fun e =>
      failed ("Failed to update job state via CommandBus: " +:+ CommandError.fmt e) true) answer;
    (if UpdateJobStateResult.was_already_in_state result then mret tt
     else
       occurred_at ← io Utc_now;
       let event := DomainEvent.JobCancelled (job_id st) (Some (reason st)) occurred_at
         (SagaContext.correlation_id c) (SagaContext.actor c) in
       call (publish (Services.event_bus services) event)
         (fun e =>
           failed ("Failed to publish JobCancelled event: " +:+ EventBusError.fmt e) false));;
    set_metadata "job_state_updated" (json_of_bool true) (fun e => failed (SagaError.fmt e) true).

(** src: crates/server/domain/src/saga/cancellation.rs 512-518 UpdateJobStateStep::compensate (original state) *)
Definition original_state_of (text : string) : JobState.t :=
  if String.eqb text "Running" then JobState.Running
  else if String.eqb text "Pending" then JobState.Pending
  else if String.eqb text "Assigned" then JobState.Assigned
  else if String.eqb text "Scheduled" then JobState.Scheduled
  else JobState.Pending.

(** src: crates/server/domain/src/saga/cancellation.rs 484-543 UpdateJobStateStep::compensate *)
Definition compensate (st : t) (_ : PgTransaction) : method (frame A) (exn SagaError.t) unit :=
  services ← services_or (compensation_failed "SagaServices not available");
  command_bus ← command_bus_or (compensation_failed "CommandBus not available in SagaServices")
    services;
  c ← context_of;
  let original_state :=
    original_state_of (default "Queued" (text_of "cancellation_original_state" c)) in
  command ← stamp (UpdateJobStateCommand.with_original_state (job_id st) original_state
    original_state (saga_id_text c));
  answer ← dispatch command_bus SagaCommand.UpdateJobState command;
  _ ← or_error (fun e =>
    compensation_failed ("Failed to restore job state via CommandBus: " +:+ CommandError.fmt e))
    answer;
  mret tt.

(** src: crates/server/domain/src/saga/cancellation.rs 386-552 impl SagaStep for UpdateJobStateStep *)
Definition to_step (st : t) : SagaStep.t A :=
  step "UpdateJobState" true true (execute st) (compensate st).

End step.
End UpdateJobStateStep.

Module ReleaseWorkerStep.
Section step.
Context `{E : Externs} `{!TypeNames} {A : Type} `{!SagaRuntime A} `{!StepWorld (T := saga_command_types) A}.
Import Step.

Definition failed (message : string) : SagaError.t :=
  SagaError.StepFailed "ReleaseWorker" message false.

(** src: crates/server/domain/src/saga/cancellation.rs 578-649 ReleaseWorkerStep::execute *)
Definition execute (job_id : JobId) (_ : PgTransaction) : method (frame A) (exn SagaError.t) unit :=
  services ← services_or (failed "SagaServices not available");
  command_bus ← command_bus_or (failed "CommandBus not available in SagaServices") services;
  c ← context_of;
  if is_set "worker_released" c then mret tt
  else
    let worker_id_str := default "none" (text_of "cancelled_worker_id" c) in
    if String.eqb worker_id_str "none" then mret tt
    else
      worker_id ← or_error id (ok_or (uuid_parse_str worker_id_str)
        (failed ("Invalid worker_id: " +:+ worker_id_str)));
      command ← stamp (ReleaseWorkerCommand.new worker_id (saga_id_text c));
      _ ← dispatch command_bus SagaCommand.ReleaseWorker command;
      set_metadata "worker_released" (json_of_bool true) (fun e => failed (SagaError.fmt e)).

(** src: crates/server/domain/src/saga/cancellation.rs 651-658 ReleaseWorkerStep::compensate *)
Definition compensate (_ : PgTransaction) : method (frame A) (exn SagaError.t) unit := mret tt.

(** src: crates/server/domain/src/saga/cancellation.rs 570-667 impl SagaStep for ReleaseWorkerStep *)
Definition new (job_id : JobId) : SagaStep.t A :=
  step "ReleaseWorker" true false (execute job_id) compensate.

End step.
End ReleaseWorkerStep.

Module CancellationSaga.
Section saga.
Context `{E : Externs}.

(** src: crates/server/domain/src/saga/cancellation.rs 45-50 CancellationSaga *)
Record t := mk {
  job_id : JobId;
  reason : string;
}.

(** src: crates/server/domain/src/saga/cancellation.rs 54-59 CancellationSaga::new *)
Definition new (job : JobId) (why : string) : t := mk job why.

Context `{!TypeNames} {A : Type} `{!SagaRuntime A} `{!StepWorld (T := saga_command_types) A}.

(** src: crates/server/domain/src/saga/cancellation.rs 67-80 CancellationSaga::steps *)
Definition steps (s : t) : list (SagaStep.t A) := [
  ValidateCancellationStep.new (job_id s);
  NotifyWorkerStep.new (job_id s) (reason s);
  UpdateJobStateStep.to_step (UpdateJobStateStep.cancel (job_id s) (reason s));
  ReleaseWorkerStep.new (job_id s)
].

(** src: crates/server/domain/src/saga/cancellation.rs 62-89 impl Saga for CancellationSaga *)
Definition saga (s : t) : Saga.t A := {|
  Saga.saga_type := SagaType.Cancellation;
  Saga.steps := steps s;
  Saga.timeout := Some (from_secs 30);
  Saga.idempotency_key := Some (reason s);
|}.

End saga.
End CancellationSaga.
