(* ===== verification/TimeoutSaga.v ===== *)
(** * The timeout saga ([crates/server/domain/src/saga/timeout.rs])

    Validate that the job runs, terminate its worker, mark the job as failed and
    release the worker. *)

From S2P Require Import Prelude Effects Std Externs States Errors JobSpec Job ProviderApi Worker Events Repositories Services Commands CommandBus JobCommands ExecutionCommands CancellationCommands ProvisioningCommands SagaTypes Orchestrator Steps SagaBus ExecutionSaga.

Module ValidateTimeoutStep.
Section step.
Context `{E : Externs} `{!TypeNames} {A : Type} `{!SagaRuntime A} `{!StepWorld (T := saga_command_types) A}.
Import Step.

(** src: crates/server/domain/src/saga/timeout.rs 97-101 ValidateTimeoutStep *)
Record t := mk {
  job_id : JobId;
  timeout_duration : Duration;
  reason : string;
}.

#[global] Instance t_rebuild : Rebuild t := fun s => mk (job_id s) (timeout_duration s) (reason s).

(** src: crates/server/domain/src/saga/timeout.rs 104-110 ValidateTimeoutStep::new *)
Definition new (job : JobId) (d : Duration) : t := mk job d "".

(** src: crates/server/domain/src/saga/timeout.rs 112-115 ValidateTimeoutStep::with_reason *)
Definition with_reason (why : string) (s : t) : t := s <| reason := why |>.

Definition failed (message : string) : SagaError.t :=
  SagaError.StepFailed "ValidateTimeout" message false.

(** Neither the clock nor the start of the job is read. *)
(** src: crates/server/domain/src/saga/timeout.rs 127-225 ValidateTimeoutStep::execute *)
Definition execute (st : t) (tx : PgTransaction) : method (frame A) (exn SagaError.t) unit :=
  services ← services_or (failed "SagaServices not available");
  job_repository ← job_repository_or (failed "JobRepository not available") services;
  c ← context_of;
  if is_set "timeout_validated" c then mret tt
  else
    job_opt ← call (job_find_by_id_with_tx job_repository tx (job_id st))
      (fun e => failed ("Failed to fetch job: " +:+ DomainError.fmt e));
    job ← or_error id (ok_or job_opt
      (failed ("Job " +:+ uuid_to_string (job_id st) +:+ " not found")));
    if bool_decide (Job.state job <> JobState.Running) then
      set_metadata "timeout_skipped" (json_of_bool true) (fun e => failed (SagaError.fmt e))
    else
      set_metadata "timeout_duration_ms" (json_of_Z (Prelude.as_i64 (as_millis (timeout_duration st))))
        (fun e => failed (SagaError.fmt e));;
      set_metadata "timeout_reason" (json_of_string (reason st))
        (fun e => failed (SagaError.fmt e));;
      set_metadata "timeout_validated" (json_of_bool true) (fun e => failed (SagaError.fmt e)).

(** src: crates/server/domain/src/saga/timeout.rs 227-233 ValidateTimeoutStep::compensate *)
Definition compensate (_ : PgTransaction) : method (frame A) (exn SagaError.t) unit := mret tt.

(** src: crates/server/domain/src/saga/timeout.rs 119-242 impl SagaStep for ValidateTimeoutStep *)
Definition to_step (st : t) : SagaStep.t A :=
  step "ValidateTimeout" true false (execute st) compensate.

End step.
End ValidateTimeoutStep.

(** Both compensations that touch the worker read its identifier alike. *)
Section timed_out_worker.
Context `{E : Externs}.

Definition timed_out_worker (c : SagaContext.t) : option WorkerId :=
  Step.text_of "timed_out_worker_id" c ≫= uuid_parse_str.

End timed_out_worker.

Module TerminateWorkerStep.
Section step.
Context `{E : Externs} `{!TypeNames} {A : Type} `{!SagaRuntime A} `{!StepWorld (T := saga_command_types) A}.
Import Step.

Definition failed (message : string) : SagaError.t :=
  SagaError.StepFailed "TerminateWorker" message true.
Definition compensation_failed (message : string) : SagaError.t :=
  SagaError.CompensationFailed "TerminateWorker" message.

(** A dispatch that fails is logged, and the worker counts as terminated. *)
(** src: crates/server/domain/src/saga/timeout.rs 269-372 TerminateWorkerStep::execute *)
Definition execute (job_id : JobId) (_ : PgTransaction) : method (frame A) (exn SagaError.t) unit :=
  services ← services_or (failed "SagaServices not available in context");
  command_bus ← command_bus_or (failed "CommandBus not available in SagaServices") services;
  c ← context_of;
  if is_set "timeout_skipped" c then mret tt
  else if is_set "worker_terminated" c then mret tt
  else
    worker_opt ← call (worker_get_by_job_id (Services.provider_registry services) job_id)
      (fun e => failed ("Failed to find worker: " +:+ DomainError.fmt e));
    match worker_opt with
    | Some worker =>
        let worker_id := Worker.id worker in
        set_metadata "timed_out_worker_id" (json_of_string (uuid_to_string worker_id))
          (fun e => failed (SagaError.fmt e));;
        command ← stamp
          (TerminateWorkerCommand.new worker_id (Some job_id) "timeout" (saga_id_text c));
        _ ← dispatch command_bus SagaCommand.TerminateWorker command;
        set_metadata "worker_terminated" (json_of_bool true) (fun e => failed (SagaError.fmt e))
    | None => mret tt
    end.

(** src: crates/server/domain/src/saga/timeout.rs 378-440 TerminateWorkerStep::compensate *)
Definition compensate (tx : PgTransaction) : method (frame A) (exn SagaError.t) unit :=
  c ← context_of;
  match timed_out_worker c with
  | None => mret tt
  | Some worker_id =>
      services ← services_or (compensation_failed "SagaServices not available");
      call (worker_update_state_with_tx (Services.provider_registry services) tx worker_id
              WorkerState.Busy)
        (fun e => compensation_failed ("Failed to restore worker state: " +:+ DomainError.fmt e))
  end.

(** src: crates/server/domain/src/saga/timeout.rs 260-449 impl SagaStep for TerminateWorkerStep *)
Definition new (job_id : JobId) : SagaStep.t A :=
  step "TerminateWorker" true true (execute job_id) compensate.

End step.
End TerminateWorkerStep.

Module MarkJobFailedStep.
Section step.
Context `{E : Externs} `{!TypeNames} {A : Type} `{!SagaRuntime A} `{!StepWorld (T := saga_command_types) A}.
Import Step.

Definition failed (message : string) : SagaError.t :=
  SagaError.StepFailed "MarkJobFailed" message true.

(** A dispatch that fails is logged, and the job counts as failed. *)
(** src: crates/server/domain/src/saga/timeout.rs 477-568 MarkJobFailedStep::execute *)
Definition execute (job_id : JobId) (reason : string) (_ : PgTransaction) :
    method (frame A) (exn SagaError.t) unit :=
  command_bus ← bus_or (failed "SagaServices not available in context")
    (failed "CommandBus not available in SagaServices");
  c ← context_of;
  if is_set "timeout_skipped" c then mret tt
  else if is_set "job_marked_failed" c then mret tt
  else
    let timeout_reason := default reason (text_of "timeout_reason" c) in
    command ← stamp
      match timed_out_worker c with
      | Some worker_id =>
          MarkJobTimedOutCommand.with_worker job_id worker_id timeout_reason (saga_id_text c)
      | None => MarkJobTimedOutCommand.new job_id timeout_reason (saga_id_text c)
      end;
    _ ← dispatch command_bus SagaCommand.MarkJobTimedOut command;
    set_metadata "job_marked_failed" (json_of_bool true) (fun e => failed (SagaError.fmt e)).

(** The job stays failed. *)
(** src: crates/server/domain/src/saga/timeout.rs 570-592 MarkJobFailedStep::compensate *)
Definition compensate (_ : PgTransaction) : method (frame A) (exn SagaError.t) unit :=
  _ ← services_or (SagaError.CompensationFailed "MarkJobFailed" "SagaServices not available");
  mret tt.

(** src: crates/server/domain/src/saga/timeout.rs 468-601 impl SagaStep for MarkJobFailedStep *)
Definition new (job_id : JobId) (reason : string) : SagaStep.t A :=
  step "MarkJobFailed" true true (execute job_id reason) compensate.

End step.
End MarkJobFailedStep.

(** The step of the same name as the one of the cancellation saga. *)
Module TimeoutReleaseWorkerStep.
Section step.
Context `{E : Externs} `{!TypeNames} {A : Type} `{!SagaRuntime A} `{!StepWorld (T := saga_command_types) A}.
Import Step.

Definition failed (message : string) : SagaError.t :=
  SagaError.StepFailed "ReleaseWorker" message true.
Definition compensation_failed (message : string) : SagaError.t :=
  SagaError.CompensationFailed "ReleaseWorker" message.

(** The worker of the context, or else the one of the job; [None] ends the step. *)
(** src: crates/server/domain/src/saga/timeout.rs 670-697 ReleaseWorkerStep::execute (worker) *)
Definition find_worker (services : Services.t (T := saga_command_types) A) (job_id : JobId)
    (c : SagaContext.t) : method (frame A) (exn SagaError.t) (option string) :=
  match SagaContext.get_metadata string_from_value "timed_out_worker_id" c with
  | Some (Ok i) => mret (Some i)
  | None =>
      worker_opt ← call (worker_get_by_job_id (Services.provider_registry services) job_id)
        (fun e => failed ("Failed to find worker by job_id: " +:+ DomainError.fmt e));
      mret ((fun w => uuid_to_string (Worker.id w)) <$> worker_opt)
  | Some (Err _) => mret None
  end.

(** src: crates/server/domain/src/saga/timeout.rs 633-743 ReleaseWorkerStep::execute *)
Definition execute (job_id : JobId) (_ : PgTransaction) : method (frame A) (exn SagaError.t) unit :=
  services ← services_or (failed "SagaServices not available in context");
  command_bus ← command_bus_or (failed "CommandBus not available in SagaServices") services;
  c ← context_of;
  if is_set "timeout_skipped" c then mret tt
  else if is_set "worker_released" c then mret tt
  else
    worker ← find_worker services job_id c;
    match worker ≫= uuid_parse_str with
    | None => mret tt
    | Some worker_id =>
        command ← stamp (ReleaseWorkerCommand.new worker_id (saga_id_text c));
        _ ← dispatch command_bus SagaCommand.ReleaseWorker command;
        set_metadata "worker_released" (json_of_bool true) (fun e => failed (SagaError.fmt e))
    end.

(** src: crates/server/domain/src/saga/timeout.rs 750-806 ReleaseWorkerStep::compensate *)
Definition compensate (tx : PgTransaction) : method (frame A) (exn SagaError.t) unit :=
  c ← context_of;
  match timed_out_worker c with
  | None => mret tt
  | Some worker_id =>
      services ← services_or (compensation_failed "SagaServices not available");
      call (worker_update_state_with_tx (Services.provider_registry services) tx worker_id
              WorkerState.Terminated)
        (fun e =>
          compensation_failed ("Failed to mark worker as terminated: " +:+ DomainError.fmt e))
  end.

(** src: crates/server/domain/src/saga/timeout.rs 624-815 impl SagaStep for ReleaseWorkerStep *)
Definition new (job_id : JobId) : SagaStep.t A :=
  step "ReleaseWorker" true true (execute job_id) compensate.

End step.
End TimeoutReleaseWorkerStep.

Module TimeoutSaga.
Section saga.
Context `{E : Externs}.

(** src: crates/server/domain/src/saga/timeout.rs 38-47 TimeoutSaga *)
Record t := mk {
  job_id : JobId;
  timeout_duration : Duration;
  reason : string;
  idempotency_key : string;
}.

(** src: crates/server/domain/src/saga/timeout.rs 51-59 TimeoutSaga::new *)
Definition new (job : JobId) (d : Duration) (why : string) : t :=
  mk job d why ("timeout:" +:+ uuid_to_string job +:+ ":" +:+ why).

Context `{!TypeNames} {A : Type} `{!SagaRuntime A} `{!StepWorld (T := saga_command_types) A}.

(** src: crates/server/domain/src/saga/timeout.rs 67-81 TimeoutSaga::steps *)
Definition steps (s : t) : list (SagaStep.t A) := [
  ValidateTimeoutStep.to_step
    (ValidateTimeoutStep.with_reason (reason s)
      (ValidateTimeoutStep.new (job_id s) (timeout_duration s)));
  TerminateWorkerStep.new (job_id s);
  MarkJobFailedStep.new (job_id s) (reason s);
  TimeoutReleaseWorkerStep.new (job_id s)
].

(** src: crates/server/domain/src/saga/timeout.rs 62-90 impl Saga for TimeoutSaga *)
Definition saga (s : t) : Saga.t A := {|
  Saga.saga_type := SagaType.Timeout;
  Saga.steps := steps s;
  Saga.timeout := Some (from_secs 30);
  Saga.idempotency_key := Some (idempotency_key s);
|}.

End saga.
End TimeoutSaga.
