(* ===== verification/ProvisioningSaga.v ===== *)
(** * The provisioning saga ([crates/server/domain/src/saga/provisioning.rs])

    Note the provider, create the worker on it and publish that it exists; a step
    that registers the worker exists too and is part of no saga. *)

From S2P Require Import Prelude Effects Std Externs States Errors JobSpec Job ProviderApi Worker Events Repositories Services Commands CommandBus JobCommands ExecutionCommands CancellationCommands ProvisioningCommands SagaTypes Orchestrator Steps SagaBus ExecutionSaga.

(** The error most of these steps answer with. *)
Definition persistence_error (e : SagaError.t) : SagaError.t :=
  SagaError.PersistenceError (SagaError.fmt e).

Module ValidateProviderCapacityStep.
Section step.
Context `{E : Externs} `{!TypeNames} {A : Type} `{!SagaRuntime A} `{!StepWorld (T := saga_command_types) A}.
Import Step.

(** src: crates/server/domain/src/saga/provisioning.rs 132-147 ValidateProviderCapacityStep::execute *)
Definition execute (provider_id : ProviderId) (_ : PgTransaction) :
    method (frame A) (exn SagaError.t) unit :=
  set_metadata "saga_provider_id" (json_of_string (uuid_to_string provider_id)) persistence_error.

(** src: crates/server/domain/src/saga/provisioning.rs 149-156 ValidateProviderCapacityStep::compensate *)
Definition compensate (_ : PgTransaction) : method (frame A) (exn SagaError.t) unit := mret tt.

(** src: crates/server/domain/src/saga/provisioning.rs 124-165 impl SagaStep for ValidateProviderCapacityStep *)
Definition new (provider_id : ProviderId) : SagaStep.t A :=
  step "ValidateProviderCapacity" true false (execute provider_id) compensate.

End step.
End ValidateProviderCapacityStep.

Module CreateInfrastructureStep.
Section step.
Context `{E : Externs} `{!TypeNames} {A : Type} `{!SagaRuntime A} `{!StepWorld (T := saga_command_types) A}.
Import Step.

(** src: crates/server/domain/src/saga/provisioning.rs 181-186 CreateInfrastructureStep *)
Record t := mk {
  provider_id : ProviderId;
  spec : WorkerSpec.t;
  job_id : option JobId;
}.

#[global] Instance t_rebuild : Rebuild t := fun s => mk (provider_id s) (spec s) (job_id s).

(** src: crates/server/domain/src/saga/provisioning.rs 190-196 CreateInfrastructureStep::new *)
Definition new (p : ProviderId) (sp : WorkerSpec.t) : t := mk p sp None.

(** src: crates/server/domain/src/saga/provisioning.rs 199-202 CreateInfrastructureStep::with_job *)
Definition with_job (job : JobId) (s : t) : t := s <| job_id := Some job |>.

Definition compensation_failed (message : string) : SagaError.t :=
  SagaError.CompensationFailed "CreateInfrastructure" message.

(** src: crates/server/domain/src/saga/provisioning.rs 214-313 CreateInfrastructureStep::execute *)
Definition execute (st : t) (_ : PgTransaction) : method (frame A) (exn SagaError.t) unit :=
  command_bus ← bus_or (SagaError.PersistenceError "SagaServices not available in context")
    (SagaError.PersistenceError "CommandBus not available in SagaServices");
  c ← context_of;
  if is_set "worker_provisioning_done" c then mret tt
  else if bool_decide (is_Some (SagaContext.get_metadata string_from_value "worker_id" c))
  then mret tt
  else
    job_id ← match job_id st with Some j => mret j | None => io new_v4 end;
    set_metadata "worker_job_id" (json_of_string (uuid_to_string job_id)) persistence_error;;
    command ← stamp (CreateWorkerCommand.new (spec st) (provider_id st) job_id (saga_id_text c));
    answer ← dispatch command_bus SagaCommand.CreateWorker command;
    provisioning_result ← or_error (fun e =>
      SagaError.StepFailed "CreateInfrastructure"
        ("Failed to dispatch CreateWorkerCommand: " +:+ CommandError.fmt e) true) answer;
    set_metadata "worker_id"
      (json_of_string (uuid_to_string (WorkerProvisioningResult.worker_id provisioning_result)))
      persistence_error;;
    set_metadata "worker_provider_id" (json_of_string (uuid_to_string (provider_id st)))
      persistence_error;;
    set_metadata "worker_provisioning_done" (json_of_bool true) persistence_error.

(** src: crates/server/domain/src/saga/provisioning.rs 320-389 CreateInfrastructureStep::compensate *)
Definition compensate (st : t) (_ : PgTransaction) : method (frame A) (exn SagaError.t) unit :=
  c ← context_of;
  match text_of "worker_id" c with
  | None => mret tt
  | Some worker_id_str =>
      command_bus ← bus_or (compensation_failed "SagaServices not available")
        (compensation_failed "CommandBus not available in SagaServices");
      worker_id ← or_error id (ok_or (uuid_parse_str worker_id_str)
        (compensation_failed ("Invalid worker_id in context: " +:+ worker_id_str)));
      command ← stamp (DestroyWorkerCommand.with_reason worker_id (provider_id st)
        (saga_id_text c) "Saga compensation");
      answer ← dispatch command_bus SagaCommand.DestroyWorker command;
      _ ← or_error (fun e =>
        compensation_failed ("Failed to dispatch DestroyWorkerCommand: " +:+ CommandError.fmt e))
        answer;
      mret tt
  end.

(** src: crates/server/domain/src/saga/provisioning.rs 206-398 impl SagaStep for CreateInfrastructureStep *)
Definition to_step (st : t) : SagaStep.t A :=
  step "CreateInfrastructure" true true (execute st) (compensate st).

End step.
End CreateInfrastructureStep.

Module RegisterWorkerStep.
Section step.
Context `{E : Externs} `{!TypeNames} {A : Type} `{!SagaRuntime A} `{!StepWorld (T := saga_command_types) A}.
Import Step.

Definition failed (message : string) : SagaError.t := SagaError.PersistenceError message.
Definition compensation_failed (message : string) : SagaError.t :=
  SagaError.CompensationFailed "RegisterWorker" message.

(** [context.metadata.get(key).and_then(|v| v.as_str())] *)
Definition metadata_text (key : string) (c : SagaContext.t) : option string :=
  SagaContext.metadata c !! key ≫= as_str.

(** src: crates/server/domain/src/saga/provisioning.rs 437-560 RegisterWorkerStep::execute *)
Definition execute (tx : PgTransaction) : method (frame A) (exn SagaError.t) unit :=
  services ← services_or (failed "SagaServices not available in context");
  let provider_registry := Services.provider_registry services in
  c ← context_of;
  if is_set "worker_registration_done" c then mret tt
  else
    worker_id_str ←
      match SagaContext.get_metadata string_from_value "worker_id" c with
      | Some (Ok i) => mret i
      | None => throw (Error (failed
          "worker_id not found in context. CreateInfrastructureStep must execute first"))
      | Some (Err e) => throw (Error (failed
          ("Failed to read worker_id from context: " +:+ SagaError.fmt e)))
      end;
    job_id_str ←
      match text_of "worker_job_id" c with
      | Some i => mret i
      | None => fresh ← io new_v4; mret (uuid_to_string fresh)
      end;
    worker_id ← or_error id (ok_or (uuid_parse_str worker_id_str)
      (failed ("Invalid worker_id in context: " +:+ worker_id_str)));
    job_id ← or_error id (ok_or (uuid_parse_str job_id_str)
      (failed ("Invalid job_id in context: " +:+ uuid_parse_error job_id_str)));
    fresh ← io new_v4;
    let spec := WorkerSpec.new
      (default "hodei-jobs-worker:latest" (metadata_text "worker_image" c))
      (default "http://localhost:50051" (metadata_text "worker_server_address" c)) fresh in
    found ← call (worker_get provider_registry worker_id)
      (fun e => failed ("Failed to get worker handle: " +:+ DomainError.fmt e));
    worker ← or_error id (ok_or found
      (failed ("Worker " +:+ uuid_to_string worker_id +:+ " not found in provider registry")));
    worker ← call (worker_register_with_tx provider_registry tx (Worker.handle worker) spec job_id)
      (fun e => SagaError.StepFailed "RegisterWorker"
        ("Failed to register worker: " +:+ DomainError.fmt e) true);
    set_metadata "registered_worker_id" (json_of_string (uuid_to_string (Worker.id worker)))
      persistence_error;;
    set_metadata "worker_registration_done" (json_of_bool true) persistence_error.

(** src: crates/server/domain/src/saga/provisioning.rs 564-619 RegisterWorkerStep::compensate *)
Definition compensate (tx : PgTransaction) : method (frame A) (exn SagaError.t) unit :=
  c ← context_of;
  match text_of "registered_worker_id" c with
  | None => mret tt
  | Some worker_id_str =>
      services ← services_or (compensation_failed "SagaServices not available");
      worker_id ← or_error id (ok_or (uuid_parse_str worker_id_str)
        (compensation_failed ("Invalid worker_id in context: " +:+ worker_id_str)));
      call (worker_unregister_with_tx (Services.provider_registry services) tx worker_id)
        (fun e => compensation_failed
          ("Failed to unregister worker " +:+ worker_id_str +:+ ": " +:+ DomainError.fmt e))
  end.

(** src: crates/server/domain/src/saga/provisioning.rs 429-628 impl SagaStep for RegisterWorkerStep *)
Definition new : SagaStep.t A := step "RegisterWorker" true true execute compensate.

End step.
End RegisterWorkerStep.

Module PublishProvisionedEventStep.
Section step.
Context `{E : Externs} `{!TypeNames} {A : Type} `{!SagaRuntime A} `{!StepWorld (T := saga_command_types) A}.
Import Step.

Definition failed (message : string) (will_compensate : bool) : SagaError.t :=
  SagaError.StepFailed "PublishProvisionedEvent" message will_compensate.

(** src: crates/server/domain/src/saga/provisioning.rs 662-767 PublishProvisionedEventStep::execute *)
Definition execute (_ : PgTransaction) : method (frame A) (exn SagaError.t) unit :=
  c ← context_of;
  if is_set "event_published" c then mret tt
  else
    services ← services_or (failed "SagaServices not available" false);
    worker_id_str ← or_error id
      (ok_or (text_of "worker_id" c) (failed "worker_id not found in context" true));
    worker_id ← or_error id (ok_or (uuid_parse_str worker_id_str)
      (failed ("Invalid worker_id in context: " +:+ worker_id_str) true));
    provider_id_str ← or_error id
      (ok_or (text_of "provider_id" c) (failed "provider_id not found in context" true));
    provider_id ← or_error id (ok_or (uuid_parse_str provider_id_str)
      (failed ("Invalid provider_id in context: " +:+ provider_id_str +:+ " - "
        +:+ uuid_parse_error provider_id_str) true));
    let spec_summary :=
      match RegisterWorkerStep.metadata_text "worker_image" c with
      | Some s => "image=" +:+ s
      | None => "unknown"
      end in
    occurred_at ← io Utc_now;
    let event := DomainEvent.WorkerProvisioned worker_id provider_id spec_summary occurred_at
      (SagaContext.correlation_id c) (SagaContext.actor c) in
    call (publish (Services.event_bus services) event)
      (fun e => failed
        ("Failed to publish WorkerProvisioned event: " +:+ EventBusError.fmt e) false);;
    set_metadata "event_published" (json_of_bool true) persistence_error.

(** src: crates/server/domain/src/saga/provisioning.rs 769-778 PublishProvisionedEventStep::compensate *)
Definition compensate (_ : PgTransaction) : method (frame A) (exn SagaError.t) unit := mret tt.

(** src: crates/server/domain/src/saga/provisioning.rs 654-787 impl SagaStep for PublishProvisionedEventStep *)
Definition new : SagaStep.t A := step "PublishProvisionedEvent" true false execute compensate.

End step.
End PublishProvisionedEventStep.

Module ProvisioningSaga.
Section saga.
Context `{E : Externs}.

(** src: crates/server/domain/src/saga/provisioning.rs 27-36 ProvisioningSaga *)
Record t := mk {
  spec : WorkerSpec.t;
  provider_id : ProviderId;
  job_id : option JobId;
  idempotency_key : string;
}.

(** src: crates/server/domain/src/saga/provisioning.rs 51-58 ProvisioningSaga::with_job *)
Definition with_job (sp : WorkerSpec.t) (p : ProviderId) (job : JobId) : t :=
  mk sp p (Some job) ("provisioning:" +:+ uuid_to_string p +:+ ":" +:+ uuid_to_string job).

(** [fresh] is the identifier of [JobId::new()]. *)
(** src: crates/server/domain/src/saga/provisioning.rs 40-48 ProvisioningSaga::new *)
Definition new (sp : WorkerSpec.t) (p : ProviderId) (fresh : JobId) : t :=
  mk sp p (Some fresh) ("provisioning:" +:+ uuid_to_string p +:+ ":" +:+ uuid_to_string fresh).

Context `{!TypeNames} {A : Type} `{!SagaRuntime A} `{!StepWorld (T := saga_command_types) A}.

(** The constructors always give a job; [fresh] stands for the default. *)
(** src: crates/server/domain/src/saga/provisioning.rs 81-93 ProvisioningSaga::steps *)
Definition steps (fresh : JobId) (s : t) : list (SagaStep.t A) := [
  ValidateProviderCapacityStep.new (provider_id s);
  CreateInfrastructureStep.to_step
    (CreateInfrastructureStep.with_job (default fresh (job_id s))
      (CreateInfrastructureStep.new (provider_id s) (spec s)));
  PublishProvisionedEventStep.new
].

(** src: crates/server/domain/src/saga/provisioning.rs 76-102 impl Saga for ProvisioningSaga *)
Definition saga (fresh : JobId) (s : t) : Saga.t A := {|
  Saga.saga_type := SagaType.Provisioning;
  Saga.steps := steps fresh s;
  Saga.timeout := Some (from_secs 300);
  Saga.idempotency_key := Some (idempotency_key s);
|}.

End saga.
End ProvisioningSaga.
