(* ===== verification/RecoverySaga.v ===== *)
(** * The recovery saga ([crates/server/domain/src/saga/recovery.rs])

    Note that a worker failed, provision a new one, transfer the job to it,
    terminate and unregister the old one. *)

From S2P Require Import Prelude Effects Std Externs States Errors JobSpec Job ProviderApi Worker Events Repositories Services Commands CommandBus JobCommands ExecutionCommands CancellationCommands ProvisioningCommands SagaTypes Orchestrator Steps SagaBus ExecutionSaga ProvisioningSaga.

Module CheckWorkerConnectivityStep.
Section step.
Context `{E : Externs} `{!TypeNames} {A : Type} `{!SagaRuntime A} `{!StepWorld (T := saga_command_types) A}.
Import Step.

(** Nothing is checked: the worker is noted as unreachable. *)
(** src: crates/server/domain/src/saga/recovery.rs 101-119 CheckWorkerConnectivityStep::execute *)
Definition execute (failed_worker_id : WorkerId) (_ : PgTransaction) :
    method (frame A) (exn SagaError.t) unit :=
  set_metadata "failed_worker_id" (json_of_string (uuid_to_string failed_worker_id))
    persistence_error;;
  set_metadata "connectivity_status" (json_of_string "Unreachable") persistence_error.

(** src: crates/server/domain/src/saga/recovery.rs 121-127 CheckWorkerConnectivityStep::compensate *)
Definition compensate (_ : PgTransaction) : method (frame A) (exn SagaError.t) unit := mret tt.

(** src: crates/server/domain/src/saga/recovery.rs 93-132 impl SagaStep for CheckWorkerConnectivityStep *)
Definition new (failed_worker_id : WorkerId) : SagaStep.t A :=
  step "CheckWorkerConnectivity" true true (execute failed_worker_id) compensate.

End step.
End CheckWorkerConnectivityStep.

Module ProvisionNewWorkerStep.
Section step.
Context `{E : Externs} `{!TypeNames} {A : Type} `{!SagaRuntime A} `{!StepWorld (T := saga_command_types) A}.
Import Step.

Definition failed (message : string) (will_compensate : bool) : SagaError.t :=
  SagaError.StepFailed "ProvisionNewWorker" message will_compensate.
Definition compensation_failed (message : string) : SagaError.t :=
  SagaError.CompensationFailed "ProvisionNewWorker" message.

(** src: crates/server/domain/src/saga/recovery.rs 164-253 ProvisionNewWorkerStep::execute *)
Definition execute (job_id : JobId) (target_provider_id : option string) (_ : PgTransaction) :
    method (frame A) (exn SagaError.t) unit :=
  c ← context_of;
  if is_set "recovery_provisioning_done" c then mret tt
  else
    command_bus ← bus_or (failed "SagaServices not available in context" false)
      (failed "CommandBus not available in SagaServices" false);
    let provider_id_str := default "default" target_provider_id in
    provider_id ← ExecuteJobStep.parse_or_default provider_id_str;
    fresh ← io new_v4;
    let worker_spec := WorkerSpec.with_label "recovery" "true"
      (WorkerSpec.new "hodei-jobs-worker:latest" "http://localhost:50051" fresh) in
    command ← stamp (CreateWorkerCommand.new worker_spec provider_id job_id (saga_id_text c));
    answer ← dispatch command_bus SagaCommand.CreateWorker command;
    result ← or_error (fun e =>
      failed ("Failed to dispatch CreateWorkerCommand: " +:+ CommandError.fmt e) true) answer;
    set_metadata "new_worker_id"
      (json_of_string (uuid_to_string (WorkerProvisioningResult.worker_id result)))
      persistence_error;;
    set_metadata "new_worker_provider_id" (json_of_string provider_id_str) persistence_error;;
    set_metadata "recovery_provisioning_done" (json_of_bool true) persistence_error.

(** A destruction that fails is logged. *)
(** src: crates/server/domain/src/saga/recovery.rs 277-323 ProvisionNewWorkerStep::compensate (destroy) *)
Definition destroy_new_worker (c : SagaContext.t) (worker_id_str : string) :
    method (frame A) (exn SagaError.t) unit :=
  command_bus ← bus_or (compensation_failed "SagaServices not available")
    (compensation_failed "CommandBus not available");
  worker_id ← ExecuteJobStep.parse_or_default worker_id_str;
  provider_id ← io new_v4;
  command ← stamp (DestroyWorkerCommand.with_reason worker_id provider_id (saga_id_text c)
    "Recovery saga compensation");
  _ ← dispatch command_bus SagaCommand.DestroyWorker command;
  mret tt.

(** src: crates/server/domain/src/saga/recovery.rs 256-331 ProvisionNewWorkerStep::compensate *)
Definition compensate (_ : PgTransaction) : method (frame A) (exn SagaError.t) unit :=
  c ← context_of;
  if negb (is_set "recovery_provisioning_done" c) then mret tt
  else
    match text_of "new_worker_id" c with
    | Some worker_id_str => destroy_new_worker c worker_id_str
    | None => mret tt
    end;;
    set_metadata "compensation_pending" (json_of_bool false) persistence_error.

(** src: crates/server/domain/src/saga/recovery.rs 155-336 impl SagaStep for ProvisionNewWorkerStep *)
Definition new (job_id : JobId) (target_provider_id : option string) : SagaStep.t A :=
  step "ProvisionNewWorker" false true (execute job_id target_provider_id) compensate.

End step.
End ProvisionNewWorkerStep.

Module TransferJobStep.
Section step.
Context `{E : Externs} `{!TypeNames} {A : Type} `{!SagaRuntime A} `{!StepWorld (T := saga_command_types) A}.
Import Step.

Definition failed (message : string) (will_compensate : bool) : SagaError.t :=
  SagaError.StepFailed "TransferJob" message will_compensate.

(** src: crates/server/domain/src/saga/recovery.rs 368-446 TransferJobStep::execute *)
Definition execute (job_id : JobId) (old_worker_id : WorkerId) (_ : PgTransaction) :
    method (frame A) (exn SagaError.t) unit :=
  c ← context_of;
  if is_set "job_transfer_done" c then mret tt
  else
    command_bus ← bus_or (failed "SagaServices not available in context" false)
      (failed "CommandBus not available in SagaServices" false);
    new_worker_id_str ← or_error id (ok_or (text_of "new_worker_id" c)
      (failed "new_worker_id not found in context metadata" true));
    new_worker_id ← ExecuteJobStep.parse_or_default new_worker_id_str;
    command ← stamp (TransferJobCommand.new job_id new_worker_id old_worker_id (saga_id_text c));
    answer ← dispatch command_bus SagaCommand.TransferJob command;
    _ ← or_error (fun e =>
      failed ("Failed to dispatch TransferJobCommand: " +:+ CommandError.fmt e) true) answer;
    transferred_at ← io Utc_now;
    set_metadata "job_transferred_at" (json_of_string (to_rfc3339 transferred_at))
      persistence_error;;
    set_metadata "job_transfer_done" (json_of_bool true) persistence_error.

(** src: crates/server/domain/src/saga/recovery.rs 449-491 TransferJobStep::compensate *)
Definition compensate (job_id : JobId) (tx : PgTransaction) :
    method (frame A) (exn SagaError.t) unit :=
  c ← context_of;
  if negb (is_set "job_transfer_done" c) then mret tt
  else
    match SagaContext.services c ≫= (fun s => Services.job_repository (services_at s)) with
    | Some job_repo =>
        call (job_update_state_with_tx job_repo tx job_id JobState.Failed)
          (fun e => SagaError.CompensationFailed "TransferJob"
            ("Failed to revert job state: " +:+ DomainError.fmt e))
    | None => mret tt
    end.

(** src: crates/server/domain/src/saga/recovery.rs 359-496 impl SagaStep for TransferJobStep *)
Definition new (job_id : JobId) (old_worker_id : WorkerId) : SagaStep.t A :=
  step "TransferJob" false true (execute job_id old_worker_id) (compensate job_id).

End step.
End TransferJobStep.

Module TerminateOldWorkerStep.
Section step.
Context `{E : Externs} `{!TypeNames} {A : Type} `{!SagaRuntime A} `{!StepWorld (T := saga_command_types) A}.
Import Step.

Definition failed (message : string) : SagaError.t :=
  SagaError.StepFailed "TerminateOldWorker" message false.

(** src: crates/server/domain/src/saga/recovery.rs 524-579 TerminateOldWorkerStep::execute *)
Definition execute (worker_id : WorkerId) (_ : PgTransaction) :
    method (frame A) (exn SagaError.t) unit :=
  command_bus ← bus_or (failed "SagaServices not available in context")
    (failed "CommandBus not available in SagaServices");
  c ← context_of;
  provider_id ← io new_v4;
  command ← stamp (DestroyOldWorkerCommand.new worker_id provider_id (saga_id_text c));
  _ ← dispatch command_bus SagaCommand.DestroyOldWorker command;
  set_metadata "old_worker_terminated" (json_of_bool true) persistence_error.

(** src: crates/server/domain/src/saga/recovery.rs 581-588 TerminateOldWorkerStep::compensate *)
Definition compensate (_ : PgTransaction) : method (frame A) (exn SagaError.t) unit := mret tt.

(** src: crates/server/domain/src/saga/recovery.rs 515-593 impl SagaStep for TerminateOldWorkerStep *)
Definition new (worker_id : WorkerId) : SagaStep.t A :=
  step "TerminateOldWorker" true true (execute worker_id) compensate.

End step.
End TerminateOldWorkerStep.

Module CancelOldWorkerStep.
Section step.
Context `{E : Externs} `{!TypeNames} {A : Type} `{!SagaRuntime A} `{!StepWorld (T := saga_command_types) A}.
Import Step.

(** src: crates/server/domain/src/saga/recovery.rs 621-662 CancelOldWorkerStep::execute *)
Definition execute (worker_id : WorkerId) (tx : PgTransaction) :
    method (frame A) (exn SagaError.t) unit :=
  services ← services_or
    (SagaError.StepFailed "CancelOldWorker" "SagaServices not available in context" false);
  _ ← await (worker_unregister_with_tx (Services.provider_registry services) tx worker_id);
  set_metadata "old_worker_cancelled" (json_of_bool true) persistence_error.

(** src: crates/server/domain/src/saga/recovery.rs 664-671 CancelOldWorkerStep::compensate *)
Definition compensate (_ : PgTransaction) : method (frame A) (exn SagaError.t) unit := mret tt.

(** src: crates/server/domain/src/saga/recovery.rs 612-676 impl SagaStep for CancelOldWorkerStep *)
Definition new (worker_id : WorkerId) : SagaStep.t A :=
  step "CancelOldWorker" true true (execute worker_id) compensate.

End step.
End CancelOldWorkerStep.

Module RecoverySaga.
Section saga.
Context `{E : Externs}.

(** src: crates/server/domain/src/saga/recovery.rs 20-26 RecoverySaga *)
Record t := mk {
  job_id : JobId;
  failed_worker_id : WorkerId;
  target_provider_id : option string;
  idempotency_key : string;
}.

(** src: crates/server/domain/src/saga/recovery.rs 30-41 RecoverySaga::new *)
Definition new (job : JobId) (worker : WorkerId) (target : option string) : t :=
  mk job worker target ("recovery:" +:+ uuid_to_string job +:+ ":" +:+ uuid_to_string worker).

Context `{!TypeNames} {A : Type} `{!SagaRuntime A} `{!StepWorld (T := saga_command_types) A}.

(** src: crates/server/domain/src/saga/recovery.rs 49-65 RecoverySaga::steps *)
Definition steps (s : t) : list (SagaStep.t A) := [
  CheckWorkerConnectivityStep.new (failed_worker_id s);
  ProvisionNewWorkerStep.new (job_id s) (target_provider_id s);
  TransferJobStep.new (job_id s) (failed_worker_id s);
  TerminateOldWorkerStep.new (failed_worker_id s);
  CancelOldWorkerStep.new (failed_worker_id s)
].

(** src: crates/server/domain/src/saga/recovery.rs 44-74 impl Saga for RecoverySaga *)
Definition saga (s : t) : Saga.t A := {|
  Saga.saga_type := SagaType.Recovery;
  Saga.steps := steps s;
  Saga.timeout := Some (from_secs 300);
  Saga.idempotency_key := Some (idempotency_key s);
|}.

End saga.
End RecoverySaga.
