(* ===== verification/CleanupSaga.v ===== *)
(** * The cleanup saga ([crates/server/domain/src/saga/cleanup.rs])

    Identify unhealthy workers and orphaned jobs, unregister the ones, mark the
    others as failed, and publish the counts. *)

From S2P Require Import Prelude Effects Std Externs States Errors JobSpec Job ProviderApi Worker Events Repositories Services Commands CommandBus JobCommands ExecutionCommands CancellationCommands ProvisioningCommands SagaTypes Orchestrator Steps SagaBus ExecutionSaga.

(** src: crates/server/domain/src/saga/cleanup.rs 28-28 DEFAULT_UNHEALTHY_THRESHOLD *)
Definition DEFAULT_UNHEALTHY_THRESHOLD : Duration := from_secs 300.
(** src: crates/server/domain/src/saga/cleanup.rs 31-31 DEFAULT_ORPHANED_JOB_THRESHOLD *)
Definition DEFAULT_ORPHANED_JOB_THRESHOLD : Duration := from_secs 600.

Section metadata.
Context `{E : Externs}.

(** [context.get_metadata::<Vec<String>>(key).and_then(|r| r.ok()).unwrap_or_default()] *)
Definition strings_of (key : string) (c : SagaContext.t) : list string :=
  match SagaContext.get_metadata strings_from_value key c with
  | Some (Ok l) => l
  | _ => []
  end.

(** [context.get_metadata::<i64>(key).and_then(|r| r.ok()).unwrap_or(0)] *)
Definition number_of (key : string) (c : SagaContext.t) : Z :=
  match SagaContext.get_metadata i64_from_value key c with
  | Some (Ok z) => z
  | _ => 0
  end.

End metadata.

Module IdentifyUnhealthyWorkersStep.
Section step.
Context `{E : Externs} `{!TypeNames} {A : Type} `{!SagaRuntime A} `{!StepWorld (T := saga_command_types) A}.
Import Step.

Definition failed (message : string) : SagaError.t :=
  SagaError.StepFailed "IdentifyUnhealthyWorkers" message false.

(** src: crates/server/domain/src/saga/cleanup.rs 190-203 IdentifyUnhealthyWorkersStep::execute (filter) *)
Definition is_unhealthy (threshold : Duration) (now : DateTime) (w : Worker.t) : bool :=
  let is_stuck_state := bool_decide (Worker.state w = WorkerState.Creating) in
  let is_stale_heartbeat :=
    match to_std (signed_duration_since now (Worker.last_heartbeat w)) with
    | Some d => threshold <? d
    | None => true
    end in
  is_stuck_state
  || (is_stale_heartbeat && negb (bool_decide (Worker.state w = WorkerState.Terminated))).

(** src: crates/server/domain/src/saga/cleanup.rs 161-246 IdentifyUnhealthyWorkersStep::execute *)
Definition execute (threshold : Duration) (tx : PgTransaction) :
    method (frame A) (exn SagaError.t) unit :=
  services ← services_or (failed "SagaServices not available");
  all_workers ← call (worker_find_available_with_tx (Services.provider_registry services) tx)
    (fun e => failed ("Failed to fetch workers: " +:+ DomainError.fmt e));
  now ← io Utc_now;
  let unhealthy_workers :=
    Worker.id <$> filter (fun w => is_unhealthy threshold now w = true) all_workers in
  set_metadata "unhealthy_worker_ids" (json_of_strings (uuid_to_string <$> unhealthy_workers))
    (fun e => failed (SagaError.fmt e));;
  set_metadata "unhealthy_worker_count" (json_of_Z (Z.of_nat (length unhealthy_workers)))
    (fun e => failed (SagaError.fmt e)).

(** src: crates/server/domain/src/saga/cleanup.rs 248-254 IdentifyUnhealthyWorkersStep::compensate *)
Definition compensate (_ : PgTransaction) : method (frame A) (exn SagaError.t) unit := mret tt.

(** src: crates/server/domain/src/saga/cleanup.rs 153-263 impl SagaStep for IdentifyUnhealthyWorkersStep *)
Definition new (threshold : Duration) (_dry_run : bool) : SagaStep.t A :=
  step "IdentifyUnhealthyWorkers" true false (execute threshold) compensate.

End step.
End IdentifyUnhealthyWorkersStep.

Module IdentifyOrphanedJobsStep.
Section step.
Context `{E : Externs} `{!TypeNames} {A : Type} `{!SagaRuntime A} `{!StepWorld (T := saga_command_types) A}.
Import Step.

Definition failed (message : string) : SagaError.t :=
  SagaError.StepFailed "IdentifyOrphanedJobs" message false.

(** Every running job counts as orphaned. *)
(** src: crates/server/domain/src/saga/cleanup.rs 289-355 IdentifyOrphanedJobsStep::execute *)
Definition execute (tx : PgTransaction) : method (frame A) (exn SagaError.t) unit :=
  services ← services_or (failed "SagaServices not available");
  job_repository ← job_repository_or (failed "JobRepository not available") services;
  running_jobs ← call (job_find_by_state_with_tx job_repository tx JobState.Running)
    (fun e => failed ("Failed to fetch running jobs: " +:+ DomainError.fmt e));
  let orphaned_job_ids := Job.id <$> running_jobs in
  set_metadata "orphaned_job_ids" (json_of_strings (uuid_to_string <$> orphaned_job_ids))
    (fun e => failed (SagaError.fmt e));;
  set_metadata "orphaned_job_count" (json_of_Z (Z.of_nat (length orphaned_job_ids)))
    (fun e => failed (SagaError.fmt e)).

(** src: crates/server/domain/src/saga/cleanup.rs 357-363 IdentifyOrphanedJobsStep::compensate *)
Definition compensate (_ : PgTransaction) : method (frame A) (exn SagaError.t) unit := mret tt.

(** The threshold is not kept. *)
(** src: crates/server/domain/src/saga/cleanup.rs 281-372 impl SagaStep for IdentifyOrphanedJobsStep *)
Definition new (_threshold : Duration) (_dry_run : bool) : SagaStep.t A :=
  step "IdentifyOrphanedJobs" true false execute compensate.

End step.
End IdentifyOrphanedJobsStep.

Module CleanupUnhealthyWorkersStep.
Section step.
Context `{E : Externs} `{!TypeNames} {A : Type} `{!SagaRuntime A} `{!StepWorld (T := saga_command_types) A}.
Import Step.

Definition failed (message : string) : SagaError.t :=
  SagaError.StepFailed "CleanupUnhealthyWorkers" message false.

(** The loop, with the count so far, an [i32] that the number of workers does
    not overflow; an identifier that does not parse is
    passed over, and so is a command that fails. *)
(** src: crates/server/domain/src/saga/cleanup.rs 443-469 CleanupUnhealthyWorkersStep::execute (loop) *)
Fixpoint clean_up (dry_run : bool) (command_bus : DynCommandBus (T := saga_command_types) A)
    (c : SagaContext.t) (worker_ids : list string) (cleaned_count : Z) :
    method (frame A) (exn SagaError.t) Z :=
  match worker_ids with
  | [] => mret cleaned_count
  | worker_id_str :: worker_ids =>
      if dry_run then clean_up dry_run command_bus c worker_ids (cleaned_count + 1)
      else
        match uuid_parse_str worker_id_str with
        | Some wid =>
            command ← stamp (UnregisterWorkerCommand.with_reason wid (saga_id_text c)
              "Cleanup unhealthy worker");
            answer ← dispatch command_bus SagaCommand.UnregisterWorker command;
            clean_up dry_run command_bus c worker_ids
              (if is_ok answer then cleaned_count + 1 else cleaned_count)
        | None => clean_up dry_run command_bus c worker_ids cleaned_count
        end
  end.

(** src: crates/server/domain/src/saga/cleanup.rs 398-487 CleanupUnhealthyWorkersStep::execute *)
Definition execute (dry_run : bool) (_ : PgTransaction) :
    method (frame A) (exn SagaError.t) unit :=
  command_bus ← bus_or (failed "SagaServices not available") (failed "CommandBus not available");
  c ← context_of;
  let worker_ids := strings_of "unhealthy_worker_ids" c in
  if bool_decide (worker_ids = []) then
    set_metadata "cleaned_up_worker_count" (json_of_Z 0) (fun e => failed (SagaError.fmt e))
  else
    cleaned_count ← clean_up dry_run command_bus c worker_ids 0;
    set_metadata "cleaned_up_worker_count" (json_of_Z cleaned_count)
      (fun e => failed (SagaError.fmt e)).

(** src: crates/server/domain/src/saga/cleanup.rs 489-497 CleanupUnhealthyWorkersStep::compensate *)
Definition compensate (_ : PgTransaction) : method (frame A) (exn SagaError.t) unit := mret tt.

(** src: crates/server/domain/src/saga/cleanup.rs 390-506 impl SagaStep for CleanupUnhealthyWorkersStep *)
Definition new (dry_run : bool) : SagaStep.t A :=
  step "CleanupUnhealthyWorkers" true false (execute dry_run) compensate.

End step.
End CleanupUnhealthyWorkersStep.

Module ResetOrphanedJobsStep.
Section step.
Context `{E : Externs} `{!TypeNames} {A : Type} `{!SagaRuntime A} `{!StepWorld (T := saga_command_types) A}.
Import Step.

Definition failed (message : string) (will_compensate : bool) : SagaError.t :=
  SagaError.StepFailed "ResetOrphanedJobs" message will_compensate.
Definition compensation_failed (message : string) : SagaError.t :=
  SagaError.CompensationFailed "ResetOrphanedJobs" message.

(** One job: the command, and the event when it succeeds; the count goes up by
    one then. *)
(** src: crates/server/domain/src/saga/cleanup.rs 586-620 ResetOrphanedJobsStep::execute (job) *)
Definition reset_job (services : Services.t (T := saga_command_types) A)
    (command_bus : DynCommandBus (T := saga_command_types) A) (c : SagaContext.t)
    (job_id_str : string) (reset_count : Z) : method (frame A) (exn SagaError.t) Z :=
  job_id ← or_error id (ok_or (uuid_parse_str job_id_str)
    (failed ("Invalid job_id: " +:+ uuid_parse_error job_id_str) true));
  command ← stamp (MarkJobFailedCommand.new job_id "Orphaned job cleanup");
  answer ← dispatch command_bus SagaCommand.MarkJobFailed command;
  match answer with
  | Ok _ =>
      occurred_at ← io Utc_now;
      _ ← await (publish (Services.event_bus services)
        (DomainEvent.JobStatusChanged job_id JobState.Running JobState.Failed occurred_at
          (SagaContext.correlation_id c) (SagaContext.actor c)));
      mret (reset_count + 1)
  | Err _ => mret reset_count
  end.

(** src: crates/server/domain/src/saga/cleanup.rs 579-621 ResetOrphanedJobsStep::execute (loop) *)
Fixpoint reset_jobs (dry_run : bool) (services : Services.t (T := saga_command_types) A)
    (command_bus : DynCommandBus (T := saga_command_types) A) (c : SagaContext.t)
    (job_ids : list string) (reset_count : Z) : method (frame A) (exn SagaError.t) Z :=
  match job_ids with
  | [] => mret reset_count
  | job_id_str :: job_ids =>
      if dry_run then reset_jobs dry_run services command_bus c job_ids (reset_count + 1)
      else
        reset_count ← reset_job services command_bus c job_id_str reset_count;
        reset_jobs dry_run services command_bus c job_ids reset_count
  end.

(** src: crates/server/domain/src/saga/cleanup.rs 532-639 ResetOrphanedJobsStep::execute *)
Definition execute (dry_run : bool) (_ : PgTransaction) :
    method (frame A) (exn SagaError.t) unit :=
  services ← services_or (failed "SagaServices not available" false);
  command_bus ← command_bus_or (failed "CommandBus not available" false) services;
  c ← context_of;
  let job_ids := strings_of "orphaned_job_ids" c in
  if bool_decide (job_ids = []) then
    set_metadata "reset_job_count" (json_of_Z 0) (fun e => failed (SagaError.fmt e) false)
  else
    reset_count ← reset_jobs dry_run services command_bus c job_ids 0;
    set_metadata "reset_job_count" (json_of_Z reset_count)
      (fun e => failed (SagaError.fmt e) false).

(** A job whose state is not restored is passed over. *)
(** src: crates/server/domain/src/saga/cleanup.rs 672-686 ResetOrphanedJobsStep::compensate (loop) *)
Fixpoint restore_jobs (job_repository : JobRepositoryTx A) (tx : PgTransaction)
    (job_ids : list string) : method (frame A) (exn SagaError.t) unit :=
  match job_ids with
  | [] => mret tt
  | job_id_str :: job_ids =>
      job_id ← or_error id (ok_or (uuid_parse_str job_id_str)
        (compensation_failed ("Invalid job_id: " +:+ uuid_parse_error job_id_str)));
      _ ← await (job_update_state_with_tx job_repository tx job_id JobState.Running);
      restore_jobs job_repository tx job_ids
  end.

(** src: crates/server/domain/src/saga/cleanup.rs 641-689 ResetOrphanedJobsStep::compensate *)
Definition compensate (dry_run : bool) (tx : PgTransaction) :
    method (frame A) (exn SagaError.t) unit :=
  if dry_run then mret tt
  else
    services ← services_or (compensation_failed "SagaServices not available");
    job_repository ← job_repository_or (compensation_failed "JobRepository not available") services;
    c ← context_of;
    restore_jobs job_repository tx (strings_of "orphaned_job_ids" c).

(** src: crates/server/domain/src/saga/cleanup.rs 524-698 impl SagaStep for ResetOrphanedJobsStep *)
Definition new (dry_run : bool) : SagaStep.t A :=
  step "ResetOrphanedJobs" true true (execute dry_run) (compensate dry_run).

End step.
End ResetOrphanedJobsStep.

Module PublishCleanupMetricsStep.
Section step.
Context `{E : Externs} `{!TypeNames} {A : Type} `{!SagaRuntime A} `{!StepWorld (T := saga_command_types) A}.
Import Step.

Definition failed (message : string) : SagaError.t :=
  SagaError.StepFailed "PublishCleanupMetrics" message false.

(** [as usize] of an [i64]. *)
(** src: crates/server/domain/src/saga/cleanup.rs 728-779 PublishCleanupMetricsStep::execute *)
Definition execute (_ : PgTransaction) : method (frame A) (exn SagaError.t) unit :=
  services ← services_or (failed "SagaServices not available");
  c ← context_of;
  let worker_count := number_of "cleaned_up_worker_count" c in
  let job_count := number_of "reset_job_count" c in
  occurred_at ← io Utc_now;
  call (publish (Services.event_bus services)
      (DomainEvent.GarbageCollectionCompleted uuid_nil (as_u64 worker_count) (as_u64 job_count)
        0 0 occurred_at (SagaContext.correlation_id c) (SagaContext.actor c)))
    (fun e => failed ("Failed to publish CleanupCompleted event: " +:+ EventBusError.fmt e)).

(** src: crates/server/domain/src/saga/cleanup.rs 781-787 PublishCleanupMetricsStep::compensate *)
Definition compensate (_ : PgTransaction) : method (frame A) (exn SagaError.t) unit := mret tt.

(** src: crates/server/domain/src/saga/cleanup.rs 720-796 impl SagaStep for PublishCleanupMetricsStep *)
Definition new : SagaStep.t A := step "PublishCleanupMetrics" true false execute compensate.

End step.
End PublishCleanupMetricsStep.

Module CleanupSaga.
Section saga.
Context `{E : Externs}.

(** src: crates/server/domain/src/saga/cleanup.rs 56-65 CleanupSaga *)
Record t := mk {
  unhealthy_threshold : Duration;
  orphaned_job_threshold : Duration;
  dry_run : bool;
  idempotency_key : string;
}.

#[global] Instance t_rebuild : Rebuild t := fun s =>
  mk (unhealthy_threshold s) (orphaned_job_threshold s) (dry_run s) (idempotency_key s).

(** src: crates/server/domain/src/saga/cleanup.rs 86-97 CleanupSaga::with_thresholds *)
Definition with_thresholds (unhealthy orphaned : Duration) (now : DateTime) : t :=
  mk unhealthy orphaned false ("cleanup:" +:+ show_Z (datetime_timestamp now)).

(** src: crates/server/domain/src/saga/cleanup.rs 68-76 CleanupSaga::default *)
Definition default (now : DateTime) : t :=
  mk DEFAULT_UNHEALTHY_THRESHOLD DEFAULT_ORPHANED_JOB_THRESHOLD false
    ("cleanup:" +:+ show_Z (datetime_timestamp now)).

(** src: crates/server/domain/src/saga/cleanup.rs 81-83 CleanupSaga::new *)
Definition new (now : DateTime) : t := default now.

(** src: crates/server/domain/src/saga/cleanup.rs 100-103 CleanupSaga::with_dry_run *)
Definition with_dry_run (dry : bool) (s : t) : t := s <| dry_run := dry |>.

Context `{!TypeNames} {A : Type} `{!SagaRuntime A} `{!StepWorld (T := saga_command_types) A}.

(** src: crates/server/domain/src/saga/cleanup.rs 111-125 CleanupSaga::steps *)
Definition steps (s : t) : list (SagaStep.t A) := [
  IdentifyUnhealthyWorkersStep.new (unhealthy_threshold s) (dry_run s);
  IdentifyOrphanedJobsStep.new (orphaned_job_threshold s) (dry_run s);
  CleanupUnhealthyWorkersStep.new (dry_run s);
  ResetOrphanedJobsStep.new (dry_run s);
  PublishCleanupMetricsStep.new
].

(** src: crates/server/domain/src/saga/cleanup.rs 106-134 impl Saga for CleanupSaga *)
Definition saga (s : t) : Saga.t A := {|
  Saga.saga_type := SagaType.Cleanup;
  Saga.steps := steps s;
  Saga.timeout := Some (from_secs 60);
  Saga.idempotency_key := Some (idempotency_key s);
|}.

End saga.
End CleanupSaga.
