(* ===== verification/SagaDispatch.v ===== *)
(** * Sagas built from their contexts
    ([crates/server/domain/src/saga/orchestrator.rs], [execute])

    The consumers of the message queue hand the orchestrator a context; what saga
    it stands for is read off the type and the metadata.  This is where the
    orchestrator of [Orchestrator.v] meets the concrete sagas. *)

From S2P Require Import Prelude Effects Std Externs States Errors JobSpec Job ProviderApi Worker Events Repositories Services Commands CommandBus JobCommands ExecutionCommands CancellationCommands ProvisioningCommands SagaTypes Orchestrator Steps SagaBus ExecutionSaga CancellationSaga TimeoutSaga ProvisioningSaga RecoverySaga CleanupSaga.

Module SagaOfContext.
Section execute.
Context `{E : Externs} `{!TypeNames} {A : Type}.
Context `{!SagaRuntime A} `{!StepWorld (T := saga_command_types) A}.
Context (powf : f64 -> f64 -> f64).

Abbreviation orchestrator := (InMemorySagaOrchestrator.t A).

(** An operation of the world of the orchestrator that cannot fail. *)
Definition io {X} (f : A -> A * X) : method orchestrator (exn DomainError.t) X :=
  fun o =>
    let (w, x) := f (InMemorySagaOrchestrator.world o) in
    (o <| InMemorySagaOrchestrator.world := w |>, Ok x).

(** [context.metadata.get(key).and_then(|v| v.as_str())] *)
Definition text (key : string) (c : SagaContext.t) : option string :=
  SagaContext.metadata c !! key ≫= as_str.

(** [uuid::Uuid::parse_str(&text).unwrap_or_else(|_| uuid::Uuid::new_v4())] *)
Definition parse_or_new (s : string) : method orchestrator (exn DomainError.t) Uuid :=
  match uuid_parse_str s with
  | Some i => mret i
  | None => io new_v4
  end.

(** An identifier in the metadata, or a fresh one when there is none. *)
Definition id_or_new (key : string) (c : SagaContext.t) :
    method orchestrator (exn DomainError.t) Uuid :=
  let s := default "" (text key c) in
  if String.eqb s "" then io new_v4 else parse_or_new s.

(** An identifier that has to be in the metadata. *)
Definition required_id (key : string) (c : SagaContext.t) (message : string) :
    method orchestrator (exn DomainError.t) Uuid :=
  let s := default "" (text key c) in
  if String.eqb s "" then throw (Error (DomainError.InfrastructureError message))
  else parse_or_new s.

(** [.and_then(|v| v.as_i64()).unwrap_or(d) as u64] *)
Definition seconds (key : string) (d : Z) (c : SagaContext.t) : Z :=
  as_u64 (default d (SagaContext.metadata c !! key ≫= as_i64)).

(** src: crates/server/domain/src/saga/orchestrator.rs 739-878 InMemorySagaOrchestrator::execute (saga) *)
Definition saga_of_context (c : SagaContext.t) : method orchestrator (exn DomainError.t) (Saga.t A) :=
  match SagaContext.saga_type c with
  | SagaType.Provisioning =>
      provider_id ← id_or_new "provider_id" c;
      spec_id ← io new_v4;
      let spec := WorkerSpec.new "hodei-jobs-worker:latest" "http://localhost:50051" spec_id in
      job_id ← io new_v4;
      mret (ProvisioningSaga.saga job_id (ProvisioningSaga.new spec provider_id job_id))
  | SagaType.Execution =>
      job_id ← id_or_new "job_id" c;
      mret (ExecutionSaga.saga (ExecutionSaga.new job_id))
  | SagaType.Recovery =>
      job_id ← io new_v4;
      worker_id ← io new_v4;
      mret (RecoverySaga.saga (RecoverySaga.new job_id worker_id None))
  | SagaType.Cancellation =>
      job_id ← required_id "job_id" c "job_id required for CancellationSaga";
      let reason := default "User requested" (text "reason" c) in
      mret (CancellationSaga.saga (CancellationSaga.new job_id reason))
  | SagaType.Timeout =>
      job_id ← required_id "job_id" c "job_id required for TimeoutSaga";
      let timeout_secs := seconds "timeout_secs" 300 c in
      let reason := default "timeout_exceeded" (text "reason" c) in
      mret (TimeoutSaga.saga (TimeoutSaga.new job_id (from_secs timeout_secs) reason))
  | SagaType.Cleanup =>
      let dry_run := default false (SagaContext.metadata c !! "dry_run" ≫= as_bool) in
      let unhealthy := seconds "unhealthy_threshold_secs" 300 c in
      let orphaned := seconds "orphaned_threshold_secs" 600 c in
      now ← io Utc_now;
      mret (CleanupSaga.saga (CleanupSaga.with_dry_run dry_run
        (CleanupSaga.with_thresholds (from_secs unhealthy) (from_secs orphaned) now)))
  end.

(** src: crates/server/domain/src/saga/orchestrator.rs 737-881 InMemorySagaOrchestrator::execute *)
Definition execute (c : SagaContext.t) :
    method orchestrator (exn DomainError.t) SagaExecutionResult.t :=
  saga ← saga_of_context c;
  InMemorySagaOrchestrator.execute_saga powf saga c.

(** *** Properties *)

(** Which saga the orchestrator runs for a context that a message brings.  A
    context of a cancellation or of a timeout that names no job is refused, and
    nothing at all happens; the execution, cancellation and timeout sagas of a context that
    names a job are for that job.  A recovery saga is
    never for the job and the worker of its context: whatever the metadata,
    it is for two identifiers drawn at that moment.  And the seconds of a timeout
    are cast from signed to unsigned: one second less than zero is 2^64 - 1
    seconds. *)
Theorem sagas_of_contexts c o :
  (SagaContext.saga_type c = SagaType.Cancellation \/ SagaContext.saga_type c = SagaType.Timeout ->
   default "" (text "job_id" c) = "" ->
   exists message, execute c o = (o, Err (Error (DomainError.InfrastructureError message)))) /\
  (forall s job, text "job_id" c = Some s -> s <> "" -> uuid_parse_str s = Some job ->
   match SagaContext.saga_type c with
   | SagaType.Execution => saga_of_context c o = (o, Ok (ExecutionSaga.saga (ExecutionSaga.new job)))
   | SagaType.Cancellation =>
       saga_of_context c o = (o, Ok (CancellationSaga.saga
         (CancellationSaga.new job (default "User requested" (text "reason" c)))))
   | SagaType.Timeout =>
       saga_of_context c o = (o, Ok (TimeoutSaga.saga (TimeoutSaga.new job
         (from_secs (seconds "timeout_secs" 300 c)) (default "timeout_exceeded" (text "reason" c)))))
   | _ => True
   end) /\
  (SagaContext.saga_type c = SagaType.Recovery ->
   let (w1, job) := new_v4 (InMemorySagaOrchestrator.world o) in
   let (w2, worker) := new_v4 w1 in
   saga_of_context c o =
     (o <| InMemorySagaOrchestrator.world := w2 |>,
      Ok (RecoverySaga.saga (RecoverySaga.new job worker None)))) /\
  (SagaContext.metadata c !! "timeout_secs" ≫= as_i64 = Some (-1) ->
   seconds "timeout_secs" 300 c = 2 ^ 64 - 1).
Proof.
  split_and!.
  - intros Ht Hs. exists (if bool_decide (SagaContext.saga_type c = SagaType.Timeout)
      then "job_id required for TimeoutSaga" else "job_id required for CancellationSaga").
    unfold execute, saga_of_context. unfold mbind, method_bind.
    destruct Ht as [-> | ->]; simpl; unfold required_id; rewrite Hs; done.
  - intros s job Hs Hne Hp. destruct (SagaContext.saga_type c) eqn:Ht; try done;
      unfold saga_of_context; rewrite Ht; unfold id_or_new, required_id, parse_or_new; rewrite Hs;
      simpl; destruct (String.eqb_spec s "") as [->|_]; try done; by rewrite Hp.
  - intros Ht. destruct (new_v4 _) as [w1 job] eqn:H1. destruct (new_v4 w1) as [w2 worker] eqn:H2.
    unfold saga_of_context. rewrite Ht. unfold mbind, method_bind, io. rewrite H1. simpl.
    rewrite H2. done.
  - intros Hs. unfold seconds. by rewrite Hs.
Qed.

End execute.
End SagaOfContext.
