(* ===== verification/SagaProperties.v ===== *)
(** * Properties of the concrete sagas

    What the flags in the metadata are for: which steps do nothing when they are
    executed again; and what each saga does as a whole, whatever the services
    answer or on the repositories in memory. *)

From S2P Require Import Prelude Effects Std Externs States Errors JobSpec Job ProviderApi Worker Events Repositories Services Commands CommandBus JobCommands ExecutionCommands CancellationCommands ProvisioningCommands SagaTypes Orchestrator Steps StepProperties SagaBus CommandProperties ExecutionSaga CancellationSaga TimeoutSaga ProvisioningSaga RecoverySaga CleanupSaga SagaDispatch.

(** ** Steps that have succeeded *)

Section once.
Context `{E : Externs} {EL : ExternsLaws E} `{!TypeNames} {A : Type}.
Context `{!SagaRuntime A} `{!StepWorld (T := saga_command_types) A}.
Import Step.

Lemma looks_bus_or e e' : looks_at_services (bus_or (A := A) e e').
Proof. unfold bus_or, command_bus_or. auto with steps. Qed.

Lemma keeps_bus_or e e' : keeps_context (bus_or (A := A) e e').
Proof. unfold bus_or. auto with steps. Qed.

Lemma keeps_parse_or_default text : keeps_context (ExecuteJobStep.parse_or_default (A := A) text).
Proof. unfold ExecuteJobStep.parse_or_default. auto with steps. Qed.

#[local] Hint Resolve looks_bus_or keeps_bus_or keeps_parse_or_default : steps.

Ltac once_through :=
  apply once_step;
  repeat first
    [ apply once_flag; intros ? ?
    | apply once_bind; [by auto with steps|intros ?|intros ? ?] ];
  try solve [auto 40 with steps].

Lemma validate_job_once job : done_once (ValidateJobStep.new (A := A) job).
Proof. once_through. Qed.
Lemma assign_worker_once job worker : done_once (AssignWorkerStep.new (A := A) job worker).
Proof. once_through. Qed.
Lemma execute_job_once job : done_once (ExecuteJobStep.new (A := A) job).
Proof. once_through. Qed.
Lemma complete_job_once job : done_once (CompleteJobStep.new (A := A) job).
Proof. once_through. Qed.
Lemma validate_cancellation_once job : done_once (ValidateCancellationStep.new (A := A) job).
Proof. once_through. Qed.
Lemma notify_worker_once job reason : done_once (NotifyWorkerStep.new (A := A) job reason).
Proof. once_through. Qed.
Lemma update_job_state_once st : done_once (UpdateJobStateStep.to_step (A := A) st).
Proof. once_through. Qed.
Lemma register_worker_once : done_once (RegisterWorkerStep.new (A := A)).
Proof. once_through. Qed.
Lemma publish_provisioned_once : done_once (PublishProvisionedEventStep.new (A := A)).
Proof. once_through. Qed.
Lemma provision_new_worker_once job target :
  done_once (ProvisionNewWorkerStep.new (A := A) job target).
Proof. once_through. Qed.
Lemma transfer_job_once job worker : done_once (TransferJobStep.new (A := A) job worker).
Proof. once_through. Qed.

Lemma release_worker_once job : done_once (ReleaseWorkerStep.new (A := A) job).
Proof.
  apply once_step, once_bind; [by auto with steps|intros services|intros; auto 40 with steps].
  apply once_bind; [by auto with steps|intros bus|intros; auto 40 with steps].
  eapply (once_either (is_set "worker_released")
    (fun c => String.eqb (default "none" (text_of "cancelled_worker_id" c)) "none")
    "worker_released"); [by intros c ->|intros; auto 20 with steps].
Qed.

Lemma mark_job_failed_once job reason : done_once (MarkJobFailedStep.new (A := A) job reason).
Proof.
  apply once_step, once_bind; [by auto with steps|intros bus|intros; auto 40 with steps].
  apply (once_either (is_set "timeout_skipped") (is_set "job_marked_failed") "job_marked_failed");
    [intros c ->; apply orb_true_r|intros; auto 20 with steps].
Qed.

Lemma create_infrastructure_once st : done_once (CreateInfrastructureStep.to_step (A := A) st).
Proof.
  apply once_step, once_bind; [by auto with steps|intros bus|intros; auto 40 with steps].
  apply (once_either (is_set "worker_provisioning_done")
    (fun c => bool_decide (is_Some (SagaContext.get_metadata string_from_value "worker_id" c)))
    "worker_provisioning_done"); [by intros c ->|intros; auto 20 with steps].
Qed.

(** The steps that are for once. *)
Definition once_only (execution : ExecutionSaga.t) (cancellation : CancellationSaga.t)
    (infrastructure : CreateInfrastructureStep.t) (job : JobId) (reason : string)
    (target : option string) (worker : WorkerId) : list (SagaStep.t A) :=
  ExecutionSaga.steps execution ++ CancellationSaga.steps cancellation ++
    [MarkJobFailedStep.new job reason; CreateInfrastructureStep.to_step infrastructure;
     RegisterWorkerStep.new; PublishProvisionedEventStep.new;
     ProvisionNewWorkerStep.new job target; TransferJobStep.new job worker].

(** C35: a step of the execution saga or of the cancellation saga that has
    succeeded is not done again: executed another time on the context it has
    left, in any transaction, whatever has become of the rest of the world and
    however little time there is, it succeeds and touches neither context nor
    world.  The same holds of the steps of the other sagas that reach beyond
    the context: marking a timed out job as failed, creating, registering and
    publishing a worker, provisioning a new one, and transferring a job to it.
    This is a property of the context that a step leaves: the orchestrator saves the
    context before the steps and not after them, so that a saga which is resumed from
    the store has none of their marks. *)
Theorem finished_steps_are_not_repeated execution cancellation infrastructure job reason target
    worker st limit tx c w c' w' :
  st ∈ once_only execution cancellation infrastructure job reason target worker ->
  SagaStep.execute st limit tx c w = (c', w', Ready (Ok tt)) ->
  forall limit' tx' w'', SagaStep.execute st limit' tx' c' w'' = (c', w'', Ready (Ok tt)).
Proof.
  intros Hst. revert limit tx c w c' w'. change (done_once st). revert st Hst.
  apply Forall_forall. unfold once_only, ExecutionSaga.steps, CancellationSaga.steps. simpl.
  auto 40 using validate_job_once, assign_worker_once, execute_job_once, complete_job_once,
    validate_cancellation_once, notify_worker_once, update_job_state_once, release_worker_once,
    mark_job_failed_once, create_infrastructure_once, register_worker_once,
    publish_provisioned_once, provision_new_worker_once, transfer_job_once.
Qed.

End once.

(** ** Sagas as a whole *)

Section sagas.
Context `{E : Externs} {EL : ExternsLaws E} `{!TypeNames} {A : Type}.
Context `{!SagaRuntime A} `{!StepWorld (T := saga_command_types) A}.
Import Step.

(** The steps of a saga one after the other, up to the first that does not
    succeed, as long as none of them times out. *)
Fixpoint perform (steps : list (SagaStep.t A)) (limit : Duration) (tx : PgTransaction)
    (c : SagaContext.t) (w : A) : SagaContext.t * A * timed (result SagaError.t unit) :=
  match steps with
  | [] => (c, w, Ready (Ok tt))
  | st :: steps =>
      match SagaStep.execute st limit tx c w with
      | (c, w, Ready (Ok _)) => perform steps limit tx c w
      | other => other
      end
  end.

(** A step that succeeds and leaves a context and a world with [P]. *)
Definition succeeds (st : SagaStep.t A) (c : SagaContext.t) (w : A)
    (P : SagaContext.t -> A -> Prop) : Prop :=
  forall limit tx, exists c' w', SagaStep.execute st limit tx c w = (c', w', Ready (Ok tt)) /\ P c' w'.

Lemma succeeds_step name idempotent compensable execute compensate c w
    (P : SagaContext.t -> A -> Prop) :
  (forall tx left, wp (execute tx)
    (fun r s' => r = Ok tt /\ P (context s') (world s')) (mk c w left)) ->
  succeeds (step name idempotent compensable execute compensate) c w P.
Proof.
  intros Hm limit tx. simpl. unfold run_execute. specialize (Hm tx (Some limit)). unfold wp in Hm.
  destruct (execute tx _) as [s' r]. destruct Hm as [-> HP]. by exists (context s'), (world s').
Qed.

Lemma perform_succeeds st steps c w (P Q : SagaContext.t -> A -> Prop) limit tx :
  succeeds st c w P ->
  (forall c' w', P c' w' -> exists c'' w'',
    perform steps limit tx c' w' = (c'', w'', Ready (Ok tt)) /\ Q c'' w'') ->
  exists c'' w'', perform (st :: steps) limit tx c w = (c'', w'', Ready (Ok tt)) /\ Q c'' w''.
Proof.
  intros Hst Hrest. destruct (Hst limit tx) as (c' & w' & Heq & HP). simpl. rewrite Heq.
  by apply Hrest.
Qed.

(** *** What the services answer

    [I] holds of the world before, and whatever the steps ask for, and whatever
    is answered, it holds again. *)

Context (I : A -> Prop).
Context (new_v4_keeps : forall w, I w -> I (fst (new_v4 w))).
Context (now_keeps : forall w, I w -> I (fst (Utc_now w))).

(** A future that is ready with a value of [P]. *)
Definition answers {X} (f : future A X) (P : X -> Prop) : Prop :=
  forall left w, I w -> exists w' x spent, f left w = (w', Ready (x, spent)) /\ P x /\ I w'.

Lemma wp_await_answer {F X} (f : future A X) P s (Q : result (exn F) X -> frame A -> Prop) :
  answers f P -> I (world s) ->
  (forall x s', P x -> I (world s') -> context s' = context s -> Q (Ok x) s') ->
  wp (await f) Q s.
Proof.
  intros Hf Hs HQ. unfold wp, await. destruct (Hf (left s) (world s) Hs) as (w' & x & d & -> & HP & HI).
  by apply HQ.
Qed.

Lemma wp_stamp {F X} (f : Uuid -> DateTime -> X) s (Q : result (exn F) X -> frame A -> Prop) :
  I (world s) ->
  (forall x s', I (world s') -> context s' = context s -> Q (Ok x) s') ->
  wp (stamp f) Q s.
Proof.
  intros Hs HQ. unfold wp, stamp, io, mbind, method_bind.
  pose proof (new_v4_keeps _ Hs) as Hv. destruct (new_v4 (world s)) as [w1 fresh]. simpl in *.
  pose proof (now_keeps _ Hv) as Hn. destruct (Utc_now w1) as [w2 now]. simpl in *.
  by apply HQ.
Qed.

(** A bus that answers the commands of a type with something. *)
Definition bus_answers (bus : DynCommandBus (T := saga_command_types) A) (C : SagaCommand.t) : Prop :=
  forall command name target, answers (bus_dispatch bus command (Self C) name target) (fun _ => True).

Lemma wp_dispatch {F} bus C command s (Q : result (exn F) _ -> frame A -> Prop) :
  bus_answers bus C -> I (world s) ->
  (forall r s', I (world s') -> context s' = context s -> Q (Ok r) s') ->
  wp (dispatch bus C command) Q s.
Proof.
  intros Hb Hs HQ. unfold dispatch, dispatch_erased. apply wp_catch, wp_bind. simpl.
  unfold dispatch_any. simpl. apply wp_bind.
  apply (wp_await_answer _ (fun _ => True)); [apply Hb|done|]. intros answer s' _ Hs' Hc.
  unfold or_error, lift. apply wp_run. simpl. destruct answer as [v|e]; simpl; [|by apply HQ].
  destruct (downcast _ v); simpl; by apply HQ.
Qed.

Lemma wp_call {X F} (f : future A (result F X)) e (x : X) s
    (Q : result (exn SagaError.t) X -> frame A -> Prop) :
  answers f (fun r => r = Ok x) -> I (world s) ->
  (forall s', I (world s') -> context s' = context s -> Q (Ok x) s') ->
  wp (call f e) Q s.
Proof.
  intros Hf Hs HQ. unfold call. apply wp_bind. apply (wp_await_answer _ (fun r => r = Ok x)); [done|done|].
  intros r s' -> Hs' Hc. by apply HQ.
Qed.

Lemma get_text key v (c : SagaContext.t) :
  SagaContext.metadata c !! key = Some (json_of_string v) ->
  SagaContext.get_metadata string_from_value key c = Some (Ok v).
Proof.
  intros Hv. unfold SagaContext.get_metadata. rewrite Hv. simpl.
  unfold string_from_value, expecting. by rewrite as_str_of_string.
Qed.

Lemma get_flag key b (c : SagaContext.t) :
  SagaContext.metadata c !! key = Some (json_of_bool b) -> is_set key c = b.
Proof.
  intros Hv. unfold is_set, SagaContext.get_metadata. rewrite Hv. simpl.
  unfold bool_from_value, expecting. by rewrite as_bool_of_bool.
Qed.

(** *** The timeout saga *)

Context (h : SagaServices) (repo : JobRepositoryTx A) (bus : DynCommandBus (T := saga_command_types) A).
Context (has_repository : Services.job_repository (services_at h) = Some repo).
Context (has_bus : Services.command_bus (services_at h) = Some bus).
Context (bus_ready : Forall (bus_answers bus)
  [SagaCommand.TerminateWorker; SagaCommand.MarkJobTimedOut; SagaCommand.ReleaseWorker]).

Lemma wp_services e s (Q : result (exn SagaError.t) _ -> frame A -> Prop) :
  SagaContext.services (context s) = Some h -> Q (Ok (services_at h)) s -> wp (services_or e) Q s.
Proof. intros Hh HQ. apply wp_services_or; [congruence|]. intros h'. rewrite Hh. by intros [= <-]. Qed.

Lemma wp_bus e s (Q : result (exn SagaError.t) _ -> frame A -> Prop) :
  Q (Ok bus) s -> wp (command_bus_or e (services_at h)) Q s.
Proof. intros HQ. unfold command_bus_or. by rewrite has_bus. Qed.

Lemma wp_bus_or e e' s (Q : result (exn SagaError.t) _ -> frame A -> Prop) :
  SagaContext.services (context s) = Some h -> Q (Ok bus) s -> wp (bus_or e e') Q s.
Proof. intros Hh HQ. unfold bus_or. apply wp_bind, wp_services; [done|]. by apply wp_bus. Qed.

(** What a context of this saga is made of. *)
Definition context_is (m : gmap string Json) (c : SagaContext.t) (w : A) : Prop :=
  SagaContext.services c = Some h /\ SagaContext.metadata c = m /\ I w.

Ltac read_metadata :=
  unfold is_set, text_of, timed_out_worker, SagaContext.get_metadata;
  repeat match goal with H : SagaContext.metadata _ = _ |- _ => rewrite H end;
  rewrite ?lookup_insert_eq, ?lookup_insert_ne, ?lookup_empty by done.

Context (i : JobId) (j : Job.t) (d : Duration) (why : string).
Context (running : Job.state j = JobState.Running).
Context (finds_job : forall tx, answers (job_find_by_id_with_tx repo tx i) (fun r => r = Ok (Some j))).
Context (k : WorkerId) (worker : Worker.t) (worker_id : Worker.id worker = k).
Context (finds_worker : answers (worker_get_by_job_id (Services.provider_registry (services_at h)) i)
  (fun r => r = Ok (Some worker))).

Definition validated : gmap string Json :=
  <["timeout_validated" := json_of_bool true]>
  (<["timeout_reason" := json_of_string why]>
  (<["timeout_duration_ms" := json_of_Z (Prelude.as_i64 (as_millis d))]> ∅)).
Definition terminated : gmap string Json :=
  <["worker_terminated" := json_of_bool true]>
  (<["timed_out_worker_id" := json_of_string (uuid_to_string k)]> validated).
Definition marked : gmap string Json :=
  <["job_marked_failed" := json_of_bool true]> terminated.
Definition released : gmap string Json :=
  <["worker_released" := json_of_bool true]> marked.

Lemma validate_timeout_succeeds c w :
  context_is ∅ c w ->
  succeeds (ValidateTimeoutStep.to_step (ValidateTimeoutStep.mk i d why)) c w (context_is validated).
Proof.
  intros (Hh & Hm & Hw). apply succeeds_step. intros tx left. unfold ValidateTimeoutStep.execute.
  apply wp_bind, wp_services; [done|]. apply wp_bind. unfold job_repository_or. rewrite has_repository.
  apply wp_bind, wp_context_of. simpl. read_metadata.
  apply wp_bind, (wp_call _ _ (Some j)); [apply finds_job|done|]. intros s' Hs' Hc.
  apply wp_bind, wp_or_error; [intros ? [= <-]|done]. simpl.
  rewrite bool_decide_eq_false_2 by (by intros []).
  repeat (apply wp_bind, wp_set_metadata). apply wp_set_metadata. split; [done|].
  unfold context_is. simpl. rewrite Hc. simpl. rewrite Hm. done.
Qed.

Lemma terminate_worker_succeeds c w :
  context_is validated c w ->
  succeeds (TerminateWorkerStep.new i) c w (context_is terminated).
Proof.
  intros (Hh & Hm & Hw). apply succeeds_step. intros tx left. unfold TerminateWorkerStep.execute.
  apply wp_bind, wp_services; [done|]. apply wp_bind, wp_bus. apply wp_bind, wp_context_of. simpl.
  unfold validated in Hm. read_metadata.
  apply wp_bind, (wp_call _ _ (Some worker)); [apply finds_worker|done|]. intros s1 H1 Hc1. simpl.
  rewrite worker_id. apply wp_bind, wp_set_metadata, wp_bind, wp_stamp; [done|].
  intros command s2 H2 Hc2. apply wp_bind, (wp_dispatch bus SagaCommand.TerminateWorker); [by decompose_Forall_hyps|done|]. intros answer s3 H3 Hc3.
  apply wp_set_metadata. split; [done|]. unfold context_is. simpl. rewrite Hc3, Hc2. simpl.
  rewrite Hc1. simpl. by rewrite Hm.
Qed.

Lemma mark_job_failed_succeeds c w :
  context_is terminated c w ->
  succeeds (MarkJobFailedStep.new i why) c w (context_is marked).
Proof.
  intros (Hh & Hm & Hw). apply succeeds_step. intros tx left. unfold MarkJobFailedStep.execute.
  apply wp_bind, wp_bus_or; [done|]. apply wp_bind, wp_context_of. simpl.
  unfold terminated, validated in Hm. read_metadata.
  apply wp_bind, wp_stamp; [done|]. intros command s2 H2 Hc2.
  apply wp_bind, (wp_dispatch bus SagaCommand.MarkJobTimedOut); [by decompose_Forall_hyps|done|]. intros answer s3 H3 Hc3.
  apply wp_set_metadata. split; [done|]. unfold context_is. simpl. rewrite Hc3, Hc2. simpl.
  by rewrite Hm.
Qed.

Lemma release_worker_succeeds c w :
  context_is marked c w ->
  succeeds (TimeoutReleaseWorkerStep.new i) c w (context_is released).
Proof.
  intros (Hh & Hm & Hw). apply succeeds_step. intros tx left.
  unfold TimeoutReleaseWorkerStep.execute, TimeoutReleaseWorkerStep.find_worker.
  apply wp_bind, wp_services; [done|]. apply wp_bind, wp_bus. apply wp_bind, wp_context_of. simpl.
  unfold marked, terminated, validated in Hm.
  rewrite (get_text "timed_out_worker_id" (uuid_to_string k)) by (by rewrite Hm).
  read_metadata. apply wp_bind, wp_ret. simpl. rewrite parse_uuid.
  apply wp_bind, wp_stamp; [done|]. intros command s2 H2 Hc2.
  apply wp_bind, (wp_dispatch bus SagaCommand.ReleaseWorker); [by decompose_Forall_hyps|done|]. intros answer s3 H3 Hc3.
  apply wp_set_metadata. split; [done|]. unfold context_is. simpl. rewrite Hc3, Hc2. simpl.
  by rewrite Hm.
Qed.

(** C36: the timeout saga succeeds whatever the command bus answers.  For a job
    that runs on a registered worker, and a bus that answers every command in time, be it
    with a result or with an error, all four steps succeed, and the context
    records that the worker was terminated, the job marked as failed and the
    worker released.  All that happens to the world is what looking up the job
    and its worker and sending the commands does to it: on a bus without handlers
    for these commands, like the one the program starts with, nothing. *)
Theorem timeout_saga_succeeds_whatever_is_answered c w limit tx :
  SagaContext.services c = Some h -> SagaContext.metadata c = ∅ -> I w ->
  exists c' w',
    perform (TimeoutSaga.steps (TimeoutSaga.new i d why)) limit tx c w = (c', w', Ready (Ok tt)) /\
    I w' /\
    Forall (fun flag => is_set flag c' = true)
      ["timeout_validated"; "worker_terminated"; "job_marked_failed"; "worker_released"].
Proof.
  intros Hh Hm Hw. assert (exists c' w',
    perform (TimeoutSaga.steps (TimeoutSaga.new i d why)) limit tx c w = (c', w', Ready (Ok tt)) /\
    context_is released c' w') as (c' & w' & Heq & _ & Hm' & Hw').
  { apply (perform_succeeds _ _ _ _ (context_is validated)).
    { by apply validate_timeout_succeeds. }
    intros c1 w1 H1. apply (perform_succeeds _ _ _ _ (context_is terminated)).
    { by apply terminate_worker_succeeds. }
    intros c2 w2 H2. apply (perform_succeeds _ _ _ _ (context_is marked)).
    { by apply mark_job_failed_succeeds. }
    intros c3 w3 H3. apply (perform_succeeds _ _ _ _ (context_is released)).
    { by apply release_worker_succeeds. }
    intros c4 w4 H4. by exists c4, w4. }
  exists c', w'. split; [done|]. split; [done|].
  unfold released, marked, terminated, validated in Hm'.
  repeat (apply Forall_cons_2; [apply get_flag; by rewrite Hm'|]). by apply Forall_nil_2.
Qed.

End sagas.

(** *** The cancellation saga *)

Section cancellation.
Context `{E : Externs} {EL : ExternsLaws E} `{!TypeNames} {A : Type}.
Context `{!SagaRuntime A} `{!StepWorld (T := saga_command_types) A}.
Import Step.

(** A bus that never answers a command of type [C] with a result. *)
Definition refuses (bus : DynCommandBus (T := saga_command_types) A) (C : SagaCommand.t) : Prop :=
  forall command name target left w w' answer spent,
    bus_dispatch bus command (Self C) name target left w = (w', Ready (Ok answer, spent)) -> False.

Lemma refused_dispatch {F} bus C command :
  refuses bus C ->
  forall s v, returns (dispatch bus C command : method (frame A) (exn F) _) s <> Ok (Ok v).
Proof.
  intros Hb s v. unfold returns, dispatch, catch, dispatch_erased, dispatch_any. simpl.
  unfold mbind, method_bind, await.
  destruct (bus_dispatch bus _ _ _ _ _ _) as [w' [[[answer|e] spent]| |]] eqn:Hd; simpl; try done.
  by apply Hb in Hd.
Qed.

Lemma update_job_state_fails st bus h tx c w left :
  SagaContext.services c = Some h -> Services.command_bus (services_at h) = Some bus ->
  refuses bus SagaCommand.UpdateJobState -> is_set "job_state_updated" c = false ->
  wp (UpdateJobStateStep.execute st tx) (fun r s' => r <> Ok tt /\ context s' = c) (mk c w left).
Proof.
  intros Hh Hbus Href Hflag. unfold UpdateJobStateStep.execute.
  apply wp_bind, wp_services_or; simpl; [congruence|]. rewrite Hh. intros ? [= <-].
  apply wp_bind. unfold command_bus_or. rewrite Hbus. apply wp_or_error; [intros ? [= <-]|done].
  apply wp_bind, wp_context_of. simpl. rewrite Hflag.
  apply wp_bind, wp_keeps; [apply keeps_stamp|]. intros [command|e] s1 Hc1; [|done].
  apply wp_bind, wp_run. pose proof (keeps_dispatch (F := SagaError.t) bus SagaCommand.UpdateJobState command s1) as Hk.
  pose proof (refused_dispatch (F := SagaError.t) bus SagaCommand.UpdateJobState command Href s1) as Hr.
  destruct (returns _ s1) as [[v|e]|e]; [by destruct (Hr v)| |]; simpl in *.
  - apply wp_bind, wp_or_error; [done|]. intros e' [= <-]. split; [done|congruence].
  - split; [done|congruence].
Qed.

Lemma is_set_key key (c c' : SagaContext.t) :
  SagaContext.metadata c' !! key = SagaContext.metadata c !! key -> is_set key c' = is_set key c.
Proof. intros Hk. unfold is_set, SagaContext.get_metadata. by rewrite Hk. Qed.

Lemma perform_fails st steps limit tx c w c' w' r (P : SagaContext.t -> Prop) :
  (forall c1 w1 r1, SagaStep.execute st limit tx c w = (c1, w1, r1) -> P c1) ->
  (forall c1 w1, P c1 -> perform steps limit tx c1 w1 = (c', w', r) ->
    r <> Ready (Ok tt) /\ P c') ->
  perform (A := A) (st :: steps) limit tx c w = (c', w', r) ->
  r <> Ready (Ok tt) /\ P c'.
Proof.
  intros Hst Hrest. simpl. destruct (SagaStep.execute st limit tx c w) as [[c1 w1] r1].
  specialize (Hst c1 w1 r1 eq_refl). destruct r1 as [[[]|e]| |].
  - by apply Hrest.
  - by intros [= <- <- <-].
  - by intros [= <- <- <-].
  - by intros [= <- <- <-].
Qed.

(** A cancellation cannot succeed on a bus that does not handle
    [UpdateJobState], and the bus the program starts with has no such handler.
    Whatever the repository and the registry answer, however often the saga is tried and
    whatever the rest of its context holds, it ends in an error, a timeout or
    a panic, and never records that the state of the job was updated. *)
Theorem cancellation_needs_the_state_handler s h bus limit tx c w c' w' r :
  SagaContext.services c = Some h -> Services.command_bus (services_at h) = Some bus ->
  refuses bus SagaCommand.UpdateJobState -> is_set "job_state_updated" c = false ->
  perform (CancellationSaga.steps s) limit tx c w = (c', w', r) ->
  r <> Ready (Ok tt) /\ is_set "job_state_updated" c' = false.
Proof.
  intros Hh Hbus Href Hflag Hp.
  set (P := fun c => SagaContext.services c = Some h /\ is_set "job_state_updated" c = false).
  assert (r <> Ready (Ok tt) /\ P c') as [Hr [_ Hf]]; [|done]. revert Hp.
  assert (forall name b1 b2 execute compensate c w,
    (forall tx, keeps SagaContext.services (execute tx)) ->
    (forall tx, keeps (fun c => SagaContext.metadata c !! "job_state_updated") (execute tx)) ->
    P c -> forall c1 w1 r1,
    SagaStep.execute (step name b1 b2 execute compensate) limit tx c w = (c1, w1, r1) -> P c1) as Hstep.
  { intros name b1 b2 ex comp c0 w0 Hs Hk [Hc0 Hf0] c1 w1 r1 Hex.
    pose proof (step_keeps SagaContext.services _ _ _ _ _ _ _ _ _ _ _ _ Hs Hex) as Hs1.
    pose proof (step_keeps _ _ _ _ _ _ _ _ _ _ _ _ _ Hk Hex) as Hk1.
    split; [congruence|]. by rewrite (is_set_key _ _ _ Hk1). }
  apply (perform_fails _ _ _ _ _ _ _ _ _ P).
  { apply Hstep; [| |done]; intros; unfold ValidateCancellationStep.execute; auto 30 with steps. }
  intros c1 w1 H1. apply (perform_fails _ _ _ _ _ _ _ _ _ P).
  { apply Hstep; [| |done]; intros; unfold NotifyWorkerStep.execute; auto 40 with steps. }
  intros c2 w2 [Hh2 Hf2]. simpl. unfold run_execute.
  pose proof (update_job_state_fails (UpdateJobStateStep.cancel (CancellationSaga.job_id s)
    (CancellationSaga.reason s)) bus h tx c2 w2 (Some limit) Hh2 Hbus Href Hf2) as Hu.
  unfold wp in Hu. destruct (UpdateJobStateStep.execute _ tx _) as [s' r']. destruct Hu as [Hr Hc].
  destruct r' as [[]|[e| | |]]; [done|..]; intros [= <- <- <-]; (split; [done|by rewrite Hc]).
Qed.

End cancellation.

(** ** An example: the program on the in-memory repositories

    The world of the steps is the memory of [CommandProperties.v]; the services
    of a saga are its two repositories and the bus as the program starts it. *)

#[local] Existing Instance concrete_order.
#[local] Existing Instance memory_jobs.
#[local] Instance program_registry : @WorkerRegistry.t concrete (@Memory.t concrete) :=
  memory_registry (E := concrete) example_id example_time.
#[local] Existing Instance example_provisioning.
#[local] Existing Instance example_names.

Abbreviation program := (@Memory.t concrete).
Abbreviation program_handler := (saga_handler (E := concrete) (W := program)).
Abbreviation program_types := (saga_command_types (E := concrete)).
Definition start (m : program) : InMemoryErasedCommandBus.t (T := program_types) program_handler program :=
  started (E := concrete) None m.

#[local] Instance program_handlers : CommandHandlers (T := program_types) program_handler
    (InMemoryErasedCommandBus.t (T := program_types) program_handler program) :=
  memory_handlers (E := concrete) example_id example_time (fun _ _ => "").

#[local] Instance program_runtime : @SagaRuntime concrete program := {|
  Instant_now := fun m => (m, 0);
  SystemTime_now := fun m => (m, 0);
  new_v4 := draw (E := concrete) example_id;
  sleep := fun _ m => m;
  PgTransaction := unit;
  begin_transaction := fun m => (m, Ok tt);
  drop_transaction := fun _ m => m;
  save := fun _ m => (m, Ok tt);
  update_state := fun _ _ _ m => (m, Ok tt);
  mark_compensating := fun _ m => (m, Ok tt);
  find_by_id := fun _ m => (m, Ok None);
|}.

Definition program_jobs : JobRepositoryTx (E := concrete) program := {|
  job_save_with_tx := fun _ j => ready (JobRepository.save j);
  job_find_by_id_with_tx := fun _ i => ready (JobRepository.find_by_id i);
  job_update_with_tx := fun _ j => ready (JobRepository.update j);
  job_update_status_with_tx := fun _ _ _ => ready (fun m => (m, Ok tt));
  job_find_by_state_with_tx := fun _ s => ready (JobRepository.find_by_state s);
  job_update_state_with_tx := fun _ i s => ready (JobRepository.update_state i s);
|}.

Definition program_workers : WorkerRegistryTx (E := concrete) program := {|
  worker_get := fun i => ready (WorkerRegistry.find_by_id i);
  worker_get_by_job_id := fun i => ready (WorkerRegistry.get_by_job_id i);
  worker_save_with_tx := fun _ w => ready (WorkerRegistry.save w);
  worker_update_state_with_tx := fun _ i s => ready (WorkerRegistry.update_state i s);
  worker_release_from_job_with_tx := fun _ i => ready (WorkerRegistry.release_from_job i);
  worker_register_with_tx := fun _ h sp j => ready (WorkerRegistry.register h sp j);
  worker_unregister_with_tx := fun _ i => ready (WorkerRegistry.unregister i);
  worker_find_available_with_tx := fun _ => ready WorkerRegistry.find_available;
|}.

Definition program_bus : DynCommandBus (T := program_types) program := {|
  bus_dispatch := fun command i name target _ m =>
    let (b, r) := dispatch_any command i name target (start m) in
    (InMemoryErasedCommandBus.world b,
     match r with
     | Ok answer => Ready (Ok answer, 0)
     | Err (Error e) => Ready (Err e, 0)
     | Err _ => Crashed
     end);
|}.

#[local] Instance program_world : StepWorld (E := concrete) (T := program_types) program := {|
  services_at := fun _ => Services.with_command_bus program_workers
    {| publish := fun _ => ready (fun m => (m, Ok tt)) |} (Some program_jobs) None None program_bus;
  Utc_now := fun m => (m <| Memory.tick := S (Memory.tick m) |>, 0 : @DateTime concrete);
|}.

Definition program_context : @SagaContext.t concrete :=
  SagaContext.new (E := concrete) (3%nat : @Uuid concrete) SagaType.Timeout None None 0
    <| SagaContext.services := Some (tt : @SagaServices concrete) |>.
Definition program_job : @JobId concrete := 7%nat.
Definition program_worker : @WorkerId concrete := 1%nat.

(** A type of command no handler was registered for at start-up. *)
Lemma program_has_no_handler C command name target left m :
  match C with
  | SagaCommand.UpdateJobState | SagaCommand.TerminateWorker | SagaCommand.MarkJobTimedOut
  | SagaCommand.ReleaseWorker => True
  | _ => False
  end ->
  bus_dispatch program_bus command (Self (CommandTypes := program_types) C) name target left m =
    (m, Ready (Err (CommandError.HandlerNotFound "type_id="), 0)).
Proof. by destruct C. Qed.

Example finished_steps_are_not_repeated_witness :
  let st := MarkJobFailedStep.new (E := concrete) (A := program) program_job "late" in
  let m := example_memory JobState.Running WorkerState.Ready in
  let out := SagaStep.execute st 5 tt program_context m in
  SagaStep.execute st 1 tt out.1.1 m = (out.1.1, m, Ready (Ok tt)).
Proof.
  intros st m out.
  apply (finished_steps_are_not_repeated (E := concrete) (A := program)
    (ExecutionSaga.new program_job) (CancellationSaga.new program_job "why")
    (CreateInfrastructureStep.new program_worker
      (WorkerSpec.new (E := concrete) "img" "srv" program_worker))
    program_job "late" None program_worker st 5 tt program_context m out.1.1 out.1.2).
  - unfold once_only, ExecutionSaga.steps, CancellationSaga.steps. simpl. do 8 right. left.
  - reflexivity.
Defined.

Example cancellation_needs_the_state_handler_witness :
  let m := example_memory JobState.Running WorkerState.Ready in
  let out := perform (E := concrete) (A := program)
    (CancellationSaga.steps (CancellationSaga.new program_job "why")) 5 tt program_context m in
  out.2 <> Ready (Ok tt).
Proof.
  intros m out.
  refine (proj1 (cancellation_needs_the_state_handler (E := concrete) (A := program)
    (CancellationSaga.new program_job "why") (tt : @SagaServices concrete) program_bus
    5 tt program_context m out.1.1 out.1.2 out.2 eq_refl eq_refl _ eq_refl _)).
  - intros command name target left w w' answer spent.
    by rewrite (program_has_no_handler SagaCommand.UpdateJobState).
  - change (out = (out.1.1, out.1.2, out.2)). clearbody out. by destruct out as [[]].
Defined.

Definition late_worker : @Worker.t concrete :=
  example_worker WorkerState.Busy <| Worker.current_job_id := Some program_job |>.
Definition late_job : @Job.t concrete := example_job <| Job.state := JobState.Running |>.

Example timeout_saga_succeeds_whatever_is_answered_witness :
  let m := one_of_each (E := concrete) late_job late_worker in
  exists c' m',
    perform (E := concrete) (A := program)
      (TimeoutSaga.steps (TimeoutSaga.new program_job (from_secs 60) "late")) 5 tt program_context m =
      (c', m', Ready (Ok tt)) /\
    Memory.jobs m' = Memory.jobs m /\ Memory.workers m' = Memory.workers m.
Proof.
  intros m.
  set (I := fun m' : program => Memory.jobs m' = Memory.jobs m /\ Memory.workers m' = Memory.workers m).
  assert (forall w, I w -> I (fst (new_v4 (E := concrete) (A := program) w))) as Hv4 by 
    by (intros [js ws n] [Hj Hw]; exact (conj Hj Hw)).
  assert (forall w, I w -> I (fst (Utc_now (E := concrete) (T := program_types) (A := program) w))) as Hnow by 
    by (intros [js ws n] [Hj Hw]; exact (conj Hj Hw)).
  assert (forall C, match C with
    | SagaCommand.UpdateJobState | SagaCommand.TerminateWorker | SagaCommand.MarkJobTimedOut
    | SagaCommand.ReleaseWorker => True | _ => False end -> bus_answers I program_bus C) as Hbus.
  { intros C HC command name target left w Hw.
    exists w, (Err (CommandError.HandlerNotFound "type_id=")), 0.
    by rewrite (program_has_no_handler C) by done. }
  assert (forall tx, answers I (job_find_by_id_with_tx program_jobs tx program_job)
    (fun r => r = Ok (Some late_job))) as Hjob.
  { intros tx left [js ws n] [Hj Hws]. cbn [Memory.jobs Memory.workers] in Hj, Hws. subst js ws.
    eexists _, _, 0. split; [reflexivity|]. split; [reflexivity|by split]. }
  assert (answers I (worker_get_by_job_id program_workers program_job)
    (fun r => r = Ok (Some late_worker))) as Hworker.
  { intros left [js ws n] [Hj Hws]. cbn [Memory.jobs Memory.workers] in Hj, Hws. subst js ws.
    eexists _, _, 0. split; [reflexivity|]. split; [reflexivity|by split]. }
  destruct (timeout_saga_succeeds_whatever_is_answered (E := concrete) (A := program) I
    Hv4 Hnow (tt : @SagaServices concrete) program_jobs program_bus
    eq_refl eq_refl (Forall_cons_2 _ _ _ (Hbus SagaCommand.TerminateWorker Logic.I)
      (Forall_cons_2 _ _ _ (Hbus SagaCommand.MarkJobTimedOut Logic.I)
        (Forall_cons_2 _ _ _ (Hbus SagaCommand.ReleaseWorker Logic.I) (Forall_nil_2 _))))
    program_job late_job (from_secs 60) "late" eq_refl Hjob program_worker late_worker eq_refl Hworker
    program_context m 5 tt eq_refl eq_refl (conj eq_refl eq_refl))
    as (c' & m' & Hp & [Hj Hw] & _).
  exists c', m'. exact (conj Hp (conj Hj Hw)).
Defined.

Definition program_orchestrator : InMemorySagaOrchestrator.t (E := concrete) program := {|
  InMemorySagaOrchestrator.world := example_memory JobState.Running WorkerState.Ready;
  InMemorySagaOrchestrator.config := SagaOrchestratorConfig.default;
  InMemorySagaOrchestrator.active_sagas := 0;
  InMemorySagaOrchestrator.rate_limiter := None;
  InMemorySagaOrchestrator.concurrency_semaphore := 100;
  InMemorySagaOrchestrator.audit_trail := SagaAuditTrail.new;
  InMemorySagaOrchestrator.audit_consumers := [];
|}.

Example sagas_of_contexts_witness :
  exists message,
    SagaOfContext.execute (E := concrete) (fun x _ => x) program_context program_orchestrator =
      (program_orchestrator, Err (Error (DomainError.InfrastructureError message))).
Proof.
  apply (proj1 (SagaOfContext.sagas_of_contexts (E := concrete) (A := program) (fun x _ => x)
    program_context program_orchestrator)); [by right|reflexivity].
Defined.
