(* ===== verification/OrchestratorProperties.v ===== *)
(** * Properties of the saga orchestrator

    The contract of a step ([StepContract]) says what executing and
    compensating it do to the application; the run of the orchestrator is
    verified against it, step by step, with the weakest preconditions of
    [Effects].  The audit trail the orchestrator keeps is the observable order
    of what happened. *)

From S2P Require Import Prelude Effects Std Externs States Errors RateLimiter Retry SagaTypes.
From S2P Require Import Orchestrator.

Import InMemorySagaOrchestrator.

(** ** Vocabulary *)

(** An audit entry as the order of events sees it. *)
Abbreviation event := (SagaAuditEventType.t * option nat)%type.

Section vocabulary.
Context `{E : Externs} {A : Type} `{!SagaRuntime A}.

Definition event_of (e : SagaAuditEntry.t) : event :=
  (SagaAuditEntry.event_type e, SagaAuditEntry.step_index e).

Definition events (o : InMemorySagaOrchestrator.t A) : list event :=
  event_of <$> SagaAuditTrail.get_all (audit_trail o).

(** What a run does not touch of the orchestrator. *)
Definition static (o : InMemorySagaOrchestrator.t A) := (config o, audit_consumers o).

(** The events of the executed steps from index [i] up to [j]. *)
Definition executed (i j : nat) : list event :=
  flat_map (fun k => [(SagaAuditEventType.StepStarted, Some k);
                      (SagaAuditEventType.StepCompleted, Some k)]) (seq i (j - i)).

(** The steps before index [n] that have a compensation. *)
Definition compensable (steps : list (SagaStep.t A)) (n : nat) : nat :=
  length (filter (fun st => SagaStep.has_compensation st = true) (take n steps)).

(** The words of the audit trail while the steps before index [n] are
    compensated, with the number of the completed compensations; a step is
    tried at most [tries] times. *)
Inductive compensation_trail (steps : list (SagaStep.t A)) (tries : nat) :
    nat -> list event -> nat -> Prop :=
  | ct_end : compensation_trail steps tries 0 [] 0
  | ct_skip i st w m :
      steps !! i = Some st -> SagaStep.has_compensation st = false ->
      compensation_trail steps tries i w m -> compensation_trail steps tries (S i) w m
  | ct_completed i st k w m :
      steps !! i = Some st -> SagaStep.has_compensation st = true -> (k < tries)%nat ->
      compensation_trail steps tries i w m ->
      compensation_trail steps tries (S i)
        ((SagaAuditEventType.CompensationStarted, Some i)
           :: replicate k (SagaAuditEventType.CompensationFailed, Some i)
           ++ (SagaAuditEventType.CompensationCompleted, Some i) :: w) (S m)
  | ct_failed i st k w m :
      steps !! i = Some st -> SagaStep.has_compensation st = true -> (k <= tries)%nat ->
      compensation_trail steps tries i w m ->
      compensation_trail steps tries (S i)
        ((SagaAuditEventType.CompensationStarted, Some i)
           :: replicate k (SagaAuditEventType.CompensationFailed, Some i) ++ w) m.

(** ** What a run reports *)

Definition failed_result (res : SagaExecutionResult.t) (i k : nat) : Prop :=
  SagaExecutionResult.state res = SagaState.Failed /\
  SagaExecutionResult.steps_executed res = Z.of_nat i /\
  SagaExecutionResult.compensations_executed res = Z.of_nat k.

(** The errors with which a run ends without compensation. *)
Definition stopping (e : DomainError.t) : Prop :=
  match e with
  | DomainError.SagaTimeout _ | DomainError.InfrastructureError _ => True
  | _ => False
  end.

(** The errors with which a run ends before its first step. *)
Definition rejecting (e : DomainError.t) : Prop :=
  match e with
  | DomainError.OrchestratorError _ | DomainError.InfrastructureError _ => True
  | _ => False
  end.

(** How the result of a run and the events after its start belong together, for
    a saga whose first step to execute is [cs]; the last argument is the number
    of executed steps of a compensated run, and how many compensations
    completed. *)
Inductive story (steps : list (SagaStep.t A)) (tries cs : nat) :
    result (exn DomainError.t) SagaExecutionResult.t -> list event -> option (nat * nat) -> Prop :=
  | story_completed res :
      SagaExecutionResult.state res = SagaState.Completed ->
      SagaExecutionResult.steps_executed res =
        as_u32 (Z.of_nat (Nat.max (length steps) cs)) ->
      story steps tries cs (Ok res)
        (executed cs (length steps) ++ [(SagaAuditEventType.Completed, None)]) None
  | story_failed res i w k :
      (cs <= i < length steps)%nat -> compensation_trail steps tries i w k ->
      failed_result res i k ->
      story steps tries cs (Ok res)
        (executed cs i ++ (SagaAuditEventType.StepStarted, Some i)
          :: (SagaAuditEventType.StepFailed, Some i) :: w ++ [(SagaAuditEventType.Failed, None)])
        (Some (i, k))
  | story_timed_out d i w k :
      (cs <= i < length steps)%nat -> compensation_trail steps tries i w k ->
      story steps tries cs (Err (Error (DomainError.SagaTimeout d)))
        (executed cs i ++ (SagaAuditEventType.StepStarted, Some i)
          :: w ++ [(SagaAuditEventType.TimedOut, None)]) (Some (i, k))
  | story_stopped e i :
      (cs <= i < length steps)%nat -> stopping e ->
      story steps tries cs (Err (Error e))
        (executed cs i ++ [(SagaAuditEventType.StepStarted, Some i)]) None
  | story_rejected e :
      rejecting e -> story steps tries cs (Err (Error e)) [] None
  | story_panicked w : story steps tries cs (Err Panicked) w None.

(** ** The contract of the steps of a saga *)

(** A step takes the position of the context at most past itself, so that no step
    after it is skipped; its compensation leaves the position alone. *)
Definition keeps_position (steps : list (SagaStep.t A)) : Prop :=
  forall i st, steps !! i = Some st -> forall tx c w,
    (forall limit, (SagaContext.current_step (fst (fst (SagaStep.execute st limit tx c w)))
       <= Nat.max (SagaContext.current_step c) (S i))%nat) /\
    SagaContext.current_step (fst (fst (SagaStep.compensate st tx c w)))
      = SagaContext.current_step c.

(** [app] is the state of the application in the world.  [ready i x y c] means
    that compensating step [i] with what the context [c] holds takes the
    application from [y] back to [x]; whatever later steps put into the context
    ([keeps]) leaves that so. *)
Record StepContract {S : Type} (app : A -> S) (keeps : relation SagaContext.t)
    (ready : nat -> S -> S -> SagaContext.t -> Prop) (steps : list (SagaStep.t A)) : Prop := {
  keeps_preorder : PreOrder keeps;
  keeps_set_error c m : keeps c (SagaContext.set_error m c);
  keeps_is_compensating c : keeps c (c <| SagaContext.is_compensating := true |>);
  ready_keeps i x y c c' : keeps c c' -> ready i x y c -> ready i x y c';
  (* a step that succeeds can be undone if it says so, one that does not has no effect *)
  execute_contract i st limit tx c w c' w' out :
    steps !! i = Some st -> SagaStep.execute st limit tx c w = (c', w', out) ->
    keeps c c' /\
    match out with
    | Ready (Ok _) =>
        if SagaStep.has_compensation st then ready i (app w) (app w') c' else app w' = app w
    | _ => app w' = app w
    end;
  compensate_contract i st tx c w c' w' out :
    steps !! i = Some st -> SagaStep.compensate st tx c w = (c', w', out) ->
    keeps c c' /\
    match out with
    | Some (Ok _) => forall x, ready i x (app w) c -> app w' = x
    | _ => app w' = app w
    end;
  contract_position : keeps_position steps;
}.

(** The clocks, identifiers, transactions and saga tables are no part of the
    application. *)
Record QuietRuntime {S : Type} (app : A -> S) : Prop := {
  quiet_instant w : app (fst (Instant_now w)) = app w;
  quiet_system_time w : app (fst (SystemTime_now w)) = app w;
  quiet_new_v4 w : app (fst (new_v4 w)) = app w;
  quiet_sleep d w : app (sleep d w) = app w;
  quiet_begin w : app (fst (begin_transaction w)) = app w;
  quiet_drop tx w : app (drop_transaction tx w) = app w;
  quiet_save c w : app (fst (save c w)) = app w;
  quiet_update_state i st e w : app (fst (update_state i st e w)) = app w;
}.

(** Compensating the steps before index [n] takes the application from [y] back
    to [x]. *)
Fixpoint undoes {S : Type} (ready : nat -> S -> S -> SagaContext.t -> Prop)
    (steps : list (SagaStep.t A)) (n : nat) (x y : S) (c : SagaContext.t) : Prop :=
  match n with
  | O => y = x
  | Datatypes.S i =>
      match steps !! i with
      | None => False
      | Some st =>
          exists z, (if SagaStep.has_compensation st then ready i z y c else y = z) /\
            undoes ready steps i x z c
      end
  end.

End vocabulary.

(** ** Reasoning about a run *)

Section run.
Context `{E : Externs} {A : Type} `{!SagaRuntime A} (powf : f64 -> f64 -> f64).
Context {S : Type} (app : A -> S) (keeps : relation SagaContext.t)
  (ready : nat -> S -> S -> SagaContext.t -> Prop) (steps : list (SagaStep.t A)).
Hypothesis contract : StepContract app keeps ready steps.
Hypothesis quiet : QuietRuntime app.

Definition consumers_quiet (o : InMemorySagaOrchestrator.t A) : Prop :=
  Forall (fun consume => forall e w, app (consume e w) = app w) (audit_consumers o).

Local Instance keeps_po : PreOrder keeps := keeps_preorder _ _ _ _ contract.

(** The position behind the last step that [es] names. *)
Definition reach (es : list event) : nat :=
  foldr (fun e n => match e.2 with Some i => Nat.max (Datatypes.S i) n | None => n end) 0%nat es.

(** What becomes of the position of the context while [es] is recorded. *)
Definition moved (es : list event) (p p' : nat) : Prop :=
  (reach es = 0%nat -> p' = p) /\ (p' <= Nat.max p (reach es))%nat.

Lemma reach_app es es' : reach (es ++ es') = Nat.max (reach es) (reach es').
Proof. induction es as [|[ty [i|]] es IH]; simpl; [done|rewrite IH; lia|done]. Qed.

Lemma moved_app es es' p p' p'' : moved es p p' -> moved es' p' p'' -> moved (es ++ es') p p''.
Proof. unfold moved. rewrite reach_app. lia. Qed.

Lemma moved_nil es p p' : moved es p p' -> moved [] p' p'.
Proof. unfold moved. simpl. lia. Qed.

(** The run went from [s0] to [s]: it recorded [es], and the application is in
    state [y]. *)
Record at_ (s0 : frame A) (es : list event) (y : S) (s : frame A) : Prop := {
  at_consumers : consumers_quiet (orch s0);
  at_events : events (orch s) = events (orch s0) ++ es;
  at_static : static (orch s) = static (orch s0);
  at_context : keeps (context s0) (context s);
  at_app : app (world (orch s)) = y;
  at_position : moved es (SagaContext.current_step (context s0)) (SagaContext.current_step (context s));
}.

Lemma at_start s : consumers_quiet (orch s) -> at_ s [] (app (world (orch s))) s.
Proof. intros Hc. split; [done|by rewrite app_nil_r|done|reflexivity|done|]. unfold moved. simpl. lia. Qed.

Lemma at_trans s0 es y s es' y' s' :
  at_ s0 es y s -> at_ s es' y' s' -> at_ s0 (es ++ es') y' s'.
Proof.
  intros [] []. split; try done.
  - rewrite app_assoc. congruence.
  - congruence.
  - by etransitivity.
  - by eapply moved_app.
Qed.

Lemma at_restart s0 es y s : at_ s0 es y s -> at_ s [] y s.
Proof.
  intros [Hc _ Hst _ Happ Hp]. split; [|by rewrite app_nil_r|done|reflexivity|done|by eapply moved_nil].
  unfold consumers_quiet in *. by injection Hst as _ ->.
Qed.

Lemma at_on_world s0 es y s f :
  app (f (world (orch s))) = app (world (orch s)) -> at_ s0 es y s ->
  at_ s0 es y (on_world f s).
Proof. intros Hf []. split; try done. simpl. congruence. Qed.

Lemma at_drop s0 es y s tx :
  at_ s0 es y s -> at_ s0 es y (on_world (drop_transaction tx) s).
Proof. apply at_on_world. apply quiet. Qed.

Lemma at_set_context s0 es y s f :
  keeps (context s) (f (context s)) ->
  SagaContext.current_step (f (context s)) = SagaContext.current_step (context s) -> at_ s0 es y s ->
  at_ s0 es y (s <| context := f (context s) |>).
Proof. intros Hf Hp []. split; try done; simpl; [by etransitivity|by rewrite Hp]. Qed.

Lemma wp_io {F X} (f : A -> A * X) s0 es y s (Q : result F X -> frame A -> Prop) :
  (forall w, app (fst (f w)) = app w) -> at_ s0 es y s ->
  (forall s' x, at_ s0 es y s' -> Q (Ok x) s') -> wp (io f) Q s.
Proof.
  intros Hf Hs HQ. unfold wp, io. specialize (Hf (world (orch s))).
  destruct (f (world (orch s))) as [w x]. apply HQ. by apply at_on_world.
Qed.

Lemma wp_act {F} (f : A -> A) s0 es y s (Q : result F unit -> frame A -> Prop) :
  (forall w, app (f w) = app w) -> at_ s0 es y s ->
  (forall s', at_ s0 es y s' -> Q (Ok tt) s') -> wp (act f) Q s.
Proof. intros Hf Hs HQ. apply HQ. by apply at_on_world. Qed.

Lemma wp_elapsed {F} start s0 es y s (Q : result F Duration -> frame A -> Prop) :
  at_ s0 es y s -> (forall s' d, at_ s0 es y s' -> Q (Ok d) s') -> wp (elapsed start) Q s.
Proof.
  intros Hs HQ. apply wp_bind. apply (wp_io _ s0 es y); [apply quiet|done|].
  intros s' now Hs'. by apply HQ.
Qed.

Lemma wp_audit_entry {F} id ty ev s0 es y s (Q : result F SagaAuditEntry.t -> frame A -> Prop) :
  at_ s0 es y s -> (forall s' e, at_ s0 es y s' ->
     SagaAuditEntry.event_type e = ev -> SagaAuditEntry.step_index e = None -> Q (Ok e) s') ->
  wp (audit_entry id ty ev) Q s.
Proof.
  intros Hs HQ. apply wp_bind. apply (wp_io _ s0 es y); [apply quiet|done|].
  intros s1 fresh H1. apply wp_bind. apply (wp_io _ s0 es y); [apply quiet|done|].
  intros s2 now H2. by apply HQ.
Qed.

Lemma quiet_dispatch consumers (e : SagaAuditEntry.t) w :
  Forall (fun consume => forall e w, app (consume e w) = app w) consumers ->
  app (fold_left (fun w consume => consume e w) consumers w) = app w.
Proof.
  intros Hc. revert w. induction Hc as [|consume cs H Hcs IH]; intros w; [done|].
  simpl. by rewrite IH.
Qed.

Lemma wp_record_audit {F} e s0 es y s (Q : result F unit -> frame A -> Prop) :
  at_ s0 es y s -> (forall s', at_ s0 (es ++ [event_of e]) y s' -> Q (Ok tt) s') ->
  wp (record_audit e) Q s.
Proof.
  intros [Hc He Hst Hx Ha Hp] HQ. apply wp_bind, wp_modify, wp_bind, wp_self, HQ.
  split; try done; simpl.
  - unfold events, SagaAuditTrail.record, SagaAuditTrail.get_all in *. simpl.
    rewrite fmap_app. rewrite He. by rewrite <- app_assoc.
  - rewrite quiet_dispatch; [done|].
    injection Hst as _ ->. exact Hc.
  - unfold moved in *. rewrite reach_app. lia.
Qed.

Lemma wp_update_state_ok {F} id st e s0 es y s (Q : result F unit -> frame A -> Prop) :
  at_ s0 es y s -> (forall s', at_ s0 es y s' -> Q (Ok tt) s') ->
  wp (update_state_ok id st e) Q s.
Proof.
  intros Hs HQ. apply wp_bind. apply (wp_io _ s0 es y); [apply quiet|done|].
  intros s' x Hs'. by apply HQ.
Qed.

Lemma wp_with_transaction {F X} (err : string -> F)
    (k : PgTransaction -> method (frame A) (exn F) X) s0 es y s Q :
  at_ s0 es y s ->
  (forall e s', at_ s0 es y s' -> Q (Err (Error (err e))) s') ->
  (forall tx s', at_ s0 es y s' ->
     wp (k tx) (fun r s'' => Q r (on_world (drop_transaction tx) s'')) s') ->
  wp (with_transaction err k) Q s.
Proof.
  intros Hs Herr Hk. apply wp_bind. apply (wp_io _ s0 es y); [apply quiet|done|].
  intros s1 begun H1. apply wp_bind, wp_or_error.
  - intros tx ->. apply wp_finally. by apply Hk.
  - intros e ->. by apply Herr.
Qed.

Lemma wp_set_context {F} f s0 es y s (Q : result F unit -> frame A -> Prop) :
  keeps (context s) (f (context s)) ->
  SagaContext.current_step (f (context s)) = SagaContext.current_step (context s) -> at_ s0 es y s ->
  (forall s', at_ s0 es y s' -> Q (Ok tt) s') ->
  wp (modify (fun s => s <| context := f (context s) |>)) Q s.
Proof. intros Hf Hp Hs HQ. by apply wp_modify, HQ, at_set_context. Qed.

(** The two ways the orchestrator itself changes the context. *)
Definition wp_set_error {F} m := @wp_set_context F (SagaContext.set_error m).
Definition wp_set_failed {F} m := @wp_set_context F (fun c =>
  (SagaContext.set_error m c) <| SagaContext.is_compensating := true |>).

Lemma keeps_failed c m :
  keeps c ((SagaContext.set_error m c) <| SagaContext.is_compensating := true |>).
Proof.
  etransitivity; [apply (keeps_set_error _ _ _ _ contract)|].
  apply (keeps_is_compensating _ _ _ _ contract).
Qed.

(** What a future does to the context and the application is its contract's
    business: [P] holds of its outcome. *)
Lemma wp_await {F X} (f : SagaContext.t -> A -> SagaContext.t * A * option X) s0 es y s Q
    (P : SagaContext.t -> S -> option X -> Prop) :
  at_ s0 es y s ->
  (forall c w c' w' out, keeps (context s0) c -> app w = y -> f c w = (c', w', out) ->
     keeps c c' /\ moved es (SagaContext.current_step c) (SagaContext.current_step c') /\ P c' (app w') out) ->
  (forall s' y' out, at_ s0 es y' s' -> P (context s') y' out ->
     Q match out with Some x => Ok x | None => Err (@Panicked F) end s') ->
  wp (await f) Q s.
Proof.
  intros [Hc He Hst Hx Ha Hp] Hf HQ. unfold wp, await.
  destruct (f (context s) (world (orch s))) as [[c' w'] out] eqn:Hrun.
  destruct (Hf _ _ _ _ _ Hx Ha Hrun) as (Hk & Hm & HP).
  apply (HQ _ (app w')); [|done]. split; try done; simpl; [by etransitivity|].
  unfold moved in *. lia.
Qed.

Ltac at_done := first [eassumption | apply at_drop; eassumption].

(** One statement of the orchestrator, by its rule. *)
Ltac at_step :=
  match goal with
  | |- wp (io _) _ _ => eapply wp_io; [apply quiet|at_done|intros ? ? ?]
  | |- wp (act _) _ _ => eapply wp_act; [apply quiet|at_done|intros ? ?]
  | |- wp (elapsed _) _ _ => eapply wp_elapsed; [at_done|intros ? ? ?]
  | |- wp (audit_entry _ _ _) _ _ => eapply wp_audit_entry; [at_done|intros ? ? ? ? ?]
  | |- wp (record_audit _) _ _ =>
      eapply wp_record_audit; [at_done|];
      let H := fresh in intros ? H; unfold event_of in H; simpl in H;
      repeat match goal with
        | He : SagaAuditEntry.event_type _ = _ |- _ => rewrite He in H; clear He
        | He : SagaAuditEntry.step_index _ = _ |- _ => try rewrite He in H; clear He
        end
  | |- wp (update_state_ok _ _ _) _ _ => eapply wp_update_state_ok; [at_done|intros ? ?]
  | |- wp (modify (fun s => set context (fun _ => SagaContext.set_error _ _) s)) _ _ =>
      eapply wp_set_error; [apply (keeps_set_error _ _ _ _ contract)|done|at_done|intros ? ?]
  | |- wp (modify (fun s => set context _ s)) _ _ =>
      eapply wp_set_failed; [apply keeps_failed|done|at_done|intros ? ?]
  | |- wp (with_transaction _ _) _ _ =>
      eapply wp_with_transaction; [at_done|intros ? ? ?|intros ? ? ?]
  | _ => wp_step
  end.
Ltac at_run := repeat (at_step; simpl).

(** *** Compensation *)

Definition tries (policy : RetryPolicy.t) : nat :=
  Z.to_nat (Z.max 1 (RetryPolicy.max_attempts policy)).

Lemma compensation_attempt_spec policy st name i ty id attempt s0 es y s :
  steps !! i = Some st -> at_ s0 es y s ->
  wp (compensation_attempt powf policy st name i ty id attempt) (fun r s' =>
    match r with
    | Ok (Return _) => exists y',
        at_ s0 (es ++ [(SagaAuditEventType.CompensationCompleted, Some i)]) y' s' /\
        (forall x, ready i x y (context s0) -> y' = x)
    | Ok (Continue _) => RetryPolicy.should_retry policy attempt = true /\
        at_ s0 (es ++ [(SagaAuditEventType.CompensationFailed, Some i)]) y s'
    | Err (Error _) => at_ s0 es y s' \/
        at_ s0 (es ++ [(SagaAuditEventType.CompensationFailed, Some i)]) y s'
    | Err Panicked => exists es', at_ s0 (es ++ es') y s'
    | Err Blocked | Err OutOfFuel => False
    end) s.
Proof.
  intros Hst Hs. unfold compensation_attempt. at_step. at_step; simpl. at_step; simpl.
  { by left. }
  at_step. eapply wp_await with
    (P := fun c' y' out => match out with
          | Some (Ok _) => forall x, ready i x y (context s0) -> y' = x
          | _ => y' = y end); [at_done| |].
  { intros c w c' w' out Hc <- Hrun.
    destruct (compensate_contract _ _ _ _ contract _ _ _ _ _ _ _ _ Hst Hrun) as [Hk Hout].
    destruct (contract_position _ _ _ _ contract i st Hst tx c w) as [_ Hp]. rewrite Hrun in Hp.
    split; [done|]. split; [unfold moved; simpl in Hp; lia|]. destruct out as [[]|]; try done.
    intros z Hz. apply Hout. by eapply ready_keeps. }
  intros s1 y' [[u|e]|] H1 Hy.
  - at_run. eexists. split; [by at_done|done].
  - subst y'. at_run. destruct (RetryPolicy.should_retry policy attempt) eqn:Hr; simpl.
    2: { at_step. right. by at_done. }
    destruct (RetryPolicy.delay_for_attempt powf policy attempt) as [delay|].
    + at_run. split; [done|]. by at_done.
    + at_step. eexists. by at_done.
  - subst y'. simpl. exists []. rewrite app_nil_r. by at_done.
Qed.

Lemma compensation_loop_spec policy st name i ty id fuel attempt s0 es y s :
  steps !! i = Some st -> at_ s0 es y s -> RetryPolicy.max_attempts policy < 2 ^ 32 ->
  0 <= attempt -> (Z.to_nat attempt < tries policy)%nat ->
  (tries policy <= Z.to_nat attempt + fuel)%nat ->
  wp (compensation_loop powf fuel policy st name i ty id attempt) (fun r s' =>
    exists k, (k + Z.to_nat attempt <= tries policy)%nat /\
    let failures := replicate k (SagaAuditEventType.CompensationFailed, Some i) in
    match r with
    | Ok _ => exists y', (k + Z.to_nat attempt < tries policy)%nat /\
        at_ s0 (es ++ failures ++ [(SagaAuditEventType.CompensationCompleted, Some i)]) y' s' /\
        (forall x, ready i x y (context s0) -> y' = x)
    | Err (Error _) => at_ s0 (es ++ failures) y s'
    | Err Panicked => exists es', at_ s0 (es ++ es') y s'
    | Err Blocked | Err OutOfFuel => False
    end) s.
Proof.
  intros Hst Hs Hmax. revert attempt es s Hs.
  induction fuel as [|fuel IH]; intros attempt es s Hs Ha Hlt Hfuel; [lia|].
  assert (u32_add attempt 1 = attempt + 1) as Hadd.
  { apply u32_add_small. unfold u32, tries in *. change (2 ^ 32) with 4294967296 in *. lia. }
  cbn [compensation_loop]. cbv zeta. rewrite Hadd. apply wp_bind.
  eapply wp_mono; [by eapply compensation_attempt_spec|]. cbv beta.
  intros [[[]|b]|[e| | |]] s1 H1; simpl in H1.
  - destruct H1 as [Hretry H1]. unfold RetryPolicy.should_retry in Hretry.
    eapply wp_mono; [apply (IH (attempt + 1) _ _ H1); unfold tries in *; lia|].
    intros r s2 (k & Hk & H2). exists (Datatypes.S k).
    split; [lia|]. simpl in *. destruct r as [b|[e| | |]]; try done.
    + destruct H2 as (y' & Hk' & H2 & Hy). exists y'. rewrite <- app_assoc in H2.
      split_and!; [lia|done|done].
    + by rewrite <- app_assoc in H2.
    + destruct H2 as [es' H2]. eexists. rewrite <- app_assoc in H2. exact H2.
  - destruct H1 as (y' & H1 & Hy). exists 0%nat. split; [lia|]. exists y'. by split_and!.
  - destruct H1 as [H1|H1]; [exists 0%nat|exists 1%nat]; (split; [lia|]); simpl; [|done].
    by rewrite app_nil_r.
  - exists 0%nat. by split; [lia|].
  - done.
  - done.
Qed.

Lemma undoes_keeps n x y c c' : keeps c c' -> undoes ready steps n x y c -> undoes ready steps n x y c'.
Proof.
  intros Hc. revert y. induction n as [|i IH]; intros y; simpl; [done|].
  destruct (steps !! i) as [st|]; [|done]. intros (z & Hz & Hn). exists z. split; [|by apply IH].
  destruct (SagaStep.has_compensation st); [|done]. by eapply ready_keeps.
Qed.

Lemma compensable_S n st :
  steps !! n = Some st ->
  compensable steps (Datatypes.S n) =
    (compensable steps n + if SagaStep.has_compensation st then 1 else 0)%nat.
Proof.
  intros Hst. unfold compensable. rewrite (take_S_r _ _ st Hst), filter_app, length_app.
  f_equal. destruct (SagaStep.has_compensation st) eqn:Hc; by rewrite ?filter_cons_True, ?filter_cons_False by (rewrite Hc; done).
Qed.

Definition policy_of (s : frame A) : RetryPolicy.t :=
  SagaOrchestratorConfig.compensation_retry_policy (config (orch s)).

Lemma at_config s0 es y s : at_ s0 es y s -> config (orch s) = config (orch s0).
Proof. intros [_ _ Hst _ _ _]. by injection Hst. Qed.

Lemma compensation_with_retry_spec st name i ty id s0 es y s :
  steps !! i = Some st -> at_ s0 es y s -> RetryPolicy.max_attempts (policy_of s0) < 2 ^ 32 ->
  wp (execute_compensation_with_retry powf st name i ty id) (fun r s' =>
    exists k, (k <= tries (policy_of s0))%nat /\
    let trail := (SagaAuditEventType.CompensationStarted, Some i)
      :: replicate k (SagaAuditEventType.CompensationFailed, Some i) in
    match r with
    | Ok _ => exists y', (k < tries (policy_of s0))%nat /\
        at_ s0 (es ++ trail ++ [(SagaAuditEventType.CompensationCompleted, Some i)]) y' s' /\
        (forall x, ready i x y (context s0) -> y' = x)
    | Err (Error _) => at_ s0 (es ++ trail) y s'
    | Err Panicked => exists es', at_ s0 (es ++ es') y s'
    | Err Blocked | Err OutOfFuel => False
    end) s.
Proof.
  intros Hst Hs Hmax. unfold execute_compensation_with_retry. do 2 at_step.
  rewrite (at_config _ _ _ _ Hs). fold (policy_of s0). repeat at_step.
  eapply wp_mono; [eapply compensation_loop_spec; [done|eassumption|done|..]; unfold tries; lia|].
  intros r s2 (k & Hk & Hr). exists k. simpl in Hr. split; [lia|].
  destruct r as [b|[err| | |]]; try done.
  - destruct Hr as (y' & Hlt & Hat & Hy). rewrite <- app_assoc in Hat. exists y'. by split_and!; [lia| |].
  - by rewrite <- app_assoc in Hr.
  - destruct Hr as [es' Hr]. rewrite <- app_assoc in Hr. by eexists.
Qed.

Lemma compensate_from_spec n ty id m0 s0 es y s :
  (n <= length steps)%nat -> at_ s0 es y s ->
  RetryPolicy.max_attempts (policy_of s0) < 2 ^ 32 ->
  0 <= m0 -> m0 + Z.of_nat (compensable steps n) < 2 ^ 32 ->
  wp (compensate_from powf steps n ty id m0) (fun r s' =>
    match r with
    | Ok m => exists w k y', m = m0 + Z.of_nat k /\ at_ s0 (es ++ w) y' s' /\
        compensation_trail steps (tries (policy_of s0)) n w k /\ (k <= compensable steps n)%nat /\
        (k = compensable steps n -> forall x, undoes ready steps n x y (context s0) -> y' = x)
    | Err Panicked => exists es' y', at_ s0 (es ++ es') y' s'
    | Err _ => False
    end) s.
Proof.
  intros Hn Hs Hmax. revert m0 es y s Hs.
  induction n as [|i IH]; intros m0 es y s Hs Hm0 Hm.
  { apply wp_ret. exists [], 0%nat, y. rewrite app_nil_r.
    split_and!; [lia|done|constructor|done|by intros _ x]. }
  cbn [compensate_from]. destruct (lookup_lt_is_Some_2 steps i Hn) as [st Hst]. rewrite Hst.
  rewrite (compensable_S _ _ Hst) in *. destruct (SagaStep.has_compensation st) eqn:Hcomp.
  2: { eapply wp_mono; [apply (IH ltac:(lia) m0 es y s Hs Hm0); lia|].
    intros [m|[e| | |]] s'; try done. intros (w & k & y' & Hk & Hat & Htrail & Hle & Hundo).
    exists w, k, y'. split_and!; [done|done|by econstructor|lia|].
    intros Heq x Hx. apply Hundo; [lia|]. simpl in Hx. rewrite Hst, Hcomp in Hx.
    by destruct Hx as (z & -> & Hx). }
  at_step. at_step.
  eapply wp_mono; [by eapply (compensation_with_retry_spec _ _ _ _ _ _ _ _ _ Hst Hs)|].
  intros [b|[e| | |]] s1 (k & Hk & H1); [| | |done|done].
  - destruct H1 as (y1 & Hlt & H1 & Hy1). simpl is_ok. cbv iota.
    rewrite u32_add_small by (unfold u32; change (2 ^ 32) with 4294967296 in *; lia).
    eapply wp_mono; [apply (IH ltac:(lia) (m0 + 1) _ _ s1 H1); lia|].
    intros [m|[e| | |]] s'; try done.
    + intros (w & j & y' & -> & Hat & Htrail & Hle & Hundo).
      eexists _, (Datatypes.S j), y'. rewrite <- app_assoc in Hat.
      split_and!; [lia|exact Hat| |lia|].
      * simpl. rewrite <- app_assoc. by eapply ct_completed.
      * intros Heq x Hx. simpl in Hx. rewrite Hst, Hcomp in Hx. destruct Hx as (z & Hz & Hx).
        apply Hundo; [lia|]. by rewrite (Hy1 z Hz).
    + intros (es' & y' & Hat). rewrite <- app_assoc in Hat. by eexists _, _.
  - simpl is_ok. cbv iota. eapply wp_mono; [apply (IH ltac:(lia) m0 _ _ s1 H1); lia|].
    intros [m|[e'| | |]] s'; try done.
    + intros (w & j & y' & -> & Hat & Htrail & Hle & Hundo).
      eexists _, j, y'. rewrite <- app_assoc in Hat.
      split_and!; [lia|exact Hat|by eapply ct_failed|lia|lia].
    + intros (es' & y' & Hat). rewrite <- app_assoc in Hat. by eexists _, _.
  - destruct H1 as [es' H1]. by eexists _, _.
Qed.

(** *** Steps *)

Context (saga : Saga.t A).
Hypothesis saga_steps : Saga.steps saga = steps.
Hypothesis few_steps : Z.of_nat (length steps) < 2 ^ 32.

Lemma compensable_le n : (compensable steps n <= length steps)%nat.
Proof.
  unfold compensable. etransitivity; [apply length_filter|]. rewrite length_take. lia.
Qed.

(** The compensation of the first [n] steps from frame [s] on, [w] being its
    part of the trail and [k] the number of compensations that completed. *)
Definition compensated (s : frame A) (n : nat) (w : list event) (k : nat) (y' : S) : Prop :=
  compensation_trail steps (tries (policy_of s)) n w k /\
  (k = compensable steps n ->
     forall x, undoes ready steps n x (app (world (orch s))) (context s) -> y' = x).

Lemma execute_compensation_spec n ty id s0 es s :
  (n <= length steps)%nat -> at_ s0 es (app (world (orch s0))) s ->
  RetryPolicy.max_attempts (policy_of s0) < 2 ^ 32 ->
  wp (execute_compensation powf steps n ty id) (fun r s' =>
    match r with
    | Ok m => exists w k y', m = Z.of_nat k /\ (k <= length steps)%nat /\
        at_ s0 (es ++ w) y' s' /\ compensated s0 n w k y'
    | Err Panicked => exists es' y', at_ s0 es' y' s'
    | Err _ => False
    end) s.
Proof.
  intros Hn Hs Hmax. pose proof (compensable_le n).
  eapply wp_mono; [apply (compensate_from_spec n ty id 0 s0 es _ s Hn Hs Hmax); lia|].
  intros [m|[e| | |]] s'; try done.
  - intros (w & k & y' & -> & Hat & Htrail & Hle & Hundo).
    exists w, k, y'. split_and!; [lia|lia|done|split; [done|]]. by intros Hk x; apply Hundo.
  - intros (es' & y' & Hat). by eexists _, _.
Qed.

Lemma step_failed_spec id start st i e s0 s :
  (i <= length steps)%nat -> at_ s0 [(SagaAuditEventType.StepStarted, Some i)] (app (world (orch s0))) s ->
  RetryPolicy.max_attempts (policy_of s0) < 2 ^ 32 ->
  wp (step_failed powf saga id start st i i e) (fun r s' =>
    match r with
    | Ok res => exists w k y', failed_result res i k /\ compensated s0 i w k y' /\
        at_ s0 ((SagaAuditEventType.StepStarted, Some i) :: (SagaAuditEventType.StepFailed, Some i)
          :: w ++ [(SagaAuditEventType.Failed, None)]) y' s'
    | Err Panicked => exists es' y', at_ s0 es' y' s'
    | Err _ => False
    end) s.
Proof.
  intros Hi Hs Hmax. unfold step_failed. rewrite saga_steps. repeat at_step.
  eapply wp_mono; [eapply execute_compensation_spec; done|].
  intros [m|[err| | |]] s1; try done. intros (w & k & y' & -> & Hk & Hat & Hcomp). repeat at_step.
  exists w, k, y'. split_and!; [|done|].
  - split_and!; [done| |done]. simpl. apply wrap_small. lia.
  - by at_done.
Qed.

Lemma step_timed_out_spec id i s0 s :
  (i <= length steps)%nat ->
  at_ s0 [(SagaAuditEventType.StepStarted, Some i)] (app (world (orch s0))) s ->
  RetryPolicy.max_attempts (policy_of s0) < 2 ^ 32 ->
  wp (step_timed_out powf saga id i) (fun r s' =>
    match r with
    | Err (Error (DomainError.SagaTimeout _)) => exists w k y', compensated s0 i w k y' /\
        at_ s0 ((SagaAuditEventType.StepStarted, Some i)
          :: w ++ [(SagaAuditEventType.TimedOut, None)]) y' s'
    | Err Panicked => exists es' y', at_ s0 es' y' s'
    | _ => False
    end) s.
Proof.
  intros Hi Hs Hmax. unfold step_timed_out. rewrite saga_steps. repeat at_step.
  eapply wp_mono; [eapply execute_compensation_spec; done|].
  intros [m|[err| | |]] s1; try done. intros (w & k & y' & -> & Hk & Hat & Hcomp). repeat at_step.
  exists w, k, y'. split; [done|]. by at_done.
Qed.

Lemma check_saga_timeout_spec id start limit s0 es y s :
  at_ s0 es y s ->
  wp (check_saga_timeout id start limit) (fun r s' =>
    at_ s0 es y s' /\
    match r with Ok _ => True | Err (Error e) => stopping e | Err _ => False end) s.
Proof.
  intros Hs. unfold check_saga_timeout. repeat at_step.
  match goal with |- context [if ?b then _ else _] => destruct b end; repeat at_step; by split.
Qed.

(** What one step of the loop does, from frame [s] on. *)
Definition step_story (st : SagaStep.t A) (i : nat) (s : frame A)
    (r : result (exn DomainError.t) (flow nat SagaExecutionResult.t)) (s' : frame A) : Prop :=
  match r with
  | Ok (Continue n) => n = Datatypes.S i /\ exists y',
      at_ s [(SagaAuditEventType.StepStarted, Some i);
             (SagaAuditEventType.StepCompleted, Some i)] y' s' /\
      if SagaStep.has_compensation st then ready i (app (world (orch s))) y' (context s')
      else y' = app (world (orch s))
  | Ok (Return res) => exists w k y', failed_result res i k /\ compensated s i w k y' /\
      at_ s ((SagaAuditEventType.StepStarted, Some i) :: (SagaAuditEventType.StepFailed, Some i)
        :: w ++ [(SagaAuditEventType.Failed, None)]) y' s'
  | Err (Error e) =>
      stopping e /\ at_ s [(SagaAuditEventType.StepStarted, Some i)] (app (world (orch s))) s' \/
      (exists d, e = DomainError.SagaTimeout d) /\ exists w k y', compensated s i w k y' /\
        at_ s ((SagaAuditEventType.StepStarted, Some i)
          :: w ++ [(SagaAuditEventType.TimedOut, None)]) y' s'
  | Err Panicked => exists es' y', at_ s es' y' s'
  | Err Blocked | Err OutOfFuel => False
  end.

Lemma run_step_spec id start limit step_limit st i s :
  steps !! i = Some st -> consumers_quiet (orch s) ->
  RetryPolicy.max_attempts (policy_of s) < 2 ^ 32 ->
  wp (run_step powf saga id start limit step_limit st i i) (step_story st i s) s.
Proof.
  intros Hst Hq Hmax. pose proof (lookup_lt_Some _ _ _ Hst) as Hi.
  pose proof (at_start s Hq) as Hs. unfold run_step. repeat at_step.
  eapply wp_mono; [by eapply check_saga_timeout_spec|].
  intros [u|[err| | |]] s1 [H1 Hstop]; simpl in H1; try done; [|by left].
  at_step; simpl; [by left|]. at_step. unfold await_timeout. eapply wp_await with
    (P := fun c' y' out => match out with
          | Some (Some (Ok _)) =>
              if SagaStep.has_compensation st then ready i (app (world (orch s))) y' c'
              else y' = app (world (orch s))
          | _ => y' = app (world (orch s)) end); [at_done| |].
  { intros c w c' w' out Hc Hw Hrun.
    destruct (SagaStep.execute st step_limit tx c w) as [[c1 w1] out1] eqn:Hex.
    injection Hrun as <- <- <-. rewrite <- Hw.
    destruct (execute_contract _ _ _ _ contract _ _ _ _ _ _ _ _ _ Hst Hex) as [Hk Hout].
    destruct (contract_position _ _ _ _ contract i st Hst tx c w) as [Hp _]. specialize (Hp step_limit).
    rewrite Hex in Hp. split; [done|]. split; [unfold moved; simpl in *; lia|]. by destruct out1 as [[]| |]. }
  intros s3 y' [[[u'|err]|]|] Hrun Hy; simpl.
  - pose proof (at_restart _ _ _ _ Hrun) as Hrun'. repeat at_step; simpl. split; [lia|].
    exists y'. eassert (at_ s3 _ y' _) as Hend by at_done.
    split; [by apply at_drop, (at_trans _ _ _ _ _ _ _ Hrun Hend)|].
    destruct (SagaStep.has_compensation st); [|done].
    by eapply ready_keeps; [|apply Hend|].
  - subst y'. at_step. eapply wp_mono; [by eapply step_failed_spec; [lia| |]|].
    intros [res|[err'| | |]] s4; try done; simpl.
    + intros (w & k & y' & Hres & Hcomp & Hat). exists w, k, y'. split_and!; try done. by at_done.
    + intros (es' & y' & Hat). exists es', y'. by at_done.
  - subst y'. at_step. eapply wp_mono; [by eapply step_timed_out_spec; [lia| |]|].
    intros [res|[err'| | |]] s4; try done; simpl.
    + destruct err'; try done. intros (w & k & y' & Hcomp & Hat). right. split; [by eexists|].
      exists w, k, y'. split; [done|]. by at_done.
    + intros (es' & y' & Hat). exists es', y'. by at_done.
  - subst y'. eexists _, _. by at_done.
Qed.

(** *** The loop over the steps *)

Definition first_step (s : frame A) : nat := SagaContext.current_step (context s).

(** Like [compensated], but back to where the run began, frame [s0]. *)
Definition rolled_back (s0 : frame A) (i : nat) (w : list event) (k : nat) (y' : S) : Prop :=
  compensation_trail steps (tries (policy_of s0)) i w k /\
  (k = compensable steps i -> forall x,
     undoes ready steps (first_step s0) x (app (world (orch s0))) (context s0) -> y' = x).

Definition loop_story (s0 : frame A)
    (r : result (exn DomainError.t) (flow nat SagaExecutionResult.t)) (s' : frame A) : Prop :=
  let cs := first_step s0 in
  match r with
  | Ok (Continue n) => n = Nat.max (length steps) cs /\ exists y',
      at_ s0 (executed cs (length steps)) y' s'
  | Ok (Return res) => exists i w k y', (cs <= i < length steps)%nat /\
      failed_result res i k /\ rolled_back s0 i w k y' /\
      at_ s0 (executed cs i ++ (SagaAuditEventType.StepStarted, Some i)
        :: (SagaAuditEventType.StepFailed, Some i) :: w ++ [(SagaAuditEventType.Failed, None)]) y' s'
  | Err (Error e) => exists i y', (cs <= i < length steps)%nat /\
      (stopping e /\
         at_ s0 (executed cs i ++ [(SagaAuditEventType.StepStarted, Some i)]) y' s' \/
       (exists d, e = DomainError.SagaTimeout d) /\ exists w k, rolled_back s0 i w k y' /\
         at_ s0 (executed cs i ++ (SagaAuditEventType.StepStarted, Some i)
           :: w ++ [(SagaAuditEventType.TimedOut, None)]) y' s')
  | Err Panicked => exists es' y', at_ s0 es' y' s'
  | Err Blocked | Err OutOfFuel => False
  end.

Lemma executed_S i j :
  (i <= j)%nat ->
  executed i (Datatypes.S j) = executed i j ++
    [(SagaAuditEventType.StepStarted, Some j); (SagaAuditEventType.StepCompleted, Some j)].
Proof.
  intros Hij. unfold executed. replace (Datatypes.S j - i)%nat with (j - i + 1)%nat by lia.
  rewrite seq_app, flat_map_app. replace (i + (j - i))%nat with j by lia. done.
Qed.

Lemma executed_empty i j : (j <= i)%nat -> executed i j = [].
Proof. intros Hij. unfold executed. by replace (j - i)%nat with 0%nat by lia. Qed.

Lemma reach_executed i j : (reach (executed i j) <= j)%nat /\ ((j <= i)%nat -> reach (executed i j) = 0%nat).
Proof.
  split; [|intros Hij; by rewrite executed_empty by done].
  induction j as [|j IH]; [unfold executed; simpl; lia|].
  destruct (decide (i <= j)%nat); [|rewrite executed_empty by lia; simpl; lia].
  rewrite executed_S, reach_app by done. simpl. lia.
Qed.

(** Whether the step [i] is skipped depends on the position at the start alone. *)
Lemma skipped_as_at_start s0 i y s :
  at_ s0 (executed (first_step s0) i) y s ->
  (i <? SagaContext.current_step (context s))%nat = (i <? first_step s0)%nat.
Proof.
  intros [_ _ _ _ _ [Heq Hle]]. destruct (reach_executed (first_step s0) i) as [Hr H0].
  unfold first_step in *. destruct (Nat.ltb_spec i (SagaContext.current_step (context s0))).
  - rewrite Heq; [|apply H0; lia]. by apply Nat.ltb_lt.
  - apply Nat.ltb_ge. lia.
Qed.

Lemma rolled_back_compensated s0 es y s i w k y' :
  at_ s0 es y s -> compensated s i w k y' ->
  (forall x, undoes ready steps (first_step s0) x (app (world (orch s0))) (context s0) ->
     undoes ready steps i x y (context s)) ->
  rolled_back s0 i w k y'.
Proof.
  intros Hs [Htrail Hundo] Hinv. unfold policy_of in *. rewrite (at_config _ _ _ _ Hs) in Htrail.
  split; [done|]. intros Hk x Hx.
  apply (Hundo Hk). rewrite (at_app _ _ _ _ Hs). by apply Hinv.
Qed.

Lemma undoes_S i st x y z c :
  steps !! i = Some st ->
  (if SagaStep.has_compensation st then ready i y z c else z = y) ->
  undoes ready steps i x y c -> undoes ready steps (Datatypes.S i) x z c.
Proof. intros Hst Hready Hx. simpl. rewrite Hst. exists y. split; [|done]. done. Qed.

Lemma run_steps_spec id start limit step_limit todo i s0 y s :
  drop i steps = todo -> (i <= length steps)%nat ->
  at_ s0 (executed (first_step s0) i) y s ->
  RetryPolicy.max_attempts (policy_of s0) < 2 ^ 32 ->
  (forall x, undoes ready steps (first_step s0) x (app (world (orch s0))) (context s0) ->
     undoes ready steps (Nat.max i (first_step s0)) x y (context s)) ->
  wp (run_steps powf saga id start limit step_limit todo i (Nat.max i (first_step s0)))
    (loop_story s0) s.
Proof.
  revert i y s. induction todo as [|st todo IH]; intros i y s Htodo Hi Hs Hmax Hinv.
  { apply wp_ret. simpl. assert (i = length steps) as ->.
    { apply (f_equal length) in Htodo. rewrite length_drop in Htodo. simpl in Htodo. lia. }
    split; [done|]. by exists y. }
  assert (steps !! i = Some st) as Hst.
  { rewrite <- (Nat.add_0_r i), <- lookup_drop. by rewrite Htodo. }
  apply lookup_lt_Some in Hst as Hlt.
  assert (drop (Datatypes.S i) steps = todo) as Htodo'.
  { replace (Datatypes.S i) with (i + 1)%nat by lia. rewrite <- drop_drop. by rewrite Htodo. }
  cbn [run_steps]. do 2 at_step.
  rewrite (skipped_as_at_start _ _ _ _ Hs).
  destruct (Nat.ltb_spec i (first_step s0)) as [Hskip|Hrun].
  { replace (Nat.max i (first_step s0)) with (Nat.max (Datatypes.S i) (first_step s0)) in * by lia.
    rewrite executed_empty in Hs by lia.
    apply (IH _ y); [done|lia| |done|done]. by rewrite executed_empty by lia. }
  replace (Nat.max i (first_step s0)) with i in * by lia.
  at_step. pose proof (at_restart _ _ _ _ Hs) as Hhere.
  eapply wp_mono; [apply run_step_spec; [done|apply Hhere|]|].
  { unfold policy_of. by rewrite (at_config _ _ _ _ Hs). }
  intros [[n|res]|[e| | |]] s1; [| | | |done|done]; simpl.
  - intros (-> & y1 & Hat & Hready). pose proof (at_trans _ _ _ _ _ _ _ Hs Hat) as Hs1.
    rewrite <- executed_S in Hs1 by lia.
    replace (Datatypes.S i) with (Nat.max (Datatypes.S i) (first_step s0)) at 2 by lia.
    apply (IH _ y1); [done|lia|done|done|]. intros x Hx. apply Hinv in Hx.
    replace (Nat.max (Datatypes.S i) (first_step s0)) with (Datatypes.S i) by lia.
    rewrite (at_app _ _ _ _ Hs) in Hready. eapply undoes_S; [done|exact Hready|].
    eapply undoes_keeps; [apply Hat|done].
  - intros (w & k & y' & Hres & Hcomp & Hat). exists i, w, k, y'.
    split_and!; [done|done|done| |by eapply at_trans]. by eapply rolled_back_compensated.
  - intros [[Hstop Hat]|(d & w & k & y' & Hcomp & Hat)].
    + exists i, (app (world (orch s))). split; [lia|]. left. split; [done|by eapply at_trans].
    + exists i, y'. split; [lia|]. right. split; [done|]. exists w, k.
      split; [by eapply rolled_back_compensated|by eapply at_trans].
  - intros (es' & y' & Hat). eexists _, _. by eapply at_trans.
Qed.

(** *** The whole run *)

Lemma wp_orchestrator {F} f s0 es y s (Q : result F unit -> frame A -> Prop) :
  (forall o, static (f o) = static o /\ world (f o) = world o /\ audit_trail (f o) = audit_trail o) ->
  at_ s0 es y s -> (forall s', at_ s0 es y s' -> Q (Ok tt) s') ->
  wp (modify (fun s => s <| orch := f (orch s) |>)) Q s.
Proof.
  intros Hf [] HQ. destruct (Hf (orch s)) as (Hst & Hw & Ht). apply wp_modify, HQ.
  split; simpl; try congruence. unfold events in *. simpl. by rewrite Ht.
Qed.

Lemma check_rate_limit_spec s0 es y s :
  at_ s0 es y s ->
  wp check_rate_limit (fun r s' => at_ s0 es y s' /\
    match r with Ok _ => True | Err (Error e) => rejecting e | Err _ => False end) s.
Proof.
  intros Hs. unfold check_rate_limit. do 2 at_step.
  destruct (rate_limiter (orch s)) as [l|]; [|by at_step].
  repeat at_step. destruct (RateLimiter.try_acquire x l) as [l1 acquired].
  at_step. eapply (wp_orchestrator (fun o => o <| rate_limiter := Some l1 |>)); [done|at_done|].
  intros s1 H1. destruct acquired; [by at_step|].
  repeat at_step. destruct (RateLimiter.remaining x0 l1) as [l2 remaining].
  at_step. eapply (wp_orchestrator (fun o => o <| rate_limiter := Some l2 |>)); [done|at_done|].
  intros s2 H2'. by at_step.
Qed.

Lemma acquire_permit_spec s0 es y s :
  at_ s0 es y s ->
  wp acquire_permit (fun r s' => at_ s0 es y s' /\
    match r with Ok _ => True | Err (Error e) => rejecting e | Err _ => False end) s.
Proof.
  intros Hs. unfold acquire_permit. do 2 at_step.
  destruct (0 <? concurrency_semaphore (orch s)); [|by at_step].
  eapply (wp_orchestrator (fun o => o <| concurrency_semaphore := concurrency_semaphore o - 1 |>));
    [done|at_done|done].
Qed.

Definition run_story (s0 : frame A) (r : result (exn DomainError.t) SagaExecutionResult.t)
    (s' : frame A) : Prop :=
  exists w undone y', at_ s0 w y' s' /\
    story steps (tries (policy_of s0)) (first_step s0) r w undone /\
    forall i k, undone = Some (i, k) -> k = compensable steps i -> forall x,
      undoes ready steps (first_step s0) x (app (world (orch s0))) (context s0) -> y' = x.

Lemma guarded_run_spec id start s :
  consumers_quiet (orch s) -> RetryPolicy.max_attempts (policy_of s) < 2 ^ 32 ->
  wp (guarded_run powf saga id start) (run_story s) s.
Proof.
  intros Hq Hmax. pose proof (at_start s Hq) as Hs. unfold guarded_run. rewrite saga_steps.
  repeat at_step.
  2: { exists [], None, (app (world (orch s))). split_and!; [done|by apply story_rejected|done]. }
  eapply wp_mono.
  - assert (first_step s' = first_step s) as Hfirst
      by (by apply (at_position _ _ _ _ H)).
    change (SagaContext.current_step (context s')) with (first_step s'). rewrite Hfirst.
    rewrite <- (Nat.max_0_l (first_step s)).
    apply (run_steps_spec _ _ _ _ _ 0 s (app (world (orch s)))); [done|lia| |done|].
    + by rewrite executed_empty by lia.
    + intros x0 Hx. rewrite Nat.max_0_l. eapply undoes_keeps; [apply H|done].
  - intros [[n|res]|[e| | |]] s1; [| | | |done|done]; cbn [loop_story].
    + intros (-> & y' & Hat). repeat at_step. eexists _, None, y'.
      split_and!; [at_done|by apply story_completed|done].
    + intros (i & w & k & y' & Hi & Hres & [Htrail Hundo] & Hat).
      eexists _, (Some (i, k)), y'. split_and!; [at_done|by apply story_failed|].
      intros i' k' [= <- <-]. done.
    + intros (i & y' & Hi & [[Hstop Hat]|([d ->] & w & k & [Htrail Hundo] & Hat)]).
      * eexists _, None, y'. split_and!; [at_done|by apply story_stopped|done].
      * eexists _, (Some (i, k)), y'. split_and!; [at_done|by apply story_timed_out|].
        intros i' k' [= <- <-]. done.
    + intros (es' & y' & Hat). exists es', None, y'. split_and!; [done|constructor|done].
Qed.

Lemma execute_saga_spec c o :
  consumers_quiet o ->
  RetryPolicy.max_attempts (SagaOrchestratorConfig.compensation_retry_policy (config o)) < 2 ^ 32 ->
  let '(o', r) := execute_saga powf saga c o in
  exists w undone,
    events o' = events o ++ (SagaAuditEventType.Started, None) :: w /\
    story steps (tries (SagaOrchestratorConfig.compensation_retry_policy (config o)))
      (SagaContext.current_step c) r w undone /\
    forall i k, undone = Some (i, k) -> k = compensable steps i -> forall x,
      undoes ready steps (SagaContext.current_step c) x (app (world o)) c -> app (world o') = x.
Proof.
  intros Hq Hmax. set (s0 := mk_frame o c). pose proof (at_start s0 Hq) as Hs.
  assert (wp (run powf saga) (fun r s' => exists w undone y',
    at_ s0 ((SagaAuditEventType.Started, None) :: w) y' s' /\
    story steps (tries (policy_of s0)) (first_step s0) r w undone /\
    forall i k, undone = Some (i, k) -> k = compensable steps i -> forall x,
      undoes ready steps (first_step s0) x (app (world (orch s0))) (context s0) -> y' = x) s0)
    as Hrun.
  2: { unfold execute_saga, wp in *. fold s0. destruct (run powf saga s0) as [s' r].
    destruct Hrun as (w & undone & y' & Hat & Hstory & Hundo).
    exists w, undone. split_and!; [apply Hat|done|]. intros i k Hu Hk x Hx.
    rewrite (at_app _ _ _ _ Hat). by eapply Hundo. }
  unfold run. repeat at_step.
  eapply wp_mono; [eapply check_rate_limit_spec; at_done|].
  intros [u|[e'| | |]] s1 [Hlimit Hrej]; try done; [|eexists [], None, _; split_and!;
    [done|by apply story_rejected|done]]. at_step.
  eapply wp_mono; [eapply acquire_permit_spec; at_done|].
  intros [u'|[e'| | |]] s2 [Hpermit Hrej']; try done; [|eexists [], None, _; split_and!;
    [done|by apply story_rejected|done]]. at_step.
  eapply (wp_orchestrator (fun o => o <| active_sagas := u64_add (active_sagas o) 1 |>));
    [done|at_done|]. intros s3 Hbegun. at_step.
  pose proof (at_restart _ _ _ _ Hbegun) as Hhere. pose proof (at_config _ _ _ _ Hbegun) as Hconfig.
  pose proof (proj1 (at_position _ _ _ _ Hbegun) eq_refl) as Hfirst.
  eapply wp_mono; [apply guarded_run_spec; [apply Hhere|unfold policy_of; by rewrite Hconfig]|].
  intros r s5 (w & undone & y' & Hat & Hstory & Hundo). exists w, undone, y'.
  pose proof (at_trans _ _ _ _ _ _ _ Hbegun Hat) as [Hq' Hev Hst Hctx Happ Hpos].
  unfold policy_of, first_step in *. rewrite Hconfig, Hfirst in *. split_and!; [|done|].
  - by split.
  - intros i k Hu Hk x0 Hx. apply (Hundo i k Hu Hk). rewrite (at_app _ _ _ _ Hbegun).
    eapply undoes_keeps; [apply Hbegun|done].
Qed.

End run.
Section held.
Context `{E : Externs} {A : Type} `{!SagaRuntime A} (powf : f64 -> f64 -> f64).
Context (open_transactions : A -> Z).

(** The runtime opens transactions in [begin_transaction] and closes them in
    [drop_transaction] only. *)
Record CountsTransactions (saga : Saga.t A) : Prop := {
  counts_begin w : open_transactions (fst (begin_transaction w)) =
    open_transactions w + (if is_ok (snd (begin_transaction w)) then 1 else 0);
  counts_drop tx w : open_transactions (drop_transaction tx w) = open_transactions w - 1;
  counts_instant w : open_transactions (fst (Instant_now w)) = open_transactions w;
  counts_system_time w : open_transactions (fst (SystemTime_now w)) = open_transactions w;
  counts_new_v4 w : open_transactions (fst (new_v4 w)) = open_transactions w;
  counts_sleep d w : open_transactions (sleep d w) = open_transactions w;
  counts_save c w : open_transactions (fst (save c w)) = open_transactions w;
  counts_update_state i st e w :
    open_transactions (fst (update_state i st e w)) = open_transactions w;
  counts_execute st limit tx c w : st ∈ Saga.steps saga ->
    open_transactions (snd (fst (SagaStep.execute st limit tx c w))) = open_transactions w;
  counts_compensate st tx c w : st ∈ Saga.steps saga ->
    open_transactions (snd (fst (SagaStep.compensate st tx c w))) = open_transactions w;
}.

Context (saga : Saga.t A).
Hypothesis counts : CountsTransactions saga.

Definition accountable (o : InMemorySagaOrchestrator.t A) : Prop :=
  u64 (active_sagas o) /\
  Forall (fun consume => forall e w, open_transactions (consume e w) = open_transactions w)
    (audit_consumers o).

(** What a run holds: its place among the active sagas, a permit, a transaction. *)
Definition held (s : frame A) : Z * Z * Z :=
  (active_sagas (orch s), concurrency_semaphore (orch s), open_transactions (world (orch s))).

Abbreviation holds := (preserves (fun s => accountable (orch s)) held).

Lemma holds_io {F X} (f : A -> A * X) :
  (forall w, open_transactions (fst (f w)) = open_transactions w) ->
  holds (io f : method _ F X).
Proof.
  intros Hf s Hs. unfold after, io. specialize (Hf (world (orch s))).
  destruct (f (world (orch s))) as [w x]. split; [done|]. unfold held. simpl in *. congruence.
Qed.

Lemma holds_act {F} (f : A -> A) :
  (forall w, open_transactions (f w) = open_transactions w) ->
  holds (act f : method _ F unit).
Proof. intros Hf s Hs. split; [done|]. unfold held. simpl. by rewrite Hf. Qed.

Lemma holds_await {F X} (f : SagaContext.t -> A -> SagaContext.t * A * option X) :
  (forall c w, open_transactions (snd (fst (f c w))) = open_transactions w) ->
  holds (await f : method _ (exn F) X).
Proof.
  intros Hf s Hs. unfold after, await. specialize (Hf (context s) (world (orch s))).
  destruct (f (context s) (world (orch s))) as [[c w] out]. split; [done|].
  unfold held. simpl in *. congruence.
Qed.

Lemma holds_record_audit {F} e : holds (record_audit e : method _ F unit).
Proof.
  intros s Hs. split; [done|]. unfold held. simpl. f_equal.
  destruct Hs as [_ Hs]. revert Hs. generalize (audit_consumers (orch s)) (world (orch s)).
  intros consumers w Hc. revert w. induction Hc as [|consume cs H Hcs IH]; intros w; [done|].
  simpl. etransitivity; [apply IH|apply H].
Qed.

Lemma holds_with_transaction {F X} (err : string -> F)
    (k : PgTransaction -> method (frame A) (exn F) X) :
  (forall tx, holds (k tx)) -> holds (with_transaction err k).
Proof.
  intros Hk s Hs. unfold after, with_transaction, io, mbind, method_bind.
  pose proof (counts_begin _ counts (world (orch s))) as Hb.
  destruct (begin_transaction (world (orch s))) as [w [tx|e]]; simpl in *.
  - destruct (Hk tx (on_world (fun _ => w) s) Hs) as [HI Hf].
    unfold finally, after in *. destruct (k tx (on_world (fun _ => w) s)) as [s' r].
    simpl in *. split; [done|]. unfold held in *. simpl in *.
    rewrite (counts_drop _ counts). injection Hf as -> -> ->. rewrite Hb.
    f_equal. lia.
  - split; [done|]. unfold held. simpl. f_equal. lia.
Qed.

Lemma holds_context {F} f : holds (modify (fun s => s <| context := f s |>) : method _ F unit).
Proof. by apply preserves_modify. Qed.

Create HintDb holds discriminated.
Hint Resolve holds_io holds_act holds_record_audit holds_with_transaction holds_context
  preserves_ret preserves_throw preserves_self preserves_or_error preserves_bind
  preserves_catch : holds.
Hint Extern 1 (open_transactions _ = open_transactions _) => apply counts : holds.
Hint Extern 5 (preserves _ _ (match ?x with _ => _ end)) => destruct x : holds.

Lemma holds_elapsed {F} start : holds (elapsed start : method _ F Duration).
Proof. unfold elapsed. auto with holds. Qed.
Lemma holds_audit_entry {F} i ty ev : holds (audit_entry i ty ev : method _ F _).
Proof. unfold audit_entry. auto 6 with holds. Qed.
Lemma holds_update_state_ok {F} i st e : holds (update_state_ok i st e : method _ F _).
Proof. unfold update_state_ok. auto with holds. Qed.
Hint Resolve holds_elapsed holds_audit_entry holds_update_state_ok : holds.

Lemma holds_compensation_attempt policy st name i ty id attempt :
  st ∈ Saga.steps saga -> holds (compensation_attempt powf policy st name i ty id attempt).
Proof.
  intros Hst. unfold compensation_attempt.
  apply preserves_bind; [auto with holds|intros start].
  apply holds_with_transaction. intros tx.
  apply preserves_bind; [by apply holds_await; intros; apply counts|].
  auto 20 with holds.
Qed.

Lemma holds_compensation_loop fuel policy st name i ty id attempt :
  st ∈ Saga.steps saga -> holds (compensation_loop powf fuel policy st name i ty id attempt).
Proof.
  intros Hst. revert attempt. induction fuel as [|fuel IH]; intros attempt; simpl;
    auto using holds_compensation_attempt with holds.
Qed.

Lemma holds_compensate_from n ty id m : holds (compensate_from powf (Saga.steps saga) n ty id m).
Proof.
  revert m. induction n as [|i IH]; intros m; simpl; [auto with holds|].
  destruct (Saga.steps saga !! i) as [st|] eqn:Hst; [|auto with holds].
  apply list_elem_of_lookup_2 in Hst.
  assert (holds (execute_compensation_with_retry powf st (SagaStep.name st) i ty id)).
  { unfold execute_compensation_with_retry. auto 8 using holds_compensation_loop with holds. }
  auto 8 with holds.
Qed.

Lemma holds_run_step id start limit step_limit st i n :
  st ∈ Saga.steps saga -> holds (run_step powf saga id start limit step_limit st i n).
Proof.
  intros Hst. unfold run_step.
  assert (holds (check_saga_timeout id start limit)) as Hcheck.
  { unfold check_saga_timeout. auto 12 with holds. }
  assert (forall e, holds (step_failed powf saga id start st i n e)) as Hfailed.
  { intros e. unfold step_failed, execute_compensation.
    auto 14 using holds_compensate_from with holds. }
  assert (holds (step_timed_out powf saga id n)) as Htimed.
  { unfold step_timed_out, execute_compensation.
    auto 14 using holds_compensate_from with holds. }
  do 4 (apply preserves_bind; [auto with holds|intros ?]).
  apply holds_with_transaction. intros tx.
  apply preserves_bind; [|auto 12 with holds].
  apply holds_await. intros c w. pose proof (counts_execute _ counts st step_limit tx c w Hst).
  by destruct (SagaStep.execute st step_limit tx c w) as [[??]?].
Qed.

Lemma holds_run_steps id start limit step_limit todo i n :
  todo ⊆ Saga.steps saga -> holds (run_steps powf saga id start limit step_limit todo i n).
Proof.
  revert i n. induction todo as [|st todo IH]; intros i n Hin; simpl; [auto with holds|].
  assert (holds (run_step powf saga id start limit step_limit st i n)).
  { apply holds_run_step. set_solver. }
  assert (forall i n, holds (run_steps powf saga id start limit step_limit todo i n)).
  { intros. apply IH. set_solver. }
  auto 8 with holds.
Qed.

Lemma holds_guarded_run id start : holds (guarded_run powf saga id start).
Proof. unfold guarded_run. auto 14 using holds_run_steps with holds. Qed.

Lemma holds_check_rate_limit : holds check_rate_limit.
Proof.
  unfold check_rate_limit. apply preserves_bind; [auto with holds|intros s].
  destruct (rate_limiter (orch s)) as [l|]; [|auto with holds].
  apply preserves_bind; [auto with holds|intros now].
  destruct (RateLimiter.try_acquire now l) as [l1 acquired].
  apply preserves_bind; [by apply preserves_modify|intros _].
  destruct acquired; [auto with holds|].
  apply preserves_bind; [auto with holds|intros now'].
  destruct (RateLimiter.remaining now' l1) as [l2 remaining].
  apply preserves_bind; [by apply preserves_modify|auto with holds].
Qed.

Lemma u64_add_sub a : u64 a -> u64_sub (u64_add a 1) 1 = a.
Proof.
  intros Ha. unfold u64_sub, u64_add, wrap. rewrite Zminus_mod_idemp_l.
  replace (a + 1 - 1) with a by lia. by apply Z.mod_small.
Qed.

(** The scope of the permit and of the guard. *)
Lemma holds_scope id start :
  holds (acquire_permit;;
    modify (fun s => s <| orch :=
      (orch s) <| active_sagas := u64_add (active_sagas (orch s)) 1 |> |>);;
    finally (guarded_run powf saga id start) drop_guards).
Proof.
  intros s [Hu Hc]. unfold after, acquire_permit, mbind, method_bind, self, modify.
  destruct (Z.ltb_spec 0 (concurrency_semaphore (orch s))) as [Hfree|Hfull]; [|done].
  unfold finally. match goal with |- context [guarded_run powf saga id start ?s1] =>
    destruct (holds_guarded_run id start s1) as [[HI1 HI2] Hf]; [split; [apply u64_add_range|done]|];
    unfold after in *; destruct (guarded_run powf saga id start s1) as [s' r] end.
  unfold held in *. simpl in *. injection Hf as Ha Hsem Ho. split; [split|].
  - simpl. apply wrap_range. done.
  - done.
  - rewrite Ha, Hsem, Ho, (u64_add_sub _ Hu). by replace (concurrency_semaphore (orch s) - 1 + 1)
      with (concurrency_semaphore (orch s)) by lia.
Qed.

Lemma holds_run : holds (run powf saga).
Proof. unfold run. auto 14 using holds_scope, holds_check_rate_limit with holds. Qed.
End held.

(** ** Runs in which everything works *)

Section works.
Context `{E : Externs} {A : Type} `{!SagaRuntime A} (powf : f64 -> f64 -> f64).

(** The worlds of the run are in [J]: there every call of the environment
    succeeds, every step returns [Ok], and the clock is within [span] of [epoch]. *)
Record EverythingWorks (J : A -> Prop) (saga : Saga.t A) (epoch span : Duration) : Prop := {
  works_instant w : J w ->
    J (fst (Instant_now w)) /\ epoch <= snd (Instant_now w) <= epoch + span;
  works_system_time w : J w -> J (fst (SystemTime_now w));
  works_new_v4 w : J w -> J (fst (new_v4 w));
  works_begin w : J w ->
    J (fst (begin_transaction w)) /\ exists tx, snd (begin_transaction w) = Ok tx;
  works_drop tx w : J w -> J (drop_transaction tx w);
  works_save c w : J w -> J (fst (save c w)) /\ snd (save c w) = Ok tt;
  works_update_state i st e w : J w -> J (fst (update_state i st e w));
  works_execute st limit tx c w : st ∈ Saga.steps saga -> J w ->
    J (snd (fst (SagaStep.execute st limit tx c w))) /\
    snd (SagaStep.execute st limit tx c w) = Ready (Ok tt);
}.

(** From a state with [I], [m] returns a value with [P], in a state with [I]. *)
Definition succeeds {F X} (I : frame A -> Prop) (P : X -> Prop) (m : method (frame A) F X) : Prop :=
  forall s, I s -> wp m (fun r s' => I s' /\ exists x, r = Ok x /\ P x) s.

Definition consumers_work (J : A -> Prop) (o : InMemorySagaOrchestrator.t A) : Prop :=
  Forall (fun consume => forall e w, J w -> J (consume e w)) (audit_consumers o).

(** The rate limiter, if there is one, grants a request made in the time of the run. *)
Definition admits (epoch span : Duration) (o : InMemorySagaOrchestrator.t A) : Prop :=
  forall l, rate_limiter o = Some l -> forall now, epoch <= now <= epoch + span ->
    snd (RateLimiter.try_acquire now l) = true.

(** What a run that works may assume of its state, step after step. *)
Class RunInvariant (J : A -> Prop) (I : frame A -> Prop) : Prop := {
  I_J s : I s -> J (world (orch s));
  I_consumers s : I s -> consumers_work J (orch s);
  I_world f s : I s -> J (f (world (orch s))) -> I (on_world f s);
  I_context c s : I s -> I (s <| context := c |>);
  I_audit t s : I s -> I (s <| orch := (orch s) <| audit_trail := t |> |>);
}.

Context (J : A -> Prop) (saga : Saga.t A) (epoch span : Duration).
Hypothesis works : EverythingWorks J saga epoch span.
Context (I : frame A -> Prop) `{!RunInvariant J I}.

Lemma succeeds_ret {F X} (P : X -> Prop) x : P x -> succeeds I P (mret x : method _ F X).
Proof. intros Hx s Hs. apply wp_ret. eauto. Qed.

Lemma succeeds_bind {F X Y} (P : X -> Prop) (Q : Y -> Prop) (m : method (frame A) F X) k :
  succeeds I P m -> (forall x, P x -> succeeds I Q (k x)) -> succeeds I Q (x ← m; k x).
Proof.
  intros Hm Hk s Hs. apply wp_bind. eapply wp_mono; [by apply Hm|].
  intros r s' [Hs' (x & -> & Hx)]. by apply Hk.
Qed.

Lemma succeeds_self {F} : succeeds I I (self : method _ F _).
Proof. intros s Hs. apply wp_self. eauto. Qed.

Lemma succeeds_io {F X} (P : X -> Prop) (f : A -> A * X) :
  (forall w, J w -> J (fst (f w)) /\ P (snd (f w))) -> succeeds I P (io f : method _ F X).
Proof.
  intros Hf s Hs. unfold wp, io. destruct (Hf (world (orch s)) (I_J s Hs)) as [HJ HP].
  destruct (f (world (orch s))) as [w x]. split; [by apply I_world|eauto].
Qed.

Lemma succeeds_any {F X} (f : A -> A * X) :
  (forall w, J w -> J (fst (f w))) -> succeeds I (fun _ => True) (io f : method _ F X).
Proof. intros Hf. apply succeeds_io. auto. Qed.

Lemma succeeds_audit_entry {F} i ty ev :
  succeeds I (fun _ => True) (audit_entry i ty ev : method _ F _).
Proof.
  eapply succeeds_bind; [apply succeeds_any, works|intros ? _].
  eapply succeeds_bind; [apply succeeds_any, works|intros ? _]. by apply succeeds_ret.
Qed.

Lemma succeeds_record_audit {F} e : succeeds I (fun _ => True) (record_audit e : method _ F _).
Proof.
  intros s Hs. apply wp_bind, wp_modify, wp_bind, wp_self, wp_modify. split; [|eauto].
  apply I_world; [by apply I_audit|]. simpl. pose proof (I_consumers s Hs) as Hc.
  pose proof (I_J s Hs) as HJ. revert HJ. generalize (world (orch s)).
  unfold consumers_work in Hc. induction Hc as [|consume cs H Hcs IH]; intros w HJ; [done|].
  apply IH, H, HJ.
Qed.

Lemma succeeds_update_state_ok {F} i st e :
  succeeds I (fun _ => True) (update_state_ok i st e : method _ F _).
Proof. eapply succeeds_bind; [apply succeeds_any, works|intros ? _]. by apply succeeds_ret. Qed.

Lemma succeeds_elapsed {F} start :
  epoch <= start -> succeeds I (fun d => d <= span) (elapsed start : method _ F _).
Proof.
  intros Hstart. apply succeeds_bind with (P := fun now => epoch <= now <= epoch + span);
    [apply succeeds_io, works|]. intros now Hnow.
  apply succeeds_ret. unfold saturating_sub. lia.
Qed.

Lemma succeeds_run_step id start limit step_limit st i n :
  epoch <= start -> span <= limit -> st ∈ Saga.steps saga ->
  succeeds I (fun out => exists n', out = Continue n')
    (run_step powf saga id start limit step_limit st i n).
Proof.
  intros Hstart Hspan Hst. unfold run_step.
  apply succeeds_bind with (P := fun now => epoch <= now <= epoch + span);
    [apply succeeds_io, works|intros step_start Hnow].
  eapply succeeds_bind; [apply succeeds_audit_entry|intros e _].
  eapply succeeds_bind; [apply succeeds_record_audit|intros _ _].
  apply succeeds_bind with (P := fun _ => True); [|intros _ _].
  { eapply succeeds_bind; [by apply succeeds_elapsed|]. intros spent Hspent. simpl in Hspent.
    destruct (Z.ltb_spec limit spent); [lia|]. by apply succeeds_ret. }
  apply succeeds_bind with (P := fun begun => exists tx, begun = Ok tx);
    [apply succeeds_io, works|]. intros _ [tx ->]. intros s Hs.
  apply wp_bind, wp_lift, wp_finally, wp_bind. unfold await_timeout, wp at 1, await.
  destruct (works_execute _ _ _ _ works st step_limit tx (context s) (world (orch s)) Hst
    (I_J s Hs)) as [HJ Hex].
  destruct (SagaStep.execute st step_limit tx (context s) (world (orch s))) as [[c w] out].
  simpl in HJ, Hex. subst out.
  eapply wp_mono with (P := fun r s' => I s' /\ exists x, r = Ok x /\ exists n', x = Continue n').
  2: { intros r s' [Hs' Hr]. split; [|done].
       apply I_world; [done|]. by apply works, I_J. }
  match goal with |- wp ?m _ ?s' => enough (succeeds I (fun out => exists n', out = Continue n') m)
    as Hm by (by apply Hm, I_context, I_world) end.
  eapply succeeds_bind; [apply succeeds_elapsed; lia|intros d _].
  eapply succeeds_bind; [apply succeeds_audit_entry|intros e' _].
  eapply succeeds_bind; [apply succeeds_record_audit|intros _ _].
  apply succeeds_ret. eauto.
Qed.

Lemma succeeds_run_steps id start limit step_limit todo i n :
  epoch <= start -> span <= limit -> todo ⊆ Saga.steps saga ->
  succeeds I (fun out => exists n', out = Continue n')
    (run_steps powf saga id start limit step_limit todo i n).
Proof.
  intros Hstart Hspan. revert i n.
  induction todo as [|st todo IH]; intros i n Hin; [apply succeeds_ret; eauto|].
  cbn [run_steps]. eapply succeeds_bind; [apply succeeds_self|intros s _].
  destruct (i <? SagaContext.current_step (context s))%nat; [apply IH; set_solver|].
  eapply succeeds_bind; [by apply succeeds_run_step; [| |set_solver]|].
  intros _ [n' ->]. apply IH. set_solver.
Qed.
End works.

(** The orchestrator, with the configuration it started with, before and after
    the permit is taken. *)
Section completes.
Context `{E : Externs} {A : Type} `{!SagaRuntime A} (powf : f64 -> f64 -> f64).
Context (J : A -> Prop) (saga : Saga.t A) (epoch span : Duration) (cfg : SagaOrchestratorConfig.t).
Hypothesis works : EverythingWorks J saga epoch span.
Hypothesis in_time : span <= SagaOrchestratorConfig.get_saga_timeout cfg (Saga.saga_type saga).

Definition configured (s : frame A) : Prop :=
  J (world (orch s)) /\ consumers_work J (orch s) /\ config (orch s) = cfg.
Definition idle (s : frame A) : Prop :=
  configured s /\ admits epoch span (orch s) /\ 0 < concurrency_semaphore (orch s).

#[local] Instance configured_invariant : RunInvariant J configured.
Proof. by split; unfold configured; simpl; intuition. Qed.

#[local] Instance idle_invariant : RunInvariant J idle.
Proof. by split; unfold idle, configured, admits; simpl; intuition. Qed.

Lemma admitted s :
  idle s -> wp check_rate_limit (fun r s' => r = Ok tt /\ configured s' /\
    0 < concurrency_semaphore (orch s')) s.
Proof.
  intros ((HJ & Hc & Hcfg) & Hgrant & Hfree). unfold check_rate_limit. apply wp_bind, wp_self.
  destruct (rate_limiter (orch s)) as [l|] eqn:Hl; [|by apply wp_ret].
  apply wp_bind. unfold wp at 1, io. destruct (works_instant _ _ _ _ works _ HJ) as [HJ' Hnow].
  destruct (Instant_now (world (orch s))) as [w now]. specialize (Hgrant l Hl now Hnow).
  destruct (RateLimiter.try_acquire now l) as [l' granted]. simpl in Hgrant |- *. subst granted.
  by apply wp_bind, wp_modify, wp_ret.
Qed.

Lemma succeeds_guarded_run id start :
  epoch <= start ->
  succeeds configured (fun res => SagaExecutionResult.state res = SagaState.Completed)
    (guarded_run powf saga id start).
Proof.
  intros Hstart. unfold guarded_run.
  eapply succeeds_bind; [apply succeeds_self|intros s _].
  apply succeeds_bind with (P := fun saved => saved = Ok tt);
    [apply (succeeds_io J); [exact _|apply works]|intros _ ->].
  eapply (succeeds_bind _ (fun _ => True)); [by apply (succeeds_ret _ _ tt)|intros _ _].
  eapply succeeds_bind; [apply succeeds_self|intros s' (_ & _ & Hs')]. rewrite Hs'.
  eapply succeeds_bind; [apply (succeeds_run_steps powf J saga epoch span works); [exact _|done..]|]. intros _ [n ->].
  eapply succeeds_bind; [by apply (succeeds_elapsed J saga epoch span works); [exact _|]|intros d _].
  eapply succeeds_bind; [by apply (succeeds_audit_entry J saga epoch span works); exact _|intros e' _].
  eapply succeeds_bind; [by apply (succeeds_record_audit J); exact _|intros _ _].
  eapply succeeds_bind; [by apply (succeeds_update_state_ok J saga epoch span works); exact _|intros _ _].
  by apply succeeds_ret.
Qed.

Lemma run_succeeds s :
  idle s -> wp (run powf saga) (fun r _ => exists res, r = Ok res /\
    SagaExecutionResult.state res = SagaState.Completed) s.
Proof.
  intros Hs. unfold run.
  apply wp_bind. eapply wp_mono.
  { apply (succeeds_io J idle (fun now => epoch <= now <= epoch + span)); [apply works|done]. }
  intros r s1 [Hs1 (start & -> & Hstart)]. apply wp_bind, wp_self, wp_bind.
  eapply wp_mono; [by apply (succeeds_audit_entry J _ _ _ works idle)|].
  intros _ s2 [Hs2 (e & -> & _)]. apply wp_bind.
  eapply wp_mono; [by apply (succeeds_record_audit J idle)|].
  intros _ s3 [Hs3 (u & -> & _)]. apply wp_bind.
  eapply wp_mono; [by apply admitted|]. intros ? s4 (-> & Hcfg & Hfree). unfold acquire_permit.
  apply wp_bind, wp_bind, wp_self. destruct (Z.ltb_spec 0 (concurrency_semaphore (orch s4))); [|lia].
  apply wp_modify, wp_bind, wp_modify, wp_finally.
  eapply wp_mono; [apply succeeds_guarded_run; [lia|done]|].
  intros r s5 [_ (res & -> & Hres)]. eauto.
Qed.
End completes.

(** ** Theorems *)

Section counting.
Context `{E : Externs} {A : Type} `{!SagaRuntime A}.

(** How often an event type occurs. *)
Definition count (ev : SagaAuditEventType.t) (w : list event) : nat :=
  length (filter (fun e => e.1 = ev) w).

Lemma count_app ev w1 w2 : count ev (w1 ++ w2) = (count ev w1 + count ev w2)%nat.
Proof. unfold count. by rewrite filter_app, length_app. Qed.

Lemma count_cons ev e w :
  count ev (e :: w) = ((if decide (e.1 = ev) then 1 else 0) + count ev w)%nat.
Proof. unfold count. rewrite filter_cons. by destruct (decide (e.1 = ev)). Qed.

Lemma count_replicate ev k e : e.1 <> ev -> count ev (replicate k e) = 0%nat.
Proof.
  intros He. induction k as [|k IH]; [done|]. simpl. rewrite count_cons, IH.
  by destruct (decide (e.1 = ev)).
Qed.

Lemma count_executed ev i j :
  count ev (executed i j) =
    match ev with
    | SagaAuditEventType.StepStarted | SagaAuditEventType.StepCompleted => (j - i)%nat
    | _ => 0%nat
    end.
Proof.
  unfold executed. generalize (j - i)%nat as n. intros n. revert i.
  induction n as [|n IH]; intros i; [by destruct ev|].
  simpl. rewrite !count_cons, IH. by destruct ev.
Qed.

Lemma count_compensation_trail (steps : list (SagaStep.t A)) n i w k ev :
  compensation_trail steps n i w k ->
  match ev with
  | SagaAuditEventType.CompensationCompleted => count ev w = k
  | SagaAuditEventType.CompensationStarted | SagaAuditEventType.CompensationFailed => True
  | _ => count ev w = 0%nat
  end.
Proof.
  induction 1 as [|i st w m _ _ _ IH|i st k w m _ _ _ _ IH|i st k w m _ _ _ _ IH];
    try (by destruct ev); destruct ev; try done;
    rewrite ?count_cons, ?count_app, ?count_cons, count_replicate by done; simpl; lia.
Qed.

(** The words of a compensated [story]: the start, the executed steps, what made
    the run stop, the compensations and the end. *)
Lemma count_word (steps : list (SagaStep.t A)) n cs i w k es e :
  (cs <= i)%nat -> compensation_trail steps n i w k ->
  count SagaAuditEventType.StepCompleted (es ++ [e]) = 0%nat ->
  count SagaAuditEventType.CompensationCompleted (es ++ [e]) = 0%nat ->
  let word := (SagaAuditEventType.Started, None) :: executed cs i ++ es ++ w ++ [e] in
  (cs + count SagaAuditEventType.StepCompleted word)%nat = i /\
  count SagaAuditEventType.CompensationCompleted word = k.
Proof.
  intros Hi Htrail H1 H2. cbv zeta. rewrite count_app in H1, H2.
  rewrite !count_cons, !count_app, !count_executed.
  pose proof (count_compensation_trail _ _ _ _ _ SagaAuditEventType.StepCompleted Htrail) as H3.
  pose proof (count_compensation_trail _ _ _ _ _ SagaAuditEventType.CompensationCompleted Htrail) as H4.
  simpl in *. lia.
Qed.

End counting.

Section theorems.
Context `{E : Externs} {A : Type} `{!SagaRuntime A} (powf : f64 -> f64 -> f64).

Definition policy (o : InMemorySagaOrchestrator.t A) : RetryPolicy.t :=
  SagaOrchestratorConfig.compensation_retry_policy (config o).

(** C1: when a saga fails, because a step returned an error or timed
    out, and every compensation it owes completed, the application is back where
    the saga found it. The steps keep the contract that what they did can be
    undone with what they left in the context; a compensation that is retried
    undoes once, the compensations run in the order that fits, and a resumed
    saga is taken back to before its first run. *)
Theorem failed_saga_restores_the_application {S : Type} (app : A -> S) keeps ready saga c o :
  StepContract app keeps ready (Saga.steps saga) -> QuietRuntime app ->
  consumers_quiet app o ->
  Z.of_nat (length (Saga.steps saga)) < 2 ^ 32 -> RetryPolicy.max_attempts (policy o) < 2 ^ 32 ->
  let '(o', r) := execute_saga powf saga c o in
  let done w := (SagaContext.current_step c + count SagaAuditEventType.StepCompleted w)%nat in
  forall w x, events o' = events o ++ w ->
    undoes ready (Saga.steps saga) (SagaContext.current_step c) x (app (world o)) c ->
    ((exists res, r = Ok res /\ SagaExecutionResult.is_failed res = true /\
        SagaExecutionResult.compensations_executed res =
          Z.of_nat (compensable (Saga.steps saga) (done w))) \/
     (last w = Some (SagaAuditEventType.TimedOut, None) /\ r <> Err Panicked /\
        count SagaAuditEventType.CompensationCompleted w =
          compensable (Saga.steps saga) (done w))) ->
    app (world o') = x.
Proof.
  intros Hc Hquiet Hq Hn Hmax.
  pose proof (execute_saga_spec powf app keeps ready _ Hc Hquiet saga eq_refl Hn c o Hq Hmax) as H.
  destruct (execute_saga powf saga c o) as [o' r].
  destruct H as (w & undone & Hev & Hstory & Hundo). cbv beta zeta. intros w' x Hev' Hx Hcase.
  rewrite Hev in Hev'. apply app_inv_head in Hev' as <-.
  destruct Hstory as [res Hst Hex|res i w k Hi Htrail (Hst & Hex & Hk)|d i w k Hi Htrail|e i Hi He|e He|w].
  - destruct Hcase as [(res' & [= <-] & Hf & _)|[Hlast _]].
    + unfold SagaExecutionResult.is_failed in Hf. by rewrite Hst in Hf.
    + by rewrite last_cons, last_snoc in Hlast.
  - apply (Hundo i k eq_refl); [|done].
    destruct (count_word _ _ (SagaContext.current_step c) i w k
      [(SagaAuditEventType.StepStarted, Some i); (SagaAuditEventType.StepFailed, Some i)]
      (SagaAuditEventType.Failed, None) ltac:(lia) Htrail eq_refl eq_refl) as [Hdone Hcomp].
    simpl in Hdone, Hcomp. rewrite Hdone, Hcomp in Hcase.
    destruct Hcase as [(res' & [= <-] & _ & Heq)|(_ & _ & Heq)]; [|done]. lia.
  - apply (Hundo i k eq_refl); [|done].
    destruct (count_word _ _ (SagaContext.current_step c) i w k
      [(SagaAuditEventType.StepStarted, Some i)]
      (SagaAuditEventType.TimedOut, None) ltac:(lia) Htrail eq_refl eq_refl) as [Hdone Hcomp].
    simpl in Hdone, Hcomp. rewrite Hdone, Hcomp in Hcase.
    by destruct Hcase as [(res' & [=] & _)|(_ & _ & Heq)].
  - destruct Hcase as [(res' & [=] & _)|[Hlast _]]. by rewrite last_cons, last_snoc in Hlast.
  - by destruct Hcase as [(res' & [=] & _)|[Hlast _]].
  - destruct Hcase as [(res' & [=] & _)|(_ & Hpanic & _)]. by destruct Hpanic.
Qed.

(** Without any claim on what the steps do, the contract is just that. *)
Lemma position_contract saga :
  keeps_position (Saga.steps saga) ->
  StepContract (fun _ : A => tt) (fun _ _ => True) (fun _ _ _ _ => True) (Saga.steps saga).
Proof.
  intros Hk. split; try done.
  - intros i st limit tx c w c' w' out Hst Hex. split; [done|]. by repeat case_match.
  - intros i st tx c w c' w' out Hst Hex. split; [done|]. by repeat case_match; try done; destruct x.
Qed.

Lemma quiet_unit : QuietRuntime (fun _ : A => tt).
Proof. done. Qed.

Lemma execute_saga_story saga c o :
  keeps_position (Saga.steps saga) ->
  Z.of_nat (length (Saga.steps saga)) < 2 ^ 32 -> RetryPolicy.max_attempts (policy o) < 2 ^ 32 ->
  let '(o', r) := execute_saga powf saga c o in
  exists w undone, events o' = events o ++ (SagaAuditEventType.Started, None) :: w /\
    story (Saga.steps saga) (tries (policy o)) (SagaContext.current_step c) r w undone.
Proof.
  intros Hk Hn Hmax.
  assert (consumers_quiet (fun _ : A => tt) o) as Hq
    by (apply Forall_forall; intros; done).
  pose proof (execute_saga_spec powf _ _ _ _ (position_contract saga Hk) quiet_unit saga eq_refl
    Hn c o Hq Hmax) as H.
  destruct (execute_saga powf saga c o) as [o' r]. destruct H as (w & undone & Hev & Hs & _).
  by exists w, undone.
Qed.

(** C2: a run always ends, and the audit trail tells what it did: it only grows, starts
    with [Started], and lists the steps in their order from the context's position on.
    A run that fails at a step has compensated exactly the executed steps that have a
    compensation, in reverse order, each tried at most as often as the retry policy
    allows; the result counts the executed steps and the completed compensations. A run
    whose own time is up stops without compensating anything, and a run that is rejected
    has only recorded that it started. The loop reads the position again before each
    step, so this is for steps that take it at most past themselves, and leave it alone
    when they are compensated: a step that takes it further skips those after it. The
    steps are fewer than [2^32]. *)
Theorem audit_trail_tells_the_run saga c o :
  keeps_position (Saga.steps saga) ->
  Z.of_nat (length (Saga.steps saga)) < 2 ^ 32 -> RetryPolicy.max_attempts (policy o) < 2 ^ 32 ->
  let '(o', r) := execute_saga powf saga c o in
  exists w undone, events o' = events o ++ (SagaAuditEventType.Started, None) :: w /\
    story (Saga.steps saga) (tries (policy o)) (SagaContext.current_step c) r w undone.
Proof. apply execute_saga_story. Qed.

(** C3: however a run ends, with a result, an error or a panic, it holds
    nothing afterwards: the number of active sagas, the permits of the semaphore
    and the open transactions are what they were. *)
Theorem run_leaves_nothing_behind (open_transactions : A -> Z) saga c o :
  CountsTransactions open_transactions saga -> accountable open_transactions o ->
  let '(o', r) := execute_saga powf saga c o in
  active_sagas o' = active_sagas o /\
  concurrency_semaphore o' = concurrency_semaphore o /\
  open_transactions (world o') = open_transactions (world o).
Proof.
  intros Hc Ho. destruct (holds_run powf _ saga Hc (mk_frame o c) Ho) as [_ Hh].
  unfold execute_saga, after in *. destruct (run powf saga (mk_frame o c)) as [s r].
  simpl in *. by injection Hh as -> -> ->.
Qed.

(** C4: when the environment and the steps work and the clock stays within the saga's
    timeout, a saga that is granted its request, by the rate limiter if there is one
    and by the semaphore, completes: the steps from the context's position on ran once
    each, in order, and nothing was compensated. The result counts all steps, those
    before the position of a resumed saga among them, or is the position if that is
    beyond the last step. This is for steps that take the position at most past
    themselves, since the loop reads it again before each step. *)
Theorem saga_completes_when_everything_works (J : A -> Prop) saga c o epoch span :
  EverythingWorks J saga epoch span -> J (world o) -> consumers_work J o -> keeps_position (Saga.steps saga) ->
  span <= SagaOrchestratorConfig.get_saga_timeout (config o) (Saga.saga_type saga) ->
  admits epoch span o -> 0 < concurrency_semaphore o ->
  Z.of_nat (Nat.max (length (Saga.steps saga)) (SagaContext.current_step c)) < 2 ^ 32 -> RetryPolicy.max_attempts (policy o) < 2 ^ 32 ->
  let '(o', r) := execute_saga powf saga c o in
  exists res, r = Ok res /\ SagaExecutionResult.is_success res = true /\
    SagaExecutionResult.steps_executed res =
      Z.of_nat (Nat.max (length (Saga.steps saga)) (SagaContext.current_step c)) /\
    events o' = events o ++ (SagaAuditEventType.Started, None)
      :: executed (SagaContext.current_step c) (length (Saga.steps saga))
      ++ [(SagaAuditEventType.Completed, None)].
Proof.
  intros Hw HJ Hq Hk Hspan Hrate Hsem Hn Hmax.
  pose proof (execute_saga_story saga c o Hk ltac:(lia) Hmax) as Hstory.
  pose proof (run_succeeds powf J saga epoch span (config o) Hw Hspan (mk_frame o c)
    ltac:(by split)) as Hrun.
  unfold execute_saga, wp in *. destruct (run powf saga (mk_frame o c)) as [s r].
  destruct Hrun as (res & -> & Hst). destruct Hstory as (w & undone & Hev & Hs). exists res.
  unfold SagaExecutionResult.is_success. rewrite Hst.
  inversion Hs as [res' Hst' Hex|res' i w' k Hi Htrail [Hst' _]| | | |]; subst; [|congruence].
  split_and!; [done|done| |done]. rewrite Hex. apply wrap_small. lia.
Qed.
End theorems.

(** ** An example

    A world with a clock and the list of the steps in force; step [i] adds itself
    and takes itself away again, and may fail or hang. *)

Module Example.

Record toy := mk { time : Z; applied : list nat; opened : Z }.

#[global] Instance toy_rebuild : Rebuild toy := fun w =>
  mk (time w) (applied w) (opened w).

#[global] Instance runtime : @SagaRuntime concrete toy := {|
  Instant_now := fun w => (w, time w);
  SystemTime_now := fun w => (w, time w);
  new_v4 := fun w => (w, 7%nat : @Uuid concrete);
  sleep := fun d w => w <| time := time w + d |>;
  PgTransaction := unit;
  begin_transaction := fun w => (w <| opened := opened w + 1 |>, Ok tt);
  drop_transaction := fun _ w => w <| opened := opened w - 1 |>;
  save := fun _ w => (w, Ok tt);
  update_state := fun _ _ _ w => (w, Ok tt);
  mark_compensating := fun _ w => (w, Ok tt);
  find_by_id := fun _ w => (w, Ok None);
|}.

Definition outcome : Type := timed (result SagaError.t unit).

Definition step (i : nat) (out : outcome) : SagaStep.t (E := concrete) toy := {|
  SagaStep.name := "step";
  SagaStep.is_idempotent := true;
  SagaStep.has_compensation := true;
  SagaStep.execute := fun _ _ c w =>
    match out with
    | Ready (Ok _) => (c, w <| applied := i :: applied w |>, out)
    | _ => (c, w, out)
    end;
  SagaStep.compensate := fun _ c w =>
    match applied w with
    | j :: l =>
        if (j =? i)%nat then (c, w <| applied := l |>, Some (Ok tt))
        else (c, w, Some (Err SagaError.Cancelled))
    | [] => (c, w, Some (Err SagaError.Cancelled))
    end;
|}.

Definition saga (outcomes : list outcome) : Saga.t (E := concrete) toy := {|
  Saga.saga_type := SagaType.Execution;
  Saga.steps := imap step outcomes;
  Saga.timeout := None;
  Saga.idempotency_key := None;
|}.

Definition context : SagaContext.t (E := concrete) :=
  SagaContext.new (3%nat : @Uuid concrete) SagaType.Execution None None (0 : @DateTime concrete).

Definition start : toy := mk 0 [] 0.

(** The orchestrator of the default configuration. *)
Definition orchestrator : InMemorySagaOrchestrator.t (E := concrete) toy := {|
  world := start;
  config := SagaOrchestratorConfig.default;
  active_sagas := 0;
  rate_limiter := None;
  concurrency_semaphore := 100;
  audit_trail := SagaAuditTrail.new;
  audit_consumers := [];
|}.

Lemma new_orchestrator :
  InMemorySagaOrchestrator.new start None = Some orchestrator.
Proof. reflexivity. Qed.

Lemma saga_step outcomes i st :
  Saga.steps (saga outcomes) !! i = Some st -> exists out, st = step i out.
Proof. simpl. rewrite list_lookup_imap. destruct (outcomes !! i); simpl; [|done]. naive_solver. Qed.

Lemma saga_position outcomes : keeps_position (Saga.steps (saga outcomes)).
Proof.
  intros i st Hst tx c w. apply saga_step in Hst as [out ->]. split.
  - intros limit. destruct out as [[]| |]; simpl; lia.
  - simpl. destruct (applied w) as [|j l]; [done|]. by destruct (j =? i)%nat.
Qed.

Lemma saga_contract outcomes :
  StepContract applied (fun c c' => SagaContext.current_step c' = SagaContext.current_step c)
    (fun i x y _ => y = i :: x) (Saga.steps (saga outcomes)).
Proof.
  split; try done.
  - split; [done|]. intros x y z Hxy Hyz. congruence.
  - intros i st limit tx c w c' w' out Hst Hex. apply saga_step in Hst as [out' ->].
    simpl in Hex. by destruct out' as [[[]|]| |]; injection Hex as <- <- <-.
  - intros i st tx c w c' w' out Hst Hex. apply saga_step in Hst as [out' ->].
    simpl in Hex. destruct (applied w) as [|j l] eqn:Hl; [by injection Hex as <- <- <-|].
    destruct (Nat.eqb_spec j i) as [->|]; injection Hex as <- <- <-; [|done].
    split; [done|]. by intros x [= ->].
  - apply saga_position.
Qed.

Lemma quiet : QuietRuntime (E := concrete) applied.
Proof. done. Qed.

Lemma counts outcomes : CountsTransactions opened (saga outcomes).
Proof.
  split; try done.
  - intros st limit tx c w Hst. apply list_elem_of_lookup_1 in Hst as [i Hst].
    apply saga_step in Hst as [out ->]. by destruct out as [[]| |].
  - intros st tx c w Hst. apply list_elem_of_lookup_1 in Hst as [i Hst].
    apply saga_step in Hst as [out ->]. simpl. destruct (applied w) as [|j l]; [done|].
    by destruct (j =? i)%nat.
Qed.

End Example.

Import Example.

(** Both steps work, and the clock stands still. *)
Definition working : list outcome := [Ready (Ok tt); Ready (Ok tt)].

Lemma works : EverythingWorks (fun w => time w = 0) (saga working) 0 0.
Proof.
  split; try (simpl; intros; repeat split; simpl in *; eauto; lia).
  intros st limit tx c w Hst HJ. apply list_elem_of_lookup_1 in Hst as [i Hst].
  destruct i as [|[|i]]; simpl in Hst; [injection Hst as <-|injection Hst as <-|done]; done.
Qed.

(** The third step fails; two compensations complete. *)
Definition failing : list outcome := [Ready (Ok tt); Ready (Ok tt); Ready (Err SagaError.Cancelled)].
(** The third step hangs. *)
Definition hanging : list outcome := [Ready (Ok tt); Ready (Ok tt); Elapsed].
(** The second step panics. *)
Definition panicking : list outcome := [Ready (Ok tt); Crashed].

Abbreviation run_of outcomes :=
  (execute_saga example_powf (saga outcomes) context orchestrator).

(** What the runs end in. *)
Definition after_failing := Eval vm_compute in run_of failing.
Definition after_hanging := Eval vm_compute in run_of hanging.
Definition after_panicking := Eval vm_compute in run_of panicking.
Definition after_working := Eval vm_compute in run_of working.

Lemma run_failing : run_of failing = after_failing.
Proof. vm_cast_no_check (eq_refl after_failing). Qed.
Lemma run_hanging : run_of hanging = after_hanging.
Proof. vm_cast_no_check (eq_refl after_hanging). Qed.
Lemma run_panicking : run_of panicking = after_panicking.
Proof. vm_cast_no_check (eq_refl after_panicking). Qed.
Lemma run_working : run_of working = after_working.
Proof. vm_cast_no_check (eq_refl after_working). Qed.

Example failed_saga_restores_the_application_witness :
  (let '(o', r) := after_failing in
   r = Ok (SagaExecutionResult.failed (3%nat : @Uuid concrete)
     SagaType.Execution 0 2 2 "Saga was cancelled") /\ applied (world o') = []) /\
  (let '(o', r) := after_hanging in
   r = Err (Error (DomainError.SagaTimeout (from_secs 30))) /\ applied (world o') = []).
Proof.
  split.
  - pose proof (failed_saga_restores_the_application example_powf applied _ _
      (saga failing) context orchestrator (saga_contract failing) quiet ltac:(constructor)
      eq_refl eq_refl) as H.
    rewrite run_failing in H. split; [reflexivity|].
    eapply H; [reflexivity|reflexivity|]. left. eexists. split; [reflexivity|]. by split.
  - pose proof (failed_saga_restores_the_application example_powf applied _ _
      (saga hanging) context orchestrator (saga_contract hanging) quiet ltac:(constructor)
      eq_refl eq_refl) as H.
    rewrite run_hanging in H. split; [reflexivity|].
    eapply H; [reflexivity|reflexivity|]. right. by split_and!.
Defined.

Example audit_trail_tells_the_run_witness :
  let '(o', r) := after_failing in
  events o' = (SagaAuditEventType.Started, None) :: executed 0 2 ++
    [(SagaAuditEventType.StepStarted, Some 2%nat); (SagaAuditEventType.StepFailed, Some 2%nat);
     (SagaAuditEventType.CompensationStarted, Some 1%nat);
     (SagaAuditEventType.CompensationCompleted, Some 1%nat);
     (SagaAuditEventType.CompensationStarted, Some 0%nat);
     (SagaAuditEventType.CompensationCompleted, Some 0%nat);
     (SagaAuditEventType.Failed, None)] /\
  exists w undone, events o' = events orchestrator ++ (SagaAuditEventType.Started, None) :: w /\
    story (Saga.steps (saga failing)) 3 0 r w undone.
Proof.
  pose proof (audit_trail_tells_the_run example_powf (saga failing) context orchestrator
    (saga_position failing) eq_refl eq_refl) as H.
  rewrite run_failing in H. split; [reflexivity|exact H].
Defined.

Example run_leaves_nothing_behind_witness :
  let '(o', r) := after_panicking in
  r = Err Panicked /\ active_sagas o' = 0 /\ concurrency_semaphore o' = 100 /\
  opened (world o') = 0.
Proof.
  pose proof (run_leaves_nothing_behind example_powf opened (saga panicking) context orchestrator
    (counts panicking) ltac:(by split)) as H.
  rewrite run_panicking in H. split; [reflexivity|exact H].
Defined.

Example saga_completes_when_everything_works_witness :
  let '(o', r) := after_working in
  exists res, r = Ok res /\ SagaExecutionResult.is_success res = true /\
    SagaExecutionResult.steps_executed res = 2.
Proof.
  pose proof (saga_completes_when_everything_works example_powf (fun w => time w = 0) (saga working)
    context orchestrator 0 0 works eq_refl ltac:(constructor) (saga_position working)
    ltac:(done) ltac:(done) eq_refl eq_refl eq_refl) as H.
  rewrite run_working in H. destruct H as (res & Hr & Hs & Hn & _).
  exists res. split; [exact Hr|]. split; [exact Hs|exact Hn].
Defined.
