(* ===== verification/Scoring.v ===== *)
(** * Provider scoring ([crates/server/domain/src/scheduling])

    What the scheduler knows of a provider ([strategies.rs], [ProviderInfo]), the
    scoring criteria and their weighted composition ([scoring.rs]) and the
    selectors that pick the provider with the best score ([strategies.rs],
    [scoring.rs]).  Scores are [f64] values of the IEEE format; the usize
    counters convert to them with rounding. *)

From S2P Require Import Prelude Std Externs ProviderApi Job.
From Stdlib Require Import SpecFloat.

Module ProviderInfo.
Section provider_info.
Context `{E : Externs}.

(** src: crates/server/domain/src/scheduling/strategies.rs 80-94 ProviderInfo *)
Record t := mk {
  provider_id : ProviderId;
  provider_type : ProviderType.t;
  active_workers : Z;
  max_workers : Z;
  estimated_startup_time : Duration;
  health_score : f64;
  cost_per_hour : f64;
  gpu_support : bool;
  gpu_types : list string;
  regions : list string;
}.

(** src: crates/server/domain/src/scheduling/strategies.rs 98-103 ProviderInfo::available_capacity *)
Definition available_capacity (p : t) : f64 :=
  if max_workers p =? 0 then F64.of_Z 0
  else F64.sub (F64.of_Z 1) (F64.div (F64.of_Z (active_workers p)) (F64.of_Z (max_workers p))).

(** src: crates/server/domain/src/scheduling/strategies.rs 106-108 ProviderInfo::can_accept_workers *)
Definition can_accept_workers (p : t) : bool := active_workers p <? max_workers p.

(** src: crates/server/domain/src/scheduling/strategies.rs 112-124 ProviderInfo::can_handle_gpu_requirement *)
Definition can_handle_gpu_requirement (required_gpu_count : Z) (p : t) : bool :=
  if required_gpu_count =? 0 then true else if gpu_support p then true else false.

(** src: crates/server/domain/src/scheduling/strategies.rs 128-130 ProviderInfo::has_gpu_type *)
Definition has_gpu_type (gpu_type : string) (p : t) : bool :=
  existsb (String.eqb gpu_type) (gpu_types p).

(** src: crates/server/domain/src/scheduling/strategies.rs 134-136 ProviderInfo::supports_region *)
Definition supports_region (region : string) (p : t) : bool :=
  existsb (String.eqb region) (regions p).

(** src: crates/server/domain/src/scheduling/strategies.rs 141-156 ProviderInfo::region_match_score *)
Definition region_match_score (preferred : string) (p : t) : f64 :=
  if is_empty preferred then F64.lit 5 1
  else if supports_region preferred p then F64.of_Z 1
  else if existsb (fun r => str_contains preferred r || str_contains r preferred) (regions p)
  then F64.lit 5 1
  else F64.of_Z 0.

End provider_info.
End ProviderInfo.

Module ProviderScoreInput.
Section score_input.
Context `{E : Externs}.

(** src: crates/server/domain/src/scheduling/scoring.rs 20-35 ProviderScoreInput *)
Record t := mk {
  provider_id : ProviderId;
  provider_type : ProviderType.t;
  health_score : f64;
  cost_per_hour : f64;
  startup_time : Duration;
  available_capacity : f64;
  can_accept_workers : bool;
}.

(** src: crates/server/domain/src/scheduling/scoring.rs 39-63 ProviderScoreInput::from_provider_info *)
Definition from_provider_info (provider : ProviderId) (type : ProviderType.t)
    (health cost : f64) (startup : Duration) (active max : Z) : t := {|
  provider_id := provider;
  provider_type := type;
  health_score := health;
  cost_per_hour := cost;
  startup_time := startup;
  available_capacity :=
    if max =? 0 then F64.of_Z 0
    else F64.sub (F64.of_Z 1) (F64.div (F64.of_Z active) (F64.of_Z max));
  can_accept_workers := active <? max;
|}.

(** The call every selector makes. *)
Definition of_info (p : ProviderInfo.t) : t :=
  from_provider_info (ProviderInfo.provider_id p) (ProviderInfo.provider_type p)
    (ProviderInfo.health_score p) (ProviderInfo.cost_per_hour p)
    (ProviderInfo.estimated_startup_time p) (ProviderInfo.active_workers p)
    (ProviderInfo.max_workers p).

End score_input.
End ProviderScoreInput.

Module ScoringWeights.

(** src: crates/server/domain/src/scheduling/scoring.rs 73-84 ScoringWeights *)
Record t := mk {
  health : f64;
  cost : f64;
  startup : f64;
  capacity : f64;
  custom : gmap string f64;
}.

#[global] Instance t_rebuild : Rebuild t := fun w =>
  mk (health w) (cost w) (startup w) (capacity w) (custom w).

(** src: crates/server/domain/src/scheduling/scoring.rs 86-96 impl Default for ScoringWeights *)
Definition default : t := mk (F64.lit 25 2) (F64.lit 25 2) (F64.lit 25 2) (F64.lit 25 2) ∅.

(** src: crates/server/domain/src/scheduling/scoring.rs 100-102 ScoringWeights::balanced *)
Definition balanced : t := default.

(** src: crates/server/domain/src/scheduling/scoring.rs 105-113 ScoringWeights::cost_optimized *)
Definition cost_optimized : t := mk (F64.lit 15 2) (F64.lit 5 1) (F64.lit 2 1) (F64.lit 15 2) ∅.

(** src: crates/server/domain/src/scheduling/scoring.rs 116-124 ScoringWeights::performance_optimized *)
Definition performance_optimized : t :=
  mk (F64.lit 2 1) (F64.lit 1 1) (F64.lit 5 1) (F64.lit 2 1) ∅.

(** src: crates/server/domain/src/scheduling/scoring.rs 127-135 ScoringWeights::health_critical *)
Definition health_critical : t := mk (F64.lit 5 1) (F64.lit 15 2) (F64.lit 2 1) (F64.lit 15 2) ∅.

(** src: crates/server/domain/src/scheduling/scoring.rs 138-141 ScoringWeights::with_custom_weight *)
Definition with_custom_weight (name : string) (weight : f64) (w : t) : t :=
  w <| custom := <[name := weight]> (custom w) |>.

(** src: crates/server/domain/src/scheduling/scoring.rs 144-151 ScoringWeights::is_valid *)
Definition is_valid `{MapOrder} (w : t) : bool :=
  let sum := F64.add (F64.add (F64.add (F64.add (health w) (cost w)) (startup w)) (capacity w))
    (fold_left F64.add (map_values (custom w)) (F64.of_Z 0)) in
  F64.ltb (SFabs (F64.sub sum (F64.of_Z 1))) (F64.lit 1 3).

End ScoringWeights.

(** ** Criteria *)

Module ProviderScoring.
Section scoring.
Context `{E : Externs}.

(** A criterion: its name and its score. *)
(** src: crates/server/domain/src/scheduling/scoring.rs 158-178 ProviderScoring *)
Record t := mk { name : string; score : Job.t -> ProviderScoreInput.t -> f64 }.

(** src: crates/server/domain/src/scheduling/scoring.rs 170-177 ProviderScoring::health_penalty *)
Definition health_penalty (health_score : f64) : f64 :=
  if F64.leb (F64.lit 9 1) health_score then F64.of_Z 1
  else if F64.leb (F64.lit 7 1) health_score then F64.lit 12 1
  else if F64.leb (F64.lit 5 1) health_score then F64.lit 15 1
  else F64.of_Z 2.

(** src: crates/server/domain/src/scheduling/scoring.rs 188-212 impl ProviderScoring for CostScoring *)
Definition CostScoring : t := mk "cost" (fun _ p =>
  if negb (ProviderScoreInput.can_accept_workers p) then F64.of_Z 0
  else
    let health_multiplier := health_penalty (ProviderScoreInput.health_score p) in
    let capacity_bonus := F64.sub (F64.of_Z 1)
      (F64.mul (ProviderScoreInput.available_capacity p) (F64.lit 1 1)) in
    let effective_cost := F64.mul
      (F64.mul (ProviderScoreInput.cost_per_hour p) health_multiplier) capacity_bonus in
    if F64.leb effective_cost (F64.of_Z 0) then F64.of_Z 1
    else F64.div (F64.of_Z 1) (F64.add (F64.of_Z 1) effective_cost)).

(** src: crates/server/domain/src/scheduling/scoring.rs 218-242 impl ProviderScoring for StartupTimeScoring *)
Definition StartupTimeScoring : t := mk "startup_time" (fun _ p =>
  if negb (ProviderScoreInput.can_accept_workers p) then F64.of_Z 0
  else
    let health_multiplier := health_penalty (ProviderScoreInput.health_score p) in
    let capacity_penalty := F64.add (F64.of_Z 1)
      (F64.mul (ProviderScoreInput.available_capacity p) (F64.lit 1 1)) in
    let effective_startup_ms := F64.mul
      (F64.mul (F64.of_Z (as_millis (ProviderScoreInput.startup_time p))) health_multiplier)
      capacity_penalty in
    if F64.leb effective_startup_ms (F64.of_Z 0) then F64.of_Z 1
    else F64.div (F64.of_Z 1)
      (F64.add (F64.of_Z 1) (F64.div effective_startup_ms (F64.of_Z 1000)))).

(** src: crates/server/domain/src/scheduling/scoring.rs 248-266 impl ProviderScoring for HealthScoring *)
Definition HealthScoring : t := mk "health" (fun _ p =>
  if negb (ProviderScoreInput.can_accept_workers p) then F64.of_Z 0
  else if F64.ltb (ProviderScoreInput.health_score p) (F64.lit 5 1) then F64.of_Z 0
  else ProviderScoreInput.health_score p).

(** src: crates/server/domain/src/scheduling/scoring.rs 272-284 impl ProviderScoring for CapacityScoring *)
Definition CapacityScoring : t := mk "capacity" (fun _ p =>
  if negb (ProviderScoreInput.can_accept_workers p) then F64.of_Z 0
  else ProviderScoreInput.available_capacity p).

End scoring.
End ProviderScoring.

Module CompositeProviderScoring.
Section composite.
Context `{E : Externs}.

(** src: crates/server/domain/src/scheduling/scoring.rs 289-294 CompositeProviderScoring *)
Record t := mk { criteria : list ProviderScoring.t; weights : ScoringWeights.t }.

(** src: crates/server/domain/src/scheduling/scoring.rs 298-303 CompositeProviderScoring::new *)
Definition new (w : ScoringWeights.t) : t := mk [] w.

(** src: crates/server/domain/src/scheduling/scoring.rs 306-309 CompositeProviderScoring::with_criterion *)
Definition with_criterion (c : ProviderScoring.t) (s : t) : t := mk (criteria s ++ [c]) (weights s).

(** src: crates/server/domain/src/scheduling/scoring.rs 312-314 CompositeProviderScoring::with_cost_scoring *)
Definition with_cost_scoring : t -> t := with_criterion ProviderScoring.CostScoring.
(** src: crates/server/domain/src/scheduling/scoring.rs 317-319 CompositeProviderScoring::with_startup_scoring *)
Definition with_startup_scoring : t -> t := with_criterion ProviderScoring.StartupTimeScoring.
(** src: crates/server/domain/src/scheduling/scoring.rs 322-324 CompositeProviderScoring::with_health_scoring *)
Definition with_health_scoring : t -> t := with_criterion ProviderScoring.HealthScoring.
(** src: crates/server/domain/src/scheduling/scoring.rs 327-329 CompositeProviderScoring::with_capacity_scoring *)
Definition with_capacity_scoring : t -> t := with_criterion ProviderScoring.CapacityScoring.

(** src: crates/server/domain/src/scheduling/scoring.rs 332-337 CompositeProviderScoring::with_balanced_scoring *)
Definition with_balanced_scoring (s : t) : t :=
  with_capacity_scoring (with_health_scoring (with_startup_scoring (with_cost_scoring s))).

(** The weight of a criterion goes by its name. *)
(** src: crates/server/domain/src/scheduling/scoring.rs 358-364 CompositeProviderScoring::score (weight) *)
Definition weight_of (w : ScoringWeights.t) (name : string) : f64 :=
  if String.eqb name "cost" then ScoringWeights.cost w
  else if String.eqb name "startup_time" then ScoringWeights.startup w
  else if String.eqb name "health" then ScoringWeights.health w
  else if String.eqb name "capacity" then ScoringWeights.capacity w
  else default (F64.of_Z 0) (ScoringWeights.custom w !! name).

(** src: crates/server/domain/src/scheduling/scoring.rs 350-392 CompositeProviderScoring::score *)
Definition score (s : t) (job : Job.t) (provider : ProviderScoreInput.t) : f64 :=
  if bool_decide (criteria s = []) then F64.of_Z 0
  else
    let total_weight := fold_left (fun sum c =>
      F64.add sum (weight_of (weights s) (ProviderScoring.name c))) (criteria s) (F64.of_Z 0) in
    if SFeqb total_weight (F64.of_Z 0) then F64.of_Z 0
    else
      let weighted_sum := fold_left (fun sum c =>
        F64.add sum (F64.mul (ProviderScoring.score c job provider)
          (weight_of (weights s) (ProviderScoring.name c)))) (criteria s) (F64.of_Z 0) in
      F64.div weighted_sum total_weight.

End composite.
End CompositeProviderScoring.

(** ** Selectors *)

Module ProviderSelector.
Section selector.
Context `{E : Externs}.

(** The providers with their scores. *)
Definition score_all (score : Job.t -> ProviderScoreInput.t -> f64) (job : Job.t)
    (providers : list ProviderInfo.t) : list (ProviderId * f64) :=
  (fun p => (ProviderInfo.provider_id p, score job (ProviderScoreInput.of_info p))) <$> providers.

(** [a.1 >= b.1], the order of [b.1.partial_cmp(&a.1).unwrap()]. *)
Definition descending (a b : ProviderId * f64) : bool := F64.leb b.2 a.2.

(** The body the four selectors share. The comparison unwraps, but no score that
    passes the filter is a NaN ([positive_not_nan]). *)
(** src: crates/server/domain/src/scheduling/strategies.rs 292-322 LowestCostProviderSelector::select_provider (body) *)
Definition select_provider (scoring : ProviderScoring.t) (job : Job.t)
    (providers : list ProviderInfo.t) : option ProviderId :=
  if bool_decide (providers = []) then None
  else
    let scored := filter (fun s => F64.ltb (F64.of_Z 0) s.2 = true)
      (score_all (ProviderScoring.score scoring) job providers) in
    fst <$> head (sort_by descending scored).

(** src: crates/server/domain/src/scheduling/strategies.rs 291-327 impl ProviderSelector for LowestCostProviderSelector *)
Definition LowestCost : Job.t -> list ProviderInfo.t -> option ProviderId :=
  select_provider ProviderScoring.CostScoring.
(** src: crates/server/domain/src/scheduling/strategies.rs 358-393 impl ProviderSelector for FastestStartupProviderSelector *)
Definition FastestStartup : Job.t -> list ProviderInfo.t -> option ProviderId :=
  select_provider ProviderScoring.StartupTimeScoring.
(** src: crates/server/domain/src/scheduling/strategies.rs 424-459 impl ProviderSelector for MostCapacityProviderSelector *)
Definition MostCapacity : Job.t -> list ProviderInfo.t -> option ProviderId :=
  select_provider ProviderScoring.CapacityScoring.
(** src: crates/server/domain/src/scheduling/strategies.rs 490-525 impl ProviderSelector for HealthiestProviderSelector *)
Definition Healthiest : Job.t -> list ProviderInfo.t -> option ProviderId :=
  select_provider ProviderScoring.HealthScoring.

End selector.
End ProviderSelector.

Module CompositeProviderSelector.
Section selector.
Context `{E : Externs}.

Import CompositeProviderScoring.

(** src: crates/server/domain/src/scheduling/scoring.rs 398-403 CompositeProviderSelector *)
Record t := mk { scoring : CompositeProviderScoring.t; prefer_higher : bool }.

(** src: crates/server/domain/src/scheduling/scoring.rs 407-413 CompositeProviderSelector::balanced *)
Definition balanced : t := mk (with_balanced_scoring (new ScoringWeights.balanced)) true.

(** src: crates/server/domain/src/scheduling/scoring.rs 416-424 CompositeProviderSelector::cost_optimized *)
Definition cost_optimized : t :=
  mk (with_capacity_scoring (with_health_scoring (with_cost_scoring
        (new ScoringWeights.cost_optimized)))) true.

(** src: crates/server/domain/src/scheduling/scoring.rs 427-435 CompositeProviderSelector::performance_optimized *)
Definition performance_optimized : t :=
  mk (with_capacity_scoring (with_health_scoring (with_startup_scoring
        (new ScoringWeights.performance_optimized)))) true.

(** src: crates/server/domain/src/scheduling/scoring.rs 438-446 CompositeProviderSelector::health_optimized *)
Definition health_optimized : t :=
  mk (with_startup_scoring (with_cost_scoring (with_health_scoring
        (new ScoringWeights.health_critical)))) true.

(** src: crates/server/domain/src/scheduling/scoring.rs 449-454 CompositeProviderSelector::custom *)
Definition custom (s : CompositeProviderScoring.t) : t := mk s true.

(** [None] is the panic of the unwrapped comparison: with two scores or more
    every score is compared, and a NaN compares to nothing. *)
(** src: crates/server/domain/src/scheduling/scoring.rs 463-509 CompositeProviderSelector::select_provider *)
Definition select_provider (s : t) (job : Job.t) (providers : list ProviderInfo.t) :
    option (option ProviderId) :=
  if bool_decide (providers = []) then Some None
  else
    let scored := ProviderSelector.score_all (score (scoring s)) job providers in
    if (2 <=? length scored)%nat && existsb (fun x => negb (F64.leb x.2 x.2)) scored then None
    else
      let le := if prefer_higher s then ProviderSelector.descending
                else fun a b => F64.leb a.2 b.2 in
      Some (fst <$> head (sort_by le scored)).

End selector.
End CompositeProviderSelector.

(** ** Properties *)

Lemma insert_sorted_nonempty {A} (le : A -> A -> bool) x l : insert_sorted le x l <> [].
Proof. destruct l; simpl; [done|]. by destruct (le x a). Qed.

Lemma sort_by_nil {A} (le : A -> A -> bool) l : sort_by le l = [] -> l = [].
Proof. destruct l as [|x l]; [done|]. intros H. by apply insert_sorted_nonempty in H. Qed.

(** The first element of a stable sort: a least one, and the first of those. *)
Lemma sort_by_head {A} (P : A -> Prop) (le : A -> A -> bool) l x :
  (forall a b c, P a -> P b -> P c -> le a b = true -> le b c = true -> le a c = true) ->
  (forall a b, P a -> P b -> le a b = false -> le b a = true) ->
  (forall a, P a -> le a a = true) ->
  Forall P l -> head (sort_by le l) = Some x ->
  exists l1 l2, l = l1 ++ x :: l2 /\ Forall (fun y => le x y = true) l /\
    Forall (fun y => le y x = false) l1.
Proof.
  intros Htrans Htotal Hrefl. revert x.
  induction l as [|a l IH]; intros x Hl Hhead; [done|]. apply Forall_cons in Hl as [Ha Hl].
  cbn [sort_by foldr] in Hhead. change (foldr (insert_sorted le) [] l) with (sort_by le l) in Hhead.
  destruct (sort_by le l) as [|y sorted] eqn:Hsort.
  { injection Hhead as <-. apply sort_by_nil in Hsort as ->.
    exists [], []. split_and!; [done|by constructor; auto|constructor]. }
  destruct (IH y Hl eq_refl) as (l1 & l2 & -> & Hy & Hbefore).
  apply Forall_app in Hl as Hl'. destruct Hl' as [_ Hl']. apply Forall_cons in Hl' as [Py _].
  simpl in Hhead. destruct (le a y) eqn:Hay; injection Hhead as <-.
  - exists [], (l1 ++ y :: l2). split_and!; [done| |constructor].
    constructor; [by apply Hrefl|]. rewrite Forall_forall in *.
    intros z Hz. by apply (Htrans a y z); auto.
  - exists (a :: l1), l2. split_and!; [done| |by constructor].
    constructor; [by apply Htotal|done].
Qed.

(** What a filter keeps, in place. *)
Lemma filter_split {A} (P : A -> Prop) `{!forall x, Decision (P x)} l k1 x k2 :
  filter P l = k1 ++ x :: k2 -> exists l1 l2, l = l1 ++ x :: l2 /\ filter P l1 = k1 /\ P x.
Proof.
  revert k1. induction l as [|a l IH]; intros k1 Hl.
  { by destruct k1. }
  rewrite filter_cons in Hl. destruct (decide (P a)) as [Ha|Ha].
  - destruct k1 as [|b k1]; injection Hl as -> Hl.
    + by exists [], l.
    + destruct (IH k1 Hl) as (l1 & l2 & -> & <- & Hx). exists (b :: l1), l2.
      by rewrite filter_cons_True.
  - destruct (IH k1 Hl) as (l1 & l2 & -> & <- & Hx). exists (a :: l1), l2.
    by rewrite filter_cons_False.
Qed.

Section selection.
Context `{E : Externs}.
Import ProviderSelector.

Definition positive (x : f64) : Prop := F64.ltb (F64.of_Z 0) x = true.

(** A positive score is a positive number or infinity, never a NaN. *)
Lemma positive_inv x :
  positive x -> x = S754_infinity false \/ exists m e, x = S754_finite false m e.
Proof. destruct x as [[]|[]| |[] m e]; try done; eauto. Qed.

Lemma positive_not_nan x : positive x -> F64.leb x x = true.
Proof.
  intros [->|(m & e & ->)]%positive_inv; [done|]. unfold F64.leb, SFleb. simpl.
  by rewrite Z.compare_refl, Pos.compare_cont_refl.
Qed.

Lemma positive_leb_spec m1 e1 m2 e2 :
  F64.leb (S754_finite false m1 e1) (S754_finite false m2 e2) = true <->
  e1 < e2 \/ (e1 = e2 /\ (m1 <= m2)%positive).
Proof.
  unfold F64.leb, SFleb. simpl. change (Pos.compare_cont Eq m1 m2) with (m1 ?= m2)%positive.
  destruct (Z.compare_spec e1 e2); [|split; [by left|done]|split; [done|lia]].
  destruct (Pos.compare_spec m1 m2); split; intros; try done; lia.
Qed.

Lemma positive_leb_trans x y z :
  positive x -> positive y -> positive z ->
  F64.leb x y = true -> F64.leb y z = true -> F64.leb x z = true.
Proof.
  intros [->|(m1 & e1 & ->)]%positive_inv [->|(m2 & e2 & ->)]%positive_inv
    [->|(m3 & e3 & ->)]%positive_inv; try done.
  rewrite !positive_leb_spec. lia.
Qed.

Lemma positive_leb_total x y :
  positive x -> positive y -> F64.leb x y = false -> F64.leb y x = true.
Proof.
  intros [->|(m1 & e1 & ->)]%positive_inv [->|(m2 & e2 & ->)]%positive_inv; try done.
  intros Hn. rewrite positive_leb_spec. apply Bool.not_true_iff_false in Hn.
  rewrite positive_leb_spec in Hn. lia.
Qed.

(** The score of a criterion for a provider, as the selectors compute it. *)
Definition score_of (c : ProviderScoring.t) (job : Job.t) (p : ProviderInfo.t) : f64 :=
  ProviderScoring.score c job (ProviderScoreInput.of_info p).

Definition standard (c : ProviderScoring.t) : Prop :=
  c = ProviderScoring.CostScoring \/ c = ProviderScoring.StartupTimeScoring \/
  c = ProviderScoring.HealthScoring \/ c = ProviderScoring.CapacityScoring.

Lemma positive_accepts c job p :
  standard c -> positive (score_of c job p) -> ProviderInfo.can_accept_workers p = true.
Proof.
  unfold score_of, ProviderInfo.can_accept_workers.
  intros [->|[->|[->| ->]]]; simpl;
    destruct (ProviderInfo.active_workers p <? ProviderInfo.max_workers p); simpl; done.
Qed.

Lemma filter_scores c job ps :
  filter (fun s => F64.ltb (F64.of_Z 0) s.2 = true) (score_all (ProviderScoring.score c) job ps) =
    (fun p => (ProviderInfo.provider_id p, score_of c job p)) <$>
      filter (fun p => positive (score_of c job p)) ps.
Proof.
  unfold score_all. induction ps as [|p ps IH]; [done|]. rewrite fmap_cons, !filter_cons, IH.
  unfold positive, score_of in *. simpl. by repeat case_decide.
Qed.

Lemma select_provider_filter c job ps :
  select_provider c job ps = fst <$> head (sort_by descending
    ((fun p => (ProviderInfo.provider_id p, score_of c job p)) <$>
      filter (fun p => positive (score_of c job p)) ps)).
Proof.
  rewrite <- filter_scores. unfold select_provider. case_bool_decide; [by subst|done].
Qed.

Lemma best_score c job ps s :
  head (sort_by descending ((fun p => (ProviderInfo.provider_id p, score_of c job p)) <$>
      filter (fun p => positive (score_of c job p)) ps)) = Some s ->
  exists ps1 p ps2, ps = ps1 ++ p :: ps2 /\ s = (ProviderInfo.provider_id p, score_of c job p) /\
    positive (score_of c job p) /\
    (forall q, q ∈ ps -> positive (score_of c job q) ->
       F64.leb (score_of c job q) (score_of c job p) = true) /\
    (forall q, q ∈ ps1 -> positive (score_of c job q) ->
       F64.leb (score_of c job p) (score_of c job q) = false).
Proof.
  intros Hhead. apply (sort_by_head (fun s => positive s.2)) in Hhead
    as (l1 & l2 & Hsplit & Hbest & Hfirst).
  - apply fmap_app_inv in Hsplit as (k1 & k2' & -> & Hk2 & Hfilter).
    symmetry in Hk2. apply fmap_cons_inv in Hk2 as (p & k2 & -> & Hk2 & ->).
    apply filter_split in Hfilter as (ps1 & ps2 & -> & <- & Hp).
    exists ps1, p, ps2. split_and!; [done|done|done| |].
    + intros q Hq Hpos. rewrite Forall_forall in Hbest.
      apply (Hbest (ProviderInfo.provider_id q, score_of c job q)).
      apply list_elem_of_fmap. exists q. split; [done|]. by apply list_elem_of_filter.
    + intros q Hq Hpos. rewrite Forall_forall in Hfirst.
      apply (Hfirst (ProviderInfo.provider_id q, score_of c job q)).
      apply list_elem_of_fmap. exists q. split; [done|]. by apply list_elem_of_filter.
  - intros [i1 x1] [i2 x2] [i3 x3]. unfold descending. simpl. intros H1 H2 H3 H12 H23.
    by apply (positive_leb_trans x3 x2 x1).
  - intros [i1 x1] [i2 x2]. unfold descending. simpl. intros H1 H2 H12.
    by apply positive_leb_total.
  - intros [i1 x1]. apply positive_not_nan.
  - apply Forall_fmap, Forall_forall. intros p Hp. by apply list_elem_of_filter in Hp as [Hp _].
Qed.

Lemma select_provider_None c job ps :
  select_provider c job ps = None <-> Forall (fun p => ~ positive (score_of c job p)) ps.
Proof.
  rewrite select_provider_filter. split.
  - intros Hnone%fmap_None. apply head_None, sort_by_nil, fmap_nil_inv in Hnone.
    apply Forall_forall. intros p Hp Hpos.
    assert (p ∈ filter (fun p => positive (score_of c job p)) ps) as Hin
      by (by apply list_elem_of_filter).
    rewrite Hnone in Hin. by apply not_elem_of_nil in Hin.
  - intros Hnone. replace (filter (fun p => positive (score_of c job p)) ps)
      with (@nil ProviderInfo.t); [done|]. symmetry.
    induction Hnone as [|p ps Hp _ IH]; [done|]. by rewrite filter_cons_False.
Qed.

Lemma select_provider_Some c job ps i :
  select_provider c job ps = Some i -> exists ps1 p ps2,
    ps = ps1 ++ p :: ps2 /\ i = ProviderInfo.provider_id p /\ positive (score_of c job p) /\
    (forall q, q ∈ ps -> positive (score_of c job q) ->
       F64.leb (score_of c job q) (score_of c job p) = true) /\
    (forall q, q ∈ ps1 -> positive (score_of c job q) ->
       F64.leb (score_of c job p) (score_of c job q) = false).
Proof.
  rewrite select_provider_filter. intros (s & Hs & ->)%fmap_Some.
  apply best_score in Hs as (ps1 & p & ps2 & -> & -> & Hp & Hb & Hf). by exists ps1, p, ps2.
Qed.

(** A provider selector returns a provider exactly when some provider
    has a positive score. What it returns has the best score of all, and is the
    first one with it; with the four criteria of the scheduler it has room for
    another worker. The comparison it unwraps never sees a NaN. *)
Theorem selectors_pick_the_best c job ps :
  (select_provider c job ps = None <-> Forall (fun p => ~ positive (score_of c job p)) ps) /\
  (forall p, positive (score_of c job p) -> F64.leb (score_of c job p) (score_of c job p) = true) /\
  (forall i, select_provider c job ps = Some i -> exists ps1 p ps2,
     ps = ps1 ++ p :: ps2 /\ i = ProviderInfo.provider_id p /\ positive (score_of c job p) /\
     Forall (fun q => positive (score_of c job q) ->
       F64.leb (score_of c job q) (score_of c job p) = true) ps /\
     Forall (fun q => positive (score_of c job q) ->
       F64.leb (score_of c job p) (score_of c job q) = false) ps1 /\
     (standard c -> ProviderInfo.can_accept_workers p = true)).
Proof.
  split_and!; [apply select_provider_None|intros p; apply positive_not_nan|].
  intros i (ps1 & p & ps2 & -> & -> & Hp & Hb & Hf)%select_provider_Some.
  exists ps1, p, ps2. rewrite !Forall_forall. split_and!; try done.
  intros Hstd. by apply (positive_accepts c job p).
Qed.
End selection.
