(* ===== verification/Scheduler.v ===== *)
(** * The scheduler ([crates/server/domain/src/scheduling])

    The value objects of a job's wishes ([value_objects.rs]: the preferred
    provider and the required labels and annotations), the worker selectors
    ([strategies.rs]) and [SmartScheduler] ([mod.rs]), which decides between an
    existing worker, a new worker on some provider, the queue and rejection.
    The round-robin counters are the scheduler's state. *)

From S2P Require Import Prelude Std Externs States JobSpec ProviderApi Job Worker Scoring.

Module ProviderPreferenceError.

(** src: crates/server/domain/src/scheduling/value_objects.rs 221-226 ProviderPreferenceError *)
Inductive t := Empty | InvalidCharacters (chars : string).

(** src: crates/server/domain/src/scheduling/value_objects.rs 228-237 impl fmt::Display for ProviderPreferenceError *)
Definition fmt (e : t) : string :=
  match e with
  | Empty => "Provider preference cannot be empty"
  | InvalidCharacters chars => "Invalid characters in provider preference: " +:+ chars
  end.

End ProviderPreferenceError.

Module ProviderPreference.
Section preference.
Context `{E : Externs}.

(** src: crates/server/domain/src/scheduling/value_objects.rs 33-42 ProviderPreference *)
Record t := mk {
  normalized : string;
  original : string;
  is_provider_id : bool;
  matched_provider_id : option ProviderId;
}.

(** [s] is ASCII where it passes, so that its bytes are its characters. *)
(** src: crates/server/domain/src/scheduling/value_objects.rs 132-157 ProviderPreference::is_uuid_format *)
Definition is_uuid_format (s : string) : bool :=
  (String.length s =? 36)%nat &&
  forallb (fun '(i, c) =>
      if existsb (Nat.eqb i) [8; 13; 18; 23]%nat then Ascii.eqb c "-" else is_ascii_hexdigit c)
    (imap pair (String.list_ascii_of_string s)).

(** [s.replace([' ', '-'], "_")]. *)
Definition underscores (s : string) : string :=
  String.string_of_list_ascii ((fun c => if Ascii.eqb c " " || Ascii.eqb c "-" then "_"%char else c)
    <$> String.list_ascii_of_string s).

(** The known aliases, as (names, canonical name). *)
(** src: crates/server/domain/src/scheduling/value_objects.rs 111-124 ProviderPreference::normalize_optimized (aliases) *)
Definition aliases : list (list string * string) := [
  (["k8s"; "kube"; "kuber"], "kubernetes");
  (["docker"; "containerd"], "docker");
  (["lambda"; "aws-lambda"], "lambda");
  (["ecs"; "aws-ecs"], "ecs");
  (["fargate"; "aws-fargate"], "fargate");
  (["ec2"; "aws-ec2"], "ec2");
  (["gke"; "gcp-k8s"], "kubernetes");
  (["cloudrun"; "gcp-cloudrun"], "cloudrun");
  (["container-apps"; "azure-container-apps"], "container_apps");
  (["azure-functions"; "az-functions"], "azure_functions");
  (["azure-vm"; "azure-vms"], "azure_vm")].

(** src: crates/server/domain/src/scheduling/value_objects.rs 101-127 ProviderPreference::normalize_optimized *)
Definition normalize_optimized (input : string) : string * bool :=
  let lower := to_lowercase input in
  if is_uuid_format lower then (lower, false)
  else
    match find (fun alias => existsb (String.eqb lower) (fst alias)) aliases with
    | Some (_, canonical) => (canonical, true)
    | None => (underscores lower, false)
    end.

(** src: crates/server/domain/src/scheduling/value_objects.rs 49-81 ProviderPreference::new *)
Definition new (input : string) : result ProviderPreferenceError.t t :=
  let trimmed := trim input in
  if is_empty trimmed then Err ProviderPreferenceError.Empty
  else
    let lower := to_lowercase trimmed in
    let by_type := {|
      normalized := fst (normalize_optimized trimmed);
      original := trimmed;
      is_provider_id := false;
      matched_provider_id := None;
    |} in
    if is_uuid_format lower then
      match uuid_parse_str lower with
      | Some uuid => Ok {|
          normalized := lower;
          original := trimmed;
          is_provider_id := true;
          matched_provider_id := Some uuid;
        |}
      | None => Ok by_type
      end
    else Ok by_type.

(** src: crates/server/domain/src/scheduling/value_objects.rs 86-94 ProviderPreference::from_provider_id *)
Definition from_provider_id (provider_id : ProviderId) : t := {|
  normalized := uuid_to_string provider_id;
  original := uuid_to_string provider_id;
  is_provider_id := true;
  matched_provider_id := Some provider_id;
|}.

(** src: crates/server/domain/src/scheduling/value_objects.rs 162-182 ProviderPreference::matches_provider_type *)
Definition matches_provider_type (provider_type : ProviderType.t) (p : t) : bool :=
  let provider_name := ProviderType.name provider_type in
  if String.eqb (normalized p) provider_name then true
  else if str_contains (normalized p) provider_name then true
  else if (3 <=? String.length (normalized p))%nat && str_contains (normalized p) provider_name
  then true
  else false.

(** src: crates/server/domain/src/scheduling/value_objects.rs 187-195 ProviderPreference::matches_provider_id *)
Definition matches_provider_id (provider_id : ProviderId) (p : t) : bool :=
  let by_name := String.eqb (uuid_to_string provider_id) (normalized p) in
  if is_provider_id p then
    match matched_provider_id p with
    | Some matched_id => bool_decide (matched_id = provider_id)
    | None => by_name
    end
  else by_name.

(** src: crates/server/domain/src/scheduling/value_objects.rs 198-200 ProviderPreference::is_specific_provider *)
Definition is_specific_provider (p : t) : bool := is_provider_id p.

End preference.
End ProviderPreference.

Module WorkerRequirementsError.

(** A character is its bytes. *)
(** src: crates/server/domain/src/scheduling/value_objects.rs 665-676 WorkerRequirementsError *)
Inductive t :=
  | EmptyKey
  | EmptyValue
  | ReservedKey (key : string)
  | InvalidKeyCharacter (key char : string)
  | InvalidValueCharacter (value char : string).

(** src: crates/server/domain/src/scheduling/value_objects.rs 678-700 impl fmt::Display for WorkerRequirementsError *)
Definition fmt (e : t) : string :=
  match e with
  | EmptyKey => "Label/annotation key cannot be empty"
  | EmptyValue => "Label/annotation value cannot be empty"
  | ReservedKey key => "Key '" +:+ key +:+ "' uses reserved kubernetes prefix"
  | InvalidKeyCharacter key char =>
      "Key '" +:+ key +:+ "' contains invalid character: '" +:+ char +:+ "'"
  | InvalidValueCharacter value char =>
      "Value '" +:+ value +:+ "' contains invalid character: '" +:+ char +:+ "'"
  end.

End WorkerRequirementsError.

Module WorkerRequirements.
Section requirements.
Context `{E : Externs} {M : MapOrder}.

(** src: crates/server/domain/src/scheduling/value_objects.rs 497-502 WorkerRequirements *)
Record t := mk {
  required_labels : gmap string string;
  required_annotations : gmap string string;
}.

(** The first character that is neither alphanumeric nor one of [allowed]. *)
Definition invalid_char (allowed s : string) : option string :=
  find (fun c => negb (is_alphanumeric c) && negb (str_contains c allowed)) (chars s).

(** src: crates/server/domain/src/scheduling/value_objects.rs 542-566 WorkerRequirements::validate_label_or_annotation_key *)
Definition validate_label_or_annotation_key (key : string) :
    result WorkerRequirementsError.t unit :=
  let trimmed := trim key in
  if is_empty trimmed then Err WorkerRequirementsError.EmptyKey
  else if starts_with "kubernetes.io/" trimmed || starts_with "kubernetes.io/" trimmed then
    Err (WorkerRequirementsError.ReservedKey key)
  else
    match invalid_char "-_./" trimmed with
    | Some c => Err (WorkerRequirementsError.InvalidKeyCharacter key c)
    | None => Ok tt
    end.

(** src: crates/server/domain/src/scheduling/value_objects.rs 569-587 WorkerRequirements::validate_label_or_annotation_value *)
Definition validate_label_or_annotation_value (value : string) :
    result WorkerRequirementsError.t unit :=
  let trimmed := trim value in
  if is_empty trimmed then Err WorkerRequirementsError.EmptyValue
  else
    match invalid_char "-_./?*" trimmed with
    | Some c => Err (WorkerRequirementsError.InvalidValueCharacter value c)
    | None => Ok tt
    end.

(** The entries of a map in the order of its iteration, up to the first invalid one. *)
Fixpoint validate_entries (entries : list (string * string)) :
    result WorkerRequirementsError.t unit :=
  match entries with
  | [] => Ok tt
  | (key, value) :: entries =>
      _ ← validate_label_or_annotation_key key;
      _ ← validate_label_or_annotation_value value;
      validate_entries entries
  end.

(** src: crates/server/domain/src/scheduling/value_objects.rs 506-526 WorkerRequirements::new *)
Definition new (labels annotations : gmap string string) :
    result WorkerRequirementsError.t t :=
  _ ← validate_entries (map_entries labels);
  _ ← validate_entries (map_entries annotations);
  mret (mk labels annotations).

(** src: crates/server/domain/src/scheduling/value_objects.rs 529-534 WorkerRequirements::none *)
Definition none : t := mk ∅ ∅.

(** Every required entry is among those given. *)
Definition entries_match (required given : gmap string string) : bool :=
  forallb (fun '(key, value) => bool_decide (given !! key = Some value)) (map_entries required).

(** src: crates/server/domain/src/scheduling/value_objects.rs 615-635 WorkerRequirements::matches_spec *)
Definition matches_spec (spec : WorkerSpec.t) (r : t) : bool :=
  entries_match (required_labels r) (WorkerSpec.labels spec) &&
  entries_match (required_annotations r) (WorkerSpec.annotations spec).

(** src: crates/server/domain/src/scheduling/value_objects.rs 590-612 WorkerRequirements::matches *)
Definition matches (worker : Worker.t) (r : t) : bool := matches_spec (Worker.spec worker) r.

(** src: crates/server/domain/src/scheduling/value_objects.rs 658-660 WorkerRequirements::has_requirements *)
Definition has_requirements (r : t) : bool :=
  negb (bool_decide (required_labels r = ∅)) || negb (bool_decide (required_annotations r = ∅)).

End requirements.
End WorkerRequirements.

(** ** Strategies and decisions *)

Module WorkerSelectionStrategy.
(** src: crates/server/domain/src/scheduling/strategies.rs 189-200 WorkerSelectionStrategy *)
Inductive t := FirstAvailable | LeastLoaded | MostCapacity | RoundRobin | Affinity.
End WorkerSelectionStrategy.

Module ProviderSelectionStrategy.
(** src: crates/server/domain/src/scheduling/strategies.rs 204-217 ProviderSelectionStrategy *)
Inductive t := FirstAvailable | LowestCost | FastestStartup | MostCapacity | RoundRobin | Healthiest.
End ProviderSelectionStrategy.

Module SchedulingDecision.
Section decision.
Context `{E : Externs}.

(** src: crates/server/domain/src/scheduling/strategies.rs 42-56 SchedulingDecision *)
Inductive t :=
  | AssignToWorker (job_id : JobId) (worker_id : WorkerId)
  | ProvisionWorker (job_id : JobId) (provider_id : ProviderId)
  | Enqueue (job_id : JobId) (reason : string)
  | Reject (job_id : JobId) (reason : string).

End decision.
End SchedulingDecision.

Module SchedulingContext.
Section context.
Context `{E : Externs}.

(** src: crates/server/domain/src/scheduling/strategies.rs 60-73 SchedulingContext *)
Record t := mk {
  job : Job.t;
  job_preferences : JobPreferences.t;
  available_workers : list Worker.t;
  available_providers : list ProviderInfo.t;
  pending_jobs_count : Z;
  system_load : f64;
}.

End context.
End SchedulingContext.

(** ** Worker selectors *)

Module WorkerSelector.
Section selector.
Context `{E : Externs}.

Definition accepts (w : Worker.t) : bool := WorkerState.can_accept_jobs (Worker.state w).

(** src: crates/server/domain/src/scheduling/strategies.rs 227-238 impl WorkerSelector for FirstAvailableWorkerSelector *)
Definition FirstAvailable (workers : list Worker.t) : option WorkerId :=
  Worker.id <$> find accepts workers.

(** [Iterator::min_by_key]: the first of several least elements. *)
Definition min_by_key {X} (key : X -> Z) (l : list X) : option X :=
  match l with
  | [] => None
  | x :: l => Some (fold_left (fun best y => if key y <? key best then y else best) l x)
  end.

(** src: crates/server/domain/src/scheduling/strategies.rs 244-256 impl WorkerSelector for LeastLoadedWorkerSelector *)
Definition LeastLoaded (workers : list Worker.t) : option WorkerId :=
  Worker.id <$> min_by_key Worker.jobs_executed (filter (fun w => accepts w = true) workers).

End selector.
End WorkerSelector.

(** ** [SmartScheduler] *)

Module SchedulerConfig.

(** src: crates/server/domain/src/scheduling/mod.rs 45-59 SchedulerConfig *)
Record t := mk {
  worker_strategy : WorkerSelectionStrategy.t;
  provider_strategy : ProviderSelectionStrategy.t;
  max_queue_depth : Z;
  scale_up_load_threshold : f64;
  prefer_existing_workers : bool;
}.

(** src: crates/server/domain/src/scheduling/mod.rs 61-73 impl Default for SchedulerConfig *)
Definition default : t := {|
  worker_strategy := WorkerSelectionStrategy.LeastLoaded;
  provider_strategy := ProviderSelectionStrategy.FastestStartup;
  max_queue_depth := 100;
  scale_up_load_threshold := F64.lit 8 1;
  prefer_existing_workers := false;
|}.

End SchedulerConfig.

Module SmartScheduler.
Section scheduler.
Context `{E : Externs} {M : MapOrder}.

(** src: crates/server/domain/src/scheduling/mod.rs 86-90 SmartScheduler *)
Record t := mk {
  config : SchedulerConfig.t;
  round_robin_worker_index : Z;
  round_robin_provider_index : Z;
}.

#[global] Instance t_rebuild : Rebuild t := fun s =>
  mk (config s) (round_robin_worker_index s) (round_robin_provider_index s).

(** src: crates/server/domain/src/scheduling/mod.rs 94-100 SmartScheduler::new *)
Definition new (c : SchedulerConfig.t) : t := mk c 0 0.

(** The preferred provider of a job, where it names one; [Err] is a name that is
    not valid. *)
Definition preference_of (job : Job.t) : option (result ProviderPreferenceError.t ProviderPreference.t) :=
  ProviderPreference.new <$> JobPreferences.preferred_provider (JobSpec.preferences (Job.spec job)).

(** [l[index % l.len()]] for a list that is not empty. *)
Definition round_robin {X} (index : Z) (l : list X) : option X :=
  l !! Z.to_nat (index mod Z.of_nat (length l)).

(** The first two steps of [select_worker]: who accepts jobs, runs on the preferred
    provider and has the required labels and annotations. *)
(** src: crates/server/domain/src/scheduling/mod.rs 108-147 SmartScheduler::select_worker (filters) *)
Definition eligible_workers (job : Job.t) (workers : list Worker.t) : list Worker.t :=
  let preferences := JobSpec.preferences (Job.spec job) in
  let worker_requirements := WorkerRequirements.new (JobPreferences.required_labels preferences)
    (JobPreferences.required_annotations preferences) in
  let eligible :=
    match preference_of job with
    | Some pref =>
        filter (fun w =>
          match pref with
          | Ok p => ProviderPreference.matches_provider_type (Worker.provider_type w) p
          | Err _ => false
          end && WorkerSelector.accepts w = true) workers
    | None => filter (fun w => WorkerSelector.accepts w = true) workers
    end in
  match worker_requirements with
  | Ok req =>
      if WorkerRequirements.has_requirements req
      then filter (fun w => WorkerRequirements.matches w req = true) eligible
      else eligible
  | Err _ => eligible
  end.

(** src: crates/server/domain/src/scheduling/mod.rs 103-194 SmartScheduler::select_worker *)
Definition select_worker (job : Job.t) (workers : list Worker.t) (s : t) : t * option WorkerId :=
  if bool_decide (workers = []) then (s, None)
  else
    let eligible := eligible_workers job workers in
    if bool_decide (eligible = []) then (s, None)
    else
      match SchedulerConfig.worker_strategy (config s) with
      | WorkerSelectionStrategy.FirstAvailable => (s, WorkerSelector.FirstAvailable eligible)
      | WorkerSelectionStrategy.LeastLoaded => (s, WorkerSelector.LeastLoaded eligible)
      | WorkerSelectionStrategy.RoundRobin =>
          let index := round_robin_worker_index s in
          (s <| round_robin_worker_index := u64_add index 1 |>,
           Worker.id <$> round_robin index eligible)
      | WorkerSelectionStrategy.MostCapacity => (s, WorkerSelector.LeastLoaded eligible)
      | WorkerSelectionStrategy.Affinity =>
          let job_image := JobSpec.image (Job.spec job) in
          let by_image := find (fun w =>
            match WorkerSpec.labels (Worker.spec w) !! "image_type" with
            | Some image_type => bool_decide (Some image_type = job_image)
            | None => false
            end) eligible in
          (s, Worker.id <$>
                match by_image with
                | Some w => Some w
                | None => find WorkerSelector.accepts eligible
                end)
      end.

(** src: crates/server/domain/src/scheduling/mod.rs 197-235 SmartScheduler::select_provider *)
Definition select_provider (job : Job.t) (providers : list ProviderInfo.t) (s : t) :
    t * option ProviderId :=
  if bool_decide (providers = []) then (s, None)
  else
    match SchedulerConfig.provider_strategy (config s) with
    | ProviderSelectionStrategy.FirstAvailable =>
        (s, ProviderInfo.provider_id <$> find ProviderInfo.can_accept_workers providers)
    | ProviderSelectionStrategy.LowestCost => (s, ProviderSelector.LowestCost job providers)
    | ProviderSelectionStrategy.FastestStartup => (s, ProviderSelector.FastestStartup job providers)
    | ProviderSelectionStrategy.MostCapacity => (s, ProviderSelector.MostCapacity job providers)
    | ProviderSelectionStrategy.RoundRobin =>
        let available := filter (fun p => ProviderInfo.can_accept_workers p = true) providers in
        if bool_decide (available = []) then (s, None)
        else
          let index := round_robin_provider_index s in
          (s <| round_robin_provider_index := u64_add index 1 |>,
           ProviderInfo.provider_id <$> round_robin index available)
    | ProviderSelectionStrategy.Healthiest => (s, ProviderSelector.Healthiest job providers)
    end.

(** The provider a job prefers, by type or by identifier, if it has room. *)
(** src: crates/server/domain/src/scheduling/mod.rs 370-437 SmartScheduler::select_provider_with_preferences (preferred) *)
Definition preferred_provider (job : Job.t) (providers : list ProviderInfo.t) :
    option ProviderInfo.t :=
  match preference_of job with
  | Some (Ok pref) =>
      find (fun p =>
        (ProviderPreference.matches_provider_type (ProviderInfo.provider_type p) pref
         || (if ProviderPreference.is_specific_provider pref
             then ProviderPreference.matches_provider_id (ProviderInfo.provider_id p) pref
             else false))
        && ProviderInfo.can_accept_workers p) providers
  | _ => None
  end.

(** The region preference is only logged. *)
(** src: crates/server/domain/src/scheduling/mod.rs 341-472 SmartScheduler::select_provider_with_preferences *)
Definition select_provider_with_preferences (job : Job.t) (providers : list ProviderInfo.t)
    (s : t) : t * option ProviderId :=
  let filtered :=
    if JobResources.gpu_required (JobSpec.resources (Job.spec job))
    then filter (fun p => ProviderInfo.can_handle_gpu_requirement 1 p = true) providers
    else providers in
  if bool_decide (filtered = []) then (s, None)
  else
    match preferred_provider job filtered with
    | Some p => (s, Some (ProviderInfo.provider_id p))
    | None => select_provider job filtered s
    end.

(** The workers [schedule] offers to [select_worker]. *)
(** src: crates/server/domain/src/scheduling/mod.rs 258-299 SmartScheduler::schedule (workers) *)
Definition offered_workers (job : Job.t) (workers : list Worker.t) : list Worker.t :=
  match preference_of job with
  | Some pref =>
      filter (fun w =>
        match pref with
        | Ok p => ProviderPreference.matches_provider_type (Worker.provider_type w) p
        | Err _ => true
        end = true) workers
  | None => workers
  end.

(** src: crates/server/domain/src/scheduling/mod.rs 240-329 SmartScheduler::schedule *)
Definition schedule (context : SchedulingContext.t) (s : t) : t * SchedulingDecision.t :=
  let job := SchedulingContext.job context in
  let job_id := Job.id job in
  let max_depth := SchedulerConfig.max_queue_depth (config s) in
  if max_depth <? SchedulingContext.pending_jobs_count context then
    (s, SchedulingDecision.Reject job_id
          ("Queue depth " +:+ show_Z (SchedulingContext.pending_jobs_count context)
           +:+ " exceeds max " +:+ show_Z max_depth))
  else
    let workers := SchedulingContext.available_workers context in
    let '(s, selected) :=
      if bool_decide (workers = []) then (s, None)
      else select_worker job (offered_workers job workers) s in
    match selected with
    | Some worker_id => (s, SchedulingDecision.AssignToWorker job_id worker_id)
    | None =>
        let '(s, provider) :=
          select_provider_with_preferences job (SchedulingContext.available_providers context) s in
        match provider with
        | Some provider_id => (s, SchedulingDecision.ProvisionWorker job_id provider_id)
        | None =>
            if F64.ltb (SchedulerConfig.scale_up_load_threshold (config s))
                 (SchedulingContext.system_load context)
            then (s, SchedulingDecision.Enqueue job_id
                       "System under high load, enqueueing for later")
            else (s, SchedulingDecision.Enqueue job_id "No providers available for job")
        end
    end.

End scheduler.
End SmartScheduler.

(** ** Properties *)

Section properties.
Context `{E : Externs} {M : MapOrder}.
Import SmartScheduler.

(** A worker the job may be given to: it accepts jobs, runs on the preferred
    provider, and has the required labels and annotations, if these are valid. *)
Definition suitable_worker (job : Job.t) (w : Worker.t) : Prop :=
  let preferences := JobSpec.preferences (Job.spec job) in
  let labels := JobPreferences.required_labels preferences in
  let annotations := JobPreferences.required_annotations preferences in
  WorkerState.can_accept_jobs (Worker.state w) = true /\
  match preference_of job with
  | Some (Ok p) => ProviderPreference.matches_provider_type (Worker.provider_type w) p = true
  | Some (Err _) => False
  | None => True
  end /\
  (is_ok (WorkerRequirements.new labels annotations) = true ->
     labels ⊆ WorkerSpec.labels (Worker.spec w) /\
     annotations ⊆ WorkerSpec.annotations (Worker.spec w)).

(** A provider the job may get a worker on. *)
Definition suitable_provider (job : Job.t) (p : ProviderInfo.t) : Prop :=
  ProviderInfo.can_accept_workers p = true /\
  (JobResources.gpu_required (JobSpec.resources (Job.spec job)) = true ->
     ProviderInfo.gpu_support p = true).

(** What the strategy of the scheduler asks of a suitable provider. *)
Definition strategy_accepts (s : ProviderSelectionStrategy.t) (job : Job.t) (p : ProviderInfo.t) :
    Prop :=
  match s with
  | ProviderSelectionStrategy.FirstAvailable | ProviderSelectionStrategy.RoundRobin => True
  | ProviderSelectionStrategy.LowestCost => positive (score_of ProviderScoring.CostScoring job p)
  | ProviderSelectionStrategy.FastestStartup =>
      positive (score_of ProviderScoring.StartupTimeScoring job p)
  | ProviderSelectionStrategy.MostCapacity =>
      positive (score_of ProviderScoring.CapacityScoring job p)
  | ProviderSelectionStrategy.Healthiest => positive (score_of ProviderScoring.HealthScoring job p)
  end.

Lemma entries_match_spec required given :
  WorkerRequirements.entries_match required given = true <-> required ⊆ given.
Proof.
  unfold WorkerRequirements.entries_match. rewrite forallb_forall, map_subseteq_spec. split.
  - intros H k v Hkv. specialize (H (k, v)). apply bool_decide_eq_true in H; [done|].
    apply list_elem_of_In. rewrite map_entries_perm. by apply elem_of_map_to_list.
  - intros H [k v] Hkv. apply bool_decide_eq_true, H. apply list_elem_of_In in Hkv.
    rewrite map_entries_perm in Hkv. by apply elem_of_map_to_list in Hkv.
Qed.

Lemma requirements_new_ok labels annotations r :
  WorkerRequirements.new labels annotations = Ok r -> r = WorkerRequirements.mk labels annotations.
Proof.
  unfold WorkerRequirements.new. intros H.
  apply result_bind_inv in H as (? & _ & H). apply result_bind_inv in H as (? & _ & H).
  by injection H.
Qed.

Lemma requirements_match w labels annotations :
  WorkerRequirements.matches w (WorkerRequirements.mk labels annotations) = true <->
  labels ⊆ WorkerSpec.labels (Worker.spec w) /\
  annotations ⊆ WorkerSpec.annotations (Worker.spec w).
Proof.
  unfold WorkerRequirements.matches, WorkerRequirements.matches_spec.
  by rewrite andb_true_iff, !entries_match_spec.
Qed.

Lemma elem_of_eligible job ws w :
  w ∈ eligible_workers job ws <-> w ∈ ws /\ suitable_worker job w.
Proof.
  unfold eligible_workers, suitable_worker.
  set (labels := JobPreferences.required_labels _).
  set (annotations := JobPreferences.required_annotations _).
  assert (forall base : list Worker.t, (w ∈ match WorkerRequirements.new labels annotations with
    | Ok req => if WorkerRequirements.has_requirements req
        then filter (fun w => WorkerRequirements.matches w req = true) base else base
    | Err _ => base end) <-> w ∈ base /\
      (is_ok (WorkerRequirements.new labels annotations) = true ->
       labels ⊆ WorkerSpec.labels (Worker.spec w) /\
       annotations ⊆ WorkerSpec.annotations (Worker.spec w))) as Hreq.
  { intros base. destruct (WorkerRequirements.new labels annotations) as [r|e] eqn:Hnew;
      [|simpl; intuition congruence].
    apply requirements_new_ok in Hnew as ->.
    destruct (WorkerRequirements.has_requirements _) eqn:Hhas.
    - rewrite list_elem_of_filter, requirements_match. simpl. intuition congruence.
    - unfold WorkerRequirements.has_requirements in Hhas. simpl in *.
      apply orb_false_iff in Hhas as [H1%negb_false_iff%bool_decide_eq_true
        H2%negb_false_iff%bool_decide_eq_true].
      rewrite H1, H2. split; [|tauto]. intros Hw. split; [done|]. split; apply map_empty_subseteq. }
  rewrite Hreq. unfold WorkerSelector.accepts.
  destruct (preference_of job) as [[p|e]|]; rewrite list_elem_of_filter, ?andb_true_iff;
    intuition congruence.
Qed.

Lemma find_elem {X} (f : X -> bool) l x : find f l = Some x -> x ∈ l /\ f x = true.
Proof. intros [H1 H2]%find_some. by rewrite list_elem_of_In. Qed.

Lemma find_nonempty {X} (f : X -> bool) l :
  l <> [] -> (forall x, x ∈ l -> f x = true) -> exists x, find f l = Some x.
Proof.
  destruct l as [|x l]; [done|]. intros _ H. exists x. simpl.
  rewrite (H x); [done|by left].
Qed.

Lemma fold_min_elem {X} (key : X -> Z) l x :
  fold_left (fun best y => if key y <? key best then y else best) l x ∈ x :: l.
Proof.
  revert x. induction l as [|y l IH]; intros x; [by left|]. simpl.
  specialize (IH (if key y <? key x then y else x)).
  apply elem_of_cons in IH as [-> |IH]; [|by do 2 right].
  destruct (key y <? key x); [right; left|left].
Qed.

Lemma min_by_key_elem {X} (key : X -> Z) (l : list X) :
  l <> [] -> exists x, WorkerSelector.min_by_key key l = Some x /\ x ∈ l.
Proof.
  destruct l as [|x l]; [done|]. intros _. eexists. split; [done|]. apply fold_min_elem.
Qed.

Lemma round_robin_elem {X} index (l : list X) :
  l <> [] -> exists x, round_robin index l = Some x /\ x ∈ l.
Proof.
  intros Hl. unfold round_robin.
  assert (0 < Z.of_nat (length l)) as Hpos by (destruct l; [done|simpl; lia]).
  destruct (lookup_lt_is_Some_2 l (Z.to_nat (index mod Z.of_nat (length l)))) as [x Hx].
  - pose proof (Z.mod_pos_bound index _ Hpos). lia.
  - exists x. split; [done|]. by eapply list_elem_of_lookup_2.
Qed.

Lemma select_worker_spec job ws s :
  config (fst (select_worker job ws s)) = config s /\
  match snd (select_worker job ws s) with
  | Some i => exists w, w ∈ ws /\ suitable_worker job w /\ Worker.id w = i
  | None => forall w, w ∈ ws -> ~ suitable_worker job w
  end.
Proof.
  unfold select_worker. case_bool_decide as Hnil; [subst; split; [done|]; simpl; set_solver|].
  case_bool_decide as Hel.
  { split; [done|]. simpl. intros w Hw Hsuit.
    assert (w ∈ eligible_workers job ws) as Hin by (by apply elem_of_eligible).
    rewrite Hel in Hin. by apply not_elem_of_nil in Hin. }
  assert (forall o, (exists w, o = Some w /\ w ∈ eligible_workers job ws) ->
    match Worker.id <$> o with
    | Some i => exists w, w ∈ ws /\ suitable_worker job w /\ Worker.id w = i
    | None => forall w, w ∈ ws -> ~ suitable_worker job w
    end) as Hsel.
  { intros o (w & -> & Hw). simpl. exists w. apply elem_of_eligible in Hw. tauto. }
  assert (forall w, w ∈ eligible_workers job ws -> WorkerSelector.accepts w = true) as Hacc.
  { intros w Hw. apply elem_of_eligible in Hw. apply Hw. }
  assert (exists w, find WorkerSelector.accepts (eligible_workers job ws) = Some w /\
    w ∈ eligible_workers job ws) as Hfirst.
  { destruct (find_nonempty _ _ Hel Hacc) as [w Hw]. exists w. split; [done|].
    by apply find_elem in Hw as [Hw _]. }
  assert (exists w, WorkerSelector.min_by_key Worker.jobs_executed
    (filter (fun w => WorkerSelector.accepts w = true) (eligible_workers job ws)) = Some w /\
    w ∈ eligible_workers job ws) as Hleast.
  { destruct (min_by_key_elem Worker.jobs_executed
      (filter (fun w => WorkerSelector.accepts w = true) (eligible_workers job ws)))
      as (w & Hw & Hin).
    - destruct Hfirst as (w & _ & Hw). intros Hf.
      assert (w ∈ filter (fun w => WorkerSelector.accepts w = true) (eligible_workers job ws))
        as Hin by (apply list_elem_of_filter; auto).
      rewrite Hf in Hin. by apply not_elem_of_nil in Hin.
    - exists w. split; [done|]. by apply list_elem_of_filter in Hin as [_ Hin]. }
  destruct (SchedulerConfig.worker_strategy (config s)); (split; [done|]); simpl; apply Hsel;
    try done.
  - by apply round_robin_elem.
  - match goal with |- context [match ?o with Some _ => _ | None => _ end] =>
      destruct o as [w|] eqn:Hf end; [|exact Hfirst].
    apply find_elem in Hf as [Hf _]. eauto.
Qed.
Lemma criterion_chosen c job ps :
  standard c ->
  match ProviderSelector.select_provider c job ps with
  | Some i => exists p, p ∈ ps /\ ProviderInfo.provider_id p = i /\
      ProviderInfo.can_accept_workers p = true /\ positive (score_of c job p)
  | None => forall p, p ∈ ps -> ~ positive (score_of c job p)
  end.
Proof.
  intros Hc. destruct (ProviderSelector.select_provider c job ps) as [i|] eqn:Hsel.
  - apply select_provider_Some in Hsel as (ps1 & p & ps2 & -> & -> & Hp & _).
    exists p. split_and!; [set_solver|done|by eapply positive_accepts|done].
  - apply select_provider_None in Hsel. rewrite Forall_forall in Hsel. exact Hsel.
Qed.

Lemma select_provider_spec job ps s :
  match snd (select_provider job ps s) with
  | Some i => exists p, p ∈ ps /\ ProviderInfo.provider_id p = i /\
      ProviderInfo.can_accept_workers p = true /\
      strategy_accepts (SchedulerConfig.provider_strategy (config s)) job p
  | None => forall p, p ∈ ps -> ProviderInfo.can_accept_workers p = true ->
      ~ strategy_accepts (SchedulerConfig.provider_strategy (config s)) job p
  end.
Proof.
  unfold select_provider, ProviderSelector.LowestCost, ProviderSelector.FastestStartup,
    ProviderSelector.MostCapacity, ProviderSelector.Healthiest.
  case_bool_decide as Hnil; [subst; set_solver|].
  destruct (SchedulerConfig.provider_strategy (config s)); cbn [snd strategy_accepts].
  - destruct (find _ ps) as [p|] eqn:Hf; simpl.
    + apply find_elem in Hf as [Hp Hf]. eauto.
    + intros p Hp Hacc _. apply list_elem_of_In in Hp.
      by rewrite (List.find_none _ _ Hf p Hp) in Hacc.
  - pose proof (criterion_chosen ProviderScoring.CostScoring job ps ltac:(by left)) as H.
    destruct (ProviderSelector.select_provider _ job ps); [exact H|intros p Hp _; by apply H].
  - pose proof (criterion_chosen ProviderScoring.StartupTimeScoring job ps
      ltac:(unfold standard; tauto)) as H.
    destruct (ProviderSelector.select_provider _ job ps); [exact H|intros p Hp _; by apply H].
  - pose proof (criterion_chosen ProviderScoring.CapacityScoring job ps
      ltac:(unfold standard; tauto)) as H.
    destruct (ProviderSelector.select_provider _ job ps); [exact H|intros p Hp _; by apply H].
  - case_bool_decide as Havail; cbn [snd].
    + intros p Hp Hacc _. assert (p ∈ filter (fun p => ProviderInfo.can_accept_workers p = true) ps)
        as Hin by (by apply list_elem_of_filter).
      rewrite Havail in Hin. by apply not_elem_of_nil in Hin.
    + destruct (round_robin_elem (round_robin_provider_index s) _ Havail) as (p & -> & Hp).
      simpl. apply list_elem_of_filter in Hp as [Hacc Hp]. eauto.
  - pose proof (criterion_chosen ProviderScoring.HealthScoring job ps
      ltac:(unfold standard; tauto)) as H.
    destruct (ProviderSelector.select_provider _ job ps); [exact H|intros p Hp _; by apply H].
Qed.
(** The provider the job asks for, by type or by identifier. *)
Definition asked_for (job : Job.t) (p : ProviderInfo.t) : Prop :=
  match preference_of job with
  | Some (Ok pref) =>
      ProviderPreference.matches_provider_type (ProviderInfo.provider_type p) pref = true \/
      (ProviderPreference.is_specific_provider pref = true /\
       ProviderPreference.matches_provider_id (ProviderInfo.provider_id p) pref = true)
  | _ => False
  end.

Lemma preferred_provider_spec job ps :
  match preferred_provider job ps with
  | Some p => p ∈ ps /\ ProviderInfo.can_accept_workers p = true /\ asked_for job p
  | None => forall p, p ∈ ps -> ProviderInfo.can_accept_workers p = true -> ~ asked_for job p
  end.
Proof.
  unfold preferred_provider, asked_for. destruct (preference_of job) as [[pref|]|]; [|tauto..].
  destruct (find _ ps) as [p|] eqn:Hf.
  - apply find_elem in Hf as [Hp [Hm Hacc]%andb_true_iff]. split_and!; [done|done|].
    apply orb_true_iff in Hm as [Hm|Hm]; [by left|right].
    by destruct (ProviderPreference.is_specific_provider pref).
  - intros p Hp Hacc Hask. apply list_elem_of_In in Hp.
    pose proof (List.find_none _ _ Hf p Hp) as Hnone. simpl in Hnone.
    rewrite Hacc in Hnone. destruct Hask as [Hm|[H1 H2]].
    + by rewrite Hm in Hnone.
    + rewrite H1, H2, orb_true_r in Hnone. done.
Qed.

Lemma elem_of_gpu_filter job (ps : list ProviderInfo.t) p :
  p ∈ (if JobResources.gpu_required (JobSpec.resources (Job.spec job))
       then filter (fun p => ProviderInfo.can_handle_gpu_requirement 1 p = true) ps else ps) <->
  p ∈ ps /\ (JobResources.gpu_required (JobSpec.resources (Job.spec job)) = true ->
     ProviderInfo.gpu_support p = true).
Proof.
  destruct (JobResources.gpu_required _).
  - rewrite list_elem_of_filter. unfold ProviderInfo.can_handle_gpu_requirement. simpl.
    destruct (ProviderInfo.gpu_support p); intuition congruence.
  - intuition congruence.
Qed.

Lemma select_with_preferences_spec job ps s :
  match snd (select_provider_with_preferences job ps s) with
  | Some i => exists p, p ∈ ps /\ ProviderInfo.provider_id p = i /\ suitable_provider job p /\
      (asked_for job p \/
       (strategy_accepts (SchedulerConfig.provider_strategy (config s)) job p /\
        forall q, q ∈ ps -> suitable_provider job q -> ~ asked_for job q))
  | None => forall p, p ∈ ps -> suitable_provider job p ->
      ~ asked_for job p /\ ~ strategy_accepts (SchedulerConfig.provider_strategy (config s)) job p
  end.
Proof.
  unfold select_provider_with_preferences, suitable_provider.
  pose proof (elem_of_gpu_filter job ps) as Hgpu.
  set (fit := if JobResources.gpu_required _ then _ else ps) in *.
  case_bool_decide as Hnil.
  { cbn [snd]. intros p Hp [_ Hg]. assert (p ∈ fit) as Hin by (by apply Hgpu).
    rewrite Hnil in Hin. by apply not_elem_of_nil in Hin. }
  pose proof (preferred_provider_spec job fit) as Hpref.
  destruct (preferred_provider job fit) as [p|].
  - cbn [snd]. destruct Hpref as ([Hp Hg]%Hgpu & Hacc & Hask). exists p. tauto.
  - pose proof (select_provider_spec job fit s) as Hsel.
    destruct (snd (select_provider job fit s)) as [i|].
    + destruct Hsel as (p & [Hp Hg]%Hgpu & Hi & Hacc & Hstrat). exists p.
      split_and!; try done. right. split; [done|]. intros q Hq [Hqa Hqg].
      apply Hpref; [by apply Hgpu|done].
    + intros p Hp [Hacc Hg]. assert (p ∈ fit) as Hin by (by apply Hgpu). auto.
Qed.

Lemma offered_workers_suitable job (ws : list Worker.t) w :
  w ∈ offered_workers job ws /\ suitable_worker job w <-> w ∈ ws /\ suitable_worker job w.
Proof.
  unfold offered_workers, suitable_worker.
  destruct (preference_of job) as [[p|e]|]; rewrite ?list_elem_of_filter; intuition congruence.
Qed.

(** C33: what the scheduler decides is right and complete. It rejects
    exactly when too many jobs wait. Otherwise it assigns the job to one of the
    available workers that suits it, if there is one; provisions a worker on a
    suitable provider, one the job asks for if there is one, and else one its
    strategy accepts; and only enqueues the job when no worker suits it and no
    suitable provider is asked for or accepted. A suitable worker accepts jobs,
    runs on the preferred provider and, if the labels and annotations that the job asks
    for are all valid, has the required labels; a suitable provider has room, and GPUs
    if the job needs one.  If one of the labels or annotations is not valid, none is
    required. *)
Theorem schedule_decides_soundly context s :
  let job := SchedulingContext.job context in
  let strategy := SchedulerConfig.provider_strategy (config s) in
  let too_many := SchedulerConfig.max_queue_depth (config s) < SchedulingContext.pending_jobs_count context in
  let none_suits := forall w, w ∈ SchedulingContext.available_workers context -> ~ suitable_worker job w in
  match snd (schedule context s) with
  | SchedulingDecision.Reject i _ => i = Job.id job /\ too_many
  | SchedulingDecision.AssignToWorker i worker => i = Job.id job /\ ~ too_many /\
      exists w, w ∈ SchedulingContext.available_workers context /\ suitable_worker job w /\
        Worker.id w = worker
  | SchedulingDecision.ProvisionWorker i provider => i = Job.id job /\ ~ too_many /\ none_suits /\
      exists p, p ∈ SchedulingContext.available_providers context /\
        ProviderInfo.provider_id p = provider /\ suitable_provider job p /\
        (asked_for job p \/ (strategy_accepts strategy job p /\
          forall q, q ∈ SchedulingContext.available_providers context ->
            suitable_provider job q -> ~ asked_for job q))
  | SchedulingDecision.Enqueue i _ => i = Job.id job /\ ~ too_many /\ none_suits /\
      forall p, p ∈ SchedulingContext.available_providers context -> suitable_provider job p ->
        ~ asked_for job p /\ ~ strategy_accepts strategy job p
  end.
Proof.
  cbv zeta. unfold schedule.
  destruct (Z.ltb_spec (SchedulerConfig.max_queue_depth (config s))
    (SchedulingContext.pending_jobs_count context)); [done|].
  set (job := SchedulingContext.job context). set (ws := SchedulingContext.available_workers context).
  assert (exists s1 selected,
    (if bool_decide (ws = []) then (s, None) else select_worker job (offered_workers job ws) s)
      = (s1, selected) /\ config s1 = config s /\
    match selected with
    | Some i => exists w, w ∈ ws /\ suitable_worker job w /\ Worker.id w = i
    | None => forall w, w ∈ ws -> ~ suitable_worker job w
    end) as (s1 & selected & -> & Hcfg & Hsel).
  { case_bool_decide as Hnil; [exists s, None; split_and!; [done|done|]; rewrite Hnil; set_solver|].
    destruct (select_worker_spec job (offered_workers job ws) s) as [Hcfg Hsel].
    destruct (select_worker job (offered_workers job ws) s) as [s1 [i|]]; simpl in *;
      eexists _, _; (split; [done|split; [done|]]).
    - destruct Hsel as (w & Hw & Hsuit & Hi). exists w.
      destruct (offered_workers_suitable job ws w) as [Ho _]. tauto.
    - intros w Hw Hsuit. destruct (offered_workers_suitable job ws w) as [_ Ho].
      apply (Hsel w); tauto. }
  destruct selected as [i|]; [cbn [snd]; split_and!; [done|lia|done]|].
  pose proof (select_with_preferences_spec job (SchedulingContext.available_providers context) s1) as Hp.
  rewrite Hcfg in Hp.
  destruct (select_provider_with_preferences job (SchedulingContext.available_providers context) s1)
    as [s2 [i|]]; cbn [snd] in *.
  - split_and!; [done|lia|done|done].
  - destruct (F64.ltb _ _); (split_and!; [done|lia|done|done]).
Qed.
End properties.

Section quirks.
Context `{EL : ExternsLaws} {M : MapOrder}.
Import SmartScheduler.

Lemma str_contains_length p s :
  str_contains p s = true -> (String.length p <= String.length s)%nat.
Proof.
  assert (forall p s, starts_with p s = true -> (String.length p <= String.length s)%nat) as Hpre.
  { clear. unfold starts_with. intros p. induction p as [|a p IH]; intros [|b s]; simpl; try done;
      try lia. destruct (Ascii.eqb a b); [|done]. intros H. specialize (IH s H). lia. }
  induction s as [|b s IH]; simpl; rewrite orb_true_iff; intros [H|H]; try done.
  - by apply Hpre in H.
  - by apply Hpre in H.
  - specialize (IH H). lia.
Qed.

Lemma provider_name_short ty : (String.length (ProviderType.name ty) <= 14)%nat.
Proof. destruct ty; simpl; lia. Qed.

(** A name longer than every provider's matches none. *)
Lemma long_name_matches_nothing p ty :
  (14 < String.length (ProviderPreference.normalized p))%nat ->
  ProviderPreference.matches_provider_type ty p = false.
Proof.
  intros Hlong. pose proof (provider_name_short ty) as Hshort.
  unfold ProviderPreference.matches_provider_type.
  destruct (String.eqb_spec (ProviderPreference.normalized p) (ProviderType.name ty)) as [He|_];
    [rewrite He in Hlong; lia|].
  destruct (str_contains _ _) eqn:Hc; [|by rewrite andb_false_r].
  apply str_contains_length in Hc. lia.
Qed.

(** The normal form of an ASCII name. *)
Lemma preference_new_ascii name alias canonical :
  trim name = name -> is_ascii name = true -> is_empty name = false ->
  ProviderPreference.is_uuid_format (to_ascii_lowercase name) = false ->
  find (fun alias => existsb (String.eqb (to_ascii_lowercase name)) (fst alias))
    ProviderPreference.aliases = Some (alias, canonical) ->
  ProviderPreference.new name = Ok (ProviderPreference.mk canonical name false None).
Proof.
  intros Htrim Hascii Hne Huuid Halias.
  unfold ProviderPreference.new, ProviderPreference.normalize_optimized.
  by rewrite Htrim, Hne, (to_lowercase_ascii name Hascii), Huuid, Halias.
Qed.

Lemma specific_preference_long input p :
  ProviderPreference.new input = Ok p -> ProviderPreference.is_provider_id p = true ->
  String.length (ProviderPreference.normalized p) = 36%nat.
Proof.
  unfold ProviderPreference.new. destruct (is_empty (trim input)); [done|].
  destruct (ProviderPreference.is_uuid_format (to_lowercase (trim input))) eqn:Hu;
    [|by intros [= <-]].
  destruct (uuid_parse_str _); [|by intros [= <-]].
  intros [= <-] _. simpl. unfold ProviderPreference.is_uuid_format in Hu.
  apply andb_true_iff in Hu as [Hl _]. by apply Nat.eqb_eq in Hl.
Qed.

(** Three wishes of a job go nowhere. The names of the Azure
    container, function and machine providers are normalized to a spelling no
    provider type has, and so match none. A job that prefers a provider by its
    identifier never gets an existing worker, because workers are only compared
    by type. And required labels or annotations that do not pass validation are
    dropped instead of being enforced: any worker that accepts jobs will do. *)
Theorem wishes_that_go_nowhere :
  (forall name, name ∈ ["container-apps"; "azure-container-apps"; "azure-functions";
       "az-functions"; "azure-vm"; "azure-vms"] ->
     exists p, ProviderPreference.new name = Ok p /\
       forall ty, ProviderPreference.matches_provider_type ty p = false) /\
  (forall job ws s p, preference_of job = Some (Ok p) ->
     ProviderPreference.is_provider_id p = true -> snd (select_worker job ws s) = None) /\
  (forall job ws s w e, preference_of job = None ->
     WorkerRequirements.new (JobPreferences.required_labels (JobSpec.preferences (Job.spec job)))
       (JobPreferences.required_annotations (JobSpec.preferences (Job.spec job))) = Err e ->
     w ∈ ws -> WorkerState.can_accept_jobs (Worker.state w) = true ->
     exists i, snd (select_worker job ws s) = Some i).
Proof.
  split_and!.
  - intros name Hname.
    repeat (apply elem_of_cons in Hname as [->|Hname];
      [eexists; split; [eapply preference_new_ascii; reflexivity|by intros []]|]).
    by apply not_elem_of_nil in Hname.
  - intros job ws s p Hpref Hid. pose proof (select_worker_spec job ws s) as [_ H].
    destruct (snd (select_worker job ws s)) as [i|]; [|done].
    destruct H as (w & _ & (_ & Hm & _) & _). rewrite Hpref in Hm.
    unfold preference_of in Hpref. destruct (JobPreferences.preferred_provider _); [|done].
    injection Hpref as Hnew. apply specific_preference_long in Hnew; [|done].
    rewrite long_name_matches_nothing in Hm; [done|lia].
  - intros job ws s w e Hpref Hreq Hw Hacc. pose proof (select_worker_spec job ws s) as [_ H].
    destruct (snd (select_worker job ws s)) as [i|]; [by exists i|].
    destruct (H w Hw). unfold suitable_worker. by rewrite Hpref, Hreq.
Qed.
End quirks.

Example wishes_that_go_nowhere_witness :
  exists p, ProviderPreference.new (E := concrete) "azure-vm" = Ok p /\
    ProviderPreference.matches_provider_type (E := concrete) ProviderType.AzureVMs p = false.
Proof.
  destruct (wishes_that_go_nowhere (EL := concrete_laws) (M := concrete_order)) as [H _].
  destruct (H "azure-vm") as (p & Hp & Hm); [|exists p; split; [exact Hp|exact (Hm _)]].
  apply list_elem_of_In. simpl. tauto.
Defined.
