(* ===== verification/Caches.v ===== *)
(** * The caches of the scheduler ([crates/server/domain/src/scheduling/ttl_cache.rs])

    [TtlCache] and [LruTtlCache], maps from keys to values that expire.  An
    instant is a number of nanoseconds of the monotonic clock; every reading of
    it is an argument, and a pass over all entries uses one reading.  The panic
    of an addition of instants that overflows the platform's clock is left out. *)

From S2P Require Import Prelude Std Externs.

Module TtlCache.
Section cache.
Context `{M : MapOrder} {K V : Type} `{Countable K}.

(** src: crates/server/domain/src/scheduling/ttl_cache.rs 19-24 CacheEntry *)
Record entry := mk_entry { value : V; expires_at : Duration }.

(** src: crates/server/domain/src/scheduling/ttl_cache.rs 28-33 CacheEntry::new *)
Definition new_entry (v : V) (ttl now : Duration) : entry := mk_entry v (now + ttl).

(** src: crates/server/domain/src/scheduling/ttl_cache.rs 36-38 CacheEntry::is_expired *)
Definition is_expired (now : Duration) (e : entry) : bool := expires_at e <=? now.

(** src: crates/server/domain/src/scheduling/ttl_cache.rs 41-47 CacheEntry::value *)
Definition entry_value (now : Duration) (e : entry) : option V :=
  if is_expired now e then None else Some (value e).

(** src: crates/server/domain/src/scheduling/ttl_cache.rs 50-57 CacheEntry::remaining_ttl *)
Definition remaining_ttl (now : Duration) (e : entry) : option Duration :=
  let remaining := saturating_sub (expires_at e) now in
  if remaining =? 0 then None else Some remaining.

(** src: crates/server/domain/src/scheduling/ttl_cache.rs 66-76 TtlCache *)
Record t := mk { entries : gmap K entry; default_ttl : Duration; max_entries : nat }.

#[global] Instance t_rebuild : Rebuild t := fun c =>
  mk (entries c) (default_ttl c) (max_entries c).

(** src: crates/server/domain/src/scheduling/ttl_cache.rs 84-90 TtlCache::new *)
Definition new (ttl : Duration) : t := mk ∅ ttl 1000.

(** src: crates/server/domain/src/scheduling/ttl_cache.rs 93-99 TtlCache::with_config *)
Definition with_config (ttl : Duration) (max : nat) : t := mk ∅ ttl max.

(** The eviction of a fifth of the entries, in the order of the map. *)
(** src: crates/server/domain/src/scheduling/ttl_cache.rs 118-124 TtlCache::insert_with_ttl (eviction) *)
Definition evict (m : gmap K entry) : gmap K entry :=
  foldl (fun m k => delete k m) m (take (size m / 5) (map_keys m)).

(** src: crates/server/domain/src/scheduling/ttl_cache.rs 110-128 TtlCache::insert_with_ttl *)
Definition insert_with_ttl (k : K) (v : V) (ttl now : Duration) (c : t) : t * option V :=
  let e := new_entry v ttl now in
  let m := if (max_entries c <=? size (entries c))%nat && bool_decide (entries c !! k = None)
           then evict (entries c) else entries c in
  (c <| entries := <[k := e]> m |>, value <$> m !! k).

(** src: crates/server/domain/src/scheduling/ttl_cache.rs 102-107 TtlCache::insert *)
Definition insert (k : K) (v : V) (now : Duration) (c : t) : t * option V :=
  insert_with_ttl k v (default_ttl c) now c.

(** src: crates/server/domain/src/scheduling/ttl_cache.rs 131-139 TtlCache::get *)
Definition get (k : K) (now : Duration) (c : t) : option V :=
  match entries c !! k with Some e => entry_value now e | None => None end.

(** src: crates/server/domain/src/scheduling/ttl_cache.rs 142-150 TtlCache::get_with_ttl *)
Definition get_with_ttl (k : K) (now1 now2 : Duration) (c : t) : option (V * option Duration) :=
  match entries c !! k with
  | Some e => (fun v => (v, remaining_ttl now2 e)) <$> entry_value now1 e
  | None => None
  end.

(** src: crates/server/domain/src/scheduling/ttl_cache.rs 153-155 TtlCache::contains *)
Definition contains (k : K) (now : Duration) (c : t) : bool := bool_decide (is_Some (get k now c)).

(** src: crates/server/domain/src/scheduling/ttl_cache.rs 158-160 TtlCache::remove *)
Definition remove (k : K) (c : t) : t * option V :=
  (c <| entries := delete k (entries c) |>, value <$> entries c !! k).

(** src: crates/server/domain/src/scheduling/ttl_cache.rs 163-165 TtlCache::clear *)
Definition clear (c : t) : t := c <| entries := ∅ |>.

(** src: crates/server/domain/src/scheduling/ttl_cache.rs 168-173 TtlCache::remove_expired *)
Definition remove_expired (now : Duration) (c : t) : t * nat :=
  let kept := filter (fun '(_, e) => is_expired now e = false) (entries c) in
  (c <| entries := kept |>, (size (entries c) - size kept)%nat).

(** src: crates/server/domain/src/scheduling/ttl_cache.rs 176-178 TtlCache::len *)
Definition len (c : t) : nat := size (entries c).

(** src: crates/server/domain/src/scheduling/ttl_cache.rs 181-183 TtlCache::is_empty *)
Definition is_empty (c : t) : bool := bool_decide (entries c = ∅).

End cache.
Arguments entry : clear implicits.
Arguments t : clear implicits.
Arguments t K V {_ _}.
End TtlCache.

Module LruTtlCache.
Section cache.
Context `{M : MapOrder} {K V : Type} `{Countable K}.

(** src: crates/server/domain/src/scheduling/ttl_cache.rs 195-200 LruEntry *)
Record entry := mk_entry { value : V; expires_at : Duration }.

(** src: crates/server/domain/src/scheduling/ttl_cache.rs 203-208 LruEntry::new *)
Definition new_entry (v : V) (ttl now : Duration) : entry := mk_entry v (now + ttl).

(** src: crates/server/domain/src/scheduling/ttl_cache.rs 210-212 LruEntry::is_expired *)
Definition is_expired (now : Duration) (e : entry) : bool := expires_at e <=? now.

(** src: crates/server/domain/src/scheduling/ttl_cache.rs 217-229 LruTtlCache *)
Record t := mk {
  entries : gmap K entry;
  access_counter : Z;
  default_ttl : Duration;
  max_entries : nat;
}.

#[global] Instance t_rebuild : Rebuild t := fun c =>
  mk (entries c) (access_counter c) (default_ttl c) (max_entries c).

(** src: crates/server/domain/src/scheduling/ttl_cache.rs 237-244 LruTtlCache::new *)
Definition new (ttl : Duration) (max : nat) : t := mk ∅ 0 ttl max.

(** src: crates/server/domain/src/scheduling/ttl_cache.rs 247-251 LruTtlCache::next_access_order *)
Definition next_access_order (c : t) : t := c <| access_counter := u64_add (access_counter c) 1 |>.

(** [now1] makes the entry, [now2] judges the others. *)
(** src: crates/server/domain/src/scheduling/ttl_cache.rs 262-284 LruTtlCache::insert_with_ttl *)
Definition insert_with_ttl (k : K) (v : V) (ttl now1 now2 : Duration) (c : t) : t * option V :=
  let c := next_access_order c in
  let e := new_entry v ttl now1 in
  let m := if (max_entries c <=? size (entries c))%nat
           then filter (fun '(_, e) => is_expired now2 e = false) (entries c)
           else entries c in
  (c <| entries := <[k := e]> m |>, value <$> m !! k).

(** src: crates/server/domain/src/scheduling/ttl_cache.rs 254-259 LruTtlCache::insert *)
Definition insert (k : K) (v : V) (now1 now2 : Duration) (c : t) : t * option V :=
  insert_with_ttl k v (default_ttl c) now1 now2 c.

(** A hit writes the entry again, to expire after the time that remained. *)
(** src: crates/server/domain/src/scheduling/ttl_cache.rs 287-309 LruTtlCache::get *)
Definition get (k : K) (now1 now2 now3 : Duration) (c : t) : t * option V :=
  match entries c !! k with
  | None => (c, None)
  | Some e =>
      if negb (is_expired now1 e) then
        let c := next_access_order c in
        let remaining_ttl := saturating_sub (expires_at e) now2 in
        (c <| entries := <[k := new_entry (value e) remaining_ttl now3]> (delete k (entries c)) |>,
         Some (value e))
      else (c <| entries := delete k (entries c) |>, None)
  end.

(** src: crates/server/domain/src/scheduling/ttl_cache.rs 312-314 LruTtlCache::contains *)
Definition contains (k : K) (now1 now2 now3 : Duration) (c : t) : t * bool :=
  let (c, v) := get k now1 now2 now3 c in (c, bool_decide (is_Some v)).

(** src: crates/server/domain/src/scheduling/ttl_cache.rs 317-319 LruTtlCache::remove *)
Definition remove (k : K) (c : t) : t * option V :=
  (c <| entries := delete k (entries c) |>, value <$> entries c !! k).

(** src: crates/server/domain/src/scheduling/ttl_cache.rs 322-324 LruTtlCache::clear *)
Definition clear (c : t) : t := c <| entries := ∅ |>.

(** src: crates/server/domain/src/scheduling/ttl_cache.rs 327-329 LruTtlCache::len *)
Definition len (c : t) : nat := size (entries c).

(** src: crates/server/domain/src/scheduling/ttl_cache.rs 332-334 LruTtlCache::is_empty *)
Definition is_empty (c : t) : bool := bool_decide (entries c = ∅).

End cache.
Arguments entry : clear implicits.
Arguments t : clear implicits.
Arguments t K V {_ _}.
End LruTtlCache.

(** ** Properties of [TtlCache] *)

Section ttl_properties.
Context `{M : MapOrder} {K V : Type} `{Countable K}.
Import TtlCache.

(** An operation on the cache, with the time it is done at. *)
Inductive op :=
  | Insert (k : K) (v : V) (ttl now : Duration)
  | Remove (k : K)
  | RemoveExpired (now : Duration)
  | Clear.

Definition run_op (o : op) (c : t K V) : t K V :=
  match o with
  | Insert k v ttl now => fst (insert_with_ttl k v ttl now c)
  | Remove k => fst (remove k c)
  | RemoveExpired now => fst (remove_expired now c)
  | Clear => clear c
  end.

Definition run_ops (ops : list op) (c : t K V) : t K V := foldl (fun c o => run_op o c) c ops.

(** The specification: an unbounded map of the values written last, with their
    deadlines. *)
Definition spec_op (o : op) (m : gmap K (V * Duration)) : gmap K (V * Duration) :=
  match o with
  | Insert k v ttl now => <[k := (v, now + ttl)]> m
  | Remove k => delete k m
  | RemoveExpired _ => m
  | Clear => ∅
  end.

Definition written (ops : list op) : gmap K (V * Duration) := foldl (fun m o => spec_op o m) ∅ ops.

Lemma evict_subseteq (m : gmap K (entry V)) : evict m ⊆ m.
Proof.
  unfold evict. generalize (take (size m / 5) (map_keys m)). intros ks.
  assert (forall m', m' ⊆ m -> foldl (fun m k => delete k m) m' ks ⊆ m) as Hall; [|by apply Hall].
  induction ks as [|k ks IH]; intros m' Hm; [done|]. simpl. apply IH.
  etransitivity; [apply delete_subseteq|done].
Qed.

Lemma size_delete_all (ks : list K) (m : gmap K (entry V)) :
  NoDup ks -> (forall k, k ∈ ks -> is_Some (m !! k)) ->
  size (foldl (fun m k => delete k m) m ks) = (size m - length ks)%nat.
Proof.
  revert m. induction ks as [|k ks IH]; intros m Hnd Hks; simpl; [lia|].
  apply NoDup_cons in Hnd as [Hk Hnd]. rewrite IH; [|done|].
  - rewrite map_size_delete_Some by (apply Hks; by left). lia.
  - intros k' Hk'. rewrite lookup_delete_ne by set_solver. apply Hks. by right.
Qed.

Lemma size_evict (m : gmap K (entry V)) : size (evict m) = (size m - size m / 5)%nat.
Proof.
  assert (map_keys m ≡ₚ (map_to_list m).*1) as Hperm
    by (unfold map_keys; by rewrite map_entries_perm).
  unfold evict. rewrite size_delete_all.
  - rewrite length_take, Hperm, length_fmap, length_map_to_list.
    rewrite Nat.min_l; [done|]. apply Nat.Div0.div_le_upper_bound. lia.
  - assert (NoDup (map_keys m)) as Hnd by (rewrite Hperm; apply NoDup_fst_map_to_list).
    rewrite <- (take_drop (size m / 5) (map_keys m)) in Hnd. by apply NoDup_app in Hnd as [? _].
  - intros k Hk. assert (k ∈ map_keys m) as Hin.
    { rewrite <- (take_drop (size m / 5) (map_keys m)). apply elem_of_app. by left. }
    clear Hk. revert Hin. rewrite Hperm. intros Hk. apply list_elem_of_fmap in Hk as ([k' e] & -> & Hk).
    apply elem_of_map_to_list in Hk. by exists e.
Qed.

(** The cache holds nothing but what was written. *)
Definition backed (m : gmap K (entry V)) (w : gmap K (V * Duration)) : Prop :=
  forall k e, m !! k = Some e -> w !! k = Some (value e, expires_at e).

Lemma backed_op o (c : t K V) w :
  backed (entries c) w -> backed (entries (run_op o c)) (spec_op o w).
Proof.
  intros Hb k e. destruct o as [k' v ttl now|k'|now|]; simpl.
  - destruct (decide (k' = k)) as [->|Hne].
    + rewrite !lookup_insert_eq. by intros [= <-].
    + rewrite !lookup_insert_ne by done. case_match; [|by apply Hb].
      intros Hk. apply Hb. eapply lookup_weaken; [done|apply evict_subseteq].
  - intros [Hne Hk]%lookup_delete_Some. rewrite lookup_delete_ne by done. by apply Hb.
  - intros [Hk _]%map_lookup_filter_Some. by apply Hb.
  - by rewrite lookup_empty.
Qed.

Lemma max_entries_op o (c : t K V) : max_entries (run_op o c) = max_entries c.
Proof. by destruct o. Qed.

Lemma size_op o (c : t K V) :
  (size (entries c) <= Nat.max (max_entries c) 5)%nat ->
  (size (entries (run_op o c)) <= Nat.max (max_entries c) 5)%nat.
Proof.
  intros Hs. destruct o as [k v ttl now|k|now|]; simpl.
  - destruct (Nat.leb_spec (max_entries c) (size (entries c))) as [Hfull|Hroom]; simpl.
    + case_bool_decide as Hk.
      * rewrite map_size_insert, size_evict.
        pose proof (Nat.div_mod_eq (size (entries c)) 5).
        pose proof (Nat.mod_upper_bound (size (entries c)) 5 ltac:(lia)).
        case_match; unfold id in *; lia.
      * apply not_eq_None_Some in Hk. by rewrite map_size_insert_Some by done.
    + rewrite map_size_insert. case_match; unfold id; lia.
  - etransitivity; [apply map_subseteq_size, delete_subseteq|done].
  - etransitivity; [apply map_size_filter|done].
  - rewrite map_size_empty. lia.
Qed.

Definition is_insert (o : op) : bool := match o with Insert _ _ _ _ => true | _ => false end.
Fixpoint inserts (ops : list op) : nat :=
  match ops with
  | [] => 0
  | o :: ops => (if is_insert o then 1 else 0) + inserts ops
  end.
(** No pass over the expired entries later than [now]. *)
Definition until (now : Duration) (o : op) : bool :=
  match o with RemoveExpired at_ => at_ <=? now | _ => true end.

(** What was written and has not expired is still there. *)
Definition complete (now : Duration) (m : gmap K (entry V)) (w : gmap K (V * Duration)) : Prop :=
  forall k v d, w !! k = Some (v, d) -> now < d -> m !! k = Some (mk_entry v d).

Lemma complete_op now o (c : t K V) w :
  until now o = true -> (is_insert o = true -> size (entries c) < max_entries c)%nat ->
  complete now (entries c) w -> complete now (entries (run_op o c)) (spec_op o w).
Proof.
  intros Hu Hroom Hc k v d. destruct o as [k' v' ttl at_|k'|at_|]; simpl in *.
  - specialize (Hroom eq_refl). destruct (Nat.leb_spec (max_entries c) (size (entries c))); [lia|].
    simpl. destruct (decide (k' = k)) as [->|Hne].
    + rewrite !lookup_insert_eq. by intros [= <- <-].
    + rewrite !lookup_insert_ne by done. apply Hc.
  - rewrite !lookup_delete_Some. intros [Hne Hk] Hd. split; [done|]. by apply Hc.
  - intros Hk Hd. apply map_lookup_filter_Some. split; [by apply Hc|].
    unfold is_expired. simpl. lia.
  - by rewrite lookup_empty.
Qed.

Lemma size_op_le o (c : t K V) :
  (size (entries (run_op o c)) <= size (entries c) + (if is_insert o then 1 else 0))%nat.
Proof.
  destruct o as [k v ttl now|k|now|]; simpl.
  - rewrite map_size_insert. set (m := if _ && _ then _ else _).
    assert (size m <= size (entries c))%nat.
    { subst m. case_match; [|done]. apply map_subseteq_size, evict_subseteq. }
    case_match; unfold id in *; lia.
  - rewrite Nat.add_0_r. apply map_subseteq_size, delete_subseteq.
  - rewrite Nat.add_0_r. apply map_size_filter.
  - rewrite map_size_empty. lia.
Qed.

(** The three invariants along a history. *)
Lemma history (ops : list op) (c : t K V) w now :
  backed (entries c) w ->
  (size (entries c) <= Nat.max (max_entries c) 5)%nat ->
  let c' := run_ops ops c in
  let w' := foldl (fun m o => spec_op o m) w ops in
  backed (entries c') w' /\
  (size (entries c') <= Nat.max (max_entries c) 5)%nat /\
  (complete now (entries c) w -> forallb (until now) ops = true ->
   (size (entries c) + inserts ops <= max_entries c)%nat -> complete now (entries c') w').
Proof.
  revert c w. induction ops as [|o ops IH]; intros c w Hb Hs; simpl; [done|].
  specialize (IH (run_op o c) (spec_op o w) (backed_op o c w Hb)).
  rewrite max_entries_op in IH. destruct (IH (size_op o c Hs)) as (Hb' & Hs' & Hc').
  split; [done|]. split; [done|]. intros Hc [Hu Hus]%andb_true_iff Hroom.
  pose proof (size_op_le o c) as Hle. apply Hc'; [|done|lia].
  apply complete_op; [done| |done]. intros Ho. rewrite Ho in Hroom. lia.
Qed.

(** Whatever was done to a [TtlCache], a read returns only the value
    written last under the key, before its deadline; a value just written is
    readable until the very instant its lifetime ends and not from then on;
    the cache holds at most [max_entries] entries, or five when [max_entries]
    is smaller, because the eviction of a full cache removes a fifth of the
    entries rounded down; and as long as no more than [max_entries] writes were
    made, reads are those of an unbounded map with deadlines. *)
Theorem ttl_cache_serves_what_was_written (ops : list op) (ttl : Duration) (max : nat)
    (k : K) (v : V) (now at_ life : Duration) :
  let c := run_ops ops (with_config ttl max) in
  (get k now c = Some v -> exists d, written ops !! k = Some (v, d) /\ now < d) /\
  get k now (fst (insert_with_ttl k v life at_ c)) =
    (if now <? at_ + life then Some v else None) /\
  (len c <= Nat.max max 5)%nat /\
  (forallb (until now) ops = true -> (inserts ops <= max)%nat ->
   get k now c =
     match written ops !! k with
     | Some (v, d) => if now <? d then Some v else None
     | None => None
     end).
Proof.
  intros c. destruct (history ops (with_config ttl max) ∅ now) as (Hb & Hs & Hc).
  { by intros k' e; simpl; rewrite lookup_empty. }
  { simpl. rewrite map_size_empty. lia. }
  fold c in Hb, Hs, Hc. fold (written ops) in Hb, Hc.
  unfold get, entry_value, is_expired. repeat split.
  - intros Hg. destruct (entries c !! k) as [e|] eqn:He; [|done].
    destruct (Z.leb_spec (expires_at e) now); simplify_eq. eauto.
  - simpl. rewrite lookup_insert_eq. simpl.
    destruct (Z.leb_spec (at_ + life) now), (Z.ltb_spec now (at_ + life)); try lia; done.
  - done.
  - intros Hu Hi. destruct (written ops !! k) as [[v' d]|] eqn:Hw.
    + destruct (Z.ltb_spec now d) as [Hlt|Hge].
      * rewrite (Hc ltac:(by intros k' v'' d'; rewrite lookup_empty) Hu Hi k v' d Hw Hlt). simpl.
        destruct (Z.leb_spec d now); [lia|done].
      * destruct (entries c !! k) as [e|] eqn:He; [|done]. 
        pose proof (eq_trans (eq_sym Hw) (Hb k e He)) as [= -> ->].
        destruct (Z.leb_spec (expires_at e) now); [done|lia].
    + destruct (entries c !! k) as [e|] eqn:He; [|done].
      discriminate (eq_trans (eq_sym Hw) (Hb k e He)).
Qed.
End ttl_properties.

Example ttl_cache_serves_what_was_written_witness :
  let ops := [Insert 1%nat 10%nat 100 0; Insert 2%nat 20%nat 5 1; RemoveExpired 7] in
  forallb (until 50) ops = true /\ (inserts ops <= 2)%nat /\
  TtlCache.get 1%nat 50 (run_ops (M := concrete_order) ops (TtlCache.with_config 60 2)) =
    Some 10%nat.
Proof.
  split; [reflexivity|]. split; [vm_compute; lia|].
  rewrite (proj2 (proj2 (proj2 (ttl_cache_serves_what_was_written (M := concrete_order)
    [Insert 1%nat 10%nat 100 0; Insert 2%nat 20%nat 5 1; RemoveExpired 7] 60 2
    1%nat 0%nat 50 0 0)))).
  - reflexivity.
  - reflexivity.
  - vm_compute; lia.
Defined.

(** ** Properties of [LruTtlCache] *)

Section lru_properties.
Context {K V : Type} `{Countable K}.
Import LruTtlCache.

(** A run of writes: the key, the value and the two readings of the clock. *)
Definition fill (ws : list (K * V * Duration * Duration)) (c : t K V) : t K V :=
  foldl (fun c '(k, v, now1, now2) => fst (insert k v now1 now2 c)) c ws.

Lemma fill_spec (start : Duration) (ws : list (K * V * Duration * Duration)) (c : t K V) :
  NoDup (ws.*1.*1.*1) ->
  (forall k, k ∈ ws.*1.*1.*1 -> entries c !! k = None) ->
  Forall (fun '(_, _, now1, now2) => start <= now1 /\ now2 < start + default_ttl c) ws ->
  map_Forall (fun _ e => start + default_ttl c <= expires_at e) (entries c) ->
  len (fill ws c) = (len c + length ws)%nat /\
  (forall k e, entries c !! k = Some e -> entries (fill ws c) !! k = Some e) /\
  Forall (fun '(k, v, now1, now2) =>
    entries (fill ws c) !! k = Some (mk_entry v (now1 + default_ttl c))) ws.
Proof.
  revert c. induction ws as [|[[[k v] now1] now2] ws IH]; intros c Hnd Hk Hws Hall.
  { split; [unfold len; simpl; lia|]. by split. }
  simpl in Hnd. apply NoDup_cons in Hnd as [Hnk Hnd].
  apply Forall_cons in Hws as [[Hstart Hnow2] Hws].
  set (c' := c <| access_counter := u64_add (access_counter c) 1 |>
               <| entries := <[k := mk_entry v (now1 + default_ttl c)]> (entries c) |>).
  assert (fill ((k, v, now1, now2) :: ws) c = fill ws c') as ->.
  { change (fill ws (fst (insert k v now1 now2 c)) = fill ws c'). f_equal. unfold insert, insert_with_ttl, c'. simpl. do 2 f_equal. case_match; [|done].
    apply map_filter_id. intros k' e He. apply Hall in He. simpl in He.
    unfold is_expired. lia. }
  pose proof (Hk k ltac:(by left)) as Hfresh.
  destruct (IH c') as (Hlen & Hold & Hnew); [done| |done| |].
  - intros k' Hk'. simpl. rewrite lookup_insert_ne by (intros ->; done). apply Hk. by right.
  - simpl. apply map_Forall_insert_2; [simpl; lia|done].
  - split; [|split].
    + rewrite Hlen. unfold len. simpl. rewrite map_size_insert_None by done. lia.
    + intros k' e He. apply Hold. simpl. rewrite lookup_insert_ne; [done|congruence].
    + apply Forall_cons. split; [|done]. apply Hold. simpl. by rewrite lookup_insert_eq.
Qed.

(** An [LruTtlCache] does not evict what was used least recently, nor
    anything that has not expired: writes of distinct keys that are all within
    one lifetime of each other are all kept, whatever [max_entries] says, and
    the cache grows beyond it. *)
Theorem lru_cache_is_not_bounded (ttl : Duration) (max : nat) (start : Duration)
    (ws : list (K * V * Duration * Duration))
    (Hkeys : NoDup (ws.*1.*1.*1))
    (Htimes : Forall (fun '(_, _, now1, now2) => start <= now1 /\ now2 < start + ttl) ws) :
  let c := fill ws (new ttl max) in
  len c = length ws /\
  Forall (fun '(k, v, now1, _) => forall now2 now3,
    now1 <= now2 < now1 + ttl -> snd (get k now2 now2 now3 c) = Some v) ws.
Proof.
  destruct (fill_spec start ws (new ttl max)) as (Hlen & _ & Hnew).
  { done. } { intros k _. apply lookup_empty. } { done. } { apply map_Forall_empty. }
  split.
  - rewrite Hlen. unfold len. simpl. by rewrite map_size_empty.
  - eapply Forall_impl; [exact Hnew|]. intros [[[k v] now1] now2] He now2' now3 Hnow.
    unfold get. simpl in He. rewrite He. unfold is_expired. simpl.
    destruct (Z.leb_spec (now1 + ttl) now2'); [lia|done].
Qed.
End lru_properties.

Example lru_cache_is_not_bounded_witness :
  LruTtlCache.len (fill [(1%nat, 1%nat, 0, 1); (2%nat, 2%nat, 2, 3); (3%nat, 3%nat, 4, 5)]
    (LruTtlCache.new 100 1)) = 3%nat.
Proof.
  apply (lru_cache_is_not_bounded 100 1 0
    [(1%nat, 1%nat, 0, 1); (2%nat, 2%nat, 2, 3); (3%nat, 3%nat, 4, 5)]).
  - apply NoDup_ListNoDup. repeat constructor; simpl; lia.
  - repeat constructor; lia.
Defined.
