(* ===== verification/Templates.v ===== *)
(** * Job templates ([crates/server/domain/src/jobs/templates.rs])

    Templates and the runs made from them, executions, scheduled jobs, and the
    validation of a template's parameters.  The engine of regular expressions is
    the crate [regex], an interface here; the repository traits of the file are
    implemented over SQL and left out. *)

From S2P Require Import Prelude Std Externs States Errors JobSpec Job.

Abbreviation JobTemplateId := Uuid (only parsing).

Module JobTemplateStatus.

(** src: crates/server/domain/src/jobs/templates.rs 54-62 JobTemplateStatus *)
Inductive t := Active | Disabled | Archived.

#[global] Instance t_eq_dec : EqDecision t.
Proof. solve_decision. Defined.

(** src: crates/server/domain/src/jobs/templates.rs 64-72 impl Display for JobTemplateStatus *)
Definition fmt (s : t) : string :=
  match s with Active => "Active" | Disabled => "Disabled" | Archived => "Archived" end.

End JobTemplateStatus.

Module JobTemplate.
Section template.
Context `{E : Externs}.

(** src: crates/server/domain/src/jobs/templates.rs 79-106 JobTemplate *)
Record t := mk {
  id : JobTemplateId;
  name : string;
  description : option string;
  spec : JobSpec.t;
  status : JobTemplateStatus.t;
  version : Z;
  labels : gmap string string;
  created_at : DateTime;
  updated_at : DateTime;
  created_by : option string;
  run_count : Z;
  success_count : Z;
  failure_count : Z;
}.

#[global] Instance t_rebuild : Rebuild t := fun x =>
  mk (id x) (name x) (description x) (spec x) (status x) (version x) (labels x) (created_at x)
    (updated_at x) (created_by x) (run_count x) (success_count x) (failure_count x).

(** [fresh] is the identifier drawn. *)
(** src: crates/server/domain/src/jobs/templates.rs 110-127 JobTemplate::new *)
Definition new (n : string) (s : JobSpec.t) (fresh : Uuid) (now : DateTime) : t := {|
  id := fresh;
  name := n;
  description := None;
  spec := s;
  status := JobTemplateStatus.Active;
  version := 1;
  labels := ∅;
  created_at := now;
  updated_at := now;
  created_by := None;
  run_count := 0;
  success_count := 0;
  failure_count := 0;
|}.

(** src: crates/server/domain/src/jobs/templates.rs 130-134 JobTemplate::with_id *)
Definition with_id (i : JobTemplateId) (n : string) (s : JobSpec.t) (fresh : Uuid)
    (now : DateTime) : t := new n s fresh now <| id := i |>.

(** src: crates/server/domain/src/jobs/templates.rs 137-140 JobTemplate::with_description *)
Definition with_description (d : string) (x : t) : t := x <| description := Some d |>.

(** src: crates/server/domain/src/jobs/templates.rs 143-146 JobTemplate::with_label *)
Definition with_label (k v : string) (x : t) : t := x <| labels := <[k := v]> (labels x) |>.

(** src: crates/server/domain/src/jobs/templates.rs 149-152 JobTemplate::with_created_by *)
Definition with_created_by (user : string) (x : t) : t := x <| created_by := Some user |>.

(** src: crates/server/domain/src/jobs/templates.rs 155-157 JobTemplate::can_create_run *)
Definition can_create_run (x : t) : bool := bool_decide (status x = JobTemplateStatus.Active).

(** [job_id] is the identifier drawn for the job, [now1] its creation. *)
(** src: crates/server/domain/src/jobs/templates.rs 160-182 JobTemplate::create_run *)
Definition create_run (job_id : JobId) (now1 now2 : DateTime) : method t DomainError.t Job.t :=
  x ← self;
  _ ← ensure (can_create_run x) (DomainError.InvalidProviderConfig
        ("Template " +:+ uuid_to_string (id x) +:+ " is not active"));
  let job := Job.new job_id (name x) (spec x) now1 in
  let job := job <| Job.metadata :=
    <["template_version" := show_Z (version x)]>
      (<["template_name" := name x]>
        (<["template_id" := uuid_to_string (id x)]> (Job.metadata job))) |> in
  _ ← assign run_count (u64_add (run_count x) 1);
  _ ← assign updated_at now2;
  mret job.

(** src: crates/server/domain/src/jobs/templates.rs 185-188 JobTemplate::record_success *)
Definition record_success (now : DateTime) (x : t) : t :=
  x <| success_count := u64_add (success_count x) 1 |> <| updated_at := now |>.

(** src: crates/server/domain/src/jobs/templates.rs 191-194 JobTemplate::record_failure *)
Definition record_failure (now : DateTime) (x : t) : t :=
  x <| failure_count := u64_add (failure_count x) 1 |> <| updated_at := now |>.

(** src: crates/server/domain/src/jobs/templates.rs 197-200 JobTemplate::disable *)
Definition disable (now : DateTime) (x : t) : t :=
  x <| status := JobTemplateStatus.Disabled |> <| updated_at := now |>.

(** src: crates/server/domain/src/jobs/templates.rs 203-206 JobTemplate::enable *)
Definition enable (now : DateTime) (x : t) : t :=
  x <| status := JobTemplateStatus.Active |> <| updated_at := now |>.

(** src: crates/server/domain/src/jobs/templates.rs 209-212 JobTemplate::archive *)
Definition archive (now : DateTime) (x : t) : t :=
  x <| status := JobTemplateStatus.Archived |> <| updated_at := now |>.

(** src: crates/server/domain/src/jobs/templates.rs 215-219 JobTemplate::update_spec *)
Definition update_spec (s : JobSpec.t) (now : DateTime) (x : t) : t :=
  x <| spec := s |> <| version := u32_add (version x) 1 |> <| updated_at := now |>.

(** src: crates/server/domain/src/jobs/templates.rs 222-228 JobTemplate::success_rate *)
Definition success_rate (x : t) : f64 :=
  let total := u64_add (success_count x) (failure_count x) in
  if total =? 0 then F64.of_Z 0
  else F64.mul (F64.div (F64.of_Z (success_count x)) (F64.of_Z total)) (F64.of_Z 100).

End template.
End JobTemplate.

Module ExecutionResult.

(** src: crates/server/domain/src/jobs/templates.rs 285-294 ExecutionResult *)
Record t := mk {
  exit_code : Z;
  output_summary : string;
  error_output : string;
  duration_ms : Z;
}.

End ExecutionResult.

Module ResourceUsageSnapshot.

(** src: crates/server/domain/src/jobs/templates.rs 298-311 ResourceUsageSnapshot *)
Record t := mk {
  peak_cpu_percent : f64;
  peak_memory_mb : Z;
  avg_cpu_percent : f64;
  avg_memory_mb : Z;
  disk_io_bytes : Z;
  network_io_bytes : Z;
}.

End ResourceUsageSnapshot.

Module JobExecutionStatus.

(** src: crates/server/domain/src/jobs/templates.rs 682-693 JobExecutionStatus *)
Inductive t := Queued | Running | Succeeded | Failed | Error.

#[global] Instance t_eq_dec : EqDecision t.
Proof. solve_decision. Defined.

(** src: crates/server/domain/src/jobs/templates.rs 695-705 impl Display for JobExecutionStatus *)
Definition fmt (s : t) : string :=
  match s with
  | Queued => "Queued"
  | Running => "Running"
  | Succeeded => "Succeeded"
  | Failed => "Failed"
  | Error => "Error"
  end.

(** src: crates/server/domain/src/jobs/templates.rs 1106-1118 map_job_state_to_execution_status *)
Definition map_job_state_to_execution_status (s : JobState.t) : t :=
  match s with
  | JobState.Pending | JobState.Assigned | JobState.Scheduled => Queued
  | JobState.Running => Running
  | JobState.Succeeded => Succeeded
  | JobState.Failed | JobState.Cancelled | JobState.Timeout
  | JobState.ManualInterventionRequired => Failed
  end.

End JobExecutionStatus.

Module JobExecution.
Section execution.
Context `{E : Externs}.

(** src: crates/server/domain/src/jobs/templates.rs 315-354 JobExecution *)
Record t := mk {
  id : Uuid;
  execution_number : Z;
  template_id : JobTemplateId;
  template_version : Z;
  job_id : option JobId;
  job_name : string;
  job_spec : JobSpec.t;
  state : JobExecutionStatus.t;
  result : option ExecutionResult.t;
  queued_at : DateTime;
  started_at : option DateTime;
  completed_at : option DateTime;
  triggered_by : TriggerType.t;
  scheduled_job_id : option Uuid;
  triggered_by_user : option string;
  parameters : gmap string string;
  resource_usage : option ResourceUsageSnapshot.t;
  metadata : gmap string string;
  created_at : DateTime;
}.

#[global] Instance t_rebuild : Rebuild t := fun x =>
  mk (id x) (execution_number x) (template_id x) (template_version x) (job_id x) (job_name x)
    (job_spec x) (state x) (result x) (queued_at x) (started_at x) (completed_at x)
    (triggered_by x) (scheduled_job_id x) (triggered_by_user x) (parameters x)
    (resource_usage x) (metadata x) (created_at x).

(** src: crates/server/domain/src/jobs/templates.rs 358-386 JobExecution::new *)
Definition new (template : JobTemplate.t) (number : Z) (n : string) (trigger : TriggerType.t)
    (fresh : Uuid) (now1 now2 : DateTime) : t := {|
  id := fresh;
  execution_number := number;
  template_id := JobTemplate.id template;
  template_version := JobTemplate.version template;
  job_id := None;
  job_name := n;
  job_spec := JobTemplate.spec template;
  state := JobExecutionStatus.Queued;
  result := None;
  queued_at := now1;
  started_at := None;
  completed_at := None;
  triggered_by := trigger;
  scheduled_job_id := None;
  triggered_by_user := None;
  parameters := ∅;
  resource_usage := None;
  metadata := ∅;
  created_at := now2;
|}.

(** [job.execution_duration().map(|d| d.as_millis() as u64).unwrap_or(0)]. *)
Definition job_duration_ms (job : Job.t) : Z :=
  match Job.execution_duration job with
  | Some d => as_u64 (as_millis d)
  | None => 0
  end.

(** src: crates/server/domain/src/jobs/templates.rs 425-470 JobExecution::from_job (result) *)
Definition result_of (job : Job.t) (r : JobResult.t) : ExecutionResult.t :=
  match r with
  | JobResult.Success code output error =>
      ExecutionResult.mk code output error (job_duration_ms job)
  | JobResult.Failed code message error =>
      ExecutionResult.mk code message error (job_duration_ms job)
  | JobResult.Cancelled => ExecutionResult.mk (-1) "Cancelled" "" (job_duration_ms job)
  | JobResult.Timeout => ExecutionResult.mk (-2) "Timeout" "" (job_duration_ms job)
  end.

(** src: crates/server/domain/src/jobs/templates.rs 389-482 JobExecution::from_job *)
Definition from_job (job : Job.t) (template : JobTemplateId) (version number : Z)
    (fresh : Uuid) (now : DateTime) : t :=
  let meta := Job.metadata job in
  {|
    id := fresh;
    execution_number := number;
    template_id := template;
    template_version := version;
    job_id := Some (Job.id job);
    job_name := default ("job-" +:+ uuid_to_string (Job.id job)) (meta !! "job_name");
    job_spec := Job.spec job;
    state := JobExecutionStatus.map_job_state_to_execution_status (Job.state job);
    result := result_of job <$> Job.result job;
    queued_at := Job.created_at job;
    started_at := Job.started_at job;
    completed_at := Job.completed_at job;
    triggered_by :=
      if bool_decide (is_Some (meta !! "scheduled_job_id")) then TriggerType.Scheduled
      else if bool_decide (is_Some (meta !! "retry_of")) then TriggerType.Retry
      else TriggerType.Manual;
    scheduled_job_id := meta !! "scheduled_job_id" ≫= uuid_parse_str;
    triggered_by_user := meta !! "triggered_by_user";
    parameters := ∅;
    resource_usage := None;
    metadata := meta;
    created_at := now;
  |}.

(** src: crates/server/domain/src/jobs/templates.rs 485-488 JobExecution::start *)
Definition start (now : DateTime) (x : t) : t :=
  x <| state := JobExecutionStatus.Running |> <| started_at := Some now |>.

(** src: crates/server/domain/src/jobs/templates.rs 491-498 JobExecution::complete *)
Definition complete (r : ExecutionResult.t) (now : DateTime) (x : t) : t :=
  x <| state := (if ExecutionResult.exit_code r =? 0
                 then JobExecutionStatus.Succeeded else JobExecutionStatus.Failed) |>
    <| result := Some r |> <| completed_at := Some now |>.

(** src: crates/server/domain/src/jobs/templates.rs 501-510 JobExecution::fail *)
Definition fail (error : string) (duration : Z) (now : DateTime) (x : t) : t :=
  x <| state := JobExecutionStatus.Failed |>
    <| result := Some (ExecutionResult.mk (-1) "Failed" error duration) |>
    <| completed_at := Some now |>.

(** src: crates/server/domain/src/jobs/templates.rs 513-520 JobExecution::duration_ms *)
Definition duration_ms (x : t) : option Z :=
  match started_at x, completed_at x with
  | Some start, Some end_ => Some (as_u64 (num_milliseconds (signed_duration_since end_ start)))
  | _, _ => None
  end.

End execution.
End JobExecution.

Module ScheduledJobStatus.

(** src: crates/server/domain/src/jobs/templates.rs 525-534 ScheduledJobStatus *)
Inductive t := Enabled | Disabled | Error | Paused.

End ScheduledJobStatus.

Module ScheduledJob.
Section scheduled.
Context `{E : Externs}.

(** src: crates/server/domain/src/jobs/templates.rs 538-573 ScheduledJob *)
Record t := mk {
  id : Uuid;
  name : string;
  description : option string;
  template_id : JobTemplateId;
  cron_expression : string;
  timezone : string;
  next_execution_at : DateTime;
  last_execution_at : option DateTime;
  last_execution_status : option JobExecutionStatus.t;
  enabled : bool;
  max_consecutive_failures : Z;
  consecutive_failures : Z;
  pause_on_failure : bool;
  parameters : gmap string string;
  created_at : DateTime;
  updated_at : DateTime;
  created_by : option string;
}.

#[global] Instance t_rebuild : Rebuild t := fun x =>
  mk (id x) (name x) (description x) (template_id x) (cron_expression x) (timezone x)
    (next_execution_at x) (last_execution_at x) (last_execution_status x) (enabled x)
    (max_consecutive_failures x) (consecutive_failures x) (pause_on_failure x) (parameters x)
    (created_at x) (updated_at x) (created_by x).

(** src: crates/server/domain/src/jobs/templates.rs 577-603 ScheduledJob::new *)
Definition new (n : string) (template : JobTemplateId) (cron zone : string) (fresh : Uuid)
    (now : DateTime) : t := {|
  id := fresh;
  name := n;
  description := None;
  template_id := template;
  cron_expression := cron;
  timezone := zone;
  next_execution_at := now;
  last_execution_at := None;
  last_execution_status := None;
  enabled := true;
  max_consecutive_failures := 3;
  consecutive_failures := 0;
  pause_on_failure := false;
  parameters := ∅;
  created_at := now;
  updated_at := now;
  created_by := None;
|}.

(** src: crates/server/domain/src/jobs/templates.rs 606-608 ScheduledJob::should_run_now *)
Definition should_run_now (now : DateTime) (x : t) : bool :=
  enabled x && datetime_leb (next_execution_at x) now.

(** src: crates/server/domain/src/jobs/templates.rs 611-616 ScheduledJob::mark_triggered *)
Definition mark_triggered (now : DateTime) (x : t) : t :=
  x <| last_execution_at := Some now |> <| consecutive_failures := 0 |>.

(** src: crates/server/domain/src/jobs/templates.rs 619-623 ScheduledJob::mark_success *)
Definition mark_success (now : DateTime) (x : t) : t :=
  x <| last_execution_status := Some JobExecutionStatus.Succeeded |>
    <| consecutive_failures := 0 |> <| updated_at := now |>.

(** src: crates/server/domain/src/jobs/templates.rs 626-635 ScheduledJob::mark_failed *)
Definition mark_failed (now : DateTime) (x : t) : t :=
  let x := x <| last_execution_status := Some JobExecutionStatus.Failed |>
             <| consecutive_failures := u32_add (consecutive_failures x) 1 |>
             <| updated_at := now |> in
  if pause_on_failure x && (max_consecutive_failures x <=? consecutive_failures x)
  then x <| enabled := false |> else x.

(** src: crates/server/domain/src/jobs/templates.rs 638-641 ScheduledJob::disable *)
Definition disable (now : DateTime) (x : t) : t :=
  x <| enabled := false |> <| updated_at := now |>.

(** src: crates/server/domain/src/jobs/templates.rs 644-647 ScheduledJob::enable *)
Definition enable (now : DateTime) (x : t) : t :=
  x <| enabled := true |> <| updated_at := now |>.

(** src: crates/server/domain/src/jobs/templates.rs 650-653 ScheduledJob::with_description *)
Definition with_description (d : string) (x : t) : t := x <| description := Some d |>.

(** src: crates/server/domain/src/jobs/templates.rs 656-659 ScheduledJob::with_parameter *)
Definition with_parameter (k v : string) (x : t) : t :=
  x <| parameters := <[k := v]> (parameters x) |>.

(** src: crates/server/domain/src/jobs/templates.rs 662-665 ScheduledJob::with_created_by *)
Definition with_created_by (user : string) (x : t) : t := x <| created_by := Some user |>.

(** src: crates/server/domain/src/jobs/templates.rs 668-671 ScheduledJob::with_max_consecutive_failures *)
Definition with_max_consecutive_failures (n : Z) (x : t) : t :=
  x <| max_consecutive_failures := n |>.

(** src: crates/server/domain/src/jobs/templates.rs 674-677 ScheduledJob::with_pause_on_failure *)
Definition with_pause_on_failure (pause : bool) (x : t) : t := x <| pause_on_failure := pause |>.

End scheduled.
End ScheduledJob.

(** ** Parameters *)

Module ParameterType.

(** src: crates/server/domain/src/jobs/templates.rs 709-720 ParameterType *)
Inductive t := String | Number | Boolean | Choice | Secret.

#[global] Instance t_eq_dec : EqDecision t.
Proof. solve_decision. Defined.

(** src: crates/server/domain/src/jobs/templates.rs 722-732 impl Display for ParameterType *)
Definition fmt (p : t) : string :=
  match p with
  | String => "String"
  | Number => "Number"
  | Boolean => "Boolean"
  | Choice => "Choice"
  | Secret => "Secret"
  end.

End ParameterType.

Module ValidationError.

(** src: crates/server/domain/src/jobs/templates.rs 906-935 ValidationError *)
Inductive t :=
  | Required (parameter_name : string)
  | InvalidType (parameter_name expected actual : string)
  | OutOfRange (parameter_name value : string) (min max : option f64)
  | InvalidChoice (parameter_name value : string) (allowed_choices : list string)
  | PatternMismatch (parameter_name value : string)
  | InvalidPattern (pattern : string).

End ValidationError.

(** The crate [regex]: an expression compiles or not, and matches or not. *)
Class RegexEngine := {
  Regex : Type;
  Regex_new : string -> option Regex;
  is_match : Regex -> string -> bool;
}.

Module JobTemplateParameter.
Section parameter.
Context `{E : Externs} {RE : RegexEngine}.

(** src: crates/server/domain/src/jobs/templates.rs 736-767 JobTemplateParameter *)
Record t := mk {
  id : Uuid;
  template_id : JobTemplateId;
  name : string;
  parameter_type : ParameterType.t;
  description : string;
  required : bool;
  default_value : option string;
  validation_pattern : option string;
  min_value : option f64;
  max_value : option f64;
  choices : list string;
  display_order : Z;
  secret : bool;
  created_at : DateTime;
  updated_at : DateTime;
}.

#[global] Instance t_rebuild : Rebuild t := fun x =>
  mk (id x) (template_id x) (name x) (parameter_type x) (description x) (required x)
    (default_value x) (validation_pattern x) (min_value x) (max_value x) (choices x)
    (display_order x) (secret x) (created_at x) (updated_at x).

(** src: crates/server/domain/src/jobs/templates.rs 771-790 JobTemplateParameter::new *)
Definition new (template : JobTemplateId) (n : string) (ty : ParameterType.t) (fresh : Uuid)
    (now : DateTime) : t := {|
  id := fresh;
  template_id := template;
  name := n;
  parameter_type := ty;
  description := "";
  required := false;
  default_value := None;
  validation_pattern := None;
  min_value := None;
  max_value := None;
  choices := [];
  display_order := 0;
  secret := false;
  created_at := now;
  updated_at := now;
|}.

(** The check of a number against the bounds. *)
(** src: crates/server/domain/src/jobs/templates.rs 832-856 JobTemplateParameter::validate (range) *)
Definition check_range (value : string) (parsed : f64) (p : t) : result ValidationError.t unit :=
  if match min_value p with Some min => F64.ltb parsed min | None => false end
  then Err (ValidationError.OutOfRange (name p) value (min_value p) (max_value p))
  else if match max_value p with Some max => F64.ltb max parsed | None => false end
  then Err (ValidationError.OutOfRange (name p) value (min_value p) (max_value p))
  else Ok tt.

(** The error before it is rendered into a [DomainError]. *)
(** src: crates/server/domain/src/jobs/templates.rs 793-901 JobTemplateParameter::validate *)
Definition validate (value : string) (p : t) : result ValidationError.t unit :=
  if required p && (is_empty value || is_empty (trim value)) then
    Err (ValidationError.Required (name p))
  else if is_empty value then Ok tt
  else
    match parameter_type p with
    | ParameterType.String =>
        match validation_pattern p with
        | None => Ok tt
        | Some pattern =>
            match Regex_new pattern with
            | None => Err (ValidationError.InvalidPattern pattern)
            | Some regex =>
                if negb (is_match regex value)
                then Err (ValidationError.PatternMismatch (name p) value) else Ok tt
            end
        end
    | ParameterType.Number =>
        match F64.parse value with
        | Some parsed => check_range value parsed p
        | None => Err (ValidationError.InvalidType (name p) "number" value)
        end
    | ParameterType.Boolean =>
        if negb (String.eqb value "true") && negb (String.eqb value "false")
        then Err (ValidationError.InvalidType (name p) "boolean" value) else Ok tt
    | ParameterType.Choice =>
        if negb (existsb (String.eqb value) (choices p))
        then Err (ValidationError.InvalidChoice (name p) value (choices p)) else Ok tt
    | ParameterType.Secret =>
        if is_empty value then Err (ValidationError.Required (name p)) else Ok tt
    end.

End parameter.
End JobTemplateParameter.

(** ** Properties of templates *)

Section template_history.
Context `{E : Externs}.

(** The operations on a template. *)
Inductive template_op :=
  | CreateRun (job_id : JobId) (now1 now2 : DateTime)
  | RecordSuccess (now : DateTime)
  | RecordFailure (now : DateTime)
  | Disable (now : DateTime)
  | Enable (now : DateTime)
  | Archive (now : DateTime)
  | UpdateSpec (s : JobSpec.t) (now : DateTime).

(** The template afterwards, and the job if one was made. *)
Definition run_template (o : template_op) (x : JobTemplate.t) : JobTemplate.t * option Job.t :=
  match o with
  | CreateRun i now1 now2 =>
      let (x', r) := JobTemplate.create_run i now1 now2 x in
      (x', match r with Ok job => Some job | Err _ => None end)
  | RecordSuccess now => (JobTemplate.record_success now x, None)
  | RecordFailure now => (JobTemplate.record_failure now x, None)
  | Disable now => (JobTemplate.disable now x, None)
  | Enable now => (JobTemplate.enable now x, None)
  | Archive now => (JobTemplate.archive now x, None)
  | UpdateSpec s now => (JobTemplate.update_spec s now x, None)
  end.

(** The template at the end of a history, and the jobs made along it. *)
Fixpoint template_history (ops : list template_op) (x : JobTemplate.t) :
    JobTemplate.t * list Job.t :=
  match ops with
  | [] => (x, [])
  | o :: ops =>
      let (x, job) := run_template o x in
      let (x, jobs) := template_history ops x in
      (x, option_list job ++ jobs)
  end.

(** The specifications a history gives to the template. *)
Definition specs_of (ops : list template_op) : list JobSpec.t :=
  omap (fun o => match o with UpdateSpec s _ => Some s | _ => None end) ops.

(** How many runs are asked for while the template is active. *)
Fixpoint runs_asked (active : bool) (ops : list template_op) : nat :=
  match ops with
  | [] => 0
  | CreateRun _ _ _ :: ops => (if active then 1 else 0) + runs_asked active ops
  | Enable _ :: ops => runs_asked true ops
  | Disable _ :: ops | Archive _ :: ops => runs_asked false ops
  | _ :: ops => runs_asked active ops
  end.

(** A job is a run of version [S k] of the template, where [specs] are its
    specifications in the order of their versions. *)
Definition run_of (i : JobTemplateId) (n : string) (specs : list JobSpec.t) (job : Job.t) : Prop :=
  exists k s, specs !! k = Some s /\ Job.spec job = s /\ Job.name job = n /\
    Job.state job = JobState.Pending /\
    Job.metadata job !! "template_id" = Some (uuid_to_string i) /\
    Job.metadata job !! "template_name" = Some n /\
    Job.metadata job !! "template_version" = Some (show_Z (Z.of_nat (S k))).

(** [x] is at the last of [specs]. *)
Definition at_version (specs : list JobSpec.t) (x : JobTemplate.t) : Prop :=
  JobTemplate.version x = Z.of_nat (length specs) /\ last specs = Some (JobTemplate.spec x).

Lemma create_run_of specs i now1 now2 x x' job :
  at_version specs x -> JobTemplate.create_run i now1 now2 x = (x', Ok job) ->
  run_of (JobTemplate.id x) (JobTemplate.name x) specs job.
Proof.
  intros [Hv Hl]. unfold JobTemplate.create_run, mbind, method_bind, self, ensure.
  destruct (JobTemplate.can_create_run x); [|discriminate]. intros [= _ <-].
  rewrite last_lookup in Hl. destruct specs as [|s specs]; [done|].
  exists (length specs), (JobTemplate.spec x). split_and!; try done.
  simpl. by rewrite Hv.
Qed.

Lemma run_of_app i n specs more job : run_of i n specs job -> run_of i n (specs ++ more) job.
Proof.
  intros (k & s & Hk & H). exists k, s. split; [|done]. by apply lookup_app_l_Some.
Qed.

Lemma at_version_update specs s now x :
  at_version specs x -> Z.of_nat (length (specs ++ [s])) < 2 ^ 32 ->
  at_version (specs ++ [s]) (JobTemplate.update_spec s now x).
Proof.
  intros [Hv _] Hlen. rewrite length_app in Hlen. simpl in Hlen. split.
  - simpl. rewrite Hv, length_app, u32_add_small by (unfold u32; lia). simpl. lia.
  - simpl. by rewrite last_snoc.
Qed.

Lemma run_template_spec o specs x :
  at_version specs x -> Z.of_nat (length (specs ++ specs_of [o])) < 2 ^ 32 ->
  u64 (JobTemplate.run_count x) ->
  let (x', job) := run_template o x in
  JobTemplate.id x' = JobTemplate.id x /\ JobTemplate.name x' = JobTemplate.name x /\
  at_version (specs ++ specs_of [o]) x' /\ u64 (JobTemplate.run_count x') /\
  Forall (run_of (JobTemplate.id x) (JobTemplate.name x) specs) (option_list job) /\
  (forall ops, runs_asked (JobTemplate.can_create_run x) (o :: ops) =
    length (option_list job) + runs_asked (JobTemplate.can_create_run x') ops)%nat /\
  JobTemplate.run_count x' =
    u64_add (JobTemplate.run_count x) (Z.of_nat (length (option_list job))).
Proof.
  intros Hx Hlen Hc.
  assert (u64_add (JobTemplate.run_count x) 0 = JobTemplate.run_count x) as Hsame.
  { rewrite u64_add_small; rewrite Z.add_0_r; done. }
  destruct o as [i now1 now2|now|now|now|now|now|s now]; simpl;
    try (rewrite app_nil_r; by split_and!).
  - rewrite app_nil_r. destruct (JobTemplate.create_run i now1 now2 x) as [x' [job|e]] eqn:Hr.
    + pose proof (create_run_of _ _ _ _ _ _ _ Hx Hr) as Hjob. revert Hr.
      unfold JobTemplate.create_run, mbind, method_bind, self, ensure, assign, modify.
      destruct (JobTemplate.can_create_run x) eqn:Ha; [|discriminate]. intros [= <- _].
      split_and!; try done; [apply u64_add_range|by repeat constructor|].
      intros ops. unfold JobTemplate.can_create_run in *. simpl. by rewrite Ha.
    + revert Hr. unfold JobTemplate.create_run, mbind, method_bind, self, ensure.
      destruct (JobTemplate.can_create_run x) eqn:Ha; [discriminate|]. intros [= <- _].
      rewrite Ha. by split_and!.
  - split_and!; try done. by apply at_version_update.
Qed.

Lemma history_spec ops specs x :
  at_version specs x -> Z.of_nat (length (specs ++ specs_of ops)) < 2 ^ 32 ->
  u64 (JobTemplate.run_count x) ->
  let (x', jobs) := template_history ops x in
  at_version (specs ++ specs_of ops) x' /\
  Forall (run_of (JobTemplate.id x) (JobTemplate.name x) (specs ++ specs_of ops)) jobs /\
  length jobs = runs_asked (JobTemplate.can_create_run x) ops /\
  JobTemplate.run_count x' = u64_add (JobTemplate.run_count x) (Z.of_nat (length jobs)).
Proof.
  revert specs x. induction ops as [|o ops IH]; intros specs x Hx Hlen Hc.
  { simpl. rewrite app_nil_r. split_and!; try done. rewrite u64_add_small; rewrite Z.add_0_r; done. }
  assert (specs ++ specs_of (o :: ops) = (specs ++ specs_of [o]) ++ specs_of ops) as Hs.
  { rewrite <- app_assoc. f_equal. unfold specs_of. by destruct o. }
  rewrite Hs in *. simpl template_history. pose proof (run_template_spec o specs x Hx) as Hstep.
  destruct (run_template o x) as [x1 job].
  destruct Hstep as (Hi & Hn & Hx1 & Hc1 & Hjob & Hask & Hcount);
    [rewrite !length_app in *; lia|done|].
  specialize (IH _ _ Hx1 Hlen Hc1). destruct (template_history ops x1) as [x' jobs].
  destruct IH as (Hx' & Hjobs & Hl & Hcount'). split_and!; [done| | |].
  - rewrite Hi, Hn in Hjobs. apply Forall_app. split; [|done].
    eapply Forall_impl; [exact Hjob|]. intros j Hj. by do 2 apply run_of_app.
  - by rewrite length_app, Hask, Hl.
  - rewrite Hcount', Hcount, length_app, Nat2Z.inj_add. unfold u64_add, wrap.
    rewrite Zplus_mod_idemp_l. f_equal. lia.
Qed.

(** Whatever happens to a template, a run is made exactly when one
    is asked for while the template is active, and counted; and the version a
    run carries names the specification it runs: the template's first one for
    version 1, the one of the k-th update for version k + 1, even if the
    template was changed since. *)
Theorem runs_name_their_specification (n : string) (s : JobSpec.t) (fresh : Uuid)
    (now : DateTime) (ops : list template_op) :
  let specs := s :: specs_of ops in
  Z.of_nat (length specs) < 2 ^ 32 ->
  let (x, jobs) := template_history ops (JobTemplate.new n s fresh now) in
  Forall (run_of fresh n specs) jobs /\
  length jobs = runs_asked true ops /\
  JobTemplate.run_count x = wrap 64 (Z.of_nat (length jobs)) /\
  JobTemplate.version x = Z.of_nat (length specs) /\
  last specs = Some (JobTemplate.spec x).
Proof.
  intros specs Hlen.
  pose proof (history_spec ops [s] (JobTemplate.new n s fresh now)) as H.
  destruct (template_history ops (JobTemplate.new n s fresh now)) as [x jobs].
  destruct H as ([Hv Hl] & Hjobs & Hask & Hcount); [done|done|by split|]. by split_and!.
Qed.
End template_history.

(** ** Properties of scheduled jobs *)

Section schedules.
Context `{E : Externs}.
Import ScheduledJob.

(** An execution: when it was triggered, how it ended, and when. *)
Definition execution (x : t) (e : DateTime * bool * DateTime) : t :=
  let '(triggered, ok, ended) := e in
  let x := mark_triggered triggered x in
  if ok then mark_success ended x else mark_failed ended x.

Lemma execution_fields x e :
  let x' := execution x e in
  max_consecutive_failures x' = max_consecutive_failures x /\
  pause_on_failure x' = pause_on_failure x /\
  consecutive_failures x' = (if snd (fst e) then 0 else 1) /\
  enabled x' = enabled x && (snd (fst e) || negb (pause_on_failure x && (max_consecutive_failures x <=? 1))).
Proof.
  destruct e as [[t1 []] t2]; simpl; unfold mark_failed; simpl;
    [by rewrite andb_true_r|].
  change (u32_add 0 1) with 1.
  destruct (pause_on_failure x && (max_consecutive_failures x <=? 1)); simpl;
    by rewrite ?andb_true_r, ?andb_false_r.
Qed.

Lemma mark_failed_fields now x :
  let x' := mark_failed now x in
  max_consecutive_failures x' = max_consecutive_failures x /\
  pause_on_failure x' = pause_on_failure x /\
  consecutive_failures x' = u32_add (consecutive_failures x) 1 /\
  enabled x' = enabled x &&
    negb (pause_on_failure x && (max_consecutive_failures x <=? u32_add (consecutive_failures x) 1)).
Proof.
  unfold mark_failed. simpl. destruct (pause_on_failure x && _); simpl;
    by rewrite ?andb_true_r, ?andb_false_r.
Qed.

Lemma failures_fields nows x :
  0 <= consecutive_failures x -> consecutive_failures x + Z.of_nat (length nows) < 2 ^ 32 ->
  let x' := foldl (fun x now => mark_failed now x) x nows in
  consecutive_failures x' = consecutive_failures x + Z.of_nat (length nows) /\
  (consecutive_failures x < max_consecutive_failures x ->
   enabled x' = enabled x && negb (pause_on_failure x &&
     (max_consecutive_failures x <=? consecutive_failures x + Z.of_nat (length nows)))).
Proof.
  revert x. induction nows as [|now nows IH]; intros x H0 Hlen; simpl in *.
  { split; [lia|]. intros Hlt. rewrite Z.add_0_r.
    destruct (Z.leb_spec (max_consecutive_failures x) (consecutive_failures x)); [lia|].
    by rewrite andb_false_r, andb_true_r. }
  destruct (mark_failed_fields now x) as (Hm & Hp & Hc & He).
  rewrite u32_add_small in Hc, He by (unfold u32; lia).
  destruct (IH (mark_failed now x)) as [IHc IHe]; [lia|lia|]. split; [lia|]. intros Hlt.
  destruct (Z.ltb_spec (consecutive_failures x + 1) (max_consecutive_failures x)) as [Hlt'|Hge].
  - rewrite IHe by lia. rewrite He, Hm, Hp, Hc.
    destruct (Z.leb_spec (max_consecutive_failures x) (consecutive_failures x + 1)); [lia|].
    rewrite andb_false_r, andb_true_r. do 4 f_equal. lia.
  - clear IH IHc IHe. assert (forall l y, enabled y = false ->
      enabled (foldl (fun x now => mark_failed now x) y l) = false) as Hoff.
    { induction l as [|now' l IHl]; intros y Hy; [done|]. simpl. apply IHl.
      destruct (mark_failed_fields now' y) as (_ & _ & _ & ->). by rewrite Hy. }
    assert (forall l y, pause_on_failure y = false ->
      enabled (foldl (fun x now => mark_failed now x) y l) = enabled y) as Hnever.
    { induction l as [|now' l IHl]; intros y Hy; [done|]. simpl.
      destruct (mark_failed_fields now' y) as (_ & Hp' & _ & He').
      rewrite IHl by (by rewrite Hp'). rewrite He', Hy. by rewrite andb_true_r. }
    destruct (pause_on_failure x) eqn:Hpause; simpl in *.
    + destruct (Z.leb_spec (max_consecutive_failures x) (consecutive_failures x + 1)); [|lia].
      destruct (Z.leb_spec (max_consecutive_failures x)
        (consecutive_failures x + Z.of_nat (S (length nows)))); [|lia].
      simpl in *. rewrite andb_false_r in *. by apply Hoff.
    + rewrite Hnever by done. done.
Qed.

(** Failures reported one after the other pause a scheduled job
    exactly when it pauses on failure and they are as many as its limit; but an
    execution that is triggered starts the count again, so that a job with a
    limit of two or more is never paused however many of its executions fail in
    a row, and with a limit of one the first failure pauses it. *)
Theorem failing_schedule_is_never_paused (x : t) :
  (forall nows, consecutive_failures x = 0 -> 1 <= max_consecutive_failures x ->
     Z.of_nat (length nows) < 2 ^ 32 ->
     enabled (foldl (fun x now => mark_failed now x) x nows) =
       enabled x && negb (pause_on_failure x &&
         (max_consecutive_failures x <=? Z.of_nat (length nows)))) /\
  (forall es, 2 <= max_consecutive_failures x ->
     enabled (foldl execution x es) = enabled x) /\
  (forall es, pause_on_failure x = true -> max_consecutive_failures x <= 1 ->
     enabled (foldl execution x es) = enabled x && forallb (fun e => snd (fst e)) es).
Proof.
  split_and!.
  - intros nows Hc Hm Hlen. destruct (failures_fields nows x) as [_ ->]; [lia|lia| |lia].
    by rewrite Hc.
  - intros es. revert x. induction es as [|e es IH]; intros x Hm; [done|]. simpl.
    destruct (execution_fields x e) as (Hm' & _ & _ & He). rewrite IH by lia. rewrite He.
    destruct (Z.leb_spec (max_consecutive_failures x) 1); [lia|].
    by rewrite andb_false_r, orb_true_r, andb_true_r.
  - intros es Hp. revert x Hp. induction es as [|e es IH]; intros x Hp Hm; simpl;
      [by rewrite andb_true_r|].
    destruct (execution_fields x e) as (Hm' & Hp' & _ & He).
    rewrite IH by (congruence || lia). rewrite He, Hp.
    destruct (Z.leb_spec (max_consecutive_failures x) 1); [|lia]. simpl.
    by rewrite orb_false_r, andb_assoc.
Qed.
End schedules.

(** A template that is updated between two runs, and then disabled. *)
Definition example_ops : list (@template_op concrete) := [
  CreateRun (E := concrete) 1%nat 0 0;
  UpdateSpec (E := concrete) (JobSpec.new ["make"; "test"]) 1;
  CreateRun (E := concrete) 2%nat 2 2;
  Disable (E := concrete) 3;
  CreateRun (E := concrete) 3%nat 4 4].

Example runs_name_their_specification_witness :
  let (_, jobs) := template_history example_ops
    (JobTemplate.new (E := concrete) "build" (JobSpec.new ["make"]) 7%nat 0) in
  length jobs = 2%nat /\
  Forall (run_of (E := concrete) 7%nat "build"
    [JobSpec.new ["make"]; JobSpec.new ["make"; "test"]]) jobs.
Proof.
  pose proof (runs_name_their_specification (E := concrete) "build" (JobSpec.new ["make"])
    7%nat 0 example_ops) as H.
  cbv zeta in H. destruct (template_history _ _) as [x jobs].
  destruct H as (Hjobs & Hask & _); [reflexivity|]. split; [exact Hask|exact Hjobs].
Defined.

(** ** Properties of parameters *)

Section parameters.
Context `{E : Externs} {RE : RegexEngine}.
Import JobTemplateParameter.

(** What a parameter asks of a value that is not empty. *)
Definition well_typed (p : t) (v : string) : Prop :=
  match parameter_type p with
  | ParameterType.String => forall pattern, validation_pattern p = Some pattern ->
      exists regex, Regex_new pattern = Some regex /\ is_match regex v = true
  | ParameterType.Number => exists x, F64.parse v = Some x /\
      (forall min, min_value p = Some min -> F64.ltb x min = false) /\
      (forall max, max_value p = Some max -> F64.ltb max x = false)
  | ParameterType.Boolean => v = "true" \/ v = "false"
  | ParameterType.Choice => v ∈ choices p
  | ParameterType.Secret => True
  end.

Definition acceptable (p : t) (v : string) : Prop :=
  (required p = true -> trim v <> "") /\ (v = "" \/ well_typed p v).

(** What an error says of the value. *)
Definition blames (p : t) (v : string) (e : ValidationError.t) : Prop :=
  match e with
  | ValidationError.Required n => n = name p /\ required p = true /\ trim v = ""
  | ValidationError.InvalidType n expected actual => n = name p /\ actual = v /\
      (parameter_type p = ParameterType.Number /\ expected = "number" /\ F64.parse v = None \/
       parameter_type p = ParameterType.Boolean /\ expected = "boolean" /\
         v <> "true" /\ v <> "false")
  | ValidationError.OutOfRange n actual min max => n = name p /\ actual = v /\
      min = min_value p /\ max = max_value p /\ parameter_type p = ParameterType.Number /\
      exists x, F64.parse v = Some x /\
        ((exists m, min = Some m /\ F64.ltb x m = true) \/
         (exists m, max = Some m /\ F64.ltb m x = true))
  | ValidationError.InvalidChoice n actual allowed => n = name p /\ actual = v /\
      allowed = choices p /\ parameter_type p = ParameterType.Choice /\ ~ v ∈ choices p
  | ValidationError.PatternMismatch n actual => n = name p /\ actual = v /\
      exists pattern regex, validation_pattern p = Some pattern /\
        Regex_new pattern = Some regex /\ is_match regex v = false
  | ValidationError.InvalidPattern pattern =>
      validation_pattern p = Some pattern /\ Regex_new pattern = None
  end.

Lemma is_empty_spec (s : string) : reflect (s = "") (is_empty s).
Proof. apply String.eqb_spec. Qed.

Lemma required_blank (v : string) : is_empty v || is_empty (trim v) = is_empty (trim v).
Proof. destruct (is_empty_spec v) as [->|]; done. Qed.

Lemma existsb_elem (v : string) (l : list string) : existsb (String.eqb v) l = true <-> v ∈ l.
Proof.
  rewrite existsb_exists, list_elem_of_In. split.
  - intros (x & Hx & ->%String.eqb_eq). done.
  - intros Hv. exists v. by rewrite String.eqb_refl.
Qed.

Lemma check_range_spec v x p :
  match check_range v x p with
  | Ok _ => (forall min, min_value p = Some min -> F64.ltb x min = false) /\
            (forall max, max_value p = Some max -> F64.ltb max x = false)
  | Err e => e = ValidationError.OutOfRange (name p) v (min_value p) (max_value p) /\
      ((exists m, min_value p = Some m /\ F64.ltb x m = true) \/
       (exists m, max_value p = Some m /\ F64.ltb m x = true))
  end.
Proof.
  unfold check_range. destruct (min_value p) as [lo|], (max_value p) as [hi|];
    try destruct (F64.ltb x lo) eqn:Hlo; try destruct (F64.ltb hi x) eqn:Hhi;
    split; intros; simplify_eq; eauto.
Qed.

(** [validate] past the empty values. *)
Lemma validate_typed v p :
  v <> "" -> (required p = true -> trim v <> "") ->
  match validate v p with
  | Ok _ => well_typed p v
  | Err e => ~ well_typed p v /\ blames p v e
  end.
Proof.
  intros Hv Hr. unfold validate. rewrite required_blank.
  assert (required p && is_empty (trim v) = false) as ->.
  { destruct (required p); [|done]. destruct (is_empty_spec (trim v)); [by destruct Hr|done]. }
  assert (is_empty v = false) as -> by (by destruct (is_empty_spec v)).
  unfold well_typed, blames. destruct (parameter_type p).
  - destruct (validation_pattern p) as [pattern|]; [|done].
    destruct (Regex_new pattern) as [regex|] eqn:Hre; [destruct (is_match regex v) eqn:Hm|];
      simpl.
    + intros ? [= <-]. eauto.
    + split; [|by eauto 10]. intros H. destruct (H _ eq_refl) as (? & ? & ?). congruence.
    + split; [|done]. intros H. destruct (H _ eq_refl) as (? & ? & ?). congruence.
  - destruct (F64.parse v) as [x|]; [|split; [by intros (? & ? & _)|by auto 6]].
    pose proof (check_range_spec v x p) as Hrange.
    destruct (check_range v x p) as [|e]; [by eauto|]. destruct Hrange as (-> & Hout).
    split; [|by eauto 10]. intros (y & [= <-] & Hlo & Hhi).
    destruct Hout as [(m & Hm & Hx)|(m & Hm & Hx)]; [apply Hlo in Hm|apply Hhi in Hm]; congruence.
  - destruct (String.eqb_spec v "true"), (String.eqb_spec v "false"); simpl; auto.
    split; [by intros []|by auto 10].
  - pose proof (existsb_elem v (choices p)) as Hin.
    destruct (existsb _ _); simpl; [by apply Hin|].
    assert (~ v ∈ choices p) by (intros ?%Hin; done). by auto 6.
  - done.
Qed.

(** A value is accepted exactly when it is not blank where the
    parameter is required, and is empty or fits the parameter's type: its
    pattern, its bounds, [true] or [false], its choices. Otherwise the error
    names the parameter and what is wrong. A number is anything that parses as
    one, so that [nan] is within all bounds; and a parameter of type secret
    accepts a blank value when it is not required. *)
Theorem parameter_validation_accepts_exactly (p : t) (v : string) :
  (validate v p = Ok tt <-> acceptable p v) /\
    (forall e, validate v p = Err e -> ~ acceptable p v /\ blames p v e) /\
    (parameter_type p = ParameterType.Number -> validate "nan" p = Ok tt).
Proof.
  assert (match validate v p with
          | Ok _ => acceptable p v
          | Err e => ~ acceptable p v /\ blames p v e
          end) as H.
  { destruct (decide (required p = true /\ trim v = "")) as [[Hr Hb]|Hn].
    - assert (validate v p = Err (ValidationError.Required (name p))) as ->.
      { unfold validate. rewrite required_blank, Hr, Hb. done. }
      split; [intros [Ha _]; by apply Ha|done].
    - assert (required p = true -> trim v <> "") as Hr by tauto.
      destruct (decide (v = "")) as [->|Hv].
      + assert (validate "" p = Ok tt) as ->; [|by split; auto].
        unfold validate. destruct (required p); [by destruct Hr|done].
      + pose proof (validate_typed v p Hv Hr) as Ht. unfold acceptable.
        destruct (validate v p); [by auto|]. destruct Ht. split; [|done]. tauto. }
  split_and!.
  - destruct (validate v p) as [[]|e]; [done|]. split; [done|]. intros Ha. by destruct H.
  - intros e He. by rewrite He in H.
  - intros Hty. unfold validate. rewrite required_blank, Hty.
    change (trim "nan") with "nan". rewrite andb_false_r. simpl.
    unfold check_range. by destruct (min_value p) as [[]|], (max_value p) as [[]|].
Qed.
End parameters.
