(* ===== verification/Sql.v ===== *)
(** * Statements on a table

    What the PostgreSQL repositories share.  A table is the list of its rows in
    the state of the database; a statement is executed, or refused before it has
    an effect, or it has its effect and the connection fails before the answer
    ([outcome]).  [write f] runs a statement that changes the table and may
    violate a constraint of it, [read f] one that only reads. *)

From S2P Require Import Prelude Effects Std Externs.

(** What a statement meets. *)
Inductive outcome := Executed | Refused (message : string) | AnswerLost (message : string).

Class Table `{E : Externs} (S Row : Type) := {
  table_rows : S -> list Row;
  set_table_rows : list Row -> S -> S;
  (* [now()], the time of the transaction *)
  statement_time : S -> DateTime;
  statement_outcome : S -> S * outcome;
}.

Class TableLaws `{E : Externs} (S Row : Type) `{!Table S Row} : Prop := {
  table_rows_set : forall l s, table_rows (set_table_rows l s) = l;
  table_rows_outcome : forall s, table_rows (statement_outcome s).1 = table_rows s;
}.

Section statements.
Context `{E : Externs} {S Row : Type} `{!Table S Row}.

Definition write (f : DateTime -> list Row -> result string (list Row)) : method S string unit :=
  fun s =>
    let (s, o) := statement_outcome s in
    match o, f (statement_time s) (table_rows s) with
    | Executed, Ok rows => (set_table_rows rows s, Ok tt)
    | Executed, Err m => (s, Err m)
    | Refused m, _ => (s, Err m)
    | AnswerLost m, Ok rows => (set_table_rows rows s, Err m)
    | AnswerLost m, Err _ => (s, Err m)
    end.

Definition read {A} (f : list Row -> A) : method S string A :=
  fun s =>
    let (s, o) := statement_outcome s in
    match o with
    | Executed => (s, Ok (f (table_rows s)))
    | Refused m | AnswerLost m => (s, Err m)
    end.

(** A statement that reads [now()]. *)
Definition read_at {A} (f : DateTime -> list Row -> A) : method S string A :=
  fun s => read (f (statement_time (statement_outcome s).1)) s.

(** A statement that tells how many rows it has affected. *)
Definition write_counting (f : DateTime -> list Row -> result string (list Row * nat)) :
    method S string nat :=
  fun s =>
    let (s, o) := statement_outcome s in
    match o, f (statement_time s) (table_rows s) with
    | Executed, Ok (rows, n) => (set_table_rows rows s, Ok n)
    | Executed, Err m => (s, Err m)
    | Refused m, _ => (s, Err m)
    | AnswerLost m, Ok (rows, _) => (set_table_rows rows s, Err m)
    | AnswerLost m, Err _ => (s, Err m)
    end.

Context `{!TableLaws S Row}.

(** A statement that is answered with [Ok] was executed once. *)
Lemma write_ok f s :
  returns (write f) s = Ok tt ->
  exists now, f now (table_rows s) = Ok (table_rows (after (write f) s)).
Proof.
  unfold returns, after, write. pose proof (table_rows_outcome s) as Hrows.
  destruct (statement_outcome s) as [s1 o]. simpl in Hrows. rewrite <- Hrows.
  destruct o, (f (statement_time s1) (table_rows s1)) eqn:Hf; simpl; try done.
  intros _. exists (statement_time s1). by rewrite table_rows_set.
Qed.

(** However a statement ends, the rows are those before, or the statement was
    executed once. *)
Lemma write_rows f s :
  table_rows (after (write f) s) = table_rows s \/
  exists now, f now (table_rows s) = Ok (table_rows (after (write f) s)).
Proof.
  unfold after, write. pose proof (table_rows_outcome s) as Hrows.
  destruct (statement_outcome s) as [s1 o]. simpl in Hrows. rewrite <- Hrows.
  destruct o, (f (statement_time s1) (table_rows s1)) eqn:Hf; simpl; auto;
    right; exists (statement_time s1); by rewrite table_rows_set.
Qed.

Lemma write_counting_ok f s n :
  returns (write_counting f) s = Ok n ->
  f (statement_time (statement_outcome s).1) (table_rows s) =
    Ok (table_rows (after (write_counting f) s), n).
Proof.
  unfold returns, after, write_counting. pose proof (table_rows_outcome s) as Hrows.
  destruct (statement_outcome s) as [s1 o]. simpl in *. rewrite <- Hrows.
  destruct o, (f (statement_time s1) (table_rows s1)) as [[rows m]|] eqn:Hf; simpl; try done.
  intros [= <-]. by rewrite table_rows_set.
Qed.

Lemma write_counting_rows f s :
  table_rows (after (write_counting f) s) = table_rows s \/
  exists now n, f now (table_rows s) = Ok (table_rows (after (write_counting f) s), n).
Proof.
  unfold after, write_counting. pose proof (table_rows_outcome s) as Hrows.
  destruct (statement_outcome s) as [s1 o]. simpl in Hrows. rewrite <- Hrows.
  destruct o, (f (statement_time s1) (table_rows s1)) as [[rows n]|] eqn:Hf; simpl; auto;
    right; exists (statement_time s1), n; by rewrite table_rows_set.
Qed.

Lemma write_counting_executed f s rows n :
  (statement_outcome s).2 = Executed ->
  f (statement_time (statement_outcome s).1) (table_rows s) = Ok (rows, n) ->
  returns (write_counting f) s = Ok n.
Proof.
  unfold returns, write_counting. pose proof (table_rows_outcome s) as Hrows.
  destruct (statement_outcome s) as [s1 o]. simpl in *. intros -> Hf. by rewrite Hrows, Hf.
Qed.

Lemma write_executed f s rows :
  (statement_outcome s).2 = Executed ->
  (forall now, f now (table_rows s) = Ok (rows now)) ->
  returns (write f) s = Ok tt.
Proof.
  unfold returns, write. pose proof (table_rows_outcome s) as Hrows.
  destruct (statement_outcome s) as [s1 o]. simpl in *. intros -> Hf. by rewrite Hrows, Hf.
Qed.

Lemma read_rows {A} (f : list Row -> A) s : table_rows (after (read f) s) = table_rows s.
Proof.
  unfold after, read. pose proof (table_rows_outcome s) as Hrows.
  destruct (statement_outcome s) as [s1 o]. by destruct o.
Qed.

Lemma read_ok {A} (f : list Row -> A) s a : returns (read f) s = Ok a -> a = f (table_rows s).
Proof.
  unfold returns, read. pose proof (table_rows_outcome s) as Hrows.
  destruct (statement_outcome s) as [s1 o]. simpl in Hrows. destruct o; simpl; try done.
  intros [= <-]. by rewrite Hrows.
Qed.

Lemma read_at_ok {A} (f : DateTime -> list Row -> A) s a :
  returns (read_at f) s = Ok a -> exists now, a = f now (table_rows s).
Proof. intros Ha. eexists. exact (read_ok (f (statement_time (statement_outcome s).1)) s a Ha). Qed.

Lemma read_at_rows {A} (f : DateTime -> list Row -> A) s :
  table_rows (after (read_at f) s) = table_rows s.
Proof. apply (read_rows (f _) s). Qed.

Lemma read_executed {A} (f : list Row -> A) s :
  (statement_outcome s).2 = Executed -> returns (read f) s = Ok (f (table_rows s)).
Proof.
  unfold returns, read. pose proof (table_rows_outcome s) as Hrows.
  destruct (statement_outcome s) as [s1 o]. simpl in *. intros ->. simpl. by rewrite Hrows.
Qed.

End statements.

(** ** Transactions

    The statements of a transaction see and change the state; [restore s0 s]
    is the database of [s0], to which a transaction that does not commit goes
    back.  A transaction that is dropped is rolled back. *)

Class Transactions (S : Type) := {
  begin_error : S -> S * option string;
  commit_outcome : S -> S * outcome;
  restore : S -> S -> S;
}.

(** [kept a] is whether the transaction that ends with [a] commits. *)
Definition transaction {S F A} `{!Transactions S} (beginning committing : string -> F)
    (kept : A -> bool) (m : method S F A) : method S F A :=
  fun s0 =>
    match begin_error s0 with
    | (s, Some e) => (s, Err (beginning e))
    | (s, None) =>
        match m s with
        | (s', Err e) => (restore s0 s', Err e)
        | (s', Ok a) =>
            if kept a then
              match commit_outcome s' with
              | (s'', Executed) => (s'', Ok a)
              | (s'', Refused e) => (restore s0 s'', Err (committing e))
              | (s'', AnswerLost e) => (s'', Err (committing e))
              end
            else (restore s0 s', Ok a)
        end
    end.

(** What is kept by beginning, by committing and by going back to a state that
    has it is kept by a transaction whose body keeps it. *)
Lemma transaction_keeps {S F A} `{!Transactions S} (I : S -> Prop) (beginning committing : string -> F)
    (kept : A -> bool) (m : method S F A) s :
  (forall s, I s -> I (begin_error s).1) ->
  (forall s, I s -> I (commit_outcome s).1) ->
  (forall s0 s, I s0 -> I (restore s0 s)) ->
  (forall s a, I s -> returns m s = Ok a -> kept a = true -> I (after m s)) ->
  I s -> I (after (transaction beginning committing kept m) s).
Proof.
  intros Hb Hc Hr Hm Hs. unfold after, transaction. specialize (Hb s Hs).
  destruct (begin_error s) as [s1 [e|]]; [done|]. specialize (Hm s1). unfold after, returns in Hm.
  destruct (m s1) as [s2 [a|e]]; [|by apply Hr]. simpl in *.
  destruct (kept a) eqn:Ha; [|by apply Hr]. specialize (Hc s2 (Hm a Hb eq_refl Ha)).
  destruct (commit_outcome s2) as [s3 []]; simpl in *; auto.
Qed.

(** A transaction that returns [Ok] ran its body, and committed or went back. *)
Lemma transaction_ok {S F A} `{!Transactions S} (beginning committing : string -> F)
    (kept : A -> bool) (m : method S F A) s a :
  returns (transaction beginning committing kept m) s = Ok a ->
  let s1 := (begin_error s).1 in
  returns m s1 = Ok a /\
  after (transaction beginning committing kept m) s =
    if kept a then (commit_outcome (after m s1)).1 else restore s (after m s1).
Proof.
  unfold returns, after, transaction. destruct (begin_error s) as [s1 [e|]]; [done|]. simpl.
  destruct (m s1) as [s2 [b|e]]; [|done]. simpl.
  destruct (kept b) eqn:Hb; [|intros [= <-]; by rewrite Hb].
  destruct (commit_outcome s2) as [s3 []]; simpl; [|done|done]. intros [= <-]. by rewrite Hb.
Qed.

(** A table on its own, with the outcomes of the statements to come, for
    evaluation. *)
Module Sheet.

Record t (Row : Type) := mk { rows : list Row; clock : Z; outcomes : list outcome }.
Arguments mk {Row} _ _ _.
Arguments rows {Row} _.
Arguments clock {Row} _.
Arguments outcomes {Row} _.

#[global] Instance table {Row} : Table (E := concrete) (t Row) Row :=
  @Build_Table concrete (t Row) Row rows (fun l s => mk l (clock s + 1) (outcomes s)) clock
    (fun s =>
       match outcomes s with
       | [] => (s, Executed)
       | o :: os => (mk (rows s) (clock s) os, o)
       end).

#[global] Instance laws {Row} : TableLaws (E := concrete) (t Row) Row.
Proof. split; [done|]. intros s. simpl. by destruct (outcomes s). Qed.

End Sheet.
