(* ===== verification/Outbox.v ===== *)
(** * The event outbox of the domain ([crates/server/domain/src/outbox/])

    The events of the outbox and its dead letters, the repositories as
    interfaces, the handler of dead letters, the writer that puts a domain
    event into the outbox and the poller that publishes what it finds there.
    The serde code of [DomainEvent] is derived; it is the class [EventFormat]. *)

From S2P Require Import Prelude Effects Std Externs States Errors Job Events Orchestrator Steps CommandOutbox.

(** [serde_json::to_value] and [from_value] of a [DomainEvent], with serde's
    message when they fail, and the JSON of a timestamp and of [None]. *)
Class EventFormat `{E : Externs} := {
  json_null : Json;
  json_of_datetime : DateTime -> Json;
  event_to_value : DomainEvent.t -> result string Json;
  event_from_value : Json -> result string DomainEvent.t;
}.

(** The derived format is serde's default for an [enum], externally tagged: an
    object whose one key is the name of the variant.  An object of two keys is
    not of that form. *)
Class ExternallyTagged `{E : Externs} (F : EventFormat) : Prop := {
  two_keys_are_no_event : forall object k k' v v',
    k <> k' -> is_err (event_from_value (json_set (json_set object k v) k' v')) = true;
}.

Definition json_of_option `{E : Externs} `{!EventFormat} {A} (f : A -> Json) (o : option A) : Json :=
  match o with Some a => f a | None => json_null end.

(** An object with two fields of different names at its end is no event. *)
Lemma object_is_no_event `{E : Externs} `{F : !EventFormat} `{!ExternallyTagged F} l k k' v v' :
  k <> k' -> is_err (event_from_value (json_object (l ++ [(k, v); (k', v')]))) = true.
Proof.
  intros Hk. unfold json_object. rewrite fold_left_app. simpl. by apply two_keys_are_no_event.
Qed.

Module OutboxStatus.

(** src: crates/server/domain/src/outbox/model.rs 11-18 OutboxStatus *)
Inductive t := Pending | Published | Failed.

#[global] Instance t_eq_dec : EqDecision t.
Proof. solve_decision. Defined.

End OutboxStatus.

Module OutboxError.
Section error.
Context `{E : Externs}.

(** The errors of [sqlx] and [serde_json] are their messages. *)
(** src: crates/server/domain/src/outbox/model.rs 22-40 OutboxError *)
Inductive t :=
  | Database (message : string)
  | Serialization (message : string)
  | DuplicateIdempotencyKey (key : string)
  | NotFound (id : Uuid)
  | InfrastructureError (message : string)
  | EventBus (message : string).

(** src: crates/server/domain/src/outbox/model.rs 21-40 Display for OutboxError *)
Definition fmt (e : t) : string :=
  match e with
  | Database m => "Database error: " +:+ m
  | Serialization m => "Serialization error: " +:+ m
  | DuplicateIdempotencyKey key => "Duplicate idempotency key: " +:+ key
  | NotFound i => "Event not found: " +:+ uuid_to_string i
  | InfrastructureError m => "Infrastructure error: " +:+ m
  | EventBus m => "Event bus error: " +:+ m
  end.

(** src: crates/server/domain/src/outbox/model.rs 171-177 impl From<OutboxError> for DomainError *)
Definition to_domain_error (e : t) : DomainError.t := DomainError.InfrastructureError (fmt e).

End error.
End OutboxError.

Module AggregateType.

(** src: crates/server/domain/src/outbox/model.rs 44-48 AggregateType *)
Inductive t := Job | Worker | Provider.

#[global] Instance t_eq_dec : EqDecision t.
Proof. solve_decision. Defined.

(** src: crates/server/domain/src/outbox/model.rs 50-58 impl Display for AggregateType *)
Definition fmt (a : t) : string :=
  match a with Job => "JOB" | Worker => "WORKER" | Provider => "PROVIDER" end.

End AggregateType.

Module OutboxEventInsert.
Section insert.
Context `{E : Externs}.

(** src: crates/server/domain/src/outbox/model.rs 62-69 OutboxEventInsert *)
Record t := mk {
  aggregate_id : Uuid;
  aggregate_type : AggregateType.t;
  event_type : string;
  payload : Json;
  metadata : option Json;
  idempotency_key : option string;
}.

(** src: crates/server/domain/src/outbox/model.rs 73-89 OutboxEventInsert::new *)
Definition new := mk.

(** src: crates/server/domain/src/outbox/model.rs 92-107 OutboxEventInsert::for_job *)
Definition for_job (job : Uuid) (type : string) (body : Json) (meta : option Json)
    (key : option string) : t :=
  new job AggregateType.Job type body meta key.

(** src: crates/server/domain/src/outbox/model.rs 110-125 OutboxEventInsert::for_worker *)
Definition for_worker (worker : Uuid) (type : string) (body : Json) (meta : option Json)
    (key : option string) : t :=
  new worker AggregateType.Worker type body meta key.

End insert.
End OutboxEventInsert.

Module OutboxEventView.
Section view.
Context `{E : Externs}.

(** src: crates/server/domain/src/outbox/model.rs 130-144 OutboxEventView *)
Record t := mk {
  id : Uuid;
  aggregate_id : Uuid;
  aggregate_type : AggregateType.t;
  event_type : string;
  event_version : Z;
  payload : Json;
  metadata : option Json;
  idempotency_key : option string;
  created_at : DateTime;
  published_at : option DateTime;
  status : OutboxStatus.t;
  retry_count : Z;
  last_error : option string;
}.

#[global] Instance t_rebuild : Rebuild t := fun v =>
  mk (id v) (aggregate_id v) (aggregate_type v) (event_type v) (event_version v) (payload v)
    (metadata v) (idempotency_key v) (created_at v) (published_at v) (status v)
    (retry_count v) (last_error v).

(** src: crates/server/domain/src/outbox/model.rs 148-150 OutboxEventView::is_pending *)
Definition is_pending (v : t) : bool := bool_decide (status v = OutboxStatus.Pending).

(** src: crates/server/domain/src/outbox/model.rs 153-155 OutboxEventView::is_published *)
Definition is_published (v : t) : bool := bool_decide (status v = OutboxStatus.Published).

(** src: crates/server/domain/src/outbox/model.rs 158-160 OutboxEventView::has_failed *)
Definition has_failed (max_retries : Z) (v : t) : bool :=
  bool_decide (status v = OutboxStatus.Failed) && (max_retries <=? retry_count v).

(** src: crates/server/domain/src/outbox/model.rs 163-165 OutboxEventView::age *)
Definition age (now : DateTime) (v : t) : TimeDelta := signed_duration_since now (created_at v).

End view.
End OutboxEventView.

Module OutboxStats.

(** src: crates/server/domain/src/outbox/repository.rs 211-216 OutboxStats *)
Record t := mk {
  pending_count : Z;
  published_count : Z;
  failed_count : Z;
  oldest_pending_age_seconds : option Z;
}.

(** src: crates/server/domain/src/outbox/repository.rs 220-222 OutboxStats::total *)
Definition total (s : t) : Z :=
  u64_add (u64_add (pending_count s) (published_count s)) (failed_count s).

(** src: crates/server/domain/src/outbox/repository.rs 225-227 OutboxStats::has_pending *)
Definition has_pending (s : t) : bool := 0 <? pending_count s.

(** src: crates/server/domain/src/outbox/repository.rs 230-237 OutboxStats::error_rate *)
Definition error_rate (s : t) : f64 :=
  if total s =? 0 then F64.of_Z 0
  else F64.mul (F64.div (F64.of_Z (failed_count s)) (F64.of_Z (total s))) (F64.of_Z 100).

End OutboxStats.

(** ** Dead letters *)

Module DlqStatus.

(** src: crates/server/domain/src/outbox/dlq_model.rs 12-19 DlqStatus *)
Inductive t := Pending | Resolved | Requeued.

End DlqStatus.

Module DlqError.
Section error.
Context `{E : Externs}.

(** src: crates/server/domain/src/outbox/dlq_model.rs 23-35 DlqError *)
Inductive t :=
  | Database (message : string)
  | NotFound (id : Uuid)
  | InfrastructureError (message : string)
  | InvalidOperation (message : string).

(** src: crates/server/domain/src/outbox/dlq_model.rs 22-35 Display for DlqError *)
Definition fmt (e : t) : string :=
  match e with
  | Database m => "Database error: " +:+ m
  | NotFound i => "Entry not found: " +:+ uuid_to_string i
  | InfrastructureError m => "Infrastructure error: " +:+ m
  | InvalidOperation m => "Invalid operation: " +:+ m
  end.

End error.
End DlqError.

Module DlqEntry.
Section entry.
Context `{E : Externs}.

(** src: crates/server/domain/src/outbox/dlq_model.rs 42-84 DlqEntry *)
Record t := mk {
  id : Uuid;
  original_event_id : Uuid;
  aggregate_id : Uuid;
  aggregate_type : string;
  event_type : string;
  payload : Json;
  metadata : option Json;
  error_message : string;
  retry_count : Z;
  original_created_at : DateTime;
  moved_at : DateTime;
  resolved_at : option DateTime;
  resolution_notes : option string;
  resolved_by : option string;
}.

(** [fresh] is [Uuid::new_v4()], [now] is [Utc::now()]. *)
(** src: crates/server/domain/src/outbox/dlq_model.rs 88-105 DlqEntry::from_outbox_event *)
Definition from_outbox_event (e : OutboxEventView.t) (message : string) (fresh : Uuid)
    (now : DateTime) : t :=
  mk fresh (OutboxEventView.id e) (OutboxEventView.aggregate_id e)
    (AggregateType.fmt (OutboxEventView.aggregate_type e)) (OutboxEventView.event_type e)
    (OutboxEventView.payload e) (OutboxEventView.metadata e) message
    (OutboxEventView.retry_count e) (OutboxEventView.created_at e) now None None None.

(** src: crates/server/domain/src/outbox/dlq_model.rs 108-110 DlqEntry::is_pending *)
Definition is_pending (e : t) : bool := bool_decide (resolved_at e = None).

(** src: crates/server/domain/src/outbox/dlq_model.rs 113-115 DlqEntry::time_in_dlq *)
Definition time_in_dlq (now : DateTime) (e : t) : TimeDelta :=
  signed_duration_since now (moved_at e).

(** src: crates/server/domain/src/outbox/dlq_model.rs 118-120 DlqEntry::total_age *)
Definition total_age (now : DateTime) (e : t) : TimeDelta :=
  signed_duration_since now (original_created_at e).

End entry.
End DlqEntry.

Module DlqEntrySummary.
Section summary.
Context `{E : Externs}.

(** src: crates/server/domain/src/outbox/dlq_model.rs 125-135 DlqEntrySummary *)
Record t := mk {
  id : Uuid;
  original_event_id : Uuid;
  aggregate_id : Uuid;
  aggregate_type : string;
  event_type : string;
  retry_count : Z;
  error_message : string;
  moved_at : DateTime;
  is_resolved : bool;
}.

(** src: crates/server/domain/src/outbox/dlq_model.rs 137-151 impl From<&DlqEntry> for DlqEntrySummary *)
Definition of_entry (e : DlqEntry.t) : t :=
  mk (DlqEntry.id e) (DlqEntry.original_event_id e) (DlqEntry.aggregate_id e)
    (DlqEntry.aggregate_type e) (DlqEntry.event_type e) (DlqEntry.retry_count e)
    (DlqEntry.error_message e) (DlqEntry.moved_at e)
    (bool_decide (is_Some (DlqEntry.resolved_at e))).

End summary.
End DlqEntrySummary.

Module DlqStats.

(** src: crates/server/domain/src/outbox/dlq_model.rs 155-159 DlqStats *)
Record t := mk {
  pending_count : Z;
  resolved_count : Z;
  oldest_pending_age_seconds : option Z;
}.

End DlqStats.

(** ** The repositories, on the state [S] *)

(** src: crates/server/domain/src/outbox/repository.rs 14-160 OutboxRepository *)
Class OutboxRepository `{E : Externs} (S : Type) := {
  insert_events : list OutboxEventInsert.t -> method S OutboxError.t unit;
  get_pending_events : nat -> Z -> method S OutboxError.t (list OutboxEventView.t);
  mark_published : list Uuid -> method S OutboxError.t unit;
  mark_failed : Uuid -> string -> method S OutboxError.t unit;
  exists_by_idempotency_key : string -> method S OutboxError.t bool;
  count_pending : method S OutboxError.t Z;
  get_stats : method S OutboxError.t OutboxStats.t;
  cleanup_published_events : Duration -> method S OutboxError.t Z;
  cleanup_failed_events : Z -> Duration -> method S OutboxError.t Z;
  find_by_id : Uuid -> method S OutboxError.t (option OutboxEventView.t);
}.

(** src: crates/server/domain/src/outbox/repository.rs 142-148 OutboxRepository::archive_old_events *)
Definition archive_old_events `{E : Externs} {S} `{!OutboxRepository S} (older_than : Duration) :
    method S OutboxError.t Z :=
  cleanup_published_events older_than.

(** src: crates/server/domain/src/outbox/dlq_repository.rs 17-100 DlqRepository *)
Class DlqRepository `{E : Externs} (S D : Type) := {
  dlq_error_to_string : D -> string;
  dlq_insert : DlqEntry.t -> method S D unit;
  dlq_get_by_id : Uuid -> method S D (option DlqEntry.t);
  dlq_get_by_event_id : Uuid -> method S D (option DlqEntry.t);
  dlq_get_pending : nat -> nat -> method S D (list DlqEntry.t);
  dlq_resolve : Uuid -> string -> string -> method S D unit;
  dlq_requeue : Uuid -> method S D (option Uuid);
  dlq_get_stats : method S D DlqStats.t;
  dlq_delete : Uuid -> method S D unit;
  dlq_cleanup_resolved : Duration -> method S D Z;
}.

Module DlqHandlerConfig.

(** src: crates/server/domain/src/outbox/dlq_handler.rs 16-22 DlqHandlerConfig *)
Record t := mk { max_retries : Z; log_on_dlq : bool }.

(** src: crates/server/domain/src/outbox/dlq_handler.rs 24-31 impl Default for DlqHandlerConfig *)
Definition default : t := mk 5 true.

End DlqHandlerConfig.

Module DlqHandler.
Section handler.
Context `{E : Externs} {S D : Type} `{!DlqRepository S D}.
Context (new_v4 : S -> S * Uuid) (now : S -> S * DateTime).
Context (config : DlqHandlerConfig.t).

(** src: crates/server/domain/src/outbox/dlq_handler.rs 69-103 DlqHandler::handle_failed_event *)
Definition handle_failed_event (e : OutboxEventView.t) (message : string) : method S D unit :=
  if OutboxEventView.retry_count e <? DlqHandlerConfig.max_retries config then mret tt
  else
    fun s =>
      let (s, fresh) := new_v4 s in
      let (s, time) := now s in
      dlq_insert (DlqEntry.from_outbox_event e message fresh time) s.

(** The loop: an event that cannot be moved is logged and not counted. *)
(** src: crates/server/domain/src/outbox/dlq_handler.rs 118-130 DlqHandler::process_failed_events (loop) *)
Fixpoint move_all (events : list (OutboxEventView.t * string)) (moved : Z) : method S D Z :=
  match events with
  | [] => mret moved
  | (e, message) :: events =>
      if DlqHandlerConfig.max_retries config <=? OutboxEventView.retry_count e then
        fun s =>
          match handle_failed_event e message s with
          | (s', Ok _) => move_all events (u64_add moved 1) s'
          | (s', Err _) => move_all events moved s'
          end
      else move_all events moved
  end.

(** src: crates/server/domain/src/outbox/dlq_handler.rs 112-140 DlqHandler::process_failed_events *)
Definition process_failed_events (events : list (OutboxEventView.t * string)) : method S D Z :=
  move_all events 0.

(** src: crates/server/domain/src/outbox/dlq_handler.rs 143-145 DlqHandler::get_stats *)
Definition get_stats : method S D DlqStats.t := dlq_get_stats.

(** src: crates/server/domain/src/outbox/dlq_handler.rs 148-157 DlqHandler::resolve *)
Definition resolve (entry : Uuid) (notes who : string) : method S D unit :=
  dlq_resolve entry notes who.

(** src: crates/server/domain/src/outbox/dlq_handler.rs 160-166 DlqHandler::requeue *)
Definition requeue (entry : Uuid) : method S D (option Uuid) := dlq_requeue entry.

(** src: crates/server/domain/src/outbox/dlq_handler.rs 169-175 DlqHandler::get_pending *)
Definition get_pending (limit offset : nat) : method S D (list DlqEntry.t) :=
  dlq_get_pending limit offset.

End handler.
End DlqHandler.

(** ** Into the outbox and out of it *)

Module TransactionalOutboxError.
Section error.
Context `{E : Externs}.

(** src: crates/server/domain/src/outbox/transactional_outbox.rs 22-34 TransactionalOutboxError *)
Inductive t :=
  | Outbox (e : OutboxError.t)
  | Domain (e : DomainError.t)
  | Serialization (message : string)
  | InfrastructureError (message : string).

(** src: crates/server/domain/src/outbox/transactional_outbox.rs 21-34 Display for TransactionalOutboxError *)
Definition fmt (e : t) : string :=
  match e with
  | Outbox e => "Outbox error: " +:+ OutboxError.fmt e
  | Domain e => "Domain error: " +:+ DomainError.fmt e
  | Serialization m => "Failed to serialize domain event: " +:+ m
  | InfrastructureError m => "Infrastructure error: " +:+ m
  end.

(** [debug] is [{:?}], which shows the [Debug] of errors of [sqlx]. *)
(** src: crates/server/domain/src/outbox/transactional_outbox.rs 36-51 impl From<TransactionalOutboxError> for DomainError *)
Definition to_domain_error (debug : OutboxError.t -> string) (e : t) : DomainError.t :=
  match e with
  | Outbox e => DomainError.InfrastructureError (debug e)
  | Domain e => e
  | Serialization m => DomainError.InfrastructureError m
  | InfrastructureError m => DomainError.InfrastructureError m
  end.

End error.
End TransactionalOutboxError.

(** src: crates/server/domain/src/outbox/transactional_outbox.rs 55-61 EventPublisher *)
Class EventPublisher `{E : Externs} (S : Type) := {
  publish_domain_event : DomainEvent.t -> method S OutboxError.t unit;
}.

Module EventBusPublisher.
Section publisher.
Context `{E : Externs} {S : Type} (publish : DomainEvent.t -> method S EventBusError.t unit).

(** src: crates/server/domain/src/outbox/transactional_outbox.rs 75-84 impl EventPublisher for EventBusPublisher *)
Definition event_publisher : EventPublisher S := {|
  publish_domain_event := fun e =>
    mapping_error (publish e) (fun err => OutboxError.EventBus (EventBusError.fmt err));
|}.

End publisher.
End EventBusPublisher.

Module TransactionalOutbox.
Section outbox.
Context `{E : Externs} `{F : !EventFormat} {S : Type} `{!OutboxRepository S}.

Definition metadata_of (e : DomainEvent.t) : Json :=
  json_object [
    ("event_type", json_of_string (DomainEvent.event_type e));
    ("correlation_id", json_of_option json_of_string (DomainEvent.correlation_id e));
    ("actor", json_of_option json_of_string (DomainEvent.actor e));
    ("aggregate_id", json_of_string (DomainEvent.aggregate_id e));
    ("occurred_at", json_of_datetime (DomainEvent.occurred_at e))].

(** src: crates/server/domain/src/outbox/transactional_outbox.rs 130-171 TransactionalOutbox::publish_with_outbox *)
Definition publish_with_outbox (aggregate : Uuid) (type : AggregateType.t) (e : DomainEvent.t)
    (key : option string) : method S TransactionalOutboxError.t unit :=
  payload ← lift (map_err TransactionalOutboxError.Serialization (event_to_value e));
  let outbox_event :=
    OutboxEventInsert.mk aggregate type (DomainEvent.event_type e) payload
      (Some (metadata_of e)) key in
  mapping_error (insert_events [outbox_event]) TransactionalOutboxError.Outbox.

End outbox.
End TransactionalOutbox.

Module OutboxPoller.
Section poller.
Context `{E : Externs} `{F : !EventFormat} {S : Type}.
Context `{!OutboxRepository S} `{!EventPublisher S}.
Context (batch_size : nat) (max_retries : Z).

(** src: crates/server/domain/src/outbox/transactional_outbox.rs 336-358 OutboxPoller::publish_event *)
Definition publish_event (v : OutboxEventView.t) : method S TransactionalOutboxError.t unit :=
  e ← lift (map_err (fun m => TransactionalOutboxError.Serialization
              ("Failed to deserialize event " +:+ OutboxEventView.event_type v +:+ ": " +:+ m))
            (event_from_value (OutboxEventView.payload v)));
  mapping_error (publish_domain_event e)
    (fun err => TransactionalOutboxError.InfrastructureError
                  ("Failed to publish event: " +:+ OutboxError.fmt err)).

(** The loop over the batch: the identifiers of the published events and those
    of the failed ones with their errors, in order. *)
(** src: crates/server/domain/src/outbox/transactional_outbox.rs 276-297 OutboxPoller::process_batch (loop) *)
Fixpoint publish_all (events : list OutboxEventView.t) (published : list Uuid)
    (failed : list (Uuid * string)) : S -> S * (list Uuid * list (Uuid * string)) :=
  match events with
  | [] => fun s => (s, (published, failed))
  | v :: events => fun s =>
      match publish_event v s with
      | (s', Ok _) => publish_all events (published ++ [OutboxEventView.id v]) failed s'
      | (s', Err e) =>
          publish_all events published
            (failed ++ [(OutboxEventView.id v, TransactionalOutboxError.fmt e)]) s'
      end
  end.

Definition outbox_call {A} (m : method S OutboxError.t A) :
    method S (exn TransactionalOutboxError.t) A :=
  repository_call m TransactionalOutboxError.Outbox.

Definition mark_all_published (ids : list Uuid) : method S (exn TransactionalOutboxError.t) unit :=
  match ids with
  | [] => mret tt
  | _ => outbox_call (mark_published ids)
  end.

(** What to do with a failed event, and its loop. *)
Fixpoint settle_all (settle : OutboxEventView.t -> string ->
      method S (exn TransactionalOutboxError.t) unit)
    (pending : list OutboxEventView.t) (failed : list (Uuid * string)) :
    method S (exn TransactionalOutboxError.t) unit :=
  match failed with
  | [] => mret tt
  | (i, message) :: failed =>
      match list_find (fun v => OutboxEventView.id v = i) pending with
      | Some (_, v) => settle v message;; settle_all settle pending failed
      | None => throw Panicked
      end
  end.

Definition process_with (settle : OutboxEventView.t -> string ->
      method S (exn TransactionalOutboxError.t) unit) :
    method S (exn TransactionalOutboxError.t) unit :=
  pending ← outbox_call (get_pending_events batch_size max_retries);
  match pending with
  | [] => mret tt
  | _ =>
      sorted ← (fun s => let (s, r) := publish_all pending [] [] s in (s, Ok r));
      mark_all_published sorted.1;;
      settle_all settle pending sorted.2
  end.

(** Both branches of the source are the same call. *)
(** src: crates/server/domain/src/outbox/transactional_outbox.rs 313-330 OutboxPoller::process_batch (a failed event) *)
Definition settle_event (v : OutboxEventView.t) (message : string) :
    method S (exn TransactionalOutboxError.t) unit :=
  if max_retries <=? OutboxEventView.retry_count v
  then outbox_call (mark_failed (OutboxEventView.id v) message)
  else outbox_call (mark_failed (OutboxEventView.id v) message).

(** src: crates/server/domain/src/outbox/transactional_outbox.rs 254-333 OutboxPoller::process_batch *)
Definition process_batch : method S (exn TransactionalOutboxError.t) unit :=
  process_with settle_event.

(** ** With a handler of dead letters *)

Section with_dlq.
Context {D : Type} `{!DlqRepository S D}.
Context (new_v4 : S -> S * Uuid) (now : S -> S * DateTime).
Context (dlq_handler : option DlqHandlerConfig.t).

(** src: crates/server/domain/src/outbox/transactional_outbox.rs 428-462 OutboxPoller::process_batch (a failed event, with DLQ) *)
Definition settle_event_with_dlq (v : OutboxEventView.t) (message : string) :
    method S (exn TransactionalOutboxError.t) unit :=
  if max_retries <=? OutboxEventView.retry_count v then
    match dlq_handler with
    | Some config => fun s =>
        let (s, _) := DlqHandler.handle_failed_event new_v4 now config v message s in (s, Ok tt)
    | None => outbox_call (mark_failed (OutboxEventView.id v) message)
    end
  else outbox_call (mark_failed (OutboxEventView.id v) message).

(** src: crates/server/domain/src/outbox/transactional_outbox.rs 369-465 OutboxPoller::process_batch (with DLQ) *)
Definition process_batch_with_dlq : method S (exn TransactionalOutboxError.t) unit :=
  process_with settle_event_with_dlq.

End with_dlq.

(** What wakes the loop of the poller. *)
Inductive wake := Tick | Shutdown.

(** The loop over a finite sequence of wake-ups: [None] when the poller still
    runs at its end.  A failed batch is logged. *)
(** src: crates/server/domain/src/outbox/transactional_outbox.rs 225-251 OutboxPoller::run *)
Fixpoint run (wakes : list wake) (s : S) : S * option (result TransactionalOutboxError.t unit) :=
  match wakes with
  | [] => (s, None)
  | Tick :: wakes => let (s, _) := process_batch s in run wakes s
  | Shutdown :: _ => (s, Some (Ok tt))
  end.

End poller.
End OutboxPoller.

(** ** What a repository of the outbox promises *)

Definition marked_published `{E : Externs} (ids : list Uuid) (t : option DateTime)
    (v : OutboxEventView.t) : OutboxEventView.t :=
  if bool_decide (OutboxEventView.id v ∈ ids)
  then v <| OutboxEventView.status := OutboxStatus.Published |> <| OutboxEventView.published_at := t |>
  else v.

Definition marked_failed `{E : Externs} (i : Uuid) (message : string) (v : OutboxEventView.t) :
    OutboxEventView.t :=
  if bool_decide (OutboxEventView.id v = i)
  then v <| OutboxEventView.status := OutboxStatus.Failed |>
         <| OutboxEventView.retry_count := OutboxEventView.retry_count v + 1 |>
         <| OutboxEventView.last_error := Some message |>
  else v.

(** A call that returned an error did what it was asked to, or nothing. *)
Definition done_or_not {A X} (r : result A X) (change : Prop) (same : Prop) : Prop :=
  match r with Ok _ => change | Err _ => same \/ change end.

(** [entries] are the events of the outbox. *)
Class OutboxLaws `{E : Externs} (S : Type) `{!OutboxRepository S}
    (entries : S -> list OutboxEventView.t) : Prop := {
  get_pending_reads : forall limit max s,
    entries (after (get_pending_events limit max) s) = entries s;
  get_pending_answer : forall limit max s es,
    returns (get_pending_events limit max) s = Ok es ->
    (length es <= limit)%nat /\
    (NoDup (OutboxEventView.id <$> entries s) -> NoDup (OutboxEventView.id <$> es)) /\
    Forall (fun v => v ∈ entries s /\ OutboxEventView.status v = OutboxStatus.Pending /\
                     OutboxEventView.retry_count v < max) es;
  mark_published_marks : forall ids s,
    done_or_not (returns (mark_published ids) s)
      (exists t, entries (after (mark_published ids) s) = marked_published ids (Some t) <$> entries s)
      (entries (after (mark_published ids) s) = entries s);
  mark_failed_marks : forall i message s,
    done_or_not (returns (mark_failed i message) s)
      (entries (after (mark_failed i message) s) = marked_failed i message <$> entries s)
      (entries (after (mark_failed i message) s) = entries s);
}.

(** Publishing an event leaves the outbox alone. *)
Class PublisherLaws `{E : Externs} (S : Type) `{!EventPublisher S}
    (entries : S -> list OutboxEventView.t) : Prop := {
  publish_elsewhere : forall e s, entries (after (publish_domain_event e) s) = entries s;
}.

(** ** Properties of the poller *)

Section poller_properties.
Context `{E : Externs} `{F : !EventFormat} {S : Type}.
Context `{!OutboxRepository S} `{!EventPublisher S}.
Context (entries : S -> list OutboxEventView.t).
Context `{!OutboxLaws S entries} `{!PublisherLaws S entries}.
Context (batch_size : nat) (max_retries : Z).
Import OutboxPoller.

Lemma publish_event_elsewhere v s : entries (after (publish_event v) s) = entries s.
Proof.
  unfold publish_event, after, mbind, method_bind, lift, mapping_error.
  destruct (event_from_value _) as [e|m]; simpl; [|done].
  pose proof (publish_elsewhere e s) as H. unfold after in H. by destruct (publish_domain_event e s).
Qed.

(** What the loop of the batch leaves: the events, published or failed. *)
Lemma publish_all_sorts vs published failed s :
  let '(s', (published', failed')) := publish_all vs published failed s in
  entries s' = entries s /\
  exists p f, published' = published ++ p /\ failed' = failed ++ f /\
    p ++ f.*1 ≡ₚ OutboxEventView.id <$> vs.
Proof.
  revert published failed s. induction vs as [|v vs IH]; intros published failed s; simpl.
  { split; [done|]. exists [], []. by rewrite !app_nil_r. }
  pose proof (publish_event_elsewhere v s) as Hv. unfold after in Hv.
  destruct (publish_event v s) as [s1 [u|e]]; simpl in Hv.
  - specialize (IH (published ++ [OutboxEventView.id v]) failed s1).
    destruct (publish_all _ _ _ _) as [s' [published' failed']].
    destruct IH as [Hs (p & f & -> & -> & Hp)]. split; [congruence|].
    exists (OutboxEventView.id v :: p), f. rewrite <- app_assoc. simpl. by rewrite Hp.
  - specialize (IH published (failed ++ [(OutboxEventView.id v, TransactionalOutboxError.fmt e)]) s1).
    destruct (publish_all _ _ _ _) as [s' [published' failed']].
    destruct IH as [Hs (p & f & -> & -> & Hp)]. split; [congruence|].
    exists p, ((OutboxEventView.id v, TransactionalOutboxError.fmt e) :: f).
    rewrite <- app_assoc. simpl. by rewrite <- Hp, Permutation_middle.
Qed.

(** How the entries look once the marks of a batch are made. *)
Definition settled (published : list Uuid) (t : option DateTime) (failed : list (Uuid * string))
    (v : OutboxEventView.t) : OutboxEventView.t :=
  fold_left (fun v '(i, m) => marked_failed i m v) failed (marked_published published t v).

Lemma settled_id published t failed v :
  OutboxEventView.id (settled published t failed v) = OutboxEventView.id v.
Proof.
  unfold settled. assert (OutboxEventView.id (marked_published published t v) = OutboxEventView.id v)
    as <- by (unfold marked_published; by case_bool_decide).
  generalize (marked_published published t v) as w. induction failed as [|[i m] failed IH]; intros w;
    simpl; [done|]. rewrite IH. unfold marked_failed. by case_bool_decide.
Qed.

(** The marks of the failed events do not touch an event that is not one of them. *)
Lemma fold_marked_failed_other failed v :
  OutboxEventView.id v ∉ failed.*1 ->
  fold_left (fun v '(i, m) => marked_failed i m v) failed v = v.
Proof.
  induction failed as [|[i m] failed IH]; simpl; intros Hv; [done|].
  apply not_elem_of_cons in Hv as [Hi Hv]. unfold marked_failed at 2.
  rewrite bool_decide_eq_false_2 by done. by apply IH.
Qed.

Lemma settled_published published t failed v :
  NoDup (published ++ failed.*1) -> OutboxEventView.id v ∈ published ->
  OutboxEventView.status (settled published t failed v) = OutboxStatus.Published.
Proof.
  intros [_ [Hd _]]%NoDup_app Hv. unfold settled. unfold marked_published.
  rewrite bool_decide_eq_true_2 by done. rewrite fold_marked_failed_other; [done|]. by apply Hd.
Qed.

Lemma settled_failed published t failed v :
  NoDup (published ++ failed.*1) -> OutboxEventView.id v ∈ failed.*1 ->
  let v' := settled published t failed v in
  OutboxEventView.status v' = OutboxStatus.Failed /\
  OutboxEventView.retry_count v' = OutboxEventView.retry_count v + 1.
Proof.
  intros (_ & Hd & Hf)%NoDup_app Hv. unfold settled, marked_published.
  rewrite bool_decide_eq_false_2; [|intros Hp; by destruct (Hd _ Hp)]. clear Hd.
  revert v Hv. induction failed as [|[i m] failed IH]; simpl; intros v Hv; [set_solver|].
  apply NoDup_cons in Hf as [Hi Hf]. unfold marked_failed at 2 4.
  case_bool_decide as Hid.
  - rewrite fold_marked_failed_other by (simpl; by rewrite Hid). done.
  - apply IH; [done|]. apply elem_of_cons in Hv as [|]; [by destruct Hid|done].
Qed.

Lemma settled_other published t failed v :
  OutboxEventView.id v ∉ published -> OutboxEventView.id v ∉ failed.*1 ->
  settled published t failed v = v.
Proof.
  intros Hp Hf. unfold settled, marked_published. rewrite bool_decide_eq_false_2 by done.
  by apply fold_marked_failed_other.
Qed.

(** The marks of the failed events, one by one. *)
Lemma settle_all_marks vs failed l s :
  failed.*1 ⊆ OutboxEventView.id <$> vs -> entries s = l ->
  match settle_all (settle_event max_retries) vs failed s with
  | (s', Ok _) => entries s' = (fun v => fold_left (fun v '(i, m) => marked_failed i m v) failed v) <$> l
  | (s', Err e) => (exists e', e = Error (TransactionalOutboxError.Outbox e')) /\
      exists done_, done_ ⊆ failed /\
        entries s' = (fun v => fold_left (fun v '(i, m) => marked_failed i m v) done_ v) <$> l
  end.
Proof.
  revert l s. induction failed as [|[i m] failed IH]; intros l s Hin Hl; simpl.
  { rewrite Hl. symmetry. apply list_fmap_id. }
  destruct (list_find (fun v => OutboxEventView.id v = i) vs) as [[k v]|] eqn:Hfind.
  2: { apply list_find_None in Hfind. rewrite Forall_forall in Hfind.
       assert (i ∈ OutboxEventView.id <$> vs) as Hi by (apply Hin; left).
       apply list_elem_of_fmap in Hi as (v & -> & Hv). by destruct (Hfind v Hv). }
  apply list_find_Some in Hfind as (_ & Hid & _).
  assert (settle_event max_retries v m s = outbox_call (mark_failed i m) s) as Hrun
    by (unfold settle_event; rewrite Hid; by destruct (_ <=? _)).
  unfold mbind, method_bind. rewrite Hrun. unfold outbox_call, repository_call.
  pose proof (mark_failed_marks i m s) as Hm. unfold after, returns in Hm.
  destruct (mark_failed i m s) as [s1 [u|e]]; simpl in *.
  - rewrite Hl in Hm. assert (failed.*1 ⊆ OutboxEventView.id <$> vs) as Hin'
      by (intros j Hj; apply Hin; by right).
    specialize (IH (marked_failed i m <$> l) s1 Hin' Hm).
    destruct (settle_all _ _ _ s1) as [s' [|e]].
    + by rewrite IH, <- list_fmap_compose.
    + destruct IH as [He (d & Hd & ->)]. split; [done|]. exists ((i, m) :: d).
      split; [by apply list_subseteq_skip|]. by rewrite <- list_fmap_compose.
  - rewrite Hl in Hm. split; [by eexists|]. destruct Hm as [Hm|Hm].
    + exists []. split; [apply list_subseteq_nil|]. rewrite Hm. symmetry. apply list_fmap_id.
    + exists [(i, m)]. split; [apply list_subseteq_skip, list_subseteq_nil|]. by rewrite Hm.
Qed.

Lemma mark_all_published_marks p s : exists t,
  match mark_all_published p s with
  | (s', Ok _) => entries s' = marked_published p t <$> entries s
  | (s', Err e) => (exists e', e = Error (TransactionalOutboxError.Outbox e')) /\
      (entries s' = entries s \/ entries s' = marked_published p t <$> entries s)
  end.
Proof.
  unfold mark_all_published. destruct p as [|i p].
  { exists None. simpl. symmetry. apply list_fmap_id. }
  pose proof (mark_published_marks (i :: p) s) as Hm. unfold after, returns in Hm.
  unfold outbox_call, repository_call.
  destruct (mark_published (i :: p) s) as [s' [u|e]]; simpl in *.
  - destruct Hm as [t Ht]. by exists (Some t).
  - destruct Hm as [Hm|[t Ht]]; [exists None|exists (Some t)]; eauto.
Qed.

(** A batch marks the events it fetched, and nothing else, whether it ends well
    or stops at a failing statement. *)
Lemma process_batch_marks s :
  match process_batch batch_size max_retries s with
  | (s', Ok _) => exists es t published failed,
      returns (get_pending_events batch_size max_retries) s = Ok es /\
      published ++ failed.*1 ≡ₚ OutboxEventView.id <$> es /\
      entries s' = settled published t failed <$> entries s
  | (s', Err e) => (exists e', e = Error (TransactionalOutboxError.Outbox e')) /\
      (entries s' = entries s \/
       exists es t published failed,
         returns (get_pending_events batch_size max_retries) s = Ok es /\
         published ++ failed.*1 ⊆ OutboxEventView.id <$> es /\
         entries s' = settled published t failed <$> entries s)
  end.
Proof.
  unfold process_batch, process_with, mbind, method_bind.
  pose proof (get_pending_reads batch_size max_retries s) as Hr. unfold after, returns in *.
  unfold outbox_call at 1, repository_call.
  destruct (get_pending_events batch_size max_retries s) as [s1 [es|e]]; simpl in *.
  2: { split; [by eexists|by left]. }
  destruct es as [|v es].
  { exists [], None, [], []. split_and!; [done..|]. rewrite Hr. symmetry. apply list_fmap_id. }
  set (vs := v :: es). pose proof (publish_all_sorts vs [] [] s1) as Hp.
  destruct (publish_all vs [] [] s1) as [s2 [published failed]].
  destruct Hp as [Hs2 (p & f & -> & -> & Hperm)]. simpl in *. rewrite Hr in Hs2.
  change (p ++ f.*1 ≡ₚ OutboxEventView.id <$> vs) in Hperm.
  assert (f.*1 ⊆ OutboxEventView.id <$> vs) as Hf by (intros i Hi; rewrite <- Hperm; set_solver).
  destruct (mark_all_published_marks p s2) as [t Ht]. rewrite Hs2 in Ht.
  destruct (mark_all_published p s2) as [s3 [u|e]].
  - pose proof (settle_all_marks vs f _ s3 Hf Ht) as Hm.
    destruct (settle_all _ vs f s3) as [s4 [u'|e]].
    + exists vs, t, p, f. split_and!; [done..|]. by rewrite Hm, <- list_fmap_compose.
    + destruct Hm as [He (d & Hd & Hm)]. split; [done|]. right. exists vs, t, p, d.
      split_and!; [done| |by rewrite Hm, <- list_fmap_compose].
      intros i Hi. rewrite <- Hperm. apply elem_of_app in Hi as [|Hi]; [set_solver|].
      apply list_elem_of_fmap in Hi as ([i' m'] & -> & Hi). apply elem_of_app. right.
      apply list_elem_of_fmap. exists (i', m'). set_solver.
  - destruct Ht as [He [Ht|Ht]]; (split; [done|]); [by left|right].
    exists vs, t, p, []. split_and!; [done| |by rewrite Ht].
    rewrite app_nil_r. intros i Hi. rewrite <- Hperm. set_solver.
Qed.

(** Entries with different identifiers: what is not fetched stays. *)
Lemma settled_keeps es t published failed v s :
  NoDup (OutboxEventView.id <$> entries s) ->
  returns (get_pending_events batch_size max_retries) s = Ok es ->
  published ++ failed.*1 ⊆ OutboxEventView.id <$> es ->
  v ∈ entries s -> OutboxEventView.status v <> OutboxStatus.Pending ->
  settled published t failed v = v.
Proof.
  intros Hnd Hget Hin Hv Hst. apply get_pending_answer in Hget as (_ & _ & Hes).
  assert (OutboxEventView.id v ∉ OutboxEventView.id <$> es) as Hno.
  { intros (w & Hid & Hw)%list_elem_of_fmap. rewrite Forall_forall in Hes.
    destruct (Hes w Hw) as (Hw' & Hpend & _).
    apply list_elem_of_lookup in Hv as [k Hk]. apply list_elem_of_lookup in Hw' as [k' Hk'].
    assert (k = k') as ->.
    { eapply NoDup_lookup; [exact Hnd| |]; rewrite list_lookup_fmap.
      - by rewrite Hk.
      - rewrite Hk'. simpl. by rewrite Hid. }
    congruence. }
  apply settled_other; intros Hi; apply Hno, Hin, elem_of_app; auto.
Qed.

Lemma settled_ids published t failed (l : list OutboxEventView.t) :
  OutboxEventView.id <$> (settled published t failed <$> l) = OutboxEventView.id <$> l.
Proof.
  rewrite <- list_fmap_compose. apply list_fmap_ext. intros _ v _. apply settled_id.
Qed.

(** One round: identifiers stay, and so does every event that is not pending. *)
Lemma process_batch_keeps s s' r :
  NoDup (OutboxEventView.id <$> entries s) ->
  process_batch batch_size max_retries s = (s', r) ->
  NoDup (OutboxEventView.id <$> entries s') /\
  forall v, v ∈ entries s -> OutboxEventView.status v <> OutboxStatus.Pending -> v ∈ entries s'.
Proof.
  intros Hnd Hrun. pose proof (process_batch_marks s) as H. rewrite Hrun in H.
  assert (entries s' = entries s \/ exists es t published failed,
    returns (get_pending_events batch_size max_retries) s = Ok es /\
    published ++ failed.*1 ⊆ OutboxEventView.id <$> es /\
    entries s' = settled published t failed <$> entries s) as [->|Hs'].
  { destruct r as [u|e].
    - destruct H as (es & t & p & f & Hget & Hperm & Hs'). right. exists es, t, p, f.
      split_and!; [done| |done]. intros i. by rewrite <- Hperm.
    - by destruct H as [_ H]. }
  { done. }
  destruct Hs' as (es & t & p & f & Hget & Hin & Hs'). rewrite Hs'. split.
  - by rewrite settled_ids.
  - intros v Hv Hst. apply list_elem_of_fmap. exists v. split; [|done].
    symmetry. by eapply settled_keeps.
Qed.

Lemma run_keeps wakes s :
  NoDup (OutboxEventView.id <$> entries s) ->
  forall v, v ∈ entries s -> OutboxEventView.status v <> OutboxStatus.Pending ->
  v ∈ entries (run batch_size max_retries wakes s).1.
Proof.
  revert s. induction wakes as [|[] wakes IH]; intros s Hnd v Hv Hst; simpl; [done| |done].
  destruct (process_batch batch_size max_retries s) as [s' r] eqn:Hb.
  destruct (process_batch_keeps s s' r Hnd Hb) as [Hnd' Hk]. auto.
Qed.

(** The poller gives every event of the outbox exactly one attempt.  A batch
    never panics; when it ends well, each event it fetched is published, or it
    is failed with one more retry on its count; and whatever the statements of
    the batch answered, an event that is not pending is as it was, through any
    number of rounds of the poller.  A failed event is therefore never fetched
    again, although [mark_failed] is documented to leave it pending for a retry
    and the poller is configured with a number of retries. *)
Theorem one_attempt_per_event s :
  NoDup (OutboxEventView.id <$> entries s) ->
  (match process_batch batch_size max_retries s with
   | (s', Ok _) => exists es,
       returns (get_pending_events batch_size max_retries) s = Ok es /\
       forall v, v ∈ es -> exists v', v' ∈ entries s' /\
         OutboxEventView.id v' = OutboxEventView.id v /\
         (OutboxEventView.status v' = OutboxStatus.Published \/
          OutboxEventView.status v' = OutboxStatus.Failed /\
          OutboxEventView.retry_count v' = OutboxEventView.retry_count v + 1)
   | (_, Err e) => exists e', e = Error (TransactionalOutboxError.Outbox e')
   end) /\
  (forall wakes v, v ∈ entries s -> OutboxEventView.status v <> OutboxStatus.Pending ->
     v ∈ entries (run batch_size max_retries wakes s).1).
Proof.
  intros Hnd. split; [|intros wakes; by apply run_keeps].
  pose proof (process_batch_marks s) as H.
  destruct (process_batch batch_size max_retries s) as [s' [u|e]]; [|by destruct H].
  destruct H as (es & t & p & f & Hget & Hperm & Hs'). exists es. split; [done|].
  apply get_pending_answer in Hget as (_ & Hnd' & Hes). intros v Hv.
  assert (NoDup (p ++ f.*1)) as Hpf by (rewrite Hperm; auto).
  rewrite Forall_forall in Hes. destruct (Hes v Hv) as (Hin & _ & _).
  exists (settled p t f v). rewrite Hs', settled_id.
  split_and!; [by apply list_elem_of_fmap_2|done|].
  assert (OutboxEventView.id v ∈ p ++ f.*1) as [Hp|Hf]%elem_of_app
    by (rewrite Hperm; by apply list_elem_of_fmap_2).
  - left. by apply settled_published.
  - right. by apply settled_failed.
Qed.

End poller_properties.

(** ** A format of events for evaluation

    The events [JobAccepted] without a correlation or an actor, by their
    numbers; the others are not serialized. *)

Definition encode_event (e : DomainEvent.t (E := concrete)) : result string json :=
  match e with
  | DomainEvent.JobAccepted job worker time None None =>
      Ok (JField JObj "JobAccepted"
            (JCons (JNum (Z.of_nat job)) (JCons (JNum (Z.of_nat worker)) (JCons (JNum time) JNil))))
  | _ => Err "not serialized here"
  end.

Definition decode_event (j : json) : result string (DomainEvent.t (E := concrete)) :=
  match j with
  | JField JObj name (JCons (JNum job) (JCons (JNum worker) (JCons (JNum time) JNil))) =>
      if String.eqb name "JobAccepted" then
        Ok (DomainEvent.JobAccepted (E := concrete) (Z.to_nat job) (Z.to_nat worker) time None None)
      else Err ("unknown variant " +:+ name)
  | _ => Err "expected a map with a single key"
  end.

Definition concrete_format : EventFormat (E := concrete) :=
  @Build_EventFormat concrete JNil JNum encode_event decode_event.

#[global] Instance concrete_format_tagged : ExternallyTagged (E := concrete) concrete_format.
Proof. split. intros object k k' v v' _. done. Qed.
