(* ===== verification/OutboxTable.v ===== *)
(** * The outbox in PostgreSQL ([crates/server/infrastructure/src/persistence/outbox/])

    The table [outbox_events] is a list of rows, and every statement of the
    repository is a function on it that the database executes, refuses, or
    executes without its answer arriving.  The clock, the random identifiers,
    the locks of other sessions and the order of rows with the same timestamp
    are the database's ([OutboxDatabase]).  The repository implements
    [OutboxLaws], so that what is proved of the poller holds of it. *)

From stdpp Require Import sorting.
From S2P Require Import Prelude Effects Std Externs States Errors Job Events Orchestrator Steps CommandOutbox Sql Outbox.

Module OutboxEventRow.
Section row.
Context `{E : Externs}.

(** src: crates/server/infrastructure/src/persistence/outbox/postgres.rs 44-58 OutboxEventRow *)
Record t := mk {
  id : Uuid;
  aggregate_id : Uuid;
  aggregate_type : string;
  event_type : string;
  event_version : Z;
  payload : Json;
  metadata : option Json;
  idempotency_key : option string;
  created_at : DateTime;
  published_at : option DateTime;
  status : string;
  retry_count : Z;
  last_error : option string;
}.

#[global] Instance t_rebuild : Rebuild t := fun r =>
  mk (id r) (aggregate_id r) (aggregate_type r) (event_type r) (event_version r) (payload r)
    (metadata r) (idempotency_key r) (created_at r) (published_at r) (status r)
    (retry_count r) (last_error r).

End row.
End OutboxEventRow.

(** The database as the repository sees it.  No statement of the program writes
    NULL into the columns of [OutboxEventRow] that are not options. *)
Class OutboxDatabase `{E : Externs} (S : Type) := {
  outbox_rows : S -> list OutboxEventRow.t;
  set_outbox_rows : list OutboxEventRow.t -> S -> S;
  transaction_time : S -> DateTime;
  gen_random_uuid : S -> S * Uuid;
  next_outcome : S -> S * outcome;
  locked_by_others : S -> Uuid -> bool;
  order_by_created_at : list OutboxEventRow.t -> list OutboxEventRow.t;
  (* the message of a violated constraint *)
  violation : string -> string;
  (* [t - make_interval(secs => x)] *)
  minus_seconds : DateTime -> f64 -> DateTime;
  (* [CAST(EXTRACT(EPOCH FROM (a - b)) AS BIGINT)] *)
  epoch_seconds : DateTime -> DateTime -> Z;
}.

Definition earlier `{E : Externs} (a b : OutboxEventRow.t) : Prop :=
  datetime_leb (OutboxEventRow.created_at a) (OutboxEventRow.created_at b) = true.

Class OutboxDatabaseLaws `{E : Externs} (S : Type) `{!OutboxDatabase S} : Prop := {
  rows_of_set : forall l s, outbox_rows (set_outbox_rows l s) = l;
  rows_of_uuid : forall s, outbox_rows (gen_random_uuid s).1 = outbox_rows s;
  rows_of_outcome : forall s, outbox_rows (next_outcome s).1 = outbox_rows s;
  order_permutes : forall l, order_by_created_at l ≡ₚ l;
  order_sorts : forall l, StronglySorted earlier (order_by_created_at l);
}.

Module PostgresOutboxRepositoryError.
Section error.
Context `{E : Externs}.

(** src: crates/server/infrastructure/src/persistence/outbox/postgres.rs 15-27 PostgresOutboxRepositoryError *)
Inductive t :=
  | Database (message : string)
  | Outbox (e : OutboxError.t)
  | Serialization (message : string)
  | InfrastructureError (message : string).

(** src: crates/server/infrastructure/src/persistence/outbox/postgres.rs 14-27 Display for PostgresOutboxRepositoryError *)
Definition fmt (e : t) : string :=
  match e with
  | Database m => "Database error: " +:+ m
  | Outbox e => "Outbox domain error: " +:+ OutboxError.fmt e
  | Serialization m => "Serialization error: " +:+ m
  | InfrastructureError m => "Infrastructure error: " +:+ m
  end.

(** src: crates/server/infrastructure/src/persistence/outbox/postgres.rs 29-40 impl From<PostgresOutboxRepositoryError> for OutboxError *)
Definition to_outbox_error (e : t) : OutboxError.t :=
  match e with
  | Database m => OutboxError.Database m
  | Outbox e => e
  | Serialization m => OutboxError.Serialization m
  | InfrastructureError m => OutboxError.InfrastructureError m
  end.

End error.
End PostgresOutboxRepositoryError.

Module PostgresOutboxRepository.
Section repository.
Context `{E : Externs} {S : Type} `{!OutboxDatabase S}.
Import OutboxEventRow.

(** src: crates/server/infrastructure/src/persistence/outbox/postgres.rs 119-125 PostgresOutboxRepository::aggregate_type_to_str *)
Definition aggregate_type_to_str (a : AggregateType.t) : string :=
  match a with
  | AggregateType.Job => "JOB"
  | AggregateType.Worker => "WORKER"
  | AggregateType.Provider => "PROVIDER"
  end.

(** src: crates/server/infrastructure/src/persistence/outbox/postgres.rs 128-137 PostgresOutboxRepository::str_to_aggregate_type *)
Definition str_to_aggregate_type (s : string) : result OutboxError.t AggregateType.t :=
  if String.eqb s "JOB" then Ok AggregateType.Job
  else if String.eqb s "WORKER" then Ok AggregateType.Worker
  else if String.eqb s "PROVIDER" then Ok AggregateType.Provider
  else Err (OutboxError.InfrastructureError ("Invalid aggregate type: " +:+ s)).

(** [execute]: [effect] is the statement, which fails without a change. *)
Definition execute {A} (effect : S -> S * result string A) : method S OutboxError.t A :=
  fun s =>
    let (s, o) := next_outcome s in
    match o with
    | Executed => let (s, r) := effect s in (s, map_err OutboxError.Database r)
    | Refused m => (s, Err (OutboxError.Database m))
    | AnswerLost m => let (s, _) := effect s in (s, Err (OutboxError.Database m))
    end.

Definition update (f : OutboxEventRow.t -> OutboxEventRow.t) : S -> S :=
  fun s => set_outbox_rows (f <$> outbox_rows s) s.

(** The columns of a new row that the statement leaves out have the defaults of
    the table. *)
Definition new_row (fresh : Uuid) (now : DateTime) (e : OutboxEventInsert.t) : OutboxEventRow.t :=
  mk fresh (OutboxEventInsert.aggregate_id e)
    (aggregate_type_to_str (OutboxEventInsert.aggregate_type e)) (OutboxEventInsert.event_type e) 1
    (OutboxEventInsert.payload e) (OutboxEventInsert.metadata e)
    (OutboxEventInsert.idempotency_key e) now None "PENDING" 0 None.

Definition has_key (k : string) (r : OutboxEventRow.t) : bool :=
  bool_decide (idempotency_key r = Some k).

(** The widths of the two text columns whose content is not fixed. *)
Definition fits (e : OutboxEventInsert.t) : bool :=
  (length (chars (OutboxEventInsert.event_type e)) <=? 50)%nat &&
  match OutboxEventInsert.idempotency_key e with
  | Some k => (length (chars k) <=? 100)%nat
  | None => true
  end.

(** [INSERT ... ON CONFLICT (idempotency_key) DO NOTHING] of one row: it is
    skipped when its key is taken, by a row of the table or of the statement. *)
Definition insert_row (fresh : Uuid) (now : DateTime) (e : OutboxEventInsert.t)
    (rows : list OutboxEventRow.t) : result string (list OutboxEventRow.t) :=
  if negb (fits e) then Err (violation "value too long")
  else if match OutboxEventInsert.idempotency_key e with
          | Some k => existsb (has_key k) rows
          | None => false
          end then Ok rows
  else if existsb (fun r => bool_decide (id r = fresh)) rows then Err (violation "outbox_events_pkey")
  else Ok (rows ++ [new_row fresh now e]).

Fixpoint insert_rows (now : DateTime) (events : list OutboxEventInsert.t)
    (rows : list OutboxEventRow.t) (s : S) : S * result string (list OutboxEventRow.t) :=
  match events with
  | [] => (s, Ok rows)
  | e :: events =>
      let (s, fresh) := gen_random_uuid s in
      match insert_row fresh now e rows with
      | Ok rows => insert_rows now events rows s
      | Err m => (s, Err m)
      end
  end.

Definition insert_statement (events : list OutboxEventInsert.t) (s : S) : S * result string unit :=
  match insert_rows (transaction_time s) events (outbox_rows s) s with
  | (s, Ok rows) => (set_outbox_rows rows s, Ok tt)
  | (s, Err m) => (s, Err m)
  end.

(** src: crates/server/infrastructure/src/persistence/outbox/postgres.rs 142-168 PostgresOutboxRepository::insert_events *)
Definition insert_events (events : list OutboxEventInsert.t) : method S OutboxError.t unit :=
  match events with
  | [] => mret tt
  | _ => execute (insert_statement events)
  end.

Definition status_of_str (s : string) : result OutboxError.t OutboxStatus.t :=
  if String.eqb s "PENDING" then Ok OutboxStatus.Pending
  else if String.eqb s "PUBLISHED" then Ok OutboxStatus.Published
  else if String.eqb s "FAILED" then Ok OutboxStatus.Failed
  else Err (OutboxError.InfrastructureError ("Invalid status: " +:+ s)).

(** src: crates/server/infrastructure/src/persistence/outbox/postgres.rs 195-228 PostgresOutboxRepository::get_pending_events (a row) *)
Definition to_view (r : OutboxEventRow.t) : result OutboxError.t OutboxEventView.t :=
  type ← str_to_aggregate_type (aggregate_type r);
  st ← status_of_str (status r);
  Ok (OutboxEventView.mk (id r) (aggregate_id r) type (event_type r) (event_version r) (payload r)
        (metadata r) (idempotency_key r) (created_at r) (published_at r) st (retry_count r)
        (last_error r)).

Fixpoint to_views (rows : list OutboxEventRow.t) : result OutboxError.t (list OutboxEventView.t) :=
  match rows with
  | [] => Ok []
  | r :: rows => v ← to_view r; vs ← to_views rows; Ok (v :: vs)
  end.

(** [WHERE status = 'PENDING' AND retry_count < $1 ... FOR UPDATE SKIP LOCKED]. *)
Definition waiting (s : S) (max_retries : Z) (r : OutboxEventRow.t) : bool :=
  String.eqb (status r) "PENDING" && (retry_count r <? max_retries) &&
  negb (locked_by_others s (id r)).

Definition select_pending (limit : nat) (max_retries : Z) (s : S) : list OutboxEventRow.t :=
  take limit (order_by_created_at
    (filter (fun r => waiting s max_retries r = true) (outbox_rows s))).

(** src: crates/server/infrastructure/src/persistence/outbox/postgres.rs 170-231 PostgresOutboxRepository::get_pending_events *)
Definition get_pending_events (limit : nat) (max_retries : Z) :
    method S OutboxError.t (list OutboxEventView.t) :=
  rows ← execute (fun s => (s, Ok (select_pending limit max_retries s)));
  lift (to_views rows).

Definition publish_row (ids : list Uuid) (now : DateTime) (r : OutboxEventRow.t) : OutboxEventRow.t :=
  if bool_decide (id r ∈ ids) then r <| status := "PUBLISHED" |> <| published_at := Some now |>
  else r.

(** src: crates/server/infrastructure/src/persistence/outbox/postgres.rs 233-254 PostgresOutboxRepository::mark_published *)
Definition mark_published (ids : list Uuid) : method S OutboxError.t unit :=
  match ids with
  | [] => mret tt
  | _ => execute (fun s => (update (publish_row ids (transaction_time s)) s, Ok tt))
  end.

Definition fail_row (i : Uuid) (error : string) (r : OutboxEventRow.t) : OutboxEventRow.t :=
  if bool_decide (id r = i) then
    r <| status := "FAILED" |> <| retry_count := retry_count r + 1 |> <| last_error := Some error |>
  else r.

(** The column is an [INTEGER], whose addition fails when it overflows. *)
Definition fail_statement (i : Uuid) (error : string) (s : S) : S * result string unit :=
  if existsb (fun r => bool_decide (id r = i) && (retry_count r =? i32_max)) (outbox_rows s)
  then (s, Err (violation "integer out of range"))
  else (update (fail_row i error) s, Ok tt).

(** src: crates/server/infrastructure/src/persistence/outbox/postgres.rs 256-272 PostgresOutboxRepository::mark_failed *)
Definition mark_failed (i : Uuid) (error : string) : method S OutboxError.t unit :=
  execute (fail_statement i error).

(** src: crates/server/infrastructure/src/persistence/outbox/postgres.rs 274-290 PostgresOutboxRepository::exists_by_idempotency_key *)
Definition exists_by_idempotency_key (key : string) : method S OutboxError.t bool :=
  execute (fun s => (s, Ok (existsb (has_key key) (outbox_rows s)))).

Definition count_status (st : string) (rows : list OutboxEventRow.t) : Z :=
  Z.of_nat (length (filter (fun r => status r = st) rows)).

(** src: crates/server/infrastructure/src/persistence/outbox/postgres.rs 292-308 PostgresOutboxRepository::count_pending *)
Definition count_pending : method S OutboxError.t Z :=
  n ← execute (fun s => (s, Ok (count_status "PENDING" (outbox_rows s))));
  mret (as_u64 n).

(** [MIN] of the ages, [NULL] of none. *)
Definition min_age (now : DateTime) (rows : list OutboxEventRow.t) : option Z :=
  foldr (fun r acc =>
    let age := epoch_seconds now (created_at r) in
    Some (match acc with Some m => Z.min age m | None => age end)) None rows.

(** src: crates/server/infrastructure/src/persistence/outbox/postgres.rs 310-337 PostgresOutboxRepository::get_stats *)
Definition get_stats : method S OutboxError.t OutboxStats.t :=
  execute (fun s =>
    let rows := outbox_rows s in
    (s, Ok (OutboxStats.mk (as_u64 (count_status "PENDING" rows))
              (as_u64 (count_status "PUBLISHED" rows)) (as_u64 (count_status "FAILED" rows))
              (min_age (transaction_time s) (filter (fun r => status r = "PENDING") rows))))).

(** [DELETE FROM outbox_events WHERE ...] and the number of deleted rows. *)
Definition delete_where (p : S -> OutboxEventRow.t -> bool) : method S OutboxError.t Z :=
  execute (fun s =>
    let rows := outbox_rows s in
    (set_outbox_rows (filter (fun r => p s r = false) rows) s,
     Ok (Z.of_nat (length (filter (fun r => p s r = true) rows))))).

Definition before (a b : DateTime) : bool := negb (datetime_leb b a).

(** src: crates/server/infrastructure/src/persistence/outbox/postgres.rs 339-356 PostgresOutboxRepository::cleanup_published_events *)
Definition cleanup_published_events (older_than : Duration) : method S OutboxError.t Z :=
  delete_where (fun s r =>
    String.eqb (status r) "PUBLISHED" &&
    match published_at r with
    | Some t => before t (minus_seconds (transaction_time s) (as_secs_f64 older_than))
    | None => false
    end).

(** src: crates/server/infrastructure/src/persistence/outbox/postgres.rs 358-378 PostgresOutboxRepository::cleanup_failed_events *)
Definition cleanup_failed_events (max_retries : Z) (older_than : Duration) :
    method S OutboxError.t Z :=
  delete_where (fun s r =>
    String.eqb (status r) "FAILED" && (max_retries <=? retry_count r) &&
    before (created_at r) (minus_seconds (transaction_time s) (as_secs_f64 older_than))).

(** src: crates/server/infrastructure/src/persistence/outbox/postgres.rs 380-430 PostgresOutboxRepository::find_by_id *)
Definition find_by_id (i : Uuid) : method S OutboxError.t (option OutboxEventView.t) :=
  row ← execute (fun s => (s, Ok (head (filter (fun r => id r = i) (outbox_rows s)))));
  match row with
  | Some r => v ← lift (to_view r); mret (Some v)
  | None => mret None
  end.

(** src: crates/server/infrastructure/src/persistence/outbox/postgres.rs 141-431 impl OutboxRepository for PostgresOutboxRepository *)
#[global] Instance outbox_repository : OutboxRepository S := {|
  Outbox.insert_events := insert_events;
  Outbox.get_pending_events := get_pending_events;
  Outbox.mark_published := mark_published;
  Outbox.mark_failed := mark_failed;
  Outbox.exists_by_idempotency_key := exists_by_idempotency_key;
  Outbox.count_pending := count_pending;
  Outbox.get_stats := get_stats;
  Outbox.cleanup_published_events := cleanup_published_events;
  Outbox.cleanup_failed_events := cleanup_failed_events;
  Outbox.find_by_id := find_by_id;
|}.

(** ** Inside a transaction

    The statements see and change the state of the transaction; a commit makes
    it the state of the database, a rollback leaves the table as it was. *)

(** src: crates/server/infrastructure/src/persistence/outbox/postgres_tx.rs 19-52 PostgresOutboxRepository::insert_events_with_tx *)
Definition insert_events_with_tx (events : list OutboxEventInsert.t) : method S OutboxError.t unit :=
  match events with
  | [] => mret tt
  | _ => execute (insert_statement events)
  end.

(** src: crates/server/infrastructure/src/persistence/outbox/postgres_tx.rs 54-72 PostgresOutboxRepository::exists_by_idempotency_key_with_tx *)
Definition exists_by_idempotency_key_with_tx (key : string) : method S OutboxError.t bool :=
  found ← execute (fun s => (s, Ok (head (filter (fun r => has_key key r = true) (outbox_rows s)))));
  mret (bool_decide (is_Some found)).

End repository.
End PostgresOutboxRepository.

(** ** The table *)

Lemma submseteq_NoDup {A} (l k : list A) : NoDup k -> l ⊆+ k -> NoDup l.
Proof.
  intros Hk [r Hr]%submseteq_Permutation. rewrite Hr in Hk. by apply NoDup_app in Hk as [? _].
Qed.

Section table.
Context `{E : Externs} {S : Type} `{!OutboxDatabase S} `{!OutboxDatabaseLaws S}.
Import OutboxEventRow PostgresOutboxRepository.

Lemma execute_err {A} (effect : S -> S * result string A) s e :
  returns (execute effect) s = Err e -> exists m, e = OutboxError.Database m.
Proof.
  unfold execute, returns. destruct (next_outcome s) as [s1 [|m|m]].
  - destruct (effect s1) as [s2 [a|m]]; simpl; intros [= <-]. by eexists.
  - intros [= <-]. by eexists.
  - destruct (effect s1) as [s2 r]. intros [= <-]. by eexists.
Qed.

(** The statements run on the same table, whatever the outcome: when the answer
    is [Ok], the effect took place, otherwise it may have. *)
Lemma execute_cases {A} (effect : S -> S * result string A) s :
  exists s1, outbox_rows s1 = outbox_rows s /\
    match execute effect s with
    | (s', Ok a) => effect s1 = (s', Ok a)
    | (s', Err _) => s' = s1 \/ s' = (effect s1).1
    end.
Proof.
  exists (next_outcome s).1. split; [apply rows_of_outcome|].
  unfold execute. destruct (next_outcome s) as [s1 [|m|m]]; simpl.
  - destruct (effect s1) as [s2 [a|m]]; simpl; auto.
  - by left.
  - destruct (effect s1) as [s2 r]. by right.
Qed.

(** A statement that only reads. *)
Lemma execute_reads {A} (f : S -> A) s :
  outbox_rows (execute (fun s => (s, Ok (f s))) s).1 = outbox_rows s.
Proof.
  destruct (execute_cases (fun s => (s, Ok (f s))) s) as (s1 & Hs1 & H).
  destruct (execute _ s) as [s' [a|e]]; simpl in *; [by simplify_eq|]. by destruct H as [->| ->].
Qed.

(** *** What a row looks like to the program *)

Definition view (r : OutboxEventRow.t) : OutboxEventView.t :=
  OutboxEventView.mk (id r) (aggregate_id r)
    (match str_to_aggregate_type (aggregate_type r) with Ok a => a | Err _ => AggregateType.Provider end)
    (event_type r) (event_version r) (payload r) (metadata r) (idempotency_key r) (created_at r)
    (published_at r)
    (match status_of_str (status r) with Ok st => st | Err _ => OutboxStatus.Failed end)
    (retry_count r) (last_error r).

Definition entries (s : S) : list OutboxEventView.t := view <$> outbox_rows s.

Lemma to_view_ok r v : to_view r = Ok v -> v = view r.
Proof.
  unfold to_view, view. destruct (str_to_aggregate_type _); simpl; [|done].
  destruct (status_of_str _); simpl; [|done]. by intros [= <-].
Qed.

Lemma to_views_ok rows vs : to_views rows = Ok vs -> vs = view <$> rows.
Proof.
  revert vs. induction rows as [|r rows IH]; simpl; intros vs H; [by simplify_eq|].
  apply result_bind_inv in H as (v & Hv & H). apply result_bind_inv in H as (vs' & Hvs & H).
  apply to_view_ok in Hv as ->. apply IH in Hvs as ->. by simplify_eq.
Qed.

Lemma select_pending_submseteq limit max s :
  select_pending limit max s ⊆+ filter (fun r => waiting s max r = true) (outbox_rows s).
Proof.
  unfold select_pending. rewrite <- (order_permutes (filter _ _)) at 2.
  apply sublist_submseteq, sublist_take.
Qed.

Lemma elem_of_select_pending limit max s r :
  r ∈ select_pending limit max s -> r ∈ outbox_rows s /\ waiting s max r = true.
Proof.
  intros Hr. eapply elem_of_submseteq in Hr; [|apply select_pending_submseteq].
  by apply list_elem_of_filter in Hr as [? ?].
Qed.

Lemma view_publish_row ids now r :
  view (publish_row ids now r) = marked_published ids (Some now) (view r).
Proof. unfold publish_row, marked_published. simpl. by case_bool_decide. Qed.

Lemma view_fail_row i m r : view (fail_row i m r) = marked_failed i m (view r).
Proof. unfold fail_row, marked_failed. simpl. by case_bool_decide. Qed.

Lemma entries_update f g s1 s :
  outbox_rows s1 = outbox_rows s -> (forall r, view (f r) = g (view r)) ->
  entries (update f s1) = g <$> entries s.
Proof.
  intros Hs Hv. unfold entries, update. rewrite rows_of_set, Hs, <- !list_fmap_compose.
  apply list_fmap_ext. intros _ r _. apply Hv.
Qed.

Lemma get_pending_reads_table limit max s :
  outbox_rows (get_pending_events limit max s).1 = outbox_rows s.
Proof.
  unfold get_pending_events, mbind, method_bind.
  pose proof (execute_reads (select_pending limit max) s) as H.
  by destruct (execute _ s) as [s' [rows|e]].
Qed.

(** A successful fetch shows the waiting rows of the table, oldest first. *)
Lemma get_pending_shows limit max s es :
  returns (get_pending_events limit max) s = Ok es ->
  exists s1, outbox_rows s1 = outbox_rows s /\ es = view <$> select_pending limit max s1.
Proof.
  unfold returns, get_pending_events, mbind, method_bind.
  destruct (execute_cases (fun s => (s, Ok (select_pending limit max s))) s) as (s1 & Hs1 & H).
  destruct (execute _ s) as [s' [rows|e]]; [|done]. simplify_eq. simpl.
  intros ->%to_views_ok. by exists s'.
Qed.

Lemma get_pending_answers limit max s es :
  returns (get_pending_events limit max) s = Ok es ->
  (length es <= limit)%nat /\
  (NoDup (OutboxEventView.id <$> entries s) -> NoDup (OutboxEventView.id <$> es)) /\
  Forall (fun v => v ∈ entries s /\ OutboxEventView.status v = OutboxStatus.Pending /\
                   OutboxEventView.retry_count v < max) es.
Proof.
  intros (s1 & Hs1 & ->)%get_pending_shows. split_and!.
  - rewrite length_fmap. unfold select_pending. rewrite length_take. lia.
  - unfold entries. rewrite <- !list_fmap_compose, <- Hs1. intros Hnd.
    eapply submseteq_NoDup; [apply Hnd|]. apply fmap_submseteq.
    etrans; [apply select_pending_submseteq|]. apply sublist_submseteq, sublist_filter.
  - apply Forall_fmap, Forall_forall. intros r Hr. apply elem_of_select_pending in Hr as [Hr Hw].
    unfold entries. rewrite <- Hs1. unfold waiting in Hw. simpl.
    apply andb_prop in Hw as [[Hst Hc]%andb_prop _]. split; [by apply list_elem_of_fmap_2|].
    apply String.eqb_eq in Hst as ->. split; [done|]. lia.
Qed.

(** The statement marked the rows, or nothing. *)
Lemma mark_published_rows ids s :
  outbox_rows (mark_published ids s).1 = outbox_rows s \/
  exists now, outbox_rows (mark_published ids s).1 = publish_row ids now <$> outbox_rows s.
Proof.
  unfold mark_published. destruct ids as [|i ids]; [by left|].
  destruct (execute_cases (fun s => (update (publish_row (i :: ids) (transaction_time s)) s, Ok tt)) s)
    as (s1 & Hs1 & H).
  assert (outbox_rows (update (publish_row (i :: ids) (transaction_time s1)) s1)
    = publish_row (i :: ids) (transaction_time s1) <$> outbox_rows s) as Hu
    by (unfold update; by rewrite rows_of_set, Hs1).
  destruct (execute _ s) as [s' [[]|e]]; simpl in *.
  - simplify_eq. right. by eexists.
  - destruct H as [->| ->]; [by left|right; by eexists].
Qed.

Lemma mark_published_marks_rows ids s :
  done_or_not (returns (mark_published ids) s)
    (exists t, entries (after (mark_published ids) s) = marked_published ids (Some t) <$> entries s)
    (entries (after (mark_published ids) s) = entries s).
Proof.
  unfold returns, after, mark_published. destruct ids as [|i ids].
  { simpl. exists (transaction_time s). symmetry. apply list_fmap_id. }
  destruct (execute_cases (fun s => (update (publish_row (i :: ids) (transaction_time s)) s, Ok tt)) s)
    as (s1 & Hs1 & H).
  assert (entries (update (publish_row (i :: ids) (transaction_time s1)) s1)
    = marked_published (i :: ids) (Some (transaction_time s1)) <$> entries s) as Hu
    by (apply entries_update; [done|apply view_publish_row]).
  destruct (execute _ s) as [s' [[]|e]]; simpl in *; [simplify_eq; by eexists|].
  destruct H as [->| ->]; [left; unfold entries; by rewrite Hs1|right; by eexists].
Qed.

Lemma mark_failed_marks_row i m s :
  done_or_not (returns (mark_failed i m) s)
    (entries (after (mark_failed i m) s) = marked_failed i m <$> entries s)
    (entries (after (mark_failed i m) s) = entries s).
Proof.
  unfold returns, after, mark_failed.
  destruct (execute_cases (fail_statement i m) s) as (s1 & Hs1 & H).
  assert ((exists u, fail_statement i m s1 = (s1, Err u)) \/
          fail_statement i m s1 = (update (fail_row i m) s1, Ok tt)) as Hf
    by (unfold fail_statement; destruct (existsb _ _); eauto).
  assert (entries (update (fail_row i m) s1) = marked_failed i m <$> entries s) as Hu
    by (apply entries_update; [done|apply view_fail_row]).
  destruct (execute (fail_statement i m) s) as [s' [[]|e]]; simpl in *.
  - destruct Hf as [[u Hf]|Hf]; congruence.
  - destruct Hf as [[u Hf]|Hf]; rewrite Hf in H; simpl in H; destruct H as [->| ->]; auto;
      left; unfold entries; by rewrite Hs1.
Qed.

(** The repository keeps its contract. *)
#[global] Instance postgres_outbox_laws : OutboxLaws S entries.
Proof.
  split.
  - intros limit max s. unfold after, entries. simpl. by rewrite get_pending_reads_table.
  - apply get_pending_answers.
  - apply mark_published_marks_rows.
  - apply mark_failed_marks_row.
Qed.

(** *** Inserting *)

(** What the loop over the new rows leaves: the table grows at its end. *)
Lemma insert_rows_spec now events rows s :
  let '(s', r) := insert_rows now events rows s in
  outbox_rows s' = outbox_rows s /\
  forall rows', r = Ok rows' -> exists new, rows' = rows ++ new /\
    Forall (fun row => status row = "PENDING" /\ retry_count row = 0 /\ created_at row = now) new.
Proof.
  revert rows s. induction events as [|e events IH]; intros rows s; simpl.
  { split; [done|]. intros rows' [= <-]. exists []. by rewrite app_nil_r. }
  pose proof (rows_of_uuid s) as Hs. destruct (gen_random_uuid s) as [s1 fresh]. simpl in Hs.
  destruct (insert_row fresh now e rows) as [rows1|m] eqn:Hins; [|by split].
  specialize (IH rows1 s1). destruct (insert_rows now events rows1 s1) as [s' r].
  destruct IH as [Hs' IH]. split; [congruence|]. intros rows' Hr.
  destruct (IH rows' Hr) as (new & -> & Hnew). unfold insert_row in Hins.
  destruct (negb (fits e)); [done|]. case_match; [simplify_eq; by exists new|].
  destruct (existsb _ rows); simplify_eq. exists (new_row fresh now e :: new).
  rewrite <- app_assoc. split; [done|]. by constructor.
Qed.

(** *** The constraints of the table *)

Definition row_ok (r : OutboxEventRow.t) : Prop :=
  is_ok (to_view r) = true /\ (length (chars (event_type r)) <= 50)%nat /\
  (forall k, idempotency_key r = Some k -> (length (chars k) <= 100)%nat) /\
  0 <= retry_count r <= i32_max.

Definition table_ok (rows : list OutboxEventRow.t) : Prop :=
  NoDup (id <$> rows) /\ NoDup (omap idempotency_key rows) /\ Forall row_ok rows.

Lemma existsb_false {A} (f : A -> bool) l : existsb f l = false <-> Forall (fun x => f x = false) l.
Proof.
  induction l as [|x l IH]; simpl; [by split|].
  rewrite orb_false_iff, IH. split; [intros [? ?]; by constructor|]. by inversion 1.
Qed.

Lemma new_row_ok fresh now e : fits e = true -> row_ok (new_row fresh now e).
Proof.
  unfold fits, row_ok. intros [Ht Hk]%andb_prop. split_and!; simpl.
  - unfold to_view. simpl. by destruct (OutboxEventInsert.aggregate_type e).
  - by apply Nat.leb_le.
  - intros k Hk'. rewrite Hk' in Hk. by apply Nat.leb_le.
  - done.
  - unfold i32_max. lia.
Qed.

Lemma insert_row_ids fresh now e rows rows' :
  NoDup (id <$> rows) -> insert_row fresh now e rows = Ok rows' -> NoDup (id <$> rows').
Proof.
  intros Hi. unfold insert_row. destruct (negb (fits e)); [done|]. case_match; [by intros [= <-]|].
  destruct (existsb _ rows) eqn:Hid; [done|]. intros [= <-].
  rewrite existsb_false, Forall_forall in Hid. rewrite fmap_app. apply NoDup_app.
  split_and!; [done| |apply NoDup_singleton].
  intros i (r & -> & Hr')%list_elem_of_fmap Hi'. apply list_elem_of_singleton in Hi'.
  specialize (Hid r Hr'). by apply bool_decide_eq_false in Hid.
Qed.

Lemma insert_row_ok fresh now e rows rows' :
  table_ok rows -> insert_row fresh now e rows = Ok rows' -> table_ok rows'.
Proof.
  intros (Hi & Hk & Hr) Hins. split; [by eapply insert_row_ids|]. revert Hins.
  unfold insert_row. destruct (negb (fits e)) eqn:Hfits; [done|]. apply negb_false_iff in Hfits.
  destruct (match OutboxEventInsert.idempotency_key e with Some k => existsb (has_key k) rows
            | None => false end) eqn:Hkey; [by intros [= <-]|].
  destruct (existsb _ rows); [done|]. intros [= <-]. split.
  - rewrite omap_app. simpl. destruct (OutboxEventInsert.idempotency_key e) as [k|] eqn:He;
      simpl; [|by rewrite app_nil_r].
    apply NoDup_app. split_and!; [done| |apply NoDup_singleton].
    intros k' (r & Hr' & Hk')%list_elem_of_omap Hin. apply list_elem_of_singleton in Hin as ->.
    rewrite existsb_false, Forall_forall in Hkey. specialize (Hkey r Hr').
    by apply bool_decide_eq_false in Hkey.
  - apply Forall_app. split; [done|]. constructor; [by apply new_row_ok|done].
Qed.

Lemma insert_rows_ok now events rows s s' rows' :
  table_ok rows -> insert_rows now events rows s = (s', Ok rows') -> table_ok rows'.
Proof.
  revert rows s. induction events as [|e events IH]; intros rows s Hok; simpl.
  { by intros [= _ <-]. }
  destruct (gen_random_uuid s) as [s1 fresh].
  destruct (insert_row fresh now e rows) as [rows1|m] eqn:Hins; [|done].
  apply IH. by eapply insert_row_ok.
Qed.

Lemma insert_rows_ids now events rows s s' rows' :
  NoDup (id <$> rows) -> insert_rows now events rows s = (s', Ok rows') -> NoDup (id <$> rows').
Proof.
  revert rows s. induction events as [|e events IH]; intros rows s Hok; simpl.
  { by intros [= _ <-]. }
  destruct (gen_random_uuid s) as [s1 fresh].
  destruct (insert_row fresh now e rows) as [rows1|m] eqn:Hins; [|done].
  apply IH. by eapply insert_row_ids.
Qed.

Lemma insert_statement_ids events s1 :
  NoDup (id <$> outbox_rows s1) -> NoDup (id <$> outbox_rows (insert_statement events s1).1).
Proof.
  intros Hs. unfold insert_statement.
  pose proof (insert_rows_spec (transaction_time s1) events (outbox_rows s1) s1) as H.
  destruct (insert_rows _ _ _ s1) as [s' [rows|m]] eqn:Hins; simpl.
  - rewrite rows_of_set. by eapply insert_rows_ids.
  - destruct H as [-> _]. done.
Qed.

(** A statement that keeps the constraints, executed or not. *)
Lemma execute_keeps {A} (effect : S -> S * result string A) s :
  (forall s1, table_ok (outbox_rows s1) -> table_ok (outbox_rows (effect s1).1)) ->
  table_ok (outbox_rows s) -> table_ok (outbox_rows (execute effect s).1).
Proof.
  intros He Hs. destruct (execute_cases effect s) as (s1 & Hs1 & H). rewrite <- Hs1 in Hs.
  specialize (He s1 Hs). destruct (execute effect s) as [s' [a|e]]; simpl in *.
  - by rewrite H in He.
  - by destruct H as [->| ->].
Qed.

Lemma insert_statement_keeps events s1 :
  table_ok (outbox_rows s1) -> table_ok (outbox_rows (insert_statement events s1).1).
Proof.
  intros Hs. unfold insert_statement.
  pose proof (insert_rows_spec (transaction_time s1) events (outbox_rows s1) s1) as H.
  destruct (insert_rows _ _ _ s1) as [s' [rows|m]] eqn:Hins; simpl.
  - rewrite rows_of_set. by eapply insert_rows_ok.
  - destruct H as [-> _]. done.
Qed.

Lemma update_keeps f s :
  (forall r, id (f r) = id r) -> (forall r, idempotency_key (f r) = idempotency_key r) ->
  (forall r, r ∈ outbox_rows s -> row_ok r -> row_ok (f r)) ->
  table_ok (outbox_rows s) -> table_ok (outbox_rows (update f s)).
Proof.
  intros Hid Hkey Hrow (Hi & Hk & Hr). unfold update. rewrite rows_of_set. split_and!.
  - rewrite <- list_fmap_compose. erewrite list_fmap_ext; [exact Hi|]. intros _ r _. apply Hid.
  - replace (omap idempotency_key (f <$> outbox_rows s)) with (omap idempotency_key (outbox_rows s));
      [done|]. clear -Hkey. induction (outbox_rows s) as [|r l IH]; csimpl; [done|].
    rewrite Hkey. by destruct (idempotency_key r); rewrite IH.
  - apply Forall_fmap, Forall_forall. intros r Hr'. apply Hrow; [done|].
    rewrite Forall_forall in Hr. auto.
Qed.

Lemma filter_keeps (P : OutboxEventRow.t -> Prop) `{!forall r, Decision (P r)} rows :
  table_ok rows -> table_ok (filter P rows).
Proof.
  intros (Hi & Hk & Hr). split_and!.
  - eapply sublist_NoDup; [exact Hi|]. apply fmap_sublist, sublist_filter.
  - eapply sublist_NoDup; [exact Hk|]. clear. induction rows as [|r rows IH]; [done|].
    rewrite filter_cons. case_decide; csimpl; destruct (idempotency_key r); by repeat constructor.
  - apply Forall_forall. rewrite Forall_forall in Hr. intros r Hr'.
    apply list_elem_of_filter in Hr' as [_ Hr']. auto.
Qed.

Lemma fail_statement_keeps i m s1 :
  table_ok (outbox_rows s1) -> table_ok (outbox_rows (fail_statement i m s1).1).
Proof.
  intros Hs. unfold fail_statement. destruct (existsb _ _) eqn:Hmax; simpl; [done|].
  rewrite existsb_false, Forall_forall in Hmax.
  apply update_keeps; [..|done]; intros r; unfold fail_row; [by case_bool_decide..|].
  intros Hr Hok. specialize (Hmax r Hr). case_bool_decide; [|done]. simpl in Hmax.
  destruct Hok as (Hv & Ht & Hk & Hc). split_and!; simpl; [|done..|lia|lia].
  unfold to_view in *. simpl. by destruct (str_to_aggregate_type _).
Qed.

(** The calls of the repository. *)
Inductive call :=
  | Insert (events : list OutboxEventInsert.t)
  | GetPending (limit : nat) (max_retries : Z)
  | MarkPublished (ids : list Uuid)
  | MarkFailed (i : Uuid) (error : string)
  | Exists (key : string)
  | CountPending
  | GetStats
  | CleanupPublished (older_than : Duration)
  | CleanupFailed (max_retries : Z) (older_than : Duration)
  | FindById (i : Uuid)
  | InsertWithTx (events : list OutboxEventInsert.t)
  | ExistsWithTx (key : string).

Definition perform (c : call) (s : S) : S :=
  match c with
  | Insert events => after (insert_events events) s
  | GetPending limit max => after (get_pending_events limit max) s
  | MarkPublished ids => after (mark_published ids) s
  | MarkFailed i error => after (mark_failed i error) s
  | Exists key => after (exists_by_idempotency_key key) s
  | CountPending => after count_pending s
  | GetStats => after get_stats s
  | CleanupPublished d => after (cleanup_published_events d) s
  | CleanupFailed max d => after (cleanup_failed_events max d) s
  | FindById i => after (find_by_id i) s
  | InsertWithTx events => after (insert_events_with_tx events) s
  | ExistsWithTx key => after (exists_by_idempotency_key_with_tx key) s
  end.

Lemma execute_then_reads {A B} (f : S -> A) (k : A -> method S OutboxError.t B) s :
  (forall a s, (k a s).1 = s) ->
  outbox_rows (after (x ← execute (fun s => (s, Ok (f s))); k x) s) = outbox_rows s.
Proof.
  intros Hk. unfold after, mbind, method_bind.
  pose proof (execute_reads f s) as H. destruct (execute _ s) as [s' [a|e]]; simpl in *; [|done].
  by rewrite Hk.
Qed.

Lemma delete_where_keeps p s :
  table_ok (outbox_rows s) -> table_ok (outbox_rows (after (delete_where p) s)).
Proof.
  intros Hs. unfold after, delete_where. apply execute_keeps; [|done].
  intros s1 Hs1. simpl. rewrite rows_of_set. by apply filter_keeps.
Qed.

Lemma publish_row_keeps ids s :
  table_ok (outbox_rows s) -> table_ok (outbox_rows (after (mark_published ids) s)).
Proof.
  intros Hs. unfold after, mark_published. destruct ids as [|i ids]; [done|].
  apply execute_keeps; [|done]. intros s1 Hs1. simpl.
  apply update_keeps; [..|done]; intros r; unfold publish_row; [by case_bool_decide..|].
  intros _ (Hv & Ht & Hk & Hc). case_bool_decide; [|done]. split_and!; simpl; [|done..|lia|lia].
  unfold to_view in *. simpl. by destruct (str_to_aggregate_type _).
Qed.

(** C8: the rows of the outbox stay well-formed: whatever the repository is
    asked and however the database answers, the identifiers and the idempotency
    keys stay unique, the texts within the widths of their columns, the retry
    counters within 32 bits, and every row can be read back as an event. *)
Theorem table_keeps_its_constraints c s :
  table_ok (outbox_rows s) -> table_ok (outbox_rows (perform c s)).
Proof.
  intros Hs. destruct c; simpl.
  - unfold after, insert_events. destruct events; [done|].
    apply execute_keeps; [|done]. apply insert_statement_keeps.
  - unfold after. by rewrite get_pending_reads_table.
  - by apply publish_row_keeps.
  - unfold after, mark_failed. apply execute_keeps; [|done]. apply fail_statement_keeps.
  - unfold after, exists_by_idempotency_key. by rewrite execute_reads.
  - unfold count_pending. rewrite execute_then_reads; done.
  - unfold after, get_stats. by rewrite execute_reads.
  - by apply delete_where_keeps.
  - by apply delete_where_keeps.
  - unfold find_by_id. rewrite execute_then_reads; [done|]. intros [r|] s'; [|done].
    unfold mbind, method_bind, lift. by destruct (to_view r).
  - unfold after, insert_events_with_tx. destruct events; [done|].
    apply execute_keeps; [|done]. apply insert_statement_keeps.
  - unfold exists_by_idempotency_key_with_tx. rewrite execute_then_reads; done.
Qed.

(** *** Idempotency keys *)

Lemma insert_row_key fresh now e rows rows' k :
  insert_row fresh now e rows = Ok rows' -> OutboxEventInsert.idempotency_key e = Some k ->
  existsb (has_key k) rows' = true.
Proof.
  unfold insert_row. destruct (negb (fits e)); [done|]. intros H Hk. rewrite Hk in H.
  destruct (existsb (has_key k) rows) eqn:Hin; [by simplify_eq|].
  destruct (existsb (fun r => bool_decide (id r = fresh)) rows); simplify_eq. rewrite existsb_app. simpl. unfold has_key at 2.
  simpl. rewrite Hk, bool_decide_eq_true_2 by done. by rewrite !orb_true_r.
Qed.

Lemma insert_rows_keys now events rows s s' rows' :
  insert_rows now events rows s = (s', Ok rows') ->
  Forall (fun e => forall k, OutboxEventInsert.idempotency_key e = Some k ->
                   existsb (has_key k) rows' = true) events.
Proof.
  revert rows s. induction events as [|e events IH]; intros rows s; simpl; [done|].
  pose proof (rows_of_uuid s). destruct (gen_random_uuid s) as [s1 fresh].
  destruct (insert_row fresh now e rows) as [rows1|m] eqn:Hins; [|done].
  intros Hrest. constructor; [|by eapply IH]. intros k Hk.
  pose proof (insert_row_key _ _ _ _ _ _ Hins Hk) as Hin.
  pose proof (insert_rows_spec now events rows1 s1) as Hspec. rewrite Hrest in Hspec.
  destruct Hspec as [_ Hspec]. destruct (Hspec rows' eq_refl) as (new & -> & _).
  by rewrite existsb_app, Hin.
Qed.

Lemma insert_rows_taken now events rows s :
  Forall (fun e => fits e = true /\ exists k,
    OutboxEventInsert.idempotency_key e = Some k /\ existsb (has_key k) rows = true) events ->
  (insert_rows now events rows s).2 = Ok rows.
Proof.
  intros He. revert s. induction He as [|e events (Hf & k & Hk & Hin) _ IH]; intros s; simpl; [done|].
  destruct (gen_random_uuid s) as [s1 fresh]. unfold insert_row. rewrite Hf, Hk, Hin. simpl.
  apply IH.
Qed.

(** The statement on a table: it fails without a change, or the table grows by
    pending rows and holds the keys of the events. *)
Lemma insert_statement_spec events s :
  (exists s' m, insert_statement events s = (s', Err m) /\ outbox_rows s' = outbox_rows s) \/
  (exists s' new, insert_statement events s = (s', Ok tt) /\
     outbox_rows s' = outbox_rows s ++ new /\
     Forall (fun row => status row = "PENDING" /\ retry_count row = 0) new /\
     Forall (fun e => forall k, OutboxEventInsert.idempotency_key e = Some k ->
       existsb (has_key k) (outbox_rows s') = true) events).
Proof.
  pose proof (insert_rows_spec (transaction_time s) events (outbox_rows s) s) as Hspec.
  unfold insert_statement.
  destruct (insert_rows _ events _ s) as [s2 [rows|m]] eqn:Hins; destruct Hspec as [Hs2 Hspec].
  - right. destruct (Hspec rows eq_refl) as (new & -> & Hnew).
    exists (set_outbox_rows (outbox_rows s ++ new) s2), new. rewrite rows_of_set.
    split_and!; [done..| |by eapply insert_rows_keys].
    eapply Forall_impl; [exact Hnew|]. by intros row (? & ? & _).
  - left. by exists s2, m.
Qed.

Lemma insert_statement_taken events s :
  Forall (fun e => fits e = true /\ exists k,
    OutboxEventInsert.idempotency_key e = Some k /\
    existsb (has_key k) (outbox_rows s) = true) events ->
  exists s', insert_statement events s = (s', Ok tt) /\ outbox_rows s' = outbox_rows s.
Proof.
  intros H. pose proof (insert_rows_taken (transaction_time s) events (outbox_rows s) s H) as Hrows.
  unfold insert_statement. destruct (insert_rows _ events _ s) as [s2 r]. simpl in Hrows. subst r.
  eexists. split; [done|]. apply rows_of_set.
Qed.

(** Inserting is all or nothing and idempotent by key.  The table is as it
    was or has grown by pending rows; when the call returns [Ok], the key of
    every event that has one is in the table; and events whose keys are already
    taken change nothing and are no error, although the trait documents one for
    a duplicate key. *)
Theorem insertion_is_idempotent_by_key events s :
  (let '(s', r) := insert_events events s in
   (outbox_rows s' = outbox_rows s \/
    exists new, outbox_rows s' = outbox_rows s ++ new /\
      Forall (fun row => status row = "PENDING" /\ retry_count row = 0) new) /\
   (r = Ok tt -> Forall (fun e => forall k, OutboxEventInsert.idempotency_key e = Some k ->
      existsb (has_key k) (outbox_rows s') = true) events)) /\
  (Forall (fun e => fits e = true /\ exists k,
     OutboxEventInsert.idempotency_key e = Some k /\ existsb (has_key k) (outbox_rows s) = true) events ->
   outbox_rows (after (insert_events events) s) = outbox_rows s /\
   ((next_outcome s).2 = Executed -> returns (insert_events events) s = Ok tt)).
Proof.
  unfold after, returns, insert_events. destruct events as [|e events].
  { split; [|done]. split; [by left|done]. }
  set (es := e :: events). destruct (execute_cases (insert_statement es) s) as (s1 & Hs1 & H).
  split.
  - destruct (insert_statement_spec es s1) as [(s2 & m & Hst & Hs2)|(s2 & new & Hst & Hs2 & Hnew & Hk)];
      rewrite Hst in H; simpl in H; destruct (execute _ s) as [s' [[]|err]]; try done.
    + split; [|done]. left. destruct H as [->| ->]; congruence.
    + simplify_eq. split; [right; exists new; by rewrite Hs2, Hs1|done].
    + split; [|done]. destruct H as [->| ->]; [by left|right]. exists new. by rewrite Hs2, Hs1.
  - intros Htaken. split.
    + rewrite <- Hs1 in Htaken. destruct (insert_statement_taken es s1 Htaken) as (s2 & Hst & Hs2).
      rewrite Hst in H. destruct (execute _ s) as [s' [[]|err]]; simpl in *; [congruence|].
      destruct H as [->| ->]; congruence.
    + unfold execute. rewrite <- (rows_of_outcome s) in Htaken.
      destruct (next_outcome s) as [s2 o]. simpl in *. intros ->.
      by destruct (insert_statement_taken es s2 Htaken) as (s3 & -> & _).
Qed.

(** An insertion leaves the rows that are there, and adds pending ones of now. *)
Lemma insert_events_grows events s :
  exists new, outbox_rows (after (insert_events events) s) = outbox_rows s ++ new /\
    Forall (fun r => status r = "PENDING" /\ created_at r = transaction_time (next_outcome s).1) new.
Proof.
  unfold after, insert_events. destruct events as [|e events].
  { exists []. by rewrite app_nil_r. }
  pose proof (rows_of_outcome s) as Ho. unfold execute. destruct (next_outcome s) as [s1 o].
  simpl in Ho. pose proof (insert_rows_spec (transaction_time s1) (e :: events) (outbox_rows s1) s1) as H.
  assert (exists new, outbox_rows (insert_statement (e :: events) s1).1 = outbox_rows s ++ new /\
    Forall (fun r => status r = "PENDING" /\ created_at r = transaction_time s1) new) as Hst.
  { unfold insert_statement. destruct (insert_rows _ _ _ s1) as [s2 [rows|m]]; simpl.
    - destruct H as [_ H]. destruct (H rows eq_refl) as (new & -> & Hnew). exists new.
      rewrite rows_of_set, Ho. split; [done|]. eapply Forall_impl; [exact Hnew|].
      by intros r (? & _ & ?).
    - destruct H as [-> _]. exists []. by rewrite app_nil_r. }
  destruct (insert_statement _ s1) as [s2 r]. simpl in Hst |- *. destruct o; try done.
  exists []. by rewrite app_nil_r.
Qed.

(** *** The order of the queue *)

Lemma pending_oldest_first limit max s es :
  returns (get_pending_events limit max) s = Ok es ->
  StronglySorted (fun a b =>
    datetime_leb (OutboxEventView.created_at a) (OutboxEventView.created_at b) = true) es /\
  (forall r, r ∈ outbox_rows s -> status r = "PENDING" -> retry_count r < max ->
     (forall s', locked_by_others s' (id r) = false) ->
     view r ∈ es \/
     (length es = limit /\
      Forall (fun v => datetime_leb (OutboxEventView.created_at v) (created_at r) = true) es)).
Proof.
  intros (s1 & Hs1 & ->)%get_pending_shows. unfold select_pending.
  set (l := order_by_created_at _).
  assert (StronglySorted earlier l) as Hl by apply order_sorts.
  split.
  - rewrite <- (take_drop limit l) in Hl. apply StronglySorted_app_1_l in Hl.
    clear -Hl. induction Hl as [|r l' Hl IH Hr]; simpl; constructor; [done|].
    by apply Forall_fmap.
  - intros r Hr Hst Hc Hlock.
    assert (r ∈ l) as Hin.
    { unfold l. rewrite order_permutes. apply list_elem_of_filter. rewrite Hs1. split; [|done].
      unfold waiting. rewrite Hst, Hlock. simpl. rewrite andb_true_r. lia. }
    rewrite <- (take_drop limit l) in Hin. apply elem_of_app in Hin as [Hin|Hin].
    + left. by apply list_elem_of_fmap_2.
    + right. assert (limit <= length l)%nat as Hlen.
      { destruct (decide (limit <= length l)%nat); [done|].
        rewrite drop_ge in Hin by lia. by apply elem_of_nil in Hin. }
      split; [rewrite length_fmap, length_take; lia|].
      apply Forall_fmap, Forall_forall. intros r' Hr'.
      rewrite <- (take_drop limit l) in Hl. simpl.
      by apply (StronglySorted_app_1_elem_of earlier _ _ r' r Hl).
Qed.

(** The events that wait are fetched oldest first.  The answer is sorted by
    the time of creation, and an unlocked pending event below the number of
    retries is left out only when the answer is full and nothing in it is
    younger. *)
Theorem pending_events_come_oldest_first limit max s es :
  returns (get_pending_events limit max) s = Ok es ->
  StronglySorted (fun a b =>
    datetime_leb (OutboxEventView.created_at a) (OutboxEventView.created_at b) = true) es /\
  (forall r, r ∈ outbox_rows s -> status r = "PENDING" -> retry_count r < max ->
     (forall s', locked_by_others s' (id r) = false) ->
     view r ∈ es \/
     (length es = limit /\
      Forall (fun v => datetime_leb (OutboxEventView.created_at v) (created_at r) = true) es)).
Proof. apply pending_oldest_first. Qed.

(** *** Statistics *)

Lemma min_age_spec now rows :
  match min_age now rows with
  | None => rows = []
  | Some m => (exists r, r ∈ rows /\ m = epoch_seconds now (created_at r)) /\
      Forall (fun r => m <= epoch_seconds now (created_at r)) rows
  end.
Proof.
  induction rows as [|r rows IH]; simpl; [done|]. destruct (min_age now rows) as [m|].
  - destruct IH as [(r' & Hr' & ->) Hall]. split.
    + destruct (Z.min_spec (epoch_seconds now (created_at r)) (epoch_seconds now (created_at r')))
        as [[_ ->]|[_ ->]]; [exists r; split; [by left|done]|exists r'; split; [by right|done]].
    + constructor; [lia|]. eapply Forall_impl; [exact Hall|]. simpl. intros. lia.
  - subst rows. split; [exists r; split; [by left|done]|]. by repeat constructor.
Qed.

(** The age the statistics report as that of the oldest pending event is the
    age of the youngest one: no pending event is younger. *)
Theorem oldest_pending_age_is_the_youngest s st :
  returns get_stats s = Ok st ->
  exists now, match OutboxStats.oldest_pending_age_seconds st with
  | None => Forall (fun r => status r <> "PENDING") (outbox_rows s)
  | Some age =>
      (exists r, r ∈ outbox_rows s /\ status r = "PENDING" /\ age = epoch_seconds now (created_at r)) /\
      Forall (fun r => status r = "PENDING" -> age <= epoch_seconds now (created_at r)) (outbox_rows s)
  end.
Proof.
  unfold returns, get_stats. match goal with |- context [execute ?f s] =>
    destruct (execute_cases f s) as (s1 & Hs1 & H); destruct (execute f s) as [s' [a|e]] end; [|done].
  simpl. intros [= ->]. simplify_eq. simpl. exists (transaction_time s'). rewrite Hs1.
  pose proof (min_age_spec (transaction_time s') (filter (fun r => status r = "PENDING") (outbox_rows s)))
    as Hm. destruct (min_age _ _) as [m|].
  - destruct Hm as [(r & Hr & ->) Hall]. apply list_elem_of_filter in Hr as [Hst Hr].
    split; [by exists r|]. apply Forall_forall. rewrite Forall_forall in Hall.
    intros r' Hr' Hst'. apply Hall. by apply list_elem_of_filter.
  - apply Forall_forall. intros r Hr Hst.
    assert (r ∈ filter (fun r => status r = "PENDING") (outbox_rows s)) as Hin
      by (by apply list_elem_of_filter). rewrite Hm in Hin. by apply elem_of_nil in Hin.
Qed.

End table.

(** ** A database in memory

    Identifiers are drawn in order, the clock ticks with each of them, the
    statements meet the outcomes of a list, and [bus_down] events in a row fail
    to be published. *)

Module ExampleDatabase.

Record world := mk {
  rows : list (OutboxEventRow.t (E := concrete));
  ids : nat;
  clock : Z;
  outcomes : list outcome;
  log : list (DomainEvent.t (E := concrete));
  bus_down : nat;
}.

#[global] Instance world_rebuild : Rebuild world := fun w =>
  mk (rows w) (ids w) (clock w) (outcomes w) (log w) (bus_down w).

Definition older (a b : OutboxEventRow.t (E := concrete)) : Prop :=
  OutboxEventRow.created_at a <= OutboxEventRow.created_at b.

#[global] Instance older_dec : RelDecision older.
Proof. intros a b. unfold older. simpl. apply _. Defined.

#[global] Instance database : OutboxDatabase (E := concrete) world := {|
  outbox_rows := rows;
  set_outbox_rows := fun l w => w <| rows := l |>;
  transaction_time := clock;
  gen_random_uuid := fun w => (w <| ids := S (ids w) |> <| clock := clock w + 1 |>, ids w);
  next_outcome := fun w =>
    match outcomes w with
    | [] => (w, Executed)
    | o :: os => (w <| outcomes := os |>, o)
    end;
  locked_by_others := fun _ _ => false;
  order_by_created_at := merge_sort older;
  violation := fun c => "violates " +:+ c;
  minus_seconds := fun t x => t - 1000000000 * F64.to_i64 x;
  epoch_seconds := fun a b => (a - b) / 1000000000;
|}.

#[global] Instance older_trans : Transitive older.
Proof. intros a b c. unfold older. lia. Qed.
#[global] Instance older_total : Total older.
Proof. intros a b. unfold older. lia. Qed.

#[global] Instance database_laws : OutboxDatabaseLaws (E := concrete) world.
Proof.
  split; try done.
  - intros w. simpl. by destruct (outcomes w).
  - intros l. apply merge_sort_Permutation.
  - intros l. simpl. induction (StronglySorted_merge_sort older l) as [|a l' _ IH Ha];
      constructor; [done|]. eapply Forall_impl; [exact Ha|]. intros b. by apply Z.leb_le.
Qed.

#[global] Instance publisher : EventPublisher (E := concrete) world := {|
  publish_domain_event := fun e w =>
    match bus_down w with
    | O => (w <| log := log w ++ [e] |>, Ok tt)
    | S n => (w <| bus_down := n |>, Err (OutboxError.EventBus "no servers"))
    end;
|}.

#[global] Instance publisher_laws :
  PublisherLaws (E := concrete) world (entries (E := concrete)).
Proof. split. intros e w. unfold after. simpl. by destruct (bus_down w). Qed.

Definition accepted (job worker : nat) : OutboxEventInsert.t (E := concrete) :=
  OutboxEventInsert.for_job (E := concrete) job "JobAccepted"
    (JField JObj "JobAccepted"
       (JCons (JNum (Z.of_nat job)) (JCons (JNum (Z.of_nat worker)) (JCons (JNum 7) JNil))))
    None (Some "accepted").

(** Two events are written, the second without a key. *)
Definition written : world :=
  after (PostgresOutboxRepository.insert_events (E := concrete)
    [accepted 1 10; accepted 1 10;
     OutboxEventInsert.for_job (E := concrete) 2%nat "JobAccepted" JObj None None])
    (mk [] 0 0 [] [] 0).

End ExampleDatabase.

(** The batch publishes the first event; the second cannot be decoded. *)
Example one_attempt_per_event_witness :
  (OutboxEventRow.status <$> ExampleDatabase.rows
     (fst (OutboxPoller.process_batch (E := concrete) (F := concrete_format) 10 5
        ExampleDatabase.written))) = ["PUBLISHED"; "FAILED"] /\
  (forall wakes v, v ∈ entries (E := concrete) ExampleDatabase.written ->
     OutboxEventView.status v <> OutboxStatus.Pending ->
     v ∈ entries (E := concrete)
       (OutboxPoller.run (E := concrete) (F := concrete_format) 10 5 wakes
          ExampleDatabase.written).1).
Proof.
  split; [vm_compute; reflexivity|].
  apply (one_attempt_per_event (E := concrete) (F := concrete_format) (entries (E := concrete)) 10 5).
  apply (bool_decide_unpack _). vm_compute. exact I.
Defined.

(** A table of one row, which is then marked as failed. *)
Definition one_row : ExampleDatabase.world :=
  ExampleDatabase.mk [PostgresOutboxRepository.new_row (E := concrete) 0%nat 5 (ExampleDatabase.accepted 1 10)] 1 5 [] [] 0.

Example table_keeps_its_constraints_witness :
  table_ok (E := concrete) (outbox_rows (E := concrete) one_row) /\
  table_ok (E := concrete) (outbox_rows (E := concrete)
    (perform (E := concrete) (MarkFailed (E := concrete) 0%nat "lost") one_row)).
Proof.
  assert (table_ok (E := concrete) (outbox_rows (E := concrete) one_row)) as H.
  { split_and!.
    - apply NoDup_singleton.
    - apply NoDup_singleton.
    - constructor; [|constructor].
      exact (new_row_ok (E := concrete) 0%nat 5 (ExampleDatabase.accepted 1 10) eq_refl). }
  split; [exact H|].
  exact (table_keeps_its_constraints (E := concrete) (MarkFailed (E := concrete) 0%nat "lost")
    one_row H).
Defined.

Example pending_events_come_oldest_first_witness :
  exists es, returns (PostgresOutboxRepository.get_pending_events (E := concrete) 1 5)
    ExampleDatabase.written = Ok es /\
  StronglySorted (fun a b => datetime_leb (Externs := concrete) (OutboxEventView.created_at a)
                               (OutboxEventView.created_at b) = true) es.
Proof.
  assert (is_ok (returns (PostgresOutboxRepository.get_pending_events (E := concrete) 1 5)
    ExampleDatabase.written) = true) as Hok by (vm_compute; reflexivity).
  destruct (returns _ _) as [es|e] eqn:H; [|discriminate Hok].
  exists es. split; [reflexivity|].
  exact (proj1 (pending_events_come_oldest_first (E := concrete) 1 5 ExampleDatabase.written es H)).
Defined.

Example oldest_pending_age_is_the_youngest_witness :
  exists st, returns (PostgresOutboxRepository.get_stats (E := concrete)) ExampleDatabase.written = Ok st /\
  exists now, match OutboxStats.oldest_pending_age_seconds st with
  | None => False
  | Some age => Forall (fun r => OutboxEventRow.status r = "PENDING" ->
      age <= epoch_seconds (E := concrete) (S := ExampleDatabase.world) now
               (OutboxEventRow.created_at r))
      (outbox_rows (E := concrete) ExampleDatabase.written)
  end.
Proof.
  assert (returns (PostgresOutboxRepository.get_stats (E := concrete)) ExampleDatabase.written
    = Ok (OutboxStats.mk 2 0 0 (Some 0))) as Hst by (vm_compute; reflexivity).
  eexists. split; [exact Hst|].
  destruct (oldest_pending_age_is_the_youngest (E := concrete) ExampleDatabase.written _ Hst)
    as [now [_ H]]. exists now. exact H.
Defined.

(** An event whose key is in the table is inserted again. *)
Example insertion_is_idempotent_by_key_witness :
  outbox_rows (E := concrete) (after (PostgresOutboxRepository.insert_events (E := concrete)
      [ExampleDatabase.accepted 1 10]) ExampleDatabase.written)
    = outbox_rows (E := concrete) ExampleDatabase.written.
Proof.
  apply (insertion_is_idempotent_by_key (E := concrete) [ExampleDatabase.accepted 1 10]
    ExampleDatabase.written).
  constructor; [|constructor]. split; [vm_compute; reflexivity|].
  exists "accepted". split; vm_compute; reflexivity.
Defined.
