(* ===== verification/Tasks.v ===== *)
(** * Tasks: asynchronous code and its interleavings

    A task is the code of an [async] block, cut where it touches the world it
    shares with the other tasks: it is done, or it waits to make one atomic step
    on the world and go on.  [timeout] is [tokio::time::timeout], which may drop
    a task between two of its steps.  A pool is a [FuturesUnordered]: its tasks
    take their steps in any order, and the results are collected as they come.
    They are polled by the task that owns the pool, so that a panic of one of them
    unwinds the owner, and the others are dropped.

    [safe G Q P t] says that [t], started where [P] holds, changes the world only
    within [G] at every step, whatever other tasks that keep [G] do in between,
    and that its result satisfies [Q] (rely and guarantee are both [G]);
    [within n t] says that [t] makes at most [n] steps.  Together they give that
    a pool ends and what it leaves, however it is scheduled. *)

From S2P Require Import Prelude Effects Std.

#[warnings="-register-all"]
Inductive task (W R : Type) : Type :=
  | Done (r : R)
  | Await (f : W -> W * task W R).
Arguments Done {W R} r.
Arguments Await {W R} f.

Section induction.
Context {W R : Type} (P : task W R -> Prop).
Context (HDone : forall r, P (Done r)).
Context (HAwait : forall f, (forall w, P (f w).2) -> P (Await f)).

(** Induction over the steps of a task. *)
Fixpoint task_induction (t : task W R) : P t :=
  match t with
  | Done r => HDone r
  | Await f => HAwait f (fun w =>
      match f w as p return P p.2 with (_, t') => task_induction t' end)
  end.

End induction.

Section combinators.
Context {W : Type}.

Fixpoint task_bind {R Q} (k : R -> task W Q) (t : task W R) : task W Q :=
  match t with
  | Done r => k r
  | Await f => Await (fun w => match f w with (w', t') => (w', task_bind k t') end)
  end.

Definition process (E A : Type) : Type := task W (result E A).

Definition process_ret {E A} (a : A) : process E A := Done (Ok a).

Definition process_bind {E A B} (k : A -> process E B) (t : process E A) : process E B :=
  task_bind (fun r => match r with Ok a => k a | Err e => Done (Err e) end) t.

(** One step on the world. *)
Definition atomically {E A} (m : method W E A) : process E A :=
  Await (fun w => let (w', r) := m w in (w', Done r)).

(** [return Err(e)]. *)
Definition fails {E A} (e : E) : process E A := Done (Err e).

(** The [Result] of a fallible call, as a value; a panic goes on. *)
Definition attempt {E F A} (t : process (exn E) A) : process (exn F) (result E A) :=
  task_bind (fun r =>
    match r with
    | Ok a => Done (Ok (Ok a))
    | Err (Error e) => Done (Ok (Err e))
    | Err Panicked => Done (Err Panicked)
    | Err Blocked => Done (Err Blocked)
    | Err OutOfFuel => Done (Err OutOfFuel)
    end) t.

(** [t.map_err(f)]. *)
Definition with_error {E F A} (f : E -> F) (t : process (exn E) A) : process (exn F) A :=
  task_bind (fun r =>
    Done match r with
         | Ok a => Ok a
         | Err (Error e) => Err (Error (f e))
         | Err Panicked => Err Panicked
         | Err Blocked => Err Blocked
         | Err OutOfFuel => Err OutOfFuel
         end) t.

(** A task that nothing interrupts. *)
Fixpoint alone {R} (t : task W R) (w : W) : W * R :=
  match t with
  | Done r => (w, r)
  | Await f => match f w with (w', t') => alone t' w' end
  end.

(** [timeout(d, t)]: [t] is polled before the clock is looked at, so that it goes on,
    also when its time is up, until it has to wait for something ([waiting]). *)
Section timeout.
Context (instant : W -> Z) (waiting : W -> bool).

Fixpoint until {R} (deadline : Z) (t : task W R) : task W (option R) :=
  match t with
  | Done r => Done (Some r)
  | Await f => Await (fun w =>
      if (deadline <=? instant w) && waiting w then (w, Done None)
      else match f w with (w', t') => (w', until deadline t') end)
  end.

Definition timeout {R} (d : Duration) (t : task W R) : task W (option R) :=
  Await (fun w => (w, until (instant w + d) t)).

End timeout.

(** *** A task on a part of the world *)

Section zoom.
Context {V : Type} (get : V -> W) (put : W -> V -> V).

Fixpoint zoom {R} (t : task W R) : task V R :=
  match t with
  | Done r => Done r
  | Await f => Await (fun v => match f (get v) with (w', t') => (put w' v, zoom t') end)
  end.

Definition zoomed {E A} (m : method W E A) : method V E A :=
  fun v => let (w', r) := m (get v) in (put w' v, r).

End zoom.
End combinators.
Arguments process W E A : clear implicits.

#[global] Instance process_mret {W E} : MRet (process W E) := @process_ret W E.
#[global] Instance process_mbind {W E} : MBind (process W E) := @process_bind W E.

Section alone.
Context {W : Type}.

Lemma alone_bind {R Q} (k : R -> task W Q) (t : task W R) w :
  alone (task_bind k t) w = let (w', r) := alone t w in alone (k r) w'.
Proof.
  revert w. induction t as [r|f IH] using task_induction; intros w; simpl; [done|].
  specialize (IH w). by destruct (f w).
Qed.

Lemma alone_mbind {E A B} (k : A -> process W E B) (t : process W E A) w :
  alone (t ≫= k) w =
    let (w', r) := alone t w in
    match r with Ok a => alone (k a) w' | Err e => (w', Err e) end.
Proof.
  etrans; [apply alone_bind|]. destruct (alone t w) as [w' [a|e]]; done.
Qed.

Lemma alone_atomically {E A} (m : method W E A) w : alone (atomically m) w = m w.
Proof. simpl. by destruct (m w). Qed.

End alone.

(** ** What the steps of a task do *)

Section steps.
Context {W : Type}.

Inductive within {R} : nat -> task W R -> Prop :=
  | within_done n r : within n (Done r)
  | within_await n f : (forall w, within n (f w).2) -> within (S n) (Await f).

(** Every result of the task satisfies [Q]. *)
Inductive returning {R} (Q : R -> Prop) : task W R -> Prop :=
  | returning_done r : Q r -> returning Q (Done r)
  | returning_await f : (forall w, returning Q (f w).2) -> returning Q (Await f).

Lemma within_le {R} n m (t : task W R) : within n t -> (n <= m)%nat -> within m t.
Proof.
  intros Ht. revert m. induction Ht as [n r|n f Ht IH]; intros m Hm; [constructor|].
  destruct m as [|m]; [lia|]. constructor. intros w. apply IH. lia.
Qed.

Lemma within_bind {R Q} n m (k : R -> task W Q) (t : task W R) :
  within n t -> (forall r, within m (k r)) -> within (n + m) (task_bind k t).
Proof.
  intros Ht Hk. induction Ht as [n r|n f Ht IH]; simpl.
  - eapply within_le; [apply Hk|lia].
  - constructor. intros w. specialize (IH w). by destruct (f w).
Qed.

Lemma within_mbind {E A B} n m (k : A -> process W E B) (t : process W E A) :
  within n t -> (forall a, within m (k a)) -> within (n + m) (t ≫= k).
Proof. intros Ht Hk. apply within_bind; [done|]. intros [a|e]; [apply Hk|constructor]. Qed.

Lemma within_attempt {E F A} n (t : process W (exn E) A) :
  within n t -> within (R := result (exn F) _) n (attempt t).
Proof.
  intros Ht. rewrite <- (Nat.add_0_r n). apply within_bind; [done|].
  intros [a|[e| | |]]; constructor.
Qed.

Lemma within_with_error {E F A} n (f : E -> F) (t : process W (exn E) A) :
  within n t -> within n (with_error f t).
Proof.
  intros Ht. rewrite <- (Nat.add_0_r n). apply within_bind; [done|]. constructor.
Qed.

Lemma within_until {R} instant waiting d n (t : task W R) :
  within n t -> within n (until instant waiting d t).
Proof.
  intros Ht. induction Ht as [n r|n f Ht IH]; simpl; [constructor|].
  constructor. intros w. destruct (_ && _); [constructor|].
  specialize (IH w). by destruct (f w).
Qed.

Lemma within_timeout {R} instant waiting d n (t : task W R) :
  within n t -> within (S n) (timeout instant waiting d t).
Proof. intros Ht. constructor. intros w. by apply within_until. Qed.

Lemma within_atomically {E A} (m : method W E A) : within 1 (atomically m).
Proof. constructor. intros w. destruct (m w). constructor. Qed.

Lemma returning_bind {R Q} (P : R -> Prop) (P' : Q -> Prop) (k : R -> task W Q) (t : task W R) :
  returning P t -> (forall r, P r -> returning P' (k r)) -> returning P' (task_bind k t).
Proof.
  intros Ht Hk. induction Ht as [r Hr|f Ht IH]; simpl; [by apply Hk|].
  constructor. intros w. specialize (IH w). by destruct (f w).
Qed.

Lemma returning_mbind {E A B} (P : result E A -> Prop) (Q : result E B -> Prop)
    (k : A -> process W E B) (t : process W E A) :
  returning P t -> (forall a, returning Q (k a)) -> (forall e, P (Err e) -> Q (Err e)) ->
  returning Q (t ≫= k).
Proof.
  intros Ht Hk He. eapply returning_bind; [exact Ht|]. intros [a|e] Hr; [apply Hk|].
  constructor. auto.
Qed.

Lemma returning_atomically {E A} (P : result E A -> Prop) (m : method W E A) :
  (forall w, P (m w).2) -> returning P (atomically m).
Proof. intros Hm. constructor. intros w. specialize (Hm w). destruct (m w). by constructor. Qed.

Lemma returning_any {R} (t : task W R) : returning (fun _ => True) t.
Proof. induction t as [r|f IH] using task_induction; by constructor. Qed.

Lemma returning_mono {R} (P Q : R -> Prop) (t : task W R) :
  returning P t -> (forall r, P r -> Q r) -> returning Q t.
Proof. intros Ht HPQ. induction Ht; constructor; auto. Qed.

Lemma returning_until {R} (P : R -> Prop) instant waiting d (t : task W R) :
  returning P t -> returning (fun o => match o with Some r => P r | None => True end)
                     (until instant waiting d t).
Proof.
  intros Ht. induction Ht as [r Hr|f Ht IH]; simpl; [by constructor|].
  constructor. intros w. destruct (_ && _); [by constructor|].
  specialize (IH w). by destruct (f w).
Qed.

Lemma returning_timeout {R} (P : R -> Prop) instant waiting d (t : task W R) :
  returning P t -> returning (fun o => match o with Some r => P r | None => True end)
                     (timeout instant waiting d t).
Proof. intros Ht. constructor. intros w. by apply returning_until. Qed.

End steps.

(** ** Rely and guarantee *)

Section safe.
Context {W : Type} (G : W -> W -> Prop).

(** An assertion the other tasks cannot falsify. *)
Definition stable (P : W -> Prop) : Prop := forall w w', G w w' -> P w -> P w'.

(** [N w] is what holds after the step from [w]. *)
Inductive safe {R} (Q : R -> W -> Prop) : (W -> Prop) -> task W R -> Prop :=
  | safe_done (P : W -> Prop) r : (forall w, P w -> Q r w) -> safe Q P (Done r)
  | safe_await (P : W -> Prop) f (N : W -> W -> Prop) :
      (forall w, P w -> G w (f w).1 /\ stable (N w) /\ N w (f w).1) ->
      (forall w, P w -> safe Q (N w) (f w).2) ->
      safe Q P (Await f).

Lemma safe_pre {R} (Q : R -> W -> Prop) (P P' : W -> Prop) t :
  safe Q P t -> (forall w, P' w -> P w) -> safe Q P' t.
Proof.
  intros Ht HP. destruct Ht as [P r Hr|P f N Hf Ht].
  - constructor. auto.
  - econstructor; [intros w Hw; by apply Hf, HP|]. auto.
Qed.

Lemma safe_post {R} (Q Q' : R -> W -> Prop) (P : W -> Prop) t :
  safe Q P t -> (forall r w, Q r w -> Q' r w) -> safe Q' P t.
Proof.
  intros Ht HQ. induction Ht as [P r Hr|P f N Hf Ht IH].
  - constructor. auto.
  - econstructor; [exact Hf|]. auto.
Qed.

Lemma safe_bind {R R'} (Q : R -> W -> Prop) (Q' : R' -> W -> Prop) (P : W -> Prop) k t :
  safe Q P t -> (forall r, safe Q' (Q r) (k r)) -> safe Q' P (task_bind k t).
Proof.
  intros Ht Hk. induction Ht as [P r Hr|P f N Hf Ht IH]; simpl.
  - eapply safe_pre; [apply Hk|done].
  - apply (safe_await _ _ _ N); intros w Hw.
    + specialize (Hf w Hw). by destruct (f w).
    + specialize (IH w Hw). by destruct (f w).
Qed.

Lemma safe_mbind {E A B} (Q : result E A -> W -> Prop) (Q' : result E B -> W -> Prop)
    (P : W -> Prop) (k : A -> process W E B) (t : process W E A) :
  safe Q P t -> (forall a, safe Q' (Q (Ok a)) (k a)) ->
  (forall e w, Q (Err e) w -> Q' (Err e) w) -> safe Q' P (t ≫= k).
Proof.
  intros Ht Hk He. eapply safe_bind; [exact Ht|]. intros [a|e]; [apply Hk|].
  constructor. apply He.
Qed.

(** A stable assertion is kept by a task that does not mention it. *)
Lemma safe_frame {R} (Q : R -> W -> Prop) (P A : W -> Prop) t :
  stable A -> safe Q P t -> safe (fun r w => Q r w /\ A w) (fun w => P w /\ A w) t.
Proof.
  intros HA Ht. induction Ht as [P r Hr|P f N Hf Ht IH].
  - constructor. intros w [Hw Hw']. auto.
  - apply (safe_await _ _ _ (fun w w' => N w w' /\ A w')).
    + intros w [Hw Hw']. destruct (Hf w Hw) as (HG & HN & HNw). split_and!; [done| |done|].
      * intros w1 w2 H12 [H1 H1']. split; [by eapply HN|by eapply HA].
      * by eapply HA.
    + intros w [Hw _]. by apply IH.
Qed.

(** One step. *)
Lemma safe_atomically {E A} (Q : result E A -> W -> Prop) (P : W -> Prop) (m : method W E A) :
  (forall r, stable (Q r)) ->
  (forall w, P w -> let '(w', r) := m w in G w w' /\ Q r w') ->
  safe Q P (atomically m).
Proof.
  intros HQ Hm. apply (safe_await _ _ _ (fun w => Q (m w).2)); intros w Hw; specialize (Hm w Hw);
    destruct (m w) as [w' r]; simpl.
  - by destruct Hm.
  - by constructor.
Qed.

Lemma safe_until {R} (Q : R -> W -> Prop) (P : W -> Prop) instant waiting d t :
  (forall w, G w w) -> stable P -> safe Q P t ->
  safe (fun o w => match o with Some r => Q r w | None => True end) P (until instant waiting d t).
Proof.
  intros Hrefl HP Ht. revert HP. induction Ht as [P r Hr|P f N Hf Ht IH]; intros HP; simpl.
  { by constructor. }
  apply (safe_await _ _ _ (fun w => if (d <=? instant w) && waiting w then P else N w)); intros w Hw;
    destruct (_ && _).
  - done.
  - specialize (Hf w Hw). by destruct (f w).
  - by constructor.
  - destruct (Hf w Hw) as (_ & HN & _). specialize (IH w Hw HN). by destruct (f w).
Qed.

Lemma safe_timeout {R} (Q : R -> W -> Prop) (P : W -> Prop) instant waiting d t :
  (forall w, G w w) -> stable P -> safe Q P t ->
  safe (fun o w => match o with Some r => Q r w | None => True end) P (timeout instant waiting d t).
Proof.
  intros Hrefl HP Ht. apply (safe_await _ _ _ (fun _ => P)); intros w Hw; simpl.
  - done.
  - by apply safe_until.
Qed.

(** A task that is safe from here, with other tasks running. *)
Definition ready {R} (w : W) (t : task W R) : Prop :=
  exists P, stable P /\ P w /\ safe (fun _ _ => True) P t.

Lemma ready_other {R} w w' (t : task W R) : G w w' -> ready w t -> ready w' t.
Proof. intros HG (P & HP & Hw & Ht). exists P. split_and!; [done|by eapply HP|done]. Qed.

End safe.

(** The part of a world a task works on. *)
Section zoom_properties.
Context {W V : Type} (get : V -> W) (put : W -> V -> V).

Lemma within_zoom {R} n (t : task W R) : within n t -> within n (zoom get put t).
Proof.
  intros Ht. induction Ht as [n r|n f Ht IH]; simpl; [constructor|].
  constructor. intros v. specialize (IH (get v)). by destruct (f (get v)).
Qed.

Lemma returning_zoom {R} (P : R -> Prop) (t : task W R) :
  returning P t -> returning P (zoom get put t).
Proof.
  intros Ht. induction Ht as [r Hr|f Ht IH]; simpl; [by constructor|].
  constructor. intros v. specialize (IH (get v)). by destruct (f (get v)).
Qed.

Lemma safe_zoom {R} (GW : W -> W -> Prop) (GV : V -> V -> Prop) (Q : R -> W -> Prop) P t :
  (forall v w, get (put w v) = w) ->
  (forall v w, GW (get v) w -> GV v (put w v)) ->
  (forall v v', GV v v' -> GW (get v) (get v')) ->
  safe GW Q P t -> safe GV (fun r v => Q r (get v)) (fun v => P (get v)) (zoom get put t).
Proof.
  intros Hgp Hput Hget Ht. induction Ht as [P r Hr|P f N Hf Ht IH]; simpl.
  - constructor. intros v. apply Hr.
  - apply (safe_await _ _ _ _ (fun v v' => N (get v) (get v'))); intros v Hv.
    + specialize (Hf (get v) Hv). destruct (f (get v)) as [w' t']. simpl in *.
      destruct Hf as (HG & HN & HNw). rewrite Hgp. split_and!; [by apply Hput| |done].
      intros v1 v2 Hv12. apply HN. by apply Hget.
    + specialize (IH (get v) Hv). by destruct (f (get v)).
Qed.

End zoom_properties.

(** ** Pools *)

Section pool.
Context {W R : Type} (collect : R -> W -> W) (crashes : R -> bool).

(** The step of a task was a panic. *)
Definition crashed (t : task W R) : bool := match t with Done r => crashes r | Await _ => false end.

(** A task of the pool makes a step, or a finished one is collected. *)
Inductive pool_step : list (task W R) * W -> list (task W R) * W -> Prop :=
  | pool_run ts w i f w' t' :
      ts !! i = Some (Await f) -> f w = (w', t') -> crashed t' = false ->
      pool_step (ts, w) (<[i := t']> ts, w')
  | pool_collect ts w i r :
      ts !! i = Some (Done r) -> crashes r = false -> pool_step (ts, w) (delete i ts, collect r w).

(** A task of the pool panics, which is the end of all of them. *)
Inductive pool_unwinds : list (task W R) * W -> W -> Prop :=
  | pool_panic ts w i f w' t' :
      ts !! i = Some (Await f) -> f w = (w', t') -> crashed t' = true -> pool_unwinds (ts, w) w'
  | pool_crashed ts w i r :
      ts !! i = Some (Done r) -> crashes r = true -> pool_unwinds (ts, w) w.

(** One scheduler: at every turn the task at the given position, counted around
    the pool, takes its turn; it stops before a panic. *)
Definition turn (k : nat) (p : list (task W R) * W) : list (task W R) * W :=
  let '(ts, w) := p in
  let i := (k mod length ts)%nat in
  match ts !! i with
  | Some (Done r) => if crashes r then p else (delete i ts, collect r w)
  | Some (Await f) => let (w', t') := f w in if crashed t' then p else (<[i := t']> ts, w')
  | None => p
  end.

Definition drive (schedule : list nat) (p : list (task W R) * W) : list (task W R) * W :=
  fold_left (fun p k => turn k p) schedule p.

Lemma turn_sound k p : rtc pool_step p (turn k p).
Proof.
  destruct p as [ts w]. unfold turn. destruct (ts !! _) as [[r|f]|] eqn:Hi; [| |done].
  - destruct (crashes r) eqn:Hr; [done|]. apply rtc_once. by constructor.
  - destruct (f w) as [w' t'] eqn:Hf. destruct (crashed t') eqn:Ht; [done|].
    apply rtc_once. by econstructor.
Qed.

Lemma drive_sound schedule p : rtc pool_step p (drive schedule p).
Proof.
  revert p. induction schedule as [|k schedule IH]; intros p; simpl; [done|].
  etrans; [apply turn_sound|apply IH].
Qed.

(** *** What a pool leaves *)

Lemma pool_step_safe (G : W -> W -> Prop) p q :
  (forall r w, G w (collect r w)) -> pool_step p q ->
  Forall (ready G p.2) p.1 -> Forall (ready G q.2) q.1 /\ G p.2 q.2.
Proof.
  intros Hc Hstep Hp. destruct Hstep as [ts w i f w' t' Hi Hf _|ts w i r Hi _]; simpl in *.
  - destruct (Forall_lookup_1 _ _ _ _ Hp Hi) as (P & HP & Hw & Ht).
    inversion Ht as [|? ? N HN Ht']; subst. specialize (HN w Hw). specialize (Ht' w Hw).
    rewrite Hf in HN, Ht'. destruct HN as (HG & HNs & HNw). split; [|done].
    apply Forall_insert.
    + eapply Forall_impl; [exact Hp|]. intros t. by apply ready_other.
    + by exists (N w).
  - split; [|done]. apply Forall_delete. eapply Forall_impl; [exact Hp|].
    intros t. apply ready_other, Hc.
Qed.

(** However the pool is scheduled, the world moves within the guarantee. *)
Lemma pool_safe (G : W -> W -> Prop) `{!PreOrder G} p q :
  (forall r w, G w (collect r w)) -> rtc pool_step p q ->
  Forall (ready G p.2) p.1 -> Forall (ready G q.2) q.1 /\ G p.2 q.2.
Proof.
  intros Hc Hsteps. induction Hsteps as [p|p q s Hstep _ IH]; intros Hp; [by split|].
  destruct (pool_step_safe G p q Hc Hstep Hp) as [Hq Hpq].
  destruct (IH Hq) as [Hs Hqs]. split; [done|]. by etrans.
Qed.

Lemma pool_unwinds_safe (G : W -> W -> Prop) `{!PreOrder G} p w' :
  pool_unwinds p w' -> Forall (ready G p.2) p.1 -> G p.2 w'.
Proof.
  intros Hp Hall. destruct Hp as [ts w i f w' t' Hi Hf _|ts w i r Hi _]; simpl in *; [|done].
  destruct (Forall_lookup_1 _ _ _ _ Hall Hi) as (P & HP & Hw & Ht).
  inversion Ht as [|? ? N HN Ht']; subst. destruct (HN w Hw) as [HG _]. by rewrite Hf in HG.
Qed.

(** *** A pool ends *)

(** The tasks, with bounds on their steps; collecting one is a step too. *)
Definition bounded (n : nat) (ts : list (task W R)) : Prop :=
  exists ns, Forall2 within ns ts /\ sum_list (S <$> ns) = n.

Lemma pool_step_bounded n p q :
  pool_step p q -> bounded n p.1 -> exists m, (m < n)%nat /\ bounded m q.1.
Proof.
  intros Hstep (ns & Hns & <-). destruct Hstep as [ts w i f w' t' Hi Hf _|ts w i r Hi _]; simpl in *.
  - destruct (Forall2_lookup_r _ _ _ _ _ Hns Hi) as (n & Hn & Ht). inversion Ht as [|n' ? Ht']; subst.
    specialize (Ht' w). rewrite Hf in Ht'. simpl in Ht'.
    exists (sum_list (S <$> <[i := n']> ns)). split.
    + clear -Hn. revert i Hn. induction ns as [|m ns IH]; intros [|i] Hn; simplify_eq/=; [lia|].
      specialize (IH i Hn). unfold fmap in *. lia.
    + exists (<[i := n']> ns). split; [by apply Forall2_insert|done].
  - destruct (Forall2_lookup_r _ _ _ _ _ Hns Hi) as (n & Hn & _).
    exists (sum_list (S <$> delete i ns)). split.
    + clear -Hn. revert i Hn. induction ns as [|m ns IH]; intros [|i] Hn; simplify_eq/=; [lia|].
      specialize (IH i Hn). unfold fmap in *. lia.
    + exists (delete i ns). split; [by apply Forall2_delete|done].
Qed.

(** No schedule takes more steps than the tasks have left. *)
Lemma pool_ends n k p q :
  bounded n p.1 -> nsteps pool_step k p q -> exists m, (m + k <= n)%nat /\ bounded m q.1.
Proof.
  intros Hb Hk. revert n Hb. induction Hk as [p|k p q s Hstep _ IH]; intros n Hb.
  { exists n. split; [lia|done]. }
  destruct (pool_step_bounded n p q Hstep Hb) as (m & Hm & Hb').
  destruct (IH m Hb') as (m' & Hm' & Hb''). exists m'. split; [lia|done].
Qed.

(** A pool that is not empty goes on, or unwinds. *)
Lemma pool_progress p : p.1 = [] \/ (exists q, pool_step p q) \/ exists w', pool_unwinds p w'.
Proof.
  destruct p as [[|[r|f] ts] w]; [by left|right..].
  - destruct (crashes r) eqn:Hr; [right|left]; eexists.
    + by apply (pool_crashed (Done r :: ts) w 0 r).
    + by apply (pool_collect (Done r :: ts) w 0 r).
  - destruct (f w) as [w' t'] eqn:Hf. destruct (crashed t') eqn:Ht; [right|left]; eexists.
    + by eapply (pool_panic (Await f :: ts) w 0 f w' t').
    + by eapply (pool_run (Await f :: ts) w 0 f w' t').
Qed.

(** Every pool can be run to its end: all are collected, or one panics. *)
Lemma pool_completes n p : bounded n p.1 ->
  exists q, rtc pool_step p q /\ (q.1 = [] \/ exists w', pool_unwinds q w').
Proof.
  revert p. induction (lt_wf n) as [n _ IH]. intros p Hb.
  destruct (pool_progress p) as [Hp|[[q Hq]|Hp]]; [by exists p; split; [|left]| |by exists p; split; [|right]].
  destruct (pool_step_bounded n p q Hq Hb) as (m & Hm & Hb').
  destruct (IH m Hm q Hb') as (q' & Hq' & Hend). exists q'. split; [by eapply rtc_l|done].
Qed.

(** *** Collected results *)

(** [n] results were collected from a pool that had [n] tasks more. *)
Lemma pool_step_length p q :
  pool_step p q -> length q.1 = length p.1 \/ S (length q.1) = length p.1.
Proof.
  intros [ts w i f w' t' Hi Hf _|ts w i r Hi _]; simpl.
  - left. apply length_insert.
  - right. apply lookup_lt_Some in Hi. rewrite length_delete; [lia|]. by apply lookup_lt_is_Some.
Qed.

End pool.
