(* ===== verification/Nats.v ===== *)
(** * Topics, subjects and the NATS event bus
    ([crates/shared/src/event_topics.rs],
    [crates/server/infrastructure/src/messaging/nats.rs])

    The constants a consumer subscribes to, the subject an event is published
    on, and the bus over JetStream.  JetStream itself is the class [JetStream];
    its calls are steps of a task. *)

From S2P Require Import Prelude Effects Std Externs States Errors Job Events Orchestrator Steps Outbox Tasks.

Module event_topics.

(** src: crates/shared/src/event_topics.rs 19-19 EVENT_PREFIX *)
Definition EVENT_PREFIX : string := "hodei.events".

(** src: crates/shared/src/event_topics.rs 22-22 EVENTS_STREAM_NAME *)
Definition EVENTS_STREAM_NAME : string := "HODEI_EVENTS".

(** src: crates/shared/src/event_topics.rs 25-58 job_topics *)
Definition job_topics : list (string * string) := [
  ("CREATED", "hodei.events.jobs.jobcreated");
  ("QUEUED", "hodei.events.jobs.jobqueued");
  ("ASSIGNED", "hodei.events.jobs.jobassigned");
  ("ACCEPTED", "hodei.events.jobs.jobaccepted");
  ("STATUS_CHANGED", "hodei.events.jobs.jobstatuschanged");
  ("RUNNING", "hodei.events.jobs.jobrunning");
  ("COMPLETED", "hodei.events.jobs.jobcompleted");
  ("FAILED", "hodei.events.jobs.jobfailed");
  ("CANCELLED", "hodei.events.jobs.jobcancelled");
  ("RETRIED", "hodei.events.jobs.jobretried");
  ("DISPATCH_ACKNOWLEDGED", "hodei.events.jobs.jobdispatchacknowledged");
  ("DISPATCH_FAILED", "hodei.events.jobs.jobdispatchfailed");
  ("EXECUTION_ERROR", "hodei.events.jobs.jobexecutionerror");
  ("RUN_JOB_RECEIVED", "hodei.events.jobs.runjobreceived");
  ("ALL", "hodei.events.jobs.>")].

(** src: crates/shared/src/event_topics.rs 61-108 worker_topics *)
Definition worker_topics : list (string * string) := [
  ("REGISTERED", "hodei.events.workers.workerregistered");
  ("READY", "hodei.events.workers.workerready");
  ("READY_FOR_JOB", "hodei.events.workers.workerreadyforjob");
  ("STATUS_CHANGED", "hodei.events.workers.workerstatuschanged");
  ("TERMINATED", "hodei.events.workers.workerterminated");
  ("PROVISIONED", "hodei.events.workers.workerprovisioned");
  ("PROVISIONING_REQUESTED", "hodei.events.workers.workerprovisioningrequested");
  ("PROVISIONING_ERROR", "hodei.events.workers.workerprovisioningerror");
  ("DISCONNECTED", "hodei.events.workers.workerdisconnected");
  ("RECONNECTED", "hodei.events.workers.workerreconnected");
  ("HEARTBEAT", "hodei.events.workers.workerheartbeat");
  ("HEARTBEAT_MISSED", "hodei.events.workers.workerheartbeatmissed");
  ("SELF_TERMINATED", "hodei.events.workers.workerselfterminated");
  ("RECOVERY_FAILED", "hodei.events.workers.workerrecoveryfailed");
  ("EPHEMERAL_CREATED", "hodei.events.workers.workerephemeralcreated");
  ("EPHEMERAL_READY", "hodei.events.workers.workerephemeralready");
  ("EPHEMERAL_TERMINATING", "hodei.events.workers.workerephemeralterminating");
  ("EPHEMERAL_TERMINATED", "hodei.events.workers.workerephemeralterminated");
  ("EPHEMERAL_CLEANED_UP", "hodei.events.workers.workerephemeralcleanedup");
  ("EPHEMERAL_IDLE", "hodei.events.workers.workerephemeralidle");
  ("ORPHAN_DETECTED", "hodei.events.workers.orphanworkerdetected");
  ("ALL", "hodei.events.workers.>")].

(** src: crates/shared/src/event_topics.rs 111-130 provider_topics *)
Definition provider_topics : list (string * string) := [
  ("REGISTERED", "hodei.events.providers.providerregistered");
  ("UPDATED", "hodei.events.providers.providerupdated");
  ("HEALTH_CHANGED", "hodei.events.providers.providerhealthchanged");
  ("RECOVERED", "hodei.events.providers.providerrecovered");
  ("SELECTED", "hodei.events.providers.providerselected");
  ("EXECUTION_ERROR", "hodei.events.providers.providerexecutionerror");
  ("AUTO_SCALING_TRIGGERED", "hodei.events.providers.autoscalingtriggered");
  ("ALL", "hodei.events.providers.>")].

(** src: crates/shared/src/event_topics.rs 133-148 template_topics *)
Definition template_topics : list (string * string) := [
  ("CREATED", "hodei.events.templates.templatecreated");
  ("UPDATED", "hodei.events.templates.templateupdated");
  ("DISABLED", "hodei.events.templates.templatedisabled");
  ("RUN_CREATED", "hodei.events.templates.templateruncreated");
  ("EXECUTION_RECORDED", "hodei.events.templates.executionrecorded");
  ("ALL", "hodei.events.templates.>")].

(** src: crates/shared/src/event_topics.rs 151-166 scheduling_topics *)
Definition scheduling_topics : list (string * string) := [
  ("JOB_CREATED", "hodei.events.scheduling.scheduledjobcreated");
  ("JOB_TRIGGERED", "hodei.events.scheduling.scheduledjobtriggered");
  ("JOB_MISSED", "hodei.events.scheduling.scheduledjobmissed");
  ("JOB_ERROR", "hodei.events.scheduling.scheduledjoberror");
  ("DECISION_FAILED", "hodei.events.scheduling.schedulingdecisionfailed");
  ("ALL", "hodei.events.scheduling.>")].

(** src: crates/shared/src/event_topics.rs 169-180 system_topics *)
Definition system_topics : list (string * string) := [
  ("QUEUE_DEPTH_CHANGED", "hodei.events.queue.jobqueuedepthchanged");
  ("GC_COMPLETED", "hodei.events.gc.garbagecollectioncompleted");
  ("QUEUE_ALL", "hodei.events.queue.>");
  ("GC_ALL", "hodei.events.gc.>")].

(** src: crates/shared/src/event_topics.rs 183-183 ALL_EVENTS *)
Definition ALL_EVENTS : string := "hodei.events.>".

(** src: crates/shared/src/event_topics.rs 187-189 event_subject *)
Definition event_subject (entity action : string) : string :=
  EVENT_PREFIX +:+ "." +:+ entity +:+ "." +:+ action.

(** Every constant of the file that names one subject or pattern. *)
Definition topics : list string :=
  (job_topics ++ worker_topics ++ provider_topics ++ template_topics ++ scheduling_topics
   ++ system_topics).*2.

End event_topics.

Module NatsConfig.

(** src: crates/server/infrastructure/src/messaging/nats.rs 38-63 NatsConfig *)
Record t := mk {
  urls : list string;
  connection_timeout_secs : Z;
  request_timeout_secs : option Z;
  max_reconnects : option nat;
  domain : option string;
  credentials_file : option string;
  tls_enabled : bool;
  name : option string;
}.

(** [url] is the variable [HODEI_NATS_URL] of the environment. *)
(** src: crates/server/infrastructure/src/messaging/nats.rs 85-89 urls_from_env *)
Definition urls_from_env (url : option string) : list string :=
  match url with Some url => [url] | None => ["nats://localhost:4222"] end.

(** src: crates/server/infrastructure/src/messaging/nats.rs 91-93 default_connect_timeout *)
Definition default_connect_timeout : Z := 5.

(** src: crates/server/infrastructure/src/messaging/nats.rs 95-97 default_request_timeout *)
Definition default_request_timeout : option Z := Some 30.

(** src: crates/server/infrastructure/src/messaging/nats.rs 99-101 default_max_reconnects *)
Definition default_max_reconnects : option nat := Some 5%nat.

(** src: crates/server/infrastructure/src/messaging/nats.rs 65-78 impl Default for NatsConfig *)
Definition default (url : option string) : t :=
  mk (urls_from_env url) default_connect_timeout default_request_timeout default_max_reconnects
    None None false None.

(** src: crates/server/infrastructure/src/messaging/nats.rs 105-116 NatsConfig::for_local *)
Definition for_local (url : option string) : t :=
  mk (urls_from_env url) 5 (Some 30) (Some 5%nat) None None false (Some "hodei-server").

(** src: crates/server/infrastructure/src/messaging/nats.rs 119-124 NatsConfig::primary_url *)
Definition primary_url (c : t) : string := List.hd "nats://localhost:4222" (urls c).

End NatsConfig.

(** serde's text of an event and of an envelope. *)
Class EnvelopeFormat `{E : Externs} := {
  event_to_string : DomainEvent.t -> result string string;
  event_from_str : string -> result string DomainEvent.t;
}.

Module NatsMessageEnvelope.
Section envelope.
Context `{E : Externs} `{!EnvelopeFormat}.

(** src: crates/server/infrastructure/src/messaging/nats.rs 132-144 NatsMessageEnvelope *)
Record t := mk {
  payload : string;
  event_type : string;
  correlation_id : option string;
  created_at : DateTime;
}.

(** [None] is the panic of the [expect]. *)
(** src: crates/server/infrastructure/src/messaging/nats.rs 148-155 NatsMessageEnvelope::from_domain_event *)
Definition from_domain_event (e : DomainEvent.t) (now : DateTime) : option t :=
  match event_to_string e with
  | Ok text => Some (mk text (DomainEvent.event_type e) (DomainEvent.correlation_id e) now)
  | Err _ => None
  end.

(** src: crates/server/infrastructure/src/messaging/nats.rs 158-160 NatsMessageEnvelope::to_domain_event *)
Definition to_domain_event (m : t) : result string DomainEvent.t := event_from_str (payload m).

End envelope.
End NatsMessageEnvelope.

Module StreamInfo.

(** [handle] says whether the handle of the stream is there. *)
(** src: crates/server/infrastructure/src/messaging/nats.rs 201-205 StreamInfo *)
Record t := mk { name : string; subject : string; handle : bool }.

End StreamInfo.

Module StreamConfig.

(** What the source sets of the configuration of a stream; its enumerations are of
    the client of NATS. *)
(** src: crates/server/infrastructure/src/messaging/nats.rs 464-478 NatsEventBus::ensure_stream (StreamConfig) *)
Record t {Retention Storage Discard : Type} := mk {
  name : string;
  subjects : list string;
  retention : Retention;
  max_age : Duration;
  max_bytes : Z;
  max_messages : Z;
  storage : Storage;
  num_replicas : Z;
  discard : Discard;
}.
Arguments t : clear implicits.

End StreamConfig.

(** JetStream, with the error texts of its client, the cache of streams of the
    bus, the clock, and the bytes of an envelope.  A message that is sent has a
    number, by which its acknowledgement is awaited. *)
Class JetStream `{E : Externs} `{!EnvelopeFormat} (W : Type) := {
  js_get_stream : string -> method W string unit;
  RetentionPolicy : Type;
  StorageType : Type;
  DiscardPolicy : Type;
  Interest : RetentionPolicy;
  File : StorageType;
  Old : DiscardPolicy;
  js_create_stream : StreamConfig.t RetentionPolicy StorageType DiscardPolicy -> method W string unit;
  js_stream_info : string -> method W string string;
  js_get_consumer : string -> string -> method W string unit;
  js_create_consumer : string -> string -> string -> method W string unit;
  js_publish : string -> string -> method W string nat;
  js_ack : nat -> method W string unit;
  bus_streams : W -> list StreamInfo.t;
  set_bus_streams : list StreamInfo.t -> W -> W;
  bus_now : W -> DateTime;
  envelope_to_vec : NatsMessageEnvelope.t -> result string string;
  envelope_from_slice : string -> result string NatsMessageEnvelope.t;
}.

Module NatsEventBus.
Section bus.
Context `{E : Externs} `{!EnvelopeFormat} {W : Type} `{!JetStream W}.
Context (stream_prefix : string).

(** src: crates/server/infrastructure/src/messaging/nats.rs 330-394 NatsEventBus::event_to_subject (entity) *)
Definition entity (e : DomainEvent.t) : string :=
  match e with
  | DomainEvent.JobCreated event => "jobs"
  | DomainEvent.JobStatusChanged _ _ _ _ _ _ => "jobs"
  | DomainEvent.WorkerRegistered _ _ _ _ _ => "workers"
  | DomainEvent.WorkerStatusChanged _ _ _ _ _ _ => "workers"
  | DomainEvent.ProviderRegistered _ _ _ _ _ _ => "providers"
  | DomainEvent.ProviderUpdated _ _ _ _ _ => "providers"
  | DomainEvent.JobQueueDepthChanged _ _ _ _ _ => "queue"
  | DomainEvent.AutoScalingTriggered _ _ _ _ _ => "providers"
  | DomainEvent.JobCancelled _ _ _ _ _ => "jobs"
  | DomainEvent.WorkerTerminated _ _ _ _ _ _ => "workers"
  | DomainEvent.WorkerDisconnected _ _ _ _ _ => "workers"
  | DomainEvent.WorkerProvisioned _ _ _ _ _ _ => "workers"
  | DomainEvent.JobRetried _ _ _ _ _ _ => "jobs"
  | DomainEvent.JobAssigned _ _ _ _ _ => "jobs"
  | DomainEvent.JobAccepted _ _ _ _ _ => "jobs"
  | DomainEvent.JobDispatchAcknowledged _ _ _ _ _ => "jobs"
  | DomainEvent.RunJobReceived _ _ _ _ _ => "jobs"
  | DomainEvent.ProviderHealthChanged _ _ _ _ _ _ => "providers"
  | DomainEvent.WorkerReconnected _ _ _ _ _ => "workers"
  | DomainEvent.WorkerRecoveryFailed _ _ _ _ _ => "workers"
  | DomainEvent.ProviderRecovered _ _ _ _ _ => "providers"
  | DomainEvent.WorkerEphemeralCreated _ _ _ _ _ _ _ => "workers"
  | DomainEvent.WorkerEphemeralReady _ _ _ _ _ => "workers"
  | DomainEvent.WorkerReady _ _ _ _ _ => "workers"
  | DomainEvent.WorkerStateUpdated _ _ _ _ _ _ _ _ _ _ _ _ => "workers"
  | DomainEvent.WorkerEphemeralTerminating _ _ _ _ _ _ => "workers"
  | DomainEvent.WorkerEphemeralTerminated _ _ _ _ _ _ _ => "workers"
  | DomainEvent.WorkerEphemeralCleanedUp _ _ _ _ _ _ _ => "workers"
  | DomainEvent.OrphanWorkerDetected _ _ _ _ _ _ _ => "workers"
  | DomainEvent.GarbageCollectionCompleted _ _ _ _ _ _ _ _ => "gc"
  | DomainEvent.WorkerEphemeralIdle _ _ _ _ _ _ => "workers"
  | DomainEvent.JobExecutionError _ _ _ _ _ _ _ _ _ _ _ _ => "jobs"
  | DomainEvent.JobDispatchFailed _ _ _ _ _ _ _ => "jobs"
  | DomainEvent.WorkerProvisioningError _ _ _ _ _ _ => "workers"
  | DomainEvent.SchedulingDecisionFailed _ _ _ _ _ _ => "scheduling"
  | DomainEvent.ProviderExecutionError _ _ _ _ _ _ _ => "providers"
  | DomainEvent.JobQueued _ _ _ _ _ _ => "jobs"
  | DomainEvent.WorkerReadyForJob _ _ _ _ _ _ _ => "workers"
  | DomainEvent.WorkerProvisioningRequested _ _ _ _ _ _ => "workers"
  | DomainEvent.ProviderSelected _ _ _ _ _ _ _ _ _ _ => "providers"
  | DomainEvent.WorkerHeartbeat _ _ _ _ _ _ _ _ => "workers"
  | DomainEvent.WorkerSelfTerminated _ _ _ _ _ _ _ _ _ => "workers"
  | DomainEvent.TemplateCreated _ _ _ _ _ _ _ _ => "templates"
  | DomainEvent.TemplateUpdated _ _ _ _ _ _ _ _ => "templates"
  | DomainEvent.TemplateDisabled _ _ _ _ _ _ => "templates"
  | DomainEvent.TemplateRunCreated _ _ _ _ _ _ _ _ _ _ _ _ => "templates"
  | DomainEvent.ExecutionRecorded _ _ _ _ _ _ _ _ _ => "templates"
  | DomainEvent.ScheduledJobCreated _ _ _ _ _ _ _ _ _ => "scheduling"
  | DomainEvent.ScheduledJobTriggered _ _ _ _ _ _ _ _ _ _ _ => "scheduling"
  | DomainEvent.ScheduledJobMissed _ _ _ _ _ _ _ _ => "scheduling"
  | DomainEvent.ScheduledJobError _ _ _ _ _ _ _ => "scheduling"
  | DomainEvent.SagaCompleted _ _ _ _ _ _ => "sagas"
  | DomainEvent.SagaFailed _ _ _ _ _ _ _ => "sagas"
  | DomainEvent.SagaTimedOut _ _ _ _ _ _ _ => "sagas"
  end.

(** src: crates/server/infrastructure/src/messaging/nats.rs 329-399 NatsEventBus::event_to_subject *)
Definition event_to_subject (e : DomainEvent.t) : string :=
  "hodei.events." +:+ entity e +:+ "." +:+ to_lowercase (DomainEvent.event_type e).

(** src: crates/server/infrastructure/src/messaging/nats.rs 403-406 NatsEventBus::stream_name_for_subject *)
Definition stream_name_for_subject (_ : string) : string := stream_prefix +:+ "_EVENTS".

(** src: crates/server/infrastructure/src/messaging/nats.rs 409-412 NatsEventBus::get_stream_subjects *)
Definition get_stream_subjects : list string := ["hodei.events.>"].

Definition with_bus_error {A} (f : string -> EventBusError.t) (m : method W string A) :
    process W (exn EventBusError.t) A :=
  atomically (mapping_error m (fun e => Error (f e))).

(** The handle of the cached stream, if it is there. *)
Definition cached (stream : string) (l : list StreamInfo.t) : bool :=
  match list_find (fun i => StreamInfo.name i = stream) l with
  | Some (_, i) => StreamInfo.handle i
  | None => false
  end.

(** The found stream goes into the cache. *)
Fixpoint remember (stream subject : string) (l : list StreamInfo.t) : list StreamInfo.t :=
  match l with
  | [] => [StreamInfo.mk stream subject true]
  | i :: l =>
      if String.eqb (StreamInfo.name i) stream
      then StreamInfo.mk (StreamInfo.name i) (StreamInfo.subject i) true :: l
      else i :: remember stream subject l
  end.

Definition on_streams (f : list StreamInfo.t -> list StreamInfo.t) : process W (exn EventBusError.t) unit :=
  atomically (modify (fun w => set_bus_streams (f (bus_streams w)) w)).

(** src: crates/server/infrastructure/src/messaging/nats.rs 464-478 NatsEventBus::ensure_stream (configuration) *)
Definition stream_config (stream : string) : StreamConfig.t RetentionPolicy StorageType DiscardPolicy := {|
  StreamConfig.name := stream;
  StreamConfig.subjects := get_stream_subjects;
  StreamConfig.retention := Interest;
  StreamConfig.max_age := from_secs (24 * 60 * 60);
  StreamConfig.max_bytes := 1024 * 1024 * 1024;
  StreamConfig.max_messages := 1000000;
  StreamConfig.storage := File;
  StreamConfig.num_replicas := 1;
  StreamConfig.discard := Old;
|}.

(** A stream is its name, which is what its handle is used for. *)
(** src: crates/server/infrastructure/src/messaging/nats.rs 415-503 NatsEventBus::ensure_stream *)
Definition ensure_stream (subject : string) : process W (exn EventBusError.t) string :=
  let stream := stream_name_for_subject subject in
  known ← atomically (w ← self; mret (cached stream (bus_streams w)));
  if known : bool then mret stream
  else
    found ← atomically (fun w => let (w, r) := js_get_stream stream w in (w, Ok (is_ok r)));
    if found : bool then
      on_streams (remember stream subject);;
      mret stream
    else
      with_bus_error EventBusError.ConnectionError (js_create_stream (stream_config stream));;
      on_streams (fun l => l ++ [StreamInfo.mk stream subject true]);;
      mret stream.

(** [s.replace('.', "-")]. *)
Definition dashed (s : string) : string := str_replace "." "-" s.

Definition consumer_id (stream consumer_name : string) (filter_subject : option string) : string :=
  stream +:+ match filter_subject with Some f => "-" +:+ dashed f | None => "" end
  +:+ "-" +:+ consumer_name.

(** src: crates/server/infrastructure/src/messaging/nats.rs 507-564 NatsEventBus::get_consumer *)
Definition get_consumer (subject consumer_name : string) (filter_subject : option string) :
    process W (exn EventBusError.t) string :=
  stream ← ensure_stream subject;
  stream_name ← with_bus_error EventBusError.ConnectionError (js_stream_info stream);
  let id := consumer_id stream_name consumer_name filter_subject in
  stream ← ensure_stream subject;
  found ← atomically (fun w => let (w, r) := js_get_consumer stream id w in (w, Ok (is_ok r)));
  if found : bool then mret id
  else
    with_bus_error EventBusError.SubscribeError
      (js_create_consumer stream id (default "" filter_subject));;
    mret id.

(** src: crates/server/infrastructure/src/messaging/nats.rs 578-633 NatsEventBus::publish *)
Definition publish (e : DomainEvent.t) : process W (exn EventBusError.t) unit :=
  let subject := event_to_subject e in
  now ← atomically (w ← self; mret (bus_now w));
  match NatsMessageEnvelope.from_domain_event e now with
  | None => fails Panicked
  | Some envelope =>
      match envelope_to_vec envelope with
      | Err m => fails (Error (EventBusError.SerializationError m))
      | Ok payload =>
          with_error (fun e =>
              EventBusError.ConnectionError ("ensure_stream failed: " +:+ EventBusError.fmt e))
            (ensure_stream subject);;
          ack ← with_bus_error EventBusError.PublishError (js_publish subject payload);
          with_bus_error EventBusError.PublishError (js_ack ack)
      end
  end.

(** The consumer of a subscription; the stream of its messages is [on_message]. *)
(** src: crates/server/infrastructure/src/messaging/nats.rs 645-716 NatsEventBus::subscribe *)
Definition subscribe (topic : string) : process W (exn EventBusError.t) string :=
  get_consumer topic ("consumer-" +:+ dashed topic) (Some topic).

(** What a subscriber is handed for a message; it is acknowledged in every case,
    before the subscriber sees it. *)
(** src: crates/server/infrastructure/src/messaging/nats.rs 672-704 NatsEventBus::subscribe (a message) *)
Definition on_message (payload : string) : result EventBusError.t DomainEvent.t :=
  match envelope_from_slice payload with
  | Err m => Err (EventBusError.SerializationError m)
  | Ok envelope =>
      map_err EventBusError.SerializationError (NatsMessageEnvelope.to_domain_event envelope)
  end.

(** src: crates/server/infrastructure/src/messaging/nats.rs 726-732 NatsEventBus::subscribe_entity *)
Definition subscribe_entity (entity : string) : process W (exn EventBusError.t) string :=
  subscribe ("hodei.events." +:+ entity +:+ ".>").

(** src: crates/server/infrastructure/src/messaging/nats.rs 737-741 NatsEventBus::subscribe_all *)
Definition subscribe_all : process W (exn EventBusError.t) string :=
  subscribe event_topics.ALL_EVENTS.

End bus.
End NatsEventBus.

(** ** Properties *)

Section subjects.
Context `{EL : ExternsLaws}.
Import NatsEventBus.

(** The events that have no constant of their own. *)
Definition without_topic (e : DomainEvent.t) : bool :=
  match e with
  | DomainEvent.WorkerStateUpdated _ _ _ _ _ _ _ _ _ _ _ _ => true
  | DomainEvent.SagaCompleted _ _ _ _ _ _ => true
  | DomainEvent.SagaFailed _ _ _ _ _ _ _ => true
  | DomainEvent.SagaTimedOut _ _ _ _ _ _ _ => true
  | _ => false
  end.

(** The constants nothing is published on. *)
Definition dead_topics : list string := [
  "hodei.events.jobs.jobrunning"; "hodei.events.jobs.jobcompleted";
  "hodei.events.jobs.jobfailed"; "hodei.events.workers.workerheartbeatmissed"].

Lemma event_to_subject_ascii e :
  event_to_subject e =
    "hodei.events." +:+ entity e +:+ "." +:+ to_ascii_lowercase (DomainEvent.event_type e).
Proof. unfold event_to_subject. rewrite to_lowercase_ascii; [done|]. by destruct e. Qed.

(** The subjects events are published on and the constants consumers
    subscribe to agree, with two exceptions in each direction: an event of a
    saga and [WorkerStateUpdated] have no constant, and on the constants
    [job_topics::RUNNING], [COMPLETED] and [FAILED] and
    [worker_topics::HEARTBEAT_MISSED] nothing is ever published, although the
    consumers of the cleanup saga and of disconnections subscribe to three of
    them. *)
Theorem subjects_are_topics e :
  (without_topic e = false -> event_to_subject e ∈ event_topics.topics) /\
  (without_topic e = true -> event_to_subject e ∉ event_topics.topics) /\
  (event_to_subject e ∉ dead_topics) /\ dead_topics ⊆ event_topics.topics.
Proof.
  rewrite event_to_subject_ascii.
  assert (dead_topics ⊆ event_topics.topics) as Hdead
    by (apply (bool_decide_unpack _); vm_compute; exact I).
  split_and!; [..|done].
  - destruct e; simpl; intros [=]; apply (bool_decide_unpack _); vm_compute; exact I.
  - destruct e; simpl; intros [=]; apply (bool_decide_unpack _); vm_compute; exact I.
  - destruct e; apply (bool_decide_unpack _); vm_compute; exact I.
Qed.

End subjects.

(** *** Wildcards *)

(** The server's rule for the name of a durable consumer: a name with ['>'] is
    refused, when it is created and when it is looked up. *)
Class ConsumerNames `{E : Externs} `{!EnvelopeFormat} (W : Type) `{!JetStream W} : Prop := {
  create_needs_a_name : forall stream id filter w, contains_char ">" id = true ->
    is_err (js_create_consumer stream id filter w).2 = true;
  get_needs_a_name : forall stream id w, contains_char ">" id = true ->
    is_err (js_get_consumer stream id w).2 = true;
}.

Section wildcards.
Context `{E : Externs} `{!EnvelopeFormat} {W : Type} `{!JetStream W} `{!ConsumerNames W}.
Context (stream_prefix : string).
Import NatsEventBus.

Lemma contains_char_append c s t :
  contains_char c (s +:+ t) = contains_char c s || contains_char c t.
Proof.
  induction s as [|a s IH]; [done|]. rewrite append_cons. simpl. by rewrite IH, orb_assoc.
Qed.

(** A task that ends, whatever the world, without an [Ok]. *)
Definition never_ok {A} (t : process W (exn EventBusError.t) A) : Prop :=
  returning (fun r => is_ok r = false) t.

Lemma never_ok_bind {A B} (t : process W (exn EventBusError.t) A) (k : A -> process W _ B) :
  (forall a, never_ok (k a)) -> never_ok (x ← t; k x).
Proof.
  intros Hk. eapply returning_bind; [apply returning_any|].
  intros [a|e] _; [apply Hk|by constructor].
Qed.

(** A subscription to a pattern, such as [ALL_EVENTS] or all events of an
    entity, is always refused: the name of the durable consumer is made of the
    topic, and the wildcard in it is not allowed there. *)
Theorem wildcard_subscriptions_are_refused topic :
  contains_char ">" (dashed topic) = true -> never_ok (subscribe stream_prefix topic).
Proof.
  intros Hw. unfold subscribe, get_consumer.
  apply never_ok_bind. intros stream. apply never_ok_bind. intros name. apply never_ok_bind.
  intros stream'.
  assert (contains_char ">" (consumer_id name ("consumer-" +:+ dashed topic) (Some topic)) = true) as Hid
    by (unfold consumer_id; by rewrite !contains_char_append, Hw, !orb_true_r).
  constructor. intros w.
  pose proof (get_needs_a_name stream' _ w Hid) as Hget.
  destruct (js_get_consumer stream' _ w) as [w' [[]|m]]; [done|]. simpl.
  constructor. intros w2.
  pose proof (create_needs_a_name stream' _ (default "" (Some topic)) w2 Hid) as Hcreate. simpl in Hcreate.
  unfold mapping_error. destruct (js_create_consumer stream' _ _ w2) as [w3 [[]|m']]; [done|].
  simpl. by constructor.
Qed.

End wildcards.

(** ** What an acknowledged publication means *)

(** [accepted] are the messages the stream has ever stored, [requested] those that
    were sent, by number.  An acknowledgement confirms that the message was stored.
    It is a history: a message stays in [accepted] when the stream discards it, for
    its age, for the number or size of the messages, or since no consumer is
    interested in it. *)
Class JetStreamLaws `{E : Externs} `{!EnvelopeFormat} (W : Type) `{!JetStream W} := {
  accepted : W -> list (string * string);
  requested : W -> nat -> option (string * string);
  js_le (w w' : W) : Prop :=
    accepted w ⊆ accepted w' /\ (forall n m, requested w n = Some m -> requested w' n = Some m);
  js_le_get_stream : forall s w, js_le w (js_get_stream s w).1;
  js_le_create_stream : forall c w, js_le w (js_create_stream c w).1;
  js_le_publish : forall s p w, js_le w (js_publish s p w).1;
  js_le_ack : forall n w, js_le w (js_ack n w).1;
  js_le_streams : forall l w, js_le w (set_bus_streams l w);
  publish_requests : forall s p w w' n, js_publish s p w = (w', Ok n) -> requested w' n = Some (s, p);
  ack_confirms : forall n m w w', js_ack n w = (w', Ok tt) -> requested w n = Some m -> m ∈ accepted w';
}.

Section publication.
Context `{E : Externs} `{!EnvelopeFormat} {W : Type} `{!JetStream W} `{!JetStreamLaws W}.
Context (stream_prefix : string).
Import NatsEventBus.

#[global] Instance js_le_preorder : PreOrder js_le.
Proof.
  split.
  - intros w. by split.
  - intros w1 w2 w3 [Hs Hr] [Hs' Hr']. split; [by etrans|auto].
Qed.

(** The stream has accepted the event, in an envelope of some time. *)
Definition announced (e : DomainEvent.t) (w : W) : Prop :=
  exists now envelope payload,
    NatsMessageEnvelope.from_domain_event e now = Some envelope /\
    envelope_to_vec envelope = Ok payload /\ (event_to_subject e, payload) ∈ accepted w.

Lemma announced_stable e : stable js_le (announced e).
Proof.
  intros w w' [Hs _] (now & envelope & payload & H1 & H2 & H3).
  exists now, envelope, payload. auto.
Qed.

Lemma stable_const (G : W -> W -> Prop) (P : Prop) : stable G (fun _ => P).
Proof. by intros w w' _. Qed.

(** A call of JetStream of which only its effect on the stream matters. *)
Lemma safe_bus_call {A} (f : string -> EventBusError.t) (m : method W string A) :
  (forall w, js_le w (m w).1) ->
  safe js_le (fun _ _ => True) (fun _ => True) (with_bus_error f m).
Proof.
  intros Hm. apply safe_atomically; [intros r; apply stable_const|].
  intros w _. specialize (Hm w). unfold mapping_error. by destruct (m w) as [w' r].
Qed.

Lemma safe_ensure_stream subject :
  safe js_le (fun _ _ => True) (fun _ => True) (ensure_stream stream_prefix subject).
Proof.
  unfold ensure_stream.
  assert (forall f, safe js_le (fun _ _ => True) (fun _ => True) (on_streams f)) as Hon.
  { intros f. apply safe_atomically; [intros r; apply stable_const|].
    intros w _. split; [apply js_le_streams|done]. }
  eapply safe_bind; [apply (safe_atomically _ (fun _ _ => True)); [intros; apply stable_const|]|].
  { intros w _. by split. }
  intros [[]|e]; [by constructor| |by constructor].
  eapply safe_bind; [apply (safe_atomically _ (fun _ _ => True)); [intros; apply stable_const|]|].
  { intros w _. pose proof (js_le_get_stream (stream_name_for_subject stream_prefix subject) w) as Hle.
    by destruct (js_get_stream _ w). }
  intros [[]|e]; [| |by constructor].
  - eapply safe_bind; [apply Hon|]. intros [u|e]; by constructor.
  - eapply safe_bind; [apply safe_bus_call, js_le_create_stream|]. intros [u|e]; [|by constructor].
    eapply safe_bind; [apply Hon|]. intros [u'|e]; by constructor.
Qed.

Lemma safe_publish_on_bus e :
  safe js_le (fun r w => r = Ok tt -> announced e w) (fun _ => True) (publish stream_prefix e).
Proof.
  unfold publish.
  eapply safe_bind; [apply (safe_atomically _ (fun _ _ => True)); [intros; apply stable_const|]|].
  { intros w _. by split. }
  intros [now|err]; [|by constructor].
  destruct (NatsMessageEnvelope.from_domain_event e now) as [envelope|] eqn:Henv; [|by constructor].
  destruct (envelope_to_vec envelope) as [payload|m] eqn:Hvec; [|by constructor].
  eapply safe_bind.
  { eapply (safe_bind _ _ (fun _ _ => True)); [apply safe_ensure_stream|]. intros r. by constructor. }
  intros [stream|err]; [|by constructor].
  eapply safe_bind.
  { apply (safe_atomically _ (fun r w => forall n, r = Ok n ->
      requested w n = Some (event_to_subject e, payload))).
    - intros r w w' [_ Hr] Hw n Hn. auto.
    - intros w _. unfold mapping_error. pose proof (js_le_publish (event_to_subject e) payload w) as Hpub.
      pose proof (publish_requests (event_to_subject e) payload w) as Hreq.
      destruct (js_publish _ payload w) as [w' [n|m]]; simpl; (split; [done|]); intros n' [= <-]; auto. }
  intros [n|err]; [|by constructor].
  apply safe_atomically.
  - intros r w w' Hle Hw Hr. eapply announced_stable; eauto.
  - intros w Hw. specialize (Hw n eq_refl). unfold mapping_error.
    pose proof (js_le_ack n w) as Hle. pose proof (ack_confirms n (event_to_subject e, payload) w) as Hack.
    destruct (js_ack n w) as [w' [[]|m]]; simpl; (split; [done|]); intros Hok; [|done].
    exists now, envelope, payload. auto.
Qed.

(** C9: a publication that returns [Ok] was acknowledged: the stream has accepted the
    event as a message under the subject of the event, whatever other tasks do with
    the connection meanwhile. How long the stream keeps it is a matter of its
    retention. *)
Theorem published_events_are_stored e :
  safe js_le (fun r w => r = Ok tt -> announced e w) (fun _ => True) (publish stream_prefix e).
Proof. apply safe_publish_on_bus. Qed.

End publication.

(** *** A JetStream in memory *)

Module ExampleStream.

Record world := mk { streams : list StreamInfo.t; messages : list (string * string) }.

#[global] Instance format : EnvelopeFormat (E := concrete) :=
  @Build_EnvelopeFormat concrete (fun e => Ok (DomainEvent.event_type (E := concrete) e))
    (fun _ => Err "not parsed here").

Definition wildcard (id : string) : bool := contains_char ">" id.

#[global] Instance stream : JetStream (E := concrete) world := {|
  js_get_stream := fun _ w => (w, Err "stream not found");
  RetentionPolicy := unit;
  StorageType := unit;
  DiscardPolicy := unit;
  Interest := tt;
  File := tt;
  Old := tt;
  js_create_stream := fun _ w => (w, Ok tt);
  js_stream_info := fun s w => (w, Ok s);
  js_get_consumer := fun _ id w => (w, Err (if wildcard id then "invalid name" else "not found"));
  js_create_consumer := fun _ id _ w => (w, if wildcard id then Err "invalid name" else Ok tt);
  js_publish := fun subject payload w =>
    (mk (streams w) (messages w ++ [(subject, payload)]), Ok (length (messages w)));
  js_ack := fun _ w => (w, Ok tt);
  bus_streams := streams;
  set_bus_streams := fun l w => mk l (messages w);
  bus_now := fun _ => (0 : @DateTime concrete);
  envelope_to_vec := fun m => Ok (NatsMessageEnvelope.payload m);
  envelope_from_slice := fun _ => Err "not parsed here";
|}.

#[global] Instance names : ConsumerNames (E := concrete) world.
Proof.
  split.
  - intros s id f w H. simpl. unfold wildcard. by rewrite H.
  - intros s id w H. done.
Qed.

#[global] Instance laws : JetStreamLaws (E := concrete) world.
Proof.
  refine {| accepted := messages; requested := fun w n => messages w !! n |}; try (intros; by split).
  - intros s p w. simpl. split; [set_solver|]. intros n m. apply lookup_app_l_Some.
  - intros s p w w' n [= <- <-]. simpl. by rewrite lookup_app_r, Nat.sub_diag.
  - intros n m w w' [= <-]. apply list_elem_of_lookup_2.
Defined.

End ExampleStream.

Example wildcard_subscriptions_are_refused_witness :
  never_ok (NatsEventBus.subscribe_all (E := concrete) (W := ExampleStream.world) "HODEI").
Proof.
  exact (wildcard_subscriptions_are_refused (E := concrete) (W := ExampleStream.world) "HODEI"
    event_topics.ALL_EVENTS eq_refl).
Defined.
