(* ===== verification/NatsRelay.v ===== *)
(** * The relay that publishes the outbox
    ([crates/server/infrastructure/src/messaging/nats_outbox_relay.rs])

    The relay fetches the pending events, publishes each of them to NATS in a
    task of its own, behind a circuit breaker and with retries, and marks it as
    published.  Its world is the database with the outbox, the connection to
    NATS, the breaker, the metrics and the process's clock and random numbers;
    every operation on one of them is a step, and the tasks of a batch
    interleave between steps.  [powf] is the platform's power function. *)

From S2P Require Import Prelude Effects Std Externs States Errors Job Events CircuitBreaker Orchestrator Steps CommandOutbox Sql Outbox OutboxTable Tasks Nats.

Module NatsOutboxRelayConfig.

(** src: crates/server/infrastructure/src/messaging/nats_outbox_relay.rs 32-53 NatsOutboxRelayConfig *)
Record t := mk {
  batch_size : nat;
  poll_interval : Duration;
  max_retries : Z;
  retry_delay : Duration;
  max_retry_delay : Duration;
  enable_dlq : bool;
  dlq_stream_name : string;
  circuit_breaker_failure_threshold : Z;
  circuit_breaker_open_duration : Duration;
  circuit_breaker_success_threshold : Z;
  circuit_breaker_call_timeout : Duration;
}.

#[global] Instance t_rebuild : Rebuild t := fun c =>
  mk (batch_size c) (poll_interval c) (max_retries c) (retry_delay c) (max_retry_delay c)
    (enable_dlq c) (dlq_stream_name c) (circuit_breaker_failure_threshold c)
    (circuit_breaker_open_duration c) (circuit_breaker_success_threshold c)
    (circuit_breaker_call_timeout c).

(** src: crates/server/infrastructure/src/messaging/nats_outbox_relay.rs 55-72 impl Default for NatsOutboxRelayConfig *)
Definition default : t := {|
  batch_size := 50;
  poll_interval := from_millis 500;
  max_retries := 5;
  retry_delay := from_millis 1000;
  max_retry_delay := from_secs 60;
  enable_dlq := true;
  dlq_stream_name := "HODEI_DLQ";
  circuit_breaker_failure_threshold := 5;
  circuit_breaker_open_duration := from_secs 30;
  circuit_breaker_success_threshold := 2;
  circuit_breaker_call_timeout := from_secs 10;
|}.

End NatsOutboxRelayConfig.

Module NatsOutboxRelayConfigBuilder.
Import NatsOutboxRelayConfig.

(** The builder wraps a configuration. *)
(** src: crates/server/infrastructure/src/messaging/nats_outbox_relay.rs 81-85 NatsOutboxRelayConfigBuilder::new *)
Definition new : NatsOutboxRelayConfig.t := default.

(** src: crates/server/infrastructure/src/messaging/nats_outbox_relay.rs 87-90 NatsOutboxRelayConfigBuilder::batch_size *)
Definition batch_size (n : nat) (c : NatsOutboxRelayConfig.t) := c <| batch_size := n |>.

(** src: crates/server/infrastructure/src/messaging/nats_outbox_relay.rs 92-95 NatsOutboxRelayConfigBuilder::poll_interval *)
Definition poll_interval (d : Duration) (c : NatsOutboxRelayConfig.t) := c <| poll_interval := d |>.

(** src: crates/server/infrastructure/src/messaging/nats_outbox_relay.rs 97-100 NatsOutboxRelayConfigBuilder::max_retries *)
Definition max_retries (n : Z) (c : NatsOutboxRelayConfig.t) := c <| max_retries := n |>.

(** src: crates/server/infrastructure/src/messaging/nats_outbox_relay.rs 102-105 NatsOutboxRelayConfigBuilder::retry_delay *)
Definition retry_delay (d : Duration) (c : NatsOutboxRelayConfig.t) := c <| retry_delay := d |>.

(** src: crates/server/infrastructure/src/messaging/nats_outbox_relay.rs 107-110 NatsOutboxRelayConfigBuilder::max_retry_delay *)
Definition max_retry_delay (d : Duration) (c : NatsOutboxRelayConfig.t) :=
  c <| max_retry_delay := d |>.

(** src: crates/server/infrastructure/src/messaging/nats_outbox_relay.rs 112-115 NatsOutboxRelayConfigBuilder::enable_dlq *)
Definition enable_dlq (b : bool) (c : NatsOutboxRelayConfig.t) := c <| enable_dlq := b |>.

(** src: crates/server/infrastructure/src/messaging/nats_outbox_relay.rs 117-120 NatsOutboxRelayConfigBuilder::dlq_stream_name *)
Definition dlq_stream_name (n : string) (c : NatsOutboxRelayConfig.t) :=
  c <| dlq_stream_name := n |>.

(** src: crates/server/infrastructure/src/messaging/nats_outbox_relay.rs 123-135 NatsOutboxRelayConfigBuilder::circuit_breaker *)
Definition circuit_breaker (failures : Z) (open : Duration) (successes : Z) (call : Duration)
    (c : NatsOutboxRelayConfig.t) :=
  c <| circuit_breaker_failure_threshold := failures |>
    <| circuit_breaker_open_duration := open |>
    <| circuit_breaker_success_threshold := successes |>
    <| circuit_breaker_call_timeout := call |>.

End NatsOutboxRelayConfigBuilder.

Module NatsOutboxRelayMetricsSnapshot.

(** src: crates/server/infrastructure/src/messaging/nats_outbox_relay.rs 228-235 NatsOutboxRelayMetricsSnapshot *)
Record t := mk {
  total_published : Z;
  total_failed : Z;
  total_retried : Z;
  total_dlq : Z;
  total_batches : Z;
  success_rate_percent : f64;
}.

End NatsOutboxRelayMetricsSnapshot.

Module NatsOutboxRelayMetrics.

(** src: crates/server/infrastructure/src/messaging/nats_outbox_relay.rs 150-156 NatsOutboxRelayMetrics *)
Record t := mk {
  published_total : Z;
  failed_total : Z;
  retried_total : Z;
  dlq_total : Z;
  batch_count : Z;
}.

#[global] Instance t_rebuild : Rebuild t := fun m =>
  mk (published_total m) (failed_total m) (retried_total m) (dlq_total m) (batch_count m).

(** src: crates/server/infrastructure/src/messaging/nats_outbox_relay.rs 160-168 NatsOutboxRelayMetrics::new *)
Definition new : t := mk 0 0 0 0 0.

(** src: crates/server/infrastructure/src/messaging/nats_outbox_relay.rs 171-174 NatsOutboxRelayMetrics::inc_published *)
Definition inc_published (m : t) : t := m <| published_total := u64_add (published_total m) 1 |>.

(** src: crates/server/infrastructure/src/messaging/nats_outbox_relay.rs 177-180 NatsOutboxRelayMetrics::inc_failed *)
Definition inc_failed (m : t) : t := m <| failed_total := u64_add (failed_total m) 1 |>.

(** src: crates/server/infrastructure/src/messaging/nats_outbox_relay.rs 183-186 NatsOutboxRelayMetrics::inc_retried *)
Definition inc_retried (m : t) : t := m <| retried_total := u64_add (retried_total m) 1 |>.

(** src: crates/server/infrastructure/src/messaging/nats_outbox_relay.rs 189-192 NatsOutboxRelayMetrics::inc_dlq *)
Definition inc_dlq (m : t) : t := m <| dlq_total := u64_add (dlq_total m) 1 |>.

(** src: crates/server/infrastructure/src/messaging/nats_outbox_relay.rs 195-198 NatsOutboxRelayMetrics::inc_batch *)
Definition inc_batch (m : t) : t := m <| batch_count := u64_add (batch_count m) 1 |>.

(** The five locks are taken one after the other; the model reads at once. *)
(** src: crates/server/infrastructure/src/messaging/nats_outbox_relay.rs 201-223 NatsOutboxRelayMetrics::snapshot *)
Definition snapshot (m : t) : NatsOutboxRelayMetricsSnapshot.t :=
  let total := u64_add (published_total m) (failed_total m) in
  let success_rate :=
    if 0 <? total
    then F64.mul (F64.div (F64.of_Z (published_total m)) (F64.of_Z total)) (F64.of_Z 100)
    else F64.of_Z 100 in
  NatsOutboxRelayMetricsSnapshot.mk (published_total m) (failed_total m) (retried_total m)
    (dlq_total m) (batch_count m) success_rate.

End NatsOutboxRelayMetrics.

Module NatsOutboxRelayError.
Section error.
Context `{E : Externs}.

(** src: crates/server/infrastructure/src/messaging/nats_outbox_relay.rs 260-278 NatsOutboxRelayError *)
Inductive t :=
  | Database (message : string)
  | Outbox (e : OutboxError.t)
  | EventBus (e : EventBusError.t)
  | Serialization (message : string)
  | MaxRetries (event_id : Uuid)
  | InfrastructureError (message : string).

(** src: crates/server/infrastructure/src/messaging/nats_outbox_relay.rs 259-278 Display for NatsOutboxRelayError *)
Definition fmt (e : t) : string :=
  match e with
  | Database m => "Database error: " +:+ m
  | Outbox e => "Outbox error: " +:+ OutboxError.fmt e
  | EventBus e => "NATS event bus error: " +:+ EventBusError.fmt e
  | Serialization m => "Serialization error: " +:+ m
  | MaxRetries i => "Event exceeded max retries, sent to DLQ: " +:+ uuid_to_string i
  | InfrastructureError m => "Infrastructure error: " +:+ m
  end.

(** src: crates/server/infrastructure/src/messaging/nats_outbox_relay.rs 280-286 impl From<NatsOutboxRelayError> for DomainError *)
Definition to_domain_error (e : t) : DomainError.t := DomainError.InfrastructureError (fmt e).

(** src: crates/server/infrastructure/src/messaging/nats_outbox_relay.rs 288-301 impl From<PostgresOutboxRepositoryError> for NatsOutboxRelayError *)
Definition of_repository_error (e : PostgresOutboxRepositoryError.t) : t :=
  match e with
  | PostgresOutboxRepositoryError.Database m => Database m
  | PostgresOutboxRepositoryError.Outbox e => Outbox e
  | PostgresOutboxRepositoryError.Serialization m => Serialization m
  | PostgresOutboxRepositoryError.InfrastructureError m => InfrastructureError m
  end.

End error.
End NatsOutboxRelayError.

Module DeadLetterEntry.
Section entry.
Context `{E : Externs}.

(** src: crates/server/infrastructure/src/messaging/nats_outbox_relay.rs 305-313 DeadLetterEntry *)
Record t := mk {
  event_id : Uuid;
  aggregate_id : Uuid;
  event_type : string;
  payload : Json;
  failed_at : DateTime;
  failure_reason : string;
  retry_count : Z;
}.

(** src: crates/server/infrastructure/src/messaging/nats_outbox_relay.rs 316-330 DeadLetterEntry::from_outbox_event *)
Definition from_outbox_event (e : OutboxEventView.t) (reason : string) (count : Z)
    (now : DateTime) : t :=
  mk (OutboxEventView.id e) (OutboxEventView.aggregate_id e) (OutboxEventView.event_type e)
    (OutboxEventView.payload e) now reason count.

End entry.
End DeadLetterEntry.

(** The process the relay runs in: the wall clock, in nanoseconds since the
    epoch, and as a timestamp; the monotonic clock; random numbers in [0, 1);
    whether what a task awaits is still to come; and what passes while a task
    sleeps. *)
Class Process `{E : Externs} (P : Type) := {
  system_time : P -> Z;
  utc_now : P -> DateTime;
  instant : P -> Z;
  random : P -> P * f64;
  waiting : P -> bool;
  sleep : Duration -> P -> P;
}.

Module NatsOutboxRelay.
Section relay.
Context `{E : Externs} `{F : !EventFormat} `{!EnvelopeFormat}.
Context {D J P : Type} `{!OutboxRepository D} `{!JetStream J} `{!Process P}.
Context (powf : f64 -> f64 -> f64) (dead_letter_to_vec : DeadLetterEntry.t -> result string string).
Context (stream_prefix : string) (config : NatsOutboxRelayConfig.t).
Import NatsOutboxRelayConfig.

(** src: crates/server/infrastructure/src/messaging/nats_outbox_relay.rs 338-347 NatsOutboxRelay *)
Record world := mk_world {
  db : D;
  js : J;
  breaker : CircuitBreaker.state_t;
  metrics : NatsOutboxRelayMetrics.t;
  process_of : P;
}.

#[global] Instance world_rebuild : Rebuild world := fun w =>
  mk_world (db w) (js w) (breaker w) (metrics w) (process_of w).

(** src: crates/server/infrastructure/src/messaging/nats_outbox_relay.rs 351-382 NatsOutboxRelay::new *)
Definition breaker_config : CircuitBreakerConfig.t := {|
  CircuitBreakerConfig.failure_threshold := circuit_breaker_failure_threshold config;
  CircuitBreakerConfig.open_duration := circuit_breaker_open_duration config;
  CircuitBreakerConfig.success_threshold := circuit_breaker_success_threshold config;
  CircuitBreakerConfig.call_timeout := circuit_breaker_call_timeout config;
  CircuitBreakerConfig.failure_rate_threshold := 50;
  CircuitBreakerConfig.failure_rate_window := 100;
|}.

(** *** Operations on the parts of the world *)

Definition on_db {A} (m : method D OutboxError.t A) : process world (exn NatsOutboxRelayError.t) A :=
  atomically (zoomed db (fun d w => w <| db := d |>)
    (mapping_error m (fun e => Error (NatsOutboxRelayError.Outbox e)))).

Definition on_bus {A} (t : process J (exn EventBusError.t) A) :
    process world (exn EventBusError.t) A :=
  zoom js (fun j w => w <| js := j |>) t.

(** A panic of the breaker is a panic of the task. *)
Definition on_breaker {X A} (m : Z -> method CircuitBreaker.state_t CircuitBreaker.panic A) :
    process world (exn X) A :=
  atomically (fun w =>
    let (b, r) := m (system_time (process_of w)) (breaker w) in
    (w <| breaker := b |>, map_err (fun _ => Panicked) r)).

Definition count {X} (f : NatsOutboxRelayMetrics.t -> NatsOutboxRelayMetrics.t) :
    process world (exn X) unit :=
  atomically (modify (fun w => w <| metrics := f (metrics w) |>)).

Definition sleeping {X} (d : Duration) : process world (exn X) unit :=
  atomically (modify (fun w => w <| process_of := sleep d (process_of w) |>)).

Definition record_success {X} : process world (exn X) unit :=
  on_breaker (fun _ => CircuitBreaker.record_success breaker_config).

Definition record_failure {X} : process world (exn X) unit :=
  on_breaker (fun now => CircuitBreaker.record_failure breaker_config now now).

(** src: crates/server/infrastructure/src/messaging/nats_outbox_relay.rs 385-390 NatsOutboxRelay::circuit_breaker_state *)
Definition circuit_breaker_state : process world (exn NatsOutboxRelayError.t) CircuitState.t :=
  on_breaker (CircuitBreaker.get_state breaker_config).

(** src: crates/server/infrastructure/src/messaging/nats_outbox_relay.rs 393-398 NatsOutboxRelay::is_circuit_closed *)
Definition is_circuit_closed : process world (exn NatsOutboxRelayError.t) bool :=
  on_breaker (CircuitBreaker.allow_request breaker_config).

(** The breaker around an operation that other tasks interleave with. *)
(** src: crates/server/domain/src/saga/circuit_breaker.rs 365-391 CircuitBreaker::execute (interleaved) *)
Definition execute {A X} (operation : process world (exn X) A) :
    process world (exn (CircuitBreaker.error X)) A :=
  allowed ← on_breaker (CircuitBreaker.allow_request breaker_config);
  if negb allowed then fails (Error CircuitBreaker.ErrOpen)
  else
    task_bind (fun o =>
      match o with
      | Some (Ok value) => record_success;; mret value
      | Some (Err (Error e)) => record_failure;; fails (Error (CircuitBreaker.ErrFailed e))
      | Some (Err Panicked) => fails Panicked
      | Some (Err Blocked) => fails Blocked
      | Some (Err OutOfFuel) => fails OutOfFuel
      | None => record_failure;; fails (Error CircuitBreaker.ErrTimeout)
      end)
      (timeout (fun w => instant (process_of w)) (fun w => waiting (process_of w)) (circuit_breaker_call_timeout config) operation).

(** *** Publishing one event *)

(** [f64::max], of which a NaN operand loses. *)
Definition delay_secs (retry_count : Z) (r : f64) : f64 :=
  let base := F64.mul (as_secs_f64 (retry_delay config))
                (powf (F64.of_Z 2) (F64.of_Z retry_count)) in
  let jitter_range := F64.mul base (F64.lit 25 2) in
  let jitter := F64.mul (F64.sub (F64.mul r (F64.of_Z 2)) (F64.of_Z 1)) jitter_range in
  F64.max (F64.add base jitter) (F64.lit 1 1).

(** src: crates/server/infrastructure/src/messaging/nats_outbox_relay.rs 411-421 NatsOutboxRelay::calculate_backoff *)
Definition calculate_backoff {X} (retry_count : Z) : process world (exn X) Duration :=
  atomically (fun w =>
    let (p, r) := random (process_of w) in
    (w <| process_of := p |>,
     match from_secs_f64 (delay_secs retry_count r) with
     | Some delay => Ok (Z.min delay (max_retry_delay config))
     | None => Err Panicked
     end)).

(** src: crates/server/infrastructure/src/messaging/nats_outbox_relay.rs 424-430 NatsOutboxRelay::outbox_event_to_domain_event *)
Definition outbox_event_to_domain_event (v : OutboxEventView.t) :
    result NatsOutboxRelayError.t DomainEvent.t :=
  map_err NatsOutboxRelayError.Serialization (event_from_value (OutboxEventView.payload v)).

(** src: crates/server/infrastructure/src/messaging/nats_outbox_relay.rs 433-438 NatsOutboxRelay::fetch_pending_events *)
Definition fetch_pending_events : process world (exn NatsOutboxRelayError.t) (list OutboxEventView.t) :=
  on_db (get_pending_events (batch_size config) (as_i32 (max_retries config))).

(** src: crates/server/infrastructure/src/messaging/nats_outbox_relay.rs 441-446 NatsOutboxRelay::mark_published *)
Definition mark_published (ids : list Uuid) : process world (exn NatsOutboxRelayError.t) unit :=
  on_db (Outbox.mark_published ids).

Definition of_breaker_error (e : CircuitBreaker.error DomainError.t) : NatsOutboxRelayError.t :=
  match e with
  | CircuitBreaker.ErrOpen => NatsOutboxRelayError.InfrastructureError "Circuit breaker open"
  | CircuitBreaker.ErrTimeout => NatsOutboxRelayError.InfrastructureError "Circuit breaker timeout"
  | CircuitBreaker.ErrFailed e =>
      NatsOutboxRelayError.EventBus (EventBusError.PublishError (DomainError.fmt e))
  end.

(** The breaker has already recorded the outcome when it is recorded again. *)
(** src: crates/server/infrastructure/src/messaging/nats_outbox_relay.rs 497-534 NatsOutboxRelay::process_event (publish) *)
Definition publish_guarded (e : DomainEvent.t) : process world (exn NatsOutboxRelayError.t) unit :=
  publication_result ← attempt (with_error of_breaker_error
    (execute (with_error (fun err =>
        DomainError.InfrastructureError ("Event bus publish failed: " +:+ EventBusError.fmt err))
      (on_bus (NatsEventBus.publish stream_prefix e)))));
  match publication_result with
  | Ok _ => record_success
  | Err err => record_failure;; fails (Error err)
  end.

(** src: crates/server/infrastructure/src/messaging/nats_outbox_relay.rs 493-540 NatsOutboxRelay::process_event *)
Definition process_event (v : OutboxEventView.t) : process world (exn NatsOutboxRelayError.t) unit :=
  match outbox_event_to_domain_event v with
  | Err e => fails (Error e)
  | Ok e => publish_guarded e;; mark_published [OutboxEventView.id v]
  end.

Definition dlq_call {A} (m : method J string A) : process world (exn NatsOutboxRelayError.t) A :=
  with_error NatsOutboxRelayError.EventBus
    (on_bus (NatsEventBus.with_bus_error EventBusError.PublishError m)).

(** src: crates/server/infrastructure/src/messaging/nats_outbox_relay.rs 543-578 NatsOutboxRelay::send_to_dlq *)
Definition send_to_dlq (v : OutboxEventView.t) (reason : string) (retry_count : Z) :
    process world (exn NatsOutboxRelayError.t) unit :=
  now ← atomically (w ← self; mret (utc_now (process_of w)));
  let entry := DeadLetterEntry.from_outbox_event v reason retry_count now in
  let dlq_subject := dlq_stream_name config +:+ "." +:+ OutboxEventView.event_type v in
  match dead_letter_to_vec entry with
  | Err m => fails (Error (NatsOutboxRelayError.Serialization m))
  | Ok payload =>
      ack ← dlq_call (js_publish dlq_subject payload);
      dlq_call (js_ack ack);;
      count NatsOutboxRelayMetrics.inc_dlq
  end.

(** The loop ends at the last retry; [fuel] bounds its rounds. *)
(** src: crates/server/infrastructure/src/messaging/nats_outbox_relay.rs 449-490 NatsOutboxRelay::process_event_with_retry *)
Fixpoint retrying (fuel : nat) (retry_count : Z) (v : OutboxEventView.t) :
    process world (exn NatsOutboxRelayError.t) unit :=
  match fuel with
  | O => fails OutOfFuel
  | S fuel =>
      r ← attempt (process_event v);
      match r with
      | Ok _ => mret tt
      | Err e =>
          let retry_count := u32_add retry_count 1 in
          if max_retries config <=? retry_count then
            (if enable_dlq config
             then send_to_dlq v (NatsOutboxRelayError.fmt e) retry_count
             else mret tt);;
            fails (Error (NatsOutboxRelayError.MaxRetries (OutboxEventView.id v)))
          else
            backoff ← calculate_backoff retry_count;
            count NatsOutboxRelayMetrics.inc_retried;;
            sleeping backoff;;
            retrying fuel retry_count v
      end
  end.

(** The number of rounds the loop takes at most. *)
Definition rounds : nat := Z.to_nat (Z.max 1 (max_retries config)).

Definition process_event_with_retry (v : OutboxEventView.t) :
    process world (exn NatsOutboxRelayError.t) unit :=
  retrying rounds 0 v.

(** *** Batches and the loop *)

(** A result that comes out of the tasks. *)
Definition collect (r : result (exn NatsOutboxRelayError.t) unit) (w : world) : world :=
  match r with
  | Ok _ => w <| metrics := NatsOutboxRelayMetrics.inc_published (metrics w) |>
  | Err _ => w <| metrics := NatsOutboxRelayMetrics.inc_failed (metrics w) |>
  end.

(** The tasks of a batch are polled in the task of the relay. *)
Definition panicked (r : result (exn NatsOutboxRelayError.t) unit) : bool :=
  match r with Err Panicked => true | _ => false end.

(** A batch, from one world to another: its tasks run in any interleaving, until
    all are collected, or until one of them panics, and the batch with it. *)
(** src: crates/server/infrastructure/src/messaging/nats_outbox_relay.rs 581-614 NatsOutboxRelay::process_events_batch *)
Definition process_events_batch (events : list OutboxEventView.t) (w : world)
    (r : result (exn NatsOutboxRelayError.t) unit) (w' : world) : Prop :=
  let start := (process_event_with_retry <$> events,
    w <| metrics := NatsOutboxRelayMetrics.inc_batch (metrics w) |>) in
  match r with
  | Ok _ => rtc (pool_step collect panicked) start ([], w')
  | Err Panicked => exists p, rtc (pool_step collect panicked) start p /\ pool_unwinds panicked p w'
  | Err _ => False
  end.

(** One round of the loop, with its count of empty polls; it ends only with a
    panic.  The sleep between polls is a step of the world, in which other sessions
    may write. *)
(** src: crates/server/infrastructure/src/messaging/nats_outbox_relay.rs 620-662 NatsOutboxRelay::run *)
Inductive poll : Z * world -> result (exn NatsOutboxRelayError.t) Z * world -> Prop :=
  | poll_nothing n w d :
      get_pending_events (batch_size config) (as_i32 (max_retries config)) (db w) = (d, Ok []) ->
      poll (n, w)
        (Ok (let n := u32_add n 1 in if 10 <=? n then 0 else n),
         w <| db := d |> <| process_of := sleep (poll_interval config) (process_of w) |>)
  | poll_batch n w d events r w' :
      get_pending_events (batch_size config) (as_i32 (max_retries config)) (db w) = (d, Ok events) ->
      events <> [] ->
      process_events_batch events (w <| db := d |>) r w' ->
      poll (n, w) ((fun _ => 0) <$> r, w')
  | poll_failed n w d e :
      get_pending_events (batch_size config) (as_i32 (max_retries config)) (db w) = (d, Err e) ->
      poll (n, w)
        (Ok n, w <| db := d |> <| process_of := sleep (poll_interval config) (process_of w) |>).

End relay.
Arguments world D J P : clear implicits.
End NatsOutboxRelay.
