(* ===== verification/RelayProperties.v ===== *)
(** * What the relay does to the outbox

    The guarantee every task of the relay keeps whatever the others do, and what
    follows of a batch, of the loop and of the outbox. *)

From stdpp Require Import sorting.
From S2P Require Import Prelude Effects Std Externs States Errors Job Events CircuitBreaker Orchestrator Steps CommandOutbox Sql Outbox OutboxTable Tasks Nats NatsRelay.

(** ** What the relay guarantees *)

Lemma Forall2_compose {A} (P Q R : A -> A -> Prop) l1 l2 l3 :
  (forall x y z, P x y -> Q y z -> R x z) -> Forall2 P l1 l2 -> Forall2 Q l2 l3 -> Forall2 R l1 l3.
Proof.
  intros HR H12. revert l3. induction H12; intros l3; inversion 1; subst; constructor; eauto.
Qed.

Lemma Forall2_elem_r {A B} (P : A -> B -> Prop) l k y :
  Forall2 P l k -> y ∈ k -> exists x, x ∈ l /\ P x y.
Proof.
  intros Hlk. induction Hlk as [|x y' l k Hxy _ IH]; [by intros ?%elem_of_nil|].
  intros [->|Hy]%elem_of_cons; [exists x; split; [by left|done]|].
  destruct (IH Hy) as (x' & Hx' & Hp). exists x'. split; [by right|done].
Qed.

Lemma Forall2_elem_l {A B} (P : A -> B -> Prop) l k x :
  Forall2 P l k -> x ∈ l -> exists y, y ∈ k /\ P x y.
Proof. intros Hlk%Forall2_flip Hx. by eapply Forall2_elem_r in Hlk. Qed.

Section guarantee.
Context `{E : Externs} `{F : !EventFormat} `{!EnvelopeFormat}.
Context {D J P : Type} `{!OutboxDatabase D} `{!OutboxDatabaseLaws D} `{!JetStream J} `{!JetStreamLaws J}.
Context `{!Process P}.
Context (powf : f64 -> f64 -> f64) (dead_letter_to_vec : DeadLetterEntry.t -> result string string).
Context (stream_prefix : string) (config : NatsOutboxRelayConfig.t).
Import NatsOutboxRelay.
Implicit Type w : world D J P.

Definition table w : list OutboxEventRow.t := outbox_rows (db w).

(** A row is as it was, or it is one of [ids], its event is in the stream, and it
    is marked as published. *)
Definition settled_row (ids : list Uuid) (j : J) (r r' : OutboxEventRow.t) : Prop :=
  r' = r \/
  (OutboxEventRow.id r ∈ ids /\
   (exists now, r' = r <| OutboxEventRow.status := "PUBLISHED" |>
                       <| OutboxEventRow.published_at := Some now |>) /\
   exists e, event_from_value (OutboxEventRow.payload r) = Ok e /\ announced e j).

(** The guarantee of the tasks: the stream grows and the rows stay, one by one,
    or are settled. *)
Definition relayed (ids : list Uuid) w w' : Prop :=
  js_le (js w) (js w') /\ Forall2 (settled_row ids (js w')) (table w) (table w').

Lemma settled_row_ids ids j r r' : settled_row ids j r r' -> OutboxEventRow.id r' = OutboxEventRow.id r.
Proof. by intros [->|(_ & [now ->] & _)]. Qed.

Lemma settled_row_payload ids j r r' :
  settled_row ids j r r' -> OutboxEventRow.payload r' = OutboxEventRow.payload r.
Proof. by intros [->|(_ & [now ->] & _)]. Qed.

Lemma settled_row_later ids j j' r r' : js_le j j' -> settled_row ids j r r' -> settled_row ids j' r r'.
Proof.
  intros Hj [->|(Hi & Hst & e & He & Ha)]; [by left|]. right.
  split_and!; [done..|]. exists e. split; [done|]. by eapply announced_stable.
Qed.

Lemma settled_row_trans ids j r1 r2 r3 :
  settled_row ids j r1 r2 -> settled_row ids j r2 r3 -> settled_row ids j r1 r3.
Proof.
  intros [->|(Hi & [now ->] & He)] H23; [done|].
  destruct H23 as [->|(_ & [now' ->] & _)]; right; (split_and!; [done| |done]); by eexists.
Qed.

#[global] Instance relayed_preorder ids : PreOrder (relayed ids).
Proof.
  split.
  - intros w. split; [done|]. apply Forall_Forall2_diag, Forall_forall. intros r _. by left.
  - intros w1 w2 w3 [Hj12 H12] [Hj23 H23]. split; [by etrans|].
    eapply Forall2_compose; [|exact H12|exact H23]. intros r1 r2 r3 Hr12 Hr23.
    eapply settled_row_trans; [|done]. by eapply settled_row_later.
Qed.

Lemma relayed_ids ids w w' :
  relayed ids w w' -> OutboxEventRow.id <$> table w' = OutboxEventRow.id <$> table w.
Proof.
  intros [_ Hrows]. induction Hrows as [|r r' l l' Hr _ IH]; [done|]. csimpl.
  by rewrite (settled_row_ids _ _ _ _ Hr), IH.
Qed.

(** A step that leaves the table alone and only adds to the stream. *)
Lemma relayed_elsewhere ids w w' :
  js_le (js w) (js w') -> table w' = table w -> relayed ids w w'.
Proof.
  intros Hj Ht. split; [done|]. rewrite Ht. apply Forall_Forall2_diag, Forall_forall.
  intros r _. by left.
Qed.

(** *** The steps of a task *)

Definition harmless {R} (ids : list Uuid) (t : task (world D J P) R) : Prop :=
  safe (relayed ids) (fun _ _ => True) (fun _ => True) t.

Lemma harmless_atomically {X A} ids (m : method (world D J P) X A) :
  (forall w, js (m w).1 = js w /\ table (m w).1 = table w) -> harmless ids (atomically m).
Proof.
  intros Hm. apply safe_atomically; [intros r; apply stable_const|].
  intros w _. specialize (Hm w). destruct (m w) as [w' r]. simpl in Hm. destruct Hm as [Hj Ht].
  split; [|done]. apply relayed_elsewhere; [by rewrite Hj|done].
Qed.

Lemma harmless_bind {R R'} ids (k : R -> task (world D J P) R') t :
  harmless ids t -> (forall r, harmless ids (k r)) -> harmless ids (task_bind k t).
Proof. intros Ht Hk. by eapply (safe_bind _ _ _ _ _ _ Ht). Qed.

Lemma harmless_done {R} ids (r : R) : harmless ids (Done r).
Proof. by constructor. Qed.

Lemma harmless_on_breaker {X A} ids (m : Z -> method CircuitBreaker.state_t CircuitBreaker.panic A) :
  harmless ids (on_breaker m : process (world D J P) (exn X) A).
Proof.
  apply harmless_atomically. intros w. by destruct (m _ (breaker w)).
Qed.

Lemma harmless_count {X} ids f : harmless ids (count f : process (world D J P) (exn X) unit).
Proof. by apply harmless_atomically. Qed.

Lemma harmless_sleeping {X} ids d : harmless ids (sleeping d : process (world D J P) (exn X) unit).
Proof. by apply harmless_atomically. Qed.

Lemma harmless_backoff {X} ids n :
  harmless ids (calculate_backoff powf config n : process (world D J P) (exn X) Duration).
Proof. apply harmless_atomically. intros w. by destruct (random (process_of w)). Qed.

(** What is done on the bus. *)
Lemma relayed_bus {A} ids (Q : result (exn EventBusError.t) A -> J -> Prop) t :
  safe js_le Q (fun _ => True) t ->
  safe (relayed ids) (fun r w => Q r (js w)) (fun _ => True) (on_bus (D := D) (P := P) t).
Proof.
  intros Ht. eapply safe_pre; [|intros w _; exact I].
  eapply (safe_zoom js _ js_le (relayed ids) Q (fun _ => True)); [done| | |exact Ht].
  - intros w j Hj. by apply relayed_elsewhere.
  - by intros w w' [Hj _].
Qed.

(** *** Publishing an event *)

Definition in_stream (e : DomainEvent.t) w : Prop := announced e (js w).

Lemma in_stream_stable ids e : stable (relayed ids) (in_stream e).
Proof. intros w w' [Hj _]. by apply announced_stable. Qed.

(** The result is [Ok] only when the event is in the stream. *)
Definition ok_in_stream {X} (e : DomainEvent.t) (r : result X unit) w : Prop :=
  r = Ok tt -> in_stream e w.

(** A harmless task keeps what the others keep. *)
Lemma harmless_keeps {R} ids (A : _ -> Prop) (t : task (world D J P) R) :
  stable (relayed ids) A -> harmless ids t -> safe (relayed ids) (fun _ => A) A t.
Proof.
  intros HA Ht. apply (safe_frame _ _ _ A _ HA) in Ht.
  eapply safe_post; [eapply safe_pre; [exact Ht|]|].
  - by intros w Hw.
  - by intros r w [_ Hw].
Qed.

Lemma safe_error {X} {G : world D J P -> world D J P -> Prop} e (P0 : _ -> Prop) (x : X) :
  safe G (ok_in_stream e) P0 (Done (Err x)).
Proof. constructor. by intros w _. Qed.

(** A harmless step first. *)
Lemma safe_then {X A} ids e (P0 : _ -> Prop) (t : process (world D J P) X A) k :
  harmless ids t -> (forall a, safe (relayed ids) (ok_in_stream e) P0 (k a)) ->
  stable (relayed ids) P0 ->
  safe (relayed ids) (ok_in_stream e) P0 (t ≫= k).
Proof.
  intros Ht Hk HP. apply (safe_frame _ _ _ P0 _ HP) in Ht.
  eapply (safe_mbind _ (fun _ w => True /\ P0 w)); [eapply safe_pre; [exact Ht|by intros]| |].
  - intros a. eapply safe_pre; [apply Hk|]. by intros w [_ Hw].
  - by intros x w _.
Qed.

Lemma safe_with_error {X Y} ids e (f : X -> Y) P0 (t : process (world D J P) (exn X) unit) :
  safe (relayed ids) (ok_in_stream e) P0 t ->
  safe (relayed ids) (ok_in_stream e) P0 (with_error f t).
Proof.
  intros Ht. eapply safe_bind; [exact Ht|]. intros [[]|[]]; try apply safe_error.
  constructor. intros w Hw _. by apply Hw.
Qed.

Lemma safe_publish ids e :
  safe (relayed ids) (ok_in_stream e) (fun _ => True)
    (on_bus (D := D) (P := P) (NatsEventBus.publish stream_prefix e)).
Proof.
  apply (relayed_bus ids (fun r j => r = Ok tt -> announced e j)), safe_publish_on_bus.
Qed.

(** A harmless step, and an error. *)
Lemma safe_then_fails {X A} ids e (P0 : _ -> Prop) (t : process (world D J P) X A) x :
  harmless ids t ->
  safe (relayed ids) (ok_in_stream e) P0 (t ≫= fun _ => fails x : process (world D J P) X unit).
Proof.
  intros Ht. eapply safe_pre; [|by intros w _; exact I].
  apply safe_then; [done| |apply stable_const]. intros _. apply safe_error.
Qed.

Lemma safe_execute {X} ids e (t : process (world D J P) (exn X) unit) :
  safe (relayed ids) (ok_in_stream e) (fun _ => True) t ->
  safe (relayed ids) (ok_in_stream e) (fun _ => True) (execute config t).
Proof.
  intros Ht. unfold execute.
  apply safe_then; [apply harmless_on_breaker| |apply stable_const]. intros allowed.
  destruct allowed; cbn [negb]; [|apply safe_error].
  eapply safe_bind.
  { eapply safe_pre; [apply safe_timeout; [|apply stable_const|exact Ht]|done].
    intros w. reflexivity. }
  intros [[[]|[x| | |]]|]; try apply safe_error; try (apply safe_then_fails, harmless_on_breaker).
  eapply (safe_mbind _ (fun _ => in_stream e)).
  - eapply safe_pre; [apply harmless_keeps; [apply in_stream_stable|apply harmless_on_breaker]|].
    by intros w Hw; apply Hw.
  - intros []. apply safe_done. by intros w Hw _.
  - done.
Qed.

Lemma safe_publish_guarded ids e :
  safe (relayed ids) (ok_in_stream e) (fun _ => True)
    (publish_guarded (D := D) (P := P) stream_prefix config e).
Proof.
  unfold publish_guarded.
  eapply (safe_mbind _ (fun r w => match r with Ok (Ok _) => in_stream e w | _ => True end)).
  - eapply safe_bind; [apply safe_with_error, safe_execute, safe_with_error, safe_publish|].
    intros [[]|[x| | |]]; constructor; try done. by intros w Hw; apply Hw.
  - intros [[]|x]; [|apply safe_then_fails, harmless_on_breaker].
    eapply safe_post; [apply harmless_keeps; [apply in_stream_stable|apply harmless_on_breaker]|].
    by intros r w Hw _.
  - done.
Qed.

(** *** Processing an event *)

(** The row of the event, wherever it is, has the payload the task was given. *)
Definition same_payload (v : OutboxEventView.t) w : Prop :=
  forall r, r ∈ table w -> OutboxEventRow.id r = OutboxEventView.id v ->
    OutboxEventRow.payload r = OutboxEventView.payload v.

Lemma same_payload_stable ids v : stable (relayed ids) (same_payload v).
Proof.
  intros w w' [_ Hrows] Hw r' Hr' Hid.
  destruct (Forall2_elem_r _ _ _ _ Hrows Hr') as (r & Hr & Hset).
  rewrite (settled_row_payload _ _ _ _ Hset). apply Hw; [done|].
  by rewrite <- (settled_row_ids _ _ _ _ Hset).
Qed.

(** A task on [v] that knows the payload of its row, and keeps the guarantee. *)
Definition careful {R} (ids : list Uuid) (v : OutboxEventView.t) (t : task (world D J P) R) : Prop :=
  safe (relayed ids) (fun _ => same_payload v) (same_payload v) t.

Lemma harmless_careful {R} ids v (t : task (world D J P) R) : harmless ids t -> careful ids v t.
Proof. apply harmless_keeps, same_payload_stable. Qed.

Lemma careful_done {R} ids v (r : R) : careful ids v (Done r).
Proof. by constructor. Qed.

Lemma careful_mbind {X A B} ids v (k : A -> process (world D J P) X B) t :
  careful ids v t -> (forall a, careful ids v (k a)) -> careful ids v (t ≫= k).
Proof. intros Ht Hk. by eapply safe_mbind. Qed.

(** Marking the event as published, when it is in the stream. *)
Lemma safe_mark ids v e :
  event_from_value (OutboxEventView.payload v) = Ok e -> OutboxEventView.id v ∈ ids ->
  safe (relayed ids) (fun _ => same_payload v) (fun w => in_stream e w /\ same_payload v w)
    (mark_published (D := D) (J := J) (P := P) [OutboxEventView.id v]).
Proof.
  intros He Hid. apply safe_atomically; [intros r; apply same_payload_stable|].
  intros w [Hin Hsame]. unfold zoomed, mapping_error.
  pose proof (mark_published_rows [OutboxEventView.id v] (db w)) as Hrows.
  change (Outbox.mark_published [OutboxEventView.id v] (db w))
    with (PostgresOutboxRepository.mark_published [OutboxEventView.id v] (db w)).
  destruct (PostgresOutboxRepository.mark_published _ (db w)) as [d r]. simpl in Hrows.
  enough (relayed ids w (w <| db := d |>)) as Hrel
    by exact (conj Hrel (same_payload_stable _ _ _ _ Hrel Hsame)).
  split; [done|]. unfold table. simpl. destruct Hrows as [->|[now ->]].
  { apply Forall_Forall2_diag, Forall_forall. intros r' _. by left. }
  apply Forall2_fmap_r, Forall_Forall2_diag, Forall_forall. intros r' Hr'.
  unfold compose, PostgresOutboxRepository.publish_row. case_bool_decide as Hi; [|by left].
  apply list_elem_of_singleton in Hi. right. rewrite Hi. split_and!; [done|by eexists|].
  exists e. by rewrite (Hsame r' Hr' Hi).
Qed.

Section event.
Context (ids : list Uuid) (v : OutboxEventView.t).
Context (Hv : forall e, event_from_value (OutboxEventView.payload v) = Ok e ->
                OutboxEventView.id v ∈ ids).

Lemma careful_process_event :
  careful ids v (process_event (D := D) (P := P) stream_prefix config v).
Proof.
  unfold process_event, outbox_event_to_domain_event.
  destruct (event_from_value _) as [e|m] eqn:He; cbn [map_err]; [|apply careful_done].
  eapply (safe_mbind _ (fun r w => ok_in_stream e r w /\ same_payload v w)).
  - eapply safe_pre; [apply safe_frame; [apply same_payload_stable|apply safe_publish_guarded]|].
    by intros w Hw.
  - intros []. eapply safe_pre; [apply safe_mark; [exact He|by eapply Hv]|].
    intros w [Hok Hw]. by split; [apply Hok|].
  - by intros x w [_ Hw].
Qed.

Lemma careful_attempt {X Y A} (t : process (world D J P) (exn X) A) :
  careful ids v t -> careful (R := result (exn Y) _) ids v (attempt t).
Proof.
  intros Ht. eapply safe_bind; [exact Ht|]. intros [a|[x| | |]]; apply careful_done.
Qed.

Lemma harmless_dlq_call {A} (m : method J string A) :
  (forall j, js_le j (m j).1) -> harmless ids (dlq_call (D := D) (P := P) m).
Proof.
  intros Hm. eapply safe_bind.
  - apply (relayed_bus ids (fun _ _ => True)). by apply safe_bus_call.
  - intros [a|[x| | |]]; apply harmless_done.
Qed.

Lemma harmless_mbind {X A B} (k : A -> process (world D J P) X B) t :
  harmless ids t -> (forall a, harmless ids (k a)) -> harmless ids (t ≫= k).
Proof. intros Ht Hk. by eapply (safe_mbind _ (fun _ _ => True)). Qed.

Lemma harmless_send_to_dlq reason n :
  harmless ids (send_to_dlq (D := D) (P := P) dead_letter_to_vec config v reason n).
Proof.
  unfold send_to_dlq. apply harmless_mbind; [by apply harmless_atomically|]. intros now.
  destruct (dead_letter_to_vec _) as [payload|m]; [|apply harmless_done].
  apply harmless_mbind; [apply harmless_dlq_call; intros j; apply js_le_publish|]. intros ack.
  apply harmless_mbind; [apply harmless_dlq_call; intros j; apply js_le_ack|]. intros _.
  apply harmless_count.
Qed.

Lemma careful_retrying fuel n :
  careful ids v (retrying (D := D) (P := P) powf dead_letter_to_vec stream_prefix config fuel n v).
Proof.
  revert n. induction fuel as [|fuel IH]; intros n; [apply careful_done|]. cbn [retrying].
  apply careful_mbind; [apply careful_attempt, careful_process_event|].
  intros [[]|e]; [apply careful_done|].
  destruct (NatsOutboxRelayConfig.max_retries config <=? _).
  - apply careful_mbind; [|intros []; apply careful_done].
    destruct (NatsOutboxRelayConfig.enable_dlq config); [|apply careful_done].
    apply harmless_careful, harmless_send_to_dlq.
  - apply careful_mbind; [apply harmless_careful, harmless_backoff|]. intros d.
    apply careful_mbind; [apply harmless_careful, harmless_count|]. intros _.
    apply careful_mbind; [apply harmless_careful, harmless_sleeping|]. intros _. apply IH.
Qed.

End event.

(** ** Batches and the loop *)

Lemma relayed_batch ids events w r w' :
  Forall (fun v => same_payload v w /\ forall e,
    event_from_value (OutboxEventView.payload v) = Ok e -> OutboxEventView.id v ∈ ids) events ->
  process_events_batch powf dead_letter_to_vec stream_prefix config events w r w' ->
  relayed ids w w'.
Proof.
  intros Hev Hbatch.
  enough (exists p, rtc (pool_step collect panicked)
      (process_event_with_retry powf dead_letter_to_vec stream_prefix config <$> events,
       w <| metrics := NatsOutboxRelayMetrics.inc_batch (metrics w) |>) p /\
    (p.2 = w' \/ pool_unwinds panicked p w')) as (p & Hrun & Hend).
  2: { destruct r as [[]|[e| | |]]; [by exists ([], w'); split; [|left]|done| |done..].
       destruct Hbatch as (p & Hrun & Hp). exists p. split; [done|by right]. }
  apply (pool_safe collect panicked (relayed ids)) in Hrun as [Hready Hrel].
  - etrans; [|etrans; [exact Hrel|]]; [by apply relayed_elsewhere|].
    destruct Hend as [->|Hend]; [done|]. exact (pool_unwinds_safe panicked (relayed ids) p w' Hend Hready).
  - intros [[]|e] v; by apply relayed_elsewhere.
  - simpl. apply Forall_fmap. eapply Forall_impl; [exact Hev|]. intros v [Hsame Hids].
    exists (same_payload v). split_and!; [apply same_payload_stable|done|].
    eapply safe_post; [by apply careful_retrying|done].
Qed.

(** The decodable events of a batch. *)
Definition decodable (v : OutboxEventView.t) : bool := is_ok (event_from_value (OutboxEventView.payload v)).

Definition decodable_ids (events : list OutboxEventView.t) : list Uuid :=
  OutboxEventView.id <$> filter (fun v => decodable v = true) events.

Lemma same_payload_view r w :
  NoDup (OutboxEventRow.id <$> table w) -> r ∈ table w -> same_payload (view r) w.
Proof.
  intros Hnd Hr r' Hr' Hid. simpl in *.
  apply list_elem_of_lookup in Hr as [i Hi], Hr' as [j Hj].
  assert (i = j) as ->; [|by simplify_eq].
  eapply NoDup_lookup; [exact Hnd|by apply list_lookup_fmap_Some_2|].
  rewrite <- Hid. by apply list_lookup_fmap_Some_2.
Qed.

(** What a poll fetched from the table [rows]. *)
Definition fetched (rows : list OutboxEventRow.t) (events : list OutboxEventView.t) : Prop :=
  exists d, outbox_rows (S := D) d = rows /\
    returns (get_pending_events (NatsOutboxRelayConfig.batch_size config)
      (as_i32 (NatsOutboxRelayConfig.max_retries config))) d = Ok events.

(** A poll settles events it fetched, or leaves the table as it is. *)
Lemma relayed_poll n w r w' :
  NoDup (OutboxEventRow.id <$> table w) ->
  poll powf dead_letter_to_vec stream_prefix config (n, w) (r, w') ->
  exists events, (events = [] \/ fetched (table w) events) /\ relayed (decodable_ids events) w w'.
Proof.
  intros Hnd Hpoll.
  assert (outbox_rows (get_pending_events (NatsOutboxRelayConfig.batch_size config)
    (as_i32 (NatsOutboxRelayConfig.max_retries config)) (db w)).1 = table w) as Hd
    by apply get_pending_reads_table.
  inversion Hpoll as [? ? d Hget|? ? d events ? ? Hget Hne Hbatch|? ? d e Hget]; subst;
    rewrite Hget in Hd; simpl in Hd.
  - exists []. split; [by left|]. by apply relayed_elsewhere.
  - exists events. assert (fetched (table w) events) as Hf.
    { exists (db w). split; [done|]. unfold returns. by rewrite Hget. }
    split; [by right|].
    etrans; [|eapply relayed_batch; [|exact Hbatch]]; [by apply relayed_elsewhere|].
    destruct Hf as (d' & Hd' & (d1 & Hd1 & ->)%get_pending_shows). apply Forall_forall.
    intros v Hv. split.
    + apply list_elem_of_fmap in Hv as (r & -> & [Hr _]%elem_of_select_pending).
      assert (table (w <| db := d |>) = table w) as Ht by done.
      apply same_payload_view; rewrite Ht; [done|]. by rewrite <- Hd', <- Hd1.
    + intros e He. apply list_elem_of_fmap_2, list_elem_of_filter. unfold decodable. by rewrite He.
  - exists []. split; [by left|]. by apply relayed_elsewhere.
Qed.

(** ** The relay and the writers of the outbox

    Polls alternate with insertions of other sessions, whose transactions start
    at a time that is [late].  A poll that panics is the end of the relay, until it
    is started again. *)

Inductive lives (late : DateTime -> Prop) : Z * world D J P -> Z * world D J P -> Prop :=
  | lives_poll p n w :
      poll powf dead_letter_to_vec stream_prefix config p (Ok n, w) -> lives late p (n, w)
  | lives_restart p e w :
      poll powf dead_letter_to_vec stream_prefix config p (Err e, w) -> lives late p (0, w)
  | lives_insert n w events :
      late (transaction_time (next_outcome (db w)).1) ->
      lives late (n, w) (n, w <| db := after (PostgresOutboxRepository.insert_events events) (db w) |>).

Lemma insert_keeps_ids events (d : D) :
  NoDup (OutboxEventRow.id <$> outbox_rows d) ->
  NoDup (OutboxEventRow.id <$> outbox_rows (after (PostgresOutboxRepository.insert_events events) d)).
Proof.
  intros Hd. unfold after, PostgresOutboxRepository.insert_events. destruct events as [|e events]; [done|].
  destruct (execute_cases (PostgresOutboxRepository.insert_statement (e :: events)) d) as (d1 & Hd1 & Hd2).
  enough (NoDup (OutboxEventRow.id <$>
    outbox_rows (PostgresOutboxRepository.insert_statement (e :: events) d1).1)) as Hst.
  { destruct (PostgresOutboxRepository.execute _ d) as [d2 [a|x]]; simpl in *.
    - by rewrite Hd2 in Hst.
    - destruct Hd2 as [->| ->]; [by rewrite Hd1|done]. }
  rewrite <- Hd1 in Hd. clear Hd2. by apply insert_statement_ids.
Qed.

(** A step of the life of the outbox: the table keeps its order, its rows are
    settled or stay, and pending ones come after them. *)
Lemma lives_table late n w n' w' :
  NoDup (OutboxEventRow.id <$> table w) -> lives late (n, w) (n', w') ->
  NoDup (OutboxEventRow.id <$> table w') /\ js_le (js w) (js w') /\
  exists events old new, (events = [] \/ fetched (table w) events) /\ table w' = old ++ new /\
    Forall2 (settled_row (decodable_ids events) (js w')) (table w) old /\
    Forall (fun r => OutboxEventRow.status r = "PENDING" /\ late (OutboxEventRow.created_at r)) new.
Proof.
  intros Hnd Hstep.
  assert (forall r, poll powf dead_letter_to_vec stream_prefix config (n, w) (r, w') ->
    NoDup (OutboxEventRow.id <$> table w') /\ js_le (js w) (js w') /\
    exists events old new, (events = [] \/ fetched (table w) events) /\ table w' = old ++ new /\
      Forall2 (settled_row (decodable_ids events) (js w')) (table w) old /\
      Forall (fun r => OutboxEventRow.status r = "PENDING" /\ late (OutboxEventRow.created_at r)) new)
    as Hpolled.
  { intros r Hpoll. destruct (relayed_poll _ _ _ _ Hnd Hpoll) as (events & Hev & Hrel).
    split_and!; [by rewrite (relayed_ids _ _ _ Hrel)|apply Hrel|].
    exists events, (table w'), []. rewrite app_nil_r. split_and!; [done..|apply Hrel|done]. }
  inversion Hstep as [? ? ? Hpoll|? ? ? Hpoll|? ? events Hlate]; subst; [by eapply Hpolled..|].
  destruct (insert_events_grows events (db w)) as (new & Hrows & Hnew).
  split_and!; [by apply insert_keeps_ids|done|].
  exists [], (table w), new. split_and!; [by left|done| |].
  - apply Forall_Forall2_diag, Forall_forall. intros r _. by left.
  - eapply Forall_impl; [exact Hnew|]. intros r [Hst Hc]. by rewrite Hc.
Qed.

Lemma rtc_keeps {A} (R : A -> A -> Prop) (I : A -> Prop) x y :
  (forall x y, R x y -> I x -> I y) -> rtc R x y -> I x -> I y.
Proof. intros HR Hxy. induction Hxy; eauto. Qed.

(** An event that cannot be decoded is never settled: as long as the relay
    runs and others write, its row stays as it is, pending, with the same
    counter and without an error, so that it is fetched again and again. *)
Theorem undecodable_events_are_never_settled r n w n' w' :
  NoDup (OutboxEventRow.id <$> table w) -> r ∈ table w ->
  is_ok (event_from_value (OutboxEventRow.payload r)) = false ->
  rtc (lives (fun _ => True)) (n, w) (n', w') -> r ∈ table w'.
Proof.
  intros Hnd Hr Hdec Hlife.
  eapply (rtc_keeps _ (fun p => NoDup (OutboxEventRow.id <$> table p.2) /\ r ∈ table p.2)) in Hlife;
    [apply Hlife| |done].
  clear Hnd Hr. intros [n1 w1] [n2 w2] Hstep [Hnd Hr]. simpl in *.
  destruct (lives_table _ _ _ _ _ Hnd Hstep) as (Hnd' & _ & events & old & new & _ & Hw2 & Hold & _).
  split; [done|]. rewrite Hw2. apply elem_of_app. left.
  destruct (Forall2_elem_l _ _ _ _ Hold Hr) as (r' & Hr' & [->|(_ & _ & e & He & _)]); [done|].
  by rewrite He in Hdec.
Qed.

(** C6: a row that the relay has marked as published holds an event that the stream of
    JetStream has accepted before, as a message under the event's subject: nothing is
    marked that was not acknowledged, in the whole life of the relay, in any
    interleaving of the tasks of a batch and whatever other sessions insert. How long
    the stream keeps the message is a matter of its retention, by age, number and the
    interest of consumers, and not claimed here. *)
Theorem published_rows_were_announced n w n' w' r' :
  NoDup (OutboxEventRow.id <$> table w) -> rtc (lives (fun _ => True)) (n, w) (n', w') ->
  r' ∈ table w' -> OutboxEventRow.status r' = "PUBLISHED" ->
  r' ∈ table w \/
  exists e, event_from_value (OutboxEventRow.payload r') = Ok e /\ announced e (js w').
Proof.
  intros Hnd Hlife Hr' Hst.
  eapply (rtc_keeps _ (fun p => NoDup (OutboxEventRow.id <$> table p.2) /\
    forall r', r' ∈ table p.2 -> OutboxEventRow.status r' = "PUBLISHED" ->
    r' ∈ table w \/
    exists e, event_from_value (OutboxEventRow.payload r') = Ok e /\ announced e (js p.2))) in Hlife;
    [by apply Hlife| |by split; [|left]].
  clear Hnd Hr' Hst. intros [n1 w1] [n2 w2] Hstep [Hnd Hw1]. simpl in *.
  destruct (lives_table _ _ _ _ _ Hnd Hstep)
    as (Hnd' & Hjs & events & old & new & _ & Hw2 & Hold & Hnew).
  split; [done|]. rewrite Hw2. intros r2 [Hr2|Hr2]%elem_of_app Hst.
  - destruct (Forall2_elem_r _ _ _ _ Hold Hr2) as (r1 & Hr1 & [->|(_ & [now ->] & He)]); [|by right].
    destruct (Hw1 r1 Hr1 Hst) as [?|(e & He & Ha)]; [by left|right].
    exists e. split; [done|]. by eapply announced_stable.
  - rewrite Forall_forall in Hnew. destruct (Hnew r2 Hr2) as [Hp _]. by rewrite Hp in Hst.
Qed.

(** *** A blocked queue *)

(** A row that the relay fetches and cannot decode. *)
Definition stuck (r : OutboxEventRow.t) : Prop :=
  OutboxEventRow.status r = "PENDING" /\
  OutboxEventRow.retry_count r < as_i32 (NatsOutboxRelayConfig.max_retries config) /\
  (forall d : D, locked_by_others d (OutboxEventRow.id r) = false) /\
  is_ok (event_from_value (OutboxEventRow.payload r)) = false.

(** Later than all of [rows]. *)
Definition after_all (rows : list OutboxEventRow.t) (t : DateTime) : Prop :=
  Forall (fun u => datetime_leb t (OutboxEventRow.created_at u) = false) rows.

(** At the head of the queue there are as many stuck rows as a batch has places. *)
Definition blocked (head rows : list OutboxEventRow.t) : Prop :=
  (forall r, r ∈ head -> r ∈ rows) /\ NoDup (OutboxEventRow.id <$> head) /\
  (NatsOutboxRelayConfig.batch_size config <= length head)%nat /\ Forall stuck head /\
  (forall r, r ∈ rows -> r ∈ head \/ after_all head (OutboxEventRow.created_at r)).

Lemma elem_of_same_id rows r u :
  NoDup (OutboxEventRow.id <$> rows) -> r ∈ rows -> u ∈ rows ->
  OutboxEventRow.id r = OutboxEventRow.id u -> r = u.
Proof.
  intros Hnd [i Hi]%list_elem_of_lookup [j Hj]%list_elem_of_lookup Hid.
  assert (i = j) as ->; [|by simplify_eq].
  eapply NoDup_lookup; [exact Hnd|by apply list_lookup_fmap_Some_2|].
  rewrite Hid. by apply list_lookup_fmap_Some_2.
Qed.

(** A full batch has no place for another row. *)
Lemma head_fills_batch head (events : list OutboxEventView.t) i :
  NoDup (OutboxEventRow.id <$> head) -> i ∉ OutboxEventRow.id <$> head ->
  i ∈ OutboxEventView.id <$> events -> (length events <= length head)%nat ->
  exists u, u ∈ head /\ view u ∉ events.
Proof.
  intros Hnd Hi Hie Hlen.
  destruct (decide (Forall (fun u => OutboxEventRow.id u ∈ OutboxEventView.id <$> events) head))
    as [Hall|Hnot].
  - exfalso. assert (i :: (OutboxEventRow.id <$> head) ⊆+ (OutboxEventView.id <$> events)) as Hsub.
    { apply NoDup_submseteq; [by constructor|]. rewrite Forall_forall in Hall.
      intros x [->|(u & -> & Hu)%list_elem_of_fmap]%elem_of_cons; auto. }
    apply submseteq_length in Hsub. simpl in Hsub. rewrite !length_fmap in Hsub. lia.
  - apply not_Forall_Exists in Hnot; [|apply _]. apply Exists_exists in Hnot as (u & Hu & Hno).
    exists u. split; [done|]. intros Hin. apply Hno. by apply (list_elem_of_fmap_2 OutboxEventView.id) in Hin.
Qed.

Lemma blocked_fetch head rows events :
  NoDup (OutboxEventRow.id <$> rows) -> blocked head rows -> fetched rows events ->
  decodable_ids events = [].
Proof.
  intros Hnd (Hin & Hhead & Hlen & Hstuck & Hlater) (d & Hd & Hget). rewrite Forall_forall in Hstuck.
  unfold decodable_ids. enough (filter (fun v => decodable v = true) events = []) as -> by done.
  apply elem_of_nil_inv. intros v [Hdecodable Hv]%list_elem_of_filter.
  pose proof (get_pending_answers _ _ _ _ Hget) as (Hshort & _ & Hevents).
  rewrite Forall_forall in Hevents. destruct (Hevents v Hv) as [(r & -> & Hr)%list_elem_of_fmap _].
  rewrite Hd in Hr. enough (r ∈ head) as Hr'.
  { destruct (Hstuck r Hr') as (_ & _ & _ & Hdec). unfold decodable in Hdecodable. simpl in Hdecodable.
    by rewrite Hdec in Hdecodable. }
  destruct (decide (OutboxEventRow.id r ∈ OutboxEventRow.id <$> head)) as [Hi|Hi].
  { apply list_elem_of_fmap in Hi as (u & Hid & Hu).
    by rewrite (elem_of_same_id rows r u Hnd Hr (Hin u Hu) Hid). }
  destruct (Hlater r Hr) as [?|Hafter]; [done|]. exfalso.
  destruct (head_fills_batch head events (OutboxEventRow.id r)) as (u & Hu & Hno); [done..| | |].
  { by apply (list_elem_of_fmap_2 OutboxEventView.id) in Hv. }
  { lia. }
  destruct (Hstuck u Hu) as (Hst & Hc & Hlock & _).
  destruct (pending_oldest_first _ _ _ _ Hget) as [_ Hold].
  destruct (Hold u) as [?|[_ Hall]]; [by rewrite Hd; apply Hin|done..|].
  pose proof (proj1 (Forall_forall _ _) Hall _ Hv) as Hle. simpl in Hle.
  pose proof (proj1 (Forall_forall _ _) Hafter u Hu) as Hlt. simpl in Hlt. congruence.
Qed.

Lemma settled_row_none j rows rows' : Forall2 (settled_row [] j) rows rows' -> rows' = rows.
Proof.
  intros Hrows. induction Hrows as [|r r' l l' [->|(Hi & _)] _ ->]; [done..|].
  by apply elem_of_nil in Hi.
Qed.

(** C5: undecodable events block the queue: when the oldest waiting events are
    undecodable and as many as a batch holds, the relay never settles an event
    again.  Whatever is inserted afterwards stays pending behind them. *)
Theorem undecodable_events_block_the_queue head n w n' w' :
  NoDup (OutboxEventRow.id <$> table w) -> blocked head (table w) ->
  rtc (lives (after_all head)) (n, w) (n', w') ->
  exists new, table w' = table w ++ new /\
    Forall (fun r => OutboxEventRow.status r = "PENDING") new.
Proof.
  intros Hnd Hblocked Hlife.
  eapply (rtc_keeps _ (fun p => NoDup (OutboxEventRow.id <$> table p.2) /\ blocked head (table p.2) /\
    exists new, table p.2 = table w ++ new /\
      Forall (fun r => OutboxEventRow.status r = "PENDING") new)) in Hlife; [apply Hlife| |].
  2: { split_and!; [done..|]. exists []. by rewrite app_nil_r. }
  clear Hnd Hblocked. intros [n1 w1] [n2 w2] Hstep (Hnd & Hblocked & new & Hw1 & Hnew). simpl in *.
  destruct (lives_table _ _ _ _ _ Hnd Hstep)
    as (Hnd' & _ & events & old & new' & Hev & Hw2 & Hold & Hnew').
  assert (decodable_ids events = []) as Hids.
  { destruct Hev as [->|Hev]; [done|exact (blocked_fetch _ _ _ Hnd Hblocked Hev)]. }
  rewrite Hids in Hold. apply settled_row_none in Hold as ->. split_and!; [done| |].
  - destruct Hblocked as (Hin & Hhead & Hlen & Hstuck & Hlater). rewrite Hw2.
    split_and!; [|done..|].
    + intros r Hr. apply elem_of_app. left. auto.
    + rewrite Forall_forall in Hnew'. intros r [Hr|Hr]%elem_of_app; [auto|right]. by apply Hnew'.
  - exists (new ++ new'). rewrite Hw2, Hw1, app_assoc. split; [done|].
    apply Forall_app. split; [done|]. eapply Forall_impl; [exact Hnew'|]. by intros r [? _].
Qed.

End guarantee.

(** ** A batch ends *)

Section ends.
Context `{E : Externs} `{F : !EventFormat} `{!EnvelopeFormat}.
Context {D J P : Type} `{!OutboxRepository D} `{!JetStream J} `{!Process P}.
Context (powf : f64 -> f64 -> f64) (dead_letter_to_vec : DeadLetterEntry.t -> result string string).
Context (stream_prefix : string) (config : NatsOutboxRelayConfig.t).
Import NatsOutboxRelay.

Lemma within_ensure_stream subject :
  within (W := J) 4 (NatsEventBus.ensure_stream stream_prefix subject).
Proof.
  apply (within_mbind 1 3); [apply within_atomically|]. intros []; [constructor|].
  apply (within_mbind 1 2); [apply within_atomically|]. intros [].
  - apply (within_mbind 1 1); [apply within_atomically|]. intros _. constructor.
  - apply (within_mbind 1 1); [apply within_atomically|]. intros _.
    apply (within_mbind 1 0); [apply within_atomically|]. intros _. constructor.
Qed.

Lemma within_publish e : within (W := J) 7 (NatsEventBus.publish stream_prefix e).
Proof.
  apply (within_mbind 1 6); [apply within_atomically|]. intros now.
  destruct (NatsMessageEnvelope.from_domain_event e now) as [envelope|]; [|constructor].
  destruct (envelope_to_vec envelope); [|constructor].
  apply (within_mbind 4 2); [apply within_with_error, within_ensure_stream|]. intros _.
  apply (within_mbind 1 1); [apply within_atomically|]. intros ack. apply within_atomically.
Qed.

Lemma within_publish_guarded e :
  within 11 (publish_guarded (D := D) (P := P) stream_prefix config e).
Proof.
  apply (within_mbind 10 1).
  - apply within_attempt, within_with_error.
    apply (within_mbind 1 9); [apply within_atomically|]. intros []; cbn [negb]; [|constructor].
    apply (within_bind 8 1).
    + apply within_timeout, within_with_error, within_zoom, within_publish.
    + intros [[[]|[x| | |]]|]; try apply within_done;
        (apply (within_mbind 1 0); [apply within_atomically|]; intros []; apply within_done).
  - intros [[]|x]; [apply within_atomically|].
    apply (within_mbind 1 0); [apply within_atomically|]. intros []; constructor.
Qed.

Lemma within_process_event v : within 12 (process_event (D := D) (P := P) stream_prefix config v).
Proof.
  unfold process_event. destruct (outbox_event_to_domain_event v) as [e|x]; [|constructor].
  apply (within_mbind 11 1); [apply within_publish_guarded|]. intros _. apply within_atomically.
Qed.

Lemma within_send_to_dlq v reason n :
  within 4 (send_to_dlq (D := D) (P := P) dead_letter_to_vec config v reason n).
Proof.
  apply (within_mbind 1 3); [apply within_atomically|]. intros now.
  cbv zeta. destruct (dead_letter_to_vec _); [|apply within_done].
  apply (within_mbind 1 2); [apply within_with_error, within_zoom, within_atomically|]. intros ack.
  apply (within_mbind 1 1); [apply within_with_error, within_zoom, within_atomically|]. intros _.
  apply within_atomically.
Qed.

(** A round takes at most 16 steps. *)
Lemma within_retrying fuel n v :
  within (fuel * 16)
    (retrying (D := D) (P := P) powf dead_letter_to_vec stream_prefix config fuel n v).
Proof.
  revert n. induction fuel as [|fuel IH]; intros n; [constructor|].
  change (S fuel * 16)%nat with (12 + (4 + fuel * 16))%nat.
  apply within_mbind; [apply within_attempt, within_process_event|].
  intros [[]|x]; [apply within_done|]. cbv zeta.
  destruct (NatsOutboxRelayConfig.max_retries config <=? _).
  - apply within_mbind; [|intros []; apply within_done].
    destruct (NatsOutboxRelayConfig.enable_dlq config); [apply within_send_to_dlq|apply within_done].
  - apply (within_le (1 + (1 + (1 + fuel * 16)))); [|lia].
    apply within_mbind; [apply within_atomically|]. intros d.
    apply within_mbind; [apply within_atomically|]. intros _.
    apply within_mbind; [apply within_atomically|]. intros _. apply IH.
Qed.

(** *** No task runs out of fuel *)

Definition fuelled {X A} (r : result (exn X) A) : Prop := r <> Err OutOfFuel.

Lemma fuelled_fails {W X A} (x : exn X) :
  x <> OutOfFuel -> returning (W := W) (fuelled (A := A)) (fails x).
Proof. intros Hx. constructor. by intros [= ->]. Qed.

Lemma fuelled_done {W X A} (a : A) : returning (W := W) (fuelled (X := X)) (Done (Ok a)).
Proof. by constructor. Qed.

Lemma fuelled_mbind {W X A B} (k : A -> process W (exn X) B) t :
  returning fuelled t -> (forall a, returning fuelled (k a)) -> returning fuelled (t ≫= k).
Proof.
  intros Ht Hk. eapply returning_mbind; [exact Ht|exact Hk|].
  intros e He Hoof. by simplify_eq.
Qed.

Lemma fuelled_bus_call {A} (f : string -> EventBusError.t) (m : method J string A) :
  returning fuelled (NatsEventBus.with_bus_error f m).
Proof.
  apply returning_atomically. intros w. unfold mapping_error. by destruct (m w) as [w' [a|e]].
Qed.

Lemma fuelled_on_breaker {X A} (m : Z -> method CircuitBreaker.state_t CircuitBreaker.panic A) :
  returning fuelled (on_breaker m : process (world D J P) (exn X) A).
Proof. apply returning_atomically. intros w. by destruct (m _ _) as [b [a|e]]. Qed.

Lemma fuelled_with_error {W X Y A} (f : X -> Y) (t : process W (exn X) A) :
  returning fuelled t -> returning fuelled (with_error f t).
Proof.
  intros Ht. eapply returning_bind; [exact Ht|]. intros [a|[x| | |]] Hr; by constructor.
Qed.

Lemma fuelled_attempt {W X Y A} (t : process W (exn X) A) :
  returning fuelled t -> returning fuelled (attempt t : process W (exn Y) _).
Proof.
  intros Ht. eapply returning_bind; [exact Ht|]. intros [a|[x| | |]] Hr; by constructor.
Qed.

Lemma fuelled_ensure_stream subject :
  returning (W := J) fuelled (NatsEventBus.ensure_stream stream_prefix subject).
Proof.
  apply fuelled_mbind; [by apply returning_atomically|]. intros []; [apply fuelled_done|].
  apply fuelled_mbind; [apply returning_atomically; intros w; by destruct (js_get_stream _ w)|].
  intros [].
  - apply fuelled_mbind; [by apply returning_atomically|]. intros _. apply fuelled_done.
  - apply fuelled_mbind; [apply fuelled_bus_call|]. intros _.
    apply fuelled_mbind; [by apply returning_atomically|]. intros _. apply fuelled_done.
Qed.

Lemma fuelled_publish e : returning (W := J) fuelled (NatsEventBus.publish stream_prefix e).
Proof.
  apply fuelled_mbind; [by apply returning_atomically|]. intros now.
  destruct (NatsMessageEnvelope.from_domain_event e now) as [envelope|]; [|by apply fuelled_fails].
  destruct (envelope_to_vec envelope); [|by apply fuelled_fails].
  apply fuelled_mbind; [apply fuelled_with_error, fuelled_ensure_stream|]. intros _.
  apply fuelled_mbind; [apply fuelled_bus_call|]. intros ack. apply fuelled_bus_call.
Qed.

Lemma fuelled_publish_guarded e :
  returning fuelled (publish_guarded (D := D) (P := P) stream_prefix config e).
Proof.
  apply fuelled_mbind.
  - apply fuelled_attempt, fuelled_with_error.
    apply fuelled_mbind; [apply fuelled_on_breaker|].
    intros []; cbn [negb]; [|by apply fuelled_fails].
    eapply returning_bind.
    + apply returning_timeout, fuelled_with_error, returning_zoom, fuelled_publish.
    + intros [[[]|[x| | |]]|] Hr; try done; try (by apply fuelled_fails);
        (apply fuelled_mbind; [apply fuelled_on_breaker|]; intros []);
        [apply fuelled_done|by apply fuelled_fails..].
  - intros [[]|x]; [apply fuelled_on_breaker|].
    apply fuelled_mbind; [apply fuelled_on_breaker|]. intros []. by apply fuelled_fails.
Qed.

Lemma fuelled_process_event v :
  returning fuelled (process_event (D := D) (P := P) stream_prefix config v).
Proof.
  unfold process_event.
  destruct (outbox_event_to_domain_event v) as [e|x]; [|by apply fuelled_fails].
  apply fuelled_mbind; [apply fuelled_publish_guarded|]. intros _. apply returning_atomically.
  intros w. unfold zoomed, mapping_error. by destruct (Outbox.mark_published _ _) as [d [[]|x]].
Qed.

Lemma fuelled_send_to_dlq v reason n :
  returning fuelled (send_to_dlq (D := D) (P := P) dead_letter_to_vec config v reason n).
Proof.
  apply fuelled_mbind; [by apply returning_atomically|]. intros now. cbv zeta.
  destruct (dead_letter_to_vec _); [|by apply fuelled_fails].
  apply fuelled_mbind; [apply fuelled_with_error, returning_zoom, fuelled_bus_call|]. intros ack.
  apply fuelled_mbind; [apply fuelled_with_error, returning_zoom, fuelled_bus_call|]. intros _.
  by apply returning_atomically.
Qed.

Lemma fuelled_retrying fuel n v :
  u32 (NatsOutboxRelayConfig.max_retries config) -> (0 < fuel)%nat -> 0 <= n ->
  (n = 0 \/ n < NatsOutboxRelayConfig.max_retries config) ->
  NatsOutboxRelayConfig.max_retries config <= n + Z.of_nat fuel ->
  returning fuelled
    (retrying (D := D) (P := P) powf dead_letter_to_vec stream_prefix config fuel n v).
Proof.
  intros Hmax. revert n. induction fuel as [|fuel IH]; intros n Hfuel Hn Hlt Hle; [lia|].
  cbn [retrying]. apply fuelled_mbind; [apply fuelled_attempt, fuelled_process_event|].
  intros [[]|x]; [apply fuelled_done|]. cbv zeta.
  assert (u32_add n 1 = n + 1) as -> by (apply u32_add_small; unfold u32, u32_max in *; lia).
  destruct (NatsOutboxRelayConfig.max_retries config <=? n + 1) eqn:Hend.
  - apply fuelled_mbind; [|intros []; by apply fuelled_fails].
    destruct (NatsOutboxRelayConfig.enable_dlq config); [apply fuelled_send_to_dlq|apply fuelled_done].
  - apply fuelled_mbind.
    { apply returning_atomically. intros w. destruct (random (process_of w)) as [p r]. simpl.
      by destruct (from_secs_f64 _). }
    intros d. apply fuelled_mbind; [by apply returning_atomically|]. intros _.
    apply fuelled_mbind; [by apply returning_atomically|]. intros _. apply IH; lia.
Qed.

(** C7: a batch ends, however its tasks are interleaved: no run of it is longer than
    the rounds of its events allow, and from every point of a run it goes on to an
    end, which is either that all its tasks are done and their results collected, or
    that one of them panics, which unwinds the batch and the relay with it. No task
    gives up for want of fuel. *)
Theorem every_batch_ends events w :
  u32 (NatsOutboxRelayConfig.max_retries config) ->
  let tasks := process_event_with_retry (D := D) (J := J) (P := P) powf dead_letter_to_vec
                 stream_prefix config <$> events in
  let w0 := w <| metrics := NatsOutboxRelayMetrics.inc_batch (metrics w) |> in
  Forall (returning fuelled) tasks /\
  (exists r w', process_events_batch powf dead_letter_to_vec stream_prefix config events w r w') /\
  forall k p, nsteps (pool_step collect panicked) k (tasks, w0) p ->
    (k <= length events * S (rounds config * 16))%nat /\
    (p.1 = [] \/ (exists q, pool_step collect panicked p q) \/ exists w', pool_unwinds panicked p w') /\
    exists q, rtc (pool_step collect panicked) p q /\ (q.1 = [] \/ exists w', pool_unwinds panicked q w').
Proof.
  intros Hmax tasks w0.
  assert (bounded (length events * S (rounds config * 16)) tasks) as Hb.
  { exists (replicate (length events) (rounds config * 16)%nat). split.
    - subst tasks. apply Forall2_fmap_r, Forall2_replicate_l; [done|].
      apply Forall_forall. intros v _. apply within_retrying.
    - clear. induction (length events) as [|n IH]; [done|]. csimpl. rewrite IH. lia. }
  split_and!.
  - apply Forall_fmap, Forall_forall. intros v _.
    apply fuelled_retrying; unfold rounds; [done|lia..].
  - destruct (pool_completes collect panicked _ (tasks, w0) Hb) as ([ts w'] & Hrun & [Hend|[w'' Hend]]).
    + exists (Ok tt), w'. simpl in Hend. subst ts. done.
    + exists (Err Panicked), w''. by exists (ts, w').
  - intros k p Hk. destruct (pool_ends collect panicked _ _ (tasks, w0) p Hb Hk) as (m & Hm & Hb').
    split_and!; [lia|apply pool_progress|by eapply pool_completes].
Qed.

End ends.

(** ** A relay in memory *)

Section driven.
Context `{E : Externs} `{F : !EventFormat} `{!EnvelopeFormat}.
Context {D J P : Type} `{!OutboxRepository D} `{!JetStream J} `{!Process P}.
Context (powf : f64 -> f64 -> f64) (dead_letter_to_vec : DeadLetterEntry.t -> result string string).
Context (stream_prefix : string) (config : NatsOutboxRelayConfig.t).
Import NatsOutboxRelay.

(** What is left of the tasks, and the world, when [drive] schedules a poll. *)
Definition drive_poll (schedule : list nat) (w : world D J P) : nat * world D J P :=
  match get_pending_events (NatsOutboxRelayConfig.batch_size config)
          (as_i32 (NatsOutboxRelayConfig.max_retries config)) (db w) with
  | (d, Ok []) => (1%nat, w)
  | (d, Ok events) =>
      let (ts, w) := drive collect panicked schedule
        (process_event_with_retry powf dead_letter_to_vec stream_prefix config <$> events,
         w <| db := d |> <| metrics := NatsOutboxRelayMetrics.inc_batch (metrics w) |>) in
      (length ts, w)
  | (d, Err _) => (1%nat, w)
  end.

(** A poll that [drive] completes is a poll of the relay. *)
Lemma poll_driven schedule n w :
  (drive_poll schedule w).1 = 0%nat ->
  poll powf dead_letter_to_vec stream_prefix config (n, w) (Ok 0, (drive_poll schedule w).2).
Proof.
  unfold drive_poll. destruct (get_pending_events _ _ (db w)) as [d [[|v events]|x]] eqn:Hget; [done| |done].
  destruct (drive _ _ _) as [ts w'] eqn:Hdrive. simpl. intros Hts.
  apply length_zero_iff_nil in Hts as ->. apply (poll_batch _ _ _ _ n w d (v :: events) (Ok tt) w'); [exact Hget|done|].
  unfold process_events_batch. rewrite <- Hdrive. apply drive_sound.
Qed.

End driven.

Module ExampleRelay.

#[global] Instance process : Process (E := concrete) Z := {|
  system_time := fun t => t;
  utc_now := fun t => (t : @DateTime concrete);
  instant := fun t => t;
  random := fun t => (t, F64.of_Z 0);
  waiting := fun _ => true;
  sleep := fun d t => t + d;
|}.

Definition world := NatsOutboxRelay.world ExampleDatabase.world ExampleStream.world Z.

Definition config : NatsOutboxRelayConfig.t :=
  NatsOutboxRelayConfigBuilder.max_retries 1 (NatsOutboxRelayConfigBuilder.batch_size 1
    NatsOutboxRelayConfigBuilder.new).

Definition dead_letter (e : DeadLetterEntry.t (E := concrete)) : result string string :=
  Ok (DeadLetterEntry.failure_reason e).

Definition relay_of (db : ExampleDatabase.world) : world :=
  NatsOutboxRelay.mk_world db (ExampleStream.mk [] []) CircuitBreaker.new NatsOutboxRelayMetrics.new 9.

Definition polled (schedule : list nat) (w : world) : nat * world :=
  drive_poll (E := concrete) (F := concrete_format) (fun x _ => x) dead_letter "HODEI" config schedule w.

(** The decodable event first. *)
Definition start : world := relay_of ExampleDatabase.written.

(** The undecodable event first. *)
Definition undecodable_first : world :=
  relay_of (after (PostgresOutboxRepository.insert_events (E := concrete) [ExampleDatabase.accepted 1 10])
    (after (PostgresOutboxRepository.insert_events (E := concrete)
      [OutboxEventInsert.for_job (E := concrete) 2%nat "JobAccepted" JObj None None])
      (ExampleDatabase.mk [] 0 0 [] [] 0))).

End ExampleRelay.

Lemma polled_lives schedule late (w : ExampleRelay.world) :
  (ExampleRelay.polled schedule w).1 = 0%nat ->
  rtc (lives (E := concrete) (F := concrete_format) (fun x _ => x) ExampleRelay.dead_letter "HODEI"
         ExampleRelay.config late) (0, w) (0, (ExampleRelay.polled schedule w).2).
Proof. intros Hend. apply rtc_once. constructor. by apply poll_driven. Qed.

(** What matters of a row. *)
Definition gist (r : OutboxEventRow.t (E := concrete)) : string * Z * bool * Z :=
  (OutboxEventRow.status r, OutboxEventRow.retry_count r,
   is_ok (event_from_value (E := concrete) (EventFormat := concrete_format) (OutboxEventRow.payload r)),
   OutboxEventRow.created_at r).

Lemma undecodable_rows : exists r1 r2,
  ExampleDatabase.rows (NatsOutboxRelay.db ExampleRelay.undecodable_first) = [r1; r2] /\
  gist r1 = ("PENDING", 0, false, 0) /\ gist r2 = ("PENDING", 0, true, 1).
Proof.
  assert (gist <$> ExampleDatabase.rows (NatsOutboxRelay.db ExampleRelay.undecodable_first)
    = [("PENDING", 0, false, 0); ("PENDING", 0, true, 1)]) as H by (vm_compute; reflexivity).
  destruct (ExampleDatabase.rows _) as [|r1 [|r2 [|]]]; simplify_list_eq. by exists r1, r2.
Qed.

(** A poll in which the event is dead-lettered. *)
Example undecodable_events_are_never_settled_witness :
  exists r : OutboxEventRow.t (E := concrete), OutboxEventRow.status r = "PENDING" /\
    r ∈ ExampleDatabase.rows (NatsOutboxRelay.db
          (ExampleRelay.polled (repeat 0%nat 20) ExampleRelay.undecodable_first).2).
Proof.
  destruct undecodable_rows as (r1 & r2 & Hrows & [= Hst _ Hdec _] & _).
  exists r1. split; [exact Hst|].
  pose proof (undecodable_events_are_never_settled (E := concrete) (F := concrete_format)
    (D := ExampleDatabase.world) (J := ExampleStream.world)
    (fun x _ => x) ExampleRelay.dead_letter "HODEI" ExampleRelay.config r1 0 ExampleRelay.undecodable_first 0
    (ExampleRelay.polled (repeat 0%nat 20) ExampleRelay.undecodable_first).2) as H.
  apply H; clear H.
  - apply (bool_decide_unpack _). vm_compute. exact I.
  - change (r1 ∈ ExampleDatabase.rows (NatsOutboxRelay.db ExampleRelay.undecodable_first)).
    rewrite Hrows. left.
  - exact Hdec.
  - apply polled_lives; vm_compute; reflexivity.
Defined.

(** A poll in which the event is published. *)
Example published_rows_were_announced_witness :
  exists (r : OutboxEventRow.t (E := concrete)) e, OutboxEventRow.status r = "PUBLISHED" /\
    event_from_value (E := concrete) (EventFormat := concrete_format) (OutboxEventRow.payload r) = Ok e /\
    announced (E := concrete) e (NatsOutboxRelay.js
      (ExampleRelay.polled (repeat 0%nat 20) ExampleRelay.start).2).
Proof.
  set (w' := (ExampleRelay.polled (repeat 0%nat 20) ExampleRelay.start).2).
  assert (OutboxEventRow.status <$> ExampleDatabase.rows (NatsOutboxRelay.db w')
    = ["PUBLISHED"; "PENDING"]) as Hst by (vm_compute; reflexivity).
  destruct (ExampleDatabase.rows (NatsOutboxRelay.db w')) as [|r rows] eqn:Hrows; [discriminate Hst|].
  destruct (published_rows_were_announced (E := concrete) (F := concrete_format)
    (fun x _ => x) ExampleRelay.dead_letter "HODEI" ExampleRelay.config 0 ExampleRelay.start 0 w' r)
    as [Hold|(e & He & Ha)].
  - apply (bool_decide_unpack _). vm_compute. exact I.
  - apply polled_lives; vm_compute; reflexivity.
  - change (r ∈ ExampleDatabase.rows (NatsOutboxRelay.db w')). rewrite Hrows. left.
  - by injection Hst.
  - exfalso. apply (list_elem_of_fmap_2 OutboxEventRow.status) in Hold.
    assert (OutboxEventRow.status r = "PUBLISHED") as Hr by (by injection Hst). rewrite Hr in Hold.
    assert (OutboxEventRow.status <$> ExampleDatabase.rows (NatsOutboxRelay.db ExampleRelay.start)
      = ["PENDING"; "PENDING"]) as Hs by (vm_compute; reflexivity).
    pose proof (eq_ind _ (fun l => "PUBLISHED" ∈ l) Hold _ Hs) as H.
    rewrite !elem_of_cons, elem_of_nil in H. by destruct H as [H|[H|H]].
  - assert (OutboxEventRow.status r = "PUBLISHED") as Hr by (by injection Hst).
    exists r, e. exact (conj Hr (conj He Ha)).
Defined.

Example undecodable_events_block_the_queue_witness :
  exists new, ExampleDatabase.rows (NatsOutboxRelay.db
      (ExampleRelay.polled (repeat 0%nat 20) ExampleRelay.undecodable_first).2)
    = (ExampleDatabase.rows (NatsOutboxRelay.db ExampleRelay.undecodable_first) ++ new)%list.
Proof.
  assert (blocked (E := concrete) (F := concrete_format) (D := ExampleDatabase.world) ExampleRelay.config
    (take 1 (ExampleDatabase.rows (NatsOutboxRelay.db ExampleRelay.undecodable_first))) (ExampleDatabase.rows (NatsOutboxRelay.db ExampleRelay.undecodable_first))) as H.
  { destruct undecodable_rows as (r1 & r2 & Hrows & [= Hst Hc Hdec Ht1] & [= _ _ _ Ht2]).
    rewrite Hrows. split_and!.
    - intros r ->%list_elem_of_singleton. left.
    - apply NoDup_singleton.
    - apply Nat.le_refl.
    - constructor; [|constructor]. unfold stuck. rewrite Hc. split_and!; [exact Hst|reflexivity| |exact Hdec].
      intros d. reflexivity.
    - intros r [->|Hr]%elem_of_cons; [left; left|right].
      apply list_elem_of_singleton in Hr as ->. constructor; [|constructor].
      change ((OutboxEventRow.created_at r2 <=? OutboxEventRow.created_at r1) = false).
      by rewrite Ht1, Ht2. }
  destruct (undecodable_events_block_the_queue (E := concrete) (F := concrete_format)
    (fun x _ => x) ExampleRelay.dead_letter "HODEI" ExampleRelay.config
    (take 1 (ExampleDatabase.rows (NatsOutboxRelay.db ExampleRelay.undecodable_first))) 0
    ExampleRelay.undecodable_first 0
    (ExampleRelay.polled (repeat 0%nat 20) ExampleRelay.undecodable_first).2) as (new & Hnew & _); [|exact H| |by exists new].
  - apply (bool_decide_unpack _). vm_compute. exact I.
  - apply polled_lives; vm_compute; reflexivity.
Defined.

Example every_batch_ends_witness :
  exists r w', NatsOutboxRelay.process_events_batch (E := concrete) (F := concrete_format)
    (D := ExampleDatabase.world) (J := ExampleStream.world)
    (fun x _ => x) ExampleRelay.dead_letter "HODEI" ExampleRelay.config
    (entries (E := concrete) ExampleDatabase.written) ExampleRelay.start r w'.
Proof.
  assert (u32 (NatsOutboxRelayConfig.max_retries ExampleRelay.config)) as Hmax
    by (vm_compute; split; [discriminate|reflexivity]).
  exact (proj1 (proj2 (every_batch_ends (E := concrete) (F := concrete_format) (fun x _ => x)
    ExampleRelay.dead_letter "HODEI" ExampleRelay.config
    (entries (E := concrete) ExampleDatabase.written) ExampleRelay.start Hmax))).
Defined.
