(* ===== verification/SagaEvents.v ===== *)
(** * Event sourcing of sagas ([crates/server/domain/src/saga/event_sourcing.rs])

    The events of a saga, the state that is replayed from them, the store in
    memory and the layer that records events in it.  Fresh identifiers and the
    readings of the clock are arguments. *)

From stdpp Require Import sorting.
From S2P Require Import Prelude Effects Std Externs SagaTypes.

(** src: crates/server/domain/src/saga/event_sourcing.rs 14-14 SAGA_EVENT_VERSION *)
Definition SAGA_EVENT_VERSION : Z := 1.

Module SagaEventType.

(** src: crates/server/domain/src/saga/event_sourcing.rs 42-55 SagaEventType *)
Inductive t :=
  | Created | StepStarted | StepCompleted | StepFailed | CompensationStarted
  | CompensationCompleted | CompensationFailed | Completed | Failed | Cancelled | Persisted
  | Resumed.

#[global] Instance t_eq_dec : EqDecision t.
Proof. solve_decision. Defined.

(** src: crates/server/domain/src/saga/event_sourcing.rs 57-74 Display for SagaEventType *)
Definition fmt (e : t) : string :=
  match e with
  | Created => "CREATED"
  | StepStarted => "STEP_STARTED"
  | StepCompleted => "STEP_COMPLETED"
  | StepFailed => "STEP_FAILED"
  | CompensationStarted => "COMPENSATION_STARTED"
  | CompensationCompleted => "COMPENSATION_COMPLETED"
  | CompensationFailed => "COMPENSATION_FAILED"
  | Completed => "COMPLETED"
  | Failed => "FAILED"
  | Cancelled => "CANCELLED"
  | Persisted => "PERSISTED"
  | Resumed => "RESUMED"
  end.

End SagaEventType.

(** What [SagaEventId::new()] and the two calls of [Utc::now()] return. *)
Record stamp `{E : Externs} := mk_stamp { fresh_id : Uuid; occurred : DateTime; persisted : DateTime }.

Module SagaEvent.
Section event.
Context `{E : Externs}.

(** src: crates/server/domain/src/saga/event_sourcing.rs 77-92 SagaEvent *)
Record t := mk {
  event_id : Uuid;
  saga_id : SagaId;
  saga_type : SagaType.t;
  event_type : SagaEventType.t;
  version : Z;
  step_name : option string;
  step_number : option Z;
  payload : Json;
  occurred_at : DateTime;
  persisted_at : DateTime;
  correlation_id : option string;
  actor : option string;
  error_message : option string;
  sequence_number : Z;
}.

(** The fields every constructor fills in the same way. *)
Definition event (at_ : stamp) (i : SagaId) (ty : SagaType.t) (context : SagaContext.t)
    (et : SagaEventType.t) (name : option string) (number : option Z) (body : Json)
    (error : option string) (sequence : Z) : t := {|
  event_id := fresh_id at_;
  saga_id := i;
  saga_type := ty;
  event_type := et;
  version := SAGA_EVENT_VERSION;
  step_name := name;
  step_number := number;
  payload := body;
  occurred_at := occurred at_;
  persisted_at := persisted at_;
  correlation_id := SagaContext.correlation_id context;
  actor := SagaContext.actor context;
  error_message := error;
  sequence_number := sequence;
|}.

(** src: crates/server/domain/src/saga/event_sourcing.rs 95-117 SagaEvent::created *)
Definition created (at_ : stamp) (i : SagaId) (ty : SagaType.t) (context : SagaContext.t)
    (body : Json) : t :=
  event at_ i ty context SagaEventType.Created None None body None 0.

(** src: crates/server/domain/src/saga/event_sourcing.rs 119-142 SagaEvent::step_started *)
Definition step_started (at_ : stamp) (i : SagaId) (ty : SagaType.t) (name : string)
    (number : Z) (context : SagaContext.t) : t :=
  event at_ i ty context SagaEventType.StepStarted (Some name) (Some number) json_empty_object
    None (as_u64 number).

(** src: crates/server/domain/src/saga/event_sourcing.rs 144-168 SagaEvent::step_completed *)
Definition step_completed (at_ : stamp) (i : SagaId) (ty : SagaType.t) (name : string)
    (number : Z) (output : Json) (context : SagaContext.t) : t :=
  event at_ i ty context SagaEventType.StepCompleted (Some name) (Some number) output
    None (as_u64 number).

(** src: crates/server/domain/src/saga/event_sourcing.rs 170-194 SagaEvent::step_failed *)
Definition step_failed (at_ : stamp) (i : SagaId) (ty : SagaType.t) (name : string)
    (number : Z) (error : string) (context : SagaContext.t) : t :=
  event at_ i ty context SagaEventType.StepFailed (Some name) (Some number) json_empty_object
    (Some error) (as_u64 number).

(** src: crates/server/domain/src/saga/event_sourcing.rs 196-218 SagaEvent::completed *)
Definition completed (at_ : stamp) (i : SagaId) (ty : SagaType.t) (steps : Z)
    (context : SagaContext.t) : t :=
  event at_ i ty context SagaEventType.Completed None None
    (json_object [("steps_executed", json_of_Z steps)]) None u64_max.

(** src: crates/server/domain/src/saga/event_sourcing.rs 220-243 SagaEvent::failed *)
Definition failed (at_ : stamp) (i : SagaId) (ty : SagaType.t) (steps : Z) (error : string)
    (context : SagaContext.t) : t :=
  event at_ i ty context SagaEventType.Failed None None
    (json_object [("steps_executed", json_of_Z steps)]) (Some error) u64_max.

(** src: crates/server/domain/src/saga/event_sourcing.rs 245-271 SagaEvent::cancelled *)
Definition cancelled (at_ : stamp) (i : SagaId) (ty : SagaType.t) (steps compensations : Z)
    (context : SagaContext.t) : t :=
  event at_ i ty context SagaEventType.Cancelled None None
    (json_object [("steps_executed", json_of_Z steps);
                  ("compensations_executed", json_of_Z compensations)]) None u64_max.

End event.
End SagaEvent.

Module EventSourcedSagaState.
Section state.
Context `{E : Externs}.

(** src: crates/server/domain/src/saga/event_sourcing.rs 275-292 EventSourcedSagaState *)
Record t := mk {
  saga_id : SagaId;
  saga_type : SagaType.t;
  state : SagaState.t;
  current_step : Z;
  is_compensating : bool;
  steps_executed : Z;
  compensations_executed : Z;
  started_at : DateTime;
  last_event_at : DateTime;
  correlation_id : option string;
  actor : option string;
  error_message : option string;
  step_outputs : gmap string Json;
  metadata : gmap string Json;
  version : Z;
  event_count : Z;
}.

#[global] Instance t_rebuild : Rebuild t := fun s =>
  mk (saga_id s) (saga_type s) (state s) (current_step s) (is_compensating s) (steps_executed s)
    (compensations_executed s) (started_at s) (last_event_at s) (correlation_id s) (actor s)
    (error_message s) (step_outputs s) (metadata s) (version s) (event_count s).

(** src: crates/server/domain/src/saga/event_sourcing.rs 295-314 EventSourcedSagaState::from_context *)
Definition from_context (now : DateTime) (context : SagaContext.t) : t := {|
  saga_id := SagaContext.saga_id context;
  saga_type := SagaContext.saga_type context;
  state := SagaState.Pending;
  current_step := 0;
  is_compensating := false;
  steps_executed := 0;
  compensations_executed := 0;
  started_at := SagaContext.started_at context;
  last_event_at := now;
  correlation_id := SagaContext.correlation_id context;
  actor := SagaContext.actor context;
  error_message := None;
  step_outputs := ∅;
  metadata := SagaContext.metadata context;
  version := SagaContext.version context;
  event_count := 0;
|}.

(** What an event does to the state, before the counters. *)
Definition apply_type (e : SagaEvent.t) (s : t) : t :=
  match SagaEvent.event_type e with
  | SagaEventType.Created =>
      s <| state := SagaState.Pending |> <| current_step := 0 |> <| steps_executed := 0 |>
        <| compensations_executed := 0 |>
  | SagaEventType.StepStarted =>
      s <| state := SagaState.InProgress |>
        <| current_step := default 0 (SagaEvent.step_number e) |>
        <| steps_executed := u32_add (steps_executed s) 1 |>
  | SagaEventType.StepCompleted =>
      let s := s <| current_step := u32_add (current_step s) 1 |> in
      match SagaEvent.step_name e with
      | Some name => s <| step_outputs := <[name := SagaEvent.payload e]> (step_outputs s) |>
      | None => s
      end
  | SagaEventType.StepFailed =>
      s <| state := SagaState.Compensating |> <| is_compensating := true |>
        <| error_message := SagaEvent.error_message e |>
  | SagaEventType.CompensationStarted => s <| is_compensating := true |>
  | SagaEventType.CompensationCompleted =>
      s <| compensations_executed := u32_add (compensations_executed s) 1 |>
  | SagaEventType.CompensationFailed => s <| state := SagaState.Failed |>
  | SagaEventType.Completed =>
      s <| state := SagaState.Completed |> <| is_compensating := false |>
  | SagaEventType.Failed => s <| state := SagaState.Failed |> <| is_compensating := false |>
  | SagaEventType.Cancelled =>
      s <| state := SagaState.Cancelled |> <| is_compensating := false |>
  | SagaEventType.Persisted | SagaEventType.Resumed => s
  end.

(** src: crates/server/domain/src/saga/event_sourcing.rs 316-373 EventSourcedSagaState::apply *)
Definition apply (s : t) (e : SagaEvent.t) : t :=
  apply_type e s <| last_event_at := SagaEvent.occurred_at e |>
    <| event_count := u64_add (event_count s) 1 |> <| version := u64_add (version s) 1 |>.

Definition initial (e : SagaEvent.t) : t := {|
  saga_id := SagaEvent.saga_id e;
  saga_type := SagaEvent.saga_type e;
  state := SagaState.Pending;
  current_step := 0;
  is_compensating := false;
  steps_executed := 0;
  compensations_executed := 0;
  started_at := SagaEvent.occurred_at e;
  last_event_at := SagaEvent.occurred_at e;
  correlation_id := SagaEvent.correlation_id e;
  actor := SagaEvent.actor e;
  error_message := None;
  step_outputs := ∅;
  metadata := ∅;
  version := 0;
  event_count := 0;
|}.

Definition not_later (a b : SagaEvent.t) : bool :=
  SagaEvent.sequence_number a <=? SagaEvent.sequence_number b.

(** src: crates/server/domain/src/saga/event_sourcing.rs 375-408 EventSourcedSagaState::from_events *)
Definition from_events (events : list SagaEvent.t) : option t :=
  match sort_by not_later events with
  | [] => None
  | e :: sorted => Some (fold_left apply (e :: sorted) (initial e))
  end.

(** src: crates/server/domain/src/saga/event_sourcing.rs 410-415 EventSourcedSagaState::is_terminal *)
Definition is_terminal (s : t) : bool :=
  match state s with
  | SagaState.Completed | SagaState.Failed | SagaState.Cancelled => true
  | _ => false
  end.

End state.
End EventSourcedSagaState.

Module SagaEventStoreError.
Section error.
Context `{E : Externs}.

(** src: crates/server/domain/src/saga/event_sourcing.rs 440-451 SagaEventStoreError *)
Inductive t :=
  | SerializationError (message : string)
  | PersistenceError (message : string)
  | SagaNotFound (saga_id : SagaId)
  | ConcurrencyConflict (saga_id : SagaId)
  | InvalidSequence (expected actual : Z).

(** src: crates/server/domain/src/saga/event_sourcing.rs 439-451 Display for SagaEventStoreError *)
Definition fmt (e : t) : string :=
  match e with
  | SerializationError m => "Serialization error: " +:+ m
  | PersistenceError m => "Persistence error: " +:+ m
  | SagaNotFound i => "Saga not found: " +:+ uuid_to_string i
  | ConcurrencyConflict i => "Concurrency conflict: saga " +:+ uuid_to_string i +:+ " was modified"
  | InvalidSequence e a =>
      "Invalid event sequence: expected " +:+ show_Z e +:+ ", got " +:+ show_Z a
  end.

End error.
End SagaEventStoreError.

(** What an event store does; the layer is generic in it. *)
(** src: crates/server/domain/src/saga/event_sourcing.rs 419-437 SagaEventStore *)
Class SagaEventStore `{E : Externs} (W : Type) := {
  append_event : SagaEvent.t -> method W SagaEventStoreError.t unit;
  append_events : list SagaEvent.t -> method W SagaEventStoreError.t unit;
  get_events : SagaId -> method W SagaEventStoreError.t (list SagaEvent.t);
  get_events_since : SagaId -> Z -> method W SagaEventStoreError.t (list SagaEvent.t);
  get_latest_event : SagaId -> method W SagaEventStoreError.t (option SagaEvent.t);
  get_event_count : SagaId -> method W SagaEventStoreError.t Z;
  delete_events_older_than : DateTime -> method W SagaEventStoreError.t Z;
}.

Module InMemorySagaEventStore.
Section store.
Context `{E : Externs}.

(** src: crates/server/domain/src/saga/event_sourcing.rs 454-456 InMemorySagaEventStore *)
Definition t : Type := gmap Uuid (list SagaEvent.t).

(** src: crates/server/domain/src/saga/event_sourcing.rs 459-463 InMemorySagaEventStore::new *)
Definition new : t := ∅.

(** src: crates/server/domain/src/saga/event_sourcing.rs 465-468 InMemorySagaEventStore::clear *)
Definition clear : method t SagaEventStoreError.t unit := modify (fun _ => ∅).

(** The events of a saga; the entry of a saga without any is empty. *)
Definition log (i : SagaId) (store : t) : list SagaEvent.t := default [] (store !! i).

(** [entry(..).or_default()] leaves the empty entry also when it then refuses
    the event, which it only does when there is one. *)
(** src: crates/server/domain/src/saga/event_sourcing.rs 473-488 InMemorySagaEventStore::append_event *)
Definition append_event (e : SagaEvent.t) : method t SagaEventStoreError.t unit := fun store =>
  let events := log (SagaEvent.saga_id e) store in
  match last events with
  | Some l =>
      if SagaEvent.sequence_number e <=? SagaEvent.sequence_number l then
        (<[SagaEvent.saga_id e := events]> store,
         Err (SagaEventStoreError.InvalidSequence (u64_add (SagaEvent.sequence_number l) 1)
                (SagaEvent.sequence_number e)))
      else (<[SagaEvent.saga_id e := events ++ [e]]> store, Ok tt)
  | None => (<[SagaEvent.saga_id e := events ++ [e]]> store, Ok tt)
  end.

(** src: crates/server/domain/src/saga/event_sourcing.rs 490-495 InMemorySagaEventStore::append_events *)
Fixpoint append_events (events : list SagaEvent.t) : method t SagaEventStoreError.t unit :=
  match events with
  | [] => mret tt
  | e :: events => append_event e;; append_events events
  end.

(** src: crates/server/domain/src/saga/event_sourcing.rs 497-500 InMemorySagaEventStore::get_events *)
Definition get_events (i : SagaId) : method t SagaEventStoreError.t (list SagaEvent.t) :=
  store ← self; mret (log i store).

(** src: crates/server/domain/src/saga/event_sourcing.rs 502-518 InMemorySagaEventStore::get_events_since *)
Definition get_events_since (i : SagaId) (sequence : Z) :
    method t SagaEventStoreError.t (list SagaEvent.t) :=
  store ← self; mret (filter (fun e => sequence < SagaEvent.sequence_number e) (log i store)).

(** src: crates/server/domain/src/saga/event_sourcing.rs 520-526 InMemorySagaEventStore::get_latest_event *)
Definition get_latest_event (i : SagaId) : method t SagaEventStoreError.t (option SagaEvent.t) :=
  store ← self; mret (last (log i store)).

(** src: crates/server/domain/src/saga/event_sourcing.rs 528-531 InMemorySagaEventStore::get_event_count *)
Definition get_event_count (i : SagaId) : method t SagaEventStoreError.t Z :=
  store ← self; mret (as_u64 (Z.of_nat (length (log i store)))).

(** src: crates/server/domain/src/saga/event_sourcing.rs 533-538 InMemorySagaEventStore::delete_events_older_than *)
Definition delete_events_older_than (_ : DateTime) : method t SagaEventStoreError.t Z := mret 0.

(** src: crates/server/domain/src/saga/event_sourcing.rs 472-539 impl SagaEventStore for InMemorySagaEventStore *)
#[global] Instance event_store : SagaEventStore t := {|
  SagaEvents.append_event := append_event;
  SagaEvents.append_events := append_events;
  SagaEvents.get_events := get_events;
  SagaEvents.get_events_since := get_events_since;
  SagaEvents.get_latest_event := get_latest_event;
  SagaEvents.get_event_count := get_event_count;
  SagaEvents.delete_events_older_than := delete_events_older_than;
|}.

End store.
End InMemorySagaEventStore.

(** The layer has a store or none ([enabled]); the store is the world. *)
Module EventSourcingLayer.
Section layer.
Context `{E : Externs} `{MapOrder} {W : Type} `{!SagaEventStore W}.
Context (enabled : bool).

Definition record (e : SagaEvent.t) : method W SagaEventStoreError.t unit :=
  if enabled then append_event e;; mret tt else mret tt.

(** src: crates/server/domain/src/saga/event_sourcing.rs 574-589 EventSourcingLayer::record_created *)
Definition record_created (at_ : stamp) (i : SagaId) (ty : SagaType.t) (context : SagaContext.t) :
    method W SagaEventStoreError.t unit :=
  record (SagaEvent.created at_ i ty context
    (json_object [("saga_type", json_of_string (SagaType.as_str ty));
       ("metadata_keys", json_of_list (json_of_string <$> map_keys (SagaContext.metadata context)))])).

(** src: crates/server/domain/src/saga/event_sourcing.rs 591-610 EventSourcingLayer::record_step_started *)
Definition record_step_started (at_ : stamp) (i : SagaId) (ty : SagaType.t) (name : string)
    (number : Z) (context : SagaContext.t) : method W SagaEventStoreError.t unit :=
  record (SagaEvent.step_started at_ i ty name number context).

(** src: crates/server/domain/src/saga/event_sourcing.rs 612-633 EventSourcingLayer::record_step_completed *)
Definition record_step_completed (at_ : stamp) (i : SagaId) (ty : SagaType.t) (name : string)
    (number : Z) (output : Json) (context : SagaContext.t) : method W SagaEventStoreError.t unit :=
  record (SagaEvent.step_completed at_ i ty name number output context).

(** src: crates/server/domain/src/saga/event_sourcing.rs 635-656 EventSourcingLayer::record_step_failed *)
Definition record_step_failed (at_ : stamp) (i : SagaId) (ty : SagaType.t) (name : string)
    (number : Z) (error : string) (context : SagaContext.t) :
    method W SagaEventStoreError.t unit :=
  record (SagaEvent.step_failed at_ i ty name number error context).

(** src: crates/server/domain/src/saga/event_sourcing.rs 658-670 EventSourcingLayer::record_completed *)
Definition record_completed (at_ : stamp) (i : SagaId) (ty : SagaType.t) (steps : Z)
    (context : SagaContext.t) : method W SagaEventStoreError.t unit :=
  record (SagaEvent.completed at_ i ty steps context).

(** src: crates/server/domain/src/saga/event_sourcing.rs 672-691 EventSourcingLayer::record_failed *)
Definition record_failed (at_ : stamp) (i : SagaId) (ty : SagaType.t) (steps : Z) (error : string)
    (context : SagaContext.t) : method W SagaEventStoreError.t unit :=
  record (SagaEvent.failed at_ i ty steps error context).

(** src: crates/server/domain/src/saga/event_sourcing.rs 693-703 EventSourcingLayer::reconstruct_state *)
Definition reconstruct_state (i : SagaId) :
    method W SagaEventStoreError.t (option EventSourcedSagaState.t) :=
  if enabled then events ← get_events i; mret (EventSourcedSagaState.from_events events)
  else mret None.

End layer.
End EventSourcingLayer.

(** ** The log of a saga *)

Lemma sort_by_sorted {A} (le : A -> A -> bool) l :
  StronglySorted (fun a b => le a b = true) l -> sort_by le l = l.
Proof.
  intros Hl. induction Hl as [|x l Hl IH Hx]; [done|]. unfold sort_by in *. simpl. rewrite IH.
  destruct Hx as [|y l Hxy _]; [done|]. simpl. by rewrite Hxy.
Qed.

Lemma last_le {A} (R : A -> A -> Prop) l x y :
  StronglySorted R l -> last l = Some y -> x ∈ l -> x = y \/ R x y.
Proof.
  intros Hl. revert x y. induction Hl as [|z l Hl IH Hz]; intros x y Hlast Hx; [done|].
  destruct l as [|z' l].
  - simplify_eq/=. apply list_elem_of_singleton in Hx as ->. by left.
  - change (last (z' :: l) = Some y) in Hlast. apply elem_of_cons in Hx as [->|Hx]; [right|by apply IH].
    rewrite Forall_forall in Hz. apply Hz. apply last_Some in Hlast as [l' ->].
    apply elem_of_app. right. by apply list_elem_of_singleton.
Qed.

Lemma StronglySorted_snoc {A} (R : A -> A -> Prop) l x :
  StronglySorted R l -> Forall (fun y => R y x) l -> StronglySorted R (l ++ [x]).
Proof.
  intros Hl. induction Hl as [|z l Hl IH Hz]; intros Hx; [by repeat constructor|].
  inversion Hx as [|? ? Hzx Hx']; subst. constructor; [by apply IH|].
  apply Forall_app. split; [done|by repeat constructor].
Qed.

Section log.
Context `{E : Externs}.
Import SagaEvent InMemorySagaEventStore.
Implicit Types (store : InMemorySagaEventStore.t) (e l : SagaEvent.t).

Definition sooner (a b : SagaEvent.t) : Prop := sequence_number a < sequence_number b.

#[global] Instance sooner_trans : Transitive sooner.
Proof. intros a b c. unfold sooner. lia. Qed.

(** The logs of a store: in the order of their numbers, each of its own saga. *)
Definition ordered store : Prop := forall i,
  StronglySorted sooner (log i store) /\
  Forall (fun e => saga_id e = i /\ u64 (sequence_number e)) (log i store).

Lemma log_insert store i j es : log j (<[i := es]> store) = if decide (i = j) then es else log j store.
Proof.
  unfold log, InMemorySagaEventStore.t in *. rewrite (lookup_insert store). by case_decide.
Qed.

(** An event is refused, and no log changes; or it is put at the end of its log. *)
Lemma append_event_spec store e :
  match append_event e store with
  | (store', Ok _) =>
      (forall l, last (log (saga_id e) store) = Some l -> sooner l e) /\
      forall j, log j store' =
        if decide (saga_id e = j) then log (saga_id e) store ++ [e] else log j store
  | (store', Err x) =>
      (exists l, last (log (saga_id e) store) = Some l /\ sequence_number e <= sequence_number l /\
         x = SagaEventStoreError.InvalidSequence (u64_add (sequence_number l) 1) (sequence_number e)) /\
      forall j, log j store' = log j store
  end.
Proof.
  unfold append_event. destruct (last _) as [l|] eqn:Hlast.
  - destruct (Z.leb_spec (sequence_number e) (sequence_number l)); split.
    + by exists l.
    + intros j. rewrite log_insert. case_decide; by subst.
    + by intros l' [= <-].
    + intros j. apply log_insert.
  - split; [done|]. intros j. apply log_insert.
Qed.

Lemma append_refused store e l :
  last (log (saga_id e) store) = Some l -> sequence_number e <= sequence_number l ->
  exists x, returns (append_event e) store = Err x.
Proof.
  intros Hlast Hle. pose proof (append_event_spec store e) as Hspec. unfold returns.
  destruct (append_event e store) as [store' [[]|x]]; [|by exists x].
  destruct Hspec as [Hs _]. specialize (Hs l Hlast). unfold sooner in Hs. lia.
Qed.

Lemma append_event_ordered store e :
  u64 (sequence_number e) -> ordered store -> ordered (after (append_event e) store).
Proof.
  intros He Hs. pose proof (append_event_spec store e) as Hspec. unfold after.
  destruct (append_event e store) as [store' [u|x]]; destruct Hspec as [Hlast Hlog]; intros i; simpl;
    rewrite Hlog; [|apply Hs]. case_decide as Hi; [subst i|apply Hs].
  destruct (Hs (saga_id e)) as [Hsort Hall]. split.
  - apply StronglySorted_snoc; [done|]. apply Forall_forall. intros y Hy.
    destruct (last (log (saga_id e) store)) as [l|] eqn:Hl.
    + specialize (Hlast l eq_refl). destruct (last_le _ _ y l Hsort Hl Hy) as [->|Hyl]; [done|].
      by etrans.
    + apply last_None in Hl. rewrite Hl in Hy. by apply elem_of_nil in Hy.
  - apply Forall_app. split; [done|]. apply Forall_singleton. done.
Qed.

(** Attempts to append, whatever is answered. *)
Definition attempts (es : list SagaEvent.t) store : InMemorySagaEventStore.t :=
  fold_left (fun st e => after (append_event e) st) es store.

(** The last event of a log only moves on. *)
Lemma attempts_last es store i l :
  last (log i store) = Some l ->
  exists l', last (log i (attempts es store)) = Some l' /\
    (sequence_number l <= sequence_number l').
Proof.
  revert store l. induction es as [|e es IH]; intros store l Hl; [by exists l|].
  change (attempts (e :: es) store) with (attempts es (append_event e store).1).
  pose proof (append_event_spec store e) as Hspec.
  destruct (append_event e store) as [store' [u|x]]; destruct Hspec as [Hlast Hlog]; simpl.
  - assert (exists l1, last (log i store') = Some l1 /\ sequence_number l <= sequence_number l1)
      as (l1 & Hl1 & Hle).
    { rewrite Hlog. case_decide as Hi; [|by exists l]. subst i. exists e.
      rewrite last_snoc. split; [done|]. specialize (Hlast l Hl). unfold sooner in Hlast. lia. }
    destruct (IH store' l1 Hl1) as (l' & Hl' & Hle'). exists l'. split; [done|lia].
  - apply IH. by rewrite Hlog.
Qed.

(** *** Replaying *)

Lemma from_events_ordered es :
  StronglySorted sooner es ->
  EventSourcedSagaState.from_events es =
    match es with
    | [] => None
    | e :: _ => Some (fold_left EventSourcedSagaState.apply es (EventSourcedSagaState.initial e))
    end.
Proof.
  intros Hes. unfold EventSourcedSagaState.from_events. rewrite sort_by_sorted; [by destruct es|].
  induction Hes as [|e es _ IH He]; constructor; [done|].
  eapply Forall_impl; [exact He|]. intros e'. unfold sooner, EventSourcedSagaState.not_later. lia.
Qed.

Lemma from_events_snoc es e :
  StronglySorted sooner (es ++ [e]) ->
  EventSourcedSagaState.from_events (es ++ [e]) =
    Some (EventSourcedSagaState.apply
      (default (EventSourcedSagaState.initial e) (EventSourcedSagaState.from_events es)) e).
Proof.
  intros H. rewrite from_events_ordered by done.
  apply StronglySorted_app_1_l in H. rewrite (from_events_ordered es) by done.
  destruct es as [|e0 es]; [done|]. simpl. by rewrite fold_left_app.
Qed.
End log.

(** ** What the layer records *)

Section layer.
Context `{E : Externs} `{MapOrder}.
Import SagaEvent InMemorySagaEventStore EventSourcingLayer.
Implicit Types store : InMemorySagaEventStore.t.

Lemma returns_record e store :
  returns (record true e) store = returns (append_event e) store.
Proof.
  unfold returns, record, mbind, method_bind. simpl.
  by destruct (append_event e store) as [store' [[]|x]].
Qed.

Lemma after_record e store : after (record true e) store = after (append_event e) store.
Proof.
  unfold after, record, mbind, method_bind. simpl.
  by destruct (append_event e store) as [store' [[]|x]].
Qed.

Lemma returns_reconstruct i store :
  returns (reconstruct_state true i) store = Ok (EventSourcedSagaState.from_events (log i store)).
Proof. done. Qed.

Lemma reconstruct_append e store i :
  ordered store -> u64 (sequence_number e) ->
  returns (reconstruct_state true i) (after (append_event e) store) = Ok
    (if bool_decide (saga_id e = i) && is_ok (returns (append_event e) store) then
       Some (EventSourcedSagaState.apply (default (EventSourcedSagaState.initial e)
         (EventSourcedSagaState.from_events (log i store))) e)
     else EventSourcedSagaState.from_events (log i store)).
Proof.
  intros Hs He. pose proof (append_event_ordered store e He Hs) as Hs'.
  rewrite returns_reconstruct. f_equal.
  pose proof (append_event_spec store e) as Hspec. unfold after, returns in *.
  destruct (append_event e store) as [store' [[]|x]]; destruct Hspec as [_ Hlog]; simpl in *.
  - rewrite Hlog. case_bool_decide as Hi; simpl; [subst i|by rewrite decide_False].
    rewrite decide_True by done. apply from_events_snoc.
    specialize (Hs' (saga_id e)) as [Hsort _]. by rewrite Hlog, decide_True in Hsort.
  - rewrite andb_false_r. by rewrite Hlog.
Qed.

(** The replayed state is kept up to date by applying each event as it is
    appended: after an append that succeeds, reconstructing the state of a saga
    gives the state before with the event applied, an event that is refused
    changes no state, and the logs stay ordered. *)
Theorem replay_is_incremental e store :
  ordered store -> u64 (sequence_number e) ->
  ordered (after (append_event e) store) /\
  forall i, returns (reconstruct_state true i) (after (append_event e) store) = Ok
    (if bool_decide (saga_id e = i) && is_ok (returns (append_event e) store) then
       Some (EventSourcedSagaState.apply (default (EventSourcedSagaState.initial e)
         (EventSourcedSagaState.from_events (log i store))) e)
     else EventSourcedSagaState.from_events (log i store)).
Proof. intros Hs He. split; [by apply append_event_ordered|]. intros i. by apply reconstruct_append. Qed.

Lemma record_refused e store l :
  last (log (saga_id e) store) = Some l -> sequence_number e <= sequence_number l ->
  is_err (returns (record true e) store) = true.
Proof.
  intros Hl Hle. rewrite returns_record. by destruct (append_refused store e l Hl Hle) as [x ->].
Qed.

Lemma record_ok_last e store :
  returns (record true e) store = Ok tt ->
  last (log (saga_id e) (after (record true e) store)) = Some e.
Proof.
  rewrite returns_record, after_record. intros Hok.
  pose proof (append_event_spec store e) as Hspec. unfold returns, after in *.
  destruct (append_event e store) as [store' [u|x]]; [|done]. simpl in *.
  destruct Hspec as [_ ->]. by rewrite decide_True, last_snoc.
Qed.

(** C10: the end of a step cannot be recorded: once the start of a step is in the
    log, the event that completes or fails that step has the same sequence
    number and is refused, whatever was appended in between. *)
Theorem finished_steps_are_refused at1 i ty name number context store es :
  returns (record_step_started true at1 i ty name number context) store = Ok tt ->
  let store' := attempts es (after (record_step_started true at1 i ty name number context) store) in
  forall at2 ty' name' output error context',
    is_err (returns (record_step_completed true at2 i ty' name' number output context') store') = true /\
    is_err (returns (record_step_failed true at2 i ty' name' number error context') store') = true.
Proof.
  intros Hok store' at2 ty' name' output error context'.
  apply record_ok_last in Hok. apply (attempts_last es) in Hok as (l & Hl & Hle).
  split; (eapply record_refused; [exact Hl|exact Hle]).
Qed.

Lemma terminal_applied e s :
  SagaEvent.event_type e = SagaEventType.Completed \/
  SagaEvent.event_type e = SagaEventType.Failed \/
  SagaEvent.event_type e = SagaEventType.Cancelled ->
  EventSourcedSagaState.is_terminal (EventSourcedSagaState.apply s e) = true.
Proof.
  unfold EventSourcedSagaState.apply, EventSourcedSagaState.apply_type.
  by intros [->|[->| ->]].
Qed.

(** The events that end a saga. *)
Definition ends (i : SagaId) e : Prop :=
  (exists at_ ty steps context, e = SagaEvent.completed at_ i ty steps context) \/
  (exists at_ ty steps error context, e = SagaEvent.failed at_ i ty steps error context) \/
  (exists at_ ty steps compensations context,
     e = SagaEvent.cancelled at_ i ty steps compensations context).

Lemma ends_fields i e : ends i e ->
  saga_id e = i /\ sequence_number e = u64_max /\
  forall s, EventSourcedSagaState.is_terminal (EventSourcedSagaState.apply s e) = true.
Proof.
  by intros [(? & ? & ? & ? & ->)|[(? & ? & ? & ? & ? & ->)|(? & ? & ? & ? & ? & ->)]];
    (split_and!; [done..|]); intros s; apply terminal_applied; simpl; auto.
Qed.

(** Nothing is put behind the greatest number. *)
Lemma attempts_at_end es i l store :
  Forall (fun e => u64 (sequence_number e)) es ->
  last (log i store) = Some l -> sequence_number l = u64_max -> log i (attempts es store) = log i store.
Proof.
  intros Hes Hl Hmax. revert store Hl. induction Hes as [|e es He _ IH]; intros store Hl; [done|].
  change (attempts (e :: es) store) with (attempts es (append_event e store).1).
  pose proof (append_event_spec store e) as Hspec.
  destruct (append_event e store) as [store' [u|x]]; destruct Hspec as [Hlast Hlog]; simpl.
  - assert (log i store' = log i store) as Hi.
    { rewrite Hlog. case_decide as Hi; [|done]. subst i. specialize (Hlast l Hl).
      unfold sooner, u64, u64_max in *. lia. }
    rewrite IH; [done|by rewrite Hi].
  - rewrite IH; by rewrite Hlog.
Qed.

(** A recorded end is final: after the event that completes, fails or
    cancels a saga, the saga's replayed state is terminal, and no later event
    is accepted for it or changes that state. *)
Theorem terminal_events_are_final i e store es :
  ordered store -> ends i e -> returns (record true e) store = Ok tt ->
  Forall (fun e => u64 (sequence_number e)) es ->
  exists s, EventSourcedSagaState.is_terminal s = true /\
    returns (reconstruct_state true i) (attempts es (after (record true e) store)) = Ok (Some s) /\
    forall e', saga_id e' = i -> u64 (sequence_number e') ->
      is_err (returns (record true e') (attempts es (after (record true e) store))) = true.
Proof.
  intros Hs (<- & Hmax & Hterm)%ends_fields Hok Hes.
  pose proof (record_ok_last e store Hok) as Hlast. rewrite after_record in *.
  rewrite returns_record in Hok.
  pose proof (attempts_at_end es (saga_id e) e _ Hes Hlast Hmax) as Hlog.
  assert (u64 (sequence_number e)) as He by (rewrite Hmax; unfold u64, u64_max; lia).
  pose proof (reconstruct_append e store (saga_id e) Hs He) as Hre.
  rewrite bool_decide_eq_true_2, Hok in Hre by done. simpl in Hre.
  eexists. split; [by apply Hterm|]. rewrite returns_reconstruct, Hlog, <- returns_reconstruct.
  split; [exact Hre|]. intros e' Hi Hu. rewrite <- Hlog in Hlast. eapply record_refused.
  - by rewrite Hi.
  - rewrite Hmax. unfold u64, u64_max in *. lia.
Qed.
End layer.

(** ** A log *)

Definition example_stamp : stamp (E := concrete) := @mk_stamp concrete 0%nat 7 7.

Definition example_context : SagaContext.t (E := concrete) :=
  SagaContext.new (E := concrete) 1%nat SagaType.Execution None None 5.

Definition started_log : InMemorySagaEventStore.t (E := concrete) :=
  after (EventSourcingLayer.record_step_started (E := concrete) true example_stamp 1%nat
    SagaType.Execution "ValidateJob" 0 example_context) (InMemorySagaEventStore.new (E := concrete)).

Lemma new_ordered : ordered (E := concrete) (InMemorySagaEventStore.new (E := concrete)).
Proof. intros i. split; constructor. Qed.

Example replay_is_incremental_witness :
  ordered (E := concrete) started_log.
Proof.
  apply (replay_is_incremental (E := concrete)
    (SagaEvent.step_started (E := concrete) example_stamp 1%nat SagaType.Execution "ValidateJob" 0
       example_context) (InMemorySagaEventStore.new (E := concrete)) new_ordered).
  vm_compute. split; [discriminate|reflexivity].
Defined.

Example finished_steps_are_refused_witness :
  is_err (returns (EventSourcingLayer.record_step_completed (E := concrete) true example_stamp 1%nat
    SagaType.Execution "ValidateJob" 0 JObj example_context) started_log) = true.
Proof.
  assert (returns (EventSourcingLayer.record_step_started (E := concrete) true example_stamp 1%nat
    SagaType.Execution "ValidateJob" 0 example_context) (InMemorySagaEventStore.new (E := concrete))
    = Ok tt) as Hok by (vm_compute; reflexivity).
  exact (proj1 (finished_steps_are_refused (E := concrete) example_stamp 1%nat SagaType.Execution
    "ValidateJob" 0 example_context (InMemorySagaEventStore.new (E := concrete)) [] Hok
    example_stamp SagaType.Execution "ValidateJob" JObj "" example_context)).
Defined.

Example terminal_events_are_final_witness :
  exists s, EventSourcedSagaState.is_terminal (E := concrete) s = true.
Proof.
  destruct (terminal_events_are_final (E := concrete) 1%nat
    (SagaEvent.completed (E := concrete) example_stamp 1%nat SagaType.Execution 1 example_context)
    (InMemorySagaEventStore.new (E := concrete)) []) as (s & Hs & _).
  - exact new_ordered.
  - left. exists example_stamp, SagaType.Execution, 1, example_context. reflexivity.
  - vm_compute. reflexivity.
  - constructor.
  - exists s. exact Hs.
Defined.
