(* ===== verification/SagaStores.v ===== *)
(** * In front of the saga repository ([crates/server/domain/src/saga/])

    The repository of sagas as an interface ([repository.rs]), the cache of
    steps in front of it ([cached_repository.rs]), the detector of stuck sagas
    ([stuck_detector.rs]) and the configuration of the engine
    ([engine_config.rs]).

    Calls of the repository and accesses of the cache, which is under a lock,
    are steps between which other tasks may run. *)

From S2P Require Import Prelude Effects Std Externs SagaTypes Tasks.

(** The world holds what the repository does: the database, the transaction a
    call may be in, and the monotonic clock. *)
(** src: crates/server/domain/src/saga/repository.rs 17-184 SagaRepository *)
Class SagaRepository `{E : Externs} (W X : Type) := {
  repo_save : SagaContext.t -> method W X unit;
  repo_create_if_not_exists : SagaContext.t -> method W X bool;
  repo_find_by_id : SagaId -> method W X (option SagaContext.t);
  repo_find_by_type : SagaType.t -> method W X (list SagaContext.t);
  repo_find_by_state : SagaState.t -> method W X (list SagaContext.t);
  repo_find_by_correlation_id : string -> method W X (list SagaContext.t);
  repo_update_state : SagaId -> SagaState.t -> option string -> method W X unit;
  repo_mark_compensating : SagaId -> method W X unit;
  repo_delete : SagaId -> method W X bool;
  repo_save_step : SagaStepData.t -> method W X unit;
  repo_find_step_by_id : Uuid -> method W X (option SagaStepData.t);
  repo_find_steps_by_saga_id : SagaId -> method W X (list SagaStepData.t);
  repo_update_step_state : Uuid -> SagaStepState.t -> option Json -> method W X unit;
  repo_update_step_compensation : Uuid -> Json -> method W X unit;
  repo_count_active : method W X Z;
  repo_count_by_type_and_state : SagaType.t -> SagaState.t -> method W X Z;
  repo_avg_duration : method W X (option Duration);
  repo_cleanup_completed : Duration -> method W X Z;
  repo_claim_pending_sagas : Z -> string -> method W X (list SagaContext.t);
  repo_save_with_tx : SagaContext.t -> method W X unit;
  repo_update_state_with_tx : SagaId -> SagaState.t -> option string -> method W X unit;
  repo_save_step_with_tx : SagaStepData.t -> method W X unit;
  repo_update_step_state_with_tx : Uuid -> SagaStepState.t -> option Json -> method W X unit;
  repo_update_step_compensation_with_tx : Uuid -> Json -> method W X unit;
  repo_error_debug : X -> string;
}.

Module CacheEntry.
Section entry.
Context `{E : Externs}.

(** src: crates/server/domain/src/saga/cached_repository.rs 25-29 CacheEntry *)
Record t := mk { key : SagaId; value : list SagaStepData.t; cached_at : Z }.

End entry.
End CacheEntry.

Module TtlCache.
Section cache.
Context `{E : Externs}.
Import CacheEntry.

(** The entries, oldest first; the capacity and the time to live are those of
    the repository in front of which the cache is. *)
(** src: crates/server/domain/src/saga/cached_repository.rs 19-23 TtlCache *)
Definition t : Type := list CacheEntry.t.

(** src: crates/server/domain/src/saga/cached_repository.rs 32-38 TtlCache::new *)
Definition new : t := [].

(** [now.duration_since(e.cached_at)] is zero for a later [cached_at]. *)
(** src: crates/server/domain/src/saga/cached_repository.rs 40-47 TtlCache::get *)
Definition get (ttl : Duration) (k : SagaId) (now : Z) (entries : t) : option (list SagaStepData.t) :=
  match list_find (fun e => key e = k /\ Z.max 0 (now - cached_at e) < ttl) entries with
  | Some (_, e) => Some (value e)
  | None => None
  end.

(** src: crates/server/domain/src/saga/cached_repository.rs 49-67 TtlCache::insert *)
Definition insert (capacity : nat) (k : SagaId) (v : list SagaStepData.t) (now : Z) (entries : t) : t :=
  let entries := filter (fun e => key e <> k) entries ++ [CacheEntry.mk k v now] in
  drop (length entries - capacity) entries.

(** src: crates/server/domain/src/saga/cached_repository.rs 69-72 TtlCache::clear *)
Definition clear (_ : t) : t := [].

(** src: crates/server/domain/src/saga/cached_repository.rs 74-77 TtlCache::len *)
Definition len (entries : t) : nat := length entries.

End cache.
End TtlCache.

Module CachedSagaRepository.

(** src: crates/server/domain/src/saga/cached_repository.rs 93-97 CacheStats *)
Record CacheStats := mk_stats { capacity : nat; ttl_seconds : Z; items : nat }.

Section repository.
Context `{E : Externs} {W X : Type} `{!SagaRepository W X}.
Context (instant : W -> Z).

(** src: crates/server/domain/src/saga/cached_repository.rs 85-90 CachedSagaRepository *)
Record world := mk { inner : W; steps_cache : TtlCache.t; ttl : Duration; cache_capacity : nat }.

#[global] Instance world_rebuild : Rebuild world := fun w =>
  mk (inner w) (steps_cache w) (ttl w) (cache_capacity w).

(** src: crates/server/domain/src/saga/cached_repository.rs 106-113 CachedSagaRepository::with_config *)
Definition with_config (w : W) (capacity : nat) (d : Duration) : world :=
  mk w TtlCache.new d capacity.

(** src: crates/server/domain/src/saga/cached_repository.rs 101-103 CachedSagaRepository::new *)
Definition new (w : W) : world := with_config w 1000 (from_secs 5).

Definition on_inner {A} (m : method W X A) : process world X A :=
  atomically (zoomed inner (fun v w => w <| inner := v |>) m).

(** src: crates/server/domain/src/saga/cached_repository.rs 116-118 CachedSagaRepository::clear_cache *)
Definition clear_cache : process world X unit :=
  atomically (modify (fun w => w <| steps_cache := TtlCache.clear (steps_cache w) |>)).

(** src: crates/server/domain/src/saga/cached_repository.rs 121-127 CachedSagaRepository::cache_stats *)
Definition cache_stats (w : world) : CacheStats :=
  mk_stats (cache_capacity w) (as_secs (ttl w)) (TtlCache.len (steps_cache w)).

(** A call of the repository that clears the cache when it is answered with
    [Ok]. *)
Definition writing {A} (m : method W X A) : process world X A :=
  result ← on_inner m; clear_cache;; mret result.

(** src: crates/server/domain/src/saga/cached_repository.rs 134-138 CachedSagaRepository::save *)
Definition save (context : SagaContext.t) : process world X unit := writing (repo_save context).

(** src: crates/server/domain/src/saga/cached_repository.rs 140-146 CachedSagaRepository::create_if_not_exists *)
Definition create_if_not_exists (context : SagaContext.t) : process world X bool :=
  result ← on_inner (repo_create_if_not_exists context);
  (if result : bool then clear_cache else mret tt);;
  mret result.

(** src: crates/server/domain/src/saga/cached_repository.rs 148-151 CachedSagaRepository::find_by_id *)
Definition find_by_id (i : SagaId) : process world X (option SagaContext.t) :=
  on_inner (repo_find_by_id i).

(** src: crates/server/domain/src/saga/cached_repository.rs 153-155 CachedSagaRepository::find_by_type *)
Definition find_by_type (ty : SagaType.t) : process world X (list SagaContext.t) :=
  on_inner (repo_find_by_type ty).

(** src: crates/server/domain/src/saga/cached_repository.rs 157-159 CachedSagaRepository::find_by_state *)
Definition find_by_state (s : SagaState.t) : process world X (list SagaContext.t) :=
  on_inner (repo_find_by_state s).

(** src: crates/server/domain/src/saga/cached_repository.rs 161-166 CachedSagaRepository::find_by_correlation_id *)
Definition find_by_correlation_id (c : string) : process world X (list SagaContext.t) :=
  on_inner (repo_find_by_correlation_id c).

(** src: crates/server/domain/src/saga/cached_repository.rs 168-179 CachedSagaRepository::update_state *)
Definition update_state (i : SagaId) (s : SagaState.t) (m : option string) : process world X unit :=
  writing (repo_update_state i s m).

(** src: crates/server/domain/src/saga/cached_repository.rs 181-185 CachedSagaRepository::mark_compensating *)
Definition mark_compensating (i : SagaId) : process world X unit := writing (repo_mark_compensating i).

(** src: crates/server/domain/src/saga/cached_repository.rs 187-191 CachedSagaRepository::delete *)
Definition delete (i : SagaId) : process world X bool := writing (repo_delete i).

(** src: crates/server/domain/src/saga/cached_repository.rs 193-197 CachedSagaRepository::save_step *)
Definition save_step (s : SagaStepData.t) : process world X unit := writing (repo_save_step s).

(** src: crates/server/domain/src/saga/cached_repository.rs 199-204 CachedSagaRepository::find_step_by_id *)
Definition find_step_by_id (i : Uuid) : process world X (option SagaStepData.t) :=
  on_inner (repo_find_step_by_id i).

Definition cached_steps (i : SagaId) : method world X (option (list SagaStepData.t)) := fun w =>
  (w, Ok (TtlCache.get (ttl w) i (instant (inner w)) (steps_cache w))).

Definition cache_steps (i : SagaId) (steps : list SagaStepData.t) : method world X unit :=
  modify (fun w => w <| steps_cache :=
    TtlCache.insert (cache_capacity w) i steps (instant (inner w)) (steps_cache w) |>).

(** The cache is read, the repository, and the cache written, in three steps. *)
(** src: crates/server/domain/src/saga/cached_repository.rs 206-222 CachedSagaRepository::find_steps_by_saga_id *)
Definition find_steps_by_saga_id (i : SagaId) : process world X (list SagaStepData.t) :=
  cached ← atomically (cached_steps i);
  match cached with
  | Some steps => mret steps
  | None =>
      steps ← on_inner (repo_find_steps_by_saga_id i);
      atomically (cache_steps i steps);;
      mret steps
  end.

(** src: crates/server/domain/src/saga/cached_repository.rs 224-233 CachedSagaRepository::update_step_state *)
Definition update_step_state (i : Uuid) (s : SagaStepState.t) (output : option Json) :
    process world X unit := writing (repo_update_step_state i s output).

(** src: crates/server/domain/src/saga/cached_repository.rs 235-245 CachedSagaRepository::update_step_compensation *)
Definition update_step_compensation (i : Uuid) (data : Json) : process world X unit :=
  writing (repo_update_step_compensation i data).

(** src: crates/server/domain/src/saga/cached_repository.rs 247-249 CachedSagaRepository::count_active *)
Definition count_active : process world X Z := on_inner repo_count_active.

(** src: crates/server/domain/src/saga/cached_repository.rs 251-257 CachedSagaRepository::count_by_type_and_state *)
Definition count_by_type_and_state (ty : SagaType.t) (s : SagaState.t) : process world X Z :=
  on_inner (repo_count_by_type_and_state ty s).

(** src: crates/server/domain/src/saga/cached_repository.rs 259-261 CachedSagaRepository::avg_duration *)
Definition avg_duration : process world X (option Duration) := on_inner repo_avg_duration.

(** src: crates/server/domain/src/saga/cached_repository.rs 263-267 CachedSagaRepository::cleanup_completed *)
Definition cleanup_completed (d : Duration) : process world X Z := writing (repo_cleanup_completed d).

(** src: crates/server/domain/src/saga/cached_repository.rs 269-275 CachedSagaRepository::claim_pending_sagas *)
Definition claim_pending_sagas (limit : Z) (instance : string) : process world X (list SagaContext.t) :=
  on_inner (repo_claim_pending_sagas limit instance).

(** src: crates/server/domain/src/saga/cached_repository.rs 279-287 CachedSagaRepository::save_with_tx *)
Definition save_with_tx (context : SagaContext.t) : process world X unit :=
  writing (repo_save_with_tx context).

(** src: crates/server/domain/src/saga/cached_repository.rs 289-301 CachedSagaRepository::update_state_with_tx *)
Definition update_state_with_tx (i : SagaId) (s : SagaState.t) (m : option string) :
    process world X unit := writing (repo_update_state_with_tx i s m).

(** src: crates/server/domain/src/saga/cached_repository.rs 303-311 CachedSagaRepository::save_step_with_tx *)
Definition save_step_with_tx (s : SagaStepData.t) : process world X unit :=
  writing (repo_save_step_with_tx s).

(** src: crates/server/domain/src/saga/cached_repository.rs 313-325 CachedSagaRepository::update_step_state_with_tx *)
Definition update_step_state_with_tx (i : Uuid) (s : SagaStepState.t) (output : option Json) :
    process world X unit := writing (repo_update_step_state_with_tx i s output).

(** src: crates/server/domain/src/saga/cached_repository.rs 327-338 CachedSagaRepository::update_step_compensation_with_tx *)
Definition update_step_compensation_with_tx (i : Uuid) (data : Json) : process world X unit :=
  writing (repo_update_step_compensation_with_tx i data).

End repository.
Arguments world {E} W.
End CachedSagaRepository.

(** ** Stuck sagas *)

Module StuckSagaDetectorConfig.

(** src: crates/server/domain/src/saga/stuck_detector.rs 18-27 StuckSagaDetectorConfig *)
Record t := mk {
  stuck_threshold : Duration;
  compensating_threshold : Duration;
  check_interval : Duration;
  auto_recover : bool;
}.

(** src: crates/server/domain/src/saga/stuck_detector.rs 29-38 impl Default for StuckSagaDetectorConfig *)
Definition default : t := mk (from_secs 600) (from_secs 300) (from_secs 60) false.

End StuckSagaDetectorConfig.

Module StuckSagaInfo.
Section info.
Context `{E : Externs}.

(** src: crates/server/domain/src/saga/stuck_detector.rs 42-51 StuckSagaInfo *)
Record t := mk { saga_id : SagaId; state : SagaState.t; stuck_duration : Duration; reason : string }.

End info.
End StuckSagaInfo.

Module StuckSagaDetectorError.
Section error.
Context `{E : Externs}.

(** src: crates/server/domain/src/saga/stuck_detector.rs 78-87 StuckSagaDetectorError *)
Inductive t :=
  | RepositoryError (message : string)
  | SagaNotFound (saga_id : SagaId)
  | RecoveryFailed (saga_id : SagaId) (message : string).

(** src: crates/server/domain/src/saga/stuck_detector.rs 77-87 Display for StuckSagaDetectorError *)
Definition fmt (e : t) : string :=
  match e with
  | RepositoryError m => "Repository error: " +:+ m
  | SagaNotFound i => "Saga not found: " +:+ uuid_to_string i
  | RecoveryFailed i m => "Recovery failed for saga " +:+ uuid_to_string i +:+ ": " +:+ m
  end.

End error.
End StuckSagaDetectorError.

Module InMemoryStuckSagaDetector.
Section detector.
Context `{E : Externs} {W X : Type} `{!SagaRepository W X}.
Context (config : StuckSagaDetectorConfig.t).
Import StuckSagaDetectorConfig.

Definition repository_error (e : X) : StuckSagaDetectorError.t :=
  StuckSagaDetectorError.RepositoryError (repo_error_debug e).

(** What the message of a stuck saga says of its state. *)
Definition described (s : SagaState.t) : option string :=
  match s with
  | SagaState.InProgress => Some "in progress"
  | SagaState.Compensating => Some "compensating"
  | SagaState.Pending => Some "pending"
  | _ => None
  end.

Definition threshold (s : SagaState.t) : option Duration :=
  match s with
  | SagaState.InProgress | SagaState.Pending => Some (stuck_threshold config)
  | SagaState.Compensating => Some (compensating_threshold config)
  | _ => None
  end.

(** Whole seconds since the saga was started, none when that is in the future. *)
Definition elapsed (now : DateTime) (c : SagaContext.t) : Duration :=
  from_secs (Z.max 0 (num_seconds (signed_duration_since now (SagaContext.started_at c)))).

(** src: crates/server/domain/src/saga/stuck_detector.rs 146-192 InMemoryStuckSagaDetector::detect_stuck_sagas (a saga) *)
Definition examine (now : DateTime) (c : SagaContext.t) : option StuckSagaInfo.t :=
  d ← threshold (SagaContext.state c);
  if d <? elapsed now c then
    what ← described (SagaContext.state c);
    Some (StuckSagaInfo.mk (SagaContext.saga_id c) (SagaContext.state c) (elapsed now c)
      ("Saga has been " +:+ what +:+ " for " +:+ duration_debug (elapsed now c) +:+
       " (threshold: " +:+ duration_debug d +:+ ")"))
  else None.

(** src: crates/server/domain/src/saga/stuck_detector.rs 110-202 InMemoryStuckSagaDetector::detect_stuck_sagas *)
Definition detect_stuck_sagas (now : DateTime) :
    method W StuckSagaDetectorError.t (list StuckSagaInfo.t) :=
  in_progress ← mapping_error (repo_find_by_state SagaState.InProgress) repository_error;
  compensating ← mapping_error (repo_find_by_state SagaState.Compensating) repository_error;
  pending ← mapping_error (repo_find_by_state SagaState.Pending) repository_error;
  mret (omap (examine now) (in_progress ++ compensating ++ pending)).

Definition fail_saga (i : SagaId) (message : string) : method W StuckSagaDetectorError.t unit :=
  mapping_error (repo_update_state i SagaState.Failed (Some message))
    (fun e => StuckSagaDetectorError.RecoveryFailed i (repo_error_debug e)).

(** src: crates/server/domain/src/saga/stuck_detector.rs 204-260 InMemoryStuckSagaDetector::recover_saga *)
Definition recover_saga (i : SagaId) : method W StuckSagaDetectorError.t unit :=
  found ← mapping_error (repo_find_by_id i) repository_error;
  match found with
  | None => throw (StuckSagaDetectorError.SagaNotFound i)
  | Some c =>
      match SagaContext.state c with
      | SagaState.InProgress | SagaState.Pending =>
          fail_saga i "Marked as failed by stuck saga detector"
      | SagaState.Compensating =>
          fail_saga i "Compensation timed out - marked as failed by stuck saga detector"
      | _ => mret tt
      end
  end.

End detector.
End InMemoryStuckSagaDetector.

(** ** The configuration of the engine *)

Module SagaFeature.

(** src: crates/server/domain/src/saga/engine_config.rs 164-171 SagaFeature *)
Inductive t := RealCompensation | SagaResume | LockedPolling.

End SagaFeature.

Module SagaEngineConfig.

(** src: crates/server/domain/src/saga/engine_config.rs 22-49 SagaEngineConfig *)
Record t := mk {
  enable_real_compensation : bool;
  enable_saga_resume : bool;
  enable_locked_polling : bool;
  stuck_saga_timeout_seconds : Z;
  max_compensation_retries : Z;
  safety_polling_interval_seconds : Z;
}.

#[global] Instance t_rebuild : Rebuild t := fun c =>
  mk (enable_real_compensation c) (enable_saga_resume c) (enable_locked_polling c)
    (stuck_saga_timeout_seconds c) (max_compensation_retries c) (safety_polling_interval_seconds c).

(** src: crates/server/domain/src/saga/engine_config.rs 67-78 impl Default for SagaEngineConfig *)
Definition default : t := mk true true true 300 3 300.

(** src: crates/server/domain/src/saga/engine_config.rs 82-84 SagaEngineConfig::new *)
Definition new : t := default.

(** src: crates/server/domain/src/saga/engine_config.rs 87-90 SagaEngineConfig::with_real_compensation *)
Definition with_real_compensation (b : bool) (c : t) : t := c <| enable_real_compensation := b |>.

(** src: crates/server/domain/src/saga/engine_config.rs 93-96 SagaEngineConfig::with_saga_resume *)
Definition with_saga_resume (b : bool) (c : t) : t := c <| enable_saga_resume := b |>.

(** src: crates/server/domain/src/saga/engine_config.rs 99-102 SagaEngineConfig::with_locked_polling *)
Definition with_locked_polling (b : bool) (c : t) : t := c <| enable_locked_polling := b |>.

(** src: crates/server/domain/src/saga/engine_config.rs 105-108 SagaEngineConfig::with_stuck_timeout *)
Definition with_stuck_timeout (s : Z) (c : t) : t := c <| stuck_saga_timeout_seconds := s |>.

(** src: crates/server/domain/src/saga/engine_config.rs 111-114 SagaEngineConfig::with_max_retries *)
Definition with_max_retries (n : Z) (c : t) : t := c <| max_compensation_retries := n |>.

(** src: crates/server/domain/src/saga/engine_config.rs 117-120 SagaEngineConfig::with_polling_interval *)
Definition with_polling_interval (s : Z) (c : t) : t := c <| safety_polling_interval_seconds := s |>.

(** src: crates/server/domain/src/saga/engine_config.rs 138-140 SagaEngineConfig::stuck_saga_timeout *)
Definition stuck_saga_timeout (c : t) : Duration := from_secs (stuck_saga_timeout_seconds c).

(** src: crates/server/domain/src/saga/engine_config.rs 143-145 SagaEngineConfig::safety_polling_interval *)
Definition safety_polling_interval (c : t) : Duration :=
  from_secs (safety_polling_interval_seconds c).

(** src: crates/server/domain/src/saga/engine_config.rs 153-159 SagaEngineConfig::is_feature_enabled *)
Definition is_feature_enabled (f : SagaFeature.t) (c : t) : bool :=
  match f with
  | SagaFeature.RealCompensation => enable_real_compensation c
  | SagaFeature.SagaResume => enable_saga_resume c
  | SagaFeature.LockedPolling => enable_locked_polling c
  end.

End SagaEngineConfig.

(** ** The cache *)

Section contract.
Context `{E : Externs} {W X : Type} `{!SagaRepository W X}.

(** The calls that read, and those that may change the steps of sagas. *)
Inductive reading : forall A, method W X A -> Prop :=
  | reading_id i : reading _ (repo_find_by_id i)
  | reading_type ty : reading _ (repo_find_by_type ty)
  | reading_state s : reading _ (repo_find_by_state s)
  | reading_correlation c : reading _ (repo_find_by_correlation_id c)
  | reading_step i : reading _ (repo_find_step_by_id i)
  | reading_steps i : reading _ (repo_find_steps_by_saga_id i)
  | reading_active : reading _ repo_count_active
  | reading_count ty s : reading _ (repo_count_by_type_and_state ty s)
  | reading_avg : reading _ repo_avg_duration.

Inductive changing : forall A, method W X A -> Prop :=
  | changing_save c : changing _ (repo_save c)
  | changing_state i s m : changing _ (repo_update_state i s m)
  | changing_compensating i : changing _ (repo_mark_compensating i)
  | changing_delete i : changing _ (repo_delete i)
  | changing_step s : changing _ (repo_save_step s)
  | changing_step_state i s o : changing _ (repo_update_step_state i s o)
  | changing_step_compensation i d : changing _ (repo_update_step_compensation i d)
  | changing_cleanup d : changing _ (repo_cleanup_completed d)
  | changing_save_tx c : changing _ (repo_save_with_tx c)
  | changing_state_tx i s m : changing _ (repo_update_state_with_tx i s m)
  | changing_step_tx s : changing _ (repo_save_step_with_tx s)
  | changing_step_state_tx i s o : changing _ (repo_update_step_state_with_tx i s o)
  | changing_step_compensation_tx i d : changing _ (repo_update_step_compensation_with_tx i d).

(** A repository of which [steps_of] gives the steps of every saga: reading and
    claiming sagas leave them, and so does a change that fails. *)
Class SagaRepositoryLaws (steps_of : W -> SagaId -> list SagaStepData.t) : Prop := {
  steps_found : forall i w l, returns (repo_find_steps_by_saga_id i) w = Ok l -> l = steps_of w i;
  reading_keeps : forall A (m : method W X A) w, reading A m -> steps_of (after m w) = steps_of w;
  failing_keeps : forall A (m : method W X A) w, changing A m -> is_err (returns m w) = true ->
    steps_of (after m w) = steps_of w;
  creating_keeps : forall c w, returns (repo_create_if_not_exists c) w <> Ok true ->
    steps_of (after (repo_create_if_not_exists c) w) = steps_of w;
  claiming_keeps : forall n instance w,
    steps_of (after (repo_claim_pending_sagas n instance) w) = steps_of w;
}.

End contract.

Lemma Forall_sublist {A} (P : A -> Prop) l k : sublist l k -> Forall P k -> Forall P l.
Proof.
  intros Hlk. induction Hlk as [|x l k _ IH|x l k _ IH]; intros HP; [constructor| |];
    inversion HP; subst; [constructor|]; auto.
Qed.

Section cached.
Context `{E : Externs} {W X : Type} `{!SagaRepository W X}.
Context (steps_of : W -> SagaId -> list SagaStepData.t) `{!SagaRepositoryLaws steps_of}.
Context (instant : W -> Z).
Import CachedSagaRepository.
Implicit Types w : world W.

(** Every entry holds the steps its saga has. *)
Definition coherent w : Prop :=
  Forall (fun e => CacheEntry.value e = steps_of (inner w) (CacheEntry.key e)) (steps_cache w).

Definition tidy w : Prop :=
  NoDup (CacheEntry.key <$> steps_cache w) /\ (length (steps_cache w) <= cache_capacity w)%nat.

Definition sound w : Prop := coherent w /\ tidy w.

(** A step that leaves the cache, and the steps of all sagas. *)
Lemma sound_keep w v : steps_of v = steps_of (inner w) -> sound w -> sound (w <| inner := v |>).
Proof. intros Hv [Hc Ht]. split; [|done]. unfold coherent in *. simpl. by rewrite Hv. Qed.

Lemma sound_clear v w : sound (w <| inner := v |> <| steps_cache := [] |>).
Proof. split; [constructor|]. split; [constructor|apply Nat.le_0_l]. Qed.

Lemma sound_insert w i now :
  sound w ->
  sound (w <| steps_cache :=
    TtlCache.insert (cache_capacity w) i (steps_of (inner w) i) now (steps_cache w) |>).
Proof.
  intros [Hc [Hnd Hlen]]. unfold TtlCache.insert.
  set (es := filter (fun e => CacheEntry.key e <> i) (steps_cache w) ++ [_]).
  assert (sublist (drop (length es - cache_capacity w) es) es) as Hsub by apply sublist_drop.
  split; [|split; simpl].
  - unfold coherent. simpl. eapply Forall_sublist; [exact Hsub|]. subst es.
    apply Forall_app. split; [|by repeat constructor].
    eapply Forall_sublist; [apply sublist_filter|exact Hc].
  - eapply sublist_NoDup; [|apply fmap_sublist, Hsub]. subst es. rewrite fmap_app.
    apply NoDup_app. split_and!; [| |apply NoDup_singleton].
    + eapply sublist_NoDup; [exact Hnd|apply fmap_sublist, sublist_filter].
    + intros k (e & -> & He)%list_elem_of_fmap Hk. apply list_elem_of_singleton in Hk.
      apply list_elem_of_filter in He as [Hne _]. done.
  - rewrite length_drop. lia.
Qed.

(** A run of a task alone that keeps the cache sound. *)
Definition keeps_sound {A} (t : process (world W) X A) : Prop :=
  forall w, sound w -> sound (alone t w).1.

Lemma on_inner_alone {A} (m : method W X A) w :
  alone (on_inner m) w = (w <| inner := after m (inner w) |>, returns m (inner w)).
Proof.
  unfold on_inner. rewrite alone_atomically. unfold zoomed, after, returns.
  by destruct (m (inner w)).
Qed.

Lemma reading_sound {A} (m : method W X A) : reading A m -> keeps_sound (on_inner m).
Proof.
  intros Hm w Hw. rewrite on_inner_alone. apply sound_keep; [|done]. by apply reading_keeps.
Qed.

Lemma writing_sound {A} (m : method W X A) : changing A m -> keeps_sound (writing m).
Proof.
  intros Hm w Hw. unfold writing. rewrite alone_mbind, on_inner_alone.
  destruct (returns m (inner w)) as [a|x] eqn:Hr; simpl.
  - apply (sound_clear (after m (inner w)) w).
  - apply sound_keep; [|done]. apply failing_keeps; [done|by rewrite Hr].
Qed.

Lemma creating_sound c : keeps_sound (create_if_not_exists c).
Proof.
  intros w Hw. unfold create_if_not_exists. rewrite alone_mbind, on_inner_alone.
  destruct (returns (repo_create_if_not_exists c) (inner w)) as [[]|x] eqn:Hr; simpl.
  - apply (sound_clear (after _ (inner w)) w).
  - apply sound_keep; [|done]. apply creating_keeps. by rewrite Hr.
  - apply sound_keep; [|done]. apply creating_keeps. by rewrite Hr.
Qed.

Lemma find_steps_alone i w :
  alone (find_steps_by_saga_id instant i) w =
    match TtlCache.get (ttl w) i (instant (inner w)) (steps_cache w) with
    | Some steps => (w, Ok steps)
    | None =>
        let v := after (repo_find_steps_by_saga_id i) (inner w) in
        match returns (repo_find_steps_by_saga_id i) (inner w) with
        | Ok steps =>
            (w <| inner := v |> <| steps_cache :=
               TtlCache.insert (cache_capacity w) i steps (instant v) (steps_cache w) |>, Ok steps)
        | Err x => (w <| inner := v |>, Err x)
        end
    end.
Proof.
  unfold find_steps_by_saga_id. rewrite alone_mbind, alone_atomically. unfold cached_steps at 1.
  destruct (TtlCache.get _ _ _ _) as [steps|]; [done|].
  rewrite alone_mbind, on_inner_alone.
  by destruct (returns (repo_find_steps_by_saga_id i) (inner w)).
Qed.

Lemma get_coherent w i now l :
  coherent w -> TtlCache.get (ttl w) i now (steps_cache w) = Some l -> l = steps_of (inner w) i.
Proof.
  intros Hw. unfold TtlCache.get.
  destruct (list_find _ _) as [[n e]|] eqn:Hf; [|done]. intros [= <-].
  apply list_find_Some in Hf as (He & [Hk _] & _). apply list_elem_of_lookup_2 in He.
  unfold coherent in Hw. rewrite Forall_forall in Hw. rewrite (Hw e He). by rewrite Hk.
Qed.

Lemma find_steps_sound i : keeps_sound (find_steps_by_saga_id instant i).
Proof.
  intros w Hw. rewrite find_steps_alone. destruct (TtlCache.get _ _ _ _) as [l|]; [done|].
  assert (steps_of (after (repo_find_steps_by_saga_id i) (inner w)) = steps_of (inner w)) as Hk
    by (apply reading_keeps; constructor).
  destruct (returns (repo_find_steps_by_saga_id i) (inner w)) as [l|x] eqn:Hr; simpl.
  - apply steps_found in Hr as ->. rewrite <- Hk.
    set (v := after (repo_find_steps_by_saga_id i) (inner w)) in *.
    exact (sound_insert (w <| inner := v |>) i (instant v) (sound_keep w v Hk Hw)).
  - by apply sound_keep.
Qed.

(** *** The calls of the repository *)

Inductive call :=
  | Save (c : SagaContext.t)
  | CreateIfNotExists (c : SagaContext.t)
  | FindById (i : SagaId)
  | FindByType (ty : SagaType.t)
  | FindByState (s : SagaState.t)
  | FindByCorrelationId (c : string)
  | UpdateState (i : SagaId) (s : SagaState.t) (m : option string)
  | MarkCompensating (i : SagaId)
  | Delete (i : SagaId)
  | SaveStep (s : SagaStepData.t)
  | FindStepById (i : Uuid)
  | FindSteps (i : SagaId)
  | UpdateStepState (i : Uuid) (s : SagaStepState.t) (output : option Json)
  | UpdateStepCompensation (i : Uuid) (data : Json)
  | CountActive
  | CountByTypeAndState (ty : SagaType.t) (s : SagaState.t)
  | AvgDuration
  | CleanupCompleted (d : Duration)
  | Claim (limit : Z) (instance : string)
  | SaveWithTx (c : SagaContext.t)
  | UpdateStateWithTx (i : SagaId) (s : SagaState.t) (m : option string)
  | SaveStepWithTx (s : SagaStepData.t)
  | UpdateStepStateWithTx (i : Uuid) (s : SagaStepState.t) (output : option Json)
  | UpdateStepCompensationWithTx (i : Uuid) (data : Json)
  | ClearCache.

(** The world after a call, however it ends. *)
Definition perform (c : call) w : world W :=
  match c with
  | Save c => (alone (save c) w).1
  | CreateIfNotExists c => (alone (create_if_not_exists c) w).1
  | FindById i => (alone (find_by_id i) w).1
  | FindByType ty => (alone (find_by_type ty) w).1
  | FindByState s => (alone (find_by_state s) w).1
  | FindByCorrelationId c => (alone (find_by_correlation_id c) w).1
  | UpdateState i s m => (alone (update_state i s m) w).1
  | MarkCompensating i => (alone (mark_compensating i) w).1
  | Delete i => (alone (delete i) w).1
  | SaveStep s => (alone (save_step s) w).1
  | FindStepById i => (alone (find_step_by_id i) w).1
  | FindSteps i => (alone (find_steps_by_saga_id instant i) w).1
  | UpdateStepState i s o => (alone (update_step_state i s o) w).1
  | UpdateStepCompensation i d => (alone (update_step_compensation i d) w).1
  | CountActive => (alone count_active w).1
  | CountByTypeAndState ty s => (alone (count_by_type_and_state ty s) w).1
  | AvgDuration => (alone avg_duration w).1
  | CleanupCompleted d => (alone (cleanup_completed d) w).1
  | Claim n instance => (alone (claim_pending_sagas n instance) w).1
  | SaveWithTx c => (alone (save_with_tx c) w).1
  | UpdateStateWithTx i s m => (alone (update_state_with_tx i s m) w).1
  | SaveStepWithTx s => (alone (save_step_with_tx s) w).1
  | UpdateStepStateWithTx i s o => (alone (update_step_state_with_tx i s o) w).1
  | UpdateStepCompensationWithTx i d => (alone (update_step_compensation_with_tx i d) w).1
  | ClearCache => (alone (clear_cache : process (world W) X unit) w).1
  end.

Lemma perform_sound c w : sound w -> sound (perform c w).
Proof.
  intros Hw. destruct c; cbn [perform];
    try (by apply writing_sound; [constructor|]); try (by apply reading_sound; [constructor|]).
  - by apply creating_sound.
  - by apply find_steps_sound.
  - unfold claim_pending_sagas. rewrite on_inner_alone. apply sound_keep; [|done]. apply claiming_keeps.
  - apply (sound_clear (inner w) w).
Qed.

(** The cache is transparent to callers that take turns: after any calls one
    after the other, the steps of a saga read through the cache are those the
    repository has, and the cache holds one entry per saga and no more entries
    than its capacity. *)
Theorem cached_steps_are_current v capacity d calls i l :
  let w := fold_left (fun w c => perform c w) calls (with_config v capacity d) in
  (length (steps_cache w) <= cache_capacity w)%nat /\
  NoDup (CacheEntry.key <$> steps_cache w) /\
  ((alone (find_steps_by_saga_id instant i) w).2 = Ok l -> l = steps_of (inner w) i).
Proof.
  intros w. assert (sound w) as [Hc [Hnd Hlen]].
  { subst w. assert (sound (with_config v capacity d)) as Hw.
    { split; [constructor|]. split; [constructor|apply Nat.le_0_l]. }
    revert Hw. generalize (with_config v capacity d) as w0.
    induction calls as [|c calls IH]; intros w0 Hw; simpl; [done|]. by apply IH, perform_sound. }
  split_and!; [done..|]. rewrite find_steps_alone. destruct (TtlCache.get _ _ _ _) as [l'|] eqn:Hget; simpl.
  - intros [= <-]. by eapply get_coherent.
  - destruct (returns (repo_find_steps_by_saga_id i) (inner w)) as [l'|x] eqn:Hr; simpl; [|done].
    intros [= <-]. by apply steps_found in Hr.
Qed.

End cached.

(** *** A race *)

Section race.
Context `{E : Externs} {W X : Type} `{!SagaRepository W X}.
Context (instant : W -> Z).
Import CachedSagaRepository.

Lemma get_inserted capacity d k v now :
  (0 < capacity)%nat -> 0 < d ->
  TtlCache.get d k now (TtlCache.insert capacity k v now []) = Some v.
Proof.
  intros Hc Hd. unfold TtlCache.insert, TtlCache.get. simpl.
  replace (1 - capacity)%nat with 0%nat by lia. simpl.
  rewrite decide_True; [done|]. simpl. split; [done|]. lia.
Qed.

(** Callers that do not take turns can break it: a reader that has fetched
    the steps of a saga before a step is saved, and writes them into the cache
    after the saved step has cleared it, brings the old steps back, and they are
    answered for as long as an entry lives. *)
Theorem a_race_caches_old_steps (w : world W) i s l :
  let v := after (repo_find_steps_by_saga_id i) (inner w) in
  steps_cache w = [] -> returns (repo_find_steps_by_saga_id i) (inner w) = Ok l ->
  returns (repo_save_step s) v = Ok tt -> (0 < cache_capacity w)%nat -> 0 < ttl w ->
  exists w',
    rtc (pool_step (fun _ w => w) (fun _ => false))
      ([find_steps_by_saga_id instant i ≫= (fun _ => mret tt); save_step s], w) ([], w') /\
    inner w' = after (repo_save_step s) v /\
    (alone (find_steps_by_saga_id instant i) w').2 = Ok l.
Proof.
  intros v Hempty Hfind Hsave Hcap Httl. subst v. destruct w as [w0 c d n].
  cbn [inner steps_cache ttl cache_capacity] in *. subst c.
  set (v2 := after (repo_save_step s) (after (repo_find_steps_by_saga_id i) w0)).
  exists (mk v2 (TtlCache.insert n i l (instant v2) []) d n). split_and!; [|done|].
  - unfold after, returns in *. destruct (repo_find_steps_by_saga_id i w0) as [v1 r1] eqn:Hf.
    simpl in *. subst r1. destruct (repo_save_step s v1) as [v2' r2] eqn:Hsv. simpl in *. subst r2.
    subst v2.
    match goal with |- rtc _ ?p _ =>
      replace ([], _) with (drive (fun _ w => w) (fun _ => false) [0; 0; 1; 1; 0; 0; 0]%nat p); [apply drive_sound|] end.
    unfold drive, find_steps_by_saga_id, save_step, writing, on_inner, atomically, zoomed. simpl.
    rewrite Hf. simpl. by rewrite Hsv.
  - rewrite find_steps_alone. simpl. by rewrite get_inserted.
Qed.

End race.

(** ** The detector *)

Section stuck.
Context `{EL : ExternsLaws} {W X : Type} `{!SagaRepository W X}.
Context (config : StuckSagaDetectorConfig.t) (sagas : W -> list SagaContext.t).
Context (Hfind : forall s w l, returns (repo_find_by_state s) w = Ok l ->
  (forall c, c ∈ l <-> c ∈ sagas w /\ SagaContext.state c = s)).
Context (Hkeep : forall s w, sagas (after (repo_find_by_state s) w) = sagas w).
Import InMemoryStuckSagaDetector.

Lemma found_by_state s w w' l :
  mapping_error (repo_find_by_state s) repository_error w = (w', Ok l) ->
  sagas w' = sagas w /\ forall c, c ∈ l <-> c ∈ sagas w /\ SagaContext.state c = s.
Proof.
  intros H. specialize (Hfind s w). specialize (Hkeep s w).
  unfold mapping_error, returns, after in *.
  destruct (repo_find_by_state s w) as [w1 [l1|x]]; simpl in *; simplify_eq. auto.
Qed.

Lemma examine_state now c info :
  examine config now c = Some info ->
  SagaContext.state c = SagaState.InProgress \/ SagaContext.state c = SagaState.Compensating \/
  SagaContext.state c = SagaState.Pending.
Proof. unfold examine. destruct (SagaContext.state c); simpl; auto; done. Qed.

(** The whole seconds a saga has been running. *)
Lemma examine_spec now c d :
  threshold config (SagaContext.state c) = Some (from_secs d) -> 0 <= d ->
  is_Some (examine config now c) <->
  from_secs (d + 1) <= timestamp now - timestamp (SagaContext.started_at c).
Proof.
  intros Ht Hd. unfold examine. rewrite Ht. simpl.
  assert (is_Some (described (SagaContext.state c))) as [what Hwhat]
    by (destruct (SagaContext.state c); simpl in *; by eauto).
  assert ((from_secs d <? elapsed now c) = true <->
    from_secs (d + 1) <= timestamp now - timestamp (SagaContext.started_at c)) as Hiff.
  { unfold elapsed, from_secs. rewrite num_seconds_since.
    set (n := timestamp now - timestamp (SagaContext.started_at c)).
    destruct (Z.le_gt_cases 0 n).
    - rewrite Z.quot_div_nonneg by lia. rewrite Z.ltb_lt.
      pose proof (Z.div_mod n 1000000000). pose proof (Z.mod_pos_bound n 1000000000). lia.
    - assert (0 <= Z.quot (- n) 1000000000) as Hq by (apply Z.quot_pos; lia).
      rewrite Z.quot_opp_l in Hq by lia.
      rewrite Z.ltb_lt. lia. }
  rewrite <- Hiff. destruct (from_secs d <? elapsed now c) eqn:Hlt.
  - rewrite Hwhat. simpl. by split; [|eauto].
  - split; [by intros [? ?]|done].
Qed.

(** The detector reports exactly the sagas that are pending, in progress or
    compensating and have been running for at least a second longer than the
    threshold of their state, whose seconds count from the start of the saga
    also when it is compensating. *)
Theorem stuck_sagas_are_reported now w infos s c :
  StuckSagaDetectorConfig.stuck_threshold config = from_secs s -> 0 <= s ->
  StuckSagaDetectorConfig.compensating_threshold config = from_secs c -> 0 <= c ->
  returns (detect_stuck_sagas config now) w = Ok infos ->
  forall info, info ∈ infos <-> exists saga, saga ∈ sagas w /\ examine config now saga = Some info /\
    match SagaContext.state saga with
    | SagaState.Pending | SagaState.InProgress =>
        from_secs (s + 1) <= timestamp now - timestamp (SagaContext.started_at saga)
    | SagaState.Compensating =>
        from_secs (c + 1) <= timestamp now - timestamp (SagaContext.started_at saga)
    | _ => False
    end.
Proof.
  intros Hs Hs0 Hc Hc0 Hdetect info.
  assert (info ∈ infos <-> exists saga, saga ∈ sagas w /\ examine config now saga = Some info) as Hin.
  { revert Hdetect. unfold detect_stuck_sagas, returns, mbind, method_bind.
    destruct (mapping_error (repo_find_by_state SagaState.InProgress) _ w) as [w1 [l1|]] eqn:H1; [|done].
    destruct (mapping_error (repo_find_by_state SagaState.Compensating) _ w1) as [w2 [l2|]] eqn:H2; [|done].
    destruct (mapping_error (repo_find_by_state SagaState.Pending) _ w2) as [w3 [l3|]] eqn:H3; [|done].
    simpl. intros [= <-]. apply found_by_state in H1 as [K1 H1], H2 as [K2 H2], H3 as [K3 H3].
    rewrite list_elem_of_omap. setoid_rewrite elem_of_app. setoid_rewrite elem_of_app.
    split.
    - intros (saga & Hsaga & He). exists saga. split; [|done].
      rewrite H1, H2, H3, K2, K1 in Hsaga. by destruct Hsaga as [[? _]|[[? _]|[? _]]].
    - intros (saga & Hsaga & He). exists saga. split; [|done].
      rewrite H1, H2, H3, K2, K1. apply examine_state in He as [?|[?|?]]; auto. }
  rewrite Hin. split.
  - intros (saga & Hsaga & He). exists saga. split_and!; [done..|].
    pose proof (examine_state _ _ _ He) as Hst. pose proof (mk_is_Some _ _ He) as Hsome.
    destruct (SagaContext.state saga) eqn:Hstate; try (by destruct Hst as [?|[?|?]]);
      (eapply examine_spec; [rewrite Hstate; simpl; by rewrite ?Hs, ?Hc|done|done]).
  - intros (saga & Hsaga & He & _). by exists saga.
Qed.

End stuck.

(** ** A repository in memory *)

Module ExampleSagas.

Record store := mk {
  contexts : list (SagaContext.t (E := concrete));
  steps : list (SagaStepData.t (E := concrete));
  clock : Z;
}.

Definition answer {A} (a : A) : method store string A := mret a.

Definition query {A} (f : store -> A) : method store string A := fun w => (w, Ok (f w)).

Definition write (f : store -> store) : method store string unit := modify f.

Definition put_step (s : SagaStepData.t (E := concrete)) (w : store) : store :=
  mk (contexts w) (steps w ++ [s]) (clock w).

#[global] Instance repository : SagaRepository (E := concrete) store string :=
  @Build_SagaRepository concrete store string
    (fun c => write (fun w => mk (contexts w ++ [c]) (steps w) (clock w)))
    (fun _ => answer false)
    (fun i => query (fun w => head (filter (fun c => SagaContext.saga_id c = i) (contexts w))))
    (fun ty => query (fun w => filter (fun c => SagaContext.saga_type c = ty) (contexts w)))
    (fun s => query (fun w => filter (fun c => SagaContext.state c = s) (contexts w)))
    (fun _ => answer [])
    (fun _ _ _ => answer tt)
    (fun _ => answer tt)
    (fun _ => answer false)
    (fun s => write (put_step s))
    (fun i => query (fun w => head (filter (fun s => SagaStepData.step_id s = i) (steps w))))
    (fun i => query (fun w => filter (fun s => SagaStepData.saga_id s = i) (steps w)))
    (fun _ _ _ => answer tt) (fun _ _ => answer tt) (answer 0) (fun _ _ => answer 0) (answer None)
    (fun _ => answer 0) (fun _ _ => answer []) (fun _ => answer tt) (fun _ _ _ => answer tt)
    (fun s => write (put_step s)) (fun _ _ _ => answer tt) (fun _ _ => answer tt) (fun e => e).

Definition steps_of (w : store) (i : @Uuid concrete) : list (SagaStepData.t (E := concrete)) :=
  filter (fun s => SagaStepData.saga_id s = i) (steps w).

#[global] Instance repository_laws : SagaRepositoryLaws (E := concrete) (X := string) steps_of.
Proof.
  split.
  - intros i w l [= <-]. done.
  - intros A m w Hm. by destruct Hm.
  - intros A m w Hm. by destruct Hm.
  - done.
  - done.
Qed.

Lemma found (s : SagaState.t) (w : store) (l : list (SagaContext.t (E := concrete))) :
  returns (repo_find_by_state (E := concrete) s) w = (Ok l : result string _) ->
  forall c, c ∈ l <-> c ∈ contexts w /\ SagaContext.state c = s.
Proof.
  intros H c. assert (filter (fun c => SagaContext.state c = s) (contexts w) = l) as <- by by injection H.
  rewrite list_elem_of_filter. tauto.
Qed.

Definition a_step : SagaStepData.t (E := concrete) :=
  SagaStepData.new (E := concrete) 1%nat "ValidateJob" 0 None 2%nat 7.

Definition a_saga : SagaContext.t (E := concrete) :=
  SagaContext.new (E := concrete) 1%nat SagaType.Execution None None 0.

End ExampleSagas.

Example cached_steps_are_current_witness :
  let w := CachedSagaRepository.with_config (E := concrete)
    (ExampleSagas.mk [] [ExampleSagas.a_step] 0) 10 5 in
  (alone (CachedSagaRepository.find_steps_by_saga_id (E := concrete) (X := string)
     ExampleSagas.clock 1%nat) w).2 = Ok [ExampleSagas.a_step] /\
  [ExampleSagas.a_step] = ExampleSagas.steps_of (CachedSagaRepository.inner w) 1%nat.
Proof.
  split; [reflexivity|].
  apply (proj2 (proj2 (cached_steps_are_current (E := concrete) (X := string) ExampleSagas.steps_of
    ExampleSagas.clock (ExampleSagas.mk [] [ExampleSagas.a_step] 0) 10 5 [] 1%nat
    [ExampleSagas.a_step]))).
  reflexivity.
Defined.

(** A reader finds no step, the first step is saved, and the reader caches that
    there is none. *)
Example a_race_caches_old_steps_witness :
  exists w', ExampleSagas.steps (CachedSagaRepository.inner w') = [ExampleSagas.a_step] /\
    (alone (CachedSagaRepository.find_steps_by_saga_id (E := concrete) (X := string)
      ExampleSagas.clock 1%nat) w').2 = Ok [].
Proof.
  destruct (a_race_caches_old_steps (E := concrete) (X := string) ExampleSagas.clock
    (CachedSagaRepository.with_config (E := concrete) (ExampleSagas.mk [] [] 0) 10 5) 1%nat
    ExampleSagas.a_step []) as (w' & _ & Hin & Hl); [reflexivity..| | |].
  - apply Nat.ltb_lt. reflexivity.
  - reflexivity.
  - exists w'. split; [rewrite Hin; reflexivity|exact Hl].
Defined.

Example stuck_sagas_are_reported_witness :
  exists infos,
    returns (InMemoryStuckSagaDetector.detect_stuck_sagas (E := concrete) (X := string)
      StuckSagaDetectorConfig.default (from_secs 601)) (ExampleSagas.mk [ExampleSagas.a_saga] [] 0)
      = Ok infos /\ length infos = 1%nat /\
    (forall info, info ∈ infos -> exists saga, saga ∈ [ExampleSagas.a_saga] /\
       InMemoryStuckSagaDetector.examine (E := concrete) StuckSagaDetectorConfig.default (from_secs 601)
         saga = Some info).
Proof.
  destruct (returns (InMemoryStuckSagaDetector.detect_stuck_sagas (E := concrete) (X := string)
    StuckSagaDetectorConfig.default (from_secs 601)) (ExampleSagas.mk [ExampleSagas.a_saga] [] 0))
    as [infos|e] eqn:H; [|discriminate H].
  exists infos. split; [reflexivity|]. split; [injection H as <-; vm_compute; reflexivity|].
  intros info Hinfo.
  destruct (proj1 (stuck_sagas_are_reported (E := concrete) (X := string)
    StuckSagaDetectorConfig.default ExampleSagas.contexts
    ExampleSagas.found
    (fun _ _ => eq_refl) (from_secs 601) (ExampleSagas.mk [ExampleSagas.a_saga] [] 0) infos 600 300
    eq_refl ltac:(discriminate) eq_refl ltac:(discriminate) H info) Hinfo) as (saga & Hs & He & _).
  exists saga. split; [exact Hs|exact He].
Defined.
