(* ===== verification/SagaErrors.v ===== *)
(** * The errors of the sagas ([crates/server/domain/src/saga/errors.rs])

    One type of errors per saga with its messages, the errors of the core they
    are brought to, and what becomes of these as errors of the domain. *)

From S2P Require Import Prelude Effects Std Externs States Errors SagaTypes.

Module SagaCoreError.
Section error.
Context `{E : Externs}.

(** src: crates/server/domain/src/saga/errors.rs 15-48 SagaCoreError *)
Inductive t :=
  | ExecutionFailed (message : string) (saga_id : SagaId)
  | CompensationFailed (message : string) (saga_id : SagaId)
  | NotFound (saga_id : SagaId)
  | InvalidStateTransition (from to : string)
  | Timeout (saga_id : SagaId) (duration : Duration)
  | Cancelled (saga_id : SagaId)
  | OptimisticLockConflict (saga_id : SagaId) (expected actual : Z)
  | PersistenceError (message : string).

(** src: crates/server/domain/src/saga/errors.rs 14-48 Display for SagaCoreError *)
Definition fmt (e : t) : string :=
  match e with
  | ExecutionFailed m _ => "Saga execution failed: " +:+ m
  | CompensationFailed m _ => "Saga compensation failed: " +:+ m
  | NotFound i => "Saga not found: " +:+ uuid_to_string i
  | InvalidStateTransition f t => "Invalid saga state transition: from " +:+ f +:+ " to " +:+ t
  | Timeout i d => "Saga " +:+ uuid_to_string i +:+ " timed out after " +:+ duration_debug d
  | Cancelled i => "Saga " +:+ uuid_to_string i +:+ " was cancelled"
  | OptimisticLockConflict i x a =>
      "Optimistic lock conflict for saga " +:+ uuid_to_string i +:+ ": expected version " +:+
      show_Z x +:+ ", found " +:+ show_Z a
  | PersistenceError m => "Persistence error: " +:+ m
  end.

(** src: crates/server/domain/src/saga/errors.rs 343-387 impl From<SagaCoreError> for DomainError *)
Definition to_domain_error (e : t) : DomainError.t :=
  DomainError.InfrastructureError
    match e with
    | ExecutionFailed m _ => m
    | CompensationFailed m _ => m
    | NotFound _ => "Saga not found"
    | InvalidStateTransition f t => "Invalid state transition from " +:+ f +:+ " to " +:+ t
    | Timeout _ d => "Saga timed out after " +:+ duration_debug d
    | Cancelled _ => "Saga was cancelled"
    | OptimisticLockConflict i x a =>
        "Optimistic lock conflict for saga " +:+ uuid_to_string i +:+ ": expected " +:+ show_Z x +:+
        ", found " +:+ show_Z a
    | PersistenceError m => m
    end.

End error.
End SagaCoreError.

Module ExecutionSagaError.
Section error.
Context `{E : Externs}.

(** src: crates/server/domain/src/saga/errors.rs 56-90 ExecutionSagaError *)
Inductive t :=
  | NoAvailableWorkers (job_id : Uuid)
  | JobNotFound (job_id : Uuid)
  | DispatchFailed (job_id worker_id : Uuid) (message : string)
  | WorkerAssignmentFailed (job_id : Uuid) (message : string)
  | StateUpdateFailed (job_id : Uuid) (message : string)
  | CompensationFailed (job_id : Uuid) (message : string)
  | ExecutionTimeout (job_id : Uuid) (duration : Duration)
  | WorkerDisconnected (worker_id : Uuid)
  | InvalidResult (job_id : Uuid) (reason : string).

(** src: crates/server/domain/src/saga/errors.rs 55-90 Display for ExecutionSagaError *)
Definition fmt (e : t) : string :=
  match e with
  | NoAvailableWorkers j => "No available workers for job " +:+ uuid_to_string j
  | JobNotFound j => "Job not found: " +:+ uuid_to_string j
  | DispatchFailed j w m =>
      "Failed to dispatch job " +:+ uuid_to_string j +:+ " to worker " +:+ uuid_to_string w +:+ ": " +:+ m
  | WorkerAssignmentFailed j m => "Job assignment failed for job " +:+ uuid_to_string j +:+ ": " +:+ m
  | StateUpdateFailed j m => "State update failed for job " +:+ uuid_to_string j +:+ ": " +:+ m
  | CompensationFailed j m => "Compensation failed for job " +:+ uuid_to_string j +:+ ": " +:+ m
  | ExecutionTimeout _ d => "Job execution timed out after " +:+ duration_debug d
  | WorkerDisconnected w => "Worker " +:+ uuid_to_string w +:+ " disconnected during execution"
  | InvalidResult j r => "Job " +:+ uuid_to_string j +:+ " result invalid: " +:+ r
  end.

(** src: crates/server/domain/src/saga/errors.rs 235-288 ExecutionSagaError::into_core_error *)
Definition into_core_error (i : SagaId) (_ : SagaType.t) (e : t) : SagaCoreError.t :=
  match e with
  | NoAvailableWorkers j =>
      SagaCoreError.ExecutionFailed ("No available workers for job " +:+ uuid_to_string j) i
  | JobNotFound _ => SagaCoreError.NotFound i
  | DispatchFailed j w m =>
      SagaCoreError.ExecutionFailed
        ("Dispatch failed for job " +:+ uuid_to_string j +:+ " to worker " +:+ uuid_to_string w +:+ ": " +:+ m) i
  | WorkerAssignmentFailed j m =>
      SagaCoreError.ExecutionFailed ("Worker assignment failed for job " +:+ uuid_to_string j +:+ ": " +:+ m) i
  | StateUpdateFailed j m =>
      SagaCoreError.ExecutionFailed ("State update failed for job " +:+ uuid_to_string j +:+ ": " +:+ m) i
  | CompensationFailed j m =>
      SagaCoreError.CompensationFailed ("Compensation failed for job " +:+ uuid_to_string j +:+ ": " +:+ m) i
  | ExecutionTimeout _ d => SagaCoreError.Timeout i d
  | WorkerDisconnected w =>
      SagaCoreError.ExecutionFailed ("Worker " +:+ uuid_to_string w +:+ " disconnected during execution") i
  | InvalidResult j r =>
      SagaCoreError.ExecutionFailed ("Invalid result for job " +:+ uuid_to_string j +:+ ": " +:+ r) i
  end.

End error.
End ExecutionSagaError.

Module ProvisioningSagaError.
Section error.
Context `{E : Externs}.

(** src: crates/server/domain/src/saga/errors.rs 98-122 ProvisioningSagaError *)
Inductive t :=
  | ProviderNotFound (provider_id : Uuid)
  | ProviderCapacityExceeded (provider_id : Uuid)
  | ProvisioningFailed (provider_id : Uuid) (message : string)
  | RegistrationFailed (message : string)
  | WorkerAlreadyExists (worker_id : Uuid)
  | BootstrapTokenGenerationFailed
  | CleanupFailed (message : string).

(** src: crates/server/domain/src/saga/errors.rs 97-122 Display for ProvisioningSagaError *)
Definition fmt (e : t) : string :=
  match e with
  | ProviderNotFound p => "Provider " +:+ uuid_to_string p +:+ " not found"
  | ProviderCapacityExceeded p => "Provider " +:+ uuid_to_string p +:+ " capacity exceeded"
  | ProvisioningFailed p m =>
      "Worker provisioning failed for provider " +:+ uuid_to_string p +:+ ": " +:+ m
  | RegistrationFailed m => "Worker registration failed: " +:+ m
  | WorkerAlreadyExists w => "Worker " +:+ uuid_to_string w +:+ " already exists"
  | BootstrapTokenGenerationFailed => "Bootstrap token generation failed"
  | CleanupFailed m => "Infrastructure cleanup failed: " +:+ m
  end.

(** src: crates/server/domain/src/saga/errors.rs 292-336 ProvisioningSagaError::into_core_error *)
Definition into_core_error (i : SagaId) (_ : SagaType.t) (e : t) : SagaCoreError.t :=
  match e with
  | ProviderNotFound _ => SagaCoreError.NotFound i
  | ProviderCapacityExceeded p =>
      SagaCoreError.ExecutionFailed ("Provider " +:+ uuid_to_string p +:+ " capacity exceeded") i
  | ProvisioningFailed p m =>
      SagaCoreError.ExecutionFailed
        ("Provisioning failed for provider " +:+ uuid_to_string p +:+ ": " +:+ m) i
  | RegistrationFailed m => SagaCoreError.ExecutionFailed ("Worker registration failed: " +:+ m) i
  | WorkerAlreadyExists w =>
      SagaCoreError.ExecutionFailed ("Worker " +:+ uuid_to_string w +:+ " already exists") i
  | BootstrapTokenGenerationFailed => SagaCoreError.ExecutionFailed "Bootstrap token generation failed" i
  | CleanupFailed m => SagaCoreError.CompensationFailed ("Infrastructure cleanup failed: " +:+ m) i
  end.

End error.
End ProvisioningSagaError.

Module RecoverySagaError.
Section error.
Context `{E : Externs}.

(** src: crates/server/domain/src/saga/errors.rs 130-151 RecoverySagaError *)
Inductive t :=
  | WorkerNotFound (worker_id : Uuid)
  | JobNotFound (job_id : Uuid)
  | RecoveryFailed (job_id : Uuid) (reason : string)
  | RecoveryNotPossible (job_id : Uuid) (reason : string)
  | NewWorkerProvisioningFailed (message : string)
  | TransferFailed (message : string)
  | TerminationFailed (message : string).

(** src: crates/server/domain/src/saga/errors.rs 129-151 Display for RecoverySagaError *)
Definition fmt (e : t) : string :=
  match e with
  | WorkerNotFound w => "Worker " +:+ uuid_to_string w +:+ " not found for recovery"
  | JobNotFound j => "Job " +:+ uuid_to_string j +:+ " not found for recovery"
  | RecoveryFailed j r => "Recovery failed for job " +:+ uuid_to_string j +:+ ": " +:+ r
  | RecoveryNotPossible j r => "Cannot recover job " +:+ uuid_to_string j +:+ ": " +:+ r
  | NewWorkerProvisioningFailed m => "New worker provisioning failed during recovery: " +:+ m
  | TransferFailed m => "Job transfer failed: " +:+ m
  | TerminationFailed m => "Old worker termination failed: " +:+ m
  end.

End error.
End RecoverySagaError.

Module CancellationSagaError.
Section error.
Context `{E : Externs}.

(** src: crates/server/domain/src/saga/errors.rs 159-177 CancellationSagaError *)
Inductive t :=
  | JobNotCancellable (job_id : Uuid) (reason : string)
  | JobNotFound (job_id : Uuid)
  | WorkerNotificationFailed (job_id : Uuid) (message : string)
  | StateUpdateFailed (job_id : Uuid) (message : string)
  | WorkerReleaseFailed (job_id : Uuid) (message : string)
  | EventPublishingFailed (message : string).

(** src: crates/server/domain/src/saga/errors.rs 158-177 Display for CancellationSagaError *)
Definition fmt (e : t) : string :=
  match e with
  | JobNotCancellable j r => "Job " +:+ uuid_to_string j +:+ " cannot be cancelled: " +:+ r
  | JobNotFound j => "Job " +:+ uuid_to_string j +:+ " not found for cancellation"
  | WorkerNotificationFailed j m =>
      "Worker notification failed for job " +:+ uuid_to_string j +:+ ": " +:+ m
  | StateUpdateFailed j m => "Job state update failed for " +:+ uuid_to_string j +:+ ": " +:+ m
  | WorkerReleaseFailed j m => "Worker release failed for job " +:+ uuid_to_string j +:+ ": " +:+ m
  | EventPublishingFailed m => "Cancellation event publishing failed: " +:+ m
  end.

End error.
End CancellationSagaError.

Module TimeoutSagaError.
Section error.
Context `{E : Externs}.

(** src: crates/server/domain/src/saga/errors.rs 185-200 TimeoutSagaError *)
Inductive t :=
  | JobNotFound (job_id : Uuid)
  | TimeoutDetectionFailed (job_id : Uuid) (message : string)
  | TimeoutHandlingNotPossible (job_id : Uuid) (reason : string)
  | WorkerTerminationFailed (job_id : Uuid) (message : string)
  | StateUpdateFailed (job_id : Uuid) (message : string).

(** src: crates/server/domain/src/saga/errors.rs 184-200 Display for TimeoutSagaError *)
Definition fmt (e : t) : string :=
  match e with
  | JobNotFound j => "Job " +:+ uuid_to_string j +:+ " not found for timeout handling"
  | TimeoutDetectionFailed j m =>
      "Timeout detection failed for job " +:+ uuid_to_string j +:+ ": " +:+ m
  | TimeoutHandlingNotPossible j r =>
      "Cannot initiate timeout handling for job " +:+ uuid_to_string j +:+ ": " +:+ r
  | WorkerTerminationFailed j m =>
      "Worker termination failed for timed out job " +:+ uuid_to_string j +:+ ": " +:+ m
  | StateUpdateFailed j m =>
      "Job state update to failed failed for " +:+ uuid_to_string j +:+ ": " +:+ m
  end.

End error.
End TimeoutSagaError.

Module CleanupSagaError.
Section error.
Context `{E : Externs}.

(** src: crates/server/domain/src/saga/errors.rs 208-223 CleanupSagaError *)
Inductive t :=
  | IdentifyOrphanedJobsFailed (message : string)
  | IdentifyUnhealthyWorkersFailed (message : string)
  | ResetOrphanedJobFailed (job_id : Uuid) (message : string)
  | MetricsPublishingFailed (message : string)
  | PartialCleanup (failed_count : nat).

(** src: crates/server/domain/src/saga/errors.rs 207-223 Display for CleanupSagaError *)
Definition fmt (e : t) : string :=
  match e with
  | IdentifyOrphanedJobsFailed m => "Failed to identify orphaned jobs: " +:+ m
  | IdentifyUnhealthyWorkersFailed m => "Failed to identify unhealthy workers: " +:+ m
  | ResetOrphanedJobFailed j m => "Failed to reset orphaned job " +:+ uuid_to_string j +:+ ": " +:+ m
  | MetricsPublishingFailed m => "Cleanup metrics publishing failed: " +:+ m
  | PartialCleanup n => "Partial cleanup completed with " +:+ show_Z (Z.of_nat n) +:+ " failures"
  end.

End error.
End CleanupSagaError.

(** A core error keeps its saga, whatever error of a saga it was. *)
Definition core_saga_id `{E : Externs} (e : SagaCoreError.t) : option SagaId :=
  match e with
  | SagaCoreError.ExecutionFailed _ i | SagaCoreError.CompensationFailed _ i
  | SagaCoreError.NotFound i | SagaCoreError.Timeout i _ | SagaCoreError.Cancelled i
  | SagaCoreError.OptimisticLockConflict i _ _ => Some i
  | SagaCoreError.InvalidStateTransition _ _ | SagaCoreError.PersistenceError _ => None
  end.

Lemma core_errors_name_their_saga `{E : Externs} i ty e p :
  core_saga_id (ExecutionSagaError.into_core_error i ty e) = Some i /\
  core_saga_id (ProvisioningSagaError.into_core_error i ty p) = Some i.
Proof. by destruct e, p. Qed.
