(* ===== verification/ProviderConfigs.v ===== *)
(** * Provider configurations
    ([crates/server/domain/src/providers/config.rs], their repositories
    [infrastructure/src/persistence/postgres/provider_config_repository.rs] and
    [in_memory.rs])

    The configuration of a provider, the interface of its repository, and the
    two implementations: the map in memory keeps what it is given, the table of
    PostgreSQL keeps some of it ([stored]).  The JSON of the type-specific part
    is [serde]'s ([ConfigFormat]). *)

From S2P Require Import Prelude Effects Std Externs States Errors ProviderApi Sql.

Module RegistryAuth.

(** src: crates/server/domain/src/providers/config.rs 449-453 RegistryAuth *)
Record t := mk {
  username : string;
  password : string;
  server : string;
}.

#[global] Instance t_rebuild : Rebuild t := fun c =>
  mk (username c) (password c) (server c).

End RegistryAuth.

Module TlsConfig.

(** src: crates/server/domain/src/providers/config.rs 456-461 TlsConfig *)
Record t := mk {
  ca_cert_path : option string;
  cert_path : option string;
  key_path : option string;
  verify : bool;
}.

#[global] Instance t_rebuild : Rebuild t := fun c =>
  mk (ca_cert_path c) (cert_path c) (key_path c) (verify c).

End TlsConfig.

Module ContainerResources.

(** src: crates/server/domain/src/providers/config.rs 464-469 ContainerResources *)
Record t := mk {
  cpu_limit : option string;
  memory_limit : option string;
  cpu_request : option string;
  memory_request : option string;
}.

#[global] Instance t_rebuild : Rebuild t := fun c =>
  mk (cpu_limit c) (memory_limit c) (cpu_request c) (memory_request c).

End ContainerResources.

Module DockerConfig.

(** src: crates/server/domain/src/providers/config.rs 255-268 DockerConfig *)
Record t := mk {
  socket_path : string;
  default_image : string;
  network : option string;
  registry_auth : option RegistryAuth.t;
  tls : option TlsConfig.t;
  default_resources : option ContainerResources.t;
}.

#[global] Instance t_rebuild : Rebuild t := fun c =>
  mk (socket_path c) (default_image c) (network c) (registry_auth c) (tls c) (default_resources c).

(** src: crates/server/domain/src/providers/config.rs 271-280 DockerConfig::default *)
Definition default : t := {|
  socket_path := "/var/run/docker.sock";
  default_image := "hodei-jobs-worker:v3";
  network := None;
  registry_auth := None;
  tls := None;
  default_resources := None;
|}.

End DockerConfig.

Module Toleration.

(** src: crates/server/domain/src/providers/config.rs 472-477 Toleration *)
Record t := mk {
  key : string;
  operator : string;
  value : option string;
  effect : string;
}.

#[global] Instance t_rebuild : Rebuild t := fun c =>
  mk (key c) (operator c) (value c) (effect c).

End Toleration.

Module KubernetesConfig.

(** src: crates/server/domain/src/providers/config.rs 284-301 KubernetesConfig *)
Record t := mk {
  kubeconfig_path : option string;
  namespace : string;
  service_account : string;
  default_image : string;
  image_pull_secrets : list string;
  node_selector : gmap string string;
  tolerations : list Toleration.t;
  default_resources : option ContainerResources.t;
}.

#[global] Instance t_rebuild : Rebuild t := fun c =>
  mk (kubeconfig_path c) (namespace c) (service_account c) (default_image c) (image_pull_secrets c) (node_selector c) (tolerations c) (default_resources c).

(** src: crates/server/domain/src/providers/config.rs 304-315 KubernetesConfig::default *)
Definition default : t := {|
  kubeconfig_path := None;
  namespace := "hodei-jobs";
  service_account := "hodei-jobs-worker";
  default_image := "hodei-jobs-worker:latest";
  image_pull_secrets := [];
  node_selector := ∅;
  tolerations := [];
  default_resources := None;
|}.

End KubernetesConfig.

Module FargateConfig.

(** src: crates/server/domain/src/providers/config.rs 319-327 FargateConfig *)
Record t := mk {
  region : string;
  cluster_arn : string;
  subnets : list string;
  security_groups : list string;
  execution_role_arn : string;
  task_role_arn : option string;
  default_image : string;
}.

#[global] Instance t_rebuild : Rebuild t := fun c =>
  mk (region c) (cluster_arn c) (subnets c) (security_groups c) (execution_role_arn c) (task_role_arn c) (default_image c).

End FargateConfig.

Module CloudRunConfig.

(** src: crates/server/domain/src/providers/config.rs 330-337 CloudRunConfig *)
Record t := mk {
  project_id : string;
  region : string;
  service_account : option string;
  vpc_connector : option string;
  default_image : string;
  max_instances : option Z;
}.

#[global] Instance t_rebuild : Rebuild t := fun c =>
  mk (project_id c) (region c) (service_account c) (vpc_connector c) (default_image c) (max_instances c).

End CloudRunConfig.

Module ContainerAppsConfig.

(** src: crates/server/domain/src/providers/config.rs 340-345 ContainerAppsConfig *)
Record t := mk {
  subscription_id : string;
  resource_group : string;
  environment_name : string;
  default_image : string;
}.

#[global] Instance t_rebuild : Rebuild t := fun c =>
  mk (subscription_id c) (resource_group c) (environment_name c) (default_image c).

End ContainerAppsConfig.

Module VpcConfig.

(** src: crates/server/domain/src/providers/config.rs 480-483 VpcConfig *)
Record t := mk {
  subnet_ids : list string;
  security_group_ids : list string;
}.

#[global] Instance t_rebuild : Rebuild t := fun c =>
  mk (subnet_ids c) (security_group_ids c).

End VpcConfig.

Module LambdaConfig.

(** src: crates/server/domain/src/providers/config.rs 350-359 LambdaConfig *)
Record t := mk {
  region : string;
  role_arn : string;
  runtime : string;
  handler : string;
  vpc_config : option VpcConfig.t;
  layers : list string;
  timeout_seconds : Z;
  memory_mb : Z;
}.

#[global] Instance t_rebuild : Rebuild t := fun c =>
  mk (region c) (role_arn c) (runtime c) (handler c) (vpc_config c) (layers c) (timeout_seconds c) (memory_mb c).

(** src: crates/server/domain/src/providers/config.rs 362-373 LambdaConfig::default *)
Definition default : t := {|
  region := "us-east-1";
  role_arn := "";
  runtime := "provided.al2";
  handler := "bootstrap";
  vpc_config := None;
  layers := [];
  timeout_seconds := 900;
  memory_mb := 1024;
|}.

End LambdaConfig.

Module CloudFunctionsConfig.

(** src: crates/server/domain/src/providers/config.rs 377-385 CloudFunctionsConfig *)
Record t := mk {
  project_id : string;
  region : string;
  runtime : string;
  service_account : option string;
  vpc_connector : option string;
  timeout_seconds : Z;
  memory_mb : Z;
}.

#[global] Instance t_rebuild : Rebuild t := fun c =>
  mk (project_id c) (region c) (runtime c) (service_account c) (vpc_connector c) (timeout_seconds c) (memory_mb c).

End CloudFunctionsConfig.

Module AzureFunctionsConfig.

(** src: crates/server/domain/src/providers/config.rs 388-393 AzureFunctionsConfig *)
Record t := mk {
  subscription_id : string;
  resource_group : string;
  function_app_name : string;
  runtime : string;
}.

#[global] Instance t_rebuild : Rebuild t := fun c =>
  mk (subscription_id c) (resource_group c) (function_app_name c) (runtime c).

End AzureFunctionsConfig.

Module EC2Config.

(** src: crates/server/domain/src/providers/config.rs 398-407 EC2Config *)
Record t := mk {
  region : string;
  ami_id : string;
  instance_type : string;
  key_name : option string;
  security_group_ids : list string;
  subnet_id : option string;
  iam_instance_profile : option string;
  user_data_template : option string;
}.

#[global] Instance t_rebuild : Rebuild t := fun c =>
  mk (region c) (ami_id c) (instance_type c) (key_name c) (security_group_ids c) (subnet_id c) (iam_instance_profile c) (user_data_template c).

End EC2Config.

Module ComputeEngineConfig.

(** src: crates/server/domain/src/providers/config.rs 410-418 ComputeEngineConfig *)
Record t := mk {
  project_id : string;
  zone : string;
  machine_type : string;
  image_family : string;
  image_project : string;
  network : string;
  service_account : option string;
}.

#[global] Instance t_rebuild : Rebuild t := fun c =>
  mk (project_id c) (zone c) (machine_type c) (image_family c) (image_project c) (network c) (service_account c).

End ComputeEngineConfig.

Module ImageReference.

(** src: crates/server/domain/src/providers/config.rs 486-491 ImageReference *)
Record t := mk {
  publisher : string;
  offer : string;
  sku : string;
  version : string;
}.

#[global] Instance t_rebuild : Rebuild t := fun c =>
  mk (publisher c) (offer c) (sku c) (version c).

End ImageReference.

Module AzureVMsConfig.

(** src: crates/server/domain/src/providers/config.rs 421-429 AzureVMsConfig *)
Record t := mk {
  subscription_id : string;
  resource_group : string;
  location : string;
  vm_size : string;
  image_reference : ImageReference.t;
  admin_username : string;
  ssh_public_key : string;
}.

#[global] Instance t_rebuild : Rebuild t := fun c =>
  mk (subscription_id c) (resource_group c) (location c) (vm_size c) (image_reference c) (admin_username c) (ssh_public_key c).

End AzureVMsConfig.

Module BareMetalHost.

(** src: crates/server/domain/src/providers/config.rs 494-499 BareMetalHost *)
Record t := mk {
  name : string;
  address : string;
  port : Z;
  labels : gmap string string;
}.

#[global] Instance t_rebuild : Rebuild t := fun c =>
  mk (name c) (address c) (port c) (labels c).

End BareMetalHost.

Module BareMetalConfig.

(** src: crates/server/domain/src/providers/config.rs 434-438 BareMetalConfig *)
Record t := mk {
  hosts : list BareMetalHost.t;
  ssh_user : string;
  ssh_key_path : string;
}.

#[global] Instance t_rebuild : Rebuild t := fun c =>
  mk (hosts c) (ssh_user c) (ssh_key_path c).

End BareMetalConfig.

Module CustomConfig.
Section rec.
Context `{E : Externs}.

(** src: crates/server/domain/src/providers/config.rs 441-444 CustomConfig *)
Record t := mk {
  plugin_path : string;
  config : gmap string Json;
}.

#[global] Instance t_rebuild : Rebuild t := fun c =>
  mk (plugin_path c) (config c).

End rec.
End CustomConfig.

Module ProviderTypeConfig.
Section config.
Context `{E : Externs}.

(** src: crates/server/domain/src/providers/config.rs 180-201 ProviderTypeConfig *)
Inductive t :=
  | Docker (c : DockerConfig.t)
  | Kubernetes (c : KubernetesConfig.t)
  | Fargate (c : FargateConfig.t)
  | CloudRun (c : CloudRunConfig.t)
  | ContainerApps (c : ContainerAppsConfig.t)
  | Lambda (c : LambdaConfig.t)
  | CloudFunctions (c : CloudFunctionsConfig.t)
  | AzureFunctions (c : AzureFunctionsConfig.t)
  | EC2 (c : EC2Config.t)
  | ComputeEngine (c : ComputeEngineConfig.t)
  | AzureVMs (c : AzureVMsConfig.t)
  | BareMetal (c : BareMetalConfig.t)
  | Custom (c : CustomConfig.t).

(** The name of the variant. *)
Definition variant (c : t) : string :=
  match c with
  | Docker _ => "Docker"
  | Kubernetes _ => "Kubernetes"
  | Fargate _ => "Fargate"
  | CloudRun _ => "CloudRun"
  | ContainerApps _ => "ContainerApps"
  | Lambda _ => "Lambda"
  | CloudFunctions _ => "CloudFunctions"
  | AzureFunctions _ => "AzureFunctions"
  | EC2 _ => "EC2"
  | ComputeEngine _ => "ComputeEngine"
  | AzureVMs _ => "AzureVMs"
  | BareMetal _ => "BareMetal"
  | Custom _ => "Custom"
  end.

End config.
End ProviderTypeConfig.

(** [#[serde(rename_all = snake_case)]]: an underscore before every capital but
    a first one, and lower case. *)
Fixpoint snake_case_from (first : bool) (s : string) : string :=
  match s with
  | EmptyString => ""
  | String a s' =>
      let rest := String (to_ascii_lowercase_char a) (snake_case_from false s') in
      if is_ascii_uppercase a && negb first then String "_"%char rest else rest
  end.

Definition snake_case (s : string) : string := snake_case_from true s.

(** The functions of [serde_json] on the configurations, and the one of the
    standard library that depends on the Unicode tables. *)
Class ConfigFormat `{E : Externs} := {
  json_get : Json -> string -> option Json;
  is_object : Json -> bool;
  config_to_value : ProviderTypeConfig.t -> result string Json;
  config_from_value : Json -> result string ProviderTypeConfig.t;
  strings_to_value : list string -> Json;
  strings_from_value : Json -> option (list string);
  map_to_value : gmap string string -> Json;
  map_from_value : Json -> option (gmap string string);
  option_to_value : option string -> Json;
  to_uppercase : string -> string;
}.

(** Values are read back as they were written, and the field [type] of a value
    that is read is the renamed variant. *)
Class ConfigFormatLaws `{E : Externs} `{!ConfigFormat} : Prop := {
  json_get_set : forall v k x, is_object v = true -> json_get (json_set v k x) k = Some x;
  value_of_config : forall c v, config_to_value c = Ok v -> config_from_value v = Ok c;
  config_tag : forall v c, config_from_value v = Ok c ->
    json_get v "type" ≫= as_str = Some (snake_case (ProviderTypeConfig.variant c));
  object_of_get : forall v k, is_Some (json_get v k) -> is_object v = true;
  value_of_strings : forall l, strings_from_value (strings_to_value l) = Some l;
  value_of_map : forall m, map_from_value (map_to_value m) = Some m;
  to_uppercase_ascii : forall s, is_ascii s = true -> to_uppercase s = to_ascii_uppercase s;
  to_uppercase_app : forall s t, to_uppercase (s +:+ t) = to_uppercase s +:+ to_uppercase t;
}.

Module ProviderTypeConfigFormat.
Section format.
Context `{E : Externs} `{!ConfigFormat}.

(** src: crates/server/domain/src/providers/config.rs 224-239 ProviderTypeConfig::deserialize_from_json (normalized_type) *)
Definition normalized_type (type_field : string) : string :=
  let s := to_lowercase type_field in
  if String.eqb s "docker" then "docker"
  else if String.eqb s "kubernetes" then "kubernetes"
  else if String.eqb s "fargate" then "fargate"
  else if String.eqb s "cloud_run" || String.eqb s "cloudrun" then "cloud_run"
  else if String.eqb s "container_apps" || String.eqb s "containerapps" then "container_apps"
  else if String.eqb s "lambda" then "lambda"
  else if String.eqb s "cloud_functions" || String.eqb s "cloudfunctions" then "cloud_functions"
  else if String.eqb s "azure_functions" || String.eqb s "azurefunctions" then "azure_functions"
  else if String.eqb s "ec2" then "ec2"
  else if String.eqb s "compute_engine" || String.eqb s "computeengine" then "compute_engine"
  else if String.eqb s "azure_vms" || String.eqb s "azurevms" then "azure_vms"
  else if String.eqb s "bare_metal" || String.eqb s "baremetal" then "bare_metal"
  else if String.eqb s "custom" then "custom"
  else type_field.

(** src: crates/server/domain/src/providers/config.rs 206-249 ProviderTypeConfig::deserialize_from_json *)
Definition deserialize_from_json (value : Json) : result DomainError.t ProviderTypeConfig.t :=
  match json_get value "type" ≫= as_str with
  | None =>
      Err (DomainError.InfrastructureError "Missing 'type' field in provider config")
  | Some type_field =>
      match config_from_value value with
      | Ok config => Ok config
      | Err _ =>
          let value :=
            if is_object value
            then json_set value "type" (json_of_string (normalized_type type_field))
            else value in
          map_err (fun e => DomainError.InfrastructureError
                     ("Failed to deserialize provider config: " +:+ e))
            (config_from_value value)
      end
  end.

End format.
End ProviderTypeConfigFormat.

Module ProviderConfig.
Section config.
Context `{E : Externs}.

(** src: crates/server/domain/src/providers/config.rs 11-46 ProviderConfig *)
Record t := mk {
  id : ProviderId;
  name : string;
  provider_type : ProviderType.t;
  status : ProviderStatus.t;
  capabilities : ProviderCapabilities.t;
  type_config : ProviderTypeConfig.t;
  priority : Z;
  max_workers : Z;
  active_workers : Z;
  created_at : DateTime;
  updated_at : DateTime;
  tags : list string;
  metadata : gmap string string;
  preferred_region : option string;
  allowed_regions : list string;
  required_labels : gmap string string;
  annotations : gmap string string;
}.

#[global] Instance t_rebuild : Rebuild t := fun c =>
  mk (id c) (name c) (provider_type c) (status c) (capabilities c) (type_config c) (priority c)
    (max_workers c) (active_workers c) (created_at c) (updated_at c) (tags c) (metadata c)
    (preferred_region c) (allowed_regions c) (required_labels c) (annotations c).

(** src: crates/server/domain/src/providers/config.rs 73-99 ProviderConfig::with_id *)
Definition with_id (i : ProviderId) (n : string) (ty : ProviderType.t) (c : ProviderTypeConfig.t)
    (now : DateTime) : t := {|
  id := i;
  name := n;
  provider_type := ty;
  status := ProviderStatus.Active;
  capabilities := ProviderCapabilities.default;
  type_config := c;
  priority := 0;
  max_workers := 10;
  active_workers := 0;
  created_at := now;
  updated_at := now;
  tags := [];
  metadata := ∅;
  preferred_region := None;
  allowed_regions := [];
  required_labels := ∅;
  annotations := ∅;
|}.

(** [fresh] is [ProviderId::new()]. *)
(** src: crates/server/domain/src/providers/config.rs 49-71 ProviderConfig::new *)
Definition new (n : string) (ty : ProviderType.t) (c : ProviderTypeConfig.t) (fresh : Uuid)
    (now : DateTime) : t :=
  with_id fresh n ty c now.

(** src: crates/server/domain/src/providers/config.rs 101-104 ProviderConfig::with_priority *)
Definition with_priority (p : Z) (c : t) : t := c <| priority := p |>.
(** src: crates/server/domain/src/providers/config.rs 106-109 ProviderConfig::with_max_workers *)
Definition with_max_workers (n : Z) (c : t) : t := c <| max_workers := n |>.
(** src: crates/server/domain/src/providers/config.rs 111-114 ProviderConfig::with_capabilities *)
Definition with_capabilities (x : ProviderCapabilities.t) (c : t) : t := c <| capabilities := x |>.
(** src: crates/server/domain/src/providers/config.rs 116-119 ProviderConfig::with_tag *)
Definition with_tag (s : string) (c : t) : t := c <| tags := tags c ++ [s] |>.
(** src: crates/server/domain/src/providers/config.rs 121-124 ProviderConfig::with_preferred_region *)
Definition with_preferred_region (s : string) (c : t) : t := c <| preferred_region := Some s |>.
(** src: crates/server/domain/src/providers/config.rs 126-129 ProviderConfig::with_allowed_regions *)
Definition with_allowed_regions (l : list string) (c : t) : t := c <| allowed_regions := l |>.
(** src: crates/server/domain/src/providers/config.rs 131-134 ProviderConfig::add_allowed_region *)
Definition add_allowed_region (s : string) (c : t) : t :=
  c <| allowed_regions := allowed_regions c ++ [s] |>.
(** src: crates/server/domain/src/providers/config.rs 136-139 ProviderConfig::with_required_label *)
Definition with_required_label (k v : string) (c : t) : t :=
  c <| required_labels := <[k := v]> (required_labels c) |>.
(** src: crates/server/domain/src/providers/config.rs 141-144 ProviderConfig::with_required_labels *)
Definition with_required_labels (m : gmap string string) (c : t) : t :=
  c <| required_labels := m |>.
(** src: crates/server/domain/src/providers/config.rs 146-149 ProviderConfig::with_annotation *)
Definition with_annotation (k v : string) (c : t) : t :=
  c <| annotations := <[k := v]> (annotations c) |>.
(** src: crates/server/domain/src/providers/config.rs 151-154 ProviderConfig::with_annotations *)
Definition with_annotations (m : gmap string string) (c : t) : t := c <| annotations := m |>.

(** src: crates/server/domain/src/providers/config.rs 156-158 ProviderConfig::is_enabled *)
Definition is_enabled (c : t) : bool := bool_decide (status c = ProviderStatus.Active).

(** src: crates/server/domain/src/providers/config.rs 160-162 ProviderConfig::has_capacity *)
Definition has_capacity (c : t) : bool := active_workers c <? max_workers c.

(** src: crates/server/domain/src/providers/config.rs 164-167 ProviderConfig::increment_workers *)
Definition increment_workers (now : DateTime) (c : t) : t :=
  c <| active_workers := u32_add (active_workers c) 1 |> <| updated_at := now |>.

(** src: crates/server/domain/src/providers/config.rs 169-174 ProviderConfig::decrement_workers *)
Definition decrement_workers (now : DateTime) (c : t) : t :=
  let c := if 0 <? active_workers c then c <| active_workers := active_workers c - 1 |> else c in
  c <| updated_at := now |>.

End config.
End ProviderConfig.

(** src: crates/server/domain/src/providers/config.rs 509-539 ProviderConfigRepository *)
Class ProviderConfigRepository `{E : Externs} (S : Type) := {
  save_config : ProviderConfig.t -> method S DomainError.t unit;
  find_config_by_id : ProviderId -> method S DomainError.t (option ProviderConfig.t);
  find_config_by_name : string -> method S DomainError.t (option ProviderConfig.t);
  find_configs_by_type : ProviderType.t -> method S DomainError.t (list ProviderConfig.t);
  find_enabled_configs : method S DomainError.t (list ProviderConfig.t);
  find_configs_with_capacity : method S DomainError.t (list ProviderConfig.t);
  find_all_configs : method S DomainError.t (list ProviderConfig.t);
  update_config : ProviderConfig.t -> method S DomainError.t unit;
  delete_config : ProviderId -> method S DomainError.t unit;
  config_exists_by_name : string -> method S DomainError.t bool;
}.

(** ** In memory *)

Module InMemoryProviderConfigRepository.
Section repository.
Context `{E : Externs} `{!MapOrder}.
Import ProviderConfig.

(** src: crates/server/infrastructure/src/persistence/postgres/in_memory.rs 513-522 InMemoryProviderConfigRepository *)
Definition t : Type := gmap Uuid ProviderConfig.t.

(** src: crates/server/infrastructure/src/persistence/postgres/in_memory.rs 525-529 InMemoryProviderConfigRepository::new *)
Definition new : t := ∅.

(** src: crates/server/infrastructure/src/persistence/postgres/in_memory.rs 540-547 InMemoryProviderConfigRepository::save *)
Definition save (c : ProviderConfig.t) : method t DomainError.t unit :=
  modify (fun configs => <[id c := c]> configs).

(** src: crates/server/infrastructure/src/persistence/postgres/in_memory.rs 549-555 InMemoryProviderConfigRepository::find_by_id *)
Definition find_by_id (i : ProviderId) : method t DomainError.t (option ProviderConfig.t) :=
  configs ← self; mret (configs !! i).

(** src: crates/server/infrastructure/src/persistence/postgres/in_memory.rs 557-563 InMemoryProviderConfigRepository::find_by_name *)
Definition find_by_name (n : string) : method t DomainError.t (option ProviderConfig.t) :=
  configs ← self; mret (head (filter (fun c => name c = n) (map_values configs))).

(** src: crates/server/infrastructure/src/persistence/postgres/in_memory.rs 565-575 InMemoryProviderConfigRepository::find_by_type *)
Definition find_by_type (ty : ProviderType.t) : method t DomainError.t (list ProviderConfig.t) :=
  configs ← self; mret (filter (fun c => provider_type c = ty) (map_values configs)).

(** src: crates/server/infrastructure/src/persistence/postgres/in_memory.rs 577-586 InMemoryProviderConfigRepository::find_enabled *)
Definition find_enabled : method t DomainError.t (list ProviderConfig.t) :=
  configs ← self; mret (filter (fun c => is_enabled c = true) (map_values configs)).

(** src: crates/server/infrastructure/src/persistence/postgres/in_memory.rs 588-597 InMemoryProviderConfigRepository::find_with_capacity *)
Definition find_with_capacity : method t DomainError.t (list ProviderConfig.t) :=
  configs ← self; mret (filter (fun c => has_capacity c = true) (map_values configs)).

(** src: crates/server/infrastructure/src/persistence/postgres/in_memory.rs 599-602 InMemoryProviderConfigRepository::find_all *)
Definition find_all : method t DomainError.t (list ProviderConfig.t) :=
  configs ← self; mret (map_values configs).

(** src: crates/server/infrastructure/src/persistence/postgres/in_memory.rs 604-611 InMemoryProviderConfigRepository::update *)
Definition update (c : ProviderConfig.t) : method t DomainError.t unit :=
  modify (fun configs => <[id c := c]> configs).

(** src: crates/server/infrastructure/src/persistence/postgres/in_memory.rs 613-617 InMemoryProviderConfigRepository::delete *)
Definition delete (i : ProviderId) : method t DomainError.t unit :=
  modify (fun configs => base.delete i configs).

(** src: crates/server/infrastructure/src/persistence/postgres/in_memory.rs 619-622 InMemoryProviderConfigRepository::exists_by_name *)
Definition exists_by_name (n : string) : method t DomainError.t bool :=
  configs ← self; mret (existsb (fun c => String.eqb (name c) n) (map_values configs)).

#[global] Instance repository : ProviderConfigRepository t := {|
  save_config := save;
  find_config_by_id := find_by_id;
  find_config_by_name := find_by_name;
  find_configs_by_type := find_by_type;
  find_enabled_configs := find_enabled;
  find_configs_with_capacity := find_with_capacity;
  find_all_configs := find_all;
  update_config := update;
  delete_config := delete;
  config_exists_by_name := exists_by_name;
|}.

End repository.
End InMemoryProviderConfigRepository.

(** ** In PostgreSQL *)

Module ProviderConfigRow.
Section row.
Context `{E : Externs}.

(** The columns of the table [provider_configs]. *)
Record t := mk {
  id : Uuid;
  name : string;
  provider_type : string;
  config : Json;
  status : string;
  priority : Z;
  max_workers : Z;
  tags : Json;
  metadata : Json;
  preferred_region : option string;
  allowed_regions : Json;
  required_labels : Json;
  annotations : Json;
  created_at : DateTime;
  updated_at : DateTime;
}.

#[global] Instance t_rebuild : Rebuild t := fun r =>
  mk (id r) (name r) (provider_type r) (config r) (status r) (priority r) (max_workers r) (tags r)
    (metadata r) (preferred_region r) (allowed_regions r) (required_labels r) (annotations r)
    (created_at r) (updated_at r).

End row.
End ProviderConfigRow.

(** What the database does with the rows beyond [Table]: the order
    [priority DESC, name ASC], and what the text column [preferred_region] has
    when a JSON value is assigned to it. *)
Class ConfigDatabase `{E : Externs} := {
  order_by_priority : list ProviderConfigRow.t -> list ProviderConfigRow.t;
  order_by_priority_perm : forall l, order_by_priority l ≡ₚ l;
  text_column : Json -> option string;
}.

Module PostgresProviderConfigRepository.
Section repository.
Context `{E : Externs} `{!ConfigFormat} `{!ConfigDatabase} {S : Type} `{!Table S ProviderConfigRow.t}.
Import ProviderConfigRow.

Definition failed (what : string) (e : string) : DomainError.t :=
  DomainError.InfrastructureError ("Failed to " +:+ what +:+ ": " +:+ e).

(** src: crates/server/infrastructure/src/persistence/postgres/provider_config_repository.rs 323-339 map_row_to_provider_config (provider_type) *)
Definition provider_type_of_text (s : string) : ProviderType.t :=
  let s := to_uppercase s in
  if String.eqb s "DOCKER" then ProviderType.Docker
  else if String.eqb s "KUBERNETES" then ProviderType.Kubernetes
  else if String.eqb s "FARGATE" then ProviderType.Fargate
  else if String.eqb s "CLOUDRUN" then ProviderType.CloudRun
  else if String.eqb s "CONTAINERAPPS" then ProviderType.ContainerApps
  else if String.eqb s "LAMBDA" then ProviderType.Lambda
  else if String.eqb s "CLOUDFUNCTIONS" then ProviderType.CloudFunctions
  else if String.eqb s "AZUREFUNCTIONS" then ProviderType.AzureFunctions
  else if String.eqb s "EC2" then ProviderType.EC2
  else if String.eqb s "COMPUTEENGINE" then ProviderType.ComputeEngine
  else if String.eqb s "AZUREVMS" then ProviderType.AzureVMs
  else if String.eqb s "TEST" then ProviderType.Test
  else if String.eqb s "BAREMETAL" then ProviderType.BareMetal
  else if String.eqb s "CUSTOM" then ProviderType.Custom "custom"
  else ProviderType.Docker.

(** src: crates/server/infrastructure/src/persistence/postgres/provider_config_repository.rs 346-353 map_row_to_provider_config (status) *)
Definition status_of_text (s : string) : ProviderStatus.t :=
  if String.eqb s "ACTIVE" then ProviderStatus.Active
  else if String.eqb s "MAINTENANCE" then ProviderStatus.Maintenance
  else if String.eqb s "DISABLED" then ProviderStatus.Disabled
  else if String.eqb s "OVERLOADED" then ProviderStatus.Overloaded
  else if String.eqb s "UNHEALTHY" then ProviderStatus.Unhealthy
  else ProviderStatus.Disabled.

(** src: crates/server/infrastructure/src/persistence/postgres/provider_config_repository.rs 304-387 map_row_to_provider_config *)
Definition map_row_to_provider_config (row : t) : result DomainError.t ProviderConfig.t :=
  config ← map_err (fun e => failed "deserialize provider config" (DomainError.fmt e))
    (ProviderTypeConfigFormat.deserialize_from_json (config row));
  Ok {|
    ProviderConfig.id := id row;
    ProviderConfig.name := name row;
    ProviderConfig.provider_type := provider_type_of_text (provider_type row);
    ProviderConfig.status := status_of_text (status row);
    ProviderConfig.capabilities := ProviderCapabilities.default;
    ProviderConfig.type_config := config;
    ProviderConfig.priority := priority row;
    ProviderConfig.max_workers := as_u32 (max_workers row);
    ProviderConfig.active_workers := 0;
    ProviderConfig.created_at := created_at row;
    ProviderConfig.updated_at := updated_at row;
    ProviderConfig.tags := default [] (strings_from_value (tags row));
    ProviderConfig.metadata := default ∅ (map_from_value (metadata row));
    ProviderConfig.preferred_region := preferred_region row;
    ProviderConfig.allowed_regions := default [] (strings_from_value (allowed_regions row));
    ProviderConfig.required_labels := default ∅ (map_from_value (required_labels row));
    ProviderConfig.annotations := default ∅ (map_from_value (annotations row));
  |}.

(** The values bound to the statement of [save]. *)
(** src: crates/server/infrastructure/src/persistence/postgres/provider_config_repository.rs 104-118 PostgresProviderConfigRepository::save (values) *)
Definition row_of_config (provider : ProviderConfig.t) (config : Json) : t := {|
  id := ProviderConfig.id provider;
  name := ProviderConfig.name provider;
  provider_type := ProviderType.fmt (ProviderConfig.provider_type provider);
  config := config;
  status := ProviderStatus.fmt (ProviderConfig.status provider);
  priority := ProviderConfig.priority provider;
  max_workers := as_i32 (ProviderConfig.max_workers provider);
  tags := strings_to_value (ProviderConfig.tags provider);
  metadata := map_to_value (ProviderConfig.metadata provider);
  preferred_region := text_column (option_to_value (ProviderConfig.preferred_region provider));
  allowed_regions := strings_to_value (ProviderConfig.allowed_regions provider);
  required_labels := map_to_value (ProviderConfig.required_labels provider);
  annotations := map_to_value (ProviderConfig.annotations provider);
  created_at := ProviderConfig.created_at provider;
  updated_at := ProviderConfig.updated_at provider;
|}.

Definition has_name (n : string) (r : t) : bool := String.eqb (name r) n.

(** [DO UPDATE SET] of the row whose name is taken. *)
(** src: crates/server/infrastructure/src/persistence/postgres/provider_config_repository.rs 90-101 PostgresProviderConfigRepository::save (on conflict) *)
Definition overwrite (now : DateTime) (new old : t) : t :=
  old <| config := config new |> <| status := status new |> <| priority := priority new |>
      <| max_workers := max_workers new |> <| tags := tags new |> <| metadata := metadata new |>
      <| preferred_region := preferred_region new |> <| allowed_regions := allowed_regions new |>
      <| required_labels := required_labels new |> <| annotations := annotations new |>
      <| updated_at := now |>.

(** src: crates/server/infrastructure/src/persistence/postgres/provider_config_repository.rs 83-103 PostgresProviderConfigRepository::save (insert) *)
Definition upsert (new : t) (now : DateTime) (rows : list t) : result string (list t) :=
  Ok (if existsb (has_name (name new)) rows
      then (fun r => if has_name (name new) r then overwrite now new r else r) <$> rows
      else rows ++ [new]).

(** src: crates/server/infrastructure/src/persistence/postgres/provider_config_repository.rs 46-126 PostgresProviderConfigRepository::save *)
Definition save (provider : ProviderConfig.t) : method S DomainError.t unit :=
  config_json ← lift (map_err (failed "serialize provider config")
    (config_to_value (ProviderConfig.type_config provider)));
  mapping_error (write (upsert (row_of_config provider config_json)))
    (failed "save provider config").

(** [fetch_optional]: the first row there is. *)
Definition find_one (p : t -> bool) (what : string) :
    method S DomainError.t (option ProviderConfig.t) :=
  row ← mapping_error (read (fun rows => head (filter (fun r => p r = true) rows))) (failed what);
  match row with
  | Some row => c ← lift (map_row_to_provider_config row); mret (Some c)
  | None => mret None
  end.

(** [ORDER BY priority DESC, name ASC], and the loop that stops at the first row
    that cannot be read. *)
Definition find_many (p : t -> bool) (what : string) :
    method S DomainError.t (list ProviderConfig.t) :=
  rows ← mapping_error
    (read (fun rows => order_by_priority (filter (fun r => p r = true) rows))) (failed what);
  lift (mapM map_row_to_provider_config rows).

(** src: crates/server/infrastructure/src/persistence/postgres/provider_config_repository.rs 128-149 PostgresProviderConfigRepository::find_by_id *)
Definition find_by_id (i : ProviderId) : method S DomainError.t (option ProviderConfig.t) :=
  find_one (fun r => bool_decide (id r = i)) "find provider config by id".

(** src: crates/server/infrastructure/src/persistence/postgres/provider_config_repository.rs 151-172 PostgresProviderConfigRepository::find_by_name *)
Definition find_by_name (n : string) : method S DomainError.t (option ProviderConfig.t) :=
  find_one (has_name n) "find provider config by name".

(** src: crates/server/infrastructure/src/persistence/postgres/provider_config_repository.rs 174-195 PostgresProviderConfigRepository::find_all *)
Definition find_all : method S DomainError.t (list ProviderConfig.t) :=
  find_many (fun _ => true) "find all provider configs".

(** src: crates/server/infrastructure/src/persistence/postgres/provider_config_repository.rs 197-223 PostgresProviderConfigRepository::find_by_type *)
Definition find_by_type (ty : ProviderType.t) : method S DomainError.t (list ProviderConfig.t) :=
  find_many (fun r => String.eqb (provider_type r) (ProviderType.fmt ty))
    "find provider configs by type".

Definition is_active (r : t) : bool := String.eqb (status r) "ACTIVE".

(** src: crates/server/infrastructure/src/persistence/postgres/provider_config_repository.rs 225-247 PostgresProviderConfigRepository::find_enabled *)
Definition find_enabled : method S DomainError.t (list ProviderConfig.t) :=
  find_many is_active "find enabled provider configs".

(** src: crates/server/infrastructure/src/persistence/postgres/provider_config_repository.rs 249-271 PostgresProviderConfigRepository::find_with_capacity *)
Definition find_with_capacity : method S DomainError.t (list ProviderConfig.t) :=
  find_many is_active "find provider configs with capacity".

(** src: crates/server/infrastructure/src/persistence/postgres/provider_config_repository.rs 273-275 PostgresProviderConfigRepository::update *)
Definition update (c : ProviderConfig.t) : method S DomainError.t unit := save c.

(** src: crates/server/infrastructure/src/persistence/postgres/provider_config_repository.rs 277-289 PostgresProviderConfigRepository::exists_by_name *)
Definition exists_by_name (n : string) : method S DomainError.t bool :=
  count ← mapping_error (read (fun rows => length (filter (fun r => has_name n r = true) rows)))
    (failed "check provider config existence");
  mret (0 <? Z.of_nat count).

(** src: crates/server/infrastructure/src/persistence/postgres/provider_config_repository.rs 291-301 PostgresProviderConfigRepository::delete *)
Definition delete (i : ProviderId) : method S DomainError.t unit :=
  mapping_error (write (fun _ rows => Ok (filter (fun r => id r <> i) rows)))
    (failed "delete provider config").

#[global] Instance repository : ProviderConfigRepository S := {|
  save_config := save;
  find_config_by_id := find_by_id;
  find_config_by_name := find_by_name;
  find_configs_by_type := find_by_type;
  find_enabled_configs := find_enabled;
  find_configs_with_capacity := find_with_capacity;
  find_all_configs := find_all;
  update_config := update;
  delete_config := delete;
  config_exists_by_name := exists_by_name;
|}.

End repository.
End PostgresProviderConfigRepository.

(** ** Properties *)

Lemma head_filter_fmap {A} (p : A -> bool) (f : A -> A) l :
  (forall a, p (f a) = p a) ->
  head (filter (fun a => p a = true) (f <$> l)) = f <$> head (filter (fun a => p a = true) l).
Proof.
  intros Hp. induction l as [|a l IH]; [done|]. rewrite fmap_cons. destruct (p a) eqn:Ha.
  - by rewrite !filter_cons_True by (by rewrite ?Hp).
  - rewrite !filter_cons_False by (by rewrite ?Hp, Ha). exact IH.
Qed.

Lemma head_filter_None {A} (p : A -> bool) l :
  existsb p l = false <-> head (filter (fun a => p a = true) l) = None.
Proof.
  induction l as [|a l IH]; [done|]. simpl. destruct (p a) eqn:Ha.
  - by rewrite filter_cons_True.
  - rewrite filter_cons_False by congruence. exact IH.
Qed.

Section formats.
Context `{EL : ExternsLaws} `{!ConfigFormat} `{!ConfigFormatLaws}.
Import ProviderTypeConfigFormat.

Lemma deserialize_value c v : config_to_value c = Ok v -> deserialize_from_json v = Ok c.
Proof.
  intros Hv%value_of_config. unfold deserialize_from_json. by rewrite (config_tag v c Hv), Hv.
Qed.

Lemma tag_ascii c : is_ascii (snake_case (ProviderTypeConfig.variant c)) = true.
Proof. by destruct c. Qed.

Lemma deserialized_type v c :
  deserialize_from_json v = Ok c ->
  exists s, json_get v "type" ≫= as_str = Some s /\
    (s = snake_case (ProviderTypeConfig.variant c) \/
     normalized_type s = snake_case (ProviderTypeConfig.variant c)).
Proof.
  unfold deserialize_from_json. destruct (json_get v "type" ≫= as_str) as [s|] eqn:Hs; [|done].
  assert (is_object v = true) as ->.
  { apply (object_of_get v "type"). destruct (json_get v "type"); [by eauto|done]. }
  exists s. split; [done|]. destruct (config_from_value v) as [c1|e] eqn:Hv.
  - simplify_eq. left. apply config_tag in Hv. congruence.
  - right. destruct (config_from_value (json_set v "type" (json_of_string (normalized_type s)))) as [c1|e1] eqn:Hv1;
      [|done]. simplify_eq/=. apply config_tag in Hv1.
    rewrite json_get_set in Hv1; [simpl in Hv1; rewrite as_str_of_string in Hv1; congruence|].
    apply (object_of_get v "type"). destruct (json_get v "type"); [by eauto|done].
Qed.

(** Two of the names that the comments accept are those of no variant: a
    configuration whose type is [ec2], [azure_vms] or [azurevms], in any case, is
    never read. *)
Theorem vm_types_are_never_read v s :
  json_get v "type" ≫= as_str = Some s ->
  to_lowercase s ∈ ["ec2"; "azure_vms"; "azurevms"] -> is_err (deserialize_from_json v) = true.
Proof.
  intros Hs Hin. destruct (deserialize_from_json v) as [c|e] eqn:Hv; [|done].
  apply deserialized_type in Hv as (s' & Hs' & Htag). rewrite Hs in Hs'. injection Hs' as <-.
  exfalso. destruct Htag as [-> | Htag].
  - rewrite to_lowercase_ascii in Hin by apply tag_ascii. revert Hin. rewrite !elem_of_cons.
    destruct c; cbv; intros [|[|[|[]%elem_of_nil]]]; done.
  - unfold normalized_type in Htag. revert Hin Htag. rewrite !elem_of_cons.
    intros [->|[->|[->|[]%elem_of_nil]]]; destruct c; done.
Qed.

End formats.

Section postgres.
Context `{EL : ExternsLaws} `{!ConfigFormat} `{!ConfigFormatLaws} `{!ConfigDatabase}.
Context {S : Type} `{!Table S ProviderConfigRow.t} `{!TableLaws S ProviderConfigRow.t}.
Import PostgresProviderConfigRepository.

Lemma type_of_its_text ty :
  provider_type_of_text (ProviderType.fmt ty) =
    match ty with ProviderType.Custom _ => ProviderType.Docker | _ => ty end.
Proof.
  unfold provider_type_of_text.
  destruct ty; try (rewrite to_uppercase_ascii by done; reflexivity).
  change (ProviderType.fmt _) with ("custom:" +:+ name).
  rewrite to_uppercase_app, (to_uppercase_ascii "custom:") by done. reflexivity.
Qed.

Lemma status_of_its_text st :
  status_of_text (ProviderStatus.fmt st) =
    match st with ProviderStatus.Degraded => ProviderStatus.Disabled | _ => st end.
Proof. by destruct st. Qed.

(** What a configuration is when it comes back from the table. *)
Definition restored (c : ProviderConfig.t) : ProviderConfig.t :=
  c <| ProviderConfig.provider_type :=
         match ProviderConfig.provider_type c with
         | ProviderType.Custom _ => ProviderType.Docker
         | ty => ty
         end |>
    <| ProviderConfig.status :=
         match ProviderConfig.status c with
         | ProviderStatus.Degraded => ProviderStatus.Disabled
         | st => st
         end |>
    <| ProviderConfig.capabilities := ProviderCapabilities.default |>
    <| ProviderConfig.active_workers := 0 |>
    <| ProviderConfig.preferred_region :=
         text_column (option_to_value (ProviderConfig.preferred_region c)) |>.

Definition identified_as (old : ProviderConfigRow.t) (now : DateTime) (c : ProviderConfig.t) :
    ProviderConfig.t :=
  c <| ProviderConfig.id := ProviderConfigRow.id old |>
    <| ProviderConfig.provider_type := provider_type_of_text (ProviderConfigRow.provider_type old) |>
    <| ProviderConfig.created_at := ProviderConfigRow.created_at old |>
    <| ProviderConfig.updated_at := now |>.

Lemma read_back c v :
  config_to_value (ProviderConfig.type_config c) = Ok v -> u32 (ProviderConfig.max_workers c) ->
  map_row_to_provider_config (row_of_config c v) = Ok (restored c).
Proof.
  intros Hv Hmax. unfold map_row_to_provider_config. simpl.
  rewrite (deserialize_value _ _ Hv), type_of_its_text, status_of_its_text, !value_of_strings, !value_of_map.
  rewrite as_u32_as_i32 by done. by destruct c as [? ? [] [] ? ? ? ? ? ? ? ? ? ? ? ? ?].
Qed.

Lemma read_back_overwritten c v now old :
  config_to_value (ProviderConfig.type_config c) = Ok v -> u32 (ProviderConfig.max_workers c) ->
  ProviderConfigRow.name old = ProviderConfig.name c ->
  map_row_to_provider_config (overwrite now (row_of_config c v) old) =
    Ok (identified_as old now (restored c)).
Proof.
  intros Hv Hmax Hname. unfold map_row_to_provider_config. simpl.
  rewrite (deserialize_value _ _ Hv), status_of_its_text, !value_of_strings, !value_of_map, Hname.
  rewrite as_u32_as_i32 by done. by destruct c as [? ? [] [] ? ? ? ? ? ? ? ? ? ? ? ? ?].
Qed.

(** A save that is answered with [Ok] was one [upsert]. *)
Lemma saved c s :
  returns (save c) s = Ok tt -> exists v now,
    config_to_value (ProviderConfig.type_config c) = Ok v /\
    upsert (row_of_config c v) now (table_rows s) = Ok (table_rows (after (save c) s)).
Proof.
  unfold save, returns, after, mbind, method_bind, lift.
  destruct (config_to_value _) as [v|e] eqn:Hv; [|done]. simpl.
  unfold mapping_error. intros Hok. exists v.
  assert (returns (write (upsert (row_of_config c v))) s = Ok tt) as Hw.
  { unfold returns. by destruct (write _ s) as [s' [[]|]]. }
  apply write_ok in Hw as [now Hw]. exists now. split; [done|]. rewrite Hw. unfold after.
  by destruct (write _ s).
Qed.

Lemma find_one_ok p what s :
  (statement_outcome s).2 = Executed ->
  returns (find_one p what) s =
    match head (filter (fun r => p r = true) (table_rows s)) with
    | Some row => Some <$> map_row_to_provider_config row
    | None => Ok None
    end.
Proof.
  intros Hs. apply (read_executed (fun rows => head (filter (fun r => p r = true) rows))) in Hs.
  unfold find_one, returns, mbind, method_bind, mapping_error in *.
  destruct (read _ s) as [s' r]. simpl in Hs. subst r. simpl.
  destruct (head _) as [row|]; [|done]. unfold lift. by destruct (map_row_to_provider_config row).
Qed.

Lemma found_row p rows (r : ProviderConfigRow.t) :
  head (filter (fun r => p r = true) rows) = Some r -> p r = true /\ r ∈ rows.
Proof.
  intros Hr. assert (r ∈ filter (fun r => p r = true) rows) as Hin.
  { destruct (filter _ rows); [done|]. injection Hr as ->. left. }
  by apply list_elem_of_filter in Hin.
Qed.

(** The row that a name finds after an [upsert] under that name. *)
Lemma upsert_finds new now rows rows' :
  upsert new now rows = Ok rows' ->
  head (filter (fun r => has_name (ProviderConfigRow.name new) r = true) rows') = Some
    match head (filter (fun r => has_name (ProviderConfigRow.name new) r = true) rows) with
    | Some old => overwrite now new old
    | None => new
    end.
Proof.
  unfold upsert. intros [= <-]. set (p := has_name (ProviderConfigRow.name new)).
  destruct (existsb p rows) eqn:He.
  - rewrite (head_filter_fmap p).
    2:{ intros r. destruct (p r) eqn:Hr; [|done]. exact Hr. }
    destruct (head (filter _ rows)) as [old|] eqn:Hold.
    + simpl. apply found_row in Hold as [-> _]. done.
    + apply head_filter_None in Hold. congruence.
  - rewrite filter_app. pose proof He as Hn. apply head_filter_None in Hn.
    destruct (filter _ rows) as [|r l]; [|done]. simpl. rewrite filter_cons_True; [done|].
    unfold p, has_name. apply String.eqb_refl.
Qed.

Lemma has_name_eq n r : has_name n r = true -> ProviderConfigRow.name r = n.
Proof. apply String.eqb_eq. Qed.

(** What a save keeps of a configuration.  A configuration that was saved is
    found under its name, with the default capabilities, no active worker, a
    custom provider type turned into Docker, the status Degraded turned into
    Disabled and whatever the text column makes of the region; when the name was
    taken, it has the identifier, the type and the date of the configuration
    that had the name before. *)
Theorem saved_configs_are_restored c s :
  u32 (ProviderConfig.max_workers c) -> returns (save c) s = Ok tt ->
  (statement_outcome (after (save c) s)).2 = Executed ->
  exists now, returns (find_by_name (ProviderConfig.name c)) (after (save c) s) = Ok (Some
    match head (filter (fun r => has_name (ProviderConfig.name c) r = true) (table_rows s)) with
    | Some old => identified_as old now (restored c)
    | None => restored c
    end).
Proof.
  intros Hmax (v & now & Hv & Hup)%saved Hex. exists now. unfold find_by_name.
  rewrite find_one_ok by done. apply upsert_finds in Hup. simpl in Hup. rewrite Hup.
  destruct (head (filter _ (table_rows s))) as [old|] eqn:Hold.
  - apply found_row in Hold as [Hold _]. by rewrite (read_back_overwritten c v) by auto using has_name_eq.
  - by rewrite (read_back c v).
Qed.

End postgres.

(** ** Evaluation *)

Module ExampleConfigs.

Fixpoint get (j : json) (k : string) : option json :=
  match j with
  | JField o k' v => if String.eqb k' k then Some v else get o k
  | _ => None
  end.

Definition object (j : json) : bool := match j with JObj | JField _ _ _ => true | _ => false end.

Definition entry (x : string * string) : json := JField JObj x.1 (JStr x.2).

Definition entry_of (j : json) : option (string * string) :=
  match j with JField JObj k (JStr v) => Some (k, v) | _ => None end.

Definition text_of (j : json) : option string := match j with JStr s => Some s | _ => None end.

Definition write_config (c : ProviderTypeConfig.t (E := concrete)) : result string json :=
  match c with
  | ProviderTypeConfig.Docker (DockerConfig.mk socket image None None None None) =>
      Ok (JField (JField (JField JObj "default_image" (JStr image)) "socket_path" (JStr socket))
            "type" (JStr "docker"))
  | _ => Err "not written"
  end.

Definition read_config (j : json) : result string (ProviderTypeConfig.t (E := concrete)) :=
  match get j "type", get j "socket_path", get j "default_image" with
  | Some (JStr ty), Some (JStr socket), Some (JStr image) =>
      if String.eqb ty "docker"
      then Ok (ProviderTypeConfig.Docker (DockerConfig.mk socket image None None None None))
      else Err "unknown variant"
  | _, _, _ => Err "missing field"
  end.

#[global] Instance format : ConfigFormat (E := concrete) := @Build_ConfigFormat concrete
  get object write_config read_config
  (fun l => foldr JCons JNil (JStr <$> l))
  (fun j => json_items j ≫= mapM text_of)
  (fun m => foldr JCons JNil (entry <$> map_to_list m))
  (fun j => list_to_map <$> (json_items j ≫= mapM entry_of))
  (fun o => match o with Some s => JStr s | None => JNil end)
  to_ascii_uppercase.

Lemma items_of_list l : json_items (foldr JCons JNil l) = Some l.
Proof. induction l as [|x l IH]; simpl; [done|by rewrite IH]. Qed.

Lemma mapM_fmap {A B} (f : A -> B) (g : B -> option A) l :
  (forall a, g (f a) = Some a) -> mapM g (f <$> l) = Some l.
Proof. intros Hg. induction l as [|a l IH]; [done|]. rewrite fmap_cons. simpl. by rewrite Hg, IH. Qed.

Lemma to_ascii_uppercase_app s t :
  to_ascii_uppercase (s +:+ t) = to_ascii_uppercase s +:+ to_ascii_uppercase t.
Proof. induction s as [|a s IH]; [done|]. rewrite !append_cons. simpl. by rewrite IH. Qed.

#[global] Instance format_laws : ConfigFormatLaws (E := concrete).
Proof.
  split.
  - intros v k x _. simpl. by rewrite String.eqb_refl.
  - intros [[socket image [|] [|] [|] [|]]| | | | | | | | | | | |] v; try done. by intros [= <-].
  - simpl. unfold read_config. intros v c.
    destruct (get v "type") as [[]|]; try done. destruct (get v "socket_path") as [[]|]; try done.
    destruct (get v "default_image") as [[]|]; try done.
    destruct (String.eqb_spec s "docker") as [->|]; [|done]. by intros [= <-].
  - simpl. intros v k. destruct v; simpl; intros [? ?]; done.
  - simpl. intros l. rewrite items_of_list. simpl. by apply mapM_fmap.
  - simpl. intros m. rewrite items_of_list. simpl.
    rewrite (mapM_fmap entry) by (by intros [? ?]). simpl. by rewrite list_to_map_to_list.
  - done.
  - apply to_ascii_uppercase_app.
Qed.

#[global] Instance database : ConfigDatabase (E := concrete) :=
  @Build_ConfigDatabase concrete (fun l => l) (fun l => reflexivity l) text_of.

Definition degraded : ProviderConfig.t (E := concrete) :=
  (ProviderConfig.new (E := concrete) "lab" (ProviderType.Custom "lab")
    (ProviderTypeConfig.Docker DockerConfig.default) 5%nat 7)
    <| ProviderConfig.status := ProviderStatus.Degraded |>
    <| ProviderConfig.active_workers := 3 |>.

Definition table : Sheet.t (ProviderConfigRow.t (E := concrete)) := Sheet.mk [] 9 [].

End ExampleConfigs.

(** A degraded provider of a custom type with three workers comes back as a
    disabled Docker provider without workers. *)
Example saved_configs_are_restored_witness :
  let s := after (PostgresProviderConfigRepository.save (E := concrete) ExampleConfigs.degraded)
    ExampleConfigs.table in
  exists c, returns (PostgresProviderConfigRepository.find_by_name (E := concrete) "lab") s = Ok (Some c) /\
    ProviderConfig.provider_type c = ProviderType.Docker /\
    ProviderConfig.status c = ProviderStatus.Disabled /\ ProviderConfig.active_workers c = 0.
Proof.
  destruct (saved_configs_are_restored (E := concrete) ExampleConfigs.degraded ExampleConfigs.table)
    as [now H]; [split; reflexivity || discriminate|reflexivity..|].
  eexists. split; [exact H|]. repeat split; reflexivity.
Defined.

Example vm_types_are_never_read_witness :
  is_err (ProviderTypeConfigFormat.deserialize_from_json (E := concrete)
    (JField JObj "type" (JStr "EC2"))) = true.
Proof.
  apply (vm_types_are_never_read (E := concrete) (JField JObj "type" (JStr "EC2")) "EC2");
    [reflexivity|]. left.
Defined.
