(* ===== verification/AppServices.v ===== *)
(** * What the application layer is given
    ([crates/server/application/src])

    The traits the use cases of the application are built on, as type classes
    over the state they act on, in the manner of [Services.v]: the event bus, the
    queue of jobs, the provisioning service, the clocks and random identifiers.
    [InMemoryJobQueue] is an instance of the queue. *)

From S2P Require Import Prelude Effects Std Externs States Errors Job ProviderApi Worker Events Repositories Steps ProviderConfigs.

(** src: crates/server/domain/src/event_bus.rs 20-29 EventBus *)
Class EventBus `{E : Externs} (W : Type) := {
  publish_event : DomainEvent.t -> method W EventBusError.t unit;
}.

(** src: crates/server/domain/src/jobs/aggregate.rs 1313-1321 JobQueue *)
Class JobQueue `{E : Externs} (W : Type) := {
  enqueue_job : Job.t -> method W DomainError.t unit;
  dequeue_job : method W DomainError.t (option Job.t);
  peek_job : method W DomainError.t (option Job.t);
  queue_len : method W DomainError.t nat;
  queue_is_empty : method W DomainError.t bool;
  clear_queue : method W DomainError.t unit;
}.

#[global] Instance in_memory_queue `{E : Externs} : JobQueue InMemoryJobQueue.t := {|
  enqueue_job := InMemoryJobQueue.enqueue;
  dequeue_job := InMemoryJobQueue.dequeue;
  peek_job := InMemoryJobQueue.peek;
  queue_len := InMemoryJobQueue.len;
  queue_is_empty := InMemoryJobQueue.is_empty;
  clear_queue := InMemoryJobQueue.clear;
|}.

Module ProvisioningResult.
Section result.
Context `{E : Externs}.

(** src: crates/server/application/src/workers/provisioning.rs 13-20 ProvisioningResult *)
Record t := mk { worker_id : WorkerId; otp_token : string; provider_id : ProviderId }.

(** src: crates/server/application/src/workers/provisioning.rs 23-29 ProvisioningResult::new *)
Definition new (w : WorkerId) (otp : string) (p : ProviderId) : t := mk w otp p.

End result.
End ProvisioningResult.

(** src: crates/server/application/src/workers/provisioning.rs 38-71 WorkerProvisioningService *)
Class WorkerProvisioningService `{E : Externs} (W : Type) := {
  service_provision_worker : ProviderId -> WorkerSpec.t -> JobId ->
    method W DomainError.t ProvisioningResult.t;
  service_provider_available : ProviderId -> method W DomainError.t bool;
  service_default_spec : ProviderId -> W -> W * option WorkerSpec.t;
  service_list_providers : method W DomainError.t (list ProviderId);
  service_provider_config : ProviderId -> method W DomainError.t (option ProviderConfig.t);
  service_validate_spec : WorkerSpec.t -> method W DomainError.t unit;
}.

(** The clocks and the random identifiers. *)
Class Ambient `{E : Externs} (W : Type) := {
  read_utc : W -> W * DateTime;
  read_instant : W -> W * Z;
  draw_uuid : W -> W * Uuid;
}.

(** An operation of the world that cannot fail. *)
Definition calling {W F A} (f : W -> W * A) : method W F A := fun w => let (w, a) := f w in (w, Ok a).

Lemma wp_calling {W F A} (f : W -> W * A) (Q : result F A -> W -> Prop) w :
  Q (Ok (f w).2) (f w).1 -> wp (calling f) Q w.
Proof. unfold wp, calling. by destruct (f w). Qed.

(** The [Result] of a call as a value. *)
Definition result_of {W X F A} (m : method W X A) : method W F (result X A) :=
  fun w => let (w, r) := m w in (w, Ok r).

(** [call.await.map_err(|e| anyhow!(e))?] and the like. *)
Definition with_message {W X A} (fmt : X -> string) (m : method W X A) : method W string A :=
  mapping_error m fmt.
