(* ===== verification/ProviderRegistry.v ===== *)
(** * The registry of providers and their metrics
    ([crates/server/application/src/providers/registry.rs, manager.rs],
    [application/src/jobs/resource_allocator.rs])

    The registry works on any repository of configurations; the allocator turns
    a configuration into what the scheduler knows of a provider; the manager
    scales up when the queue is long. *)

From Stdlib Require Import SpecFloat.
From S2P Require Import Prelude Effects Std Externs States Errors JobSpec Job Kubernetes ProviderApi Worker Events Repositories Services Steps Scoring Sql ProviderConfigs AppServices.

Module ProviderRegistryStats.

(** src: crates/server/application/src/providers/registry.rs 467-474 ProviderRegistryStats *)
Record t := mk {
  total_providers : nat;
  enabled_providers : nat;
  providers_with_capacity : nat;
  total_max_workers : Z;
  total_active_workers : Z;
  utilization_percent : f64;
}.

End ProviderRegistryStats.

Module ProviderRegistry.
Section registry.
Context `{E : Externs} {W : Type} `{!ProviderConfigRepository W} `{!EventBus W}.
Import ProviderConfig.

(** The registry holds its repository, and the event bus if it was given one. *)
(** src: crates/server/application/src/providers/registry.rs 15-18 ProviderRegistry *)
Record t := mk { has_event_bus : bool }.

(** src: crates/server/application/src/providers/registry.rs 22-27 ProviderRegistry::new *)
Definition new : t := mk false.

(** src: crates/server/application/src/providers/registry.rs 30-38 ProviderRegistry::with_event_bus *)
Definition with_event_bus : t := mk true.

(** An error of the bus is only logged. *)
(** src: crates/server/application/src/providers/registry.rs 41-60 ProviderRegistry::publish_health_changed *)
Definition publish_health_changed (r : t) (i : ProviderId) (old new : ProviderStatus.t)
    (now : DateTime) : method W DomainError.t unit :=
  if has_event_bus r then
    _ ← result_of (publish_event
      (DomainEvent.ProviderHealthChanged i old new now None (Some "provider-registry")));
    mret tt
  else mret tt.

(** src: crates/server/application/src/providers/registry.rs 83-96 ProviderRegistry::register_provider_with_config *)
Definition register_provider_with_config (c : ProviderConfig.t) :
    method W DomainError.t ProviderConfig.t :=
  exists_ ← config_exists_by_name (name c);
  if (exists_ : bool) then
    throw (DomainError.InvalidProviderConfig
      ("Provider with name '" +:+ name c +:+ "' already exists"))
  else save_config c;; mret c.

(** src: crates/server/application/src/providers/registry.rs 63-80 ProviderRegistry::register_provider *)
Definition register_provider (n : string) (ty : ProviderType.t) (config : ProviderTypeConfig.t)
    (fresh : Uuid) (now : DateTime) : method W DomainError.t ProviderConfig.t :=
  exists_ ← config_exists_by_name n;
  if (exists_ : bool) then
    throw (DomainError.InvalidProviderConfig ("Provider with name '" +:+ n +:+ "' already exists"))
  else
    let c := ProviderConfig.new n ty config fresh now in
    save_config c;; mret c.

(** src: crates/server/application/src/providers/registry.rs 99-101 ProviderRegistry::get_provider *)
Definition get_provider (i : ProviderId) : method W DomainError.t (option ProviderConfig.t) :=
  find_config_by_id i.
(** src: crates/server/application/src/providers/registry.rs 104-106 ProviderRegistry::get_provider_by_name *)
Definition get_provider_by_name (n : string) : method W DomainError.t (option ProviderConfig.t) :=
  find_config_by_name n.
(** src: crates/server/application/src/providers/registry.rs 109-111 ProviderRegistry::list_providers *)
Definition list_providers : method W DomainError.t (list ProviderConfig.t) := find_all_configs.
(** src: crates/server/application/src/providers/registry.rs 114-116 ProviderRegistry::list_enabled_providers *)
Definition list_enabled_providers : method W DomainError.t (list ProviderConfig.t) :=
  find_enabled_configs.
(** src: crates/server/application/src/providers/registry.rs 118-120 ProviderRegistry::list_providers_with_capacity *)
Definition list_providers_with_capacity : method W DomainError.t (list ProviderConfig.t) :=
  find_configs_with_capacity.
(** src: crates/server/application/src/providers/registry.rs 123-128 ProviderRegistry::list_providers_by_type *)
Definition list_providers_by_type (ty : ProviderType.t) :
    method W DomainError.t (list ProviderConfig.t) :=
  find_configs_by_type ty.

(** [find_by_id(id).await?.ok_or_else(|| ProviderNotFound)?] *)
Definition existing (i : ProviderId) : method W DomainError.t ProviderConfig.t :=
  o ← find_config_by_id i; lift (ok_or o (DomainError.ProviderNotFound i)).

(** What [enable_provider] and [disable_provider] do. *)
Definition change_status (r : t) (i : ProviderId) (st : ProviderStatus.t) (now1 now2 : DateTime) :
    method W DomainError.t unit :=
  c ← existing i;
  update_config (c <| status := st |> <| updated_at := now1 |>);;
  if bool_decide (status c = st) then mret tt else publish_health_changed r i (status c) st now2.

(** src: crates/server/application/src/providers/registry.rs 131-151 ProviderRegistry::enable_provider *)
Definition enable_provider (r : t) (i : ProviderId) (now1 now2 : DateTime) :
    method W DomainError.t unit :=
  change_status r i ProviderStatus.Active now1 now2.

(** src: crates/server/application/src/providers/registry.rs 154-174 ProviderRegistry::disable_provider *)
Definition disable_provider (r : t) (i : ProviderId) (now1 now2 : DateTime) :
    method W DomainError.t unit :=
  change_status r i ProviderStatus.Disabled now1 now2.

(** src: crates/server/application/src/providers/registry.rs 177-202 ProviderRegistry::update_provider_status *)
Definition update_provider_status (r : t) (i : ProviderId) (st : ProviderStatus.t)
    (now1 now2 : DateTime) : method W DomainError.t unit :=
  c ← existing i;
  if bool_decide (status c = st) then mret tt
  else
    update_config (c <| status := st |> <| updated_at := now1 |>);;
    publish_health_changed r i (status c) st now2.

(** src: crates/server/application/src/providers/registry.rs 205-207 ProviderRegistry::update_provider *)
Definition update_provider (c : ProviderConfig.t) : method W DomainError.t unit := update_config c.
(** src: crates/server/application/src/providers/registry.rs 210-212 ProviderRegistry::delete_provider *)
Definition delete_provider (i : ProviderId) : method W DomainError.t unit := delete_config i.

(** src: crates/server/application/src/providers/registry.rs 299-305 ProviderRegistry::validate_cpu_requirements *)
Definition validate_cpu_requirements (p : ProviderConfig.t) (q : JobRequirements.t) : bool :=
  F64.leb (ResourceRequirements.cpu_cores (JobRequirements.resources q))
    (ResourceLimits.max_cpu_cores (ProviderCapabilities.max_resources (capabilities p))).

(** src: crates/server/application/src/providers/registry.rs 308-314 ProviderRegistry::validate_memory_requirements *)
Definition validate_memory_requirements (p : ProviderConfig.t) (q : JobRequirements.t) : bool :=
  ResourceRequirements.memory_bytes (JobRequirements.resources q) <=?
    ResourceLimits.max_memory_bytes (ProviderCapabilities.max_resources (capabilities p)).

(** src: crates/server/application/src/providers/registry.rs 317-326 ProviderRegistry::validate_gpu_requirements *)
Definition validate_gpu_requirements (p : ProviderConfig.t) (q : JobRequirements.t) : bool :=
  negb ((0 <? ResourceRequirements.gpu_count (JobRequirements.resources q)) &&
        negb (ProviderCapabilities.gpu_support (capabilities p))).

(** src: crates/server/application/src/providers/registry.rs 329-342 ProviderRegistry::validate_timeout_requirements *)
Definition validate_timeout_requirements (p : ProviderConfig.t) (q : JobRequirements.t) : bool :=
  match JobRequirements.timeout q, ProviderCapabilities.max_execution_time (capabilities p) with
  | Some required_timeout, Some max_timeout => negb (max_timeout <? required_timeout)
  | _, _ => true
  end.

(** src: crates/server/application/src/providers/registry.rs 345-356 ProviderRegistry::validate_architecture_requirements *)
Definition validate_architecture_requirements (p : ProviderConfig.t) (q : JobRequirements.t) : bool :=
  match JobRequirements.architecture q with
  | Some required_arch =>
      bool_decide (required_arch ∈ ProviderCapabilities.architectures (capabilities p))
  | None => true
  end.

(** src: crates/server/application/src/providers/registry.rs 359-379 ProviderRegistry::validate_region_requirements *)
Definition validate_region_requirements (p : ProviderConfig.t) (q : JobRequirements.t) : bool :=
  if bool_decide (JobRequirements.allowed_regions q = []) then true
  else if bool_decide (allowed_regions p = []) then true
  else existsb (fun r => bool_decide (r ∈ allowed_regions p)) (JobRequirements.allowed_regions q).

(** [for (key, value) in required { ... }]: every entry is in [offered]. *)
Definition all_entries (required offered : gmap string string) : bool :=
  forallb (fun '(k, v) => bool_decide (offered !! k = Some v)) (map_to_list required).

(** src: crates/server/application/src/providers/registry.rs 382-395 ProviderRegistry::validate_labels_requirements *)
Definition validate_labels_requirements (p : ProviderConfig.t) (q : JobRequirements.t) : bool :=
  all_entries (JobRequirements.required_labels q) (required_labels p).

(** src: crates/server/application/src/providers/registry.rs 398-411 ProviderRegistry::validate_annotations_requirements *)
Definition validate_annotations_requirements (p : ProviderConfig.t) (q : JobRequirements.t) : bool :=
  all_entries (JobRequirements.required_annotations q) (annotations p).

(** src: crates/server/application/src/providers/registry.rs 250-296 ProviderRegistry::can_fulfill_requirements *)
Definition can_fulfill_requirements (p : ProviderConfig.t) (q : JobRequirements.t) : bool :=
  validate_cpu_requirements p q && validate_memory_requirements p q &&
  validate_gpu_requirements p q && validate_timeout_requirements p q &&
  validate_architecture_requirements p q && validate_region_requirements p q &&
  validate_labels_requirements p q && validate_annotations_requirements p q.

(** The relative load. *)
Definition load (p : ProviderConfig.t) : f64 :=
  F64.div (F64.of_Z (active_workers p)) (F64.of_Z (Z.max (max_workers p) 1)).

(** The closure of [sort_by] does not answer [Greater]. *)
(** src: crates/server/application/src/providers/registry.rs 232-244 ProviderRegistry::select_best_provider (order) *)
Definition preferred (a b : ProviderConfig.t) : bool :=
  if priority a =? priority b then
    match SFcompare (load a) (load b) with Some Gt => false | _ => true end
  else priority b <? priority a.

(** src: crates/server/application/src/providers/registry.rs 215-247 ProviderRegistry::select_best_provider *)
Definition select_best_provider (q : JobRequirements.t) :
    method W DomainError.t (option ProviderConfig.t) :=
  available ← find_configs_with_capacity;
  let candidates := filter (fun p => can_fulfill_requirements p q = true) available in
  if bool_decide (candidates = []) then mret None
  else mret (head (sort_by preferred candidates)).

(** src: crates/server/application/src/providers/registry.rs 414-425 ProviderRegistry::increment_active_workers *)
Definition increment_active_workers (i : ProviderId) (now : DateTime) :
    method W DomainError.t unit :=
  c ← existing i; update_config (increment_workers now c).

(** src: crates/server/application/src/providers/registry.rs 428-439 ProviderRegistry::decrement_active_workers *)
Definition decrement_active_workers (i : ProviderId) (now : DateTime) :
    method W DomainError.t unit :=
  c ← existing i; update_config (decrement_workers now c).

(** [.sum::<u32>()] *)
Definition u32_sum (l : list Z) : Z := fold_left u32_add l 0.

(** src: crates/server/application/src/providers/registry.rs 442-462 ProviderRegistry::get_stats *)
Definition get_stats : method W DomainError.t ProviderRegistryStats.t :=
  all ← find_all_configs;
  enabled ← find_enabled_configs;
  with_capacity ← find_configs_with_capacity;
  let total_max := u32_sum (max_workers <$> all) in
  let total_active := u32_sum (active_workers <$> all) in
  mret {|
    ProviderRegistryStats.total_providers := length all;
    ProviderRegistryStats.enabled_providers := length enabled;
    ProviderRegistryStats.providers_with_capacity := length with_capacity;
    ProviderRegistryStats.total_max_workers := total_max;
    ProviderRegistryStats.total_active_workers := total_active;
    ProviderRegistryStats.utilization_percent :=
      if 0 <? total_max
      then F64.mul (F64.div (F64.of_Z total_active) (F64.of_Z total_max)) (F64.of_Z 100)
      else F64.of_Z 0;
  |}.

End registry.
End ProviderRegistry.

Module ProviderAnalysisResult.

(** src: crates/server/application/src/jobs/resource_allocator.rs 20-31 ProviderAnalysisResult *)
Record t := mk {
  provider_id : string;
  estimated_startup : Duration;
  health_score : f64;
  cost_per_hour : f64;
  has_capacity : bool;
}.

End ProviderAnalysisResult.

Module ResourceAllocatorConfig.

(** src: crates/server/application/src/jobs/resource_allocator.rs 35-40 ResourceAllocatorConfig *)
Record t := mk { startup_time_fraction : f64; min_startup_time : Duration }.

(** src: crates/server/application/src/jobs/resource_allocator.rs 43-48 ResourceAllocatorConfig::default *)
Definition default : t := mk (F64.lit 15 2) (from_secs 5).

End ResourceAllocatorConfig.

Module ResourceAllocator.
Section allocator.
Context `{E : Externs}.
Import ProviderConfig.

(** src: crates/server/application/src/jobs/resource_allocator.rs 59-62 ResourceAllocator *)
Record t := mk { config : ResourceAllocatorConfig.t }.

(** src: crates/server/application/src/jobs/resource_allocator.rs 66-70 ResourceAllocator::new *)
Definition new (c : option ResourceAllocatorConfig.t) : t :=
  mk (default ResourceAllocatorConfig.default c).

(** src: crates/server/application/src/jobs/resource_allocator.rs 145-155 ResourceAllocator::default_startup_for_type *)
Definition default_startup_for_type (ty : ProviderType.t) : Duration :=
  match ty with
  | ProviderType.Docker => from_secs 3
  | ProviderType.Kubernetes => from_secs 15
  | ProviderType.Custom _ => from_secs 8
  | ProviderType.Lambda => from_secs 2
  | ProviderType.CloudRun => from_secs 10
  | ProviderType.Fargate => from_secs 20
  | _ => from_secs 30
  end.

(** src: crates/server/application/src/jobs/resource_allocator.rs 130-142 ResourceAllocator::calculate_startup_time *)
Definition calculate_startup_time (a : t) (p : ProviderConfig.t) : Duration :=
  match ProviderCapabilities.max_execution_time (capabilities p) with
  | Some max_exec_time =>
      let estimated := F64.to_u64 (F64.mul (F64.of_Z (as_secs max_exec_time))
        (ResourceAllocatorConfig.startup_time_fraction (config a))) in
      from_secs (Z.max estimated 5)
  | None => default_startup_for_type (provider_type p)
  end.

(** src: crates/server/application/src/jobs/resource_allocator.rs 164-190 ResourceAllocator::calculate_health_score *)
Definition calculate_health_score (p : ProviderConfig.t) : f64 :=
  let score := F64.lit 5 1 in
  let score := if is_enabled p then F64.add score (F64.lit 2 1) else score in
  let score := if has_capacity p then F64.add score (F64.lit 15 2) else score in
  let score := if ProviderCapabilities.gpu_support (capabilities p)
               then F64.add score (F64.lit 5 2) else score in
  let score := if bool_decide (ProviderCapabilities.regions (capabilities p) = [])
               then score else F64.add score (F64.lit 5 2) in
  let score := if ProviderCapabilities.persistent_storage (capabilities p)
               then F64.add score (F64.lit 5 2) else score in
  F64.min score (F64.of_Z 1).

(** [t if t.contains(a) || t.contains(b)] *)
Definition either (a b s : string) : bool := str_contains a s || str_contains b s.

(** src: crates/server/application/src/jobs/resource_allocator.rs 197-236 ResourceAllocator::calculate_provider_cost *)
Definition calculate_provider_cost (p : ProviderConfig.t) : f64 :=
  match type_config p with
  | ProviderTypeConfig.Docker _ => F64.of_Z 0
  | ProviderTypeConfig.Kubernetes k8s =>
      let complexity_bonus :=
        F64.mul (F64.of_Z (Z.of_nat (size (KubernetesConfig.node_selector k8s)))) (F64.lit 2 2) in
      F64.min (F64.add (F64.lit 1 1) complexity_bonus) (F64.lit 5 1)
  | ProviderTypeConfig.CloudRun _ => F64.lit 5 2
  | ProviderTypeConfig.Fargate _ => F64.lit 15 2
  | ProviderTypeConfig.ContainerApps _ => F64.lit 1 1
  | ProviderTypeConfig.Lambda lambda =>
      let memory_factor := F64.mul
        (F64.div (F64.of_Z (LambdaConfig.memory_mb lambda)) (F64.of_Z 1024)) (F64.lit 17 3) in
      let timeout_factor := F64.mul
        (F64.div (F64.of_Z (LambdaConfig.timeout_seconds lambda)) (F64.of_Z 900)) (F64.lit 1 2) in
      F64.min (F64.add memory_factor timeout_factor) (F64.lit 1 1)
  | ProviderTypeConfig.CloudFunctions _ => F64.lit 5 2
  | ProviderTypeConfig.AzureFunctions _ => F64.lit 5 2
  | ProviderTypeConfig.EC2 ec2 =>
      let ty := EC2Config.instance_type ec2 in
      if either "t3" "t2" ty then F64.lit 5 2
      else if either "m5" "m6" ty then F64.lit 1 1
      else if either "c5" "c6" ty then F64.lit 12 2
      else if either "r5" "r6" ty then F64.lit 15 2
      else if either "p3" "p4" ty then F64.of_Z 3
      else if either "g4" "g5" ty then F64.lit 25 1
      else F64.lit 1 1
  | ProviderTypeConfig.ComputeEngine _ => F64.lit 8 2
  | ProviderTypeConfig.AzureVMs _ => F64.lit 8 2
  | ProviderTypeConfig.BareMetal _ => F64.lit 2 1
  | ProviderTypeConfig.Custom _ => F64.of_Z 0
  end.

(** src: crates/server/application/src/jobs/resource_allocator.rs 73-85 ResourceAllocator::analyze_provider *)
Definition analyze_provider (a : t) (p : ProviderConfig.t) : ProviderAnalysisResult.t := {|
  ProviderAnalysisResult.provider_id := uuid_to_string (id p);
  ProviderAnalysisResult.estimated_startup := calculate_startup_time a p;
  ProviderAnalysisResult.health_score := calculate_health_score p;
  ProviderAnalysisResult.cost_per_hour := calculate_provider_cost p;
  ProviderAnalysisResult.has_capacity := has_capacity p;
|}.

(** src: crates/server/application/src/jobs/resource_allocator.rs 108-123 ResourceAllocator::config_to_provider_info *)
Definition config_to_provider_info (a : t) (p : ProviderConfig.t) : ProviderInfo.t :=
  let analysis := analyze_provider a p in {|
  ProviderInfo.provider_id := id p;
  ProviderInfo.provider_type := provider_type p;
  ProviderInfo.active_workers := active_workers p;
  ProviderInfo.max_workers := max_workers p;
  ProviderInfo.estimated_startup_time := ProviderAnalysisResult.estimated_startup analysis;
  ProviderInfo.health_score := ProviderAnalysisResult.health_score analysis;
  ProviderInfo.cost_per_hour := ProviderAnalysisResult.cost_per_hour analysis;
  ProviderInfo.gpu_support := ProviderCapabilities.gpu_support (capabilities p);
  ProviderInfo.gpu_types := ProviderCapabilities.gpu_types (capabilities p);
  ProviderInfo.regions := ProviderCapabilities.regions (capabilities p);
|}.

(** src: crates/server/application/src/jobs/resource_allocator.rs 88-96 ResourceAllocator::configs_to_provider_infos *)
Definition configs_to_provider_infos (a : t) (ps : list ProviderConfig.t) : list ProviderInfo.t :=
  config_to_provider_info a <$> ps.

(** src: crates/server/application/src/jobs/resource_allocator.rs 100-105 ResourceAllocator::configs_to_provider_infos_ref *)
Definition configs_to_provider_infos_ref (a : t) (ps : list ProviderConfig.t) :
    list ProviderInfo.t :=
  config_to_provider_info a <$> ps.

End allocator.
End ResourceAllocator.

Module ProviderManager.
Section manager.
Context `{E : Externs} {W : Type} `{!EventBus W} `{!WorkerProvisioningService W} `{!JobQueue W}.
Context `{!Ambient W}.

(** What an event of a queue that is too long leads to; the other events are
    only logged, as is every error. *)
(** src: crates/server/application/src/providers/manager.rs 87-247 ProviderManager::handle_event *)
Definition handle_event (event : DomainEvent.t) : method W DomainError.t unit :=
  match event with
  | DomainEvent.JobQueueDepthChanged queue_depth threshold _ correlation_id _ =>
      if threshold <? queue_depth then
        providers ← result_of service_list_providers;
        match head (match providers with Ok l => l | Err _ => [] end) with
        | None => mret tt
        | Some provider_id =>
            available ← result_of (service_provider_available provider_id);
            if match available with Ok b => b | Err _ => false end then
              now ← calling read_utc;
              let reason := "Queue depth " +:+ show_Z queue_depth +:+ " > " +:+ show_Z threshold in
              _ ← result_of (publish_event (DomainEvent.AutoScalingTriggered provider_id reason now
                               correlation_id (Some "ProviderManager")));
              spec ← calling (service_default_spec provider_id);
              match spec with
              | None => mret tt
              | Some worker_spec =>
                  job ← result_of peek_job;
                  match job with
                  | Ok (Some job) =>
                      _ ← result_of (service_provision_worker provider_id worker_spec (Job.id job));
                      mret tt
                  | Ok None => mret tt
                  | Err _ => mret tt
                  end
              end
            else mret tt
        end
      else mret tt
  | _ => mret tt
  end.

End manager.
End ProviderManager.

(** ** Properties *)

Section selection.
Context `{E : Externs} {W : Type} `{!ProviderConfigRepository W}.
Import ProviderConfig ProviderRegistry.

(** The load of a provider is a number. *)
Definition has_load (p : ProviderConfig.t) : Prop := load p <> S754_nan.

Lemma preferred_spec a b :
  has_load a -> has_load b ->
  preferred a b = true <->
    priority b < priority a \/ (priority a = priority b /\ F64.leb (load a) (load b) = true).
Proof.
  unfold preferred, has_load, F64.leb, SFleb. intros Ha Hb.
  destruct (Z.eqb_spec (priority a) (priority b)) as [Heq|Hne].
  - destruct (SFcompare_some _ _ Ha Hb) as [c ->]. destruct c; split; intros; try done; try (by right);
      destruct H as [?|[_ ?]]; done || lia.
  - rewrite Z.ltb_lt. split; [by left|]. by intros [?|[? _]].
Qed.

Lemma load_total a b : has_load a -> has_load b ->
  F64.leb (load a) (load b) = true \/ F64.leb (load b) (load a) = true.
Proof.
  intros Ha Hb. unfold F64.leb, SFleb. rewrite (SFcompare_antisym (load a) (load b)).
  destruct (SFcompare_some _ _ Ha Hb) as [c ->]. destruct c; simpl; auto.
Qed.

Lemma preferred_head l p :
  Forall has_load l -> head (sort_by preferred l) = Some p ->
  exists l1 l2, l = l1 ++ p :: l2 /\ Forall (fun q => preferred p q = true) l /\
    Forall (fun q => preferred q p = false) l1.
Proof.
  intros Hl. apply (sort_by_head has_load); [| | |done].
  - intros a b c Ha Hb Hc. rewrite !preferred_spec by done.
    intros [?|[? H1]] [?|[? H2]]; [left; lia..|right]. split; [lia|]. by eapply SFleb_trans.
  - intros a b Ha Hb Hab. apply Bool.not_true_iff_false in Hab. rewrite preferred_spec in * by done.
    destruct (Z.lt_trichotomy (priority a) (priority b)) as [?|[?|?]]; [by left| |].
    + right. split; [done|]. destruct (load_total a b); [done..|tauto|done].
    + tauto.
  - intros a Ha. rewrite preferred_spec by done. right. split; [done|]. by apply SFleb_refl_nonnan.
Qed.

(** The best provider is chosen.  Selection fails exactly when no provider
    that the repository offers fulfils the requirements; the provider chosen
    fulfils them, no other that does has a greater priority, or the same and
    less load, and it is the first such provider. *)
Theorem best_provider_is_chosen q w l :
  returns find_configs_with_capacity w = Ok l -> Forall has_load l ->
  match returns (select_best_provider q) w with
  | Ok None => forall p, p ∈ l -> can_fulfill_requirements p q = false
  | Ok (Some p) => exists l1 l2, l = l1 ++ p :: l2 /\ can_fulfill_requirements p q = true /\
      (forall o, o ∈ l -> can_fulfill_requirements o q = true ->
         priority o < priority p \/ (priority o = priority p /\ F64.leb (load p) (load o) = true)) /\
      (forall o, o ∈ l1 -> can_fulfill_requirements o q = true ->
         priority o < priority p \/ (priority o = priority p /\ F64.leb (load o) (load p) = false))
  | Err _ => False
  end.
Proof.
  unfold returns, select_best_provider, mbind, method_bind. intros Hl Hload.
  destruct (find_configs_with_capacity w) as [w' r]. simpl in Hl. subst r.
  case_bool_decide as Hnone; simpl.
  { intros p Hp. apply Bool.not_true_iff_false. intros Hq.
    assert (p ∈ filter (fun p => can_fulfill_requirements p q = true) l) as Hin
      by (by apply list_elem_of_filter).
    rewrite Hnone in Hin. by apply not_elem_of_nil in Hin. }
  destruct (head (sort_by preferred _)) as [p|] eqn:Hhead.
  2:{ destruct (sort_by preferred _) eqn:Hs; [|done]. by apply sort_by_nil in Hs. }
  rewrite Forall_forall in Hload.
  apply preferred_head in Hhead as (k1 & k2 & Hsplit & Hbest & Hfirst).
  2:{ rewrite Forall_forall. intros o [_ Ho]%list_elem_of_filter. auto. }
  rewrite Forall_forall in Hbest, Hfirst.
  apply filter_split in Hsplit as (l1 & l2 & -> & Hl1 & Hp).
  assert (has_load p) as Hpl by (apply Hload, elem_of_app; right; left).
  exists l1, l2. split_and!; [done|done| |].
  - intros o Ho Hq. specialize (Hbest o). rewrite list_elem_of_filter in Hbest.
    apply preferred_spec in Hbest; auto. intuition congruence.
  - intros o Ho Hq. specialize (Hfirst o). rewrite <- Hl1, list_elem_of_filter in Hfirst.
    specialize (Hfirst (conj Hq Ho)). apply Bool.not_true_iff_false in Hfirst.
    assert (has_load o) as Hol by (apply Hload, elem_of_app; by left).
    rewrite preferred_spec in Hfirst by done.
    destruct (Z.lt_trichotomy (priority o) (priority p)) as [?|[?|?]]; [by left| |tauto].
    right. split; [done|]. apply Bool.not_true_iff_false. tauto.
Qed.

End selection.

(** *** With the table of PostgreSQL *)

Section stored.
Context `{EL : ExternsLaws} `{!ConfigFormat} `{!ConfigFormatLaws} `{!ConfigDatabase}.
Context {S : Type} `{!Table S ProviderConfigRow.t} `{!TableLaws S ProviderConfigRow.t}.
Import ProviderConfig ProviderRegistry.

(** What every configuration that comes out of the table has. *)
Definition plain (p : ProviderConfig.t) : Prop :=
  capabilities p = ProviderCapabilities.default /\ active_workers p = 0.

Lemma map_row_plain r p :
  PostgresProviderConfigRepository.map_row_to_provider_config r = Ok p -> plain p.
Proof.
  unfold PostgresProviderConfigRepository.map_row_to_provider_config, mbind, result_bind.
  destruct (map_err _ _); [|done]. by intros [= <-].
Qed.

Lemma mapM_plain rows l :
  mapM PostgresProviderConfigRepository.map_row_to_provider_config rows = Ok l -> Forall plain l.
Proof.
  revert l. induction rows as [|r rows IH]; simpl; intros l.
  { intros [= <-]. constructor. }
  unfold mbind, result_bind.
  destruct (PostgresProviderConfigRepository.map_row_to_provider_config r) as [p|] eqn:Hp; [|done].
  destruct (mapM _ rows) as [ps|]; [|done]. intros [= <-]. constructor; [by eapply map_row_plain|auto].
Qed.

Lemma find_many_plain p what s l :
  returns (PostgresProviderConfigRepository.find_many p what) s = Ok l -> Forall plain l.
Proof.
  unfold PostgresProviderConfigRepository.find_many, returns, mbind, method_bind, mapping_error.
  destruct (read _ s) as [s' [rows|e]]; simpl; [|done]. by apply mapM_plain.
Qed.

Lemma with_capacity_plain s l : returns find_configs_with_capacity s = Ok l -> Forall plain l.
Proof. apply find_many_plain. Qed.

(** The requirements the default capabilities do not meet. *)
Definition beyond_default (q : JobRequirements.t) : Prop :=
  0 < ResourceRequirements.gpu_count (JobRequirements.resources q) \/
  8 * 1024 * 1024 * 1024 < ResourceRequirements.memory_bytes (JobRequirements.resources q) \/
  F64.leb (ResourceRequirements.cpu_cores (JobRequirements.resources q)) (F64.of_Z 4) = false \/
  (exists d, JobRequirements.timeout q = Some d /\ from_secs 3600 < d) \/
  (exists a, JobRequirements.architecture q = Some a /\ a <> Architecture.Amd64).

Lemma plain_fails p q :
  plain p -> beyond_default q -> can_fulfill_requirements p q = false.
Proof.
  intros [Hc _] Hq. unfold can_fulfill_requirements, validate_cpu_requirements,
    validate_memory_requirements, validate_gpu_requirements, validate_timeout_requirements,
    validate_architecture_requirements. rewrite Hc. cbn -[F64.leb F64.of_Z Z.leb Z.ltb from_secs Z.mul].
  apply Bool.not_true_iff_false. rewrite !andb_true_iff.
  intros [[[[[[[Hcpu Hmem] Hgpu] Htime] Harch] _] _] _].
  destruct Hq as [Hq|[Hq|[Hq|[(d & Hd & Hq)|(a & Ha & Hq)]]]].
  - apply Z.ltb_lt in Hq. by rewrite Hq in Hgpu.
  - apply Z.leb_le in Hmem. lia.
  - congruence.
  - rewrite Hd in Htime. apply Z.ltb_lt in Hq. by rewrite Hq in Htime.
  - rewrite Ha in Harch. apply bool_decide_eq_true in Harch. by apply list_elem_of_singleton in Harch.
Qed.

(** The table does not keep what a provider can do, so that jobs that need
    more than the default capabilities never find a provider in it: a GPU, more
    than four cores, 8 GiB or an hour, or another architecture than the default
    one, whatever was registered.  Nor does it count workers: whatever was
    incremented, an offered provider has no active worker. *)
Theorem stored_providers_have_default_capabilities q s :
  beyond_default q ->
  (forall o, returns (select_best_provider q) s = Ok o -> o = None) /\
  (forall l p, returns find_configs_with_capacity s = Ok l -> p ∈ l ->
     active_workers p = 0 /\ has_capacity p = (0 <? max_workers p)).
Proof.
  intros Hq. split.
  - intros o. unfold select_best_provider, returns, mbind, method_bind.
    pose proof (with_capacity_plain s) as Hplain. unfold returns in Hplain.
    destruct (find_configs_with_capacity s) as [s' [l|e]]; [|done]. specialize (Hplain l eq_refl).
    rewrite Forall_forall in Hplain. case_bool_decide as Hnone; [by intros [= <-]|].
    destruct Hnone. destruct (filter _ l) as [|p ps] eqn:Hf; [done|].
    assert (p ∈ filter (fun p => can_fulfill_requirements p q = true) l) as Hin by (rewrite Hf; left).
    apply list_elem_of_filter in Hin as [Hp Hin]. rewrite (plain_fails p q) in Hp by auto. done.
  - intros l p Hl Hp. apply with_capacity_plain in Hl. rewrite Forall_forall in Hl.
    destruct (Hl p Hp) as [_ Ha]. split; [done|]. unfold has_capacity. by rewrite Ha.
Qed.

End stored.

(** ** Evaluation *)

#[local] Existing Instance concrete_order.

Module ExampleRegistry.

Definition docker (name : string) (i priority active : nat) : ProviderConfig.t (E := concrete) :=
  ProviderConfig.new (E := concrete) name ProviderType.Docker
    (ProviderTypeConfig.Docker DockerConfig.default) i 7
    <| ProviderConfig.priority := Z.of_nat priority |>
    <| ProviderConfig.active_workers := Z.of_nat active |>.

Definition providers : InMemoryProviderConfigRepository.t (E := concrete) :=
  {[ 1%nat := docker "busy" 1 2 9; 2%nat := docker "free" 2 2 3; 3%nat := docker "poor" 3 1 0 ]}.

Definition requirements (gpus : Z) : JobRequirements.t :=
  JobRequirements.mk (ResourceRequirements.default <| ResourceRequirements.gpu_count := gpus |>)
    None [] ∅ [] None None None ∅.

Definition stored : Sheet.t (ProviderConfigRow.t (E := concrete)) :=
  after (PostgresProviderConfigRepository.save (E := concrete) (docker "lab" 1 0 0)) (Sheet.mk [] 9 []).

End ExampleRegistry.

(** Of two providers of the same priority the one with less load is chosen. *)
Example best_provider_is_chosen_witness :
  exists p, returns (ProviderRegistry.select_best_provider (E := concrete)
      (W := InMemoryProviderConfigRepository.t (E := concrete)) (ExampleRegistry.requirements 0))
      ExampleRegistry.providers = Ok (Some p) /\
    ProviderConfig.name p = "free" /\
    ProviderRegistry.can_fulfill_requirements p (ExampleRegistry.requirements 0) = true.
Proof.
  pose proof (best_provider_is_chosen (E := concrete)
    (W := InMemoryProviderConfigRepository.t (E := concrete)) (ExampleRegistry.requirements 0)
    ExampleRegistry.providers _ eq_refl) as H.
  assert (fmap (M := option) ProviderConfig.name <$> returns (ProviderRegistry.select_best_provider (E := concrete)
      (W := InMemoryProviderConfigRepository.t (E := concrete)) (ExampleRegistry.requirements 0))
      ExampleRegistry.providers = Ok (Some "free"%string)) as Hname by (vm_compute; reflexivity).
  destruct (returns (ProviderRegistry.select_best_provider _) _) as [[p|]|]; try discriminate Hname.
  exists p. injection Hname as Hname. split; [reflexivity|]. split; [exact Hname|].
  destruct H as (l1 & l2 & _ & Hp & _); [|exact Hp].
  repeat (constructor; [unfold has_load; vm_compute; discriminate|]). constructor.
Defined.

(** The provider is there, and a job that needs a GPU finds none. *)
Example stored_providers_have_default_capabilities_witness :
  fmap (M := list) ProviderConfig.name <$> returns (PostgresProviderConfigRepository.find_with_capacity (E := concrete))
    ExampleRegistry.stored = Ok ["lab"%string] /\
  returns (ProviderRegistry.select_best_provider (E := concrete) (ExampleRegistry.requirements 1))
    ExampleRegistry.stored = Ok None.
Proof.
  split; [vm_compute; reflexivity|].
  assert (is_ok (returns (ProviderRegistry.select_best_provider (E := concrete)
    (ExampleRegistry.requirements 1)) ExampleRegistry.stored) = true) as Hok by (vm_compute; reflexivity).
  destruct (returns (ProviderRegistry.select_best_provider _) _) as [o|e] eqn:Ho; [|discriminate Hok].
  f_equal. apply (proj1 (stored_providers_have_default_capabilities (E := concrete)
    (ExampleRegistry.requirements 1) ExampleRegistry.stored ltac:(left; reflexivity)) o Ho).
Defined.
