(* ===== verification/SagaWorlds.v ===== *)
(** * What a run keeps true of the world

    A predicate of the world that every call of the orchestrator and every step
    of the saga keep is kept by the whole run ([run_keeps]).  The context that a
    run saves is the one it was started with: what the steps put into the
    context is never saved. *)

From S2P Require Import Prelude Effects Std Externs States Errors SagaTypes RateLimiter Orchestrator.

Section kept.
Context `{E : Externs} {A : Type} `{!SagaRuntime A} (powf : f64 -> f64 -> f64).
Import InMemorySagaOrchestrator.

(** [J] is kept by the environment, by the steps of the saga, and by saving a
    context with [P]. *)
Record KeepsWorld (J : A -> Prop) (P : SagaContext.t -> Prop) (saga : Saga.t A) : Prop := {
  keeps_instant w : J w -> J (fst (Instant_now w));
  keeps_system_time w : J w -> J (fst (SystemTime_now w));
  keeps_new_v4 w : J w -> J (fst (new_v4 w));
  keeps_sleep d w : J w -> J (sleep d w);
  keeps_begin w : J w -> J (fst (begin_transaction w));
  keeps_drop tx w : J w -> J (drop_transaction tx w);
  keeps_save c w : J w -> P c -> J (fst (save c w));
  keeps_update_state i st e w : J w -> J (fst (update_state i st e w));
  keeps_execute st limit tx c w : st ∈ Saga.steps saga -> J w ->
    J (snd (fst (SagaStep.execute st limit tx c w)));
  keeps_compensate st tx c w : st ∈ Saga.steps saga -> J w ->
    J (snd (fst (SagaStep.compensate st tx c w)));
}.

Context (J : A -> Prop) (P : SagaContext.t -> Prop) (saga : Saga.t A).
Hypothesis keeps : KeepsWorld J P saga.

Definition consumers_keep (o : t A) : Prop :=
  Forall (fun consume => forall e w, J w -> J (consume e w)) (audit_consumers o).

(** A state of the run whose context is as [Q] says. *)
Definition good (Q : SagaContext.t -> Prop) (s : frame A) : Prop :=
  J (world (orch s)) /\ consumers_keep (orch s) /\ Q (context s).

Abbreviation kept Q := (preserves (good Q) (fun _ => tt)).

Section any.
Context (Q : SagaContext.t -> Prop).

Lemma kept_intro {F X} (m : method (frame A) F X) :
  (forall s, good Q s -> good Q (after m s)) -> kept Q m.
Proof. intros Hm s Hs. auto. Qed.

Lemma kept_io {F X} (f : A -> A * X) :
  (forall w, J w -> J (fst (f w))) -> kept Q (io f : method _ F X).
Proof.
  intros Hf. apply kept_intro. intros s (HJ & Hc & HQ). unfold after, io.
  specialize (Hf _ HJ). by destruct (f (world (orch s))).
Qed.

Lemma kept_act {F} (f : A -> A) : (forall w, J w -> J (f w)) -> kept Q (act f : method _ F unit).
Proof. intros Hf. apply kept_intro. intros s (HJ & Hc & HQ). split; [by apply Hf|done]. Qed.

Lemma kept_record_audit {F} e : kept Q (record_audit e : method _ F unit).
Proof.
  apply kept_intro. intros s (HJ & Hc & HQ). split; [|done]. simpl. revert HJ.
  generalize (world (orch s)). induction Hc as [|consume cs H Hcs IH]; intros w HJ; [done|].
  apply IH, H, HJ.
Qed.

Lemma kept_rate_limiter {F} (l : option RateLimiter.t) :
  kept Q (modify (fun s => s <| orch := (orch s) <| rate_limiter := l |> |>) : method _ F unit).
Proof. by apply kept_intro. Qed.

(** The state as a value, of which only the configuration is used. *)
Lemma kept_configured {F X Y} (g : t A -> X) (k : X -> method (frame A) F Y) :
  (forall x, kept Q (k x)) -> kept Q (s ← self; k (g (orch s))).
Proof. intros Hk. apply preserves_bind; [apply preserves_self|auto]. Qed.

End any.

Create HintDb kept discriminated.
Hint Resolve kept_io kept_act kept_record_audit kept_rate_limiter
  preserves_ret preserves_throw preserves_self preserves_or_error preserves_bind
  preserves_catch : kept.
Hint Extern 2 (J _) => apply keeps : kept.
Hint Extern 5 (preserves _ _ (match ?x with _ => _ end)) => destruct x : kept.

Section more.
Context (Q : SagaContext.t -> Prop).

Lemma kept_elapsed {F} start : kept Q (elapsed start : method _ F Duration).
Proof. unfold elapsed. auto with kept. Qed.
Lemma kept_audit_entry {F} i ty ev : kept Q (audit_entry i ty ev : method _ F _).
Proof. unfold audit_entry. auto 6 with kept. Qed.
Lemma kept_update_state_ok {F} i st e : kept Q (update_state_ok i st e : method _ F _).
Proof. unfold update_state_ok. auto with kept. Qed.

Lemma kept_check_rate_limit : kept Q check_rate_limit.
Proof.
  unfold check_rate_limit. apply preserves_bind; [auto with kept|intros s].
  destruct (rate_limiter (orch s)) as [l|]; [|auto with kept].
  apply preserves_bind; [auto with kept|intros now].
  destruct (RateLimiter.try_acquire now l) as [l1 acquired].
  apply preserves_bind; [auto with kept|intros _]. destruct acquired; [auto with kept|].
  apply preserves_bind; [auto with kept|intros now'].
  destruct (RateLimiter.remaining now' l1) as [l2 remaining]. auto with kept.
Qed.

Lemma kept_acquire_permit : kept Q acquire_permit.
Proof.
  unfold acquire_permit. apply preserves_bind; [auto with kept|intros s].
  destruct (0 <? _); [by apply kept_intro|auto with kept].
Qed.

End more.
Hint Resolve kept_elapsed kept_audit_entry kept_update_state_ok : kept.

(** *** After the context is saved *)

Abbreviation later := (kept (fun _ => True)).

Lemma later_context {F} f : later (modify (fun s => s <| context := f s |>) : method _ F unit).
Proof. apply kept_intro. intros s (HJ & Hc & _). done. Qed.

Lemma later_await {F X} (f : SagaContext.t -> A -> SagaContext.t * A * option X) :
  (forall c w, J w -> J (snd (fst (f c w)))) -> later (await f : method _ (exn F) X).
Proof.
  intros Hf. apply kept_intro. intros s (HJ & Hc & _). unfold after, await.
  specialize (Hf (context s) (world (orch s)) HJ).
  by destruct (f (context s) (world (orch s))) as [[c w] out].
Qed.

Lemma later_with_transaction {F X} (err : string -> F)
    (k : PgTransaction -> method (frame A) (exn F) X) :
  (forall tx, later (k tx)) -> later (with_transaction err k).
Proof.
  intros Hk. apply preserves_bind; [auto with kept|intros begun].
  apply preserves_bind; [auto with kept|intros tx]. apply kept_intro. intros s Hs.
  destruct (Hk tx s Hs) as [(HJ & Hc & _) _]. unfold after, finally in *.
  destruct (k tx s) as [s' r]. split; [by apply keeps|done].
Qed.
Hint Resolve later_context later_with_transaction : kept.

Lemma later_compensation_attempt policy st name i ty id attempt :
  st ∈ Saga.steps saga -> later (compensation_attempt powf policy st name i ty id attempt).
Proof.
  intros Hst. unfold compensation_attempt.
  apply preserves_bind; [auto with kept|intros start].
  apply later_with_transaction. intros tx.
  apply preserves_bind; [apply later_await; intros; by apply keeps|].
  auto 20 with kept.
Qed.

Lemma later_compensation_loop fuel policy st name i ty id attempt :
  st ∈ Saga.steps saga -> later (compensation_loop powf fuel policy st name i ty id attempt).
Proof.
  intros Hst. revert attempt. induction fuel as [|fuel IH]; intros attempt; simpl;
    auto using later_compensation_attempt with kept.
Qed.

Lemma later_compensate_from n ty id m : later (compensate_from powf (Saga.steps saga) n ty id m).
Proof.
  revert m. induction n as [|i IH]; intros m; simpl; [auto with kept|].
  destruct (Saga.steps saga !! i) as [st|] eqn:Hst; [|auto with kept].
  apply list_elem_of_lookup_2 in Hst.
  assert (later (execute_compensation_with_retry powf st (SagaStep.name st) i ty id)).
  { unfold execute_compensation_with_retry. auto 8 using later_compensation_loop with kept. }
  auto 8 with kept.
Qed.

Lemma later_run_step id start limit step_limit st i n :
  st ∈ Saga.steps saga -> later (run_step powf saga id start limit step_limit st i n).
Proof.
  intros Hst. unfold run_step.
  assert (later (check_saga_timeout id start limit)) as Hcheck.
  { unfold check_saga_timeout. auto 12 with kept. }
  assert (forall e, later (step_failed powf saga id start st i n e)) as Hfailed.
  { intros e. unfold step_failed, execute_compensation.
    auto 14 using later_compensate_from with kept. }
  assert (later (step_timed_out powf saga id n)) as Htimed.
  { unfold step_timed_out, execute_compensation.
    auto 14 using later_compensate_from with kept. }
  do 4 (apply preserves_bind; [auto with kept|intros ?]).
  apply later_with_transaction. intros tx.
  apply preserves_bind; [|auto 12 with kept].
  apply later_await. intros c w HJ. pose proof (keeps_execute _ _ _ keeps st step_limit tx c w Hst HJ).
  by destruct (SagaStep.execute st step_limit tx c w) as [[??]?].
Qed.

Lemma later_run_steps id start limit step_limit todo i n :
  todo ⊆ Saga.steps saga -> later (run_steps powf saga id start limit step_limit todo i n).
Proof.
  revert i n. induction todo as [|st todo IH]; intros i n Hin; simpl; [auto with kept|].
  assert (later (run_step powf saga id start limit step_limit st i n)).
  { apply later_run_step. set_solver. }
  assert (forall i n, later (run_steps powf saga id start limit step_limit todo i n)).
  { intros. apply IH. set_solver. }
  auto 8 with kept.
Qed.

(** *** The whole run *)

Lemma guarded_run_keeps id start s : good P s -> good (fun _ => True) (after (guarded_run powf saga id start) s).
Proof.
  intros (HJ & Hc & HP). unfold guarded_run. unfold after, mbind at 1, method_bind at 1, self at 1.
  cbn [fst snd]. unfold mbind at 1, method_bind at 1, io at 1.
  pose proof (keeps_save _ _ _ keeps (context s) (world (orch s)) HJ HP) as Hsave.
  destruct (save (context s) (world (orch s))) as [w saved]. cbn [fst] in Hsave.
  match goal with |- good _ (fst (?m ?s1)) =>
    assert (later m) as Hm by (auto 14 using later_run_steps with kept);
    by destruct (Hm s1 (conj Hsave (conj Hc Logic.I))) end.
Qed.

Lemma run_tail_keeps id start s :
  good P s ->
  good (fun _ => True) (after (
    modify (fun s => s <| orch := (orch s) <| active_sagas := u64_add (active_sagas (orch s)) 1 |> |>);;
    finally (guarded_run powf saga id start) drop_guards) s).
Proof.
  intros Hs. unfold after, mbind, method_bind, modify, finally.
  match goal with |- context [guarded_run powf saga id start ?s1] =>
    pose proof (guarded_run_keeps id start s1 Hs) as Hg; unfold after in Hg;
    destruct (guarded_run powf saga id start s1) end.
  exact Hg.
Qed.

(** From a context with [P], the run and whatever it ends in keep [J]. *)
Lemma execute_saga_keeps c o :
  J (world o) -> consumers_keep o -> P c ->
  J (world (after (execute_saga powf saga c) o)) /\
  consumers_keep (after (execute_saga powf saga c) o).
Proof.
  intros HJ Hc HP.
  enough (good (fun _ => True) (after (run powf saga) (mk_frame o c))) as (? & ? & _).
  { unfold after, execute_saga in *. by destruct (run powf saga _). }
  assert (good P (mk_frame o c)) as Hs by done. revert Hs. generalize (mk_frame o c) as s.
  assert (forall F X Y (m : method (frame A) F X) (k : X -> method (frame A) F Y),
    kept P m -> (forall x s, good P s -> good (fun _ => True) (after (k x) s)) ->
    forall s, good P s -> good (fun _ => True) (after (x ← m; k x) s)) as Hbind.
  { intros F X Y m k Hm Hk s Hs. destruct (Hm s Hs) as [Hs' _].
    unfold after, mbind, method_bind in *. destruct (m s) as [s' [x|e]]; [by apply Hk|].
    by destruct Hs' as (? & ? & _). }
  unfold run. do 6 (apply Hbind;
    [auto 10 using kept_check_rate_limit, kept_acquire_permit with kept|intros ?]).
  intros s. apply run_tail_keeps.
Qed.

End kept.
