(* ===== verification/SagaCoordinators.v ===== *)
(** * The coordinators of the sagas
    ([crates/server/application/src/saga/dispatcher_saga.rs, provisioning_saga.rs,
    recovery_saga.rs])

    What the dispatcher of jobs calls to run an execution saga or a provisioning
    saga, and the monitor of workers to run a recovery saga: the context is built, the services are put into it, and the
    orchestrator of [Orchestrator.v] runs the saga.  The timeouts of their
    configurations are not read by any of them. *)

From S2P Require Import Prelude Effects Std Externs States Errors JobSpec Job ProviderApi Worker Events Repositories Services Commands CommandBus JobCommands ExecutionCommands CancellationCommands ProvisioningCommands SagaTypes Orchestrator Steps SagaBus ExecutionSaga ProvisioningSaga RecoverySaga SagaWorlds.

Module SagaCoordinatorConfig.

(** src: crates/server/application/src/saga/dispatcher_saga.rs 20-23 ExecutionSagaDispatcherConfig *)
Record t := mk { saga_timeout : Duration; step_timeout : Duration }.

(** src: crates/server/application/src/saga/dispatcher_saga.rs 26-31 ExecutionSagaDispatcherConfig::default *)
Definition execution : t := mk (from_secs 60) (from_secs 30).

(** src: crates/server/application/src/saga/provisioning_saga.rs 28-33 ProvisioningSagaCoordinatorConfig::default *)
Definition provisioning : t := mk (from_secs 300) (from_secs 60).

(** src: crates/server/application/src/saga/recovery_saga.rs 28-33 RecoverySagaCoordinatorConfig::default *)
Definition recovery : t := mk (from_secs 300) (from_secs 60).

End SagaCoordinatorConfig.

Module ExecutionSagaError.
Section error.
Context `{E : Externs}.

(** src: crates/server/application/src/saga/dispatcher_saga.rs 36-45 ExecutionSagaError *)
Inductive t :=
  | JobNotFound (job_id : JobId)
  | WorkerNotFound (worker_id : string)
  | SagaFailed (message : string)
  | Compensated.

(** src: crates/server/application/src/saga/dispatcher_saga.rs 35-45 Display for ExecutionSagaError *)
Definition fmt (e : t) : string :=
  match e with
  | JobNotFound job_id => "Job not found: " +:+ uuid_to_string job_id
  | WorkerNotFound worker_id => "Worker not found: " +:+ worker_id
  | SagaFailed message => "Saga execution failed: " +:+ message
  | Compensated => "Saga was compensated"
  end.

End error.
End ExecutionSagaError.

Module ProvisioningSagaError.
Section error.
Context `{E : Externs}.

(** src: crates/server/application/src/saga/provisioning_saga.rs 37-46 ProvisioningSagaError *)
Inductive t :=
  | ProviderNotFound (provider_id : ProviderId)
  | ProvisioningFailed (message : string)
  | SagaFailed (message : string)
  | Compensated.

(** src: crates/server/application/src/saga/provisioning_saga.rs 36-46 Display for ProvisioningSagaError *)
Definition fmt (e : t) : string :=
  match e with
  | ProviderNotFound provider_id => "Provider not found: " +:+ uuid_to_string provider_id
  | ProvisioningFailed message => "Failed to provision worker: " +:+ message
  | SagaFailed message => "Saga execution failed: " +:+ message
  | Compensated => "Saga was compensated"
  end.

End error.
End ProvisioningSagaError.

Module RecoverySagaError.
Section error.
Context `{E : Externs}.

(** src: crates/server/application/src/saga/recovery_saga.rs 37-48 RecoverySagaError *)
Inductive t :=
  | WorkerNotFound (worker_id : WorkerId)
  | JobNotFound (job_id : JobId)
  | RecoveryFailed (message : string)
  | SagaFailed (message : string)
  | Compensated.

(** src: crates/server/application/src/saga/recovery_saga.rs 36-48 Display for RecoverySagaError *)
Definition fmt (e : t) : string :=
  match e with
  | WorkerNotFound worker_id => "Worker not found: " +:+ uuid_to_string worker_id
  | JobNotFound job_id => "Job not found: " +:+ uuid_to_string job_id
  | RecoveryFailed message => "Recovery failed: " +:+ message
  | SagaFailed message => "Saga execution failed: " +:+ message
  | Compensated => "Saga was compensated"
  end.

End error.
End RecoverySagaError.

(** ** Calls on the orchestrator and its world *)

Section calls.
Context `{E : Externs} `{!TypeNames} {A : Type}.
Context `{!SagaRuntime A} `{!StepWorld (T := saga_command_types) A}.

(** A future that is awaited without a timeout. *)
Definition awaiting {F X} (f : future A X) : method (InMemorySagaOrchestrator.t A) (exn F) X :=
  fun o =>
    let (w, out) := f None (InMemorySagaOrchestrator.world o) in
    (o <| InMemorySagaOrchestrator.world := w |>,
     match out with
     | Ready (x, _) => Ok x
     | Elapsed => Err Blocked
     | Crashed => Err Panicked
     end).

(** A call of the orchestrator, as its [Result]. *)
Definition orchestrated {F X} (m : method (InMemorySagaOrchestrator.t A) (exn DomainError.t) X) :
    method (InMemorySagaOrchestrator.t A) (exn F) (result DomainError.t X) :=
  catch m.

(** A call of the world that cannot fail. *)
Definition on_world {F X} (f : A -> A * X) : method (InMemorySagaOrchestrator.t A) (exn F) X :=
  fun o =>
    let (w, x) := f (InMemorySagaOrchestrator.world o) in
    (o <| InMemorySagaOrchestrator.world := w |>, Ok x).

(** [context.set_metadata(key, value).ok()] with a value that serializes. *)
Definition put (key : string) (v : Json) (c : SagaContext.t) : SagaContext.t :=
  after (SagaContext.set_metadata key (Ok v)) c.

End calls.

Module DynExecutionSagaDispatcher.
Section dispatcher.
Context `{E : Externs} `{!TypeNames} {A : Type}.
Context `{!SagaRuntime A} `{!StepWorld (T := saga_command_types) A} (powf : f64 -> f64 -> f64).
(** [Arc::new] of the services of a saga. *)
Context (arc : Services.t (T := saga_command_types) A -> SagaServices).

(** [job_find_by_id] is what is called of the supertrait [JobRepository]. *)
(** src: crates/server/application/src/saga/dispatcher_saga.rs 51-60 DynExecutionSagaDispatcher *)
Record t := mk {
  job_repository : JobRepositoryTx A;
  job_find_by_id : JobId -> future A (result DomainError.t (option Job.t));
  worker_registry : WorkerRegistryTx A;
  event_bus : EventBus A;
  command_bus : DynCommandBus (T := saga_command_types) A;
  config : SagaCoordinatorConfig.t;
}.

(** src: crates/server/application/src/saga/dispatcher_saga.rs 64-84 DynExecutionSagaDispatcher::new *)
Definition new repo find registry bus commands (c : option SagaCoordinatorConfig.t) : t :=
  mk repo find registry bus commands (default SagaCoordinatorConfig.execution c).

Definition failed (e : DomainError.t) : ExecutionSagaError.t :=
  ExecutionSagaError.SagaFailed (DomainError.fmt e).

(** The context of the saga: its identifier is made of the job and the worker. *)
(** src: crates/server/application/src/saga/dispatcher_saga.rs 119-143 DynExecutionSagaDispatcher::execute_execution_saga (context) *)
Definition context_for (d : t) (job_id : JobId) (worker_id : WorkerId) (now : DateTime) :
    SagaContext.t :=
  let saga_id := saga_id_from_string
    ("execution-" +:+ uuid_to_string job_id +:+ "-" +:+ uuid_to_string worker_id) in
  let context := SagaContext.new saga_id SagaType.Execution
    (Some ("job-" +:+ uuid_to_string job_id)) (Some "job_dispatcher") now in
  let services := Services.with_command_bus (worker_registry d) (event_bus d)
    (Some (job_repository d)) None None (command_bus d) in
  put "worker_id" (json_of_string (uuid_to_string worker_id))
    (put "job_id" (json_of_string (uuid_to_string job_id))
      (SagaContext.with_services (arc services) context)).

(** The job and the worker must exist; which saga is run is [saga]. *)
Definition execute_with (saga : Saga.t A) (d : t) (job_id : JobId) (worker_id : WorkerId) :
    method (InMemorySagaOrchestrator.t A) (exn ExecutionSagaError.t) SagaExecutionResult.t :=
  job ← awaiting (job_find_by_id d job_id);
  job ← or_error (fun e => ExecutionSagaError.SagaFailed
    ("Failed to fetch job: " +:+ DomainError.fmt e)) job;
  _ ← or_error id (ok_or job (ExecutionSagaError.JobNotFound job_id));
  worker ← awaiting (worker_get (worker_registry d) worker_id);
  worker ← or_error (fun e => ExecutionSagaError.SagaFailed
    ("Failed to fetch worker: " +:+ DomainError.fmt e)) worker;
  _ ← or_error id (ok_or worker (ExecutionSagaError.WorkerNotFound (uuid_to_string worker_id)));
  now ← on_world Utc_now;
  out ← orchestrated (InMemorySagaOrchestrator.execute_saga powf saga
    (context_for d job_id worker_id now));
  match out with
  | Ok r =>
      if SagaExecutionResult.is_success r then mret r
      else if SagaExecutionResult.is_compensated r then throw (Error ExecutionSagaError.Compensated)
      else throw (Error (ExecutionSagaError.SagaFailed
        (default "Unknown error" (SagaExecutionResult.error_message r))))
  | Err e => throw (Error (failed e))
  end.

(** src: crates/server/application/src/saga/dispatcher_saga.rs 90-171 DynExecutionSagaDispatcher::execute_execution_saga *)
Definition execute_execution_saga (d : t) (job_id : JobId) (worker_id : WorkerId) :
    method (InMemorySagaOrchestrator.t A) (exn ExecutionSagaError.t) SagaExecutionResult.t :=
  execute_with (ExecutionSaga.saga (ExecutionSaga.with_worker job_id worker_id)) d job_id worker_id.

(** The dispatcher that is generic in its orchestrator leaves the worker to the
    saga. *)
(** src: crates/server/application/src/saga/dispatcher_saga.rs 339-419 ExecutionSagaDispatcher::execute_execution_saga *)
Definition generic_execute_execution_saga (d : t) (job_id : JobId) (worker_id : WorkerId) :
    method (InMemorySagaOrchestrator.t A) (exn ExecutionSagaError.t) SagaExecutionResult.t :=
  execute_with (ExecutionSaga.saga (ExecutionSaga.new job_id)) d job_id worker_id.

(** src: crates/server/application/src/saga/dispatcher_saga.rs 173-183 DynExecutionSagaDispatcher::get_saga_result *)
Definition get_saga_result (saga_id : SagaId) :
    method (InMemorySagaOrchestrator.t A) (exn ExecutionSagaError.t) (option SagaContext.t) :=
  found ← orchestrated (InMemorySagaOrchestrator.get_saga saga_id);
  or_error failed found.

End dispatcher.
End DynExecutionSagaDispatcher.

Module DynProvisioningSagaCoordinator.
Section coordinator.
Context `{E : Externs} `{!TypeNames} {A : Type}.
Context `{!SagaRuntime A} `{!StepWorld (T := saga_command_types) A} (powf : f64 -> f64 -> f64).
Context (arc : Services.t (T := saga_command_types) A -> SagaServices).

(** src: crates/server/application/src/saga/provisioning_saga.rs 52-67 DynProvisioningSagaCoordinator *)
Record t := mk {
  provisioning_service : DynWorkerProvisioning A;
  config : SagaCoordinatorConfig.t;
  worker_registry : WorkerRegistryTx A;
  event_bus : EventBus A;
  job_repository : option (JobRepositoryTx A);
  command_bus : DynCommandBus (T := saga_command_types) A;
}.

(** src: crates/server/application/src/saga/provisioning_saga.rs 80-102 DynProvisioningSagaCoordinator::new *)
Definition new provisioning registry bus repo commands (c : option SagaCoordinatorConfig.t) : t :=
  mk provisioning (default SagaCoordinatorConfig.provisioning c) registry bus repo commands.

Definition failed (e : DomainError.t) : ProvisioningSagaError.t :=
  ProvisioningSagaError.SagaFailed (DomainError.fmt e).

(** src: crates/server/application/src/saga/provisioning_saga.rs 118-149 DynProvisioningSagaCoordinator::execute_provisioning_saga (context) *)
Definition context_for (d : t) (saga_id : SagaId) (provider_id : ProviderId) (spec : WorkerSpec.t)
    (job_id : option JobId) (now : DateTime) : SagaContext.t :=
  let context := SagaContext.new saga_id SagaType.Provisioning
    (Some ("provisioning-" +:+ uuid_to_string saga_id)) (Some "job_dispatcher") now in
  let services := Services.with_command_bus (worker_registry d) (event_bus d)
    (job_repository d) (Some (provisioning_service d)) None (command_bus d) in
  let context := put "provider_id" (json_of_string (uuid_to_string provider_id))
    (SagaContext.with_services (arc services) context) in
  let context :=
    match job_id with
    | Some job_id => put "job_id" (json_of_string (uuid_to_string job_id)) context
    | None => context
    end in
  put "worker_image" (json_of_string (WorkerSpec.image spec)) context.

(** The worker of the context that the orchestrator finds for a saga. *)
(** src: crates/server/application/src/saga/provisioning_saga.rs 164-188 DynProvisioningSagaCoordinator::execute_provisioning_saga (worker) *)
Definition worker_of (saga_id : SagaId) :
    method (InMemorySagaOrchestrator.t A) (exn ProvisioningSagaError.t) WorkerId :=
  found ← orchestrated (InMemorySagaOrchestrator.get_saga saga_id);
  found ← or_error (fun e => ProvisioningSagaError.SagaFailed
    ("Failed to get saga context: " +:+ DomainError.fmt e)) found;
  saga_context ← or_error id
    (ok_or found (ProvisioningSagaError.SagaFailed "Saga context not found"));
  worker_id_str ← or_error id
    (ok_or (SagaContext.metadata saga_context !! "worker_id" ≫= as_str)
       (ProvisioningSagaError.SagaFailed "No worker_id in saga result metadata"));
  or_error id
    (ok_or (uuid_parse_str worker_id_str)
       (ProvisioningSagaError.SagaFailed "Invalid worker_id format in saga metadata")).

(** [ProvisioningSaga::new] takes a job identifier of its own. *)
(** src: crates/server/application/src/saga/provisioning_saga.rs 151-155 DynProvisioningSagaCoordinator::execute_provisioning_saga (saga) *)
Definition saga_for (spec : WorkerSpec.t) (provider_id : ProviderId) (job_id : option JobId) :
    method (InMemorySagaOrchestrator.t A) (exn ProvisioningSagaError.t) (Saga.t A) :=
  match job_id with
  | Some job_id =>
      mret (ProvisioningSaga.saga job_id (ProvisioningSaga.with_job spec provider_id job_id))
  | None =>
      fresh ← on_world new_v4;
      mret (ProvisioningSaga.saga fresh (ProvisioningSaga.new spec provider_id fresh))
  end.

(** src: crates/server/application/src/saga/provisioning_saga.rs 110-215 DynProvisioningSagaCoordinator::execute_provisioning_saga *)
Definition execute_provisioning_saga (d : t) (provider_id : ProviderId) (spec : WorkerSpec.t)
    (job_id : option JobId) :
    method (InMemorySagaOrchestrator.t A) (exn ProvisioningSagaError.t)
      (WorkerId * SagaExecutionResult.t) :=
  saga_id ← on_world new_v4;
  now ← on_world Utc_now;
  saga ← saga_for spec provider_id job_id;
  out ← orchestrated (InMemorySagaOrchestrator.execute_saga powf saga
    (context_for d saga_id provider_id spec job_id now));
  match out with
  | Ok r =>
      if SagaExecutionResult.is_success r then
        worker_id ← worker_of (SagaExecutionResult.saga_id r); mret (worker_id, r)
      else if SagaExecutionResult.is_compensated r
      then throw (Error ProvisioningSagaError.Compensated)
      else throw (Error (ProvisioningSagaError.SagaFailed
        (default "Unknown error" (SagaExecutionResult.error_message r))))
  | Err e => throw (Error (failed e))
  end.

(** src: crates/server/application/src/saga/provisioning_saga.rs 217-227 DynProvisioningSagaCoordinator::get_saga_result *)
Definition get_saga_result (saga_id : SagaId) :
    method (InMemorySagaOrchestrator.t A) (exn ProvisioningSagaError.t) (option SagaContext.t) :=
  found ← orchestrated (InMemorySagaOrchestrator.get_saga saga_id);
  or_error failed found.

End coordinator.
End DynProvisioningSagaCoordinator.

Module DynRecoverySagaCoordinator.
Section coordinator.
Context `{E : Externs} `{!TypeNames} {A : Type}.
Context `{!SagaRuntime A} `{!StepWorld (T := saga_command_types) A} (powf : f64 -> f64 -> f64).
Context (arc : Services.t (T := saga_command_types) A -> SagaServices).

(** src: crates/server/application/src/saga/recovery_saga.rs 54-69 DynRecoverySagaCoordinator *)
Record t := mk {
  config : SagaCoordinatorConfig.t;
  target_provider_id : option string;
  command_bus : DynCommandBus (T := saga_command_types) A;
  worker_registry : WorkerRegistryTx A;
  event_bus : EventBus A;
  job_repository : option (JobRepositoryTx A);
  provisioning_service : option (DynWorkerProvisioning A);
}.

(** src: crates/server/application/src/saga/recovery_saga.rs 73-93 DynRecoverySagaCoordinator::new *)
Definition new commands registry bus repo provisioning (c : option SagaCoordinatorConfig.t) target : t :=
  mk (default SagaCoordinatorConfig.recovery c) target commands registry bus repo provisioning.

Definition failed (e : DomainError.t) : RecoverySagaError.t :=
  RecoverySagaError.SagaFailed (DomainError.fmt e).

Definition named (job_id : JobId) (failed_worker_id : WorkerId) (context : SagaContext.t) : SagaContext.t :=
  put "failed_worker_id" (json_of_string (uuid_to_string failed_worker_id))
    (put "job_id" (json_of_string (uuid_to_string job_id)) context).

Definition new_context (saga_id : SagaId) (now : DateTime) : SagaContext.t :=
  SagaContext.new saga_id SagaType.Recovery (Some ("recovery-" +:+ uuid_to_string saga_id))
    (Some "lifecycle-manager") now.

(** src: crates/server/application/src/saga/recovery_saga.rs 112-139 DynRecoverySagaCoordinator::execute_recovery_saga (context) *)
Definition context_for (d : t) (saga_id : SagaId) (job_id : JobId) (failed_worker_id : WorkerId)
    (now : DateTime) : SagaContext.t :=
  let services := Services.with_command_bus (worker_registry d) (event_bus d)
    (job_repository d) (provisioning_service d) None (command_bus d) in
  named job_id failed_worker_id (SagaContext.with_services (arc services) (new_context saga_id now)).

Definition execute_with (context : SagaId -> DateTime -> SagaContext.t) (target : option string)
    (job_id : JobId) (failed_worker_id : WorkerId) :
    method (InMemorySagaOrchestrator.t A) (exn RecoverySagaError.t) (SagaId * SagaExecutionResult.t) :=
  saga_id ← on_world new_v4;
  now ← on_world Utc_now;
  out ← orchestrated (InMemorySagaOrchestrator.execute_saga powf
    (RecoverySaga.saga (RecoverySaga.new job_id failed_worker_id target)) (context saga_id now));
  match out with
  | Ok r =>
      if SagaExecutionResult.is_success r then mret (saga_id, r)
      else if SagaExecutionResult.is_compensated r then throw (Error RecoverySagaError.Compensated)
      else throw (Error (RecoverySagaError.SagaFailed
        (default "Unknown error" (SagaExecutionResult.error_message r))))
  | Err e => throw (Error (failed e))
  end.

(** src: crates/server/application/src/saga/recovery_saga.rs 101-173 DynRecoverySagaCoordinator::execute_recovery_saga *)
Definition execute_recovery_saga (d : t) (job_id : JobId) (failed_worker_id : WorkerId) :
    method (InMemorySagaOrchestrator.t A) (exn RecoverySagaError.t) (SagaId * SagaExecutionResult.t) :=
  execute_with (fun saga_id now => context_for d saga_id job_id failed_worker_id now)
    (target_provider_id d) job_id failed_worker_id.

(** The coordinator that is generic in its orchestrator gives the saga no
    services. *)
(** src: crates/server/application/src/saga/recovery_saga.rs 351-411 RecoverySagaCoordinator::execute_recovery_saga *)
Definition generic_execute_recovery_saga (target : option string) (job_id : JobId)
    (failed_worker_id : WorkerId) :
    method (InMemorySagaOrchestrator.t A) (exn RecoverySagaError.t) (SagaId * SagaExecutionResult.t) :=
  execute_with (fun saga_id now => named job_id failed_worker_id (new_context saga_id now))
    target job_id failed_worker_id.

(** src: crates/server/application/src/saga/recovery_saga.rs 175-185 DynRecoverySagaCoordinator::get_saga_result *)
Definition get_saga_result (saga_id : SagaId) :
    method (InMemorySagaOrchestrator.t A) (exn RecoverySagaError.t) (option SagaContext.t) :=
  found ← orchestrated (InMemorySagaOrchestrator.get_saga saga_id);
  or_error failed found.

End coordinator.
End DynRecoverySagaCoordinator.

(** ** Properties *)

Section lost.
Context `{E : Externs} `{!TypeNames} {A : Type}.
Context `{!SagaRuntime A} `{!StepWorld (T := saga_command_types) A} (powf : f64 -> f64 -> f64).
Context (arc : Services.t (T := saga_command_types) A -> SagaServices).
Import DynProvisioningSagaCoordinator.

Definition nameless (c : SagaContext.t) : Prop := SagaContext.metadata c !! "worker_id" = None.

(** The worlds in which no stored saga names a worker.  The repository finds
    what was saved, and nothing else in the world, the clocks, the transactions,
    the command bus and the event bus that the steps call, writes contexts. *)
Record Stores (J : A -> Prop) : Prop := {
  stores_instant w : J w -> J (fst (Instant_now w));
  stores_system_time w : J w -> J (fst (SystemTime_now w));
  stores_utc w : J w -> J (fst (Utc_now w));
  stores_new_v4 w : J w -> J (fst (new_v4 w));
  stores_sleep d w : J w -> J (sleep d w);
  stores_begin w : J w -> J (fst (begin_transaction w));
  stores_drop tx w : J w -> J (drop_transaction tx w);
  stores_update_state i st e w : J w -> J (fst (update_state i st e w));
  stores_save c w : J w -> nameless c -> J (fst (save c w));
  stores_find i w : J w -> J (fst (find_by_id i w)) /\
    forall c, snd (find_by_id i w) = Ok (Some c) -> nameless c;
  stores_dispatch h bus command i name target left w :
    Services.command_bus (services_at h) = Some bus -> J w ->
    J (fst (bus_dispatch bus command i name target left w));
  stores_publish h e left w : J w ->
    J (fst (publish (Services.event_bus (services_at h)) e left w));
}.

Context (J : A -> Prop) (stores : Stores J).

(** *** The steps *)

Abbreviation body_keeps := (preserves (fun s : Step.frame A => J (Step.world s)) (fun _ => tt)).

Lemma body_intro {F X} (m : method (Step.frame A) F X) :
  (forall s, J (Step.world s) -> J (Step.world (after m s))) -> body_keeps m.
Proof. intros Hm s Hs. auto. Qed.

Lemma body_await {F X} (f : future A X) :
  (forall left w, J w -> J (fst (f left w))) -> body_keeps (Step.await f : method _ (exn F) X).
Proof.
  intros Hf. apply body_intro. intros s Hs. unfold after, Step.await.
  specialize (Hf (Step.left s) (Step.world s) Hs).
  by destruct (f (Step.left s) (Step.world s)) as [w [[]| |]].
Qed.

Lemma body_io {F X} (f : A -> A * X) :
  (forall w, J w -> J (fst (f w))) -> body_keeps (Step.io f : method _ (exn F) X).
Proof.
  intros Hf. apply body_intro. intros s Hs. unfold after, Step.io.
  specialize (Hf _ Hs). by destruct (f (Step.world s)).
Qed.

Lemma body_set_metadata key v e : body_keeps (Step.set_metadata key v e).
Proof. by apply body_intro. Qed.

Create HintDb body discriminated.
Hint Resolve body_io body_set_metadata preserves_ret preserves_throw preserves_self
  preserves_or_error preserves_bind preserves_catch : body.
Hint Extern 2 (J _) => by apply stores : body.
Hint Extern 5 (preserves _ _ (match ?x with _ => _ end)) => destruct x : body.

Lemma body_context_of {F} : body_keeps (Step.context_of : method _ F _).
Proof. unfold Step.context_of. auto with body. Qed.

Lemma body_stamp {F X} (f : Uuid -> DateTime -> X) : body_keeps (Step.stamp f : method _ (exn F) X).
Proof. unfold Step.stamp. auto with body. Qed.
Hint Resolve body_context_of body_stamp : body.

Lemma body_dispatch {F} h bus C command :
  Services.command_bus (services_at h) = Some bus ->
  body_keeps (Step.dispatch (F := F) (A := A) bus C command).
Proof.
  intros Hb. unfold Step.dispatch, dispatch_erased. apply preserves_catch.
  apply preserves_bind; [|auto with body]. unfold dispatch_any. simpl.
  apply preserves_bind; [|auto with body].
  apply body_await. intros left w Hw. by eapply stores_dispatch.
Qed.

Hint Extern 1 (preserves _ _ (Step.dispatch _ _ _)) =>
  match goal with
  | H : Services.command_bus (services_at ?h) = Some ?bus |- preserves _ _ (Step.dispatch ?bus ?C ?command) =>
      exact (body_dispatch h bus C command H)
  end : body.

(** The bus that a step goes on with is the one of some services. *)
Lemma body_bus_or {X} e e' (k : DynCommandBus (T := saga_command_types) A -> method (Step.frame A) (exn SagaError.t) X) :
  (forall h bus, Services.command_bus (services_at h) = Some bus -> body_keeps (k bus)) ->
  body_keeps (bus ← bus_or e e'; k bus).
Proof.
  intros Hk s Hs. unfold bus_or, Step.services_or, Step.command_bus_or, after, mbind, method_bind,
    self, or_error, lift. simpl.
  destruct (SagaContext.services (Step.context s)) as [h|]; simpl; [|done].
  destruct (Services.command_bus (services_at h)) as [bus|] eqn:Hb; simpl; [|done].
  by apply (Hk h bus Hb).
Qed.

Lemma body_services_or {X} e (k : Services.t (T := saga_command_types) A -> method (Step.frame A) (exn SagaError.t) X) :
  (forall h, body_keeps (k (services_at h))) -> body_keeps (s ← Step.services_or e; k s).
Proof.
  intros Hk s Hs. unfold Step.services_or, after, mbind, method_bind, self, or_error, lift. simpl.
  destruct (SagaContext.services (Step.context s)) as [h|]; simpl; [|done]. by apply (Hk h).
Qed.

Lemma create_infrastructure_keeps st tx : body_keeps (CreateInfrastructureStep.execute (A := A) st tx).
Proof.
  unfold CreateInfrastructureStep.execute. apply body_bus_or. intros h bus Hbus.
  auto 30 with body.
Qed.

Lemma create_infrastructure_undo_keeps st tx :
  body_keeps (CreateInfrastructureStep.compensate (A := A) st tx).
Proof.
  unfold CreateInfrastructureStep.compensate. apply preserves_bind; [auto with body|intros c].
  destruct (Step.text_of "worker_id" c); [|auto with body].
  apply body_bus_or. intros h bus Hbus. auto 30 with body.
Qed.

Lemma publish_provisioned_keeps tx : body_keeps (PublishProvisionedEventStep.execute (A := A) tx).
Proof.
  unfold PublishProvisionedEventStep.execute. apply preserves_bind; [auto with body|intros c].
  destruct (Step.is_set "event_published" c); [auto with body|].
  apply body_services_or. intros h. unfold Step.call.
  assert (forall e, body_keeps (Step.await (F := SagaError.t)
    (publish (Services.event_bus (services_at h)) e))) as Hp.
  { intros e. apply body_await. intros left w. apply stores. }
  auto 40 with body.
Qed.

Lemma step_keeps_world name b1 b2 (execute compensate : PgTransaction -> method (Step.frame A) (exn SagaError.t) unit) limit tx c w :
  (forall tx, body_keeps (execute tx)) -> (forall tx, body_keeps (compensate tx)) -> J w ->
  J (snd (fst (SagaStep.execute (Step.step name b1 b2 execute compensate) limit tx c w))) /\
  J (snd (fst (SagaStep.compensate (Step.step name b1 b2 execute compensate) tx c w))).
Proof.
  intros He Hc Hw. simpl. unfold Step.run_execute, Step.run_compensate. split.
  - destruct (He tx (Step.mk c w (Some limit)) Hw) as [Hk _]. unfold after in Hk.
    by destruct (execute tx _).
  - destruct (Hc tx (Step.mk c w None) Hw) as [Hk _]. unfold after in Hk. by destruct (compensate tx _).
Qed.

Lemma provisioning_steps_keep job s st limit tx c w :
  st ∈ ProvisioningSaga.steps job s -> J w ->
  J (snd (fst (SagaStep.execute st limit tx c w))) /\
  J (snd (fst (SagaStep.compensate st tx c w))).
Proof.
  unfold ProvisioningSaga.steps. rewrite !elem_of_cons.
  intros [->|[->|[->|[]%elem_of_nil]]]; apply step_keeps_world; intros tx'.
  - apply body_set_metadata.
  - apply preserves_ret.
  - apply create_infrastructure_keeps.
  - apply create_infrastructure_undo_keeps.
  - apply publish_provisioned_keeps.
  - apply preserves_ret.
Qed.

Lemma provisioning_saga_keeps job s : KeepsWorld J nameless (ProvisioningSaga.saga job s).
Proof.
  split.
  - apply (stores_instant _ stores).
  - apply (stores_system_time _ stores).
  - apply (stores_new_v4 _ stores).
  - apply (stores_sleep _ stores).
  - apply (stores_begin _ stores).
  - apply (stores_drop _ stores).
  - intros c w Hw Hc. by apply (stores_save _ stores).
  - apply (stores_update_state _ stores).
  - intros st limit tx c w Hst Hw. by apply (provisioning_steps_keep job s).
  - intros st tx c w Hst Hw. by apply (provisioning_steps_keep job s st (from_secs 0)).
Qed.

Lemma context_for_nameless d saga_id provider_id spec job_id now :
  nameless (context_for arc d saga_id provider_id spec job_id now).
Proof.
  unfold nameless, context_for, put, after, SagaContext.set_metadata, modify, lift, mbind,
    method_bind, map_err.
  by destruct job_id; simpl; rewrite !lookup_insert_ne.
Qed.

Definition stored (o : InMemorySagaOrchestrator.t A) : Prop :=
  J (InMemorySagaOrchestrator.world o) /\ consumers_keep J o.

Lemma worker_of_fails saga_id o :
  stored o -> wp (worker_of saga_id) (fun r o' => stored o' /\ is_err r) o.
Proof.
  intros [HJ Hc]. destruct (stores_find _ stores saga_id _ HJ) as [Hw Hn]. unfold wp, worker_of,
    orchestrated, InMemorySagaOrchestrator.get_saga, InMemorySagaOrchestrator.repository_call, catch,
    mbind, method_bind.
  destruct (find_by_id saga_id (InMemorySagaOrchestrator.world o)) as [w [[c|]|e]]; simpl in *;
    [|done|done].
  unfold or_error, lift. by rewrite (Hn c eq_refl).
Qed.

Lemma stored_on_world {F X Y} (f : A -> A * X) (k : X -> method _ (exn F) Y) Q o :
  (forall w, J w -> J (fst (f w))) -> stored o ->
  (forall x o', stored o' -> wp (k x) Q o') -> wp (x ← on_world f; k x) Q o.
Proof.
  intros Hf [HJ Hc] Hk. apply wp_bind. unfold wp at 1, on_world. specialize (Hf _ HJ).
  destruct (f (InMemorySagaOrchestrator.world o)) as [w x]. by apply Hk.
Qed.

Lemma stored_saga_for {Y} spec provider_id job_id (k : Saga.t A -> method _ _ Y) Q o :
  stored o ->
  (forall job s o', stored o' -> wp (k (ProvisioningSaga.saga job s)) Q o') ->
  wp (saga ← saga_for spec provider_id job_id; k saga) Q o.
Proof.
  intros Ho Hk. unfold saga_for. destruct job_id as [job|]; [by apply Hk|].
  apply wp_bind, stored_on_world; [apply (stores_new_v4 _ stores)|done|].
  intros fresh o' Ho'. by apply Hk.
Qed.

Lemma stored_execute_saga job s c o :
  stored o -> nameless c ->
  stored (after (InMemorySagaOrchestrator.execute_saga powf (ProvisioningSaga.saga job s) c) o).
Proof.
  intros [HJ Hc] Hn.
  apply (execute_saga_keeps powf J nameless _ (provisioning_saga_keeps job s)); done.
Qed.

(** A call of the provisioning coordinator always ends in an error, however
    the worker was created and whatever the bus and the event bus answer: after
    a saga that succeeded it reads the worker from the saga's stored context,
    and what is stored is the context from before the first step.  Nothing it
    does stores a context that names a worker, so the next call fails too. *)
Theorem provisioning_never_names_its_worker d provider_id spec job_id o :
  stored o ->
  wp (execute_provisioning_saga powf arc d provider_id spec job_id)
    (fun r o' => is_err r /\ stored o') o.
Proof.
  intros Ho. unfold execute_provisioning_saga.
  apply stored_on_world; [apply (stores_new_v4 _ stores)|done|]. intros saga_id o1 Ho1.
  apply stored_on_world; [apply (stores_utc _ stores)|done|]. intros now o2 Ho2.
  apply stored_saga_for; [done|]. intros job s o3 Ho3.
  pose proof (stored_execute_saga job s _ o3 Ho3
    (context_for_nameless d saga_id provider_id spec job_id now)) as Ho4.
  apply wp_bind. unfold orchestrated. apply wp_catch. rewrite wp_run.
  destruct (returns _ o3) as [r|[e| | |]]; simpl; [|by apply wp_throw|done..].
  destruct (SagaExecutionResult.is_success r).
  - apply wp_bind. eapply wp_mono; [by apply worker_of_fails|].
    intros [x|e] o5 [Ho5 He]; [done|]. by split.
  - destruct (SagaExecutionResult.is_compensated r); by apply wp_throw.
Qed.

End lost.

(** ** An example: one worker is created, and none is reported

    A world of the contexts that are stored, the workers that were created and a
    counter of identifiers; the bus answers every command with a new worker. *)

Record depot := mk_depot {
  contexts : gmap nat (@SagaContext.t concrete);
  created : list nat;
  ids : nat;
}.

#[local] Instance depot_rebuild : Rebuild depot := fun d => mk_depot (contexts d) (created d) (ids d).
#[local] Instance depot_names : TypeNames :=
  {| any_type_name := fun _ => ""; any_type_id_debug := fun _ => "" |}.
Abbreviation depot_types := (saga_command_types (E := concrete)).

#[local] Instance depot_runtime : @SagaRuntime concrete depot := {|
  Instant_now := fun d => (d, 0);
  SystemTime_now := fun d => (d, 0);
  new_v4 := fun d => (d <| ids := S (ids d) |>, (100 + ids d)%nat : @Uuid concrete);
  sleep := fun _ d => d;
  PgTransaction := unit;
  begin_transaction := fun d => (d, Ok tt);
  drop_transaction := fun _ d => d;
  save := fun c d => (d <| contexts := <[(SagaContext.saga_id c : nat) := c]> (contexts d) |>, Ok tt);
  update_state := fun i st _ d =>
    (d <| contexts := alter (fun c => c <| SagaContext.state := st |>) (i : nat) (contexts d) |>, Ok tt);
  mark_compensating := fun _ d => (d, Ok tt);
  find_by_id := fun i d => (d, Ok (contexts d !! (i : nat)));
|}.

Definition depot_bus : DynCommandBus (T := depot_types) depot := {|
  bus_dispatch := fun _ _ _ _ _ d =>
    (d <| created := (5%nat :: created d) |>,
     Ready (Ok (box (T := depot_types) (ty := Output (CommandTypes := depot_types) SagaCommand.CreateWorker)
       (WorkerProvisioningResult.new (E := concrete) 5%nat 2%nat 7%nat)), 0));
|}.

Definition depot_workers : WorkerRegistryTx (E := concrete) depot := {|
  worker_get := fun _ => ready (fun d => (d, Ok None));
  worker_get_by_job_id := fun _ => ready (fun d => (d, Ok None));
  worker_save_with_tx := fun _ _ => ready (fun d => (d, Ok tt));
  worker_update_state_with_tx := fun _ _ _ => ready (fun d => (d, Ok tt));
  worker_release_from_job_with_tx := fun _ _ => ready (fun d => (d, Ok tt));
  worker_register_with_tx := fun _ h sp _ => ready (fun d => (d, Ok (Worker.new (E := concrete) h sp 0)));
  worker_unregister_with_tx := fun _ _ => ready (fun d => (d, Ok tt));
  worker_find_available_with_tx := fun _ => ready (fun d => (d, Ok []));
|}.

Definition depot_events : EventBus (E := concrete) depot :=
  {| publish := fun _ => ready (fun d => (d, Ok tt)) |}.

#[local] Instance depot_world : StepWorld (E := concrete) (T := depot_types) depot := {|
  services_at := fun _ => Services.with_command_bus depot_workers depot_events None None None depot_bus;
  Utc_now := fun d => (d, 0 : @DateTime concrete);
|}.

Definition depot_provisioning : DynWorkerProvisioning (E := concrete) depot := {|
  await_provision_worker := fun p _ j =>
    ready (fun d => (d, Ok (WorkerProvisioningResult.new (E := concrete) 5%nat p j)));
  await_destroy_worker := fun _ => ready (fun d => (d, Ok tt));
  await_is_provider_available := fun _ => ready (fun d => (d, Ok true));
|}.

Definition depot_coordinator : DynProvisioningSagaCoordinator.t (E := concrete) (A := depot) :=
  DynProvisioningSagaCoordinator.new depot_provisioning depot_workers depot_events None depot_bus None.

Definition depot_orchestrator : InMemorySagaOrchestrator.t (E := concrete) depot := {|
  InMemorySagaOrchestrator.world := mk_depot ∅ [] 0;
  InMemorySagaOrchestrator.config := SagaOrchestratorConfig.default;
  InMemorySagaOrchestrator.active_sagas := 0;
  InMemorySagaOrchestrator.rate_limiter := None;
  InMemorySagaOrchestrator.concurrency_semaphore := 100;
  InMemorySagaOrchestrator.audit_trail := SagaAuditTrail.new;
  InMemorySagaOrchestrator.audit_consumers := [];
|}.

Definition depot_call := DynProvisioningSagaCoordinator.execute_provisioning_saga (E := concrete)
  (A := depot) (fun x _ => x) (fun _ => tt : @SagaServices concrete) depot_coordinator (2%nat : @Uuid concrete)
  (WorkerSpec.new (E := concrete) "img" "srv" 2%nat) (Some (7%nat : @Uuid concrete)).

Definition unnamed (d : depot) : Prop := map_Forall (fun _ c => nameless (E := concrete) c) (contexts d).

Lemma depot_stores : Stores (E := concrete) (A := depot) unnamed.
Proof.
  split; try done.
  - intros i st e d Hd k c. simpl. unfold unnamed in *.
    rewrite lookup_alter. case_decide; [|by apply Hd]. subst k.
    destruct (contexts d !! (i : nat)) as [c0|] eqn:Hk; simpl; [|discriminate].
    intros [= <-]. by apply (Hd (i : nat) c0).
  - intros c d Hd Hc. by apply map_Forall_insert_2.
  - intros i d Hd. split; [done|]. simpl. intros c [= Hc]. by apply (Hd (i : nat)).
  - intros h bus command i name target left d [= <-] Hd. done.
Qed.

Example provisioning_never_names_its_worker_witness :
  created (InMemorySagaOrchestrator.world (after depot_call depot_orchestrator)) = [5%nat] /\
  wp depot_call (fun r o' => is_err r /\ stored unnamed o') depot_orchestrator.
Proof.
  split; [vm_compute; reflexivity|].
  apply (provisioning_never_names_its_worker (E := concrete) (A := depot) (fun x _ => x)
    (fun _ => tt : @SagaServices concrete) unnamed depot_stores).
  split; [apply map_Forall_empty|constructor].
Defined.
