(* ===== verification/JobStore.v ===== *)
(** * Jobs in PostgreSQL
    ([crates/server/infrastructure/src/persistence/postgres/job_repository.rs,
    job_repository_tx.rs, job_queue.rs])

    The repository of jobs and the queue of jobs on the tables [jobs] and
    [job_queue].  Each transaction of the source is one step; of two claims of
    the same row one waits or skips it ([FOR UPDATE SKIP LOCKED]).

    Whether every job that is pending can be dequeued, and what becomes of a job
    that is, are the theorems at the end. *)

From S2P Require Import Prelude Effects Std Externs States Errors JobSpec Job ProviderApi Worker Events Repositories Services ExecutionCommands Sql.

(** ** The tables *)

Module JobRow.
Section row.
Context `{E : Externs}.

(** The columns of [jobs] that the statements name. *)
(** src: crates/server/infrastructure/src/persistence/postgres/job_repository.rs 122-125 PostgresJobRepository::save (columns) *)
Record t := mk {
  id : Uuid;
  name : string;
  spec : Json;
  state : string;
  selected_provider_id : option Uuid;
  execution_context : option Json;
  attempts : Z;
  max_attempts : Z;
  created_at : DateTime;
  started_at : option DateTime;
  completed_at : option DateTime;
  result : option Json;
  error_message : option string;
  metadata : Json;
}.

#[global] Instance t_rebuild : Rebuild t := fun r =>
  mk (id r) (name r) (spec r) (state r) (selected_provider_id r) (execution_context r)
    (attempts r) (max_attempts r) (created_at r) (started_at r) (completed_at r) (result r)
    (error_message r) (metadata r).

End row.
End JobRow.

Module QueueRow.
Section row.
Context `{E : Externs}.

(** The columns of [job_queue] that the statements name; the only one that is
    ever written is [job_id], and the others have the defaults of the table. *)
(** src: crates/server/infrastructure/src/persistence/postgres/job_queue.rs 133-135 PostgresJobQueue::enqueue (columns) *)
Record t := mk { job_id : Uuid; priority : Z; enqueued_at : option DateTime }.

Definition inserted (i : Uuid) : t := mk i 0 None.

End row.
End QueueRow.

(** [serde_json] at the types of the columns; a [HashMap] that cannot be read is
    empty. *)
Class JobFormat `{E : Externs} := {
  spec_to_value : JobSpec.t -> result string Json;
  spec_from_value : Json -> result string JobSpec.t;
  context_to_value : ExecutionContext.t -> result string Json;
  context_from_value : Json -> result string ExecutionContext.t;
  result_to_value : JobResult.t -> result string Json;
  result_from_value : Json -> result string JobResult.t;
  metadata_to_value : gmap string string -> result string Json;
  metadata_from_value : Json -> gmap string string;
  job_from_value : Json -> result string Job.t;
  (* [v->>'key'] *)
  text_of_key : Json -> string -> option string;
}.

(** The database: two tables, transactions on both, and an order of the rows for
    each [ORDER BY]. *)
Class JobDatabase `{E : Externs} (S : Type) := {
  jobs_table :: Table S JobRow.t;
  queue_table :: Table S QueueRow.t;
  job_transactions :: Transactions S;
  order_by_created : list JobRow.t -> list JobRow.t;
  order_by_created_desc : list JobRow.t -> list JobRow.t;
  (* [ORDER BY enqueued_at ASC]; rows without a value come last, in any order *)
  order_by_enqueued : list QueueRow.t -> list QueueRow.t;
  order_by_priority : list QueueRow.t -> list QueueRow.t;
}.

Abbreviation job_rows := (table_rows (Row := JobRow.t)).
Abbreviation queue_rows := (table_rows (Row := QueueRow.t)).

Class JobDatabaseLaws `{E : Externs} (S : Type) `{!JobDatabase S} : Prop := {
  jobs_table_laws :: TableLaws S JobRow.t;
  queue_table_laws :: TableLaws S QueueRow.t;
  queue_of_jobs_set : forall l s, queue_rows (set_table_rows (Row := JobRow.t) l s) = queue_rows s;
  jobs_of_queue_set : forall l s, job_rows (set_table_rows (Row := QueueRow.t) l s) = job_rows s;
  queue_of_jobs_outcome : forall s,
    queue_rows (statement_outcome (Row := JobRow.t) s).1 = queue_rows s;
  jobs_of_queue_outcome : forall s,
    job_rows (statement_outcome (Row := QueueRow.t) s).1 = job_rows s;
  rows_of_begin : forall s,
    job_rows (begin_error s).1 = job_rows s /\ queue_rows (begin_error s).1 = queue_rows s;
  rows_of_commit : forall s,
    job_rows (commit_outcome s).1 = job_rows s /\ queue_rows (commit_outcome s).1 = queue_rows s;
  rows_of_restore : forall s0 s,
    job_rows (restore s0 s) = job_rows s0 /\ queue_rows (restore s0 s) = queue_rows s0;
  created_perm : forall l, order_by_created l ≡ₚ l;
  created_desc_perm : forall l, order_by_created_desc l ≡ₚ l;
  enqueued_perm : forall l, order_by_enqueued l ≡ₚ l;
  priority_perm : forall l, order_by_priority l ≡ₚ l;
}.

Definition database_error `{E : Externs} (what e : string) : DomainError.t :=
  DomainError.InfrastructureError ("Failed to " +:+ what +:+ ": " +:+ e).

(** ** The repository *)

Module PostgresJobRepository.
Section repository.
Context `{E : Externs} `{!JobFormat} {S : Type} `{!JobDatabase S}.
Import JobRow.

(** src: crates/server/infrastructure/src/persistence/postgres/job_repository.rs 42-56 PostgresJobRepository::state_to_string *)
Definition state_to_string (s : JobState.t) : string :=
  match s with
  | JobState.Pending => "PENDING"
  | JobState.Assigned => "ASSIGNED"
  | JobState.Scheduled => "SCHEDULED"
  | JobState.Running => "RUNNING"
  | JobState.Succeeded => "SUCCEEDED"
  | JobState.Failed => "FAILED"
  | JobState.Cancelled => "CANCELLED"
  | JobState.Timeout => "TIMEOUT"
  | JobState.ManualInterventionRequired => "MANUAL_INTERVENTION_REQUIRED"
  end.

(** src: crates/server/infrastructure/src/persistence/postgres/job_repository.rs 58-73 PostgresJobRepository::string_to_state *)
Definition string_to_state (s : string) : JobState.t :=
  if String.eqb s "PENDING" then JobState.Pending
  else if String.eqb s "ASSIGNED" then JobState.Assigned
  else if String.eqb s "SCHEDULED" then JobState.Scheduled
  else if String.eqb s "RUNNING" then JobState.Running
  else if String.eqb s "SUCCEEDED" then JobState.Succeeded
  else if String.eqb s "FAILED" then JobState.Failed
  else if String.eqb s "CANCELLED" then JobState.Cancelled
  else if String.eqb s "TIMEOUT" then JobState.Timeout
  else if String.eqb s "MANUAL_INTERVENTION_REQUIRED" then JobState.ManualInterventionRequired
  else JobState.Failed.

(** [option.map(from_value).transpose()?] *)
Definition optional {X Y} (read : X -> Prelude.result string Y) (what : string) (v : option X) :
    Prelude.result DomainError.t (option Y) :=
  match v with
  | Some v => y ← map_err (database_error what) (read v); Ok (Some y)
  | None => Ok None
  end.

(** The job of a row, whose state is read by [state_of]. *)
Definition job_of_row (state_of : string -> JobState.t) (row : t) : Prelude.result DomainError.t Job.t :=
  sp ← map_err (database_error "deserialize job spec") (spec_from_value (spec row));
  ctx ← optional context_from_value "deserialize execution context" (execution_context row);
  res ← optional result_from_value "deserialize result" (result row);
  Ok (Job.hydrate (id row) (name row) sp (state_of (state row)) (selected_provider_id row) ctx
    (as_u32 (attempts row)) (as_u32 (max_attempts row)) (created_at row) (started_at row)
    (completed_at row) res (error_message row) (metadata_from_value (metadata row))
    None None None None).

(** src: crates/server/infrastructure/src/persistence/postgres/job_repository.rs 434-498 map_row_to_job *)
Definition map_row_to_job : t -> Prelude.result DomainError.t Job.t := job_of_row string_to_state.

(** The values bound to the statement of [save]. *)
(** src: crates/server/infrastructure/src/persistence/postgres/job_repository.rs 142-154 PostgresJobRepository::save (values) *)
Definition row_of_job (job : Job.t) : Prelude.result DomainError.t t :=
  spec_json ← map_err (database_error "serialize job spec") (spec_to_value (Job.spec job));
  context_json ← optional context_to_value "serialize execution context" (Job.execution_context job);
  result_json ← optional result_to_value "serialize result" (Job.result job);
  metadata_json ← map_err (database_error "serialize metadata") (metadata_to_value (Job.metadata job));
  Ok {|
    id := Job.id job;
    name := Job.name job;
    spec := spec_json;
    state := state_to_string (Job.state job);
    selected_provider_id := Job.selected_provider job;
    execution_context := context_json;
    attempts := as_i32 (Job.attempts job);
    max_attempts := as_i32 (Job.max_attempts job);
    created_at := Job.created_at job;
    started_at := Job.started_at job;
    completed_at := Job.completed_at job;
    result := result_json;
    error_message := Job.error_message job;
    metadata := metadata_json;
  |}.

Definition has_id (i : Uuid) (r : t) : bool := bool_decide (id r = i).
Definition in_state (st : string) (r : t) : bool := String.eqb (state r) st.
Definition set_state (st : string) (r : t) : t := r <| state := st |>.

(** [INSERT ... ON CONFLICT (id) DO UPDATE SET] of every other column. *)
(** src: crates/server/infrastructure/src/persistence/postgres/job_repository.rs 120-141 PostgresJobRepository::save (statement) *)
Definition upsert (new : t) (_ : DateTime) (rows : list t) : Prelude.result string (list t) :=
  Ok (if existsb (has_id (id new)) rows
      then (fun r => if has_id (id new) r then new else r) <$> rows
      else rows ++ [new]).

(** [INSERT INTO job_queue (job_id) ... ON CONFLICT (job_id) DO NOTHING] *)
(** src: crates/server/infrastructure/src/persistence/postgres/job_repository.rs 168-175 PostgresJobRepository::save (queue) *)
Definition insert_queue (i : Uuid) (_ : DateTime) (rows : list QueueRow.t) :
    Prelude.result string (list QueueRow.t) :=
  Ok (if existsb (fun q => bool_decide (QueueRow.job_id q = i)) rows then rows
      else rows ++ [QueueRow.inserted i]).

(** The statements of [save], with the suffix of the messages. *)
Definition save_row (suffix : string) (job : Job.t) (row : t) : method S DomainError.t unit :=
  mapping_error (write (upsert row)) (database_error ("save job" +:+ suffix));;
  if bool_decide (Job.state job = JobState.Pending) then
    mapping_error (write (insert_queue (Job.id job)))
      (database_error ("enqueue job atomically" +:+ suffix))
  else mret tt.

(** src: crates/server/infrastructure/src/persistence/postgres/job_repository.rs 78-190 PostgresJobRepository::save *)
Definition save (job : Job.t) : method S DomainError.t unit :=
  row ← lift (row_of_job job);
  transaction (database_error "begin transaction") (database_error "commit transaction")
    (fun _ => true) (save_row "" job row).

(** The row of an identifier. *)
Definition find_row (i : Uuid) (what : string) : method S DomainError.t (option Job.t) :=
  row ← mapping_error (read (fun rows => head (filter (fun r => has_id i r = true) rows)))
    (database_error what);
  match row with
  | Some row => job ← lift (map_row_to_job row); mret (Some job)
  | None => mret None
  end.

(** src: crates/server/infrastructure/src/persistence/postgres/job_repository.rs 192-213 PostgresJobRepository::find_by_id *)
Definition find_by_id (i : JobId) : method S DomainError.t (option Job.t) :=
  find_row i "find job by id".

(** The rows of a statement, mapped in a loop that stops at the first error. *)
Definition find_rows (select : list t -> list t) (what : string) :
    method S DomainError.t (list Job.t) :=
  rows ← mapping_error (read select) (database_error what);
  lift (mapM map_row_to_job rows).

(** src: crates/server/infrastructure/src/persistence/postgres/job_repository.rs 215-241 PostgresJobRepository::find_by_state *)
Definition find_by_state (s : JobState.t) : method S DomainError.t (list Job.t) :=
  find_rows (fun rows => order_by_created (filter (fun r => in_state (state_to_string s) r = true) rows))
    "find jobs by state".

(** The statement does not select the column [name], and [row.get("name")]
    panics on every row it returns. *)
Definition map_nameless_rows {X} (rows : list X) : method S (exn DomainError.t) (list Job.t) :=
  if bool_decide (length rows = 0%nat) then mret [] else throw Panicked.

Definition running {X} (what : string) (m : method S string X) : method S (exn DomainError.t) X :=
  mapping_error m (fun e => Error (database_error what e)).

(** src: crates/server/infrastructure/src/persistence/postgres/job_repository.rs 243-265 PostgresJobRepository::find_pending *)
Definition find_pending : method S (exn DomainError.t) (list Job.t) :=
  rows ← running "find pending jobs"
    (read (fun rows => order_by_created (filter (fun r => in_state "PENDING" r = true) rows)));
  map_nameless_rows rows.

(** src: crates/server/infrastructure/src/persistence/postgres/job_repository.rs 267-302 PostgresJobRepository::find_all *)
Definition find_all (limit offset : nat) : method S (exn DomainError.t) (list Job.t * nat) :=
  total ← running "count jobs" (read (fun rows : list t => length rows));
  rows ← running "find all jobs" (read (fun rows => take limit (drop offset (order_by_created_desc rows))));
  jobs ← map_nameless_rows rows;
  mret (jobs, total).

(** src: crates/server/infrastructure/src/persistence/postgres/job_repository.rs 304-326 PostgresJobRepository::find_by_execution_id *)
Definition find_by_execution_id (execution_id : string) : method S (exn DomainError.t) (option Job.t) :=
  rows ← running "find job by execution id"
    (read (fun rows => head (filter (fun r =>
       execution_context r ≫= (fun v => text_of_key v "execution_id") = Some execution_id) rows)));
  match rows with
  | Some row => jobs ← map_nameless_rows [row]; mret (head jobs)
  | None => mret None
  end.

(** src: crates/server/infrastructure/src/persistence/postgres/job_repository.rs 328-330 PostgresJobRepository::update *)
Definition update (job : Job.t) : method S DomainError.t unit := save job.

(** src: crates/server/infrastructure/src/persistence/postgres/job_repository.rs 332-342 PostgresJobRepository::delete *)
Definition delete (i : JobId) : method S DomainError.t unit :=
  mapping_error (write (fun _ rows => Ok (filter (fun r => has_id i r = false) rows)))
    (database_error "delete job").

Definition update_rows (i : Uuid) (st : string) (_ : DateTime) (rows : list t) :
    Prelude.result string (list t) :=
  Ok ((fun r => if has_id i r then set_state st r else r) <$> rows).

(** src: crates/server/infrastructure/src/persistence/postgres/job_repository.rs 344-356 PostgresJobRepository::update_state *)
Definition update_state (i : JobId) (s : JobState.t) : method S DomainError.t unit :=
  mapping_error (write (update_rows i (state_to_string s))) (database_error "update job state").

(** An offset without a limit is not used. *)
(** src: crates/server/infrastructure/src/persistence/postgres/job_repository.rs 358-414 PostgresJobRepository::find *)
Definition find (f : JobsFilter.t) : method S (exn DomainError.t) (list Job.t) :=
  rows ← running "find jobs" (read (fun rows =>
    let found := match JobsFilter.state f with
                 | Some s => filter (fun r => in_state (state_to_string s) r = true) rows
                 | None => rows
                 end in
    let found := match JobsFilter.provider_id f with
                 | Some p => filter (fun r => selected_provider_id r = Some p) found
                 | None => found
                 end in
    let found := order_by_created_desc found in
    match JobsFilter.limit f with
    | Some limit => take limit (drop (default 0%nat (JobsFilter.offset f)) found)
    | None => found
    end));
  map_nameless_rows rows.

(** src: crates/server/infrastructure/src/persistence/postgres/job_repository.rs 416-431 PostgresJobRepository::count_by_state *)
Definition count_by_state (s : JobState.t) : method S DomainError.t nat :=
  mapping_error (read (fun rows => length (filter (fun r => in_state (state_to_string s) r = true) rows)))
    (database_error "count jobs by state").

(** *** In the transaction of the caller *)

(** src: crates/server/infrastructure/src/persistence/postgres/job_repository_tx.rs 14-111 PostgresJobRepository::save_with_tx *)
Definition save_with_tx (job : Job.t) : method S DomainError.t unit :=
  row ← lift (row_of_job job); save_row " in transaction" job row.

(** src: crates/server/infrastructure/src/persistence/postgres/job_repository_tx.rs 113-138 PostgresJobRepository::find_by_id_with_tx *)
Definition find_by_id_with_tx (i : JobId) : method S DomainError.t (option Job.t) :=
  find_row i "find job by id in transaction".

(** src: crates/server/infrastructure/src/persistence/postgres/job_repository_tx.rs 140-142 PostgresJobRepository::update_with_tx *)
Definition update_with_tx (job : Job.t) : method S DomainError.t unit := save_with_tx job.

(** src: crates/server/infrastructure/src/persistence/postgres/job_repository_tx.rs 144-160 PostgresJobRepository::update_status_with_tx *)
Definition update_status_with_tx (i : JobId) (new_status : string) : method S DomainError.t unit :=
  mapping_error (write (update_rows i new_status))
    (database_error "update job status in transaction").

(** src: crates/server/infrastructure/src/persistence/postgres/job_repository_tx.rs 162-187 PostgresJobRepository::find_by_state_with_tx *)
Definition find_by_state_with_tx (s : JobState.t) : method S DomainError.t (list Job.t) :=
  find_rows (filter (fun r => in_state (state_to_string s) r = true))
    "find jobs by state in transaction".

(** src: crates/server/infrastructure/src/persistence/postgres/job_repository_tx.rs 189-197 PostgresJobRepository::update_state_with_tx *)
Definition update_state_with_tx (i : JobId) (s : JobState.t) : method S DomainError.t unit :=
  update_status_with_tx i (state_to_string s).

End repository.
End PostgresJobRepository.

(** ** The queue *)

Module PostgresJobQueue.
Section queue.
Context `{E : Externs} `{!JobFormat} {S : Type} `{!JobDatabase S}.
Import JobRow.
Import PostgresJobRepository (has_id, in_state, set_state, insert_queue, update_rows, job_of_row).

(** Of the states, [ASSIGNED] is not read. *)
(** src: crates/server/infrastructure/src/persistence/postgres/job_queue.rs 86-95 map_row_to_job (state) *)
Definition state_of_text (s : string) : JobState.t :=
  if String.eqb s "PENDING" then JobState.Pending
  else if String.eqb s "SCHEDULED" then JobState.Scheduled
  else if String.eqb s "RUNNING" then JobState.Running
  else if String.eqb s "SUCCEEDED" then JobState.Succeeded
  else if String.eqb s "FAILED" then JobState.Failed
  else if String.eqb s "CANCELLED" then JobState.Cancelled
  else if String.eqb s "TIMEOUT" then JobState.Timeout
  else JobState.Failed.

(** src: crates/server/infrastructure/src/persistence/postgres/job_queue.rs 42-117 map_row_to_job *)
Definition map_row_to_job : t -> Prelude.result DomainError.t Job.t := job_of_row state_of_text.

(** src: crates/server/infrastructure/src/persistence/postgres/job_queue.rs 121-161 PostgresJobQueue::enqueue *)
Definition enqueue (job : Job.t) : method S DomainError.t unit :=
  transaction (database_error "start transaction for enqueue")
    (database_error "commit enqueue transaction") (fun _ => true)
    (mapping_error (write (insert_queue (Job.id job))) (database_error "insert into job_queue");;
     mapping_error (write (update_rows (Job.id job) "PENDING"))
       (database_error "update job state to PENDING")).

(** The rows of the queue whose job is pending. *)
Definition claimable (s : S) : list QueueRow.t :=
  filter (fun q => existsb (fun r => has_id (QueueRow.job_id q) r && in_state "PENDING" r)
                     (job_rows s) = true) (queue_rows s).

(** The job of the first of them becomes [ASSIGNED]; the statement returns the
    row as updated. *)
(** src: crates/server/infrastructure/src/persistence/postgres/job_queue.rs 174-192 PostgresJobQueue::dequeue (claim) *)
Definition claim (s : S) : S * option t :=
  match head (order_by_enqueued (claimable s)) with
  | None => (s, None)
  | Some q =>
      let claimed r := if has_id (QueueRow.job_id q) r then set_state "ASSIGNED" r else r in
      let rows := claimed <$> job_rows s in
      (set_table_rows rows s, head (filter (fun r => has_id (QueueRow.job_id q) r = true) rows))
  end.

(** The statement of the claim. *)
Definition claiming : method S string (option t) :=
  fun s =>
    let (s, o) := statement_outcome (Row := JobRow.t) s in
    match o with
    | Executed => let (s, r) := claim s in (s, Ok r)
    | Refused m => (s, Err m)
    | AnswerLost m => ((claim s).1, Err m)
    end.

Definition delete_queue (i : Uuid) (_ : DateTime) (rows : list QueueRow.t) :
    Prelude.result string (list QueueRow.t) :=
  Ok (filter (fun q => QueueRow.job_id q <> i) rows).

(** The row is read after the transaction is committed. *)
(** src: crates/server/infrastructure/src/persistence/postgres/job_queue.rs 163-224 PostgresJobQueue::dequeue *)
Definition dequeue : method S DomainError.t (option Job.t) :=
  row ← transaction (database_error "start transaction for dequeue")
    (database_error "commit dequeue transaction") (fun r => bool_decide (is_Some r))
    (row ← mapping_error claiming (database_error "claim job");
     match row with
     | Some row =>
         mapping_error (write (delete_queue (id row))) (database_error "remove dequeued job from queue");;
         mret (Some row)
     | None => mret None
     end);
  match row with
  | Some row => job ← lift (map_row_to_job row); mret (Some job)
  | None => mret None
  end.

(** [job_queue jq JOIN jobs j ON jq.job_id = j.id WHERE j.state = 'PENDING']. *)
Definition waiting (rows : list t) (queue : list QueueRow.t) : list (QueueRow.t * t) :=
  q ← queue;
  r ← filter (fun r => has_id (QueueRow.job_id q) r && in_state "PENDING" r = true) rows;
  [(q, r)].

(** A statement on both tables that only reads. *)
Definition read_both {A} (f : list t -> list QueueRow.t -> A) : method S string A :=
  fun s =>
    let (s, o) := statement_outcome (Row := JobRow.t) s in
    match o with
    | Executed => (s, Ok (f (job_rows s) (queue_rows s)))
    | Refused m | AnswerLost m => (s, Err m)
    end.

(** What is read as a job is the specification of the job. *)
(** src: crates/server/infrastructure/src/persistence/postgres/job_queue.rs 226-257 PostgresJobQueue::peek *)
Definition peek : method S DomainError.t (option Job.t) :=
  row ← mapping_error
    (read_both (fun rows queue => head (waiting rows (order_by_priority queue))))
    (database_error "peek queue");
  match row with
  | Some (_, row) =>
      job ← lift (map_err (database_error "deserialize job spec") (job_from_value (spec row)));
      mret (Some job)
  | None => mret None
  end.

(** src: crates/server/infrastructure/src/persistence/postgres/job_queue.rs 259-277 PostgresJobQueue::len *)
Definition len : method S DomainError.t nat :=
  mapping_error (read_both (fun rows queue => length (waiting rows queue)))
    (database_error "get queue length").

(** src: crates/server/infrastructure/src/persistence/postgres/job_queue.rs 279-281 PostgresJobQueue::is_empty *)
Definition is_empty : method S DomainError.t bool := n ← len; mret (bool_decide (n = 0%nat)).

(** src: crates/server/infrastructure/src/persistence/postgres/job_queue.rs 283-292 PostgresJobQueue::clear *)
Definition clear : method S DomainError.t unit :=
  mapping_error (write (fun _ (_ : list QueueRow.t) => Ok [])) (database_error "clear queue").

End queue.
End PostgresJobQueue.

(** ** Properties *)

Section tables.
Context `{E : Externs} `{!JobFormat} {S : Type} `{!JobDatabase S} `{!JobDatabaseLaws S}.
Import PostgresJobRepository.

Lemma after_mapping {F G A} (m : method S F A) (f : F -> G) s : after (mapping_error m f) s = after m s.
Proof. unfold after, mapping_error. by destruct (m s). Qed.

Lemma mapping_ok {F G A} (m : method S F A) (f : F -> G) s a :
  returns (mapping_error m f) s = Ok a <-> returns m s = Ok a.
Proof. unfold returns, mapping_error. destruct (m s) as [s' [b|e]]; simpl; split; congruence. Qed.

Lemma bind_ok {F A B} (m : method S F A) (k : A -> method S F B) s b :
  returns (a ← m; k a) s = Ok b ->
  exists a, returns m s = Ok a /\ returns (k a) (after m s) = Ok b /\
    after (a ← m; k a) s = after (k a) (after m s).
Proof.
  unfold returns, after, mbind, method_bind. destruct (m s) as [s1 [a|e]]; simpl; [|done].
  intros Hb. by exists a.
Qed.

(** *** Statements on one of the tables leave the other one alone *)

Lemma queue_of_jobs_write f s : queue_rows (after (write (Row := JobRow.t) f) s) = queue_rows s.
Proof.
  unfold after, write. pose proof (queue_of_jobs_outcome s) as Ho.
  destruct (statement_outcome (Row := JobRow.t) s) as [s1 o]. simpl in Ho.
  destruct o, (f (statement_time s1) (table_rows s1)); simpl; by rewrite ?queue_of_jobs_set.
Qed.

Lemma jobs_of_queue_write f s : job_rows (after (write (Row := QueueRow.t) f) s) = job_rows s.
Proof.
  unfold after, write. pose proof (jobs_of_queue_outcome s) as Ho.
  destruct (statement_outcome (Row := QueueRow.t) s) as [s1 o]. simpl in Ho.
  destruct o, (f (statement_time s1) (table_rows s1)); simpl; by rewrite ?jobs_of_queue_set.
Qed.

Lemma jobs_write_ok f s :
  returns (write (Row := JobRow.t) f) s = Ok tt ->
  (exists now, f now (job_rows s) = Ok (job_rows (after (write f) s))) /\
  queue_rows (after (write f) s) = queue_rows s.
Proof. intros Hok. split; [by apply write_ok|apply queue_of_jobs_write]. Qed.

Lemma queue_write_ok f s :
  returns (write (Row := QueueRow.t) f) s = Ok tt ->
  (exists now, f now (queue_rows s) = Ok (queue_rows (after (write f) s))) /\
  job_rows (after (write f) s) = job_rows s.
Proof. intros Hok. split; [by apply write_ok|apply jobs_of_queue_write]. Qed.

Lemma has_id_spec i r : has_id i r = true <-> JobRow.id r = i.
Proof. apply bool_decide_eq_true. Qed.

Lemma in_state_spec st r : in_state st r = true <-> JobRow.state r = st.
Proof. apply String.eqb_eq. Qed.

(** *** What is read of a job that was written *)

Lemma state_of_string_state s : string_to_state (state_to_string s) = s.
Proof. by destruct s. Qed.

Lemma pending_string s : state_to_string s = "PENDING" <-> s = JobState.Pending.
Proof. by destruct s. Qed.

(** The parts of a job that are kept as JSON are read as they were written. *)
Record readable (job : Job.t) : Prop := {
  readable_spec v : spec_to_value (Job.spec job) = Ok v -> spec_from_value v = Ok (Job.spec job);
  readable_context c v : Job.execution_context job = Some c -> context_to_value c = Ok v ->
    context_from_value v = Ok c;
  readable_result x v : Job.result job = Some x -> result_to_value x = Ok v ->
    result_from_value v = Ok x;
  readable_metadata v : metadata_to_value (Job.metadata job) = Ok v ->
    metadata_from_value v = Job.metadata job;
  readable_attempts : u32 (Job.attempts job);
  readable_max_attempts : u32 (Job.max_attempts job);
}.

(** A job without what the table has no column for. *)
Definition untemplated (job : Job.t) : Job.t :=
  job <| Job.template_id := None |> <| Job.template_version := None |>
      <| Job.execution_number := None |> <| Job.triggered_by := None |>.

Lemma optional_round {X Y} (write : X -> Prelude.result string Y) (read : Y -> Prelude.result string X)
    w1 w2 x y :
  (forall a b, x = Some a -> write a = Ok b -> read b = Ok a) ->
  optional write w1 x = Ok y -> optional read w2 y = Ok x.
Proof.
  intros Hrt. destruct x as [a|]; simpl; [|by intros [= <-]].
  destruct (write a) as [b|] eqn:Hb; simpl; [|done]. intros [= <-]. simpl.
  by rewrite (Hrt a b eq_refl Hb).
Qed.

Lemma row_of_job_round job row :
  readable job -> row_of_job job = Ok row ->
  JobRow.id row = Job.id job /\ JobRow.state row = state_to_string (Job.state job) /\
  map_row_to_job row = Ok (untemplated job).
Proof.
  intros [Hs Hc Hr Hm Ha Hx]. unfold row_of_job.
  destruct (spec_to_value (Job.spec job)) as [v|] eqn:Hv; simpl; [|done].
  destruct (optional context_to_value _ _) as [c|] eqn:Hctx; simpl; [|done].
  destruct (optional result_to_value _ _) as [x|] eqn:Hres; simpl; [|done].
  destruct (metadata_to_value (Job.metadata job)) as [m|] eqn:Hmeta; simpl; [|done].
  intros [= <-]. split_and!; [done..|]. unfold map_row_to_job, job_of_row. simpl.
  rewrite (Hs _ eq_refl). simpl.
  rewrite (optional_round _ _ _ "deserialize execution context" _ _ Hc Hctx). simpl.
  rewrite (optional_round _ _ _ "deserialize result" _ _ Hr Hres). simpl.
  rewrite (Hm _ eq_refl), state_of_string_state, !as_u32_as_i32 by done.
  by destruct job.
Qed.

Lemma row_of_job_keys job row :
  row_of_job job = Ok row ->
  JobRow.id row = Job.id job /\ JobRow.state row = state_to_string (Job.state job).
Proof.
  unfold row_of_job.
  destruct (spec_to_value (Job.spec job)) as [v|]; simpl; [|done].
  destruct (optional context_to_value _ _) as [c|]; simpl; [|done].
  destruct (optional result_to_value _ _) as [x|]; simpl; [|done].
  destruct (metadata_to_value (Job.metadata job)) as [m|]; simpl; [|done].
  by intros [= <-].
Qed.

(** *** A pending job is in the queue *)

Definition queued (rows : list JobRow.t) (queue : list QueueRow.t) : Prop :=
  forall r, r ∈ rows -> JobRow.state r = "PENDING" ->
    exists q, q ∈ queue /\ QueueRow.job_id q = JobRow.id r.

Definition pending_are_queued (s : S) : Prop := queued (job_rows s) (queue_rows s).

Lemma upsert_elem row now rows rows' r :
  upsert row now rows = Ok rows' -> r ∈ rows' -> r = row \/ r ∈ rows.
Proof.
  unfold upsert. intros [= <-]. destruct (existsb _ rows).
  - intros (r0 & -> & Hr0)%list_elem_of_fmap. destruct (has_id (JobRow.id row) r0); auto.
  - rewrite elem_of_app, list_elem_of_singleton. tauto.
Qed.

Lemma update_rows_elem i st now rows rows' r :
  update_rows i st now rows = Ok rows' -> r ∈ rows' ->
  (JobRow.id r = i /\ JobRow.state r = st) \/ r ∈ rows.
Proof.
  unfold update_rows. intros [= <-] (r0 & -> & Hr0)%list_elem_of_fmap.
  destruct (has_id i r0) eqn:Hi; [|auto]. left. by apply has_id_spec in Hi.
Qed.

Lemma insert_queue_elem i now queue queue' :
  insert_queue i now queue = Ok queue' ->
  (exists q, q ∈ queue' /\ QueueRow.job_id q = i) /\ queue ⊆ queue'.
Proof.
  unfold insert_queue. intros [= <-]. destruct (existsb _ queue) eqn:He.
  - split; [|done]. apply existsb_exists in He as (q & Hq & Hi).
    exists q. split; [by apply list_elem_of_In|by apply bool_decide_eq_true in Hi].
  - split; [|set_solver]. exists (QueueRow.inserted i). split; [set_solver|done].
Qed.

Lemma queued_mono rows queue queue' : queue ⊆ queue' -> queued rows queue -> queued rows queue'.
Proof. intros Hsub Hq r Hr Hp. destruct (Hq r Hr Hp) as (q & Hin & Hid). exists q. auto. Qed.

Lemma queued_upsert row now rows rows' queue :
  upsert row now rows = Ok rows' -> queued rows queue ->
  (JobRow.state row = "PENDING" -> exists q, q ∈ queue /\ QueueRow.job_id q = JobRow.id row) ->
  queued rows' queue.
Proof. intros Hu Hq Hrow r Hr Hp. destruct (upsert_elem _ _ _ _ r Hu Hr) as [->|Hin]; auto. Qed.

Lemma queued_update_rows i st now rows rows' queue :
  update_rows i st now rows = Ok rows' -> queued rows queue ->
  (st = "PENDING" -> exists q, q ∈ queue /\ QueueRow.job_id q = i) ->
  queued rows' queue.
Proof.
  intros Hu Hq Hst r Hr Hp. destruct (update_rows_elem _ _ _ _ _ r Hu Hr) as [[<- Hs]|Hin]; [|auto].
  apply Hst. congruence.
Qed.

Lemma save_row_queued suffix job row s :
  JobRow.id row = Job.id job -> JobRow.state row = state_to_string (Job.state job) ->
  pending_are_queued s -> returns (save_row suffix job row) s = Ok tt ->
  pending_are_queued (after (save_row suffix job row) s).
Proof.
  intros Hid Hst HI Hok. unfold save_row in *. apply bind_ok in Hok as ([] & Hw & Hk & ->).
  rewrite after_mapping in *. apply mapping_ok, jobs_write_ok in Hw as [[now Hw] Hqueue].
  unfold pending_are_queued. case_bool_decide as Hp.
  - rewrite after_mapping. apply mapping_ok, queue_write_ok in Hk as [[now' Hk] Hjobs].
    rewrite Hjobs. destruct (insert_queue_elem _ _ _ _ Hk) as [Hin Hsub]. rewrite Hqueue in Hsub.
    eapply queued_upsert; [exact Hw|by eapply queued_mono|]. by rewrite Hid.
  - change (queued (job_rows (after (write (upsert row)) s)) (queue_rows (after (write (upsert row)) s))).
    rewrite Hqueue. eapply queued_upsert; [exact Hw|done|].
    rewrite Hst, pending_string. done.
Qed.

Lemma transaction_queued {A} beginning committing kept (m : method S DomainError.t A) s :
  (forall s a, pending_are_queued s -> returns m s = Ok a -> kept a = true ->
     pending_are_queued (after m s)) ->
  pending_are_queued s -> pending_are_queued (after (transaction beginning committing kept m) s).
Proof.
  intros Hm. apply transaction_keeps; [| | |exact Hm]; unfold pending_are_queued.
  - intros s0. by destruct (rows_of_begin s0) as [-> ->].
  - intros s0. by destruct (rows_of_commit s0) as [-> ->].
  - intros s0 s1. by destruct (rows_of_restore s0 s1) as [-> ->].
Qed.

Lemma after_lift_bind {F A B} (r : Prelude.result F A) (k : A -> method S F B) s :
  after (a ← lift r; k a) s = match r with Ok a => after (k a) s | Err _ => s end.
Proof. by destruct r. Qed.

Lemma save_queued job s : pending_are_queued s -> pending_are_queued (after (save job) s).
Proof.
  intros HI. unfold save. rewrite after_lift_bind. destruct (row_of_job job) as [row|] eqn:Hrow; [|done].
  apply row_of_job_keys in Hrow as [Hid Hst].
  apply transaction_queued; [|done]. intros s1 [] H1 Hok _. by apply save_row_queued.
Qed.

Lemma jobs_write_queued f s :
  (forall now rows rows', f now rows = Ok rows' -> queued rows (queue_rows s) -> queued rows' (queue_rows s)) ->
  pending_are_queued s -> pending_are_queued (after (write (Row := JobRow.t) f) s).
Proof.
  intros Hf HI. unfold pending_are_queued. rewrite queue_of_jobs_write.
  destruct (write_rows f s) as [->|[now Hw]]; [done|]. by eapply Hf.
Qed.

Lemma update_state_queued i st s :
  st <> JobState.Pending -> pending_are_queued s -> pending_are_queued (after (update_state i st) s).
Proof.
  intros Hst HI. unfold update_state. rewrite after_mapping. apply jobs_write_queued; [|done].
  intros now rows rows' Hu Hq. eapply queued_update_rows; [exact Hu|done|].
  by rewrite pending_string.
Qed.

Lemma delete_queued i s : pending_are_queued s -> pending_are_queued (after (delete i) s).
Proof.
  intros HI. unfold delete. rewrite after_mapping. apply jobs_write_queued; [|done].
  intros now rows rows' [= <-] Hq r [_ Hr]%list_elem_of_filter. by apply Hq.
Qed.

Lemma enqueue_queued job s :
  pending_are_queued s -> pending_are_queued (after (PostgresJobQueue.enqueue job) s).
Proof.
  intros HI. unfold PostgresJobQueue.enqueue. apply transaction_queued; [|done].
  intros s1 a H1 Hok _. apply bind_ok in Hok as ([] & Hw & Hk & ->).
  rewrite !after_mapping in *. apply mapping_ok, queue_write_ok in Hw as [[now Hw] Hjobs].
  destruct a. apply mapping_ok, jobs_write_ok in Hk as [[now' Hk] Hqueue].
  unfold pending_are_queued. rewrite Hqueue. rewrite Hjobs in Hk.
  destruct (insert_queue_elem _ _ _ _ Hw) as [Hin Hsub].
  eapply queued_update_rows; [exact Hk|by eapply queued_mono|done].
Qed.

(** A change of the state of a job asks no state machine: it is written whatever the
    state was. *)
Lemma update_state_asks_nothing i st s row :
  returns (update_state i st) s = Ok tt ->
  row ∈ job_rows (after (update_state i st) s) -> JobRow.id row = i ->
  JobRow.state row = PostgresJobRepository.state_to_string st.
Proof.
  unfold update_state. rewrite after_mapping. intros [[now Hup] _]%mapping_ok%jobs_write_ok Hrow Hid.
  set (rows' := job_rows _) in *. injection Hup as Hup. rewrite <- Hup in Hrow.
  apply list_elem_of_fmap in Hrow as (r & -> & _). destruct (has_id i r) eqn:Hi; [done|].
  apply has_id_spec in Hid. congruence.
Qed.

(** *** The claim *)

(** What a claim that finds a row does. *)
Record claimed (s s' : S) (row : JobRow.t) : Prop := {
  claimed_row : exists r, r ∈ job_rows s /\ row = set_state "ASSIGNED" r;
  claimed_pending : exists r, r ∈ job_rows s /\ JobRow.id r = JobRow.id row /\
    JobRow.state r = "PENDING";
  claimed_queued : exists q, q ∈ queue_rows s /\ QueueRow.job_id q = JobRow.id row;
  claimed_jobs : job_rows s' =
    (fun r => if has_id (JobRow.id row) r then set_state "ASSIGNED" r else r) <$> job_rows s;
  claimed_queue : queue_rows s' = queue_rows s;
}.

Lemma head_filter_Some {X} (p : X -> bool) l x :
  head (filter (fun x => p x = true) l) = Some x -> x ∈ l /\ p x = true.
Proof.
  intros Hh. assert (x ∈ filter (fun x => p x = true) l) as Hin.
  { destruct (filter _ l); [done|]. injection Hh as ->. left. }
  by apply list_elem_of_filter in Hin as [? ?].
Qed.

Lemma claimable_elem s q :
  q ∈ PostgresJobQueue.claimable s -> q ∈ queue_rows s /\
    exists r, r ∈ job_rows s /\ JobRow.id r = QueueRow.job_id q /\ JobRow.state r = "PENDING".
Proof.
  unfold PostgresJobQueue.claimable. rewrite list_elem_of_filter, existsb_exists.
  intros [(r & Hr & [Hi Hp]%andb_true_iff) Hq]. split; [done|]. exists r.
  by rewrite <- has_id_spec, <- in_state_spec, list_elem_of_In.
Qed.

Lemma claim_spec s :
  match PostgresJobQueue.claim s with
  | (s', Some row) => claimed s s' row
  | (s', None) => s' = s /\ PostgresJobQueue.claimable s = []
  end.
Proof.
  unfold PostgresJobQueue.claim. pose proof (enqueued_perm (S := S) (PostgresJobQueue.claimable s)) as Hperm.
  destruct (order_by_enqueued (PostgresJobQueue.claimable s)) as [|q qs] eqn:Ho; simpl.
  { split; [done|]. by apply Permutation_nil. }
  assert (q ∈ PostgresJobQueue.claimable s) as [Hq (r & Hr & Hid & Hp)]%claimable_elem.
  { rewrite <- Hperm. left. }
  set (claimed_if := fun r => if has_id (QueueRow.job_id q) r then set_state "ASSIGNED" r else r).
  destruct (head _) as [row|] eqn:Hh.
  - apply head_filter_Some in Hh as [Hin Hi%has_id_spec].
    apply list_elem_of_fmap in Hin as (r0 & -> & Hr0). subst claimed_if. simpl in *.
    destruct (has_id (QueueRow.job_id q) r0) eqn:Hi0;
      [|apply has_id_spec in Hi; congruence].
    split; [by exists r0|exists r; by rewrite Hi|exists q; by rewrite Hi| |by rewrite queue_of_jobs_set].
    rewrite table_rows_set. by rewrite Hi.
  - exfalso. assert (claimed_if r ∈ filter (fun r => has_id (QueueRow.job_id q) r = true)
      (claimed_if <$> job_rows s)) as Hin.
    { apply list_elem_of_filter. split; [|by apply list_elem_of_fmap_2].
      subst claimed_if. simpl. by destruct (has_id (QueueRow.job_id q) r) eqn:Hi; apply has_id_spec. }
    destruct (filter _ (claimed_if <$> job_rows s)); [by apply not_elem_of_nil in Hin|done].
Qed.

Lemma claiming_ok s row :
  returns PostgresJobQueue.claiming s = Ok (Some row) ->
  claimed s (after PostgresJobQueue.claiming s) row.
Proof.
  unfold returns, after, PostgresJobQueue.claiming.
  pose proof (table_rows_outcome (Row := JobRow.t) s) as Hjobs.
  pose proof (queue_of_jobs_outcome s) as Hqueue.
  destruct (statement_outcome (Row := JobRow.t) s) as [s0 o]. simpl in Hjobs, Hqueue.
  destruct o; [|done|by destruct (PostgresJobQueue.claim s0)].
  pose proof (claim_spec s0) as Hclaim. destruct (PostgresJobQueue.claim s0) as [s1 r].
  simpl. intros [= ->]. destruct Hclaim as [H1 H2 H3 H4 H5]. rewrite Hjobs, Hqueue in *. by split.
Qed.

(** A dequeue that returns a job: the job is read from the claimed row, and what
    is left is the claim without the row of the queue. *)
Definition dequeued (s s' : S) (row : JobRow.t) : Prop :=
  exists s1, claimed s s1 row /\ job_rows s' = job_rows s1 /\
    queue_rows s' = filter (fun q => QueueRow.job_id q <> JobRow.id row) (queue_rows s).

Lemma removing_ok s row kept :
  let m := mapping_error (write (PostgresJobQueue.delete_queue (JobRow.id row)))
      (database_error "remove dequeued job from queue");; mret (Some row) in
  returns m s = Ok kept ->
  kept = Some row /\ job_rows (after m s) = job_rows s /\
  queue_rows (after m s) = filter (fun q => QueueRow.job_id q <> JobRow.id row) (queue_rows s).
Proof.
  intros m Hok. subst m. apply bind_ok in Hok as ([] & Hw & Hr & ->). injection Hr as <-.
  change (after (mret (Some row)) ?x) with x. rewrite after_mapping.
  apply mapping_ok, queue_write_ok in Hw as [[now Hw] Hj]. split; [done|]. split; [done|].
  by injection Hw as <-.
Qed.

Lemma dequeue_some s job :
  returns PostgresJobQueue.dequeue s = Ok (Some job) ->
  exists row, dequeued s (after PostgresJobQueue.dequeue s) row /\
    PostgresJobQueue.map_row_to_job row = Ok job.
Proof.
  unfold PostgresJobQueue.dequeue. intros Hok. apply bind_ok in Hok as (found & Hw & Hk & ->).
  destruct found as [row|]; [|done].
  apply bind_ok in Hk as (job' & Hmap & Hr & Ha). injection Hr as ->. rewrite Ha.
  change (after (mret (Some job)) ?x) with x. exists row.
  assert (PostgresJobQueue.map_row_to_job row = Ok job) as Hread
    by (by destruct (PostgresJobQueue.map_row_to_job row)).
  split; [|done]. rewrite Hread. change (after (lift (Ok job)) ?x) with x.
  apply transaction_ok in Hw as [Hbody ->]. cbv beta. simpl bool_decide.
  destruct (rows_of_begin s) as [Hb1 Hb2]. set (s0 := (begin_error s).1) in *.
  apply bind_ok in Hbody as ([row'|] & Hc & Hk & ->); [|done].
  rewrite after_mapping in *. apply mapping_ok, claiming_ok in Hc as [H1 H2 H3 H4 H5].
  apply removing_ok in Hk as ([= <-] & Hj & Hq).
  destruct (rows_of_commit (after (mapping_error (write (PostgresJobQueue.delete_queue (JobRow.id row)))
      (database_error "remove dequeued job from queue");; mret (Some row))
      (after PostgresJobQueue.claiming s0))) as [Hc1 Hc2].
  exists (after PostgresJobQueue.claiming s0). rewrite Hb1, Hb2 in *.
  split; [by split|]. by rewrite Hc1, Hc2, Hj, Hq, H5.
Qed.

(** What follows the transaction of [dequeue] changes nothing. *)
Lemma after_reading (m : method S DomainError.t (option JobRow.t)) s :
  after (row ← m;
    match row with
    | Some row => job ← lift (PostgresJobQueue.map_row_to_job row); mret (Some job)
    | None => mret None
    end) s = after m s.
Proof.
  unfold after, mbind, method_bind. destruct (m s) as [s1 [[row|]|e]]; simpl; [|done|done].
  by destruct (PostgresJobQueue.map_row_to_job row).
Qed.

Lemma claimed_queued_rows s s1 row :
  claimed s s1 row -> pending_are_queued s ->
  queued (job_rows s1) (filter (fun q => QueueRow.job_id q <> JobRow.id row) (queue_rows s)).
Proof.
  intros Hc HI r Hr Hp. rewrite (claimed_jobs _ _ _ Hc) in Hr.
  apply list_elem_of_fmap in Hr as (r0 & -> & Hr0).
  destruct (has_id (JobRow.id row) r0) eqn:Hi; [done|].
  destruct (HI r0 Hr0 Hp) as (q & Hq & Hqi). exists q. split; [|done].
  apply list_elem_of_filter. split; [|done]. rewrite Hqi, <- has_id_spec. congruence.
Qed.

Lemma dequeue_queued s : pending_are_queued s -> pending_are_queued (after PostgresJobQueue.dequeue s).
Proof.
  intros HI. unfold PostgresJobQueue.dequeue. rewrite after_reading.
  apply transaction_queued; [|done]. intros s1 found H1 Hok Hkept.
  destruct found as [row|]; [|done]. apply bind_ok in Hok as ([row'|] & Hc & Hk & ->); [|done].
  rewrite after_mapping in *. apply mapping_ok, claiming_ok in Hc.
  apply removing_ok in Hk as ([= <-] & Hj & Hq).
  unfold pending_are_queued. rewrite Hj, Hq, (claimed_queue _ _ _ Hc). by eapply claimed_queued_rows.
Qed.

Lemma dequeue_none s :
  returns PostgresJobQueue.dequeue s = Ok None -> PostgresJobQueue.claimable s = [].
Proof.
  unfold PostgresJobQueue.dequeue. intros Hok. apply bind_ok in Hok as (found & Hw & Hk & _).
  destruct found as [row|]; [by destruct (PostgresJobQueue.map_row_to_job row)|].
  apply transaction_ok in Hw as [Hbody _]. destruct (rows_of_begin s) as [Hb1 Hb2].
  apply bind_ok in Hbody as ([row|] & Hc & Hk' & _).
  { by apply removing_ok in Hk' as [? _]. }
  apply mapping_ok in Hc. unfold returns, PostgresJobQueue.claiming in Hc.
  set (s0 := (begin_error s).1) in *.
  pose proof (table_rows_outcome (Row := JobRow.t) s0) as Hj.
  pose proof (queue_of_jobs_outcome s0) as Hq.
  destruct (statement_outcome (Row := JobRow.t) s0) as [s1 []]; simpl in *; [|done|done].
  pose proof (claim_spec s1) as Hclaim. destruct (PostgresJobQueue.claim s1) as [s2 r].
  injection Hc as ->. destruct Hclaim as [_ Hclaim]. unfold PostgresJobQueue.claimable in *.
  by rewrite Hj, Hq, Hb1, Hb2 in Hclaim.
Qed.

Inductive op :=
  | Save (job : Job.t)
  | Update (job : Job.t)
  | UpdateState (i : JobId) (st : JobState.t)
  | Delete (i : JobId)
  | Enqueue (job : Job.t)
  | Dequeue.

(** The state after an operation, however it ends. *)
Definition run (o : op) (s : S) : S :=
  match o with
  | Save job => after (save job) s
  | Update job => after (update job) s
  | UpdateState i st => after (update_state i st) s
  | Delete i => after (delete i) s
  | Enqueue job => after (PostgresJobQueue.enqueue job) s
  | Dequeue => after PostgresJobQueue.dequeue s
  end.

Definition run_all (ops : list op) (s : S) : S := fold_left (fun s o => run o s) ops s.

(** The one operation that makes a job pending and does not enqueue it. *)
Definition makes_pending (o : op) : bool :=
  match o with UpdateState _ JobState.Pending => true | _ => false end.

Lemma run_queued o s : makes_pending o = false -> pending_are_queued s -> pending_are_queued (run o s).
Proof.
  intros Ho HI. destruct o; simpl; auto using save_queued, delete_queued, enqueue_queued, dequeue_queued.
  apply update_state_queued; [|done]. by intros ->.
Qed.

(** C11: no pending job is forgotten.  Whatever is saved, updated, deleted,
    enqueued and dequeued, and whichever statement or commit fails, every job
    that is [PENDING] is in the queue, so that a [dequeue] that finds nothing
    means that nothing is pending.  The state alone may not be updated to
    [PENDING]: [update_state] does not enqueue. *)
Theorem pending_jobs_are_queued ops s :
  Forall (fun o => makes_pending o = false) ops -> pending_are_queued s ->
  pending_are_queued (run_all ops s) /\
  (returns PostgresJobQueue.dequeue (run_all ops s) = Ok None ->
   forall r, r ∈ job_rows (run_all ops s) -> JobRow.state r <> "PENDING").
Proof.
  intros Hops HI. assert (pending_are_queued (run_all ops s)) as HI'.
  { revert s HI. induction Hops as [|o ops Ho Hops IH]; intros s HI; simpl; [done|].
    by apply IH, run_queued. }
  split; [done|]. intros Hnone r Hr Hp. apply dequeue_none in Hnone.
  destruct (HI' r Hr Hp) as (q & Hq & Hid).
  assert (q ∈ PostgresJobQueue.claimable (run_all ops s)) as Hin.
  { apply list_elem_of_filter. split; [|done]. apply existsb_exists. exists r.
    rewrite <- list_elem_of_In, andb_true_iff, has_id_spec, in_state_spec. done. }
  rewrite Hnone in Hin. by apply not_elem_of_nil in Hin.
Qed.

(** *** What becomes of a job that is dequeued *)

Lemma optional_w {X Y} (read : X -> Prelude.result string Y) what v y :
  optional read what v = Ok y -> forall what', optional read what' v = Ok y.
Proof. destruct v as [x|]; simpl; [|done]. by destruct (read x). Qed.

(** The two readings of a row differ in the state only. *)
Lemma job_of_row_state f row job :
  job_of_row f row = Ok job ->
  Job.id job = JobRow.id row /\ Job.state job = f (JobRow.state row) /\
  forall g, job_of_row g row = Ok (job <| Job.state := g (JobRow.state row) |>).
Proof.
  unfold job_of_row. destruct (map_err _ (spec_from_value _)) as [sp|]; simpl; [|done].
  destruct (optional context_from_value _ _) as [c|]; simpl; [|done].
  destruct (optional result_from_value _ _) as [x|]; simpl; [|done].
  by intros [= <-].
Qed.

Lemma find_by_id_ok i s found :
  returns (find_by_id i) s = Ok found ->
  match found with
  | Some job => exists row, row ∈ job_rows s /\ JobRow.id row = i /\ map_row_to_job row = Ok job
  | None => forall row, row ∈ job_rows s -> JobRow.id row <> i
  end.
Proof.
  unfold find_by_id, find_row. intros Hok. apply bind_ok in Hok as (row & Hr & Hk & _).
  apply mapping_ok, read_ok in Hr. destruct row as [row|].
  - apply bind_ok in Hk as (job & Hmap & Hret & _). injection Hret as <-.
    apply symmetry, head_filter_Some in Hr as [Hin Hi%has_id_spec]. exists row.
    split_and!; [done|done|]. by destruct (map_row_to_job row).
  - injection Hk as <-. intros row Hin Hi. apply has_id_spec in Hi.
    assert (row ∈ filter (fun r => has_id i r = true) (job_rows s)) as Hf
      by (by apply list_elem_of_filter).
    destruct (filter _ (job_rows s)); [by apply not_elem_of_nil in Hf|done].
Qed.

Lemma after_find_by_id i s : job_rows (after (find_by_id i) s) = job_rows s.
Proof.
  transitivity (job_rows (after (read (fun rows : list JobRow.t =>
    head (filter (fun r => has_id i r = true) rows))) s)); [|apply read_rows]. f_equal.
  unfold find_by_id, find_row, after, mbind, method_bind, mapping_error.
  destruct (read _ s) as [s1 [[row|]|e]]; simpl; [|done|done].
  by destruct (map_row_to_job row).
Qed.

Lemma dequeued_assigned s s' row r :
  dequeued s s' row -> r ∈ job_rows s' -> JobRow.id r = JobRow.id row -> JobRow.state r = "ASSIGNED".
Proof.
  intros (s1 & Hc & Hj & _) Hr Hi. rewrite Hj, (claimed_jobs _ _ _ Hc) in Hr.
  apply list_elem_of_fmap in Hr as (r0 & -> & _). destruct (has_id (JobRow.id row) r0) eqn:Hi0; [done|].
  apply has_id_spec in Hi. congruence.
Qed.

Section assignment.
Context `{!JobRepository.t S} `{!WorkerRegistry.t S}.
(** The repository of jobs is this one, and the registry of workers, when it is
    read, leaves the table of jobs alone. *)
Hypothesis jobs_of_repository : forall i, JobRepository.find_by_id i = find_by_id (S := S) i.
Hypothesis registry_reads : forall i s, job_rows (after (WorkerRegistry.find_by_id i) s) = job_rows s.
Hypothesis registry_finds : forall f s, job_rows (after (WorkerRegistry.find f) s) = job_rows s.

Lemma find_worker_rows job worker s :
  job_rows (after (AssignWorkerHandler.find_or_validate_worker job worker) s) = job_rows s.
Proof.
  unfold AssignWorkerHandler.find_or_validate_worker, AssignWorkerHandler.assigning.
  destruct worker as [w|].
  - transitivity (job_rows (after (WorkerRegistry.find_by_id w) s)); [|apply registry_reads]. f_equal.
    unfold after, mbind, method_bind, mapping_error, ensure.
    destruct (WorkerRegistry.find_by_id w s) as [s1 [[x|]|e]]; simpl; [|done|done].
    by destruct (bool_decide _ || bool_decide _).
  - transitivity (job_rows (after (WorkerRegistry.find
      (WorkerFilter.accepting_jobs (WorkerFilter.with_state WorkerState.Ready WorkerFilter.new))) s));
      [|apply registry_finds]. f_equal.
    unfold after, mbind, method_bind, mapping_error.
    by destruct (WorkerRegistry.find _ s) as [s1 [ws|e]].
Qed.

(** A job whose rows are all [ASSIGNED] is not assigned a worker. *)
Lemma assigned_is_not_assigned command s :
  (forall r, r ∈ job_rows s -> JobRow.id r = AssignWorkerCommand.job_id command ->
     JobRow.state r = "ASSIGNED") ->
  forall w, returns (AssignWorkerHandler.handle command) s <>
    Ok (WorkerAssignmentResult.succeeded w WorkerState.Busy) /\
  (forall x, returns (AssignWorkerHandler.handle command) s = Ok x ->
     x = WorkerAssignmentResult.failure "No available workers").
Proof.
  intros Hrows w. assert (forall x, returns (AssignWorkerHandler.handle command) s = Ok x ->
     x = WorkerAssignmentResult.failure "No available workers") as Hfail.
  2:{ split; [|done]. intros Hok. by apply Hfail in Hok. }
  intros x Hok. unfold AssignWorkerHandler.handle in Hok.
  apply bind_ok in Hok as ([worker|] & _ & Hok & _); [|by injection Hok as <-].
  apply bind_ok in Hok as (found & Hf & Hok & _). unfold AssignWorkerHandler.assigning in Hf.
  apply mapping_ok in Hf. rewrite jobs_of_repository in Hf. apply find_by_id_ok in Hf.
  destruct found as [job|]; [|by apply bind_ok in Hok as (? & ? & _)].
  destruct Hf as (row & Hin & Hid & Hmap). rewrite find_worker_rows in Hin.
  specialize (Hrows row Hin Hid). apply job_of_row_state in Hmap as (_ & Hst & _).
  rewrite Hrows in Hst. change (string_to_state "ASSIGNED") with JobState.Assigned in Hst.
  apply bind_ok in Hok as (j & Hj & Hok & _). injection Hj as <-.
  unfold Job.set_state, self, ensure, mbind, method_bind in Hok. simpl in Hok. rewrite Hst in Hok. 
  done.
Qed.

(** C12: a job that is dequeued is not assigned to any worker.  [dequeue] hands
    out the job as [Failed], since its reader does not know [ASSIGNED], and has
    made it [ASSIGNED] in the table and taken it off the queue; the handler that
    assigns a worker reads it there and refuses the transition from [Assigned]
    to [Assigned], whatever worker is named. *)
Theorem dequeued_jobs_are_not_assigned s job command :
  returns PostgresJobQueue.dequeue s = Ok (Some job) ->
  AssignWorkerCommand.job_id command = Job.id job ->
  let s' := after PostgresJobQueue.dequeue s in
  Job.state job = JobState.Failed /\
  (forall r, r ∈ job_rows s' -> JobRow.id r = Job.id job -> JobRow.state r = "ASSIGNED") /\
  (forall q, q ∈ queue_rows s' -> QueueRow.job_id q <> Job.id job) /\
  (forall x, returns (AssignWorkerHandler.handle command) s' = Ok x ->
     x = WorkerAssignmentResult.failure "No available workers").
Proof.
  intros Hd Hid s'. apply dequeue_some in Hd as (row & Hd & Hmap).
  apply job_of_row_state in Hmap as (Hi & Hst & _).
  assert (JobRow.state row = "ASSIGNED") as Hrow.
  { destruct Hd as (s1 & Hc & _). by destruct (claimed_row _ _ _ Hc) as (r & _ & ->). }
  assert (forall r, r ∈ job_rows s' -> JobRow.id r = Job.id job -> JobRow.state r = "ASSIGNED") as Ha.
  { intros r Hr Hri. eapply dequeued_assigned; [exact Hd|exact Hr|congruence]. }
  split_and!; [by rewrite Hst, Hrow|done| |].
  - intros q Hq. destruct Hd as (s1 & _ & _ & Hqueue). fold s' in Hqueue. rewrite Hqueue in Hq.
    apply list_elem_of_filter in Hq as [Hne _]. congruence.
  - intros x. refine (proj2 (assigned_is_not_assigned command s' _ (Job.id job)) x).
    intros r Hr Hri. apply Ha; congruence.
Qed.

End assignment.

(** *** What is found of a job that was saved *)

Lemma upsert_filter row now rows rows' :
  upsert row now rows = Ok rows' ->
  head (filter (fun r => has_id (JobRow.id row) r = true) rows') = Some row /\
  filter (fun r => has_id (JobRow.id row) r = false) rows' =
    filter (fun r => has_id (JobRow.id row) r = false) rows.
Proof.
  assert (has_id (JobRow.id row) row = true) as Hrow by (by apply has_id_spec).
  unfold upsert. intros [= <-]. destruct (existsb _ rows) eqn:He.
  - induction rows as [|r rows IH]; [done|]. rewrite fmap_cons. simpl in He.
    destruct (has_id (JobRow.id row) r) eqn:Hr.
    + rewrite filter_cons_True by done. split; [done|].
      rewrite !(filter_cons_False (fun r => has_id _ r = false)) by congruence.
      destruct (existsb _ rows) eqn:He'; [by apply IH|].
      clear IH He. induction rows as [|r' rows IH]; [done|]. rewrite fmap_cons. simpl in He'.
      apply orb_false_iff in He' as [Hr' He']. rewrite Hr', !filter_cons, Hr'. by rewrite IH.
    + destruct (IH He) as [IH1 IH2].
      rewrite filter_cons_False by congruence. split; [done|].
      rewrite !(filter_cons_True (fun r => has_id _ r = false)) by congruence. by rewrite IH2.
  - assert (filter (fun r => has_id (JobRow.id row) r = true) rows = []) as Hnone.
    { apply elem_of_nil_inv. intros r [Hi Hr]%list_elem_of_filter.
      apply not_true_iff_false in He. apply He, existsb_exists. exists r.
      by rewrite <- list_elem_of_In. }
    rewrite !filter_app, Hnone, !filter_cons, Hrow. simpl. by rewrite app_nil_r.
Qed.

(** A [save] that ends well. *)
Lemma save_ok job s :
  returns (save job) s = Ok tt ->
  exists row now, row_of_job job = Ok row /\
    upsert row now (job_rows s) = Ok (job_rows (after (save job) s)) /\
    (Job.state job = JobState.Pending ->
     exists q, q ∈ queue_rows (after (save job) s) /\ QueueRow.job_id q = Job.id job).
Proof.
  unfold save, returns at 1. rewrite after_lift_bind.
  destruct (row_of_job job) as [row|] eqn:Hrow; [|done]. intros Hok.
  change (returns (transaction (database_error "begin transaction")
    (database_error "commit transaction") (fun _ => true) (save_row "" job row)) s = Ok tt) in Hok.
  apply transaction_ok in Hok as [Hok ->]. destruct (rows_of_begin s) as [Hb1 Hb2].
  set (s0 := (begin_error s).1) in *. cbv beta iota.
  destruct (rows_of_commit (after (save_row "" job row) s0)) as [-> ->].
  unfold save_row in *. apply bind_ok in Hok as ([] & Hw & Hk & ->). rewrite after_mapping in *.
  apply mapping_ok, jobs_write_ok in Hw as [[now Hw] Hqueue]. rewrite Hb1 in Hw.
  exists row, now. split; [done|]. case_bool_decide as Hp.
  - rewrite after_mapping. apply mapping_ok, queue_write_ok in Hk as [[now' Hk] Hjobs].
    rewrite Hjobs. split; [done|]. intros _. by apply insert_queue_elem in Hk as [? _].
  - split; [exact Hw|done].
Qed.


End tables.

(** ** Evaluation *)

Module ExampleStore.

Record t := mk {
  jobs : Sheet.t (JobRow.t (E := concrete));
  queue : Sheet.t (QueueRow.t (E := concrete));
}.

Definition spec : JobSpec.t := JobSpec.new ["make"].
Definition job : Job.t (E := concrete) := Job.new (E := concrete) 7%nat "build" spec 0.

#[global] Instance format : JobFormat (E := concrete) :=
  @Build_JobFormat concrete (fun _ => Ok (JStr "spec")) (fun _ => Ok spec)
    (fun _ => Err "no context") (fun _ => Err "no context")
    (fun _ => Err "no result") (fun _ => Err "no result")
    (fun _ => Ok JObj) (fun _ => ∅) (fun _ => Err "missing field `id`") (fun _ _ => None).

#[global] Instance jobs_sheet : Table (E := concrete) t (JobRow.t (E := concrete)) :=
  @Build_Table concrete t (JobRow.t (E := concrete)) (fun s => Sheet.rows (jobs s))
    (fun l s => mk (set_table_rows (E := concrete) l (jobs s)) (queue s))
    (fun s => statement_time (E := concrete) (jobs s))
    (fun s => let (j, o) := statement_outcome (E := concrete) (jobs s) in (mk j (queue s), o)).
#[global] Instance queue_sheet : Table (E := concrete) t (QueueRow.t (E := concrete)) :=
  @Build_Table concrete t (QueueRow.t (E := concrete)) (fun s => Sheet.rows (queue s))
    (fun l s => mk (jobs s) (set_table_rows (E := concrete) l (queue s)))
    (fun s => statement_time (E := concrete) (queue s))
    (fun s => let (q, o) := statement_outcome (E := concrete) (queue s) in (mk (jobs s) q, o)).

#[global] Instance transactions : Transactions t := {|
  begin_error := fun s => (s, None);
  commit_outcome := fun s => (s, Executed);
  restore := fun s0 _ => s0;
|}.

#[global] Instance database : JobDatabase (E := concrete) t := {|
  order_by_created := fun l => l;
  order_by_created_desc := fun l => l;
  order_by_enqueued := fun l => l;
  order_by_priority := fun l => l;
|}.

#[global] Instance laws : JobDatabaseLaws (E := concrete) t.
Proof.
  split; try done.
  - split; [done|]. intros [[r c [|o os]] q]; done.
  - split; [done|]. intros [j [r c [|o os]]]; done.
  - intros [[r c [|o os]] q]; done.
  - intros [j [r c [|o os]]]; done.
Qed.

Definition empty : t := mk (Sheet.mk [] 0 []) (Sheet.mk [] 0 []).
Definition saved : t := after (PostgresJobRepository.save (E := concrete) job) empty.

(** A registry with one worker, which is ready. *)
Definition worker : Worker.t (E := concrete) :=
  Worker.new (E := concrete) (WorkerHandle.new (E := concrete) 1%nat "c1" ProviderType.Docker 2%nat 0)
    (WorkerSpec.new (E := concrete) "img" "srv" 1%nat) 0 <| Worker.state := WorkerState.Ready |>.

#[global] Instance workers : WorkerRegistry.t (E := concrete) t := {|
  WorkerRegistry.register := fun _ _ _ => mret worker;
  WorkerRegistry.save := fun _ => mret tt;
  WorkerRegistry.unregister := fun _ => mret tt;
  WorkerRegistry.find_by_id := fun _ => mret (Some worker);
  WorkerRegistry.get_by_job_id := fun _ => mret None;
  WorkerRegistry.find := fun _ => mret [worker];
  WorkerRegistry.find_ready_worker := fun _ => mret (Some worker);
  WorkerRegistry.find_available := mret [worker];
  WorkerRegistry.find_by_provider := fun _ => mret [worker];
  WorkerRegistry.update_state := fun _ _ => mret tt;
  WorkerRegistry.update_heartbeat := fun _ => mret tt;
  WorkerRegistry.mark_busy := fun _ _ => mret tt;
  WorkerRegistry.release_from_job := fun _ => mret tt;
|}.

(** The operations of the repository that cannot panic. *)
#[global] Instance jobs_of_store : JobRepository.t (E := concrete) t := {|
  JobRepository.save := PostgresJobRepository.save;
  JobRepository.find_by_id := PostgresJobRepository.find_by_id;
  JobRepository.find := fun _ => mret [];
  JobRepository.find_by_state := PostgresJobRepository.find_by_state;
  JobRepository.find_pending := mret [];
  JobRepository.find_all := fun _ _ => mret ([], 0%nat);
  JobRepository.find_by_execution_id := fun _ => mret None;
  JobRepository.count_by_state := fun _ => mret 0;
  JobRepository.delete := PostgresJobRepository.delete;
  JobRepository.update := PostgresJobRepository.update;
  JobRepository.update_state := PostgresJobRepository.update_state;
|}.

(** A job that is saved while it is pending, and made pending again by
    [update_state] after it was dequeued. *)
Definition recovered : t :=
  after (PostgresJobRepository.update_state (E := concrete) 7%nat JobState.Pending)
    (after (PostgresJobQueue.dequeue (E := concrete)) saved).

End ExampleStore.

(** What [update_state] makes pending is forgotten. *)
Example recovered_jobs_are_forgotten :
  JobRow.state <$> Sheet.rows (ExampleStore.jobs ExampleStore.recovered) = ["PENDING"] /\
  returns (PostgresJobQueue.dequeue (E := concrete)) ExampleStore.recovered = Ok None.
Proof. by split. Qed.

(** The rows of a job that is pending make [find_pending] panic. *)
Example pending_jobs_panic :
  returns (PostgresJobRepository.find_pending (E := concrete)) ExampleStore.saved = Err Panicked.
Proof. reflexivity. Qed.

Example pending_jobs_are_queued_witness :
  let ops := [Save (E := concrete) ExampleStore.job; Dequeue; Enqueue ExampleStore.job] in
  pending_are_queued (E := concrete) (run_all ops ExampleStore.empty) /\
  JobRow.state <$> Sheet.rows (ExampleStore.jobs (run_all ops ExampleStore.empty)) = ["PENDING"].
Proof.
  intros ops. split; [|reflexivity].
  apply (pending_jobs_are_queued (E := concrete) ops ExampleStore.empty).
  - by repeat constructor.
  - by intros r Hr%elem_of_nil.
Defined.

Example dequeued_jobs_are_not_assigned_witness :
  exists job,
    returns (PostgresJobQueue.dequeue (E := concrete)) ExampleStore.saved = Ok (Some job) /\
    Job.state job = JobState.Failed /\
    returns (AssignWorkerHandler.handle (E := concrete)
      (AssignWorkerCommand.with_worker (E := concrete) 7%nat 1%nat "saga" 3%nat 0))
      (after (PostgresJobQueue.dequeue (E := concrete)) ExampleStore.saved) <>
      Ok (WorkerAssignmentResult.succeeded (E := concrete) 1%nat WorkerState.Busy).
Proof.
  exists (ExampleStore.job <| Job.state := JobState.Failed |>). split; [reflexivity|].
  pose proof (dequeued_jobs_are_not_assigned (E := concrete) (S := ExampleStore.t)
    (fun _ => eq_refl) (fun _ _ => eq_refl) (fun _ _ => eq_refl)) as Hthm.
  destruct (Hthm ExampleStore.saved (ExampleStore.job <| Job.state := JobState.Failed |>)
    (AssignWorkerCommand.with_worker (E := concrete) 7%nat 1%nat "saga" 3%nat 0))
    as (Hst & _ & _ & Hno); [reflexivity|done|].
  split; [exact Hst|]. intros Hok. by apply Hno in Hok.
Defined.

