(* ===== verification/Dispatcher.v ===== *)
(** * The dispatcher of jobs
    ([crates/server/application/src/jobs/dispatcher.rs,
    scheduling/smart_scheduler.rs])

    Takes jobs off the queue and runs an execution saga on the worker that the
    scheduler picks, or has a worker provisioned.  The sagas are the functions
    that their coordinators ([SagaCoordinators.v]) are called by; the state is
    the world, the scheduler, and when a worker was last provisioned for a job.
    An [anyhow::Error] is what it prints. *)

From stdpp Require Import gmap.
From S2P Require Import Prelude Effects Std Externs States Errors JobSpec Job ProviderApi Worker Events Repositories Services Commands ExecutionCommands SagaTypes Steps Scoring Scheduler ProviderConfigs AppServices ProviderRegistry SagaCoordinators.

Module JobDispatcher.
Section dispatcher.
Context `{E : Externs} {M : MapOrder} {W : Type}.
Context `{!JobQueue W} `{!JobRepository.t W} `{!WorkerRegistry.t W} `{!ProviderConfigRepository W}.
Context `{!EventBus W} `{!WorkerProvisioningService W} `{!Ambient W}.

(** The command sender and the outbox are held and not used. *)
(** src: crates/server/application/src/jobs/dispatcher.rs 49-72 JobDispatcher *)
Record t := mk {
  world : W;
  scheduler : SmartScheduler.t;
  provisioning_service : bool;
  worker_health_service : WorkerHealthService.t;
  recently_provisioned : gmap Uuid Z;
  provisioning_cooldown : Duration;
  execution_saga_dispatcher :
    option (JobId -> WorkerId -> method W (exn ExecutionSagaError.t) SagaExecutionResult.t);
  provisioning_saga_coordinator :
    option (ProviderId -> WorkerSpec.t -> option JobId ->
      method W (exn ProvisioningSagaError.t) (WorkerId * SagaExecutionResult.t));
  resource_allocator : ResourceAllocator.t;
}.

#[global] Instance t_rebuild : Rebuild t := fun d =>
  mk (world d) (scheduler d) (provisioning_service d) (worker_health_service d)
    (recently_provisioned d) (provisioning_cooldown d) (execution_saga_dispatcher d)
    (provisioning_saga_coordinator d) (resource_allocator d).

(** src: crates/server/application/src/jobs/dispatcher.rs 80-113 JobDispatcher::new *)
Definition new (w : W) (config : SchedulerConfig.t) (service : bool) sagas coordinator : t := {|
  world := w;
  scheduler := SmartScheduler.new config;
  provisioning_service := service;
  worker_health_service := WorkerHealthService.build None;
  recently_provisioned := ∅;
  provisioning_cooldown := from_secs 30;
  execution_saga_dispatcher := sagas;
  provisioning_saga_coordinator := coordinator;
  resource_allocator := ResourceAllocator.new None;
|}.

(** A call of the world, its error as a value, a panic passed on. *)
Definition awaiting {F X} (m : method W (exn F) X) : method t (exn string) (result F X) :=
  fun d => let (w, r) := catch m (world d) in (d <| world := w |>, r).

Definition calling {F X} (m : method W F X) : method t (exn string) (result F X) :=
  fun d => let (w, r) := m (world d) in (d <| world := w |>, Ok r).

(** [call.await?] into an [anyhow::Error]. *)
Definition call {X} (m : method W DomainError.t X) : method t (exn string) X :=
  r ← calling m; or_error DomainError.fmt r.

Definition reading {X} (f : W -> W * X) : method t (exn string) X :=
  fun d => let (w, x) := f (world d) in (d <| world := w |>, Ok x).

(** The scheduler keeps its indices behind atomics. *)
(** src: crates/server/application/src/scheduling/smart_scheduler.rs 34-39 SchedulingService::make_decision *)
Definition scheduling {X} (f : SmartScheduler.t -> SmartScheduler.t * X) : method t (exn string) X :=
  fun d => let (s, x) := f (scheduler d) in (d <| scheduler := s |>, Ok x).

Definition enqueue (job : Job.t) : method t (exn string) unit := call (enqueue_job job).

(** *** Workers and decisions *)

(** Every worker is judged at its own reading of the clock. *)
Fixpoint healthy_workers (workers : list Worker.t) : method t (exn string) (list Worker.t) :=
  match workers with
  | [] => mret []
  | worker :: workers =>
      d ← self;
      now ← reading read_utc;
      rest ← healthy_workers workers;
      mret (if WorkerHealthService.is_healthy (worker_health_service d) now worker
            then worker :: rest else rest)
  end.

(** src: crates/server/application/src/jobs/dispatcher.rs 247-265 JobDispatcher::query_healthy_workers *)
Definition query_healthy_workers : method t (exn string) (list Worker.t) :=
  workers ← call WorkerRegistry.find_available;
  healthy_workers workers.

(** A repository that fails has no providers. *)
(** src: crates/server/application/src/jobs/dispatcher.rs 425-443 JobDispatcher::get_providers_info *)
Definition get_providers_info : method t (exn string) (list ProviderInfo.t) :=
  providers ← calling ProviderRegistry.list_providers_with_capacity;
  d ← self;
  mret (ResourceAllocator.configs_to_provider_infos_ref (resource_allocator d)
    (match providers with Ok l => l | Err _ => [] end)).

(** src: crates/server/application/src/jobs/dispatcher.rs 357-375 JobDispatcher::make_scheduling_decision *)
Definition make_scheduling_decision (job : Job.t) (workers : list Worker.t) :
    method t (exn string) SchedulingDecision.t :=
  providers ← get_providers_info;
  len ← call queue_len;
  scheduling (SmartScheduler.schedule {|
    SchedulingContext.job := job;
    SchedulingContext.job_preferences := JobSpec.preferences (Job.spec job);
    SchedulingContext.available_workers := workers;
    SchedulingContext.available_providers := providers;
    SchedulingContext.pending_jobs_count := Z.of_nat len;
    SchedulingContext.system_load := F64.of_Z 0;
  |}).

(** src: crates/server/application/src/jobs/dispatcher.rs 598-612 JobDispatcher::select_provider_for_provisioning *)
Definition select_provider_for_provisioning (job : Job.t) (providers : list ProviderConfig.t) :
    method t (exn string) ProviderId :=
  d ← self;
  selected ← scheduling (SmartScheduler.select_provider_with_preferences job
    (ResourceAllocator.configs_to_provider_infos (resource_allocator d) providers));
  lift (ok_or selected (Error "No provider found")).

(** *** Sagas *)

(** src: crates/server/application/src/jobs/dispatcher.rs 468-505 JobDispatcher::assign_and_dispatch *)
Definition assign_and_dispatch (job : Job.t) (worker_id : WorkerId) : method t (exn string) unit :=
  d ← self;
  match execution_saga_dispatcher d with
  | Some execute_execution_saga =>
      out ← awaiting (execute_execution_saga (Job.id job) worker_id);
      match out with
      | Ok _ => mret tt
      | Err e => throw (Error ("ExecutionSaga failed: " +:+ ExecutionSagaError.fmt e))
      end
  | None =>
      throw (Error ("Execution saga dispatcher not configured. "
        +:+ "Cannot dispatch job to worker. Check server startup configuration."))
  end.

(** src: crates/server/application/src/jobs/dispatcher.rs 379-412 JobDispatcher::dispatch_job_to_worker *)
Definition dispatch_job_to_worker (job : Job.t) (worker_id : WorkerId) : method t (exn string) nat :=
  assign_and_dispatch job worker_id;; mret 1%nat.

(** src: crates/server/application/src/jobs/dispatcher.rs 618-631 JobDispatcher::assign_job_idempotent *)
Definition assign_job_idempotent (_job_id : JobId) (worker_id : WorkerId) (job : Job.t) :
    method t (exn string) unit :=
  assign_and_dispatch job worker_id.

Definition no_provisioning_service : exn string :=
  Error (DomainError.fmt (DomainError.InfrastructureError "No provisioning service available")).

Definition default_spec (provider_id : ProviderId) : method t (exn string) WorkerSpec.t :=
  spec ← reading (service_default_spec provider_id);
  lift (ok_or spec (Error ("No default spec for provider " +:+ uuid_to_string provider_id))).

(** Without an enabled provider nothing is provisioned, and that is no error. *)
(** src: crates/server/application/src/jobs/dispatcher.rs 512-592 JobDispatcher::trigger_provisioning *)
Definition trigger_provisioning (job : Job.t) : method t (exn string) unit :=
  d ← self;
  match provisioning_saga_coordinator d with
  | Some execute_provisioning_saga =>
      providers ← call ProviderRegistry.list_enabled_providers;
      if bool_decide (length providers = 0%nat) then mret tt
      else
        provider_id ← select_provider_for_provisioning job providers;
        ensure (provisioning_service d) no_provisioning_service;;
        spec ← default_spec provider_id;
        out ← awaiting (execute_provisioning_saga provider_id spec (Some (Job.id job)));
        match out with
        | Ok _ => mret tt
        | Err e => throw (Error ("Provisioning saga failed: " +:+ ProvisioningSagaError.fmt e))
        end
  | None =>
      ensure (provisioning_service d) no_provisioning_service;;
      providers ← call ProviderRegistry.list_enabled_providers;
      if bool_decide (length providers = 0%nat) then mret tt
      else
        provider_id ← select_provider_for_provisioning job providers;
        spec ← default_spec provider_id;
        out ← calling (service_provision_worker provider_id spec (Job.id job));
        match out with
        | Ok _ => mret tt
        | Err e => throw (Error ("Failed to provision worker: " +:+ DomainError.fmt e))
        end
  end.

(** *** The cycle *)

(** [now.duration_since(timestamp)], which is zero when the time is later. *)
Definition duration_since (now timestamp : Z) : Duration := Z.max 0 (now - timestamp).

(** Is a worker to be provisioned?  Entries older than the cooldown are dropped,
    and the job is entered when it has none. *)
(** src: crates/server/application/src/jobs/dispatcher.rs 274-303 JobDispatcher::handle_no_available_workers (cooldown) *)
Definition should_provision (job_uuid : Uuid) (now : Z) (d : t) : t * bool :=
  let recent := filter (fun '(_, timestamp) =>
    duration_since now timestamp < provisioning_cooldown d) (recently_provisioned d) in
  match recent !! job_uuid with
  | Some provisioned_at =>
      if duration_since now provisioned_at <? provisioning_cooldown d
      then (d <| recently_provisioned := recent |>, false)
      else (d <| recently_provisioned := <[job_uuid := now]> recent |>, true)
  | None => (d <| recently_provisioned := <[job_uuid := now]> recent |>, true)
  end.

(** A provisioning that fails is not noted; the job is put back either way. *)
(** src: crates/server/application/src/jobs/dispatcher.rs 319-353 JobDispatcher::handle_no_available_workers (provisioning) *)
Definition provision_and_enqueue (job : Job.t) : method t (exn string) nat :=
  out ← catch (trigger_provisioning job);
  match out with
  | Ok _ => enqueue job;; mret 0%nat
  | Err e =>
      modify (fun d => d <| recently_provisioned := base.delete (Job.id job) (recently_provisioned d) |>);;
      enqueue job;;
      throw (Error e)
  end.

(** src: crates/server/application/src/jobs/dispatcher.rs 269-354 JobDispatcher::handle_no_available_workers *)
Definition handle_no_available_workers (job : Job.t) : method t (exn string) nat :=
  now ← reading read_instant;
  provision ← (fun d => let (d, b) := should_provision (Job.id job) now d in (d, Ok b));
  if negb provision then enqueue job;; mret 0%nat else provision_and_enqueue job.

(** The provider that was decided on, as the preference of the job. *)
Definition prefer (provider_id : ProviderId) (job : Job.t) : Job.t :=
  job <| Job.spec := (Job.spec job) <| JobSpec.preferences :=
    (JobSpec.preferences (Job.spec job))
      <| JobPreferences.preferred_provider := Some (uuid_to_string provider_id) |> |> |>.

(** src: crates/server/application/src/jobs/dispatcher.rs 165-243 JobDispatcher::dispatch_once *)
Definition dispatch_once : method t (exn string) nat :=
  next ← call dequeue_job;
  match next with
  | None => mret 0%nat
  | Some job =>
      workers ← query_healthy_workers;
      if bool_decide (length workers = 0%nat) then handle_no_available_workers job
      else
        decision ← make_scheduling_decision job workers;
        match decision with
        | SchedulingDecision.AssignToWorker _ worker_id => dispatch_job_to_worker job worker_id
        | SchedulingDecision.ProvisionWorker _ provider_id =>
            let job := prefer provider_id job in
            _ ← catch (F := string) (trigger_provisioning job);
            enqueue job;;
            mret 0%nat
        | _ => enqueue job;; mret 0%nat
        end
  end.

(** *** Reactions to events *)

(** The events that say which provider was chosen, the job saved with it, and
    the provisioning itself.  Whatever fails is logged and ends the reaction,
    but for an event that cannot be published. *)
(** src: crates/server/application/src/jobs/dispatcher.rs 920-1062 JobDispatcher::request_worker_provisioning *)
Definition request_worker_provisioning (job : Job.t) : method t (exn string) unit :=
  d ← self;
  let allocator := resource_allocator d in
  providers ← calling ProviderRegistry.list_enabled_providers;
  match providers with
  | Err _ | Ok [] => mret tt
  | Ok providers =>
      selected ← catch (F := string) (select_provider_for_provisioning job providers);
      match selected with
      | Err _ => mret tt
      | Ok provider_id =>
          config ← calling (ProviderRegistry.get_provider provider_id);
          match config with
          | Err _ | Ok None => mret tt
          | Ok (Some config) =>
              selection_start ← reading read_instant;
              let effective_cost := ResourceAllocator.calculate_provider_cost config in
              let startup := ResourceAllocator.calculate_startup_time allocator config in
              execution ← reading draw_uuid;
              submitted ← reading read_utc;
              let context := ExecutionContext.new (Job.id job) provider_id
                ("exec-" +:+ uuid_to_string execution) submitted in
              let (job, assigned) := Job.assign_to_provider provider_id context job in
              match assigned with
              | Err _ => mret tt
              | Ok _ =>
                  let job := prefer provider_id job in
                  saved ← calling (JobRepository.update job);
                  match saved with
                  | Err _ => mret tt
                  | Ok _ =>
                      now ← reading read_instant;
                      occurred ← reading read_utc;
                      _ ← calling (publish_event (DomainEvent.ProviderSelected (Job.id job) provider_id
                        (ProviderConfig.provider_type config) "smart_scheduler" effective_cost
                        (as_millis startup) (as_millis (duration_since now selection_start)) occurred
                        None (Some "job_dispatcher")));
                      requested ← reading read_utc;
                      _ ← calling (publish_event (DomainEvent.WorkerProvisioningRequested (Job.id job)
                        provider_id (Job.spec job) requested None (Some "job_dispatcher")));
                      _ ← catch (F := string) (trigger_provisioning job);
                      mret tt
                  end
              end
          end
      end
  end.

(** [self.job_repository.find_by_id(job_id).await.unwrap().unwrap()] *)
Definition existing_job (i : JobId) : method t (exn string) Job.t :=
  found ← calling (JobRepository.find_by_id i);
  match found with Ok (Some job) => mret job | _ => throw Panicked end.

(** Its error is logged. *)
Definition dispatching (job : Job.t) (worker_id : WorkerId) : method t (exn string) unit :=
  _ ← catch (F := string) (dispatch_job_to_worker job worker_id); mret tt.

(** The part of [handle_job_queued] for a job that no worker is associated with. *)
(** src: crates/server/application/src/jobs/dispatcher.rs 716-781 JobDispatcher::handle_job_queued (no worker) *)
Definition handle_unassociated (job_id : JobId) (job : Job.t) : method t (exn string) unit :=
  workers ← catch (F := string) query_healthy_workers;
  match workers with
  | Err _ => mret tt
  | Ok [] => request_worker_provisioning job
  | Ok workers =>
      decision ← catch (F := string) (make_scheduling_decision job workers);
      match decision with
      | Ok (SchedulingDecision.AssignToWorker _ worker_id) =>
          job ← existing_job job_id; dispatching job worker_id
      | Ok (SchedulingDecision.ProvisionWorker _ _) => request_worker_provisioning job
      | Ok _ =>
          _ ← existing_job job_id;
          _ ← catch (F := string) dispatch_once;
          mret tt
      | Err _ => mret tt
      end
  end.

(** src: crates/server/application/src/jobs/dispatcher.rs 647-782 JobDispatcher::handle_job_queued *)
Definition handle_job_queued (job_id : JobId) : method t (exn string) unit :=
  found ← calling (JobRepository.find_by_id job_id);
  match found with
  | Err _ | Ok None => mret tt
  | Ok (Some job) =>
      associated ← calling (WorkerRegistry.get_by_job_id job_id);
      match associated with
      | Ok (Some worker) =>
          found ← calling (JobRepository.find_by_id job_id);
          match found with
          | Ok (Some job) => dispatching job (Worker.id worker)
          | _ => mret tt
          end
      | Ok None | Err _ => handle_unassociated job_id job
      end
  end.

(** Only the job that the worker was provisioned for, and only when it is
    [Assigned]. *)
(** src: crates/server/application/src/jobs/dispatcher.rs 861-914 JobDispatcher::find_pending_job_for_worker *)
Definition find_pending_job_for_worker (worker : Worker.t) : method t (exn string) (option Job.t) :=
  match Worker.current_job_id worker with
  | None => mret None
  | Some associated_job_id =>
      found ← call (JobRepository.find_by_id associated_job_id);
      match found with
      | Some job => mret (if bool_decide (Job.state job = JobState.Assigned) then Some job else None)
      | None => mret None
      end
  end.

(** src: crates/server/application/src/jobs/dispatcher.rs 788-852 JobDispatcher::dispatch_pending_job_to_worker *)
Definition dispatch_pending_job_to_worker (worker_id : WorkerId) : method t (exn string) unit :=
  found ← calling (WorkerRegistry.get worker_id);
  match found with
  | Err _ | Ok None => mret tt
  | Ok (Some worker) =>
      pending ← catch (F := string) (find_pending_job_for_worker worker);
      match pending with
      | Err _ | Ok None => mret tt
      | Ok (Some pending) => job ← existing_job (Job.id pending); dispatching job worker_id
      end
  end.

End dispatcher.
End JobDispatcher.

(** ** Properties *)

Section cycle.
Context `{E : Externs} {M : MapOrder} {W : Type}.
Context `{!JobQueue W} `{!JobRepository.t W} `{!WorkerRegistry.t W} `{!ProviderConfigRepository W}.
Context `{!EventBus W} `{!WorkerProvisioningService W} `{!Ambient W}.
Import JobDispatcher.

(** What the dispatcher was made with, and what it provisioned lately. *)
Definition made_with (d : t (W := W)) :=
  (execution_saga_dispatcher d, provisioning_saga_coordinator d, provisioning_cooldown d,
   recently_provisioned d).

Abbreviation keeps_making := (preserves (fun _ : t (W := W) => True) made_with).

Lemma keeps_calling {F X} (m : method W F X) : keeps_making (calling m).
Proof. intros d _. unfold after, calling. by destruct (m (world d)). Qed.

Lemma keeps_awaiting {F X} (m : method W (exn F) X) : keeps_making (awaiting m).
Proof. intros d _. unfold after, awaiting. by destruct (catch m (world d)). Qed.

Lemma keeps_reading {X} (f : W -> W * X) : keeps_making (reading f).
Proof. intros d _. unfold after, reading. by destruct (f (world d)). Qed.

Lemma keeps_scheduling {X} (f : SmartScheduler.t -> SmartScheduler.t * X) :
  keeps_making (scheduling (W := W) f).
Proof. intros d _. unfold after, scheduling. by destruct (f (scheduler d)). Qed.

Lemma keeps_guard (b : bool) (e : exn string) : keeps_making (ensure b e).
Proof. intros d _. by destruct b. Qed.

Lemma keeps_lift {X} (r : result (exn string) X) : keeps_making (lift r).
Proof. by intros d _. Qed.

Hint Resolve keeps_calling keeps_awaiting keeps_reading keeps_scheduling
  keeps_guard keeps_lift : preserves.

Lemma keeps_fallible {X} (m : method W DomainError.t X) : keeps_making (call m).
Proof. unfold call. auto with preserves. Qed.
Hint Resolve keeps_fallible : preserves.

Lemma keeps_healthy_workers workers : keeps_making (healthy_workers workers).
Proof. induction workers as [|w ws IH]; simpl; auto 8 with preserves. Qed.

Lemma keeps_query : keeps_making query_healthy_workers.
Proof. unfold query_healthy_workers. auto using keeps_healthy_workers with preserves. Qed.

Lemma keeps_decision job workers : keeps_making (make_scheduling_decision job workers).
Proof. unfold make_scheduling_decision, get_providers_info. auto 10 with preserves. Qed.

Lemma keeps_select job ps : keeps_making (select_provider_for_provisioning job ps).
Proof. unfold select_provider_for_provisioning. auto 10 with preserves. Qed.

Lemma keeps_trigger job : keeps_making (trigger_provisioning job).
Proof.
  unfold trigger_provisioning, default_spec. auto 20 using keeps_select with preserves.
Qed.
Hint Resolve keeps_query keeps_decision keeps_select keeps_trigger : preserves.

Lemma keeps_made {X} (m : method (t (W := W)) (exn string) X) d :
  keeps_making m -> made_with (after m d) = made_with d.
Proof. intros Hm. by apply Hm. Qed.

(** *** How a cycle that ends well ends *)

Lemma wp_fallible {X} (m : method W DomainError.t X) (Q : result (exn string) X -> t -> Prop) d :
  (let (w, r) := m (world d) in
   Q (map_err (fun e => Error (DomainError.fmt e)) r) (d <| world := w |>)) ->
  wp (call m) Q d.
Proof.
  unfold wp, call, calling, or_error, lift, mbind, method_bind.
  destruct (m (world d)) as [w [x|e]]; done.
Qed.

(** The job that is enqueued, as the last thing that is done. *)
Definition reenqueued (job : Job.t) (d' : t (W := W)) : Prop :=
  exists job' w, Job.id job' = Job.id job /\ enqueue_job job' w = (world d', Ok tt).

(** The saga that was run, as the last thing that is done. *)
Definition dispatched (d : t (W := W)) (job : Job.t) (d' : t (W := W)) : Prop :=
  exists execute worker w r, execution_saga_dispatcher d = Some execute /\
    execute (Job.id job) worker w = (world d', Ok r).

Lemma wp_enqueue job job' Q (d : t (W := W)) :
  Job.id job' = Job.id job ->
  (forall d', reenqueued job d' -> Q (Ok tt) d') -> (forall e d', Q (Err e) d') ->
  wp (enqueue job') Q d.
Proof.
  intros Hid Hok Herr. apply wp_fallible. destruct (enqueue_job job' (world d)) as [w [[]|e]] eqn:He; simpl.
  - apply Hok. by exists job', (world d).
  - apply Herr.
Qed.

(** Ends well only with the job enqueued again. *)
Lemma wp_handle_no_workers job Q (d : t (W := W)) :
  (forall d', reenqueued job d' -> Q (Ok 0%nat) d') -> (forall e d', Q (Err e) d') ->
  wp (handle_no_available_workers job) Q d.
Proof.
  intros Hok Herr.
  assert (forall d1, wp (enqueue job;; mret 0%nat) Q d1) as Hen.
  { intros d1. apply wp_bind. by eapply wp_enqueue. }
  unfold handle_no_available_workers. apply wp_bind. unfold reading. rewrite wp_run.
  unfold returns, after. destruct (read_instant (world d)) as [w now]. simpl.
  apply wp_bind. rewrite wp_run. unfold returns, after.
  destruct (should_provision _ _ _) as [d1 b]. simpl. destruct b; simpl; [|apply Hen].
  unfold provision_and_enqueue. apply wp_bind, wp_catch. rewrite wp_run.
  destruct (returns (trigger_provisioning job) d1) as [[]|[e| | |]]; [apply Hen| |apply Herr..].
  apply wp_bind, wp_modify, wp_bind. eapply wp_enqueue; [done| |done]. intros d2 _. by apply wp_throw.
Qed.

Lemma wp_dispatched job worker Q (d0 d : t (W := W)) :
  made_with d = made_with d0 ->
  (forall d', dispatched d0 job d' -> Q (Ok 1%nat) d') -> (forall e d', Q (Err e) d') ->
  wp (dispatch_job_to_worker job worker) Q d.
Proof.
  intros Hmade Hok Herr. unfold dispatch_job_to_worker, assign_and_dispatch.
  injection Hmade as He _ _ _. apply wp_bind, wp_bind, wp_self. cbv beta iota. rewrite He.
  destruct (execution_saga_dispatcher d0) as [execute|] eqn:Hex; [|apply Herr].
  apply wp_bind. unfold awaiting. rewrite wp_run. unfold returns, after, catch.
  destruct (execute (Job.id job) worker (world d)) as [w [r|[e| | |]]] eqn:Hrun; simpl;
    [|apply Herr..].
  apply Hok. by exists execute, worker, (world d), r.
Qed.

Lemma wp_after {X Y} (m : method (t (W := W)) (exn string) X) (k : X -> method _ _ Y) Q d d0 :
  made_with d = made_with d0 -> keeps_making m ->
  (forall x d', made_with d' = made_with d0 -> wp (k x) Q d') -> (forall e d', Q (Err e) d') ->
  wp (x ← m; k x) Q d.
Proof.
  intros Hd Hm Hk Herr. apply wp_bind. rewrite wp_run.
  destruct (returns m d) as [x|e]; [|apply Herr]. apply Hk. by rewrite (keeps_made m).
Qed.

Lemma wp_cycle job Q (d0 d : t (W := W)) :
  made_with d = made_with d0 ->
  (forall d', dispatched d0 job d' -> Q (Ok 1%nat) d') ->
  (forall d', reenqueued job d' -> Q (Ok 0%nat) d') -> (forall e d', Q (Err e) d') ->
  wp (workers ← query_healthy_workers;
      if bool_decide (length workers = 0%nat) then handle_no_available_workers job
      else
        decision ← make_scheduling_decision job workers;
        match decision with
        | SchedulingDecision.AssignToWorker _ worker_id => dispatch_job_to_worker job worker_id
        | SchedulingDecision.ProvisionWorker _ provider_id =>
            let job := prefer provider_id job in
            _ ← catch (F := string) (trigger_provisioning job);
            enqueue job;;
            mret 0%nat
        | _ => enqueue job;; mret 0%nat
        end) Q d.
Proof.
  intros Hd Hone Hzero Herr.
  assert (forall job' d1, Job.id job' = Job.id job -> wp (enqueue job';; mret 0%nat) Q d1) as Hen.
  { intros job' d1 Hid. apply wp_bind. by eapply wp_enqueue. }
  eapply wp_after; [exact Hd|auto with preserves| |done]. intros workers d1 Hd1.
  case_bool_decide; [by apply wp_handle_no_workers|].
  eapply wp_after; [exact Hd1|auto with preserves| |done]. intros decision d2 Hd2.
  destruct decision as [i w|i p|i why|i why]; [by eapply wp_dispatched| |by apply Hen..].
  eapply wp_after; [exact Hd2|auto with preserves| |done]. intros _ d3 _. by apply Hen.
Qed.

(** C13: what becomes of the job that a cycle takes off the queue.  A cycle that
    ends well and counts one job has run the execution saga of that job with
    success, as the last thing it did; one that counts none has put the job back
    into the queue, as the last thing it did, or there was none.  But a cycle
    that cannot list the workers fails right there: the job was taken and is not
    put back. *)
Theorem cycles_dispatch_or_put_back d :
  match returns dispatch_once d with
  | Ok n =>
      match returns dequeue_job (world d) with
      | Ok None => n = 0%nat
      | Ok (Some job) =>
          (n = 1%nat /\ dispatched d job (after dispatch_once d)) \/
          (n = 0%nat /\ reenqueued job (after dispatch_once d))
      | Err _ => False
      end
  | Err _ => True
  end /\
  (forall w1 job w2 e, dequeue_job (world d) = (w1, Ok (Some job)) ->
     WorkerRegistry.find_available w1 = (w2, Err e) ->
     dispatch_once d = (d <| world := w2 |>, Err (Error (DomainError.fmt e)))).
Proof.
  split.
  - set (Q := fun (r : result (exn string) nat) (d' : t (W := W)) =>
      match r with
      | Ok n => match returns dequeue_job (world d) with
                | Ok None => n = 0%nat
                | Ok (Some job) => (n = 1%nat /\ dispatched d job d') \/ (n = 0%nat /\ reenqueued job d')
                | Err _ => False
                end
      | Err _ => True
      end).
    enough (wp dispatch_once Q d) as H1 by (by rewrite wp_run in H1).
    unfold dispatch_once. apply wp_bind, wp_fallible. subst Q. unfold returns.
    destruct (dequeue_job (world d)) as [w [[job|]|e]]; simpl; [|done|done].
    apply (wp_cycle job _ d); [done|..]; simpl; auto.
  - intros w1 job w2 e Hd Hf. unfold dispatch_once, query_healthy_workers, call, calling, mbind,
      method_bind, or_error, lift. rewrite Hd. simpl. by rewrite Hf.
Qed.

(** *** The cooldown *)

Lemma should_provision_spec i now (d : t (W := W)) :
  let (d', b) := should_provision i now d in
  world d' = world d /\
  (b = false <-> exists ts, recently_provisioned d !! i = Some ts /\
     duration_since now ts < provisioning_cooldown d) /\
  (b = true -> recently_provisioned d' !! i = Some now).
Proof.
  unfold should_provision.
  set (recent := filter _ (recently_provisioned d)).
  destruct (recent !! i) as [ts|] eqn:Hi.
  - pose proof Hi as [Hts Hnew]%map_lookup_filter_Some.
    destruct (Z.ltb_spec (duration_since now ts) (provisioning_cooldown d)); [|lia].
    split_and!; [done|split; [|done]|done]. intros _. by exists ts.
  - split_and!; [done|split; [done|]|intros _; apply lookup_insert_eq].
    intros (ts & Hts & Hnew). exfalso.
    assert (recent !! i = Some ts) as Hr by (by apply map_lookup_filter_Some).
    congruence.
Qed.

Lemma provisioning_ends job (d : t (W := W)) :
  (returns (trigger_provisioning job) d = Ok tt ->
     recently_provisioned (after (provision_and_enqueue job) d) = recently_provisioned d) /\
  (forall e, returns (trigger_provisioning job) d = Err (Error e) ->
     recently_provisioned (after (provision_and_enqueue job) d) !! Job.id job = None /\
     is_err (returns (provision_and_enqueue job) d)).
Proof.
  pose proof (keeps_made _ d (keeps_trigger job)) as Hkeep. unfold provision_and_enqueue.
  unfold returns, after, catch, mbind, method_bind in *. injection Hkeep as _ _ _ Hkeep.
  destruct (trigger_provisioning job d) as [d1 r]. simpl in Hkeep. split.
  - simpl. intros ->. unfold enqueue, call, calling, mbind, method_bind, or_error, lift.
    by destruct (enqueue_job job (world d1)) as [w [[]|e]].
  - simpl. intros e ->. unfold enqueue, call, calling, mbind, method_bind, or_error, lift, modify. simpl.
    destruct (enqueue_job job (world d1)) as [w [[]|e']]; simpl; by rewrite lookup_delete_eq.
Qed.

Lemma handle_no_workers_run job (d : t (W := W)) :
  handle_no_available_workers job d =
    let (w, now) := read_instant (world d) in
    let (d1, provision) := should_provision (Job.id job) now (d <| world := w |>) in
    if provision then provision_and_enqueue job d1 else (enqueue job;; mret 0%nat) d1.
Proof.
  unfold handle_no_available_workers, reading, mbind at 1 2, method_bind at 1 2.
  destruct (read_instant (world d)) as [w now].
  by destruct (should_provision (Job.id job) now (d <| world := w |>)) as [d1 []].
Qed.

(** Provisioning waits for the cooldown, unless it failed.  Within the
    cooldown of the last provisioning for a job nothing is done but to put the
    job back; otherwise a worker is provisioned.  Where that succeeds, the next
    one waits for the cooldown from now on; where it fails, nothing is noted,
    and the next cycle provisions again at once.  With the coordinator of the
    provisioning sagas every call fails, the worker created or not. *)
Theorem failed_provisioning_is_not_held_back job d :
  let (w, now) := read_instant (world d) in
  let (d1, provision) := should_provision (Job.id job) now (d <| world := w |>) in
  let d' := after (handle_no_available_workers job) d in
  (provision = false <-> exists ts, recently_provisioned d !! Job.id job = Some ts /\
     duration_since now ts < provisioning_cooldown d) /\
  (provision = false -> world d' = after (enqueue_job job) w) /\
  (provision = true -> returns (trigger_provisioning job) d1 = Ok tt ->
     recently_provisioned d' !! Job.id job = Some now) /\
  (forall e, provision = true -> returns (trigger_provisioning job) d1 = Err (Error e) ->
     recently_provisioned d' !! Job.id job = None /\ is_err (returns (handle_no_available_workers job) d)).
Proof.
  pose proof (handle_no_workers_run job d) as Hrun.
  destruct (read_instant (world d)) as [w now].
  pose proof (should_provision_spec (Job.id job) now (d <| world := w |>)) as Hs.
  destruct (should_provision (Job.id job) now (d <| world := w |>)) as [d1 b].
  destruct Hs as (Hw & Hb & Htrue). intros d'. split; [exact Hb|].
  subst d'. unfold returns, after. rewrite Hrun.
  pose proof (provisioning_ends job d1) as [Hok Herr]. unfold returns, after in *.
  split_and!; destruct b; try done; intros.
  - unfold enqueue, call, calling, mbind, method_bind, or_error, lift. rewrite Hw. simpl.
    by destruct (enqueue_job job w) as [w' [[]|e]].
  - rewrite Hok by done. by apply Htrue.
  - by eapply Herr.
Qed.

End cycle.

(** *** The job of a worker that is ready *)

Section ready.
Context `{E : Externs} {W : Type} `{!JobRepository.t W} `{!JobRepository.Laws W} `{!WorkerRegistry.t W}.
Import JobDispatcher.
(** Reading the registry of workers leaves the jobs alone. *)
Hypothesis registry_reads : forall i w,
  JobRepository.contents (after (WorkerRegistry.find_by_id i) w) = JobRepository.contents w.
Hypothesis registry_finds : forall f w,
  JobRepository.contents (after (WorkerRegistry.find f) w) = JobRepository.contents w.

Lemma find_job_ok i w found :
  returns (JobRepository.find_by_id i) w = Ok found ->
  found = JobRepository.contents w !! i /\ after (JobRepository.find_by_id i) w = w.
Proof.
  unfold returns, after. destruct (JobRepository.find_by_id i w) as [w' r] eqn:Hr. simpl. intros ->.
  by apply JobRepository.find_by_id_ok in Hr as [-> ->].
Qed.

Lemma find_worker_contents job worker w :
  JobRepository.contents (after (AssignWorkerHandler.find_or_validate_worker job worker) w) =
    JobRepository.contents w.
Proof.
  unfold AssignWorkerHandler.find_or_validate_worker, AssignWorkerHandler.assigning.
  destruct worker as [i|].
  - rewrite <- (registry_reads i w). f_equal. unfold after, mbind, method_bind, mapping_error, ensure.
    destruct (WorkerRegistry.find_by_id i w) as [s1 [[x|]|e]]; simpl; [|done|done].
    by destruct (bool_decide _ || bool_decide _).
  - rewrite <- (registry_finds
      (WorkerFilter.accepting_jobs (WorkerFilter.with_state WorkerState.Ready WorkerFilter.new)) w).
    f_equal. unfold after, mbind, method_bind, mapping_error.
    by destruct (WorkerRegistry.find _ w) as [s1 [ws|e]].
Qed.

Lemma bind_ok_inv {F A B} (m : method W F A) (k : A -> method W F B) w b :
  returns (a ← m; k a) w = Ok b ->
  exists a, returns m w = Ok a /\ returns (k a) (after m w) = Ok b.
Proof.
  unfold returns, after, mbind, method_bind. destruct (m w) as [w1 [a|e]]; simpl; [|done].
  intros Hb. by exists a.
Qed.

Lemma refused_again (job : Job.t) :
  Job.state job = JobState.Assigned ->
  Job.set_state JobState.Assigned job = (job, Err (Job.refused job JobState.Assigned)).
Proof. intros Hst. unfold Job.set_state, self, ensure, mbind, method_bind. by rewrite Hst. Qed.

(** The handler of [AssignWorker] never assigns a job that is [Assigned]. *)
Lemma assigned_is_refused command w job x :
  JobRepository.contents w !! AssignWorkerCommand.job_id command = Some job ->
  Job.state job = JobState.Assigned ->
  returns (AssignWorkerHandler.handle command) w = Ok x ->
  x = WorkerAssignmentResult.failure "No available workers".
Proof.
  intros Hjob Hst Hok. unfold AssignWorkerHandler.handle in Hok.
  apply bind_ok_inv in Hok as ([worker|] & _ & Hok); [|by injection Hok as <-].
  apply bind_ok_inv in Hok as (found & Hf & Hok). unfold AssignWorkerHandler.assigning in Hf.
  unfold returns, mapping_error in Hf.
  destruct (JobRepository.find_by_id _ _) as [w1 [o|e]] eqn:Hr; [|done]. injection Hf as <-.
  apply JobRepository.find_by_id_ok in Hr as [-> ->]. rewrite find_worker_contents, Hjob in Hok.
  unfold returns, after in Hok. cbn [mbind method_bind lift ok_or] in Hok.
  unfold mbind, method_bind, lift in Hok. simpl in Hok. by rewrite refused_again in Hok.
Qed.

(** A worker that is ready is offered the one job it was provisioned for,
    and never gets it.  The job that the dispatcher finds for it is its current
    job, and is [Assigned]; the handler that the execution saga assigns workers
    with refuses every job that is [Assigned], so that it assigns no worker to
    it. *)
Theorem ready_workers_are_refused_their_job worker d job command :
  returns (find_pending_job_for_worker worker) d = Ok (Some job) ->
  let w := world (after (find_pending_job_for_worker worker) d) in
  exists i, Worker.current_job_id worker = Some i /\
    JobRepository.contents (world d) !! i = Some job /\ Job.state job = JobState.Assigned /\
    (AssignWorkerCommand.job_id command = i ->
     forall x, returns (AssignWorkerHandler.handle command) w = Ok x ->
       x = WorkerAssignmentResult.failure "No available workers").
Proof.
  unfold find_pending_job_for_worker. destruct (Worker.current_job_id worker) as [i|]; [|done].
  unfold call, calling, or_error, lift, returns at 1, after, mbind, method_bind.
  pose proof (find_job_ok i (world d)) as Hfind. unfold returns, after in Hfind.
  destruct (JobRepository.find_by_id i (world d)) as [w1 [found|e]]; simpl in *; [|done].
  destruct (Hfind found eq_refl) as [-> ->].
  destruct (JobRepository.contents (world d) !! i) as [j|] eqn:Hj; simpl; [|done].
  case_bool_decide as Hst; [|done]. intros [= ->]. exists i. split_and!; [done..|].
  intros <- x Hok. by eapply assigned_is_refused.
Qed.

End ready.

(** ** Evaluation *)

#[local] Existing Instance concrete_order.

Module ExampleDispatcher.

(** A world of the queue, and whether the registry of workers answers; it has one
    worker, or none. *)
Record t := mk {
  waiting : list (@Job.t concrete);
  answering : bool;
  workers : list (@Worker.t concrete);
}.

Definition on_queue {F X} (m : method (@InMemoryJobQueue.t concrete) F X) : method t F X :=
  fun s => let (q, r) := m (waiting s) in (mk q (answering s) (workers s), r).

Definition worker : @Worker.t concrete :=
  Worker.new (E := concrete) (WorkerHandle.new (E := concrete) 1%nat "c1" ProviderType.Docker 2%nat 0)
    (WorkerSpec.new (E := concrete) "img" "srv" 1%nat) 0 <| Worker.state := WorkerState.Ready |>.
Definition job : @Job.t concrete := Job.new (E := concrete) 7%nat "build" (JobSpec.new ["make"]) 0.
Definition docker : @ProviderConfig.t concrete :=
  ProviderConfig.new (E := concrete) "lab" ProviderType.Docker
    (ProviderTypeConfig.Docker DockerConfig.default) 2%nat 0.

#[global] Instance queue : JobQueue (E := concrete) t := {|
  enqueue_job := fun j => on_queue (InMemoryJobQueue.enqueue (E := concrete) j);
  dequeue_job := on_queue (InMemoryJobQueue.dequeue (E := concrete));
  peek_job := on_queue (InMemoryJobQueue.peek (E := concrete));
  queue_len := on_queue (InMemoryJobQueue.len (E := concrete));
  queue_is_empty := on_queue (InMemoryJobQueue.is_empty (E := concrete));
  clear_queue := on_queue (InMemoryJobQueue.clear (E := concrete));
|}.

#[global] Instance registry : WorkerRegistry.t (E := concrete) t := {|
  WorkerRegistry.register := fun _ _ _ => mret worker;
  WorkerRegistry.save := fun _ => mret tt;
  WorkerRegistry.unregister := fun _ => mret tt;
  WorkerRegistry.find_by_id := fun _ => mret (Some worker);
  WorkerRegistry.get_by_job_id := fun _ => mret None;
  WorkerRegistry.find := fun _ => mret [worker];
  WorkerRegistry.find_ready_worker := fun _ => mret (Some worker);
  WorkerRegistry.find_available := fun s =>
    (s, if answering s then Ok (workers s) else Err (DomainError.InfrastructureError "down"));
  WorkerRegistry.find_by_provider := fun _ => mret [worker];
  WorkerRegistry.update_state := fun _ _ => mret tt;
  WorkerRegistry.update_heartbeat := fun _ => mret tt;
  WorkerRegistry.mark_busy := fun _ _ => mret tt;
  WorkerRegistry.release_from_job := fun _ => mret tt;
|}.

#[global] Instance providers : ProviderConfigRepository (E := concrete) t := {|
  save_config := fun _ => mret tt;
  find_config_by_id := fun _ => mret (Some docker);
  find_config_by_name := fun _ => mret (Some docker);
  find_configs_by_type := fun _ => mret [docker];
  find_enabled_configs := mret [docker];
  find_configs_with_capacity := mret [docker];
  find_all_configs := mret [docker];
  update_config := fun _ => mret tt;
  delete_config := fun _ => mret tt;
  config_exists_by_name := fun _ => mret true;
|}.

#[global] Instance provisioning : WorkerProvisioningService (E := concrete) t := {|
  service_provision_worker := fun p _ _ => throw (DomainError.ProviderNotFound p);
  service_provider_available := fun _ => mret true;
  service_default_spec := fun p s => (s, Some (WorkerSpec.new (E := concrete) "img" "srv" p));
  service_list_providers := mret [2%nat : @Uuid concrete];
  service_provider_config := fun _ => mret (Some docker);
  service_validate_spec := fun _ => mret tt;
|}.

#[global] Instance ambient : Ambient (E := concrete) t := {|
  read_utc := fun s => (s, 0 : @DateTime concrete);
  read_instant := fun s => (s, 1000);
  draw_uuid := fun s => (s, 9%nat : @Uuid concrete);
|}.

Definition completed : @SagaExecutionResult.t concrete :=
  SagaExecutionResult.completed_with_steps (E := concrete) (3%nat : @Uuid concrete) SagaType.Execution 0 4.

Definition dispatcher (s : t) : JobDispatcher.t (E := concrete) (W := t) :=
  JobDispatcher.new s SchedulerConfig.default true (Some (fun _ _ => mret completed)) None.

End ExampleDispatcher.

(** With a worker the job is dispatched; with a registry that fails it is gone. *)
Example cycles_dispatch_or_put_back_witness :
  let served := ExampleDispatcher.mk [ExampleDispatcher.job] true [ExampleDispatcher.worker] in
  let failing := ExampleDispatcher.mk [ExampleDispatcher.job] false [ExampleDispatcher.worker] in
  dispatched (E := concrete) (ExampleDispatcher.dispatcher served) ExampleDispatcher.job
    (after (JobDispatcher.dispatch_once (E := concrete)) (ExampleDispatcher.dispatcher served)) /\
  ExampleDispatcher.waiting (JobDispatcher.world
    (after (JobDispatcher.dispatch_once (E := concrete)) (ExampleDispatcher.dispatcher failing))) = [].
Proof.
  intros served failing. split.
  - assert (returns (JobDispatcher.dispatch_once (E := concrete)) (ExampleDispatcher.dispatcher served)
      = Ok 1%nat) as Hone by (vm_compute; reflexivity).
    pose proof (proj1 (cycles_dispatch_or_put_back (E := concrete) (ExampleDispatcher.dispatcher served))) as Hthm.
    rewrite Hone in Hthm. destruct Hthm as [[_ Hd]|[Hz _]]; [exact Hd|discriminate].
  - pose proof (proj2 (cycles_dispatch_or_put_back (E := concrete) (ExampleDispatcher.dispatcher failing))
      (ExampleDispatcher.mk [] false [ExampleDispatcher.worker]) ExampleDispatcher.job
      (ExampleDispatcher.mk [] false [ExampleDispatcher.worker])
      (DomainError.InfrastructureError "down") eq_refl eq_refl) as Hlost.
    unfold after. rewrite Hlost. reflexivity.
Defined.

(** A provisioning that fails leaves no entry. *)
Example failed_provisioning_is_not_held_back_witness :
  let d := ExampleDispatcher.dispatcher (ExampleDispatcher.mk [] true []) in
  JobDispatcher.recently_provisioned
    (after (JobDispatcher.handle_no_available_workers (E := concrete) ExampleDispatcher.job) d)
    !! (7%nat : @Uuid concrete) = None.
Proof.
  intros d.
  pose proof (failed_provisioning_is_not_held_back (E := concrete) ExampleDispatcher.job d) as Hthm.
  cbn [read_instant ExampleDispatcher.ambient JobDispatcher.world] in Hthm.
  destruct (JobDispatcher.should_provision _ _ _) as [d1 b] eqn:Hsp in Hthm.
  destruct Hthm as (_ & _ & _ & Herr).
  assert (b = true /\ d1 = d <| JobDispatcher.recently_provisioned := {[ (7%nat : @Uuid concrete) := 1000 ]} |>)
    as [-> ->] by (by injection Hsp as <- <-).
  destruct (Herr ("Failed to provision worker: " +:+ DomainError.fmt (E := concrete)
    (DomainError.ProviderNotFound (E := concrete) (2%nat : @Uuid concrete))) eq_refl) as [Hnone _];
    [|exact Hnone].
  vm_compute. reflexivity.
Defined.

(** The jobs alone, with a registry of one worker, which is ready for job 7. *)
Module ExampleReady.

Definition t : Type := @InMemoryJobRepository.t concrete.
#[global] Instance jobs : JobRepository.t (E := concrete) t := InMemoryJobRepository.repository (E := concrete).
#[global] Instance laws : JobRepository.Laws (E := concrete) t :=
  InMemoryJobRepository.repository_laws (E := concrete).

Definition worker : @Worker.t concrete :=
  ExampleDispatcher.worker <| Worker.current_job_id := Some (7%nat : @Uuid concrete) |>.
Definition job : @Job.t concrete := ExampleDispatcher.job <| Job.state := JobState.Assigned |>.
Definition stored : t := {[ (7%nat : @Uuid concrete) := job ]}.

#[global] Instance registry : WorkerRegistry.t (E := concrete) t := {|
  WorkerRegistry.register := fun _ _ _ => mret worker;
  WorkerRegistry.save := fun _ => mret tt;
  WorkerRegistry.unregister := fun _ => mret tt;
  WorkerRegistry.find_by_id := fun _ => mret (Some worker);
  WorkerRegistry.get_by_job_id := fun _ => mret (Some worker);
  WorkerRegistry.find := fun _ => mret [worker];
  WorkerRegistry.find_ready_worker := fun _ => mret (Some worker);
  WorkerRegistry.find_available := mret [worker];
  WorkerRegistry.find_by_provider := fun _ => mret [worker];
  WorkerRegistry.update_state := fun _ _ => mret tt;
  WorkerRegistry.update_heartbeat := fun _ => mret tt;
  WorkerRegistry.mark_busy := fun _ _ => mret tt;
  WorkerRegistry.release_from_job := fun _ => mret tt;
|}.

Definition dispatcher : JobDispatcher.t (E := concrete) (W := t) :=
  JobDispatcher.new stored SchedulerConfig.default true None None.

End ExampleReady.

Example ready_workers_are_refused_their_job_witness :
  let command := AssignWorkerCommand.with_worker (E := concrete) 7%nat 1%nat "saga" 3%nat 0 in
  returns (JobDispatcher.find_pending_job_for_worker (E := concrete) ExampleReady.worker)
    ExampleReady.dispatcher = Ok (Some ExampleReady.job) /\
  returns (AssignWorkerHandler.handle (E := concrete) command) ExampleReady.stored <>
    Ok (WorkerAssignmentResult.succeeded (E := concrete) 1%nat WorkerState.Busy).
Proof.
  intros command.
  assert (returns (JobDispatcher.find_pending_job_for_worker (E := concrete) ExampleReady.worker)
    ExampleReady.dispatcher = Ok (Some ExampleReady.job)) as Hfound by reflexivity.
  split; [exact Hfound|].
  pose proof (ready_workers_are_refused_their_job (E := concrete) (W := ExampleReady.t)
    (fun _ _ => eq_refl) (fun _ _ => eq_refl) ExampleReady.worker ExampleReady.dispatcher
    ExampleReady.job command Hfound) as (i & Hi & _ & _ & Hno).
  intros Hok. injection Hi as <-. by apply (Hno eq_refl) in Hok.
Defined.
