(* ===== verification/JobUseCases.v ===== *)
(** * The use cases on jobs
    ([crates/server/application/src/jobs/create.rs, cancel.rs, complete_job.rs,
    fail_job.rs, queries.rs, queue_job_tx.rs])

    What a request on a job does: it is created, retried, executed, cancelled,
    completed, failed or looked up.  Each use case is a method on the world of its
    repositories, its event bus and its clocks.  An [anyhow::Error] is the
    [DomainError] that it wraps.

    [QueueJobUseCase] writes the job and its event in one transaction; what it
    promises is proved on the tables of [JobStore.v] and [OutboxTable.v]. *)

From S2P Require Import Prelude Effects Std Externs States Errors JobSpec Job Events Repositories Services CommandOutbox CancellationCommands Sql Outbox OutboxTable AppServices JobStore.

Module RequestContext.
Section context.
Context `{E : Externs}.

(** src: crates/server/domain/src/request_context.rs 11-18 RequestContext *)
Record t := mk { correlation_id : string; actor : option string; started_at : DateTime }.

#[global] Instance t_rebuild : Rebuild t := fun c => mk (correlation_id c) (actor c) (started_at c).

(** src: crates/server/domain/src/request_context.rs 22-28 RequestContext::new *)
Definition new (fresh : Uuid) (now : DateTime) : t := mk (uuid_to_string fresh) None now.

(** src: crates/server/domain/src/request_context.rs 31-37 RequestContext::with_correlation_id *)
Definition with_correlation_id (correlation : string) (now : DateTime) : t := mk correlation None now.

(** src: crates/server/domain/src/request_context.rs 40-46 RequestContext::with_actor *)
Definition with_actor (correlation who : string) (now : DateTime) : t := mk correlation (Some who) now.

(** src: crates/server/domain/src/request_context.rs 49-52 RequestContext::actor *)
Definition set_actor (who : string) (c : t) : t := c <| actor := Some who |>.

(** src: crates/server/domain/src/request_context.rs 60-62 RequestContext::correlation_id_owned *)
Definition correlation_id_owned (c : t) : option string := Some (correlation_id c).

(** src: crates/server/domain/src/request_context.rs 70-72 RequestContext::actor_owned *)
Definition actor_owned (c : t) : option string := actor c.

(** src: crates/server/domain/src/request_context.rs 80-86 RequestContext::child_context *)
Definition child_context (now : DateTime) (c : t) : t := mk (correlation_id c) (actor c) now.

(** src: crates/server/domain/src/request_context.rs 89-95 RequestContext::child_with_actor *)
Definition child_with_actor (who : string) (now : DateTime) (c : t) : t :=
  mk (correlation_id c) (Some who) now.

End context.
End RequestContext.

(** ** Requests *)

Module JobSpecRequest.

(** src: crates/server/application/src/jobs/create.rs 22-36 JobSpecRequest *)
Record t := mk {
  command : list string;
  image : option string;
  env : option (gmap string string);
  timeout_ms : option Z;
  working_dir : option string;
  cpu_cores : option f64;
  memory_bytes : option Z;
  disk_bytes : option Z;
  preferred_provider : option string;
  preferred_region : option string;
  required_labels : option (gmap string string);
  required_annotations : option (gmap string string);
}.

(** A request that gives nothing but the command. *)
Definition of_command (command : list string) : t :=
  mk command None None None None None None None None None None None.

(** [if let Some(x) = o { if x passes the test { the field is set } }] *)
Definition given {A} (test : A -> bool) (o : option A) : option A :=
  match o with Some a => if test a then Some a else None | None => None end.

Definition non_empty_map (m : gmap string string) : bool := negb (bool_decide (m = ∅)).

Definition mebibytes (bytes : Z) : Z := as_u64 (bytes ÷ (1024 * 1024)).

(** What is not given, or not positive, or empty, is the default. *)
(** src: crates/server/application/src/jobs/create.rs 262-331 CreateJobUseCase::convert_to_job_spec *)
Definition convert_to_job_spec (r : t) : JobSpec.t :=
  let spec := JobSpec.new (command r) in
  let resources := JobSpec.resources spec in
  let preferences := JobSpec.preferences spec in
  let or_else {A} (o d : option A) := match o with Some a => Some a | None => d end in
  JobSpec.mk
    (JobSpec.command spec)
    (default (JobSpec.env spec) (env r))
    (JobSpec.inputs spec) (JobSpec.outputs spec) (JobSpec.constraints spec)
    {| JobResources.cpu_cores :=
         match given (F64.ltb (F64.of_Z 0)) (cpu_cores r) with
         | Some cores => F32.of_f64 cores
         | None => JobResources.cpu_cores resources
         end;
       JobResources.memory_mb :=
         match given (Z.ltb 0) (memory_bytes r) with
         | Some bytes => mebibytes bytes
         | None => JobResources.memory_mb resources
         end;
       JobResources.storage_mb :=
         match given (Z.ltb 0) (disk_bytes r) with
         | Some bytes => mebibytes bytes
         | None => JobResources.storage_mb resources
         end;
       JobResources.gpu_required := JobResources.gpu_required resources;
       JobResources.architecture := JobResources.architecture resources |}
    (default (JobSpec.timeout_ms spec) (timeout_ms r))
    (or_else (image r) (JobSpec.image spec))
    (or_else (working_dir r) (JobSpec.working_dir spec))
    (JobSpec.stdin spec)
    {| JobPreferences.preferred_provider :=
         or_else (given (fun s => negb (is_empty s)) (preferred_provider r))
           (JobPreferences.preferred_provider preferences);
       JobPreferences.preferred_region :=
         or_else (given (fun s => negb (is_empty s)) (preferred_region r))
           (JobPreferences.preferred_region preferences);
       JobPreferences.max_budget := JobPreferences.max_budget preferences;
       JobPreferences.priority := JobPreferences.priority preferences;
       JobPreferences.allow_retry := JobPreferences.allow_retry preferences;
       JobPreferences.required_labels :=
         default (JobPreferences.required_labels preferences) (given non_empty_map (required_labels r));
       JobPreferences.required_annotations :=
         default (JobPreferences.required_annotations preferences)
           (given non_empty_map (required_annotations r)) |}.

End JobSpecRequest.

Module CreateJobRequest.
(** src: crates/server/application/src/jobs/create.rs 12-19 CreateJobRequest *)
Record t := mk {
  name : string;
  spec : JobSpecRequest.t;
  correlation_id : option string;
  actor : option string;
  job_id : option string;
}.
End CreateJobRequest.

Module CreateJobResponse.
(** src: crates/server/application/src/jobs/create.rs 39-43 CreateJobResponse *)
Record t := mk { job_id : string; status : string; message : string }.
End CreateJobResponse.

Module ExecuteNextJobResponse.
(** src: crates/server/application/src/jobs/create.rs 47-52 ExecuteNextJobResponse *)
Record t := mk { job_id : string; provider_id : string; status : string; message : string }.
End ExecuteNextJobResponse.

Module RetryJobResponse.
(** src: crates/server/application/src/jobs/create.rs 61-66 RetryJobResponse *)
Record t := mk { job_id : string; attempt : Z; status : string; message : string }.
End RetryJobResponse.

Module CancelJobResponse.
(** src: crates/server/application/src/jobs/cancel.rs 14-18 CancelJobResponse *)
Record t := mk { job_id : string; status : string; message : string }.
End CancelJobResponse.

Module TrackJobResponse.
(** src: crates/server/application/src/jobs/queries.rs 10-17 TrackJobResponse *)
Record t := mk {
  job_id : string;
  status : string;
  result : option string;
  created_at : option string;
  started_at : option string;
  completed_at : option string;
}.
End TrackJobResponse.

Definition opt_insert (key : string) (value : option string) (m : gmap string string) :
    gmap string string :=
  match value with Some v => <[key := v]> m | None => m end.

(** The identifier that the client gave, or a fresh one. *)
Definition requested_id `{E : Externs} {W} `{!Ambient W} (id : option string) :
    method W DomainError.t JobId :=
  match id with
  | Some id_str =>
      lift (ok_or (uuid_parse_str id_str)
        (DomainError.InvalidProviderConfig ("Invalid UUID format for job_id: " +:+ id_str)))
  | None => calling draw_uuid
  end.

(** ** The use cases of the repository and the bus *)

Module JobUseCases.
Section use_cases.
Context `{E : Externs} {W : Type} `{!JobRepository.t W} `{!JobQueue W} `{!EventBus W} `{!Ambient W}.

(** [find_by_id(..).await?.ok_or_else(JobNotFound)?] *)
Definition existing_job (i : JobId) : method W DomainError.t Job.t :=
  found ← JobRepository.find_by_id i;
  lift (ok_or found (DomainError.JobNotFound i)).

(** A method of a job that ends in [?]: the job afterwards. *)
Definition on_job (m : method Job.t DomainError.t unit) (job : Job.t) :
    method W DomainError.t Job.t :=
  let (job, r) := m job in lift r;; mret job.

(** An event whose publication may fail, which is logged. *)
Definition announce (e : DomainEvent.t) : method W DomainError.t unit :=
  _ ← result_of (publish_event e); mret tt.

(** *** Retrying *)

(** src: crates/server/application/src/jobs/create.rs 90-138 RetryJobUseCase::execute_with_context *)
Definition retry_job (i : JobId) (ctx : option RequestContext.t) :
    method W DomainError.t RetryJobResponse.t :=
  job ← existing_job i;
  let max_attempts := Job.max_attempts job in
  job ← on_job Job.prepare_retry job;
  JobRepository.update job;;
  now ← calling read_utc;
  announce (DomainEvent.JobRetried (Job.id job) (Job.attempts job) max_attempts now
    (RequestContext.correlation_id <$> ctx) (ctx ≫= RequestContext.actor_owned));;
  mret (RetryJobResponse.mk (uuid_to_string (Job.id job)) (Job.attempts job)
    (JobState.fmt (Job.state job))
    ("Job retry initiated (attempt " +:+ show_Z (Job.attempts job) +:+ " of "
      +:+ show_Z (Job.max_attempts job) +:+ ")")).

(** *** Creating *)

(** src: crates/server/application/src/jobs/create.rs 194-208 CreateJobUseCase::execute (metadata) *)
Definition requested_job (r : CreateJobRequest.t) (i : JobId) (spec : JobSpec.t) (now : DateTime) : Job.t :=
  let job := Job.new i (CreateJobRequest.name r) spec now in
  job <| Job.metadata :=
    <["job_name" := CreateJobRequest.name r]>
      (opt_insert "actor" (CreateJobRequest.actor r)
        (opt_insert "correlation_id" (CreateJobRequest.correlation_id r) (Job.metadata job))) |>.

(** The queue and the threshold of its depth are held and not used. *)
(** src: crates/server/application/src/jobs/create.rs 173-258 CreateJobUseCase::execute *)
Definition create_job (r : CreateJobRequest.t) : method W DomainError.t CreateJobResponse.t :=
  let spec := JobSpecRequest.convert_to_job_spec (CreateJobRequest.spec r) in
  lift (JobSpec.validate spec);;
  i ← requested_id (CreateJobRequest.job_id r);
  created ← calling read_utc;
  let job := requested_job r i spec created in
  JobRepository.save job;;
  let metadata := EventMetadata.new (CreateJobRequest.correlation_id r) (CreateJobRequest.actor r) in
  now ← calling read_utc;
  announce (DomainEvent.JobCreated (JobCreated.mk i spec now
    (EventMetadata.correlation_id metadata) (EventMetadata.actor metadata)));;
  mret (CreateJobResponse.mk (uuid_to_string i) "PENDING" "Job created and queued successfully").

(** *** Executing *)

(** The result of the submission is dropped; the provider is a fresh
    identifier, and not the one of the context. *)
(** src: crates/server/application/src/jobs/create.rs 354-444 ExecuteNextJobUseCase::execute *)
Definition execute_next_job : method W DomainError.t ExecuteNextJobResponse.t :=
  next ← dequeue_job;
  job ← lift (ok_or next (DomainError.InfrastructureError "No jobs in queue"));
  let old_state := Job.state job in
  _ ← calling draw_uuid;
  _ ← calling read_utc;
  provider ← calling draw_uuid;
  placeholder ← calling draw_uuid;
  submitted ← calling read_utc;
  started ← calling read_utc;
  let context := ExecutionContext.new (Job.id job) placeholder "simulated-execution" submitted in
  let (job, _) := Job.submit_to_provider provider context started job in
  JobRepository.update job;;
  let metadata := EventMetadata.from_job_metadata (Job.metadata job) (Job.id job) in
  now ← calling read_utc;
  announce (DomainEvent.JobStatusChanged (Job.id job) old_state JobState.Scheduled now
    (EventMetadata.correlation_id metadata) (EventMetadata.actor metadata));;
  mret (ExecuteNextJobResponse.mk (uuid_to_string (Job.id job)) "provider-001" "SUBMITTED"
    "Job submitted for execution").

(** *** Cancelling *)

(** The audit information of the context, or that of the job. *)
(** src: crates/server/application/src/jobs/cancel.rs 56-65 CancelJobUseCase::execute_with_context (metadata) *)
Definition audit_of (ctx : option RequestContext.t) (job : Job.t) : EventMetadata.t :=
  let correlation := RequestContext.correlation_id <$> ctx in
  let who := ctx ≫= RequestContext.actor_owned in
  if bool_decide (is_Some correlation) || bool_decide (is_Some who)
  then EventMetadata.new correlation who
  else EventMetadata.from_job_metadata (Job.metadata job) (Job.id job).

(** src: crates/server/application/src/jobs/cancel.rs 37-103 CancelJobUseCase::execute_with_context *)
Definition cancel_job (i : JobId) (ctx : option RequestContext.t) :
    method W DomainError.t CancelJobResponse.t :=
  job ← existing_job i;
  let old_state := Job.state job in
  cancelled ← calling read_utc;
  job ← on_job (Job.cancel cancelled) job;
  JobRepository.update job;;
  let metadata := audit_of ctx job in
  now ← calling read_utc;
  announce (DomainEvent.JobStatusChanged (Job.id job) old_state JobState.Cancelled now
    (EventMetadata.correlation_id metadata) (EventMetadata.actor metadata));;
  now ← calling read_utc;
  announce (DomainEvent.JobCancelled (Job.id job) (Some "User requested cancellation") now
    (EventMetadata.correlation_id metadata) (EventMetadata.actor metadata));;
  mret (CancelJobResponse.mk (uuid_to_string (Job.id job)) (JobState.fmt (Job.state job))
    "Job cancellation requested").

(** *** Looking up *)

(** src: crates/server/application/src/jobs/queries.rs 28-43 GetJobStatusUseCase::execute *)
Definition get_job_status (i : JobId) : method W DomainError.t TrackJobResponse.t :=
  job ← existing_job i;
  mret (TrackJobResponse.mk (uuid_to_string (Job.id job)) (JobState.fmt (Job.state job))
    (JobResult.fmt <$> Job.result job) (Some (to_rfc3339 (Job.created_at job)))
    (to_rfc3339 <$> Job.started_at job) (to_rfc3339 <$> Job.completed_at job)).

End use_cases.
End JobUseCases.

(** ** Completing and failing

    These two are given their own ports, whose errors are their own. *)

(** src: crates/server/application/src/jobs/complete_job.rs 39-42 JobCompletionPorts *)
Class JobPorts `{E : Externs} (F W : Type) := {
  find_job_by_id : JobId -> method W F (option Job.t);
  save_job : Job.t -> method W F unit;
}.

(** src: crates/server/application/src/jobs/complete_job.rs 45-51 EventPublishingPort *)
Class EventPublishingPort `{E : Externs} (F W : Type) := {
  port_publish_event : DomainEvent.t -> method W F unit;
  port_insert_outbox_events : list OutboxEventInsert.t -> method W F unit;
}.

Module CompletionError.
Section error.
Context `{E : Externs}.

(** src: crates/server/application/src/jobs/complete_job.rs 112-117 CompletionError *)
Inductive t := JobNotFound (job : JobId) | CompletionFailed (message : string).

(** src: crates/server/application/src/jobs/complete_job.rs 111-117 Display for CompletionError *)
Definition fmt (e : t) : string :=
  match e with
  | JobNotFound job => "Job not found: " +:+ uuid_to_string job
  | CompletionFailed m => "Job completion failed: " +:+ m
  end.

(** src: crates/server/application/src/jobs/complete_job.rs 119-123 impl From<DomainError> for CompletionError *)
Definition of_domain_error (e : DomainError.t) : t := CompletionFailed (DomainError.fmt e).

End error.
End CompletionError.

Module FailureError.
Section error.
Context `{E : Externs}.

(** src: crates/server/application/src/jobs/fail_job.rs 89-94 FailureError *)
Inductive t := JobNotFound (job : JobId) | FailureFailed (message : string).

(** src: crates/server/application/src/jobs/fail_job.rs 88-94 Display for FailureError *)
Definition fmt (e : t) : string :=
  match e with
  | JobNotFound job => "Job not found: " +:+ uuid_to_string job
  | FailureFailed m => "Job failure failed: " +:+ m
  end.

End error.
End FailureError.

Module CompleteJobCommand.
Section command.
Context `{E : Externs}.
(** src: crates/server/application/src/jobs/complete_job.rs 10-16 CompleteJobCommand *)
Record t := mk {
  job_id : JobId;
  execution_id : string;
  exit_code : Z;
  output : string;
  error_output : option string;
}.
End command.
End CompleteJobCommand.

Module JobCompletionResult.
Section result.
Context `{E : Externs}.
(** src: crates/server/application/src/jobs/complete_job.rs 19-23 JobCompletionResult *)
Record t := mk { job_id : JobId; worker_id : option WorkerId; worker_terminated : bool }.
End result.
End JobCompletionResult.

Module FailJobCommand.
Section command.
Context `{E : Externs}.
(** src: crates/server/application/src/jobs/fail_job.rs 10-15 FailJobCommand *)
Record t := mk {
  job_id : JobId;
  execution_id : string;
  error_message : string;
  exit_code : option Z;
}.
End command.
End FailJobCommand.

(** What the two use cases share: the job is found, changed and saved, and a
    change from [Running] is published; the error of that ends the use case. *)
Section settling.
Context `{E : Externs} {F W : Type} `{!JobPorts F W} `{!EventPublishingPort F W} `{!Ambient W}.

Definition settle_job (i : JobId) (missing : F) (refusing : DomainError.t -> F) (now : DateTime)
    (m : method Job.t DomainError.t unit) (new_state : JobState.t) : method W F Job.t :=
  found ← find_job_by_id i;
  job ← lift (ok_or found missing);
  let (job, r) := m job in
  lift (map_err refusing r);;
  save_job job;;
  occurred ← calling read_utc;
  port_publish_event (DomainEvent.JobStatusChanged (Job.id job) JobState.Running new_state occurred
    None None);;
  mret job.

End settling.

Module CompleteJobUseCase.
Section use_case.
Context `{E : Externs} {W : Type}.
Context `{!JobPorts CompletionError.t W} `{!EventPublishingPort CompletionError.t W} `{!Ambient W}.

(** The port of the cleanup and the identifier of the execution are not used. *)
(** src: crates/server/application/src/jobs/complete_job.rs 72-108 CompleteJobUseCase::execute *)
Definition execute (c : CompleteJobCommand.t) : method W CompletionError.t JobCompletionResult.t :=
  let job_result := JobResult.Success (CompleteJobCommand.exit_code c) (CompleteJobCommand.output c)
    (default "" (CompleteJobCommand.error_output c)) in
  now ← calling read_utc;
  settle_job (CompleteJobCommand.job_id c) (CompletionError.JobNotFound (CompleteJobCommand.job_id c))
    CompletionError.of_domain_error now (Job.complete job_result now) JobState.Succeeded;;
  mret (JobCompletionResult.mk (CompleteJobCommand.job_id c) None false).

End use_case.
End CompleteJobUseCase.

Module FailJobUseCase.
Section use_case.
Context `{E : Externs} {W : Type}.
Context `{!JobPorts FailureError.t W} `{!EventPublishingPort FailureError.t W} `{!Ambient W}.

(** src: crates/server/application/src/jobs/fail_job.rs 61-85 FailJobUseCase::execute *)
Definition execute (c : FailJobCommand.t) : method W FailureError.t unit :=
  now ← calling read_utc;
  settle_job (FailJobCommand.job_id c) (FailureError.JobNotFound (FailJobCommand.job_id c))
    (fun e => FailureError.FailureFailed (DomainError.fmt e)) now
    (Job.fail (FailJobCommand.error_message c) now) JobState.Failed;;
  mret tt.

End use_case.
End FailJobUseCase.

(** ** Queueing with the event in one transaction *)

Module QueueJobRequest.
(** src: crates/server/application/src/jobs/queue_job_tx.rs 21-27 QueueJobRequest *)
Record t := mk {
  spec : JobSpecRequest.t;
  correlation_id : option string;
  actor : option string;
  job_id : option string;
}.
End QueueJobRequest.

Module QueueJobResponse.
(** src: crates/server/application/src/jobs/queue_job_tx.rs 47-51 QueueJobResponse *)
Record t := mk { job_id : string; status : string; message : string }.
End QueueJobResponse.

(** The part of the repository of jobs, and of the outbox, that takes part in a
    transaction of the caller. *)
(** src: crates/server/domain/src/jobs/aggregate.rs 1273-1309 JobRepositoryTx *)
Class JobRepositoryTx `{E : Externs} (W : Type) := {
  save_with_tx : Job.t -> method W DomainError.t unit;
  find_by_id_with_tx : JobId -> method W DomainError.t (option Job.t);
  update_with_tx : Job.t -> method W DomainError.t unit;
  update_status_with_tx : JobId -> string -> method W DomainError.t unit;
  find_by_state_with_tx : JobState.t -> method W DomainError.t (list Job.t);
  update_state_with_tx : JobId -> JobState.t -> method W DomainError.t unit;
}.

(** src: crates/server/application/src/jobs/queue_job_tx.rs 58-65 TransactionalOutbox *)
Class TransactionalOutboxTx `{E : Externs} (W : Type) := {
  insert_events_with_tx : list OutboxEventInsert.t -> method W DomainError.t unit;
}.

Module QueueJobUseCase.
Section use_case.
Context `{E : Externs} {M : MapOrder} `{!EventFormat} {W : Type}.
Context `{!JobRepositoryTx W} `{!TransactionalOutboxTx W} `{!Transactions W} `{!Ambient W}.

Definition json_of_map (m : gmap string string) : Json :=
  json_object ((fun '(k, v) => (k, json_of_string v)) <$> map_entries m).

(** src: crates/server/application/src/jobs/queue_job_tx.rs 235-297 QueueJobUseCase::convert_to_job_spec *)
Definition convert_to_job_spec : JobSpecRequest.t -> JobSpec.t := JobSpecRequest.convert_to_job_spec.

(** src: crates/server/application/src/jobs/queue_job_tx.rs 147-158 QueueJobUseCase::execute (job) *)
Definition requested_job (r : QueueJobRequest.t) (i : JobId) (spec : JobSpec.t) (now : DateTime) : Job.t :=
  let job := Job.new i "queued-job" spec now in
  job <| Job.metadata :=
    opt_insert "actor" (QueueJobRequest.actor r)
      (opt_insert "correlation_id" (QueueJobRequest.correlation_id r) (Job.metadata job)) |>.

Definition queued_key (i : JobId) : string := "job-queued-" +:+ uuid_to_string i.

(** src: crates/server/application/src/jobs/queue_job_tx.rs 160-185 QueueJobUseCase::execute (event) *)
Definition queued_event (r : QueueJobRequest.t) (i : JobId) (spec : JobSpec.t) (now : DateTime) :
    OutboxEventInsert.t :=
  let preferences := JobSpec.preferences spec in
  OutboxEventInsert.for_job i "JobQueued"
    (json_object [
      ("job_id", json_of_string (uuid_to_string i));
      ("spec", json_object [
        ("command", json_of_list (json_of_string <$> JobSpec.command_vec spec));
        ("timeout_ms", json_of_Z (JobSpec.timeout_ms spec));
        ("preferred_provider",
          json_of_option json_of_string (JobPreferences.preferred_provider preferences));
        ("preferred_region",
          json_of_option json_of_string (JobPreferences.preferred_region preferences));
        ("required_labels", json_of_map (JobPreferences.required_labels preferences));
        ("required_annotations", json_of_map (JobPreferences.required_annotations preferences))]);
      ("queued_at", json_of_string (to_rfc3339 now))])
    (Some (json_object [
      ("source", json_of_string "QueueJobUseCase");
      ("correlation_id",
        json_of_string (default (uuid_to_string i) (QueueJobRequest.correlation_id r)));
      ("actor", json_of_string (default "system" (QueueJobRequest.actor r)))]))
    (Some (queued_key i)).

Definition failing (what : string) (e : DomainError.t) : DomainError.t :=
  DomainError.InfrastructureError ("Failed to " +:+ what +:+ ": " +:+ DomainError.fmt e).

(** The two statements of the transaction. *)
(** src: crates/server/application/src/jobs/queue_job_tx.rs 196-212 QueueJobUseCase::execute (statements) *)
Definition save_job_and_event (job : Job.t) (event : OutboxEventInsert.t) : method W DomainError.t unit :=
  mapping_error (save_with_tx job) (failing "save job");;
  mapping_error (insert_events_with_tx [event]) (failing "insert outbox event").

(** src: crates/server/application/src/jobs/queue_job_tx.rs 127-232 QueueJobUseCase::execute *)
Definition execute (r : QueueJobRequest.t) : method W DomainError.t QueueJobResponse.t :=
  let spec := convert_to_job_spec (QueueJobRequest.spec r) in
  lift (JobSpec.validate spec);;
  i ← requested_id (QueueJobRequest.job_id r);
  created ← calling read_utc;
  let job := requested_job r i spec created in
  now ← calling read_utc;
  transaction (database_error "begin transaction") (database_error "commit transaction")
    (fun _ => true) (save_job_and_event job (queued_event r i spec now));;
  mret (QueueJobResponse.mk (uuid_to_string i) "PENDING"
    "Job queued successfully with transactional outbox").

End use_case.
End QueueJobUseCase.

(** The repository and the outbox of PostgreSQL. *)
#[global] Instance postgres_jobs_tx `{E : Externs} `{!JobFormat} {S} `{!JobDatabase S} :
    JobRepositoryTx S := {|
  save_with_tx := PostgresJobRepository.save_with_tx;
  find_by_id_with_tx := PostgresJobRepository.find_by_id_with_tx;
  update_with_tx := PostgresJobRepository.update_with_tx;
  update_status_with_tx := PostgresJobRepository.update_status_with_tx;
  find_by_state_with_tx := PostgresJobRepository.find_by_state_with_tx;
  update_state_with_tx := PostgresJobRepository.update_state_with_tx;
|}.

(** The outbox of PostgreSQL, its errors converted. *)
#[global] Instance postgres_outbox_tx `{E : Externs} {S} `{!OutboxDatabase S} :
    TransactionalOutboxTx S := {|
  insert_events_with_tx := fun events =>
    mapping_error (PostgresOutboxRepository.insert_events_with_tx events) OutboxError.to_domain_error;
|}.

(** ** Properties *)

(** *** A job and its event *)

(** The tables of jobs and the outbox are different tables, and a clock is no
    table. *)
Class JobOutboxLaws `{E : Externs} (S : Type) `{!JobDatabase S} `{!OutboxDatabase S} `{!Ambient S} :
    Prop := {
  outbox_of_jobs_set : forall l s, outbox_rows (set_table_rows (Row := JobRow.t) l s) = outbox_rows s;
  outbox_of_queue_set : forall l s,
    outbox_rows (set_table_rows (Row := QueueRow.t) l s) = outbox_rows s;
  outbox_of_jobs_outcome : forall s,
    outbox_rows (statement_outcome (Row := JobRow.t) s).1 = outbox_rows s;
  outbox_of_queue_outcome : forall s,
    outbox_rows (statement_outcome (Row := QueueRow.t) s).1 = outbox_rows s;
  outbox_of_begin : forall s, outbox_rows (begin_error s).1 = outbox_rows s;
  outbox_of_commit : forall s, outbox_rows (commit_outcome s).1 = outbox_rows s;
  outbox_of_restore : forall s0 s, outbox_rows (restore s0 s) = outbox_rows s0;
  jobs_of_outbox_set : forall l s,
    job_rows (set_outbox_rows l s) = job_rows s /\ queue_rows (set_outbox_rows l s) = queue_rows s;
  jobs_of_outbox_outcome : forall s,
    job_rows (next_outcome s).1 = job_rows s /\ queue_rows (next_outcome s).1 = queue_rows s;
  jobs_of_outbox_uuid : forall s,
    job_rows (gen_random_uuid s).1 = job_rows s /\ queue_rows (gen_random_uuid s).1 = queue_rows s;
  rows_of_utc : forall s, let s' := (read_utc s).1 in
    job_rows s' = job_rows s /\ queue_rows s' = queue_rows s /\ outbox_rows s' = outbox_rows s;
  rows_of_draw : forall s, let s' := (draw_uuid s).1 in
    job_rows s' = job_rows s /\ queue_rows s' = queue_rows s /\ outbox_rows s' = outbox_rows s;
}.

Section queueing.
Context `{E : Externs} {M : MapOrder} `{!JobFormat} `{!EventFormat} {S : Type}.
Context `{!JobDatabase S} `{!JobDatabaseLaws S} `{!OutboxDatabase S} `{!OutboxDatabaseLaws S}.
Context `{!Ambient S} `{!JobOutboxLaws S}.
Import QueueJobUseCase.

Definition tables (s : S) : list JobRow.t * list QueueRow.t * list OutboxEventRow.t :=
  (job_rows s, queue_rows s, outbox_rows s).

Lemma tables_eq s s' :
  job_rows s' = job_rows s -> queue_rows s' = queue_rows s -> outbox_rows s' = outbox_rows s ->
  tables s' = tables s.
Proof. unfold tables. by intros -> -> ->. Qed.

Lemma tables_begin s : tables (begin_error s).1 = tables s.
Proof. destruct (rows_of_begin s) as [??]. apply tables_eq; [done..|apply outbox_of_begin]. Qed.

Lemma tables_commit s : tables (commit_outcome s).1 = tables s.
Proof. destruct (rows_of_commit s) as [??]. apply tables_eq; [done..|apply outbox_of_commit]. Qed.

Lemma tables_restore s0 s : tables (restore s0 s) = tables s0.
Proof. destruct (rows_of_restore s0 s) as [??]. apply tables_eq; [done..|apply outbox_of_restore]. Qed.

Lemma tables_utc s : tables (read_utc s).1 = tables s.
Proof. destruct (rows_of_utc s) as (?&?&?). by apply tables_eq. Qed.

Lemma tables_draw s : tables (draw_uuid s).1 = tables s.
Proof. destruct (rows_of_draw s) as (?&?&?). by apply tables_eq. Qed.

(** However a transaction ends, the tables are as before, and then the answer is
    an error, or they are those of the body. *)
Lemma transaction_cases {F A} (beginning committing : string -> F) (m : method S F A) s :
  let run := transaction beginning committing (fun _ => true) m in
  let s1 := (begin_error s).1 in
  (tables (after run s) = tables s /\ is_err (returns run s) = true) \/
  (exists a, returns m s1 = Ok a /\ tables (after run s) = tables (after m s1)).
Proof.
  unfold transaction, returns, after. pose proof (tables_begin s) as Hb.
  destruct (begin_error s) as [s1 [e|]]; simpl in *; [by left|].
  destruct (m s1) as [s2 [a|e]]; simpl; [|left; by rewrite tables_restore].
  pose proof (tables_commit s2) as Hc. destruct (commit_outcome s2) as [s3 []]; simpl in *.
  - right. by exists a.
  - left. by rewrite tables_restore.
  - right. by exists a.
Qed.

Lemma outbox_of_jobs_write f s : outbox_rows (after (write (Row := JobRow.t) f) s) = outbox_rows s.
Proof.
  unfold after, write. pose proof (outbox_of_jobs_outcome s) as Ho.
  destruct (statement_outcome (Row := JobRow.t) s) as [s1 o]. simpl in Ho.
  destruct o, (f (statement_time s1) (table_rows s1)); simpl; by rewrite ?outbox_of_jobs_set.
Qed.

Lemma outbox_of_queue_write f s : outbox_rows (after (write (Row := QueueRow.t) f) s) = outbox_rows s.
Proof.
  unfold after, write. pose proof (outbox_of_queue_outcome s) as Ho.
  destruct (statement_outcome (Row := QueueRow.t) s) as [s1 o]. simpl in Ho.
  destruct o, (f (statement_time s1) (table_rows s1)); simpl; by rewrite ?outbox_of_queue_set.
Qed.

(** A pending job that is saved in a transaction is the row of its identifier,
    and queued; the outbox is left alone. *)
Lemma saved_in_transaction job s :
  Job.state job = JobState.Pending ->
  returns (PostgresJobRepository.save_with_tx job) s = Ok tt ->
  let s' := after (PostgresJobRepository.save_with_tx job) s in
  exists row, PostgresJobRepository.row_of_job job = Ok row /\
    (exists now, PostgresJobRepository.upsert row now (job_rows s) = Ok (job_rows s')) /\
    (exists q, q ∈ queue_rows s' /\ QueueRow.job_id q = Job.id job) /\
    outbox_rows s' = outbox_rows s.
Proof.
  intros Hst Hok s'. subst s'. unfold PostgresJobRepository.save_with_tx in *.
  apply bind_ok in Hok as (row & Hrow & Hok & ->). cbn in Hrow. exists row. split; [exact Hrow|].
  unfold PostgresJobRepository.save_row in *. apply bind_ok in Hok as ([] & Hw & Hk & ->).
  rewrite !after_mapping in *. apply mapping_ok in Hw.
  rewrite bool_decide_eq_true_2 in * by done. rewrite !after_mapping in *. apply mapping_ok in Hk.
  change (after (lift _) s) with s in *.
  apply jobs_write_ok in Hw as [Hw _]. apply queue_write_ok in Hk as [[now' Hk] Hjobs].
  destruct (insert_queue_elem _ _ _ _ Hk) as [Hin _].
  rewrite Hjobs, outbox_of_queue_write, outbox_of_jobs_write. eauto.
Qed.

Lemma insert_row_taken fresh now e rows rows' k :
  PostgresOutboxRepository.insert_row fresh now e rows = Ok rows' ->
  OutboxEventInsert.idempotency_key e = Some k ->
  existsb (PostgresOutboxRepository.has_key k) rows = true -> rows' = rows.
Proof.
  unfold PostgresOutboxRepository.insert_row. intros Hins Hk Hin. rewrite Hk, Hin in Hins.
  by destruct (negb _); simplify_eq.
Qed.

(** The statement of the outbox leaves the jobs alone; when it is answered, the
    keys of its events are in the outbox, and an outbox that had them is as it was. *)
Lemma inserted_in_transaction event key s :
  OutboxEventInsert.idempotency_key event = Some key ->
  returns (PostgresOutboxRepository.insert_events_with_tx [event]) s = Ok tt ->
  let s' := after (PostgresOutboxRepository.insert_events_with_tx [event]) s in
  job_rows s' = job_rows s /\ queue_rows s' = queue_rows s /\
  existsb (PostgresOutboxRepository.has_key key) (outbox_rows s') = true /\
  (existsb (PostgresOutboxRepository.has_key key) (outbox_rows s) = true ->
   outbox_rows s' = outbox_rows s).
Proof.
  intros Hkey. unfold PostgresOutboxRepository.insert_events_with_tx, returns, after,
    PostgresOutboxRepository.execute, PostgresOutboxRepository.insert_statement.
  destruct (jobs_of_outbox_outcome s) as [Hj Hq]. pose proof (rows_of_outcome s) as Ho.
  destruct (next_outcome s) as [s1 o]. simpl in Hj, Hq, Ho |- *.
  destruct (jobs_of_outbox_uuid s1) as [Hj1 Hq1]. pose proof (rows_of_uuid s1) as Ho1.
  destruct (gen_random_uuid s1) as [s2 fresh]. simpl in Hj1, Hq1, Ho1 |- *.
  destruct (PostgresOutboxRepository.insert_row fresh (transaction_time s1) event (outbox_rows s1))
    as [rows|m] eqn:Hrow; destruct o; simpl; try done. intros _.
  destruct (jobs_of_outbox_set rows s2) as [-> ->]. rewrite rows_of_set.
  split_and!; [congruence..|by eapply insert_row_key|].
  rewrite <- Ho. intros Hin. by eapply insert_row_taken.
Qed.

Lemma upsert_unique row now rows rows' :
  PostgresJobRepository.upsert row now rows = Ok rows' ->
  row ∈ rows' /\ forall x, x ∈ rows' -> JobRow.id x = JobRow.id row -> x = row.
Proof.
  intros Hu. destruct (upsert_filter _ _ _ _ Hu) as [Hhead _]. split.
  - apply (list_elem_of_filter
      (fun r => PostgresJobRepository.has_id (JobRow.id row) r = true) rows' row).
    destruct (filter _ rows'); [done|]. injection Hhead as ->. left.
  - unfold PostgresJobRepository.upsert in Hu. injection Hu as <-. intros x.
    destruct (existsb _ rows) eqn:He.
    + intros (r & -> & _)%list_elem_of_fmap.
      destruct (PostgresJobRepository.has_id (JobRow.id row) r) eqn:Hr; [done|].
      intros Hid. by apply has_id_spec in Hid; rewrite Hid in Hr.
    + rewrite elem_of_app, list_elem_of_singleton. intros [Hx| ->] Hid; [|done].
      apply not_true_iff_false in He. destruct He. apply existsb_exists. exists x.
      split; [by apply list_elem_of_In|by apply has_id_spec].
Qed.

(** The two statements of the use case. *)
Lemma saved_with_event job event key s :
  Job.state job = JobState.Pending -> OutboxEventInsert.idempotency_key event = Some key ->
  returns (save_job_and_event job event) s = Ok tt ->
  let s' := after (save_job_and_event job event) s in
  exists row now, PostgresJobRepository.row_of_job job = Ok row /\
    PostgresJobRepository.upsert row now (job_rows s) = Ok (job_rows s') /\
    (exists q, q ∈ queue_rows s' /\ QueueRow.job_id q = Job.id job) /\
    existsb (PostgresOutboxRepository.has_key key) (outbox_rows s') = true /\
    (existsb (PostgresOutboxRepository.has_key key) (outbox_rows s) = true ->
     outbox_rows s' = outbox_rows s).
Proof.
  intros Hst Hkey Hok s'. subst s'. unfold save_job_and_event in *.
  apply bind_ok in Hok as ([] & Hsave & Hev & ->). rewrite !after_mapping in *.
  apply mapping_ok in Hsave, Hev.
  change (insert_events_with_tx [event]) with
    (mapping_error (PostgresOutboxRepository.insert_events_with_tx [event]) OutboxError.to_domain_error)
    in *.
  rewrite !after_mapping in *. apply mapping_ok in Hev.
  apply saved_in_transaction in Hsave as (row & Hrow & (now & Hups) & Hq & Ho); [|done].
  apply (inserted_in_transaction event key) in Hev as (-> & -> & Hin & Hsame); [|done].
  rewrite <- Ho. eauto 10.
Qed.

(** What queueing a request may leave: the tables of before and an error, or
    the job of an identifier [i] and the key of its event. *)
Definition queued_or_not (r : QueueJobRequest.t) (s : S)
    (res : result DomainError.t QueueJobResponse.t) (s' : S) : Prop :=
  (tables s' = tables s /\ is_err res = true) \/
  (exists i row,
     (forall id, QueueJobRequest.job_id r = Some id -> uuid_parse_str id = Some i) /\
     JobRow.id row = i /\ JobRow.state row = "PENDING" /\ row ∈ job_rows s' /\
     (forall x, x ∈ job_rows s' -> JobRow.id x = i -> x = row) /\
     filter (fun x => JobRow.id x <> i) (job_rows s') =
       filter (fun x => JobRow.id x <> i) (job_rows s) /\
     (exists q, q ∈ queue_rows s' /\ QueueRow.job_id q = i) /\
     existsb (PostgresOutboxRepository.has_key (queued_key i)) (outbox_rows s') = true /\
     (existsb (PostgresOutboxRepository.has_key (queued_key i)) (outbox_rows s) = true ->
      outbox_rows s' = outbox_rows s)).

Lemma queued_or_not_tables r s s0 res s' :
  tables s0 = tables s -> queued_or_not r s0 res s' -> queued_or_not r s res s'.
Proof. intros [= Hj Hq Ho]. unfold queued_or_not, tables. by rewrite Hj, Hq, Ho. Qed.

(** The transaction of the use case. *)
Lemma transaction_queues r i spec created now resp s :
  (forall id, QueueJobRequest.job_id r = Some id -> uuid_parse_str id = Some i) ->
  wp (transaction (database_error "begin transaction") (database_error "commit transaction")
        (fun _ => true) (save_job_and_event (requested_job r i spec created) (queued_event r i spec now));;
      mret resp) (queued_or_not r s) s.
Proof.
  intros Hid. apply wp_bind, wp_run.
  set (job := requested_job r i spec created). set (event := queued_event r i spec now).
  destruct (transaction_cases (database_error "begin transaction") (database_error "commit transaction")
    (save_job_and_event job event) s) as [[Hsame Herr]|([] & Hok & Hafter)].
  { destruct (returns _ s); [done|]. by left. }
  assert (queued_or_not r s (Ok resp) (after (transaction (database_error "begin transaction")
    (database_error "commit transaction") (fun _ => true) (save_job_and_event job event)) s)) as Hq.
  { injection Hafter as Hj Hq Ho. pose proof (tables_begin s) as [= Hj0 _ Ho0].
    destruct (saved_with_event job event (queued_key i) _ eq_refl eq_refl Hok)
      as (row & now' & Hrow & Hups & Hqueued & Hkey & Htaken).
    rewrite Hj0 in Hups. rewrite Ho0 in Htaken. rewrite <- Hj in Hups. rewrite <- Hq in Hqueued.
    rewrite <- Ho in Hkey, Htaken. destruct (row_of_job_keys _ _ Hrow) as [Hri Hrs].
    change (Job.id job) with i in Hri, Hqueued. change (JobRow.state row = "PENDING") in Hrs.
    destruct (upsert_unique _ _ _ _ Hups) as [Hin Huniq].
    destruct (upsert_filter _ _ _ _ Hups) as [_ Hrest].
    rewrite Hri in Huniq, Hrest. right. exists i, row. split_and!; try done.
    assert (forall x, JobRow.id x <> i <-> PostgresJobRepository.has_id i x = false) as Hiff.
    { intros x. rewrite <- (has_id_spec i x). by destruct (PostgresJobRepository.has_id i x). }
    rewrite !(list_filter_iff _ _ _ Hiff). exact Hrest. }
  destruct (returns _ s); [exact Hq|]. destruct Hq as [[_ Hq]|Hq]; [done|by right].
Qed.

(** C14: queueing a job writes the job and its event, or neither.  When the
    answer is [Ok], or an error that came from a commit whose answer was lost,
    the job is the only row of its identifier, it is pending and queued, and the
    key of its event is in the outbox; otherwise no table has changed.

    The identifier may be the client's.  The row that had it before, whatever its
    state was, is then overwritten by the pending one, and the event, whose key
    is taken if the job was queued by this use case, is not written again: that
    is an answer [Ok], and not the error for a duplicate identifier that is
    documented. *)
Theorem queueing_is_all_or_nothing r s :
  queued_or_not r s (returns (execute r) s) (after (execute r) s).
Proof.
  apply (wp_run (execute r) (queued_or_not r s) s). unfold execute. do 2 wp_step.
  destruct (JobSpec.validate _) as [[]|e]; [|by left]. unfold requested_id. wp_step.
  assert (forall i s0, tables s0 = tables s ->
    (forall id, QueueJobRequest.job_id r = Some id -> uuid_parse_str id = Some i) ->
    wp (created ← calling read_utc; now ← calling read_utc;
        transaction (database_error "begin transaction") (database_error "commit transaction")
          (fun _ => true) (save_job_and_event
            (requested_job r i (convert_to_job_spec (QueueJobRequest.spec r)) created)
            (queued_event r i (convert_to_job_spec (QueueJobRequest.spec r)) now));;
        mret (QueueJobResponse.mk (uuid_to_string i) "PENDING"
          "Job queued successfully with transactional outbox")) (queued_or_not r s) s0) as Hrest.
  { intros i s0 Hs0 Hid. apply wp_bind, wp_calling, wp_bind, wp_calling.
    eapply wp_mono; [by apply transaction_queues|]. intros res s'.
    apply queued_or_not_tables. by rewrite !tables_utc. }
  destruct (QueueJobRequest.job_id r) as [id|].
  - wp_step. destruct (uuid_parse_str id) as [i|] eqn:Hi; simpl; [|by left].
    apply Hrest; [done|]. by intros ? [= <-].
  - apply wp_calling. apply Hrest; [apply tables_draw|done].
Qed.
End queueing.

(** *** The use cases on the tables of jobs *)

Section on_tables.
Context `{E : Externs} `{!JobFormat} {W : Type} `{!JobDatabase W} `{!JobDatabaseLaws W}.
Context `{!JobRepository.t W} `{!JobQueue W} `{!EventBus W} `{!Ambient W}.
Import JobUseCases.

(** The repository and the queue are those of PostgreSQL; the bus and the clocks
    leave the tables alone. *)
Hypothesis finding : forall i, JobRepository.find_by_id i = PostgresJobRepository.find_by_id (S := W) i.
Hypothesis updating : forall job, JobRepository.update job = PostgresJobRepository.update (S := W) job.
Hypothesis dequeueing : dequeue_job = PostgresJobQueue.dequeue (S := W).
Hypothesis jobs_of_event : forall e w, job_rows (after (publish_event e) w) = job_rows w.
Hypothesis queue_of_event : forall e w, queue_rows (after (publish_event e) w) = queue_rows w.
Hypothesis jobs_of_utc : forall w, job_rows (read_utc w).1 = job_rows w.
Hypothesis queue_of_utc : forall w, queue_rows (read_utc w).1 = queue_rows w.

Definition same_tables (w w' : W) : Prop := job_rows w' = job_rows w /\ queue_rows w' = queue_rows w.

Lemma announce_tables e w : same_tables w (after (announce e) w).
Proof.
  unfold same_tables, announce, after, mbind, method_bind, result_of.
  specialize (jobs_of_event e w). specialize (queue_of_event e w). unfold after in *.
  by destruct (publish_event e w).
Qed.

(** A saved job is the row of its identifier, until the end of the use case. *)
Definition stored (job : Job.t) (w : W) : Prop :=
  exists row, row ∈ job_rows w /\ JobRow.id row = Job.id job /\
    JobRow.state row = PostgresJobRepository.state_to_string (Job.state job) /\
    (forall x, x ∈ job_rows w -> JobRow.id x = Job.id job -> x = row) /\
    (Job.state job = JobState.Pending ->
     exists q, q ∈ queue_rows w /\ QueueRow.job_id q = Job.id job).

Lemma stored_same job w w' : same_tables w w' -> stored job w -> stored job w'.
Proof. unfold stored. by intros [-> ->]. Qed.

Lemma updated_is_stored job w :
  returns (JobRepository.update job) w = Ok tt -> stored job (after (JobRepository.update job) w).
Proof.
  rewrite updating. intros (row & now & Hrow & Hups & Hq)%save_ok.
  destruct (row_of_job_keys _ _ Hrow) as [Hid Hst]. destruct (upsert_unique _ _ _ _ Hups) as [Hin Hun].
  exists row. rewrite Hid in Hun. by split_and!.
Qed.

(** The tail of the use cases: a clock is read, an event is announced. *)
Lemma announced_stored {X} job (e : DateTime -> DomainEvent.t) (resp : X) w :
  stored job w ->
  wp (now ← calling read_utc; announce (e now);; mret resp)
    (fun r w' => forall x, r = Ok x -> x = resp /\ stored job w') w.
Proof.
  intros Hst. apply wp_bind, wp_calling, wp_bind, wp_run.
  destruct (returns _ _); [|done]. apply wp_ret. intros x [= <-]. split; [done|].
  eapply stored_same; [apply announce_tables|].
  apply (stored_same job w); [|done]. split; [apply jobs_of_utc|apply queue_of_utc].
Qed.

(** A job that is dequeued from the tables is [Failed]. *)
Lemma dequeued_is_failed w job : returns dequeue_job w = Ok (Some job) -> Job.state job = JobState.Failed.
Proof.
  rewrite dequeueing. intros (row & (s1 & Hc & _) & Hmap)%dequeue_some.
  apply job_of_row_state in Hmap as (_ & -> & _). by destruct (claimed_row _ _ _ Hc) as (r & _ & ->).
Qed.

Lemma bind_called {F A B} (f : W -> W * A) (k : A -> method W F B) w b :
  returns (a ← calling f; k a) w = Ok b ->
  returns (k (f w).2) (f w).1 = Ok b /\
  after (a ← calling f; k a) w = after (k (f w).2) (f w).1.
Proof. unfold returns, after, calling, mbind, method_bind. by destruct (f w). Qed.

(** The world when the readings of the use case are done, and the event it publishes. *)
Definition readings_done (w : W) : W :=
  (read_utc (read_utc (draw_uuid (draw_uuid (read_utc (draw_uuid w).1).1).1).1).1).1.
Definition scheduled_event (job : Job.t) (now : DateTime) : DomainEvent.t :=
  let metadata := EventMetadata.from_job_metadata (Job.metadata job) (Job.id job) in
  DomainEvent.JobStatusChanged (Job.id job) JobState.Failed JobState.Scheduled now
    (EventMetadata.correlation_id metadata) (EventMetadata.actor metadata).

Lemma failed_is_not_submitted provider context now job : Job.state job = JobState.Failed ->
  exists e, Job.submit_to_provider provider context now job = (job, Err e).
Proof.
  intros Hst. unfold Job.submit_to_provider, self, ensure, mbind, method_bind. rewrite Hst.
  simpl. eauto.
Qed.

(** C15: a job that is executed by the use case is recorded as failed.  The job that is
    dequeued is [Failed]; no submission of it is accepted; it is saved as it is, and
    nothing is done after that but to publish the event that it went from [Failed] to
    [Scheduled]; and the answer is that it was submitted. *)
Theorem executed_jobs_are_failed w resp :
  returns execute_next_job w = Ok resp ->
  exists job, returns dequeue_job w = Ok (Some job) /\ Job.state job = JobState.Failed /\
    (forall provider context now, exists e, Job.submit_to_provider provider context now job = (job, Err e)) /\
    resp = ExecuteNextJobResponse.mk (uuid_to_string (Job.id job)) "provider-001" "SUBMITTED"
      "Job submitted for execution" /\
    (let w0 := readings_done (after dequeue_job w) in let w1 := after (JobRepository.update job) w0 in
     returns (JobRepository.update job) w0 = Ok tt /\
     after execute_next_job w = after (announce (scheduled_event job (read_utc w1).2)) (read_utc w1).1) /\
    exists row, row ∈ job_rows (after execute_next_job w) /\ JobRow.id row = Job.id job /\
      JobRow.state row = "FAILED" /\
      forall x, x ∈ job_rows (after execute_next_job w) -> JobRow.id x = Job.id job -> x = row.
Proof.
  unfold execute_next_job. intros (next & Hd & Hk & Ha)%bind_ok. apply bind_ok in Hk as (job & Hj & Hk & Ha').
  destruct next as [j|]; [|done]. injection Hj as ->. pose proof (dequeued_is_failed _ _ Hd) as Hst.
  rewrite Ha, Ha'. clear Ha Ha'. change (after (lift _) (after dequeue_job w)) with (after dequeue_job w) in *.
  do 6 (apply bind_called in Hk as (Hk & ->)). cbv zeta in Hk |- *.
  match type of Hk with context [Job.submit_to_provider ?p ?c ?t job] =>
    destruct (failed_is_not_submitted p c t job Hst) as [e He] end.
  rewrite He, Hst in *. apply bind_ok in Hk as ([] & Hu & Hk & ->). apply bind_called in Hk as (Hk & ->).
  apply bind_ok in Hk as ([] & Hp & Hk & ->). injection Hk as <-.
  exists job. split_and!; [done|done|by intros; apply failed_is_not_submitted|done|done|done|].
  apply updated_is_stored in Hu. fold (readings_done (after dequeue_job w)) in *.
  set (w1 := after (JobRepository.update job) _) in *.
  assert (stored job (after (announce (scheduled_event job (read_utc w1).2)) (read_utc w1).1))
    as (row & Hin & Hi & Hrow & Hun & _).
  { eapply stored_same; [apply announce_tables|]. apply (stored_same job w1); [|done].
    split; [apply jobs_of_utc|apply queue_of_utc]. }
  exists row. by rewrite Hst in Hrow.
Qed.

(** A job that is retried is pending, in the table and in the queue. *)
Theorem retried_jobs_are_queued w i ctx resp :
  returns (retry_job i ctx) w = Ok resp ->
  let w' := after (retry_job i ctx) w in
  RetryJobResponse.status resp = "PENDING" /\
  exists row, row ∈ job_rows w' /\ JobRow.id row = i /\ JobRow.state row = "PENDING" /\
    (exists q, q ∈ queue_rows w' /\ QueueRow.job_id q = i).
Proof.
  intros Hok w'. pose (Q := fun (r : result DomainError.t RetryJobResponse.t) w' => r = Ok resp ->
    RetryJobResponse.status resp = "PENDING" /\
    exists job, Job.id job = i /\ Job.state job = JobState.Pending /\ stored job w').
  assert (wp (retry_job i ctx) Q w) as Hwp.
  { unfold retry_job. apply wp_bind. unfold existing_job. apply wp_bind, wp_run.
    destruct (returns (JobRepository.find_by_id i) w) as [[job|]|e] eqn:Hf; [|done..].
    rewrite finding in Hf. apply find_by_id_ok in Hf as (row0 & _ & Hi & Hmap).
    apply job_of_row_state in Hmap as (Hid & _).
    apply wp_lift. change (ok_or (Some job) _) with (Ok (E := DomainError.t) job). cbv beta iota zeta.
    apply wp_bind. unfold on_job. destruct (Job.prepare_retry job) as [job' r] eqn:Hr.
    apply wp_bind, wp_lift. destruct r as [[]|e]; [|done]. apply wp_ret.
    assert (Job.id job' = i /\ Job.state job' = JobState.Pending) as [Hid' Hst'].
    { unfold Job.prepare_retry, self, ensure, assign, modify, mbind, method_bind in Hr.
      destruct (Job.can_retry job); simplify_eq/=. done. }
    apply wp_bind, wp_run. destruct (returns (JobRepository.update job') _) as [[]|e] eqn:Hu; [|done].
    eapply wp_mono; [by apply (announced_stored job'), updated_is_stored|].
    intros res w1 Hres Hr1. destruct (Hres _ Hr1) as [-> Hj]. split; [by simpl; rewrite Hst'|].
    by exists job'. }
  apply wp_run in Hwp. destruct (Hwp Hok) as (Hsub & job & Hid & Hst & row & Hin & Hri & Hrs & _ & Hq).
  split; [done|]. exists row. rewrite Hid in *. split_and!; [done..|by rewrite Hrs, Hst|by apply Hq].
Qed.

End on_tables.

(** *** Completing a job *)

(** The jobs behind the ports: a lookup reads them, a save writes them or, when
    it fails, may have written them; nothing else does. *)
Class JobPortsLaws `{E : Externs} (F W : Type) `{!JobPorts F W} `{!EventPublishingPort F W}
    `{!Ambient W} := {
  port_jobs : W -> gmap JobId Job.t;
  port_find_reads : forall i w, port_jobs (after (find_job_by_id i) w) = port_jobs w;
  port_find_ok : forall i w o, returns (find_job_by_id i) w = Ok o -> o = port_jobs w !! i;
  port_find_id : forall i w job, port_jobs w !! i = Some job -> Job.id job = i;
  port_save_ok : forall job w, returns (save_job job) w = Ok tt ->
    port_jobs (after (save_job job) w) = <[Job.id job := job]> (port_jobs w);
  port_save_err : forall job w, port_jobs (after (save_job job) w) = port_jobs w \/
    port_jobs (after (save_job job) w) = <[Job.id job := job]> (port_jobs w);
  port_publish_keeps : forall e w, port_jobs (after (port_publish_event e) w) = port_jobs w;
  port_utc_keeps : forall w, port_jobs (read_utc w).1 = port_jobs w;
}.

(** What a use case of this kind does to the jobs: nothing, with an error, or the
    change of the job that it found. *)
Lemma settled_or_not `{E : Externs} {F W : Type} `{!JobPorts F W} `{!EventPublishingPort F W}
    `{!Ambient W} `{!JobPortsLaws F W} i missing refusing now m st (w : W) :
  wp (settle_job (F := F) i missing refusing now m st) (fun r w' =>
    (port_jobs w' = port_jobs w /\ is_err r = true) \/
    exists job job', port_jobs w !! i = Some job /\ m job = (job', Ok tt) /\
      port_jobs w' = <[Job.id job' := job']> (port_jobs w)) w.
Proof.
  unfold settle_job. apply wp_bind, wp_run. pose proof (port_find_reads i w) as Hreads.
  destruct (returns (find_job_by_id i) w) as [[job|]|e] eqn:Hf; [|by left..].
  apply port_find_ok in Hf. set (w1 := after (find_job_by_id i) w) in *. apply wp_bind, wp_lift.
  change (ok_or (Some job) missing) with (Ok (E := F) job). cbv beta iota.
  destruct (m job) as [job' r] eqn:Hm. apply wp_bind, wp_lift. destruct r as [[]|e]; [|by left].
  apply wp_bind, wp_run. destruct (returns (save_job job') w1) as [[]|e] eqn:Hs; simpl.
  - apply port_save_ok in Hs. apply wp_bind, wp_calling, wp_bind, wp_run.
    assert (port_jobs (after (port_publish_event
      (DomainEvent.JobStatusChanged (Job.id job') JobState.Running st
        (read_utc (after (save_job job') w1)).2 None None)) (read_utc (after (save_job job') w1)).1) =
      <[Job.id job' := job']> (port_jobs w)) as Hend
      by (by rewrite port_publish_keeps, port_utc_keeps, Hs, Hreads).
    destruct (returns (port_publish_event _) _); [apply wp_ret|]; right; by exists job, job'.
  - destruct (port_save_err job' w1) as [->| ->]; rewrite Hreads; [by left|right].
    by exists job, job'.
Qed.

Section completing.
Context `{E : Externs} {W : Type}.
Context `{!JobPorts CompletionError.t W} `{!EventPublishingPort CompletionError.t W} `{!Ambient W}.
Context `{!JobPortsLaws CompletionError.t W}.
Import CompleteJobUseCase.

(** The job as it is completed at [now] by the command. *)
Definition completed (c : CompleteJobCommand.t) (now : DateTime) (job : Job.t) : Job.t :=
  job <| Job.state := JobState.Succeeded |> <| Job.completed_at := Some now |>
      <| Job.result := Some (JobResult.Success (CompleteJobCommand.exit_code c)
           (CompleteJobCommand.output c) (default "" (CompleteJobCommand.error_output c))) |>.

Definition completion_effect (c : CompleteJobCommand.t) (w w' : W) : Prop :=
  exists job now, port_jobs w !! CompleteJobCommand.job_id c = Some job /\
    Job.state job = JobState.Running /\
    port_jobs w' = <[CompleteJobCommand.job_id c := completed c now job]> (port_jobs w).

(** What is answered with an error has had no effect, or the whole. *)
Lemma completed_or_not c w :
  (port_jobs (after (execute c) w) = port_jobs w /\ is_err (returns (execute c) w) = true) \/
  completion_effect c w (after (execute c) w).
Proof.
  apply (wp_run (execute c) (fun r w' => (port_jobs w' = port_jobs w /\ is_err r = true) \/
    completion_effect c w w') w). unfold execute. apply wp_bind, wp_calling, wp_bind.
  eapply wp_mono; [apply settled_or_not|]. intros r w' Hcase. rewrite port_utc_keeps in Hcase.
  assert ((port_jobs w' = port_jobs w /\ is_err r = true) \/ completion_effect c w w') as Hc.
  { destruct Hcase as [Hsame|(job & job' & Hf & Hm & Hj)]; [by left|right].
    unfold Job.complete, self, ensure, assign, modify, mbind, method_bind in Hm.
    destruct (Job.state job) eqn:Hst; simplify_eq/=. exists job, (read_utc w).2.
    split_and!; [done..|]. by rewrite <- (port_find_id _ _ _ Hf). }
  destruct r as [job|e]; [|exact Hc]. apply wp_ret. destruct Hc as [[_ ?]|?]; [done|by right].
Qed.

(** A completion that is answered with [Ok] has made a running job a
    succeeded one, and changed nothing else.  One that is answered with an error
    may have done so too, when it is the event that cannot be published; the
    command is then refused from there on, without effect, as for every job that
    is not [Running], so that the change is never announced. *)
Theorem completion_may_be_unannounced c w :
  let w' := after (execute c) w in
  (match returns (execute c) w with
   | Ok _ => completion_effect c w w'
   | Err _ => port_jobs w' = port_jobs w \/ completion_effect c w w'
   end) /\
  (forall w1, completion_effect c w w' -> port_jobs w1 = port_jobs w' ->
     is_err (returns (execute c) w1) = true /\ port_jobs (after (execute c) w1) = port_jobs w1).
Proof.
  intros w'. split.
  - destruct (completed_or_not c w) as [[Hsame Herr]|Heff]; destruct (returns (execute c) w); auto.
    done.
  - intros w1 (job & now & _ & _ & Hj) Hw1. rewrite Hj in Hw1.
    destruct (completed_or_not c w1) as [[? ?]|(job1 & now1 & Hf & Hst & _)]; [done|].
    rewrite Hw1, lookup_insert_eq in Hf. by injection Hf as <-.
Qed.

End completing.

(** ** Evaluation *)

#[local] Existing Instance concrete_order.
#[local] Existing Instance concrete_format.

(** The tables of jobs, and the outbox with the clock, the identifiers and the
    bus. *)
Module ExampleJobs.

Record t := mk { store : ExampleStore.t; outbox : ExampleDatabase.world }.

#[global] Instance t_rebuild : Rebuild t := fun w => mk (store w) (outbox w).

#[global] Instance jobs_sheet : Table (E := concrete) t (JobRow.t (E := concrete)) :=
  @Build_Table concrete t (JobRow.t (E := concrete)) (fun w => table_rows (E := concrete) (store w))
    (fun l w => w <| store := set_table_rows (E := concrete) l (store w) |>)
    (fun w => statement_time (E := concrete) (Row := JobRow.t (E := concrete)) (store w))
    (fun w => let (s, o) := statement_outcome (E := concrete) (Row := JobRow.t (E := concrete)) (store w)
              in (w <| store := s |>, o)).
#[global] Instance queue_sheet : Table (E := concrete) t (QueueRow.t (E := concrete)) :=
  @Build_Table concrete t (QueueRow.t (E := concrete)) (fun w => table_rows (E := concrete) (store w))
    (fun l w => w <| store := set_table_rows (E := concrete) l (store w) |>)
    (fun w => statement_time (E := concrete) (Row := QueueRow.t (E := concrete)) (store w))
    (fun w => let (s, o) := statement_outcome (E := concrete) (Row := QueueRow.t (E := concrete)) (store w)
              in (w <| store := s |>, o)).

#[global] Instance transactions : Transactions t := {|
  begin_error := fun w => (w, None);
  commit_outcome := fun w => (w, Executed);
  restore := fun w0 _ => w0;
|}.

#[global] Instance job_database : JobDatabase (E := concrete) t := {|
  order_by_created := fun l => l;
  order_by_created_desc := fun l => l;
  order_by_enqueued := fun l => l;
  order_by_priority := fun l => l;
|}.

#[global] Instance outbox_database : OutboxDatabase (E := concrete) t := {|
  outbox_rows := fun w => outbox_rows (E := concrete) (outbox w);
  set_outbox_rows := fun l w => w <| outbox := set_outbox_rows (E := concrete) l (outbox w) |>;
  transaction_time := fun w => transaction_time (E := concrete) (outbox w);
  gen_random_uuid := fun w => let (o, u) := gen_random_uuid (E := concrete) (outbox w) in
    (w <| outbox := o |>, u);
  next_outcome := fun w => let (o, x) := next_outcome (E := concrete) (outbox w) in
    (w <| outbox := o |>, x);
  locked_by_others := fun _ _ => false;
  order_by_created_at := order_by_created_at (E := concrete) (S := ExampleDatabase.world);
  violation := violation (E := concrete) (S := ExampleDatabase.world);
  minus_seconds := minus_seconds (E := concrete) (S := ExampleDatabase.world);
  epoch_seconds := epoch_seconds (E := concrete) (S := ExampleDatabase.world);
|}.

#[global] Instance ambient : Ambient (E := concrete) t :=
  @Build_Ambient concrete t
    (fun w =>
      (w <| outbox := outbox w <| ExampleDatabase.clock := ExampleDatabase.clock (outbox w) + 1 |> |>,
       ExampleDatabase.clock (outbox w)))
    (fun w => (w, ExampleDatabase.clock (outbox w)))
    (fun w =>
      (w <| outbox := outbox w <| ExampleDatabase.ids := S (ExampleDatabase.ids (outbox w)) |> |>,
       ExampleDatabase.ids (outbox w))).

#[global] Instance bus : EventBus (E := concrete) t := {|
  publish_event := fun e w =>
    (w <| outbox := outbox w <| ExampleDatabase.log := ExampleDatabase.log (outbox w) ++ [e] |> |>, Ok tt);
|}.

#[global] Instance queue : JobQueue (E := concrete) t := {|
  enqueue_job := PostgresJobQueue.enqueue;
  dequeue_job := PostgresJobQueue.dequeue;
  peek_job := PostgresJobQueue.peek;
  queue_len := PostgresJobQueue.len;
  queue_is_empty := PostgresJobQueue.is_empty;
  clear_queue := PostgresJobQueue.clear;
|}.

#[global] Instance repository : JobRepository.t (E := concrete) t := {|
  JobRepository.save := PostgresJobRepository.save;
  JobRepository.find_by_id := PostgresJobRepository.find_by_id;
  JobRepository.find := fun _ => mret [];
  JobRepository.find_by_state := PostgresJobRepository.find_by_state;
  JobRepository.find_pending := mret [];
  JobRepository.find_all := fun _ _ => mret ([], 0%nat);
  JobRepository.find_by_execution_id := fun _ => mret None;
  JobRepository.count_by_state := fun _ => mret 0;
  JobRepository.delete := PostgresJobRepository.delete;
  JobRepository.update := PostgresJobRepository.update;
  JobRepository.update_state := PostgresJobRepository.update_state;
|}.

#[global] Instance laws : JobDatabaseLaws (E := concrete) t.
Proof.
  split; try done.
  - split; [done|]. intros [[[r c [|o os]] q] b]; done.
  - split; [done|]. intros [[j [r c [|o os]]] b]; done.
  - intros [[[r c [|o os]] q] b]; done.
  - intros [[j [r c [|o os]]] b]; done.
Qed.

#[global] Instance outbox_laws : OutboxDatabaseLaws (E := concrete) t.
Proof.
  split; try done.
  - intros [s [r i c [|o os] l b]]; done.
  - apply (order_permutes (E := concrete) (S := ExampleDatabase.world)).
  - apply (order_sorts (E := concrete) (S := ExampleDatabase.world)).
Qed.

#[global] Instance both_laws : JobOutboxLaws (E := concrete) t.
Proof.
  split; try done.
  - intros [[[r c [|o os]] q] b]; done.
  - intros [[j [r c [|o os]]] b]; done.
  - intros [s [r i c [|o os] l b]]; done.
Qed.

Definition empty : t := mk ExampleStore.empty (ExampleDatabase.mk [] 20 5 [] [] 0).

(** The client's identifier is that of seven letters, 7. *)
Definition request : QueueJobRequest.t :=
  QueueJobRequest.mk (JobSpecRequest.of_command ["make"]) None None (Some "uuuuuuu").

Definition queue_job : method t (DomainError.t (E := concrete)) QueueJobResponse.t :=
  QueueJobUseCase.execute (E := concrete) request.

Definition states (w : t) : list string := JobRow.state <$> Sheet.rows (ExampleStore.jobs (store w)).

(** The job is queued, and then runs. *)
Definition running : t :=
  after (PostgresJobRepository.update_state (E := concrete) 7%nat JobState.Running)
    (after queue_job empty).

End ExampleJobs.

(** The identifier of a running job is queued again: the job is pending again,
    and there is one event. *)
Example queued_twice :
  ExampleJobs.states ExampleJobs.running = ["RUNNING"] /\
  is_ok (returns ExampleJobs.queue_job ExampleJobs.running) = true /\
  ExampleJobs.states (after ExampleJobs.queue_job ExampleJobs.running) = ["PENDING"] /\
  length (outbox_rows (E := concrete) (after ExampleJobs.queue_job ExampleJobs.running)) = 1%nat.
Proof. repeat split. Qed.

(** The command of the cancellation saga writes over a job that has succeeded. *)
Example succeeded_job_is_cancelled :
  let succeeded := after (PostgresJobRepository.update_state (E := concrete) 7%nat JobState.Succeeded)
    ExampleJobs.running in
  let cancelling := UpdateJobStateHandler.handle (E := concrete) (S := ExampleJobs.t)
    (UpdateJobStateCommand.cancel (E := concrete) 7%nat "saga" 0%nat 0) in
  ExampleJobs.states succeeded = ["SUCCEEDED"] /\
  JobState.can_transition_to JobState.Succeeded JobState.Cancelled = false /\
  is_ok (returns cancelling succeeded) = true /\
  ExampleJobs.states (after cancelling succeeded) = ["CANCELLED"].
Proof. repeat split. Qed.

Example queueing_is_all_or_nothing_witness :
  queued_or_not (E := concrete) (S := ExampleJobs.t) ExampleJobs.request ExampleJobs.running
    (returns (QueueJobUseCase.execute (E := concrete) ExampleJobs.request) ExampleJobs.running)
    (after (QueueJobUseCase.execute (E := concrete) ExampleJobs.request) ExampleJobs.running).
Proof.
  exact (queueing_is_all_or_nothing (E := concrete) (S := ExampleJobs.t) ExampleJobs.request
    ExampleJobs.running).
Defined.

Example executed_jobs_are_failed_witness :
  let w := after ExampleJobs.queue_job ExampleJobs.empty in
  is_ok (returns (JobUseCases.execute_next_job (E := concrete)) w) = true /\
  exists row, row ∈ table_rows (E := concrete) (Row := JobRow.t (E := concrete))
    (after (JobUseCases.execute_next_job (E := concrete)) w) /\ JobRow.state row = "FAILED".
Proof.
  intros w. split; [reflexivity|].
  pose proof (executed_jobs_are_failed (E := concrete) (W := ExampleJobs.t) (fun _ => eq_refl) eq_refl
    (fun _ _ => eq_refl) (fun _ _ => eq_refl) (fun _ => eq_refl) (fun _ => eq_refl)) as Hthm.
  destruct (Hthm w (ExecuteNextJobResponse.mk "uuuuuuu" "provider-001" "SUBMITTED"
    "Job submitted for execution")) as (job & _ & _ & _ & _ & _ & row & Hin & _ & Hst & _); [reflexivity|].
  exists row. exact (conj Hin Hst).
Defined.

(** Jobs behind the ports, and a bus that is down. *)
Module ExamplePorts.

Record t := mk { jobs : list (Job.t (E := concrete)); clock : Z }.

Definition contents (w : t) : gmap nat (Job.t (E := concrete)) :=
  list_to_map ((fun j => (Job.id j, j)) <$> jobs w).

#[global] Instance ports : JobPorts (E := concrete) (CompletionError.t (E := concrete)) t := {|
  find_job_by_id := fun i w => (w, Ok (contents w !! i));
  save_job := fun job w => (mk (job :: jobs w) (clock w), Ok tt);
|}.

#[global] Instance events : EventPublishingPort (E := concrete) (CompletionError.t (E := concrete)) t := {|
  port_publish_event := fun _ => throw (CompletionError.CompletionFailed "no servers");
  port_insert_outbox_events := fun _ => mret tt;
|}.

#[global] Instance ambient : Ambient (E := concrete) t :=
  @Build_Ambient concrete t (fun w => (mk (jobs w) (clock w + 1), clock w)) (fun w => (w, clock w))
    (fun w => (w, 0%nat)).

#[global] Instance laws : JobPortsLaws (E := concrete) (CompletionError.t (E := concrete)) t.
Proof.
  refine (@Build_JobPortsLaws concrete _ t _ _ _ contents _ _ _ _ _ _ _); try done.
  - by intros i w o [= <-].
  - intros i w job Hj. unfold contents in Hj. apply elem_of_list_to_map_2 in Hj.
    by apply list_elem_of_fmap in Hj as (j & [= -> ->] & _).
  - intros job w. by right.
Defined.

Definition command : CompleteJobCommand.t (E := concrete) :=
  CompleteJobCommand.mk (E := concrete) 7%nat "exec" 0 "done" None.

Definition start : t := mk [ExampleStore.job <| Job.state := JobState.Running |>] 9.
Definition stop : t := after (CompleteJobUseCase.execute (E := concrete) command) start.

End ExamplePorts.

Example completion_may_be_unannounced_witness :
  Job.state <$> ExamplePorts.jobs ExamplePorts.stop = [JobState.Succeeded; JobState.Running] /\
  is_err (returns (CompleteJobUseCase.execute (E := concrete) ExamplePorts.command) ExamplePorts.stop)
    = true.
Proof.
  split; [reflexivity|].
  pose proof (completion_may_be_unannounced (E := concrete) ExamplePorts.command ExamplePorts.start)
    as [_ Hthm].
  destruct (Hthm ExamplePorts.stop) as [Herr _]; [|reflexivity|exact Herr].
  exists (ExampleStore.job <| Job.state := JobState.Running |>), 9. repeat split.
Defined.
