(* ===== verification/FailureHandlers.v ===== *)
(** * The handlers of failures
    ([crates/server/application/src/jobs/event_subscriber.rs,
    dispatch_failure_handler.rs, job_completion_handler.rs,
    scheduling/failure_handler.rs, workers/provisioning_failure_handler.rs])

    Each handler looks for one kind of domain event and answers it with events
    that it writes into the outbox, with a change of the state of the job, or with
    the removal of a worker.  The subscriber passes every event to all of them.
    A [Box<dyn Error>] is what it prints; the derived [Debug] of a reason is a
    parameter.

    The theorems at the end say what becomes of the events that are written. *)

From S2P Require Import Prelude Effects Std Externs States Errors Job Worker Events Services Orchestrator Steps CommandOutbox Sql Outbox OutboxTable AppServices JobStore JobUseCases.

Section handlers.
Context `{E : Externs}.

(** src: crates/server/application/src/jobs/event_subscriber.rs 16-21 EventHandler *)
Definition EventHandler (W : Type) : Type := DomainEvent.t -> method W string unit.

End handlers.

Module EventSubscriber.
Section subscriber.
Context `{E : Externs} {W : Type}.

(** An error of a handler is logged. *)
(** src: crates/server/application/src/jobs/event_subscriber.rs 82-86 EventSubscriber::subscribe (routing) *)
Fixpoint route (handlers : list (EventHandler W)) (e : DomainEvent.t) (w : W) : W :=
  match handlers with
  | [] => w
  | handler :: handlers => route handlers e (after (handler e) w)
  end.

(** What the stream yields, until it ends or the subscriber is shut down. *)
(** src: crates/server/application/src/jobs/event_subscriber.rs 73-105 EventSubscriber::subscribe (loop) *)
Fixpoint process (handlers : list (EventHandler W)) (received : list (result EventBusError.t DomainEvent.t))
    (w : W) : W :=
  match received with
  | [] => w
  | Ok e :: received => process handlers received (route handlers e w)
  | Err _ :: received => process handlers received w
  end.

End subscriber.
End EventSubscriber.

(** [insert_events(&[event]).await.map_err(..)?] *)
Definition insert_event `{E : Externs} {W} `{!OutboxRepository W} (e : OutboxEventInsert.t) :
    method W string unit :=
  mapping_error (insert_events [e]) OutboxError.fmt.

Definition str `{E : Externs} (s : string) : Json := json_of_string s.

(** The final failure that three of the handlers write, as of [now]. *)
Definition job_failed_event `{E : Externs} (job : JobId) (previous reason : string)
    (metadata : list (string * Json)) (now : DateTime) : OutboxEventInsert.t :=
  OutboxEventInsert.for_job job "JobStatusChanged"
    (json_object [
      ("job_id", str (uuid_to_string job)); ("previous_state", str previous);
      ("new_state", str "Failed"); ("failure_reason", str reason)])
    (Some (json_object metadata))
    (Some ("job-failed-" +:+ uuid_to_string job +:+ "-" +:+ show_Z (datetime_timestamp now))).

(** The state of the job is set, and then the event is written. *)
Definition fail_and_announce `{E : Externs} {W} `{!JobRepository.t W} `{!OutboxRepository W} `{!Ambient W}
    (job : JobId) (previous reason : string) (metadata : list (string * Json)) : method W string unit :=
  with_message DomainError.fmt (JobRepository.update_state job JobState.Failed);;
  now ← calling read_utc;
  insert_event (job_failed_event job previous reason metadata now).

(** ** Failed dispatches *)

Module DispatchFailureHandler.
Section handler.
Context `{E : Externs} {W : Type} `{!JobRepository.t W} `{!OutboxRepository W} `{!Ambient W}.
Context (debug : DispatchFailureReason.t -> string).

(** src: crates/server/application/src/jobs/dispatch_failure_handler.rs 25-25 MAX_DISPATCH_RETRIES *)
Definition MAX_DISPATCH_RETRIES : Z := 3.

(** src: crates/server/application/src/jobs/dispatch_failure_handler.rs 102-121 DispatchFailureHandler::emit_job_requeued (event) *)
Definition requeued_event (job : JobId) (next_retry backoff_secs : Z) : OutboxEventInsert.t :=
  OutboxEventInsert.for_job job "JobRequeued"
    (json_object [
      ("job_id", str (uuid_to_string job)); ("retry_count", json_of_Z next_retry);
      ("backoff_seconds", json_of_Z backoff_secs); ("reason", str "DISPATCH_FAILURE")])
    (Some (json_object [
      ("source", str "DispatchFailureHandler"); ("handler_type", str "retry");
      ("retry_attempt", json_of_Z next_retry); ("backoff_seconds", json_of_Z backoff_secs)]))
    (Some ("job-requeued-" +:+ uuid_to_string job +:+ "-" +:+ show_Z next_retry)).

(** src: crates/server/application/src/jobs/dispatch_failure_handler.rs 96-136 DispatchFailureHandler::emit_job_requeued *)
Definition emit_job_requeued (job : JobId) (next_retry backoff_secs : Z) : method W string unit :=
  _ ← calling read_utc;
  insert_event (requeued_event job next_retry backoff_secs).

(** src: crates/server/application/src/jobs/dispatch_failure_handler.rs 139-190 DispatchFailureHandler::mark_job_failed *)
Definition mark_job_failed (job : JobId) (reason : DispatchFailureReason.t) : method W string unit :=
  let reason_str := "Dispatch failed after " +:+ show_Z MAX_DISPATCH_RETRIES +:+ " retries: "
    +:+ debug reason in
  fail_and_announce job "Assigned" reason_str
    [("source", str "DispatchFailureHandler"); ("handler_type", str "final_failure");
     ("max_retries", json_of_Z MAX_DISPATCH_RETRIES)].

(** src: crates/server/application/src/jobs/dispatch_failure_handler.rs 55-91 DispatchFailureHandler::handle_event *)
Definition handle_event : EventHandler W := fun e =>
  match e with
  | DomainEvent.JobDispatchFailed job _ reason retry_count _ _ _ =>
      if retry_count <? MAX_DISPATCH_RETRIES
      then emit_job_requeued job (u32_add retry_count 1) (2 ^ retry_count)
      else mark_job_failed job reason
  | _ => mret tt
  end.

End handler.
End DispatchFailureHandler.

(** ** Failed scheduling decisions *)

Module SchedulingFailureHandler.
Section handler.
Context `{E : Externs} {W : Type} `{!JobRepository.t W} `{!OutboxRepository W} `{!Ambient W}.

(** src: crates/server/application/src/scheduling/failure_handler.rs 24-24 MAX_SCHEDULING_RETRIES *)
Definition MAX_SCHEDULING_RETRIES : Z := 5.
(** src: crates/server/application/src/scheduling/failure_handler.rs 27-27 BASE_BACKOFF_SECS *)
Definition BASE_BACKOFF_SECS : Z := 30.

(** src: crates/server/application/src/scheduling/failure_handler.rs 192-229 SchedulingFailureHandler::schedule_retry *)
Definition schedule_retry (job : JobId) (backoff_secs : Z) : method W string unit :=
  let retry_count := 1 in
  insert_event (OutboxEventInsert.for_job job "JobRequeued"
    (json_object [
      ("job_id", str (uuid_to_string job)); ("retry_count", json_of_Z retry_count);
      ("backoff_seconds", json_of_Z backoff_secs); ("reason", str "SCHEDULING_FAILURE")])
    (Some (json_object [
      ("source", str "SchedulingFailureHandler"); ("handler_type", str "retry");
      ("backoff_seconds", json_of_Z backoff_secs)]))
    (Some ("job-scheduling-retry-" +:+ uuid_to_string job +:+ "-" +:+ show_Z retry_count))).

(** The count is always 1, and the backoff the base. *)
(** src: crates/server/application/src/scheduling/failure_handler.rs 232-273 SchedulingFailureHandler::schedule_retry_with_backoff *)
Definition schedule_retry_with_backoff (job : JobId) : method W string unit :=
  let retry_count := 1 in
  let backoff_secs := BASE_BACKOFF_SECS * 2 ^ (retry_count - 1) in
  insert_event (OutboxEventInsert.for_job job "JobRequeued"
    (json_object [
      ("job_id", str (uuid_to_string job)); ("retry_count", json_of_Z retry_count);
      ("backoff_seconds", json_of_Z backoff_secs); ("reason", str "SCHEDULING_BACKPRESSURE");
      ("retry_strategy", str "exponential_backoff")])
    (Some (json_object [
      ("source", str "SchedulingFailureHandler"); ("handler_type", str "backpressure_retry");
      ("retry_attempt", json_of_Z retry_count); ("backoff_seconds", json_of_Z backoff_secs);
      ("max_retries", json_of_Z MAX_SCHEDULING_RETRIES)]))
    (Some ("job-scheduling-backoff-" +:+ uuid_to_string job +:+ "-" +:+ show_Z retry_count))).

(** The key of an alert is that of its kind and its second. *)
(** src: crates/server/application/src/scheduling/failure_handler.rs 276-309 SchedulingFailureHandler::emit_alert *)
Definition emit_alert (alert_type : string) (job : JobId) : method W string unit :=
  now ← calling read_utc;
  insert_event (OutboxEventInsert.for_job job "SystemAlert"
    (json_object [
      ("alert_type", str alert_type); ("job_id", str (uuid_to_string job));
      ("severity", str (if String.eqb alert_type "PROVIDERS_OVERLOADED" then "warning" else "info"));
      ("message", str ("Scheduling failure: " +:+ alert_type))])
    (Some (json_object [
      ("source", str "SchedulingFailureHandler"); ("alert_category", str "scheduling")]))
    (Some ("alert-" +:+ alert_type +:+ "-" +:+ show_Z (datetime_timestamp now)))).

(** src: crates/server/application/src/scheduling/failure_handler.rs 312-356 SchedulingFailureHandler::mark_job_failed *)
Definition mark_job_failed (job : JobId) (reason : string) : method W string unit :=
  fail_and_announce job "Pending" reason
    [("source", str "SchedulingFailureHandler"); ("handler_type", str "final_failure")].

(** src: crates/server/application/src/scheduling/failure_handler.rs 88-189 SchedulingFailureHandler::handle_failure *)
Definition handle_failure (job : JobId) (reason : SchedulingFailureReason.t) : method W string unit :=
  match reason with
  | SchedulingFailureReason.NoProvidersAvailable =>
      emit_alert "NO_PROVIDERS_AVAILABLE" job;; schedule_retry job BASE_BACKOFF_SECS
  | SchedulingFailureReason.ProviderOverloaded =>
      emit_alert "PROVIDERS_OVERLOADED" job;; schedule_retry_with_backoff job
  | SchedulingFailureReason.ProviderUnhealthy _ => schedule_retry job BASE_BACKOFF_SECS
  | SchedulingFailureReason.NoMatchingProviders requirement =>
      mark_job_failed job ("No provider matches job requirement: " +:+ requirement)
  | SchedulingFailureReason.ResourceConstraintsNotMet resource required available =>
      mark_job_failed job ("Resource constraint not met: " +:+ resource +:+ " requires " +:+ required
        +:+ ", but only " +:+ available +:+ " available")
  | SchedulingFailureReason.InternalError _ =>
      emit_alert "SCHEDULER_INTERNAL_ERROR" job;; schedule_retry_with_backoff job
  | SchedulingFailureReason.JobCancelled => mret tt
  | SchedulingFailureReason.JobExpired =>
      mark_job_failed job "Job expired while waiting in scheduling queue"
  end.

(** src: crates/server/application/src/scheduling/failure_handler.rs 57-83 SchedulingFailureHandler::handle_event *)
Definition handle_event : EventHandler W := fun e =>
  match e with
  | DomainEvent.SchedulingDecisionFailed job reason _ _ _ _ => handle_failure job reason
  | _ => mret tt
  end.

End handler.
End SchedulingFailureHandler.

(** ** Failed provisionings *)

Module ProvisioningFailureHandler.
Section handler.
Context `{E : Externs} {W : Type}.
Context `{!JobRepository.t W} `{!OutboxRepository W} `{!WorkerRegistry.t W} `{!Ambient W}.

(** src: crates/server/application/src/workers/provisioning_failure_handler.rs 110-125 ProvisioningFailureHandler::find_associated_job *)
Definition find_associated_job (correlation_id : option string) : method W string (option JobId) :=
  match correlation_id ≫= uuid_parse_str with
  | Some job =>
      found ← result_of (JobRepository.find_by_id job);
      mret (match found with Ok (Some _) => Some job | _ => None end)
  | None => mret None
  end.

(** src: crates/server/application/src/workers/provisioning_failure_handler.rs 225-265 ProvisioningFailureHandler::emit_job_requeued *)
Definition emit_job_requeued (job : JobId) (retry_count backoff_secs : Z) : method W string unit :=
  insert_event (OutboxEventInsert.for_job job "JobRequeued"
    (json_object [
      ("job_id", str (uuid_to_string job)); ("retry_count", json_of_Z retry_count);
      ("backoff_seconds", json_of_Z backoff_secs); ("reason", str "PROVISIONING_FAILURE");
      ("retry_strategy", str "same_provider")])
    (Some (json_object [
      ("source", str "ProvisioningFailureHandler"); ("handler_type", str "retry");
      ("retry_attempt", json_of_Z retry_count); ("backoff_seconds", json_of_Z backoff_secs)]))
    (Some ("job-requeued-" +:+ uuid_to_string job +:+ "-" +:+ show_Z retry_count))).

(** src: crates/server/application/src/workers/provisioning_failure_handler.rs 268-310 ProvisioningFailureHandler::emit_job_requeued_different_provider *)
Definition emit_job_requeued_different_provider (job : JobId) (excluded : ProviderId) (retry_count : Z) :
    method W string unit :=
  let backoff_secs := 2 ^ retry_count in
  insert_event (OutboxEventInsert.for_job job "JobRequeued"
    (json_object [
      ("job_id", str (uuid_to_string job)); ("retry_count", json_of_Z retry_count);
      ("backoff_seconds", json_of_Z backoff_secs); ("reason", str "PROVISIONING_FAILURE");
      ("retry_strategy", str "different_provider");
      ("excluded_provider_id", str (uuid_to_string excluded))])
    (Some (json_object [
      ("source", str "ProvisioningFailureHandler"); ("handler_type", str "retry_different_provider");
      ("retry_attempt", json_of_Z retry_count);
      ("excluded_provider", str (uuid_to_string excluded))]))
    (Some ("job-requeued-diff-provider-" +:+ uuid_to_string job +:+ "-" +:+ show_Z retry_count))).

(** src: crates/server/application/src/workers/provisioning_failure_handler.rs 313-357 ProvisioningFailureHandler::mark_job_failed *)
Definition mark_job_failed (job : JobId) (reason : string) : method W string unit :=
  fail_and_announce job "Pending" reason
    [("source", str "ProvisioningFailureHandler"); ("handler_type", str "final_failure")].

(** src: crates/server/application/src/workers/provisioning_failure_handler.rs 128-222 ProvisioningFailureHandler::handle_failure *)
Definition handle_failure (job : JobId) (failed_provider : ProviderId)
    (reason : ProvisioningFailureReason.t) : method W string unit :=
  match reason with
  | ProvisioningFailureReason.ImagePullFailed image message =>
      mark_job_failed job ("Worker image '" +:+ image +:+ "' not found: " +:+ message)
  | ProvisioningFailureReason.InvalidConfiguration field reason =>
      mark_job_failed job ("Invalid configuration for '" +:+ field +:+ "': " +:+ reason)
  | ProvisioningFailureReason.AuthenticationFailed message =>
      mark_job_failed job ("Provider authentication failed: " +:+ message)
  | ProvisioningFailureReason.ResourceAllocationFailed _ _ =>
      emit_job_requeued_different_provider job failed_provider 1
  | ProvisioningFailureReason.Timeout => emit_job_requeued job 1 5
  | ProvisioningFailureReason.NetworkSetupFailed _ => emit_job_requeued job 1 5
  | ProvisioningFailureReason.ProviderUnavailable =>
      emit_job_requeued_different_provider job failed_provider 1
  | ProvisioningFailureReason.InternalError _ => emit_job_requeued job 1 10
  end.

(** src: crates/server/application/src/workers/provisioning_failure_handler.rs 360-372 ProvisioningFailureHandler::cleanup_failed_worker *)
Definition cleanup_failed_worker (worker : WorkerId) : method W string unit :=
  _ ← result_of (WorkerRegistry.unregister worker); mret tt.

(** src: crates/server/application/src/workers/provisioning_failure_handler.rs 62-105 ProvisioningFailureHandler::handle_event *)
Definition handle_event : EventHandler W := fun e =>
  match e with
  | DomainEvent.WorkerProvisioningError worker provider reason _ correlation_id _ =>
      job ← find_associated_job correlation_id;
      match job with
      | Some job => handle_failure job provider reason
      | None => cleanup_failed_worker worker
      end
  | _ => mret tt
  end.

End handler.
End ProvisioningFailureHandler.

(** ** Finished jobs *)

Module JobCompletionWorkerCleanupHandler.
Section handler.
Context `{E : Externs} {W : Type} `{!OutboxRepository W} `{!WorkerRegistry.t W} `{!Ambient W}.
(** Is there an outbox? *)
Context (has_outbox : bool).

(** src: crates/server/application/src/jobs/job_completion_handler.rs 146-167 JobCompletionWorkerCleanupHandler::emit_cleanup_event (event) *)
Definition cleanup_event (job : JobId) (worker : WorkerId) (provider : ProviderId) (reason : string)
    (now : DateTime) : OutboxEventInsert.t :=
  OutboxEventInsert.for_worker worker "WorkerEphemeralTerminating"
    (json_object [
      ("worker_id", str (uuid_to_string worker)); ("provider_id", str (uuid_to_string provider));
      ("reason", str reason); ("job_id", str (uuid_to_string job))])
    (Some (json_object [
      ("source", str "JobCompletionWorkerCleanupHandler"); ("cleanup_type", str "reactive");
      ("event", str "job_completion"); ("job_state_reason", str reason)]))
    (Some ("ephemeral-terminating-" +:+ uuid_to_string worker +:+ "-"
      +:+ show_Z (datetime_timestamp now))).

(** src: crates/server/application/src/jobs/job_completion_handler.rs 138-189 JobCompletionWorkerCleanupHandler::emit_cleanup_event *)
Definition emit_cleanup_event (job : JobId) (worker : WorkerId) (provider : ProviderId)
    (reason : string) : method W string unit :=
  if has_outbox then
    now ← calling read_utc;
    mapping_error (insert_events [cleanup_event job worker provider reason now])
      (fun e => "Failed to insert cleanup event: " +:+ OutboxError.fmt e)
  else mret tt.

Definition cleanup_reason (s : JobState.t) : option string :=
  match s with
  | JobState.Succeeded => Some "JOB_SUCCEEDED"
  | JobState.Cancelled => Some "JOB_CANCELLED"
  | _ => None
  end.

(** src: crates/server/application/src/jobs/job_completion_handler.rs 53-133 JobCompletionWorkerCleanupHandler::handle_event *)
Definition handle_event : EventHandler W := fun e =>
  match e with
  | DomainEvent.JobStatusChanged job _ new_state _ _ _ =>
      match cleanup_reason new_state with
      | None => mret tt
      | Some reason =>
          workers ← with_message DomainError.fmt (WorkerRegistry.find WorkerFilter.new);
          match head (filter (fun w => Worker.current_job_id w = Some job) workers) with
          | Some worker =>
              emit_cleanup_event job (Worker.id worker)
                (Worker.provider_id worker) reason
          | None => mret tt
          end
      end
  | _ => mret tt
  end.

End handler.
End JobCompletionWorkerCleanupHandler.

(** ** Properties *)

Section written.
Context `{E : Externs} `{F : !EventFormat} `{!ExternallyTagged F}.
Context {W : Type} `{!OutboxDatabase W} `{!OutboxDatabaseLaws W}.
Context `{!JobRepository.t W} `{!WorkerRegistry.t W} `{!Ambient W}.

(** The outbox is the table; the other repositories and the clock leave it alone. *)
Hypothesis outbox_of_find_job : forall i w, outbox_rows (after (JobRepository.find_by_id i) w) = outbox_rows w.
Hypothesis outbox_of_update_job : forall i s w,
  outbox_rows (after (JobRepository.update_state i s) w) = outbox_rows w.
Hypothesis outbox_of_find_workers : forall f w,
  outbox_rows (after (WorkerRegistry.find f) w) = outbox_rows w.
Hypothesis outbox_of_unregister : forall i w,
  outbox_rows (after (WorkerRegistry.unregister i) w) = outbox_rows w.
Hypothesis outbox_of_clock : forall w, outbox_rows (read_utc w).1 = outbox_rows w.

Definition undecodable (payload : Json) : Prop := is_err (event_from_value payload) = true.

(** A method that adds rows to the outbox, none of which can be read as a domain
    event, and that leaves the other rows alone. *)
Definition writes_undecodable {X A} (m : method W X A) : Prop :=
  forall w, exists new, outbox_rows (after m w) = outbox_rows w ++ new /\
    Forall (fun r => undecodable (OutboxEventRow.payload r)) new.

Lemma writes_nothing {X A} (m : method W X A) :
  (forall w, outbox_rows (after m w) = outbox_rows w) -> writes_undecodable m.
Proof. intros Hm w. exists []. by rewrite app_nil_r, Hm. Qed.

Lemma writes_ret {X A} (a : A) : writes_undecodable (mret a : method W X A).
Proof. by apply writes_nothing. Qed.

Lemma writes_bind {X A B} (m : method W X A) (k : A -> method W X B) :
  writes_undecodable m -> (forall a, writes_undecodable (k a)) -> writes_undecodable (a ← m; k a).
Proof.
  intros Hm Hk w. destruct (Hm w) as (new & Hw & Hnew). unfold after, mbind, method_bind in *.
  destruct (m w) as [w1 [a|e]]; simpl in *; [|by exists new].
  destruct (Hk a w1) as (new' & Hw' & Hnew'). exists (new ++ new'). unfold after in Hw'.
  rewrite Hw', Hw, app_assoc. split; [done|]. by apply Forall_app.
Qed.

Lemma writes_mapped {X Y A} (m : method W X A) (f : X -> Y) :
  writes_undecodable m -> writes_undecodable (mapping_error m f).
Proof. intros Hm w. destruct (Hm w) as (new & Hw & Hnew). exists new. by rewrite after_mapping. Qed.

Lemma inserted_row_payload fresh now e rows rows' :
  PostgresOutboxRepository.insert_row fresh now e rows = Ok rows' ->
  exists new, rows' = rows ++ new /\
    Forall (fun r => OutboxEventRow.payload r = OutboxEventInsert.payload e) new.
Proof.
  unfold PostgresOutboxRepository.insert_row. destruct (negb _); [done|].
  case_match; intros Hins; simplify_eq; [exists []; by rewrite app_nil_r|].
  destruct (existsb _ rows); simplify_eq. eexists. split; [done|]. by repeat constructor.
Qed.

Lemma writes_inserted e :
  undecodable (OutboxEventInsert.payload e) -> writes_undecodable (insert_events [e] : method W _ _).
Proof.
  intros He w. unfold after. cbn [insert_events PostgresOutboxRepository.outbox_repository].
  unfold PostgresOutboxRepository.insert_events, PostgresOutboxRepository.execute,
    PostgresOutboxRepository.insert_statement.
  pose proof (rows_of_outcome w) as Ho. destruct (next_outcome w) as [w1 o]. simpl in Ho |- *.
  pose proof (rows_of_uuid w1) as Hu. destruct (gen_random_uuid w1) as [w2 fresh]. simpl in Hu |- *.
  assert (exists new, outbox_rows w1 = outbox_rows w ++ new /\
    Forall (fun r => undecodable (OutboxEventRow.payload r)) new) as Hsame
    by (exists []; by rewrite Ho, app_nil_r).
  assert (exists new, outbox_rows w2 = outbox_rows w ++ new /\
    Forall (fun r => undecodable (OutboxEventRow.payload r)) new) as Hsame2 by (by rewrite Hu).
  destruct (PostgresOutboxRepository.insert_row fresh (transaction_time w1) e (outbox_rows w1))
    as [rows|m] eqn:Hrow; destruct o; simpl; try done.
  all: apply inserted_row_payload in Hrow as (new & -> & Hnew); exists new.
  all: rewrite rows_of_set, Ho; split; [done|].
  all: eapply Forall_impl; [exact Hnew|]; by intros r ->.
Qed.

Lemma writes_event e : undecodable (OutboxEventInsert.payload e) ->
  writes_undecodable (insert_event e : method W string unit).
Proof. intros He. by apply writes_mapped, writes_inserted. Qed.

Lemma writes_clock {A} (k : DateTime -> method W string A) :
  (forall now, writes_undecodable (k now)) -> writes_undecodable (now ← calling read_utc; k now).
Proof.
  intros Hk. apply writes_bind; [|done]. apply writes_nothing. intros w. unfold after, calling.
  specialize (outbox_of_clock w). by destruct (read_utc w).
Qed.

Lemma writes_update job st :
  writes_undecodable (with_message DomainError.fmt (JobRepository.update_state (R := W) job st)).
Proof. apply writes_mapped, writes_nothing. intros w. apply outbox_of_update_job. Qed.

(** Objects whose two last keys differ. *)
Definition two_keys (fields : list (string * Json)) : bool :=
  match reverse fields with
  | (k', _) :: (k, _) :: _ => negb (String.eqb k k')
  | _ => false
  end.

Lemma undecodable_object fields : two_keys fields = true -> undecodable (json_object fields).
Proof.
  unfold two_keys. rewrite <- (reverse_involutive fields) at 2.
  destruct (reverse fields) as [|[k' v'] [|[k v] l]]; [done..|].
  intros Hk%negb_true_iff%String.eqb_neq. rewrite !reverse_cons, <- app_assoc.
  by apply object_is_no_event.
Qed.

Lemma writes_object event fields :
  OutboxEventInsert.payload event = json_object fields -> two_keys fields = true ->
  writes_undecodable (insert_event event : method W string unit).
Proof. intros Hp Hk. apply writes_event. rewrite Hp. by apply undecodable_object. Qed.

Lemma writes_failure job previous reason metadata :
  writes_undecodable (fail_and_announce job previous reason metadata : method W string unit).
Proof.
  apply writes_bind; [apply writes_update|intros _]. apply writes_clock. intros now.
  by eapply writes_object.
Qed.

Lemma writes_alert alert job :
  writes_undecodable (SchedulingFailureHandler.emit_alert alert job : method W string unit).
Proof. apply writes_clock. intros now. by eapply writes_object. Qed.

Lemma writes_after_alert alert job (m : method W string unit) :
  writes_undecodable m ->
  writes_undecodable (SchedulingFailureHandler.emit_alert alert job;; m).
Proof. intros Hm. by apply writes_bind; [apply writes_alert|]. Qed.

Lemma writes_find {A} i (k : result DomainError.t (option Job.t) -> method W string A) :
  (forall r, writes_undecodable (k r)) ->
  writes_undecodable (r ← result_of (JobRepository.find_by_id i); k r).
Proof.
  intros Hk. apply writes_bind; [|done]. apply writes_nothing. intros w.
  rewrite <- (outbox_of_find_job i w). unfold after, result_of.
  by destruct (JobRepository.find_by_id i w).
Qed.

Hint Resolve writes_ret writes_bind writes_clock writes_failure writes_after_alert writes_find : core.
Hint Extern 1 (writes_undecodable (insert_event _)) => by eapply writes_object : core.

(** The handlers, as they are configured. *)
Definition failure_handlers (debug : DispatchFailureReason.t -> string) (has_outbox : bool) :
    list (EventHandler W) :=
  [DispatchFailureHandler.handle_event debug; SchedulingFailureHandler.handle_event;
   ProvisioningFailureHandler.handle_event;
   JobCompletionWorkerCleanupHandler.handle_event has_outbox].

Lemma dispatch_writes debug e :
  writes_undecodable (DispatchFailureHandler.handle_event debug e : method W string unit).
Proof.
  destruct e; try apply writes_ret. simpl.
  destruct (_ <? _); [unfold DispatchFailureHandler.emit_job_requeued|apply writes_failure]. auto.
Qed.

Lemma scheduling_writes e :
  writes_undecodable (SchedulingFailureHandler.handle_event e : method W string unit).
Proof.
  destruct e; try apply writes_ret. simpl. unfold SchedulingFailureHandler.handle_failure,
    SchedulingFailureHandler.schedule_retry, SchedulingFailureHandler.schedule_retry_with_backoff,
    SchedulingFailureHandler.mark_job_failed. destruct failure_reason; auto.
Qed.

Lemma provisioning_writes e :
  writes_undecodable (ProvisioningFailureHandler.handle_event e : method W string unit).
Proof.
  destruct e; try apply writes_ret. simpl. apply writes_bind.
  - unfold ProvisioningFailureHandler.find_associated_job. destruct (_ ≫= _); auto.
  - intros [job|].
    + unfold ProvisioningFailureHandler.handle_failure, ProvisioningFailureHandler.emit_job_requeued,
        ProvisioningFailureHandler.emit_job_requeued_different_provider,
        ProvisioningFailureHandler.mark_job_failed. destruct failure_reason; auto.
    + apply writes_bind; [|auto]. apply writes_nothing. intros w.
      rewrite <- (outbox_of_unregister worker_id w). unfold after, result_of.
      by destruct (WorkerRegistry.unregister worker_id w).
Qed.

Lemma completion_writes has_outbox e :
  writes_undecodable (JobCompletionWorkerCleanupHandler.handle_event has_outbox e : method W string unit).
Proof.
  destruct e; try apply writes_ret. simpl.
  destruct (JobCompletionWorkerCleanupHandler.cleanup_reason new_state); [|auto]. apply writes_bind.
  - apply writes_mapped, writes_nothing. intros w. apply outbox_of_find_workers.
  - intros workers. destruct (head _); [|auto]. unfold JobCompletionWorkerCleanupHandler.emit_cleanup_event.
    destruct has_outbox; [|auto]. apply writes_clock. intros now.
    by apply writes_mapped, writes_inserted, undecodable_object.
Qed.

(** No reaction to a failure is ever announced.  Whatever event is given to
    the handlers of failed dispatches, failed scheduling, failed provisioning and
    finished jobs, one after the other as the subscriber does it, the rows that
    they add to the outbox - the requests to queue a job again, the failures, the
    alerts, the terminations of workers - cannot be read as domain events, which
    is what the relay and the poller do before they publish one; and a row that
    cannot be read is never settled. *)
Theorem failure_reactions_are_undecodable debug has_outbox e :
  forall w, exists new,
    outbox_rows (EventSubscriber.route (failure_handlers debug has_outbox) e w) = outbox_rows w ++ new /\
    Forall (fun r => undecodable (OutboxEventRow.payload r)) new.
Proof.
  assert (forall handlers, Forall (fun h : EventHandler W => writes_undecodable (h e)) handlers ->
    forall w, exists new, outbox_rows (EventSubscriber.route handlers e w) = outbox_rows w ++ new /\
    Forall (fun r => undecodable (OutboxEventRow.payload r)) new) as Hroute.
  { intros handlers Hall. induction Hall as [|h handlers Hh _ IH]; intros w.
    - exists []. by rewrite app_nil_r.
    - simpl. destruct (Hh w) as (new & Hw & Hnew). destruct (IH (after (h e) w)) as (new' & Hw' & Hnew').
      exists (new ++ new'). rewrite Hw', Hw, app_assoc. split; [done|]. by apply Forall_app. }
  apply Hroute. repeat constructor;
    [apply dispatch_writes|apply scheduling_writes|apply provisioning_writes|apply completion_writes].
Qed.

End written.

(** *** Retries of scheduling *)

Section retries.
Context `{E : Externs} {W : Type} `{!OutboxDatabase W} `{!OutboxDatabaseLaws W}.
Context `{!JobRepository.t W} `{!Ambient W}.
Import SchedulingFailureHandler.

Lemma inserted_key_taken e k w :
  OutboxEventInsert.idempotency_key e = Some k ->
  let w' := after (insert_event (W := W) e) w in
  (returns (insert_event (W := W) e) w = Ok tt ->
   existsb (PostgresOutboxRepository.has_key k) (outbox_rows w') = true) /\
  (existsb (PostgresOutboxRepository.has_key k) (outbox_rows w) = true ->
   outbox_rows w' = outbox_rows w).
Proof.
  intros Hk w'. subst w'. unfold insert_event. rewrite after_mapping, mapping_ok. unfold after, returns.
  cbn [insert_events PostgresOutboxRepository.outbox_repository].
  unfold PostgresOutboxRepository.insert_events, PostgresOutboxRepository.execute,
    PostgresOutboxRepository.insert_statement.
  pose proof (rows_of_outcome w) as Ho. destruct (next_outcome w) as [w1 o]. simpl in Ho |- *.
  pose proof (rows_of_uuid w1) as Hu. destruct (gen_random_uuid w1) as [w2 fresh]. simpl in Hu |- *.
  destruct (PostgresOutboxRepository.insert_row fresh (transaction_time w1) e (outbox_rows w1))
    as [rows|m] eqn:Hrow; destruct o; simpl; split; intros Hin; try done; try congruence.
  - rewrite rows_of_set. by eapply insert_row_key.
  - rewrite rows_of_set, <- Ho. eapply insert_row_taken; [exact Hrow|done|by rewrite Ho].
  - rewrite rows_of_set, <- Ho. eapply insert_row_taken; [exact Hrow|done|by rewrite Ho].
Qed.

(** The retries of a job whose provider is unhealthy are numbered 1, all of them:
    when one was written and no row was removed, the next one is dropped. *)
Theorem second_retry_is_dropped job p1 p2 w w1 :
  returns (handle_failure (W := W) job (SchedulingFailureReason.ProviderUnhealthy p1)) w = Ok tt ->
  outbox_rows (after (handle_failure job (SchedulingFailureReason.ProviderUnhealthy p1)) w)
    ⊆ outbox_rows w1 ->
  outbox_rows (after (handle_failure job (SchedulingFailureReason.ProviderUnhealthy p2)) w1) =
    outbox_rows w1.
Proof.
  intros Hok Hsub. cbn [handle_failure] in *. unfold schedule_retry in *.
  eapply inserted_key_taken; [done|]. eapply inserted_key_taken in Hok; [|done].
  apply existsb_exists in Hok as (r & Hr & Hkey). apply existsb_exists. exists r.
  split; [|done]. rewrite <- list_elem_of_In in *. by apply Hsub.
Qed.

End retries.

(** ** Evaluation *)

#[local] Existing Instance concrete_order.
#[local] Existing Instance concrete_format.

#[global] Instance workers_of_example : WorkerRegistry.t (E := concrete) ExampleJobs.t := {|
  WorkerRegistry.register := fun _ _ _ => mret ExampleStore.worker;
  WorkerRegistry.save := fun _ => mret tt;
  WorkerRegistry.unregister := fun _ => mret tt;
  WorkerRegistry.find_by_id := fun _ => mret (Some ExampleStore.worker);
  WorkerRegistry.get_by_job_id := fun _ => mret None;
  WorkerRegistry.find := fun _ =>
    mret [ExampleStore.worker <| Worker.current_job_id := Some (7%nat : @Uuid concrete) |>];
  WorkerRegistry.find_ready_worker := fun _ => mret (Some ExampleStore.worker);
  WorkerRegistry.find_available := mret [ExampleStore.worker];
  WorkerRegistry.find_by_provider := fun _ => mret [ExampleStore.worker];
  WorkerRegistry.update_state := fun _ _ => mret tt;
  WorkerRegistry.update_heartbeat := fun _ => mret tt;
  WorkerRegistry.mark_busy := fun _ _ => mret tt;
  WorkerRegistry.release_from_job := fun _ => mret tt;
|}.

Definition example_handlers : list (EventHandler (E := concrete) ExampleJobs.t) :=
  failure_handlers (E := concrete) (W := ExampleJobs.t) DispatchFailureReason.fmt true.

(** Job 7 has succeeded on worker 1, and the fourth dispatch of it has failed. *)
Definition job_succeeded : DomainEvent.t (E := concrete) :=
  DomainEvent.JobStatusChanged (E := concrete) 7%nat JobState.Running JobState.Succeeded 9 None None.
Definition dispatch_failed : DomainEvent.t (E := concrete) :=
  DomainEvent.JobDispatchFailed (E := concrete) 7%nat 1%nat DispatchFailureReason.WorkerCrashed 3 9 None None.

Definition reacted : ExampleJobs.t :=
  EventSubscriber.process (E := concrete) example_handlers [Ok job_succeeded; Ok dispatch_failed]
    ExampleJobs.running.

Example failure_reactions_write :
  OutboxEventRow.event_type <$> outbox_rows (E := concrete) reacted =
    ["JobQueued"; "WorkerEphemeralTerminating"; "JobStatusChanged"] /\
  ExampleJobs.states reacted = ["FAILED"].
Proof. split; reflexivity. Qed.

Lemma example_find_keeps i (w : ExampleJobs.t) :
  outbox_rows (E := concrete) (after (JobRepository.find_by_id (E := concrete) i) w) =
    outbox_rows (E := concrete) w.
Proof.
  change (JobRepository.find_by_id (E := concrete) i) with
    (PostgresJobRepository.find_by_id (E := concrete) (S := ExampleJobs.t) i).
  unfold PostgresJobRepository.find_by_id, PostgresJobRepository.find_row, after, mbind, method_bind,
    mapping_error, read.
  pose proof (outbox_of_jobs_outcome (E := concrete) w) as Ho.
  destruct (statement_outcome (E := concrete) (Row := JobRow.t (E := concrete)) w) as [w1 o].
  cbn [fst] in Ho. rewrite <- Ho. destruct o; [|done..]. cbn [map_err].
  destruct (head _) as [row|]; [|done]. unfold lift.
  by destruct (PostgresJobRepository.map_row_to_job row).
Qed.

Lemma example_update_keeps i st (w : ExampleJobs.t) :
  outbox_rows (E := concrete) (after (JobRepository.update_state (E := concrete) i st) w) =
    outbox_rows (E := concrete) w.
Proof.
  change (JobRepository.update_state (E := concrete) i st) with
    (PostgresJobRepository.update_state (E := concrete) (S := ExampleJobs.t) i st).
  unfold PostgresJobRepository.update_state. rewrite after_mapping. apply outbox_of_jobs_write.
Qed.

Example failure_reactions_are_undecodable_witness :
  exists new,
    outbox_rows (E := concrete) (EventSubscriber.route (E := concrete) example_handlers job_succeeded
      ExampleJobs.running) = outbox_rows (E := concrete) ExampleJobs.running ++ new /\
    Forall (fun r => undecodable (E := concrete) (OutboxEventRow.payload r)) new.
Proof.
  exact (failure_reactions_are_undecodable (E := concrete) (W := ExampleJobs.t)
    example_find_keeps example_update_keeps (fun _ _ => eq_refl) (fun _ _ => eq_refl)
    (fun _ => eq_refl) DispatchFailureReason.fmt true job_succeeded ExampleJobs.running).
Defined.
