(* ===== verification/WorkerStore.v ===== *)
(** * Workers in PostgreSQL
    ([crates/server/infrastructure/src/persistence/postgres/worker_registry.rs,
    worker_registry_tx.rs])

    The registry of workers on the table [workers], whose schema is not part of
    the repository: what its columns hold when a statement does not name them,
    and the rows its constraints refuse, are parameters.

    The theorems at the end compare the registry with the [Worker] aggregate:
    what a worker that was saved is read as, and what becomes of one that is
    released from its job. *)

From Stdlib Require Import String.
From S2P Require Import Prelude Effects Std Externs States Errors Job ProviderApi Worker Repositories Services CommandOutbox Sql Outbox OutboxTable ProviderConfigs AppServices JobStore.

(** ** The table *)

Module WorkerRow.
Section row.
Context `{E : Externs}.

(** The columns of [workers] that the statements name. *)
(** src: crates/server/infrastructure/src/persistence/postgres/worker_registry.rs 62-63 PostgresWorkerRegistry::register (columns) *)
Record t := mk {
  id : Uuid;
  name : option string;
  provider_id : Uuid;
  provider_type : string;
  provider_resource_id : string;
  state : string;
  spec : Json;
  handle : Json;
  current_job_id : option Uuid;
  last_heartbeat : option DateTime;
  created_at : DateTime;
  updated_at : DateTime;
}.

#[global] Instance t_rebuild : Rebuild t := fun r =>
  mk (id r) (name r) (provider_id r) (provider_type r) (provider_resource_id r) (state r) (spec r)
    (handle r) (current_job_id r) (last_heartbeat r) (created_at r) (updated_at r).

End row.
End WorkerRow.

(** [serde_json] at the types of the columns. *)
Class WorkerFormat `{E : Externs} := {
  worker_spec_to_value : WorkerSpec.t -> result string Json;
  worker_spec_from_value : Json -> result string WorkerSpec.t;
  handle_to_value : WorkerHandle.t -> result string Json;
  handle_from_value : Json -> result string WorkerHandle.t;
}.

(** What is written of the two can be read. *)
Definition storable `{E : Externs} `{!WorkerFormat} (h : WorkerHandle.t) (sp : WorkerSpec.t) : Prop :=
  (forall v, handle_to_value h = Ok v -> handle_from_value v = Ok h) /\
  (forall v, worker_spec_to_value sp = Ok v -> worker_spec_from_value v = Ok sp).

(** The database: the table, the values of the columns that [register] does not
    name, the rows that are refused, [t - n seconds], and an order of the rows
    for each [ORDER BY]. *)
Class WorkerDatabase `{E : Externs} (S : Type) := {
  workers_table :: Table S WorkerRow.t;
  default_heartbeat : DateTime -> option DateTime;
  default_created : DateTime -> DateTime;
  default_updated : DateTime -> DateTime;
  default_name : option string;
  refused_row : WorkerRow.t -> option string;
  seconds_before : DateTime -> Z -> DateTime;
  workers_by_created_desc : list WorkerRow.t -> list WorkerRow.t;
  workers_by_heartbeat : list WorkerRow.t -> list WorkerRow.t;
  workers_by_updated : list WorkerRow.t -> list WorkerRow.t;
}.

Abbreviation worker_rows := (table_rows (Row := WorkerRow.t)).

Class WorkerDatabaseLaws `{E : Externs} (S : Type) `{!WorkerDatabase S} : Prop := {
  workers_table_laws :: TableLaws S WorkerRow.t;
  workers_created_perm : forall l, workers_by_created_desc l ≡ₚ l;
  workers_heartbeat_perm : forall l, workers_by_heartbeat l ≡ₚ l;
  workers_updated_perm : forall l, workers_by_updated l ≡ₚ l;
}.

Module WorkerRegistryStats.
Section stats.
Context `{E : Externs}.

(** src: crates/server/domain/src/workers/registry.rs 14-29 WorkerRegistryStats *)
Record t := mk {
  total_workers : nat;
  ready_workers : nat;
  busy_workers : nat;
  idle_workers : nat;
  terminating_workers : nat;
  workers_by_provider : gmap ProviderId nat;
  workers_by_type : list (ProviderType.t * nat);
}.

End stats.
End WorkerRegistryStats.

(** The operations of the trait that the monitors of workers call. *)
(** src: crates/server/domain/src/workers/registry.rs 163-182 WorkerRegistry (monitoring) *)
Class WorkerMonitoring `{E : Externs} (S : Type) := {
  find_unhealthy : Duration -> method S DomainError.t (list Worker.t);
  find_for_termination : method S DomainError.t (list Worker.t);
  find_idle_timed_out : method S DomainError.t (list Worker.t);
  find_lifetime_exceeded : method S DomainError.t (list Worker.t);
  find_ttl_after_completion_exceeded : method S DomainError.t (list Worker.t);
  worker_stats : method S DomainError.t WorkerRegistryStats.t;
  worker_count : method S DomainError.t nat;
}.

(** ** The registry *)

Module PostgresWorkerRegistry.
Section registry.
Context `{E : Externs} `{!WorkerFormat} {S : Type} `{!WorkerDatabase S} `{!Ambient S}.
Import WorkerRow.

(** src: crates/server/infrastructure/src/persistence/postgres/worker_registry.rs 622-640 map_row_to_worker (state) *)
Definition state_of_text (s : string) : Prelude.result DomainError.t WorkerState.t :=
  if String.eqb s "CREATING" then Ok WorkerState.Creating
  else if String.eqb s "READY" then Ok WorkerState.Ready
  else if String.eqb s "BUSY" then Ok WorkerState.Busy
  else if String.eqb s "TERMINATED" then Ok WorkerState.Terminated
  else if String.eqb s "CONNECTING" || String.eqb s "DRAINING" || String.eqb s "TERMINATING"
  then Ok WorkerState.Creating
  else Err (DomainError.InfrastructureError ("Invalid worker state: " +:+ s)).

(** The clock is read for a worker that has sent no heartbeat. *)
(** src: crates/server/infrastructure/src/persistence/postgres/worker_registry.rs 609-655 map_row_to_worker *)
Definition map_row_to_worker (row : t) : method S DomainError.t Worker.t :=
  h ← lift (map_err (database_error "deserialize worker handle") (handle_from_value (handle row)));
  sp ← lift (map_err (database_error "deserialize worker spec") (worker_spec_from_value (spec row)));
  st ← lift (state_of_text (state row));
  now ← match last_heartbeat row with
        | Some heartbeat => mret heartbeat
        | None => calling read_utc
        end;
  mret (Worker.from_database h sp st (current_job_id row) (last_heartbeat row) (created_at row)
    (updated_at row) now).

(** The rows of a statement, mapped in a loop that stops at the first error. *)
Fixpoint map_rows (rows : list t) : method S DomainError.t (list Worker.t) :=
  match rows with
  | [] => mret []
  | row :: rows => w ← map_row_to_worker row; ws ← map_rows rows; mret (w :: ws)
  end.

Definition fetch_all (select : DateTime -> list t -> list t) (what : string) :
    method S DomainError.t (list Worker.t) :=
  rows ← mapping_error (read_at select) (database_error what);
  map_rows rows.

Definition fetch_optional (select : list t -> list t) (what : string) :
    method S DomainError.t (option Worker.t) :=
  row ← mapping_error (read (fun rows => head (select rows))) (database_error what);
  match row with
  | Some row => w ← map_row_to_worker row; mret (Some w)
  | None => mret None
  end.

Definition where_ (p : t -> bool) (rows : list t) : list t := filter (fun r => p r = true) rows.
Definition has_id (i : Uuid) (r : t) : bool := bool_decide (id r = i).
Definition in_state (st : WorkerState.t) (r : t) : bool := String.eqb (state r) (WorkerState.fmt st).

(** [INSERT ... ON CONFLICT (id) DO UPDATE SET]: [merge] is the row that
    replaces the one there is. *)
Definition upsert (new : DateTime -> t) (merge : DateTime -> t -> t -> t) (now : DateTime)
    (rows : list t) : Prelude.result string (list t) :=
  match refused_row (new now) with
  | Some m => Err m
  | None =>
      Ok (if existsb (has_id (id (new now))) rows
          then (fun r => if has_id (id (new now)) r then merge now (new now) r else r) <$> rows
          else rows ++ [new now])
  end.

(** [UPDATE workers SET ... WHERE id = $n] *)
Definition update_where (i : Uuid) (set : DateTime -> t -> t) (now : DateTime) (rows : list t) :
    Prelude.result string (list t) :=
  match list_find (fun r => is_Some (refused_row (set now r))) (where_ (has_id i) rows) with
  | Some (_, r) => Err (default "" (refused_row (set now r)))
  | None => Ok ((fun r => if has_id i r then set now r else r) <$> rows)
  end.

Definition statement (f : DateTime -> list t -> Prelude.result string (list t)) (what : string) :
    method S DomainError.t unit :=
  mapping_error (write f) (database_error what).

(** *** Registration *)

(** src: crates/server/infrastructure/src/persistence/postgres/worker_registry.rs 58-58 PostgresWorkerRegistry::register (name) *)
Definition worker_name (i : Uuid) : string := "hodei-worker-" +:+ String.substring 0 8 (uuid_to_string i).

(** src: crates/server/infrastructure/src/persistence/postgres/worker_registry.rs 76-92 PostgresWorkerRegistry::register (values) *)
Definition registered_row (h : WorkerHandle.t) (spec_json handle_json : Json) (job : JobId)
    (now : DateTime) : t := {|
  id := WorkerHandle.worker_id h;
  name := Some (worker_name (WorkerHandle.worker_id h));
  provider_id := WorkerHandle.provider_id h;
  provider_type := ProviderType.fmt (WorkerHandle.provider_type h);
  provider_resource_id := WorkerHandle.provider_resource_id h;
  state := WorkerState.fmt WorkerState.Creating;
  spec := spec_json;
  handle := handle_json;
  current_job_id := Some job;
  last_heartbeat := default_heartbeat now;
  created_at := default_created now;
  updated_at := default_updated now;
|}.

(** The heartbeat and the creation of a worker that is registered again stay. *)
(** src: crates/server/infrastructure/src/persistence/postgres/worker_registry.rs 64-73 PostgresWorkerRegistry::register (conflict) *)
Definition registered_again (now : DateTime) (new old : t) : t :=
  old <| name := name new |> <| provider_id := provider_id new |>
      <| provider_type := provider_type new |> <| provider_resource_id := provider_resource_id new |>
      <| state := state new |> <| spec := spec new |> <| handle := handle new |>
      <| current_job_id := current_job_id new |> <| updated_at := now |>.

Definition register_row (suffix : string) (h : WorkerHandle.t) (sp : WorkerSpec.t) (job : JobId) :
    method S DomainError.t Worker.t :=
  spec_json ← lift (map_err (database_error "serialize worker spec") (worker_spec_to_value sp));
  handle_json ← lift (map_err (database_error "serialize worker handle") (handle_to_value h));
  statement (upsert (registered_row h spec_json handle_json job) registered_again)
    ("register worker" +:+ suffix);;
  now ← calling read_utc;
  mret (Worker.new h sp now).

(** src: crates/server/infrastructure/src/persistence/postgres/worker_registry.rs 48-101 PostgresWorkerRegistry::register *)
Definition register : WorkerHandle.t -> WorkerSpec.t -> JobId -> method S DomainError.t Worker.t :=
  register_row "".

(** src: crates/server/infrastructure/src/persistence/postgres/worker_registry_tx.rs 101-149 PostgresWorkerRegistry::register_with_tx *)
Definition register_with_tx : WorkerHandle.t -> WorkerSpec.t -> JobId -> method S DomainError.t Worker.t :=
  register_row " in transaction".

(** *** Saving *)

(** src: crates/server/infrastructure/src/persistence/postgres/worker_registry.rs 509-527 PostgresWorkerRegistry::save (values) *)
Definition row_of_worker (w : Worker.t) : Prelude.result DomainError.t t :=
  spec_json ← map_err (database_error "serialize worker spec") (worker_spec_to_value (Worker.spec w));
  handle_json ← map_err (database_error "serialize worker handle") (handle_to_value (Worker.handle w));
  Ok {|
    id := WorkerHandle.worker_id (Worker.handle w);
    name := default_name;
    provider_id := WorkerHandle.provider_id (Worker.handle w);
    provider_type := ProviderType.fmt (WorkerHandle.provider_type (Worker.handle w));
    provider_resource_id := WorkerHandle.provider_resource_id (Worker.handle w);
    state := WorkerState.fmt (Worker.state w);
    spec := spec_json;
    handle := handle_json;
    current_job_id := Worker.current_job_id w;
    last_heartbeat := Some (Worker.last_heartbeat w);
    created_at := Worker.created_at w;
    updated_at := Worker.updated_at w;
  |}.

(** src: crates/server/infrastructure/src/persistence/postgres/worker_registry.rs 497-506 PostgresWorkerRegistry::save (conflict) *)
Definition saved_again (_ : DateTime) (new old : t) : t :=
  new <| name := name old |> <| created_at := created_at old |>.

Definition save_row (suffix : string) (w : Worker.t) : method S DomainError.t unit :=
  row ← lift (row_of_worker w);
  statement (upsert (fun _ => row) saved_again) ("save worker" +:+ suffix).

(** src: crates/server/infrastructure/src/persistence/postgres/worker_registry.rs 486-535 PostgresWorkerRegistry::save *)
Definition save : Worker.t -> method S DomainError.t unit := save_row "".

(** src: crates/server/infrastructure/src/persistence/postgres/worker_registry_tx.rs 13-58 PostgresWorkerRegistry::save_with_tx *)
Definition save_with_tx : Worker.t -> method S DomainError.t unit := save_row " in transaction".

Definition delete_row (suffix : string) (i : WorkerId) : method S DomainError.t unit :=
  statement (fun _ rows => Ok (where_ (fun r => negb (has_id i r)) rows)) ("unregister worker" +:+ suffix).

(** src: crates/server/infrastructure/src/persistence/postgres/worker_registry.rs 103-117 PostgresWorkerRegistry::unregister *)
Definition unregister : WorkerId -> method S DomainError.t unit := delete_row "".

(** src: crates/server/infrastructure/src/persistence/postgres/worker_registry_tx.rs 151-167 PostgresWorkerRegistry::unregister_with_tx *)
Definition unregister_with_tx : WorkerId -> method S DomainError.t unit := delete_row " in transaction".

(** *** Queries *)

(** src: crates/server/infrastructure/src/persistence/postgres/worker_registry.rs 119-141 PostgresWorkerRegistry::get *)
Definition get (i : WorkerId) : method S DomainError.t (option Worker.t) :=
  fetch_optional (where_ (has_id i)) "get worker".

(** src: crates/server/infrastructure/src/persistence/postgres/worker_registry.rs 537-539 PostgresWorkerRegistry::find_by_id *)
Definition find_by_id (i : WorkerId) : method S DomainError.t (option Worker.t) := get i.

(** The conditions of a filter that become clauses of the statement; that a
    worker accepts jobs, is idle for a time, or is unhealthy, do not. *)
(** src: crates/server/infrastructure/src/persistence/postgres/worker_registry.rs 151-187 PostgresWorkerRegistry::find (clauses) *)
Definition clauses (f : WorkerFilter.t) (r : t) : bool :=
  match WorkerFilter.states f with
  | Some ((_ :: _) as states) => existsb (fun st => in_state st r) states
  | _ => true
  end &&
  match WorkerFilter.provider_id f with
  | Some p => bool_decide (provider_id r = p)
  | None => true
  end &&
  match WorkerFilter.provider_type f with
  | Some ty => String.eqb (provider_type r) (ProviderType.fmt ty)
  | None => true
  end.

(** src: crates/server/infrastructure/src/persistence/postgres/worker_registry.rs 143-203 PostgresWorkerRegistry::find *)
Definition find (f : WorkerFilter.t) : method S DomainError.t (list Worker.t) :=
  fetch_all (fun _ rows => workers_by_created_desc (where_ (clauses f) rows)) "find workers".

Definition free_and_ready (r : t) : bool :=
  in_state WorkerState.Ready r && bool_decide (current_job_id r = None).

(** src: crates/server/infrastructure/src/persistence/postgres/worker_registry.rs 205-226 PostgresWorkerRegistry::find_available *)
Definition find_available : method S DomainError.t (list Worker.t) :=
  fetch_all (fun _ => where_ free_and_ready) "find available workers".

(** src: crates/server/infrastructure/src/persistence/postgres/worker_registry_tx.rs 169-190 PostgresWorkerRegistry::find_available_with_tx *)
Definition find_available_with_tx : method S DomainError.t (list Worker.t) :=
  fetch_all (fun _ => where_ free_and_ready) "find available workers in transaction".

(** src: crates/server/infrastructure/src/persistence/postgres/worker_registry.rs 228-251 PostgresWorkerRegistry::find_by_provider *)
Definition find_by_provider (p : ProviderId) : method S DomainError.t (list Worker.t) :=
  fetch_all (fun _ => where_ (fun r => bool_decide (provider_id r = p))) "find workers by provider".

(** src: crates/server/infrastructure/src/persistence/postgres/worker_registry.rs 253-275 PostgresWorkerRegistry::get_by_job_id *)
Definition get_by_job_id (job : JobId) : method S DomainError.t (option Worker.t) :=
  fetch_optional (where_ (fun r => bool_decide (current_job_id r = Some job))) "find worker by job_id".

(** src: crates/server/infrastructure/src/persistence/postgres/worker_registry.rs 541-581 PostgresWorkerRegistry::find_ready_worker *)
Definition find_ready_worker (f : option WorkerFilter.t) : method S DomainError.t (option Worker.t) :=
  fetch_optional (where_ (fun r =>
    free_and_ready r && match f with Some f => clauses f r | None => true end)) "find ready worker".

(** *** Changes *)

(** src: crates/server/infrastructure/src/persistence/postgres/worker_registry.rs 280-280 PostgresWorkerRegistry::update_state (statement) *)
Definition set_state (st : WorkerState.t) (now : DateTime) (r : t) : t :=
  r <| state := WorkerState.fmt st |> <| updated_at := now |>.

(** src: crates/server/infrastructure/src/persistence/postgres/worker_registry.rs 277-292 PostgresWorkerRegistry::update_state *)
Definition update_state (i : WorkerId) (st : WorkerState.t) : method S DomainError.t unit :=
  statement (update_where i (set_state st)) "update worker state".

(** src: crates/server/infrastructure/src/persistence/postgres/worker_registry_tx.rs 60-78 PostgresWorkerRegistry::update_state_with_tx *)
Definition update_state_with_tx (i : WorkerId) (st : WorkerState.t) : method S DomainError.t unit :=
  statement (update_where i (set_state st)) "update worker state in transaction".

(** src: crates/server/infrastructure/src/persistence/postgres/worker_registry.rs 294-308 PostgresWorkerRegistry::heartbeat *)
Definition heartbeat (i : WorkerId) : method S DomainError.t unit :=
  statement (update_where i (fun now r => r <| last_heartbeat := Some now |> <| updated_at := now |>))
    "update worker heartbeat".

(** src: crates/server/infrastructure/src/persistence/postgres/worker_registry.rs 583-585 PostgresWorkerRegistry::update_heartbeat *)
Definition update_heartbeat (i : WorkerId) : method S DomainError.t unit := heartbeat i.

Definition set_job (job : option JobId) (st : WorkerState.t) (now : DateTime) (r : t) : t :=
  set_state st now (r <| current_job_id := job |>).

(** src: crates/server/infrastructure/src/persistence/postgres/worker_registry.rs 310-329 PostgresWorkerRegistry::assign_to_job *)
Definition assign_to_job (i : WorkerId) (job : JobId) : method S DomainError.t unit :=
  statement (update_where i (set_job (Some job) WorkerState.Busy)) "assign worker to job".

(** src: crates/server/infrastructure/src/persistence/postgres/worker_registry.rs 587-606 PostgresWorkerRegistry::mark_busy *)
Definition mark_busy (i : WorkerId) (job : option JobId) : method S DomainError.t unit :=
  statement (update_where i (set_job job WorkerState.Busy)) "mark worker as busy".

(** src: crates/server/infrastructure/src/persistence/postgres/worker_registry.rs 331-346 PostgresWorkerRegistry::release_from_job *)
Definition release_from_job (i : WorkerId) : method S DomainError.t unit :=
  statement (update_where i (set_job None WorkerState.Terminated)) "release worker from job".

(** In a transaction the worker is ready again. *)
(** src: crates/server/infrastructure/src/persistence/postgres/worker_registry_tx.rs 80-99 PostgresWorkerRegistry::release_from_job_with_tx *)
Definition release_from_job_with_tx (i : WorkerId) : method S DomainError.t unit :=
  statement (update_where i (set_job None WorkerState.Ready)) "release worker from job in transaction".

(** *** Monitoring *)

Definition earlier (a b : DateTime) : bool := negb (datetime_leb b a).

(** src: crates/server/infrastructure/src/persistence/postgres/worker_registry.rs 356-358 PostgresWorkerRegistry::find_unhealthy (clauses) *)
Definition unhealthy_row (now : DateTime) (timeout_secs : Z) (r : t) : bool :=
  match last_heartbeat r with
  | Some heartbeat => earlier heartbeat (seconds_before now timeout_secs)
  | None => false
  end && negb (String.eqb (state r) "TERMINATED" || String.eqb (state r) "TERMINATING").

(** src: crates/server/infrastructure/src/persistence/postgres/worker_registry.rs 348-376 PostgresWorkerRegistry::find_unhealthy *)
Definition find_unhealthy (timeout : Duration) : method S DomainError.t (list Worker.t) :=
  fetch_all (fun now rows =>
    take 100 (workers_by_heartbeat (where_ (unhealthy_row now (Prelude.as_i64 (as_secs timeout))) rows)))
    "find unhealthy workers".

(** src: crates/server/infrastructure/src/persistence/postgres/worker_registry.rs 378-404 PostgresWorkerRegistry::find_for_termination *)
Definition find_for_termination : method S DomainError.t (list Worker.t) :=
  fetch_all (fun now rows =>
    take 50 (workers_by_updated (where_ (fun r =>
      in_state WorkerState.Ready r ||
      match last_heartbeat r with
      | Some heartbeat => earlier heartbeat (seconds_before now 600)
      | None => false
      end) rows))) "find workers for termination".

Definition counted (p : t -> bool) (rows : list t) : nat := length (where_ p rows).

(** src: crates/server/infrastructure/src/persistence/postgres/worker_registry.rs 406-441 PostgresWorkerRegistry::stats *)
Definition stats : method S DomainError.t WorkerRegistryStats.t :=
  mapping_error (read (fun rows =>
    WorkerRegistryStats.mk (length rows)
      (counted (fun r => String.eqb (state r) "READY") rows)
      (counted (fun r => String.eqb (state r) "BUSY") rows)
      (counted (fun r => String.eqb (state r) "IDLE") rows)
      (counted (fun r => String.eqb (state r) "TERMINATING") rows) ∅ []))
    (database_error "get worker stats").

(** All the workers that satisfy [p] when the clock is read for it. *)
Fixpoint filter_now (p : DateTime -> Worker.t -> bool) (ws : list Worker.t) :
    method S DomainError.t (list Worker.t) :=
  match ws with
  | [] => mret []
  | w :: ws =>
      now ← calling read_utc;
      rest ← filter_now p ws;
      mret (if p now w then w :: rest else rest)
  end.

Definition find_now (p : DateTime -> Worker.t -> bool) : method S DomainError.t (list Worker.t) :=
  all_workers ← find WorkerFilter.new; filter_now p all_workers.

(** src: crates/server/infrastructure/src/persistence/postgres/worker_registry.rs 445-452 PostgresWorkerRegistry::find_idle_timed_out *)
Definition find_idle_timed_out : method S DomainError.t (list Worker.t) := find_now Worker.is_idle_timeout.

(** src: crates/server/infrastructure/src/persistence/postgres/worker_registry.rs 454-461 PostgresWorkerRegistry::find_lifetime_exceeded *)
Definition find_lifetime_exceeded : method S DomainError.t (list Worker.t) :=
  find_now Worker.is_lifetime_exceeded.

(** src: crates/server/infrastructure/src/persistence/postgres/worker_registry.rs 463-470 PostgresWorkerRegistry::find_ttl_after_completion_exceeded *)
Definition find_ttl_after_completion_exceeded : method S DomainError.t (list Worker.t) :=
  find_now Worker.is_ttl_after_completion_exceeded.

(** src: crates/server/infrastructure/src/persistence/postgres/worker_registry.rs 472-484 PostgresWorkerRegistry::count *)
Definition count : method S DomainError.t nat :=
  mapping_error (read (fun rows : list t => length rows)) (database_error "count workers").

(** The registry as the interface of its clients. *)
Definition registry : WorkerRegistry.t S := {|
  WorkerRegistry.register := register;
  WorkerRegistry.save := save;
  WorkerRegistry.unregister := unregister;
  WorkerRegistry.find_by_id := find_by_id;
  WorkerRegistry.get_by_job_id := get_by_job_id;
  WorkerRegistry.find := find;
  WorkerRegistry.find_ready_worker := find_ready_worker;
  WorkerRegistry.find_available := find_available;
  WorkerRegistry.find_by_provider := find_by_provider;
  WorkerRegistry.update_state := update_state;
  WorkerRegistry.update_heartbeat := update_heartbeat;
  WorkerRegistry.mark_busy := mark_busy;
  WorkerRegistry.release_from_job := release_from_job;
|}.

Definition monitoring : WorkerMonitoring S := {|
  WorkerStore.find_unhealthy := find_unhealthy;
  WorkerStore.find_for_termination := find_for_termination;
  WorkerStore.find_idle_timed_out := find_idle_timed_out;
  WorkerStore.find_lifetime_exceeded := find_lifetime_exceeded;
  WorkerStore.find_ttl_after_completion_exceeded := find_ttl_after_completion_exceeded;
  WorkerStore.worker_stats := stats;
  WorkerStore.worker_count := count;
|}.

End registry.
End PostgresWorkerRegistry.

(** ** The registry as a list of operations *)

Module RegistryOp.
Section op.
Context `{E : Externs}.

Inductive t :=
  | Register (h : WorkerHandle.t) (sp : WorkerSpec.t) (job : JobId)
  | Save (w : Worker.t)
  | Unregister (i : WorkerId)
  | UpdateState (i : WorkerId) (st : WorkerState.t)
  | Heartbeat (i : WorkerId)
  | AssignToJob (i : WorkerId) (job : JobId)
  | MarkBusy (i : WorkerId) (job : option JobId)
  | Release (i : WorkerId)
  | ReleaseInTransaction (i : WorkerId).

Context `{!WorkerFormat} {S : Type} `{!WorkerDatabase S} `{!Ambient S}.

Definition run (o : t) : method S DomainError.t unit :=
  match o with
  | Register h sp job => _ ← PostgresWorkerRegistry.register h sp job; mret tt
  | Save w => PostgresWorkerRegistry.save w
  | Unregister i => PostgresWorkerRegistry.unregister i
  | UpdateState i st => PostgresWorkerRegistry.update_state i st
  | Heartbeat i => PostgresWorkerRegistry.heartbeat i
  | AssignToJob i job => PostgresWorkerRegistry.assign_to_job i job
  | MarkBusy i job => PostgresWorkerRegistry.mark_busy i job
  | Release i => PostgresWorkerRegistry.release_from_job i
  | ReleaseInTransaction i => PostgresWorkerRegistry.release_from_job_with_tx i
  end.

(** What the operation writes can be read. *)
Definition stores (o : t) : Prop :=
  match o with
  | Register h sp _ => storable h sp
  | Save w => storable (Worker.handle w) (Worker.spec w)
  | _ => True
  end.

End op.
End RegistryOp.

(** ** Theorems *)

Section tables.
Context `{E : Externs} `{!WorkerFormat}.
Context {S : Type} `{!WorkerDatabase S} `{!WorkerDatabaseLaws S} `{!Ambient S}.
Import PostgresWorkerRegistry.
Implicit Types (rows : list WorkerRow.t) (r : WorkerRow.t).

(** The clock is not the database. *)
Context (rows_of_utc : forall s : S, worker_rows (read_utc s).1 = worker_rows s).

(** A row that can be read as the worker it is the row of. *)
Definition readable r : Prop := exists h sp st,
  handle_from_value (WorkerRow.handle r) = Ok h /\ WorkerHandle.worker_id h = WorkerRow.id r /\
  worker_spec_from_value (WorkerRow.spec r) = Ok sp /\ WorkerRow.state r = WorkerState.fmt st.

Definition readable_table rows : Prop := NoDup (WorkerRow.id <$> rows) /\ Forall readable rows.

Lemma state_of_text_fmt st : state_of_text (WorkerState.fmt st) = Ok st.
Proof. by destruct st. Qed.

Lemma ids_of_replaced (p : WorkerRow.t -> bool) (f : WorkerRow.t -> WorkerRow.t) rows :
  (forall r, p r = true -> WorkerRow.id (f r) = WorkerRow.id r) ->
  WorkerRow.id <$> ((fun r => if p r then f r else r) <$> rows) = WorkerRow.id <$> rows.
Proof.
  intros Hf. rewrite <- list_fmap_compose. apply list_fmap_ext. intros _ r _. simpl.
  destruct (p r) eqn:Hp; [by apply Hf|done].
Qed.

Lemma replaced_readable (p : WorkerRow.t -> bool) (f : WorkerRow.t -> WorkerRow.t) rows :
  (forall r, p r = true -> readable r -> readable (f r) /\ WorkerRow.id (f r) = WorkerRow.id r) ->
  readable_table rows -> readable_table ((fun r => if p r then f r else r) <$> rows).
Proof.
  intros Hf [Hnd Hall]. split.
  - replace (WorkerRow.id <$> _) with (WorkerRow.id <$> rows); [done|]. clear Hnd.
    induction Hall as [|r rows Hr _ IH]; [done|]. simpl. f_equal; [|done].
    destruct (p r) eqn:Hp; [|done]. symmetry. by apply Hf.
  - apply Forall_fmap. eapply Forall_impl; [exact Hall|]. intros r Hr. simpl.
    destruct (p r) eqn:Hp; [by apply Hf|done].
Qed.

Lemma upsert_readable new merge now rows rows' :
  upsert new merge now rows = Ok rows' -> readable_table rows -> readable (new now) ->
  (forall old, WorkerRow.id old = WorkerRow.id (new now) ->
     readable (merge now (new now) old) /\ WorkerRow.id (merge now (new now) old) = WorkerRow.id old) ->
  readable_table rows'.
Proof.
  unfold upsert. intros Hup Hrows Hnew Hmerge. destruct (refused_row _); [done|].
  destruct (existsb _ _) eqn:Hex; injection Hup as <-.
  - apply replaced_readable; [|done]. intros r Hr _. apply Hmerge. by apply bool_decide_eq_true in Hr.
  - destruct Hrows as [Hnd Hall]. split; [|by apply Forall_app; repeat constructor].
    rewrite fmap_app. apply NoDup_app. split_and!; [done| |apply NoDup_singleton].
    intros i Hi ->%list_elem_of_singleton. apply list_elem_of_fmap in Hi as (r & Hid & Hr).
    apply Bool.not_true_iff_false in Hex. apply Hex, existsb_exists. exists r.
    split; [by apply list_elem_of_In|]. by apply bool_decide_eq_true.
Qed.

Lemma update_readable i set now rows rows' :
  update_where i set now rows = Ok rows' -> readable_table rows ->
  (forall r, readable r -> readable (set now r) /\ WorkerRow.id (set now r) = WorkerRow.id r) ->
  readable_table rows'.
Proof.
  unfold update_where. intros Hup Hrows Hset. destruct (list_find _ _) as [[]|]; [done|].
  injection Hup as <-. apply replaced_readable; [|done]. auto.
Qed.

Lemma statement_readable f what s :
  (forall now rows', f now (worker_rows s) = Ok rows' -> readable_table rows') ->
  readable_table (worker_rows s) -> readable_table (worker_rows (after (statement f what) s)).
Proof.
  intros Hf Hs. unfold statement. rewrite after_mapping.
  destruct (write_rows f s) as [->|[now Hnow]]; [done|]. by eapply Hf.
Qed.

Lemma updated_readable i set what s :
  (forall now r, readable r -> readable (set now r) /\ WorkerRow.id (set now r) = WorkerRow.id r) ->
  readable_table (worker_rows s) ->
  readable_table (worker_rows (after (statement (update_where i set) what) s)).
Proof.
  intros Hset Hs. apply statement_readable; [|done]. intros now rows' Hup.
  eapply update_readable; [exact Hup|done|auto].
Qed.

Lemma set_state_readable st now r :
  readable r -> readable (set_state st now r) /\ WorkerRow.id (set_state st now r) = WorkerRow.id r.
Proof. intros (h & sp & st' & ? & ? & ? & ?). split; [|done]. by exists h, sp, st. Qed.

Lemma set_job_readable job st now r :
  readable r -> readable (set_job job st now r) /\ WorkerRow.id (set_job job st now r) = WorkerRow.id r.
Proof. intros (h & sp & st' & ? & ? & ? & ?). split; [|done]. by exists h, sp, st. Qed.

Lemma deleted_readable p rows : readable_table rows -> readable_table (where_ p rows).
Proof.
  unfold where_. intros [Hnd Hall]. split; [|by apply Forall_forall; intros r [_ Hr]%list_elem_of_filter; rewrite Forall_forall in Hall; apply Hall].
  induction rows as [|r rows IH]; [done|]. apply NoDup_cons in Hnd as [Hr Hnd].
  apply Forall_cons in Hall as [_ Hall]. rewrite filter_cons. case_decide; [|auto].
  rewrite fmap_cons. apply NoDup_cons. split; [|auto]. contradict Hr.
  apply list_elem_of_fmap in Hr as (r' & Hid & Hr'). apply list_elem_of_filter in Hr' as [_ Hr'].
  apply list_elem_of_fmap. by exists r'.
Qed.

Lemma registered_readable suffix h sp job s : storable h sp -> readable_table (worker_rows s) ->
  readable_table (worker_rows (after (_ ← register_row suffix h sp job; mret tt) s)).
Proof.
  intros [Hround Hround'] Hs.
  apply (wp_run _ (fun _ s' => readable_table (worker_rows s')) s). apply wp_bind.
  unfold register_row. apply wp_bind, wp_lift.
  destruct (worker_spec_to_value sp) as [sj|e] eqn:Hsp; [|done]. apply wp_bind, wp_lift.
  destruct (handle_to_value h) as [hj|e] eqn:Hh; [|done]. apply wp_bind, wp_run.
  assert (readable_table (worker_rows (after (statement
    (upsert (registered_row h sj hj job) registered_again) ("register worker" +:+ suffix)) s))) as Hrows.
  { apply statement_readable; [|done]. intros now rows' Hup.
    assert (readable (registered_row h sj hj job now)) as Hnew.
    { exists h, sp, WorkerState.Creating. split_and!; [by apply Hround|done|by apply Hround'|done]. }
    eapply upsert_readable; [exact Hup|done|exact Hnew|]. intros old Hold. split; [|done].
    exists h, sp, WorkerState.Creating. split_and!; [by apply Hround|done|by apply Hround'|done]. }
  destruct (returns _ s) as [[]|]; [|done]. apply wp_bind, wp_calling.
  do 2 apply wp_ret. by rewrite rows_of_utc.
Qed.

Lemma saved_readable suffix w s :
  storable (Worker.handle w) (Worker.spec w) -> readable_table (worker_rows s) ->
  readable_table (worker_rows (after (save_row suffix w) s)).
Proof.
  intros [Hround Hround'] Hs. apply (wp_run _ (fun _ s' => readable_table (worker_rows s')) s).
  unfold save_row. apply wp_bind, wp_lift. destruct (row_of_worker w) as [row|e] eqn:Hrow; [|done].
  apply wp_run.
  assert (readable row) as Hnew.
  { unfold row_of_worker in Hrow. destruct (worker_spec_to_value _) as [sj|] eqn:Hsp; [|done].
    destruct (handle_to_value _) as [hj|] eqn:Hh; [|done]. injection Hrow as <-.
    exists (Worker.handle w), (Worker.spec w), (Worker.state w).
    split_and!; [by apply Hround|done|by apply Hround'|done]. }
  apply statement_readable; [|done]. intros now rows' Hup.
  eapply upsert_readable; [exact Hup|done|done|]. intros old Hold. split; [|done].
  destruct Hnew as (h & sp & st & ? & ? & ? & ?). by exists h, sp, st.
Qed.

(** What a worker that is read from a row has of it. *)
Definition reads_as r (w : Worker.t) : Prop :=
  Worker.id w = WorkerRow.id r /\ WorkerRow.state r = WorkerState.fmt (Worker.state w) /\
  Worker.current_job_id w = WorkerRow.current_job_id r /\
  (forall heartbeat, WorkerRow.last_heartbeat r = Some heartbeat -> Worker.last_heartbeat w = heartbeat) /\
  Worker.jobs_executed w = 0 /\ Worker.job_completed_at w = None.

Lemma map_readable r s : readable r -> exists w s',
  map_row_to_worker r s = (s', Ok w) /\ worker_rows s' = worker_rows s /\ reads_as r w.
Proof.
  intros (h & sp & st & Hh & Hid & Hsp & Hst).
  unfold map_row_to_worker, mbind, method_bind, lift. rewrite Hh, Hsp, Hst, state_of_text_fmt. simpl.
  destruct (WorkerRow.last_heartbeat r) as [heartbeat|] eqn:Hb; simpl.
  - eexists _, s. split_and!; [done|done|]. unfold reads_as. rewrite Hb. split_and!; try done.
    by intros ? [= ->].
  - unfold calling. pose proof (rows_of_utc s) as Hrows. destruct (read_utc s) as [s1 now].
    eexists _, s1. split_and!; [done|done|]. unfold reads_as. by rewrite Hb.
Qed.

Lemma map_rows_readable rows s : Forall readable rows -> exists ws s',
  map_rows rows s = (s', Ok ws) /\ worker_rows s' = worker_rows s /\ Forall2 reads_as rows ws.
Proof.
  intros Hall. revert s. induction Hall as [|r rows Hr _ IH]; intros s; [by exists [], s|].
  destruct (map_readable r s Hr) as (w & s1 & Hmap & Hs1 & Hw).
  destruct (IH s1) as (ws & s2 & Hmaps & Hs2 & Hws). exists (w :: ws), s2.
  split_and!; [|by rewrite Hs2|by constructor].
  simpl. unfold mbind, method_bind. by rewrite Hmap, Hmaps.
Qed.

Lemma read_at_cases {A} (f : DateTime -> list WorkerRow.t -> A) (s : S) : exists s1 x,
  read_at f s = (s1, x) /\ worker_rows s1 = worker_rows s /\
  match x with Ok a => exists now, a = f now (worker_rows s) | Err _ => True end.
Proof.
  destruct (read_at f s) as [s1 x] eqn:Hr. exists s1, x. split_and!; [done| |].
  - pose proof (read_at_rows f s) as Hs. unfold after in Hs. by rewrite Hr in Hs.
  - destruct x as [a|]; [|done]. apply (read_at_ok f s). unfold returns. by rewrite Hr.
Qed.

Lemma fetch_all_readable select what s :
  (forall now l, select now l ⊆ l) -> readable_table (worker_rows s) ->
  worker_rows (after (fetch_all select what) s) = worker_rows s /\
  (forall ws, returns (fetch_all select what) s = Ok ws ->
     exists now, Forall2 reads_as (select now (worker_rows s)) ws) /\
  (is_ok (returns (read_at select) s) = true ->
     is_ok (returns (fetch_all select what) s) = true).
Proof.
  intros Hsel [_ Hall]. unfold fetch_all, returns, after, mbind, method_bind, mapping_error.
  destruct (read_at_cases select s) as (s1 & x & -> & Hs1 & Hr).
  destruct x as [rows'|e]; simpl; [|done].
  destruct Hr as [now ->]. destruct (map_rows_readable (select now (worker_rows s)) s1) as (ws & s2 & -> & Hs2 & Hws).
  - apply Forall_forall. intros r Hr. rewrite Forall_forall in Hall. apply Hall. by apply (Hsel now).
  - simpl. split_and!; [by rewrite Hs2|intros ? [= <-]; by exists now|done].
Qed.

(** C16: every operation keeps every row of the table readable and the only one of
    its identifier; and no query of a table that is so fails in reading what the
    database answers: the workers are those of the rows, in order, with their
    states and jobs - and, whatever a worker has done, with no job completed. *)
Theorem workers_stay_readable s : readable_table (worker_rows s) ->
  (forall o, RegistryOp.stores o -> readable_table (worker_rows (after (RegistryOp.run o) s))) /\
  (forall select what, (forall now l, select now l ⊆ l) ->
     (is_ok (returns (read_at select) s) = true ->
        is_ok (returns (fetch_all select what) s) = true) /\
     (forall ws, returns (fetch_all select what) s = Ok ws ->
        exists now, Forall2 reads_as (select now (worker_rows s)) ws)).
Proof.
  intros Hs. split.
  - intros [h sp job|w|i|i st|i|i job|i job|i|i] Ho; simpl in *; try (apply updated_readable; [|done]);
      try (intros; by apply set_state_readable); try (intros; by apply set_job_readable).
    + by apply registered_readable.
    + by apply saved_readable.
    + apply statement_readable; [|done]. intros now rows' [= <-]. by apply deleted_readable.
    + intros now r (h & sp & st & ? & ? & ? & ?). split; [by exists h, sp, st|done].
  - intros select what Hsel. destruct (fetch_all_readable select what s Hsel Hs) as (_ & Hws & Hok).
    auto.
Qed.

(** *** Saving *)

(** What a worker that was saved is read as: the jobs it has executed and the
    end of its job are not stored. *)
Definition stored (w : Worker.t) (created : DateTime) : Worker.t :=
  w <| Worker.id := WorkerHandle.worker_id (Worker.handle w) |> <| Worker.jobs_executed := 0 |>
    <| Worker.job_completed_at := None |> <| Worker.created_at := created |>.

Lemma saved_row w row :
  storable (Worker.handle w) (Worker.spec w) -> row_of_worker w = Ok row ->
  (forall name created s,
     map_row_to_worker (row <| WorkerRow.name := name |> <| WorkerRow.created_at := created |>) s =
     (s, Ok (stored w created))) /\
  WorkerRow.id row = WorkerHandle.worker_id (Worker.handle w) /\
  WorkerRow.created_at row = Worker.created_at w.
Proof.
  intros [Hround Hround'].
  unfold row_of_worker. destruct (worker_spec_to_value _) as [sj|] eqn:Hsp; [|done].
  destruct (handle_to_value _) as [hj|] eqn:Hh; [|done]. intros [= <-]. split; [|done].
  intros name created s. unfold map_row_to_worker, mbind, method_bind, lift. simpl.
  rewrite (Hround _ eq_refl), (Hround' _ eq_refl), state_of_text_fmt. by destruct w.
Qed.

Lemma upsert_head new merge now rows rows' :
  upsert new merge now rows = Ok rows' ->
  (forall old, WorkerRow.id (merge now (new now) old) = WorkerRow.id (new now)) ->
  let found := where_ (has_id (WorkerRow.id (new now))) in
  head (found rows') =
    Some (match head (found rows) with Some old => merge now (new now) old | None => new now end).
Proof.
  unfold upsert, where_. intros Hup Hid. destruct (refused_row _); [done|]. simpl.
  destruct (existsb _ rows) eqn:Hex; injection Hup as <-.
  - rewrite head_filter_fmap; [|intros r; destruct (has_id _ r) eqn:Hr; [|done]; unfold has_id;
      by rewrite Hid, bool_decide_eq_true].
    destruct (head _) as [old|] eqn:Hh.
    + apply head_filter_Some in Hh as [_ Hold]. simpl. by rewrite Hold.
    + by apply head_filter_None in Hh; congruence.
  - rewrite filter_app. apply head_filter_None in Hex. rewrite Hex.
    destruct (filter _ rows); [|done]. simpl. rewrite filter_cons_True; [done|].
    by apply bool_decide_eq_true.
Qed.

Lemma save_upserts w s :
  returns (save w) s = Ok tt ->
  exists row now, row_of_worker w = Ok row /\
    upsert (fun _ => row) saved_again now (worker_rows s) = Ok (worker_rows (after (save w) s)).
Proof.
  unfold save, save_row, returns at 1. rewrite after_lift_bind.
  destruct (row_of_worker w) as [row|] eqn:Hrow; [|done]. intros Hok.
  change (returns (statement (upsert (fun _ => row) saved_again) "save worker") s = Ok tt) in Hok.
  apply mapping_ok, write_ok in Hok as [now Hup]. exists row, now. split; [done|].
  unfold statement. by rewrite after_mapping.
Qed.

(** The time of the first saving of a worker: that of the row the table has for
    it, or its own when there is none. *)
Definition first_saved (w : Worker.t) (s : S) : DateTime :=
  match head (where_ (has_id (WorkerHandle.worker_id (Worker.handle w))) (worker_rows s)) with
  | Some old => WorkerRow.created_at old
  | None => Worker.created_at w
  end.


(** *** Releasing *)

Lemma updated_rows i set now rows rows' r' :
  update_where i set now rows = Ok rows' -> r' ∈ rows' ->
  (forall r, WorkerRow.id (set now r) = WorkerRow.id r) ->
  WorkerRow.id r' = i -> exists r, r ∈ rows /\ r' = set now r.
Proof.
  unfold update_where. intros Hup Hr Hset Hid. destruct (list_find _ _) as [[]|]; [done|].
  injection Hup as <-. apply list_elem_of_fmap in Hr as (r & -> & Hr). exists r. split; [done|].
  destruct (has_id i r) eqn:Hi; [done|]. by apply bool_decide_eq_false in Hi.
Qed.

(** A worker that is released from its job is terminated, and offered to no
    other job; one that is released in a transaction is ready, and the query for
    a worker that is ready, run next, has it among its rows: it is given a second
    job, which the [Worker] aggregate never allows. *)
Theorem released_in_a_transaction_is_offered i s :
  (returns (release_from_job i) s = Ok tt ->
     forall r, r ∈ worker_rows (after (release_from_job i) s) -> WorkerRow.id r = i ->
       free_and_ready r = false) /\
  (returns (release_from_job_with_tx i) s = Ok tt ->
     forall r, r ∈ worker_rows (after (release_from_job_with_tx i) s) -> WorkerRow.id r = i ->
       r ∈ where_ free_and_ready (worker_rows (after (release_from_job_with_tx i) s))).
Proof.
  unfold release_from_job, release_from_job_with_tx, statement. rewrite !after_mapping. split.
  - intros [now Hup]%mapping_ok%write_ok r Hr Hid.
    by destruct (updated_rows _ _ _ _ _ _ Hup Hr (fun _ => eq_refl) Hid) as (r0 & _ & ->).
  - intros [now Hup]%mapping_ok%write_ok r Hr Hid. apply list_elem_of_filter. split; [|done].
    by destruct (updated_rows _ _ _ _ _ _ Hup Hr (fun _ => eq_refl) Hid) as (r0 & _ & ->).
Qed.

(** *** Statistics *)

Lemma counted_none p rows : (forall r, r ∈ rows -> p r = false) -> counted p rows = 0%nat.
Proof.
  intros Hp. unfold counted, where_. induction rows as [|r rows IH]; [done|].
  rewrite filter_cons_False by (rewrite (Hp r) by left; done). apply IH. intros r' Hr'. apply Hp. by right.
Qed.

(** No worker is counted as idle or as terminating: these are no states. *)
Lemma no_worker_is_idle s counts :
  readable_table (worker_rows s) -> returns stats s = Ok counts ->
  WorkerRegistryStats.idle_workers counts = 0%nat /\
  WorkerRegistryStats.terminating_workers counts = 0%nat /\
  WorkerRegistryStats.total_workers counts = length (worker_rows s).
Proof.
  intros [_ Hall] Hst. apply mapping_ok, read_ok in Hst as ->. simpl. rewrite Forall_forall in Hall.
  split_and!; [..|done]; apply counted_none; intros r Hr;
    destruct (Hall r Hr) as (h & sp & st & _ & _ & _ & ->); by destruct st.
Qed.

(** *** Unhealthy workers *)

Lemma unhealthy_subset now secs rows :
  take 100 (workers_by_heartbeat (where_ (unhealthy_row now secs) rows)) ⊆ rows.
Proof.
  intros r Hr%elem_of_take. destruct Hr as (k & Hr%list_elem_of_lookup_2 & _).
  rewrite workers_heartbeat_perm in Hr. by apply list_elem_of_filter in Hr as [_ ?].
Qed.

(** What is found has a heartbeat, and is not terminated. *)
Lemma unhealthy_workers timeout s ws :
  readable_table (worker_rows s) -> returns (find_unhealthy timeout) s = Ok ws ->
  worker_rows (after (find_unhealthy timeout) s) = worker_rows s /\
  forall w, w ∈ ws -> exists r, r ∈ worker_rows s /\ reads_as r w /\
    is_Some (WorkerRow.last_heartbeat r) /\ Worker.state w <> WorkerState.Terminated.
Proof.
  intros Hs Hok. destruct (fetch_all_readable _ "find unhealthy workers" s
    (fun now rows => unhealthy_subset now (Prelude.as_i64 (as_secs timeout)) rows) Hs) as (Hrows & Hws & _).
  split; [exact Hrows|]. destruct (Hws _ Hok) as [now Hall]. intros w Hw.
  apply list_elem_of_lookup_1 in Hw as [k Hw].
  destruct (Forall2_lookup_r _ _ _ _ _ Hall Hw) as (r & Hr%list_elem_of_lookup_2 & Hread). exists r.
  apply elem_of_take in Hr as (k' & Hr%list_elem_of_lookup_2 & _). rewrite workers_heartbeat_perm in Hr.
  apply list_elem_of_filter in Hr as [Hun Hr]. split_and!; [done|done| |].
  - unfold unhealthy_row in Hun. by destruct (WorkerRow.last_heartbeat r).
  - intros Hst. destruct Hread as (_ & Hstate & _). rewrite Hst in Hstate. unfold unhealthy_row in Hun.
    rewrite Hstate in Hun. by rewrite andb_comm in Hun.
Qed.

End tables.

(** ** Evaluation *)

#[local] Existing Instance concrete_order.
#[local] Existing Instance concrete_format.

(** The table of workers; the outbox with the clock, the identifiers and the
    bus; and the containers that a provider of containers has. *)
Module ExampleWorkers.

Record t := mk {
  workers : Sheet.t (WorkerRow.t (E := concrete));
  outbox : ExampleDatabase.world;
  containers : list string;
  providers : gmap nat unit;
}.

#[global] Instance t_rebuild : Rebuild t := fun w =>
  mk (workers w) (outbox w) (containers w) (providers w).

Definition spec : WorkerSpec.t (E := concrete) := WorkerSpec.new (E := concrete) "img" "srv" 1%nat.
Definition handle (n : nat) : WorkerHandle.t (E := concrete) :=
  WorkerHandle.new (E := concrete) n (unary n) ProviderType.Docker 2%nat 0.

#[global] Instance format : WorkerFormat (E := concrete) :=
  @Build_WorkerFormat concrete (fun _ => Ok (JStr "spec")) (fun _ => Ok spec)
    (fun h => Ok (JNum (Z.of_nat (WorkerHandle.worker_id (E := concrete) h))))
    (fun v => match v with JNum n => Ok (handle (Z.to_nat n)) | _ => Err "invalid type" end).

#[global] Instance sheet : Table (E := concrete) t (WorkerRow.t (E := concrete)) :=
  @Build_Table concrete t (WorkerRow.t (E := concrete)) (fun w => Sheet.rows (workers w))
    (fun l w => w <| workers := set_table_rows (E := concrete) l (workers w) |>)
    (fun w => ExampleDatabase.clock (outbox w))
    (fun w => let (s, o) := statement_outcome (E := concrete) (workers w) in (w <| workers := s |>, o)).

#[global] Instance database : WorkerDatabase (E := concrete) t :=
  @Build_WorkerDatabase concrete t sheet (fun _ => None) (fun now => now) (fun now => now) None
    (fun _ => None) (fun now secs => now - 1000000000 * secs) (fun l => l) (fun l => l) (fun l => l).

#[global] Instance laws : WorkerDatabaseLaws (E := concrete) t.
Proof. split; try done. split; [done|]. by intros [[r c [|o os]] x p q]. Qed.

#[global] Instance ambient : Ambient (E := concrete) t :=
  @Build_Ambient concrete t
    (fun w =>
      (w <| outbox := outbox w <| ExampleDatabase.clock := ExampleDatabase.clock (outbox w) + 1 |> |>,
       ExampleDatabase.clock (outbox w)))
    (fun w => (w, ExampleDatabase.clock (outbox w)))
    (fun w =>
      (w <| outbox := outbox w <| ExampleDatabase.ids := S (ExampleDatabase.ids (outbox w)) |> |>,
       ExampleDatabase.ids (outbox w))).

Definition at_second (secs : Z) (w : t) : t :=
  w <| outbox := outbox w <| ExampleDatabase.clock := 1000000000 * secs |> |>.

Definition empty : t := mk (Sheet.mk [] 0 []) (ExampleDatabase.mk [] 20 0 [] [] 0) [] {[2%nat := tt]}.

(** Worker 3 is registered for job 7, works on it, and sends a heartbeat. *)
Definition busy : t :=
  after (PostgresWorkerRegistry.heartbeat (E := concrete) 3%nat)
    (after (PostgresWorkerRegistry.update_state (E := concrete) 3%nat WorkerState.Busy)
      (after (PostgresWorkerRegistry.register (E := concrete) (handle 3) spec 7%nat) empty)).

Definition worker : Worker.t (E := concrete) := Worker.new (E := concrete) (handle 3) spec 5.

End ExampleWorkers.

Example busy_worker_is_read :
  (fun w => (Worker.id w, Worker.state w, Worker.current_job_id w)) <$>
    default [] (match returns (PostgresWorkerRegistry.find (E := concrete)
                 (WorkerFilter.new (E := concrete))) ExampleWorkers.busy with
                | Ok l => Some l | Err _ => None end) =
  [(3%nat, WorkerState.Busy, Some 7%nat)].
Proof. reflexivity. Qed.


Example workers_stay_readable_witness :
  readable_table (E := concrete) (table_rows (E := concrete) (Row := WorkerRow.t (E := concrete))
    (after (RegistryOp.run (E := concrete) (RegistryOp.Release (E := concrete) 3%nat)) ExampleWorkers.busy)).
Proof.
  refine (proj1 (workers_stay_readable (E := concrete) (S := ExampleWorkers.t) (fun _ => eq_refl)
    ExampleWorkers.busy _) (RegistryOp.Release (E := concrete) 3%nat) I).
  split; [apply NoDup_singleton|]. repeat constructor.
  by exists (ExampleWorkers.handle 3), ExampleWorkers.spec, WorkerState.Busy.
Defined.

(** A worker released in a transaction is found again, without one it is not. *)
Example released_worker_is_offered :
  let offered w := returns (PostgresWorkerRegistry.find_ready_worker (E := concrete) None) w in
  let id_of w := match offered w with Ok (Some w) => Some (Worker.id w) | _ => None end in
  id_of (after (PostgresWorkerRegistry.release_from_job (E := concrete) 3%nat) ExampleWorkers.busy) = None /\
  id_of (after (PostgresWorkerRegistry.release_from_job_with_tx (E := concrete) 3%nat) ExampleWorkers.busy) =
    Some 3%nat.
Proof. split; reflexivity. Qed.
