(* ===== verification/WorkerUpkeep.v ===== *)
(** * The upkeep of workers
    ([crates/server/application/src/workers/reconciler.rs, garbage_collector.rs,
    lifecycle.rs])

    The reconciler looks for workers whose heartbeats are missing, the garbage
    collector for workers that are to be terminated and for what a provider has
    that is not registered; the lifecycle manager does the same when it has
    neither of them, and reacts to events of the providers and of the bus.

    The map of the providers is part of the world, and may change whenever the
    code waits.  Counters are numbers of elements of lists, far below the bounds
    of [usize].  The delay between two attempts is a product the code computes
    with [Duration * u32], which panics above the range of a [Duration]; the base
    of the delay is one second.  Log lines are left out, with the readings of the
    clock in them. *)

From Stdlib Require Import String.
From S2P Require Import Prelude Effects Std Externs States Errors Job ProviderApi Worker Events Services Orchestrator Steps CommandOutbox Sql Outbox OutboxTable SagaTypes SagaCoordinators ProviderConfigs AppServices JobStore JobUseCases FailureHandlers WorkerStore.

(** ** What the components are given *)

Module ProviderWorkerInfo.
Section info.
Context `{E : Externs}.

(** src: crates/server/domain/src/workers/provider_api.rs 344-353 ProviderWorkerInfo *)
Record t := mk {
  resource_id : string;
  state : WorkerState.t;
  last_seen : option DateTime;
  current_job_id : option string;
}.

End info.
End ProviderWorkerInfo.

Module WorkerInfrastructureEvent.
Section event.
Context `{E : Externs}.

(** src: crates/server/domain/src/workers/provider_api.rs 397-423 WorkerInfrastructureEvent *)
Inductive t :=
  | WorkerStarted (provider_resource_id : string) (timestamp : DateTime)
  | WorkerStopped (provider_resource_id : string) (timestamp : DateTime) (reason : option string)
      (exit_code : option Z)
  | WorkerHealthChanged (provider_resource_id : string) (status : HealthStatus.t) (timestamp : DateTime)
  | ProviderEvent (provider_id : ProviderId) (event_type : string) (payload : Json) (timestamp : DateTime).

End event.
End WorkerInfrastructureEvent.

(** The providers of workers, each a value of [P], and the map that holds them. *)
(** src: crates/server/domain/src/workers/provider_api.rs 319-339 WorkerLifecycle *)
Class WorkerProviders `{E : Externs} (P W : Type) := {
  destroy_worker : P -> WorkerHandle.t -> method W ProviderError.t unit;
  list_workers : P -> method W ProviderError.t (list ProviderWorkerInfo.t);
  destroy_worker_by_id : P -> string -> method W ProviderError.t unit;
  providers_of : W -> gmap ProviderId P;
  set_providers : gmap ProviderId P -> W -> W;
}.

(** [tokio::time::sleep]: what the world is when it ends. *)
Class Sleeping (W : Type) := { pause : Duration -> W -> W }.

(** [Debug] of the types that are printed in messages. *)
Class UpkeepDebug `{E : Externs} := {
  debug_outbox_error : OutboxError.t -> string;
  debug_last_error : option ProviderError.t -> string;
  debug_reason : option string -> string;
}.

Definition debug_state (s : WorkerState.t) : string :=
  match s with
  | WorkerState.Creating => "Creating"
  | WorkerState.Ready => "Ready"
  | WorkerState.Busy => "Busy"
  | WorkerState.Terminated => "Terminated"
  end.

(** An error that is logged. *)
Definition ignoring {W X F A} (m : method W X A) : method W F unit := _ ← result_of m; mret tt.

(** [for x in l { ... }] with a mutable result. *)
Fixpoint for_each {W F X R} (body : X -> R -> method W F R) (l : list X) (r : R) : method W F R :=
  match l with
  | [] => mret r
  | x :: l => r ← body x r; for_each body l r
  end.

(** ** The events that are written *)

Section events.
Context `{E : Externs}.

(** [source] is the component that writes the event. *)
(** src: crates/server/application/src/workers/reconciler.rs 215-233 WorkerReconciler::emit_heartbeat_missed (event) *)
Definition heartbeat_missed_event (source : string) (w : Worker.t) (job : JobId) (now : DateTime) :
    OutboxEventInsert.t :=
  OutboxEventInsert.for_worker (Worker.id w) "WorkerHeartbeatMissed"
    (json_object [
      ("worker_id", str (uuid_to_string (Worker.id w)));
      ("last_heartbeat", str (to_rfc3339 (Worker.updated_at w)));
      ("current_job_id", str (uuid_to_string job)); ("detected_at", str (to_rfc3339 now))])
    (Some (json_object [("source", str source); ("reconciliation_run", json_of_bool true)]))
    (Some ("heartbeat-missed-" +:+ uuid_to_string (Worker.id w) +:+ "-" +:+ show_Z (datetime_timestamp now))).

(** src: crates/server/application/src/workers/reconciler.rs 252-267 WorkerReconciler::emit_job_reassignment_required (event) *)
Definition reassignment_event (source : string) (w : Worker.t) (job : JobId) (now : DateTime) :
    OutboxEventInsert.t :=
  OutboxEventInsert.for_job job "JobReassignmentRequired"
    (json_object [
      ("job_id", str (uuid_to_string job)); ("failed_worker_id", str (uuid_to_string (Worker.id w)));
      ("reason", str "worker_heartbeat_timeout"); ("occurred_at", str (to_rfc3339 now))])
    (Some (json_object [
      ("source", str source); ("reconciliation_run", json_of_bool true);
      ("worker_last_heartbeat", str (to_rfc3339 (Worker.updated_at w)))]))
    (Some ("job-reassign-" +:+ uuid_to_string job +:+ "-" +:+ show_Z (datetime_timestamp now))).

(** src: crates/server/application/src/workers/reconciler.rs 287-307 WorkerReconciler::emit_status_changed (event) *)
Definition status_changed_event (source : string) (i : WorkerId) (old new : WorkerState.t)
    (reason : string) (now : DateTime) : OutboxEventInsert.t :=
  OutboxEventInsert.for_worker i "WorkerStatusChanged"
    (json_object [
      ("worker_id", str (uuid_to_string i)); ("old_status", str (debug_state old));
      ("new_status", str (debug_state new)); ("reason", str reason);
      ("occurred_at", str (to_rfc3339 now))])
    (Some (json_object [("source", str source); ("transition_reason", str reason)]))
    (Some ("worker-status-" +:+ uuid_to_string i +:+ "-" +:+ debug_state new +:+ "-"
      +:+ show_Z (datetime_timestamp now))).

(** src: crates/server/application/src/workers/garbage_collector.rs 280-295 WorkerGarbageCollector::emit_worker_idle_event (event) *)
Definition worker_idle_event `{!EventFormat} (source : string) (w : Worker.t) : OutboxEventInsert.t :=
  OutboxEventInsert.for_worker (Worker.id w) "WorkerEphemeralIdle"
    (json_object [
      ("worker_id", str (uuid_to_string (Worker.id w)));
      ("provider_id", str (uuid_to_string (Worker.provider_id w)));
      ("idle_since", str (to_rfc3339 (Worker.last_heartbeat w)));
      ("idle_timeout_secs", json_of_Z (Worker.idle_timeout_secs w));
      ("current_job_id", json_of_option (fun j => str (uuid_to_string j)) (Worker.current_job_id w))])
    (Some (json_object [("source", str source); ("event", str "idle_timeout_detected")]))
    (Some ("worker-idle-" +:+ uuid_to_string (Worker.id w))).

End events.

Module OrphanWorkerInfo.
Section info.
Context `{E : Externs}.

(** src: crates/server/application/src/workers/garbage_collector.rs 51-55 OrphanWorkerInfo *)
Record t := mk { worker_id : WorkerId; provider_resource_id : string; last_seen : DateTime }.

End info.
End OrphanWorkerInfo.

(** src: crates/server/application/src/workers/garbage_collector.rs 427-452 WorkerGarbageCollector::emit_orphan_detected (event) *)
Definition orphan_detected_event `{E : Externs} (source method : string) (orphan : OrphanWorkerInfo.t)
    (provider_id : ProviderId) (now : DateTime) : OutboxEventInsert.t :=
  let orphaned_duration := as_secs (elapsed_or_zero now (OrphanWorkerInfo.last_seen orphan)) in
  OutboxEventInsert.for_worker (OrphanWorkerInfo.worker_id orphan) "OrphanWorkerDetected"
    (json_object [
      ("worker_id", str (uuid_to_string (OrphanWorkerInfo.worker_id orphan)));
      ("provider_id", str (uuid_to_string provider_id));
      ("last_seen", str (to_rfc3339 (OrphanWorkerInfo.last_seen orphan)));
      ("orphaned_duration_secs", json_of_Z orphaned_duration); ("detection_method", str method)])
    (Some (json_object [
      ("source", str source); ("provider_resource_id", str (OrphanWorkerInfo.provider_resource_id orphan))]))
    (Some ("orphan-detected-" +:+ uuid_to_string provider_id +:+ "-" +:+ show_Z (datetime_timestamp now))).

(** ** Reconciliation *)

Module ReconciliationResult.
Section result.
Context `{E : Externs}.

(** src: crates/server/application/src/workers/reconciler.rs 27-36 ReconciliationResult *)
Record t := mk {
  stale_workers : list WorkerId;
  workers_marked_unhealthy : list WorkerId;
  affected_jobs : list JobId;
  jobs_requiring_reassignment : list JobId;
}.

#[global] Instance t_rebuild : Rebuild t := fun r =>
  mk (stale_workers r) (workers_marked_unhealthy r) (affected_jobs r) (jobs_requiring_reassignment r).

Definition default : t := mk [] [] [] [].

(** src: crates/server/application/src/workers/reconciler.rs 40-44 ReconciliationResult::has_changes *)
Definition has_changes (r : t) : bool :=
  negb (bool_decide (stale_workers r = [])) || negb (bool_decide (workers_marked_unhealthy r = []))
  || negb (bool_decide (jobs_requiring_reassignment r = [])).

(** src: crates/server/application/src/workers/reconciler.rs 47-49 ReconciliationResult::total_issues *)
Definition total_issues (r : t) : nat :=
  (length (stale_workers r) + length (jobs_requiring_reassignment r))%nat.

End result.
End ReconciliationResult.

Module WorkerReconcilerConfig.

(** src: crates/server/application/src/workers/reconciler.rs 54-59 WorkerReconcilerConfig *)
Record t := mk { heartbeat_timeout : Duration; worker_dead_grace_period : Duration }.

(** src: crates/server/application/src/workers/reconciler.rs 62-67 WorkerReconcilerConfig::default *)
Definition default : t := mk (from_secs 60) (from_secs 120).

End WorkerReconcilerConfig.

Module WorkerReconciler.
Section reconciler.
Context `{E : Externs} `{!UpkeepDebug} {W : Type}.
Context `{!WorkerRegistry.t W} `{!WorkerMonitoring W} `{!OutboxRepository W} `{!Ambient W}.
Import ReconciliationResult.

(** An event of the time it is made at. *)
Definition emitting {F} (wrap : string -> F) (event : DateTime -> OutboxEventInsert.t) : method W F unit :=
  now ← calling read_utc;
  mapping_error (insert_events [event now])
    (fun e => wrap ("Failed to insert outbox event: " +:+ debug_outbox_error e)).

(** src: crates/server/application/src/workers/reconciler.rs 211-241 WorkerReconciler::emit_heartbeat_missed *)
Definition emit_heartbeat_missed (w : Worker.t) (job : JobId) : method W string unit :=
  emitting id (heartbeat_missed_event "WorkerReconciler" w job).

(** src: crates/server/application/src/workers/reconciler.rs 244-275 WorkerReconciler::emit_job_reassignment_required *)
Definition emit_job_reassignment_required (w : Worker.t) (job : JobId) : method W string unit :=
  emitting id (reassignment_event "WorkerReconciler" w job).

(** src: crates/server/application/src/workers/reconciler.rs 278-315 WorkerReconciler::emit_status_changed *)
Definition emit_status_changed (i : WorkerId) (old new : WorkerState.t) (reason : string) :
    method W string unit :=
  emitting id (status_changed_event "WorkerReconciler" i old new reason).

Definition push {F} (f : ReconciliationResult.t -> ReconciliationResult.t) (r : ReconciliationResult.t) :
    method W F ReconciliationResult.t := mret (f r).

(** What is done about the job of a worker that is stale. *)
(** src: crates/server/application/src/workers/reconciler.rs 135-163 WorkerReconciler::reconcile (job) *)
Definition reconcile_job {F X} (grace : Duration) (missed required : Worker.t -> JobId -> method W X unit)
    (stale_seconds : Z) (w : Worker.t) (r : ReconciliationResult.t) : method W F ReconciliationResult.t :=
  match Worker.current_job_id w with
  | None => mret r
  | Some job =>
      let r := r <| affected_jobs := affected_jobs r ++ [job] |> in
      ignoring (missed w job);;
      if as_secs grace <? stale_seconds then
        ignoring (required w job);;
        mret (r <| jobs_requiring_reassignment := jobs_requiring_reassignment r ++ [job] |>)
      else mret r
  end.

(** The state that is compared is that of the worker that was found. *)
(** src: crates/server/application/src/workers/reconciler.rs 166-194 WorkerReconciler::reconcile (state) *)
Definition reconcile_state {F X}
    (changed : WorkerId -> WorkerState.t -> WorkerState.t -> string -> method W X unit)
    (w : Worker.t) (r : ReconciliationResult.t) : method W F ReconciliationResult.t :=
  if bool_decide (Worker.state w = WorkerState.Terminated) then mret r
  else
    updated ← result_of (WorkerRegistry.update_state (Worker.id w) WorkerState.Terminated);
    match updated with
    | Err _ => mret r
    | Ok _ =>
        ignoring (changed (Worker.id w) (Worker.state w) WorkerState.Terminated "heartbeat_timeout");;
        mret (r <| workers_marked_unhealthy := workers_marked_unhealthy r ++ [Worker.id w] |>)
    end.

(** src: crates/server/application/src/workers/reconciler.rs 123-196 WorkerReconciler::reconcile (loop) *)
Definition reconcile_worker {F X} (grace : Duration) (missed required : Worker.t -> JobId -> method W X unit)
    (changed : WorkerId -> WorkerState.t -> WorkerState.t -> string -> method W X unit)
    (w : Worker.t) (r : ReconciliationResult.t) : method W F ReconciliationResult.t :=
  now ← calling read_utc;
  let stale_seconds := as_secs (WorkerHealthService.calculate_heartbeat_age now w) in
  let r := r <| stale_workers := stale_workers r ++ [Worker.id w] |> in
  r ← reconcile_job grace missed required stale_seconds w r;
  reconcile_state changed w r.

(** src: crates/server/application/src/workers/reconciler.rs 113-208 WorkerReconciler::reconcile *)
Definition reconcile (config : WorkerReconcilerConfig.t) : method W string ReconciliationResult.t :=
  stale_workers ← mapping_error (find_unhealthy (WorkerReconcilerConfig.heartbeat_timeout config))
    (fun e => "Failed to find unhealthy workers: " +:+ DomainError.fmt e);
  for_each (reconcile_worker (WorkerReconcilerConfig.worker_dead_grace_period config)
    emit_heartbeat_missed emit_job_reassignment_required emit_status_changed)
    stale_workers ReconciliationResult.default.

End reconciler.
End WorkerReconciler.

(** ** Garbage collection *)

Module CleanupResult.
Section result.
Context `{E : Externs}.

(** src: crates/server/application/src/workers/garbage_collector.rs 27-32 CleanupResult *)
Record t := mk { terminated : list WorkerId; failed : list WorkerId }.

#[global] Instance t_rebuild : Rebuild t := fun r => mk (terminated r) (failed r).

Definition default : t := mk [] [].

End result.
End CleanupResult.

Module OrphanCleanupResult.

(** src: crates/server/application/src/workers/garbage_collector.rs 36-47 OrphanCleanupResult *)
Record t := mk {
  providers_scanned : nat;
  orphans_detected : nat;
  orphans_cleaned : nat;
  errors : nat;
  duration_ms : Z;
}.

#[global] Instance t_rebuild : Rebuild t := fun r =>
  mk (providers_scanned r) (orphans_detected r) (orphans_cleaned r) (errors r) (duration_ms r).

Definition default : t := mk 0 0 0 0 0.

End OrphanCleanupResult.

Module GarbageCollectorConfig.

(** src: crates/server/application/src/workers/garbage_collector.rs 59-66 GarbageCollectorConfig *)
Record t := mk {
  cleanup_interval : Duration;
  max_destroy_retries : Z;
  retry_base_delay : Duration;
}.

(** src: crates/server/application/src/workers/garbage_collector.rs 69-75 GarbageCollectorConfig::default *)
Definition default : t := mk (from_secs 30) 3 (from_secs 1).

End GarbageCollectorConfig.

Module WorkerGarbageCollector.
Section collector.
Context `{E : Externs} `{!UpkeepDebug} `{!EventFormat} `{!MapOrder} {P W : Type}.
Context `{!WorkerRegistry.t W} `{!WorkerProviders P W} `{!EventBus W} `{!OutboxRepository W}.
Context `{!Ambient W} `{!Sleeping W}.
Import CleanupResult OrphanCleanupResult.

(** The conditions are tried in turn, each with a reading of the clock. *)
(** src: crates/server/application/src/workers/garbage_collector.rs 130-143 WorkerGarbageCollector::cleanup (filter) *)
Definition to_terminate {F} (w : Worker.t) : method W F bool :=
  match Worker.state w with
  | WorkerState.Busy | WorkerState.Terminated => mret true
  | _ =>
      now ← calling read_utc;
      if Worker.is_idle_timeout now w then mret true else
      now ← calling read_utc;
      if Worker.is_lifetime_exceeded now w then mret true else
      now ← calling read_utc;
      mret (Worker.is_ttl_after_completion_exceeded now w)
  end.

Fixpoint candidates {F} (ws : list Worker.t) : method W F (list Worker.t) :=
  match ws with
  | [] => mret []
  | w :: ws =>
      chosen ← to_terminate w;
      rest ← candidates ws;
      mret (if chosen : bool then w :: rest else rest)
  end.

(** src: crates/server/application/src/workers/garbage_collector.rs 279-300 WorkerGarbageCollector::emit_worker_idle_event *)
Definition emit_worker_idle_event {F} (w : Worker.t) : method W F unit :=
  ignoring (insert_events [worker_idle_event "WorkerGarbageCollector" w]).

(** src: crates/server/application/src/workers/garbage_collector.rs 151-155 WorkerGarbageCollector::cleanup (idle) *)
Fixpoint announce_idle {F} (emit : Worker.t -> method W F unit) (ws : list Worker.t) : method W F unit :=
  match ws with
  | [] => mret tt
  | w :: ws =>
      now ← calling read_utc;
      (if Worker.is_idle_timeout now w then emit w else mret tt);;
      announce_idle emit ws
  end.

(** The reason of the moment; the clock is read for each of its conditions. *)
Definition reason_now {F} (w : Worker.t) : method W F TerminationReason.t :=
  now1 ← calling read_utc;
  now2 ← calling read_utc;
  now3 ← calling read_utc;
  mret (Worker.termination_reason now1 now2 now3 w).

Definition publish_terminations {F} (actor : string) (reason : TerminationReason.t) (w : Worker.t) :
    method W F unit :=
  occurred ← calling read_utc;
  ignoring (publish_event (DomainEvent.WorkerEphemeralTerminating (Worker.id w) (Worker.provider_id w)
    reason occurred None (Some actor)));;
  occurred ← calling read_utc;
  ignoring (publish_event (DomainEvent.WorkerTerminated (Worker.id w) (Worker.provider_id w)
    reason occurred None (Some actor))).

(** src: crates/server/application/src/workers/garbage_collector.rs 245-276 WorkerGarbageCollector::emit_termination_events *)
Definition emit_termination_events (w : Worker.t) : method W string unit :=
  reason ← reason_now w; publish_terminations "garbage-collector" reason w.

(** Attempts [attempt], [attempt + 1] and on, of which [left] are left. *)
(** src: crates/server/application/src/workers/garbage_collector.rs 203-235 WorkerGarbageCollector::destroy_worker_with_retry (loop) *)
Fixpoint destroy_attempts {F} (provider : P) (w : Worker.t) (backoff : Z -> Duration)
    (destroyed : method W F unit) (left : nat) (attempt : Z) (last_error : option ProviderError.t) :
    method W F (option (option ProviderError.t)) :=
  match left with
  | O => mret (Some last_error)
  | S left' =>
      out ← result_of (destroy_worker provider (Worker.handle w));
      match out with
      | Ok _ => destroyed;; mret None
      | Err e =>
          (if bool_decide (left' = 0%nat) then mret tt else modify (pause (backoff attempt)));;
          destroy_attempts provider w backoff destroyed left' (attempt + 1) (Some e)
      end
  end.

(** src: crates/server/application/src/workers/garbage_collector.rs 197-242 WorkerGarbageCollector::destroy_worker_with_retry *)
Definition destroy_worker_with_retry (config : GarbageCollectorConfig.t) (w : Worker.t) :
    method W string unit :=
  world ← self;
  provider ← lift (ok_or (providers_of world !! Worker.provider_id w)
    ("Provider not found: " +:+ uuid_to_string (Worker.provider_id w)));
  let max_retries := GarbageCollectorConfig.max_destroy_retries config in
  out ← destroy_attempts provider w (fun attempt => GarbageCollectorConfig.retry_base_delay config * attempt)
    (emit_termination_events w) (Z.to_nat max_retries) 1 None;
  match out with
  | None => mret tt
  | Some last_error =>
      throw ("Failed to destroy worker " +:+ uuid_to_string (Worker.id w) +:+ " after "
        +:+ show_Z max_retries +:+ " attempts: " +:+ debug_last_error last_error)
  end.

(** A worker is marked as terminated before anything is destroyed. *)
(** src: crates/server/application/src/workers/garbage_collector.rs 165-174 WorkerGarbageCollector::cleanup (mark) *)
Definition mark_terminated {F} (w : Worker.t) : method W F bool :=
  if bool_decide (Worker.state w = WorkerState.Terminated) then mret true
  else
    updated ← result_of (WorkerRegistry.update_state (Worker.id w) WorkerState.Terminated);
    mret (is_ok updated).

(** src: crates/server/application/src/workers/garbage_collector.rs 158-191 WorkerGarbageCollector::cleanup (loop) *)
Definition terminate_worker (config : GarbageCollectorConfig.t) (w : Worker.t) (r : CleanupResult.t) :
    method W string CleanupResult.t :=
  _ ← reason_now w;
  marked ← mark_terminated w;
  if negb marked then mret r else
  destroyed ← result_of (destroy_worker_with_retry config w);
  match destroyed with
  | Ok _ =>
      ignoring (WorkerRegistry.unregister (Worker.id w));;
      mret (r <| terminated := terminated r ++ [Worker.id w] |>)
  | Err _ => mret (r <| failed := failed r ++ [Worker.id w] |>)
  end.

(** src: crates/server/application/src/workers/garbage_collector.rs 118-194 WorkerGarbageCollector::cleanup *)
Definition cleanup (config : GarbageCollectorConfig.t) : method W string CleanupResult.t :=
  all_workers ← mapping_error (WorkerRegistry.find WorkerFilter.new)
    (fun e => "Failed to find workers: " +:+ DomainError.fmt e);
  workers_to_terminate ← candidates all_workers;
  announce_idle emit_worker_idle_event workers_to_terminate;;
  for_each (terminate_worker config) workers_to_terminate CleanupResult.default.

(** *** Orphans *)

(** What the provider has and the registry has not, each with a fresh
    identifier. *)
(** src: crates/server/application/src/workers/garbage_collector.rs 410-419 WorkerGarbageCollector::detect_orphans_for_provider (loop) *)
Fixpoint orphans_among {F} (registered_ids : list string) (infos : list ProviderWorkerInfo.t) :
    method W F (list OrphanWorkerInfo.t) :=
  match infos with
  | [] => mret []
  | pw :: infos =>
      if bool_decide (ProviderWorkerInfo.resource_id pw ∈ registered_ids)
      then orphans_among registered_ids infos
      else
        fresh ← calling draw_uuid;
        seen ← match ProviderWorkerInfo.last_seen pw with
               | Some seen => mret seen
               | None => calling read_utc
               end;
        rest ← orphans_among registered_ids infos;
        mret (OrphanWorkerInfo.mk fresh (ProviderWorkerInfo.resource_id pw) seen :: rest)
  end.

Definition resource_ids (ws : list Worker.t) : list string :=
  (fun w => WorkerHandle.provider_resource_id (Worker.handle w)) <$> ws.

(** [listing] and [finding] wrap the errors of the two queries. *)
Definition orphans_of {F} (listing : ProviderError.t -> F) (finding : DomainError.t -> F)
    (provider : P) (provider_id : ProviderId) : method W F (list OrphanWorkerInfo.t) :=
  provider_workers ← mapping_error (list_workers provider) listing;
  registered_workers ← mapping_error (WorkerRegistry.find_by_provider provider_id) finding;
  orphans_among (resource_ids registered_workers) provider_workers.

(** src: crates/server/application/src/workers/garbage_collector.rs 379-422 WorkerGarbageCollector::detect_orphans_for_provider *)
Definition detect_orphans_for_provider (provider : P) (provider_id : ProviderId) :
    method W string (list OrphanWorkerInfo.t) :=
  orphans_of
    (fun e => "Failed to list workers from provider " +:+ uuid_to_string provider_id +:+ ": "
       +:+ ProviderError.fmt e)
    (fun e => "Failed to find registered workers for provider " +:+ uuid_to_string provider_id +:+ ": "
       +:+ DomainError.fmt e) provider provider_id.

(** src: crates/server/application/src/workers/garbage_collector.rs 425-457 WorkerGarbageCollector::emit_orphan_detected *)
Definition emit_orphan_detected {F} (orphan : OrphanWorkerInfo.t) (provider_id : ProviderId) :
    method W F unit :=
  now ← calling read_utc;
  ignoring (insert_events
    [orphan_detected_event "WorkerGarbageCollector" "garbage_collection" orphan provider_id now]).

(** src: crates/server/application/src/workers/garbage_collector.rs 330-350 WorkerGarbageCollector::detect_and_cleanup_orphans (orphan) *)
Definition destroy_orphan {F} (emit : OrphanWorkerInfo.t -> ProviderId -> method W F unit) (provider : P)
    (provider_id : ProviderId) (orphan : OrphanWorkerInfo.t) (r : OrphanCleanupResult.t) :
    method W F OrphanCleanupResult.t :=
  emit orphan provider_id;;
  out ← result_of (destroy_worker_by_id provider (OrphanWorkerInfo.provider_resource_id orphan));
  mret match out with
       | Ok _ => r <| orphans_cleaned := S (orphans_cleaned r) |>
       | Err _ => r <| errors := S (errors r) |>
       end.

(** src: crates/server/application/src/workers/garbage_collector.rs 315-360 WorkerGarbageCollector::detect_and_cleanup_orphans (provider) *)
Definition clean_provider {F X} (detect : P -> ProviderId -> method W X (list OrphanWorkerInfo.t))
    (emit : OrphanWorkerInfo.t -> ProviderId -> method W F unit) (provider_id : ProviderId)
    (r : OrphanCleanupResult.t) : method W F OrphanCleanupResult.t :=
  world ← self;
  match providers_of world !! provider_id with
  | None => mret r
  | Some provider =>
      found ← result_of (detect provider provider_id);
      match found with
      | Ok orphans =>
          for_each (destroy_orphan emit provider provider_id) orphans
            (r <| providers_scanned := S (providers_scanned r) |>
               <| orphans_detected := (orphans_detected r + length orphans)%nat |>)
      | Err _ => mret (r <| errors := S (errors r) |>)
      end
  end.

(** The whole scan, with the time it takes. *)
Definition scan {F X} (detect : P -> ProviderId -> method W X (list OrphanWorkerInfo.t))
    (emit : OrphanWorkerInfo.t -> ProviderId -> method W F unit) : method W F OrphanCleanupResult.t :=
  start_time ← calling read_utc;
  world ← self;
  r ← for_each (clean_provider detect emit) (map_keys (providers_of world)) OrphanCleanupResult.default;
  now ← calling read_utc;
  mret (r <| duration_ms := as_u64 (elapsed_or_zero now start_time / 1000000) |>).

(** src: crates/server/application/src/workers/garbage_collector.rs 306-376 WorkerGarbageCollector::detect_and_cleanup_orphans *)
Definition detect_and_cleanup_orphans : method W string OrphanCleanupResult.t :=
  scan detect_orphans_for_provider emit_orphan_detected.

End collector.
End WorkerGarbageCollector.

(** ** The lifecycle manager *)

Module HealthCheckResult.
Section result.
Context `{E : Externs}.

(** src: crates/server/application/src/workers/lifecycle.rs 1519-1522 HealthCheckResult *)
Record t := mk { total_checked : nat; unhealthy_workers : list WorkerId }.

End result.
End HealthCheckResult.

Module WorkerLifecycleConfig.

(** src: crates/server/application/src/workers/lifecycle.rs 42-59 WorkerLifecycleConfig *)
Record t := mk {
  heartbeat_timeout : Duration;
  health_check_interval : Duration;
  reconciliation_interval : Duration;
  min_ready_workers : nat;
  max_workers : nat;
  scale_up_threshold : nat;
  scale_down_threshold : nat;
  worker_dead_grace_period : Duration;
}.

(** src: crates/server/application/src/workers/lifecycle.rs 62-75 WorkerLifecycleConfig::default *)
Definition default : t := {|
  heartbeat_timeout := from_secs 60;
  health_check_interval := from_secs 30;
  reconciliation_interval := from_secs 15;
  min_ready_workers := 0;
  max_workers := 100;
  scale_up_threshold := Z.to_nat 999999;
  scale_down_threshold := 0;
  worker_dead_grace_period := from_secs 120;
|}.

End WorkerLifecycleConfig.

Module WorkerLifecycleManager.
Section manager.
Context `{E : Externs} `{!UpkeepDebug} `{!EventFormat} `{!MapOrder} {P W : Type}.
Context `{!WorkerRegistry.t W} `{!WorkerMonitoring W} `{!WorkerProviders P W} `{!EventBus W}.
Context `{!OutboxRepository W} `{!Ambient W} `{!Sleeping W}.

(** The coordinators are the runs of their sagas; the reconciler and the garbage
    collector are their configurations. *)
(** src: crates/server/application/src/workers/lifecycle.rs 225-241 WorkerLifecycleManager *)
Record t := mk {
  config : WorkerLifecycleConfig.t;
  reconciler : option WorkerReconcilerConfig.t;
  garbage_collector : option GarbageCollectorConfig.t;
  provisioning_saga_coordinator :
    option (ProviderId -> WorkerSpec.t -> option JobId ->
      method W ProvisioningSagaError.t (WorkerId * SagaExecutionResult.t));
  recovery_saga_coordinator :
    JobId -> WorkerId -> method W RecoverySagaError.t (SagaId * SagaExecutionResult.t);
}.

#[global] Instance t_rebuild : Rebuild t := fun m =>
  mk (config m) (reconciler m) (garbage_collector m) (provisioning_saga_coordinator m)
    (recovery_saga_coordinator m).

(** src: crates/server/application/src/workers/lifecycle.rs 264-288 WorkerLifecycleManager::with_recovery_saga_coordinator *)
Definition with_recovery_saga_coordinator (c : WorkerLifecycleConfig.t) recovery : t :=
  mk c None None None recovery.

(** src: crates/server/application/src/workers/lifecycle.rs 292-318 WorkerLifecycleManager::with_components *)
Definition with_components (c : WorkerLifecycleConfig.t) reconciler garbage_collector recovery : t :=
  mk c (Some reconciler) (Some garbage_collector) None recovery.

(** src: crates/server/application/src/workers/lifecycle.rs 322-327 WorkerLifecycleManager::set_provisioning_saga_coordinator *)
Definition set_provisioning_saga_coordinator coordinator (m : t) : t :=
  m <| provisioning_saga_coordinator := Some coordinator |>.

(** src: crates/server/application/src/workers/lifecycle.rs 331-333 WorkerLifecycleManager::is_saga_provisioning_enabled *)
Definition is_saga_provisioning_enabled (m : t) : bool :=
  match provisioning_saga_coordinator m with Some _ => true | None => false end.

(** src: crates/server/application/src/workers/lifecycle.rs 336-340 WorkerLifecycleManager::register_provider *)
Definition register_provider (i : ProviderId) (provider : P) (w : W) : W :=
  set_providers (<[i := provider]> (providers_of w)) w.

(** src: crates/server/application/src/workers/lifecycle.rs 343-346 WorkerLifecycleManager::unregister_provider *)
Definition unregister_provider (i : ProviderId) (w : W) : W :=
  set_providers (base.delete i (providers_of (P := P) w)) w.

(** src: crates/server/application/src/workers/lifecycle.rs 355-359 WorkerLifecycleManager::process_heartbeat *)
Definition process_heartbeat (i : WorkerId) : method W DomainError.t unit := WorkerRegistry.heartbeat i.

(** The workers that were found, whether they could be marked or not. *)
(** src: crates/server/application/src/workers/lifecycle.rs 362-384 WorkerLifecycleManager::run_health_check *)
Definition run_health_check (m : t) : method W DomainError.t HealthCheckResult.t :=
  unhealthy ← find_unhealthy (WorkerLifecycleConfig.heartbeat_timeout (config m));
  found ← for_each (fun w ids =>
    ignoring (WorkerRegistry.update_state (Worker.id w) WorkerState.Terminated);;
    mret (ids ++ [Worker.id w])) unhealthy [];
  total_checked ← worker_count;
  mret (HealthCheckResult.mk total_checked found).

(** *** Reconciliation *)

Definition source : string := "WorkerLifecycleManager".

Definition infrastructure (message : string) : DomainError.t := DomainError.InfrastructureError message.

(** src: crates/server/application/src/workers/lifecycle.rs 512-546 WorkerLifecycleManager::emit_worker_heartbeat_missed *)
Definition emit_worker_heartbeat_missed (w : Worker.t) (job : JobId) : method W DomainError.t unit :=
  WorkerReconciler.emitting infrastructure (heartbeat_missed_event source w job).

(** src: crates/server/application/src/workers/lifecycle.rs 549-580 WorkerLifecycleManager::emit_job_reassignment_required *)
Definition emit_job_reassignment_required (w : Worker.t) (job : JobId) : method W DomainError.t unit :=
  WorkerReconciler.emitting infrastructure (reassignment_event source w job).

(** src: crates/server/application/src/workers/lifecycle.rs 583-622 WorkerLifecycleManager::emit_worker_status_changed *)
Definition emit_worker_status_changed (i : WorkerId) (old new : WorkerState.t) (reason : string) :
    method W DomainError.t unit :=
  WorkerReconciler.emitting infrastructure (status_changed_event source i old new reason).

(** src: crates/server/application/src/workers/lifecycle.rs 415-509 WorkerLifecycleManager::run_reconciliation_legacy *)
Definition run_reconciliation_legacy (m : t) : method W DomainError.t ReconciliationResult.t :=
  stale_workers ← find_unhealthy (WorkerLifecycleConfig.heartbeat_timeout (config m));
  for_each (WorkerReconciler.reconcile_worker (WorkerLifecycleConfig.worker_dead_grace_period (config m))
    emit_worker_heartbeat_missed emit_job_reassignment_required emit_worker_status_changed)
    stale_workers ReconciliationResult.default.

(** src: crates/server/application/src/workers/lifecycle.rs 398-412 WorkerLifecycleManager::run_reconciliation *)
Definition run_reconciliation (m : t) : method W DomainError.t ReconciliationResult.t :=
  match reconciler m with
  | Some c => mapping_error (WorkerReconciler.reconcile c)
      (fun e => infrastructure ("Reconciliation failed: " +:+ e))
  | None => run_reconciliation_legacy m
  end.

(** *** Cleanup *)

(** src: crates/server/application/src/workers/lifecycle.rs 753-774 WorkerLifecycleManager::emit_worker_idle_event *)
Definition emit_worker_idle_event {F} (w : Worker.t) : method W F unit :=
  ignoring (insert_events [worker_idle_event source w]).

(** Three attempts, with a pause of one second and one of two. *)
(** src: crates/server/application/src/workers/lifecycle.rs 885-939 WorkerLifecycleManager::destroy_worker_via_provider *)
Definition destroy_worker_via_provider (w : Worker.t) : method W DomainError.t unit :=
  world ← self;
  provider ← lift (ok_or (providers_of world !! Worker.provider_id w)
    (DomainError.ProviderNotFound (Worker.provider_id w)));
  out ← WorkerGarbageCollector.destroy_attempts provider w (fun attempt => from_secs (2 ^ (attempt - 1)))
    (mret tt) 3 1 None;
  match out with
  | None => mret tt
  | Some last_error =>
      throw (infrastructure ("Failed to destroy worker after 3 attempts: " +:+ debug_last_error last_error))
  end.

(** src: crates/server/application/src/workers/lifecycle.rs 689-747 WorkerLifecycleManager::cleanup_workers_legacy (loop) *)
Definition terminate_worker (w : Worker.t) (r : CleanupResult.t) : method W DomainError.t CleanupResult.t :=
  reason ← WorkerGarbageCollector.reason_now w;
  marked ← WorkerGarbageCollector.mark_terminated w;
  if negb marked then mret r else
  destroyed ← result_of (destroy_worker_via_provider w);
  match destroyed with
  | Ok _ =>
      ignoring (WorkerRegistry.unregister (Worker.id w));;
      WorkerGarbageCollector.publish_terminations "lifecycle-manager" reason w;;
      mret (r <| CleanupResult.terminated := CleanupResult.terminated r ++ [Worker.id w] |>)
  | Err _ => mret (r <| CleanupResult.failed := CleanupResult.failed r ++ [Worker.id w] |>)
  end.

(** src: crates/server/application/src/workers/lifecycle.rs 652-750 WorkerLifecycleManager::cleanup_workers_legacy *)
Definition cleanup_workers_legacy : method W DomainError.t CleanupResult.t :=
  all_workers ← WorkerRegistry.find WorkerFilter.new;
  workers_to_terminate ← WorkerGarbageCollector.candidates all_workers;
  WorkerGarbageCollector.announce_idle emit_worker_idle_event workers_to_terminate;;
  for_each terminate_worker workers_to_terminate CleanupResult.default.

(** src: crates/server/application/src/workers/lifecycle.rs 635-649 WorkerLifecycleManager::cleanup_workers *)
Definition cleanup_workers (m : t) : method W DomainError.t CleanupResult.t :=
  match garbage_collector m with
  | Some c => mapping_error (WorkerGarbageCollector.cleanup c)
      (fun e => infrastructure ("Cleanup failed: " +:+ e))
  | None => cleanup_workers_legacy
  end.

(** *** Orphans *)

(** src: crates/server/application/src/workers/lifecycle.rs 1395-1436 WorkerLifecycleManager::detect_orphans_for_provider *)
Definition detect_orphans_for_provider (provider : P) (provider_id : ProviderId) :
    method W DomainError.t (list OrphanWorkerInfo.t) :=
  WorkerGarbageCollector.orphans_of
    (fun e => infrastructure ("Failed to list workers from provider " +:+ uuid_to_string provider_id +:+ ": "
       +:+ ProviderError.fmt e)) id provider provider_id.

(** src: crates/server/application/src/workers/lifecycle.rs 1439-1473 WorkerLifecycleManager::emit_orphan_detected *)
Definition emit_orphan_detected {F} (orphan : OrphanWorkerInfo.t) (provider_id : ProviderId) :
    method W F unit :=
  now ← calling read_utc;
  ignoring (insert_events [orphan_detected_event source "reconciliation" orphan provider_id now]).

(** The aggregate of the event is the first provider. *)
(** src: crates/server/application/src/workers/lifecycle.rs 1476-1514 WorkerLifecycleManager::emit_garbage_collection_completed *)
Definition emit_garbage_collection_completed {F} (r : OrphanCleanupResult.t) : method W F unit :=
  now ← calling read_utc;
  world ← self;
  let provider_ids := uuid_to_string <$> map_keys (providers_of (P := P) world) in
  gc_event_id ← match head provider_ids ≫= uuid_parse_str with
                | Some i => mret i
                | None => calling draw_uuid
                end;
  ignoring (insert_events [OutboxEventInsert.for_worker gc_event_id "GarbageCollectionCompleted"
    (json_object [
      ("scanned_providers", json_of_list (str <$> provider_ids));
      ("orphaned_workers_found", json_of_Z (Z.of_nat (OrphanCleanupResult.orphans_detected r)));
      ("orphaned_workers_cleaned", json_of_Z (Z.of_nat (OrphanCleanupResult.orphans_cleaned r)));
      ("errors", json_of_Z (Z.of_nat (OrphanCleanupResult.errors r)));
      ("duration_ms", json_of_Z (OrphanCleanupResult.duration_ms r))])
    (Some (json_object [("source", str source); ("event", str "orphan_gc")]))
    (Some ("gc-completed-" +:+ show_Z (datetime_timestamp now)))]).

(** src: crates/server/application/src/workers/lifecycle.rs 1314-1392 WorkerLifecycleManager::detect_and_cleanup_orphans_legacy *)
Definition detect_and_cleanup_orphans_legacy : method W DomainError.t OrphanCleanupResult.t :=
  r ← WorkerGarbageCollector.scan detect_orphans_for_provider emit_orphan_detected;
  emit_garbage_collection_completed r;;
  mret r.

(** src: crates/server/application/src/workers/lifecycle.rs 1298-1311 WorkerLifecycleManager::detect_and_cleanup_orphans *)
Definition detect_and_cleanup_orphans (m : t) : method W DomainError.t OrphanCleanupResult.t :=
  match garbage_collector m with
  | Some _ => mapping_error WorkerGarbageCollector.detect_and_cleanup_orphans
      (fun e => infrastructure ("Orphan detection failed: " +:+ e))
  | None => detect_and_cleanup_orphans_legacy
  end.

(** *** Sagas *)

(** src: crates/server/application/src/workers/lifecycle.rs 779-836 WorkerLifecycleManager::provision_worker *)
Definition provision_worker (m : t) (provider_id : ProviderId) (sp : WorkerSpec.t) (job : JobId) :
    method W DomainError.t Worker.t :=
  current_count ← worker_count;
  if (WorkerLifecycleConfig.max_workers (config m) <=? current_count)%nat
  then throw (DomainError.ProviderOverloaded provider_id) else
  coordinator ← lift (ok_or (provisioning_saga_coordinator m)
    (infrastructure "Provisioning saga coordinator not configured"));
  out ← result_of (coordinator provider_id sp (Some job));
  match out with
  | Ok (worker_id, _) =>
      found ← WorkerRegistry.get worker_id;
      lift (ok_or found (DomainError.WorkerNotFound worker_id))
  | Err ProvisioningSagaError.Compensated =>
      throw (DomainError.WorkerProvisioningFailed "Provisioning saga was compensated")
  | Err e => throw (DomainError.WorkerProvisioningFailed (ProvisioningSagaError.fmt e))
  end.

(** src: crates/server/application/src/workers/lifecycle.rs 840-882 WorkerLifecycleManager::recover_worker *)
Definition recover_worker (m : t) (job : JobId) (failed_worker : WorkerId) : method W DomainError.t unit :=
  out ← result_of (recovery_saga_coordinator m job failed_worker);
  match out with
  | Ok _ => mret tt
  | Err RecoverySagaError.Compensated =>
      throw (DomainError.WorkerRecoveryFailed "Recovery saga was compensated")
  | Err e => throw (DomainError.WorkerRecoveryFailed (RecoverySagaError.fmt e))
  end.

(** *** Scaling *)

(** src: crates/server/application/src/workers/lifecycle.rs 942-944 WorkerLifecycleManager::stats *)
Definition stats : method W DomainError.t WorkerRegistryStats.t := worker_stats.

(** src: crates/server/application/src/workers/lifecycle.rs 947-962 WorkerLifecycleManager::should_scale_up *)
Definition should_scale_up {F} (m : t) (pending_jobs : nat) : method W F bool :=
  counts ← result_of worker_stats;
  mret match counts with
       | Ok counts =>
           if ((WorkerRegistryStats.ready_workers counts =? 0) && (0 <? pending_jobs))%nat then true
           else ((WorkerLifecycleConfig.scale_up_threshold (config m) <? pending_jobs) &&
                 (WorkerRegistryStats.total_workers counts <? WorkerLifecycleConfig.max_workers (config m)))%nat
       | Err _ => false
       end.

(** src: crates/server/application/src/workers/lifecycle.rs 965-975 WorkerLifecycleManager::should_scale_down *)
Definition should_scale_down {F} (m : t) : method W F bool :=
  counts ← result_of worker_stats;
  mret match counts with
       | Ok counts =>
           ((WorkerLifecycleConfig.scale_down_threshold (config m) <? WorkerRegistryStats.idle_workers counts) &&
            (WorkerLifecycleConfig.min_ready_workers (config m) <? WorkerRegistryStats.ready_workers counts))%nat
       | Err _ => false
       end.

(** *** Reactions to events *)

(** src: crates/server/application/src/workers/lifecycle.rs 1098-1146 WorkerLifecycleManager::perform_worker_cleanup *)
Definition perform_worker_cleanup (i : WorkerId) : method W DomainError.t unit :=
  found ← WorkerRegistry.get i;
  match found with
  | None => mret tt
  | Some w =>
      (if bool_decide (Worker.state w = WorkerState.Terminated) then mret tt
       else WorkerRegistry.update_state i WorkerState.Terminated);;
      destroy_worker_via_provider w;;
      WorkerRegistry.unregister i
  end.

(** src: crates/server/application/src/workers/lifecycle.rs 1048-1095 WorkerLifecycleManager::handle_domain_event *)
Definition handle_domain_event (e : DomainEvent.t) : method W DomainError.t unit :=
  match e with
  | DomainEvent.WorkerEphemeralTerminating worker_id _ _ _ _ _ => perform_worker_cleanup worker_id
  | _ => mret tt
  end.

(** What the stream of the bus yields; an error of the handler is logged. *)
(** src: crates/server/application/src/workers/lifecycle.rs 1014-1044 WorkerLifecycleManager::start_domain_event_monitoring *)
Fixpoint handle_received (received : list (result EventBusError.t DomainEvent.t)) (w : W) : W :=
  match received with
  | [] => w
  | Ok e :: received => handle_received received (after (handle_domain_event e) w)
  | Err _ :: received => handle_received received w
  end.

(** The worker of a provider that has the resource. *)
Definition worker_with (resource : string) (ws : list Worker.t) : option Worker.t :=
  head (filter (fun w => String.eqb (WorkerHandle.provider_resource_id (Worker.handle w)) resource = true) ws).

(** src: crates/server/application/src/workers/lifecycle.rs 1186-1280 WorkerLifecycleManager::handle_infrastructure_event *)
Definition handle_infrastructure_event (provider_id : ProviderId) (e : WorkerInfrastructureEvent.t) :
    method W DomainError.t unit :=
  match e with
  | WorkerInfrastructureEvent.WorkerStarted resource _ =>
      workers ← WorkerRegistry.find_by_provider provider_id;
      match worker_with resource workers with
      | Some w =>
          if bool_decide (Worker.state w = WorkerState.Creating) then
            WorkerRegistry.update_state (Worker.id w) WorkerState.Ready;;
            emit_worker_status_changed (Worker.id w) (Worker.state w) WorkerState.Ready
              "provider_event_started"
          else mret tt
      | None => mret tt
      end
  | WorkerInfrastructureEvent.WorkerStopped resource _ reason _ =>
      workers ← WorkerRegistry.find_by_provider provider_id;
      match worker_with resource workers with
      | Some w =>
          if bool_decide (Worker.state w = WorkerState.Terminated) then mret tt
          else
            WorkerRegistry.update_state (Worker.id w) WorkerState.Terminated;;
            emit_worker_status_changed (Worker.id w) (Worker.state w) WorkerState.Terminated
              ("provider_event_stopped: " +:+ debug_reason reason)
      | None => mret tt
      end
  | WorkerInfrastructureEvent.WorkerHealthChanged _ (HealthStatus.Unhealthy _) _ =>
      _ ← WorkerRegistry.find_by_provider provider_id; mret tt
  | _ => mret tt
  end.

(** src: crates/server/application/src/workers/lifecycle.rs 1148-1184 WorkerLifecycleManager::monitor_single_provider *)
Fixpoint handle_provider_events (provider_id : ProviderId)
    (received : list (result ProviderError.t WorkerInfrastructureEvent.t)) (w : W) : W :=
  match received with
  | [] => w
  | Ok e :: received =>
      handle_provider_events provider_id received (after (handle_infrastructure_event provider_id e) w)
  | Err _ :: received => handle_provider_events provider_id received w
  end.

End manager.
End WorkerLifecycleManager.

(** ** Rules *)

Section rules.
Context {W : Type}.

Lemma wp_ignoring {X F A} (m : method W X A) (Q : result F unit -> W -> Prop) w :
  Q (Ok tt) (after m w) -> wp (ignoring m) Q w.
Proof. intros HQ. unfold ignoring, result_of, wp, mbind, method_bind, after in *. by destruct (m w). Qed.

Lemma wp_result_of {X F A} (m : method W X A) (Q : result F (result X A) -> W -> Prop) w :
  Q (Ok (returns m w)) (after m w) -> wp (result_of m) Q w.
Proof. intros HQ. unfold result_of, wp, after, returns in *. by destruct (m w). Qed.

(** [I done r] holds when the loop has gone through [done]. *)
Lemma wp_for_each {F X R} (I : list X -> R -> W -> Prop) (body : X -> R -> method W F R) l r
    (Q : result F R -> W -> Prop) w :
  I [] r w ->
  (forall done x r w, x ∈ l -> I done r w ->
     wp (body x r) (fun res w' => exists r', res = Ok r' /\ I (done ++ [x]) r' w') w) ->
  (forall r w, I l r w -> Q (Ok r) w) ->
  wp (for_each body l r) Q w.
Proof.
  intros Hinit Hbody HQ.
  assert (forall rest done r w, (forall x, x ∈ rest -> x ∈ l) -> I done r w ->
    wp (for_each body rest r) (fun res w' => exists r', res = Ok r' /\ I (done ++ rest) r' w') w) as Hloop.
  { induction rest as [|x rest IH]; intros done r0 w0 Hin HI; simpl.
    - apply wp_ret. exists r0. by rewrite app_nil_r.
    - apply wp_bind. eapply wp_mono; [apply Hbody; [apply Hin; left|exact HI]|].
      intros res w1 (r' & -> & HI'). simpl. replace (done ++ x :: rest) with ((done ++ [x]) ++ rest)
        by by rewrite <- app_assoc. apply IH; [|done]. intros y Hy. apply Hin. by right. }
  eapply wp_mono; [apply (Hloop l []); auto|]. intros res w' (r' & -> & HI). by apply HQ.
Qed.

End rules.

(** ** Orphans *)

Section orphans.
Context `{E : Externs} `{!UpkeepDebug} `{!EventFormat} `{!MapOrder} {P W : Type}.
Context `{!WorkerRegistry.t W} `{!WorkerProviders P W} `{!EventBus W} `{!OutboxRepository W}.
Context `{!Ambient W} `{!Sleeping W}.
Import WorkerGarbageCollector.

Lemma orphans_among_unregistered {F} registered infos (w : W) :
  wp (orphans_among (F := F) registered infos) (fun res _ => exists orphans, res = Ok orphans /\
    OrphanWorkerInfo.provider_resource_id <$> orphans =
      filter (fun r => r ∉ registered) (ProviderWorkerInfo.resource_id <$> infos)) w.
Proof.
  revert w. induction infos as [|pw infos IH]; intros w; simpl; [apply wp_ret; by exists []|].
  case_bool_decide as Hin.
  - eapply wp_mono; [apply IH|]. intros res w' (orphans & -> & Heq). exists orphans.
    by rewrite filter_cons_False by auto.
  - apply wp_bind, wp_calling, wp_bind. rewrite filter_cons_True by done.
    assert (forall fresh seen w1, wp (rest ← orphans_among (F := F) registered infos;
        mret (OrphanWorkerInfo.mk fresh (ProviderWorkerInfo.resource_id pw) seen :: rest))
      (fun res _ => exists orphans, res = Ok orphans /\ OrphanWorkerInfo.provider_resource_id <$> orphans =
        ProviderWorkerInfo.resource_id pw :: filter (fun r => r ∉ registered)
          (ProviderWorkerInfo.resource_id <$> infos)) w1) as Hrest.
    { intros fresh seen w1. apply wp_bind. eapply wp_mono; [apply IH|]. intros res w' (orphans & -> & Heq).
      apply wp_ret. eexists. split; [done|]. rewrite fmap_cons. by f_equal. }
    destruct (ProviderWorkerInfo.last_seen pw) as [seen|]; [apply wp_ret, Hrest|].
    apply wp_calling, Hrest.
Qed.

(** The destruction of an orphan: it is announced, and the provider is asked. *)
Definition ask_destruction (p : P) (provider_id : ProviderId) (w : W) (o : OrphanWorkerInfo.t) : W :=
  after (destroy_worker_by_id p (OrphanWorkerInfo.provider_resource_id o))
    (after (emit_orphan_detected (F := string) o provider_id) w).

Lemma orphan_asked p provider_id o r w : exists r',
  destroy_orphan (emit_orphan_detected (F := string)) p provider_id o r w =
    (ask_destruction p provider_id w o, Ok r').
Proof.
  unfold destroy_orphan, ask_destruction, emit_orphan_detected, ignoring, calling, result_of, after.
  unfold mbind, method_bind. destruct (read_utc w) as [w1 now], (insert_events _ w1) as [w2 e]. simpl.
  destruct (destroy_worker_by_id p _ w2). by eexists.
Qed.

Lemma orphans_asked p provider_id orphans r w :
  after (for_each (destroy_orphan (emit_orphan_detected (F := string)) p provider_id) orphans r) w =
  foldl (ask_destruction p provider_id) w orphans.
Proof.
  revert r w. induction orphans as [|o orphans IH]; intros r w; [done|].
  destruct (orphan_asked p provider_id o r w) as [r' Ho]. simpl. rewrite <- (IH r').
  unfold after, mbind, method_bind. by rewrite Ho.
Qed.

(** C18: an orphan of a provider is exactly what the provider lists and the registry
    has not, at the moments the two are asked.  When a provider is scanned and both
    answer, its orphans are announced and the provider is asked to destroy them, one
    after the other in their order, whatever it answers; nothing else is done.  So nothing
    that the registry has then is asked to be destroyed - and what is created and not
    registered yet is. *)
Theorem orphans_are_unregistered p provider_id r w orphans :
  providers_of w !! provider_id = Some p ->
  returns (detect_orphans_for_provider p provider_id) w = Ok orphans ->
  (exists infos registered,
    returns (list_workers p) w = Ok infos /\
    returns (WorkerRegistry.find_by_provider provider_id) (after (list_workers p) w) = Ok registered /\
    OrphanWorkerInfo.provider_resource_id <$> orphans =
      filter (fun r => r ∉ resource_ids registered) (ProviderWorkerInfo.resource_id <$> infos)) /\
  after (clean_provider detect_orphans_for_provider (emit_orphan_detected (F := string)) provider_id r) w =
    foldl (ask_destruction p provider_id) (after (detect_orphans_for_provider p provider_id) w) orphans.
Proof.
  intros Hp Hok. split.
  - unfold detect_orphans_for_provider, orphans_of in Hok.
    apply bind_ok in Hok as (infos & Hinfos & Hok & _). apply mapping_ok in Hinfos.
    rewrite after_mapping in Hok. apply bind_ok in Hok as (registered & Hreg & Hok & _).
    apply mapping_ok in Hreg. rewrite after_mapping in Hok.
    exists infos, registered. split_and!; [done|done|].
    pose proof (orphans_among_unregistered (F := string) (resource_ids registered) infos
      (after (WorkerRegistry.find_by_provider provider_id) (after (list_workers p) w))) as Hwp.
    apply wp_run in Hwp as (orphans' & Hret & Heq). rewrite Hret in Hok. by injection Hok as <-.
  - rewrite <- (orphans_asked p provider_id orphans (r <| OrphanCleanupResult.providers_scanned := S (OrphanCleanupResult.providers_scanned r) |>
      <| OrphanCleanupResult.orphans_detected := (OrphanCleanupResult.orphans_detected r + length orphans)%nat |>)).
    unfold clean_provider, self, after, result_of, mbind, method_bind. rewrite Hp.
    unfold returns in Hok. destruct (detect_orphans_for_provider p provider_id w) as [w1 d].
    simpl in Hok. by subst d.
Qed.

(** *** The counts of a scan *)

Import OrphanCleanupResult.

(** [failed] providers could not be asked, [gone] ones were removed meanwhile. *)
Definition adds_up (keys : nat) (failed gone : nat) (r : OrphanCleanupResult.t) : Prop :=
  (providers_scanned r + failed + gone = keys /\
   errors r + orphans_cleaned r = failed + orphans_detected r)%nat.

Lemma orphans_add_up {F} (emit : OrphanWorkerInfo.t -> ProviderId -> method W F unit) p provider_id orphans
    keys failed gone r w :
  (forall o i w, returns (emit o i) w = Ok tt) ->
  (providers_scanned r + failed + gone = keys /\
   errors r + orphans_cleaned r + length orphans = failed + orphans_detected r)%nat ->
  wp (for_each (destroy_orphan emit p provider_id) orphans r)
    (fun res _ => exists r', res = Ok r' /\ adds_up keys failed gone r') w.
Proof.
  intros Hemit [Hk He].
  apply (wp_for_each (fun done r' _ => orphans_detected r' = orphans_detected r /\
    providers_scanned r' = providers_scanned r /\
    (errors r' + orphans_cleaned r' = errors r + orphans_cleaned r + length done)%nat)).
  - simpl. split_and!; [done|done|lia].
  - intros don o r1 w1 _ (Hd & Hs & Hc). unfold destroy_orphan. apply wp_bind, wp_run. rewrite Hemit.
    apply wp_bind, wp_result_of, wp_ret. eexists. split; [done|]. rewrite length_app.
    destruct (returns _ _); simpl; split_and!; try done; lia.
  - intros r1 w1 (Hd & Hs & Hc). exists r1. split; [done|]. unfold adds_up. lia.
Qed.

Lemma scan_adds_up {F X} detect (emit : OrphanWorkerInfo.t -> ProviderId -> method W F unit) w :
  (forall o i w, returns (emit o i) w = Ok tt) ->
  exists r failed gone,
    returns (scan (P := P) (X := X) detect emit) w = Ok r /\
    adds_up (size (providers_of (P := P) (read_utc w).1)) failed gone r.
Proof.
  intros Hemit. apply (wp_run (scan (X := X) detect emit) (fun res _ => exists r failed gone, res = Ok r /\
    adds_up (size (providers_of (P := P) (read_utc w).1)) failed gone r)).
  unfold scan. apply wp_bind, wp_calling, wp_bind, wp_self, wp_bind.
  set (keys := map_keys (providers_of (P := P) (read_utc w).1)).
  assert (length keys = size (providers_of (P := P) (read_utc w).1)) as Hlen.
  { unfold keys, map_keys. by rewrite map_entries_perm, length_fmap, <- length_map_to_list. }
  rewrite <- Hlen.
  apply (wp_for_each (fun done r _ => exists failed gone, adds_up (length done) failed gone r)).
  - by exists 0%nat, 0%nat.
  - intros don i r w1 _ (failed & gone & Hk & He). unfold clean_provider. apply wp_bind, wp_self.
    rewrite length_app. destruct (_ !! i) as [p|].
    + apply wp_bind, wp_result_of. destruct (returns _ _) as [orphans|e].
      * eapply wp_mono; [apply (orphans_add_up emit p i orphans (length don + 1) failed gone); [done|]|].
        { simpl. lia. }
        intros res _ (r' & -> & Hadd). exists r'. split; [done|]. by exists failed, gone.
      * apply wp_ret. eexists. split; [done|]. exists (S failed), gone. unfold adds_up in *. simpl. lia.
    + apply wp_ret. eexists. split; [done|]. exists failed, (S gone). unfold adds_up in *. simpl. lia.
  - intros r w1 (failed & gone & Hadd). apply wp_bind, wp_calling, wp_ret. by eexists _, failed, gone.
Qed.

Lemma returns_ignoring {X F A} (m : method W X A) w : returns (ignoring (F := F) m) w = Ok tt.
Proof. apply (wp_run (ignoring m) (fun r _ => r = Ok tt)). by apply wp_ignoring. Qed.

Lemma reading_and_ignoring {X F A} (m : DateTime -> method W X A) w :
  returns (now ← calling read_utc; ignoring (F := F) (m now)) w = Ok tt.
Proof.
  apply (wp_run (now ← calling read_utc; ignoring (m now)) (fun r _ => r = Ok tt)).
  apply wp_bind, wp_calling, wp_run, returns_ignoring.
Qed.

(** A scan for orphans, by the garbage collector or by the lifecycle manager,
    always ends with an answer, and the answer adds up: every provider that was
    there is scanned, could not be asked, or is gone, and every orphan that is
    detected is cleaned up or counts as an error. *)
Theorem orphan_scans_add_up w :
  (exists r failed gone, returns (detect_and_cleanup_orphans (P := P)) w = Ok r /\
     adds_up (size (providers_of (P := P) (read_utc w).1)) failed gone r) /\
  (exists r failed gone,
     returns (WorkerLifecycleManager.detect_and_cleanup_orphans_legacy (P := P)) w = Ok r /\
     adds_up (size (providers_of (P := P) (read_utc w).1)) failed gone r).
Proof.
  split.
  - apply scan_adds_up. intros o i w1. apply reading_and_ignoring.
  - destruct (scan_adds_up (WorkerLifecycleManager.detect_orphans_for_provider (P := P))
      (WorkerLifecycleManager.emit_orphan_detected (F := DomainError.t)) w) as (r & failed & gone & Hr & Hadd).
    { intros o i w1. apply reading_and_ignoring. }
    exists r, failed, gone. split; [|done].
    unfold WorkerLifecycleManager.detect_and_cleanup_orphans_legacy.
    apply (wp_run (_ ≫= _) (fun res _ => res = Ok r)). apply wp_bind, wp_run. rewrite Hr.
    apply wp_bind, wp_run.
    assert (forall w1, returns (WorkerLifecycleManager.emit_garbage_collection_completed (P := P)
      (F := DomainError.t) r) w1 = Ok tt) as ->; [|by apply wp_ret].
    intros w1. apply (wp_run (WorkerLifecycleManager.emit_garbage_collection_completed (P := P) r)
      (fun res _ => res = Ok tt)).
    unfold WorkerLifecycleManager.emit_garbage_collection_completed.
    apply wp_bind, wp_calling, wp_bind, wp_self, wp_bind.
    destruct (head _ ≫= _); [apply wp_ret|apply wp_calling]; by apply wp_ignoring.
Qed.

End orphans.

(** ** Cleanup *)

Section cleaning.
Context `{E : Externs} `{!UpkeepDebug} `{!EventFormat} {P W : Type}.
Context `{!WorkerRegistry.t W} `{!WorkerProviders P W} `{!EventBus W} `{!OutboxRepository W}.
Context `{!Ambient W} `{!Sleeping W}.
Import WorkerGarbageCollector CleanupResult.

(** A worker that may go: it is busy, it was terminated before, or one of its
    times had run out at a moment of the cleanup. *)
Definition expired (w : Worker.t) : Prop :=
  Worker.state w = WorkerState.Busy \/ Worker.state w = WorkerState.Terminated \/
  exists now, Worker.is_idle_timeout now w = true \/ Worker.is_lifetime_exceeded now w = true \/
    Worker.is_ttl_after_completion_exceeded now w = true.

Definition condemned (w : Worker.t) : Prop :=
  Worker.state w = WorkerState.Busy \/ Worker.state w = WorkerState.Terminated.

Lemma to_terminate_spec {F} (w : Worker.t) (s : W) :
  wp (to_terminate (F := F) w) (fun res _ => exists b, res = Ok b /\
    (condemned w -> b = true) /\ (b = true -> expired w)) s.
Proof.
  unfold to_terminate, condemned, expired.
  destruct (Worker.state w) eqn:Hst; try (apply wp_ret; exists true; split_and!; auto; done).
  all: apply wp_bind, wp_calling; destruct (Worker.is_idle_timeout _ w) eqn:Hi;
    [apply wp_ret; exists true; split_and!; [done|done|by eauto 6]|];
    apply wp_bind, wp_calling; destruct (Worker.is_lifetime_exceeded _ w) eqn:Hl;
    [apply wp_ret; exists true; split_and!; [done|done|by eauto 6]|];
    apply wp_bind, wp_calling, wp_ret; eexists; split_and!; [done|by intros [|]|];
    intros Ht; right; right; eauto.
Qed.

Lemma candidates_spec {F} ws (s : W) :
  wp (candidates (F := F) ws) (fun res _ => exists chosen, res = Ok chosen /\
    chosen `sublist_of` ws /\ Forall expired chosen /\
    forall w, w ∈ ws -> condemned w -> w ∈ chosen) s.
Proof.
  revert s. induction ws as [|w ws IH]; intros s; simpl.
  - apply wp_ret. exists []. split_and!; [done|done|done|]. by intros w Hw%elem_of_nil.
  - apply wp_bind. eapply wp_mono; [apply to_terminate_spec|]. intros res s1 (b & -> & Hb & Hexp).
    apply wp_bind. eapply wp_mono; [apply IH|]. intros res s2 (chosen & -> & Hsub & Hall & Hin).
    apply wp_ret. eexists. split; [done|]. destruct b.
    + split_and!; [by constructor|by constructor; auto|]. intros w' [->|Hw']%elem_of_cons Hc; [left|right; auto].
    + split_and!; [by constructor|done|]. intros w' [->|Hw']%elem_of_cons Hc; [by apply Hb in Hc|auto].
Qed.

(** What a loop over [ws] that terminates each worker, skips it or fails on it
    has collected. *)
Definition sorted_out (ws : list Worker.t) (r : CleanupResult.t) : Prop :=
  exists skipped, terminated r ++ failed r ++ skipped ≡ₚ Worker.id <$> ws.

Lemma sorted_out_next ws r w : sorted_out ws r ->
  sorted_out (ws ++ [w]) r /\
  sorted_out (ws ++ [w]) (r <| terminated := terminated r ++ [Worker.id w] |>) /\
  sorted_out (ws ++ [w]) (r <| failed := failed r ++ [Worker.id w] |>).
Proof.
  intros [skipped Hp]. unfold sorted_out. rewrite fmap_app. simpl. split_and!.
  - exists (skipped ++ [Worker.id w]). by rewrite !app_assoc, <- (app_assoc (terminated r)), Hp.
  - exists skipped. rewrite <- Hp. solve_Permutation.
  - exists skipped. rewrite <- Hp. solve_Permutation.
Qed.

Lemma terminate_worker_spec config w ws r (s : W) :
  sorted_out ws r ->
  wp (terminate_worker (P := P) config w r) (fun res _ => exists r', res = Ok r' /\ sorted_out (ws ++ [w]) r') s.
Proof.
  intros Hr. destruct (sorted_out_next ws r w Hr) as (Hskip & Hterm & Hfail).
  unfold terminate_worker, reason_now, mark_terminated. apply wp_bind. do 3 apply wp_bind, wp_calling.
  apply wp_ret, wp_bind.
  assert (forall s, wp (destroyed ← result_of (destroy_worker_with_retry (P := P) config w);
    match destroyed with
    | Ok _ => ignoring (WorkerRegistry.unregister (Worker.id w));;
              mret (r <| terminated := terminated r ++ [Worker.id w] |>)
    | Err _ => mret (r <| failed := failed r ++ [Worker.id w] |>)
    end) (fun (res : result string CleanupResult.t) (_ : W) =>
      exists r', res = Ok r' /\ sorted_out (ws ++ [w]) r') s) as Hdestroy.
  { intros s1. apply wp_bind, wp_result_of. destruct (returns _ _) as [[]|e].
    - apply wp_bind, wp_ignoring, wp_ret. by eexists.
    - apply wp_ret. by eexists. }
  case_bool_decide.
  - apply wp_ret. apply Hdestroy.
  - apply wp_bind, wp_result_of, wp_ret. destruct (returns _ _) as [[]|e]; simpl; [apply Hdestroy|].
    apply wp_ret. by eexists.
Qed.

Lemma announce_idle_spec {F} (emit : Worker.t -> method W F unit) ws (s : W) :
  (forall w s, returns (emit w) s = Ok tt) ->
  wp (announce_idle emit ws) (fun res _ => res = Ok tt) s.
Proof.
  intros Hemit. revert s. induction ws as [|w ws IH]; intros s; simpl; [by apply wp_ret|].
  apply wp_bind, wp_calling, wp_bind. destruct (Worker.is_idle_timeout _ w).
  - apply wp_run. rewrite Hemit. apply IH.
  - apply wp_ret, IH.
Qed.

(** The cleanup never fails once the workers are found, and it treats every
    busy worker, that is every worker that runs a job, like one that is to be
    removed: it is terminated, or its destruction fails, or it could not be
    marked.  No worker goes that is neither busy nor terminated before one of its
    times has run out. *)
Theorem cleanup_takes_busy_workers config s all :
  returns (WorkerRegistry.find WorkerFilter.new) s = Ok all ->
  exists chosen r,
    returns (cleanup (P := P) config) s = Ok r /\ sorted_out chosen r /\
    chosen `sublist_of` all /\ Forall expired chosen /\
    forall w, w ∈ all -> Worker.state w = WorkerState.Busy -> w ∈ chosen.
Proof.
  intros Hall.
  apply (wp_run (cleanup (P := P) config) (fun res _ => exists chosen r, res = Ok r /\ sorted_out chosen r /\
    chosen `sublist_of` all /\ Forall expired chosen /\
    forall w, w ∈ all -> Worker.state w = WorkerState.Busy -> w ∈ chosen)).
  unfold cleanup. apply wp_bind, wp_run.
  assert (returns (mapping_error (WorkerRegistry.find WorkerFilter.new)
    (fun e => "Failed to find workers: " +:+ DomainError.fmt e)) s = Ok all) as -> by by apply mapping_ok.
  apply wp_bind. eapply wp_mono; [apply candidates_spec|]. intros res s1 (chosen & -> & Hsub & Hexp & Hin).
  apply wp_bind. eapply wp_mono; [apply announce_idle_spec; intros; apply returns_ignoring|].
  intros res s2 ->. apply (wp_for_each (fun done r _ => sorted_out done r)).
  - by exists [].
  - intros don w r s3 _ Hr. eapply wp_mono; [by apply terminate_worker_spec|]. naive_solver.
  - intros r s3 Hr. exists chosen, r. split_and!; try done. intros w Hw Hb. apply Hin; [done|by left].
Qed.

End cleaning.

(** ** Reconciliation with the registry in PostgreSQL *)

Section reconciling.
Context `{E : Externs} `{!UpkeepDebug} `{!WorkerFormat} {S : Type}.
Context `{!WorkerDatabase S} `{!WorkerDatabaseLaws S} `{!OutboxRepository S} `{!Ambient S}.
Import WorkerReconciler ReconciliationResult.
#[local] Existing Instance PostgresWorkerRegistry.registry.
#[local] Existing Instance PostgresWorkerRegistry.monitoring.

(** The clock and the outbox are not the table of workers. *)
Context (rows_of_utc : forall s : S, worker_rows (read_utc s).1 = worker_rows s).
Context (rows_of_outbox : forall events (s : S), worker_rows (after (insert_events events) s) = worker_rows s).

Lemma emitting_keeps {F} (wrap : string -> F) event (s : S) :
  worker_rows (after (emitting wrap event) s) = worker_rows s.
Proof.
  apply (wp_run (emitting wrap event) (fun _ s' => worker_rows s' = worker_rows s)).
  unfold emitting. apply wp_bind, wp_calling, wp_run. by rewrite after_mapping, rows_of_outbox, rows_of_utc.
Qed.

Definition terminated_row (i : WorkerId) (s : S) : Prop :=
  forall row, row ∈ worker_rows s -> WorkerRow.id row = i -> WorkerRow.state row = "TERMINATED".

Lemma terminated_rows i j (s : S) :
  let s' := after (PostgresWorkerRegistry.update_state j WorkerState.Terminated) s in
  (terminated_row i s -> terminated_row i s') /\
  (returns (PostgresWorkerRegistry.update_state j WorkerState.Terminated) s = Ok tt -> terminated_row j s').
Proof.
  unfold PostgresWorkerRegistry.update_state, PostgresWorkerRegistry.statement. rewrite after_mapping.
  set (f := PostgresWorkerRegistry.update_where j (PostgresWorkerRegistry.set_state WorkerState.Terminated)).
  assert (forall now rows rows' row, f now rows = Ok rows' -> row ∈ rows' ->
    WorkerRow.state row = "TERMINATED" \/ (WorkerRow.id row <> j /\ row ∈ rows)) as Hf.
  { unfold f, PostgresWorkerRegistry.update_where. intros now rows rows' row Hup Hrow.
    destruct (list_find _ _) as [[]|]; [done|]. injection Hup as <-.
    apply list_elem_of_fmap in Hrow as (row0 & -> & Hrow). destruct (PostgresWorkerRegistry.has_id j row0) eqn:Hid;
      [by left|right]. by apply bool_decide_eq_false in Hid. }
  split.
  - intros Hi row Hrow Hid. destruct (write_rows f s) as [Heq|[now Hnow]].
    + rewrite Heq in Hrow. by apply Hi.
    + destruct (Hf _ _ _ row Hnow Hrow) as [|[_ Hrow']]; [done|by apply Hi].
  - intros [now Hnow]%mapping_ok%write_ok row Hrow Hid.
    by destruct (Hf _ _ _ row Hnow Hrow) as [|[? _]].
Qed.

(** What a run over [done] has done. *)
Definition reconciled (ws : list Worker.t) (r : ReconciliationResult.t) (s : S) : Prop :=
  readable_table (worker_rows s) /\ stale_workers r = Worker.id <$> ws /\
  (forall i, i ∈ workers_marked_unhealthy r -> terminated_row i s).

Lemma reconcile_worker_spec {F X} grace (missed required : Worker.t -> JobId -> method S X unit)
    (changed : WorkerId -> WorkerState.t -> WorkerState.t -> string -> method S X unit) w ws r s :
  (forall w j s, worker_rows (after (missed w j) s) = worker_rows s) ->
  (forall w j s, worker_rows (after (required w j) s) = worker_rows s) ->
  (forall i a b t s, worker_rows (after (changed i a b t) s) = worker_rows s) ->
  reconciled ws r s ->
  wp (reconcile_worker (F := F) grace missed required changed w r)
    (fun res s' => exists r', res = Ok r' /\ reconciled (ws ++ [w]) r' s') s.
Proof.
  intros Hmissed Hrequired Hchanged (Hread & Hstale & Hmarked).
  unfold reconcile_worker. apply wp_bind, wp_calling, wp_bind.
  set (now := (read_utc s).2). set (age := as_secs (WorkerHealthService.calculate_heartbeat_age now w)).
  set (r0 := r <| stale_workers := stale_workers r ++ [Worker.id w] |>).
  assert (wp (reconcile_job (F := F) grace missed required age w r0)
    (fun res s' => exists r1, res = Ok r1 /\ worker_rows s' = worker_rows s /\
       stale_workers r1 = stale_workers r0 /\ workers_marked_unhealthy r1 = workers_marked_unhealthy r)
    (read_utc s).1) as Hjob.
  { unfold reconcile_job. destruct (Worker.current_job_id w) as [job|]; [|apply wp_ret; naive_solver].
    apply wp_bind, wp_ignoring. destruct (_ <? _).
    - apply wp_bind, wp_ignoring, wp_ret. eexists. split; [done|]. simpl.
      by rewrite Hrequired, Hmissed, rows_of_utc.
    - apply wp_ret. eexists. split; [done|]. simpl. by rewrite Hmissed, rows_of_utc. }
  eapply wp_mono; [exact Hjob|]. intros res s1 (r1 & -> & Hs1 & Hst1 & Hma1). clear Hjob.
  assert (forall s' r', stale_workers r' = stale_workers r1 -> readable_table (worker_rows s') ->
    (forall i, i ∈ workers_marked_unhealthy r' -> terminated_row i s') ->
    reconciled (ws ++ [w]) r' s') as Hdone.
  { intros s' r' Hst' Hread' Hma'. split_and!; [done| |done].
    by rewrite Hst', Hst1, fmap_app; simpl; rewrite Hstale. }
  unfold reconcile_state. case_bool_decide as Hterm.
  { apply wp_ret. eexists. split; [done|]. apply Hdone; [done|by rewrite Hs1|].
    rewrite Hma1. intros i Hi row. rewrite Hs1. by apply Hmarked. }
  apply wp_bind, wp_result_of.
  assert (readable_table (worker_rows (after (WorkerRegistry.update_state (Worker.id w) WorkerState.Terminated) s1)))
    as Hread1.
  { apply updated_readable; [intros; by apply set_state_readable|by rewrite Hs1]. }
  destruct (terminated_rows (Worker.id w) (Worker.id w) s1) as [_ Hnew].
  assert (forall i, terminated_row i s ->
    terminated_row i (after (WorkerRegistry.update_state (Worker.id w) WorkerState.Terminated) s1)) as Hold.
  { intros i Hi. destruct (terminated_rows i (Worker.id w) s1) as [Hkeep _]. apply Hkeep.
    intros row. rewrite Hs1. apply Hi. }
  change (returns (WorkerRegistry.update_state _ _) s1) with
    (returns (PostgresWorkerRegistry.update_state (Worker.id w) WorkerState.Terminated) s1).
  destruct (returns _ s1) as [[]|e] eqn:Hret.
  - apply wp_bind, wp_ignoring, wp_ret. eexists. split; [done|]. apply Hdone; [done|by rewrite Hchanged|].
    simpl. rewrite Hma1. intros i Hi row. rewrite Hchanged.
    apply elem_of_app in Hi as [Hi|Hi%list_elem_of_singleton]; [by apply Hold, Hmarked|subst; by apply Hnew].
  - apply wp_ret. eexists. split; [done|]. apply Hdone; [done|done|].
    rewrite Hma1. intros i Hi. by apply Hold, Hmarked.
Qed.

(** The job of a worker that has been silent for more than [grace] at [now]. *)
Definition overdue (grace : Duration) (now : DateTime) (w : Worker.t) : list JobId :=
  match Worker.current_job_id w with
  | Some j =>
      if as_secs grace <? as_secs (WorkerHealthService.calculate_heartbeat_age now w) then [j] else []
  | None => []
  end.

(** A worker that is handled at [s]: the job that is to be reassigned, by the clock
    that is read then, whether the registry takes the new state, and the end. *)
Definition judged (grace : Duration) (w : Worker.t) (s : S) : list JobId :=
  overdue grace (read_utc s).2 w.
Definition job_handled (grace : Duration) (w : Worker.t) (s : S) : S :=
  let age := as_secs (WorkerHealthService.calculate_heartbeat_age (read_utc s).2 w) in
  after (reconcile_job (F := string) grace emit_heartbeat_missed emit_job_reassignment_required age w
    ReconciliationResult.default) (read_utc s).1.
Definition marked (grace : Duration) (w : Worker.t) (s : S) : list WorkerId :=
  if is_ok (returns (WorkerRegistry.update_state (Worker.id w) WorkerState.Terminated) (job_handled grace w s))
  then [Worker.id w] else [].
Definition handling (grace : Duration) : Worker.t -> ReconciliationResult.t -> method S string ReconciliationResult.t :=
  reconcile_worker grace emit_heartbeat_missed emit_job_reassignment_required emit_status_changed.

(** Each worker at the world that those before it have left. *)
Fixpoint in_turn {X} (grace : Duration) (f : Worker.t -> S -> list X) (ws : list Worker.t) (s : S) : list X :=
  match ws with
  | [] => []
  | w :: ws => f w s ++ in_turn grace f ws (after (handling grace w ReconciliationResult.default) s)
  end.

Lemma handling_result grace w r (s : S) : Worker.state w <> WorkerState.Terminated ->
  exists r', handling grace w r s = (after (handling grace w ReconciliationResult.default) s, Ok r') /\
    jobs_requiring_reassignment r' = jobs_requiring_reassignment r ++ judged grace w s /\
    workers_marked_unhealthy r' = workers_marked_unhealthy r ++ marked grace w s.
Proof.
  intros Hst. unfold handling, marked, judged, overdue, job_handled, reconcile_worker, reconcile_job, reconcile_state.
  rewrite bool_decide_false by done.
  unfold ignoring, calling, result_of, after, returns, mbind, method_bind.
  destruct (read_utc s) as [s1 now]. simpl.
  destruct (Worker.current_job_id w) as [j|]; [destruct (_ <? _)|]; simpl;
    repeat match goal with |- context [let (_, _) := ?m in _] =>
      lazymatch m with context [match _ with _ => _ end] => fail | _ => destruct m as [? [?|?]]; simpl end
    end; eexists; split_and!; try done; by rewrite app_nil_r.
Qed.

Lemma handlings_result grace ws r r' (s : S) : Forall (fun w => Worker.state w <> WorkerState.Terminated) ws ->
  returns (for_each (handling grace) ws r) s = Ok r' ->
  jobs_requiring_reassignment r' = jobs_requiring_reassignment r ++ in_turn grace (judged grace) ws s /\
  workers_marked_unhealthy r' = workers_marked_unhealthy r ++ in_turn grace (marked grace) ws s.
Proof.
  intros Hws. revert r s. induction Hws as [|w ws Hw _ IH]; intros r s; simpl.
  - intros [= <-]. by rewrite !app_nil_r.
  - destruct (handling_result grace w r s Hw) as (r1 & Hr1 & Hreq & Hma).
    unfold returns, mbind, method_bind. rewrite Hr1. intros Hok.
    destruct (IH r1 _ Hok) as [-> ->]. by rewrite Hreq, Hma, <- !app_assoc.
Qed.

Lemma reconcile_spec config (s : S) r :
  readable_table (worker_rows s) -> returns (reconcile config) s = Ok r ->
  let grace := WorkerReconcilerConfig.worker_dead_grace_period config in
  let found := find_unhealthy (WorkerReconcilerConfig.heartbeat_timeout config) in
  exists ws, returns found s = Ok ws /\ reconciled ws r (after (reconcile config) s) /\
    jobs_requiring_reassignment r = in_turn grace (judged grace) ws (after found s) /\
    workers_marked_unhealthy r = in_turn grace (marked grace) ws (after found s).
Proof.
  intros Hread Hok grace found. unfold reconcile in *. apply bind_ok in Hok as (ws & Hws & Hok & ->).
  apply mapping_ok in Hws. rewrite after_mapping in *.
  destruct (unhealthy_workers rows_of_utc _ _ _ Hread Hws) as [Hrows Hlive].
  change (worker_rows (after found s) = worker_rows s) in Hrows. exists ws. fold (handling grace) in *.
  fold found in Hok, Hws |- *. set (s1 := after found s) in *. split; [done|]. split.
  - assert (wp (for_each (handling grace) ws ReconciliationResult.default) (fun res s' => forall r, res = Ok r ->
      reconciled ws r s') s1) as Hwp; [|by apply wp_run in Hwp; apply Hwp].
    apply (wp_for_each reconciled).
    + unfold reconciled. rewrite Hrows. split_and!; [done|done|]. by intros ? ?%elem_of_nil.
    + intros don w r1 s2 _ HI. apply reconcile_worker_spec; [..|done]; intros; apply emitting_keeps.
    + by intros r1 s2 HI r2 [= <-].
  - apply handlings_result in Hok as [-> ->]; [done|].
    apply Forall_forall. intros w Hw. by destruct (Hlive w Hw) as (? & _ & _ & _ & ?).
Qed.

(** C19: a stale worker is seen once.  A run handles the workers it finds one after
    the other, each at a reading of the clock of its own, and asks the registry to
    terminate each: those for which that is accepted are the ones it counts as marked,
    they are terminated in the table, and a run on that table, at any time, finds none
    of them.  The jobs a run wants reassigned are those of the workers it found that
    had been silent for more than the grace period when they were handled. *)
Theorem stale_workers_are_seen_once config (s s2 : S) r r2 :
  readable_table (worker_rows s) ->
  returns (reconcile config) s = Ok r ->
  worker_rows s2 = worker_rows (after (reconcile config) s) ->
  returns (reconcile config) s2 = Ok r2 ->
  (forall i, i ∈ workers_marked_unhealthy r -> terminated_row i s2 /\ i ∉ stale_workers r2) /\
  let grace := WorkerReconcilerConfig.worker_dead_grace_period config in
  let found := find_unhealthy (WorkerReconcilerConfig.heartbeat_timeout config) in
  exists ws, returns found s = Ok ws /\ stale_workers r = Worker.id <$> ws /\
    workers_marked_unhealthy r = in_turn grace (marked grace) ws (after found s) /\
    jobs_requiring_reassignment r = in_turn grace (judged grace) ws (after found s).
Proof.
  intros Hread Hr Hrows Hr2.
  destruct (reconcile_spec _ _ _ Hread Hr) as (ws & Hws & (Hread' & Hstale & Hmarked) & Hjobs & Hma).
  rewrite <- Hrows in Hread'.
  destruct (reconcile_spec _ _ _ Hread' Hr2) as (ws2 & Hws2 & (_ & Hstale2 & _) & _). split; [|by exists ws].
  intros i Hi. assert (terminated_row i s2) as Hterm by (unfold terminated_row; rewrite Hrows; by apply Hmarked).
  split; [done|]. intros Hin. rewrite Hstale2 in Hin. apply list_elem_of_fmap in Hin as (w & -> & Hw).
  destruct (unhealthy_workers rows_of_utc _ _ _ Hread' Hws2) as [_ Hun].
  destruct (Hun w Hw) as (row & Hrow & (Hid & Hstate & _) & _ & Hlive).
  rewrite (Hterm row Hrow (eq_sym Hid)) in Hstate. by destruct (Worker.state w).
Qed.

(** The scale-down that is planned for idle workers never comes: no worker is
    counted as idle. *)
Theorem never_scales_down {F} (m : WorkerLifecycleManager.t) (s : S) :
  readable_table (worker_rows s) ->
  returns (WorkerLifecycleManager.should_scale_down (F := F) m) s = Ok false.
Proof.
  intros Hread. apply (wp_run (WorkerLifecycleManager.should_scale_down (F := F) m)
    (fun res _ => res = Ok false)).
  unfold WorkerLifecycleManager.should_scale_down. apply wp_bind, wp_result_of, wp_ret.
  destruct (returns worker_stats s) as [counts|e] eqn:Hst; [|done].
  destruct (no_worker_is_idle s counts Hread Hst) as (Hidle & _ & _). rewrite Hidle.
  by destruct (WorkerLifecycleConfig.scale_down_threshold _).
Qed.

End reconciling.

(** ** Evaluation *)

#[local] Existing Instance concrete_order.
#[local] Existing Instance concrete_format.

(** The workers of [ExampleWorkers], with their outbox and bus, and provider 2,
    which has the containers. *)
Module ExampleUpkeep.
Import ExampleWorkers.

#[global] Instance outbox_database : OutboxDatabase (E := concrete) t := {|
  outbox_rows := fun w => outbox_rows (E := concrete) (outbox w);
  set_outbox_rows := fun l w => w <| outbox := set_outbox_rows (E := concrete) l (outbox w) |>;
  transaction_time := fun w => transaction_time (E := concrete) (outbox w);
  gen_random_uuid := fun w => let (o, u) := gen_random_uuid (E := concrete) (outbox w) in
    (w <| outbox := o |>, u);
  next_outcome := fun w => let (o, x) := next_outcome (E := concrete) (outbox w) in
    (w <| outbox := o |>, x);
  locked_by_others := fun _ _ => false;
  order_by_created_at := order_by_created_at (E := concrete) (S := ExampleDatabase.world);
  violation := violation (E := concrete) (S := ExampleDatabase.world);
  minus_seconds := minus_seconds (E := concrete) (S := ExampleDatabase.world);
  epoch_seconds := epoch_seconds (E := concrete) (S := ExampleDatabase.world);
|}.

#[global] Instance bus : EventBus (E := concrete) t := {|
  publish_event := fun e w =>
    (w <| outbox := outbox w <| ExampleDatabase.log := ExampleDatabase.log (outbox w) ++ [e] |> |>, Ok tt);
|}.

#[global] Instance debug : UpkeepDebug (E := concrete) :=
  @Build_UpkeepDebug concrete (OutboxError.fmt (E := concrete))
    (fun e => match e with Some e => "Some(" +:+ ProviderError.fmt e +:+ ")" | None => "None" end)
    (fun r => match r with Some r => "Some(" +:+ r +:+ ")" | None => "None" end).

#[global] Instance sleeping : Sleeping t := {|
  pause := fun d w => w <| outbox := outbox w <| ExampleDatabase.clock := ExampleDatabase.clock (outbox w) + d |> |>;
|}.

Definition remove (resource : string) : method t ProviderError.t unit := fun w =>
  if bool_decide (resource ∈ containers w)
  then (w <| containers := filter (fun c => c <> resource) (containers w) |>, Ok tt)
  else (w, Err (ProviderError.WorkerNotFound resource)).

#[global] Instance provider_two : WorkerProviders (E := concrete) unit t :=
  @Build_WorkerProviders concrete unit t
    (fun _ h => remove (WorkerHandle.provider_resource_id h))
    (fun _ w => (w, Ok ((fun c => ProviderWorkerInfo.mk (E := concrete) c WorkerState.Ready None None) <$>
       containers w)))
    (fun _ => remove) providers (fun m w => w <| providers := m |>).

#[global] Instance workers_of_upkeep : WorkerRegistry.t (E := concrete) t :=
  PostgresWorkerRegistry.registry (E := concrete).
#[global] Instance monitoring_of_upkeep : WorkerMonitoring (E := concrete) t :=
  PostgresWorkerRegistry.monitoring (E := concrete).

(** Worker 3 is busy, in its container; another container is not registered. *)
Definition start : t := ExampleWorkers.busy <| containers := [unary 3; "stray"] |>.

Definition cleaning : method t string (CleanupResult.t (E := concrete)) :=
  WorkerGarbageCollector.cleanup (E := concrete) (P := unit) GarbageCollectorConfig.default.

Definition reconciling : method t string (ReconciliationResult.t (E := concrete)) :=
  WorkerReconciler.reconcile (E := concrete) WorkerReconcilerConfig.default.

Definition found : list (Worker.t (E := concrete)) :=
  match returns (WorkerRegistry.find (E := concrete) (WorkerFilter.new (E := concrete))) start with
  | Ok l => l
  | Err _ => []
  end.

(** The worker is silent for 70 seconds, and then for 500. *)
Definition silent : t := at_second 70 start.
Definition later : t := at_second 500 (after reconciling silent).

End ExampleUpkeep.

(** The worker that works on job 7 is destroyed by the cleanup. *)
Example busy_worker_is_destroyed :
  returns ExampleUpkeep.cleaning ExampleUpkeep.start = Ok (CleanupResult.mk (E := concrete) [3%nat] []) /\
  ExampleWorkers.containers (after ExampleUpkeep.cleaning ExampleUpkeep.start) = ["stray"].
Proof. split; reflexivity. Qed.

(** Its job is not reassigned after 70 seconds, and nobody sees it after 500. *)
Example job_is_never_reassigned :
  returns ExampleUpkeep.reconciling ExampleUpkeep.silent =
    Ok (ReconciliationResult.mk (E := concrete) [3%nat] [3%nat] [7%nat] []) /\
  returns ExampleUpkeep.reconciling ExampleUpkeep.later = Ok (ReconciliationResult.default (E := concrete)).
Proof. split; reflexivity. Qed.

(** The container that is not registered is destroyed, the other one is not. *)
Example orphans_are_unregistered_witness :
  (exists infos registered,
    returns (list_workers (E := concrete) tt) ExampleUpkeep.start = Ok infos /\
    returns (WorkerRegistry.find_by_provider (E := concrete) 2%nat)
      (after (list_workers (E := concrete) tt) ExampleUpkeep.start) = Ok registered /\
    ["stray"] = filter (fun r => r ∉ WorkerGarbageCollector.resource_ids (E := concrete) registered)
      (ProviderWorkerInfo.resource_id <$> infos)) /\
  ExampleWorkers.containers (after (WorkerGarbageCollector.clean_provider (E := concrete) (P := unit)
    (WorkerGarbageCollector.detect_orphans_for_provider (E := concrete))
    (WorkerGarbageCollector.emit_orphan_detected (E := concrete) (F := string)) 2%nat
    OrphanCleanupResult.default) ExampleUpkeep.start) = [unary 3].
Proof.
  assert (providers_of (E := concrete) (P := unit) ExampleUpkeep.start !! (2%nat : @Uuid concrete) = Some tt)
    as Hp by reflexivity.
  assert (returns (WorkerGarbageCollector.detect_orphans_for_provider (E := concrete) (P := unit) tt 2%nat)
    ExampleUpkeep.start = Ok [OrphanWorkerInfo.mk (E := concrete) 20%nat "stray" 1]) as Hd by reflexivity.
  destruct (orphans_are_unregistered (E := concrete) (P := unit) (W := ExampleWorkers.t) tt 2%nat
    OrphanCleanupResult.default ExampleUpkeep.start _ Hp Hd) as [Hfound Hworld].
  split; [exact Hfound|]. rewrite Hworld. reflexivity.
Defined.

Example cleanup_takes_busy_workers_witness :
  exists chosen r,
    returns ExampleUpkeep.cleaning ExampleUpkeep.start = Ok r /\
    sorted_out (E := concrete) chosen r /\
    forall w, w ∈ ExampleUpkeep.found ->
      Worker.state w = WorkerState.Busy -> w ∈ chosen.
Proof.
  assert (returns (WorkerRegistry.find (E := concrete) (WorkerFilter.new (E := concrete))) ExampleUpkeep.start =
    Ok ExampleUpkeep.found) as Hfound by reflexivity.
  destruct (cleanup_takes_busy_workers (E := concrete) (P := unit) (W := ExampleWorkers.t)
    GarbageCollectorConfig.default ExampleUpkeep.start _ Hfound)
    as (chosen & r & Hr & Hs & _ & _ & Hin).
  exists chosen, r. split; [exact Hr|]. split; [exact Hs|exact Hin].
Defined.

Lemma example_outbox_keeps events (w : ExampleWorkers.t) :
  ExampleWorkers.workers (after (insert_events (E := concrete) events) w) = ExampleWorkers.workers w.
Proof.
  change (insert_events (E := concrete) events) with
    (PostgresOutboxRepository.insert_events (E := concrete) (S := ExampleWorkers.t) events).
  assert (forall now events rows w, ExampleWorkers.workers (fst (PostgresOutboxRepository.insert_rows
    (E := concrete) (S := ExampleWorkers.t) now events rows w)) = ExampleWorkers.workers w) as Hrows.
  { intros now l. induction l as [|e l IH]; intros rows w1; [done|]. simpl.
    destruct (PostgresOutboxRepository.insert_row _ _ e rows); [|done]. by rewrite IH. }
  unfold PostgresOutboxRepository.insert_events, after. destruct events as [|e events]; [done|].
  unfold PostgresOutboxRepository.execute.
  assert (ExampleWorkers.workers (fst (next_outcome (E := concrete) w)) = ExampleWorkers.workers w) as Ho.
  { simpl. by destruct (ExampleDatabase.outcomes _). }
  destruct (next_outcome (E := concrete) w) as [w1 o]. simpl in Ho. rewrite <- Ho.
  assert (ExampleWorkers.workers (fst (PostgresOutboxRepository.insert_statement (E := concrete)
    (S := ExampleWorkers.t) (e :: events) w1)) = ExampleWorkers.workers w1) as Hins.
  { unfold PostgresOutboxRepository.insert_statement. specialize (Hrows (transaction_time (E := concrete) w1)
      (e :: events) (outbox_rows (E := concrete) w1) w1).
    destruct (PostgresOutboxRepository.insert_rows _ _ _ _) as [w2 [rows|m]]; exact Hrows. }
  destruct (PostgresOutboxRepository.insert_statement _ w1) as [w2 r]. by destruct o.
Qed.

Lemma rows_at_second n (w : ExampleWorkers.t) :
  table_rows (E := concrete) (Row := WorkerRow.t (E := concrete)) (ExampleWorkers.at_second n w) =
  table_rows (E := concrete) (Row := WorkerRow.t (E := concrete)) w.
Proof. reflexivity. Qed.

Example stale_workers_are_seen_once_witness :
  terminated_row (E := concrete) (S := ExampleWorkers.t) 3%nat ExampleUpkeep.later /\
  (3%nat : @Uuid concrete) ∉ ReconciliationResult.stale_workers (ReconciliationResult.default (E := concrete)).
Proof.
  pose (r := ReconciliationResult.mk (E := concrete) [3%nat] [3%nat] [7%nat] []).
  assert (readable_table (E := concrete)
    (table_rows (E := concrete) (Row := WorkerRow.t (E := concrete)) ExampleUpkeep.silent)) as Hread.
  { split; [apply NoDup_singleton|]. repeat constructor.
    by exists (ExampleWorkers.handle 3), ExampleWorkers.spec, WorkerState.Busy. }
  assert (returns ExampleUpkeep.reconciling ExampleUpkeep.silent = Ok r) as Hr by reflexivity.
  assert (returns ExampleUpkeep.reconciling ExampleUpkeep.later =
    Ok (ReconciliationResult.default (E := concrete))) as Hr2 by reflexivity.
  assert (table_rows (E := concrete) (Row := WorkerRow.t (E := concrete)) ExampleUpkeep.later =
    table_rows (E := concrete) (Row := WorkerRow.t (E := concrete))
      (after ExampleUpkeep.reconciling ExampleUpkeep.silent)) as Hrows by apply rows_at_second.
  assert (forall w : ExampleWorkers.t,
    table_rows (E := concrete) (Row := WorkerRow.t (E := concrete)) (read_utc (E := concrete) w).1 =
    table_rows (E := concrete) (Row := WorkerRow.t (E := concrete)) w) as Hutc by reflexivity.
  destruct (stale_workers_are_seen_once (E := concrete) (S := ExampleWorkers.t)
    (WorkerDatabase0 := ExampleWorkers.database) (Ambient0 := ExampleWorkers.ambient) Hutc
    (fun events w => f_equal Sheet.rows (example_outbox_keeps events w)) WorkerReconcilerConfig.default
    ExampleUpkeep.silent ExampleUpkeep.later r _ Hread Hr Hrows Hr2) as [Hseen _].
  apply (Hseen 3%nat). left.
Defined.
