(* ===== verification/WorkerActor.v ===== *)
(** * The supervisor of the workers
    ([crates/server/application/src/workers/actor.rs])

    An actor owns a registry of the workers that are connected.  It takes one
    message at a time from its inbox, changes its state, answers on the channel
    the message carries, and then looks for workers whose heartbeats are missing.

    Handling a message is a function of the state and of what is drawn for it (a
    clock reading, a session identifier); the result is an [Action], since a
    message may have to wait for room in the channel of a worker.  The system of
    the actor, its inbox, the channels and those who use them is a transition
    system: [fire] says what a label does, if it can happen.

    A one-shot channel for an answer is its number; a channel to a worker is the
    number of a [Mailbox].  The maps are walked in the order of [MapOrder]. *)

From Stdlib Require Import String.
From S2P Require Import Prelude Effects Std Externs States Errors ProviderApi Worker.

(** ** Data *)

Module SupervisorError.
Section error.
Context `{E : Externs}.

(** src: crates/server/application/src/workers/actor.rs 23-41 SupervisorError *)
Inductive t :=
  | WorkerNotFound (worker_id : WorkerId)
  | WorkerAlreadyRegistered (worker_id : WorkerId)
  | RegistrationFailed (reason : string)
  | ChannelClosed (worker_id : WorkerId)
  | Shutdown
  | Internal (message : string).

Definition fmt (e : t) : string :=
  match e with
  | WorkerNotFound i => "Worker not found: " +:+ uuid_to_string i
  | WorkerAlreadyRegistered i => "Worker already registered: " +:+ uuid_to_string i
  | RegistrationFailed reason => "Registration failed: " +:+ reason
  | ChannelClosed i => "Channel closed for worker: " +:+ uuid_to_string i
  | Shutdown => "Shutdown signal received"
  | Internal message => "Internal error: " +:+ message
  end.

(** src: crates/server/application/src/workers/actor.rs 43-66 From<SupervisorError> for DomainError *)
Definition to_domain_error (e : t) : DomainError.t :=
  match e with
  | WorkerNotFound i => DomainError.WorkerNotFound i
  | WorkerAlreadyRegistered i => DomainError.WorkerAlreadyExists i
  | RegistrationFailed reason =>
      DomainError.WorkerProvisioningFailed ("Worker registration failed: " +:+ reason)
  | ChannelClosed i => DomainError.InfrastructureError ("Worker channel closed: " +:+ uuid_to_string i)
  | Shutdown => DomainError.InfrastructureError "Supervisor shutdown"
  | Internal message => DomainError.InfrastructureError message
  end.

End error.
End SupervisorError.

(** src: crates/server/application/src/workers/actor.rs 69-69 SupervisorResult *)
Definition SupervisorResult `{E : Externs} (T : Type) : Type := result SupervisorError.t T.

Module WorkerActorState.
Section state.
Context `{E : Externs}.

(** src: crates/server/application/src/workers/actor.rs 73-82 WorkerActorState *)
Record t := mk {
  worker_id : WorkerId;
  provider_id : ProviderId;
  handle : WorkerHandle.t;
  spec : WorkerSpec.t;
  status : WorkerState.t;
  session_id : string;
  registered_at : DateTime;
  last_heartbeat : option DateTime;
}.

#[global] Instance t_rebuild : Rebuild t := fun w =>
  mk (worker_id w) (provider_id w) (handle w) (spec w) (status w) (session_id w) (registered_at w)
    (last_heartbeat w).

(** src: crates/server/application/src/workers/actor.rs 85-102 WorkerActorState::new *)
Definition new (i : WorkerId) (p : ProviderId) (h : WorkerHandle.t) (sp : WorkerSpec.t) (session : string)
    (now : DateTime) : t :=
  mk i p h sp WorkerState.Creating session now None.

End state.
End WorkerActorState.

Module WorkerMsg.
(** src: crates/server/application/src/workers/actor.rs 107-121 WorkerMsg *)
Inductive t :=
  | RunJob (job_id command : string) (args : list string) (env : list (string * string))
  | Terminate (reason : string)
  | UpdateStatus (s : WorkerState.t)
  | Ping.

(** src: crates/server/application/src/workers/actor.rs 125-127 WorkerMsg::expects_response *)
Definition expects_response (m : t) : bool := match m with Ping => true | _ => false end.
End WorkerMsg.

Module DisconnectionReason.
(** src: crates/server/application/src/workers/actor.rs 198-205 DisconnectionReason *)
Inductive t := GracefulTermination | HeartbeatTimeout | NetworkError | WorkerCrash | Reboot | Unknown.
End DisconnectionReason.

Module WorkerStats.
(** src: crates/server/application/src/workers/actor.rs 209-212 WorkerStats *)
Record t := mk { total : nat; by_status : gmap string nat }.

#[global] Instance t_rebuild : Rebuild t := fun s => mk (total s) (by_status s).

Definition default : t := mk 0 ∅.

(** src: crates/server/application/src/workers/actor.rs 215-219 WorkerStats::increment *)
Definition increment (status : WorkerState.t) (s : t) : t :=
  let status_str := WorkerState.fmt status in
  s <| total := S (total s) |>
    <| by_status := <[status_str := S (option.default 0%nat (by_status s !! status_str))]> (by_status s) |>.
End WorkerStats.

Module SupervisorMsg.
Section msg.
Context `{E : Externs}.

(** src: crates/server/application/src/workers/actor.rs 132-194 SupervisorMsg *)
Inductive t :=
  | Register (worker_id : WorkerId) (provider_id : ProviderId) (handle : WorkerHandle.t)
      (spec : WorkerSpec.t) (reply_to : nat)
  | Unregister (worker_id : WorkerId) (reply_to : nat)
  | WorkerDisconnected (worker_id : WorkerId) (reason : DisconnectionReason.t) (reply_to : nat)
  | Heartbeat (worker_id : WorkerId) (reply_to : nat)
  | SendToWorker (worker_id : WorkerId) (message : WorkerMsg.t) (reply_to : nat)
  | GetWorker (worker_id : WorkerId) (reply_to : nat)
  | ListWorkers (filter : option WorkerState.t) (reply_to : nat)
  | GetWorkerStats (reply_to : nat)
  | SetWorkerChannel (worker_id : WorkerId) (channel : nat) (reply_to : nat)
  | Shutdown (reply_to : nat).

Definition reply_to (m : t) : nat :=
  match m with
  | Register _ _ _ _ n | Unregister _ n | WorkerDisconnected _ _ n | Heartbeat _ n
  | SendToWorker _ _ n | GetWorker _ n | ListWorkers _ n | GetWorkerStats n
  | SetWorkerChannel _ _ n | Shutdown n => n
  end.

End msg.
End SupervisorMsg.

(** What is sent on the one-shot channel of a message. *)
Module Reply.
Section reply.
Context `{E : Externs}.
Inductive t :=
  | Worker (r : SupervisorResult WorkerActorState.t)
  | Unit (r : SupervisorResult unit)
  | Workers (ws : list WorkerActorState.t)
  | Stats (s : WorkerStats.t)
  | Down.
End reply.
End Reply.

Module WorkerSupervisorConfig.
(** src: crates/server/application/src/workers/actor.rs 973-988 WorkerSupervisorConfig *)
Record t := mk {
  max_workers : nat;
  inbox_capacity : nat;
  worker_channel_capacity : nat;
  actor_enabled : bool;
  heartbeat_timeout : Duration;
  heartbeat_check_interval : Duration;
  heartbeat_timeout_tracking : bool;
}.

(** src: crates/server/application/src/workers/actor.rs 991-1001 WorkerSupervisorConfig::default *)
Definition default : t := {|
  max_workers := Z.to_nat 10000;
  inbox_capacity := 1000;
  worker_channel_capacity := 100;
  actor_enabled := true;
  heartbeat_timeout := from_secs 30;
  heartbeat_check_interval := from_secs 5;
  heartbeat_timeout_tracking := true;
|}.
End WorkerSupervisorConfig.

(** The counters are atomics, which wrap. *)
Module WorkerSupervisorMetrics.
(** src: crates/server/application/src/workers/actor.rs 883-890 WorkerSupervisorMetrics *)
Record t := mk {
  mailbox_size : Z;
  messages_processed : Z;
  registrations_total : Z;
  disconnections_total : Z;
  timeouts_total : Z;
}.

#[global] Instance t_rebuild : Rebuild t := fun m =>
  mk (mailbox_size m) (messages_processed m) (registrations_total m) (disconnections_total m)
    (timeouts_total m).

(** src: crates/server/application/src/workers/actor.rs 893-901 WorkerSupervisorMetrics::default *)
Definition default : t := mk 0 0 0 0 0.

(** src: crates/server/application/src/workers/actor.rs 906-909 WorkerSupervisorMetrics::inc_mailbox_size *)
Definition inc_mailbox_size (m : t) : t := m <| mailbox_size := u64_add (mailbox_size m) 1 |>.
(** src: crates/server/application/src/workers/actor.rs 912-915 WorkerSupervisorMetrics::dec_mailbox_size *)
Definition dec_mailbox_size (m : t) : t := m <| mailbox_size := u64_sub (mailbox_size m) 1 |>.
(** src: crates/server/application/src/workers/actor.rs 923-926 WorkerSupervisorMetrics::record_message *)
Definition record_message (m : t) : t := m <| messages_processed := u64_add (messages_processed m) 1 |>.
(** src: crates/server/application/src/workers/actor.rs 929-932 WorkerSupervisorMetrics::record_registration *)
Definition record_registration (m : t) : t :=
  m <| registrations_total := u64_add (registrations_total m) 1 |>.
(** src: crates/server/application/src/workers/actor.rs 935-938 WorkerSupervisorMetrics::record_disconnection *)
Definition record_disconnection (m : t) : t :=
  m <| disconnections_total := u64_add (disconnections_total m) 1 |>.
(** src: crates/server/application/src/workers/actor.rs 941-944 WorkerSupervisorMetrics::record_timeout *)
Definition record_timeout (m : t) : t := m <| timeouts_total := u64_add (timeouts_total m) 1 |>.
End WorkerSupervisorMetrics.

Module ActorState.
Section state.
Context `{E : Externs}.

(** src: crates/server/application/src/workers/actor.rs 223-234 ActorState *)
Record t := mk {
  registry : gmap WorkerId WorkerActorState.t;
  worker_channels : gmap WorkerId nat;
  messages_processed : Z;
  registrations_count : Z;
  disconnections_count : Z;
  timeouts_count : Z;
}.

#[global] Instance t_rebuild : Rebuild t := fun s =>
  mk (registry s) (worker_channels s) (messages_processed s) (registrations_count s)
    (disconnections_count s) (timeouts_count s).

(** src: crates/server/application/src/workers/actor.rs 237-246 ActorState::new *)
Definition new : t := mk ∅ ∅ 0 0 0 0.

End state.
End ActorState.

(** ** Handling messages *)

Module WorkerSupervisor.
Section supervisor.
Context `{E : Externs} `{!MapOrder}.
Import ActorState.

(** What a message is handled to: an answer with the state after it, or an
    attempt to send on a channel, which ends when the message has been queued
    ([true]) or the channel turns out to be closed ([false]). *)
Inductive Action :=
  | Done (s : t) (answer : Reply.t)
  | Sending (channel : nat) (message : WorkerMsg.t) (next : bool -> Action).

(** src: crates/server/application/src/workers/actor.rs 520-541 WorkerSupervisor::handle_register *)
Definition handle_register (fresh : Uuid) (now : DateTime) (i : WorkerId) (p : ProviderId)
    (h : WorkerHandle.t) (sp : WorkerSpec.t) : method t SupervisorError.t WorkerActorState.t :=
  s ← self;
  if bool_decide (is_Some (registry s !! i)) then throw (SupervisorError.WorkerAlreadyRegistered i)
  else
    let w := WorkerActorState.new i p h sp (uuid_to_string fresh) now in
    modify (fun s => s <| registry := <[i := w]> (registry s) |>
                       <| registrations_count := u64_add (registrations_count s) 1 |>);;
    mret w.

(** src: crates/server/application/src/workers/actor.rs 543-556 WorkerSupervisor::handle_unregister *)
Definition handle_unregister (i : WorkerId) : method t SupervisorError.t unit :=
  modify (fun s => s <| worker_channels := base.delete i (worker_channels s) |>);;
  s ← self;
  if bool_decide (is_Some (registry s !! i))
  then modify (fun s => s <| registry := base.delete i (registry s) |>)
  else throw (SupervisorError.WorkerNotFound i).

(** A change of the entry of a worker, if there is one. *)
Definition with_worker (i : WorkerId) (f : WorkerActorState.t -> WorkerActorState.t) :
    method t SupervisorError.t unit :=
  s ← self;
  if bool_decide (is_Some (registry s !! i))
  then modify (fun s => s <| registry := alter f i (registry s) |>)
  else throw (SupervisorError.WorkerNotFound i).

(** src: crates/server/application/src/workers/actor.rs 558-576 WorkerSupervisor::handle_disconnect *)
Definition handle_disconnect (i : WorkerId) (_ : DisconnectionReason.t) : method t SupervisorError.t unit :=
  modify (fun s => s <| worker_channels := base.delete i (worker_channels s) |>);;
  with_worker i (fun w => w <| WorkerActorState.status := WorkerState.Terminated |>).

(** src: crates/server/application/src/workers/actor.rs 578-588 WorkerSupervisor::handle_heartbeat *)
Definition handle_heartbeat (now : DateTime) (i : WorkerId) : method t SupervisorError.t unit :=
  with_worker i (fun w => w <| WorkerActorState.last_heartbeat := Some now |>
                            <| WorkerActorState.status := WorkerState.Ready |>).

(** src: crates/server/application/src/workers/actor.rs 590-607 WorkerSupervisor::handle_send_to_worker *)
Definition handle_send_to_worker (i : WorkerId) (message : WorkerMsg.t) (s : t) : Action :=
  match worker_channels s !! i with
  | Some channel =>
      Sending channel message (fun sent =>
        Done s (Reply.Unit (if sent then Ok tt else Err (SupervisorError.ChannelClosed i))))
  | None => Done s (Reply.Unit (Err (SupervisorError.WorkerNotFound i)))
  end.

(** src: crates/server/application/src/workers/actor.rs 609-617 WorkerSupervisor::handle_get_worker *)
Definition handle_get_worker (i : WorkerId) : method t SupervisorError.t WorkerActorState.t :=
  s ← self; lift (ok_or (registry s !! i) (SupervisorError.WorkerNotFound i)).

Definition has_status (filter : option WorkerState.t) (s : WorkerState.t) : bool :=
  match filter with Some f => bool_decide (s = f) | None => true end.

Definition entries (s : t) : list WorkerActorState.t := map_values (registry s).

(** src: crates/server/application/src/workers/actor.rs 619-626 WorkerSupervisor::handle_list_workers *)
Definition handle_list_workers (filter : option WorkerState.t) (s : t) : list WorkerActorState.t :=
  base.filter (fun w => has_status filter (WorkerActorState.status w) = true) (entries s).

(** src: crates/server/application/src/workers/actor.rs 628-636 WorkerSupervisor::handle_get_stats *)
Definition handle_get_stats (s : t) : WorkerStats.t :=
  foldl (fun stats w => WorkerStats.increment (WorkerActorState.status w) stats) WorkerStats.default
    (entries s).

(** src: crates/server/application/src/workers/actor.rs 638-655 WorkerSupervisor::handle_set_channel *)
Definition handle_set_channel (i : WorkerId) (channel : nat) : method t SupervisorError.t unit :=
  with_worker i (fun w => w <| WorkerActorState.status := WorkerState.Ready |>);;
  modify (fun s => s <| worker_channels := <[i := channel]> (worker_channels s) |>).

(** src: crates/server/application/src/workers/actor.rs 661-667 WorkerSupervisor::handle_shutdown (channels) *)
Fixpoint send_all (message : WorkerMsg.t) (channels : list nat) (last : Action) : Action :=
  match channels with
  | [] => last
  | c :: channels => Sending c message (fun _ => send_all message channels last)
  end.

(** src: crates/server/application/src/workers/actor.rs 657-674 WorkerSupervisor::handle_shutdown *)
Definition handle_shutdown (s : t) : Action :=
  send_all (WorkerMsg.Terminate "Server shutdown") (map_values (worker_channels s))
    (Done (s <| registry := ∅ |> <| worker_channels := ∅ |>) Reply.Down).

(** A message that waits for nothing. *)
Definition at_once {A} (answer : SupervisorResult A -> Reply.t) (m : method t SupervisorError.t A) (s : t) :
    Action :=
  let (s, r) := m s in Done s (answer r).

(** src: crates/server/application/src/workers/actor.rs 434-518 WorkerSupervisor::handle_message *)
Definition handle_message (fresh : Uuid) (now : DateTime) (m : SupervisorMsg.t) (s : t) : Action :=
  let s := s <| messages_processed := u64_add (messages_processed s) 1 |> in
  match m with
  | SupervisorMsg.Register i p h sp _ => at_once Reply.Worker (handle_register fresh now i p h sp) s
  | SupervisorMsg.Unregister i _ => at_once Reply.Unit (handle_unregister i) s
  | SupervisorMsg.WorkerDisconnected i reason _ =>
      at_once Reply.Unit (fun s =>
        let (s, r) := handle_disconnect i reason s in
        (s <| disconnections_count := u64_add (disconnections_count s) 1 |>, r)) s
  | SupervisorMsg.Heartbeat i _ => at_once Reply.Unit (handle_heartbeat now i) s
  | SupervisorMsg.SendToWorker i message _ => handle_send_to_worker i message s
  | SupervisorMsg.GetWorker i _ => at_once Reply.Worker (handle_get_worker i) s
  | SupervisorMsg.ListWorkers f _ => Done s (Reply.Workers (handle_list_workers f s))
  | SupervisorMsg.GetWorkerStats _ => Done s (Reply.Stats (handle_get_stats s))
  | SupervisorMsg.SetWorkerChannel i channel _ => at_once Reply.Unit (handle_set_channel i channel) s
  | SupervisorMsg.Shutdown _ => handle_shutdown s
  end.

(** *** Missing heartbeats *)

(** src: crates/server/application/src/workers/actor.rs 378-379 WorkerSupervisor::check_heartbeat_timeouts (timeout) *)
Definition timeout_duration (config : WorkerSupervisorConfig.t) : Duration :=
  option.default (from_secs 30) (from_std (WorkerSupervisorConfig.heartbeat_timeout config)).

(** A difference of times that is negative is no [Duration], and less than one. *)
(** src: crates/server/application/src/workers/actor.rs 390-416 WorkerSupervisor::check_heartbeat_timeouts (test) *)
Definition timed_out (config : WorkerSupervisorConfig.t) (now : DateTime) (w : WorkerActorState.t) : bool :=
  match WorkerActorState.last_heartbeat w with
  | Some last_heartbeat =>
      match to_std (signed_duration_since now last_heartbeat) with
      | Some elapsed => timeout_duration config <? elapsed
      | None => false
      end
  | None => false
  end.

Definition timed_out_workers (config : WorkerSupervisorConfig.t) (now : DateTime) (s : t) : list WorkerId :=
  (base.filter (fun p => timed_out config now p.2 = true) (map_entries (registry s))).*1.

(** src: crates/server/application/src/workers/actor.rs 376-431 WorkerSupervisor::check_heartbeat_timeouts *)
Definition check_heartbeat_timeouts (config : WorkerSupervisorConfig.t) (now : DateTime)
    (p : t * WorkerSupervisorMetrics.t) : t * WorkerSupervisorMetrics.t :=
  let late := timed_out_workers config now p.1 in
  let (s, metrics) := foldl (fun p (_ : WorkerId) =>
    (p.1 <| timeouts_count := u64_add (timeouts_count p.1) 1 |>,
     WorkerSupervisorMetrics.record_timeout p.2)) p late in
  (foldl (fun s i => after (handle_disconnect i DisconnectionReason.HeartbeatTimeout) s) s late, metrics).

End supervisor.
End WorkerSupervisor.

(** ** The actor among those who use it *)

(** A bounded channel to a worker, and whether its receiver is still there. *)
Module Mailbox.
Record t := mk { queue : list WorkerMsg.t; capacity : nat; open : bool }.
#[global] Instance t_rebuild : Rebuild t := fun b => mk (queue b) (capacity b) (open b).

(** What sending does: [None] is to wait. *)
Definition send (m : WorkerMsg.t) (b : t) : option (t * bool) :=
  if negb (open b) then Some (b, false)
  else if bool_decide (length (queue b) < capacity b)%nat
  then Some (b <| queue := queue b ++ [m] |>, true)
  else None.
End Mailbox.

Module ActorSystem.
Section system.
Context `{E : Externs} `{!MapOrder}.
Import WorkerSupervisor.

Inductive Phase :=
  | Idle (s : ActorState.t)
  | Working (m : SupervisorMsg.t) (a : Action)
  | Stopped.

(** [arrived] is the history of the inbox: every message that was ever put
    there, in order. *)
Record t := mk {
  inbox : list SupervisorMsg.t;
  phase : Phase;
  metrics : WorkerSupervisorMetrics.t;
  boxes : gmap nat Mailbox.t;
  answers : list (nat * Reply.t);
  arrived : list SupervisorMsg.t;
}.

#[global] Instance t_rebuild : Rebuild t := fun s =>
  mk (inbox s) (phase s) (metrics s) (boxes s) (answers s) (arrived s).

(** What can happen: a message arrives, the actor takes one, sends to a worker or
    ends its message; a channel is made, its worker reads from it or drops it; the
    actor sees the signal to shut down, or that nobody has its inbox any more. *)
Inductive Label :=
  | Arrives (m : SupervisorMsg.t)
  | Takes (fresh : Uuid) (now : DateTime)
  | Sends
  | Answers (now : DateTime)
  | Opens (c : nat) (capacity : nat)
  | Reads (c : nat)
  | Drops (c : nat)
  | Stops.

Context (config : WorkerSupervisorConfig.t).

(** src: crates/server/application/src/workers/actor.rs 269-281 WorkerSupervisor::new *)
Definition new : t :=
  mk [] (Idle ActorState.new) WorkerSupervisorMetrics.default ∅ [] [].

(** The end of a turn of the loop. *)
(** src: crates/server/application/src/workers/actor.rs 321-348 WorkerSupervisor::run_with_heartbeat_check *)
Definition end_turn (now : DateTime) (p : ActorState.t * WorkerSupervisorMetrics.t) :
    ActorState.t * WorkerSupervisorMetrics.t :=
  let p := (p.1, WorkerSupervisorMetrics.dec_mailbox_size p.2) in
  if WorkerSupervisorConfig.heartbeat_timeout_tracking config
  then check_heartbeat_timeouts config now p else p.

(** A channel that is sent on there is. *)
Definition can_send (m : SupervisorMsg.t) (s : t) : bool :=
  match m with
  | SupervisorMsg.SetWorkerChannel _ c _ => bool_decide (is_Some (boxes s !! c))
  | _ => true
  end.

(** src: crates/server/application/src/workers/actor.rs 300-374 WorkerSupervisor::run (loops) *)
Definition fire (l : Label) (s : t) : option t :=
  match l, phase s with
  | Arrives m, (Idle _ | Working _ _) =>
      if bool_decide (length (inbox s) < WorkerSupervisorConfig.inbox_capacity config)%nat && can_send m s
      then Some (s <| inbox := inbox s ++ [m] |> <| arrived := arrived s ++ [m] |>)
      else None
  | Takes fresh now, Idle st =>
      match inbox s with
      | m :: rest =>
          Some (s <| inbox := rest |> <| phase := Working m (handle_message fresh now m st) |>
                  <| metrics := WorkerSupervisorMetrics.inc_mailbox_size (metrics s) |>)
      | [] => None
      end
  | Sends, Working m (Sending c message next) =>
      box ← boxes s !! c;
      '(box, sent) ← Mailbox.send message box;
      Some (s <| boxes := <[c := box]> (boxes s) |> <| phase := Working m (next sent) |>)
  | Answers now, Working m (Done st answer) =>
      let (st, counters) := end_turn now (st, metrics s) in
      Some (s <| phase := Idle st |> <| metrics := counters |>
              <| answers := answers s ++ [(SupervisorMsg.reply_to m, answer)] |>)
  | Stops, Idle _ => Some (s <| phase := Stopped |>)
  | Opens c capacity, _ =>
      if bool_decide (is_Some (boxes s !! c)) then None
      else Some (s <| boxes := <[c := Mailbox.mk [] capacity true]> (boxes s) |>)
  | Reads c, _ =>
      box ← boxes s !! c;
      match Mailbox.queue box with
      | _ :: rest => Some (s <| boxes := <[c := box <| Mailbox.queue := rest |>]> (boxes s) |>)
      | [] => None
      end
  | Drops c, _ =>
      box ← boxes s !! c;
      Some (s <| boxes := <[c := box <| Mailbox.queue := [] |> <| Mailbox.open := false |>]> (boxes s) |>)
  | _, _ => None
  end.

Fixpoint fire_all (ls : list Label) (s : t) : option t :=
  match ls with
  | [] => Some s
  | l :: ls => s ← fire l s; fire_all ls s
  end.

Inductive reachable : t -> Prop :=
  | reachable_new : reachable new
  | reachable_fire l s s' : reachable s -> fire l s = Some s' -> reachable s'.

End system.
End ActorSystem.

(** ** The handle *)

(** How a request ended: the inbox was closed, no answer came, or one did. *)
Inductive exchange (A : Type) := InboxClosed | ResponseLost | Answered (a : A).
Arguments InboxClosed {A}.
Arguments ResponseLost {A}.
Arguments Answered {A} a.

Module WorkerSupervisorHandle.
Section handle.
Context `{E : Externs}.

Definition awaited {A} (lost : string) (x : exchange (SupervisorResult A)) : SupervisorResult A :=
  match x with
  | InboxClosed => Err (SupervisorError.Internal "Supervisor inbox closed")
  | ResponseLost => Err (SupervisorError.Internal lost)
  | Answered r => r
  end.

(** src: crates/server/application/src/workers/actor.rs 690-714 WorkerSupervisorHandle::register *)
Definition register : exchange (SupervisorResult WorkerActorState.t) -> SupervisorResult WorkerActorState.t :=
  awaited "Registration response lost".
(** src: crates/server/application/src/workers/actor.rs 717-732 WorkerSupervisorHandle::unregister *)
Definition unregister : exchange (SupervisorResult unit) -> SupervisorResult unit :=
  awaited "Unregister response lost".
(** src: crates/server/application/src/workers/actor.rs 735-755 WorkerSupervisorHandle::worker_disconnected *)
Definition worker_disconnected : exchange (SupervisorResult unit) -> SupervisorResult unit :=
  awaited "Disconnection response lost".
(** src: crates/server/application/src/workers/actor.rs 758-773 WorkerSupervisorHandle::heartbeat *)
Definition heartbeat : exchange (SupervisorResult unit) -> SupervisorResult unit :=
  awaited "Heartbeat response lost".
(** src: crates/server/application/src/workers/actor.rs 776-796 WorkerSupervisorHandle::send_to_worker *)
Definition send_to_worker : exchange (SupervisorResult unit) -> SupervisorResult unit :=
  awaited "Send response lost".
(** src: crates/server/application/src/workers/actor.rs 799-814 WorkerSupervisorHandle::get_worker *)
Definition get_worker : exchange (SupervisorResult WorkerActorState.t) -> SupervisorResult WorkerActorState.t :=
  awaited "GetWorker response lost".
(** src: crates/server/application/src/workers/actor.rs 817-831 WorkerSupervisorHandle::list_workers *)
Definition list_workers (x : exchange (list WorkerActorState.t)) : list WorkerActorState.t :=
  match x with Answered ws => ws | _ => [] end.
(** src: crates/server/application/src/workers/actor.rs 834-845 WorkerSupervisorHandle::get_stats *)
Definition get_stats (x : exchange WorkerStats.t) : WorkerStats.t :=
  match x with Answered s => s | _ => WorkerStats.default end.
(** src: crates/server/application/src/workers/actor.rs 848-868 WorkerSupervisorHandle::set_worker_channel *)
Definition set_worker_channel : exchange (SupervisorResult unit) -> SupervisorResult unit :=
  awaited "SetChannel response lost".

End handle.
End WorkerSupervisorHandle.

(** ** Building *)

Module WorkerSupervisorBuilder.
(** A sender of shutdown signals that is given is kept; who gives it holds the
    receivers, if there are any. *)
(** src: crates/server/application/src/workers/actor.rs 1005-1008 WorkerSupervisorBuilder *)
Record t := mk { config : WorkerSupervisorConfig.t; shutdown : option nat }.

#[global] Instance t_rebuild : Rebuild t := fun b => mk (config b) (shutdown b).

(** src: crates/server/application/src/workers/actor.rs 1012-1017 WorkerSupervisorBuilder::new *)
Definition new : t := mk WorkerSupervisorConfig.default None.

(** src: crates/server/application/src/workers/actor.rs 1020-1023 WorkerSupervisorBuilder::with_config *)
Definition with_config (c : WorkerSupervisorConfig.t) (b : t) : t := b <| config := c |>.

(** src: crates/server/application/src/workers/actor.rs 1026-1029 WorkerSupervisorBuilder::with_shutdown *)
Definition with_shutdown (sender : nat) (b : t) : t := b <| shutdown := Some sender |>.

(** What is built: the capacity of the inbox, the configuration of the actor, the
    sender whose signal it waits for ([fresh], a new one) and the sender that the
    caller gets.  A channel whose sender is dropped signals its end. *)
(** src: crates/server/application/src/workers/actor.rs 1032-1045 WorkerSupervisorBuilder::build *)
Definition build (fresh : nat) (b : t) : nat * WorkerSupervisorConfig.t * nat * nat :=
  (WorkerSupervisorConfig.inbox_capacity (config b), WorkerSupervisorConfig.default, fresh,
   option.default fresh (shutdown b)).
End WorkerSupervisorBuilder.

(** ** What the actor promises

    The ledger has, for every worker that is registered, its status, its last
    heartbeat and the channel on which messages reach it.  A request is answered
    from the ledger and from what the channels took, and changes it at once. *)

Module Ledger.
Section ledger.
Context `{E : Externs} `{!MapOrder}.

Record entry := mk { status : WorkerState.t; last_heartbeat : option DateTime; channel : option nat }.

Inductive verdict :=
  | Accepted (s : option WorkerState.t)
  | Refused (e : SupervisorError.t)
  | Listing (ids : gset WorkerId)
  | Counted (n : nat)
  | Down.

Definition verdict_of (r : Reply.t) : verdict :=
  match r with
  | Reply.Worker (Ok w) => Accepted (Some (WorkerActorState.status w))
  | Reply.Unit (Ok _) => Accepted None
  | Reply.Worker (Err e) | Reply.Unit (Err e) => Refused e
  | Reply.Workers ws => Listing (list_to_set (WorkerActorState.worker_id <$> ws))
  | Reply.Stats s => Counted (WorkerStats.total s)
  | Reply.Down => Down
  end.

(** A change of the entry of a worker that is registered. *)
Definition known (i : WorkerId) (f : entry -> entry) (l : gmap WorkerId entry) :
    gmap WorkerId entry * verdict :=
  if bool_decide (is_Some (l !! i)) then (alter f i l, Accepted None)
  else (l, Refused (SupervisorError.WorkerNotFound i)).

Definition gone (e : entry) : entry := mk WorkerState.Terminated (last_heartbeat e) None.

(** [delivered] is whether the channel took what was sent. *)
Definition promised (now : DateTime) (delivered : bool) (m : SupervisorMsg.t) (l : gmap WorkerId entry) :
    gmap WorkerId entry * verdict :=
  match m with
  | SupervisorMsg.Register i _ _ _ _ =>
      if bool_decide (is_Some (l !! i)) then (l, Refused (SupervisorError.WorkerAlreadyRegistered i))
      else (<[i := mk WorkerState.Creating None None]> l, Accepted (Some WorkerState.Creating))
  | SupervisorMsg.Unregister i _ =>
      if bool_decide (is_Some (l !! i)) then (base.delete i l, Accepted None)
      else (l, Refused (SupervisorError.WorkerNotFound i))
  | SupervisorMsg.WorkerDisconnected i _ _ => known i gone l
  | SupervisorMsg.Heartbeat i _ => known i (fun e => mk WorkerState.Ready (Some now) (channel e)) l
  | SupervisorMsg.SendToWorker i _ _ =>
      (l, match l !! i ≫= channel with
          | Some _ => if delivered then Accepted None else Refused (SupervisorError.ChannelClosed i)
          | None => Refused (SupervisorError.WorkerNotFound i)
          end)
  | SupervisorMsg.GetWorker i _ =>
      (l, match l !! i with
          | Some e => Accepted (Some (status e))
          | None => Refused (SupervisorError.WorkerNotFound i)
          end)
  | SupervisorMsg.ListWorkers f _ =>
      (l, Listing (dom (base.filter (fun p : WorkerId * entry =>
            WorkerSupervisor.has_status f (status p.2) = true) l)))
  | SupervisorMsg.GetWorkerStats _ => (l, Counted (size l))
  | SupervisorMsg.SetWorkerChannel i c _ =>
      known i (fun e => mk WorkerState.Ready (last_heartbeat e) (Some c)) l
  | SupervisorMsg.Shutdown _ => (∅, Down)
  end.

(** What a message makes the actor send, and where. *)
Definition sending (m : SupervisorMsg.t) (l : gmap WorkerId entry) : list (nat * WorkerMsg.t) :=
  match m with
  | SupervisorMsg.SendToWorker i message _ =>
      match l !! i ≫= channel with Some c => [(c, message)] | None => [] end
  | SupervisorMsg.Shutdown _ =>
      (fun c => (c, WorkerMsg.Terminate "Server shutdown")) <$> map_values (omap channel l)
  | _ => []
  end.

(** Whoever has been silent for longer than the configured time is gone; a time
    that chrono cannot hold is 30 seconds. *)
Definition patience (config : WorkerSupervisorConfig.t) : Duration :=
  match from_std (WorkerSupervisorConfig.heartbeat_timeout config) with
  | Some d => d
  | None => from_secs 30
  end.

Definition silent (config : WorkerSupervisorConfig.t) (now : DateTime) (e : entry) : bool :=
  match last_heartbeat e ≫= fun h => to_std (signed_duration_since now h) with
  | Some elapsed => patience config <? elapsed
  | None => false
  end.

Definition expire (config : WorkerSupervisorConfig.t) (now : DateTime) (l : gmap WorkerId entry) :
    gmap WorkerId entry :=
  if WorkerSupervisorConfig.heartbeat_timeout_tracking config
  then (fun e => if silent config now e then gone e else e) <$> l else l.

(** A turn: the message, what was sent for it, where, and whether it was taken, and
    the times of its handling and of the check after it. *)
Record turn := Turn {
  message : SupervisorMsg.t;
  sends : list (nat * WorkerMsg.t * bool);
  handled : DateTime;
  checked : DateTime;
}.

Definition taken (sends : list (nat * WorkerMsg.t * bool)) : bool := forallb snd sends.

(** The ledger after the turns, the answers, and what is sent in each turn. *)
Fixpoint serve (config : WorkerSupervisorConfig.t) (turns : list turn) (l : gmap WorkerId entry) :
    gmap WorkerId entry * list (nat * verdict) * list (list (nat * WorkerMsg.t)) :=
  match turns with
  | [] => (l, [], [])
  | u :: turns =>
      let out := sending (message u) l in
      let (l, v) := promised (handled u) (taken (sends u)) (message u) l in
      let '(l, vs, outs) := serve config turns (expire config (checked u) l) in
      (l, (SupervisorMsg.reply_to (message u), v) :: vs, out :: outs)
  end.

(** The ledger of a state of the actor. *)
Definition of_state (s : ActorState.t) : gmap WorkerId entry :=
  map_imap (fun i w => Some (mk (WorkerActorState.status w) (WorkerActorState.last_heartbeat w)
    (ActorState.worker_channels s !! i))) (ActorState.registry s).

End ledger.
End Ledger.

(** ** Theorems *)

Section ledgers.
Context `{E : Externs} `{!MapOrder}.
Import ActorState WorkerSupervisor Ledger.

(** Workers are registered under their identifiers, and those with a channel are
    registered and ready. *)
Definition sound (s : ActorState.t) : Prop :=
  (forall i w, registry s !! i = Some w -> WorkerActorState.worker_id w = i) /\
  (forall i c, worker_channels s !! i = Some c ->
     exists w, registry s !! i = Some w /\ WorkerActorState.status w = WorkerState.Ready).

Lemma lookup_ledger s i : of_state s !! i =
  (fun w => mk (WorkerActorState.status w) (WorkerActorState.last_heartbeat w)
    (worker_channels s !! i)) <$> registry s !! i.
Proof. unfold of_state. rewrite map_lookup_imap. by destruct (registry s !! i). Qed.

Lemma registered_ledger s i : is_Some (of_state s !! i) <-> is_Some (registry s !! i).
Proof. rewrite lookup_ledger. apply fmap_is_Some. Qed.

Lemma decide_registered s i :
  bool_decide (is_Some (of_state s !! i)) = bool_decide (is_Some (registry s !! i)).
Proof. apply bool_decide_ext, registered_ledger. Qed.

(** Where an action can end, and what has been sent, and taken, by then. *)
Inductive leaf : Action -> list (nat * WorkerMsg.t * bool) -> ActorState.t -> Reply.t -> Prop :=
  | leaf_done s r : leaf (Done s r) [] s r
  | leaf_sending c m next b out s r : leaf (next b) out s r -> leaf (Sending c m next) ((c, m, b) :: out) s r.

(** Two ledgers are compared entry by entry. *)
Ltac ledgers :=
  apply map_eq; intros j; repeat first
    [rewrite lookup_ledger | rewrite lookup_fmap | rewrite lookup_alter | rewrite lookup_insert
    |rewrite lookup_delete | progress simpl].

(** A change of one entry. *)
Lemma with_worker_known i f g (s : ActorState.t) (channels : gmap WorkerId nat) :
  (forall w, g (mk (WorkerActorState.status w) (WorkerActorState.last_heartbeat w)
       (worker_channels s !! i)) =
     mk (WorkerActorState.status (f w)) (WorkerActorState.last_heartbeat (f w))
       (channels !! i)) ->
  (forall j, j <> i -> channels !! j = worker_channels s !! j) ->
  alter g i (of_state s) =
    of_state (s <| registry := alter f i (registry s) |> <| worker_channels := channels |>).
Proof.
  intros Hg Hch. ledgers. case_decide as Hij.
  - rewrite <- Hij. destruct (registry s !! i) as [w|]; simpl; [|done]. by rewrite Hg.
  - rewrite Hch by congruence. by destruct (registry s !! j).
Qed.

(** The same, with the answer. *)
Lemma with_worker_spec i f g (s s0 : ActorState.t) :
  registry s0 = registry s ->
  (forall w, g (mk (WorkerActorState.status w) (WorkerActorState.last_heartbeat w)
       (worker_channels s !! i)) =
     mk (WorkerActorState.status (f w)) (WorkerActorState.last_heartbeat (f w))
       (worker_channels s0 !! i)) ->
  (forall j, j <> i -> worker_channels s0 !! j = worker_channels s !! j) ->
  let (s', r) := with_worker i f s0 in
  known i g (of_state s) = (of_state s', verdict_of (Reply.Unit r)).
Proof.
  intros Hreg Hg Hch. unfold with_worker, self, known, mbind, method_bind. cbn.
  rewrite decide_registered, <- Hreg.
  destruct (bool_decide_reflect (is_Some (registry s0 !! i))) as [Hi|Hi]; cbn; f_equal.
  - rewrite (with_worker_known i f g s (worker_channels s0) Hg Hch).
    unfold of_state. simpl. by rewrite Hreg.
  - ledgers. rewrite Hreg. destruct (decide (j = i)) as [->|Hne].
    + rewrite Hreg in Hi. apply eq_None_not_Some in Hi. by rewrite Hi.
    + by rewrite Hch.
Qed.

(** *** Queries *)

Lemma elem_of_entries s w : w ∈ entries s <-> exists i, registry s !! i = Some w.
Proof. apply elem_of_map_values. Qed.

Lemma listed_workers f s : sound s ->
  dom (base.filter (fun p : WorkerId * entry => has_status f (status p.2) = true) (of_state s)) =
    list_to_set (C := gset WorkerId) (WorkerActorState.worker_id <$> handle_list_workers f s).
Proof.
  intros [Hid _]. apply set_eq. intros i. rewrite elem_of_dom, elem_of_list_to_set, list_elem_of_fmap.
  unfold handle_list_workers. split.
  - intros [e He]. apply map_lookup_filter_Some in He as [He Hst]. rewrite lookup_ledger in He.
    destruct (registry s !! i) as [w|] eqn:Hw; [|done]. injection He as <-. exists w.
    split; [symmetry; by apply Hid|]. apply list_elem_of_filter. split; [done|].
    apply elem_of_entries. by exists i.
  - intros (w & -> & [Hst Hin]%list_elem_of_filter). apply elem_of_entries in Hin as (i & Hi).
    rewrite (Hid i w Hi). eexists. apply map_lookup_filter_Some. rewrite lookup_ledger, Hi. by split.
Qed.

Lemma increments_total ws st : WorkerStats.total
  (foldl (fun stats w => WorkerStats.increment (WorkerActorState.status w) stats) st ws) =
  (WorkerStats.total st + length ws)%nat.
Proof. revert st. induction ws as [|w ws IH]; intros st; simpl; [lia|]. rewrite IH. simpl. lia. Qed.

Lemma counted_workers s : size (of_state s) = WorkerStats.total (handle_get_stats s).
Proof.
  unfold handle_get_stats. rewrite increments_total. unfold entries. simpl.
  rewrite map_values_perm, length_fmap.
  rewrite <- !size_dom. assert (dom (of_state s) = dom (registry s)) as ->.
  { apply set_eq. intros i. rewrite !elem_of_dom. apply registered_ledger. }
  rewrite size_dom. by rewrite length_map_to_list.
Qed.

(** *** Messages *)

Lemma leaf_done_inv s r out s' r' : leaf (Done s r) out s' r' -> s' = s /\ r' = r /\ out = [].
Proof. by inversion 1. Qed.

Lemma leaf_at_once {A} answer (m : method ActorState.t SupervisorError.t A) s out s' r :
  leaf (at_once answer m s) out s' r -> s' = after m s /\ r = answer (returns m s) /\ out = [].
Proof.
  unfold at_once, after, returns. destruct (m s) as [s1 r1]. apply leaf_done_inv.
Qed.

Lemma leaf_send_all message cs s r out s' r' : leaf (send_all message cs (Done s r)) out s' r' ->
  s' = s /\ r' = r /\ out.*1 = (fun c => (c, message)) <$> cs.
Proof.
  revert out. induction cs as [|c cs IH]; intros out; simpl.
  - by intros (-> & -> & ->)%leaf_done_inv.
  - inversion 1 as [|? ? ? b out' ? ? Hl]; subst. apply IH in Hl as (-> & -> & Hout).
    split_and!; [done|done|]. exact (f_equal (cons (c, message)) Hout).
Qed.

(** What an operation without waiting has to do with the ledger. *)
Definition keeps_promise {A} (answer : SupervisorResult A -> Reply.t) (m : method ActorState.t SupervisorError.t A)
    (promise : gmap WorkerId entry -> gmap WorkerId entry * verdict) (s : ActorState.t) : Prop :=
  promise (of_state s) = (of_state (after m s), verdict_of (answer (returns m s))).

Lemma register_ledger fresh now i p h sp n d s : sound s ->
  keeps_promise Reply.Worker (handle_register fresh now i p h sp)
    (promised now d (SupervisorMsg.Register i p h sp n)) s.
Proof.
  intros Hs. unfold keeps_promise, handle_register, self, mbind, method_bind, after, returns. cbn.
  rewrite decide_registered. case_bool_decide as Hi; cbn; [done|]. f_equal. ledgers.
  case_decide as Hij; [|done]. simpl. destruct (worker_channels s !! j) as [c|] eqn:Hc; [|done].
  destruct Hi. rewrite Hij. destruct (proj2 Hs _ _ Hc) as (w & Hw & _). by exists w.
Qed.

Lemma unregister_ledger now i n d s :
  keeps_promise Reply.Unit (handle_unregister i) (promised now d (SupervisorMsg.Unregister i n)) s.
Proof.
  unfold keeps_promise, handle_unregister, self, mbind, method_bind, after, returns. cbn.
  rewrite decide_registered. destruct (bool_decide_reflect (is_Some (registry s !! i))) as [Hi|Hi];
    cbn; f_equal; ledgers; repeat case_decide; try done; subst.
  apply eq_None_not_Some in Hi. by rewrite Hi.
Qed.

Lemma with_worker_promise i f g channels (m : method ActorState.t SupervisorError.t unit) now d msg s :
  promised now d msg = known i g ->
  (forall w, g (mk (WorkerActorState.status w) (WorkerActorState.last_heartbeat w)
       (worker_channels s !! i)) =
     mk (WorkerActorState.status (f w)) (WorkerActorState.last_heartbeat (f w))
       (channels !! i)) ->
  (forall j, j <> i -> channels !! j = worker_channels s !! j) ->
  (let (s', r) := with_worker i f (s <| worker_channels := channels |>) in
   of_state (after m s) = of_state s' /\ returns m s = r) ->
  keeps_promise Reply.Unit m (promised now d msg) s.
Proof.
  intros Hp Hg Hch Hm. unfold keeps_promise. rewrite Hp.
  pose proof (with_worker_spec i f g s (s <| worker_channels := channels |>) eq_refl Hg Hch) as Hspec.
  destruct (with_worker i f _) as [s' r]. destruct Hm as [-> ->]. done.
Qed.

Lemma disconnect_ledger now i why d n s :
  keeps_promise Reply.Unit (handle_disconnect i why) (promised now d (SupervisorMsg.WorkerDisconnected i why n)) s.
Proof.
  apply (with_worker_promise i (fun w => w <| WorkerActorState.status := WorkerState.Terminated |>) gone
    (base.delete i (worker_channels s))); [done| | |].
  - intros w. by rewrite lookup_delete_eq.
  - intros j Hj. by rewrite lookup_delete_ne.
  - unfold handle_disconnect, mbind, method_bind, after, returns. cbn. by destruct (with_worker _ _ _).
Qed.

Lemma heartbeat_ledger now i d n s :
  keeps_promise Reply.Unit (handle_heartbeat now i) (promised now d (SupervisorMsg.Heartbeat i n)) s.
Proof.
  apply (with_worker_promise i (fun w => w <| WorkerActorState.last_heartbeat := Some now |>
    <| WorkerActorState.status := WorkerState.Ready |>)
    (fun e => mk WorkerState.Ready (Some now) (channel e)) (worker_channels s)); [done|done|done|].
  unfold handle_heartbeat, after, returns. destruct s. by destruct (with_worker _ _ _).
Qed.

Lemma set_channel_ledger now i c d n s :
  keeps_promise Reply.Unit (handle_set_channel i c) (promised now d (SupervisorMsg.SetWorkerChannel i c n)) s.
Proof.
  destruct (registry s !! i) as [w|] eqn:Hi.
  - apply (with_worker_promise i (fun w => w <| WorkerActorState.status := WorkerState.Ready |>)
      (fun e => mk WorkerState.Ready (last_heartbeat e) (Some c)) (<[i := c]> (worker_channels s))); [done| | |].
    + intros w'. by rewrite lookup_insert_eq.
    + intros j Hj. by rewrite lookup_insert_ne.
    + unfold handle_set_channel, with_worker, self, mbind, method_bind, after, returns. cbn. by rewrite Hi.
  - unfold keeps_promise, handle_set_channel, with_worker, known, self, mbind, method_bind, after, returns. cbn.
    unfold known. by rewrite decide_registered, Hi.
Qed.

Lemma get_ledger now i d n s :
  keeps_promise Reply.Worker (handle_get_worker i) (promised now d (SupervisorMsg.GetWorker i n)) s.
Proof.
  unfold keeps_promise, handle_get_worker, self, mbind, method_bind, after, returns. cbn.
  rewrite lookup_ledger. by destruct (registry s !! i).
Qed.

(** The channels of the ledger are those of the state. *)
Lemma ledger_channels s : sound s -> omap channel (of_state s) = worker_channels s.
Proof.
  intros [_ Hch]. apply map_eq. intros i. rewrite lookup_omap, lookup_ledger.
  destruct (worker_channels s !! i) as [c|] eqn:Hc.
  - by destruct (Hch i c Hc) as (w & -> & _).
  - by destruct (registry s !! i).
Qed.

Lemma ledger_channel s i : sound s -> of_state s !! i ≫= channel = worker_channels s !! i.
Proof. intros Hs. by rewrite <- (ledger_channels s Hs), lookup_omap. Qed.

Lemma send_ledger now i message n s out s' r : sound s -> leaf (handle_send_to_worker i message s) out s' r ->
  promised now (taken out) (SupervisorMsg.SendToWorker i message n) (of_state s) = (of_state s', verdict_of r) /\
  out.*1 = sending (SupervisorMsg.SendToWorker i message n) (of_state s).
Proof.
  intros Hs. unfold handle_send_to_worker. simpl. rewrite (ledger_channel s i Hs).
  destruct (worker_channels s !! i) as [c|] eqn:Hc.
  - inversion 1 as [|? ? ? sent ? ? ? Hl]; subst. apply leaf_done_inv in Hl as (-> & -> & ->).
    by destruct sent.
  - by intros (-> & -> & ->)%leaf_done_inv.
Qed.

Lemma handle_ledger fresh now m s out s' r : sound s -> leaf (handle_message fresh now m s) out s' r ->
  promised now (taken out) m (of_state s) = (of_state s', verdict_of r) /\ out.*1 = sending m (of_state s).
Proof.
  intros Hs. unfold handle_message. set (s1 := s <| messages_processed := _ |>).
  assert (sound s1) as Hs1 by exact Hs. change (of_state s) with (of_state s1). clearbody s1. clear s Hs.
  destruct m as [i p h sp n|i n|i why n|i n|i message n|i n|f n|n|i c n|n].
  - intros (-> & -> & ->)%leaf_at_once. split; [by apply register_ledger|done].
  - intros (-> & -> & ->)%leaf_at_once. split; [apply unregister_ledger|done].
  - intros (-> & -> & ->)%leaf_at_once. split; [|done].
    pose proof (disconnect_ledger now i why true n s1) as Hd. unfold keeps_promise, after, returns in *.
    by destruct (handle_disconnect i why s1).
  - intros (-> & -> & ->)%leaf_at_once. split; [apply heartbeat_ledger|done].
  - intros Hl. by apply send_ledger.
  - intros (-> & -> & ->)%leaf_at_once. split; [apply get_ledger|done].
  - intros (-> & -> & ->)%leaf_done_inv. split; [|done]. simpl. by rewrite listed_workers.
  - intros (-> & -> & ->)%leaf_done_inv. split; [|done]. simpl. by rewrite counted_workers.
  - intros (-> & -> & ->)%leaf_at_once. split; [apply set_channel_ledger|done].
  - intros (-> & -> & Hout)%leaf_send_all. split; [done|]. rewrite Hout. simpl. by rewrite ledger_channels.
Qed.

(** *** The registry and the channels *)

Lemma fewer_channels s channels : channels ⊆ worker_channels s -> sound s ->
  sound (s <| worker_channels := channels |>).
Proof. intros Hsub [Hid Hch]. split; [exact Hid|]. intros i c Hc. apply (Hch i c). by eapply lookup_weaken. Qed.

Lemma with_worker_sound i f s : sound s ->
  (forall w, WorkerActorState.worker_id (f w) = WorkerActorState.worker_id w /\
     (WorkerActorState.status (f w) = WorkerState.Ready \/ worker_channels s !! i = None)) ->
  sound (after (with_worker i f) s).
Proof.
  intros [Hid Hch] Hf. unfold with_worker, self, mbind, method_bind, after. cbn.
  case_bool_decide; [|done]. split; simpl.
  - intros j w. rewrite lookup_alter. case_decide as Hij; [|apply Hid]. subst j.
    destruct (registry s !! i) as [w0|] eqn:Hw; simpl; [|done]. intros [= <-].
    rewrite (proj1 (Hf w0)). by apply Hid.
  - intros j c Hc. rewrite lookup_alter. destruct (Hch j c Hc) as (w & Hw & Hst).
    case_decide as Hij; [|by exists w]. subst j. rewrite Hw. exists (f w). split; [done|].
    destruct (Hf w) as [_ [?|Hnone]]; [done|]. by rewrite Hnone in Hc.
Qed.

Lemma disconnect_sound i why s : sound s -> sound (after (handle_disconnect i why) s).
Proof.
  intros Hs. unfold handle_disconnect.
  change (sound (after (with_worker i (fun w => w <| WorkerActorState.status := WorkerState.Terminated |>))
    (s <| worker_channels := base.delete i (worker_channels s) |>))).
  apply with_worker_sound; [apply fewer_channels; [apply delete_subseteq|done]|].
  intros w. split; [done|right]. apply lookup_delete_eq.
Qed.

Lemma set_channel_sound i c s : sound s -> sound (after (handle_set_channel i c) s).
Proof.
  intros Hs. pose proof (with_worker_sound i (fun w => w <| WorkerActorState.status := WorkerState.Ready |>) s Hs)
    as [Hid Hch]; [by auto|].
  unfold handle_set_channel, with_worker, self, mbind, method_bind, after in *. cbn in *.
  case_bool_decide as Hi; [|done]. split; simpl; [exact Hid|]. intros j c'. rewrite lookup_insert.
  case_decide as Hij; [|apply Hch]. subst j. intros _. rewrite lookup_alter_eq.
  destruct Hi as [w ->]. by eexists.
Qed.

Lemma handle_sound fresh now m s out s' r : sound s -> leaf (handle_message fresh now m s) out s' r -> sound s'.
Proof.
  intros Hs. unfold handle_message. set (s1 := s <| messages_processed := _ |>).
  assert (sound s1) as Hs1 by exact Hs. clearbody s1. clear s Hs.
  destruct m as [i p h sp n|i n|i why n|i n|i message n|i n|f n|n|i c n|n].
  - intros (-> & _ & _)%leaf_at_once. unfold handle_register, self, mbind, method_bind, after. cbn.
    case_bool_decide as Hi; [done|]. destruct Hs1 as [Hid Hch]. split; simpl.
    + intros j w. rewrite lookup_insert. case_decide; [by intros [= <-]|]. apply Hid.
    + intros j c Hc. destruct (Hch j c Hc) as (w & Hw & Hst). exists w. split; [|done].
      rewrite lookup_insert_ne; [done|]. intros ->. apply Hi. by exists w.
  - intros (-> & _ & _)%leaf_at_once. unfold handle_unregister, self, mbind, method_bind, after. cbn.
    pose proof (fewer_channels s1 (base.delete i (worker_channels s1)) (delete_subseteq _ _) Hs1) as [Hid Hch].
    case_bool_decide; [|by split]. split; simpl.
    + intros j w. rewrite lookup_delete. case_decide; [done|]. apply Hid.
    + intros j c Hc. rewrite lookup_delete. case_decide as Hij; [|by eapply Hch].
      subst j. by rewrite lookup_delete_eq in Hc.
  - intros (-> & _ & _)%leaf_at_once. pose proof (disconnect_sound i why s1 Hs1) as Hd. unfold after in *.
    by destruct (handle_disconnect i why s1).
  - intros (-> & _ & _)%leaf_at_once. apply with_worker_sound; [done|]. intros w. split; [done|by left].
  - unfold handle_send_to_worker. destruct (worker_channels s1 !! i); [|by intros (-> & _ & _)%leaf_done_inv].
    inversion 1 as [|? ? next sent ? ? ? Hl]; subst. by apply leaf_done_inv in Hl as (-> & _ & _).
  - intros (-> & _ & _)%leaf_at_once. exact Hs1.
  - by intros (-> & _ & _)%leaf_done_inv.
  - by intros (-> & _ & _)%leaf_done_inv.
  - intros (-> & _ & _)%leaf_at_once. by apply set_channel_sound.
  - intros (-> & _ & _)%leaf_send_all. by split.
Qed.

(** *** Missing heartbeats *)

Context (config : WorkerSupervisorConfig.t).

Lemma lookup_disconnected (now : DateTime) i j s :
  of_state (after (handle_disconnect i DisconnectionReason.HeartbeatTimeout) s) !! j =
    (if decide (j = i) then gone else Datatypes.id) <$> of_state s !! j.
Proof.
  pose proof (disconnect_ledger now i DisconnectionReason.HeartbeatTimeout true 0 s) as Hd.
  unfold keeps_promise, promised, known in Hd. case_bool_decide as Hi; injection Hd as <- _.
  - rewrite lookup_alter. case_decide as Hij; case_decide; subst; try done. by rewrite option_fmap_id.
  - case_decide as Hij; [|by rewrite option_fmap_id]. subst j. apply eq_None_not_Some in Hi. by rewrite Hi.
Qed.

Lemma disconnected_spec (now : DateTime) late s : sound s ->
  let s' := foldl (fun s i => after (handle_disconnect i DisconnectionReason.HeartbeatTimeout) s) s late in
  sound s' /\
  forall j, of_state s' !! j = (if decide (j ∈ late) then gone else Datatypes.id) <$> of_state s !! j.
Proof.
  revert s. induction late as [|i late IH]; intros s Hs; simpl.
  - split; [done|]. intros j. by rewrite option_fmap_id.
  - destruct (IH (after (handle_disconnect i DisconnectionReason.HeartbeatTimeout) s)) as [Hs' Hl].
    { by apply disconnect_sound. }
    split; [done|]. intros j. rewrite Hl, (lookup_disconnected now), <- option_fmap_compose.
    clear IH Hl. case_decide as Hj; case_decide as Hi; case_decide as Hij;
      destruct (of_state s !! j); try done; exfalso; set_solver.
Qed.

Lemma elem_of_timed_out now s i :
  i ∈ timed_out_workers config now s <->
  exists w, registry s !! i = Some w /\ timed_out config now w = true.
Proof.
  unfold timed_out_workers. rewrite list_elem_of_fmap. split.
  - intros ([j w] & -> & [Ht Hin]%list_elem_of_filter). rewrite map_entries_perm in Hin.
    apply elem_of_map_to_list in Hin. by exists w.
  - intros (w & Hw & Ht). exists (i, w). split; [done|]. apply list_elem_of_filter.
    split; [done|]. rewrite map_entries_perm. by apply elem_of_map_to_list.
Qed.

(** Counting does not touch the workers. *)
Lemma counting_keeps late (p : ActorState.t * WorkerSupervisorMetrics.t) :
  let q := foldl (fun p (_ : WorkerId) =>
    (p.1 <| timeouts_count := u64_add (timeouts_count p.1) 1 |>, WorkerSupervisorMetrics.record_timeout p.2))
    p late in
  registry q.1 = registry p.1 /\ worker_channels q.1 = worker_channels p.1.
Proof.
  revert p. induction late as [|i late IH]; intros p; [done|].
  split; (etrans; [apply (IH (_, _))|done]).
Qed.

Lemma end_turn_spec now s counters : sound s ->
  let s' := (ActorSystem.end_turn config now (s, counters)).1 in
  sound s' /\ of_state s' = expire config now (of_state s).
Proof.
  intros Hs. unfold ActorSystem.end_turn, expire. simpl.
  destruct (WorkerSupervisorConfig.heartbeat_timeout_tracking config); [|done].
  unfold check_heartbeat_timeouts. simpl.
  set (p := (s, WorkerSupervisorMetrics.dec_mailbox_size counters)).
  pose proof (counting_keeps (timed_out_workers config now s) p) as [Hr Hc].
  destruct (foldl _ p _) as [s1 counters1]. simpl in *.
  assert (sound s1 /\ of_state s1 = of_state s) as [Hs1 Heq].
  { unfold sound, of_state. by rewrite Hr, Hc. }
  destruct (disconnected_spec now (timed_out_workers config now s) s1 Hs1) as [Hs2 Hl]. split; [done|].
  apply map_eq. intros j. rewrite Hl, Heq, lookup_fmap, lookup_ledger.
  destruct (registry s !! j) as [w|] eqn:Hw; simpl; [|done].
  assert (silent config now (mk (WorkerActorState.status w) (WorkerActorState.last_heartbeat w)
    (worker_channels s !! j)) = timed_out config now w) as ->.
  { unfold silent, timed_out. simpl. by destruct (WorkerActorState.last_heartbeat w). }
  destruct (timed_out config now w) eqn:Ht; case_decide as Hin; try done.
  - destruct Hin. apply elem_of_timed_out. by exists w.
  - apply elem_of_timed_out in Hin as (w' & Hw' & Ht'). congruence.
Qed.

End ledgers.

(** ** The system *)

Section systems.
Context `{E : Externs} `{!MapOrder} (config : WorkerSupervisorConfig.t).
Import ActorSystem WorkerSupervisor Ledger.

Definition current (s : ActorSystem.t) : list SupervisorMsg.t :=
  match phase s with Working m _ => [m] | _ => [] end.

(** What is seen of a run from outside: the messages that the actor takes, at which
    time; what its channels are given, and whether they take it; and the ends of its
    turns, at which time. *)
Record past := Past { turns : list turn; since : DateTime; given : list (nat * WorkerMsg.t * bool) }.

Definition observe (l : Label) (s : ActorSystem.t) (h : past) : past :=
  match l, phase s with
  | Takes _ now, _ => Past (turns h) now []
  | Sends, Working _ (Sending c message _) =>
      Past (turns h) (since h)
        (given h ++ [(c, message, default false (Mailbox.open <$> boxes s !! c))])
  | Answers now, Working m _ => Past (turns h ++ [Turn m (given h) (since h) now]) (since h) []
  | _, _ => h
  end.

Fixpoint observed (ls : list Label) (s : ActorSystem.t) (h : past) : past :=
  match ls with
  | [] => h
  | l :: ls =>
      match fire config l s with
      | Some s' => observed ls s' (observe l s h)
      | None => h
      end
  end.

(** What the actor has done so far, and what it is about to do. *)
Definition follows (s : ActorSystem.t) (h : past) : Prop :=
  let '(l, vs, outs) := serve config (turns h) ∅ in
  (message <$> turns h) ++ current s ++ inbox s = arrived s /\
  prod_map Datatypes.id verdict_of <$> answers s = vs /\
  (fun u => (sends u).*1) <$> turns h = outs /\
  match phase s with
  | Idle st => sound st /\ of_state st = l
  | Working m a => forall out st r, leaf a out st r ->
      sound st /\ promised (since h) (taken (given h ++ out)) m l = (of_state st, verdict_of r) /\
      (given h ++ out).*1 = sending m l
  | Stopped => True
  end.

Lemma serve_snoc turns u l :
  serve config (turns ++ [u]) l =
    (let '(l1, vs, outs) := serve config turns l in
     let (l2, v) := promised (handled u) (taken (sends u)) (message u) l1 in
     (expire config (checked u) l2, vs ++ [(SupervisorMsg.reply_to (message u), v)],
      outs ++ [sending (message u) l1])).
Proof.
  revert l. induction turns as [|u' turns IH]; intros l; simpl.
  - by destruct (promised _ _ _ _).
  - destruct (promised _ _ _ l) as [l1 v1]. rewrite IH. destruct (serve config turns _) as [[l2 vs] outs].
    by destruct (promised _ _ _ l2).
Qed.

Lemma send_taken message box box' sent : Mailbox.send message box = Some (box', sent) -> sent = Mailbox.open box.
Proof.
  unfold Mailbox.send. destruct (Mailbox.open box); simpl; [|by intros [= _ <-]].
  case_bool_decide; by intros [= _ <-].
Qed.

Lemma answers_follows now m st r s h s' : phase s = Working m (Done st r) -> follows s h ->
  fire config (Answers now) s = Some s' -> follows s' (observe (Answers now) s h).
Proof.
  unfold follows, current. simpl. intros Hp. rewrite Hp. simpl. rewrite serve_snoc. simpl.
  destruct (serve config (turns h) ∅) as [[l vs] outs]. intros (Hmsg & Hans & Hout & Hleaf).
  destruct (Hleaf [] st r (leaf_done st r)) as (Hst & Hd & Ho). rewrite app_nil_r in Hd, Ho.
  destruct (end_turn_spec config now st (metrics s) Hst) as [Hst' Hl'].
  destruct (end_turn config now (st, metrics s)) as [st' counters]. intros [= <-]. simpl in *. rewrite Hd.
  split_and!; [| | |done|].
  - rewrite fmap_app, <- Hmsg. simpl. by rewrite <- app_assoc.
  - by rewrite fmap_app, Hans.
  - rewrite fmap_app, Hout. simpl. by rewrite Ho.
  - by rewrite Hl'.
Qed.

Lemma fire_follows l s s' h : follows s h -> fire config l s = Some s' -> follows s' (observe l s h).
Proof.
  intros Hs Hf. destruct l as [m|fresh now| |now|c cap|c|c|]; simpl in Hf |- *.
  - assert (follows (s <| inbox := inbox s ++ [m] |> <| arrived := arrived s ++ [m] |>) h) as Hs'.
    { unfold follows, current in *. simpl in *. destruct (serve _ _ _) as [[l vs] outs].
      destruct Hs as (Hmsg & Hrest). split; [|exact Hrest]. by rewrite <- Hmsg, !app_assoc. }
    destruct (phase s) eqn:Hp; [| |done]; (destruct (bool_decide _ && _); [|done]); injection Hf as <-;
      rewrite <- Hp; exact Hs'.
  - destruct (phase s) as [st| |] eqn:Hp; [|done..]. destruct (inbox s) as [|m rest] eqn:Hi; [done|].
    injection Hf as <-. unfold follows, current in *. simpl. rewrite Hp, Hi in Hs.
    destruct (serve config (turns h) ∅) as [[l vs] outs]. destruct Hs as (Hmsg & Hans & Hout & Hst & <-).
    split_and!; [done|done|done|]. intros out st' r Hleaf. split; [by eapply handle_sound|]. by eapply handle_ledger.
  - destruct (phase s) as [|m [|c message next]|] eqn:Hp; try done.
    destruct (boxes s !! c) as [box|]; [|done]. simpl in Hf |- *.
    destruct (Mailbox.send message box) as [[box' sent]|] eqn:Hsend; [|done]. injection Hf as <-.
    apply send_taken in Hsend as ->. unfold follows, current in *. simpl. rewrite Hp in Hs.
    destruct (serve config (turns h) ∅) as [[l vs] outs]. destruct Hs as (Hmsg & Hans & Hout & Hleaf).
    split_and!; [done|done|done|]. intros out st r Hl. rewrite <- app_assoc. by apply Hleaf, leaf_sending.
  - destruct (phase s) as [|m [st r|]|] eqn:Hp; try done.
    pose proof (answers_follows now m st r s h s' Hp Hs) as Ha. simpl in Ha. rewrite Hp in Ha. by apply Ha.
  - case_bool_decide; [done|]. injection Hf as <-. exact Hs.
  - destruct (boxes s !! c) as [box|]; [|done]. simpl in Hf.
    destruct (Mailbox.queue box); [done|]. injection Hf as <-. exact Hs.
  - destruct (boxes s !! c) as [box|]; [|done]. injection Hf as <-. exact Hs.
  - destruct (phase s) eqn:Hp; [|done..]. injection Hf as <-. unfold follows, current in *. rewrite Hp in Hs.
    destruct (serve config (turns h) ∅) as [[l vs] outs]. naive_solver.
Qed.

Lemma observed_follows ls s s' h : follows s h -> fire_all config ls s = Some s' -> follows s' (observed ls s h).
Proof.
  revert s h. induction ls as [|l ls IH]; intros s h Hs; simpl; [by intros [= <-]|].
  destruct (fire config l s) as [s1|] eqn:Hf; [|done]. simpl. apply IH. by eapply fire_follows.
Qed.

(** C20: the supervisor serves its inbox in order, one message after the other, and
    keeps what the ledger promises.  Take any interleaving of those who send messages,
    of the workers who read theirs and of the actor, and what is seen of it from
    outside: the messages taken and when, what the channels of the workers were given
    and whether they took it, and when each turn ended.  The messages that were
    handled, the one that is being handled and those that wait are, in this order, all
    that ever arrived.  The answers that were given, what was sent for each message
    and to which channel, and the workers between two messages, are those of serving
    the handled messages one by one, at those times, from an empty ledger, where at the
    end of each turn, if heartbeats are tracked, whoever's last heartbeat is older than
    the configured time is gone. *)
Theorem actor_keeps_its_promises ls s (start : DateTime) : fire_all config ls ActorSystem.new = Some s ->
  let seen := turns (observed ls ActorSystem.new (Past [] start [])) in
  let '(ledger, verdicts, outs) := serve config seen ∅ in
  (message <$> seen) ++ current s ++ inbox s = arrived s /\
  prod_map Datatypes.id verdict_of <$> answers s = verdicts /\
  (fun u => (sends u).*1) <$> seen = outs /\
  (forall st, phase s = Idle st -> of_state st = ledger).
Proof.
  intros Hf seen. assert (follows s (observed ls ActorSystem.new (Past [] start []))) as Hs.
  { eapply observed_follows; [|exact Hf]. by split_and!. }
  unfold follows in Hs. fold seen in Hs. destruct (serve config seen ∅) as [[l vs] outs].
  destruct Hs as (Hmsg & Hans & Hout & Hph). split_and!; [done..|]. intros st Hst. rewrite Hst in Hph. apply Hph.
Qed.

(** *** A full channel *)

(** The actor waits for room in a channel. *)
Definition stalled (s : ActorSystem.t) (c : nat) : Prop :=
  exists m message next box, phase s = Working m (Sending c message next) /\ boxes s !! c = Some box /\
    Mailbox.open box = true /\ (Mailbox.capacity box <= length (Mailbox.queue box))%nat.

Definition is_stalled (s : ActorSystem.t) (c : nat) : bool :=
  match phase s, boxes s !! c with
  | Working _ (Sending c' _ _), Some box =>
      bool_decide (c' = c) && Mailbox.open box &&
      bool_decide (Mailbox.capacity box <= length (Mailbox.queue box))%nat
  | _, _ => false
  end.

Lemma is_stalled_spec s c : is_stalled s c = true -> stalled s c.
Proof.
  unfold is_stalled, stalled. destruct (phase s) as [|m [|c' message next]|]; try done.
  destruct (boxes s !! c) as [box|]; [|done].
  intros [[<-%bool_decide_eq_true Ho]%andb_prop Hfull%bool_decide_eq_true]%andb_prop.
  by exists m, message, next, box.
Qed.

Lemma stalled_send s c : stalled s c -> fire config Sends s = None.
Proof.
  intros (m & message & next & box & Hp & Hb & Ho & Hfull). simpl. rewrite Hp, Hb. simpl.
  unfold Mailbox.send. rewrite Ho. simpl. by rewrite bool_decide_false by lia.
Qed.

Lemma stalled_elsewhere s c c' b : stalled s c -> c' <> c ->
  stalled (s <| boxes := <[c' := b]> (boxes s) |>) c.
Proof.
  intros (m & message & next & box & Hp & Hb & Hbox) Hne. exists m, message, next, box.
  split; [done|]. split; [|done]. simpl. by rewrite lookup_insert_ne.
Qed.

Lemma stalled_fire l s s' c : stalled s c -> l <> Reads c -> l <> Drops c ->
  fire config l s = Some s' -> stalled s' c /\ answers s' = answers s /\ phase s' = phase s.
Proof.
  intros Hst Hr Hd Hf. pose proof (stalled_send _ _ Hst) as Hno.
  destruct Hst as (m & message & next & box & Hp & Hb & Hbox).
  assert (stalled s c) as Hst by (exists m, message, next, box; done).
  destruct l as [m'|fresh now| |now|c' cap|c'|c'|]; simpl in Hf;
    try (rewrite Hp in Hf; done).
  - rewrite Hp in Hf. destruct (bool_decide _ && _); [|done]. injection Hf as <-. simpl. rewrite Hp. split; [|done].
    exists m, message, next, box. done.
  - simpl in Hno. congruence.
  - destruct (boxes s !! c') eqn:Hc'; [by rewrite bool_decide_true in Hf by done|].
    destruct (bool_decide _); [done|]. injection Hf as <-.
    split; [apply (stalled_elsewhere s c c'); [done|congruence]|done].
  - destruct (boxes s !! c') as [box'|]; [|done]. simpl in Hf. destruct (Mailbox.queue box'); [done|].
    injection Hf as <-. split; [apply (stalled_elsewhere s c c'); [done|congruence]|done].
  - destruct (boxes s !! c') as [box'|]; [|done]. injection Hf as <-.
    split; [apply (stalled_elsewhere s c c'); [done|congruence]|done].
Qed.

(** *** Channels are there *)

(** Every channel that is registered, that a message in the inbox carries, or that
    the actor is about to send on, is there. *)
Definition wired_state (b : gmap nat Mailbox.t) (st : ActorState.t) : Prop :=
  forall i c, ActorState.worker_channels st !! i = Some c -> is_Some (b !! c).

Fixpoint wired_action (b : gmap nat Mailbox.t) (a : Action) : Prop :=
  match a with
  | Done st _ => wired_state b st
  | Sending c _ next => is_Some (b !! c) /\ forall sent, wired_action b (next sent)
  end.

Definition wired_message (b : gmap nat Mailbox.t) (m : SupervisorMsg.t) : Prop :=
  match m with SupervisorMsg.SetWorkerChannel _ c _ => is_Some (b !! c) | _ => True end.

Definition wired (s : ActorSystem.t) : Prop :=
  Forall (wired_message (boxes s)) (inbox s) /\
  match phase s with
  | Idle st => wired_state (boxes s) st
  | Working _ a => wired_action (boxes s) a
  | Stopped => True
  end.

Lemma wired_boxes s b : (forall c, is_Some (boxes s !! c) -> is_Some (b !! c)) -> wired s ->
  wired (s <| boxes := b |>).
Proof.
  intros Hb [Hin Hph]. split; simpl.
  - eapply Forall_impl; [exact Hin|]. intros []; simpl; auto.
  - destruct (phase s) as [st|m a|]; [intros i c Hc; apply Hb; by eapply Hph| |done].
    clear Hin. induction a as [st r|c message next IH]; simpl in *.
    + intros i c Hc. apply Hb. by eapply Hph.
    + destruct Hph as [Hc Hn]. split; [auto|]. intros sent. by apply IH.
Qed.

Lemma wired_insert s c box : wired s -> wired (s <| boxes := <[c := box]> (boxes s) |>).
Proof.
  apply wired_boxes. intros c' Hc'. destruct (decide (c' = c)) as [->|]; [rewrite lookup_insert_eq; by eexists|].
  by rewrite lookup_insert_ne.
Qed.

Lemma wired_fewer b st st' :
  ActorState.worker_channels st' ⊆ ActorState.worker_channels st -> wired_state b st -> wired_state b st'.
Proof. intros Hsub Hst i c Hc. apply (Hst i c). by eapply lookup_weaken. Qed.

Lemma with_worker_channels i f st :
  ActorState.worker_channels (after (with_worker i f) st) = ActorState.worker_channels st.
Proof. unfold with_worker, self, mbind, method_bind, after. cbn. by case_bool_decide. Qed.

Lemma disconnect_channels i why st :
  ActorState.worker_channels (after (handle_disconnect i why) st) ⊆ ActorState.worker_channels st.
Proof.
  unfold handle_disconnect.
  change (ActorState.worker_channels (after (with_worker i (fun w => w <| WorkerActorState.status := WorkerState.Terminated |>))
    (st <| ActorState.worker_channels := base.delete i (ActorState.worker_channels st) |>)) ⊆
    ActorState.worker_channels st).
  rewrite with_worker_channels. apply delete_subseteq.
Qed.

Lemma wired_at_once {A} b answer (m : method ActorState.t SupervisorError.t A) st :
  wired_state b (after m st) -> wired_action b (at_once answer m st).
Proof. unfold at_once, after. by destruct (m st). Qed.

Lemma wired_send_all b message cs last : (forall c, c ∈ cs -> is_Some (b !! c)) ->
  wired_action b last -> wired_action b (send_all message cs last).
Proof.
  intros Hcs Hlast. induction cs as [|c cs IH]; simpl; [done|].
  split; [apply Hcs; by left|]. intros _. apply IH. intros c' Hc'. apply Hcs. by right.
Qed.

Lemma handle_wired b fresh now m st : wired_state b st -> wired_message b m ->
  wired_action b (handle_message fresh now m st).
Proof.
  intros Hst Hm. unfold handle_message. set (st1 := st <| ActorState.messages_processed := _ |>).
  assert (wired_state b st1) as Hs by exact Hst. clearbody st1. clear st Hst.
  destruct m as [i p h sp n|i n|i why n|i n|i message n|i n|f n|n|i c n|n].
  - apply wired_at_once. unfold handle_register, self, mbind, method_bind, after. cbn. by case_bool_decide.
  - apply wired_at_once. eapply wired_fewer; [|exact Hs].
    unfold handle_unregister, self, mbind, method_bind, after. cbn. case_bool_decide; apply delete_subseteq.
  - apply wired_at_once. eapply wired_fewer; [|exact Hs].
    pose proof (disconnect_channels i why st1) as Hd. unfold after in *. by destruct (handle_disconnect i why st1).
  - apply wired_at_once. eapply wired_fewer; [|exact Hs]. unfold handle_heartbeat. by rewrite with_worker_channels.
  - simpl. unfold handle_send_to_worker. destruct (ActorState.worker_channels st1 !! i) as [c|] eqn:Hc; [|done].
    split; [by eapply Hs|done].
  - by apply wired_at_once.
  - done.
  - done.
  - apply wired_at_once. unfold handle_set_channel, with_worker, self, mbind, method_bind, after. cbn.
    case_bool_decide; cbn; [|done]. intros j c'. simpl. rewrite lookup_insert. case_decide; [by intros [= <-]|].
    apply Hs.
  - apply wired_send_all; [|by intros i c]. intros c (i & Hi)%elem_of_map_values. by eapply Hs.
Qed.

Lemma end_turn_channels now st counters :
  ActorState.worker_channels (end_turn config now (st, counters)).1 ⊆ ActorState.worker_channels st.
Proof.
  unfold end_turn. destruct (WorkerSupervisorConfig.heartbeat_timeout_tracking config); [|done].
  unfold check_heartbeat_timeouts. simpl.
  set (p := (st, WorkerSupervisorMetrics.dec_mailbox_size counters)).
  pose proof (counting_keeps (timed_out_workers config now st) p) as [_ Hc].
  destruct (foldl _ p _) as [s1 counters1]. simpl in *. rewrite <- Hc. clear Hc p.
  generalize s1. induction (timed_out_workers config now st) as [|i late IH]; intros s2; simpl; [done|].
  etrans; [apply IH|apply disconnect_channels].
Qed.

Lemma fire_wired l s s' : wired s -> fire config l s = Some s' -> wired s'.
Proof.
  intros Hw Hf. destruct l as [m|fresh now| |now|c cap|c|c|]; simpl in Hf.
  - assert (wired_message (boxes s) m -> wired (s <| inbox := inbox s ++ [m] |>
      <| arrived := arrived s ++ [m] |>)) as Hs'.
    { intros Hm. destruct Hw as [Hin Hph]. split; [|exact Hph]. simpl. apply Forall_app. by split; [|constructor]. }
    assert (can_send m s = true -> wired_message (boxes s) m) as Hm.
    { destruct m; simpl; try done. intros Hc%bool_decide_eq_true. exact Hc. }
    destruct (phase s) eqn:Hp; [| |done]; (destruct (bool_decide _ && _) eqn:Hb; [|done]); injection Hf as <-;
      apply andb_prop in Hb as [_ Hb]; rewrite <- Hp; apply Hs', Hm, Hb.
  - unfold wired in *. destruct (phase s) as [st| |] eqn:Hp; [|done..].
    destruct (inbox s) as [|m rest] eqn:Hi; [done|]. injection Hf as <-. destruct Hw as [Hin Hst].
    apply Forall_cons in Hin as [Hm Hin]. split; [done|]. by apply handle_wired.
  - destruct (phase s) as [|m [|c message next]|] eqn:Hp; try done.
    destruct (boxes s !! c) as [box|]; [|done]. simpl in Hf.
    destruct (Mailbox.send message box) as [[box' sent]|]; [|done]. injection Hf as <-.
    assert (wired (s <| phase := Working m (next sent) |>)) as Hw'.
    { destruct Hw as [Hin Hph]. rewrite Hp in Hph. split; [exact Hin|]. apply Hph. }
    exact (wired_insert _ c box' Hw').
  - destruct (phase s) as [|m [st r|]|] eqn:Hp; try done. destruct Hw as [Hin Hph]. rewrite Hp in Hph.
    pose proof (end_turn_channels now st (metrics s)) as Hsub.
    destruct (end_turn config now (st, metrics s)) as [st' counters]. injection Hf as <-.
    split; [exact Hin|]. by eapply wired_fewer.
  - case_bool_decide; [done|]. injection Hf as <-. exact (wired_insert s c _ Hw).
  - destruct (boxes s !! c) as [box|]; [|done]. simpl in Hf. destruct (Mailbox.queue box); [done|].
    injection Hf as <-. exact (wired_insert s c _ Hw).
  - destruct (boxes s !! c) as [box|]; [|done]. injection Hf as <-. exact (wired_insert s c _ Hw).
  - destruct (phase s) eqn:Hp; [|done..]. injection Hf as <-. destruct Hw as [Hin _]. by split.
Qed.

(** *** Progress *)

Lemma fire_all_reachable ls s s' : reachable config s -> fire_all config ls s = Some s' ->
  reachable config s'.
Proof.
  revert s. induction ls as [|l ls IH]; intros s Hr Hf; simpl in Hf; [by injection Hf as <-|].
  destruct (fire config l s) as [s1|] eqn:H1; [|done]. apply (IH s1); [|done]. by eapply reachable_fire.
Qed.

Lemma reachable_wired s : reachable config s -> wired s.
Proof.
  induction 1 as [|l s s' _ IH Hf]; [|by eapply fire_wired]. split; [constructor|by intros i c].
Qed.

(** The actor takes a message, sends to a worker or ends its message. *)
Definition moves (s : ActorSystem.t) : Prop :=
  exists l s', fire config l s = Some s' /\
    match l with Takes _ _ | Sends | Answers _ => True | _ => False end.

Definition waiting (s : ActorSystem.t) : list SupervisorMsg.t :=
  current s ++ match phase s with Stopped => [] | _ => inbox s end.

Lemma moves_or_stalls (fresh : Uuid) (now : DateTime) s : wired s -> waiting s <> [] ->
  moves s \/ exists c, stalled s c.
Proof.
  intros [_ Hw] Hwait. unfold waiting, current in Hwait. unfold moves.
  destruct (phase s) as [st|m [st r|c message next]|] eqn:Hp; [| | |done].
  - destruct (inbox s) as [|m rest] eqn:Hi; [done|]. left. exists (Takes fresh now). simpl. rewrite Hp, Hi. by eexists.
  - left. exists (Answers now). simpl. rewrite Hp. destruct (end_turn _ _ _). by eexists.
  - destruct Hw as [[box Hb] _]. destruct (Mailbox.send message box) as [[box' sent]|] eqn:Hsend.
    + left. exists Sends. simpl. rewrite Hp, Hb. simpl. rewrite Hsend. by eexists.
    + right. exists c. exists m, message, next, box. unfold Mailbox.send in Hsend.
      destruct (Mailbox.open box); [|done]. simpl in Hsend. case_bool_decide; [done|]. split_and!; try done. lia.
Qed.

(** C21: the actor goes on as long as there are messages, unless it waits for room
    in the channel of one worker; and while it waits there, nobody is served: what
    ever the others do, as long as that worker neither reads nor leaves, no answer
    is given, no message taken, and no heartbeat is looked at. *)
Theorem a_full_channel_stalls_everyone (fresh : Uuid) (now : DateTime) s : reachable config s ->
  (waiting s <> [] -> moves s \/ exists c, stalled s c) /\
  (forall c ls s', stalled s c -> Reads c ∉ ls -> Drops c ∉ ls -> fire_all config ls s = Some s' ->
     stalled s' c /\ answers s' = answers s /\ phase s' = phase s).
Proof.
  intros Hr. split; [apply (moves_or_stalls fresh now), reachable_wired, Hr|].
  intros c ls. clear Hr. revert s. induction ls as [|l ls IH]; intros s s' Hst Hreads Hdrops Hf; simpl in Hf.
  - by injection Hf as <-.
  - destruct (fire config l s) as [s1|] eqn:H1; [|done].
    apply not_elem_of_cons in Hreads as [Hr Hrs]. apply not_elem_of_cons in Hdrops as [Hd Hds].
    destruct (stalled_fire l s s1 c Hst) as (Hst1 & <- & <-); [congruence|congruence|done|]. eauto.
Qed.

End systems.

(** *** Heartbeats that are missing *)

Section missing.
Context `{E : Externs} `{!MapOrder}.
Import ActorState WorkerSupervisor.

(** A worker that is late is marked as terminated and cannot be reached; it stays
    registered, so that it counts as late again after the next message, and a
    heartbeat makes it ready again, and not reachable. *)
Lemma late_workers_come_back config now later s i w : sound s -> registry s !! i = Some w ->
  timed_out config now w = true ->
  WorkerSupervisorConfig.heartbeat_timeout_tracking config = true ->
  forall counters,
  let s1 := (ActorSystem.end_turn config now (s, counters)).1 in
  let s2 := after (handle_heartbeat later i) s1 in
  (WorkerActorState.status <$> registry s1 !! i) = Some WorkerState.Terminated /\
  (WorkerActorState.status <$> registry s2 !! i) = Some WorkerState.Ready /\
  worker_channels s2 !! i = None.
Proof.
  intros Hs Hi Hlate Htrack counters s1 s2.
  destruct (end_turn_spec config now s counters Hs) as [_ Hl]. fold s1 in Hl.
  assert (Ledger.of_state s1 !! i =
    Some (Ledger.mk WorkerState.Terminated (WorkerActorState.last_heartbeat w) None)) as H1.
  { rewrite Hl. unfold Ledger.expire. rewrite Htrack, lookup_fmap, lookup_ledger, Hi. simpl.
    assert (forall b, Ledger.silent config now (Ledger.mk (WorkerActorState.status w)
      (WorkerActorState.last_heartbeat w) b) = timed_out config now w) as ->.
    { intros b. unfold Ledger.silent, timed_out. simpl. by destruct (WorkerActorState.last_heartbeat w). }
    by rewrite Hlate. }
  pose proof (heartbeat_ledger later i true 0 s1) as H2. unfold keeps_promise, Ledger.promised, Ledger.known in H2.
  rewrite H1, bool_decide_true in H2 by done. injection H2 as H2 _. fold s2 in H2.
  assert (Ledger.of_state s2 !! i =
    Some (Ledger.mk WorkerState.Ready (Some later) None)) as H3.
  { by rewrite <- H2, lookup_alter_eq, H1. }
  rewrite lookup_ledger in H1, H3.
  destruct (registry s1 !! i) as [w1|]; [|done]. destruct (registry s2 !! i) as [w2|]; [|done].
  simpl in *. injection H1 as Hst1 _ _. injection H3 as Hst2 _ Hch. split_and!; [by rewrite Hst1|by rewrite Hst2|].
  done.
Qed.

(** The statuses are counted. *)
Lemma stats_count_statuses s st :
  default 0%nat (WorkerStats.by_status (handle_get_stats s) !! WorkerState.fmt st) =
    length (filter (fun w => WorkerActorState.status w = st) (entries s)).
Proof.
  unfold handle_get_stats. set (count := fun acc : WorkerStats.t =>
    default 0%nat (WorkerStats.by_status acc !! WorkerState.fmt st)).
  assert (forall ws acc, count (foldl (fun stats w => WorkerStats.increment (WorkerActorState.status w) stats) acc ws)
    = (count acc + length (filter (fun w => WorkerActorState.status w = st) ws))%nat) as Hcount.
  { induction ws as [|w ws IH]; intros acc; simpl; [lia|]. rewrite IH, filter_cons. unfold count at 1. simpl.
    rewrite lookup_insert. case_decide as Hs; case_decide as Hw.
    - simpl. unfold count. rewrite Hs. lia.
    - destruct Hw. by destruct (WorkerActorState.status w), st.
    - destruct Hs. by rewrite Hw.
    - done. }
  apply (Hcount _ WorkerStats.default).
Qed.

(** What is configured is not what is built. *)
Lemma configuration_is_dropped fresh c b sender :
  let '(capacity, built, listened, given) := WorkerSupervisorBuilder.build fresh
    (WorkerSupervisorBuilder.with_shutdown sender (WorkerSupervisorBuilder.with_config c b)) in
  capacity = WorkerSupervisorConfig.inbox_capacity c /\ built = WorkerSupervisorConfig.default /\
  listened = fresh /\ given = sender.
Proof. done. Qed.

End missing.

(** ** Evaluation *)

Module ExampleActor.
Import ActorSystem SupervisorMsg.
#[local] Existing Instance concrete_order.

Definition config : WorkerSupervisorConfig.t := WorkerSupervisorConfig.default.
Definition at_second (n : Z) : DateTime (Externs := concrete) := from_secs n.

Definition handle (n : nat) : WorkerHandle.t (E := concrete) :=
  WorkerHandle.new (E := concrete) n "container" ProviderType.Docker 2%nat 0.
Definition spec : WorkerSpec.t (E := concrete) := WorkerSpec.new (E := concrete) "img" "srv" 1%nat.

Definition message : Type := SupervisorMsg.t (E := concrete).
Definition label : Type := Label (E := concrete).

(** A message that arrives and is handled at once. *)
Definition served (n : Z) (m : message) : list label :=
  [Arrives m; Takes (E := concrete) 0%nat (at_second n); Answers (E := concrete) (at_second n)].

(** Two workers, 3 and 4, the first with a channel for one message; worker 4 sends
    its heartbeats. *)
Definition two_workers : list label :=
  Opens 1 1 ::
  served 0 (Register (E := concrete) 3%nat 2%nat (handle 3) spec 0) ++
  served 0 (Register (E := concrete) 4%nat 2%nat (handle 4) spec 1) ++
  served 0 (SetWorkerChannel (E := concrete) 3%nat 1 2) ++
  served 1 (Heartbeat (E := concrete) 4%nat 3).

(** Two messages for worker 3, which does not read; worker 4 goes on. *)
Definition worker_3_is_busy : list label :=
  [Arrives (SendToWorker (E := concrete) 3%nat WorkerMsg.Ping 4);
   Takes (E := concrete) 0%nat (at_second 2); Sends; Answers (E := concrete) (at_second 2);
   Arrives (SendToWorker (E := concrete) 3%nat WorkerMsg.Ping 5);
   Takes (E := concrete) 0%nat (at_second 3);
   Arrives (Heartbeat (E := concrete) 4%nat 6);
   Arrives (Heartbeat (E := concrete) 4%nat 7)].

(** A message for worker 3, which leaves before the next one. *)
Definition worker_3_leaves : list label :=
  [Arrives (SendToWorker (E := concrete) 3%nat WorkerMsg.Ping 4);
   Takes (E := concrete) 0%nat (at_second 2); Sends; Answers (E := concrete) (at_second 2);
   Drops 1;
   Arrives (SendToWorker (E := concrete) 3%nat WorkerMsg.Ping 5);
   Takes (E := concrete) 0%nat (at_second 3); Sends; Answers (E := concrete) (at_second 3)].

Definition run (ls : list label) : ActorSystem.t (E := concrete) :=
  option.default ActorSystem.new (fire_all config ls ActorSystem.new).

Definition stalled_system : ActorSystem.t (E := concrete) := run (two_workers ++ worker_3_is_busy).

Definition status_of (i : nat) (s : ActorSystem.t (E := concrete)) : option WorkerState.t :=
  match phase s with
  | Idle st =>
      WorkerActorState.status (E := concrete) <$> ActorState.registry (E := concrete) st !! (i : @Uuid concrete)
  | _ => None
  end.

(** Worker 3 reads after 40 seconds: its message is delivered, and worker 4, whose
    two heartbeats have been in the inbox meanwhile, is found to be silent. *)
Example silence_of_another : status_of 4 (run (two_workers ++ worker_3_is_busy ++
    [Reads 1; Sends; Answers (E := concrete) (at_second 40)])) = Some WorkerState.Terminated.
Proof. vm_compute. reflexivity. Qed.

(** What an empty inbox does to a worker that is late: nothing. *)
Example nobody_looks : status_of 4 (run two_workers) = Some WorkerState.Ready.
Proof. vm_compute. reflexivity. Qed.

(** The actor that was shut down takes the next registration. *)
Example registered_after_shutdown : ActorSystem.answers (run
    (served 0 (Shutdown (E := concrete) 0) ++
     served 1 (Register (E := concrete) 3%nat 2%nat (handle 3) spec 1))) =
  [(0%nat, Reply.Down);
   (1%nat, Reply.Worker (Ok (WorkerActorState.new (E := concrete) 3%nat 2%nat (handle 3) spec "" (at_second 1))))].
Proof. vm_compute. reflexivity. Qed.

Definition possible (ls : list label) : bool :=
  match fire_all config ls ActorSystem.new with Some _ => true | None => false end.

Lemma run_fires ls : possible ls = true -> fire_all config ls ActorSystem.new = Some (run ls).
Proof. unfold possible, run. by destruct (fire_all config ls ActorSystem.new). Qed.

Lemma run_reachable ls : possible ls = true -> reachable config (run ls).
Proof.
  unfold possible, run. destruct (fire_all config ls ActorSystem.new) as [s|] eqn:Hs; [|done].
  intros _. eapply fire_all_reachable; [apply reachable_new|done].
Qed.
End ExampleActor.

(** Worker 3 is sent a message on its channel, and drops the channel before the
    second one: the answers are [Ok] and [ChannelClosed]. *)
Example actor_keeps_its_promises_witness :
  let ls := ExampleActor.two_workers ++ ExampleActor.worker_3_leaves in
  prod_map Datatypes.id Ledger.verdict_of <$> drop 4 (ActorSystem.answers (ExampleActor.run ls)) =
    [(4%nat, Ledger.Accepted (E := concrete) None);
     (5%nat, Ledger.Refused (SupervisorError.ChannelClosed (E := concrete) 3%nat))] /\
  (Ledger.message <$> turns (observed (H := concrete_order) ExampleActor.config ls ActorSystem.new (Past (E := concrete) [] 0 []))) ++
    current (ExampleActor.run ls) ++ ActorSystem.inbox (ExampleActor.run ls) =
    ActorSystem.arrived (ExampleActor.run ls).
Proof.
  intros ls. split; [by vm_compute|].
  assert (ActorSystem.fire_all (H := concrete_order) ExampleActor.config ls ActorSystem.new =
    Some (ExampleActor.run ls)) as Hr by (apply ExampleActor.run_fires; by vm_compute).
  pose proof (actor_keeps_its_promises (E := concrete) (H := concrete_order) ExampleActor.config ls _ 0 Hr) as Hthm.
  cbv zeta in Hthm. destruct (Ledger.serve _ _ _) as [[l vs] outs]. apply Hthm.
Defined.

Example a_full_channel_stalls_everyone_witness :
  stalled ExampleActor.stalled_system 1 /\
  forall ls s', ActorSystem.Reads 1 ∉ ls -> ActorSystem.Drops 1 ∉ ls ->
    ActorSystem.fire_all (H := concrete_order) ExampleActor.config ls ExampleActor.stalled_system = Some s' ->
    ActorSystem.answers s' = ActorSystem.answers ExampleActor.stalled_system.
Proof.
  assert (ActorSystem.reachable (H := concrete_order) ExampleActor.config
    ExampleActor.stalled_system) as Hr.
  { apply ExampleActor.run_reachable. by vm_compute. }
  assert (stalled ExampleActor.stalled_system 1) as Hst.
  { apply is_stalled_spec. by vm_compute. }
  split; [exact Hst|]. intros ls s' Hreads Hdrops Hf.
  destruct (a_full_channel_stalls_everyone (E := concrete) ExampleActor.config 0%nat 0 _ Hr) as [_ Hall].
  by destruct (Hall 1%nat ls s' Hst Hreads Hdrops Hf) as (_ & -> & _).
Defined.
