(* ===== verification/Provisioning.v ===== *)
(** * Provisioning workers
    ([crates/server/application/src/workers/provisioning_impl.rs, pulse.rs,
    termination.rs, lifecycle_facade.rs, reconciliation.rs, auto_scaling.rs],
    [crates/server/domain/src/iam/tokens.rs, workers/auto_scaling.rs],
    [crates/server/infrastructure/src/persistence/postgres/
    worker_bootstrap_token_store.rs])

    A worker that is provisioned gets a token with which it registers itself, and
    which it can use once; its container is made by a provider.  The services
    around it record heartbeats, terminate workers and decide how many there are
    to be.

    No file of the repository creates the table of the tokens: its defaults and
    constraints are parameters.  Log lines are left out. *)

From Stdlib Require Import String.
From S2P Require Import Prelude Effects Std Externs States Errors Job ProviderApi Worker Events Services Orchestrator Steps CommandOutbox Sql Outbox OutboxTable SagaTypes SagaCoordinators ProviderConfigs ProviderRegistry AppServices JobStore JobUseCases FailureHandlers WorkerStore WorkerUpkeep ProvisioningCommands.

(** ** Tokens *)

Module OtpToken.
Section token.
Context `{E : Externs}.

(** src: crates/server/domain/src/iam/tokens.rs 10-10 OtpToken *)
Definition t : Type := Uuid.

(** src: crates/server/domain/src/iam/tokens.rs 25-27 OtpToken::fmt *)
Definition fmt (token : t) : string := uuid_to_string token.

(** src: crates/server/domain/src/iam/tokens.rs 33-38 OtpToken::from_str *)
Definition from_str (s : string) : Prelude.result DomainError.t t :=
  ok_or (uuid_parse_str s) (DomainError.InvalidOtpToken "OTP token must be a UUID").

End token.
End OtpToken.

(** src: crates/server/domain/src/iam/tokens.rs 42-48 WorkerBootstrapTokenStore *)
Class WorkerBootstrapTokenStore `{E : Externs} (W : Type) := {
  issue_token : WorkerId -> Duration -> method W DomainError.t OtpToken.t;
  consume_token : OtpToken.t -> WorkerId -> method W DomainError.t unit;
  cleanup_expired_tokens : method W DomainError.t nat;
}.

Module TokenRow.
Section row.
Context `{E : Externs}.
(** src: crates/server/infrastructure/src/persistence/postgres/worker_bootstrap_token_store.rs 54-57 PostgresWorkerBootstrapTokenStore::issue (row) *)
Record t := mk {
  token : Uuid;
  worker_id : WorkerId;
  expires_at : DateTime;
  consumed_at : option DateTime;
}.
#[global] Instance t_rebuild : Rebuild t := fun r => mk (token r) (worker_id r) (expires_at r) (consumed_at r).
End row.
End TokenRow.

(** The table, what it has in a column that is not given, the rows it refuses next
    to others, and [t + d] of the clock's library. *)
Class TokenDatabase `{E : Externs} (W : Type) := {
  tokens_table :: Table W TokenRow.t;
  default_consumed : option DateTime;
  refused_token : list TokenRow.t -> TokenRow.t -> option string;
  later_by : DateTime -> Duration -> DateTime;
}.

Abbreviation token_rows := (table_rows (Row := TokenRow.t)).

Class TokenDatabaseLaws `{E : Externs} (W : Type) `{!TokenDatabase W} : Prop := {
  tokens_table_laws :: TableLaws W TokenRow.t;
  token_is_new : default_consumed = None;
}.

Module PostgresWorkerBootstrapTokenStore.
Section store.
Context `{E : Externs} {W : Type} `{!TokenDatabase W} `{!Ambient W}.
Import TokenRow.

Definition insert_row (r : t) (_ : DateTime) (rows : list t) : Prelude.result string (list t) :=
  match refused_token rows r with Some m => Err m | None => Ok (rows ++ [r]) end.

(** A lifetime that is out of range is none. *)
(** src: crates/server/infrastructure/src/persistence/postgres/worker_bootstrap_token_store.rs 49-70 PostgresWorkerBootstrapTokenStore::issue *)
Definition issue (worker : WorkerId) (ttl : Duration) : method W DomainError.t OtpToken.t :=
  fresh ← calling draw_uuid;
  now ← calling read_utc;
  let expires := later_by now (default 0 (from_std ttl)) in
  mapping_error (write (insert_row (mk fresh worker expires default_consumed)))
    (fun e => DomainError.InfrastructureError ("Failed to issue bootstrap token: " +:+ e));;
  mret fresh.

(** The rows that a token is consumed from. *)
(** src: crates/server/infrastructure/src/persistence/postgres/worker_bootstrap_token_store.rs 82-84 PostgresWorkerBootstrapTokenStore::consume (where) *)
Definition consumable (now : DateTime) (tok : OtpToken.t) (worker : WorkerId) (r : t) : bool :=
  bool_decide (token r = tok) && bool_decide (worker_id r = worker) &&
  PostgresWorkerRegistry.earlier now (expires_at r) && bool_decide (consumed_at r = None).

Definition consume_rows (tok : OtpToken.t) (worker : WorkerId) (now : DateTime) (rows : list t) :
    Prelude.result string (list t * nat) :=
  Ok ((fun r => if consumable now tok worker r then r <| consumed_at := Some now |> else r) <$> rows,
      length (filter (fun r => consumable now tok worker r = true) rows)).

(** src: crates/server/infrastructure/src/persistence/postgres/worker_bootstrap_token_store.rs 72-117 PostgresWorkerBootstrapTokenStore::consume *)
Definition consume (tok : OtpToken.t) (worker : WorkerId) : method W DomainError.t unit :=
  rows_affected ← mapping_error (write_counting (consume_rows tok worker))
    (fun e => DomainError.InfrastructureError ("Failed to consume bootstrap token: " +:+ e));
  if bool_decide (rows_affected = 0%nat)
  then throw (DomainError.InvalidOtpToken "Token not found, expired, or already consumed")
  else mret tt.

(** src: crates/server/infrastructure/src/persistence/postgres/worker_bootstrap_token_store.rs 119-130 PostgresWorkerBootstrapTokenStore::cleanup_expired *)
Definition cleanup_expired : method W DomainError.t nat :=
  mapping_error (write_counting (fun now rows =>
      let expired r := PostgresWorkerRegistry.earlier (expires_at r) now in
      Ok (filter (fun r => expired r = false) rows, length (filter (fun r => expired r = true) rows))))
    (fun e => DomainError.InfrastructureError ("Failed to cleanup expired tokens: " +:+ e)).

#[global] Instance store : WorkerBootstrapTokenStore W := {|
  issue_token := issue;
  consume_token := consume;
  cleanup_expired_tokens := cleanup_expired;
|}.

End store.
End PostgresWorkerBootstrapTokenStore.

(** ** The service that provisions *)

Module ProvisioningConfig.
(** src: crates/server/application/src/workers/provisioning_impl.rs 26-35 ProvisioningConfig *)
Record t := mk {
  otp_ttl : Duration;
  default_image : string;
  server_address : string;
  max_workers_per_provider : nat;
}.

#[global] Instance t_rebuild : Rebuild t := fun c =>
  mk (otp_ttl c) (default_image c) (server_address c) (max_workers_per_provider c).

(** src: crates/server/application/src/workers/provisioning_impl.rs 22-22 DEFAULT_OTP_TTL *)
Definition DEFAULT_OTP_TTL : Duration := from_secs 300.

(** src: crates/server/application/src/workers/provisioning_impl.rs 38-45 ProvisioningConfig::default *)
Definition default : t := mk DEFAULT_OTP_TTL "hodei-jobs-worker:latest" "http://localhost:50051" 10.

(** src: crates/server/application/src/workers/provisioning_impl.rs 49-54 ProvisioningConfig::new *)
Definition new (address : string) : t := default <| server_address := address |>.

(** src: crates/server/application/src/workers/provisioning_impl.rs 56-59 ProvisioningConfig::with_default_image *)
Definition with_default_image (image : string) (c : t) : t := c <| default_image := image |>.

(** src: crates/server/application/src/workers/provisioning_impl.rs 61-64 ProvisioningConfig::with_otp_ttl *)
Definition with_otp_ttl (ttl : Duration) (c : t) : t := c <| otp_ttl := ttl |>.
End ProvisioningConfig.

(** What else the providers of workers do, and the environment of the process. *)
Class WorkerCreation `{E : Externs} (P W : Type) := {
  create_worker : P -> WorkerSpec.t -> method W ProviderError.t WorkerHandle.t;
  health_check : P -> method W ProviderError.t HealthStatus.t;
  env_var : string -> W -> option string;
}.

Module DefaultWorkerProvisioningService.
Section service.
Context `{E : Externs} `{!MapOrder} {P W : Type}.
Context `{!WorkerRegistry.t W} `{!WorkerBootstrapTokenStore W} `{!WorkerProviders P W}.
Context `{!WorkerCreation P W} `{!ProviderConfigRepository W} `{!Ambient W}.
Context (config : ProvisioningConfig.t).

(** src: crates/server/application/src/workers/provisioning_impl.rs 108-115 DefaultWorkerProvisioningService::get_provider *)
Definition get_provider (i : ProviderId) : method W DomainError.t P :=
  world ← self; lift (ok_or (providers_of world !! i) (DomainError.ProviderNotFound i)).

(** src: crates/server/application/src/workers/provisioning_impl.rs 143-147 DefaultWorkerProvisioningService::provision_worker (health) *)
Definition available (h : HealthStatus.t) : bool :=
  match h with HealthStatus.Healthy | HealthStatus.Degraded _ => true | _ => false end.

(** src: crates/server/application/src/workers/provisioning_impl.rs 161-168 DefaultWorkerProvisioningService::provision_worker (environment) *)
Definition with_environment (otp : OtpToken.t) (job : JobId) (sp : WorkerSpec.t) : WorkerSpec.t :=
  sp <| WorkerSpec.environment :=
    <["HODEI_JOB_ID" := uuid_to_string job]>
      (<["HODEI_OTP_TOKEN" := OtpToken.fmt otp]> (WorkerSpec.environment sp)) |>.

(** The worker is not registered: it will do so itself. *)
(** src: crates/server/application/src/workers/provisioning_impl.rs 120-196 DefaultWorkerProvisioningService::provision_worker *)
Definition provision_worker (i : ProviderId) (sp : WorkerSpec.t) (job : JobId) :
    method W DomainError.t ProvisioningResult.t :=
  provider ← get_provider i;
  health ← mapping_error (health_check provider) (fun e =>
    DomainError.WorkerProvisioningFailed ("Provider health check failed: " +:+ ProviderError.fmt e));
  ensure (available health) (DomainError.ProviderUnhealthy i);;
  let worker := WorkerSpec.worker_id sp in
  otp ← issue_token worker (ProvisioningConfig.otp_ttl config);
  mapping_error (create_worker provider (with_environment otp job sp))
    (fun e => DomainError.WorkerProvisioningFailed (ProviderError.fmt e));;
  mret (ProvisioningResult.new worker (OtpToken.fmt otp) i).

(** src: crates/server/application/src/workers/provisioning_impl.rs 198-216 DefaultWorkerProvisioningService::is_provider_available *)
Definition is_provider_available (i : ProviderId) : method W DomainError.t bool :=
  world ← self;
  match providers_of world !! i with
  | None => mret false
  | Some provider =>
      health ← result_of (health_check provider);
      mret (match health with Ok h => available h | Err _ => false end)
  end.

(** src: crates/server/application/src/workers/provisioning_impl.rs 231-243 DefaultWorkerProvisioningService::default_worker_spec (image) *)
Definition configured_image (c : ProviderConfig.t) : string :=
  match ProviderConfig.type_config c with
  | ProviderTypeConfig.Docker docker => DockerConfig.default_image docker
  | ProviderTypeConfig.Kubernetes k8s => KubernetesConfig.default_image k8s
  | _ => ProvisioningConfig.default_image config
  end.

(** src: crates/server/application/src/workers/provisioning_impl.rs 218-270 DefaultWorkerProvisioningService::default_worker_spec *)
Definition default_worker_spec (i : ProviderId) (w : W) : W * option WorkerSpec.t :=
  let env_image := env_var (P := P) "HODEI_WORKER_IMAGE" w in
  let (w, found) := ProviderRegistry.get_provider i w in
  let (w, fresh) := draw_uuid w in
  let image := match found with
               | Ok (Some c) => default (configured_image c) env_image
               | _ => default (ProvisioningConfig.default_image config) env_image
               end in
  (w, Some (WorkerSpec.new image (ProvisioningConfig.server_address config) fresh)).

(** src: crates/server/application/src/workers/provisioning_impl.rs 272-274 DefaultWorkerProvisioningService::list_providers *)
Definition list_providers : method W DomainError.t (list ProviderId) :=
  world ← self; mret (map_keys (providers_of (P := P) world)).

(** src: crates/server/application/src/workers/provisioning_impl.rs 276-284 DefaultWorkerProvisioningService::get_provider_config *)
Definition get_provider_config (i : ProviderId) : method W DomainError.t (option ProviderConfig.t) :=
  _ ← get_provider i; mret None.

(** src: crates/server/application/src/workers/provisioning_impl.rs 286-301 DefaultWorkerProvisioningService::validate_spec *)
Definition validate_spec (sp : WorkerSpec.t) : method W DomainError.t unit :=
  ensure (negb (is_empty (WorkerSpec.image sp)))
    (DomainError.InvalidWorkerSpec "image" "Worker image cannot be empty");;
  ensure (negb (is_empty (WorkerSpec.server_address sp)))
    (DomainError.InvalidWorkerSpec "server_address" "Server address cannot be empty").

#[global] Instance service : WorkerProvisioningService W := {|
  service_provision_worker := provision_worker;
  service_provider_available := is_provider_available;
  service_default_spec := default_worker_spec;
  service_list_providers := list_providers;
  service_provider_config := get_provider_config;
  service_validate_spec := validate_spec;
|}.

(** *** For the sagas *)

(** src: crates/server/application/src/workers/provisioning_impl.rs 310-325 DefaultWorkerProvisioningService::provision_worker (WorkerProvisioning) *)
Definition provision_for_saga (i : ProviderId) (sp : WorkerSpec.t) (job : JobId) :
    method W DomainError.t WorkerProvisioningResult.t :=
  r ← provision_worker i sp job;
  mret (WorkerProvisioningResult.mk (ProvisioningResult.worker_id r) (ProvisioningResult.provider_id r) job).

(** An error of the provider is only logged. *)
(** src: crates/server/application/src/workers/provisioning_impl.rs 327-362 DefaultWorkerProvisioningService::destroy_worker *)
Definition destroy_worker (i : WorkerId) : method W DomainError.t unit :=
  found ← WorkerRegistry.find_by_id i;
  worker ← lift (ok_or found (DomainError.WorkerNotFound i));
  provider ← get_provider (Worker.provider_id worker);
  _ ← result_of (WorkerUpkeep.destroy_worker provider (Worker.handle worker));
  WorkerRegistry.unregister i.

#[global] Instance provisioning : WorkerProvisioning.t W :=
  WorkerProvisioning.Build_t W provision_for_saga destroy_worker is_provider_available.

End service.
End DefaultWorkerProvisioningService.

(** ** Heartbeats *)

Module PulseFilter.
Section filter.
Context `{E : Externs}.
(** src: crates/server/application/src/workers/pulse.rs 11-14 PulseFilter *)
Record t := mk { state : option WorkerState.t; stale_threshold : option Duration }.
#[global] Instance t_rebuild : Rebuild t := fun f => mk (state f) (stale_threshold f).
(** src: crates/server/application/src/workers/pulse.rs 17-22 PulseFilter::new *)
Definition new : t := mk None None.
(** src: crates/server/application/src/workers/pulse.rs 24-27 PulseFilter::with_state *)
Definition with_state (s : WorkerState.t) (f : t) : t := f <| state := Some s |>.
End filter.
End PulseFilter.

(** src: crates/server/application/src/workers/pulse.rs 49-60 WorkerRegistryPulsePort *)
Class WorkerRegistryPulsePort `{E : Externs} (W : Type) := {
  pulse_record_heartbeat : WorkerId -> method W DomainError.t unit;
  pulse_find_unhealthy : Duration -> method W DomainError.t (list Worker.t);
  pulse_get_worker : WorkerId -> method W DomainError.t (option Worker.t);
  count_workers : method W DomainError.t nat;
}.

Module HeartbeatResult.
Section result.
Context `{E : Externs}.
(** src: crates/server/application/src/workers/pulse.rs 37-40 HeartbeatResult *)
Record t := mk { worker_id : WorkerId; recorded : bool }.
End result.
End HeartbeatResult.

Module StaleDetectionResult.
Section result.
Context `{E : Externs}.
(** src: crates/server/application/src/workers/pulse.rs 43-46 StaleDetectionResult *)
Record t := mk { stale_workers : list WorkerId; check_duration_ms : Z }.
End result.
End StaleDetectionResult.

Module WorkerPulseService.
Section service.
Context `{E : Externs} {W : Type} `{!WorkerRegistryPulsePort W} `{!Ambient W}.

(** src: crates/server/application/src/workers/pulse.rs 62-65 WorkerPulseService *)
Record t := mk { heartbeat_timeout : Duration }.

#[global] Instance t_rebuild : Rebuild t := fun s => mk (heartbeat_timeout s).

(** src: crates/server/application/src/workers/pulse.rs 68-73 WorkerPulseService::new *)
Definition new : t := mk (from_secs 60).

(** src: crates/server/application/src/workers/pulse.rs 75-78 WorkerPulseService::with_heartbeat_timeout *)
Definition with_heartbeat_timeout (timeout : Duration) (s : t) : t := s <| heartbeat_timeout := timeout |>.

(** src: crates/server/application/src/workers/pulse.rs 80-87 WorkerPulseService::record_heartbeat *)
Definition record_heartbeat (i : WorkerId) : method W DomainError.t HeartbeatResult.t :=
  pulse_record_heartbeat i;; mret (HeartbeatResult.mk i true).

(** src: crates/server/application/src/workers/pulse.rs 89-101 WorkerPulseService::detect_stale_workers *)
Definition detect_stale_workers (s : t) (threshold : option Duration) :
    method W DomainError.t StaleDetectionResult.t :=
  unhealthy ← pulse_find_unhealthy (default (heartbeat_timeout s) threshold);
  mret (StaleDetectionResult.mk (Worker.id <$> unhealthy) 0).

(** src: crates/server/application/src/workers/pulse.rs 103-115 WorkerPulseService::check_liveness *)
Definition check_liveness (s : t) (i : WorkerId) : method W DomainError.t bool :=
  worker ← pulse_get_worker i;
  match worker with
  | Some w =>
      now ← calling read_utc;
      let elapsed := default 0 (to_std (signed_duration_since now (Worker.last_heartbeat w))) in
      mret (elapsed <=? heartbeat_timeout s)
  | None => mret false
  end.

End service.
End WorkerPulseService.

(** ** Termination *)

Module WorkerTerminationConfig.
(** src: crates/server/application/src/workers/termination.rs 9-12 WorkerTerminationConfig *)
Record t := mk { max_destruction_retries : Z; retry_base_delay : Duration }.
(** src: crates/server/application/src/workers/termination.rs 15-20 WorkerTerminationConfig::default *)
Definition default : t := mk 3 (from_secs 1).
End WorkerTerminationConfig.

Module TerminationResult.
Section result.
Context `{E : Externs}.
(** src: crates/server/application/src/workers/termination.rs 24-28 TerminationResult *)
Record t := mk { worker_id : WorkerId; success : bool; provider_id : ProviderId }.
End result.
End TerminationResult.

Module WorkerInfo.
Section info.
Context `{E : Externs}.
(** src: crates/server/application/src/workers/termination.rs 58-62 WorkerInfo *)
Record t := mk { id : WorkerId; state : WorkerState.t; provider_id : ProviderId }.
End info.
End WorkerInfo.

(** The ports that are called; that of the providers is not. *)
(** src: crates/server/application/src/workers/termination.rs 46-56 TerminationEventPort, WorkerRegistryPort *)
Class TerminationPorts `{E : Externs} (W : Type) := {
  get_worker_info : WorkerId -> method W DomainError.t (option WorkerInfo.t);
  update_worker_state : WorkerId -> WorkerState.t -> method W DomainError.t unit;
  unregister_worker : WorkerId -> method W DomainError.t unit;
  publish_termination : DomainEvent.t -> method W DomainError.t unit;
}.

Module WorkerTerminationService.
Section service.
Context `{E : Externs} {W : Type} `{!TerminationPorts W} `{!Ambient W}.

(** src: crates/server/application/src/workers/termination.rs 85-120 WorkerTerminationService::terminate_ephemeral_worker *)
Definition terminate_ephemeral_worker (i : WorkerId) : method W DomainError.t TerminationResult.t :=
  found ← get_worker_info i;
  worker ← lift (ok_or found (DomainError.WorkerNotFound i));
  update_worker_state i WorkerState.Terminated;;
  now ← calling read_utc;
  publish_termination (DomainEvent.WorkerEphemeralTerminating (WorkerInfo.id worker)
    (WorkerInfo.provider_id worker) TerminationReason.Unregistered now None
    (Some "WorkerTerminationService"));;
  unregister_worker i;;
  mret (TerminationResult.mk i true (WorkerInfo.provider_id worker)).

End service.
End WorkerTerminationService.

(** ** Reconciliation behind ports *)

(** The result of [WorkerReconciliationService]: here the workers whose jobs are to
    be reassigned, where that of [WorkerUpkeep] has the jobs. *)
Module ReconciliationOutcome.
Section result.
Context `{E : Externs}.

(** src: crates/server/application/src/workers/reconciliation.rs 17-23 ReconciliationResult *)
Record t := mk {
  stale_workers : list WorkerId;
  affected_jobs : list JobId;
  jobs_requiring_reassignment : list WorkerId;
  workers_marked_unhealthy : list WorkerId;
  check_duration_ms : Z;
}.

#[global] Instance t_rebuild : Rebuild t := fun r =>
  mk (stale_workers r) (affected_jobs r) (jobs_requiring_reassignment r) (workers_marked_unhealthy r)
    (check_duration_ms r).

Definition default : t := mk [] [] [] [] 0.

End result.
End ReconciliationOutcome.

Module ReconciliationConfig.
(** src: crates/server/application/src/workers/reconciliation.rs 27-32 ReconciliationConfig *)
Record t := mk { heartbeat_timeout : Duration; worker_dead_grace_period : Duration }.

(** src: crates/server/application/src/workers/reconciliation.rs 35-40 ReconciliationConfig::default *)
Definition default : t := mk (from_secs 60) (from_secs 120).
End ReconciliationConfig.

(** src: crates/server/application/src/workers/reconciliation.rs 45-71 WorkerRegistryReconciliationPort *)
Class ReconciliationPorts `{E : Externs} (W : Type) := {
  unhealthy_workers : Duration -> method W DomainError.t (list Worker.t);
  set_worker_state : WorkerId -> WorkerState.t -> method W DomainError.t unit;
  live_worker_count : method W DomainError.t nat;
  emit_worker_heartbeat_missed : WorkerId -> JobId -> DateTime -> method W DomainError.t unit;
  emit_job_reassignment_required : WorkerId -> JobId -> method W DomainError.t unit;
  emit_worker_status_changed :
    WorkerId -> WorkerState.t -> WorkerState.t -> string -> method W DomainError.t unit;
}.

Module WorkerReconciliationService.
Section service.
Context `{E : Externs} {W : Type} `{!ReconciliationPorts W} `{!Ambient W}.
Import ReconciliationOutcome.

(** src: crates/server/application/src/workers/reconciliation.rs 130-166 WorkerReconciliationService::run_reconciliation (job) *)
Definition reconcile_job (grace : Duration) (stale_seconds : Z) (w : Worker.t) (r : ReconciliationOutcome.t) :
    method W DomainError.t ReconciliationOutcome.t :=
  match Worker.current_job_id w with
  | None => mret r
  | Some job =>
      let r := r <| affected_jobs := affected_jobs r ++ [job] |> in
      ignoring (emit_worker_heartbeat_missed (Worker.id w) job (Worker.updated_at w));;
      if as_secs grace <? stale_seconds then
        ignoring (emit_job_reassignment_required (Worker.id w) job);;
        mret (r <| jobs_requiring_reassignment := jobs_requiring_reassignment r ++ [Worker.id w] |>)
      else mret r
  end.

(** src: crates/server/application/src/workers/reconciliation.rs 169-199 WorkerReconciliationService::run_reconciliation (state) *)
Definition reconcile_state (w : Worker.t) (r : ReconciliationOutcome.t) :
    method W DomainError.t ReconciliationOutcome.t :=
  if bool_decide (Worker.state w = WorkerState.Terminated) then mret r
  else
    updated ← result_of (set_worker_state (Worker.id w) WorkerState.Terminated);
    match updated with
    | Err _ => mret r
    | Ok _ =>
        ignoring (emit_worker_status_changed (Worker.id w) (Worker.state w) WorkerState.Terminated
          "heartbeat_timeout");;
        mret (r <| workers_marked_unhealthy := workers_marked_unhealthy r ++ [Worker.id w] |>)
    end.

(** src: crates/server/application/src/workers/reconciliation.rs 117-200 WorkerReconciliationService::run_reconciliation (loop) *)
Definition reconcile_worker (grace : Duration) (w : Worker.t) (r : ReconciliationOutcome.t) :
    method W DomainError.t ReconciliationOutcome.t :=
  now ← calling read_utc;
  let stale_seconds := as_secs (WorkerHealthService.calculate_heartbeat_age now w) in
  let r := r <| stale_workers := stale_workers r ++ [Worker.id w] |> in
  r ← reconcile_job grace stale_seconds w r;
  reconcile_state w r.

(** A negative number of milliseconds is cast to 64 bits without a sign. *)
(** src: crates/server/application/src/workers/reconciliation.rs 107-216 WorkerReconciliationService::run_reconciliation *)
Definition run_reconciliation (config : ReconciliationConfig.t) :
    method W DomainError.t ReconciliationOutcome.t :=
  start ← calling read_utc;
  stale ← unhealthy_workers (ReconciliationConfig.heartbeat_timeout config);
  r ← for_each (reconcile_worker (ReconciliationConfig.worker_dead_grace_period config)) stale
        ReconciliationOutcome.default;
  now ← calling read_utc;
  mret (r <| check_duration_ms := num_milliseconds (signed_duration_since now start) mod 2 ^ 64 |>).

(** src: crates/server/application/src/workers/reconciliation.rs 219-221 WorkerReconciliationService::get_live_worker_count *)
Definition get_live_worker_count : method W DomainError.t nat := live_worker_count.

End service.
End WorkerReconciliationService.

(** ** The facade *)

Module WorkerLifecycleFacade.
Section facade.
Context `{E : Externs} {W : Type}.
Context `{!WorkerRegistryPulsePort W} `{!TerminationPorts W} `{!WorkerMonitoring W} `{!Ambient W}.

(** src: crates/server/application/src/workers/lifecycle_facade.rs 17-25 WorkerLifecycleFacade *)
Record t := mk {
  pulse_service : WorkerPulseService.t;
  provisioning_coordinator :
    option (ProviderId -> WorkerSpec.t -> option JobId ->
      method W ProvisioningSagaError.t (WorkerId * SagaExecutionResult.t));
  recovery_coordinator :
    option (JobId -> WorkerId -> method W RecoverySagaError.t (SagaId * SagaExecutionResult.t));
  config : WorkerLifecycleConfig.t;
}.

#[global] Instance t_rebuild : Rebuild t := fun f =>
  mk (pulse_service f) (provisioning_coordinator f) (recovery_coordinator f) (config f).

(** src: crates/server/application/src/workers/lifecycle_facade.rs 28-43 WorkerLifecycleFacade::new *)
Definition new (pulse : WorkerPulseService.t) : t := mk pulse None None WorkerLifecycleConfig.default.

(** src: crates/server/application/src/workers/lifecycle_facade.rs 45-48 WorkerLifecycleFacade::with_config *)
Definition with_config (c : WorkerLifecycleConfig.t) (f : t) : t := f <| config := c |>.

(** src: crates/server/application/src/workers/lifecycle_facade.rs 50-55 WorkerLifecycleFacade::set_provisioning_coordinator *)
Definition set_provisioning_coordinator coordinator (f : t) : t :=
  f <| provisioning_coordinator := Some coordinator |>.

(** src: crates/server/application/src/workers/lifecycle_facade.rs 57-59 WorkerLifecycleFacade::set_recovery_coordinator *)
Definition set_recovery_coordinator coordinator (f : t) : t :=
  f <| recovery_coordinator := Some coordinator |>.

(** src: crates/server/application/src/workers/lifecycle_facade.rs 61-64 WorkerLifecycleFacade::record_heartbeat *)
Definition record_heartbeat (i : WorkerId) : method W DomainError.t unit :=
  _ ← WorkerPulseService.record_heartbeat i; mret tt.

(** src: crates/server/application/src/workers/lifecycle_facade.rs 66-69 WorkerLifecycleFacade::detect_stale_workers *)
Definition detect_stale_workers (f : t) : method W DomainError.t (list WorkerId) :=
  r ← WorkerPulseService.detect_stale_workers (pulse_service f) None;
  mret (StaleDetectionResult.stale_workers r).

(** src: crates/server/application/src/workers/lifecycle_facade.rs 71-76 WorkerLifecycleFacade::terminate_ephemeral_worker *)
Definition terminate_ephemeral_worker (i : WorkerId) : method W DomainError.t unit :=
  _ ← WorkerTerminationService.terminate_ephemeral_worker i; mret tt.

(** src: crates/server/application/src/workers/lifecycle_facade.rs 78-117 WorkerLifecycleFacade::provision_worker *)
Definition provision_worker (f : t) (i : ProviderId) (sp : WorkerSpec.t) : method W DomainError.t WorkerId :=
  current_count ← worker_count;
  if (WorkerLifecycleConfig.max_workers (config f) <=? current_count)%nat
  then throw (DomainError.ProviderOverloaded i)
  else match provisioning_coordinator f with
       | Some coordinator =>
           r ← mapping_error (coordinator i sp None)
             (fun e => DomainError.WorkerProvisioningFailed (ProvisioningSagaError.fmt e));
           mret r.1
       | None => throw (DomainError.WorkerProvisioningFailed "No saga coordinator configured")
       end.

(** src: crates/server/application/src/workers/lifecycle_facade.rs 119-145 WorkerLifecycleFacade::recover_worker *)
Definition recover_worker (f : t) (job : JobId) (failed_worker : WorkerId) : method W DomainError.t unit :=
  match recovery_coordinator f with
  | Some coordinator =>
      _ ← mapping_error (coordinator job failed_worker)
        (fun e => DomainError.WorkerRecoveryFailed (RecoverySagaError.fmt e));
      mret tt
  | None => throw (DomainError.WorkerRecoveryFailed "No recovery saga coordinator configured")
  end.

(** src: crates/server/application/src/workers/lifecycle_facade.rs 147-149 WorkerLifecycleFacade::is_saga_provisioning_enabled *)
Definition is_saga_provisioning_enabled (f : t) : bool :=
  match provisioning_coordinator f with Some _ => true | None => false end.

(** src: crates/server/application/src/workers/lifecycle_facade.rs 151-153 WorkerLifecycleFacade::is_saga_recovery_enabled *)
Definition is_saga_recovery_enabled (f : t) : bool :=
  match recovery_coordinator f with Some _ => true | None => false end.

(** src: crates/server/application/src/workers/lifecycle_facade.rs 155-157 WorkerLifecycleFacade::process_heartbeat *)
Definition process_heartbeat (i : WorkerId) : method W DomainError.t unit := record_heartbeat i.

(** src: crates/server/application/src/workers/lifecycle_facade.rs 159-161 WorkerLifecycleFacade::stats *)
Definition stats : method W DomainError.t WorkerRegistryStats.t := worker_stats.

End facade.
End WorkerLifecycleFacade.

(** ** How many workers *)

Module ScalingDecision.
Section decision.
Context `{E : Externs}.
(** src: crates/server/domain/src/workers/auto_scaling.rs 8-23 ScalingDecision *)
Inductive t :=
  | NoChange
  | ScaleUp (provider_id : ProviderId) (count : Z) (reason : string)
  | ScaleDown (provider_id : ProviderId) (count : Z) (reason : string).
End decision.
End ScalingDecision.

Module ScalingContext.
Section context.
Context `{E : Externs}.

(** src: crates/server/domain/src/workers/auto_scaling.rs 27-33 ScalingContext *)
Record t := mk {
  provider_id : ProviderId;
  pending_jobs : Z;
  healthy_workers : Z;
  busy_workers : Z;
  degraded_workers : Z;
}.

(** src: crates/server/domain/src/workers/auto_scaling.rs 36-50 ScalingContext::new *)
Definition new (p : ProviderId) (pending healthy busy degraded : Z) : t := mk p pending healthy busy degraded.

(** src: crates/server/domain/src/workers/auto_scaling.rs 53-55 ScalingContext::total_workers *)
Definition total_workers (c : t) : Z :=
  u32_add (u32_add (healthy_workers c) (busy_workers c)) (degraded_workers c).

(** src: crates/server/domain/src/workers/auto_scaling.rs 58-60 ScalingContext::available_workers *)
Definition available_workers (c : t) : Z := healthy_workers c.

End context.
End ScalingContext.

(** src: crates/server/domain/src/workers/auto_scaling.rs 64-70 AutoScalingStrategy *)
Class AutoScalingStrategy `{E : Externs} (T : Type) := {
  scaling_strategy_name : T -> string;
  evaluate_scaling : T -> ScalingContext.t -> option ScalingDecision.t;
}.

Module SimpleThresholdStrategy.
Section strategy.
Context `{E : Externs}.
Import ScalingContext.

(** src: crates/server/application/src/workers/auto_scaling.rs 7-11 SimpleThresholdStrategy *)
Record t := mk { min_workers : Z; max_workers : Z; jobs_per_worker : Z }.

(** src: crates/server/application/src/workers/auto_scaling.rs 14-20 SimpleThresholdStrategy::new *)
Definition new (min max jobs : Z) : t := mk min max jobs.

(** src: crates/server/application/src/workers/auto_scaling.rs 24-30 SimpleThresholdStrategy::default *)
Definition default : t := mk 1 10 1.

(** The quotient of an addition that wraps, and a panic for the divisor 0. *)
(** src: crates/server/application/src/workers/auto_scaling.rs 55-55 SimpleThresholdStrategy::evaluate (potential_new) *)
Definition potential_new (s : t) (needed available : Z) : option Z :=
  if jobs_per_worker s =? 0 then None
  else Some (as_u32 (u32_add (needed - available) (jobs_per_worker s) - 1) / jobs_per_worker s).

(** [None] is a panic. *)
(** src: crates/server/application/src/workers/auto_scaling.rs 38-75 SimpleThresholdStrategy::evaluate *)
Definition evaluate (s : t) (c : ScalingContext.t) : option ScalingDecision.t :=
  let total_active := total_workers c in
  let available := available_workers c in
  if total_active <? min_workers s then
    Some (ScalingDecision.ScaleUp (provider_id c) (min_workers s - total_active)
      ("Scaling up to meet minimum workers (" +:+ show_Z (min_workers s) +:+ ")"))
  else
    let needed_capacity := pending_jobs c in
    if (available <? needed_capacity) && (total_active <? max_workers s) then
      potential ← potential_new s needed_capacity available;
      let actual_new := Z.min potential (max_workers s - total_active) in
      Some (if 0 <? actual_new
            then ScalingDecision.ScaleUp (provider_id c) actual_new
              ("Pending jobs (" +:+ show_Z needed_capacity +:+ ") exceed available workers ("
                +:+ show_Z available +:+ "), scaling up")
            else ScalingDecision.NoChange)
    else Some ScalingDecision.NoChange.

(** src: crates/server/application/src/workers/auto_scaling.rs 34-36 SimpleThresholdStrategy::name *)
Definition name : string := "SimpleThresholdStrategy".

#[global] Instance strategy : AutoScalingStrategy t := {|
  scaling_strategy_name := fun _ => name;
  evaluate_scaling := evaluate;
|}.

End strategy.
End SimpleThresholdStrategy.

Module AutoScalingService.
Section service.
Context `{E : Externs} {T : Type} `{!AutoScalingStrategy T}.
(** src: crates/server/application/src/workers/auto_scaling.rs 79-81 AutoScalingService *)
Record t := mk { strategy : T }.
(** src: crates/server/application/src/workers/auto_scaling.rs 84-86 AutoScalingService::new *)
Definition new (s : T) : t := mk s.
(** src: crates/server/application/src/workers/auto_scaling.rs 89-91 AutoScalingService::evaluate *)
Definition evaluate (s : t) (c : ScalingContext.t) : option ScalingDecision.t := evaluate_scaling (strategy s) c.
(** src: crates/server/application/src/workers/auto_scaling.rs 94-96 AutoScalingService::strategy_name *)
Definition strategy_name (s : t) : string := scaling_strategy_name (strategy s).
End service.
End AutoScalingService.

(** ** Theorems: how many workers *)

Section scaling.
Context `{E : Externs}.
Import SimpleThresholdStrategy ScalingContext.

(** C25: a decision is to start workers or to do nothing, and never to stop one.
    Below the minimum, what is missing to it is started, even where the minimum is
    more than the maximum, which nothing excludes.  Else as many are started as the
    pending jobs need beyond the workers that are free, and no more than the maximum;
    nothing is done only if there is the minimum, and either no need or no place.  This
    is so as long as the numbers stay below [2^32], and a worker is given some jobs. *)
Theorem scaling_stays_within_limits (s : SimpleThresholdStrategy.t) (c : ScalingContext.t) :
  let total := healthy_workers c + busy_workers c + degraded_workers c in
  let missing := pending_jobs c - available_workers c in
  0 <= healthy_workers c -> 0 <= busy_workers c -> 0 <= degraded_workers c -> total < 2 ^ 32 ->
  0 <= pending_jobs c -> pending_jobs c + jobs_per_worker s < 2 ^ 32 ->
  1 <= jobs_per_worker s ->
  match evaluate s c with
  | Some (ScalingDecision.ScaleUp p n _) =>
      p = provider_id c /\ 0 < n /\
      (total < min_workers s -> total + n = min_workers s) /\
      (min_workers s <= total -> total + n <= max_workers s /\
         (n - 1) * jobs_per_worker s < missing /\
         (total + n = max_workers s \/ missing <= n * jobs_per_worker s))
  | Some ScalingDecision.NoChange =>
      min_workers s <= total /\ (missing <= 0 \/ max_workers s <= total)
  | Some (ScalingDecision.ScaleDown _ _ _) | None => False
  end.
Proof.
  intros total missing Hh Hb Hd Ht Hp Hpj Hj. subst total missing. unfold evaluate.
  assert (total_workers c = healthy_workers c + busy_workers c + degraded_workers c) as ->.
  { unfold total_workers. rewrite !u32_add_small; unfold u32; try lia. rewrite u32_add_small; unfold u32; lia. }
  unfold available_workers in *.
  set (total := healthy_workers c + busy_workers c + degraded_workers c) in *.
  destruct (Z.ltb_spec total (min_workers s)); [split_and!; [done|lia..]|].
  destruct (Z.ltb_spec (healthy_workers c) (pending_jobs c)); simpl; [|lia].
  destruct (Z.ltb_spec total (max_workers s)); simpl; [|lia].
  unfold potential_new. destruct (Z.eqb_spec (jobs_per_worker s) 0); [lia|]. simpl.
  rewrite u32_add_small by (unfold u32; lia). unfold as_u32. rewrite wrap_small by lia.
  set (m := pending_jobs c - healthy_workers c) in *. set (j := jobs_per_worker s) in *.
  pose proof (Z.div_mod (m + j - 1) j ltac:(lia)) as Hdiv.
  pose proof (Z.mod_pos_bound (m + j - 1) j ltac:(lia)) as Hmod.
  set (q := (m + j - 1) / j) in *.
  destruct (Z.ltb_spec 0 (Z.min q (max_workers s - total))); [split_and!; [done|nia..]|].
  nia.
Qed.

(** A worker that is to be given no job makes the decision panic. *)
Lemma no_jobs_per_worker_panics s c : jobs_per_worker s = 0 ->
  evaluate s c = None <->
  min_workers s <= total_workers c < max_workers s /\ available_workers c < pending_jobs c.
Proof.
  intros Hj. unfold evaluate, potential_new. rewrite Hj. simpl.
  destruct (Z.ltb_spec (total_workers c) (min_workers s)); [split; [done|lia]|].
  destruct (Z.ltb_spec (available_workers c) (pending_jobs c)); simpl; [|split; [done|lia]].
  destruct (Z.ltb_spec (total_workers c) (max_workers s)); simpl; split; try done; lia.
Qed.

End scaling.

(** ** Theorems: tokens *)

Section tokens.
Context `{E : Externs} {W : Type} `{!TokenDatabase W} `{!TokenDatabaseLaws W} `{!Ambient W}.
Import PostgresWorkerBootstrapTokenStore TokenRow.

(** The clock and the identifiers are not the table. *)
Context (rows_of_utc : forall w : W, token_rows (read_utc w).1 = token_rows w).
Context (rows_of_uuid : forall w : W, token_rows (draw_uuid w).1 = token_rows w).

(** What can happen to the table: an operation of the store, with the condition
    that no identifier is drawn twice, or anything that leaves the table alone. *)
Inductive later (tok : OtpToken.t) : W -> W -> Prop :=
  | later_refl w : later tok w w
  | later_issue worker ttl w w' :
      (draw_uuid w).2 <> tok -> later tok (after (issue worker ttl) w) w' -> later tok w w'
  | later_consume tok' worker w w' : later tok (after (consume tok' worker) w) w' -> later tok w w'
  | later_cleanup w w' : later tok (after cleanup_expired w) w' -> later tok w w'
  | later_other w w1 w' : token_rows w1 = token_rows w -> later tok w1 w' -> later tok w w'.

(** No row can give the token again. *)
Definition spent (tok : OtpToken.t) (w : W) : Prop :=
  forall r, r ∈ token_rows w -> token r = tok -> consumed_at r <> None.

Lemma spent_rows tok w w' : token_rows w' = token_rows w -> spent tok w -> spent tok w'.
Proof. unfold spent. by intros ->. Qed.

Lemma consume_rows_spent tok' worker now tok (rows rows' : list t) n :
  consume_rows tok' worker now rows = Ok (rows', n) ->
  (forall r, r ∈ rows -> token r = tok -> consumed_at r <> None) ->
  forall r, r ∈ rows' -> token r = tok -> consumed_at r <> None.
Proof.
  intros [= <- _] Hs r (r0 & -> & Hr)%list_elem_of_fmap. specialize (Hs r0 Hr). by destruct (consumable _ _ _ r0).
Qed.

Lemma after_consume tok worker w :
  after (consume tok worker) w = after (write_counting (consume_rows tok worker)) w.
Proof.
  unfold consume, mapping_error, mbind, method_bind, after.
  destruct (write_counting _ w) as [w1 [n|e]]; simpl; [|done]. by case_bool_decide.
Qed.

Lemma consume_ok tok worker w : returns (consume tok worker) w = Ok tt ->
  exists n, returns (write_counting (consume_rows tok worker)) w = Ok n /\ n <> 0%nat.
Proof.
  unfold consume, mapping_error, mbind, method_bind, returns.
  destruct (write_counting _ w) as [w1 [n|e]]; simpl; [|done].
  case_bool_decide; [done|]. intros _. by exists n.
Qed.

Lemma issue_rows worker ttl w :
  token_rows (after (issue worker ttl) w) = token_rows w \/
  exists expires, token_rows (after (issue worker ttl) w) =
    token_rows w ++ [mk (draw_uuid w).2 worker expires default_consumed].
Proof.
  unfold issue. pose proof (rows_of_uuid w) as Hu. unfold calling, mbind, method_bind, after.
  destruct (draw_uuid w) as [w1 fresh]. simpl in *. pose proof (rows_of_utc w1) as Ht.
  destruct (read_utc w1) as [w2 now]. simpl in *. rewrite <- Hu, <- Ht.
  set (row := mk fresh worker _ _).
  pose proof (write_rows (insert_row row) w2) as Hw. unfold mapping_error, after in *.
  destruct (write (insert_row row) w2) as [w3 r3]. simpl in *.
  assert (token_rows w3 = token_rows w2 \/ token_rows w3 = token_rows w2 ++ [row]) as Hor.
  { destruct Hw as [|(now' & Hi)]; [by left|]. unfold insert_row in Hi.
    destruct (refused_token _ row); [done|]. injection Hi as <-. by right. }
  destruct Hor as [Hsame|Hadd]; destruct r3; simpl; auto; right; by eexists.
Qed.

Lemma later_spent tok w w' : later tok w w' -> spent tok w -> spent tok w'.
Proof.
  induction 1 as [w|worker ttl w w' Hd _ IH|tok' worker w w' _ IH|w w' _ IH|w w1 w' Hr _ IH]; intros Hs;
    [done|apply IH..].
  - destruct (issue_rows worker ttl w) as [Hsame|[expires Hadd]]; [by eapply spent_rows|].
    unfold spent. rewrite Hadd. intros r [Hr|Hr]%elem_of_app; [by apply Hs|].
    apply list_elem_of_singleton in Hr as ->. by intros Ht.
  - rewrite after_consume. destruct (write_counting_rows (consume_rows tok' worker) w) as [Hsame|(now & n & Hc)].
    + by eapply spent_rows.
    + intros r Hr. by eapply consume_rows_spent.
  - unfold cleanup_expired. rewrite after_mapping.
    destruct (write_counting_rows (fun now rows =>
      let expired r := PostgresWorkerRegistry.earlier (expires_at r) now in
      Ok (filter (fun r => expired r = false) rows, length (filter (fun r => expired r = true) rows))) w)
      as [Hsame|(now & n & Hc)]; [by eapply spent_rows|].
    injection Hc as Hc _. intros r Hr. rewrite <- Hc in Hr. apply list_elem_of_filter in Hr as [_ Hr]. by apply Hs.
  - by eapply spent_rows.
Qed.

Lemma spent_is_refused tok worker w : spent tok w -> returns (consume tok worker) w <> Ok tt.
Proof.
  intros Hs Hok. apply consume_ok in Hok as (n & Hn & Hne). apply write_counting_ok in Hn. unfold consume_rows in Hn.
  injection Hn as _ Hlen. destruct (filter _ (token_rows w)) as [|r l] eqn:Hf; [by subst n|].
  assert (r ∈ r :: l) as Hin by by left. rewrite <- Hf in Hin.
  apply list_elem_of_filter in Hin as [Hc Hin]. unfold consumable in Hc.
  apply andb_prop in Hc as [[[Htok _]%andb_prop _]%andb_prop Hnone].
  apply bool_decide_eq_true in Htok, Hnone. by apply (Hs r Hin Htok).
Qed.

Lemma consumable_spec now tok worker r : consumable now tok worker r = true ->
  token r = tok /\ worker_id r = worker /\ consumed_at r = None /\ datetime_leb (expires_at r) now = false.
Proof.
  unfold consumable, PostgresWorkerRegistry.earlier.
  intros [[[Ht%bool_decide_eq_true Hw%bool_decide_eq_true]%andb_prop He%negb_true_iff]%andb_prop
    Hc%bool_decide_eq_true]%andb_prop. done.
Qed.

Lemma unchanged_rows now tok worker (rows : list t) :
  (forall r, r ∈ rows -> consumable now tok worker r = false) ->
  (fun r => if consumable now tok worker r then r <| consumed_at := Some now |> else r) <$> rows = rows.
Proof.
  intros Hall. rewrite <- (list_fmap_id rows) at 2. apply list_fmap_ext. intros i r Hi.
  apply list_elem_of_lookup_2 in Hi. by rewrite Hall.
Qed.

Lemma changed_is_spent tok worker w : NoDup (token <$> token_rows w) ->
  token_rows (after (consume tok worker) w) <> token_rows w -> spent tok (after (consume tok worker) w).
Proof.
  rewrite after_consume. intros Hnd Hne.
  destruct (write_counting_rows (consume_rows tok worker) w) as [Hsame|(now & n & Hc)]; [done|].
  injection Hc as Hc _. unfold spent. rewrite <- Hc in Hne |- *. clear Hc.
  destruct (list_find (fun r => consumable now tok worker r = true) (token_rows w)) as [[i r]|] eqn:Hf.
  - apply list_find_Some in Hf as (Hi & Hr & _).
    intros r' (r0 & -> & Hr0)%list_elem_of_fmap Ht.
    assert (token r0 = tok) as Ht0 by (by destruct (consumable now tok worker r0)).
    assert (r0 = r) as ->; [|by rewrite Hr].
    apply list_elem_of_lookup in Hr0 as [j Hj]. pose proof (consumable_spec _ _ _ _ Hr) as (Htr & _).
    assert (i = j) as ->; [|congruence].
    eapply (NoDup_lookup (token <$> token_rows w)); [done|by rewrite list_lookup_fmap, Hi|].
    rewrite list_lookup_fmap, Hj. simpl. congruence.
  - destruct Hne. apply unchanged_rows. intros r Hr. apply list_find_None in Hf.
    rewrite Forall_forall in Hf. specialize (Hf r Hr). by destruct (consumable now tok worker r).
Qed.

(** C22: a token lets in once.  A token that is accepted was issued for the worker
    that presents it, is not expired and was not used, and the table has changed;
    and once a use of it has changed the table, whether it was answered or the
    answer was lost, the token is accepted from nobody, whatever happens to the
    table, as long as no identifier is drawn twice. *)
Theorem tokens_let_in_once tok worker w :
  (returns (consume tok worker) w = Ok tt ->
   (exists r, r ∈ token_rows w /\ token r = tok /\ worker_id r = worker /\ consumed_at r = None /\
     datetime_leb (expires_at r) (statement_time (statement_outcome (Row := TokenRow.t) w).1) = false) /\
   token_rows (after (consume tok worker) w) <> token_rows w) /\
  (NoDup (token <$> token_rows w) ->
   token_rows (after (consume tok worker) w) <> token_rows w ->
   forall worker' w', later tok (after (consume tok worker) w) w' ->
     returns (consume tok worker') w' <> Ok tt).
Proof.
  split.
  - rewrite after_consume. intros (n & Hn & Hne)%consume_ok. apply write_counting_ok in Hn.
    set (now := statement_time _) in *. set (rows' := token_rows (after _ w)) in *. unfold consume_rows in Hn. injection Hn as Hrows Hlen.
    destruct (filter _ (token_rows w)) as [|r l] eqn:Hf; [by subst n|].
    assert (r ∈ r :: l) as Hin by by left. rewrite <- Hf in Hin.
    apply list_elem_of_filter in Hin as [Hc Hin]. pose proof (consumable_spec _ _ _ _ Hc) as (Ht & Hw & Hcons & He).
    split; [by exists r|]. intros Heq. rewrite Heq in Hrows. apply list_elem_of_lookup in Hin as [i Hi].
    pose proof (f_equal (fun l => l !! i) Hrows) as Hl. cbv beta in Hl. rewrite list_lookup_fmap in Hl.
    rewrite Hi in Hl. simpl in Hl. rewrite Hc in Hl. injection Hl as Hl. rewrite <- Hl in Hcons. done.
  - intros Hnd Hne worker' w' Hl. eapply spent_is_refused, later_spent; [exact Hl|]. by apply changed_is_spent.
Qed.

End tokens.

(** ** Theorems: reconciliation *)

Section reconciliation.
Context `{E : Externs} {W : Type} `{!ReconciliationPorts W} `{!Ambient W}.
Import ReconciliationOutcome WorkerReconciliationService.

(** What a run over [ws] reports. *)
Definition reported (grace : Duration) (ws : list Worker.t) (r : ReconciliationOutcome.t) : Prop :=
  stale_workers r = Worker.id <$> ws /\ affected_jobs r = omap Worker.current_job_id ws /\
  (forall i, i ∈ jobs_requiring_reassignment r -> exists w now, w ∈ ws /\ Worker.id w = i /\
     Worker.current_job_id w <> None /\
     as_secs grace < as_secs (WorkerHealthService.calculate_heartbeat_age now w)) /\
  (forall i, i ∈ workers_marked_unhealthy r -> exists w, w ∈ ws /\ Worker.id w = i /\
     Worker.state w <> WorkerState.Terminated).

Lemma reconcile_worker_reports grace w ws r s : reported grace ws r ->
  wp (reconcile_worker grace w r) (fun res _ => exists r', res = Ok r' /\ reported grace (ws ++ [w]) r') s.
Proof.
  intros (Hst & Haf & Hre & Hma). unfold reconcile_worker. apply wp_bind, wp_calling, wp_bind.
  set (now := (read_utc s).2). set (r0 := r <| stale_workers := _ |>).
  assert (forall r1, stale_workers r1 = stale_workers r0 -> affected_jobs r1 = omap Worker.current_job_id (ws ++ [w]) ->
    (forall i, i ∈ jobs_requiring_reassignment r1 -> i ∈ jobs_requiring_reassignment r \/
      (Worker.id w = i /\ Worker.current_job_id w <> None /\
       as_secs grace < as_secs (WorkerHealthService.calculate_heartbeat_age now w))) ->
    (forall i, i ∈ workers_marked_unhealthy r1 -> i ∈ workers_marked_unhealthy r \/
      (Worker.id w = i /\ Worker.state w <> WorkerState.Terminated)) -> reported grace (ws ++ [w]) r1) as Hdone.
  { intros r1 Hst1 Haf1 Hre1 Hma1. split_and!; [by rewrite Hst1, fmap_app; simpl; rewrite Hst|done| |].
    - intros i [(w' & n & Hw & ?)%Hre|?]%Hre1; [exists w', n|exists w, now]; rewrite elem_of_app; set_solver.
    - intros i [(w' & Hw & ?)%Hma|?]%Hma1; [exists w'|exists w]; rewrite elem_of_app; set_solver. }
  eapply (wp_mono _ (fun res _ => exists r1, res = Ok r1 /\ stale_workers r1 = stale_workers r0 /\
    affected_jobs r1 = omap Worker.current_job_id (ws ++ [w]) /\
    workers_marked_unhealthy r1 = workers_marked_unhealthy r /\
    forall i, i ∈ jobs_requiring_reassignment r1 -> i ∈ jobs_requiring_reassignment r \/
      (Worker.id w = i /\ Worker.current_job_id w <> None /\
       as_secs grace < as_secs (WorkerHealthService.calculate_heartbeat_age now w)))).
  - rewrite omap_app. unfold reconcile_job. simpl. destruct (Worker.current_job_id w) as [job|].
    + apply wp_bind, wp_ignoring. destruct (Z.ltb_spec (as_secs grace)
        (as_secs (WorkerHealthService.calculate_heartbeat_age now w))).
      * apply wp_bind, wp_ignoring, wp_ret. eexists. split; [done|]. simpl. rewrite Haf. set_solver.
      * apply wp_ret. eexists. split; [done|]. simpl. rewrite Haf. set_solver.
    + apply wp_ret. eexists. split; [done|]. simpl. rewrite Haf, app_nil_r. naive_solver.
  - intros res s1 (r1 & -> & Hst1 & Haf1 & Hma1 & Hre1). unfold reconcile_state.
    case_bool_decide as Hterm.
    { apply wp_ret. exists r1. split; [done|]. apply Hdone; [done|done|done|]. rewrite Hma1. by left. }
    apply wp_bind, wp_result_of. destruct (returns _ s1) as [[]|e].
    + apply wp_bind, wp_ignoring, wp_ret. eexists. split; [done|]. apply Hdone; simpl; [done|done|done|].
      rewrite Hma1. set_solver.
    + apply wp_ret. exists r1. split; [done|]. apply Hdone; [done|done|done|]. rewrite Hma1. by left.
Qed.

(** A run names the workers that were found, the jobs they have, and as workers
    whose jobs are to be reassigned some that have one and were silent for longer
    than the grace period. *)
Theorem reconciliation_reports_what_it_found config s r : returns (run_reconciliation config) s = Ok r ->
  exists s0 ws, returns (unhealthy_workers (ReconciliationConfig.heartbeat_timeout config)) s0 = Ok ws /\
    reported (ReconciliationConfig.worker_dead_grace_period config) ws r /\
    0 <= check_duration_ms r < 2 ^ 64.
Proof.
  intros Hr. unfold run_reconciliation in Hr. apply bind_ok in Hr as (start & _ & Hr & _).
  apply bind_ok in Hr as (ws & Hws & Hr & _). apply bind_ok in Hr as (r0 & Hr0 & Hr & _).
  apply bind_ok in Hr as (now & _ & Hr & _). injection Hr as <-. eexists _, ws. split; [done|].
  set (grace := ReconciliationConfig.worker_dead_grace_period config) in *.
  assert (forall s, wp (for_each (reconcile_worker grace) ws ReconciliationOutcome.default)
    (fun res _ => exists r', res = Ok r' /\ reported grace ws r') s) as Hall.
  { intros s1. apply (wp_for_each (fun ws r _ => reported grace ws r)).
    - split_and!; [done|done|intros ? []%not_elem_of_nil|intros ? []%not_elem_of_nil].
    - intros. by apply reconcile_worker_reports.
    - intros r1 _ Hrep. by exists r1. }
  split; [|simpl; apply Z.mod_pos_bound; lia].
  match type of Hr0 with returns _ ?s1 = _ => specialize (Hall s1) end.
  apply wp_run in Hall. rewrite Hr0 in Hall. by destruct Hall as (r' & [= <-] & Hrep).
Qed.

End reconciliation.

(** ** Theorems: provisioning *)

Section provisioned.
Context `{E : Externs} `{!ExternsLaws E} `{!MapOrder} `{!WorkerFormat} {P W : Type}.
Context `{!TokenDatabase W} `{!TokenDatabaseLaws W} `{!WorkerDatabase W} `{!WorkerDatabaseLaws W}.
Context `{!WorkerProviders P W} `{!WorkerCreation P W} `{!ProviderConfigRepository W} `{!Ambient W}.
Context (config : ProvisioningConfig.t).
Import PostgresWorkerBootstrapTokenStore DefaultWorkerProvisioningService.
#[local] Existing Instance PostgresWorkerRegistry.registry.

(** The clock and the identifiers are not the tables; nor is the provider. *)
Context (tokens_of_utc : forall w : W, token_rows (read_utc w).1 = token_rows w).
Context (tokens_of_uuid : forall w : W, token_rows (draw_uuid w).1 = token_rows w).
Context (tokens_of_creation : forall p sp (w : W), token_rows (after (create_worker p sp) w) = token_rows w).

Lemma issued_is_accepted worker ttl w tok : returns (issue worker ttl) w = Ok tok ->
  forall w', token_rows w' = token_rows (after (issue worker ttl) w) ->
    (statement_outcome (Row := TokenRow.t) w').2 = Executed ->
    datetime_leb (later_by (read_utc (draw_uuid w).1).2 (default 0 (from_std ttl)))
      (statement_time (statement_outcome (Row := TokenRow.t) w').1) = false ->
    returns (consume tok worker) w' = Ok tt.
Proof.
  unfold issue, calling, mbind, method_bind, mapping_error, returns, after.
  destruct (draw_uuid w) as [w1 fresh]. destruct (read_utc w1) as [w2 now] eqn:Hnow.
  set (row := TokenRow.mk fresh worker _ _).
  pose proof (write_ok (insert_row row) w2) as Hw. unfold returns, after in Hw.
  destruct (write (insert_row row) w2) as [w3 [[]|e]]; simpl; [|done]. intros [= <-]. simpl in Hw.
  destruct (Hw eq_refl) as (now' & Hi). unfold insert_row in Hi.
  destruct (refused_token _ row); [done|]. injection Hi as Hi.
  intros w' Hrows Hex Hlt. simpl in Hlt. rewrite Hnow in Hlt. simpl in Hlt.
  unfold consume, mapping_error, mbind, method_bind.
  pose proof (fun rows n => write_counting_executed (consume_rows fresh worker) w' rows n Hex) as Hc.
  unfold consume_rows, returns in Hc. rewrite Hrows, <- Hi in Hc. specialize (Hc _ _ eq_refl).
  destruct (write_counting _ w') as [w4 r4]. simpl in Hc. subst r4. simpl.
  rewrite bool_decide_false; [done|]. rewrite filter_app, length_app. rewrite (filter_cons_True _ row); [simpl; lia|].
  unfold consumable, PostgresWorkerRegistry.earlier. simpl. rewrite !bool_decide_true by done. rewrite Hlt. simpl.
  rewrite token_is_new. by rewrite bool_decide_true.
Qed.

Lemma provisioned_worker i sp job w r : returns (provision_worker config i sp job) w = Ok r ->
  ProvisioningResult.worker_id r = WorkerSpec.worker_id sp /\ ProvisioningResult.provider_id r = i.
Proof.
  unfold provision_worker. intros Hr.
  repeat apply bind_ok in Hr as (? & _ & Hr & _). by injection Hr as <-.
Qed.

(** C23: a worker that was provisioned has a container, made after its token was
    issued and with the token and the job in its environment; and with this token
    it is let in, if it comes before the token expires and the table is as it was
    left. *)
Theorem provisioned_workers_are_let_in i sp job w r :
  returns (provision_worker config i sp job) w = Ok r ->
  let w' := after (provision_worker config i sp job) w in
  ProvisioningResult.worker_id r = WorkerSpec.worker_id sp /\ ProvisioningResult.provider_id r = i /\
  exists provider tok, providers_of w !! i = Some provider /\
    OtpToken.from_str (ProvisioningResult.otp_token r) = Ok tok /\
    let checked := after (health_check provider) w in
    let issued := (read_utc (draw_uuid checked).1).2 in
    is_ok (returns (create_worker provider (with_environment tok job sp))
      (after (issue (WorkerSpec.worker_id sp) (ProvisioningConfig.otp_ttl config)) checked)) = true /\
    forall w2, token_rows w2 = token_rows w' ->
      (statement_outcome (Row := TokenRow.t) w2).2 = Executed ->
      datetime_leb (later_by issued (default 0 (from_std (ProvisioningConfig.otp_ttl config))))
        (statement_time (statement_outcome (Row := TokenRow.t) w2).1) = false ->
      returns (consume tok (WorkerSpec.worker_id sp)) w2 = Ok tt.
Proof.
  intros Hr w'. subst w'. unfold provision_worker in *.
  apply bind_ok in Hr as (provider & Hp & Hr & ->). apply bind_ok in Hr as (health & _ & Hr & ->).
  unfold get_provider in Hp. apply bind_ok in Hp as (world & [= <-] & Hp & _).
  assert (providers_of w !! i = Some provider) as Hi.
  { unfold returns, lift in Hp. simpl in Hp. destruct (providers_of w !! i); simpl in Hp; congruence. }
  apply bind_ok in Hr as ([] & _ & Hr & ->). set (w0 := after (ensure _ _) _) in *.
  assert (w0 = after (health_check provider) w) as Hw0.
  { subst w0. rewrite after_mapping. unfold get_provider, ensure, lift. unfold after, mbind, method_bind. simpl.
    by destruct (available health). }
  apply bind_ok in Hr as (tok & Htok & Hr & ->). set (w1 := after (issue_token _ _) w0) in *.
  apply bind_ok in Hr as (h & Hh & Hr & ->). apply mapping_ok in Hh. rewrite after_mapping.
  injection Hr as <-. split; [done|]. split; [done|].
  exists provider, tok. rewrite <- Hw0. split_and!; [done| | |].
  - unfold OtpToken.from_str, OtpToken.fmt. simpl. unfold OtpToken.fmt. by rewrite parse_uuid.
  - subst w1. simpl in Hh. by rewrite Hh.
  - intros w2 Hrows. apply (issued_is_accepted _ _ _ _ Htok). rewrite Hrows. apply tokens_of_creation.
Qed.

(** *** What a saga that is compensated leaves behind *)

(** The registry is not what the providers have; and provisioning does not
    register. *)
Context {C : Type} (containers : W -> C).
Context (containers_of_read : forall A (f : list WorkerRow.t -> A) (w : W),
  containers (after (read f) w) = containers w).

Definition registered (i : WorkerId) (w : W) : Prop := exists r, r ∈ worker_rows w /\ WorkerRow.id r = i.

Lemma unregistered_find i w : ~ registered i w ->
  (forall found, returns (WorkerRegistry.find_by_id i) w = Ok found -> found = None) /\
  containers (after (WorkerRegistry.find_by_id i) w) = containers w /\
  worker_rows (after (WorkerRegistry.find_by_id i) w) = worker_rows w.
Proof.
  intros Hno. simpl. unfold PostgresWorkerRegistry.find_by_id, PostgresWorkerRegistry.get,
    PostgresWorkerRegistry.fetch_optional.
  set (f := fun rows => head (PostgresWorkerRegistry.where_ (PostgresWorkerRegistry.has_id i) rows)).
  assert (f (worker_rows w) = None) as Hf.
  { unfold f. destruct (head _) as [row|] eqn:Hh; [|done]. exfalso. apply Hno. exists row.
    apply head_Some in Hh as [l Hl]. assert (row ∈ row :: l) as Hin by by left. rewrite <- Hl in Hin.
    apply list_elem_of_filter in Hin as [Hid Hin]. split; [done|]. by apply bool_decide_eq_true in Hid. }
  pose proof (fun a => read_ok f w a) as Hok. pose proof (containers_of_read _ f w) as Hc.
  pose proof (read_rows f w) as Hrows.
  unfold mapping_error, mbind, method_bind, returns, after in *.
  destruct (read f w) as [w1 [row|e]]; simpl in *; [|by split_and!].
  specialize (Hok row eq_refl). rewrite Hf in Hok. subst row. simpl. split_and!; [by intros ? [= <-]|done|done].
Qed.

#[local] Instance configured : WorkerProvisioning.t W := provisioning config.

Lemma not_destroyed i w : ~ registered i w ->
  is_err (returns (DefaultWorkerProvisioningService.destroy_worker i) w) = true /\
  containers (after (DefaultWorkerProvisioningService.destroy_worker i) w) = containers w.
Proof.
  intros (Hnone & Hc & _)%unregistered_find.
  unfold DefaultWorkerProvisioningService.destroy_worker, mbind, method_bind, returns, after in *.
  destruct (WorkerRegistry.find_by_id i w) as [w1 [found|e]]; simpl in *; [|done].
  by rewrite (Hnone found eq_refl).
Qed.

(** Neither the provider nor the store of the tokens has the table of workers. *)
Context (workers_of_issue : forall i ttl (w : W), worker_rows (after (issue i ttl) w) = worker_rows w).
Context (workers_of_health : forall p (w : W), worker_rows (after (health_check p) w) = worker_rows w).
Context (workers_of_creation : forall p sp (w : W), worker_rows (after (create_worker p sp) w) = worker_rows w).

Lemma provisioning_keeps_workers i sp job w :
  worker_rows (after (provision_worker config i sp job) w) = worker_rows w.
Proof.
  apply (wp_run (provision_worker config i sp job) (fun _ w' => worker_rows w' = worker_rows w)).
  unfold provision_worker, get_provider. apply wp_bind, wp_bind, wp_self, wp_lift.
  destruct (ok_or _ _) as [provider|e]; [|done]. apply wp_bind, wp_run.
  rewrite after_mapping. pose proof (workers_of_health provider w) as Hh.
  destruct (returns _ w) as [health|e]; [|done].
  set (w1 := after (health_check provider) w) in *.
  apply wp_bind, wp_ensure; [intros _|done].
  apply wp_bind, wp_run. simpl. pose proof (workers_of_issue (WorkerSpec.worker_id sp)
    (ProvisioningConfig.otp_ttl config) w1) as Hi.
  destruct (returns _ w1) as [tok|e]; [|congruence]. set (w2 := after (issue _ _) w1) in *.
  apply wp_bind, wp_run. rewrite after_mapping.
  pose proof (workers_of_creation provider (with_environment tok job sp) w2) as Hc.
  destruct (returns _ w2) as [h|e]; [|congruence]. apply wp_ret. congruence.
Qed.

(** C24: a saga that is compensated after it created a worker leaves its container.
    The worker is not registered when it is provisioned, but when it has started
    and presents its token; until then - and just so once it has been destroyed and
    is not registered any more - the command that destroys it is refused, and no
    provider is asked. *)
Theorem compensation_leaves_the_container command d w r :
  ~ registered (WorkerSpec.worker_id (CreateWorkerCommand.spec command)) w ->
  returns (CreateWorkerHandler.handle command) w = Ok r ->
  DestroyWorkerCommand.worker_id d = WorkerProvisioningResult.worker_id r ->
  ~ registered (WorkerProvisioningResult.worker_id r) (after (CreateWorkerHandler.handle command) w) /\
  forall w', ~ registered (WorkerProvisioningResult.worker_id r) w' ->
    is_err (returns (DestroyWorkerHandler.handle d) w') = true /\
    containers (after (DestroyWorkerHandler.handle d) w') = containers w'.
Proof.
  intros Hno Hok Hd. unfold CreateWorkerHandler.handle, DestroyWorkerHandler.handle in *. rewrite after_mapping.
  apply mapping_ok in Hok. simpl in Hok |- *. unfold provision_for_saga in Hok |- *.
  apply bind_ok in Hok as (r0 & Hr0 & Hr & ->). injection Hr as <-. simpl in Hd |- *.
  destruct (provisioned_worker _ _ _ _ _ Hr0) as [Hid _]. rewrite Hid in *. split.
  - unfold registered. unfold after at 1. simpl. fold (after (provision_worker config
      (CreateWorkerCommand.provider_id command) (CreateWorkerCommand.spec command)
      (CreateWorkerCommand.job_id command)) w). by rewrite provisioning_keeps_workers.
  - intros w' [Herr Hc]%not_destroyed. rewrite Hd, after_mapping. split; [|done].
    unfold returns, mapping_error in *. simpl in *.
    by destruct (DefaultWorkerProvisioningService.destroy_worker _ w') as [w1 []].
Qed.

End provisioned.

(** ** Evaluation *)

#[local] Existing Instance concrete_order.
#[local] Existing Instance concrete_format.

(** The world of [ExampleWorkers], with tokens; provider 2 makes containers. *)
Module ExampleTokens.

Record t := mk {
  workers : ExampleWorkers.t;
  tokens : Sheet.t (TokenRow.t (E := concrete));
}.

#[global] Instance t_rebuild : Rebuild t := fun w => mk (workers w) (tokens w).

#[global] Instance tokens_sheet : Table (E := concrete) t (TokenRow.t (E := concrete)) :=
  @Build_Table concrete t (TokenRow.t (E := concrete)) (fun w => Sheet.rows (tokens w))
    (fun l w => w <| tokens := set_table_rows (E := concrete) l (tokens w) |>)
    (fun w => ExampleDatabase.clock (ExampleWorkers.outbox (workers w)))
    (fun w => let (s, o) := statement_outcome (E := concrete) (tokens w) in (w <| tokens := s |>, o)).

#[global] Instance token_database : TokenDatabase (E := concrete) t :=
  @Build_TokenDatabase concrete t tokens_sheet None (fun _ _ => None) (fun now d => now + d).

#[global] Instance token_laws : TokenDatabaseLaws (E := concrete) t.
Proof. split; [|done]. split; [done|]. by intros [x [r c [|o os]]]. Qed.

#[global] Instance workers_sheet : Table (E := concrete) t (WorkerRow.t (E := concrete)) :=
  @Build_Table concrete t (WorkerRow.t (E := concrete)) (fun w => table_rows (E := concrete) (workers w))
    (fun l w => w <| workers := set_table_rows (E := concrete) l (workers w) |>)
    (fun w => statement_time (E := concrete) (Row := WorkerRow.t (E := concrete)) (workers w))
    (fun w => let (s, o) := statement_outcome (E := concrete) (Row := WorkerRow.t (E := concrete)) (workers w) in
       (w <| workers := s |>, o)).

#[global] Instance worker_database : WorkerDatabase (E := concrete) t :=
  @Build_WorkerDatabase concrete t workers_sheet (fun _ => None) (fun now => now) (fun now => now) None
    (fun _ => None) (fun now secs => now - 1000000000 * secs) (fun l => l) (fun l => l) (fun l => l).

#[global] Instance worker_laws : WorkerDatabaseLaws (E := concrete) t.
Proof. split; try done. split; [done|]. by intros [[[r c [|o os]] x p q] y]. Qed.

#[global] Instance ambient : Ambient (E := concrete) t :=
  @Build_Ambient concrete t
    (fun w => let (s, n) := read_utc (E := concrete) (workers w) in (w <| workers := s |>, n))
    (fun w => (w, 0))
    (fun w => let (s, u) := draw_uuid (E := concrete) (workers w) in (w <| workers := s |>, u)).

#[global] Instance providers : WorkerProviders (E := concrete) unit t :=
  @Build_WorkerProviders concrete unit t
    (fun _ h w => let (s, r) := ExampleUpkeep.remove (WorkerHandle.provider_resource_id h) (workers w) in
       (w <| workers := s |>, r))
    (fun _ w => (w, Ok []))
    (fun _ r w => let (s, r) := ExampleUpkeep.remove r (workers w) in (w <| workers := s |>, r))
    (fun w => ExampleWorkers.providers (workers w))
    (fun m w => w <| workers := workers w <| ExampleWorkers.providers := m |> |>).

Definition containers (w : t) : list string := ExampleWorkers.containers (workers w).

#[global] Instance creation : WorkerCreation (E := concrete) unit t :=
  @Build_WorkerCreation concrete unit t
    (fun _ sp w =>
       (w <| workers := workers w <| ExampleWorkers.containers :=
           containers w ++ [unary (WorkerSpec.worker_id (E := concrete) sp)] |> |>,
        Ok (WorkerHandle.new (E := concrete) (WorkerSpec.worker_id sp)
              (unary (WorkerSpec.worker_id (E := concrete) sp)) ProviderType.Docker 2%nat 0)))
    (fun _ w => (w, Ok HealthStatus.Healthy)) (fun _ _ => None).

#[global] Instance registry : WorkerRegistry.t (E := concrete) t := PostgresWorkerRegistry.registry (E := concrete).

#[global] Instance configured : WorkerProvisioning.t (E := concrete) t :=
  DefaultWorkerProvisioningService.provisioning (E := concrete) (P := unit) ProvisioningConfig.default.

Definition empty : t := mk ExampleWorkers.empty (Sheet.mk [] 0 []).

(** Worker 1 is to be provisioned for job 7. *)
Definition provisioning : method t DomainError.t (ProvisioningResult.t (E := concrete)) :=
  DefaultWorkerProvisioningService.provision_worker (E := concrete) (P := unit) ProvisioningConfig.default
    2%nat ExampleWorkers.spec 7%nat.

Definition provisioned : t := after provisioning empty.

Definition presented (n : nat) : method t (DomainError.t (E := concrete)) unit :=
  PostgresWorkerBootstrapTokenStore.consume (E := concrete) (20%nat : @Uuid concrete) (n : @Uuid concrete).

Definition command : CreateWorkerCommand.t (E := concrete) :=
  CreateWorkerCommand.new (E := concrete) ExampleWorkers.spec 2%nat 7%nat "saga" 30%nat 0.
Definition destruction : DestroyWorkerCommand.t (E := concrete) :=
  DestroyWorkerCommand.new (E := concrete) 1%nat 2%nat "saga" 31%nat 0.

End ExampleTokens.

(** The token 20 is not accepted from another worker, and once from worker 1. *)
Example token_is_for_its_worker :
  is_ok (returns (ExampleTokens.presented 3) ExampleTokens.provisioned) = false /\
  returns (ExampleTokens.presented 1) ExampleTokens.provisioned = Ok tt /\
  is_ok (returns (ExampleTokens.presented 1)
    (after (ExampleTokens.presented 1) ExampleTokens.provisioned)) = false.
Proof. repeat split; reflexivity. Qed.

Example scaling_stays_within_limits_witness :
  SimpleThresholdStrategy.evaluate (E := concrete) (SimpleThresholdStrategy.new 1 10 2)
    (ScalingContext.new (E := concrete) 2%nat 7 2 3 0) =
    Some (ScalingDecision.ScaleUp (E := concrete) 2%nat 3
      "Pending jobs (7) exceed available workers (2), scaling up") /\
  2 + 3 + 0 + 3 <= 10.
Proof.
  split; [reflexivity|]. assert (1 <= 2 + 3 + 0) as Hmin by lia.
  assert (2 + 3 + 0 < 2 ^ 32) as Ht by lia. assert (7 + 2 < 2 ^ 32) as Hp by lia.
  pose proof (scaling_stays_within_limits (E := concrete) (SimpleThresholdStrategy.new 1 10 2)
    (ScalingContext.new (E := concrete) 2%nat 7 2 3 0) ltac:(done) ltac:(done) ltac:(done) Ht ltac:(done) Hp
    ltac:(done)) as Hs.
  exact (proj1 (proj2 (proj2 (proj2 Hs)) Hmin)).
Defined.

Example tokens_let_in_once_witness :
  let w := after (ExampleTokens.presented 3) (after (ExampleTokens.presented 1) ExampleTokens.provisioned) in
  returns (ExampleTokens.presented 1) w <> Ok tt.
Proof.
  assert (NoDup (TokenRow.token (E := concrete) <$>
    table_rows (E := concrete) (Row := TokenRow.t (E := concrete)) ExampleTokens.provisioned)) as Hnd.
  { apply NoDup_singleton. }
  assert (table_rows (E := concrete) (Row := TokenRow.t (E := concrete))
    (after (ExampleTokens.presented 1) ExampleTokens.provisioned) <>
    table_rows (E := concrete) (Row := TokenRow.t (E := concrete)) ExampleTokens.provisioned) as Hne by done.
  refine (proj2 (tokens_let_in_once (E := concrete) (W := ExampleTokens.t) _ _
    (20%nat : @Uuid concrete) (1%nat : @Uuid concrete) ExampleTokens.provisioned) Hnd Hne
    (1%nat : @Uuid concrete) _ (later_consume _ _ (3%nat : @Uuid concrete) _ _ (later_refl _ _))); by intros [].
Defined.

Example provisioned_workers_are_let_in_witness :
  exists tok : @Uuid concrete, OtpToken.from_str (E := concrete) (unary 20) = Ok tok /\
    returns (PostgresWorkerBootstrapTokenStore.consume (E := concrete) tok (1%nat : @Uuid concrete))
      ExampleTokens.provisioned = Ok tt.
Proof.
  assert (returns ExampleTokens.provisioning ExampleTokens.empty =
    Ok (ProvisioningResult.mk (E := concrete) 1%nat (unary 20) 2%nat)) as Hok by reflexivity.
  assert (forall (p : unit) sp (w : ExampleTokens.t),
    table_rows (E := concrete) (Row := TokenRow.t (E := concrete)) (after (create_worker (E := concrete) p sp) w) =
    table_rows (E := concrete) (Row := TokenRow.t (E := concrete)) w) as Hc by done.
  destruct (provisioned_workers_are_let_in (E := concrete) (P := unit) (W := ExampleTokens.t)
    (TokenDatabase0 := ExampleTokens.token_database) (WorkerCreation0 := ExampleTokens.creation)
    ProvisioningConfig.default Hc 2%nat ExampleWorkers.spec 7%nat ExampleTokens.empty _ Hok)
    as (_ & _ & provider & tok & _ & Htok & _ & Hin).
  exists tok. split; [exact Htok|]. apply Hin; destruct provider; reflexivity.
Defined.

Example compensation_leaves_the_container_witness :
  is_err (returns (DestroyWorkerHandler.handle (E := concrete) ExampleTokens.destruction)
    (after (CreateWorkerHandler.handle (E := concrete) ExampleTokens.command) ExampleTokens.empty)) = true /\
  ExampleTokens.containers (after (DestroyWorkerHandler.handle (E := concrete) ExampleTokens.destruction)
    (after (CreateWorkerHandler.handle (E := concrete) ExampleTokens.command) ExampleTokens.empty)) = [unary 1].
Proof.
  set (w' := after (CreateWorkerHandler.handle (E := concrete) ExampleTokens.command) ExampleTokens.empty).
  assert (returns (CreateWorkerHandler.handle (E := concrete) ExampleTokens.command) ExampleTokens.empty =
    Ok (WorkerProvisioningResult.mk (E := concrete) 1%nat 2%nat 7%nat)) as Hok by reflexivity.
  assert (ExampleTokens.containers w' = [unary 1]) as Hw' by reflexivity.
  assert (~ registered (E := concrete) (W := ExampleTokens.t) (1%nat : @Uuid concrete) ExampleTokens.empty) as Hno.
  { intros (r & Hr & _). change (r ∈ []) in Hr. by apply not_elem_of_nil in Hr. }
  assert (forall A (f : list (WorkerRow.t (E := concrete)) -> A) (w : ExampleTokens.t),
    ExampleTokens.containers (after (read (E := concrete) f) w) = ExampleTokens.containers w) as Hread.
  { intros A f [[[rows clock [|o os]] x c m] y]; [done|by destruct o]. }
  pose proof (compensation_leaves_the_container (E := concrete) (P := unit) (W := ExampleTokens.t)
    ProvisioningConfig.default ExampleTokens.containers Hread) as Hc.
  assert (forall i ttl (w : ExampleTokens.t),
    table_rows (E := concrete) (Row := WorkerRow.t (E := concrete))
      (after (PostgresWorkerBootstrapTokenStore.issue (E := concrete) i ttl) w) =
    table_rows (E := concrete) (Row := WorkerRow.t (E := concrete)) w) as Hissue.
  { intros i ttl [x [rows clock [|o os]]]; [done|by destruct o]. }
  destruct (Hc Hissue ltac:(done) ltac:(done) ExampleTokens.command ExampleTokens.destruction _ _ Hno Hok eq_refl)
    as [Hout Hleft].
  destruct (Hleft w' Hout) as [Herr Hsame]. split; [exact Herr|]. exact (eq_trans Hsame Hw').
Defined.
