(* ===== verification/Wire.v ===== *)
(** * The messages between the server, its workers and its clients
    ([proto/src/generated/hodei.rs])

    The types that the protocol buffers of the repository are compiled to, those
    that the handlers of [LogStream] and [WorkerGateway] read and write.  A field
    of a wire integer is a [Z]; a [oneof] is an inductive type, and the message that
    holds it may have none of its cases.  The timestamps and durations are of the
    library of the protocol. *)

From Stdlib Require Import String.
From S2P Require Import Prelude Std.

Class WireTypes := {
  Timestamp : Type;
  ProtoDuration : Type;
}.

Module JobId.
(** src: proto/src/generated/hodei.rs 4-7 JobId *)
Record t := mk {
  value : string;
}.
End JobId.

Module WorkerId.
(** src: proto/src/generated/hodei.rs 9-12 WorkerId *)
Record t := mk {
  value : string;
}.
End WorkerId.

Module ResourceCapacity.
(** src: proto/src/generated/hodei.rs 25-44 ResourceCapacity *)
Record t := mk {
  cpu_cores : f64;
  memory_bytes : Z;
  disk_bytes : Z;
  gpu_count : Z;
  custom_resources : gmap string Z;
}.
End ResourceCapacity.

Module ResourceUsage.
(** src: proto/src/generated/hodei.rs 47-63 ResourceUsage *)
Record t := mk {
  cpu_cores : f64;
  memory_bytes : Z;
  disk_bytes : Z;
  gpu_count : Z;
  custom_usage : gmap string Z;
}.
End ResourceUsage.

Module LabelSelectorRequirement.
(** src: proto/src/generated/hodei.rs 113-121 LabelSelectorRequirement *)
Record t := mk {
  key : string;
  operator : string;
  values : list string;
}.
End LabelSelectorRequirement.

Module LabelSelector.
(** src: proto/src/generated/hodei.rs 103-111 LabelSelector *)
Record t := mk {
  match_labels : gmap string string;
  match_expressions : list LabelSelectorRequirement.t;
}.
End LabelSelector.

Module NodeSelector.
(** src: proto/src/generated/hodei.rs 123-129 NodeSelector *)
Record t := mk {
  node_labels : gmap string string;
}.
End NodeSelector.

Module LabelSelectorRequiredDuringScheduling.
(** src: proto/src/generated/hodei.rs 149-152 LabelSelectorRequiredDuringScheduling *)
Record t := mk {
  label_selector : option LabelSelector.t;
}.
End LabelSelectorRequiredDuringScheduling.

Module NodeAffinity.
(** src: proto/src/generated/hodei.rs 140-147 NodeAffinity *)
Record t := mk {
  preferred_during_scheduling : list LabelSelectorRequirement.t;
  required_during_scheduling : option LabelSelectorRequiredDuringScheduling.t;
}.
End NodeAffinity.

Module PodAffinity.
(** src: proto/src/generated/hodei.rs 154-161 PodAffinity *)
Record t := mk {
  preferred_during_scheduling : list LabelSelectorRequirement.t;
  required_during_scheduling : list LabelSelectorRequiredDuringScheduling.t;
}.
End PodAffinity.

Module PodAntiAffinity.
(** src: proto/src/generated/hodei.rs 163-170 PodAntiAffinity *)
Record t := mk {
  preferred_during_scheduling : list LabelSelectorRequirement.t;
  required_during_scheduling : list LabelSelectorRequiredDuringScheduling.t;
}.
End PodAntiAffinity.

Module Affinity.
(** src: proto/src/generated/hodei.rs 131-138 Affinity *)
Record t := mk {
  node_affinity : option NodeAffinity.t;
  pod_affinity : option PodAffinity.t;
  pod_anti_affinity : option PodAntiAffinity.t;
}.
End Affinity.

Module Toleration.
Section message.
Context `{!WireTypes}.
(** src: proto/src/generated/hodei.rs 172-182 Toleration *)
Record t := mk {
  key : string;
  operator : string;
  value : string;
  toleration_seconds : option ProtoDuration;
}.
End message.
End Toleration.

Module Taint.
(** src: proto/src/generated/hodei.rs 184-192 Taint *)
Record t := mk {
  key : string;
  value : string;
  effect : string;
}.
End Taint.

Module WorkerInfo.
Section message.
Context `{!WireTypes}.
(** src: proto/src/generated/hodei.rs 240-273 WorkerInfo *)
Record t := mk {
  worker_id : option WorkerId.t;
  name : string;
  version : string;
  hostname : string;
  ip_address : string;
  os_info : string;
  architecture : string;
  capacity : option ResourceCapacity.t;
  capabilities : list string;
  taints : list Taint.t;
  labels : gmap string string;
  tolerations : list Toleration.t;
  affinity : option Affinity.t;
  start_time : option Timestamp;
}.
End message.
End WorkerInfo.

Module WorkerHeartbeat.
Section message.
Context `{!WireTypes}.
(** src: proto/src/generated/hodei.rs 331-346 WorkerHeartbeat *)
Record t := mk {
  worker_id : option WorkerId.t;
  status : Z;
  usage : option ResourceUsage.t;
  active_jobs : Z;
  running_job_ids : list string;
  timestamp : option Timestamp;
  dropped_logs : Z;
}.
End message.
End WorkerHeartbeat.

Module RegisterWorkerRequest.
Section message.
Context `{!WireTypes}.
(** src: proto/src/generated/hodei.rs 349-363 RegisterWorkerRequest *)
Record t := mk {
  auth_token : string;
  worker_info : option WorkerInfo.t;
  session_id : string;
  timeout_config : option Timestamp;
  job_id : option string;
}.
End message.
End RegisterWorkerRequest.

Module RegisterWorkerResponse.
Section message.
Context `{!WireTypes}.
(** src: proto/src/generated/hodei.rs 365-377 RegisterWorkerResponse *)
Record t := mk {
  worker_id : option WorkerId.t;
  success : bool;
  message : string;
  session_id : string;
  registration_time : option Timestamp;
}.
End message.
End RegisterWorkerResponse.

Module SelfTerminateMessage.
(** src: proto/src/generated/hodei.rs 409-424 SelfTerminateMessage *)
Record t := mk {
  worker_id : string;
  last_job_id : string;
  expected_cleanup_ms : Z;
  actual_wait_ms : Z;
  reason : string;
}.
End SelfTerminateMessage.

Module LogEntry.
Section message.
Context `{!WireTypes}.
(** src: proto/src/generated/hodei.rs 433-442 LogEntry *)
Record t := mk {
  job_id : string;
  line : string;
  is_stderr : bool;
  timestamp : option Timestamp;
}.
End message.
End LogEntry.

Module LogBatch.
Section message.
Context `{!WireTypes}.
(** src: proto/src/generated/hodei.rs 426-431 LogBatch *)
Record t := mk {
  job_id : string;
  entries : list LogEntry.t;
}.
End message.
End LogBatch.

Module JobResultMessage.
Section message.
Context `{!WireTypes}.
(** src: proto/src/generated/hodei.rs 444-455 JobResultMessage *)
Record t := mk {
  job_id : string;
  exit_code : Z;
  success : bool;
  error_message : string;
  completed_at : option Timestamp;
}.
End message.
End JobResultMessage.

Module ResourceUsageMessage.
(** src: proto/src/generated/hodei.rs 457-464 ResourceUsageMessage *)
Record t := mk {
  cpu_percent : f64;
  memory_bytes : Z;
  disk_bytes : Z;
}.
End ResourceUsageMessage.

Module WorkerStatusNotification.
(** src: proto/src/generated/hodei.rs 466-471 WorkerStatusNotification *)
Record t := mk {
  status : Z;
  reason : string;
}.
End WorkerStatusNotification.

Module AckMessage.
(** src: proto/src/generated/hodei.rs 568-575 AckMessage *)
Record t := mk {
  message_id : string;
  success : bool;
  worker_id : string;
}.
End AckMessage.

Module WorkerPayload.
Section message.
Context `{!WireTypes}.
(** src: proto/src/generated/hodei.rs 387-404 worker_message::Payload *)
Inductive t :=
  | Heartbeat (_ : WorkerHeartbeat.t)
  | Log (_ : LogEntry.t)
  | LogBatch (_ : LogBatch.t)
  | Result (_ : JobResultMessage.t)
  | Stats (_ : ResourceUsageMessage.t)
  | Status (_ : WorkerStatusNotification.t)
  | Ack (_ : AckMessage.t)
  | SelfTerminate (_ : SelfTerminateMessage.t).
End message.
End WorkerPayload.

Module WorkerMessage.
Section message.
Context `{!WireTypes}.
(** src: proto/src/generated/hodei.rs 380-383 WorkerMessage *)
Record t := mk {
  payload : option WorkerPayload.t;
}.
End message.
End WorkerMessage.

Module ShellCommand.
(** src: proto/src/generated/hodei.rs 533-538 ShellCommand *)
Record t := mk {
  cmd : string;
  args : list string;
}.
End ShellCommand.

Module ScriptCommand.
(** src: proto/src/generated/hodei.rs 540-545 ScriptCommand *)
Record t := mk {
  interpreter : string;
  content : string;
}.
End ScriptCommand.

Module CommandType.
(** src: proto/src/generated/hodei.rs 525-530 command_spec::CommandType *)
Inductive t :=
  | Shell (_ : ShellCommand.t)
  | Script (_ : ScriptCommand.t).
End CommandType.

Module CommandSpec.
(** src: proto/src/generated/hodei.rs 518-521 CommandSpec *)
Record t := mk {
  command_type : option CommandType.t;
}.
End CommandSpec.

Module ArtifactInput.
(** src: proto/src/generated/hodei.rs 547-552 ArtifactInput *)
Record t := mk {
  url : string;
  dest_path : string;
}.
End ArtifactInput.

Module ArtifactOutput.
(** src: proto/src/generated/hodei.rs 554-559 ArtifactOutput *)
Record t := mk {
  src_path : string;
  url : string;
}.
End ArtifactOutput.

Module RunJobCommand.
(** src: proto/src/generated/hodei.rs 493-516 RunJobCommand *)
Record t := mk {
  job_id : string;
  command : option CommandSpec.t;
  env : gmap string string;
  inputs : list ArtifactInput.t;
  outputs : list ArtifactOutput.t;
  timeout_ms : Z;
  working_dir : string;
  stdin : option string;
  secrets_json : option string;
}.
End RunJobCommand.

Module CancelJobCommand.
(** src: proto/src/generated/hodei.rs 561-566 CancelJobCommand *)
Record t := mk {
  job_id : string;
  force : bool;
}.
End CancelJobCommand.

Module KeepAliveMessage.
Section message.
Context `{!WireTypes}.
(** src: proto/src/generated/hodei.rs 577-580 KeepAliveMessage *)
Record t := mk {
  timestamp : option Timestamp;
}.
End message.
End KeepAliveMessage.

Module ServerPayload.
Section message.
Context `{!WireTypes}.
(** src: proto/src/generated/hodei.rs 481-490 server_message::Payload *)
Inductive t :=
  | RunJob (_ : RunJobCommand.t)
  | Cancel (_ : CancelJobCommand.t)
  | Ack (_ : AckMessage.t)
  | KeepAlive (_ : KeepAliveMessage.t).
End message.
End ServerPayload.

Module ServerMessage.
Section message.
Context `{!WireTypes}.
(** src: proto/src/generated/hodei.rs 474-477 ServerMessage *)
Record t := mk {
  payload : option ServerPayload.t;
}.
End message.
End ServerMessage.

Module UpdateWorkerStatusRequest.
(** src: proto/src/generated/hodei.rs 583-594 UpdateWorkerStatusRequest *)
Record t := mk {
  worker_id : option WorkerId.t;
  status : Z;
  usage : option ResourceUsage.t;
  active_jobs : Z;
  running_job_ids : list string;
}.
End UpdateWorkerStatusRequest.

Module UpdateWorkerStatusResponse.
Section message.
Context `{!WireTypes}.
(** src: proto/src/generated/hodei.rs 596-603 UpdateWorkerStatusResponse *)
Record t := mk {
  success : bool;
  message : string;
  timestamp : option Timestamp;
}.
End message.
End UpdateWorkerStatusResponse.

Module UnregisterWorkerRequest.
(** src: proto/src/generated/hodei.rs 605-612 UnregisterWorkerRequest *)
Record t := mk {
  worker_id : option WorkerId.t;
  force : bool;
  reason : string;
}.
End UnregisterWorkerRequest.

Module UnregisterWorkerResponse.
(** src: proto/src/generated/hodei.rs 614-621 UnregisterWorkerResponse *)
Record t := mk {
  success : bool;
  message : string;
  jobs_migrated : Z;
}.
End UnregisterWorkerResponse.

Module SubscribeLogsRequest.
(** src: proto/src/generated/hodei.rs 1261-1270 SubscribeLogsRequest *)
Record t := mk {
  job_id : string;
  include_history : bool;
  tail_lines : Z;
}.
End SubscribeLogsRequest.

Module JobLogEntry.
Section message.
Context `{!WireTypes}.
(** src: proto/src/generated/hodei.rs 1273-1285 JobLogEntry *)
Record t := mk {
  job_id : string;
  line : string;
  is_stderr : bool;
  timestamp : option Timestamp;
  sequence : Z;
}.
End message.
End JobLogEntry.

Module GetLogsRequest.
(** src: proto/src/generated/hodei.rs 1288-1297 GetLogsRequest *)
Record t := mk {
  job_id : string;
  limit : Z;
  since_sequence : Z;
}.
End GetLogsRequest.

Module GetLogsResponse.
Section message.
Context `{!WireTypes}.
(** src: proto/src/generated/hodei.rs 1299-1304 GetLogsResponse *)
Record t := mk {
  entries : list JobLogEntry.t;
  has_more : bool;
}.
End message.
End GetLogsResponse.
