(* ===== verification/LogStream.v ===== *)
(** * The logs of the jobs
    ([crates/server/interface/src/grpc/log_stream.rs, log_ingestor.rs],
    [crates/server/interface/src/log_persistence.rs])

    The service keeps the last lines of each job, hands new ones to the clients
    that follow the job, and to a storage if it has one.  The ingestor is between
    the streams of the workers and the service.

    A channel is bounded: a sender waits when it is full and the receiver is still
    there.  The maps of the service are sharded; whoever holds a reference into a
    shard across such a wait keeps everybody from writing to it.  So an operation is
    a [Task]: it has steps, some of which wait for a condition, and a task that waits
    can go on when others have changed the service.  A task waits for ever for a
    receiver that it holds itself.  A wait for a shard holds the thread, and is a
    wait like another here.  A task whose client gives up, and which is dropped, is
    not modelled.  The storage is a parameter; of its implementations, that which is
    disabled is here. *)

From Stdlib Require Import String.
From S2P Require Import Prelude Effects Std Externs Wire.

(** ** Bounded channels *)

Module Channel.

(** [receiving]: the receiver was not dropped. *)
Record t (A : Type) := mk { capacity : nat; queue : list A; receiving : bool }.
Arguments mk {A}.
Arguments capacity {A}.
Arguments queue {A}.
Arguments receiving {A}.

#[global] Instance t_rebuild {A} : Rebuild (t A) := fun c => mk (capacity c) (queue c) (receiving c).

(** [mpsc::channel(n)]. *)
Definition channel {A} (n : nat) : t A := mk n [] true.

Definition is_full {A} (c : t A) : bool := receiving c && bool_decide (capacity c <= length (queue c))%nat.

(** [tx.send(a).await]: [None] waits; the answer is whether it was sent. *)
Definition send {A} (a : A) (c : t A) : option (t A * bool) :=
  if is_full c then None
  else if receiving c then Some (c <| queue := queue c ++ [a] |>, true)
  else Some (c, false).

(** All of [l], an error not being looked at. *)
Fixpoint send_all {A} (l : list A) (c : t A) : option (t A) :=
  match l with
  | [] => Some c
  | a :: l => r ← send a c; send_all l r.1
  end.

(** What the client does. *)
Definition receive {A} (c : t A) : t A := c <| queue := tail (queue c) |>.
Definition hang_up {A} (c : t A) : t A := c <| receiving := false |>.

End Channel.

(** ** Tasks *)

Module Task.

(** A task on a state: it has ended, it waits until it is ready and then changes the
    state and goes on, as the state was, or it waits for ever. *)
Inductive t (S A : Type) : Type :=
  | Ret (a : A)
  | Await (ready : S -> bool) (change : S -> S) (next : S -> t S A)
  | Forever.
Arguments Ret {S A}.
Arguments Await {S A}.
Arguments Forever {S A}.

Fixpoint bind {S A B} (f : A -> t S B) (p : t S A) : t S B :=
  match p with
  | Ret a => f a
  | Await ready change next => Await ready change (fun s => bind f (next s))
  | Forever => Forever
  end.

#[global] Instance task_ret {S} : MRet (t S) := fun A a => Ret a.
#[global] Instance task_bind {S} : MBind (t S) := fun A B f p => bind f p.

Definition await {S A} (ready : S -> bool) (f : S -> S * A) : t S A :=
  Await ready (fun s => (f s).1) (fun s => Ret (f s).2).
Definition step {S A} (f : S -> S * A) : t S A := await (fun _ => true) f.

(** As far as it gets: it has ended, or what is left of it waits. *)
Fixpoint run {S A} (p : t S A) (s : S) : S * (A + t S A) :=
  match p with
  | Ret a => (s, inl a)
  | Await ready change next => if ready s then run (next s) (change s) else (s, inr p)
  | Forever => (s, inr Forever)
  end.

(** For who calls it: a task that waits is [Blocked]. *)
Definition completing {S X A} (p : t S A) : method S (exn X) A := fun s =>
  match run p s with
  | (s, inl a) => (s, Ok a)
  | (s, inr _) => (s, Err Blocked)
  end.

(** Whatever step is done, and whenever, it is in [R]. *)
Fixpoint keeps {S A} (R : S -> S -> Prop) (p : t S A) : Prop :=
  match p with
  | Ret _ | Forever => True
  | Await ready change next => forall s, ready s = true -> R s (change s) /\ keeps R (next s)
  end.

Lemma run_bind {S A B} (f : A -> t S B) (p : t S A) s :
  run (p ≫= f) s = match run p s with
                   | (s, inl a) => run (f a) s
                   | (s, inr p) => (s, inr (p ≫= f))
                   end.
Proof.
  revert s. induction p as [a|ready change next IH|]; intros s; simpl; [done| |done].
  destruct (ready s); [apply IH|done].
Qed.

Lemma keep_bind {S A B} R (f : A -> t S B) (p : t S A) :
  keeps R p -> (forall a, keeps R (f a)) -> keeps R (p ≫= f).
Proof.
  induction p as [a|ready change next IH|]; simpl; [by intros _ Hf|intros Hp Hf|done].
  intros s Hr. destruct (Hp s Hr) as [HR Hn]. split; [done|]. by apply IH.
Qed.

Lemma keep_await {S A} (R : S -> S -> Prop) ready (f : S -> S * A) :
  (forall s, ready s = true -> R s (f s).1) -> keeps R (await ready f).
Proof. intros HR s Hr. split; [by apply HR|done]. Qed.

Lemma keep_run {S A} (R : S -> S -> Prop) (p : t S A) s : Reflexive R -> Transitive R -> keeps R p ->
  R s (run p s).1 /\ match (run p s).2 with inl _ => True | inr p' => keeps R p' end.
Proof.
  intros Hr Ht. revert s. induction p as [a|ready change next IH|]; intros s Hp; simpl; [done| |done].
  destruct (ready s) eqn:Hs; [|done]. destruct (Hp s Hs) as [HR Hn].
  destruct (IH s (change s) Hn) as [HR' Hp']. split; [by etrans|done].
Qed.

End Task.

(** The shard of a key, in the map of the logs and in that of the subscribers. *)
Class Shards := { logs_shard : string -> nat; subscribers_shard : string -> nat }.

(** A guard less on a shard. *)
Fixpoint drop_guard (shard : nat) (guards : list nat) : list nat :=
  match guards with
  | [] => []
  | g :: guards => if decide (g = shard) then guards else g :: drop_guard shard guards
  end.

(** ** Persistence *)

Module LogStorageRef.
Section ref.
Context `{E : Externs}.
(** src: crates/server/interface/src/log_persistence.rs 56-62 LogStorageRef *)
Record t := mk {
  job_id : string;
  storage_uri : string;
  size_bytes : Z;
  created_at : DateTime;
  entry_count : Z;
}.
End ref.
End LogStorageRef.

(** src: crates/server/interface/src/log_persistence.rs 66-90 LogStorage *)
Class LogStorage `{E : Externs} `{!WireTypes} (Store : Type) := {
  storage_append_log : string -> string -> bool -> option Timestamp -> method Store string unit;
  storage_finalize_job_log : string -> method Store string LogStorageRef.t;
  storage_cleanup_old_logs : Z -> method Store string (list string);
}.

(** src: crates/server/interface/src/log_persistence.rs 306-306 DisabledStorage *)
Inductive DisabledStorage := disabled.

(** src: crates/server/interface/src/log_persistence.rs 309-337 DisabledStorage (LogStorage) *)
#[global] Instance disabled_storage `{E : Externs} `{!WireTypes} : LogStorage DisabledStorage := {|
  storage_append_log := fun _ _ _ _ => mret tt;
  storage_finalize_job_log := fun _ => throw "Log persistence disabled";
  storage_cleanup_old_logs := fun _ => mret [];
|}.

(** ** The service *)

Module BufferedLogEntry.
Section entry.
Context `{!WireTypes}.
(** src: crates/server/interface/src/grpc/log_stream.rs 32-38 BufferedLogEntry *)
Record t := mk {
  job_id : string;
  line : string;
  is_stderr : bool;
  timestamp : option Timestamp;
  sequence : Z;
}.

Definition of_entry (e : LogEntry.t) (sequence : Z) : t :=
  mk (LogEntry.job_id e) (LogEntry.line e) (LogEntry.is_stderr e) (LogEntry.timestamp e) sequence.

(** src: crates/server/interface/src/grpc/log_stream.rs 173-178 LogStreamService::subscribe (entry) *)
Definition log_entry (e : t) : LogEntry.t :=
  LogEntry.mk (job_id e) (line e) (is_stderr e) (timestamp e).

(** src: crates/server/interface/src/grpc/log_stream.rs 351-357 LogStreamServiceGrpc::subscribe_logs (entry) *)
Definition job_log_entry (e : t) : JobLogEntry.t :=
  JobLogEntry.mk (job_id e) (line e) (is_stderr e) (timestamp e) (Prelude.as_i64 (sequence e)).
End entry.
End BufferedLogEntry.

(** A [DashMap] entry of type [Vec], made if it is not there. *)
Definition push_to {A} (k : string) (a : A) (m : gmap string (list A)) : gmap string (list A) :=
  <[k := default [] (m !! k) ++ [a]]> m.

(** [l.iter().rev().take(n).rev()]. *)
Definition last_n {A} (n : nat) (l : list A) : list A := reverse (take n (reverse l)).

Module LogStreamService.
Section service.
Context `{E : Externs} `{!WireTypes} `{!Shards} {Store : Type} `{!LogStorage Store}.

(** src: crates/server/interface/src/grpc/log_stream.rs 28-28 LOG_BUFFER_SIZE *)
Definition LOG_BUFFER_SIZE : nat := 1000.

(** The senders of a job are numbers of [channels]; [on_log_finalized] is what the
    callback was called with, if there is one.  [held_logs] and [held_subscribers]
    are the shards into which tasks that wait have references, one for each. *)
(** src: crates/server/interface/src/grpc/log_stream.rs 41-52 LogStreamService *)
Record t := mk {
  logs : gmap string (list BufferedLogEntry.t);
  subscribers : gmap string (list nat);
  sequences : gmap string Z;
  storage : option Store;
  on_log_finalized : option (list LogStorageRef.t);
  channels : list (Channel.t LogEntry.t);
  held_logs : list nat;
  held_subscribers : list nat;
}.

#[global] Instance t_rebuild : Rebuild t := fun s =>
  mk (logs s) (subscribers s) (sequences s) (storage s) (on_log_finalized s) (channels s) (held_logs s)
    (held_subscribers s).

(** src: crates/server/interface/src/grpc/log_stream.rs 77-85 LogStreamService::new *)
Definition new : t := mk ∅ ∅ ∅ None None [] [] [].

(** src: crates/server/interface/src/grpc/log_stream.rs 88-100 LogStreamService::with_storage *)
Definition with_storage (store : Store) (callback : bool) : t :=
  mk ∅ ∅ ∅ (Some store) (if callback then Some [] else None) [] [] [].

Abbreviation doing := (Task.t t).

(** The entry of a job can be written. *)
Definition logs_free (job : string) (s : t) : bool := bool_decide (logs_shard job ∉ held_logs s).
Definition subscribers_free (job : string) (s : t) : bool :=
  bool_decide (subscribers_shard job ∉ held_subscribers s).

Definition change (f : t -> t) : doing unit := Task.step (fun s => (f s, tt)).

(** src: crates/server/interface/src/grpc/log_stream.rs 107-111 LogStreamService::append_log (sequence) *)
Definition next_sequence (job : string) : doing Z :=
  Task.step (fun s =>
    let sequence := u64_add (default 0 (sequences s !! job)) 1 in
    (s <| sequences := <[job := sequence]> (sequences s) |>, sequence)).

(** src: crates/server/interface/src/grpc/log_stream.rs 125-128 LogStreamService::append_log (push) *)
Definition push_entry (e : BufferedLogEntry.t) (buffer : list BufferedLogEntry.t) :
    list BufferedLogEntry.t :=
  (if bool_decide (LOG_BUFFER_SIZE <= length buffer)%nat then tail buffer else buffer) ++ [e].

(** src: crates/server/interface/src/grpc/log_stream.rs 121-129 LogStreamService::append_log (buffer) *)
Definition buffer_entry (e : BufferedLogEntry.t) : doing unit :=
  let job := BufferedLogEntry.job_id e in
  Task.await (logs_free job) (fun s =>
    (s <| logs := <[job := push_entry e (default [] (logs s !! job))]> (logs s) |>, tt)).

(** There is room in a channel, or nobody to wait for. *)
Definition has_room (tx : nat) (s : t) : bool :=
  negb (default false (Channel.is_full <$> channels s !! tx)).

(** src: crates/server/interface/src/grpc/log_stream.rs 134-142 LogStreamService::append_log (subscriber) *)
Definition notify (entry : LogEntry.t) (tx : nat) : doing unit :=
  Task.await (has_room tx) (fun s =>
    match channels s !! tx ≫= Channel.send entry with
    | Some (c, _) => (s <| channels := <[tx := c]> (channels s) |>, tt)
    | None => (s, tt)
    end).

Fixpoint notify_all (entry : LogEntry.t) (job_subs : list nat) : doing unit :=
  match job_subs with
  | [] => mret tt
  | tx :: job_subs => notify entry tx;; notify_all entry job_subs
  end.

(** The reference into the map lives as long as the loop. *)
(** src: crates/server/interface/src/grpc/log_stream.rs 131-144 LogStreamService::append_log (subscribers) *)
Definition notify_subscribers (entry : LogEntry.t) : doing unit :=
  let job := LogEntry.job_id entry in
  let shard := subscribers_shard job in
  found ← Task.step (fun s =>
    match subscribers s !! job with
    | Some ids => (s <| held_subscribers := shard :: held_subscribers s |>, Some ids)
    | None => (s, None)
    end);
  match found with
  | None => mret tt
  | Some job_subs =>
      notify_all entry job_subs;;
      change (fun s => s <| held_subscribers := drop_guard shard (held_subscribers s) |>)
  end.

(** An error of the storage is only logged. *)
(** src: crates/server/interface/src/grpc/log_stream.rs 147-159 LogStreamService::append_log (storage) *)
Definition persist (entry : LogEntry.t) : doing unit :=
  change (fun s =>
    match storage s with
    | None => s
    | Some store =>
        s <| storage := Some (after (storage_append_log (LogEntry.job_id entry) (LogEntry.line entry)
          (LogEntry.is_stderr entry) (LogEntry.timestamp entry)) store) |>
    end).

(** src: crates/server/interface/src/grpc/log_stream.rs 103-162 LogStreamService::append_log *)
Definition append_log (entry : LogEntry.t) : doing unit :=
  sequence ← next_sequence (LogEntry.job_id entry);
  buffer_entry (BufferedLogEntry.of_entry entry sequence);;
  notify_subscribers entry;;
  persist entry.

(** The receiver is returned at the end: until then nobody takes from it.  Who waits
    to send what is buffered waits with a reference into the map of the logs. *)
(** src: crates/server/interface/src/grpc/log_stream.rs 166-182 LogStreamService::subscribe (buffered) *)
Definition send_buffered (job : string) : doing (Channel.t LogEntry.t) :=
  let sent s := Channel.send_all (BufferedLogEntry.log_entry <$> default [] (logs s !! job)) (Channel.channel 100) in
  Task.Await (fun _ => true)
    (fun s => match sent s with
              | None => s <| held_logs := logs_shard job :: held_logs s |>
              | Some _ => s
              end)
    (fun s => match sent s with None => Task.Forever | Some c => Task.Ret c end).

(** src: crates/server/interface/src/grpc/log_stream.rs 184-191 LogStreamService::subscribe (register) *)
Definition add_subscriber (job : string) (c : Channel.t LogEntry.t) : doing nat :=
  Task.await (subscribers_free job) (fun s =>
    let tx := length (channels s) in
    (s <| channels := channels s ++ [c] |> <| subscribers := push_to job tx (subscribers s) |>, tx)).

(** src: crates/server/interface/src/grpc/log_stream.rs 165-194 LogStreamService::subscribe *)
Definition subscribe (job : string) : doing nat := c ← send_buffered job; add_subscriber job c.

(** src: crates/server/interface/src/grpc/log_stream.rs 197-216 LogStreamService::get_logs *)
Definition get_logs (job : string) (limit : option nat) (s : t) : list LogEntry.t :=
  match logs s !! job with
  | None => []
  | Some buffer => BufferedLogEntry.log_entry <$> last_n (default (length buffer) limit) buffer
  end.

(** src: crates/server/interface/src/grpc/log_stream.rs 268-271 LogStreamService::close_subscribers *)
Definition close_subscribers (job : string) : doing unit :=
  Task.await (subscribers_free job) (fun s => (s <| subscribers := delete job (subscribers s) |>, tt)).

(** src: crates/server/interface/src/grpc/log_stream.rs 219-225 LogStreamService::clear_logs *)
Definition clear_logs (job : string) : doing unit :=
  Task.await (logs_free job) (fun s => (s <| logs := delete job (logs s) |>, tt));;
  close_subscribers job;;
  change (fun s => s <| sequences := delete job (sequences s) |>).

(** An error of the storage is logged, and no error of this method. *)
(** src: crates/server/interface/src/grpc/log_stream.rs 228-265 LogStreamService::finalize_job_log *)
Definition finalize_job_log (job : string) : doing (option LogStorageRef.t) :=
  log_ref ← Task.step (fun s =>
    match storage s with
    | None => (s, None)
    | Some store =>
        let (store, r) := storage_finalize_job_log job store in
        (s <| storage := Some store |>, match r with Ok log_ref => Some log_ref | Err _ => None end)
    end);
  clear_logs job;;
  match log_ref with
  | None => mret None
  | Some r =>
      change (fun s => s <| on_log_finalized := (fun l => l ++ [r]) <$> on_log_finalized s |>);;
      mret (Some r)
  end.

(** src: crates/server/interface/src/grpc/log_stream.rs 274-293 LogStreamService::get_logs_with_sequence *)
Definition get_logs_with_sequence (job : string) (limit : option nat) (since_sequence : option Z) (s : t) :
    list BufferedLogEntry.t :=
  match logs s !! job with
  | None => []
  | Some buffer =>
      let filtered := filter (fun e =>
        match since_sequence with None => true | Some seq => seq <? BufferedLogEntry.sequence e end = true) buffer in
      last_n (default (length filtered) limit) filtered
  end.

End service.
End LogStreamService.

(** ** The gRPC service *)

(** A client that follows a job: the receiver of its task's entries, and the
    sender to it. *)
Module LogFollower.
Section follower.
Context `{!WireTypes}.
Record t := mk { source : nat; output : Channel.t JobLogEntry.t }.
#[global] Instance t_rebuild : Rebuild t := fun f => mk (source f) (output f).
End follower.
End LogFollower.

(** What the task of a follower does next: it waits for an entry or for room, it
    goes on, or it ends. *)
Inductive forwarding {A : Type} := Idle | Full | Forwarded (a : A) | Ended.
Arguments forwarding : clear implicits.

Module LogStreamServiceGrpc.
Section service.
Context `{E : Externs} `{!WireTypes} `{!Shards} {Store : Type} `{!LogStorage Store}.
Import LogStreamService.
Abbreviation doing := (Task.t (LogStreamService.t (Store := Store))).

(** An [i32] or [i64] that counts if it is positive. *)
Definition positive_limit (z : Z) : option nat := if 0 <? z then Some (Z.to_nat z) else None.

(** src: crates/server/interface/src/grpc/log_stream.rs 339-349 LogStreamServiceGrpc::subscribe_logs (history) *)
Definition history (req : SubscribeLogsRequest.t) (s : LogStreamService.t (Store := Store)) : list JobLogEntry.t :=
  if SubscribeLogsRequest.include_history req then
    BufferedLogEntry.job_log_entry <$>
      get_logs_with_sequence (SubscribeLogsRequest.job_id req)
        (positive_limit (SubscribeLogsRequest.tail_lines req)) None s
  else [].

(** What is sent is a copy; the receiver is part of the response. *)
(** src: crates/server/interface/src/grpc/log_stream.rs 334-362 LogStreamServiceGrpc::subscribe_logs (sending) *)
Definition send_history (req : SubscribeLogsRequest.t) : doing (Channel.t JobLogEntry.t) :=
  Task.Await (fun _ => true) id (fun s =>
    match Channel.send_all (history req s) (Channel.channel 100) with
    | None => Task.Forever
    | Some output => Task.Ret output
    end).

(** src: crates/server/interface/src/grpc/log_stream.rs 327-396 LogStreamServiceGrpc::subscribe_logs *)
Definition subscribe_logs (req : SubscribeLogsRequest.t) : doing LogFollower.t :=
  output ← send_history req;
  source ← subscribe (SubscribeLogsRequest.job_id req);
  mret (LogFollower.mk source output).

(** The senders of a channel are those of the subscribers. *)
Definition has_sender (tx : nat) (s : LogStreamService.t (Store := Store)) : bool :=
  existsb (fun ids => bool_decide (tx ∈ ids)) (map_to_list (subscribers s)).*2.

(** A round of the task: the sequence is that which the job has now. *)
(** src: crates/server/interface/src/grpc/log_stream.rs 369-392 LogStreamServiceGrpc::subscribe_logs (task) *)
Definition forward (f : LogFollower.t) (s : LogStreamService.t (Store := Store)) :
    forwarding (LogStreamService.t (Store := Store) * LogFollower.t) :=
  match channels s !! LogFollower.source f with
  | None => Ended
  | Some c =>
      match Channel.queue c with
      | [] => if has_sender (LogFollower.source f) s then Idle else Ended
      | e :: _ =>
          let seq := default 0 (sequences s !! LogEntry.job_id e) in
          let log_entry := JobLogEntry.mk (LogEntry.job_id e) (LogEntry.line e) (LogEntry.is_stderr e)
            (LogEntry.timestamp e) (Prelude.as_i64 seq) in
          match Channel.send log_entry (LogFollower.output f) with
          | None => Full
          | Some (output, true) =>
              Forwarded (s <| channels := <[LogFollower.source f := Channel.receive c]> (channels s) |>,
                         f <| LogFollower.output := output |>)
          | Some (_, false) => Ended
          end
      end
  end.

(** src: crates/server/interface/src/grpc/log_stream.rs 399-435 LogStreamServiceGrpc::get_logs *)
Definition get_logs (req : GetLogsRequest.t) (s : LogStreamService.t (Store := Store)) : GetLogsResponse.t :=
  let limit := positive_limit (GetLogsRequest.limit req) in
  let since := if 0 <? GetLogsRequest.since_sequence req then Some (GetLogsRequest.since_sequence req) else None in
  let entries := get_logs_with_sequence (GetLogsRequest.job_id req) limit since s in
  GetLogsResponse.mk (BufferedLogEntry.job_log_entry <$> entries) false.

End service.
End LogStreamServiceGrpc.

(** ** The ingestor *)

Module LogIngestionResult.
(** src: crates/server/interface/src/grpc/log_ingestor.rs 20-25 LogIngestionResult *)
Record t := mk { job_id : string; lines_ingested : Z; bytes_processed : Z; success : bool }.
End LogIngestionResult.

Module LogIngestorConfig.
(** src: crates/server/interface/src/grpc/log_ingestor.rs 29-36 LogIngestorConfig *)
Record t := mk { max_batch_size : nat; enable_persistence : bool; memory_buffer_lines : Z }.
(** src: crates/server/interface/src/grpc/log_ingestor.rs 39-45 LogIngestorConfig::default *)
Definition default : t := mk 1000 false 10000.
End LogIngestorConfig.

Module LogFinalizationResult.
Section result.
Context `{E : Externs}.
(** src: crates/server/interface/src/grpc/log_ingestor.rs 228-233 LogFinalizationResult *)
Record t := mk { job_id : string; persisted : bool; size_bytes : Z; log_ref : option LogStorageRef.t }.
End result.
End LogFinalizationResult.

Module LogIngestorMetrics.
Section metrics.
Context `{E : Externs}.
(** src: crates/server/interface/src/grpc/log_ingestor.rs 237-244 LogIngestorMetrics *)
Record t := mk {
  total_lines : Z;
  total_batches : Z;
  total_bytes : Z;
  jobs_finalized : Z;
  total_persisted_bytes : Z;
  last_ingestion : option DateTime;
}.
#[global] Instance t_rebuild : Rebuild t := fun m =>
  mk (total_lines m) (total_batches m) (total_bytes m) (jobs_finalized m) (total_persisted_bytes m) (last_ingestion m).

Definition default : t := mk 0 0 0 0 0 None.

(** src: crates/server/interface/src/grpc/log_ingestor.rs 248-253 LogIngestorMetrics::summary *)
Definition summary (m : t) : string :=
  "LogIngestor: " +:+ show_Z (total_lines m) +:+ " lines, " +:+ show_Z (total_batches m) +:+ " batches, " +:+
  show_Z (total_bytes m) +:+ " bytes, " +:+ show_Z (jobs_finalized m) +:+ " jobs finalized".
End metrics.
End LogIngestorMetrics.

Module LogIngestor.
Section ingestor.
Context `{E : Externs} `{!WireTypes} `{!Shards} {Store : Type} `{!LogStorage Store} {X : Type}.
Import LogIngestorMetrics.

(** The service is shared with the clients; here it is as the ingestor finds it. *)
(** src: crates/server/interface/src/grpc/log_ingestor.rs 53-60 LogIngestor *)
Record t := mk {
  log_service : option (LogStreamService.t (Store := Store));
  config : LogIngestorConfig.t;
  measured : LogIngestorMetrics.t;
}.
#[global] Instance t_rebuild : Rebuild t := fun i => mk (log_service i) (config i) (measured i).

(** src: crates/server/interface/src/grpc/log_ingestor.rs 64-73 LogIngestor::new *)
Definition new (service : option (LogStreamService.t (Store := Store))) (config : option LogIngestorConfig.t) : t :=
  mk service (from_option id LogIngestorConfig.default config) LogIngestorMetrics.default.

Abbreviation doing := (method t (exn X)).

(** A call of the service. *)
Definition on_service {A} (p : Task.t (LogStreamService.t (Store := Store)) A) : doing (option A) :=
  fun i => match log_service i with
           | None => (i, Ok None)
           | Some s => let (s, r) := Task.completing p s in (i <| log_service := Some s |>, Some <$> r)
           end.

(** src: crates/server/interface/src/grpc/log_ingestor.rs 79-105 LogIngestor::ingest_log *)
Definition ingest_log (entry : LogEntry.t) (now : DateTime) : doing LogIngestionResult.t :=
  let line_length := Z.of_nat (String.length (LogEntry.line entry)) in
  on_service (LogStreamService.append_log entry);;
  modify (fun i => let m := measured i in i <| measured :=
    m <| total_lines := u64_add (total_lines m) 1 |> <| total_bytes := u64_add (total_bytes m) line_length |>
      <| last_ingestion := Some now |> |>);;
  mret (LogIngestionResult.mk (LogEntry.job_id entry) 1 line_length true).

Fixpoint append_all (entries : list LogEntry.t) : Task.t (LogStreamService.t (Store := Store)) unit :=
  match entries with
  | [] => mret tt
  | entry :: entries => LogStreamService.append_log entry;; append_all entries
  end.

Definition bytes_of (entries : list LogEntry.t) : Z :=
  wrap 64 (foldr Z.add 0 ((fun e => Z.of_nat (String.length (LogEntry.line e))) <$> entries)).

(** Only the first entries are kept of a batch that is too long; all are counted. *)
(** src: crates/server/interface/src/grpc/log_ingestor.rs 111-144 LogIngestor::ingest_log_batch *)
Definition ingest_log_batch (batch : LogBatch.t) (now : DateTime) : doing LogIngestionResult.t :=
  let entries := LogBatch.entries batch in
  let entry_count := Z.of_nat (length entries) in
  let bytes := bytes_of entries in
  i ← self;
  on_service (append_all (take (LogIngestorConfig.max_batch_size (config i)) entries));;
  modify (fun i => let m := measured i in i <| measured :=
    m <| total_batches := u64_add (total_batches m) 1 |> <| total_lines := u64_add (total_lines m) entry_count |>
      <| total_bytes := u64_add (total_bytes m) bytes |> <| last_ingestion := Some now |> |>);;
  mret (LogIngestionResult.mk (LogBatch.job_id batch) entry_count bytes true).

(** The service does not fail. *)
(** src: crates/server/interface/src/grpc/log_ingestor.rs 150-194 LogIngestor::finalize_job_logs *)
Definition finalize_job_logs (job : string) : doing LogFinalizationResult.t :=
  finalized ← on_service (LogStreamService.finalize_job_log job);
  match finalized with
  | Some (Some r) =>
      modify (fun i => let m := measured i in i <| measured :=
        m <| jobs_finalized := u64_add (jobs_finalized m) 1 |>
          <| total_persisted_bytes := u64_add (total_persisted_bytes m) (LogStorageRef.size_bytes r) |> |>);;
      mret (LogFinalizationResult.mk job true (LogStorageRef.size_bytes r) (Some r))
  | _ => mret (LogFinalizationResult.mk job false 0 None)
  end.

(** src: crates/server/interface/src/grpc/log_ingestor.rs 197-199 LogIngestor::get_metrics *)
Definition get_metrics (i : t) : LogIngestorMetrics.t := measured i.

End ingestor.
End LogIngestor.

(** ** Theorems: what the service has of a log *)

Section logs.
Context `{E : Externs} `{!WireTypes} `{!Shards} {Store : Type} `{!LogStorage Store}.
Import LogStreamService.
Abbreviation service := (LogStreamService.t (Store := Store)).

(** What is done with the service, by the workers' streams and by the clients; a
    task that waits goes on as far as it gets. *)
Inductive use :=
  | Append (entry : LogEntry.t)
  | Subscribe (job : string)
  | SubscribeLogs (req : SubscribeLogsRequest.t)
  | CloseSubscribers (job : string)
  | Clear (job : string)
  | Finalize (job : string)
  | Receive (tx : nat)
  | HangUp (tx : nat)
  | GoOn (k : nat).

Definition task_of (u : use) : Task.t service unit :=
  match u with
  | Append entry => append_log entry
  | Subscribe job => subscribe job;; mret tt
  | SubscribeLogs req => LogStreamServiceGrpc.subscribe_logs req;; mret tt
  | CloseSubscribers job => close_subscribers job
  | Clear job => clear_logs job
  | Finalize job => finalize_job_log job;; mret tt
  | Receive tx => change (fun s => s <| channels := alter Channel.receive tx (channels s) |>)
  | HangUp tx => change (fun s => s <| channels := alter Channel.hang_up tx (channels s) |>)
  | GoOn _ => mret tt
  end.

(** The service, and the tasks that wait, with what they were made for. *)
Record system := System { served : service; waiting : list (use * Task.t service unit) }.

Definition start : system := System new [].

Definition perform (u : use) (y : system) : system :=
  match u with
  | GoOn k =>
      match waiting y !! k with
      | None => y
      | Some (u, p) =>
          match Task.run p (served y) with
          | (s, inl _) => System s (delete k (waiting y))
          | (s, inr p) => System s (<[k := (u, p)]> (waiting y))
          end
      end
  | _ =>
      match Task.run (task_of u) (served y) with
      | (s, inl _) => System s (waiting y)
      | (s, inr p) => System s (waiting y ++ [(u, p)])
      end
  end.

Definition used (uses : list use) (y : system) : system := foldl (fun y u => perform u y) y uses.

(** Lines may wait for those who follow the log; nobody else waits. *)
Definition only_lines_wait (y : system) : Prop :=
  forall u p, (u, p) ∈ waiting y -> exists entry, u = Append entry.

Definition smooth (uses : list use) : Prop := forall k, only_lines_wait (used (take k uses) start).

(** The specification: the lines since the log was last cleared. *)
Definition written (job : string) (uses : list use) : list LogEntry.t :=
  foldl (fun lines u => match u with
    | Append entry => if bool_decide (LogEntry.job_id entry = job) then lines ++ [entry] else lines
    | Clear j | Finalize j => if bool_decide (j = job) then [] else lines
    | _ => lines
    end) [] uses.

Definition numbered (lines : list LogEntry.t) : list BufferedLogEntry.t :=
  imap (fun i e => BufferedLogEntry.of_entry e (Z.of_nat i + 1)) lines.

Lemma last_n_drop {A} n (l : list A) : last_n n l = drop (length l - n) l.
Proof.
  unfold last_n. rewrite take_reverse. by rewrite reverse_involutive.
Qed.

Lemma numbered_snoc lines e :
  numbered (lines ++ [e]) = numbered lines ++ [BufferedLogEntry.of_entry e (Z.of_nat (length lines) + 1)].
Proof. unfold numbered. rewrite imap_app. simpl. by rewrite Nat.add_0_r. Qed.

Lemma numbered_length lines : length (numbered lines) = length lines.
Proof. apply length_imap. Qed.

Lemma numbered_entries lines : BufferedLogEntry.log_entry <$> numbered lines = lines.
Proof.
  induction lines as [|e lines IH] using rev_ind; [done|].
  rewrite numbered_snoc, fmap_app, IH. by destruct e.
Qed.

(** Nothing but the channels, the storage and who follows. *)
Definition same_logs (s s' : service) : Prop :=
  logs s' = logs s /\ sequences s' = sequences s /\ held_logs s' = held_logs s.

#[local] Instance same_logs_refl : Reflexive same_logs.
Proof. done. Qed.
#[local] Instance same_logs_trans : Transitive same_logs.
Proof. intros s1 s2 s3 (? & ? & ?) (? & ? & ?). split_and!; congruence. Qed.

Lemma same_logs_notify entry ids : Task.keeps same_logs (notify_all entry ids).
Proof.
  induction ids as [|tx ids IH]; [done|]. apply Task.keep_bind; [|done].
  apply Task.keep_await. intros s _. by destruct (channels s !! tx ≫= _) as [[]|].
Qed.

Lemma same_logs_after_push entry : Task.keeps same_logs (notify_subscribers entry;; persist entry).
Proof.
  apply Task.keep_bind; [|intros _; apply Task.keep_await; intros s _; simpl; by destruct (storage s)].
  apply Task.keep_bind; [apply Task.keep_await; intros s _; by destruct (subscribers s !! _)|].
  intros [ids|]; [|done]. apply Task.keep_bind; [apply same_logs_notify|intros _].
  by apply Task.keep_await.
Qed.

(** A task that has ended, and what it has done by then. *)
Definition ends {A} (p : Task.t service A) (s : service) (Q : service -> Prop) : Prop :=
  match Task.run p s with (s', inl _) => Q s' | (_, inr _) => True end.

Lemma ends_bind {A B} (p : Task.t service A) (f : A -> Task.t service B) s Q :
  match Task.run p s with (s', inl a) => ends (f a) s' Q | (_, inr _) => True end -> ends (p ≫= f) s Q.
Proof. unfold ends. rewrite Task.run_bind. by destruct (Task.run p s) as [s' [a|p']]. Qed.

Lemma ends_then {A B} (p : Task.t service A) (f : A -> Task.t service B) s P Q :
  ends p s P -> (forall s' a, P s' -> ends (f a) s' Q) -> ends (p ≫= f) s Q.
Proof.
  intros Hp Hf. apply ends_bind. unfold ends in Hp. destruct (Task.run p s) as [s' [a|p']]; [by apply Hf|done].
Qed.

Lemma same_logs_subscribe job s : ends (subscribe job) s (same_logs s).
Proof. unfold ends. simpl. destruct (Channel.send_all _ _); simpl; [by destruct (subscribers_free job s)|done]. Qed.

Lemma same_logs_follow req s : ends (LogStreamServiceGrpc.subscribe_logs req) s (same_logs s).
Proof.
  apply ends_bind. cbn [LogStreamServiceGrpc.send_history Task.run]. unfold id.
  destruct (Channel.send_all (LogStreamServiceGrpc.history req s) _); [|done].
  eapply ends_then; [apply same_logs_subscribe|done].
Qed.

(** The service has the last lines of each log, with their numbers. *)
Definition stored (lines : string -> list LogEntry.t) (s : service) : Prop := forall job,
  default [] (logs s !! job) = last_n LOG_BUFFER_SIZE (numbered (lines job)) /\
  default 0 (sequences s !! job) = Z.of_nat (length (lines job)).

Lemma same_logs_stored lines s s' : same_logs s s' -> stored lines s -> stored lines s'.
Proof. intros (Hl & Hq & _) Hs job. rewrite Hl, Hq. apply Hs. Qed.

Lemma push_last (lines : list LogEntry.t) e n : (0 < n)%nat ->
  let l := numbered lines in
  (if bool_decide (n <= length (last_n n l))%nat then tail (last_n n l) else last_n n l) ++ [e] =
  last_n n (l ++ [e]).
Proof.
  intros Hn l. rewrite !last_n_drop, length_drop, length_app. simpl.
  assert (forall k, tail (drop k l) = drop (S k) l) as Htl.
  { intros k. rewrite <- Nat.add_1_r, <- drop_drop. by destruct (drop k l). }
  case_bool_decide as Hb.
  - rewrite Htl, drop_app_le by lia. f_equal. f_equal. lia.
  - rewrite drop_app_le by lia. f_equal. f_equal. lia.
Qed.

(** A line is in the buffer before anybody waits for a client. *)
Definition pushed (entry : LogEntry.t) (s : service) : service :=
  let job := LogEntry.job_id entry in
  let q := u64_add (default 0 (sequences s !! job)) 1 in
  s <| sequences := <[job := q]> (sequences s) |>
    <| logs := <[job := push_entry (BufferedLogEntry.of_entry entry q) (default [] (logs s !! job))]> (logs s) |>.

Lemma append_runs entry s : logs_free (LogEntry.job_id entry) s = true ->
  Task.run (append_log entry) s = Task.run (notify_subscribers entry;; persist entry) (pushed entry s).
Proof.
  unfold logs_free. intros Hfree. unfold append_log. rewrite Task.run_bind. simpl. unfold logs_free. simpl.
  rewrite Hfree. reflexivity.
Qed.

Lemma stored_append lines entry s :
  let job := LogEntry.job_id entry in
  Z.of_nat (length (lines job)) + 1 < 2 ^ 64 -> held_logs s = [] -> stored lines s ->
  stored (fun j => if bool_decide (job = j) then lines j ++ [entry] else lines j) (pushed entry s) /\
  Task.run (append_log entry) s = Task.run (notify_subscribers entry;; persist entry) (pushed entry s).
Proof.
  intros job Hn Hheld Hs. destruct (Hs job) as [Hb Hq]. split.
  - set (q := u64_add (default 0 (sequences s !! job)) 1).
    assert (q = Z.of_nat (length (lines job)) + 1) as Hqv.
    { unfold q. rewrite Hq. apply u64_add_small; unfold u64; lia. }
    intros j. unfold pushed. fold job q. case_bool_decide as Hj; simpl.
    + subst j. rewrite !lookup_insert_eq. simpl. rewrite length_app, Hb, numbered_snoc. simpl. split; [|lia].
      rewrite <- Hqv. apply push_last. unfold LOG_BUFFER_SIZE. lia.
    + rewrite !lookup_insert_ne by done. apply Hs.
  - apply append_runs. apply bool_decide_eq_true. rewrite Hheld. by apply not_elem_of_nil.
Qed.

Definition keeps_line (lines : string -> list LogEntry.t) (u : use) : string -> list LogEntry.t :=
  fun job => match u with
    | Append entry => if bool_decide (LogEntry.job_id entry = job) then lines job ++ [entry] else lines job
    | Clear j | Finalize j => if bool_decide (j = job) then [] else lines job
    | _ => lines job
    end.

(** No client holds the logs, and the log is as [lines] says. *)
Definition in_order (lines : string -> list LogEntry.t) (s : service) : Prop :=
  stored lines s /\ held_logs s = [].

Lemma same_logs_order lines s s' : same_logs s s' -> in_order lines s -> in_order lines s'.
Proof. intros Hs [Hst Hh]. split; [by eapply same_logs_stored|]. destruct Hs as (_ & _ & ->). done. Qed.

Lemma ends_order {A} lines (p : Task.t service A) s :
  ends p s (same_logs s) -> in_order lines s -> ends p s (in_order lines).
Proof.
  unfold ends. destruct (Task.run p s) as [s' [a|p']]; [|done]. intros Hs. by apply same_logs_order.
Qed.

Lemma cleared_order lines j s :
  in_order lines s -> ends (clear_logs j) s (in_order (fun job => if bool_decide (j = job) then [] else lines job)).
Proof.
  intros [Hs Hh]. unfold ends, clear_logs, close_subscribers. rewrite Task.run_bind. simpl.
  unfold logs_free. rewrite Hh. simpl. destruct (subscribers_free j _); [|done]. simpl. split; [|done].
  intros job. simpl. case_bool_decide as Hj.
  - subst. by rewrite !lookup_delete_eq.
  - rewrite !lookup_delete_ne by done. apply Hs.
Qed.

Lemma finalized_order lines j s :
  in_order lines s ->
  ends (finalize_job_log j;; mret tt) s (in_order (fun job => if bool_decide (j = job) then [] else lines job)).
Proof.
  intros Hs. apply (ends_then _ _ _ (in_order (fun job => if bool_decide (j = job) then [] else lines job))); [|done].
  unfold finalize_job_log. apply (ends_then _ _ _ (in_order lines)).
  - unfold ends. simpl. apply (same_logs_order _ s); [|done]. destruct (storage s) as [store|]; [|done].
    by destruct (storage_finalize_job_log j store).
  - intros s1 log_ref Hs1. eapply ends_then; [by apply cleared_order|]. intros s2 _ Hs2. by destruct log_ref.
Qed.

Lemma other_use_order lines u s :
  in_order lines s -> (forall entry, u <> Append entry) ->
  ends (task_of u) s (in_order (keeps_line lines u)).
Proof.
  intros Hs Hu. destruct u as [e|j|req|j|j|j|tx|tx|k]; simpl; [by destruct (Hu e)|..].
  - eapply ends_order; [|done]. eapply ends_then; [apply same_logs_subscribe|done].
  - eapply ends_order; [|done]. eapply ends_then; [apply same_logs_follow|done].
  - eapply ends_order; [|done]. unfold ends. simpl. by destruct (subscribers_free j s).
  - by apply cleared_order.
  - by apply finalized_order.
  - exact Hs.
  - exact Hs.
  - exact Hs.
Qed.

Lemma elem_of_insert_inv {A} (k : nat) (x y : A) (l : list A) : x ∈ <[k := y]> l -> x = y \/ x ∈ l.
Proof.
  intros [i Hi]%list_elem_of_lookup. apply list_lookup_insert_Some in Hi as [(_ & -> & _)|[_ Hi]]; [by left|].
  right. by eapply list_elem_of_lookup_2.
Qed.

(** The tasks that wait touch no log. *)
Definition quiet_tasks (y : system) : Prop :=
  forall u p, (u, p) ∈ waiting y -> Task.keeps same_logs p.

Lemma append_order lines entry y :
  Z.of_nat (length (lines (LogEntry.job_id entry))) + 1 < 2 ^ 64 ->
  in_order lines (served y) -> quiet_tasks y ->
  in_order (keeps_line lines (Append entry)) (served (perform (Append entry) y)) /\
  quiet_tasks (perform (Append entry) y).
Proof.
  intros Hn [Hs Hh] Hq. destruct (stored_append lines entry (served y) Hn Hh Hs) as [Hs1 Hrun].
  set (s1 := pushed entry (served y)) in *. assert (held_logs s1 = []) as Hh1 by done.
  destruct (Task.keep_run same_logs _ s1 _ _ (same_logs_after_push entry)) as [Hsame Hrest].
  unfold perform. change (task_of (Append entry)) with (append_log entry). rewrite Hrun.
  destruct (Task.run _ s1) as [s2 [[]|p]]; simpl in *.
  - split; [|done]. by eapply same_logs_order.
  - split; [by eapply same_logs_order|]. intros u p' [Hin|[= -> ->]%list_elem_of_singleton]%elem_of_app; [|done].
    by eapply Hq.
Qed.

Lemma go_on_order lines k y : in_order lines (served y) -> quiet_tasks y ->
  in_order lines (served (perform (GoOn k) y)) /\ quiet_tasks (perform (GoOn k) y).
Proof.
  intros Hs Hq. simpl. destruct (waiting y !! k) as [[u p]|] eqn:Hk; [|done].
  pose proof (Hq u p ltac:(by eapply list_elem_of_lookup_2)) as Hp.
  destruct (Task.keep_run same_logs p (served y) _ _ Hp) as [Hsame Hrest].
  destruct (Task.run p (served y)) as [s' [[]|p']]; simpl in *; (split; [by eapply same_logs_order|]).
  - intros u' p' Hin. simpl in Hin. eapply (Hq u'). by eapply list_elem_of_delete_inv.
  - intros u' p0 Hin. simpl in Hin. apply elem_of_insert_inv in Hin as [[= _ ->]|Hin]; [done|by eapply Hq].
Qed.

Lemma perform_order lines u y :
  (forall job, Z.of_nat (length (lines job)) + 1 < 2 ^ 64) ->
  in_order lines (served y) -> quiet_tasks y -> only_lines_wait (perform u y) ->
  in_order (keeps_line lines u) (served (perform u y)) /\ quiet_tasks (perform u y).
Proof.
  intros Hn Hs Hq Hlines. destruct u as [e| | | | | | | |k] eqn:Hu; [by apply append_order|..|by apply go_on_order].
  all: rewrite <- Hu in *;
    assert (ends (task_of u) (served y) (in_order (keeps_line lines u))) as He
      by (apply other_use_order; [done|by intros entry; rewrite Hu]);
    assert (perform u y = match Task.run (task_of u) (served y) with
      | (s, inl _) => System s (waiting y)
      | (s, inr p) => System s (waiting y ++ [(u, p)]) end) as Hp by (by rewrite Hu);
    rewrite Hp in *; unfold ends in He; destruct (Task.run _ _) as [s' [[]|p]]; [done|exfalso];
    destruct (Hlines u p) as [entry He']; [apply elem_of_app; right; by apply list_elem_of_singleton|congruence].
Qed.

Lemma written_snoc job uses u : written job (uses ++ [u]) = keeps_line (fun j => written j uses) u job.
Proof. unfold written. rewrite foldl_app. by destruct u. Qed.

Lemma smooth_snoc uses u : smooth (uses ++ [u]) -> smooth uses /\ only_lines_wait (used (uses ++ [u]) start).
Proof.
  intros Hs. split.
  - intros k. destruct (decide (k <= length uses)%nat).
    + specialize (Hs k). by rewrite take_app_le in Hs.
    + rewrite take_ge by lia. specialize (Hs (length uses)). by rewrite take_app_le, take_ge in Hs.
  - specialize (Hs (length (uses ++ [u]))). by rewrite take_ge in Hs.
Qed.

Lemma used_in_order uses : smooth uses -> Z.of_nat (length uses) < 2 ^ 64 ->
  in_order (fun job => written job uses) (served (used uses start)) /\ quiet_tasks (used uses start) /\
  forall job, (length (written job uses) <= length uses)%nat.
Proof.
  induction uses as [|u uses IH] using rev_ind.
  { intros _ _. split_and!; [done|by intros ? ? ?%elem_of_nil|done]. }
  rewrite length_app. simpl. intros [Hsm Hlines]%smooth_snoc Hn. destruct (IH Hsm) as (Hs & Hq & Hle); [lia|].
  assert (forall job, (length (written job (uses ++ [u])) <= length uses + 1)%nat) as Hle'.
  { intros job. rewrite written_snoc. specialize (Hle job).
    destruct u; simpl; try case_bool_decide; simpl; rewrite ?length_app; simpl; lia. }
  unfold used in *. rewrite foldl_app in *. simpl in *. fold (used uses start) in *.
  destruct (perform_order (fun j => written j uses) u (used uses start)) as [[Hst Hh] Hq']; try done.
  { intros j. specialize (Hle j). lia. }
  split_and!; [|done|done]. split; [|done]. intros job. rewrite written_snoc. apply Hst.
Qed.

(** C29: what is read of the log of a job is the end of what was written to it: the
    last thousand lines since the log was cleared, numbered from one, and of those
    as many of the last as are asked for.  This is so for fewer than [2^64] uses of the
    service, as long as nobody but the lines waits, for a client that follows its log
    and does not read, or goes on; a client that waits itself, or a log whose removal
    waits, is another matter. *)
Theorem logs_are_the_last_lines uses : smooth uses -> Z.of_nat (length uses) < 2 ^ 64 ->
  let s := served (used uses start) in forall job limit,
  get_logs job limit s =
    (let kept := last_n LOG_BUFFER_SIZE (written job uses) in last_n (default (length kept) limit) kept) /\
  forall since, get_logs_with_sequence job limit since s =
    (let found := filter (fun e => match since with None => true
        | Some seq => seq <? BufferedLogEntry.sequence e end = true)
        (last_n LOG_BUFFER_SIZE (numbered (written job uses))) in
     last_n (default (length found) limit) found).
Proof.
  intros Hsm Hn s job limit. destruct (used_in_order uses Hsm Hn) as ([Hs _] & _ & _).
  destruct (Hs job) as [Hb _]. fold s in Hb.
  assert (forall n (l : list BufferedLogEntry.t), BufferedLogEntry.log_entry <$> last_n n l =
    last_n n (BufferedLogEntry.log_entry <$> l)) as Hmap.
  { intros n l. rewrite !last_n_drop, <- fmap_drop. by rewrite length_fmap. }
  assert (last_n LOG_BUFFER_SIZE (written job uses) = BufferedLogEntry.log_entry <$> default [] (logs s !! job)) as Hk.
  { by rewrite Hb, Hmap, numbered_entries. }
  rewrite Hk, <- Hb. unfold get_logs, get_logs_with_sequence.
  destruct (logs s !! job) as [buffer|]; simpl; (split; [|intros since]).
  - by rewrite Hmap, length_fmap.
  - done.
  - by rewrite last_n_drop.
  - by rewrite last_n_drop.
Qed.

Lemma send_all_spec {A} (l : list A) (c : Channel.t A) :
  Channel.receiving c = true -> (length (Channel.queue c) <= Channel.capacity c)%nat ->
  Channel.send_all l c =
    if bool_decide (length (Channel.queue c) + length l <= Channel.capacity c)%nat
    then Some (c <| Channel.queue := Channel.queue c ++ l |>) else None.
Proof.
  destruct c as [cap q b]. simpl. intros -> . revert q. induction l as [|a l IH]; intros q Hq; simpl.
  - rewrite bool_decide_true by lia. by rewrite app_nil_r.
  - unfold Channel.send, Channel.is_full. simpl. case_bool_decide as Hfull; simpl.
    + by rewrite bool_decide_false by lia.
    + unfold set. simpl. rewrite IH by (rewrite length_app; simpl; lia). rewrite length_app. simpl.
      rewrite <- app_assoc. by repeat case_bool_decide; try lia.
Qed.

Lemma last_n_all {A} n (l : list A) : (length l <= n)%nat -> last_n n l = l.
Proof. intros Hl. rewrite last_n_drop. by replace (length l - n)%nat with 0%nat by lia. Qed.

Lemma last_n_length {A} n (l : list A) : length (last_n n l) = Nat.min n (length l).
Proof. rewrite last_n_drop, length_drop. lia. Qed.

Lemma buffered_lines job (s : service) :
  get_logs job None s = BufferedLogEntry.log_entry <$> default [] (logs s !! job).
Proof. unfold get_logs. destruct (logs s !! job); [|done]. simpl. by rewrite last_n_all. Qed.

(** Where the task of a subscriber gets: its own channel is all it looks at. *)
Lemma buffered_sent job (s : service) : (length (get_logs job None s) <= 100)%nat ->
  Task.run (send_buffered job) s = (s, inl (Channel.channel 100 <| Channel.queue := get_logs job None s |>)).
Proof.
  intros Hl. rewrite buffered_lines in *. simpl. rewrite send_all_spec by (simpl; lia). simpl.
  by rewrite bool_decide_true.
Qed.

Lemma buffered_stuck job (s : service) : (100 < length (get_logs job None s))%nat ->
  Task.run (send_buffered job) s = (s <| held_logs := logs_shard job :: held_logs s |>, inr Task.Forever).
Proof.
  intros Hl. rewrite buffered_lines in *. simpl. rewrite send_all_spec by (simpl; lia). simpl.
  by rewrite bool_decide_false by lia.
Qed.

Lemma history_sent req (s : service) :
  Task.run (LogStreamServiceGrpc.send_history req) s =
    (s, if bool_decide (length (LogStreamServiceGrpc.history req s) <= 100)%nat
        then inl (Channel.channel 100 <| Channel.queue := LogStreamServiceGrpc.history req s |>)
        else inr Task.Forever).
Proof. simpl. rewrite send_all_spec by (simpl; lia). simpl. by case_bool_decide. Qed.

(** A log into which somebody has a reference stays as it is. *)
Definition keeps_held (s s' : service) : Prop :=
  held_logs s ⊆ held_logs s' /\ forall j, logs_shard j ∈ held_logs s -> logs s' !! j = logs s !! j.

#[local] Instance keeps_held_refl : Reflexive keeps_held.
Proof. done. Qed.
#[local] Instance keeps_held_trans : Transitive keeps_held.
Proof.
  intros s1 s2 s3 [Hh Hl] [Hh' Hl']. split; [by etrans|]. intros j Hj. by rewrite Hl', Hl by auto.
Qed.

Lemma keeps_change (f : service -> service) : (forall s, keeps_held s (f s)) -> Task.keeps keeps_held (change f).
Proof. intros Hf. by apply Task.keep_await. Qed.

Lemma keeps_same {A} (p : Task.t service A) : Task.keeps same_logs p -> Task.keeps keeps_held p.
Proof.
  induction p as [a|ready f next IH|]; simpl; [done| |done]. intros Hp s Hr.
  destruct (Hp s Hr) as [(Hl & _ & Hh) Hn]. split; [|by apply IH]. split; [by rewrite Hh|by rewrite Hl].
Qed.

(** Who writes to a log waits until nobody has a reference into its shard. *)
Lemma keeps_write job (f : service -> service) :
  (forall s, held_logs (f s) = held_logs s) -> (forall s j, j <> job -> logs (f s) !! j = logs s !! j) ->
  Task.keeps keeps_held (Task.await (logs_free job) (fun s => (f s, tt))).
Proof.
  intros Hh Hl. apply Task.keep_await. intros s Hfree%bool_decide_eq_true. simpl.
  split; [by rewrite Hh|]. intros j Hj. apply Hl. congruence.
Qed.

Lemma keeps_append entry : Task.keeps keeps_held (append_log entry).
Proof.
  apply Task.keep_bind; [by apply Task.keep_await|]. intros q. apply Task.keep_bind; [|intros _].
  - apply keeps_write; [done|]. intros s j Hj. apply lookup_insert_ne. by intros <-.
  - apply keeps_same, same_logs_after_push.
Qed.

Lemma keeps_clear job : Task.keeps keeps_held (clear_logs job).
Proof.
  apply Task.keep_bind; [|intros _; apply Task.keep_bind; intros; by apply Task.keep_await].
  apply keeps_write; [done|]. intros s j Hj. apply lookup_delete_ne. by intros <-.
Qed.

Lemma keeps_subscribe job : Task.keeps keeps_held (subscribe job).
Proof.
  apply Task.keep_bind; [|intros c; by apply Task.keep_await]. simpl. intros s _.
  destruct (Channel.send_all _ _); (split; [|done]); [done|]. split; [|done]. simpl. set_solver.
Qed.

Lemma keeps_task u : Task.keeps keeps_held (task_of u).
Proof.
  destruct u as [e|j|req|j|j|j|tx|tx|k]; unfold task_of; [apply keeps_append|..].
  - apply Task.keep_bind; [apply keeps_subscribe|done].
  - apply Task.keep_bind; [|done]. apply Task.keep_bind.
    + intros s _. split; [done|]. by destruct (Channel.send_all _ _).
    + intros out. apply Task.keep_bind; [apply keeps_subscribe|done].
  - by apply Task.keep_await.
  - apply keeps_clear.
  - apply Task.keep_bind; [|done]. apply Task.keep_bind.
    + apply Task.keep_await. intros s _. destruct (storage s) as [store|]; [|done].
      by destruct (storage_finalize_job_log j store).
    + intros r. apply Task.keep_bind; [apply keeps_clear|intros _]. destruct r; [|done].
      apply Task.keep_bind; [by apply keeps_change|done].
  - by apply keeps_change.
  - by apply keeps_change.
  - done.
Qed.

Definition keeping (y : system) : Prop := forall u p, (u, p) ∈ waiting y -> Task.keeps keeps_held p.

Lemma keeps_perform u y : keeping y -> keeping (perform u y) /\ keeps_held (served y) (served (perform u y)).
Proof.
  intros Hy. assert (forall p, Task.keeps keeps_held p ->
    keeping (match Task.run p (served y) with
      | (s, inl _) => System s (waiting y) | (s, inr p) => System s (waiting y ++ [(u, p)]) end) /\
    keeps_held (served y) (served (match Task.run p (served y) with
      | (s, inl _) => System s (waiting y) | (s, inr p) => System s (waiting y ++ [(u, p)]) end))) as Hnew.
  { intros p Hp. destruct (Task.keep_run keeps_held p (served y) _ _ Hp) as [Hs Hrest].
    destruct (Task.run p (served y)) as [s' [[]|p']]; simpl in *; split; try done.
    intros u' p0 [Hin|[= -> ->]%list_elem_of_singleton]%elem_of_app; [by eapply Hy|done]. }
  destruct u as [e|j|req|j|j|j|tx|tx|k]; try (apply Hnew, keeps_task). simpl.
  destruct (waiting y !! k) as [[u p]|] eqn:Hk; [|done].
  pose proof (Hy u p ltac:(by eapply list_elem_of_lookup_2)) as Hp.
  destruct (Task.keep_run keeps_held p (served y) _ _ Hp) as [Hs Hrest].
  destruct (Task.run p (served y)) as [s' [[]|p']]; simpl in *; split; try done; intros u' p0 Hin; simpl in Hin.
  - eapply (Hy u'). by eapply list_elem_of_delete_inv.
  - apply elem_of_insert_inv in Hin as [[= _ ->]|Hin]; [done|by eapply Hy].
Qed.

Lemma keeps_used uses y : keeping y -> keeping (used uses y) /\ keeps_held (served y) (served (used uses y)).
Proof.
  revert y. induction uses as [|u uses IH]; intros y Hy; [done|]. simpl.
  destruct (keeps_perform u y Hy) as [Hy' Hs]. destruct (IH _ Hy') as [Hy'' Hs']. split; [done|by etrans].
Qed.

Lemma frozen_log uses req job : let y := used uses start in
  Task.run (LogStreamServiceGrpc.subscribe_logs req) (served y) =
    (served y <| held_logs := logs_shard job :: held_logs (served y) |>, inr Task.Forever) ->
  forall later, logs (served (used later (perform (SubscribeLogs req) y))) !! job = logs (served y) !! job.
Proof.
  intros y Hrun later. destruct (keeps_used uses start) as [Hy _]; [by intros ? ? ?%elem_of_nil|]. fold y in Hy.
  destruct (keeps_perform (SubscribeLogs req) y Hy) as [Hy' _].
  assert (served (perform (SubscribeLogs req) y) = served y <| held_logs := logs_shard job :: held_logs (served y) |>)
    as Heq by (unfold perform; cbn [task_of]; by rewrite Task.run_bind, Hrun).
  destruct (keeps_used later _ Hy') as [_ [_ Hl]]. rewrite Hl; rewrite Heq; [done|by left].
Qed.

(** C30: a log of more than a hundred lines cannot be followed.  A client that
    subscribes to it waits for ever, whatever the others have done, since its task
    sends what is buffered into a channel with room for a hundred that is not read
    before the task is done.  When it does that with a reference into the map of the
    logs - so unless what it asks for of the history is too long already - nobody
    writes to that log any more: whatever is done afterwards, no line is added and the
    log is not removed.  A log with no more lines is handed over at once, unless a
    line waits for a client of the same shard.  What is buffered is the last thousand
    lines written, as long as nobody but the lines has waited. *)
Theorem long_logs_cannot_be_followed uses job :
  let y := used uses start in
  let s := served y in
  let buffered := get_logs job None s in
  ((100 < length buffered)%nat -> forall req, SubscribeLogsRequest.job_id req = job ->
     let too_long := bool_decide (100 < length (LogStreamServiceGrpc.history req s))%nat in
     Task.run (LogStreamServiceGrpc.subscribe_logs req) s =
       (if too_long then s else s <| held_logs := logs_shard job :: held_logs s |>, inr Task.Forever) /\
     (too_long = false -> forall later,
        logs (served (used later (perform (SubscribeLogs req) y))) !! job = logs s !! job)) /\
  ((length buffered <= 100)%nat -> subscribers_free job s = true -> exists s' tx c,
     Task.run (subscribe job) s = (s', inl tx) /\ channels s' !! tx = Some c /\ Channel.queue c = buffered) /\
  (smooth uses -> Z.of_nat (length uses) < 2 ^ 64 ->
     buffered = last_n LOG_BUFFER_SIZE (written job uses)).
Proof.
  intros y s buffered. split_and!.
  - intros Hlong req <- too_long.
    assert (Task.run (LogStreamServiceGrpc.subscribe_logs req) s = (if too_long then s
      else s <| held_logs := logs_shard (SubscribeLogsRequest.job_id req) :: held_logs s |>, inr Task.Forever)) as Hrun.
    { unfold LogStreamServiceGrpc.subscribe_logs. rewrite Task.run_bind, history_sent. unfold too_long.
      set (n := length (LogStreamServiceGrpc.history req s)).
      destruct (bool_decide_reflect (n <= 100)%nat); [rewrite bool_decide_false by lia|by rewrite bool_decide_true by lia].
      unfold subscribe. by rewrite !Task.run_bind, buffered_stuck. }
    split; [done|]. intros Hshort later. rewrite Hshort in Hrun. by apply frozen_log.
  - intros Hshort Hfree. unfold subscribe. rewrite Task.run_bind, buffered_sent by done. simpl. rewrite Hfree.
    eexists _, _, _. split; [done|]. simpl. split; [apply list_lookup_middle; done|done].
  - intros Hsm Hn. destruct (used_in_order uses Hsm Hn) as ([Hs _] & _ & _). destruct (Hs job) as [Hb _].
    unfold buffered. rewrite buffered_lines. fold y s in Hb. rewrite Hb, !last_n_drop, fmap_drop, numbered_entries.
    by rewrite numbered_length.
Qed.

(** [n] rounds of the task of a follower. *)
Fixpoint forwards (n : nat) (f : LogFollower.t) (s : service) : option (service * LogFollower.t) :=
  match n with
  | 0%nat => Some (s, f)
  | S n => match LogStreamServiceGrpc.forward f s with
           | Forwarded (s, f) => forwards n f s
           | _ => None
           end
  end.

Definition with_sequence (n : Z) (e : LogEntry.t) : JobLogEntry.t :=
  BufferedLogEntry.job_log_entry (BufferedLogEntry.of_entry e n).

Lemma forwards_all n todo f (s : service) c :
  channels s !! LogFollower.source f = Some c -> Channel.queue c = todo ->
  Forall (fun e => default 0 (sequences s !! LogEntry.job_id e) = n) todo ->
  Channel.receiving (LogFollower.output f) = true ->
  (length (Channel.queue (LogFollower.output f)) + length todo <= Channel.capacity (LogFollower.output f))%nat ->
  exists s' f', forwards (length todo) f s = Some (s', f') /\
    Channel.queue (LogFollower.output f') = Channel.queue (LogFollower.output f) ++ (with_sequence n <$> todo).
Proof.
  revert f s c. induction todo as [|e todo IH]; intros f s c Hc Hq Hn Hr Hl; simpl.
  { exists s, f. by rewrite app_nil_r. }
  unfold LogStreamServiceGrpc.forward. rewrite Hc, Hq. inversion_clear Hn as [|? ? He Hn']. rewrite He.
  unfold Channel.send, Channel.is_full. rewrite Hr. simpl in Hl |- *.
  rewrite bool_decide_false by lia. simpl.
  set (out := LogFollower.output f <| Channel.queue := Channel.queue (LogFollower.output f) ++ [with_sequence n e] |>).
  set (f1 := f <| LogFollower.output := out |>).
  edestruct (IH f1 (s <| channels := <[LogFollower.source f := Channel.receive c]> (channels s) |>)
    (Channel.receive c)) as (s' & f' & Hf & Hout).
  - simpl. rewrite list_lookup_insert_eq; [done|]. by eapply lookup_lt_Some.
  - simpl. by rewrite Hq.
  - exact Hn'.
  - done.
  - simpl. rewrite length_app. simpl. lia.
  - exists s', f'. split; [exact Hf|]. rewrite Hout. simpl. by rewrite <- app_assoc.
Qed.

Lemma written_job job uses : Forall (fun e => LogEntry.job_id e = job) (written job uses).
Proof.
  induction uses as [|u uses IH] using rev_ind; [constructor|]. rewrite written_snoc.
  destruct u; simpl; try case_bool_decide; try done. by apply Forall_app_2; [|constructor].
Qed.

(** A client that asks for the history gets it twice.  Its channel has the
    buffered lines with their numbers, and its task sends them again, all with the
    number of the last. *)
Theorem followers_see_history_twice uses req : smooth uses -> Z.of_nat (length uses) < 2 ^ 64 ->
  SubscribeLogsRequest.include_history req = true -> SubscribeLogsRequest.tail_lines req <= 0 ->
  let s := served (used uses start) in
  let lines := written (SubscribeLogsRequest.job_id req) uses in
  (length lines <= 50)%nat -> subscribers_free (SubscribeLogsRequest.job_id req) s = true ->
  exists s1 f s2 f', Task.run (LogStreamServiceGrpc.subscribe_logs req) s = (s1, inl f) /\
    forwards (length lines) f s1 = Some (s2, f') /\
    Channel.queue (LogFollower.output f') =
      (BufferedLogEntry.job_log_entry <$> numbered lines) ++ (with_sequence (Z.of_nat (length lines)) <$> lines).
Proof.
  intros Hsm Hn Hinc Htail s lines Hshort Hfree. set (job := SubscribeLogsRequest.job_id req) in *.
  destruct (used_in_order uses Hsm Hn) as ([Hs _] & _ & _). destruct (Hs job) as [Hb Hq].
  fold s lines in Hb, Hq. clear Hs.
  rewrite last_n_all in Hb by (rewrite numbered_length; unfold LOG_BUFFER_SIZE; lia).
  assert (LogStreamServiceGrpc.history req s = BufferedLogEntry.job_log_entry <$> numbered lines) as Hh.
  { unfold LogStreamServiceGrpc.history, get_logs_with_sequence, LogStreamServiceGrpc.positive_limit.
    rewrite Hinc. fold job. rewrite <- Hb. destruct (Z.ltb_spec 0 (SubscribeLogsRequest.tail_lines req)); [lia|].
    destruct (logs s !! job); [|done]. simpl. rewrite last_n_all by done. f_equal.
    clear. induction l as [|e l IH]; [done|]. rewrite filter_cons_True by done. by f_equal. }
  assert (get_logs job None s = lines) as Hlines by (by rewrite buffered_lines, Hb, numbered_entries).
  set (c := Channel.channel 100 <| Channel.queue := lines |>). set (tx := length (channels s)).
  set (s1 := s <| channels := channels s ++ [c] |> <| subscribers := push_to job tx (subscribers s) |>).
  set (out := Channel.mk 100 (BufferedLogEntry.job_log_entry <$> numbered lines) true).
  destruct (forwards_all (Z.of_nat (length lines)) lines (LogFollower.mk tx out) s1 c) as (s2 & f' & Hf & Hout); try done.
  - simpl. by apply list_lookup_middle.
  - eapply Forall_impl; [apply (written_job job uses)|]. intros e ->. exact Hq.
  - simpl. rewrite length_fmap, numbered_length. lia.
  - exists s1, (LogFollower.mk tx out), s2, f'. split; [|done].
    unfold LogStreamServiceGrpc.subscribe_logs. rewrite Task.run_bind, history_sent, Hh, length_fmap, numbered_length.
    rewrite bool_decide_true by lia. fold job. unfold subscribe.
    rewrite !Task.run_bind, buffered_sent by (rewrite Hlines; lia). rewrite Hlines. simpl. by rewrite Hfree.
Qed.

(** Whether a task has to wait when it is run. *)
Definition waits {A} (p : Task.t service A) (s : service) : bool :=
  match Task.run p s with (_, inl _) => false | (_, inr _) => true end.

Lemma waits_bind {A B} (f : A -> Task.t service B) (p : Task.t service A) s :
  (forall a s, waits (f a) s = false) -> waits (p ≫= f) s = waits p s.
Proof.
  intros Hf. unfold waits. rewrite Task.run_bind. destruct (Task.run p s) as [s' [a|p']]; [|done]. apply Hf.
Qed.

Lemma notify_waits entry ids (s : service) : NoDup ids ->
  (waits (notify_all entry ids) s = true <->
   exists tx c, tx ∈ ids /\ channels s !! tx = Some c /\ Channel.is_full c = true).
Proof.
  revert s. induction ids as [|tx ids IH]; intros s Hnd.
  { split; [done|]. by intros (? & ? & []%not_elem_of_nil & _). }
  apply NoDup_cons in Hnd as [Hnew Hnd]. unfold waits. cbn [notify_all]. rewrite Task.run_bind. simpl.
  unfold has_room. destruct (channels s !! tx) as [c|] eqn:Hc; simpl.
  - destruct (Channel.is_full c) eqn:Hfull; simpl; [split; [|done]; intros _; exists tx, c; split; [left|done]|].
    unfold Channel.send. rewrite Hfull.
    assert (forall c', (waits (notify_all entry ids) (s <| channels := <[tx := c']> (channels s) |>) = true <->
      exists tx' c0, tx' ∈ tx :: ids /\ channels s !! tx' = Some c0 /\ Channel.is_full c0 = true)) as Hrest.
    { intros c'. rewrite IH by done. simpl. split.
      - intros (tx' & c0 & Hin & Htx & Hf). rewrite list_lookup_insert_ne in Htx by (intros ->; done).
        exists tx', c0. split; [by right|done].
      - intros (tx' & c0 & [->|Hin]%elem_of_cons & Htx & Hf); [congruence|].
        exists tx', c0. rewrite list_lookup_insert_ne by (intros ->; done). done. }
    destruct (Channel.receiving c); apply Hrest.
  - fold (waits (notify_all entry ids) s). rewrite IH by done. split.
    + intros (tx' & c0 & Hin & ?). exists tx', c0. split; [by right|done].
    + intros (tx' & c0 & [->|Hin]%elem_of_cons & ? & ?); [congruence|by exists tx', c0].
Qed.

Lemma notify_runs entry ids (s : service) :
  subscribers s !! LogEntry.job_id entry = Some ids ->
  let shard := subscribers_shard (LogEntry.job_id entry) in
  Task.run (notify_subscribers entry) s =
    Task.run (notify_all entry ids;;
      change (fun s => s <| held_subscribers := drop_guard shard (held_subscribers s) |>))
      (s <| held_subscribers := shard :: held_subscribers s |>).
Proof. intros Hids shard. unfold notify_subscribers. rewrite Task.run_bind. simpl. by rewrite Hids. Qed.

(** The line of a worker waits, and with it all that this worker sends, when one of
    the clients that follow the job has a full channel; and, but for a client that
    waits with a reference to the log, only then. *)
Theorem slow_follower_stalls_the_log entry ids (s : service) :
  logs_free (LogEntry.job_id entry) s = true ->
  subscribers s !! LogEntry.job_id entry = Some ids -> NoDup ids ->
  (waits (append_log entry) s = true <->
   exists tx c, tx ∈ ids /\ channels s !! tx = Some c /\ Channel.is_full c = true).
Proof.
  intros Hfree Hids Hnd. unfold waits. rewrite append_runs by done. set (s1 := pushed entry s).
  change (waits (notify_subscribers entry;; persist entry) s1 = true <->
    exists tx c, tx ∈ ids /\ channels s1 !! tx = Some c /\ Channel.is_full c = true).
  rewrite waits_bind by done. change (subscribers s1 !! LogEntry.job_id entry = Some ids) in Hids.
  unfold waits. rewrite (notify_runs entry ids s1 Hids).
  match goal with |- context [Task.run (?p ≫= ?f) ?s0] => change (waits (p ≫= f) s0 = true <->
    exists tx c, tx ∈ ids /\ channels s0 !! tx = Some c /\ Channel.is_full c = true) end.
  rewrite waits_bind by done. by apply notify_waits.
Qed.

(** While a line waits for a client, nobody can subscribe to the log, and nobody
    remove it, for jobs of its shard. *)
Lemma waiting_lines_hold_the_subscribers (job other : string) (s : service) :
  subscribers_shard job ∈ held_subscribers s -> subscribers_shard other = subscribers_shard job ->
  waits (close_subscribers other) s = true /\ waits (clear_logs other) s = true /\
  waits (subscribe other) s = true.
Proof.
  intros Hheld Hsh. assert (forall s' : service, held_subscribers s' = held_subscribers s ->
    subscribers_free other s' = false) as Hno.
  { intros s' Hs. unfold subscribers_free. rewrite Hs, Hsh. by apply bool_decide_false; intros []. }
  unfold waits, clear_logs, close_subscribers, subscribe. split_and!.
  - simpl. by rewrite Hno.
  - rewrite Task.run_bind. simpl. destruct (logs_free other s); [|done]. simpl. by rewrite Hno.
  - rewrite Task.run_bind. simpl. destruct (Channel.send_all _ _); [|done]. simpl. by rewrite Hno.
Qed.

End logs.

(** ** Evaluation *)

#[local] Instance example_wire : WireTypes := {| Timestamp := Z; ProtoDuration := Z |}.
#[local] Instance example_shards : Shards := {| logs_shard := String.length; subscribers_shard := String.length |}.

Module ExampleLogs.

Definition line (job text : string) : LogEntry.t := LogEntry.mk job text false None.
Definition service : Type := LogStreamService.t (E := concrete) (Store := DisabledStorage).

(** [n] lines of a job. *)
Definition log_of (job : string) (n : nat) : list use := replicate n (Append (line job "x")).

Definition live_of_job : SubscribeLogsRequest.t := SubscribeLogsRequest.mk "job" false 0.
Definition all_of (job : string) : SubscribeLogsRequest.t := SubscribeLogsRequest.mk job true 0.

(** An ingestor that takes two lines of a batch. *)
Definition ingestor : LogIngestor.t (E := concrete) (Store := DisabledStorage) :=
  LogIngestor.new (E := concrete) (Some LogStreamService.new) (Some (LogIngestorConfig.mk 2 false 10)).

Definition after_uses (uses : list use) : system (E := concrete) (Store := DisabledStorage) :=
  used (E := concrete) uses start.

(** Nobody waits at all. *)
Fixpoint nobody_waits (uses : list use) (y : system (E := concrete) (Store := DisabledStorage)) : bool :=
  match waiting y, uses with
  | [], [] => true
  | [], u :: uses => nobody_waits uses (perform (E := concrete) u y)
  | _ :: _, _ => false
  end.

Lemma nobody_waits_smooth uses : nobody_waits uses start = true ->
  smooth (E := concrete) (Store := DisabledStorage) uses.
Proof.
  unfold smooth. intros Hn k. revert k Hn. generalize (start (E := concrete) (Store := DisabledStorage)).
  induction uses as [|u uses IH]; intros y k; simpl; destruct (waiting y) as [|w l] eqn:Hw; try done.
  - intros _. rewrite take_nil. simpl. intros u p. by rewrite Hw, elem_of_nil.
  - intros Hn. destruct k as [|k]; simpl; [intros u' p; by rewrite Hw, elem_of_nil|]. by apply IH.
Qed.

End ExampleLogs.

(** Three lines are counted, of which two were kept. *)
Example cut_batches_count_in_full :
  let batch := LogBatch.mk "job" [ExampleLogs.line "job" "a"; ExampleLogs.line "job" "b"; ExampleLogs.line "job" "c"] in
  let ingest := LogIngestor.ingest_log_batch (E := concrete) (X := Empty_set) batch 5 in
  LogIngestionResult.lines_ingested <$> returns ingest ExampleLogs.ingestor = Ok 3 /\
  LogStreamService.get_logs (E := concrete) "job" None <$> LogIngestor.log_service (after ingest ExampleLogs.ingestor) =
    Some [ExampleLogs.line "job" "a"; ExampleLogs.line "job" "b"].
Proof. split; reflexivity. Qed.

(** A client that reads a log in pages of two lines never gets the first. *)
Example pages_skip_lines :
  let s := served (ExampleLogs.after_uses
    [Append (ExampleLogs.line "job" "a"); Append (ExampleLogs.line "job" "b"); Append (ExampleLogs.line "job" "c")]) in
  let page since := JobLogEntry.line <$> GetLogsResponse.entries
    (LogStreamServiceGrpc.get_logs (E := concrete) (GetLogsRequest.mk "job" 2 since) s) in
  page 0 = ["b"; "c"] /\ page 3 = [].
Proof. split; reflexivity. Qed.

(** A client subscribes and does not read: the line after a hundred waits, and so
    does who wants to remove the log, until the client reads; the removal does the
    rest then. *)
Example lines_and_removal_go_on :
  let uses := Subscribe "job" :: ExampleLogs.log_of "job" 101 ++ [Clear "job"] in
  let y := ExampleLogs.after_uses uses in
  let y' := used (E := concrete) [Receive 0; GoOn 0; GoOn 0] y in
  length (waiting y) = 2%nat /\
  default 0 (LogStreamService.sequences (served y) !! "job") = 101 /\
  length (waiting y') = 0%nat /\
  LogStreamService.sequences (served y') !! "job" = None.
Proof. repeat split; by vm_compute. Qed.

Example logs_are_the_last_lines_witness :
  LogStreamService.get_logs (E := concrete) "job" (Some 2%nat)
    (served (ExampleLogs.after_uses (ExampleLogs.log_of "job" 3))) =
  [ExampleLogs.line "job" "x"; ExampleLogs.line "job" "x"].
Proof.
  assert (smooth (E := concrete) (Store := DisabledStorage) (ExampleLogs.log_of "job" 3)) as Hsm.
  { apply ExampleLogs.nobody_waits_smooth. by vm_compute. }
  assert (Z.of_nat (length (ExampleLogs.log_of "job" 3)) < 2 ^ 64) as Hn by reflexivity.
  refine (eq_trans (proj1 (logs_are_the_last_lines (E := concrete) (Store := DisabledStorage)
    (ExampleLogs.log_of "job" 3) Hsm Hn "job" (Some 2%nat))) _); reflexivity.
Defined.

(** After a client has subscribed to 101 lines, no line is added. *)
Example long_logs_cannot_be_followed_witness :
  let y := used (E := concrete) (Store := DisabledStorage) (ExampleLogs.log_of "job" 101) start in
  snd (Task.run (LogStreamServiceGrpc.subscribe_logs (E := concrete) ExampleLogs.live_of_job) (served y)) =
    inr Task.Forever /\
  LogStreamService.logs (served (used (E := concrete) (ExampleLogs.log_of "job" 5)
    (perform (E := concrete) (SubscribeLogs ExampleLogs.live_of_job) y))) !! "job" =
  LogStreamService.logs (served y) !! "job".
Proof.
  pose proof (long_logs_cannot_be_followed (E := concrete) (Store := DisabledStorage)
    (ExampleLogs.log_of "job" 101) "job") as [Hthm _].
  set (y := used (ExampleLogs.log_of "job" 101) start) in *. cbv zeta in *.
  assert (100 < length (LogStreamService.get_logs (E := concrete) "job" None (served y)))%nat as Hlong.
  { apply Nat.ltb_lt. by vm_compute. }
  destruct (Hthm Hlong ExampleLogs.live_of_job eq_refl) as [Hrun Hfrozen].
  split; [by rewrite Hrun|]. apply Hfrozen. apply bool_decide_false. simpl. lia.
Defined.

Example followers_see_history_twice_witness :
  exists s1 f s2 f',
    Task.run (LogStreamServiceGrpc.subscribe_logs (E := concrete) (ExampleLogs.all_of "job"))
      (served (ExampleLogs.after_uses (ExampleLogs.log_of "job" 2))) = (s1, inl f) /\
    forwards (E := concrete) 2 f s1 = Some (s2, f') /\
    JobLogEntry.sequence <$> Channel.queue (LogFollower.output f') = [1; 2; 2; 2].
Proof.
  assert (smooth (E := concrete) (Store := DisabledStorage) (ExampleLogs.log_of "job" 2)) as Hsm.
  { apply ExampleLogs.nobody_waits_smooth. by vm_compute. }
  destruct (followers_see_history_twice (E := concrete) (Store := DisabledStorage)
    (ExampleLogs.log_of "job" 2) (ExampleLogs.all_of "job") Hsm ltac:(done) ltac:(done) ltac:(done)
    ltac:(apply Nat.leb_le; reflexivity) ltac:(by vm_compute))
    as (s1 & f & s2 & f' & Hs & Hf & Hq).
  exists s1, f, s2, f'. split; [exact Hs|]. split; [exact Hf|]. rewrite Hq. reflexivity.
Defined.
