(* ===== verification/WorkerGateway.v ===== *)
(** * The gateway of the workers
    ([crates/server/interface/src/grpc/worker.rs, heartbeat_processor.rs,
    worker_command_sender.rs],
    [crates/server/application/src/command/execution/job_executor.rs])

    A worker registers itself with its token, and opens a stream on which it sends
    heartbeats, logs, acknowledgements and results and is sent jobs.  The service
    keeps its sessions and the channels of the streams in memory; which of its
    collaborators it has depends on how it is built.

    The world has the maps of one service, which all its clones share, and what the
    collaborators act on.  The status of an RPC is of the library ([GrpcStatus]).
    [Blocked] is a task that waits: for room in the channel of a worker, or, where
    it is said, for a lock that it holds.  Log lines are left out. *)

From Stdlib Require Import String.
From S2P Require Import Prelude Effects Std Externs States Errors JobSpec Job Kubernetes ProviderApi Worker Events Services ExecutionCommands Outbox AppServices JobStore FailureHandlers WorkerUpkeep WorkerActor Provisioning Wire LogStream.

(** ** What the service is given *)

Class GrpcStatus := {
  Status : Type;
  invalid_argument : string -> Status;
  unauthenticated : string -> Status;
  not_found : string -> Status;
  internal : string -> Status;
  failed_precondition : string -> Status;
  deadline_exceeded : string -> Status;
  status_to_string : Status -> string;
}.

(** The handle of the supervisor. *)
Class Supervisor `{E : Externs} (W : Type) := {
  supervisor_heartbeat : WorkerId -> method W SupervisorError.t unit;
  supervisor_register : WorkerId -> ProviderId -> WorkerHandle.t -> WorkerSpec.t ->
    method W SupervisorError.t unit;
  supervisor_unregister : WorkerId -> method W SupervisorError.t unit;
  supervisor_get_worker : WorkerId -> method W SupervisorError.t WorkerActorState.t;
}.

(** [Debug] of a reason. *)
Class ReasonDebug `{E : Externs} := { debug_termination_reason : TerminationReason.t -> string }.

(** ** Data *)

Module RegisteredWorker.
Section worker.
Context `{!WireTypes}.
(** src: crates/server/interface/src/grpc/worker.rs 42-46 RegisteredWorker *)
Record t := mk { info : Wire.WorkerInfo.t; session_id : string; status : Z }.
#[global] Instance t_rebuild : Rebuild t := fun w => mk (info w) (session_id w) (status w).
End worker.
End RegisteredWorker.

(** [created_at] is a reading of the monotonic clock. *)
Module InMemoryOtpState.
(** src: crates/server/interface/src/grpc/worker.rs 51-56 InMemoryOtpState *)
Record t := mk { token : string; worker_id : string; created_at : Z; used : bool }.
#[global] Instance t_rebuild : Rebuild t := fun o => mk (token o) (worker_id o) (created_at o) (used o).
End InMemoryOtpState.

Module HeartbeatProcessorConfig.
(** src: crates/server/interface/src/grpc/heartbeat_processor.rs 36-39 HeartbeatProcessorConfig *)
Record t := mk { heartbeat_timeout_secs : Z }.
(** src: crates/server/interface/src/grpc/heartbeat_processor.rs 42-46 HeartbeatProcessorConfig::default *)
Definition default : t := mk 60.
End HeartbeatProcessorConfig.

(** A collaborator that may be missing is whether it is there. *)
Module HeartbeatProcessor.

(** src: crates/server/interface/src/grpc/heartbeat_processor.rs 51-60 HeartbeatProcessor *)
Record t := mk {
  worker_registry : bool;
  event_bus : bool;
  supervisor_handle : bool;
  config : HeartbeatProcessorConfig.t;
}.
#[global] Instance t_rebuild : Rebuild t := fun p =>
  mk (worker_registry p) (event_bus p) (supervisor_handle p) (config p).

(** src: crates/server/interface/src/grpc/heartbeat_processor.rs 64-75 HeartbeatProcessor::new *)
Definition new (registry bus : bool) (c : option HeartbeatProcessorConfig.t) : t :=
  mk registry bus false (default HeartbeatProcessorConfig.default c).

(** src: crates/server/interface/src/grpc/heartbeat_processor.rs 78-81 HeartbeatProcessor::with_supervisor_handle *)
Definition with_supervisor_handle (p : t) : t := p <| supervisor_handle := true |>.

End HeartbeatProcessor.

(** [Provisioning] has another result of the same name. *)
Module ProcessedHeartbeat.
Section result.
Context `{E : Externs}.
(** src: crates/server/interface/src/grpc/heartbeat_processor.rs 27-32 HeartbeatResult *)
Record t := mk {
  worker_id : WorkerId;
  processed : bool;
  state_changed : bool;
  new_state : option WorkerState.t;
}.
End result.
End ProcessedHeartbeat.

Module WorkerAgentServiceImpl.
Section service.
Context `{E : Externs} `{!WireTypes} `{!GrpcStatus} {Store : Type}.

(** A channel to a worker is a number of [streams], the channels of the streams
    that were opened; the ingestor is its configuration and what it counted, its
    service that of the logs. *)
(** src: crates/server/interface/src/grpc/worker.rs 66-93 WorkerAgentServiceImpl *)
Record t := mk {
  workers : gmap string RegisteredWorker.t;
  otp_tokens : gmap string InMemoryOtpState.t;
  worker_channels : gmap string nat;
  worker_registry : bool;
  job_repository : bool;
  token_store : bool;
  log_service : option (LogStreamService.t (Store := Store));
  event_bus : bool;
  outbox_repository : bool;
  heartbeat_processor : option HeartbeatProcessor.t;
  log_ingestor : option (LogIngestorConfig.t * LogIngestorMetrics.t);
  supervisor_handle : bool;
  streams : list (Channel.t (Prelude.result Status ServerMessage.t));
}.

#[global] Instance t_rebuild : Rebuild t := fun s =>
  mk (workers s) (otp_tokens s) (worker_channels s) (worker_registry s) (job_repository s) (token_store s)
    (log_service s) (event_bus s) (outbox_repository s) (heartbeat_processor s) (log_ingestor s)
    (supervisor_handle s) (streams s).

(** [LogIngestor::new(Some(log_service), None)]. *)
Definition ingestor : LogIngestorConfig.t * LogIngestorMetrics.t :=
  (LogIngestorConfig.default, LogIngestorMetrics.default).

(** src: crates/server/interface/src/grpc/worker.rs 101-116 WorkerAgentServiceImpl::new *)
Definition new : t := mk ∅ ∅ ∅ false false false None false false None None false [].

(** src: crates/server/interface/src/grpc/worker.rs 119-149 WorkerAgentServiceImpl::with_actor_supervisor *)
Definition with_actor_supervisor (logs : LogStreamService.t (Store := Store)) : t :=
  mk ∅ ∅ ∅ true true true (Some logs) true false
    (Some (HeartbeatProcessor.with_supervisor_handle (HeartbeatProcessor.new true true None)))
    (Some ingestor) true [].

(** src: crates/server/interface/src/grpc/worker.rs 152-154 WorkerAgentServiceImpl::is_actor_enabled *)
Definition is_actor_enabled (s : t) : bool := supervisor_handle s.

(** src: crates/server/interface/src/grpc/worker.rs 161-179 WorkerAgentServiceImpl::with_registry *)
Definition with_registry : t := mk ∅ ∅ ∅ true false false None true false None None false [].

(** src: crates/server/interface/src/grpc/worker.rs 181-203 WorkerAgentServiceImpl::with_registry_and_log_service *)
Definition with_registry_and_log_service (logs : LogStreamService.t (Store := Store)) : t :=
  mk ∅ ∅ ∅ true false false (Some logs) true false None (Some ingestor) false [].

(** src: crates/server/interface/src/grpc/worker.rs 205-211 WorkerAgentServiceImpl::with_token_store *)
Definition with_token_store (s : t) : t := s <| token_store := true |>.
(** src: crates/server/interface/src/grpc/worker.rs 213-219 WorkerAgentServiceImpl::with_job_repository *)
Definition with_job_repository (s : t) : t := s <| job_repository := true |>.
(** src: crates/server/interface/src/grpc/worker.rs 222-228 WorkerAgentServiceImpl::with_outbox_repository *)
Definition with_outbox_repository (s : t) : t := s <| outbox_repository := true |>.

(** src: crates/server/interface/src/grpc/worker.rs 230-253 WorkerAgentServiceImpl::with_registry_job_repository_and_log_service *)
Definition with_registry_job_repository_and_log_service (logs : LogStreamService.t (Store := Store)) : t :=
  mk ∅ ∅ ∅ true true false (Some logs) true false None (Some ingestor) false [].

(** What the server is started with. *)
(** src: crates/server/interface/src/grpc/worker.rs 255-279 WorkerAgentServiceImpl::with_registry_job_repository_token_store_and_log_service *)
Definition with_registry_job_repository_token_store_and_log_service
    (logs : LogStreamService.t (Store := Store)) : t :=
  mk ∅ ∅ ∅ true true true (Some logs) true false None (Some ingestor) false [].

(** src: crates/server/interface/src/grpc/worker.rs 283-310 WorkerAgentServiceImpl::with_all_dependencies *)
Definition with_all_dependencies (logs : LogStreamService.t (Store := Store)) : t :=
  mk ∅ ∅ ∅ true true true (Some logs) true true (Some (HeartbeatProcessor.new true true None))
    (Some ingestor) false [].

End service.
End WorkerAgentServiceImpl.

(** The service with the storage of its logs, the mode of development and the clock
    of the wire. *)
Class Gateway `{E : Externs} `{!WireTypes} `{!GrpcStatus} (W : Type) := {
  LogStore : Type;
  log_store :: LogStorage LogStore;
  log_shards :: Shards;
  gateway : W -> WorkerAgentServiceImpl.t (Store := LogStore);
  set_gateway : WorkerAgentServiceImpl.t (Store := LogStore) -> W -> W;
  dev_mode : W -> bool;
  wire_clock : W -> W * Timestamp;
}.

Class GatewayLaws `{E : Externs} `{!WireTypes} `{!GrpcStatus} (W : Type) `{!Gateway W} : Prop := {
  gateway_set : forall s (w : W), gateway (set_gateway s w) = s;
  set_gateway_set : forall s s' (w : W), set_gateway s (set_gateway s' w) = set_gateway s w;
  set_gateway_same : forall w : W, set_gateway (gateway w) w = w;
}.

(** The worker that a stream is of, once it has said so. *)
Abbreviation holder := (option string).

(** ** Operations *)

Section gateway.
Context `{E : Externs} `{!WireTypes} `{!GrpcStatus} `{!EventFormat} `{!ReasonDebug} {W : Type}.
Context `{!Gateway W} `{!WorkerRegistry.t W} `{!JobRepository.t W} `{!WorkerBootstrapTokenStore W}.
Context `{!EventBus W} `{!OutboxRepository W} `{!Supervisor W} `{!Ambient W} `{!Sleeping W}.
Import WorkerAgentServiceImpl.

(** The service as it is. *)
Definition the_service {F} : method W F (WorkerAgentServiceImpl.t (Store := LogStore)) :=
  w ← self; mret (gateway w).
Definition change {F} (f : WorkerAgentServiceImpl.t (Store := LogStore) -> WorkerAgentServiceImpl.t (Store := LogStore)) :
    method W F unit := modify (fun w => set_gateway (f (gateway w)) w).

(** [result.map_err(|e| Status::s(e.to_string()))?]. *)
Definition or_status {A} (s : string -> Status) (m : method W DomainError.t A) : method W Status A :=
  mapping_error m (fun e => s (DomainError.fmt e)).

(** An event that is published if there is a bus; an error is logged. *)
Definition publishing {F} (e : DomainEvent.t) : method W F unit := ignoring (publish_event e).

(** src: crates/server/interface/src/grpc/worker.rs 312-318 WorkerAgentServiceImpl::parse_worker_uuid *)
Definition parse_worker_uuid (s : string) : Prelude.result Status Externs.Uuid :=
  ok_or (uuid_parse_str s) (invalid_argument "worker_id must be a UUID").

(** src: crates/server/interface/src/grpc/worker.rs 338-342 WorkerAgentServiceImpl::parse_job_uuid *)
Definition parse_job_uuid (s : string) : Prelude.result Status Externs.Uuid :=
  ok_or (uuid_parse_str s) (invalid_argument "job_id must be a UUID").

(** *** Registration *)

(** src: crates/server/interface/src/grpc/worker.rs 724-760 WorkerAgentServiceImpl::emit_worker_events *)
Definition emit_worker_events {F} (i : WorkerId) : method W F unit :=
  s ← the_service;
  if event_bus s then
    now ← calling read_utc;
    provider ← calling draw_uuid;
    publishing (DomainEvent.WorkerRegistered i provider now None (Some "worker-jit-registration"));;
    provider' ← calling draw_uuid;
    publishing (DomainEvent.WorkerReady i provider' now None (Some "worker-jit-registration"))
  else mret tt.

(** The provider of a worker the supervisor does not know. *)
(** src: crates/server/interface/src/grpc/worker.rs 397-466 WorkerAgentServiceImpl::on_worker_registered (provider) *)
Definition recover_provider (i : WorkerId) (job_id_from_token : option JobId) : method W DomainError.t ProviderId :=
  s ← the_service;
  if worker_registry s then
    found ← mapping_error (WorkerRegistry.get i) (fun e =>
      DomainError.InfrastructureError ("Failed to query worker " +:+ uuid_to_string i +:+ " from database: "
        +:+ DomainError.fmt e));
    match found with
    | Some existing_worker => mret (WorkerHandle.provider_id (Worker.handle existing_worker))
    | None =>
        match job_id_from_token with
        | Some job_id =>
            if job_repository s then
              job ← mapping_error (JobRepository.find_by_id job_id) (fun e =>
                DomainError.InfrastructureError ("Failed to query job " +:+ uuid_to_string job_id +:+ ": "
                  +:+ DomainError.fmt e));
              match job with
              | Some job => lift (ok_or (Job.selected_provider job) (DomainError.WorkerProvisioningFailed
                  ("Job " +:+ uuid_to_string job_id +:+ " has no selected_provider - provisioning state inconsistent")))
              | None => throw (DomainError.JobNotFound job_id)
              end
            else throw (DomainError.InfrastructureError "JobRepository not available - cannot recover provider_id")
        | None => throw (DomainError.WorkerProvisioningFailed
            ("Worker " +:+ uuid_to_string i +:+ " has no job_id and no DB record - provisioning state lost"))
        end
    end
  else throw (DomainError.InfrastructureError "WorkerRegistry not available - cannot recover provider_id").

(** src: crates/server/interface/src/grpc/worker.rs 492-501 WorkerAgentServiceImpl::on_worker_registered (spec) *)
Definition spec_of_info (info : Wire.WorkerInfo.t) (fresh : WorkerId) : WorkerSpec.t :=
  let sp := WorkerSpec.new "hodei-worker:latest" "http://localhost:50051" fresh in
  match Wire.WorkerInfo.capacity info with
  | None => sp
  | Some cap => sp <| WorkerSpec.resources := WorkerSpec.resources sp
      <| Kubernetes.ResourceRequirements.cpu_cores := ResourceCapacity.cpu_cores cap |>
      <| Kubernetes.ResourceRequirements.memory_bytes := ResourceCapacity.memory_bytes cap |> |>
  end.

Definition or_fresh {F} (o : option Externs.Uuid) : method W F Externs.Uuid :=
  match o with Some i => mret i | None => calling draw_uuid end.

(** A worker that the supervisor does not know. *)
(** src: crates/server/interface/src/grpc/worker.rs 388-566 WorkerAgentServiceImpl::on_worker_registered (JIT) *)
Definition register_just_in_time (i : WorkerId) (info : Wire.WorkerInfo.t) (job_id_from_token : option JobId) :
    method W Status unit :=
  provider ← mapping_error (recover_provider i job_id_from_token) (fun e =>
    failed_precondition ("Worker registration failed: " +:+ DomainError.fmt e));
  now ← calling read_utc;
  let handle := WorkerHandle.new i (Wire.WorkerInfo.name info) ProviderType.Docker provider now in
  fresh ← calling draw_uuid;
  let sp := spec_of_info info fresh in
  registered ← result_of (supervisor_register i provider handle sp);
  match registered with
  | Err _ => throw (internal "Failed to heal worker state in actor")
  | Ok _ =>
      s ← the_service;
      if worker_registry s then
        job_id ← or_fresh job_id_from_token;
        persisted ← result_of (WorkerRegistry.register handle sp job_id);
        match persisted with
        | Ok _ => mret tt
        | Err e =>
            ignoring (supervisor_unregister i);;
            throw (internal ("Failed to persist worker to database: " +:+ DomainError.fmt e))
        end
      else mret tt
  end.

(** src: crates/server/interface/src/grpc/worker.rs 614-629 WorkerAgentServiceImpl::on_worker_registered (direct provider) *)
Definition provider_of_job (job_id_from_token : option JobId) : method W Status ProviderId :=
  s ← the_service;
  match job_id_from_token with
  | Some job_id =>
      if job_repository s then
        found ← result_of (JobRepository.find_by_id job_id);
        match found with
        | Ok (Some job) => or_fresh (Job.selected_provider job)
        | _ => or_fresh None
        end
      else or_fresh None
  | None => or_fresh None
  end.

(** Without a supervisor. *)
(** src: crates/server/interface/src/grpc/worker.rs 577-715 WorkerAgentServiceImpl::on_worker_registered (direct) *)
Definition register_directly (i : WorkerId) (info : Wire.WorkerInfo.t) (job_id_from_token : option JobId) :
    method W Status unit :=
  s ← the_service;
  if worker_registry s then
    found ← result_of (WorkerRegistry.get i);
    match found with
    | Ok (Some existing_worker) =>
        if bool_decide (Worker.state existing_worker = WorkerState.Ready) then mret tt
        else ignoring (WorkerRegistry.update_state i WorkerState.Ready)
    | Ok None =>
        provider ← provider_of_job job_id_from_token;
        now ← calling read_utc;
        let handle := WorkerHandle.new i (Wire.WorkerInfo.name info) ProviderType.Kubernetes provider now in
        fresh ← calling draw_uuid;
        let sp := spec_of_info info fresh in
        job_id ← or_fresh job_id_from_token;
        registered ← result_of (WorkerRegistry.register handle sp job_id);
        match registered with
        | Ok _ => ignoring (WorkerRegistry.update_state i WorkerState.Ready)
        | Err e =>
            let err_msg := DomainError.fmt e in
            if str_contains "duplicate" err_msg || str_contains "already exists" err_msg
            then ignoring (WorkerRegistry.update_state i WorkerState.Ready)
            else throw (internal ("Failed to register worker in database: " +:+ err_msg))
        end
    | Err _ => mret tt
    end
  else mret tt.

(** src: crates/server/interface/src/grpc/worker.rs 359-721 WorkerAgentServiceImpl::on_worker_registered *)
Definition on_worker_registered (worker_id_str : string) (info : Wire.WorkerInfo.t)
    (job_id_from_token : option JobId) : method W Status unit :=
  i ← lift (parse_worker_uuid worker_id_str);
  s ← the_service;
  if supervisor_handle s then
    known ← result_of (supervisor_heartbeat i);
    match known with
    | Ok _ => emit_worker_events i
    | Err e =>
        let error_msg := SupervisorError.fmt e in
        (if str_contains "WorkerNotFound" error_msg || str_contains "not found" error_msg
            || str_contains "not exist" error_msg
         then register_just_in_time i info job_id_from_token else mret tt);;
        emit_worker_events i
    end
  else
    register_directly i info job_id_from_token;;
    emit_worker_events i.

(** *** Jobs *)

(** The job, or an error of the status. *)
Definition job_for (job_id : JobId) : method W Status Job.t :=
  found ← or_status internal (JobRepository.find_by_id job_id);
  lift (ok_or found (not_found "Job not found")).

(** A method of the job that is at hand. *)
Definition on_job (m : method Job.t DomainError.t unit) (job : Job.t) : method W Status Job.t :=
  match m job with
  | (job, Ok _) => mret job
  | (_, Err e) => throw (failed_precondition (DomainError.fmt e))
  end.

(** src: crates/server/interface/src/grpc/worker.rs 786-800 WorkerAgentServiceImpl::on_job_result (pending) *)
Definition started_first (job : Job.t) : method W Status Job.t :=
  if bool_decide (Job.state job = JobState.Pending) then
    now ← calling read_utc;
    job ← on_job (Job.mark_running now) job;
    or_status internal (JobRepository.update job);;
    mret job
  else mret job.

(** src: crates/server/interface/src/grpc/worker.rs 802-824 WorkerAgentServiceImpl::on_job_result (outcome) *)
Definition job_outcome (r : JobResultMessage.t) (job : Job.t) : method W Status Job.t :=
  now ← calling read_utc;
  if JobResultMessage.success r then
    on_job (Job.complete (JobResult.Success (JobResultMessage.exit_code r) "" "") now) job
  else
    let msg := if is_empty (JobResultMessage.error_message r) then "Worker reported failure"
               else JobResultMessage.error_message r in
    if starts_with "TIMEOUT:" msg then on_job (Job.timeout now) job else on_job (Job.fail msg now) job.

(** src: crates/server/interface/src/grpc/worker.rs 831-857 WorkerAgentServiceImpl::on_job_result (announcement) *)
Definition announce_result {F} (old_state : JobState.t) (job : Job.t) : method W F unit :=
  s ← the_service;
  if event_bus s then
    now ← calling read_utc;
    publishing (DomainEvent.JobStatusChanged (Job.id job) old_state (Job.state job) now
      (Job.metadata job !! "correlation_id") (Job.metadata job !! "actor"))
  else mret tt.

(** src: crates/server/interface/src/grpc/worker.rs 868-874 WorkerAgentServiceImpl::on_job_result (reason) *)
Definition end_reason (state : JobState.t) : TerminationReason.t :=
  if bool_decide (state = JobState.Succeeded) then TerminationReason.JobCompleted
  else TerminationReason.ProviderError ("Job ended with state: " +:+ JobState.debug state).

(** src: crates/server/interface/src/grpc/worker.rs 876-896 WorkerAgentServiceImpl::on_job_result (cleanup event) *)
Definition cleanup_event (i : WorkerId) (provider : ProviderId) (reason : TerminationReason.t) (job_id : JobId)
    (now : DateTime) : OutboxEventInsert.t :=
  OutboxEventInsert.for_worker i "WorkerEphemeralTerminating"
    (json_object [
      ("worker_id", str (uuid_to_string i)); ("provider_id", str (uuid_to_string provider));
      ("reason", str (debug_termination_reason reason)); ("job_id", str (uuid_to_string job_id))])
    (Some (json_object [
      ("source", str "WorkerAgentService"); ("cleanup_type", str "reactive_event");
      ("event", str "job_completion")]))
    (Some ("ephemeral-terminating-" +:+ uuid_to_string i +:+ "-" +:+ show_Z (datetime_timestamp now))).

(** src: crates/server/interface/src/grpc/worker.rs 859-935 WorkerAgentServiceImpl::on_job_result (worker) *)
Definition release_worker (i : WorkerId) (job_id : JobId) (job : Job.t) : method W Status unit :=
  found ← result_of (WorkerRegistry.get i);
  match found with
  | Ok (Some worker) =>
      let provider := Worker.provider_id worker in
      let reason := end_reason (Job.state job) in
      now ← calling read_utc;
      s ← the_service;
      (if outbox_repository s then ignoring (insert_events [cleanup_event i provider reason job_id now])
       else if event_bus s then
         now ← calling read_utc;
         publishing (DomainEvent.WorkerEphemeralTerminating i provider reason now
           (Some (uuid_to_string job_id)) (Some "worker_agent_service"))
       else mret tt);;
      or_status internal (WorkerRegistry.release_from_job i)
  | _ => mret tt
  end.

(** src: crates/server/interface/src/grpc/worker.rs 762-938 WorkerAgentServiceImpl::on_job_result *)
Definition on_job_result (worker_id : string) (r : JobResultMessage.t) : method W Status unit :=
  s ← the_service;
  if negb (worker_registry s) then mret tt
  else if negb (job_repository s) then mret tt
  else
    i ← lift (parse_worker_uuid worker_id);
    job_id ← lift (parse_job_uuid (JobResultMessage.job_id r));
    job ← job_for job_id;
    let old_state := Job.state job in
    job ← started_first job;
    job ← job_outcome r job;
    or_status internal (JobRepository.update job);;
    announce_result old_state job;;
    match Job.state job with
    | JobState.Succeeded | JobState.Failed | JobState.Timeout | JobState.Cancelled =>
        release_worker i job_id job
    | _ => mret tt
    end.

(** The three events of an acknowledgement. *)
(** src: crates/server/interface/src/grpc/worker.rs 984-1040 WorkerAgentServiceImpl::on_job_acknowledged (events) *)
Definition acknowledgement_events (job_id : JobId) (i : WorkerId) (old_state : JobState.t) (now : DateTime)
    (correlation_id actor : option string) : list OutboxEventInsert.t :=
  let base := "ack-" +:+ uuid_to_string job_id +:+ "-" +:+ uuid_to_string i in
  let optional := json_of_option str in
  let meta := Some (json_object [
    ("correlation_id", optional correlation_id); ("actor", optional actor); ("source", str "WorkerHandler")]) in
  [OutboxEventInsert.for_job job_id "JobAccepted"
     (json_object [
       ("job_id", str (uuid_to_string job_id)); ("worker_id", str (uuid_to_string i));
       ("occurred_at", str (to_rfc3339 now)); ("correlation_id", optional correlation_id);
       ("actor", optional actor)]) meta (Some (base +:+ "-accepted"));
   OutboxEventInsert.for_job job_id "JobDispatchAcknowledged"
     (json_object [
       ("job_id", str (uuid_to_string job_id)); ("worker_id", str (uuid_to_string i));
       ("acknowledged_at", str (to_rfc3339 now)); ("correlation_id", optional correlation_id);
       ("actor", optional actor)]) meta (Some (base +:+ "-dispatch-ack"));
   OutboxEventInsert.for_job job_id "JobStatusChanged"
     (json_object [
       ("job_id", str (uuid_to_string job_id)); ("old_state", str (JobState.debug old_state));
       ("new_state", str "Running"); ("occurred_at", str (to_rfc3339 now));
       ("correlation_id", optional correlation_id); ("actor", optional actor)])
     meta (Some (base +:+ "-status-changed"))].

(** src: crates/server/interface/src/grpc/worker.rs 951-1096 WorkerAgentServiceImpl::on_job_acknowledged *)
Definition on_job_acknowledged (worker_id job_id : string) : method W Status unit :=
  s ← the_service;
  if negb (job_repository s) then mret tt
  else
    i ← lift (parse_worker_uuid worker_id);
    job_id ← lift (parse_job_uuid job_id);
    job ← job_for job_id;
    let correlation_id := Job.metadata job !! "correlation_id" in
    let actor := Job.metadata job !! "actor" in
    let old_state := Job.state job in
    now ← calling read_utc;
    started ← calling read_utc;
    job ← on_job (Job.mark_running started) job;
    or_status internal (JobRepository.update job);;
    if outbox_repository s then
      ignoring (insert_events (acknowledgement_events job_id i old_state now correlation_id actor))
    else if event_bus s then
      publishing (DomainEvent.JobAccepted job_id i now correlation_id actor);;
      publishing (DomainEvent.JobDispatchAcknowledged job_id i now correlation_id actor);;
      publishing (DomainEvent.JobStatusChanged job_id old_state JobState.Running now correlation_id actor)
    else mret tt.

(** *** Heartbeats *)

(** A worker whose first heartbeat this is. *)
(** src: crates/server/interface/src/grpc/heartbeat_processor.rs 140-167 HeartbeatProcessor::process_heartbeat (first) *)
Definition first_heartbeat {F} (of_error : DomainError.t -> F) (bus : bool) (worker : Worker.t) (i : WorkerId) :
    method W F bool :=
  if bool_decide (Worker.state worker = WorkerState.Creating) then
    mapping_error (WorkerRegistry.update_state i WorkerState.Ready) of_error;;
    (if bus then
       now ← calling read_utc;
       publishing (DomainEvent.WorkerStatusChanged (Worker.id worker) WorkerState.Creating WorkerState.Ready
         now None None)
     else mret tt);;
    mret true
  else mret false.

(** The state in the event is that the worker had before. *)
(** src: crates/server/interface/src/grpc/heartbeat_processor.rs 86-195 HeartbeatProcessor::process_heartbeat *)
Definition process_heartbeat (p : HeartbeatProcessor.t) (worker_id : string) (running_job_ids : list string) :
    method W string ProcessedHeartbeat.t :=
  i ← lift (ok_or (uuid_parse_str worker_id) "worker_id must be a UUID");
  routed ← (if HeartbeatProcessor.supervisor_handle p then
              r ← result_of (supervisor_heartbeat i); mret (is_ok r)
            else mret false);
  if routed : bool then mret (ProcessedHeartbeat.mk i true false None)
  else if negb (HeartbeatProcessor.worker_registry p) then mret (ProcessedHeartbeat.mk i false false None)
  else
    mapping_error (WorkerRegistry.heartbeat i) (fun e => "Failed to update heartbeat: " +:+ DomainError.fmt e);;
    found ← mapping_error (WorkerRegistry.get i) (fun e => "Failed to get worker: " +:+ DomainError.fmt e);
    worker ← lift (ok_or found "Worker not found in registry");
    changed ← first_heartbeat (fun e => "Failed to update state: " +:+ DomainError.fmt e)
                (HeartbeatProcessor.event_bus p) worker i;
    (if HeartbeatProcessor.event_bus p then
       now ← calling read_utc;
       publishing (DomainEvent.WorkerHeartbeat i (Worker.state worker) None None
         (head running_job_ids ≫= uuid_parse_str) now None (Some "heartbeat_processor"))
     else mret tt);;
    mret (ProcessedHeartbeat.mk i true changed (if changed : bool then Some WorkerState.Ready else None)).

(** src: crates/server/interface/src/grpc/heartbeat_processor.rs 198-204 HeartbeatProcessor::create_heartbeat_ack *)
Definition create_heartbeat_ack (worker_id : string) (fresh : Externs.Uuid) : AckMessage.t :=
  AckMessage.mk (uuid_to_string fresh) true worker_id.

(** src: crates/server/interface/src/grpc/worker.rs 1098-1173 WorkerAgentServiceImpl::on_worker_heartbeat *)
Definition on_worker_heartbeat (worker_id : string) (running_job_ids : list string) : method W Status unit :=
  s ← the_service;
  match heartbeat_processor s with
  | Some processor =>
      mapping_error (process_heartbeat processor worker_id running_job_ids) internal;; mret tt
  | None =>
      i ← lift (parse_worker_uuid worker_id);
      routed ← (if supervisor_handle s then r ← result_of (supervisor_heartbeat i); mret (is_ok r) else mret false);
      if (routed : bool) || negb (worker_registry s) then mret tt
      else
        or_status internal (WorkerRegistry.heartbeat i);;
        found ← or_status internal (WorkerRegistry.get i);
        worker ← lift (ok_or found (not_found "Worker not found in registry"));
        first_heartbeat (fun e => internal (DomainError.fmt e)) (event_bus s) worker i;;
        mret tt
  end.

(** *** Tokens *)

(** src: crates/server/interface/src/grpc/worker.rs 1176-1197 WorkerAgentServiceImpl::generate_otp *)
Definition generate_otp (worker_id : string) : method W Status string :=
  i ← lift (parse_worker_uuid worker_id);
  s ← the_service;
  if token_store s then
    token ← or_status internal (issue_token i (from_secs 300));
    mret (OtpToken.fmt token)
  else
    fresh ← calling draw_uuid;
    now ← calling read_instant;
    let token := uuid_to_string fresh in
    change (fun s => s <| otp_tokens := <[token := InMemoryOtpState.mk token (uuid_to_string i) now false]> (otp_tokens s) |>);;
    mret token.

(** The entry that is at hand is locked: to remove it is to wait for oneself. *)
(** src: crates/server/interface/src/grpc/worker.rs 1237-1259 WorkerAgentServiceImpl::validate_otp (memory) *)
Definition validate_in_memory (token : string) : method W (exn Status) string :=
  s ← the_service;
  now ← calling read_instant;
  let otp := default (InMemoryOtpState.mk token "" now true) (otp_tokens s !! token) in
  change (fun s => s <| otp_tokens := <[token := otp]> (otp_tokens s) |>);;
  now ← calling read_instant;
  if from_secs 300 <? now - InMemoryOtpState.created_at otp then throw Blocked
  else if InMemoryOtpState.used otp then throw (Error (unauthenticated "OTP token already used"))
  else
    change (fun s => s <| otp_tokens :=
      <[token := otp <| InMemoryOtpState.used := true |>]> (otp_tokens s) |>);;
    mret (InMemoryOtpState.worker_id otp).

(** src: crates/server/interface/src/grpc/worker.rs 1204-1260 WorkerAgentServiceImpl::validate_otp *)
Definition validate_otp (token worker_id_from_request : string) : method W (exn Status) string :=
  i ← or_error id (parse_worker_uuid worker_id_from_request);
  w ← self;
  s ← the_service;
  if dev_mode w && (is_empty token || starts_with "dev-" token) then mret worker_id_from_request
  else if token_store s then
    tok ← or_error (fun e => unauthenticated (DomainError.fmt e)) (OtpToken.from_str token);
    mapping_error (consume_token tok i) (fun e => Error (unauthenticated (DomainError.fmt e)));;
    mret worker_id_from_request
  else validate_in_memory token.

(** *** Messages to workers *)

(** The channel of a stream: whether the message was sent. *)
Definition send_on {F} (tx : nat) (m : ServerMessage.t) : method W (exn F) bool :=
  s ← the_service;
  match streams s !! tx with
  | None => mret false
  | Some c =>
      match Channel.send (Ok m) c with
      | None => throw Blocked
      | Some (c, sent) => change (fun s => s <| streams := <[tx := c]> (streams s) |>);; mret sent
      end
  end.

Definition deliver (prefix : string) (tx : nat) (m : ServerMessage.t) : method W (exn Status) unit :=
  sent ← send_on tx m;
  if sent : bool then mret tt else throw (Error (internal (prefix +:+ "channel closed"))).

(** src: crates/server/interface/src/grpc/worker.rs 1300-1323 WorkerAgentServiceImpl::send_to_worker (wait) *)
Fixpoint wait_and_send (fuel : nat) (start : Z) (worker_id : string) (m : ServerMessage.t) :
    method W (exn Status) unit :=
  match fuel with
  | 0%nat => throw OutOfFuel
  | S fuel =>
      now ← calling read_instant;
      if now - start <? from_secs 5 then
        s ← the_service;
        match worker_channels s !! worker_id with
        | Some tx => deliver "Failed to send message: " tx m
        | None => modify (pause (from_millis 100));; wait_and_send fuel start worker_id m
        end
      else throw (Error (deadline_exceeded
        ("Worker " +:+ worker_id +:+ " registered but failed to connect within timeout")))
  end.

(** Rounds of a tenth of a second, for five seconds. *)
Definition WAITING_ROUNDS : nat := 52.

(** src: crates/server/interface/src/grpc/worker.rs 1271-1345 WorkerAgentServiceImpl::send_to_worker *)
Definition send_to_worker (worker_id : string) (m : ServerMessage.t) : method W (exn Status) unit :=
  s ← the_service;
  match worker_channels s !! worker_id with
  | Some tx => deliver "Failed to send message to worker: " tx m
  | None =>
      if supervisor_handle s then
        i ← or_error id (ok_or (uuid_parse_str worker_id) (invalid_argument "Invalid worker ID format"));
        known ← result_of (supervisor_get_worker i);
        match known with
        | Ok _ =>
            start ← calling read_instant;
            wait_and_send WAITING_ROUNDS start worker_id m
        | Err e =>
            let error_msg := SupervisorError.fmt e in
            if str_contains "not found" error_msg || str_contains "NotFound" error_msg
            then throw (Error (not_found ("Worker " +:+ worker_id +:+ " not registered")))
            else throw (Error (internal ("Actor error: " +:+ error_msg)))
        end
      else throw (Error (not_found ("Worker " +:+ worker_id +:+ " not connected")))
  end.

(** *** The RPCs *)

(** What is done about the session of a worker that registers: whether its token is
    to be validated, whether it comes back, and whether its session is not known. *)
Record session_plan := plan {
  planned_session : string;
  needs_otp_validation : bool;
  is_reconnection : bool;
  recovery_failed : bool;
}.

Definition uuid_or_nil (s : string) : Externs.Uuid := default uuid_nil (uuid_parse_str s).

(** src: crates/server/interface/src/grpc/worker.rs 1263-1265 WorkerAgentServiceImpl::generate_session_id *)
Definition generate_session_id {F} : method W F string :=
  fresh ← calling draw_uuid; mret ("sess_" +:+ uuid_to_string fresh).

(** src: crates/server/interface/src/grpc/worker.rs 1387-1443 WorkerAgentServiceImpl::register (session) *)
Definition plan_session {F} (worker_id session_id_req : string) : method W F session_plan :=
  if is_empty session_id_req then
    session ← generate_session_id; mret (plan session true false false)
  else
    s ← the_service;
    match workers s !! worker_id with
    | Some existing =>
        if bool_decide (RegisteredWorker.session_id existing = session_id_req)
        then mret (plan session_id_req false true false)
        else session ← generate_session_id; mret (plan session true false true)
    | None => session ← generate_session_id; mret (plan session true false true)
    end.

(** src: crates/server/interface/src/grpc/worker.rs 1458-1476 WorkerAgentServiceImpl::register (job) *)
Definition job_of_request (req : RegisterWorkerRequest.t) : option JobId :=
  jid_str ← RegisterWorkerRequest.job_id req;
  if is_empty jid_str then None else uuid_parse_str jid_str.

(** The provider of the event. *)
(** src: crates/server/interface/src/grpc/worker.rs 1552-1566 WorkerAgentServiceImpl::register (provider) *)
Definition provider_of_worker {F} (worker_id : string) : method W F ProviderId :=
  s ← the_service;
  if worker_registry s then
    found ← result_of (WorkerRegistry.get (uuid_or_nil worker_id));
    match found with
    | Ok (Some worker) => mret (WorkerHandle.provider_id (Worker.handle worker))
    | _ => calling draw_uuid
    end
  else calling draw_uuid.

(** src: crates/server/interface/src/grpc/worker.rs 1516-1582 WorkerAgentServiceImpl::register (new session) *)
Definition open_session {F} (worker_id session session_id_req : string) (info : Wire.WorkerInfo.t) (failed : bool)
    (correlation_id actor : option string) : method W F unit :=
  change (fun s => s <| workers := <[worker_id := RegisteredWorker.mk info session 0]> (workers s) |>);;
  s ← the_service;
  if event_bus s then
    (if failed then
       now ← calling read_utc;
       publishing (DomainEvent.WorkerRecoveryFailed (uuid_or_nil worker_id) session_id_req now correlation_id actor)
     else mret tt);;
    provider ← provider_of_worker worker_id;
    now ← calling read_utc;
    publishing (DomainEvent.WorkerRegistered (uuid_or_nil worker_id) provider now correlation_id actor)
  else mret tt.

(** [correlation_id] and [actor] are those of the request's context. *)
(** src: crates/server/interface/src/grpc/worker.rs 1351-1595 WorkerAgentServiceImpl::register *)
Definition register (req : RegisterWorkerRequest.t) (correlation_id actor : option string) :
    method W (exn Status) RegisterWorkerResponse.t :=
  info ← or_error id (ok_or (RegisterWorkerRequest.worker_info req) (invalid_argument "worker_info is required"));
  worker_id ← match Wire.WorkerInfo.worker_id info with
              | Some i => mret (Wire.WorkerId.value i)
              | None => fresh ← calling draw_uuid; mret ("worker-" +:+ uuid_to_string fresh)
              end;
  p ← plan_session worker_id (RegisterWorkerRequest.session_id req);
  (if needs_otp_validation p then
     validated ← validate_otp (RegisterWorkerRequest.auth_token req) worker_id;
     mapping_error (on_worker_registered validated info (job_of_request req)) Error
   else mret tt);;
  (if is_reconnection p then
     s ← the_service;
     if event_bus s then
       now ← calling read_utc;
       publishing (DomainEvent.WorkerReconnected (uuid_or_nil worker_id) (planned_session p) now correlation_id actor)
     else mret tt
   else open_session worker_id (planned_session p) (RegisterWorkerRequest.session_id req) info (recovery_failed p)
          correlation_id actor);;
  now ← calling wire_clock;
  mret (RegisterWorkerResponse.mk (Some (Wire.WorkerId.mk worker_id)) true
    (if is_reconnection p then "Worker reconnected successfully" else "Worker registered successfully")
    (planned_session p) (Some now)).

(** src: crates/server/interface/src/grpc/worker.rs 2018-2039 WorkerAgentServiceImpl::update_worker_status *)
Definition update_worker_status (req : UpdateWorkerStatusRequest.t) : method W Status UpdateWorkerStatusResponse.t :=
  i ← lift (ok_or (UpdateWorkerStatusRequest.worker_id req) (invalid_argument "worker_id is required"));
  let worker_id := Wire.WorkerId.value i in
  s ← the_service;
  match workers s !! worker_id with
  | Some worker =>
      change (fun s => s <| workers :=
        <[worker_id := worker <| RegisteredWorker.status := UpdateWorkerStatusRequest.status req |>]> (workers s) |>);;
      mret (UpdateWorkerStatusResponse.mk true "Status updated" None)
  | None => throw (not_found ("Worker " +:+ worker_id +:+ " not found"))
  end.

(** src: crates/server/interface/src/grpc/worker.rs 2042-2087 WorkerAgentServiceImpl::unregister_worker *)
Definition unregister_worker (req : UnregisterWorkerRequest.t) : method W Status UnregisterWorkerResponse.t :=
  i ← lift (ok_or (UnregisterWorkerRequest.worker_id req) (invalid_argument "worker_id is required"));
  let worker_id := Wire.WorkerId.value i in
  s ← the_service;
  let removed := bool_decide (is_Some (workers s !! worker_id)) in
  change (fun s => s <| workers := delete worker_id (workers s) |>
    <| worker_channels := delete worker_id (worker_channels s) |>);;
  (if removed && event_bus s then
     provider ← calling draw_uuid;
     now ← calling read_utc;
     publishing (DomainEvent.WorkerTerminated (uuid_or_nil worker_id) provider TerminationReason.Unregistered
       now None None)
   else mret tt);;
  mret (UnregisterWorkerResponse.mk removed (if removed then "Unregistered" else "Not found") 0).

(** *** The stream of a worker *)

(** A call of the service of the logs, and of the ingestor; what they answer is not
    looked at. *)
Definition on_logs {A} (p : Task.t (LogStreamService.t (Store := LogStore)) A) : method W (exn Status) unit :=
  s ← the_service;
  match log_service s with
  | None => mret tt
  | Some logs => let (logs, r) := Task.completing p logs in change (fun s => s <| log_service := Some logs |>);; lift r;; mret tt
  end.

Definition on_ingestor {A} (c : LogIngestorConfig.t) (measured : LogIngestorMetrics.t)
    (m : method (LogIngestor.t (Store := LogStore)) (exn Status) A) : method W (exn Status) unit :=
  s ← the_service;
  let (ingestor, r) := m (LogIngestor.mk (log_service s) c measured) in
  change (fun s => s <| log_service := LogIngestor.log_service ingestor |>
    <| log_ingestor := Some (LogIngestor.config ingestor, LogIngestor.measured ingestor) |>);;
  lift r;; mret tt.

(** src: crates/server/interface/src/grpc/worker.rs 1695-1711 WorkerAgentServiceImpl::worker_stream (log) *)
Definition take_log (entry : LogEntry.t) : method W (exn Status) unit :=
  s ← the_service;
  match log_ingestor s with
  | Some (c, measured) => now ← calling read_utc; on_ingestor c measured (LogIngestor.ingest_log entry now)
  | None => on_logs (LogStreamService.append_log entry)
  end.

(** src: crates/server/interface/src/grpc/worker.rs 1712-1749 WorkerAgentServiceImpl::worker_stream (batch) *)
Definition take_batch (batch : Wire.LogBatch.t) : method W (exn Status) unit :=
  s ← the_service;
  match log_ingestor s with
  | Some (c, measured) => now ← calling read_utc; on_ingestor c measured (LogIngestor.ingest_log_batch batch now)
  | None => on_logs (LogIngestor.append_all (Wire.LogBatch.entries batch))
  end.

(** src: crates/server/interface/src/grpc/worker.rs 1772-1817 WorkerAgentServiceImpl::worker_stream (finalize) *)
Definition finalize_log (job : string) : method W (exn Status) unit :=
  s ← the_service;
  match log_ingestor s with
  | Some (c, measured) => on_ingestor c measured (LogIngestor.finalize_job_logs job)
  | None => on_logs (LogStreamService.finalize_job_log job)
  end.

(** src: crates/server/interface/src/grpc/worker.rs 1631-1694 WorkerAgentServiceImpl::worker_stream (heartbeat) *)
Definition take_heartbeat (tx : nat) (h : holder) (hb : Wire.WorkerHeartbeat.t) : method W (exn Status) holder :=
  match WorkerHeartbeat.worker_id hb with
  | None => mret h
  | Some i =>
      let wid := Wire.WorkerId.value i in
      h ← match h with
          | None => change (fun s => s <| worker_channels := <[wid := tx]> (worker_channels s) |>);; mret (Some wid)
          | Some _ => mret h
          end;
      fresh ← calling draw_uuid;
      send_on tx (ServerMessage.mk (Some (ServerPayload.Ack (AckMessage.mk (uuid_to_string fresh) true wid))));;
      ignoring (on_worker_heartbeat wid (WorkerHeartbeat.running_job_ids hb));;
      s ← the_service;
      (if event_bus s then
         worker ← or_fresh (uuid_parse_str wid);
         now ← calling read_utc;
         publishing (DomainEvent.WorkerHeartbeat worker WorkerState.Ready None None
           (uuid_or_nil <$> head (WorkerHeartbeat.running_job_ids hb)) now None (Some "worker:heartbeat"))
       else mret tt);;
      mret h
  end.

(** src: crates/server/interface/src/grpc/worker.rs 1750-1818 WorkerAgentServiceImpl::worker_stream (result) *)
Definition take_result (h : holder) (r : JobResultMessage.t) : method W (exn Status) unit :=
  match h with
  | Some wid => ignoring (on_job_result wid r)
  | None => mret tt
  end;;
  finalize_log (JobResultMessage.job_id r).

(** src: crates/server/interface/src/grpc/worker.rs 1842-1885 WorkerAgentServiceImpl::worker_stream (received) *)
Definition announce_received {F} (job_id worker_id : string) : method W F unit :=
  s ← the_service;
  match uuid_parse_str job_id with
  | Some job_id =>
      if event_bus s && job_repository s then
        found ← result_of (JobRepository.find_by_id job_id);
        match found with
        | Ok (Some job) =>
            worker ← or_fresh (uuid_parse_str worker_id);
            now ← calling read_utc;
            publishing (DomainEvent.RunJobReceived (Job.id job) worker now
              (Job.metadata job !! "correlation_id") (Job.metadata job !! "actor"))
        | _ => mret tt
        end
      else mret tt
  | None => mret tt
  end.

(** The acknowledgement of a job names the job after [job-]. *)
(** src: crates/server/interface/src/grpc/worker.rs 1831-1908 WorkerAgentServiceImpl::worker_stream (ack) *)
Definition take_ack {F} (ack : AckMessage.t) : method W F unit :=
  if starts_with "job-" (AckMessage.message_id ack) then
    let job_id := trim_start_matches "job-" (AckMessage.message_id ack) in
    let worker_id := AckMessage.worker_id ack in
    announce_received job_id worker_id;;
    if is_empty worker_id then mret tt else ignoring (on_job_acknowledged worker_id job_id)
  else mret tt.

(** src: crates/server/interface/src/grpc/worker.rs 1909-1976 WorkerAgentServiceImpl::worker_stream (self-terminate) *)
Definition take_self_terminate {F} (term : SelfTerminateMessage.t) : method W F unit :=
  match uuid_parse_str (SelfTerminateMessage.worker_id term) with
  | None => mret tt
  | Some i =>
      provider ← calling draw_uuid;
      let last_job := if is_empty (SelfTerminateMessage.last_job_id term) then None
                      else uuid_parse_str (SelfTerminateMessage.last_job_id term) in
      s ← the_service;
      (if event_bus s then
         now ← calling read_utc;
         publishing (DomainEvent.WorkerSelfTerminated i provider last_job
           (SelfTerminateMessage.expected_cleanup_ms term) (SelfTerminateMessage.actual_wait_ms term)
           WorkerState.Terminated now None (Some "worker:self_terminate"))
       else mret tt);;
      change (fun s => s <| worker_channels :=
        delete (SelfTerminateMessage.worker_id term) (worker_channels s) |>)
  end.

(** src: crates/server/interface/src/grpc/worker.rs 1623-1978 WorkerAgentServiceImpl::worker_stream (message) *)
Definition take_message (tx : nat) (h : holder) (m : WorkerMessage.t) : method W (exn Status) holder :=
  match WorkerMessage.payload m with
  | None => mret h
  | Some (WorkerPayload.Heartbeat hb) => take_heartbeat tx h hb
  | Some (WorkerPayload.Log entry) => take_log entry;; mret h
  | Some (WorkerPayload.LogBatch batch) => take_batch batch;; mret h
  | Some (WorkerPayload.Result r) => take_result h r;; mret h
  | Some (WorkerPayload.Stats _) => mret h
  | Some (WorkerPayload.Status _) => mret h
  | Some (WorkerPayload.Ack ack) => take_ack ack;; mret h
  | Some (WorkerPayload.SelfTerminate term) => take_self_terminate term;; mret h
  end.

(** src: crates/server/interface/src/grpc/worker.rs 1987-2009 WorkerAgentServiceImpl::worker_stream (end) *)
Definition stream_ended {F} (h : holder) : method W F unit :=
  match h with
  | None => mret tt
  | Some wid =>
      change (fun s => s <| worker_channels := delete wid (worker_channels s) |>);;
      s ← the_service;
      if event_bus s then
        now ← calling read_utc;
        publishing (DomainEvent.WorkerDisconnected (uuid_or_nil wid) None now None None)
      else mret tt
  end.

(** What happens to the streams of the service: each has its task, which knows the
    holder; the receiver of its channel goes when it ends. *)
Inductive stream_event :=
  | Opened
  | Said (tx : nat) (m : WorkerMessage.t)
  | Ended (tx : nat).

(** src: crates/server/interface/src/grpc/worker.rs 1600-2015 WorkerAgentServiceImpl::worker_stream *)
Definition worker_stream (e : stream_event) (tasks : gmap nat holder) : method W (exn Status) (gmap nat holder) :=
  match e with
  | Opened =>
      s ← the_service;
      let tx := length (streams s) in
      change (fun s => s <| streams := streams s ++ [Channel.channel 100] |>);;
      mret (<[tx := None]> tasks)
  | Said tx m =>
      match tasks !! tx with
      | None => mret tasks
      | Some h => h ← take_message tx h m; mret (<[tx := h]> tasks)
      end
  | Ended tx =>
      match tasks !! tx with
      | None => mret tasks
      | Some h =>
          change (fun s => s <| streams := alter Channel.hang_up tx (streams s) |>);;
          stream_ended h;;
          mret (delete tx tasks)
      end
  end.

End gateway.

(** ** Sending jobs *)

Module GrpcWorkerCommandSender.
Section sender.
Context `{E : Externs} `{!WireTypes} `{!GrpcStatus} {W : Type}.
Context `{!Gateway W} `{!Supervisor W} `{!Ambient W} `{!Sleeping W}.

(** src: crates/server/interface/src/grpc/worker_command_sender.rs 25-31 GrpcWorkerCommandSender::clamp_timeout_ms *)
Definition clamp_timeout_ms (timeout_ms : Z) : Z :=
  if i64_max <? timeout_ms then i64_max else Prelude.as_i64 timeout_ms.

(** src: crates/server/interface/src/grpc/worker_command_sender.rs 33-85 GrpcWorkerCommandSender::build_run_job_command *)
Definition build_run_job_command (job : Job.t) : RunJobCommand.t :=
  let sp := Job.spec job in
  let cmd := CommandSpec.mk (Some
    match JobSpec.command sp with
    | JobSpec.CommandType.Shell cmd args => Wire.CommandType.Shell (ShellCommand.mk cmd args)
    | JobSpec.CommandType.Script interpreter content => Wire.CommandType.Script (ScriptCommand.mk interpreter content)
    end) in
  RunJobCommand.mk (uuid_to_string (Job.id job)) (Some cmd) (JobSpec.env sp)
    ((fun i => ArtifactInput.mk (JobSpec.source_url i) (JobSpec.dest_path i)) <$> JobSpec.inputs sp)
    ((fun o => ArtifactOutput.mk (JobSpec.src_path o) (JobSpec.dest_url o)) <$> JobSpec.outputs sp)
    (clamp_timeout_ms (JobSpec.timeout_ms sp)) (default "" (JobSpec.working_dir sp)) (JobSpec.stdin sp) None.

(** src: crates/server/interface/src/grpc/worker_command_sender.rs 87-99 GrpcWorkerCommandSender::send_to_worker *)
Definition send_command (i : WorkerId) (cmd : RunJobCommand.t) : method W (exn Status) unit :=
  send_to_worker (uuid_to_string i) (ServerMessage.mk (Some (ServerPayload.RunJob cmd))).

(** src: crates/server/interface/src/grpc/worker_command_sender.rs 104-116 GrpcWorkerCommandSender::send_run_job *)
Definition send_run_job (i : WorkerId) (job : Job.t) : method W (exn DomainError.t) unit :=
  r ← catch (send_command i (build_run_job_command job));
  lift (map_err (fun e => Error (DomainError.InfrastructureError
    ("Failed to send RunJobCommand to worker " +:+ uuid_to_string i +:+ ": " +:+ status_to_string e))) r).

End sender.
End GrpcWorkerCommandSender.

(** src: crates/server/application/src/workers/commands.rs 6-8 WorkerCommandSender *)
Class WorkerCommandSender `{E : Externs} (W : Type) := {
  send_run_job : WorkerId -> Job.t -> method W (exn DomainError.t) unit;
}.

(** src: crates/server/application/src/workers/commands.rs 12-19 NoopWorkerCommandSender *)
Definition noop_sender `{E : Externs} (W : Type) : WorkerCommandSender W := {| send_run_job := fun _ _ => mret tt |}.

Module JobExecutorImpl.
Section executor.
Context `{E : Externs} {W : Type} `{!JobRepository.t W} `{!WorkerCommandSender W} `{!OutboxRepository W} `{!Ambient W}.

(** src: crates/server/application/src/command/execution/job_executor.rs 125-139 JobExecutorImpl::execute_job (event) *)
Definition job_started_event (job_id : JobId) (i : WorkerId) (now : DateTime) : OutboxEventInsert.t :=
  OutboxEventInsert.for_job job_id "JobStarted"
    (json_object [
      ("job_id", str (uuid_to_string job_id)); ("worker_id", str (uuid_to_string i));
      ("occurred_at", str (to_rfc3339 now))])
    (Some (json_object [("source", str "JobExecutorImpl"); ("actor", str "system:job_executor")])) None.

(** [r.map_err(|e| ExecuteJobError::ExecutionFailed { .. })?]. *)
Definition or_failed {A} (job_id : JobId) (m : method W DomainError.t A) : method W (exn ExecuteJobError.t) A :=
  mapping_error m (fun e => Error (ExecuteJobError.ExecutionFailed job_id e)).

(** src: crates/server/application/src/command/execution/job_executor.rs 64-155 JobExecutorImpl::execute_job *)
Definition execute_job (job_id : JobId) (i : WorkerId) : method W (exn ExecuteJobError.t) unit :=
  found ← or_failed job_id (JobRepository.find_by_id job_id);
  job ← or_error id (ok_or found (ExecuteJobError.JobNotFound job_id));
  sent ← catch (send_run_job i job);
  or_error (ExecuteJobError.ExecutionFailed job_id) sent;;
  now ← calling read_utc;
  let (job_to_update, started) := Job.mark_running now job in
  or_error (ExecuteJobError.ExecutionFailed job_id) started;;
  or_failed job_id (JobRepository.update job_to_update);;
  now ← calling read_utc;
  mapping_error (insert_events [job_started_event job_id i now])
    (fun e => Error (ExecuteJobError.ExecutionFailed job_id (OutboxError.to_domain_error e))).

End executor.
End JobExecutorImpl.

(** ** Theorems: jobs *)

(** The collaborators do not act on the maps of the service. *)
Class GatewayApart `{E : Externs} `{!WireTypes} `{!GrpcStatus} (W : Type) `{!Gateway W}
    `{!WorkerRegistry.t W} `{!JobRepository.t W} `{!EventBus W} `{!OutboxRepository W} `{!Supervisor W}
    `{!Ambient W} `{!Sleeping W} : Prop := {
  apart_laws :: GatewayLaws W;
  apart_utc : forall w : W, gateway (read_utc w).1 = gateway w;
  apart_instant : forall w : W, gateway (read_instant w).1 = gateway w;
  apart_uuid : forall w : W, gateway (draw_uuid w).1 = gateway w;
  apart_pause : forall d (w : W), gateway (pause d w) = gateway w;
  apart_publish : forall e (w : W), gateway (after (publish_event e) w) = gateway w;
  apart_get : forall i (w : W), gateway (after (WorkerRegistry.get i) w) = gateway w;
  apart_heartbeat : forall i (w : W), gateway (after (WorkerRegistry.heartbeat i) w) = gateway w;
  apart_update_state : forall i s (w : W), gateway (after (WorkerRegistry.update_state i s) w) = gateway w;
  apart_release : forall i (w : W), gateway (after (WorkerRegistry.release_from_job i) w) = gateway w;
  apart_find_job : forall i (w : W), gateway (after (JobRepository.find_by_id i) w) = gateway w;
  apart_update_job : forall j (w : W), gateway (after (JobRepository.update j) w) = gateway w;
  apart_insert : forall l (w : W), gateway (after (insert_events l) w) = gateway w;
  apart_known : forall i (w : W), gateway (after (supervisor_heartbeat i) w) = gateway w;
}.

Section jobs.
Context `{E : Externs} `{!WireTypes} `{!GrpcStatus} `{!EventFormat} `{!ReasonDebug} {W : Type}.
Context `{!Gateway W} `{!WorkerRegistry.t W} `{!JobRepository.t W} `{!WorkerBootstrapTokenStore W}.
Context `{!EventBus W} `{!OutboxRepository W} `{!Supervisor W} `{!Ambient W} `{!Sleeping W}.
Context `{!GatewayApart W}.
Import WorkerAgentServiceImpl.

#[local] Instance grpc_sender : WorkerCommandSender W := {| send_run_job := GrpcWorkerCommandSender.send_run_job |}.

(** Calls of the executor, one after the other: the world at the end, and what each
    returned. *)
Definition execute_all (calls : list (JobId * WorkerId)) (w : W) :
    W * list (Prelude.result (exn ExecuteJobError.t) unit) :=
  foldl (fun '(w, rs) '(job, i) =>
    (after (JobExecutorImpl.execute_job job i) w, rs ++ [returns (JobExecutorImpl.execute_job job i) w]))
    (w, []) calls.

Lemma unreachable_worker job i w : gateway w = new ->
  exists e, JobExecutorImpl.execute_job job i w = (after (JobRepository.find_by_id job) w, Err (Error e)).
Proof.
  intros Hnew. pose proof (apart_find_job job w) as Hg. rewrite Hnew in Hg.
  unfold JobExecutorImpl.execute_job, JobExecutorImpl.or_failed, mapping_error, after in *.
  unfold mbind at 1, method_bind at 1. destruct (JobRepository.find_by_id job w) as [w1 [[j|]|e]]; simpl in Hg |- *.
  - unfold GrpcWorkerCommandSender.send_run_job, GrpcWorkerCommandSender.send_command, send_to_worker, the_service.
    unfold mbind, method_bind, catch. simpl. rewrite Hg. simpl. eauto.
  - eauto.
  - eauto.
Qed.

(** C26: the jobs of the sagas never reach a worker.  The executor that the server
    gives them sends through a service of its own that is made for it, which no
    worker ever connects to: every call fails, whatever was called before, and
    nothing is done but to look up the job. *)
Theorem sagas_never_reach_a_worker calls w : gateway w = new ->
  let (w', rs) := execute_all calls w in
  w' = foldl (fun w c => after (JobRepository.find_by_id c.1) w) w calls /\
  length rs = length calls /\ Forall (fun r => exists e, r = Err (Error e)) rs.
Proof.
  intros Hnew. unfold execute_all.
  assert (forall rs0, Forall (fun r => exists e : ExecuteJobError.t, r = Err (Error e) :> Prelude.result _ unit) rs0 ->
    let '(w', rs) := foldl (fun '(w, rs) '(job, i) =>
      (after (JobExecutorImpl.execute_job job i) w, rs ++ [returns (JobExecutorImpl.execute_job job i) w]))
      (w, rs0) calls in
    w' = foldl (fun w c => after (JobRepository.find_by_id c.1) w) w calls /\
    length rs = (length rs0 + length calls)%nat /\
    Forall (fun r => exists e, r = Err (Error e)) rs) as Hall.
  { revert w Hnew. induction calls as [|[job i] calls IH]; intros w Hnew rs0 Hrs; simpl.
    - split_and!; [done|lia|done].
    - destruct (unreachable_worker job i w Hnew) as [e He].
      assert (after (JobExecutorImpl.execute_job job i) w = after (JobRepository.find_by_id job) w) as Ha.
      { unfold after at 1. by rewrite He. }
      rewrite Ha. specialize (IH (after (JobRepository.find_by_id job) w)).
      rewrite apart_find_job in IH. specialize (IH Hnew (rs0 ++ [returns (JobExecutorImpl.execute_job job i) w])).
      destruct (foldl _ _ calls) as [w' rs]. destruct IH as (Hw & Hl & Hf).
      + apply Forall_app_2; [done|]. constructor; [|done]. exists e. unfold returns. by rewrite He.
      + split_and!; [done| |done]. rewrite Hl, length_app. simpl. lia. }
  apply (Hall []). constructor.
Qed.

Lemma pending_is_not_started now job : Job.state job = JobState.Pending ->
  exists e, Job.mark_running now job = (job, Err e).
Proof. intros Hp. unfold Job.mark_running, mbind, method_bind. simpl. rewrite Hp. simpl. eauto. Qed.

Lemma success_is_refused now job code : Job.state job <> JobState.Running ->
  exists e, Job.complete (JobResult.Success code "" "") now job = (job, Err e).
Proof.
  intros Hs. unfold Job.complete, mbind, method_bind. simpl.
  destruct (Job.state job) eqn:He; try done; simpl; eauto.
Qed.

(** C28: a success that a worker reports is written if the job is running, and
    otherwise refused and lost, with nothing written; so it is for a job that is
    still pending, which the service means to start first. *)
Theorem unacknowledged_successes_are_lost wid r w i j job :
  worker_registry (gateway w) = true -> job_repository (gateway w) = true ->
  uuid_parse_str wid = Some i -> uuid_parse_str (JobResultMessage.job_id r) = Some j ->
  returns (JobRepository.find_by_id j) w = Ok (Some job) -> JobResultMessage.success r = true ->
  let w1 := (read_utc (after (JobRepository.find_by_id j) w)).1 in
  (Job.state job <> JobState.Running -> exists e, on_job_result wid r w = (w1, Err (failed_precondition e))) /\
  (Job.state job = JobState.Running -> exists job',
     Job.state job' = JobState.Succeeded /\ Job.id job' = Job.id job /\
     Job.result job' = Some (JobResult.Success (JobResultMessage.exit_code r) "" "") /\
     on_job_result wid r w =
       (or_status internal (JobRepository.update job');; announce_result JobState.Running job';;
        release_worker i j job') w1).
Proof.
  intros Hreg Hrepo Hi Hj Hfind Hok w1. subst w1.
  unfold on_job_result, the_service, parse_worker_uuid, parse_job_uuid, job_for, or_status, mapping_error.
  unfold returns, after in *. unfold mbind, method_bind. simpl. rewrite Hreg, Hrepo. simpl. rewrite Hi, Hj. simpl.
  destruct (JobRepository.find_by_id j w) as [w0 found]. simpl in Hfind |- *. subst found. simpl.
  unfold started_first, job_outcome, on_job. rewrite Hok. unfold mbind, method_bind, calling.
  destruct (read_utc w0) as [w1 now] eqn:Hw. simpl. split.
  - intros Hstate. case_bool_decide as Hp; simpl; rewrite Hw.
    + destruct (pending_is_not_started now job Hp) as [e ->]. simpl. eauto.
    + destruct (success_is_refused now job (JobResultMessage.exit_code r) Hstate) as [e ->]. simpl. eauto.
  - intros Hstate. rewrite Hstate, bool_decide_false by done. simpl. rewrite Hw.
    unfold Job.complete, mbind, method_bind. simpl. rewrite Hstate. simpl.
    eexists. split_and!; cycle 3; [reflexivity|done..].
Qed.

(** *** Tokens in memory *)

(** A token that is kept in memory admits whoever presents it, as the worker it was
    made for; and one that is too old stops the task that validates it. *)
Theorem tokens_in_memory_are_not_bound token other i otp w :
  uuid_parse_str other = Some i -> dev_mode w = false -> token_store (gateway w) = false ->
  otp_tokens (gateway w) !! token = Some otp -> InMemoryOtpState.used otp = false ->
  let later := (read_instant (set_gateway (gateway w) (read_instant w).1)).2 in
  returns (validate_otp token other) w =
    if from_secs 300 <? later - InMemoryOtpState.created_at otp then Err Blocked
    else Ok (InMemoryOtpState.worker_id otp).
Proof.
  intros Hi Hdev Hstore Hotp Hused later. unfold validate_otp, parse_worker_uuid, validate_in_memory, the_service.
  unfold returns, mbind, method_bind. simpl. rewrite Hi. simpl. rewrite Hdev, Hstore. simpl. unfold calling.
  pose proof (apart_instant w) as Hg. subst later. destruct (read_instant w) as [w1 now]. simpl in Hg |- *.
  rewrite Hotp, Hg. simpl.
  match goal with |- context [set_gateway ?s w1] => replace s with (gateway w) end.
  2: { rewrite insert_id by done. by destruct (gateway w). }
  destruct (read_instant (set_gateway (gateway w) w1)) as [w2 now2]. simpl.
  destruct (_ <? _); [done|]. by rewrite Hused.
Qed.

(** *** Waiting for a worker *)

(** The monotonic clock does not go back, and a pause is as long as it is said. *)
Context (instant_read : forall w : W, (read_instant w).2 <= (read_instant (read_instant w).1).2).
Context (instant_pause : forall d (w : W), (read_instant w).2 + d <= (read_instant (pause d w)).2).

Lemma deliver_ends prefix tx m (w : W) : returns (deliver prefix tx m) w <> Err OutOfFuel.
Proof.
  unfold deliver, send_on, the_service, returns, mbind, method_bind. simpl.
  destruct (streams (gateway w) !! tx) as [c|]; simpl; [|done].
  destruct (Channel.send (Ok m) c) as [[c' [|]]|]; done.
Qed.

Lemma wait_ends n start wid m w : (0 < n)%nat ->
  from_secs 5 - ((read_instant w).2 - start) <= (Z.of_nat n - 1) * from_millis 100 ->
  returns (wait_and_send n start wid m) w <> Err OutOfFuel.
Proof.
  revert w. induction n as [|n IH]; [lia|]. intros w _ Hleft. cbn [wait_and_send].
  unfold returns. unfold mbind at 1, method_bind at 1, calling. pose proof (instant_read w) as Hread.
  destruct (read_instant w) as [w1 now] eqn:Hw. simpl in Hleft, Hread |- *.
  destruct (Z.ltb_spec (now - start) (from_secs 5)) as [Hlt|]; [|done].
  unfold mbind at 1, method_bind at 1, the_service at 1. simpl.
  destruct (worker_channels (gateway w1) !! wid) as [tx|]; [apply deliver_ends|].
  unfold mbind, method_bind. simpl. apply IH.
  - destruct n; [|lia]. exfalso. unfold from_millis in Hleft. lia.
  - pose proof (instant_pause (from_millis 100) w1). unfold from_millis in *. lia.
Qed.

(** A message to a worker that has not opened its stream is waited with for five
    seconds of the clock, and no longer: the rounds of a tenth of a second are not
    used up. *)
Theorem waiting_for_a_worker_ends wid m w : returns (send_to_worker wid m) w <> Err OutOfFuel.
Proof.
  unfold send_to_worker. remember WAITING_ROUNDS as n eqn:Hn.
  unfold the_service, returns, mbind, method_bind. simpl.
  destruct (worker_channels (gateway w) !! wid) as [tx|]; [apply deliver_ends|].
  destruct (supervisor_handle (gateway w)); [|done].
  destruct (uuid_parse_str wid) as [i|]; simpl; [|done].
  unfold result_of. destruct (supervisor_get_worker i w) as [w1 [known|e]]; simpl.
  - unfold calling. pose proof (instant_read w1) as Hread. destruct (read_instant w1) as [w2 start]. simpl in Hread |- *.
    apply wait_ends; subst n; unfold WAITING_ROUNDS, from_secs, from_millis; lia.
  - by destruct (_ || _).
Qed.

End jobs.

(** ** Theorems: streams *)

Create HintDb gateway.

Section streams.
Context `{E : Externs} `{!WireTypes} `{!GrpcStatus} `{!EventFormat} `{!ReasonDebug} {W : Type}.
Context `{!Gateway W} `{!WorkerRegistry.t W} `{!JobRepository.t W} `{!WorkerBootstrapTokenStore W}.
Context `{!EventBus W} `{!OutboxRepository W} `{!Supervisor W} `{!Ambient W} `{!Sleeping W}.
Context `{!GatewayApart W}.
Import WorkerAgentServiceImpl.
Abbreviation service := (WorkerAgentServiceImpl.t (Store := LogStore)).

(** [I] of the maps holds again whatever [m] does. *)
Definition upholds {F A} (I : service -> Prop) (m : method W F A) : Prop :=
  preserves (fun w => I (gateway w)) (fun _ => tt) m.

Lemma upholds_apart {F A} I (m : method W F A) : (forall w, gateway (after m w) = gateway w) -> upholds I m.
Proof. intros Hm w Hw. by rewrite Hm. Qed.

Lemma upholds_calling {F A} I (f : W -> W * A) : (forall w, gateway (f w).1 = gateway w) ->
  upholds I (calling f : method W F A).
Proof. intros Hf. apply upholds_apart. intros w. unfold after, calling. specialize (Hf w). by destruct (f w). Qed.

Lemma upholds_ret {F A} I (a : A) : upholds I (mret a : method W F A).
Proof. apply preserves_ret. Qed.
Lemma upholds_throw {F A} I (e : F) : upholds I (throw e : method W F A).
Proof. apply preserves_throw. Qed.
Lemma upholds_lift {F A} I (r : Prelude.result F A) : upholds I (lift r : method W F A).
Proof. by apply upholds_apart. Qed.
Lemma upholds_bind {F A B} I (m : method W F A) (k : A -> method W F B) :
  upholds I m -> (forall a, upholds I (k a)) -> upholds I (x ← m; k x).
Proof. apply preserves_bind. Qed.
Lemma upholds_the_service {F} I : upholds I (the_service : method W F _).
Proof. by apply upholds_apart. Qed.
Lemma upholds_mapping {F G A} I (m : method W F A) (f : F -> G) : upholds I m -> upholds I (mapping_error m f).
Proof. intros Hm w. rewrite after_mapping. apply Hm. Qed.
Lemma upholds_or_error {F G A} I (f : F -> G) (r : Prelude.result F A) : upholds I (or_error f r : method W (exn G) A).
Proof. by apply upholds_apart. Qed.
Lemma upholds_result {X F A} I (m : method W X A) : upholds I m -> upholds I (result_of m : method W F _).
Proof. intros Hm w Hw. unfold after, result_of. specialize (Hm w Hw). unfold after in Hm. by destruct (m w). Qed.
Lemma upholds_ignoring {X F A} I (m : method W X A) : upholds I m -> upholds I (ignoring m : method W F unit).
Proof. intros Hm. apply upholds_bind; [by apply upholds_result|intros; apply upholds_ret]. Qed.
Lemma upholds_change {F} (I : service -> Prop) f : (forall s, I s -> I (f s)) -> upholds I (change f : method W F unit).
Proof. intros Hf w Hw. unfold after, change, modify. simpl. rewrite gateway_set. split; [by apply Hf|done]. Qed.

Lemma upholds_publishing {F} I e : upholds I (publishing e : method W F unit).
Proof. apply upholds_ignoring, upholds_apart, apart_publish. Qed.
Lemma upholds_utc {F} I : upholds I (calling read_utc : method W F _).
Proof. apply upholds_calling, apart_utc. Qed.
Lemma upholds_uuid {F} I : upholds I (calling draw_uuid : method W F _).
Proof. apply upholds_calling, apart_uuid. Qed.
Lemma upholds_or_fresh {F} I o : upholds I (or_fresh o : method W F _).
Proof. destruct o; [apply upholds_ret|apply upholds_uuid]. Qed.


Ltac keep :=
  repeat first
    [ apply upholds_ret | apply upholds_throw | apply upholds_lift | apply upholds_or_error | apply upholds_the_service
    | apply upholds_utc | apply upholds_uuid | apply upholds_or_fresh | apply upholds_publishing
    | apply upholds_apart; first [apply apart_get | apply apart_heartbeat | apply apart_update_state
        | apply apart_release | apply apart_find_job | apply apart_update_job | apply apart_insert | apply apart_known]
    | apply upholds_mapping | apply upholds_ignoring | apply upholds_result
    | apply upholds_bind; [|intros ?]
    | match goal with |- upholds _ (if ?b then _ else _) => destruct b end
    | match goal with |- upholds _ (match ?x with _ => _ end) => destruct x end ].

Lemma upholds_heartbeat I wid ids : upholds I (on_worker_heartbeat wid ids).
Proof.
  unfold on_worker_heartbeat, process_heartbeat, first_heartbeat, or_status. keep.
Qed.

Lemma upholds_job_result I wid r : upholds I (on_job_result wid r).
Proof.
  unfold on_job_result, job_for, started_first, job_outcome, on_job, announce_result, release_worker, or_status. keep.
Qed.

Lemma upholds_acknowledged I wid j : upholds I (on_job_acknowledged wid j).
Proof. unfold on_job_acknowledged, job_for, on_job, or_status. keep. Qed.

Lemma upholds_received {F} I wid j : upholds I (announce_received wid j : method W F unit).
Proof. unfold announce_received. keep. Qed.
(** Nobody can send to the worker. *)
Definition unreached (wid : string) (s : service) : Prop :=
  worker_channels s !! wid = None /\ supervisor_handle s = false.

Lemma unreached_send wid m (w : W) : unreached wid (gateway w) ->
  send_to_worker wid m w = (w, Err (Error (not_found ("Worker " +:+ wid +:+ " not connected")))).
Proof.
  intros [Hc Hs]. unfold send_to_worker, the_service, mbind, method_bind. simpl. by rewrite Hc, Hs.
Qed.

Lemma upholds_send_on {F} (I : service -> Prop) tx m : (forall s x, I s -> I (s <| streams := x |>)) ->
  upholds I (send_on tx m : method W (exn F) bool).
Proof.
  intros HI. unfold send_on. apply upholds_bind; [apply upholds_the_service|]. intros s.
  destruct (streams s !! tx) as [c|]; [|apply upholds_ret].
  destruct (Channel.send (Ok m) c) as [[c' b]|]; [|apply upholds_throw].
  apply upholds_bind; [apply upholds_change; intros; by apply HI|intros _; apply upholds_ret].
Qed.

Lemma upholds_logs {A} wid (p : Task.t (LogStreamService.t (Store := LogStore)) A) :
  upholds (unreached wid) (on_logs p : method W _ unit).
Proof.
  unfold on_logs. apply upholds_bind; [apply upholds_the_service|]. intros s.
  destruct (log_service s) as [logs|]; [|apply upholds_ret]. destruct (Task.completing p logs) as [logs' r].
  apply upholds_bind; [by apply upholds_change|intros _]. keep.
Qed.

Lemma upholds_ingestor {A} wid c k (m : method (LogIngestor.t (Store := LogStore)) (exn Status) A) :
  upholds (unreached wid) (on_ingestor c k m : method W _ unit).
Proof.
  unfold on_ingestor. apply upholds_bind; [apply upholds_the_service|]. intros s.
  destruct (m _) as [i r]. apply upholds_bind; [by apply upholds_change|intros _]. keep.
Qed.

(** A message on the stream of a worker keeps it unreached, if it is: only the first
    message of a stream makes its worker reachable. *)
Lemma upholds_message wid tx h m : upholds (unreached wid) (take_message tx (Some h) m : method W _ _).
Proof.
  unfold take_message. destruct (WorkerMessage.payload m) as [[hb|e|b|r|s|s|a|t]|]; try apply upholds_ret.
  - unfold take_heartbeat. destruct (WorkerHeartbeat.worker_id hb) as [i|]; [|apply upholds_ret].
    apply upholds_bind; [apply upholds_ret|intros h'].
    apply upholds_bind; [apply upholds_uuid|intros fresh]. apply upholds_bind; [by apply upholds_send_on|intros _].
    apply upholds_bind; [apply upholds_ignoring, upholds_heartbeat|intros _]. keep.
  - apply upholds_bind; [|intros _; apply upholds_ret]. unfold take_log.
    apply upholds_bind; [apply upholds_the_service|intros s]. destruct (log_ingestor s) as [[c k]|]; [|apply upholds_logs].
    apply upholds_bind; [apply upholds_utc|intros now; apply upholds_ingestor].
  - apply upholds_bind; [|intros _; apply upholds_ret]. unfold take_batch.
    apply upholds_bind; [apply upholds_the_service|intros s]. destruct (log_ingestor s) as [[c k]|]; [|apply upholds_logs].
    apply upholds_bind; [apply upholds_utc|intros now; apply upholds_ingestor].
  - apply upholds_bind; [|intros _; apply upholds_ret]. unfold take_result.
    apply upholds_bind; [apply upholds_ignoring, upholds_job_result|intros _]. unfold finalize_log.
    apply upholds_bind; [apply upholds_the_service|intros s].
    destruct (log_ingestor s) as [[c k]|]; [apply upholds_ingestor|apply upholds_logs].
  - apply upholds_bind; [|intros _; apply upholds_ret]. unfold take_ack.
    destruct (starts_with _ _); [|apply upholds_ret]. apply upholds_bind; [apply upholds_received|intros _].
    destruct (is_empty _); [apply upholds_ret|]. apply upholds_ignoring, upholds_acknowledged.
  - apply upholds_bind; [|intros _; apply upholds_ret]. unfold take_self_terminate.
    destruct (uuid_parse_str _) as [i|]; [|apply upholds_ret].
    apply upholds_bind; [apply upholds_uuid|intros provider].
    apply upholds_bind; [apply upholds_the_service|intros s]. apply upholds_bind; [keep|intros _].
    apply upholds_change. intros s' [Hc Hs]. split; [|done]. simpl.
    destruct (decide (wid = SelfTerminateMessage.worker_id t)) as [->|]; [apply lookup_delete_eq|].
    by rewrite lookup_delete_ne.
Qed.

(** A stream whose worker is known is of that worker to its end. *)
Lemma holder_stays tx h m (w : W) h' : returns (take_message tx (Some h) m) w = Ok h' -> h' = Some h.
Proof.
  unfold take_message. destruct (WorkerMessage.payload m) as [[hb|e|b|r|s|s|a|t]|]; try by intros [= <-].
  - unfold take_heartbeat. destruct (WorkerHeartbeat.worker_id hb) as [i|]; [|by intros [= <-]].
    intros (h1 & [= <-] & Hk & _)%bind_ok. do 5 (apply bind_ok in Hk as (? & _ & Hk & _)). by injection Hk as <-.
  - intros (? & _ & [= <-] & _)%bind_ok. done.
  - intros (? & _ & [= <-] & _)%bind_ok. done.
  - intros (? & _ & [= <-] & _)%bind_ok. done.
  - intros (? & _ & [= <-] & _)%bind_ok. done.
  - intros (? & _ & [= <-] & _)%bind_ok. done.
Qed.

(** The channel that the first heartbeat of a stream puts in the map. *)
Lemma first_heartbeat_reaches tx hb wid m (w : W) h : WorkerMessage.payload m = Some (WorkerPayload.Heartbeat hb) ->
  Wire.WorkerId.value <$> WorkerHeartbeat.worker_id hb = Some wid -> supervisor_handle (gateway w) = false ->
  returns (take_message tx None m) w = Ok h ->
  h = Some wid /\ worker_channels (gateway (after (take_message tx None m) w)) !! wid = Some tx /\
  supervisor_handle (gateway (after (take_message tx None m) w)) = false.
Proof.
  intros Hm Hid Hs. unfold take_message. rewrite Hm. unfold take_heartbeat.
  destruct (WorkerHeartbeat.worker_id hb) as [i|]; [|done]. injection Hid as <-.
  set (I := fun s : service => worker_channels s !! Wire.WorkerId.value i = Some tx /\ supervisor_handle s = false).
  intros (h1 & Hh1 & Hk & ->)%bind_ok. apply bind_ok in Hh1 as ([] & _ & Hh1 & Ha).
  assert (h1 = Some (Wire.WorkerId.value i)) as -> by by injection Hh1.
  rewrite Ha in *. clear Ha Hh1. set (w1 := after (change _) w) in *.
  change (after (mret _) w1) with w1 in *.
  assert (I (gateway w1)) as HI.
  { unfold w1, after, change, modify. simpl. rewrite gateway_set. split; [apply lookup_insert_eq|done]. }
  match type of Hk with returns ?k _ = _ => assert (upholds I k) as Hkeep end.
  { apply upholds_bind; [apply upholds_uuid|intros fresh]. apply upholds_bind; [by apply upholds_send_on|intros _].
    apply upholds_bind; [apply upholds_ignoring, upholds_heartbeat|intros _]. keep. }
  destruct (Hkeep w1 HI) as [[Hc Hs'] _]. split; [|done].
  do 5 (apply bind_ok in Hk as (? & _ & Hk & _)). by injection Hk as <-.
Qed.

Fixpoint said_all (tx : nat) (ms : list WorkerMessage.t) (tasks : gmap nat holder) :
    method W (exn Status) (gmap nat holder) :=
  match ms with
  | [] => mret tasks
  | m :: ms => tasks ← worker_stream (Said tx m) tasks; said_all tx ms tasks
  end.

Lemma said_all_unreached wid tx h ms tasks : tasks !! tx = Some (Some h) ->
  upholds (unreached wid) (said_all tx ms tasks : method W _ _).
Proof.
  revert tasks. induction ms as [|m ms IH]; intros tasks Htx; [apply upholds_ret|]. simpl. rewrite Htx.
  intros w Hw. split; [|done]. unfold after. unfold mbind at 1 2, method_bind at 1 2.
  pose proof (upholds_message wid tx h m w Hw) as [Hafter _]. pose proof (holder_stays tx h m w) as Hstays.
  unfold after, returns in *. destruct (take_message tx (Some h) m w) as [w1 [h'|e]]; [|done].
  simpl in *. rewrite (Hstays h' eq_refl). apply (IH (<[tx := Some h]> tasks)); [apply lookup_insert_eq|done].
Qed.

(** The end of a stream takes its worker's channel out of the map. *)
Lemma ended_unreaches tx wid tasks (w w' : W) tasks' : tasks !! tx = Some (Some wid) ->
  supervisor_handle (gateway w) = false -> worker_stream (Ended tx) tasks w = (w', Ok tasks') ->
  tasks' = delete tx tasks /\ unreached wid (gateway w').
Proof.
  intros Htx Hs Hend. simpl in Hend. rewrite Htx in Hend.
  match type of Hend with ?k w = _ => assert (returns k w = Ok tasks') as Hr; [unfold returns; by rewrite Hend|];
    assert (after k w = w') as Ha; [unfold after; by rewrite Hend|] end.
  apply bind_ok in Hr as ([] & _ & Hr & Hw). rewrite Hw in Ha. clear Hw.
  set (w1 := after (change _) w) in *.
  assert (supervisor_handle (gateway w1) = false) as Hs1.
  { unfold w1, after, change, modify. simpl. by rewrite gateway_set. }
  apply bind_ok in Hr as ([] & Hk & Hr & Hw). rewrite Hw in Ha. clear Hw. injection Hr as <-. split; [done|].
  unfold stream_ended in *. apply bind_ok in Hk as ([] & _ & Hk & Hw). rewrite Hw in Ha. clear Hw.
  set (w2 := after (change _) w1) in *.
  assert (unreached wid (gateway w2)) as Hun.
  { unfold w2, after, change, modify. simpl. rewrite gateway_set. split; [apply lookup_delete_eq|done]. }
  match type of Hk with returns ?k _ = _ => assert (upholds (unreached wid) k) as Hkeep end.
  { keep. }
  destruct (Hkeep w2 Hun) as [Hdone _]. rewrite <- Ha. exact Hdone.
Qed.

(** C27: a worker that reconnects is lost when its old stream ends, on a service
    without a supervisor, which is how the server is started.  Its new stream made it
    reachable; the end of the old one takes the worker's channel out of the map, whose
    it is now or not, and no message on the new stream puts it back: whatever the
    worker goes on sending, what is to be sent to it by its identifier, jobs and
    commands, is refused as to a worker that is not connected.  This is not about the
    acknowledgements of its heartbeats, which are sent on the stream they came from. *)
Theorem reconnected_worker_is_lost tx1 tx2 wid hb m tasks (w w1 w2 : W) tasks1 tasks2 :
  supervisor_handle (gateway w) = false -> tx1 <> tx2 ->
  tasks !! tx1 = Some (Some wid) -> tasks !! tx2 = Some None ->
  WorkerMessage.payload m = Some (WorkerPayload.Heartbeat hb) ->
  Wire.WorkerId.value <$> WorkerHeartbeat.worker_id hb = Some wid ->
  worker_stream (Said tx2 m) tasks w = (w1, Ok tasks1) ->
  worker_stream (Ended tx1) tasks1 w1 = (w2, Ok tasks2) ->
  worker_channels (gateway w1) !! wid = Some tx2 /\ tasks2 !! tx2 = Some (Some wid) /\
  forall ms msg, let w3 := after (said_all tx2 ms tasks2) w2 in
    send_to_worker wid msg w3 = (w3, Err (Error (not_found ("Worker " +:+ wid +:+ " not connected")))).
Proof.
  intros Hs Hne Ht1 Ht2 Hm Hid Hsaid Hended. simpl in Hsaid. rewrite Ht2 in Hsaid.
  pose proof (first_heartbeat_reaches tx2 hb wid m w) as Hfirst.
  unfold returns, after in Hfirst. unfold mbind, method_bind in Hsaid.
  destruct (take_message tx2 None m w) as [w1' [h|e]]; [|done]. injection Hsaid as -> <-.
  destruct (Hfirst h Hm Hid Hs eq_refl) as (-> & Hc & Hs1). simpl in Hc, Hs1. split; [done|].
  destruct (ended_unreaches tx1 wid _ _ _ _ ltac:(by rewrite lookup_insert_ne) Hs1 Hended) as [-> Hun].
  assert (delete tx1 (<[tx2 := Some wid]> tasks) !! tx2 = Some (Some wid)) as Ht.
  { rewrite lookup_delete_ne by done. apply lookup_insert_eq. }
  split; [done|]. intros ms msg w3. apply unreached_send. by apply (said_all_unreached wid tx2 wid ms _ Ht).
Qed.

End streams.

(** ** Evaluation *)

#[local] Existing Instance concrete_format.
#[local] Existing Instance grpc_sender.
#[local] Instance example_reasons : ReasonDebug (E := concrete) := {| debug_termination_reason := fun _ => "reason" |}.
#[local] Instance example_wire : WireTypes := {| Timestamp := Z; ProtoDuration := Z |}.
#[local] Instance example_status : GrpcStatus :=
  {| Status := string; invalid_argument := id; unauthenticated := id; not_found := id; internal := id;
     failed_precondition := id; deadline_exceeded := id; status_to_string := id |}.

(** A world with the maps of the service, a clock, identifiers, jobs and events; its
    registry has no workers. *)
Module ExampleGateway.

Record t := mk {
  service : WorkerAgentServiceImpl.t (E := concrete) (Store := DisabledStorage);
  clock : Z;
  fresh : nat;
  jobs : gmap nat (Job.t (E := concrete));
  published : list (DomainEvent.t (E := concrete));
}.

#[global] Instance t_rebuild : Rebuild t := fun w => mk (service w) (clock w) (fresh w) (jobs w) (published w).

#[global] Instance maps : Gateway (E := concrete) t :=
  @Build_Gateway concrete example_wire example_status t DisabledStorage (disabled_storage (E := concrete)) (Build_Shards String.length String.length) service
    (fun s w => w <| service := s |>) (fun _ => false) (fun w => (w, clock w)).

#[global] Instance ambient : Ambient (E := concrete) t :=
  @Build_Ambient concrete t (fun w => (w <| clock := clock w + 1 |>, clock w)) (fun w => (w, clock w))
    (fun w => (w <| fresh := S (fresh w) |>, fresh w)).

#[global] Instance sleeping : Sleeping t := {| pause := fun d w => w <| clock := clock w + d |> |}.

#[global] Instance bus : EventBus (E := concrete) t :=
  @Build_EventBus concrete t (fun e w => (w <| published := published w ++ [e] |>, Ok tt)).

Definition missing {F A} (e : F) : method t F A := fun w => (w, Err e).
Definition unknown : DomainError.t (E := concrete) := DomainError.InfrastructureError (E := concrete) "unknown".

#[global] Instance registry : WorkerRegistry.t (E := concrete) t :=
  @WorkerRegistry.Build_t concrete t (fun _ _ _ => missing unknown) (fun _ => mret tt) (fun _ => mret tt)
    (fun _ => mret None) (fun _ => mret None) (fun _ => mret []) (fun _ => mret None) (mret []) (fun _ => mret [])
    (fun _ _ => mret tt) (fun _ => mret tt) (fun _ _ => mret tt) (fun _ => mret tt).

#[global] Instance job_table : JobRepository.t (E := concrete) t :=
  @JobRepository.Build_t concrete t (fun j w => (w <| jobs := <[Job.id j := j]> (jobs w) |>, Ok tt))
    (fun i w => (w, Ok (jobs w !! i))) (fun _ => mret []) (fun _ => mret []) (mret []) (fun _ _ => mret ([], 0%nat))
    (fun _ => mret None) (fun _ => mret 0) (fun _ => mret tt)
    (fun j w => (w <| jobs := <[Job.id j := j]> (jobs w) |>, Ok tt)) (fun _ _ => mret tt).

#[global] Instance outbox : OutboxRepository (E := concrete) t :=
  @Build_OutboxRepository concrete t (fun _ => mret tt) (fun _ _ => mret []) (fun _ => mret tt) (fun _ _ => mret tt)
    (fun _ => mret false) (mret 0) (mret (OutboxStats.mk 0 0 0 None)) (fun _ => mret 0) (fun _ _ => mret 0) (fun _ => mret None).

#[global] Instance supervisor : Supervisor (E := concrete) t :=
  @Build_Supervisor concrete t (fun i => missing (SupervisorError.WorkerNotFound (E := concrete) i))
    (fun _ _ _ _ => mret tt) (fun _ => mret tt) (fun i => missing (SupervisorError.WorkerNotFound (E := concrete) i)).

#[global] Instance laws : GatewayApart (E := concrete) t.
Proof. unshelve econstructor; [|done..]. constructor; [done..|]. by intros []. Qed.

(** A job that nobody started, number 7. *)
Definition job : Job.t (E := concrete) := Job.new (E := concrete) 7%nat "job" (JobSpec.new ["make"]) 0.

Definition started (s : WorkerAgentServiceImpl.t (E := concrete) (Store := DisabledStorage)) : t := mk s 0 20 {[ 7%nat := job ]} [].

(** The service of the server, without the supervisor, and worker 3 on its first
    stream; its second is open. *)
Definition reconnected : t := started
  (WorkerAgentServiceImpl.with_registry_job_repository_token_store_and_log_service (E := concrete) LogStreamService.new
    <| WorkerAgentServiceImpl.worker_channels := {[ "www" := 0%nat ]} |>
    <| WorkerAgentServiceImpl.streams := [Channel.channel 100; Channel.channel 100] |>).

Definition tasks : gmap nat holder := {[ 0%nat := Some "www"; 1%nat := None ]}.

Definition heartbeat : WorkerHeartbeat.t :=
  WorkerHeartbeat.mk (Some (Wire.WorkerId.mk "www")) 0 None 0 [] None 0.
Definition saying_so : WorkerMessage.t := WorkerMessage.mk (Some (WorkerPayload.Heartbeat heartbeat)).

(** Job 7 succeeded. *)
Definition success : JobResultMessage.t := JobResultMessage.mk "jjjjjjj" 0 true "" None.

End ExampleGateway.

Example sagas_never_reach_a_worker_witness :
  let call := JobExecutorImpl.execute_job (E := concrete) (7%nat : @Uuid concrete) (3%nat : @Uuid concrete) in
  is_err (returns call (ExampleGateway.started WorkerAgentServiceImpl.new)) = true.
Proof.
  pose proof (sagas_never_reach_a_worker (E := concrete) (W := ExampleGateway.t)
    [(7%nat : @Uuid concrete, 3%nat : @Uuid concrete)]
    (ExampleGateway.started WorkerAgentServiceImpl.new) eq_refl) as (_ & _ & Hf).
  apply Forall_singleton in Hf as [e He]. cbv zeta. by rewrite He.
Defined.

Example unacknowledged_successes_are_lost_witness :
  exists e, returns (on_job_result (E := concrete) "www" ExampleGateway.success) ExampleGateway.reconnected =
    Err (failed_precondition e).
Proof.
  destruct (unacknowledged_successes_are_lost (E := concrete) (W := ExampleGateway.t)
    (Gateway0 := ExampleGateway.maps) "www" ExampleGateway.success
    ExampleGateway.reconnected (3%nat : @Uuid concrete) (7%nat : @Uuid concrete) ExampleGateway.job
    ltac:(reflexivity) ltac:(reflexivity) ltac:(reflexivity) ltac:(reflexivity) ltac:(reflexivity)
    ltac:(reflexivity)) as [Hlost _].
  destruct (Hlost ltac:(done)) as [e He]. exists e. unfold returns. by rewrite He.
Defined.

Example waiting_for_a_worker_ends_witness :
  returns (send_to_worker (E := concrete) "absent" (ServerMessage.mk None)) ExampleGateway.reconnected <>
    Err OutOfFuel.
Proof.
  refine (waiting_for_a_worker_ends (E := concrete) (W := ExampleGateway.t) _ _ "absent" (ServerMessage.mk None)
    ExampleGateway.reconnected); intros; simpl; lia.
Defined.

(** The worker speaks on its second stream, and its first one ends. *)
Definition speaking : ExampleGateway.t * Prelude.result (exn Status) (gmap nat holder) :=
  worker_stream (E := concrete) (Said 1 ExampleGateway.saying_so) ExampleGateway.tasks ExampleGateway.reconnected.
Definition ended : ExampleGateway.t * Prelude.result (exn Status) (gmap nat holder) :=
  worker_stream (E := concrete) (Ended 0) (<[1%nat := Some "www"]> ExampleGateway.tasks) speaking.1.

Lemma speaking_goes_on : speaking = (speaking.1, Ok (<[1%nat := Some "www"]> ExampleGateway.tasks)).
Proof. vm_compute. reflexivity. Qed.

Lemma ending_goes_on : ended = (ended.1, Ok (delete 0%nat (<[1%nat := Some "www"]> ExampleGateway.tasks))).
Proof. vm_compute. reflexivity. Qed.

Example reconnected_worker_is_lost_witness :
  send_to_worker (E := concrete) "www" (ServerMessage.mk None) ended.1 =
    (ended.1, Err (Error (not_found ("Worker " +:+ "www" +:+ " not connected")))).
Proof.
  destruct (reconnected_worker_is_lost (E := concrete) (W := ExampleGateway.t)
    (Gateway0 := ExampleGateway.maps) 0 1 "www" ExampleGateway.heartbeat
    ExampleGateway.saying_so ExampleGateway.tasks ExampleGateway.reconnected speaking.1 ended.1
    (<[1%nat := Some "www"]> ExampleGateway.tasks) (delete 0%nat (<[1%nat := Some "www"]> ExampleGateway.tasks))
    eq_refl ltac:(done) eq_refl eq_refl eq_refl eq_refl speaking_goes_on ending_goes_on) as (_ & _ & Hnever).
  exact (Hnever [] (ServerMessage.mk None)).
Defined.
